(* ===== verification/_CoqProject ===== *)
-Q . S2P
Prelude.v
Trap.v
Value.v
WasmInt.v
Fuel.v
Limiter.v
MemoryType.v
MemoryAccess.v
Memory.v
Table.v
Slot.v
Locals.v
Operands.v
OperandSpec.v
Preserve.v
OpFields.v
Codec.v
EncodedOps.v
OpLayout.v
Encoder.v
EncodedSpec.v
EncoderInv.v
EncoderSpec.v
Cells.v
ExecStack.v
Calls.v
CallSpec.v
CallRefine.v
Arena.v
Store.v
Float.v
Simd.v
SimdSpec.v
OpTables.v
BinaryTables.v
BranchTables.v
AccessTables.v
Comparator.v
InitExpr.v
Header.v
CodeMap.v
LazyCompile.v
Keeps.v
Modules.v
Engine.v
Parser.v
ParserSpec.v
Instantiate.v
InstantiateInv.v
InstantiateSpec.v
Host.v
HostSpec.v
Linker.v
LinkerSpec.v
Control.v
ControlSpec.v
TransStack.v
SimdTables.v
Instr.v
BinaryOps.v
UnaryOps.v
AccessOps.v
OpSelect.v
Sink.v
Translator.v
TransOps.v
SimdOps.v
TransControl.v
Visit.v
SimdVisit.v
Run.v
SelectSpec.v
TransExamples.v
Exec.v
SimdExec.v
SimdVisitSpec.v
ExecSpec.v
ExecMem.v
ExecFuel.v
ExecExamples.v
