(* ===== verification/Prelude.v ===== *)
(** * Wasmi: a verification library

    This library models the WebAssembly interpreter in [src/crates]: the data
    types and instructions of the core crate, the operators of the internal
    bytecode and the way they are encoded, and the machinery of the translator
    that turns a validated function into that bytecode.  The definitions are
    translated from the source and are executable; the theorems are about them.

    ** How the program is put together

    [crates/core] holds what does not depend on the interpreter: values, traps,
    linear memories, tables, fuel and resource limits.  [crates/ir] defines the
    operators: its build script lists them ([build/isa.rs]), describes their
    fields ([build/op.rs], [build/ty.rs]) and generates how they are encoded and
    decoded ([build/display]).  [crates/wasmi] validates a module and translates
    its functions: the translator ([engine/translator/func]) keeps the Wasm
    operand stack symbolically, so that most operands need no code at all, and
    appends operators to a byte buffer in which branch offsets and the fuel of
    basic blocks are filled in later.  The executor runs the encoded operators.

    ** Conventions

    - [res E A] is a Rust call: [Ok], [Err] or [Panic].  [M S E A] is a method
      with [&mut self]: the state comes back on every outcome.  Every [assert!],
      [debug_assert!], [expect], [unreachable!], index out of bounds and overflow
      of a plain operator is [Panic]: the model is that of a debug build.
    - An integer is the [Z] it denotes, at its width: wrapping operations are
      written with [wrapu] and [wraps], checked ones with [checked_add] and so on.
    - [Target] holds the pointer width and the Cargo features the code depends
      on, [Allocator] what [Vec::try_reserve] may answer, [Endian] and [Dispatch]
      the byte order and how operators are dispatched.  Theorems hold for all of
      them; [default_target] and [small_target] are two concrete ones.
    - A type with several capabilities in Rust (resource limiter, byte buffer,
      encoder) is a type class or a parameter, with its laws as class fields or
      section hypotheses; each has an instance or a witness that meets them.

    ** Parts

    Core ([crates/core/src], [crates/wasmi/src/limits.rs])
    - [Trap], [Value], [WasmInt]: [trap.rs], [host_error.rs]; [value.rs],
      [typed.rs], [raw.rs], [index_ty.rs], [shift_amount.rs]; the integer
      instructions of [wasm.rs].  Conversions round trip, and every integer
      instruction is the operation on integers that WebAssembly defines, with its
      traps.
    - [Float]: the [Float] trait of [value.rs] and the float
      instructions of [wasm.rs], over the floats of the Standard Library.  The
      truncating conversions trap exactly when they must; [min] and [max] order
      [-0] before [+0].  Which NaN an operation of the host yields is a parameter.
    - [Fuel], [Limiter]: [fuel.rs]; [limiter.rs] and the [StoreLimits].  Charging
      is exact and never wraps; limits are respected.
    - [MemoryType], [MemoryAccess], [Memory]: [memory/].  Types are validated as
      documented, stores are read back and change nothing else, growth respects
      the type, the limiter and the fuel on every outcome.
    - [Table]: [table/].  Bulk operations meet their specification also when
      ranges overlap, failures leave the table unchanged.

    Translator state ([crates/wasmi/src/engine/translator/func])
    - [Slot]: the stack slots and spans of [crates/ir/src]; the overlap test is
      exact.
    - [Locals]: [locals.rs], [layout.rs], [stack/locals.rs].  The two-level
      registry refines the flat list of local types.
    - [Operands], [OperandSpec]: [stack/operand.rs] and
      [stack/operands.rs].  The invariant [wf] says that the links between the
      operands of one local form its list of uses, that counters and offsets are
      those of the operands and that registers point to the operands in them;
      every operation keeps it.
    - [Preserve]: the iterators that turn locals and registers into temporaries.

    - [TransStack]: [stack/mod.rs], the operand stack and the control stack
      together, with the branch parameters that travel in registers: they are the
      longest suffix of the parameters that needs no register twice.
    - [Control], [ControlSpec]: [stack/control.rs].  Frames of every kind with the
      side stack of the operands of [else]; it refines a stack of frames that hold
      their own operands.

    Vectors ([crates/core/src/simd.rs])
    - [Simd], [SimdSpec]: the lanes of a vector and every instruction over them.  The
      instructions compute in each lane what WebAssembly defines, lanes are
      replaced, extracted, stored and loaded as the items of an array.
    - [SimdTables]: the operators for vectors and the function that the handler of
      each computes; [SimdExec]: their handlers ([handler/exec/simd.rs]).
    - [SimdOps], [SimdVisit]: the translation of vector instructions
      ([translator/func/simd/]).  Vectors are never in registers and constants are
      folded if all operands are constants.
    - [SimdVisitSpec]: what a visitor does for every place its operands may be in: the
      operator it encodes computes its instruction on the operands, in their order;
      loads and stores use their address, memory and lane.  A vector written to a
      slot is read back.

    Operators ([crates/ir])
    - [OpFields], [OpLayout]: the build script's description of operators, and
      that the decoder it names for an operator undoes its encoding, for all
      operators but lane stores without 64-bit memories.
    - [Codec]: encoding and decoding of every field type.

    Encoding functions ([encoder.rs], [labels.rs])
    - [EncodedOps], [Encoder]: the buffer, the labels and the encoder.
    - [EncodedSpec], [EncoderInv], [EncoderSpec]: the encoder as
      a transition relation with a log of its branches and charges; the
      invariant; that offsets and fuel end up as they should.

    Operators and their selection
    - [OpTables], [BinaryTables], [BranchTables], [AccessTables], [Instr]: the
      operators of [crates/ir/build/isa.rs], each with the handler of [handler/exec.rs] it dispatches to, and the location of their result
      ([build/display/result.rs]).  [OpTables] starts with constant evaluation
      ([engine/eval.rs]).
    - [Comparator]: [translator/comparator.rs].  Negated and
      fused comparisons mean what they replace, for all operands.
    - [BinaryOps], [UnaryOps], [AccessOps], [OpSelect], [SelectSpec]: the tables of
      [func/op/] and the copies and selects of [func/mod.rs].  Whatever the
      placement of the operands, the operator selected for an instruction computes
      what constant evaluation computes.

    Function translation ([func/mod.rs], [func/visit.rs], [driver.rs])
    - [InitExpr], [Header]: function types, constant expressions and
      the parts of the module header the translator reads.
    - [CodeMap], [LazyCompile]: [engine/code_map], where functions
      are stored and compiled on their first call.  The buckets are a vector whose
      elements never move; any number of threads may call a function before it is
      compiled, and all of them return, with the same result, unless one panics.
    - [Sink]: the interface [OpSink] between the translator and the encoder, with
      two instances: the encoder, and listings, which keep the operators.
    - [Translator], [TransOps], [TransControl], [Visit]: the translator, with one
      definition per method and per visitor, over any sink.
    - [Run]: execution of listings on the registers and slots of a frame, with the
      meaning of the operators that [Cells], [OpTables] and [BinaryTables] give.
    - [TransExamples]: small functions, translated and run.  They show inputs that
      are translated wrongly.

    Collections and store ([crates/collections/src], [crates/wasmi/src])
    - [Arena]: [arena/], [string_interner/], [handle.rs].  Keys are
      dense, equal items share a key, an interned string is resolved again.
    - [Store]: entities behind handles of one store ([store/inner.rs],
      [store/pruned.rs]), instances, globals and segments, as the executor uses
      them.
    - [Keeps]: the relation between the states before and after an operation,
      whatever its outcome; the invariants of the following files go through it.

    Engine and modules ([crates/wasmi/src/engine/mod.rs], [module])
    - [Modules]: what the parser leaves of a module and its builder;
      the imports are listed once each, segments are read back as they were pushed.
    - [Engine]: the registry of function types, the functions
      of an engine and what becomes of a body in each compilation mode; the
      configuration.
    - [Parser], [ParserSpec]: the loops over the payloads of a binary.  They end, and
      exactly the functions with an entry in the code section are prepared to be
      called, each with its own body.

    Instantiation and the interface to the host
    - [Instantiate]: [module/instantiate/mod.rs], [instance/builder.rs].
    - [InstantiateInv], [InstantiateSpec]: every handle in a store stays
      valid whatever the outcome of an instantiation; imports are accepted exactly if
      they match; an instance that comes out is complete.  It runs
      two modules that share a table.
    - [Host], [HostSpec]: the constructors and accessors of the API, host functions
      and their trampolines ([store/mod.rs], [func/mod.rs], [global.rs], ...).
    - [Linker], [LinkerSpec]: [linker.rs].  Its interned names are
      not observable, it refines a map from pairs of names to definitions.

    The engine appears to its clients as a class: [HeaderEngine] is what the module
    builder needs of it and [FuncTypes] what host functions do; [EngineInner] is an
    instance of both.

    Executor ([crates/wasmi/src/engine/executor])
    - [Cells]: [handler/cell.rs], [inout.rs]: values in the cells of the value
      stack, and the copies of slots and spans.
    - [ExecStack]: the value stack and the call stack of [handler/state.rs].
    - [Calls], [CallSpec], [CallRefine]: calls, tail calls and returns of
      [handler/utils.rs] and [handler/func.rs].  They refine a machine whose state
      is a list of frames, but for some tail calls of host functions, which are
      shown to go wrong.
    - [Exec]: the handlers of [handler/exec.rs] over registers, stack and store,
      with the macros of [handler/exec/macros.rs] the others are instances of.
    - [ExecSpec], [ExecMem]: what the handlers that
      touch memories and tables do on every branch, and when the cached default
      memory is that of memory 0.  [ExecExamples] runs them on small
      stores.

    - [ExecFuel]: the operators that charge fuel change nothing when they run out of it,
      and a resumed call starts with them again; [table.grow] is the exception.

    ** Concurrency

    Only the entries of the code map are shared between threads.  [LazyCompile]
    interleaves their accesses one by one; the orderings of the atomics make that
    a faithful account, weaker behaviours of the memory are not modelled.

    ** Fuel and bounds

    Iterators that mutate the operand stack ([preserved_locals],
    [preserved_all_locals]) are run with a fuel; their theorems give the result
    for every fuel beyond the number of operands, so that fuel never decides it.
    The loops that copy spans of slots take the number of slots as fuel and are
    proved to end for it.  The loops of the parser take a unit of fuel for each
    payload; they end for any fuel beyond the length of the binary.  All other
    recursion is structural.  Loops of the source over a range or a
    list are folds over that list.

    ** Not modelled

    The parser and validator ([wasmparser]), whose operators and types the visitors
    take as they are; unsafe glue (the C API, the raw pointers by which handlers
    dispatch), input and output, and the experimental JIT, which is built on a library that is
    not part of the repository.  Of the engine, the handles of resumable calls and the locks; of host
    functions, the traits that make them of Rust closures of every arity.
*)

From Stdlib Require Import ZArith Lia.
From stdpp Require Import base option numbers list.

Declare Scope wasmi_scope.
Delimit Scope wasmi_scope with W.
Local Open Scope Z_scope.

(** ** Outcomes

    A Rust function that returns [Result<A, E>] and may also panic.  A failed
    [assert!], [debug_assert!], [expect], [unreachable!], an out of bounds
    index and an arithmetic overflow of a plain operator are all [Panic]. *)
Inductive res (E A : Type) : Type :=
| Ok (a : A)
| Err (e : E)
| Panic.
Arguments Ok {E A} a.
Arguments Err {E A} e.
Arguments Panic {E A}.

#[export] Instance res_ret E : MRet (res E) := fun A a => Ok a.
#[export] Instance res_bind E : MBind (res E) := fun A B f m =>
  match m with
  | Ok a => f a
  | Err e => Err e
  | Panic => Panic
  end.
#[export] Instance res_fmap E : FMap (res E) := fun A B f m =>
  match m with
  | Ok a => Ok (f a)
  | Err e => Err e
  | Panic => Panic
  end.

(** [Option::ok_or] and [Option::expect]. *)
Definition ok_or {E A} (o : option A) (e : E) : res E A :=
  match o with
  | Some a => Ok a
  | None => Err e
  end.

Definition expect {E A} (o : option A) : res E A :=
  match o with
  | Some a => Ok a
  | None => Panic
  end.

(** [Result::map_err] (the [From] conversion of the [?] operator). *)
Definition map_err {E F A} (f : E -> F) (r : res E A) : res F A :=
  match r with
  | Ok a => Ok a
  | Err e => Err (f e)
  | Panic => Panic
  end.

(** [assert!(b)]. *)
Definition assert_that {E} (b : bool) : res E unit :=
  if b then Ok tt else Panic.

(** ** State

    A method taking [&mut self]: the state is threaded also through errors,
    since a caller of a failing method observes what it changed before. *)
Definition M (S E A : Type) : Type := S -> res E A * S.

#[export] Instance M_ret S E : MRet (M S E) := fun A a s => (Ok a, s).
#[export] Instance M_bind S E : MBind (M S E) := fun A B f m s =>
  match m s with
  | (Ok a, s') => f a s'
  | (Err e, s') => (Err e, s')
  | (Panic, s') => (Panic, s')
  end.

(** [?] on a plain [Result] inside a [&mut self] method. *)
Definition lift {S E A} (r : res E A) : M S E A := fun s => (r, s).
Definition get_st {S E} : M S E S := fun s => (Ok s, s).
Definition put_st {S E} (s : S) : M S E unit := fun _ => (Ok tt, s).
Definition fail {S E A} (e : E) : M S E A := fun s => (Err e, s).
Definition panic {S E A} : M S E A := fun s => (Panic, s).
Definition assert_m {S E} (b : bool) : M S E unit := lift (assert_that b).

(** Runs a method of the field of type [T] that [get]/[set] select in [S]
    and converts its error with [From]. *)
Definition zoom {S T E F A} (get : S -> T) (set : T -> S -> S) (conv : F -> E)
    (m : M T F A) : M S E A := fun s =>
  let '(r, t) := m (get s) in (map_err conv r, set t s).

Definition is_ok {E A} (r : res E A) : bool :=
  match r with Ok _ => true | _ => false end.
Definition is_panic {E A} (r : res E A) : bool :=
  match r with Panic => true | _ => false end.

(** ** Machine integers

    An integer of [w] bits is the [Z] it denotes; [wrapu] and [wraps] are the
    [as] conversions to the unsigned and the signed type of [w] bits. *)
Definition wrapu (w z : Z) : Z := z mod 2 ^ w.
Definition wraps (w z : Z) : Z := (z + 2 ^ (w - 1)) mod 2 ^ w - 2 ^ (w - 1).

Definition in_u (w z : Z) : Prop := 0 <= z < 2 ^ w.
Definition in_s (w z : Z) : Prop := - 2 ^ (w - 1) <= z < 2 ^ (w - 1).

Definition checked_add (w a b : Z) : option Z :=
  if a + b <? 2 ^ w then Some (a + b) else None.
Definition checked_sub (a b : Z) : option Z :=
  if b <=? a then Some (a - b) else None.
Definition checked_mul (w a b : Z) : option Z :=
  if a * b <? 2 ^ w then Some (a * b) else None.
Definition saturating_add (w a b : Z) : Z := Z.min (a + b) (2 ^ w - 1).
Definition saturating_sub (a b : Z) : Z := Z.max (a - b) 0.
Definition saturating_mul (w a b : Z) : Z := Z.min (a * b) (2 ^ w - 1).
(** [uN::try_from] of a non-negative value. *)
Definition try_from_u (w z : Z) : option Z :=
  if z <? 2 ^ w then Some z else None.

(** [Option::map(usize::try_from).transpose()]. *)
Definition transpose_try_from_u (w : Z) (o : option Z) : option (option Z) :=
  match o with
  | None => Some None
  | Some z => match try_from_u w z with
              | Some z => Some (Some z)
              | None => None
              end
  end.

(** ** Slices *)

(** [s.get(i..)] and [s.get(..n)]. *)
Definition get_from {A} (i : Z) (l : list A) : option (list A) :=
  if i <=? Z.of_nat (length l) then Some (drop (Z.to_nat i) l) else None.
Definition get_to {A} (n : Z) (l : list A) : option (list A) :=
  if n <=? Z.of_nat (length l) then Some (take (Z.to_nat n) l) else None.
(** [s.get(i..).and_then(|s| s.get(..n))]. *)
Definition get_span {A} (i n : Z) (l : list A) : option (list A) :=
  s ← get_from i l; get_to n s.
(** Writing [xs] through the [&mut] slice that [get_span i (len xs) l] returns. *)
Definition set_span {A} (i : Z) (xs : list A) (l : list A) : list A :=
  list_inserts (Z.to_nat i) xs l.

(** ** Build target

    The crate features and the pointer width the code depends on: [usize_bits]
    is [target_pointer_width], the flags are the Cargo features [memory64],
    [simd] and [slot16]. *)
Class Target : Type := {
  usize_bits : Z;
  feat_memory64 : bool;
  feat_simd : bool;
  feat_slot16 : bool;
  usize_bits_cases : usize_bits = 32 \/ usize_bits = 64
}.

(** The default features on a 64-bit and on a 32-bit host. *)
Definition default_target : Target :=
  {| usize_bits := 64; feat_memory64 := true; feat_simd := false;
     feat_slot16 := false; usize_bits_cases := or_intror eq_refl |}.
Definition small_target : Target :=
  {| usize_bits := 32; feat_memory64 := false; feat_simd := true;
     feat_slot16 := true; usize_bits_cases := or_introl eq_refl |}.

(** ** Allocation

    [try_reserve size cap len additional] is [Vec::try_reserve(additional)] on a
    vector of capacity [cap] and length [len] of elements of [size] bytes: the
    new capacity, or [None] when the allocation fails.  An allocation never
    exceeds [isize::MAX] bytes. *)
Class Allocator `{Target} : Type := {
  try_reserve : Z -> Z -> Z -> Z -> option Z;
  try_reserve_law : forall size cap len additional cap', 0 < size ->
    try_reserve size cap len additional = Some cap' ->
    len + additional <= cap' /\ size * cap' < 2 ^ (usize_bits - 1)
}.

(** An allocator that grants every request of at most [limit] elements. *)
Program Definition limit_allocator (T : Target) (limit : Z) : Allocator (H := T) := {|
  try_reserve := fun size cap len additional =>
    if (len + additional <=? limit) && (size * (len + additional) <? 2 ^ (usize_bits - 1))
    then Some (len + additional) else None
|}.
Next Obligation.
  intros T limit size cap len additional cap' Hs H. cbn beta in *.
  destruct ((len + additional <=? limit) && _)%bool eqn:E; [|done].
  apply andb_true_iff in E as [_ E%Z.ltb_lt]. injection H as <-. split; [lia|done].
Qed.

(** ** Tactics *)

Ltac case_if :=
  match goal with
  | H : context [if ?b then _ else _] |- _ => destruct b eqn:?
  | |- context [if ?b then _ else _] => destruct b eqn:?
  end.

(** Turns the boolean tests on [Z] in the context into linear facts. *)
Ltac zb :=
  repeat match goal with
  | H : (_ <? _) = true |- _ => apply Z.ltb_lt in H
  | H : (_ <? _) = false |- _ => apply Z.ltb_ge in H
  | H : (_ <=? _) = true |- _ => apply Z.leb_le in H
  | H : (_ <=? _) = false |- _ => apply Z.leb_gt in H
  | H : (_ =? _) = true |- _ => apply Z.eqb_eq in H
  | H : (_ =? _) = false |- _ => apply Z.eqb_neq in H
  | H : negb _ = true |- _ => apply negb_true_iff in H
  | H : negb _ = false |- _ => apply negb_false_iff in H
  | H : (_ && _)%bool = true |- _ => apply andb_true_iff in H; destruct H
  | H : (_ || _)%bool = false |- _ => apply orb_false_iff in H; destruct H
  end.

(** Case analysis on every [if] of goal and context, closing absurd cases. *)
Ltac zcases := repeat (case_if; zb; try lia).

(** Shows the outcome of a monadic run by computing its binds. *)
Ltac unfold_m :=
  cbv beta iota delta
    [mret mbind fmap res_ret res_bind res_fmap M_ret M_bind option_bind option_ret option_fmap
     option_map lift get_st put_st fail panic assert_m assert_that zoom map_err ok_or expect] in *.

Create HintDb wasmi.

(** ** Runs, one bind at a time *)

Section Runs.
Context {S E A B : Type}.
Implicit Type k : A -> M S E B.

Lemma bind_get_st (k : S -> M S E B) s : (get_st ≫= k) s = k s s.
Proof. done. Qed.

Lemma bind_lift (r : res E A) k s :
  (lift r ≫= k) s =
  match r with Ok a => k a s | Err e => (Err e, s) | Panic => (Panic, s) end.
Proof. by destruct r. Qed.

Lemma bind_lift_if (b : bool) a e k s :
  (lift (if b then Ok a else Err e) ≫= k) s = if b then k a s else (Err e, s).
Proof. by destruct b. Qed.

Lemma bind_run (m : M S E A) k s :
  (m ≫= k) s =
  match m s with
  | (Ok a, s') => k a s'
  | (Err e, s') => (Err e, s')
  | (Panic, s') => (Panic, s')
  end.
Proof. done. Qed.

(** Inverting successful runs. *)
Lemma bind_Ok (m : M S E A) k s a s' : m s = (Ok a, s') -> (m ≫= k) s = k a s'.
Proof. intros Em. by rewrite bind_run, Em. Qed.

Lemma bind_Ok_inv (m : M S E A) k s b s' : (m ≫= k) s = (Ok b, s') ->
  exists a s1, m s = (Ok a, s1) /\ k a s1 = (Ok b, s').
Proof. rewrite bind_run. destruct (m s) as [[a|e|] s1]; [eauto|done..]. Qed.

Lemma assert_Ok_inv b u (s s' : S) : assert_m (E := E) b s = (Ok u, s') -> b = true /\ s' = s.
Proof. destruct b; [|done]. by intros [= _ ->]. Qed.
End Runs.

Lemma zoom_Ok_inv {S T E F A} get set (conv : F -> E) (m : M T F A) (s s' : S) a :
  zoom get set conv m s = (Ok a, s') -> exists t, m (get s) = (Ok a, t) /\ s' = set t s.
Proof. unfold zoom. destruct (m (get s)) as [[b|e|] t]; intros [= <- <-]; eauto. Qed.

(** ** Integer lemmas *)

Lemma wrapu_range w z : 0 <= w -> in_u w (wrapu w z).
Proof. intros. apply Z.mod_pos_bound. lia. Qed.

Lemma pow2_half w : 0 < w -> 2 ^ w = 2 * 2 ^ (w - 1).
Proof. intros. rewrite <-Z.pow_succ_r by lia. f_equal. lia. Qed.

Lemma wraps_range w z : 0 < w -> in_s w (wraps w z).
Proof.
  intros Hw. unfold wraps, in_s.
  pose proof (Z.mod_pos_bound (z + 2 ^ (w - 1)) (2 ^ w) ltac:(lia)).
  rewrite (pow2_half w) in * by lia. lia.
Qed.

Lemma wrapu_small w z : in_u w z -> wrapu w z = z.
Proof. apply Z.mod_small. Qed.

Lemma wraps_small w z : 0 < w -> in_s w z -> wraps w z = z.
Proof.
  intros Hw [? ?]. unfold wraps. rewrite Z.mod_small; [lia|].
  rewrite (pow2_half w) by lia. lia.
Qed.

(** Two integers are congruent when they wrap to the same machine value. *)
Lemma wrapu_wraps w z : 0 < w -> wrapu w (wraps w z) = wrapu w z.
Proof.
  intros. unfold wrapu, wraps.
  rewrite Zminus_mod_idemp_l. f_equal. lia.
Qed.

Lemma wraps_wrapu w z : 0 < w -> wraps w (wrapu w z) = wraps w z.
Proof.
  intros. unfold wrapu, wraps. by rewrite Zplus_mod_idemp_l.
Qed.

Lemma wrapu_wrapu w z : wrapu w (wrapu w z) = wrapu w z.
Proof. apply Zmod_mod. Qed.

Lemma wraps_wraps w z : 0 < w -> wraps w (wraps w z) = wraps w z.
Proof. intros. apply wraps_small; [done|]. by apply wraps_range. Qed.

Lemma wraps_eq_wrapu w a b : 0 < w -> wrapu w a = wrapu w b -> wraps w a = wraps w b.
Proof. intros Hw H. by rewrite <-(wraps_wrapu w a), <-(wraps_wrapu w b), H by lia. Qed.

Lemma in_s_wrapu w z : 0 < w -> in_s w z ->
  wrapu w z = if z <? 0 then z + 2 ^ w else z.
Proof.
  intros Hw [? ?]. pose proof (pow2_half w Hw). unfold wrapu.
  case_if; zb.
  - symmetry. apply (Z.mod_unique _ _ (-1)); lia.
  - apply Z.mod_small. lia.
Qed.

Lemma wrapu_inj w a b : 0 < w -> in_s w a -> in_s w b ->
  wrapu w a = wrapu w b -> a = b.
Proof.
  intros Hw Ha Hb H. apply (wraps_eq_wrapu w) in H; [|done].
  by rewrite !wraps_small in H.
Qed.

#[export] Hint Resolve wrapu_range wraps_range : wasmi.

Lemma checked_add_Some w a b c :
  checked_add w a b = Some c <-> c = a + b /\ a + b < 2 ^ w.
Proof. unfold checked_add. case_if; zb; naive_solver lia. Qed.
Lemma checked_add_None w a b : checked_add w a b = None <-> 2 ^ w <= a + b.
Proof. unfold checked_add. case_if; zb; naive_solver lia. Qed.
Lemma checked_mul_Some w a b c :
  checked_mul w a b = Some c <-> c = a * b /\ a * b < 2 ^ w.
Proof. unfold checked_mul. case_if; zb; naive_solver lia. Qed.
Lemma checked_mul_None w a b : checked_mul w a b = None <-> 2 ^ w <= a * b.
Proof. unfold checked_mul. case_if; zb; naive_solver lia. Qed.
Lemma checked_sub_Some a b c : checked_sub a b = Some c <-> c = a - b /\ b <= a.
Proof. unfold checked_sub. case_if; zb; naive_solver lia. Qed.
Lemma checked_sub_None a b : checked_sub a b = None <-> a < b.
Proof. unfold checked_sub. case_if; zb; naive_solver lia. Qed.
Lemma try_from_u_Some w z y : try_from_u w z = Some y <-> y = z /\ z < 2 ^ w.
Proof. unfold try_from_u. case_if; zb; naive_solver lia. Qed.
Lemma try_from_u_None w z : try_from_u w z = None <-> 2 ^ w <= z.
Proof. unfold try_from_u. case_if; zb; naive_solver lia. Qed.

Lemma usize_bits_bounds `{Target} : 2 ^ 32 <= 2 ^ usize_bits <= 2 ^ 64.
Proof. destruct usize_bits_cases as [-> | ->]; lia. Qed.

Lemma pow2_usize_half `{Target} : 2 ^ usize_bits = 2 * 2 ^ (usize_bits - 1).
Proof. apply pow2_half. destruct usize_bits_cases; lia. Qed.

(** ** Slice lemmas *)

Lemma get_span_Some {A} i n (l xs : list A) : 0 <= i -> 0 <= n ->
  get_span i n l = Some xs <->
  i + n <= Z.of_nat (length l) /\ xs = take (Z.to_nat n) (drop (Z.to_nat i) l).
Proof.
  intros. unfold get_span, get_from, get_to. cbn.
  case_if; zb; cbn; [rewrite length_drop; case_if; zb|]; naive_solver lia.
Qed.

Lemma get_span_None {A} i n (l : list A) : 0 <= i -> 0 <= n ->
  get_span i n l = None <-> Z.of_nat (length l) < i + n.
Proof.
  intros. unfold get_span, get_from, get_to. cbn.
  case_if; zb; cbn; [rewrite length_drop; case_if; zb|]; naive_solver lia.
Qed.

Lemma get_span_length {A} i n (l xs : list A) : 0 <= i -> 0 <= n ->
  get_span i n l = Some xs -> Z.of_nat (length xs) = n.
Proof.
  intros ?? [? ->]%get_span_Some; [|done..]. rewrite length_take, length_drop. lia.
Qed.

Lemma length_set_span {A} i (xs l : list A) : length (set_span i xs l) = length l.
Proof. apply length_inserts. Qed.

Lemma get_set_span_eq {A} i (xs l : list A) :
  0 <= i -> i + Z.of_nat (length xs) <= Z.of_nat (length l) ->
  get_span i (Z.of_nat (length xs)) (set_span i xs l) = Some xs.
Proof.
  intros. apply get_span_Some; [lia..|]. rewrite length_set_span. split; [lia|].
  apply list_eq. intros j. unfold set_span.
  destruct (decide (j < length xs)%nat) as [Hj|Hj].
  - rewrite lookup_take_lt, lookup_drop by lia.
    rewrite list_lookup_inserts by lia. f_equal. lia.
  - rewrite !lookup_ge_None_2; [done|rewrite length_take; lia|lia].
Qed.

Lemma set_span_lookup_out {A} i (xs l : list A) j :
  0 <= i -> (Z.of_nat j < i \/ i + Z.of_nat (length xs) <= Z.of_nat j) ->
  set_span i xs l !! j = l !! j.
Proof.
  intros ? [?|?]; unfold set_span;
    [apply list_lookup_inserts_lt|apply list_lookup_inserts_ge]; lia.
Qed.

Lemma get_set_span_ne {A} i j n (xs l : list A) :
  0 <= i -> 0 <= j -> 0 <= n ->
  (j + n <= i \/ i + Z.of_nat (length xs) <= j) ->
  get_span j n (set_span i xs l) = get_span j n l.
Proof.
  intros Hi Hj Hn Hd.
  destruct (get_span j n l) as [ys|] eqn:E.
  - apply get_span_Some in E as [? ->]; [|done..].
    apply get_span_Some; [done..|]. rewrite length_set_span. split; [done|].
    apply list_eq. intros k.
    destruct (decide (k < Z.to_nat n)%nat) as [?|?].
    + rewrite !lookup_take_lt, !lookup_drop by lia. symmetry.
      apply set_span_lookup_out; lia.
    + rewrite !lookup_take_ge by lia. done.
  - apply get_span_None in E; [|done..].
    apply get_span_None; [done..|]. by rewrite length_set_span.
Qed.
