(* ===== verification/Trap.v ===== *)
(** * Traps

    [crates/core/src/trap.rs] and [host_error.rs]: the trap codes with their
    [u8] encoding and messages, the reasons of a trap, and the downcasts of
    host errors.  The [Box] around a [TrapReason] is not modelled. *)

From Stdlib Require Import ZArith String.
From stdpp Require Import base option decidable strings.
From S2P Require Import Prelude.
Local Open Scope Z_scope.

(** ** Trap codes *)

Inductive TrapCode : Type :=
| UnreachableCodeReached
| MemoryOutOfBounds
| TableOutOfBounds
| IndirectCallToNull
| IntegerDivisionByZero
| IntegerOverflow
| BadConversionToInteger
| StackOverflow
| BadSignature
| TrapCode_OutOfFuel
| GrowthOperationLimited
| TrapCode_OutOfSystemMemory.

#[export] Instance TrapCode_eq_dec : EqDecision TrapCode.
Proof. solve_decision. Defined.

(** [impl From<TrapCode> for u8]: the discriminants of [#[repr(u8)]]. *)
Definition TrapCode_into_u8 (trap_code : TrapCode) : Z :=
  match trap_code with
  | UnreachableCodeReached => 1
  | MemoryOutOfBounds => 2
  | TableOutOfBounds => 3
  | IndirectCallToNull => 4
  | IntegerDivisionByZero => 5
  | IntegerOverflow => 6
  | BadConversionToInteger => 7
  | StackOverflow => 8
  | BadSignature => 9
  | TrapCode_OutOfFuel => 10
  | GrowthOperationLimited => 11
  | TrapCode_OutOfSystemMemory => 12
  end.

Variant InvalidTrapCode : Type := mk_InvalidTrapCode.

(** [impl TryFrom<u8> for TrapCode]. *)
Definition TrapCode_try_from (value : Z) : res InvalidTrapCode TrapCode :=
  if value =? 1 then Ok UnreachableCodeReached
  else if value =? 2 then Ok MemoryOutOfBounds
  else if value =? 3 then Ok TableOutOfBounds
  else if value =? 4 then Ok IndirectCallToNull
  else if value =? 5 then Ok IntegerDivisionByZero
  else if value =? 6 then Ok IntegerOverflow
  else if value =? 7 then Ok BadConversionToInteger
  else if value =? 8 then Ok StackOverflow
  else if value =? 9 then Ok BadSignature
  else if value =? 10 then Ok TrapCode_OutOfFuel
  else if value =? 11 then Ok GrowthOperationLimited
  else if value =? 12 then Ok TrapCode_OutOfSystemMemory
  else Err mk_InvalidTrapCode.

Local Open Scope string_scope.

Definition TrapCode_trap_message (c : TrapCode) : string :=
  match c with
  | UnreachableCodeReached => "wasm `unreachable` instruction executed"
  | MemoryOutOfBounds => "out of bounds memory access"
  | TableOutOfBounds => "undefined element: out of bounds table access"
  | IndirectCallToNull => "uninitialized element 2"
  | IntegerDivisionByZero => "integer divide by zero"
  | IntegerOverflow => "integer overflow"
  | BadConversionToInteger => "invalid conversion to integer"
  | StackOverflow => "call stack exhausted"
  | BadSignature => "indirect call type mismatch"
  | TrapCode_OutOfFuel => "all fuel consumed by WebAssembly"
  | GrowthOperationLimited => "growth operation limited"
  | TrapCode_OutOfSystemMemory => "out of system memory"
  end.

(** ** Host errors

    The host's error types are open: [HostErrors] lists them by their
    [TypeId]; a [dyn HostError] is a value of one of them. *)
Class HostErrors : Type := {
  type_id : Type;
  type_id_eq_dec :: EqDecision type_id;
  host_value : type_id -> Type
}.

Section HostError.
  Context `{HostErrors}.

Record HostError : Type := {
  host_type : type_id;
  host_payload : host_value host_type
}.

(** [<dyn HostError>::is::<T>]. *)
Definition HostError_is (T : type_id) (e : HostError) : bool :=
  bool_decide (host_type e = T).

(** [<dyn HostError>::downcast_ref::<T>] (and [downcast_mut]). *)
Definition HostError_downcast_ref (T : type_id) (e : HostError) : option (host_value T) :=
  match decide (host_type e = T) with
  | left eq => Some (eq_rect (host_type e) host_value (host_payload e) T eq)
  | right _ => None
  end.

(** [<dyn HostError>::downcast::<T>]; the [unreachable!] is the panic. *)
Definition HostError_downcast (T : type_id) (e : HostError) : res HostError (host_value T) :=
  if HostError_is T e then
    match HostError_downcast_ref T e with
    | Some value => Ok value
    | None => Panic
    end
  else Err e.

(** ** Traps *)

Inductive TrapReason : Type :=
| InstructionTrap (code : TrapCode)
| I32Exit (status : Z)
| Message (message : string)
| Host (error : HostError).

Definition TrapReason_i32_exit_status (r : TrapReason) : option Z :=
  match r with I32Exit status => Some status | _ => None end.

Definition TrapReason_as_host (r : TrapReason) : option HostError :=
  match r with Host host_error => Some host_error | _ => None end.

Definition TrapReason_into_host (r : TrapReason) : option HostError :=
  match r with Host host_error => Some host_error | _ => None end.

Definition TrapReason_trap_code (r : TrapReason) : option TrapCode :=
  match r with InstructionTrap trap_code => Some trap_code | _ => None end.

Record Trap : Type := Trap_with_reason { reason : TrapReason }.

Definition Trap_new (message : string) : Trap := Trap_with_reason (Message message).
Definition Trap_i32_exit (status : Z) : Trap := Trap_with_reason (I32Exit status).
Definition Trap_from_trap_code (error : TrapCode) : Trap :=
  Trap_with_reason (InstructionTrap error).
Definition Trap_from_host_error (host_error : HostError) : Trap :=
  Trap_with_reason (Host host_error).

Definition Trap_i32_exit_status (t : Trap) : option Z :=
  TrapReason_i32_exit_status (reason t).
Definition Trap_trap_code (t : Trap) : option TrapCode :=
  TrapReason_trap_code (reason t).

Definition Trap_downcast_ref (T : type_id) (t : Trap) : option (host_value T) :=
  TrapReason_as_host (reason t) ≫= HostError_downcast_ref T.

(** [self.reason.into_host().and_then(|e| e.downcast().ok())]. *)
Definition Trap_downcast (T : type_id) (t : Trap) : res unit (option (host_value T)) :=
  match TrapReason_into_host (reason t) with
  | None => Ok None
  | Some e => match HostError_downcast T e with
              | Ok v => Ok (Some v)
              | Err _ => Ok None
              | Panic => Panic
              end
  end.

(** ** Properties *)

(** The checked downcast never reaches its [unreachable!] and agrees with the
    borrowing one. *)
Lemma Trap_downcast_ok T t : Trap_downcast T t = Ok (Trap_downcast_ref T t).
Proof.
  unfold Trap_downcast, Trap_downcast_ref, TrapReason_into_host, TrapReason_as_host.
  destruct (reason t) as [| | |e]; try done. cbn.
  unfold HostError_downcast, HostError_is, HostError_downcast_ref.
  case_bool_decide; destruct (decide _); done.
Qed.

Lemma Trap_downcast_same e :
  Trap_downcast_ref (host_type e) (Trap_from_host_error e) = Some (host_payload e).
Proof.
  unfold Trap_downcast_ref. cbn. unfold HostError_downcast_ref.
  destruct (decide _) as [eq|]; [|done].
  by rewrite (proof_irrel eq eq_refl).
Qed.
End HostError.

Local Open Scope Z_scope.

Lemma TrapCode_into_u8_range c : 1 <= TrapCode_into_u8 c <= 12.
Proof. by destruct c. Qed.

(** The [u8] discriminant is a two-way encoding that never uses zero: a byte
    decodes to a code exactly when it is the code's encoding, and every other
    byte is rejected. *)
Lemma TrapCode_try_from_iff value c :
  TrapCode_try_from value = Ok c <-> value = TrapCode_into_u8 c.
Proof.
  split.
  - unfold TrapCode_try_from. intros H.
    zcases; by simplify_eq.
  - intros ->. by destruct c.
Qed.

Lemma TrapCode_try_from_err value :
  TrapCode_try_from value = Err mk_InvalidTrapCode <-> (value < 1 \/ 12 < value).
Proof.
  split.
  - intros H. unfold TrapCode_try_from in H. zcases; done.
  - intros H. unfold TrapCode_try_from. zcases; done.
Qed.
