(* ===== verification/Value.v ===== *)
(** * Value types and untyped cells

    [crates/core/src/value.rs] (the types), [index_ty.rs], [raw.rs],
    [typed.rs], [table/raw.rs], [float.rs] and [shift_amount.rs]: value types,
    the 64- or 128-bit cells every Wasm value is stored in, typed cells,
    references and shift amounts.  A float is its bit pattern. *)

From Stdlib Require Import ZArith Lia.
From stdpp Require Import base option decidable numbers list list_numbers.
From S2P Require Import Prelude.
Local Open Scope Z_scope.

(** ** Primitive Rust types *)

Inductive Prim : Type :=
| P_bool | P_i8 | P_u8 | P_i16 | P_u16 | P_i32 | P_u32 | P_i64 | P_u64
| P_i128 | P_u128 | P_f32 | P_f64.

#[export] Instance Prim_eq_dec : EqDecision Prim.
Proof. solve_decision. Defined.

(** [size_of::<T>()]. *)
Definition prim_bytes (p : Prim) : Z :=
  match p with
  | P_bool | P_i8 | P_u8 => 1
  | P_i16 | P_u16 => 2
  | P_i32 | P_u32 | P_f32 => 4
  | P_i64 | P_u64 | P_f64 => 8
  | P_i128 | P_u128 => 16
  end.
Definition prim_bits (p : Prim) : Z := 8 * prim_bytes p.

Definition prim_signed (p : Prim) : bool :=
  match p with
  | P_i8 | P_i16 | P_i32 | P_i64 | P_i128 => true
  | _ => false
  end.

(** The values of the type: a [bool] is 0 or 1, a float its bits. *)
Definition prim_val (p : Prim) (z : Z) : Prop :=
  match p with
  | P_bool => z = 0 \/ z = 1
  | _ => if prim_signed p then in_s (prim_bits p) z else in_u (prim_bits p) z
  end.

(** [z as T] for an integer [z] and an integer type [T]; for a float type it is
    [T::from_bits(z as uN)]. *)
Definition cast (p : Prim) (z : Z) : Z :=
  if prim_signed p then wraps (prim_bits p) z else wrapu (prim_bits p) z.

(** ** Value types *)

Inductive RefType : Type := RefType_Func | RefType_Extern.

Inductive ValType : Type :=
| ValType_I32 | ValType_I64 | ValType_F32 | ValType_F64 | ValType_V128
| ValType_FuncRef | ValType_ExternRef.

Inductive IndexType : Type := IndexType_I32 | IndexType_I64.

#[export] Instance RefType_eq_dec : EqDecision RefType.
Proof. solve_decision. Defined.
#[export] Instance ValType_eq_dec : EqDecision ValType.
Proof. solve_decision. Defined.
#[export] Instance IndexType_eq_dec : EqDecision IndexType.
Proof. solve_decision. Defined.

Definition ValType_is_num (t : ValType) : bool :=
  match t with
  | ValType_I32 | ValType_I64 | ValType_F32 | ValType_F64 => true
  | _ => false
  end.

Definition ValType_is_ref (t : ValType) : bool :=
  match t with
  | ValType_ExternRef | ValType_FuncRef => true
  | _ => false
  end.

Definition ValType_as_ref (t : ValType) : option RefType :=
  match t with
  | ValType_FuncRef => Some RefType_Func
  | ValType_ExternRef => Some RefType_Extern
  | _ => None
  end.

Definition ValType_from_RefType (ty : RefType) : ValType :=
  match ty with
  | RefType_Func => ValType_FuncRef
  | RefType_Extern => ValType_ExternRef
  end.

Definition IndexType_ty (t : IndexType) : ValType :=
  match t with
  | IndexType_I32 => ValType_I32
  | IndexType_I64 => ValType_I64
  end.

Definition IndexType_is_64 (t : IndexType) : bool :=
  match t with IndexType_I64 => true | IndexType_I32 => false end.

Definition IndexType_max_size (t : IndexType) : Z :=
  match t with
  | IndexType_I32 => Z.shiftl 1 32
  | IndexType_I64 => Z.shiftl 1 64
  end.

Definition IndexType_min (a b : IndexType) : IndexType :=
  match a, b with
  | IndexType_I64, IndexType_I64 => IndexType_I64
  | _, _ => IndexType_I32
  end.

(** ** Untyped cells

    [hi64] exists with the [simd] feature only; without it nothing reads it
    and every constructor leaves it zero. *)
Record RawVal : Type := { lo64 : Z; hi64 : Z }.

#[export] Instance RawVal_eq_dec : EqDecision RawVal.
Proof. solve_decision. Defined.

Definition RawVal_read_lo64 (v : RawVal) : Z := lo64 v.
Definition RawVal_write_lo64 (bits : Z) (v : RawVal) : RawVal :=
  {| lo64 := bits; hi64 := hi64 v |}.
Definition RawVal_from_bits64 (lo : Z) : RawVal := {| lo64 := lo; hi64 := 0 |}.
Definition RawVal_to_bits64 (v : RawVal) : Z := lo64 v.

(** [impl ReadAs<T> for RawVal]; a [bool] is true unless the cell is zero. *)
Definition RawVal_read_as (p : Prim) (v : RawVal) : Z :=
  match p with
  | P_bool => if RawVal_read_lo64 v =? 0 then 0 else 1
  | _ => cast p (RawVal_read_lo64 v)
  end.

(** [impl WriteAs<T> for RawVal]: a signed value goes through its unsigned
    type, so the upper bits of the low half become zero. *)
Definition RawVal_write_as (p : Prim) (value : Z) (v : RawVal) : RawVal :=
  RawVal_write_lo64 (wrapu (prim_bits p) value) v.

(** [impl From<T> for RawVal] and [impl From<RawVal> for T]. *)
Definition RawVal_from (p : Prim) (value : Z) : RawVal :=
  RawVal_from_bits64 (wrapu (prim_bits p) value).
Definition RawVal_into (p : Prim) (v : RawVal) : Z :=
  match p with
  | P_bool => if RawVal_to_bits64 v =? 0 then 0 else 1
  | _ => cast p (RawVal_to_bits64 v)
  end.

(** ** 128-bit vectors: the bytes of the vector, on a little-endian host *)
Record V128 : Type := { v128_bytes : list Z }.

Definition V128_from_u128 (value : Z) : V128 :=
  {| v128_bytes := Z_to_little_endian 16 8 value |}.
Definition V128_as_u128 (v : V128) : Z := little_endian_to_Z 8 (v128_bytes v).

(** [ImmLaneIdx<N>] of [crates/core/src/simd.rs]: the mask [(1 << ilog2(N)) - 1], the
    getter and the constructor, where [None] is [OutOfBoundsLaneIdx]. *)
Definition ImmLaneIdx (n : Z) : Type := Z.
Definition lane_mask (n : Z) : Z := 2 ^ Z.log2 n - 1.
Definition ImmLaneIdx_zero (n : Z) : ImmLaneIdx n := 0.
Definition ImmLaneIdx_into_u8 (n : Z) (lane : ImmLaneIdx n) : Z := Z.land lane (lane_mask n).
Definition ImmLaneIdx_try_from (n lane : Z) : option (ImmLaneIdx n) :=
  if lane_mask n <? lane then None else Some lane.

(** [impl From<RawVal> for V128] and [impl From<V128> for RawVal]. *)
Definition V128_from_RawVal (value : RawVal) : V128 :=
  V128_from_u128 (Z.lor (Z.shiftl (hi64 value) 64) (lo64 value)).
Definition RawVal_from_V128 (value : V128) : RawVal :=
  let u128 := V128_as_u128 value in
  {| lo64 := wrapu 64 u128; hi64 := wrapu 64 (Z.shiftr u128 64) |}.

(** ** Typed cells *)

(** [<T as Typed>::TY] (no instance for the 128-bit integers). *)
Definition Typed_TY (p : Prim) : option ValType :=
  match p with
  | P_bool | P_i8 | P_u8 | P_i16 | P_u16 | P_i32 | P_u32 => Some ValType_I32
  | P_i64 | P_u64 => Some ValType_I64
  | P_f32 => Some ValType_F32
  | P_f64 => Some ValType_F64
  | P_i128 | P_u128 => None
  end.

Record TypedRawVal : Type := TypedRawVal_new {
  typed_ty : ValType;
  typed_value : RawVal
}.

Definition TypedRawVal_from (p : Prim) (value : Z) : option TypedRawVal :=
  ty ← Typed_TY p; Some (TypedRawVal_new ty (RawVal_from p value)).

(** [impl From<TypedRawVal> for T]; the [debug_assert!] on the type is the
    panic.  The small integers go through [i32] and [u32]. *)
Definition TypedRawVal_into_prim (p : Prim) (v : TypedRawVal) : res unit Z :=
  match Typed_TY p with
  | Some ty => assert_that (bool_decide (typed_ty v = ty));; Ok (RawVal_into p (typed_value v))
  | None => Panic
  end.

Definition TypedRawVal_into (p : Prim) (v : TypedRawVal) : res unit Z :=
  match p with
  | P_i8 | P_i16 => cast p <$> TypedRawVal_into_prim P_i32 v
  | P_u8 | P_u16 => cast p <$> TypedRawVal_into_prim P_u32 v
  | _ => TypedRawVal_into_prim p v
  end.

(** ** References *)

Record RawRef : Type := { ref_bits : Z }.

#[export] Instance RawRef_eq_dec : EqDecision RawRef.
Proof. solve_decision. Defined.

Definition RawRef_null : RawRef := {| ref_bits := 0 |}.
Definition RawRef_is_null (r : RawRef) : bool := ref_bits r =? 0.
Definition RawRef_from_RawVal (value : RawVal) : RawRef :=
  {| ref_bits := RawVal_into P_u32 value |}.
Definition RawVal_from_RawRef (value : RawRef) : RawVal := RawVal_from P_u32 (ref_bits value).

Record TypedRawRef : Type := TypedRawRef_new {
  tref_raw : RawRef;
  tref_ty : RefType
}.

Definition TypedRawRef_null (ty : RefType) : TypedRawRef := TypedRawRef_new RawRef_null ty.

Definition TypedRawVal_from_TypedRawRef (value : TypedRawRef) : TypedRawVal :=
  let val := RawVal_from P_u32 (ref_bits (tref_raw value)) in
  let ty := match tref_ty value with
            | RefType_Func => ValType_FuncRef
            | RefType_Extern => ValType_ExternRef
            end in
  TypedRawVal_new ty val.

Definition TypedRawRef_from_TypedRawVal (value : TypedRawVal) : res unit TypedRawRef :=
  let raw := RawRef_from_RawVal (typed_value value) in
  match typed_ty value with
  | ValType_FuncRef => Ok (TypedRawRef_new raw RefType_Func)
  | ValType_ExternRef => Ok (TypedRawRef_new raw RefType_Extern)
  | _ => Panic
  end.

(** ** Shift amounts *)

Record ShiftAmount : Type := { shamt : Z }.

(** [checked_rem_euclid]: the Euclidean remainder, [None] for a zero divisor
    and for the overflowing [MIN % -1]. *)
Definition checked_rem_euclid (p : Prim) (a b : Z) : option Z :=
  if b =? 0 then None
  else if prim_signed p && (b =? -1) && (a =? - 2 ^ (prim_bits p - 1)) then None
  else Some (a mod Z.abs b).

(** [<T as IntoShiftAmount>::into_shift_amount] for an integer type. *)
Definition into_shift_amount (p : Prim) (source : Z) : option ShiftAmount :=
  let len_bits := cast p (prim_bytes p * 8) in
  k ← checked_rem_euclid p source len_bits;
  Some {| shamt := cast P_u8 k |}.

(** The instances for vectors of lanes of type [ty]; the source is a [u32]. *)
Definition into_simd_shift_amount (ty : Prim) (source : Z) : option ShiftAmount :=
  let len_bits := cast P_u32 (prim_bytes ty * 8) in
  k ← checked_rem_euclid P_u32 source len_bits;
  Some {| shamt := cast P_u8 k |}.

(** ** Properties *)

Lemma prim_bits_pos p : 0 < prim_bits p.
Proof. by destruct p. Qed.

Lemma cast_val p z : p <> P_bool -> prim_val p (cast p z).
Proof.
  intros Hp. unfold cast, prim_val. pose proof (prim_bits_pos p).
  destruct p; try done; apply wrapu_range || apply wraps_range; done.
Qed.

Lemma cast_id p z : prim_val p z -> p <> P_bool -> cast p z = z.
Proof.
  unfold cast, prim_val. intros Hz Hp. pose proof (prim_bits_pos p).
  destruct p; try done; by (apply wraps_small || apply wrapu_small).
Qed.

Lemma cast_wrapu p z : cast p (wrapu (prim_bits p) z) = cast p z.
Proof.
  unfold cast. pose proof (prim_bits_pos p).
  destruct (prim_signed p); [by apply wraps_wrapu|apply wrapu_wrapu].
Qed.

#[export] Hint Resolve prim_bits_pos cast_val : wasmi.

Lemma bool_wrapu z : prim_val P_bool z -> (if wrapu 8 z =? 0 then 0 else 1) = z.
Proof. by intros [-> | ->]. Qed.

(** Every value of a type that fits a 64-bit cell survives the cell. *)
Lemma RawVal_into_from p z : prim_val p z -> RawVal_into p (RawVal_from p z) = z.
Proof.
  intros Hz. unfold RawVal_into, RawVal_from, RawVal_to_bits64. cbn [lo64 RawVal_from_bits64].
  destruct p; try (rewrite cast_wrapu; by apply cast_id).
  by apply bool_wrapu.
Qed.

Lemma RawVal_read_write p z v : prim_val p z -> RawVal_read_as p (RawVal_write_as p z v) = z.
Proof.
  intros Hz. unfold RawVal_read_as, RawVal_write_as, RawVal_read_lo64. cbn [lo64 RawVal_write_lo64].
  destruct p; try (rewrite cast_wrapu; by apply cast_id).
  by apply bool_wrapu.
Qed.

(** Truncating a wider integer to a narrower one forgets the upper bits only. *)
Lemma wrapu_narrow v w z : 0 <= v <= w -> wrapu v (wrapu w z) = wrapu v z.
Proof.
  intros. unfold wrapu. apply Z.mod_mod_divide.
  exists (2 ^ (w - v)). rewrite <-Z.pow_add_r by lia. f_equal. lia.
Qed.

Lemma cast_cast p q z : prim_bits p <= prim_bits q -> cast p (cast q z) = cast p z.
Proof.
  intros Hle. pose proof (prim_bits_pos p). pose proof (prim_bits_pos q).
  rewrite <-(cast_wrapu p (cast q z)), <-(cast_wrapu p z). f_equal.
  rewrite <-(wrapu_narrow _ (prim_bits q) (cast q z)) by lia.
  rewrite <-(wrapu_narrow _ (prim_bits q) z) by lia. f_equal.
  unfold cast. destruct (prim_signed q); [by apply wrapu_wraps|apply wrapu_wrapu].
Qed.

(** The values of [p] are values of a wider type, or of one as wide of the same
    signedness, unless a signed value becomes unsigned. *)
Lemma cast_fits into p z :
  p <> P_bool -> into <> P_bool -> prim_bits p <= prim_bits into ->
  (prim_signed p = true -> prim_signed into = true) ->
  (prim_bits p = prim_bits into -> prim_signed p = prim_signed into) ->
  prim_val into (cast p z).
Proof.
  intros Hp Hi Hle Hsg Heq. pose proof (cast_val p z Hp) as H.
  destruct p, into; try done; cbn in *; unfold in_u, in_s, prim_bits in *; cbn in *;
    try (exfalso; lia); try (specialize (Hsg eq_refl); done);
    try (specialize (Heq eq_refl); done); lia.
Qed.

Lemma TypedRawVal_into_prim_ok p ty raw : Typed_TY p = Some ty ->
  TypedRawVal_into_prim p (TypedRawVal_new ty raw) = Ok (RawVal_into p raw).
Proof.
  intros H. unfold TypedRawVal_into_prim. rewrite H. cbn [typed_ty typed_value].
  by rewrite bool_decide_eq_true_2.
Qed.

(** A typed cell gives back the value it was made from, through the checked
    conversion and without tripping its type assertion. *)
Lemma TypedRawVal_into_from p z v : prim_val p z ->
  TypedRawVal_from p z = Some v -> TypedRawVal_into p v = Ok z.
Proof.
  intros Hz Hv. unfold TypedRawVal_from in Hv.
  destruct (Typed_TY p) as [ty|] eqn:Hty; simplify_option_eq.
  assert (TypedRawVal_into p (TypedRawVal_new ty (RawVal_from p z)) = Ok (RawVal_into p (RawVal_from p z)))
    as ->; [|by rewrite RawVal_into_from].
  destruct p; cbn in Hty; simplify_eq; unfold TypedRawVal_into;
    rewrite TypedRawVal_into_prim_ok by done; [done|..]; try done.
  all: unfold fmap, res_fmap, RawVal_into; by rewrite cast_cast.
Qed.

Lemma TypedRawRef_roundtrip r : in_u 32 (ref_bits (tref_raw r)) ->
  TypedRawRef_from_TypedRawVal (TypedRawVal_from_TypedRawRef r) = Ok r.
Proof.
  intros Hr. destruct r as [[bits] ty]. cbn in Hr.
  assert (RawRef_from_RawVal (RawVal_from P_u32 bits) = {| ref_bits := bits |}) as E.
  { unfold RawRef_from_RawVal. f_equal. by apply RawVal_into_from. }
  unfold TypedRawRef_from_TypedRawVal, TypedRawVal_from_TypedRawRef. cbn [typed_value tref_raw ref_bits].
  rewrite E. by destruct ty.
Qed.

Definition RawVal_val (v : RawVal) : Prop := in_u 64 (lo64 v) /\ in_u 64 (hi64 v).
Definition V128_val (v : V128) : Prop :=
  length (v128_bytes v) = 16%nat /\ Forall (fun b => 0 <= b < 2 ^ 8) (v128_bytes v).

Lemma V128_from_as v : V128_val v -> V128_from_u128 (V128_as_u128 v) = v.
Proof.
  intros [Hl Hb]. destruct v as [bs]. unfold V128_from_u128, V128_as_u128.
  cbn [v128_bytes] in *. f_equal. apply Z_to_little_endian_to_Z; [|lia|done]. lia.
Qed.

Lemma V128_as_from z : in_u 128 z -> V128_as_u128 (V128_from_u128 z) = z.
Proof.
  intros Hz. unfold V128_from_u128, V128_as_u128. cbn [v128_bytes].
  rewrite little_endian_to_Z_to_little_endian by lia. by apply Z.mod_small.
Qed.

(** The two halves of a 128-bit integer. *)
Lemma lor_halves lo hi : in_u 64 lo -> Z.lor (Z.shiftl hi 64) lo = hi * 2 ^ 64 + lo.
Proof.
  intros [? ?]. rewrite Z.shiftl_mul_pow2 by lia.
  rewrite <-Z.lxor_lor, <-Z.add_nocarry_lxor; [done|..];
    apply Z.bits_inj'; intros n Hn; rewrite Z.land_spec, Z.bits_0.
  all: destruct (decide (n < 64));
    [rewrite Z.mul_pow2_bits_low by lia; done|].
  all: rewrite (Z.bits_above_log2 lo); [by rewrite andb_false_r|lia|].
  all: destruct (decide (lo = 0)) as [->|]; [cbn; lia|].
  all: assert (Z.log2 lo < 64); [apply Z.log2_lt_pow2; lia|lia].
Qed.

Lemma halves_range lo hi : in_u 64 lo -> in_u 64 hi -> in_u 128 (hi * 2 ^ 64 + lo).
Proof. unfold in_u. lia. Qed.

Lemma RawVal_V128_roundtrip v : RawVal_val v -> RawVal_from_V128 (V128_from_RawVal v) = v.
Proof.
  intros [Hlo Hhi]. destruct v as [lo hi]. cbn in Hlo, Hhi.
  unfold RawVal_from_V128, V128_from_RawVal. cbn [lo64 hi64].
  rewrite lor_halves by done. rewrite V128_as_from by (by apply halves_range).
  unfold in_u in *. unfold wrapu.
  rewrite Z.shiftr_div_pow2, Z.div_add_l by lia.
  rewrite (Z.div_small lo) by lia. f_equal.
  - rewrite Z.add_comm, Z.mod_add by lia. by apply Z.mod_small.
  - rewrite Z.add_0_r. by apply Z.mod_small.
Qed.

Lemma V128_as_u128_range v : V128_val v -> in_u 128 (V128_as_u128 v).
Proof.
  intros Hv. destruct Hv as [Hl Hb]. unfold V128_as_u128, in_u.
    pose proof (little_endian_to_Z_bound 8 (v128_bytes v) ltac:(lia) Hb) as H.
    by rewrite Hl in H.
Qed.

Lemma V128_RawVal_roundtrip v : V128_val v -> V128_from_RawVal (RawVal_from_V128 v) = v.
Proof.
  intros Hv. rewrite <-(V128_from_as v) at 2 by done.
  unfold V128_from_RawVal, RawVal_from_V128. cbn [lo64 hi64]. f_equal.
  pose proof (V128_as_u128_range v Hv) as Hr.
  rewrite lor_halves by (by apply wrapu_range). unfold wrapu, in_u in *.
  rewrite Z.shiftr_div_pow2 by lia.
  pose proof (Z.div_mod (V128_as_u128 v) (2 ^ 64) ltac:(lia)).
  rewrite (Z.mod_small (_ / _)); [lia|].
  split; [apply Z.div_pos; lia|apply Z.div_lt_upper_bound; lia].
Qed.

(** A shift amount is the source taken modulo the width of the type, whatever
    its sign, and is always defined. *)
Lemma into_shift_amount_spec p source : p <> P_bool -> p <> P_f32 -> p <> P_f64 ->
  into_shift_amount p source = Some {| shamt := source mod prim_bits p |}.
Proof.
  intros ???. unfold into_shift_amount.
  assert (prim_bits p = 8 * prim_bytes p /\ 8 <= prim_bits p <= 128) as [E ?] by (by destruct p).
  assert (cast p (prim_bytes p * 8) = prim_bits p \/
          p = P_i8 \/ p = P_u8 \/ p = P_i128 \/ p = P_u128) as Hc by (destruct p; auto).
  assert (cast p (prim_bytes p * 8) = prim_bits p) as -> by (destruct p; done).
  unfold checked_rem_euclid. rewrite Z.abs_eq by lia.
  rewrite (proj2 (Z.eqb_neq (prim_bits p) 0)) by lia.
  rewrite (proj2 (Z.eqb_neq (prim_bits p) (-1))) by lia.
  rewrite andb_false_r. cbn. do 2 f_equal.
  apply wrapu_small. pose proof (Z.mod_pos_bound source (prim_bits p) ltac:(lia)).
  unfold in_u. change (2 ^ prim_bits P_u8) with 256. lia.
Qed.

Lemma into_simd_shift_amount_spec p source : p <> P_bool -> p <> P_f32 -> p <> P_f64 ->
  into_simd_shift_amount p source = Some {| shamt := source mod prim_bits p |}.
Proof.
  intros ???. unfold into_simd_shift_amount.
  assert (8 <= prim_bits p <= 128) as ? by (by destruct p).
  assert (cast P_u32 (prim_bytes p * 8) = prim_bits p) as -> by (destruct p; done).
  unfold checked_rem_euclid. rewrite Z.abs_eq by lia.
  rewrite (proj2 (Z.eqb_neq (prim_bits p) 0)) by lia. cbn. do 2 f_equal.
  apply wrapu_small. pose proof (Z.mod_pos_bound source (prim_bits p) ltac:(lia)).
  unfold in_u. change (2 ^ prim_bits P_u8) with 256. lia.
Qed.
