(* ===== verification/WasmInt.v ===== *)
(** * Wasm integer instructions

    The [Integer] trait of [crates/core/src/value.rs] with its implementations
    for [i32] and [i64], and the integer instructions of
    [crates/core/src/wasm.rs]: arithmetic, bit operations, shifts, division,
    comparison, conversion, sign extension and the wide-arithmetic proposal.
    The float instructions are in [Float]. *)

From Stdlib Require Import ZArith Lia.
From stdpp Require Import base option decidable numbers.
From S2P Require Import Prelude Trap Value.
Local Open Scope Z_scope.

(** ** Integer primitives of the Rust standard library *)

Fixpoint pos_count_ones (p : positive) : Z :=
  match p with
  | xH => 1
  | xO p => pos_count_ones p
  | xI p => 1 + pos_count_ones p
  end.

Fixpoint pos_trailing_zeros (p : positive) : Z :=
  match p with
  | xO p => 1 + pos_trailing_zeros p
  | _ => 0
  end.

(** These three look at the [w] bits of the two's complement representation. *)
Definition leading_zeros (w z : Z) : Z :=
  let u := wrapu w z in if u =? 0 then w else w - 1 - Z.log2 u.
Definition trailing_zeros (w z : Z) : Z :=
  match wrapu w z with Zpos p => pos_trailing_zeros p | _ => w end.
Definition count_ones (w z : Z) : Z :=
  match wrapu w z with Zpos p => pos_count_ones p | _ => 0 end.

(** [rotate_left] and [rotate_right] of the [w] bits by [n] positions. *)
Definition rotate_left_u (w u n : Z) : Z :=
  let n := n mod w in wrapu w (Z.lor (Z.shiftl u n) (Z.shiftr u (w - n))).
Definition rotate_right_u (w u n : Z) : Z :=
  let n := n mod w in wrapu w (Z.lor (Z.shiftr u n) (Z.shiftl u (w - n))).

(** [iN::overflowing_div] and [iN::wrapping_rem]. *)
Definition overflowing_div_s (w a b : Z) : Z * bool :=
  if (a =? - 2 ^ (w - 1)) && (b =? -1) then (a, true) else (Z.quot a b, false).
Definition wrapping_rem_s (a b : Z) : Z := if b =? -1 then 0 else Z.rem a b.
Definition overflowing_div_u (a b : Z) : Z * bool := (Z.quot a b, false).

(** ** The [Integer] trait

    [i_*] are the methods; a signed argument is a value of [iN], an argument of
    type [Uint] a value of [uN]. *)
Record Integer : Type := {
  i_is_zero : Z -> bool;
  i_leading_zeros : Z -> Z;
  i_trailing_zeros : Z -> Z;
  i_count_ones : Z -> Z;
  i_shl : Z -> Z -> Z;
  i_shr_s : Z -> Z -> Z;
  i_shr_u : Z -> Z -> Z;
  i_rotl : Z -> Z -> Z;
  i_rotr : Z -> Z -> Z;
  i_div_s : Z -> Z -> res TrapCode Z;
  i_div_u : Z -> Z -> res TrapCode Z;
  i_rem_s : Z -> Z -> res TrapCode Z;
  i_rem_u : Z -> Z -> res TrapCode Z
}.

(** [impl_integer!(iN)].  [rhs as u32] precedes every shift and rotation; the
    wrapping shifts then take the amount modulo the width. *)
Definition impl_integer (w : Z) : Integer := {|
  i_is_zero v := v =? 0;
  i_leading_zeros v := wraps w (leading_zeros w v);
  i_trailing_zeros v := wraps w (trailing_zeros w v);
  i_count_ones v := wraps w (count_ones w v);
  i_shl lhs rhs := wraps w (Z.shiftl lhs (wrapu 32 rhs mod w));
  i_shr_s lhs rhs := Z.shiftr lhs (wrapu 32 rhs mod w);
  i_shr_u lhs rhs := Z.shiftr lhs (wrapu 32 rhs mod w);
  i_rotl lhs rhs := wraps w (rotate_left_u w (wrapu w lhs) (wrapu 32 rhs));
  i_rotr lhs rhs := wraps w (rotate_right_u w (wrapu w lhs) (wrapu 32 rhs));
  i_div_s lhs rhs :=
    if rhs =? 0 then Err IntegerDivisionByZero
    else let '(result, overflow) := overflowing_div_s w lhs rhs in
         if overflow then Err IntegerOverflow else Ok result;
  i_div_u lhs rhs :=
    if rhs =? 0 then Err IntegerDivisionByZero
    else let '(result, overflow) := overflowing_div_u lhs rhs in
         if overflow then Err IntegerOverflow else Ok result;
  i_rem_s lhs rhs :=
    if rhs =? 0 then Err IntegerDivisionByZero else Ok (wrapping_rem_s lhs rhs);
  i_rem_u lhs rhs :=
    if rhs =? 0 then Err IntegerDivisionByZero else Ok (Z.rem lhs rhs)
|}.

Definition Integer_i32 : Integer := impl_integer 32.
Definition Integer_i64 : Integer := impl_integer 64.

(** ** Instructions of [wasm.rs] *)

Definition i32_add (lhs rhs : Z) : Z := wraps 32 (lhs + rhs).
Definition i64_add (lhs rhs : Z) : Z := wraps 64 (lhs + rhs).
Definition i32_sub (lhs rhs : Z) : Z := wraps 32 (lhs - rhs).
Definition i64_sub (lhs rhs : Z) : Z := wraps 64 (lhs - rhs).
Definition i32_mul (lhs rhs : Z) : Z := wraps 32 (lhs * rhs).
Definition i64_mul (lhs rhs : Z) : Z := wraps 64 (lhs * rhs).

Definition i32_bitand (lhs rhs : Z) : Z := Z.land lhs rhs.
Definition i64_bitand (lhs rhs : Z) : Z := Z.land lhs rhs.
Definition i32_bitor (lhs rhs : Z) : Z := Z.lor lhs rhs.
Definition i64_bitor (lhs rhs : Z) : Z := Z.lor lhs rhs.
Definition i32_bitxor (lhs rhs : Z) : Z := Z.lxor lhs rhs.
Definition i64_bitxor (lhs rhs : Z) : Z := Z.lxor lhs rhs.

Definition i32_shl : Z -> Z -> Z := i_shl Integer_i32.
Definition i64_shl : Z -> Z -> Z := i_shl Integer_i64.
Definition i32_shr_s : Z -> Z -> Z := i_shr_s Integer_i32.
Definition i64_shr_s : Z -> Z -> Z := i_shr_s Integer_i64.
Definition i32_shr_u : Z -> Z -> Z := i_shr_u Integer_i32.
Definition i64_shr_u : Z -> Z -> Z := i_shr_u Integer_i64.
Definition i32_rotl : Z -> Z -> Z := i_rotl Integer_i32.
Definition i64_rotl : Z -> Z -> Z := i_rotl Integer_i64.
Definition i32_rotr : Z -> Z -> Z := i_rotr Integer_i32.
Definition i64_rotr : Z -> Z -> Z := i_rotr Integer_i64.

Definition i32_div_s : Z -> Z -> res TrapCode Z := i_div_s Integer_i32.
Definition i64_div_s : Z -> Z -> res TrapCode Z := i_div_s Integer_i64.
Definition i32_div_u : Z -> Z -> res TrapCode Z := i_div_u Integer_i32.
Definition i64_div_u : Z -> Z -> res TrapCode Z := i_div_u Integer_i64.
Definition i32_rem_s : Z -> Z -> res TrapCode Z := i_rem_s Integer_i32.
Definition i64_rem_s : Z -> Z -> res TrapCode Z := i_rem_s Integer_i64.
Definition i32_rem_u : Z -> Z -> res TrapCode Z := i_rem_u Integer_i32.
Definition i64_rem_u : Z -> Z -> res TrapCode Z := i_rem_u Integer_i64.

Definition i32_clz : Z -> Z := i_leading_zeros Integer_i32.
Definition i64_clz : Z -> Z := i_leading_zeros Integer_i64.
Definition i32_ctz : Z -> Z := i_trailing_zeros Integer_i32.
Definition i64_ctz : Z -> Z := i_trailing_zeros Integer_i64.
Definition i32_popcnt : Z -> Z := i_count_ones Integer_i32.
Definition i64_popcnt : Z -> Z := i_count_ones Integer_i64.
Definition i32_eqz : Z -> bool := i_is_zero Integer_i32.
Definition i64_eqz : Z -> bool := i_is_zero Integer_i64.

Definition i32_eq (lhs rhs : Z) : bool := lhs =? rhs.
Definition i64_eq (lhs rhs : Z) : bool := lhs =? rhs.
Definition i32_ne (lhs rhs : Z) : bool := negb (lhs =? rhs).
Definition i64_ne (lhs rhs : Z) : bool := negb (lhs =? rhs).
Definition i32_lt_s (lhs rhs : Z) : bool := lhs <? rhs.
Definition i64_lt_s (lhs rhs : Z) : bool := lhs <? rhs.
Definition i32_lt_u (lhs rhs : Z) : bool := lhs <? rhs.
Definition i64_lt_u (lhs rhs : Z) : bool := lhs <? rhs.
Definition i32_le_s (lhs rhs : Z) : bool := lhs <=? rhs.
Definition i64_le_s (lhs rhs : Z) : bool := lhs <=? rhs.
Definition i32_le_u (lhs rhs : Z) : bool := lhs <=? rhs.
Definition i64_le_u (lhs rhs : Z) : bool := lhs <=? rhs.
Definition i32_gt_s (lhs rhs : Z) : bool := lhs >? rhs.
Definition i64_gt_s (lhs rhs : Z) : bool := lhs >? rhs.
Definition i32_gt_u (lhs rhs : Z) : bool := lhs >? rhs.
Definition i64_gt_u (lhs rhs : Z) : bool := lhs >? rhs.
Definition i32_ge_s (lhs rhs : Z) : bool := lhs >=? rhs.
Definition i64_ge_s (lhs rhs : Z) : bool := lhs >=? rhs.
Definition i32_ge_u (lhs rhs : Z) : bool := lhs >=? rhs.
Definition i64_ge_u (lhs rhs : Z) : bool := lhs >=? rhs.

Definition i32_wrap_i64 (value : Z) : Z := cast P_i32 value.
Definition i64_extend_i32_s (value : Z) : Z := value.
Definition i64_extend_i32_u (value : Z) : Z := value.

(** [<Self as SignExtendFrom<T>>::sign_extend_from]: [(self as T) as Self]. *)
Definition sign_extend_from (self from : Prim) (value : Z) : Z := cast self (cast from value).

Definition i32_extend8_s : Z -> Z := sign_extend_from P_i32 P_i8.
Definition i32_extend16_s : Z -> Z := sign_extend_from P_i32 P_i16.
Definition i64_extend8_s : Z -> Z := sign_extend_from P_i64 P_i8.
Definition i64_extend16_s : Z -> Z := sign_extend_from P_i64 P_i16.
Definition i64_extend32_s : Z -> Z := sign_extend_from P_i64 P_i32.

(** [from_ne_bytes (to_ne_bytes v)]: a float is its bits. *)
Definition i32_reinterpret_f32 (value : Z) : Z := cast P_i32 value.
Definition i64_reinterpret_f64 (value : Z) : Z := cast P_i64 value.
Definition f32_reinterpret_i32 (value : Z) : Z := cast P_f32 value.
Definition f64_reinterpret_i64 (value : Z) : Z := cast P_f64 value.

(** *** Wide arithmetic *)

Definition combine128 (lo hi : Z) : Z :=
  let lo := wrapu 64 lo in
  let hi := wrapu 64 hi in
  Z.lor (wraps 128 (Z.shiftl hi 64)) lo.

Definition split128 (value : Z) : Z * Z :=
  let hi := wraps 64 (Z.shiftr value 64) in
  let lo := wraps 64 value in
  (lo, hi).

Definition i64_add128 (lhs_lo lhs_hi rhs_lo rhs_hi : Z) : Z * Z :=
  let lhs := combine128 lhs_lo lhs_hi in
  let rhs := combine128 rhs_lo rhs_hi in
  let result := wraps 128 (lhs + rhs) in
  split128 result.

Definition i64_sub128 (lhs_lo lhs_hi rhs_lo rhs_hi : Z) : Z * Z :=
  let lhs := combine128 lhs_lo lhs_hi in
  let rhs := combine128 rhs_lo rhs_hi in
  let result := wraps 128 (lhs - rhs) in
  split128 result.

Definition i64_mul_wide_s (lhs rhs : Z) : Z * Z :=
  let result := wraps 128 (lhs * rhs) in
  split128 result.

Definition i64_mul_wide_u (lhs rhs : Z) : Z * Z :=
  let lhs := wrapu 64 lhs in
  let rhs := wrapu 64 rhs in
  let result := wrapu 128 (lhs * rhs) in
  split128 (wraps 128 result).

(** ** Properties *)

(** *** Division *)

Lemma rem_bounds w l r : 0 < w -> in_s w l -> in_s w r -> r <> 0 ->
  in_s w (wrapping_rem_s l r) /\ Z.abs (wrapping_rem_s l r) < Z.abs r /\
  0 <= wrapping_rem_s l r * l /\
  exists q, l = q * r + wrapping_rem_s l r /\ (r <> -1 -> q = Z.quot l r) /\ (r = -1 -> q = - l).
Proof.
  intros Hw [? ?] [? ?] Hr. unfold wrapping_rem_s, in_s. case_if; zb.
  - subst. split_and!; [lia..|]. exists (- l). split_and!; lia.
  - pose proof (Z.rem_bound_abs l r Hr). pose proof (Z.rem_sign_mul l r Hr).
    pose proof (Z.quot_rem' l r).
    split_and!; [nia..|lia|lia|]. exists (Z.quot l r). split_and!; lia.
Qed.

Lemma quot_m1 l : Z.quot l (-1) = - l.
Proof. change (-1) with (- (1)). by rewrite Z.quot_opp_r, Z.quot_1_r by lia. Qed.

Lemma quot_in_s w l r : 0 < w -> in_s w l -> in_s w r -> r <> 0 ->
  ~ (l = - 2 ^ (w - 1) /\ r = -1) -> in_s w (Z.quot l r).
Proof.
  intros Hw [? ?] [? ?] Hr Hov. unfold in_s.
  pose proof (Z.quot_rem' l r). pose proof (Z.rem_bound_abs l r Hr).
  pose proof (Z.rem_sign_mul l r Hr).
  destruct (decide (r = -1)) as [->|]; [rewrite quot_m1; lia|].
  destruct (decide (r = 1)) as [->|]; [rewrite Z.quot_1_r by lia; lia|].
  assert (Z.abs (Z.quot l r) * Z.abs r <= Z.abs l).
  { rewrite <-Z.quot_abs by done.
    pose proof (Z.mul_quot_le (Z.abs l) (Z.abs r) ltac:(lia) ltac:(lia)). lia. }
  assert (2 <= Z.abs r) by lia. nia.
Qed.

(** Signed division and remainder of [impl_integer!]: both trap on a zero
    divisor; only [MIN / -1] overflows, and its remainder is defined; otherwise
    quotient and remainder are in range and satisfy the division equation with
    the remainder taking the dividend's sign. *)
Theorem div_rem_s_spec w l r : 0 < w -> in_s w l -> in_s w r ->
  if decide (r = 0) then
    i_div_s (impl_integer w) l r = Err IntegerDivisionByZero /\
    i_rem_s (impl_integer w) l r = Err IntegerDivisionByZero
  else exists m, i_rem_s (impl_integer w) l r = Ok m /\ in_s w m /\
    Z.abs m < Z.abs r /\ 0 <= m * l /\
    if decide (l = - 2 ^ (w - 1) /\ r = -1) then
      i_div_s (impl_integer w) l r = Err IntegerOverflow /\ m = 0
    else exists q, i_div_s (impl_integer w) l r = Ok q /\ in_s w q /\ l = q * r + m.
Proof.
  intros Hw Hl Hr. case_decide as Hz; cbn [i_div_s i_rem_s impl_integer].
  { subst. done. }
  rewrite (proj2 (Z.eqb_neq r 0)) by done.
  destruct (rem_bounds w l r Hw Hl Hr Hz) as (? & ? & ? & q & Hq & Hq1 & Hq2).
  exists (wrapping_rem_s l r). split_and!; [done..|].
  unfold overflowing_div_s. case_decide as Hov.
  - destruct Hov as [-> ->]. rewrite !Z.eqb_refl. done.
  - exists (Z.quot l r).
    assert ((l =? - 2 ^ (w - 1)) && (r =? -1) = false)%bool as ->.
    { apply andb_false_iff. rewrite !Z.eqb_neq. lia. }
    split_and!; [done|by apply quot_in_s|].
    destruct (decide (r = -1)) as [->|]; [|rewrite <-Hq1 by done; done].
    rewrite quot_m1. rewrite Hq2 in Hq by done. lia.
Qed.

Lemma div_rem_u_spec w l r : 0 < w -> in_u w l -> in_u w r ->
  if decide (r = 0) then
    i_div_u (impl_integer w) l r = Err IntegerDivisionByZero /\
    i_rem_u (impl_integer w) l r = Err IntegerDivisionByZero
  else exists q m, i_div_u (impl_integer w) l r = Ok q /\
    i_rem_u (impl_integer w) l r = Ok m /\ in_u w q /\ 0 <= m < r /\ l = q * r + m.
Proof.
  intros Hw [? ?] [? ?]. case_decide as Hz; cbn [i_div_u i_rem_u impl_integer].
  { subst. done. }
  rewrite (proj2 (Z.eqb_neq r 0)) by done. cbn.
  exists (Z.quot l r), (Z.rem l r). rewrite Z.quot_div_nonneg, Z.rem_mod_nonneg by lia.
  pose proof (Z.div_mod l r Hz). pose proof (Z.mod_pos_bound l r ltac:(lia)).
  split_and!; try done; try lia.
  split; [apply Z.div_pos; lia|]. apply Z.div_lt_upper_bound; nia.
Qed.

(** *** Rotations *)

Lemma testbit_wrapu w z i : 0 <= w -> 0 <= i ->
  Z.testbit (wrapu w z) i = (i <? w) && Z.testbit z i.
Proof.
  intros. unfold wrapu. destruct (Z.ltb_spec i w).
  - by rewrite Z.mod_pow2_bits_low by lia.
  - by rewrite Z.mod_pow2_bits_high by lia.
Qed.

Lemma in_u_testbit_high w u i : 0 <= w <= i -> in_u w u -> Z.testbit u i = false.
Proof.
  intros ? Hu. rewrite <-(wrapu_small w u) by done.
  rewrite testbit_wrapu by lia. by rewrite (proj2 (Z.ltb_ge i w)) by lia.
Qed.

Lemma rotate_left_testbit w u n i : 0 < w -> in_u w u -> 0 <= i < w ->
  Z.testbit (rotate_left_u w u n) i = Z.testbit u ((i - n) mod w).
Proof.
  intros Hw Hu Hi. unfold rotate_left_u.
  pose proof (Z.mod_pos_bound n w Hw). set (k := n mod w) in *.
  rewrite testbit_wrapu, (proj2 (Z.ltb_lt i w)) by lia. cbn.
  rewrite Z.lor_spec, Z.shiftl_spec, Z.shiftr_spec by lia.
  assert ((i - n) mod w = if i <? k then i - k + w else i - k) as ->.
  { rewrite <-Zminus_mod_idemp_r. fold k. case_if; zb.
    - symmetry. apply (Z.mod_unique _ _ (-1)); lia.
    - apply Z.mod_small. lia. }
  case_if; zb.
  - rewrite (Z.testbit_neg_r u (i - k)) by lia. cbn. f_equal. lia.
  - rewrite (in_u_testbit_high w u (i + (w - k))) by (done || lia). by rewrite orb_false_r.
Qed.

Lemma rotate_right_testbit w u n i : 0 < w -> in_u w u -> 0 <= i < w ->
  Z.testbit (rotate_right_u w u n) i = Z.testbit u ((i + n) mod w).
Proof.
  intros Hw Hu Hi. unfold rotate_right_u.
  pose proof (Z.mod_pos_bound n w Hw). set (k := n mod w) in *.
  rewrite testbit_wrapu, (proj2 (Z.ltb_lt i w)) by lia. cbn.
  rewrite Z.lor_spec, Z.shiftl_spec, Z.shiftr_spec by lia.
  assert ((i + n) mod w = if w <=? i + k then i + k - w else i + k) as ->.
  { rewrite <-Zplus_mod_idemp_r. fold k. case_if; zb.
    - symmetry. apply (Z.mod_unique _ _ 1); lia.
    - apply Z.mod_small. lia. }
  case_if; zb.
  - rewrite (in_u_testbit_high w u (i + k)) by (done || lia). cbn. f_equal. lia.
  - rewrite (Z.testbit_neg_r u (i - (w - k))) by lia. by rewrite orb_false_r.
Qed.

Lemma in_u_bits_eq w a b : 0 <= w -> in_u w a -> in_u w b ->
  (forall i, 0 <= i < w -> Z.testbit a i = Z.testbit b i) -> a = b.
Proof.
  intros Hw Ha Hb H. apply Z.bits_inj'. intros i Hi.
  destruct (decide (i < w)); [apply H; lia|].
  by rewrite !(in_u_testbit_high w) by (done || lia).
Qed.

Lemma rotate_left_in_u w u n : 0 < w -> in_u w (rotate_left_u w u n).
Proof. intros. apply wrapu_range. lia. Qed.
Lemma rotate_right_in_u w u n : 0 < w -> in_u w (rotate_right_u w u n).
Proof. intros. apply wrapu_range. lia. Qed.

Lemma rotate_right_left w u n : 0 < w -> in_u w u ->
  rotate_right_u w (rotate_left_u w u n) n = u.
Proof.
  intros Hw Hu. apply (in_u_bits_eq w); [lia|by apply rotate_right_in_u|done|].
  intros i Hi. rewrite rotate_right_testbit by (by auto using rotate_left_in_u).
  pose proof (Z.mod_pos_bound (i + n) w Hw).
  rewrite rotate_left_testbit by (done || lia).
  rewrite Zminus_mod_idemp_l. f_equal. replace (i + n - n) with i by lia.
  by apply Z.mod_small.
Qed.

(** Rotations permute the bits of the operand: bit [i] of the result of [rotl]
    is bit [i - k mod w] of the operand, where [k] is the amount, and [rotr]
    undoes [rotl]. *)
Theorem rotl_rotr_spec w x k : 0 < w <= 64 -> in_s w x ->
  (forall i, 0 <= i < w ->
     Z.testbit (i_rotl (impl_integer w) x k) i = Z.testbit x ((i - wrapu 32 k) mod w)) /\
  (forall i, 0 <= i < w ->
     Z.testbit (i_rotr (impl_integer w) x k) i = Z.testbit x ((i + wrapu 32 k) mod w)) /\
  i_rotr (impl_integer w) (i_rotl (impl_integer w) x k) k = x.
Proof.
  intros Hw Hx. cbn [i_rotl i_rotr impl_integer].
  assert (forall z i, 0 <= i < w -> Z.testbit (wraps w z) i = Z.testbit z i) as Hs.
  { intros z i Hi. pose proof (wrapu_wraps w z ltac:(lia)) as E.
    apply (f_equal (fun u => Z.testbit u i)) in E.
    rewrite !testbit_wrapu, (proj2 (Z.ltb_lt i w)) in E by lia. done. }
  assert (forall z i, 0 <= i < w -> Z.testbit (wrapu w z) i = Z.testbit z i) as Hu.
  { intros z i Hi. rewrite testbit_wrapu, (proj2 (Z.ltb_lt i w)) by lia. done. }
  pose proof (wrapu_range w x ltac:(lia)).
  split_and!.
  - intros i Hi. rewrite Hs, rotate_left_testbit, Hu by (done || lia || (apply Z.mod_pos_bound; lia)). done.
  - intros i Hi. rewrite Hs, rotate_right_testbit, Hu by (done || lia || (apply Z.mod_pos_bound; lia)). done.
  - rewrite wrapu_wraps, (wrapu_small _ (rotate_left_u _ _ _)), rotate_right_left, wraps_wrapu
      by (done || lia || (apply rotate_left_in_u; lia)).
    by apply wraps_small; [lia|].
Qed.

(** *** Wide arithmetic *)

(** The 128-bit integer a pair of 64-bit halves denotes, signed and unsigned. *)
Definition value128_s (lo hi : Z) : Z := hi * 2 ^ 64 + wrapu 64 lo.
Definition value128_u (lo hi : Z) : Z := wrapu 64 hi * 2 ^ 64 + wrapu 64 lo.

Lemma combine128_spec lo hi : in_s 64 hi -> combine128 lo hi = value128_s lo hi.
Proof.
  intros Hhi. unfold combine128, value128_s.
  assert (wraps 128 (Z.shiftl (wrapu 64 hi) 64) = Z.shiftl hi 64) as ->.
  { rewrite !Z.shiftl_mul_pow2 by lia.
    rewrite <-(wraps_small 128 (hi * 2 ^ 64)) by (unfold in_s in *; lia).
    apply wraps_eq_wrapu; [lia|]. unfold wrapu.
    replace (2 ^ 128) with (2 ^ 64 * 2 ^ 64) by lia.
    rewrite !Z.mul_mod_distr_r by lia. by rewrite Zmod_mod. }
  apply lor_halves, wrapu_range. lia.
Qed.

Lemma split128_spec v : in_s 128 v ->
  let '(lo, hi) := split128 v in
  in_s 64 lo /\ in_s 64 hi /\ value128_s lo hi = v.
Proof.
  intros [? ?]. cbn. split_and!; [apply wraps_range; lia|apply wraps_range; lia|].
  unfold value128_s. rewrite wrapu_wraps, Z.shiftr_div_pow2 by lia.
  pose proof (Z.div_mod v (2 ^ 64) ltac:(lia)).
  rewrite wraps_small; [unfold wrapu; lia|lia|]. unfold in_s.
  split; [apply Z.div_le_lower_bound; lia|apply Z.div_lt_upper_bound; lia].
Qed.

(** [i64.add128] and [i64.sub128] compute modulo [2^128] on the integers the
    pairs of halves denote, and return halves in range. *)
Theorem add_sub128_spec a_lo a_hi b_lo b_hi :
  in_s 64 a_hi -> in_s 64 b_hi ->
  (let '(lo, hi) := i64_add128 a_lo a_hi b_lo b_hi in
   in_s 64 lo /\ in_s 64 hi /\
   value128_s lo hi = wraps 128 (value128_s a_lo a_hi + value128_s b_lo b_hi)) /\
  (let '(lo, hi) := i64_sub128 a_lo a_hi b_lo b_hi in
   in_s 64 lo /\ in_s 64 hi /\
   value128_s lo hi = wraps 128 (value128_s a_lo a_hi - value128_s b_lo b_hi)).
Proof.
  intros Ha Hb. unfold i64_add128, i64_sub128. rewrite !combine128_spec by done.
  split; apply split128_spec, wraps_range; lia.
Qed.

(** [i64.mul_wide_s] and [i64.mul_wide_u] are exact: the halves denote the
    full product. *)
Theorem mul_wide_spec a b : in_s 64 a -> in_s 64 b ->
  (let '(lo, hi) := i64_mul_wide_s a b in
   in_s 64 lo /\ in_s 64 hi /\ value128_s lo hi = a * b) /\
  (let '(lo, hi) := i64_mul_wide_u a b in
   in_s 64 lo /\ in_s 64 hi /\ value128_u lo hi = wrapu 64 a * wrapu 64 b).
Proof.
  intros Ha Hb. split.
  - unfold i64_mul_wide_s. rewrite wraps_small; [|lia|unfold in_s in *; nia].
    apply split128_spec. unfold in_s in *; nia.
  - unfold i64_mul_wide_u.
    pose proof (wrapu_range 64 a ltac:(lia)). pose proof (wrapu_range 64 b ltac:(lia)).
    set (x := wrapu 64 a) in *. set (y := wrapu 64 b) in *.
    assert (in_u 128 (x * y)) as Hxy by (unfold in_u in *; nia).
    rewrite (wrapu_small 128) by done.
    pose proof (split128_spec (wraps 128 (x * y)) ltac:(apply wraps_range; lia)) as Hs.
    destruct (split128 _) as [lo hi]. destruct Hs as (Hlo & Hhi & Hv).
    split_and!; [done..|].
    apply (f_equal (wrapu 128)) in Hv. rewrite wrapu_wraps, (wrapu_small 128 (x * y)) in Hv by (done || lia).
    rewrite <-Hv. unfold value128_s, value128_u.
    pose proof (wrapu_range 64 lo ltac:(lia)) as [? ?].
    unfold wrapu at 3. replace (2 ^ 128) with (2 ^ 64 * 2 ^ 64) by lia.
    rewrite Z.rem_mul_r by lia. rewrite Z.div_add_l, (Z.div_small (wrapu 64 lo)) by lia.
    rewrite (Z.add_comm (hi * _)), Z.mod_add, (Z.mod_small (wrapu 64 lo)) by lia.
    unfold wrapu at 1. rewrite Z.add_0_r. lia.
Qed.

(** *** Counting instructions *)

Lemma pos_trailing_zeros_spec p :
  Z.testbit (Zpos p) (pos_trailing_zeros p) = true /\ 0 <= pos_trailing_zeros p /\
  forall i, 0 <= i < pos_trailing_zeros p -> Z.testbit (Zpos p) i = false.
Proof.
  induction p as [p IH|p IH|]; cbn [pos_trailing_zeros]; [split_and!; [done|lia|lia]| |split_and!; [done|lia|lia]].
  destruct IH as (IH1 & IH2 & IH3). change (Zpos (xO p)) with (2 * Zpos p).
  split_and!; [|lia|].
  - rewrite Z.add_comm. change (pos_trailing_zeros p + 1) with (Z.succ (pos_trailing_zeros p)).
    by rewrite Z.testbit_even_succ by lia.
  - intros i Hi. destruct (decide (i = 0)) as [->|]; [apply Z.testbit_even_0|].
    replace i with (Z.succ (i - 1)) by lia. rewrite Z.testbit_even_succ by lia.
    apply IH3. lia.
Qed.

Lemma leading_zeros_spec w z : 0 < w ->
  0 <= leading_zeros w z <= w /\
  (forall i, w - leading_zeros w z <= i < w -> Z.testbit z i = false) /\
  (leading_zeros w z < w -> Z.testbit z (w - 1 - leading_zeros w z) = true).
Proof.
  intros Hw. unfold leading_zeros. pose proof (wrapu_range w z ltac:(lia)) as [? Hlt].
  assert (forall i, 0 <= i < w -> Z.testbit z i = Z.testbit (wrapu w z) i) as Hb.
  { intros i Hi. rewrite testbit_wrapu, (proj2 (Z.ltb_lt i w)) by lia. done. }
  destruct (Z.eqb_spec (wrapu w z) 0) as [E|].
  { split_and!; [lia|lia| |lia]. intros i Hi. rewrite Hb, E, Z.bits_0 by lia. done. }
  assert (0 <= Z.log2 (wrapu w z) < w).
  { split; [apply Z.log2_nonneg|]. apply Z.log2_lt_pow2; lia. }
  split_and!; [lia|lia|..].
  - intros i Hi. rewrite Hb by lia. apply Z.bits_above_log2; lia.
  - intros _. replace (w - 1 - (w - 1 - Z.log2 (wrapu w z))) with (Z.log2 (wrapu w z)) by lia.
    rewrite Hb by lia. apply Z.bit_log2. lia.
Qed.

Lemma trailing_zeros_spec w z : 0 < w ->
  0 <= trailing_zeros w z <= w /\
  (forall i, 0 <= i < trailing_zeros w z -> Z.testbit z i = false) /\
  (trailing_zeros w z < w -> Z.testbit z (trailing_zeros w z) = true).
Proof.
  intros Hw. unfold trailing_zeros. pose proof (wrapu_range w z ltac:(lia)) as [? Hlt].
  assert (forall i, 0 <= i < w -> Z.testbit z i = Z.testbit (wrapu w z) i) as Hb.
  { intros i Hi. rewrite testbit_wrapu, (proj2 (Z.ltb_lt i w)) by lia. done. }
  destruct (wrapu w z) as [|p|p] eqn:E; [|pose proof (pos_trailing_zeros_spec p) as (H1 & H2 & H3)|lia].
  { split_and!; [lia|lia| |lia]. intros i Hi. rewrite Hb, Z.bits_0 by lia. done. }
  assert (pos_trailing_zeros p < w).
  { destruct (decide (w <= pos_trailing_zeros p)); [|lia].
    rewrite (in_u_testbit_high w) in H1; [done|lia|]. unfold in_u. lia. }
  split_and!; [lia|lia|..].
  - intros i Hi. rewrite Hb by lia. by apply H3.
  - intros _. by rewrite Hb by lia.
Qed.

(** The population count as a sum over the bit positions. *)
Fixpoint bit_sum (n : nat) (z : Z) : Z :=
  match n with
  | O => 0
  | S n => Z.b2z (Z.testbit z (Z.of_nat n)) + bit_sum n z
  end.

Lemma bit_sum_shift n z : bit_sum (S n) z = Z.b2z (Z.testbit z 0) + bit_sum n (Z.div2 z).
Proof.
  induction n as [|n IH]; [cbn [bit_sum]; change (Z.of_nat 0) with 0; lia|].
  cbn [bit_sum] in IH |- *.
  replace (Z.testbit z (Z.of_nat (S n))) with (Z.testbit (Z.div2 z) (Z.of_nat n)); [lia|].
  rewrite Z.div2_spec, Z.shiftr_spec by lia. f_equal. lia.
Qed.

Lemma pos_count_ones_spec n p : Zpos p < 2 ^ Z.of_nat n -> pos_count_ones p = bit_sum n (Zpos p).
Proof.
  revert p. induction n as [|n IH]; [intros p; cbn; lia|].
  intros p Hp. rewrite Nat2Z.inj_succ, Z.pow_succ_r in Hp by lia.
  rewrite bit_sum_shift. destruct p as [p|p|]; cbn [pos_count_ones Z.div2 Pos.div2].
  - rewrite <-IH by lia. cbn. lia.
  - rewrite <-IH by lia. cbn. lia.
  - cbn. clear. induction n; cbn; [done|]. rewrite Z.bits_0. cbn. lia.
Qed.

Lemma bit_sum_bound n z : 0 <= bit_sum n z <= Z.of_nat n.
Proof.
  induction n as [|n IH]; cbn [bit_sum]; [lia|]. destruct (Z.testbit _ _); cbn [Z.b2z]; lia.
Qed.

Lemma bit_sum_ext n a b : (forall i, 0 <= i < Z.of_nat n -> Z.testbit a i = Z.testbit b i) ->
  bit_sum n a = bit_sum n b.
Proof.
  induction n as [|n IH]; cbn [bit_sum]; [done|]. intros H.
  rewrite (H (Z.of_nat n)), IH by (intros; try apply H; lia). done.
Qed.

Lemma count_ones_spec w z : 0 < w -> count_ones w z = bit_sum (Z.to_nat w) z.
Proof.
  intros Hw. pose proof (wrapu_range w z ltac:(lia)) as [? ?].
  rewrite (bit_sum_ext _ z (wrapu w z)).
  - unfold count_ones. destruct (wrapu w z) as [|p|p] eqn:E; [| |lia].
    + generalize (Z.to_nat w). clear. intros n.
      induction n; cbn [bit_sum]; [done|]. rewrite Z.bits_0, <-IHn. done.
    + apply pos_count_ones_spec. rewrite Z2Nat.id by lia. done.
  - intros i Hi. rewrite testbit_wrapu, (proj2 (Z.ltb_lt i w)) by lia. done.
Qed.

(** The counting instructions on the [w]-bit representation: [clz] zero bits
    precede the highest set bit, [ctz] zero bits follow the lowest one, both
    are [w] for zero, and [popcnt] is the number of set bits. *)
Theorem counting_spec w z : 8 <= w <= 64 ->
  let clz := i_leading_zeros (impl_integer w) z in
  let ctz := i_trailing_zeros (impl_integer w) z in
  0 <= clz <= w /\ 0 <= ctz <= w /\
  (forall i, w - clz <= i < w -> Z.testbit z i = false) /\
  (clz < w -> Z.testbit z (w - 1 - clz) = true) /\
  (forall i, 0 <= i < ctz -> Z.testbit z i = false) /\
  (ctz < w -> Z.testbit z ctz = true) /\
  i_count_ones (impl_integer w) z = bit_sum (Z.to_nat w) z.
Proof.
  intros Hw. cbn [i_leading_zeros i_trailing_zeros i_count_ones impl_integer].
  pose proof (leading_zeros_spec w z ltac:(lia)) as (? & ? & ?).
  pose proof (trailing_zeros_spec w z ltac:(lia)) as (? & ? & ?).
  pose proof (bit_sum_bound (Z.to_nat w) z).
  assert (w < 2 ^ (w - 1)).
  { apply Z.lt_le_trans with (2 ^ (3 + (w - 4))); [|apply Z.pow_le_mono_r; lia].
    rewrite Z.pow_add_r by lia.
    pose proof (Z.pow_gt_lin_r 2 (w - 4) ltac:(lia) ltac:(lia)). lia. }
  rewrite count_ones_spec by lia.
  rewrite !wraps_small by (unfold in_s; lia). split_and!; done || lia.
Qed.

(** *** Closure: every integer instruction returns a value of its type *)

(** *** Closure *)

Lemma in_s_shiftr w z : 0 < w -> in_s w z <-> Z.shiftr z (w - 1) = 0 \/ Z.shiftr z (w - 1) = -1.
Proof.
  intros Hw. rewrite Z.shiftr_div_pow2 by lia. unfold in_s.
  assert (0 < 2 ^ (w - 1)) by lia.
  pose proof (Z.div_mod z (2 ^ (w - 1)) ltac:(lia)).
  pose proof (Z.mod_pos_bound z (2 ^ (w - 1)) ltac:(lia)).
  split; [|nia]. intros [? ?]. assert (-1 <= z / 2 ^ (w - 1) < 1); [|lia].
  split; [apply Z.div_le_lower_bound; lia|apply Z.div_lt_upper_bound; lia].
Qed.

Lemma in_s_bitops w a b : 0 < w -> in_s w a -> in_s w b ->
  in_s w (Z.land a b) /\ in_s w (Z.lor a b) /\ in_s w (Z.lxor a b).
Proof.
  intros Hw. rewrite !in_s_shiftr by done.
  rewrite Z.shiftr_land, Z.shiftr_lor, Z.shiftr_lxor.
  intros [-> | ->] [-> | ->]; cbn; auto.
Qed.

(** *** The instructions of a width *)

(** The instructions that [wasm.rs] has for both widths. *)
Record IntegerInstrs : Type := {
  n_add : Z -> Z -> Z; n_sub : Z -> Z -> Z; n_mul : Z -> Z -> Z;
  n_and : Z -> Z -> Z; n_or : Z -> Z -> Z; n_xor : Z -> Z -> Z;
  n_shl : Z -> Z -> Z; n_shr_s : Z -> Z -> Z; n_shr_u : Z -> Z -> Z;
  n_rotl : Z -> Z -> Z; n_rotr : Z -> Z -> Z;
  n_div_s : Z -> Z -> res TrapCode Z; n_rem_s : Z -> Z -> res TrapCode Z;
  n_div_u : Z -> Z -> res TrapCode Z; n_rem_u : Z -> Z -> res TrapCode Z;
  n_clz : Z -> Z; n_ctz : Z -> Z; n_popcnt : Z -> Z; n_eqz : Z -> bool;
  n_eq : Z -> Z -> bool; n_ne : Z -> Z -> bool;
  n_lt_s : Z -> Z -> bool; n_le_s : Z -> Z -> bool; n_gt_s : Z -> Z -> bool; n_ge_s : Z -> Z -> bool;
  n_lt_u : Z -> Z -> bool; n_le_u : Z -> Z -> bool; n_gt_u : Z -> Z -> bool; n_ge_u : Z -> Z -> bool;
  n_extend8_s : Z -> Z; n_extend16_s : Z -> Z
}.

Definition i32_instrs : IntegerInstrs := {|
  n_add := i32_add; n_sub := i32_sub; n_mul := i32_mul;
  n_and := i32_bitand; n_or := i32_bitor; n_xor := i32_bitxor;
  n_shl := i32_shl; n_shr_s := i32_shr_s; n_shr_u := i32_shr_u; n_rotl := i32_rotl; n_rotr := i32_rotr;
  n_div_s := i32_div_s; n_rem_s := i32_rem_s; n_div_u := i32_div_u; n_rem_u := i32_rem_u;
  n_clz := i32_clz; n_ctz := i32_ctz; n_popcnt := i32_popcnt; n_eqz := i32_eqz; n_eq := i32_eq; n_ne := i32_ne;
  n_lt_s := i32_lt_s; n_le_s := i32_le_s; n_gt_s := i32_gt_s; n_ge_s := i32_ge_s;
  n_lt_u := i32_lt_u; n_le_u := i32_le_u; n_gt_u := i32_gt_u; n_ge_u := i32_ge_u;
  n_extend8_s := i32_extend8_s; n_extend16_s := i32_extend16_s
|}.
Definition i64_instrs : IntegerInstrs := {|
  n_add := i64_add; n_sub := i64_sub; n_mul := i64_mul;
  n_and := i64_bitand; n_or := i64_bitor; n_xor := i64_bitxor;
  n_shl := i64_shl; n_shr_s := i64_shr_s; n_shr_u := i64_shr_u; n_rotl := i64_rotl; n_rotr := i64_rotr;
  n_div_s := i64_div_s; n_rem_s := i64_rem_s; n_div_u := i64_div_u; n_rem_u := i64_rem_u;
  n_clz := i64_clz; n_ctz := i64_ctz; n_popcnt := i64_popcnt; n_eqz := i64_eqz; n_eq := i64_eq; n_ne := i64_ne;
  n_lt_s := i64_lt_s; n_le_s := i64_le_s; n_gt_s := i64_gt_s; n_ge_s := i64_ge_s;
  n_lt_u := i64_lt_u; n_le_u := i64_le_u; n_gt_u := i64_gt_u; n_ge_u := i64_ge_u;
  n_extend8_s := i64_extend8_s; n_extend16_s := i64_extend16_s
|}.

(** [r] is the value of [w] bits that is [z] modulo [2^w]. *)
Definition is_mod (w r z : Z) : Prop := in_s w r /\ (2 ^ w | r - z).

Lemma is_mod_wraps w z : 0 < w -> is_mod w (wraps w z) z.
Proof.
  intros Hw. split; [by apply wraps_range|]. exists (- ((z + 2 ^ (w - 1)) / 2 ^ w)).
  unfold wraps. pose proof (Z.div_mod (z + 2 ^ (w - 1)) (2 ^ w) ltac:(lia)). lia.
Qed.

(** Arithmetic modulo [2^w], bit operations, shifts by the amount modulo [w] and
    rotations. *)
Definition arithmetic_ok (w : Z) (I : IntegerInstrs) : Prop :=
  forall a b, in_s w a -> in_s w b ->
  let k := b mod w in
  is_mod w (n_add I a b) (a + b) /\ is_mod w (n_sub I a b) (a - b) /\ is_mod w (n_mul I a b) (a * b) /\
  (in_s w (n_and I a b) /\ in_s w (n_or I a b) /\ in_s w (n_xor I a b) /\
   forall i, 0 <= i < w ->
     Z.testbit (n_and I a b) i = (Z.testbit a i && Z.testbit b i)%bool /\
     Z.testbit (n_or I a b) i = (Z.testbit a i || Z.testbit b i)%bool /\
     Z.testbit (n_xor I a b) i = xorb (Z.testbit a i) (Z.testbit b i)) /\
  is_mod w (n_shl I a b) (a * 2 ^ k) /\ n_shr_s I a b = a / 2 ^ k /\
  n_shr_u I (wrapu w a) (wrapu w b) = wrapu w a / 2 ^ k /\
  (in_s w (n_rotl I a b) /\ in_s w (n_rotr I a b) /\
   forall i, 0 <= i < w ->
     Z.testbit (n_rotl I a b) i = Z.testbit a ((i - k) mod w) /\
     Z.testbit (n_rotr I a b) i = Z.testbit a ((i + k) mod w)).

(** Division truncates and the remainder has the sign of the dividend.  A zero
    divisor traps; of the others only the quotient of the least number by -1
    overflows, and its remainder is 0. *)
Definition division_ok (w : Z) (I : IntegerInstrs) : Prop :=
  (forall a b, in_s w a -> in_s w b ->
    n_div_s I a b = (if decide (b = 0) then Err IntegerDivisionByZero
                     else if decide (a = - 2 ^ (w - 1) /\ b = -1) then Err IntegerOverflow else Ok (Z.quot a b)) /\
    n_rem_s I a b = (if decide (b = 0) then Err IntegerDivisionByZero else Ok (Z.rem a b)) /\
    (b <> 0 -> ~ (a = - 2 ^ (w - 1) /\ b = -1) -> in_s w (Z.quot a b)) /\ (b <> 0 -> in_s w (Z.rem a b))) /\
  (forall a b, in_u w a -> in_u w b ->
    n_div_u I a b = (if decide (b = 0) then Err IntegerDivisionByZero else Ok (a / b)) /\
    n_rem_u I a b = (if decide (b = 0) then Err IntegerDivisionByZero else Ok (a mod b))).

(** [clz] zero bits precede the highest set bit, [ctz] zero bits follow the lowest
    one, both are [w] for zero and [popcnt] is the number of set bits. *)
Definition counting_ok (w : Z) (I : IntegerInstrs) : Prop :=
  forall a, in_s w a ->
  (0 <= n_clz I a <= w /\ (forall i, w - n_clz I a <= i < w -> Z.testbit a i = false) /\
   (n_clz I a < w -> Z.testbit a (w - 1 - n_clz I a) = true)) /\
  (0 <= n_ctz I a <= w /\ (forall i, 0 <= i < n_ctz I a -> Z.testbit a i = false) /\
   (n_ctz I a < w -> Z.testbit a (n_ctz I a) = true)) /\
  n_popcnt I a = bit_sum (Z.to_nat w) a.

(** The operands of the comparisons are signed or unsigned values; [extendN_s]
    takes its operand for a value of [N] bits. *)
Definition comparison_ok (w : Z) (I : IntegerInstrs) : Prop :=
  forall a b, n_eqz I a = bool_decide (a = 0) /\ n_eq I a b = bool_decide (a = b) /\
  n_ne I a b = bool_decide (a <> b) /\
  n_lt_s I a b = bool_decide (a < b) /\ n_le_s I a b = bool_decide (a <= b) /\
  n_gt_s I a b = bool_decide (b < a) /\ n_ge_s I a b = bool_decide (b <= a) /\
  n_lt_u I a b = bool_decide (a < b) /\ n_le_u I a b = bool_decide (a <= b) /\
  n_gt_u I a b = bool_decide (b < a) /\ n_ge_u I a b = bool_decide (b <= a) /\
  is_mod 8 (n_extend8_s I a) a /\ is_mod 16 (n_extend16_s I a) a.

Definition instrs_ok (w : Z) (I : IntegerInstrs) : Prop :=
  arithmetic_ok w I /\ division_ok w I /\ counting_ok w I /\ comparison_ok w I.

Lemma amount_mod w k : w = 32 \/ w = 64 -> wrapu 32 k mod w = k mod w.
Proof.
  intros [-> | ->]; apply Z.mod_mod_divide; [by exists (2 ^ 27)|by exists (2 ^ 26)].
Qed.
Lemma amount_wrapu w k : w = 32 \/ w = 64 -> wrapu w k mod w = k mod w.
Proof. intros [-> | ->]; apply Z.mod_mod_divide; [by exists (2 ^ 27)|by exists (2 ^ 58)]. Qed.

Section Width.
Variable (w : Z).
Hypothesis (Hw : w = 32 \/ w = 64).

Lemma shl_spec a b : is_mod w (i_shl (impl_integer w) a b) (a * 2 ^ (b mod w)).
Proof.
  cbn. rewrite amount_mod, Z.shiftl_mul_pow2 by (done || (apply Z.mod_pos_bound; lia)). apply is_mod_wraps. lia.
Qed.
Lemma shr_spec a b : i_shr_s (impl_integer w) a b = a / 2 ^ (b mod w) /\
  i_shr_u (impl_integer w) (wrapu w a) (wrapu w b) = wrapu w a / 2 ^ (b mod w).
Proof.
  cbn. rewrite !amount_mod, amount_wrapu, !Z.shiftr_div_pow2 by (done || (apply Z.mod_pos_bound; lia)). done.
Qed.
Lemma rotl_rotr_amount a b : in_s w a ->
  in_s w (i_rotl (impl_integer w) a b) /\ in_s w (i_rotr (impl_integer w) a b) /\
  forall i, 0 <= i < w ->
    Z.testbit (i_rotl (impl_integer w) a b) i = Z.testbit a ((i - b mod w) mod w) /\
    Z.testbit (i_rotr (impl_integer w) a b) i = Z.testbit a ((i + b mod w) mod w).
Proof.
  intros Ha. destruct (rotl_rotr_spec w a b ltac:(lia) Ha) as (Hl & Hr & _).
  split_and!; [apply wraps_range; lia..|]. intros i Hi. rewrite Hl, Hr by done.
  split; f_equal; rewrite <-(amount_mod w b) by done; [by rewrite Zminus_mod_idemp_r|by rewrite Zplus_mod_idemp_r].
Qed.

Lemma wrapping_rem_quot a b : wrapping_rem_s a b = Z.rem a b.
Proof.
  unfold wrapping_rem_s. destruct (Z.eqb_spec b (-1)) as [->|]; [|done].
  pose proof (Z.quot_rem' a (-1)) as H. rewrite quot_m1 in H. lia.
Qed.
Lemma division_spec a b : in_s w a -> in_s w b ->
  i_div_s (impl_integer w) a b = (if decide (b = 0) then Err IntegerDivisionByZero
    else if decide (a = - 2 ^ (w - 1) /\ b = -1) then Err IntegerOverflow else Ok (Z.quot a b)) /\
  i_rem_s (impl_integer w) a b = (if decide (b = 0) then Err IntegerDivisionByZero else Ok (Z.rem a b)) /\
  (b <> 0 -> ~ (a = - 2 ^ (w - 1) /\ b = -1) -> in_s w (Z.quot a b)) /\ (b <> 0 -> in_s w (Z.rem a b)).
Proof.
  intros Ha Hb. split_and!.
  - cbn. case_decide as Hz; [by subst|]. rewrite (proj2 (Z.eqb_neq b 0)) by done. unfold overflowing_div_s.
    case_decide as Hov; [by destruct Hov as [-> ->]; rewrite !Z.eqb_refl|].
    destruct (Z.eqb_spec a (- 2 ^ (w - 1))), (Z.eqb_spec b (-1)); cbn; [by destruct Hov|done..].
  - cbn. case_decide as Hz; [by subst|]. by rewrite (proj2 (Z.eqb_neq b 0)), wrapping_rem_quot by done.
  - intros. apply quot_in_s; done || lia.
  - intros. rewrite <-wrapping_rem_quot. apply rem_bounds; done || lia.
Qed.
Lemma division_u_spec a b : in_u w a -> in_u w b ->
  i_div_u (impl_integer w) a b = (if decide (b = 0) then Err IntegerDivisionByZero else Ok (a / b)) /\
  i_rem_u (impl_integer w) a b = (if decide (b = 0) then Err IntegerDivisionByZero else Ok (a mod b)).
Proof.
  intros [? ?] [? ?]. cbn. case_decide as Hz; [by subst|]. rewrite (proj2 (Z.eqb_neq b 0)) by done.
  by rewrite Z.quot_div_nonneg, Z.rem_mod_nonneg by lia.
Qed.

(** The bit operations are those of the Standard Library on any integers. *)
Lemma bitops_spec a b : in_s w a -> in_s w b ->
  in_s w (Z.land a b) /\ in_s w (Z.lor a b) /\ in_s w (Z.lxor a b) /\
  forall i, 0 <= i < w ->
    Z.testbit (Z.land a b) i = (Z.testbit a i && Z.testbit b i)%bool /\
    Z.testbit (Z.lor a b) i = (Z.testbit a i || Z.testbit b i)%bool /\
    Z.testbit (Z.lxor a b) i = xorb (Z.testbit a i) (Z.testbit b i).
Proof.
  intros Ha Hb. destruct (in_s_bitops w a b ltac:(lia) Ha Hb) as (? & ? & ?).
  split_and!; [done..|]. intros i _. by rewrite Z.land_spec, Z.lor_spec, Z.lxor_spec.
Qed.
End Width.

Lemma instrs_arithmetic_ok : arithmetic_ok 32 i32_instrs /\ arithmetic_ok 64 i64_instrs.
Proof.
  assert (32 = 32 \/ 32 = 64) as H32 by lia. assert (64 = 32 \/ 64 = 64) as H64 by lia.
  split; intros a b Ha Hb k; (do 3 (split; [by apply is_mod_wraps|])).
  - exact (conj (bitops_spec 32 H32 a b Ha Hb) (conj (shl_spec 32 H32 a b) (conj (proj1 (shr_spec 32 H32 a b))
      (conj (proj2 (shr_spec 32 H32 a b)) (rotl_rotr_amount 32 H32 a b Ha))))).
  - exact (conj (bitops_spec 64 H64 a b Ha Hb) (conj (shl_spec 64 H64 a b) (conj (proj1 (shr_spec 64 H64 a b))
      (conj (proj2 (shr_spec 64 H64 a b)) (rotl_rotr_amount 64 H64 a b Ha))))).
Qed.
Lemma instrs_division_ok : division_ok 32 i32_instrs /\ division_ok 64 i64_instrs.
Proof.
  split; (split; intros a b Ha Hb; [apply division_spec; by auto|]);
    [apply (division_u_spec 32); by auto|apply (division_u_spec 64); by auto].
Qed.
Lemma instrs_counting_ok : counting_ok 32 i32_instrs /\ counting_ok 64 i64_instrs.
Proof.
  split; intros a _; [destruct (counting_spec 32 a ltac:(lia)) as (? & ? & ? & ? & ? & ? & ?)
    |destruct (counting_spec 64 a ltac:(lia)) as (? & ? & ? & ? & ? & ? & ?)];
    (split; [split; [done|split; done]|split; [split; [done|split; done]|done]]).
Qed.

(** A number of fewer bits is a value of a wider type. *)
Lemma sign_extend_is_mod self from a : prim_signed self = true -> prim_signed from = true ->
  prim_bits from <= prim_bits self -> is_mod (prim_bits from) (sign_extend_from self from a) a.
Proof.
  intros Hs Hf Hle. pose proof (prim_bits_pos from). unfold sign_extend_from, cast at 1. rewrite Hs.
  unfold cast. rewrite Hf. pose proof (wraps_range (prim_bits from) a ltac:(lia)) as [? ?].
  assert (2 ^ (prim_bits from - 1) <= 2 ^ (prim_bits self - 1)) by (apply Z.pow_le_mono_r; lia).
  rewrite (wraps_small (prim_bits self)) by (unfold in_s; lia). apply is_mod_wraps. lia.
Qed.

Lemma instrs_comparison_ok : comparison_ok 32 i32_instrs /\ comparison_ok 64 i64_instrs.
Proof.
  assert (forall a b, (a >? b) = bool_decide (b < a)) as Hgt.
  { intros a b. rewrite Z.gtb_ltb. case_bool_decide; by first [apply Z.ltb_lt|apply Z.ltb_ge; lia]. }
  assert (forall a b, (a >=? b) = bool_decide (b <= a)) as Hge.
  { intros a b. rewrite Z.geb_leb. case_bool_decide; by first [apply Z.leb_le|apply Z.leb_gt; lia]. }
  assert (forall a b, (a =? b) = bool_decide (a = b)) as Heq.
  { intros a b. case_bool_decide; by first [apply Z.eqb_eq|apply Z.eqb_neq]. }
  assert (forall a b, (a <? b) = bool_decide (a < b)) as Hlt by (intros a b; by rewrite <-Hgt, Z.gtb_ltb).
  assert (forall a b, (a <=? b) = bool_decide (a <= b)) as Hle by (intros a b; by rewrite <-Hge, Z.geb_leb).
  assert (forall a b, negb (a =? b) = bool_decide (a <> b)) as Hne.
  { intros a b. rewrite Heq. by repeat case_bool_decide. }
  split; intros a b; repeat (match goal with |- _ /\ _ => split end); auto;
    by first [apply (Heq _ 0)|apply Hne|apply (sign_extend_is_mod P_i32 P_i8)|apply (sign_extend_is_mod P_i32 P_i16)
       |apply (sign_extend_is_mod P_i64 P_i8)|apply (sign_extend_is_mod P_i64 P_i16)].
Qed.

(** The conversions between the widths. *)
Lemma conversions_ok a :
  is_mod 32 (i32_wrap_i64 a) a /\ is_mod 32 (i64_extend32_s a) a /\
  i64_extend_i32_s a = a /\ i64_extend_i32_u a = a /\
  is_mod 32 (i32_reinterpret_f32 a) a /\ is_mod 64 (i64_reinterpret_f64 a) a /\
  f32_reinterpret_i32 a = a mod 2 ^ 32 /\ f64_reinterpret_i64 a = a mod 2 ^ 64.
Proof.
  split; [by apply is_mod_wraps|]. split; [by apply (sign_extend_is_mod P_i64 P_i32)|]. split; [done|]. split; [done|].
  split; [by apply is_mod_wraps|]. split; [by apply is_mod_wraps|]. done.
Qed.


(** Shifting by an amount is shifting by the [ShiftAmount] the translator
    computes for it. *)
Lemma shl_shift_amount (p : Prim) x k : (p = P_i32 \/ p = P_i64) ->
  into_shift_amount p k ≫= (fun s => Some (wraps (prim_bits p) (Z.shiftl x (shamt s)))) =
  Some (i_shl (impl_integer (prim_bits p)) x k).
Proof.
  intros Hp. rewrite into_shift_amount_spec by (by destruct Hp as [-> | ->]).
  cbn [i_shl impl_integer shamt option_bind mbind].
  do 3 f_equal. unfold wrapu. symmetry. apply Z.mod_mod_divide.
  destruct Hp as [-> | ->]; [by exists (2 ^ 27)|by exists (2 ^ 26)].
Qed.

(** ** Instances *)

Lemma div_rem_s_spec_witness :
  exists m, i_rem_s (impl_integer 32) (-7) 2 = Ok m /\ m = -1.
Proof.
  pose proof (div_rem_s_spec 32 (-7) 2 eq_refl ltac:(unfold in_s; lia) ltac:(unfold in_s; lia)) as H.
  rewrite decide_False in H by lia. destruct H as (m & E & _). exists m. split; [exact E|].
  assert (E' : i_rem_s (impl_integer 32) (-7) 2 = Ok (-1)) by (vm_compute; reflexivity). congruence.
Defined.

Lemma rotl_rotr_spec_witness :
  i_rotr (impl_integer 32) (i_rotl (impl_integer 32) (-5) 35) 35 = -5.
Proof.
  exact (proj2 (proj2 (rotl_rotr_spec 32 (-5) 35 ltac:(lia) ltac:(unfold in_s; lia)))).
Defined.

Lemma mul_wide_spec_witness :
  let '(lo, hi) := i64_mul_wide_s (-3) (2 ^ 62) in value128_s lo hi = -3 * 2 ^ 62.
Proof.
  pose proof (mul_wide_spec (-3) (2 ^ 62) ltac:(unfold in_s; lia) ltac:(unfold in_s; lia)) as [H _].
  destruct (i64_mul_wide_s (-3) (2 ^ 62)) as [lo hi]. destruct H as (_ & _ & H). exact H.
Defined.

Lemma counting_spec_witness :
  i_count_ones (impl_integer 64) (-1) = bit_sum 64 (-1) /\ i_leading_zeros (impl_integer 64) 1 = 63.
Proof.
  split; [|vm_compute; reflexivity].
  pose proof (counting_spec 64 (-1) ltac:(lia)) as (_ & _ & _ & _ & _ & _ & H). exact H.
Defined.
