(* ===== verification/Fuel.v ===== *)
(** * Fuel metering

    [crates/core/src/fuel.rs]: the fuel costs, the provider that falls back to
    the default costs, and the fuel counter.  Custom costs are host code: any
    value of [FuelCosts]. *)

From Stdlib Require Import ZArith Lia.
From stdpp Require Import base option decidable numbers.
From S2P Require Import Prelude.
Local Open Scope Z_scope.

(** ** Costs

    The [FuelCosts] trait: what its methods return.  [bytes_per_fuel] is a
    [NonZeroU64]. *)
Record FuelCosts : Type := {
  costs_base : Z;
  costs_load : Z;
  costs_instance : Z;
  costs_store : Z;
  costs_call : Z;
  costs_simd : Z;
  costs_bytes_per_fuel : positive
}.

(** An implementation that keeps the trait's default methods. *)
Definition FuelCosts_defaults (base : Z) (bytes_per_fuel : positive) : FuelCosts := {|
  costs_base := base; costs_load := base; costs_instance := base;
  costs_store := base; costs_call := base; costs_simd := base;
  costs_bytes_per_fuel := bytes_per_fuel
|}.

Definition DefaultFuelCosts : FuelCosts := FuelCosts_defaults 1 64.

Record FuelCostsProvider : Type := { custom : option FuelCosts }.

Definition FuelCostsProvider_default : FuelCostsProvider := {| custom := None |}.

Section Provider.
Implicit Type self : FuelCostsProvider.

Definition FuelCostsProvider_apply self (f : FuelCosts -> Z) : Z :=
  match custom self with
  | Some costs => f costs
  | None => f DefaultFuelCosts
  end.

Definition FuelCostsProvider_base self : Z := FuelCostsProvider_apply self costs_base.
Definition FuelCostsProvider_instance self : Z := FuelCostsProvider_apply self costs_instance.
Definition FuelCostsProvider_load self : Z := FuelCostsProvider_apply self costs_load.
Definition FuelCostsProvider_store self : Z := FuelCostsProvider_apply self costs_store.
Definition FuelCostsProvider_call self : Z := FuelCostsProvider_apply self costs_call.
Definition FuelCostsProvider_simd self : Z := FuelCostsProvider_apply self costs_simd.

Definition FuelCostsProvider_bytes_per_fuel self : positive :=
  match custom self with
  | Some costs => costs_bytes_per_fuel costs
  | None => costs_bytes_per_fuel DefaultFuelCosts
  end.

Definition fuel_for_copying_bytes self (len_bytes : Z) : Z :=
  len_bytes / Zpos (FuelCostsProvider_bytes_per_fuel self).

(** [size] is [size_of::<T>()]. *)
Definition fuel_for_copying_values self (size len_values : Z) : Z :=
  match try_from_u 64 size with
  | None => 2 ^ 64 - 1
  | Some bytes_per_value =>
      fuel_for_copying_bytes self (saturating_mul 64 len_values bytes_per_value)
  end.
End Provider.

(** ** The counter *)

Inductive FuelError : Type :=
| FuelMeteringDisabled
| FuelError_OutOfFuel (required_fuel : Z).

Record Fuel : Type := {
  fuel_remaining : Z;
  fuel_enabled : bool;
  fuel_costs : FuelCostsProvider
}.

Definition Fuel_new (enabled : bool) (costs : FuelCostsProvider) : Fuel :=
  {| fuel_remaining := 0; fuel_enabled := enabled; fuel_costs := costs |}.

Definition set_fuel_remaining (r : Z) (f : Fuel) : Fuel :=
  {| fuel_remaining := r; fuel_enabled := fuel_enabled f; fuel_costs := fuel_costs f |}.

Definition is_fuel_metering_enabled (f : Fuel) : bool := fuel_enabled f.

Definition check_fuel_metering_enabled : M Fuel FuelError unit := fun self =>
  if negb (is_fuel_metering_enabled self) then (Err FuelMeteringDisabled, self)
  else (Ok tt, self).

Definition set_fuel (fuel : Z) : M Fuel FuelError unit :=
  check_fuel_metering_enabled;;
  self ← get_st;
  put_st (set_fuel_remaining fuel self).

Definition get_fuel : M Fuel FuelError Z :=
  check_fuel_metering_enabled;;
  self ← get_st;
  mret (fuel_remaining self).

Definition consume_fuel_unchecked (delta : Z) : M Fuel FuelError Z :=
  self ← get_st;
  r ← lift (ok_or (checked_sub (fuel_remaining self) delta) (FuelError_OutOfFuel delta));
  put_st (set_fuel_remaining r self);;
  mret r.

Definition consume_fuel (f : FuelCostsProvider -> Z) : M Fuel FuelError Z :=
  check_fuel_metering_enabled;;
  self ← get_st;
  consume_fuel_unchecked (f (fuel_costs self)).

Definition consume_fuel_if (f : FuelCostsProvider -> Z) : M Fuel FuelError unit :=
  self ← get_st;
  if negb (is_fuel_metering_enabled self) then mret tt
  else consume_fuel_unchecked (f (fuel_costs self));; mret tt.

(** ** Properties *)

(** The counter of a [u64]. *)
Definition Fuel_wf (f : Fuel) : Prop := in_u 64 (fuel_remaining f).

Lemma consume_fuel_unchecked_eq delta f :
  consume_fuel_unchecked delta f =
  if delta <=? fuel_remaining f
  then (Ok (fuel_remaining f - delta), set_fuel_remaining (fuel_remaining f - delta) f)
  else (Err (FuelError_OutOfFuel delta), f).
Proof.
  unfold consume_fuel_unchecked, checked_sub. unfold_m.
  by destruct (delta <=? fuel_remaining f).
Qed.

Lemma consume_fuel_eq c f :
  consume_fuel c f =
  if fuel_enabled f then consume_fuel_unchecked (c (fuel_costs f)) f
  else (Err FuelMeteringDisabled, f).
Proof.
  unfold consume_fuel, check_fuel_metering_enabled, is_fuel_metering_enabled. unfold_m.
  by destruct (fuel_enabled f).
Qed.

(** What charging does to the counter when fuel metering may be off. *)
Definition charge_if (cost : Z) (f : Fuel) : res FuelError unit * Fuel :=
  if negb (fuel_enabled f) then (Ok tt, f)
  else if cost <=? fuel_remaining f
       then (Ok tt, set_fuel_remaining (fuel_remaining f - cost) f)
       else (Err (FuelError_OutOfFuel cost), f).

Lemma consume_fuel_if_eq c f : consume_fuel_if c f = charge_if (c (fuel_costs f)) f.
Proof.
  unfold consume_fuel_if, charge_if, is_fuel_metering_enabled. unfold_m.
  destruct (fuel_enabled f); [|done]. cbn [negb].
  rewrite consume_fuel_unchecked_eq. by destruct (_ <=? _).
Qed.

(** Charging never panics, never makes the counter wrap, subtracts exactly the
    cost when it succeeds and leaves the counter untouched when it fails. *)
Theorem consume_fuel_spec c f : Fuel_wf f -> 0 <= c (fuel_costs f) ->
  let cost := c (fuel_costs f) in
  (match consume_fuel c f with
   | (Ok r, f') => fuel_enabled f = true /\ cost + r = fuel_remaining f /\
                   f' = set_fuel_remaining r f /\ Fuel_wf f'
   | (Err FuelMeteringDisabled, f') => fuel_enabled f = false /\ f' = f
   | (Err (FuelError_OutOfFuel n), f') =>
       fuel_enabled f = true /\ n = cost /\ fuel_remaining f < cost /\ f' = f
   | (Panic, _) => False
   end) /\
  (match consume_fuel_if c f with
   | (Ok _, f') => f' = (if fuel_enabled f then set_fuel_remaining (fuel_remaining f - cost) f else f)
                   /\ Fuel_wf f'
   | (Err e, f') => fuel_enabled f = true /\ e = FuelError_OutOfFuel cost /\
                    fuel_remaining f < cost /\ f' = f
   | (Panic, _) => False
   end).
Proof.
  intros Hf Hc cost. rewrite consume_fuel_eq, consume_fuel_if_eq, consume_fuel_unchecked_eq.
  unfold charge_if. fold cost. fold cost in Hc. unfold Fuel_wf, in_u in *.
  destruct (fuel_enabled f) eqn:He; cbn [negb]; destruct (Z.leb_spec cost (fuel_remaining f));
    cbn; split_and!; done || lia.
Qed.

(** The documentation of [fuel_for_copying_values] promises [u64::MAX] on
    overflow; the saturated byte count is still divided by [bytes_per_fuel]. *)
Theorem fuel_for_copying_values_overflow self size len :
  0 < size < 2 ^ 64 -> 2 ^ 64 <= len * size ->
  fuel_for_copying_values self size len =
    (2 ^ 64 - 1) / Zpos (FuelCostsProvider_bytes_per_fuel self) /\
  (fuel_for_copying_values self size len = 2 ^ 64 - 1 <->
   FuelCostsProvider_bytes_per_fuel self = 1%positive).
Proof.
  intros ? Hlen. unfold fuel_for_copying_values, fuel_for_copying_bytes, try_from_u.
  rewrite (proj2 (Z.ltb_lt _ _)) by lia.
  assert (saturating_mul 64 len size = 2 ^ 64 - 1) as -> by (unfold saturating_mul; lia).
  split; [done|]. set (b := FuelCostsProvider_bytes_per_fuel self). split.
  - intros E. destruct (decide (b = 1%positive)); [done|]. exfalso.
    assert (2 <= Zpos b) by lia.
    assert ((2 ^ 64 - 1) / Zpos b < 2 ^ 64 - 1); [|lia]. apply Z.div_lt_upper_bound; lia.
  - intros ->. by rewrite Z.div_1_r.
Qed.

Lemma fuel_for_copying_values_overflow_witness :
  exists n, fuel_for_copying_values FuelCostsProvider_default 8 (2 ^ 62) = n /\ n <> 2 ^ 64 - 1.
Proof.
  destruct (fuel_for_copying_values_overflow FuelCostsProvider_default 8 (2 ^ 62)) as [E1 E2];
    [lia..|]. eexists. split; [exact E1|]. vm_compute. discriminate.
Defined.

(** Ten units of fuel, charged three base costs. *)
Lemma consume_fuel_spec_witness :
  let f := set_fuel_remaining 10 (Fuel_new true FuelCostsProvider_default) in
  let c := fun p => 3 * FuelCostsProvider_base p in
  consume_fuel c f = (Ok 7, set_fuel_remaining 7 f) /\ 3 + 7 = fuel_remaining f.
Proof.
  intros f c. assert (Fuel_wf f) as Hf by (split; vm_compute; [discriminate|reflexivity]).
  assert (0 <= c (fuel_costs f)) as Hc by (vm_compute; discriminate).
  destruct (consume_fuel_spec c f Hf Hc) as [(_ & E & _) _].
  split; [reflexivity|exact E].
Defined.

Lemma fuel_for_copying_values_nonneg self size len :
  0 <= size -> 0 <= len -> 0 <= fuel_for_copying_values self size len.
Proof.
  intros. unfold fuel_for_copying_values, fuel_for_copying_bytes, try_from_u.
  case_if; [|lia]. unfold saturating_mul. apply Z.div_pos; [|done]. nia.
Qed.
