(* ===== verification/Limiter.v ===== *)
(** * Resource limiters

    [crates/core/src/limiter.rs] and the error types of memories and tables:
    the [ResourceLimiter] trait as a class over the limiter's own state, the
    optional reference to one, and the [StoreLimits] implementation of
    [crates/wasmi/src/limits.rs] with its builder.  A limiter of the embedder is
    host code: any instance of the class. *)

From Stdlib Require Import ZArith Lia.
From stdpp Require Import base option decidable numbers.
From S2P Require Import Prelude Fuel.
Local Open Scope Z_scope.

(** ** Errors *)

Inductive LimiterError : Type := ResourceLimiterDeniedAllocation.

Inductive MemoryError : Type :=
| ME_OutOfSystemMemory
| ME_OutOfBoundsGrowth
| ME_OutOfBoundsAccess
| ME_InvalidMemoryType
| ME_InvalidStaticBufferSize
| ME_ResourceLimiterDeniedAllocation
| ME_MinimumSizeOverflow
| ME_MaximumSizeOverflow
| ME_OutOfFuel (required_fuel : Z).

Inductive TableError : Type :=
| TE_OutOfSystemMemory
| TE_MinimumSizeOverflow
| TE_MaximumSizeOverflow
| TE_ResourceLimiterDeniedAllocation
| TE_GrowOutOfBounds
| TE_InitOutOfBounds
| TE_FillOutOfBounds
| TE_SetOutOfBounds
| TE_CopyOutOfBounds
| TE_ElementTypeMismatch
| TE_OutOfFuel (required_fuel : Z).

#[export] Instance TableError_eq_dec : EqDecision TableError.
Proof. solve_decision. Defined.

Definition MemoryError_from_LimiterError (error : LimiterError) : MemoryError :=
  match error with ResourceLimiterDeniedAllocation => ME_ResourceLimiterDeniedAllocation end.

Definition TableError_from_LimiterError (error : LimiterError) : TableError :=
  match error with ResourceLimiterDeniedAllocation => TE_ResourceLimiterDeniedAllocation end.

(** [impl From<FuelError> for TableError]: disabled metering is a panic. *)
Definition TableError_from_FuelError (error : FuelError) : res TableError TableError :=
  match error with
  | FuelError_OutOfFuel required_fuel => Ok (TE_OutOfFuel required_fuel)
  | FuelMeteringDisabled => Panic
  end.

(** ** The trait *)

Class ResourceLimiter (L : Type) : Type := {
  memory_growing : Z -> Z -> option Z -> M L LimiterError bool;
  table_growing : Z -> Z -> option Z -> M L LimiterError bool;
  memory_grow_failed : MemoryError -> M L LimiterError unit;
  table_grow_failed : TableError -> M L LimiterError unit;
  limiter_instances : L -> Z;
  limiter_tables : L -> Z;
  limiter_memories : L -> Z
}.

(** The trait's default methods. *)
Definition default_memory_grow_failed {L} (_ : MemoryError) : M L LimiterError unit := mret tt.
Definition default_table_grow_failed {L} (_ : TableError) : M L LimiterError unit := mret tt.

(** [ResourceLimiterRef]: [None] when no limiter is installed. *)
Definition ResourceLimiterRef (L : Type) : Type := option L.

(** [if let Some(limiter) = limiter.as_resource_limiter() { m }]; [d] is what
    the code goes on with when there is none. *)
Definition with_resource_limiter {L E A} (conv : LimiterError -> E) (d : A)
    (m : M L LimiterError A) : M (ResourceLimiterRef L) E A := fun l =>
  match l with
  | Some lim => let '(r, lim) := m lim in (map_err conv r, Some lim)
  | None => (Ok d, None)
  end.

(** ** What a well-behaved limiter promises

    [BoundedLimiter]: the limiter's methods return, and it never permits a
    memory or table beyond the bounds it states, which its methods keep. *)
Class BoundedLimiter (L : Type) `{ResourceLimiter L} : Type := {
  memory_bound : L -> option Z;
  table_bound : L -> option Z;
  memory_growing_bounded : forall lim cur des max r lim',
    memory_growing cur des max lim = (r, lim') ->
    r <> Panic /\ memory_bound lim' = memory_bound lim /\ table_bound lim' = table_bound lim /\
    (r = Ok true -> forall b, memory_bound lim = Some b -> des <= b);
  table_growing_bounded : forall lim cur des max r lim',
    table_growing cur des max lim = (r, lim') ->
    r <> Panic /\ memory_bound lim' = memory_bound lim /\ table_bound lim' = table_bound lim /\
    (r = Ok true -> forall b, table_bound lim = Some b -> des <= b);
  memory_grow_failed_bounded : forall lim e r lim',
    memory_grow_failed e lim = (r, lim') ->
    r <> Panic /\ memory_bound lim' = memory_bound lim /\ table_bound lim' = table_bound lim;
  table_grow_failed_bounded : forall lim e r lim',
    table_grow_failed e lim = (r, lim') ->
    r <> Panic /\ memory_bound lim' = memory_bound lim /\ table_bound lim' = table_bound lim
}.

(** ** [StoreLimits] *)

Definition DEFAULT_INSTANCE_LIMIT : Z := 10000.
Definition DEFAULT_TABLE_LIMIT : Z := 10000.
Definition DEFAULT_MEMORY_LIMIT : Z := 10000.

Record StoreLimits : Type := {
  sl_memory_size : option Z;
  sl_table_elements : option Z;
  sl_instances : Z;
  sl_tables : Z;
  sl_memories : Z;
  sl_trap_on_grow_failure : bool
}.

Definition StoreLimits_default : StoreLimits := {|
  sl_memory_size := None;
  sl_table_elements := None;
  sl_instances := DEFAULT_INSTANCE_LIMIT;
  sl_tables := DEFAULT_TABLE_LIMIT;
  sl_memories := DEFAULT_MEMORY_LIMIT;
  sl_trap_on_grow_failure := false
|}.

(** [StoreLimitsBuilder] wraps the limits it builds. *)
Definition StoreLimitsBuilder_new : StoreLimits := StoreLimits_default.
Definition StoreLimitsBuilder_memory_size (limit : Z) (s : StoreLimits) : StoreLimits :=
  {| sl_memory_size := Some limit; sl_table_elements := sl_table_elements s;
     sl_instances := sl_instances s; sl_tables := sl_tables s; sl_memories := sl_memories s;
     sl_trap_on_grow_failure := sl_trap_on_grow_failure s |}.
Definition StoreLimitsBuilder_table_elements (limit : Z) (s : StoreLimits) : StoreLimits :=
  {| sl_memory_size := sl_memory_size s; sl_table_elements := Some limit;
     sl_instances := sl_instances s; sl_tables := sl_tables s; sl_memories := sl_memories s;
     sl_trap_on_grow_failure := sl_trap_on_grow_failure s |}.
Definition StoreLimitsBuilder_instances (limit : Z) (s : StoreLimits) : StoreLimits :=
  {| sl_memory_size := sl_memory_size s; sl_table_elements := sl_table_elements s;
     sl_instances := limit; sl_tables := sl_tables s; sl_memories := sl_memories s;
     sl_trap_on_grow_failure := sl_trap_on_grow_failure s |}.
Definition StoreLimitsBuilder_tables (tables : Z) (s : StoreLimits) : StoreLimits :=
  {| sl_memory_size := sl_memory_size s; sl_table_elements := sl_table_elements s;
     sl_instances := sl_instances s; sl_tables := tables; sl_memories := sl_memories s;
     sl_trap_on_grow_failure := sl_trap_on_grow_failure s |}.
Definition StoreLimitsBuilder_memories (memories : Z) (s : StoreLimits) : StoreLimits :=
  {| sl_memory_size := sl_memory_size s; sl_table_elements := sl_table_elements s;
     sl_instances := sl_instances s; sl_tables := sl_tables s; sl_memories := memories;
     sl_trap_on_grow_failure := sl_trap_on_grow_failure s |}.
Definition StoreLimitsBuilder_trap_on_grow_failure (trap : bool) (s : StoreLimits) : StoreLimits :=
  {| sl_memory_size := sl_memory_size s; sl_table_elements := sl_table_elements s;
     sl_instances := sl_instances s; sl_tables := sl_tables s; sl_memories := sl_memories s;
     sl_trap_on_grow_failure := trap |}.
Definition StoreLimitsBuilder_build (s : StoreLimits) : StoreLimits := s.

(** The test both [*_growing] methods make. *)
Definition StoreLimits_allow (limit : option Z) (desired : Z) (maximum : option Z) : bool :=
  let by_maximum :=
    match maximum with
    | Some max => negb (max <? desired)
    | None => true
    end in
  match limit with
  | Some limit => if limit <? desired then false else by_maximum
  | None => by_maximum
  end.

Definition StoreLimits_memory_growing (_ desired : Z) (maximum : option Z) :
    M StoreLimits LimiterError bool := fun self =>
  let allow := StoreLimits_allow (sl_memory_size self) desired maximum in
  if negb allow && sl_trap_on_grow_failure self
  then (Err ResourceLimiterDeniedAllocation, self)
  else (Ok allow, self).

Definition StoreLimits_table_growing (_ desired : Z) (maximum : option Z) :
    M StoreLimits LimiterError bool := fun self =>
  let allow := StoreLimits_allow (sl_table_elements self) desired maximum in
  if negb allow && sl_trap_on_grow_failure self
  then (Err ResourceLimiterDeniedAllocation, self)
  else (Ok allow, self).

Definition StoreLimits_memory_grow_failed (_ : MemoryError) : M StoreLimits LimiterError unit :=
  fun self =>
  if sl_trap_on_grow_failure self then (Err ResourceLimiterDeniedAllocation, self)
  else (Ok tt, self).

Definition StoreLimits_table_grow_failed (_ : TableError) : M StoreLimits LimiterError unit :=
  fun self =>
  if sl_trap_on_grow_failure self then (Err ResourceLimiterDeniedAllocation, self)
  else (Ok tt, self).

#[export] Instance StoreLimits_ResourceLimiter : ResourceLimiter StoreLimits := {|
  memory_growing := StoreLimits_memory_growing;
  table_growing := StoreLimits_table_growing;
  memory_grow_failed := StoreLimits_memory_grow_failed;
  table_grow_failed := StoreLimits_table_grow_failed;
  limiter_instances := sl_instances;
  limiter_tables := sl_tables;
  limiter_memories := sl_memories
|}.

(** ** Properties *)

Lemma StoreLimits_allow_spec limit desired maximum :
  StoreLimits_allow limit desired maximum = true <->
  (forall b, limit = Some b -> desired <= b) /\ (forall m, maximum = Some m -> desired <= m).
Proof.
  assert (Hle : forall a b, (a <? b) = false <-> b <= a) by (intros; apply Z.ltb_ge).
  unfold StoreLimits_allow. destruct limit as [b|], maximum as [m|].
  - destruct (Z.ltb_spec b desired); rewrite ?negb_true_iff, ?Hle; split.
    + done.
    + intros [Hb _]. specialize (Hb b eq_refl). lia.
    + intros ?. split; intros ? [= <-]; lia.
    + intros [_ Hm]. by apply Hm.
  - destruct (Z.ltb_spec b desired); split.
    + done.
    + intros [Hb _]. specialize (Hb b eq_refl). lia.
    + intros _. split; [by intros ? [= <-]|done].
    + done.
  - rewrite negb_true_iff, Hle. split; [|naive_solver].
    intros ?. split; [done|]. by intros ? [= <-].
  - done.
Qed.

Lemma StoreLimits_growing_inv limit desired maximum trap (self : StoreLimits) r self' :
  (if negb (StoreLimits_allow limit desired maximum) && trap
   then (Err ResourceLimiterDeniedAllocation, self)
   else (Ok (StoreLimits_allow limit desired maximum), self)) = (r, self') ->
  r <> Panic /\ self' = self /\ (r = Ok true -> forall b, limit = Some b -> desired <= b).
Proof.
  intros H. destruct (negb _ && _)%bool; simplify_eq; split_and!; try done.
  intros [= E]. apply StoreLimits_allow_spec in E as [E _]. done.
Qed.

(** The store limits discharge the limiter contract: they bound memories by
    [memory_size] and tables by [table_elements]. *)
#[export] Program Instance StoreLimits_BoundedLimiter : BoundedLimiter StoreLimits := {|
  memory_bound := sl_memory_size;
  table_bound := sl_table_elements
|}.
Next Obligation.
  intros lim cur des max r lim' H. apply StoreLimits_growing_inv in H. naive_solver.
Qed.
Next Obligation.
  intros lim cur des max r lim' H. apply StoreLimits_growing_inv in H. naive_solver.
Qed.
Next Obligation.
  intros lim e r lim' H. cbn in H. unfold StoreLimits_memory_grow_failed in H.
  destruct (sl_trap_on_grow_failure lim); by simplify_eq.
Qed.
Next Obligation.
  intros lim e r lim' H. cbn in H. unfold StoreLimits_table_grow_failed in H.
  destruct (sl_trap_on_grow_failure lim); by simplify_eq.
Qed.

(** Whether growing to [desired] stays within a limit and the maximum asked for. *)
Definition within_limits (limit : option Z) (desired : Z) (maximum : option Z) : Prop :=
  (forall b, limit = Some b -> desired <= b) /\ (forall m, maximum = Some m -> desired <= m).

(** The store limits allow growth exactly within the configured limit and the
    maximum of the memory or table; a denial is an error exactly when
    [trap_on_grow_failure] is set, and the limits never change. *)
Theorem StoreLimits_growing_spec (self : StoreLimits) current desired maximum :
  let outcome limit (run : res LimiterError bool * StoreLimits) :=
    snd run = self /\
    (fst run = Ok true <-> within_limits limit desired maximum) /\
    (fst run = Err ResourceLimiterDeniedAllocation <->
       ~ within_limits limit desired maximum /\ sl_trap_on_grow_failure self = true) /\
    (fst run = Ok false <->
       ~ within_limits limit desired maximum /\ sl_trap_on_grow_failure self = false) in
  outcome (sl_memory_size self) (memory_growing current desired maximum self) /\
  outcome (sl_table_elements self) (table_growing current desired maximum self).
Proof.
  assert (H : forall limit, let allow := StoreLimits_allow limit desired maximum in
    let run := if negb allow && sl_trap_on_grow_failure self
               then (Err ResourceLimiterDeniedAllocation, self) else (Ok allow, self) in
    snd run = self /\ (fst run = Ok true <-> within_limits limit desired maximum) /\
    (fst run = Err ResourceLimiterDeniedAllocation <->
       ~ within_limits limit desired maximum /\ sl_trap_on_grow_failure self = true) /\
    (fst run = Ok false <->
       ~ within_limits limit desired maximum /\ sl_trap_on_grow_failure self = false)).
  { intros limit. cbv zeta. unfold within_limits. rewrite <-StoreLimits_allow_spec.
    destruct (StoreLimits_allow limit desired maximum), (sl_trap_on_grow_failure self); cbn; naive_solver. }
  split; apply H.
Qed.
