(* ===== verification/MemoryType.v ===== *)
(** * Memory types and byte buffers

    [crates/core/src/memory/ty.rs] and [buffer.rs]: the type of a linear
    memory with its builder and validation, and the buffer that holds the bytes.
    The allocator behind [Vec::try_reserve] is a parameter with its documented
    contract. *)

From Stdlib Require Import ZArith Lia.
From stdpp Require Import base option decidable numbers list.
From S2P Require Import Prelude Value Limiter.
Local Open Scope Z_scope.

(** ** Types *)

Record MemoryType : Type := {
  mt_minimum : Z;
  mt_maximum : option Z;
  mt_page_size_log2 : Z;
  mt_index_type : IndexType
}.

Inductive SizeOverflow : Type := SizeOverflow_error.

Definition DEFAULT_PAGE_SIZE_LOG2 : Z := 16.

Section MemoryTypeInner.
Implicit Type self : MemoryType.

Definition max_size_based_on_index_type self : Z := IndexType_max_size (mt_index_type self).

Definition absolute_max self : Z :=
  Z.shiftr (max_size_based_on_index_type self) (mt_page_size_log2 self).

Definition minimum_byte_size self : res SizeOverflow Z :=
  let min := mt_minimum self in
  if absolute_max self <? min then Err SizeOverflow_error
  else Ok (Z.shiftl min (mt_page_size_log2 self)).

Definition maximum_byte_size self : res SizeOverflow Z :=
  match mt_maximum self with
  | Some max =>
      if absolute_max self <? max then Err SizeOverflow_error
      else Ok (Z.shiftl max (mt_page_size_log2 self))
  | None => Ok (max_size_based_on_index_type self)
  end.

(** The [debug_assert!] fails on a page size that [validate] rejects. *)
Definition page_size {E} self : res E Z :=
  assert_that ((mt_page_size_log2 self =? 16) || (mt_page_size_log2 self =? 0));;
  Ok (Z.shiftl 1 (mt_page_size_log2 self)).
End MemoryTypeInner.

(** ** The builder *)

Definition MemoryTypeBuilder_default : MemoryType := {|
  mt_minimum := 0;
  mt_maximum := None;
  mt_page_size_log2 := DEFAULT_PAGE_SIZE_LOG2;
  mt_index_type := IndexType_I32
|}.

Definition MemoryTypeBuilder_memory64 (memory64 : bool) (b : MemoryType) : MemoryType :=
  {| mt_minimum := mt_minimum b; mt_maximum := mt_maximum b;
     mt_page_size_log2 := mt_page_size_log2 b;
     mt_index_type := if memory64 then IndexType_I64 else IndexType_I32 |}.
Definition MemoryTypeBuilder_min (minimum : Z) (b : MemoryType) : MemoryType :=
  {| mt_minimum := minimum; mt_maximum := mt_maximum b;
     mt_page_size_log2 := mt_page_size_log2 b; mt_index_type := mt_index_type b |}.
Definition MemoryTypeBuilder_max (maximum : option Z) (b : MemoryType) : MemoryType :=
  {| mt_minimum := mt_minimum b; mt_maximum := maximum;
     mt_page_size_log2 := mt_page_size_log2 b; mt_index_type := mt_index_type b |}.
Definition MemoryTypeBuilder_page_size_log2 (log2 : Z) (b : MemoryType) : MemoryType :=
  {| mt_minimum := mt_minimum b; mt_maximum := mt_maximum b;
     mt_page_size_log2 := log2; mt_index_type := mt_index_type b |}.

Definition MemoryTypeBuilder_validate `{Target} (b : MemoryType) : res MemoryError unit :=
  if negb feat_memory64 && IndexType_is_64 (mt_index_type b) then Err ME_InvalidMemoryType
  else if negb ((mt_page_size_log2 b =? 0) || (mt_page_size_log2 b =? DEFAULT_PAGE_SIZE_LOG2))
  then Err ME_InvalidMemoryType
  else if negb (is_ok (minimum_byte_size b)) then Err ME_InvalidMemoryType
  else match mt_maximum b with
       | Some max =>
           if negb (is_ok (maximum_byte_size b)) then Err ME_InvalidMemoryType
           else if max <? mt_minimum b then Err ME_InvalidMemoryType
           else Ok tt
       | None => Ok tt
       end.

Definition MemoryTypeBuilder_build `{Target} (b : MemoryType) : res MemoryError MemoryType :=
  MemoryTypeBuilder_validate b;; Ok b.

Definition MemoryType_is_64 (self : MemoryType) : bool := IndexType_is_64 (mt_index_type self).

Definition MemoryType_is_subtype_of {E} (self other : MemoryType) : res E bool :=
  if negb (eqb (MemoryType_is_64 self) (MemoryType_is_64 other)) then Ok false
  else
    self_page_size ← page_size self;
    other_page_size ← page_size other;
    if negb (self_page_size =? other_page_size) then Ok false
    else if mt_minimum self <? mt_minimum other then Ok false
    else match mt_maximum self, mt_maximum other with
         | _, None => Ok true
         | Some max, Some other_max => Ok (max <=? other_max)
         | _, _ => Ok false
         end.

(** ** Byte buffers

    [bb_mem] holds the bytes at the pointer [ptr]: the initialised bytes of
    the vector, or the whole static buffer. *)
Record ByteBuffer : Type := {
  bb_mem : list Z;
  bb_len : Z;
  bb_capacity : Z;
  bb_is_static : bool
}.

Section Buffer.
Context `{T : Target} {Alloc : Allocator}.

Definition zeros (n : Z) : list Z := replicate (Z.to_nat n) 0.

Definition ByteBuffer_new (size : Z) : res MemoryError ByteBuffer :=
  match try_reserve 1 0 0 size with
  | None => Err ME_OutOfSystemMemory
  | Some capacity =>
      Ok {| bb_mem := zeros size; bb_len := size; bb_capacity := capacity;
            bb_is_static := false |}
  end.

Definition ByteBuffer_new_static (buffer : list Z) (size : Z) : res MemoryError ByteBuffer :=
  match get_to size buffer with
  | None => Err ME_InvalidStaticBufferSize
  | Some _ =>
      Ok {| bb_mem := set_span 0 (zeros size) buffer; bb_len := size;
            bb_capacity := Z.of_nat (length buffer); bb_is_static := true |}
  end.

Definition ByteBuffer_data (self : ByteBuffer) : list Z :=
  take (Z.to_nat (bb_len self)) (bb_mem self).

(** The buffer after its data was written through [data_mut]. *)
Definition ByteBuffer_set_data (data : list Z) (self : ByteBuffer) : ByteBuffer :=
  {| bb_mem := set_span 0 data (bb_mem self); bb_len := bb_len self;
     bb_capacity := bb_capacity self; bb_is_static := bb_is_static self |}.

Definition ByteBuffer_grow_vec (new_size : Z) : M ByteBuffer MemoryError unit := fun self =>
  let vec := ByteBuffer_data self in
  if negb (Z.of_nat (length vec) <=? new_size) then (Panic, self)
  else
    let additional := new_size - Z.of_nat (length vec) in
    match try_reserve 1 (bb_capacity self) (Z.of_nat (length vec)) additional with
    | None => (Err ME_OutOfSystemMemory, self)
    | Some capacity =>
        (Ok tt, {| bb_mem := vec ++ zeros additional; bb_len := new_size;
                   bb_capacity := capacity; bb_is_static := bb_is_static self |})
    end.

Definition ByteBuffer_grow_static (new_size : Z) : M ByteBuffer MemoryError unit := fun self =>
  if bb_capacity self <? new_size then (Err ME_InvalidStaticBufferSize, self)
  else
    let len := bb_len self in
    let self := {| bb_mem := bb_mem self; bb_len := new_size;
                   bb_capacity := bb_capacity self; bb_is_static := bb_is_static self |} in
    (Ok tt, ByteBuffer_set_data
              (set_span len (zeros (new_size - len)) (ByteBuffer_data self)) self).

Definition ByteBuffer_grow (new_size : Z) : M ByteBuffer MemoryError unit := fun self =>
  if negb (bb_len self <=? new_size) then (Panic, self)
  else if bb_is_static self then ByteBuffer_grow_static new_size self
  else ByteBuffer_grow_vec new_size self.

(** ** Properties *)

(** The buffer's fields describe its allocation. *)
Definition ByteBuffer_wf (b : ByteBuffer) : Prop :=
  0 <= bb_len b < 2 ^ usize_bits /\
  bb_capacity b < 2 ^ usize_bits /\
  bb_len b <= Z.of_nat (length (bb_mem b)) <= bb_capacity b /\
  (if bb_is_static b then Z.of_nat (length (bb_mem b)) = bb_capacity b
   else Z.of_nat (length (bb_mem b)) = bb_len b).

Lemma length_zeros n : 0 <= n -> Z.of_nat (length (zeros n)) = n.
Proof. intros. unfold zeros. rewrite length_replicate. lia. Qed.

Lemma length_ByteBuffer_data b : ByteBuffer_wf b ->
  Z.of_nat (length (ByteBuffer_data b)) = bb_len b.
Proof. intros (? & ? & ? & ?). unfold ByteBuffer_data. rewrite length_take. lia. Qed.

Lemma take_set_span_0 {A} (xs l : list A) :
  (length xs <= length l)%nat -> take (length xs) (set_span 0 xs l) = xs.
Proof.
  intros Hl. assert (H1 : get_span 0 (Z.of_nat (length xs)) (set_span 0 xs l) = Some xs).
  { apply get_set_span_eq; lia. }
  rewrite get_span_Some in H1 by lia. destruct H1 as [_ H1].
  rewrite drop_0, Nat2Z.id in H1. by rewrite <-H1.
Qed.

Lemma ByteBuffer_new_spec size b : 0 <= size ->
  ByteBuffer_new size = Ok b -> ByteBuffer_wf b /\ ByteBuffer_data b = zeros size.
Proof.
  intros Hs. unfold ByteBuffer_new.
  destruct (try_reserve 1 0 0 size) as [cap|] eqn:E; [|done]. intros [= <-].
  apply try_reserve_law in E as [? ?]; [|done]. pose proof pow2_usize_half.
  unfold ByteBuffer_wf, ByteBuffer_data. cbn. rewrite length_zeros by lia.
  split; [lia|]. apply take_ge. unfold zeros. rewrite length_replicate. lia.
Qed.

Lemma ByteBuffer_new_static_spec buffer size b :
  0 <= size -> Z.of_nat (length buffer) < 2 ^ usize_bits ->
  ByteBuffer_new_static buffer size = Ok b ->
  ByteBuffer_wf b /\ ByteBuffer_data b = zeros size.
Proof.
  intros Hs Hl. unfold ByteBuffer_new_static, get_to.
  destruct (Z.leb_spec size (Z.of_nat (length buffer))); [|done]. intros [= <-].
  unfold ByteBuffer_wf, ByteBuffer_data. cbn. rewrite length_set_span.
  split; [lia|].
  assert (Hz : Z.to_nat size = length (zeros size)).
  { unfold zeros. by rewrite length_replicate. }
  rewrite Hz at 1. apply take_set_span_0. lia.
Qed.

Lemma ByteBuffer_data_set_data d b : ByteBuffer_wf b ->
  length d = length (ByteBuffer_data b) ->
  ByteBuffer_data (ByteBuffer_set_data d b) = d /\ ByteBuffer_wf (ByteBuffer_set_data d b).
Proof.
  intros Hw Hd. pose proof (length_ByteBuffer_data b Hw) as Hl. split.
  - unfold ByteBuffer_data, ByteBuffer_set_data. cbn.
    replace (Z.to_nat (bb_len b)) with (length d) by lia.
    apply take_set_span_0. destruct Hw as (? & ? & ? & ?). lia.
  - destruct Hw as (? & ? & ? & ?). unfold ByteBuffer_wf. cbn. rewrite length_set_span. done.
Qed.

Lemma set_span_tail (n m : Z) (l : list Z) :
  0 <= n -> 0 <= m -> Z.of_nat (length l) = n + m ->
  set_span n (zeros m) l = take (Z.to_nat n) l ++ zeros m.
Proof.
  intros Hn Hm Hl. apply list_eq. intros j.
  assert (Hz : length (zeros m) = Z.to_nat m) by (unfold zeros; by rewrite length_replicate).
  assert (Ht : length (take (Z.to_nat n) l) = Z.to_nat n) by (rewrite length_take; lia).
  destruct (decide (j < Z.to_nat n)%nat).
  - rewrite set_span_lookup_out by lia. rewrite lookup_app_l by lia.
    by rewrite lookup_take_lt by lia.
  - rewrite lookup_app_r by lia. unfold set_span.
    destruct (decide (j < length l)%nat).
    + rewrite list_lookup_inserts by lia. f_equal. lia.
    + rewrite !lookup_ge_None_2; [done|lia|]. rewrite length_inserts. lia.
Qed.

(** Growing keeps the bytes and appends zeroes, or fails and changes nothing. *)
Lemma ByteBuffer_grow_spec new_size b r b' :
  ByteBuffer_wf b -> bb_len b <= new_size < 2 ^ usize_bits ->
  ByteBuffer_grow new_size b = (r, b') ->
  match r with
  | Ok _ => ByteBuffer_wf b' /\ bb_len b' = new_size /\
            ByteBuffer_data b' = ByteBuffer_data b ++ zeros (new_size - bb_len b)
  | Err e => b' = b /\
             e = if bb_is_static b then ME_InvalidStaticBufferSize else ME_OutOfSystemMemory
  | Panic => False
  end.
Proof.
  intros Hw Hn. pose proof (length_ByteBuffer_data b Hw) as Hl.
  pose proof pow2_usize_half as Hhalf.
  unfold ByteBuffer_grow. destruct (Z.leb_spec (bb_len b) new_size); [cbn [negb]|lia].
  destruct (bb_is_static b) eqn:Est.
  - unfold ByteBuffer_grow_static. destruct (Z.ltb_spec (bb_capacity b) new_size).
    { by intros [= <- <-]. }
    intros [= <- <-]. set (b1 := Build_ByteBuffer _ _ _ _).
    assert (Hw1 : ByteBuffer_wf b1).
    { destruct Hw as (? & ? & ? & Hst). rewrite Est in Hst.
      unfold ByteBuffer_wf. cbn. rewrite Est. lia. }
    pose proof (length_ByteBuffer_data b1 Hw1) as Hl1. cbn in Hl1.
    destruct (ByteBuffer_data_set_data
      (set_span (bb_len b) (zeros (new_size - bb_len b)) (ByteBuffer_data b1)) b1 Hw1) as [-> ?].
    { apply length_set_span. }
    split; [done|]. split; [done|].
    rewrite set_span_tail by (destruct Hw as [? _]; lia). f_equal.
    unfold ByteBuffer_data. cbn. rewrite take_take. f_equal. lia.
  - unfold ByteBuffer_grow_vec. rewrite Hl.
    destruct (Z.leb_spec (bb_len b) new_size); [cbn [negb]|lia].
    destruct (try_reserve _ _ _ _) as [cap|] eqn:E; [|by intros [= <- <-]].
    apply try_reserve_law in E as [? ?]; [|done]. intros [= <- <-]. destruct Hw as ([? ?] & ? & ? & Hst).
    assert (Hlen : Z.of_nat (length (ByteBuffer_data b ++ zeros (new_size - bb_len b))) = new_size).
    { rewrite length_app, Nat2Z.inj_add, length_zeros by lia. lia. }
    split; [unfold ByteBuffer_wf; cbn; rewrite Est, Hlen; lia|]. split; [done|].
    unfold ByteBuffer_data at 1. cbn. apply take_ge. lia.
Qed.
End Buffer.

Section TypeProperties.
Context `{T : Target}.

(** What [validate] accepts. *)
Definition MemoryType_valid (ty : MemoryType) : Prop :=
  (feat_memory64 = false -> mt_index_type ty = IndexType_I32) /\
  (mt_page_size_log2 ty = 0 \/ mt_page_size_log2 ty = 16) /\
  mt_minimum ty <= absolute_max ty /\
  match mt_maximum ty with
  | Some max => mt_minimum ty <= max <= absolute_max ty
  | None => True
  end.

Lemma MemoryTypeBuilder_validate_spec b :
  MemoryTypeBuilder_validate b = Ok tt /\ MemoryType_valid b \/
  MemoryTypeBuilder_validate b = Err ME_InvalidMemoryType /\ ~ MemoryType_valid b.
Proof.
  unfold MemoryTypeBuilder_validate, MemoryType_valid, minimum_byte_size, maximum_byte_size,
    DEFAULT_PAGE_SIZE_LOG2.
  destruct feat_memory64, (mt_index_type b) eqn:Ei; cbn [negb andb IndexType_is_64];
  try (right; split; [done|]; intros [H _]; by discriminate H);
  (destruct (Z.eqb_spec (mt_page_size_log2 b) 0);
   destruct (Z.eqb_spec (mt_page_size_log2 b) 16);
   cbn [orb negb]; [lia| | |right; split; [done|]; lia]);
  (destruct (Z.ltb_spec (absolute_max b) (mt_minimum b)); cbn [is_ok negb];
   [right; split; [done|]; lia|]);
  (destruct (mt_maximum b) as [max|]; [|left; split; [done|]; repeat split; try done; lia]);
  (destruct (Z.ltb_spec (absolute_max b) max); cbn [is_ok negb];
   [right; split; [done|]; lia|]);
  (destruct (Z.ltb_spec max (mt_minimum b)); cbn;
   [right; split; [done|]; lia|left; split; [done|]; repeat split; try done; lia]).
Qed.

(** [build] returns the configured type exactly when it is valid. *)
Lemma MemoryTypeBuilder_build_spec b :
  (MemoryTypeBuilder_build b = Ok b <-> MemoryType_valid b) /\
  (~ MemoryType_valid b -> MemoryTypeBuilder_build b = Err ME_InvalidMemoryType).
Proof.
  unfold MemoryTypeBuilder_build. unfold_m.
  destruct (MemoryTypeBuilder_validate_spec b) as [[-> ?]|[-> ?]]; naive_solver.
Qed.

Lemma page_size_valid {E} ty : MemoryType_valid ty ->
  page_size (E := E) ty = Ok (2 ^ mt_page_size_log2 ty).
Proof.
  intros (_ & [Hl|Hl] & _). all: unfold page_size; by rewrite Hl.
Qed.

Lemma absolute_max_bytes ty : MemoryType_valid ty ->
  absolute_max ty * 2 ^ mt_page_size_log2 ty = IndexType_max_size (mt_index_type ty).
Proof.
  intros (_ & [Hl|Hl] & _); unfold absolute_max, max_size_based_on_index_type; rewrite Hl;
    by destruct (mt_index_type ty).
Qed.

(** The imports a memory of type [ty] may be matched against: what
    [is_subtype_of] decides on valid types. *)
Definition MemoryType_matches (ty other : MemoryType) : Prop :=
  mt_index_type ty = mt_index_type other /\
  mt_page_size_log2 ty = mt_page_size_log2 other /\
  mt_minimum other <= mt_minimum ty /\
  forall other_max, mt_maximum other = Some other_max ->
  exists max, mt_maximum ty = Some max /\ max <= other_max.

Lemma MemoryType_is_subtype_of_spec {E} ty other :
  MemoryType_valid ty -> MemoryType_valid other ->
  exists b, MemoryType_is_subtype_of (E := E) ty other = Ok b /\
  (b = true <-> MemoryType_matches ty other).
Proof.
  intros Hty Hother. unfold MemoryType_is_subtype_of, MemoryType_matches, MemoryType_is_64.
  rewrite !page_size_valid by done. unfold_m.
  assert (Hidx : eqb (IndexType_is_64 (mt_index_type ty)) (IndexType_is_64 (mt_index_type other)) = true
    <-> mt_index_type ty = mt_index_type other).
  { by destruct (mt_index_type ty), (mt_index_type other). }
  assert (Hpg : 2 ^ mt_page_size_log2 ty = 2 ^ mt_page_size_log2 other
    <-> mt_page_size_log2 ty = mt_page_size_log2 other).
  { destruct Hty as (_ & [Hl|Hl] & _), Hother as (_ & [Hl'|Hl'] & _); by rewrite Hl, Hl'. }
  destruct (eqb _ _); cbn [negb]; [|eexists; split; [done|]; naive_solver].
  destruct (Z.eqb_spec (2 ^ mt_page_size_log2 ty) (2 ^ mt_page_size_log2 other)); cbn [negb];
    [|eexists; split; [done|]; naive_solver].
  destruct (Z.ltb_spec (mt_minimum ty) (mt_minimum other));
    [eexists; split; [done|]; split; [done|]; intros; lia|].
  destruct (mt_maximum ty) as [max|], (mt_maximum other) as [omax|];
    eexists; (split; [done|]).
  - destruct (Z.leb_spec max omax); split; try done; naive_solver lia.
  - naive_solver.
  - split; [done|]. naive_solver.
  - naive_solver.
Qed.
End TypeProperties.
