(* ===== verification/MemoryAccess.v ===== *)
(** * Loads and stores

    [crates/core/src/memory/access.rs] and the load and store instructions of
    [crates/core/src/wasm.rs]: effective addresses, little-endian conversion,
    and the accesses to the byte slice of a linear memory. *)

From Stdlib Require Import ZArith Lia.
From stdpp Require Import base option decidable numbers list list_numbers.
From S2P Require Import Prelude Trap Value.
Local Open Scope Z_scope.

(** ** Conversions *)

(** [WrapInto] and [ExtendInto] are [as] conversions. *)
Definition wrap_into (into : Prim) (value : Z) : Z := cast into value.
Definition extend_into (into : Prim) (value : Z) : Z := cast into value.

(** [LittleEndianConvert]: [to_le_bytes] and [from_le_bytes]. *)
Definition into_le_bytes (p : Prim) (value : Z) : list Z :=
  Z_to_little_endian (prim_bytes p) 8 (wrapu (prim_bits p) value).
Definition from_le_bytes (p : Prim) (bytes : list Z) : Z :=
  cast p (little_endian_to_Z 8 bytes).

(** ** Accesses *)

(** [LoadInto] and [StoreFrom] of byte arrays of [n] bytes. *)
Definition load_into (memory : list Z) (address n : Z) : res TrapCode (list Z) :=
  ok_or (get_span address n memory) MemoryOutOfBounds.

Definition store_from (bytes : list Z) (address : Z) : M (list Z) TrapCode unit := fun memory =>
  match get_span address (Z.of_nat (length bytes)) memory with
  | Some _ => (Ok tt, set_span address bytes memory)
  | None => (Err MemoryOutOfBounds, memory)
  end.

Section Access.
Context `{T : Target}.

(** Without the [memory64] feature both operands are truncated to 32 bits. *)
Definition effective_address (ptr offset : Z) : res TrapCode Z :=
  let ptr := if feat_memory64 then ptr else wrapu 32 ptr in
  let offset := if feat_memory64 then offset else wrapu 32 offset in
  ok_or (addr ← checked_add 64 ptr offset; try_from_u usize_bits addr) MemoryOutOfBounds.

Definition load_at (p : Prim) (memory : list Z) (address : Z) : res TrapCode Z :=
  buffer ← load_into memory address (prim_bytes p);
  mret (from_le_bytes p buffer).

Definition load (p : Prim) (memory : list Z) (ptr offset : Z) : res TrapCode Z :=
  address ← effective_address ptr offset;
  load_at p memory address.

(** [load_extend::<T, U>]: [into] is [T], [p] is [U]. *)
Definition load_extend_at (into p : Prim) (memory : list Z) (address : Z) : res TrapCode Z :=
  extend_into into <$> load_at p memory address.

Definition load_extend (into p : Prim) (memory : list Z) (ptr offset : Z) : res TrapCode Z :=
  address ← effective_address ptr offset;
  load_extend_at into p memory address.

Definition store_at (p : Prim) (address value : Z) : M (list Z) TrapCode unit :=
  store_from (into_le_bytes p value) address.

Definition store (p : Prim) (ptr offset value : Z) : M (list Z) TrapCode unit :=
  address ← lift (effective_address ptr offset);
  store_at p address value.

(** [store_wrap::<T, U>]: [p] is [U]. *)
Definition store_wrap_at (p : Prim) (address value : Z) : M (list Z) TrapCode unit :=
  store_at p address (wrap_into p value).

Definition store_wrap (p : Prim) (ptr offset value : Z) : M (list Z) TrapCode unit :=
  address ← lift (effective_address ptr offset);
  store_wrap_at p address value.

(** ** Instructions *)

Definition i32_load8_s (memory : list Z) (ptr offset : Z) : res TrapCode Z :=
  load_extend P_i32 P_i8 memory ptr offset.
Definition i32_load8_s_at (memory : list Z) (address : Z) : res TrapCode Z :=
  load_extend_at P_i32 P_i8 memory address.
Definition i32_load8_u (memory : list Z) (ptr offset : Z) : res TrapCode Z :=
  load_extend P_i32 P_u8 memory ptr offset.
Definition i32_load8_u_at (memory : list Z) (address : Z) : res TrapCode Z :=
  load_extend_at P_i32 P_u8 memory address.
Definition i32_load16_s (memory : list Z) (ptr offset : Z) : res TrapCode Z :=
  load_extend P_i32 P_i16 memory ptr offset.
Definition i32_load16_s_at (memory : list Z) (address : Z) : res TrapCode Z :=
  load_extend_at P_i32 P_i16 memory address.
Definition i32_load16_u (memory : list Z) (ptr offset : Z) : res TrapCode Z :=
  load_extend P_i32 P_u16 memory ptr offset.
Definition i32_load16_u_at (memory : list Z) (address : Z) : res TrapCode Z :=
  load_extend_at P_i32 P_u16 memory address.
Definition i64_load8_s (memory : list Z) (ptr offset : Z) : res TrapCode Z :=
  load_extend P_i64 P_i8 memory ptr offset.
Definition i64_load8_s_at (memory : list Z) (address : Z) : res TrapCode Z :=
  load_extend_at P_i64 P_i8 memory address.
Definition i64_load8_u (memory : list Z) (ptr offset : Z) : res TrapCode Z :=
  load_extend P_i64 P_u8 memory ptr offset.
Definition i64_load8_u_at (memory : list Z) (address : Z) : res TrapCode Z :=
  load_extend_at P_i64 P_u8 memory address.
Definition i64_load16_s (memory : list Z) (ptr offset : Z) : res TrapCode Z :=
  load_extend P_i64 P_i16 memory ptr offset.
Definition i64_load16_s_at (memory : list Z) (address : Z) : res TrapCode Z :=
  load_extend_at P_i64 P_i16 memory address.
Definition i64_load16_u (memory : list Z) (ptr offset : Z) : res TrapCode Z :=
  load_extend P_i64 P_u16 memory ptr offset.
Definition i64_load16_u_at (memory : list Z) (address : Z) : res TrapCode Z :=
  load_extend_at P_i64 P_u16 memory address.
Definition i64_load32_s (memory : list Z) (ptr offset : Z) : res TrapCode Z :=
  load_extend P_i64 P_i32 memory ptr offset.
Definition i64_load32_s_at (memory : list Z) (address : Z) : res TrapCode Z :=
  load_extend_at P_i64 P_i32 memory address.
Definition i64_load32_u (memory : list Z) (ptr offset : Z) : res TrapCode Z :=
  load_extend P_i64 P_u32 memory ptr offset.
Definition i64_load32_u_at (memory : list Z) (address : Z) : res TrapCode Z :=
  load_extend_at P_i64 P_u32 memory address.
Definition load_u32 (memory : list Z) (ptr offset : Z) : res TrapCode Z :=
  load P_u32 memory ptr offset.
Definition load_u32_at (memory : list Z) (address : Z) : res TrapCode Z :=
  load_at P_u32 memory address.
Definition load_u64 (memory : list Z) (ptr offset : Z) : res TrapCode Z :=
  load P_u64 memory ptr offset.
Definition load_u64_at (memory : list Z) (address : Z) : res TrapCode Z :=
  load_at P_u64 memory address.
Definition load_f32 (memory : list Z) (ptr offset : Z) : res TrapCode Z :=
  load P_f32 memory ptr offset.
Definition load_f32_at (memory : list Z) (address : Z) : res TrapCode Z :=
  load_at P_f32 memory address.
Definition load_f64 (memory : list Z) (ptr offset : Z) : res TrapCode Z :=
  load P_f64 memory ptr offset.
Definition load_f64_at (memory : list Z) (address : Z) : res TrapCode Z :=
  load_at P_f64 memory address.
Definition i32_store8 (ptr offset value : Z) : M (list Z) TrapCode unit :=
  store_wrap P_i8 ptr offset value.
Definition i32_store8_at (address value : Z) : M (list Z) TrapCode unit :=
  store_wrap_at P_i8 address value.
Definition i32_store16 (ptr offset value : Z) : M (list Z) TrapCode unit :=
  store_wrap P_i16 ptr offset value.
Definition i32_store16_at (address value : Z) : M (list Z) TrapCode unit :=
  store_wrap_at P_i16 address value.
Definition i64_store8 (ptr offset value : Z) : M (list Z) TrapCode unit :=
  store_wrap P_i8 ptr offset value.
Definition i64_store8_at (address value : Z) : M (list Z) TrapCode unit :=
  store_wrap_at P_i8 address value.
Definition i64_store16 (ptr offset value : Z) : M (list Z) TrapCode unit :=
  store_wrap P_i16 ptr offset value.
Definition i64_store16_at (address value : Z) : M (list Z) TrapCode unit :=
  store_wrap_at P_i16 address value.
Definition i64_store32 (ptr offset value : Z) : M (list Z) TrapCode unit :=
  store_wrap P_i32 ptr offset value.
Definition i64_store32_at (address value : Z) : M (list Z) TrapCode unit :=
  store_wrap_at P_i32 address value.
Definition store32 (ptr offset value : Z) : M (list Z) TrapCode unit :=
  store P_u32 ptr offset value.
Definition store32_at (address value : Z) : M (list Z) TrapCode unit :=
  store_at P_u32 address value.
Definition store64 (ptr offset value : Z) : M (list Z) TrapCode unit :=
  store P_u64 ptr offset value.
Definition store64_at (address value : Z) : M (list Z) TrapCode unit :=
  store_at P_u64 address value.
Definition store_f32 (ptr offset value : Z) : M (list Z) TrapCode unit :=
  store32 ptr offset value.
Definition store_f32_at (address value : Z) : M (list Z) TrapCode unit :=
  store32_at address value.
Definition store_f64 (ptr offset value : Z) : M (list Z) TrapCode unit :=
  store64 ptr offset value.
Definition store_f64_at (address value : Z) : M (list Z) TrapCode unit :=
  store64_at address value.

(** ** Properties *)

Definition bytes_ok (l : list Z) : Prop := Forall (in_u 8) l.

(** The address the code computes, when the whole access fits the memory. *)
Definition wasm_address (ptr offset : Z) : Z :=
  if feat_memory64 then ptr + offset else wrapu 32 ptr + wrapu 32 offset.

Lemma effective_address_spec ptr offset :
  effective_address ptr offset =
  if wasm_address ptr offset <? 2 ^ usize_bits then Ok (wasm_address ptr offset)
  else Err MemoryOutOfBounds.
Proof.
  pose proof usize_bits_bounds. unfold effective_address, wasm_address, checked_add, try_from_u.
  assert (Hgo : forall a, ok_or (E := TrapCode) (addr ← (if a <? 2 ^ 64 then Some a else None);
    (if addr <? 2 ^ usize_bits then Some addr else None)) MemoryOutOfBounds =
    if a <? 2 ^ usize_bits then Ok a else Err MemoryOutOfBounds).
  { intros a. unfold_m. destruct (Z.ltb_spec a (2 ^ 64)); cbn;
    destruct (Z.ltb_spec a (2 ^ usize_bits)); try done; lia. }
  destruct feat_memory64; apply Hgo.
Qed.

Lemma wasm_address_nonneg ptr offset : 0 <= ptr -> 0 <= offset -> 0 <= wasm_address ptr offset.
Proof.
  intros. unfold wasm_address. destruct feat_memory64; [lia|].
  pose proof (wrapu_range 32 ptr ltac:(done)) as []. pose proof (wrapu_range 32 offset ltac:(done)) as [].
  lia.
Qed.

Lemma length_into_le_bytes p v : Z.of_nat (length (into_le_bytes p v)) = prim_bytes p.
Proof.
  pose proof (prim_bits_pos p). unfold prim_bits in *. unfold into_le_bytes.
  apply length_Z_to_little_endian. lia.
Qed.

Lemma into_le_bytes_ok p v : bytes_ok (into_le_bytes p v).
Proof. apply (Z_to_little_endian_bound (prim_bytes p) 8); destruct p; cbn; lia. Qed.

(** The bytes of a value give it back, converted to its type. *)
Lemma from_into_le_bytes p v : from_le_bytes p (into_le_bytes p v) = cast p v.
Proof.
  unfold from_le_bytes, into_le_bytes.
  rewrite little_endian_to_Z_to_little_endian by (destruct p; cbn; lia).
  change (2 ^ (prim_bytes p * 8)) with (2 ^ (prim_bytes p * 8)).
  replace (prim_bytes p * 8) with (prim_bits p) by (unfold prim_bits; lia).
  fold (wrapu (prim_bits p) (wrapu (prim_bits p) v)). by rewrite wrapu_wrapu, cast_wrapu.
Qed.

(** A memory a host can address. *)
Definition addressable (memory : list Z) : Prop := Z.of_nat (length memory) < 2 ^ usize_bits.

Lemma load_at_eq p memory address : 0 <= address ->
  load_at p memory address =
  if address + prim_bytes p <=? Z.of_nat (length memory)
  then Ok (from_le_bytes p (take (Z.to_nat (prim_bytes p)) (drop (Z.to_nat address) memory)))
  else Err MemoryOutOfBounds.
Proof.
  intros Ha. assert (0 <= prim_bytes p) by (destruct p; cbn; lia).
  unfold load_at, load_into. unfold_m.
  destruct (get_span address (prim_bytes p) memory) as [bs|] eqn:E.
  - apply get_span_Some in E as [? ->]; [|done..].
    by rewrite (proj2 (Z.leb_le _ _)) by done.
  - apply get_span_None in E; [|done..].
    by rewrite (proj2 (Z.leb_gt _ _)) by done.
Qed.

Lemma load_eq p memory ptr offset : addressable memory -> 0 <= ptr -> 0 <= offset ->
  load p memory ptr offset =
  if wasm_address ptr offset + prim_bytes p <=? Z.of_nat (length memory)
  then load_at p memory (wasm_address ptr offset) else Err MemoryOutOfBounds.
Proof.
  intros Hm Hp Ho. pose proof (wasm_address_nonneg ptr offset Hp Ho). unfold addressable in Hm.
  unfold load. rewrite effective_address_spec. unfold_m.
  assert (1 <= prim_bytes p) by (destruct p; cbn; lia).
  destruct (Z.ltb_spec (wasm_address ptr offset) (2 ^ usize_bits)).
  - destruct (Z.leb_spec (wasm_address ptr offset + prim_bytes p) (Z.of_nat (length memory)));
      [done|]. rewrite load_at_eq by done. by rewrite (proj2 (Z.leb_gt _ _)) by done.
  - by rewrite (proj2 (Z.leb_gt _ _)) by lia.
Qed.

Lemma store_at_eq p address v memory : 0 <= address ->
  store_at p address v memory =
  if address + prim_bytes p <=? Z.of_nat (length memory)
  then (Ok tt, set_span address (into_le_bytes p v) memory)
  else (Err MemoryOutOfBounds, memory).
Proof.
  intros Ha. assert (0 <= prim_bytes p) by (destruct p; cbn; lia).
  unfold store_at, store_from. rewrite length_into_le_bytes.
  destruct (get_span address (prim_bytes p) memory) as [bs|] eqn:E.
  - apply get_span_Some in E as [? ->]; [|done..].
    by rewrite (proj2 (Z.leb_le _ _)) by done.
  - apply get_span_None in E; [|done..].
    by rewrite (proj2 (Z.leb_gt _ _)) by done.
Qed.

Lemma store_eq p ptr offset v memory : addressable memory -> 0 <= ptr -> 0 <= offset ->
  store p ptr offset v memory =
  if wasm_address ptr offset + prim_bytes p <=? Z.of_nat (length memory)
  then (Ok tt, set_span (wasm_address ptr offset) (into_le_bytes p v) memory)
  else (Err MemoryOutOfBounds, memory).
Proof.
  intros Hm Hp Ho. pose proof (wasm_address_nonneg ptr offset Hp Ho). unfold addressable in Hm.
  unfold store. unfold_m. rewrite effective_address_spec.
  assert (1 <= prim_bytes p) by (destruct p; cbn; lia).
  destruct (Z.ltb_spec (wasm_address ptr offset) (2 ^ usize_bits)).
  - by apply store_at_eq.
  - by rewrite (proj2 (Z.leb_gt _ _)) by lia.
Qed.

Lemma store_wrap_eq p ptr offset v : store_wrap p ptr offset v = store p ptr offset (wrap_into p v).
Proof. done. Qed.

Lemma load_extend_eq into p memory ptr offset :
  load_extend into p memory ptr offset = extend_into into <$> load p memory ptr offset.
Proof.
  unfold load_extend, load, load_extend_at. unfold_m.
  by destruct (effective_address ptr offset).
Qed.

Lemma load_set_span_same p address v memory :
  0 <= address -> address + prim_bytes p <= Z.of_nat (length memory) ->
  load_at p (set_span address (into_le_bytes p v) memory) address = Ok (cast p v).
Proof.
  intros Ha Hl. unfold load_at, load_into.
  rewrite <-(length_into_le_bytes p v) at 1.
  rewrite get_set_span_eq by (rewrite ?length_into_le_bytes; lia).
  unfold_m. by rewrite from_into_le_bytes.
Qed.

Lemma bytes_ok_set_span i xs l : bytes_ok xs -> bytes_ok l -> bytes_ok (set_span i xs l).
Proof.
  intros Hx Hl. apply Forall_lookup. intros j x Hj. unfold set_span in Hj.
  apply list_lookup_inserts_Some in Hj as [[? Hj]|[? [? Hj]]].
  - by eapply Forall_lookup_1 in Hl.
  - by eapply Forall_lookup_1 in Hx.
Qed.

Lemma store_Ok_load p ptr offset v memory memory' :
  addressable memory -> 0 <= ptr -> 0 <= offset ->
  store p ptr offset v memory = (Ok tt, memory') -> load p memory' ptr offset = Ok (cast p v).
Proof.
  intros Hm Hptr Hoff. pose proof (wasm_address_nonneg ptr offset Hptr Hoff) as Ha.
  rewrite store_eq by done.
  destruct (Z.leb_spec (wasm_address ptr offset + prim_bytes p) (Z.of_nat (length memory)));
    intros [= <-].
  rewrite load_eq by (unfold addressable; rewrite ?length_set_span; done).
  rewrite length_set_span, (proj2 (Z.leb_le _ _)) by done. by apply load_set_span_same.
Qed.

(** A store succeeds exactly when it fits the memory; then the same address
    loads the stored value converted to its type, every byte outside the
    accessed span is untouched and the memory keeps its size.  An out of bounds
    store traps and leaves the memory as it was. *)
Theorem store_load_spec p ptr offset v memory r memory' :
  p <> P_bool -> addressable memory -> bytes_ok memory -> 0 <= ptr -> 0 <= offset ->
  store p ptr offset v memory = (r, memory') ->
  length memory' = length memory /\ bytes_ok memory' /\
  (r = Ok tt <-> wasm_address ptr offset + prim_bytes p <= Z.of_nat (length memory)) /\
  match r with
  | Ok _ =>
      load p memory' ptr offset = Ok (cast p v) /\
      (forall j, Z.of_nat j < wasm_address ptr offset \/
                 wasm_address ptr offset + prim_bytes p <= Z.of_nat j ->
                 memory' !! j = memory !! j)
  | Err e => e = MemoryOutOfBounds /\ memory' = memory
  | Panic => False
  end.
Proof.
  intros Hp Hm Hb Hptr Hoff. pose proof (wasm_address_nonneg ptr offset Hptr Hoff) as Ha.
  rewrite store_eq by done.
  destruct (Z.leb_spec (wasm_address ptr offset + prim_bytes p) (Z.of_nat (length memory)));
    intros [= <- <-].
  - rewrite length_set_span. split; [done|].
    split; [by apply bytes_ok_set_span; [apply into_le_bytes_ok|]|]. split; [done|].
    split.
    + apply (store_Ok_load p ptr offset v memory); [done..|].
      by rewrite store_eq, (proj2 (Z.leb_le _ _)) by done.
    + intros j Hj. apply set_span_lookup_out; [done|]. by rewrite length_into_le_bytes.
  - split; [done|]. split; [done|]. split; [|done]. split; [done|lia].
Qed.

(** A load reads the little-endian value at the accessed span, or traps when
    the span is not inside the memory; a load whose span a store does not
    touch is not affected by the store. *)
Theorem load_frame p q ptr offset ptr' offset' v memory r memory' :
  addressable memory -> 0 <= ptr -> 0 <= offset -> 0 <= ptr' -> 0 <= offset' ->
  wasm_address ptr' offset' + prim_bytes q <= wasm_address ptr offset \/
  wasm_address ptr offset + prim_bytes p <= wasm_address ptr' offset' ->
  store p ptr offset v memory = (r, memory') ->
  load q memory' ptr' offset' = load q memory ptr' offset' /\
  load q memory ptr' offset' =
    (if wasm_address ptr' offset' + prim_bytes q <=? Z.of_nat (length memory)
     then Ok (from_le_bytes q (take (Z.to_nat (prim_bytes q))
                (drop (Z.to_nat (wasm_address ptr' offset')) memory)))
     else Err MemoryOutOfBounds).
Proof.
  intros Hm Hp Ho Hp' Ho' Hd Hs. pose proof (wasm_address_nonneg ptr offset Hp Ho).
  pose proof (wasm_address_nonneg ptr' offset' Hp' Ho').
  rewrite store_eq in Hs by done. split.
  - destruct (Z.leb_spec (wasm_address ptr offset + prim_bytes p) (Z.of_nat (length memory)));
      injection Hs as <- <-; [|done].
    rewrite !load_eq by (unfold addressable; rewrite ?length_set_span; done).
    rewrite length_set_span. case_if; [|done]. unfold load_at, load_into.
    assert (0 <= prim_bytes q) by (destruct q; cbn; lia).
    rewrite get_set_span_ne; rewrite ?length_into_le_bytes; done || lia.
  - clear Hs. rewrite load_eq by done. rewrite load_at_eq by done. by case_if.
Qed.

(** A narrow store followed by an extending load gives the low bits of the
    value, sign extended by the signed loads and zero extended by the others. *)
Theorem narrow_store_load into p ptr offset v memory memory' :
  p <> P_bool -> into <> P_bool -> prim_bits p <= prim_bits into ->
  (prim_signed p = true -> prim_signed into = true) ->
  (prim_bits p = prim_bits into -> prim_signed p = prim_signed into) ->
  addressable memory -> 0 <= ptr -> 0 <= offset ->
  store_wrap p ptr offset v memory = (Ok tt, memory') ->
  load_extend into p memory' ptr offset =
    Ok (if prim_signed p then wraps (prim_bits p) v else wrapu (prim_bits p) v).
Proof.
  intros Hp Hi Hle Hsg Heq Hm Hptr Hoff Hs. rewrite store_wrap_eq in Hs.
  apply store_Ok_load in Hs; [|done..]. rewrite load_extend_eq, Hs. unfold_m. f_equal. unfold extend_into, wrap_into.
  rewrite (cast_cast p p) by done. fold (cast p v).
  by apply cast_id; [apply cast_fits|].
Qed.
End Access.

(** ** Witnesses *)

Definition sample_memory : list Z := replicate 16 7.

Lemma store_load_spec_witness :
  let T := default_target in
  exists m', store P_u32 4 1 0x01020304 sample_memory = (Ok tt, m') /\
  load P_u32 m' 4 1 = Ok 0x01020304.
Proof.
  eexists. split; [reflexivity|].
  refine (proj1 (proj2 (proj2 (proj2 (store_load_spec (T := default_target) P_u32 4 1 0x01020304
    sample_memory (Ok tt) _ _ _ _ _ _ _))))); try done.
  apply Forall_replicate. unfold in_u. lia.
Defined.

Lemma load_frame_witness :
  let T := default_target in
  load P_u16 (snd (store P_u32 4 1 0x01020304 sample_memory)) 3 0 = load P_u16 sample_memory 3 0.
Proof.
  refine (proj1 (load_frame (T := default_target) P_u32 P_u16 4 1 3 0 0x01020304 sample_memory
    (Ok tt) _ _ _ _ _ _ _ _)); try done. vm_compute. left. discriminate.
Defined.

Lemma narrow_store_load_witness :
  let T := default_target in
  load_extend P_i64 P_i8 (snd (store_wrap P_i8 4 1 0x1ff sample_memory)) 4 1 = Ok (-1).
Proof.
  refine (narrow_store_load (T := default_target) P_i64 P_i8 4 1 0x1ff sample_memory _
    _ _ _ _ _ _ _ _ _); try done.
Defined.
