(* ===== verification/Memory.v ===== *)
(** * Linear memories

    [crates/core/src/memory/mod.rs]: the linear memory with its creation, its
    growth under a fuel counter and a resource limiter, and the bulk accesses of
    the host. *)

From Stdlib Require Import ZArith Lia.
From stdpp Require Import base option decidable numbers list.
From S2P Require Import Prelude Value Fuel Limiter MemoryType.
Local Open Scope Z_scope.

Record Memory : Type := { mem_bytes : ByteBuffer; mem_ty : MemoryType }.

Section Memory.
Context `{T : Target} {Alloc : Allocator} {L : Type} {RL : ResourceLimiter L}.

(** What growing a memory may change: the memory, the fuel and the limiter. *)
Definition GrowState : Type := Memory * option Fuel * ResourceLimiterRef L.

Definition on_limiter {A} (d : A) (m : M L LimiterError A) :
    M (ResourceLimiterRef L) MemoryError A :=
  with_resource_limiter MemoryError_from_LimiterError d m.

(** ** Creation *)

Definition Memory_max_size (memory_type : MemoryType) : res MemoryError (option Z) :=
  match mt_maximum memory_type with
  | Some max =>
      if absolute_max memory_type <? max then Err ME_MaximumSizeOverflow
      else Ok (Some (default (2 ^ usize_bits - 1)
                 (try_from_u usize_bits (Z.shiftl max (mt_page_size_log2 memory_type)))))
  | None => Ok None
  end.

Definition Memory_new_impl (memory_type : MemoryType)
    (make_buffer : Z -> res MemoryError ByteBuffer) :
    M (ResourceLimiterRef L) MemoryError Memory :=
  min_size ← lift (map_err (fun _ => ME_MinimumSizeOverflow) (minimum_byte_size memory_type));
  min_size ← lift (ok_or (try_from_u usize_bits min_size) ME_MinimumSizeOverflow);
  max_size ← lift (Memory_max_size memory_type);
  allowed ← on_limiter true (memory_growing 0 min_size max_size);
  if negb allowed then fail ME_ResourceLimiterDeniedAllocation else
  match make_buffer min_size with
  | Ok buffer => mret {| mem_bytes := buffer; mem_ty := memory_type |}
  | Err error => on_limiter tt (memory_grow_failed error);; fail error
  | Panic => panic
  end.

Definition Memory_new (memory_type : MemoryType) : M (ResourceLimiterRef L) MemoryError Memory :=
  Memory_new_impl memory_type ByteBuffer_new.

Definition Memory_new_static (memory_type : MemoryType) (buffer : list Z) :
    M (ResourceLimiterRef L) MemoryError Memory :=
  Memory_new_impl memory_type (ByteBuffer_new_static buffer).

(** ** Sizes *)

Definition Memory_size (self : Memory) : Z :=
  Z.shiftr (bb_len (mem_bytes self)) (mt_page_size_log2 (mem_ty self)).

Definition Memory_dynamic_ty (self : Memory) : res MemoryError MemoryType :=
  let b := MemoryTypeBuilder_default in
  let b := MemoryTypeBuilder_min (Memory_size self) b in
  let b := MemoryTypeBuilder_max (mt_maximum (mem_ty self)) b in
  let b := MemoryTypeBuilder_page_size_log2 (mt_page_size_log2 (mem_ty self)) b in
  let b := MemoryTypeBuilder_memory64 (MemoryType_is_64 (mem_ty self)) b in
  match MemoryTypeBuilder_build b with
  | Ok ty => Ok ty
  | _ => Panic
  end.

Definition Memory_size_in_bytes {E} (self : Memory) : res E Z :=
  bytes_per_page ← page_size (mem_ty self);
  expect (checked_mul 64 (Memory_size self) bytes_per_page).

Definition Memory_max_size_in_bytes {E} (self : Memory) : res E (option Z) :=
  match mt_maximum (mem_ty self) with
  | None => Ok None
  | Some max_pages =>
      bytes_per_page ← page_size (mem_ty self);
      max_bytes ← expect (checked_mul 64 max_pages bytes_per_page);
      Ok (Some max_bytes)
  end.

(** ** Growth *)

Definition notify_limiter {A} (err : MemoryError) : M GrowState MemoryError A :=
  zoom snd (fun l s => (fst s, l)) id (on_limiter tt (memory_grow_failed err));;
  fail err.

(** Charging for the growth, when there is a fuel counter. *)
Definition Memory_grow_fuel (additional bytes_per_page : Z) : M GrowState MemoryError unit :=
  s ← get_st;
  match s.1.2 with
  | None => mret tt
  | Some fuel =>
      additional_bytes ← lift (expect (checked_mul 64 additional bytes_per_page));
      match consume_fuel_if (fun costs => fuel_for_copying_values costs 1 additional_bytes) fuel with
      | (Err (FuelError_OutOfFuel required_fuel), fuel) =>
          put_st (s.1.1, Some fuel, s.2);;
          notify_limiter (ME_OutOfFuel required_fuel)
      | (Panic, _) => panic
      | (_, fuel) => put_st (s.1.1, Some fuel, s.2)
      end
  end.

Definition Memory_grow (additional : Z) : M GrowState MemoryError Z :=
  s ← get_st;
  let self := s.1.1 in
  if additional =? 0 then mret (Memory_size self) else
  current_byte_size ← lift (wrapu usize_bits <$> Memory_size_in_bytes self);
  maximum_byte_size ← lift (option_map (wrapu usize_bits) <$> Memory_max_size_in_bytes self);
  let current_size := Memory_size self in
  desired_size ← lift (ok_or (checked_add 64 current_size additional) ME_OutOfBoundsGrowth);
  if absolute_max (mem_ty self) <? desired_size then fail ME_OutOfBoundsGrowth else
  if (match mt_maximum (mem_ty self) with
      | Some maximum_size => maximum_size <? desired_size
      | None => false
      end) then fail ME_OutOfBoundsGrowth else
  bytes_per_page ← lift (page_size (mem_ty self));
  desired_byte_size ← lift (ok_or (checked_mul 64 desired_size bytes_per_page) ME_OutOfBoundsGrowth);
  desired_byte_size ← lift (ok_or (try_from_u usize_bits desired_byte_size) ME_OutOfBoundsGrowth);
  allowed ← zoom snd (fun l s => (fst s, l)) id
    (on_limiter true (memory_growing current_byte_size desired_byte_size maximum_byte_size));
  if negb allowed then fail ME_OutOfBoundsGrowth else
  Memory_grow_fuel additional bytes_per_page;;
  s ← get_st;
  let '(r, bytes) := ByteBuffer_grow desired_byte_size (mem_bytes s.1.1) in
  put_st ({| mem_bytes := bytes; mem_ty := mem_ty s.1.1 |}, s.1.2, s.2);;
  match r with
  | Ok _ => mret current_size
  | Err error => notify_limiter error
  | Panic => panic
  end.

(** ** Host accesses *)

Definition Memory_data (self : Memory) : list Z := ByteBuffer_data (mem_bytes self).
Definition Memory_set_data (data : list Z) (self : Memory) : Memory :=
  {| mem_bytes := ByteBuffer_set_data data (mem_bytes self); mem_ty := mem_ty self |}.

Definition Memory_access_span (start len : Z) : res MemoryError (Z * Z) :=
  match checked_add usize_bits start len with
  | None => Err ME_OutOfBoundsAccess
  | Some e => Ok (start, e)
  end.

(** [data.get(start..end)]. *)
Definition get_range (span : Z * Z) (data : list Z) : option (list Z) :=
  if span.1 <=? span.2 then get_span span.1 (span.2 - span.1) data else None.

(** [read(offset, buffer)] with [len] the length of [buffer]: the new contents
    of [buffer]. *)
Definition Memory_read (self : Memory) (offset len : Z) : res MemoryError (list Z) :=
  span ← Memory_access_span offset len;
  ok_or (get_range span (Memory_data self)) ME_OutOfBoundsAccess.

Definition Memory_write (offset : Z) (buffer : list Z) : M Memory MemoryError unit :=
  span ← lift (Memory_access_span offset (Z.of_nat (length buffer)));
  self ← get_st;
  lift (ok_or (get_range span (Memory_data self)) ME_OutOfBoundsAccess);;
  put_st (Memory_set_data (set_span span.1 buffer (Memory_data self)) self).

(** ** Properties *)

Definition page_bytes (m : Memory) : Z := 2 ^ mt_page_size_log2 (mem_ty m).

(** A memory of a valid type holds a whole number of pages within the bounds
    of its type. *)
Definition Memory_wf (m : Memory) : Prop :=
  MemoryType_valid (mem_ty m) /\ 0 <= mt_minimum (mem_ty m) /\
  ByteBuffer_wf (mem_bytes m) /\
  bb_len (mem_bytes m) = Memory_size m * page_bytes m /\
  mt_minimum (mem_ty m) <= Memory_size m <= absolute_max (mem_ty m) /\
  (forall max, mt_maximum (mem_ty m) = Some max -> Memory_size m <= max).

(** The maximum size in bytes is a [u64]; [validate] does not ensure it. *)
Definition max_bytes_fit (m : Memory) : Prop :=
  forall max, mt_maximum (mem_ty m) = Some max -> max * page_bytes m < 2 ^ 64.

Lemma page_bytes_cases m : MemoryType_valid (mem_ty m) ->
  page_bytes m = 1 \/ page_bytes m = 65536.
Proof. intros (_ & [H|H] & _); unfold page_bytes; rewrite H; [left|right]; done. Qed.

Lemma Memory_size_div m : MemoryType_valid (mem_ty m) ->
  Memory_size m = bb_len (mem_bytes m) / page_bytes m.
Proof.
  intros (_ & H & _). unfold Memory_size, page_bytes. apply Z.shiftr_div_pow2. lia.
Qed.

(** Whether the request is within the type's and the host's bounds. *)
Definition growable (additional : Z) (m : Memory) : bool :=
  let desired := Memory_size m + additional in
  (desired <=? absolute_max (mem_ty m)) &&
  match mt_maximum (mem_ty m) with Some max => desired <=? max | None => true end &&
  (desired * page_bytes m <? 2 ^ usize_bits).

(** The parts of [grow] after the limiter's check and after the bounds checks. *)
Definition grow_allowed (additional : Z) (m : Memory) : M GrowState MemoryError Z :=
  Memory_grow_fuel additional (page_bytes m);;
  s ← get_st;
  let '(r, bytes) := ByteBuffer_grow ((Memory_size m + additional) * page_bytes m)
                       (mem_bytes s.1.1) in
  put_st ({| mem_bytes := bytes; mem_ty := mem_ty s.1.1 |}, s.1.2, s.2);;
  match r with
  | Ok _ => mret (Memory_size m)
  | Err error => notify_limiter error
  | Panic => panic
  end.

Definition grow_within (additional : Z) (m : Memory) : M GrowState MemoryError Z :=
  allowed ← zoom snd (fun l s => (fst s, l)) id
    (on_limiter true (memory_growing (bb_len (mem_bytes m))
      ((Memory_size m + additional) * page_bytes m)
      (option_map (fun max => wrapu usize_bits (max * page_bytes m)) (mt_maximum (mem_ty m)))));
  if negb allowed then fail ME_OutOfBoundsGrowth else
  grow_allowed additional m.

Lemma Memory_size_in_bytes_eq {E} m : Memory_wf m ->
  Memory_size_in_bytes (E := E) m = Ok (bb_len (mem_bytes m)).
Proof.
  intros (Hv & _ & (Hb & _) & Hl & _). pose proof usize_bits_bounds.
  unfold Memory_size_in_bytes. rewrite page_size_valid by done. unfold_m.
  fold (page_bytes m). unfold checked_mul. rewrite <-Hl.
  by rewrite (proj2 (Z.ltb_lt _ _)) by lia.
Qed.

Lemma Memory_max_size_in_bytes_eq {E} m : Memory_wf m -> max_bytes_fit m ->
  Memory_max_size_in_bytes (E := E) m =
  Ok (option_map (fun max => max * page_bytes m) (mt_maximum (mem_ty m))).
Proof.
  intros (Hv & _) Hf. unfold Memory_max_size_in_bytes, max_bytes_fit in *.
  destruct (mt_maximum (mem_ty m)) as [max|]; [|done].
  rewrite page_size_valid by done. unfold_m. fold (page_bytes m). unfold checked_mul.
  by rewrite (proj2 (Z.ltb_lt _ _)) by (by apply Hf).
Qed.

Lemma absolute_max_u64 m : MemoryType_valid (mem_ty m) -> absolute_max (mem_ty m) <= 2 ^ 64.
Proof.
  intros (_ & [H|H] & _); unfold absolute_max, max_size_based_on_index_type;
    rewrite H; by destruct (mt_index_type (mem_ty m)).
Qed.

Lemma Memory_grow_eq additional m fuel lim :
  Memory_wf m -> max_bytes_fit m -> 0 <= additional < 2 ^ 64 ->
  Memory_grow additional (m, fuel, lim) =
  if additional =? 0 then (Ok (Memory_size m), (m, fuel, lim))
  else if growable additional m then grow_within additional m (m, fuel, lim)
  else (Err ME_OutOfBoundsGrowth, (m, fuel, lim)).
Proof.
  intros Hw Hf Ha. pose proof Hw as (Hv & _ & (Hlen & _) & Hl & [? Hs] & Hmx).
  pose proof usize_bits_bounds. pose proof (page_bytes_cases m Hv) as Hp.
  pose proof (absolute_max_u64 m Hv).
  unfold Memory_grow, growable, grow_within, grow_allowed. unfold_m. cbn [fst snd].
  destruct (Z.eqb_spec additional 0); [done|].
  rewrite (Memory_size_in_bytes_eq m Hw), (Memory_max_size_in_bytes_eq m Hw Hf).
  cbn beta iota zeta.
  rewrite page_size_valid by done. fold (page_bytes m).
  rewrite wrapu_small by (unfold in_u; lia).
  set (d := Memory_size m + additional). assert (0 <= d) by (subst d; lia).
  assert (Hmax : match mt_maximum (mem_ty m) with Some x => x <? d | None => false end =
    negb (match mt_maximum (mem_ty m) with Some x => d <=? x | None => true end)).
  { destruct (mt_maximum (mem_ty m)) as [x|]; [apply Z.ltb_antisym|done]. }
  unfold checked_add, checked_mul, try_from_u. fold d.
  destruct (Z.ltb_spec d (2 ^ 64)).
  2: { rewrite (proj2 (Z.ltb_ge (d * _) _)) by nia. by rewrite andb_false_r. }
  rewrite Hmax. set (mx := match mt_maximum (mem_ty m) with Some x => d <=? x | None => true end).
  rewrite Z.ltb_antisym. destruct (d <=? absolute_max (mem_ty m)); [|done].
  destruct mx; [|done]. cbn [negb andb].
  destruct (Z.ltb_spec (d * page_bytes m) (2 ^ usize_bits)).
  - rewrite !(proj2 (Z.ltb_lt (d * _) _)) by lia. by destruct (mt_maximum (mem_ty m)).
  - destruct (Z.ltb_spec (d * page_bytes m) (2 ^ 64)); [|done].
    by rewrite (proj2 (Z.ltb_ge (d * _) _)) by lia.
Qed.

Lemma on_limiter_eq {A} (d : A) m lim :
  on_limiter d m lim =
  match lim with
  | Some l => let '(r, l') := m l in (map_err MemoryError_from_LimiterError r, Some l')
  | None => (Ok d, None)
  end.
Proof. by destruct lim. Qed.

(** The fuel a growth charges. *)
Definition grow_cost (additional : Z) (m : Memory) (f : Fuel) : Z :=
  fuel_for_copying_values (fuel_costs f) 1 (additional * page_bytes m).

Definition bounded_by (lim : ResourceLimiterRef L) `{BL : !BoundedLimiter L} (bytes : Z) : Prop :=
  forall l b, lim = Some l -> memory_bound l = Some b -> bytes <= b.

Section Bounded.
Context {BL : BoundedLimiter L}.

Lemma notify_limiter_eq {A} err (m : Memory) fuel lim :
  exists e lim', notify_limiter (A := A) err (m, fuel, lim) = (Err e, (m, fuel, lim')).
Proof.
  unfold notify_limiter. unfold_m. cbn [fst snd]. rewrite on_limiter_eq.
  destruct lim as [l|]; [|eexists _, _; reflexivity].
  destruct (memory_grow_failed err l) as [rl l'] eqn:E.
  destruct (memory_grow_failed_bounded _ _ _ _ E) as [? _].
  destruct rl; [eexists _, _; reflexivity..|done].
Qed.

(** The fuel check passes and charges the cost, or it fails without a panic. *)
Lemma Memory_grow_fuel_spec additional m fuel lim r s' :
  0 <= additional -> additional * page_bytes m < 2 ^ 64 ->
  Memory_grow_fuel additional (page_bytes m) (m, fuel, lim) = (r, s') ->
  match r with
  | Ok _ => s' = (m, match fuel with
                     | Some f => Some (if fuel_enabled f
                                       then set_fuel_remaining (fuel_remaining f - grow_cost additional m f) f
                                       else f)
                     | None => None
                     end, lim) /\
            (forall f, fuel = Some f -> fuel_enabled f = true ->
                       grow_cost additional m f <= fuel_remaining f)
  | Err _ => s'.1 = (m, fuel) /\
             exists f, fuel = Some f /\ fuel_enabled f = true /\
                       fuel_remaining f < grow_cost additional m f
  | Panic => False
  end.
Proof.
  intros Ha Hb. unfold Memory_grow_fuel. unfold_m. cbn [fst snd].
  destruct fuel as [f|]; [|intros [= <- <-]; split; [done|naive_solver]].
  unfold checked_mul. rewrite (proj2 (Z.ltb_lt _ _)) by done. rewrite consume_fuel_if_eq.
  unfold charge_if, grow_cost.
  destruct (fuel_enabled f) eqn:Hen; cbn [negb];
    [|intros [= <- <-]; split; [done|]; intros g [= <-]; congruence].
  destruct (Z.leb_spec (fuel_for_copying_values (fuel_costs f) 1 (additional * page_bytes m))
    (fuel_remaining f)).
  - intros [= <- <-]. split; [done|]. by intros g [= <-].
  - destruct (notify_limiter_eq (A := unit) (ME_OutOfFuel
      (fuel_for_copying_values (fuel_costs f) 1 (additional * page_bytes m))) m (Some f) lim)
      as (e & lim' & ->).
    intros [= <- <-]. split; [done|]. by eexists.
Qed.

Lemma growable_true additional m : growable additional m = true ->
  Memory_size m + additional <= absolute_max (mem_ty m) /\
  (forall max, mt_maximum (mem_ty m) = Some max -> Memory_size m + additional <= max) /\
  (Memory_size m + additional) * page_bytes m < 2 ^ usize_bits.
Proof.
  unfold growable. intros H. zb. split; [done|]. split; [|done].
  intros max E. rewrite E in *. by zb.
Qed.

(** What a growth within bounds returns and leaves behind. *)
Definition grow_post (additional : Z) (m : Memory) (fuel : option Fuel)
    (r : res MemoryError Z) (s' : GrowState) : Prop :=
  match r with
  | Ok n => n = Memory_size m /\
      mem_ty s'.1.1 = mem_ty m /\ ByteBuffer_wf (mem_bytes s'.1.1) /\
      bb_len (mem_bytes s'.1.1) = (Memory_size m + additional) * page_bytes m /\
      Memory_data s'.1.1 = Memory_data m ++ zeros (additional * page_bytes m) /\
      s'.1.2 = (f ← fuel; Some (if fuel_enabled f
                 then set_fuel_remaining (fuel_remaining f - grow_cost additional m f) f else f)) /\
      (forall f, fuel = Some f -> fuel_enabled f = true ->
                 grow_cost additional m f <= fuel_remaining f)
  | Err _ => s'.1.1 = m
  | Panic => False
  end.

Lemma grow_allowed_spec additional m fuel lim r s' :
  Memory_wf m -> 0 < additional -> growable additional m = true ->
  grow_allowed additional m (m, fuel, lim) = (r, s') -> grow_post additional m fuel r s'.
Proof.
  intros (Hv & ? & Hbb & Hl & [? Hs] & _) Ha (Hg1 & Hg2 & Hg3)%growable_true.
  pose proof usize_bits_bounds. pose proof (page_bytes_cases m Hv) as Hp.
  unfold grow_allowed. unfold_m. cbn [fst snd].
  destruct (Memory_grow_fuel _ _ _) as [r0 s1] eqn:Ef.
  apply Memory_grow_fuel_spec in Ef; [|lia|nia].
  destruct r0 as [[]|e|]; [|intros [= <- <-]; destruct Ef as [Ef _]; cbn; by rewrite Ef|done].
  destruct Ef as [-> Hcost]. cbn [fst snd].
  set (d := (Memory_size m + additional) * page_bytes m) in *.
  assert (Hd : bb_len (mem_bytes m) <= d) by (subst d; rewrite Hl; nia).
  destruct (ByteBuffer_grow d (mem_bytes m)) as [r2 bytes] eqn:Eb.
  apply ByteBuffer_grow_spec in Eb; [|done|lia].
  destruct r2 as [[]|e|]; [| |done].
  - intros [= <- <-]. cbn. destruct Eb as (? & Hlen & Hdata).
    unfold Memory_data. cbn. rewrite Hdata, Hlen, Hl.
    split_and!; try done. f_equal. f_equal. subst d. nia.
  - destruct Eb as [-> _].
    match goal with |- notify_limiter e ?st = _ -> _ =>
      destruct (notify_limiter_eq (A := Z) e st.1.1 st.1.2 st.2) as (e' & lim2 & Hn) end.
    cbn [fst snd] in Hn. rewrite Hn. intros [= <- <-]. by destruct m.
Qed.

Lemma grow_within_spec additional m fuel lim r s' :
  Memory_wf m -> 0 < additional -> growable additional m = true ->
  grow_within additional m (m, fuel, lim) = (r, s') ->
  grow_post additional m fuel r s' /\
  (is_ok r = true -> bounded_by lim ((Memory_size m + additional) * page_bytes m)).
Proof.
  intros Hw Ha Hg. unfold grow_within. unfold_m. cbn [fst snd]. rewrite on_limiter_eq.
  destruct lim as [l|].
  - destruct (memory_growing _ _ _ l) as [rl l'] eqn:El.
    apply memory_growing_bounded in El as (Hnp & _ & _ & Hb).
    destruct rl as [[]|e|]; [|by intros [= <- <-]|by intros [= <- <-]|done].
    cbn [map_err negb]. intros E%grow_allowed_spec; [|done..]. split; [done|].
    intros _ l1 b [= <-] Hm. by apply Hb.
  - cbn [map_err negb]. intros E%grow_allowed_spec; [|done..]. split; [done|]. by intros _ l1 b.
Qed.

Lemma Memory_data_length m : Memory_wf m ->
  Z.of_nat (length (Memory_data m)) = Memory_size m * page_bytes m.
Proof. intros (_ & _ & Hb & Hl & _). rewrite <-Hl. by apply length_ByteBuffer_data. Qed.

Lemma grow_post_wf additional m fuel n s' :
  Memory_wf m -> 0 < additional -> growable additional m = true ->
  grow_post additional m fuel (Ok n) s' ->
  Memory_wf s'.1.1 /\ Memory_size s'.1.1 = Memory_size m + additional.
Proof.
  intros (Hv & Hn & Hbb & Hl & [? Hs] & Hmx) Ha (Hg1 & Hg2 & Hg3)%growable_true
    (-> & Hty & Hbb' & Hlen & _).
  pose proof (page_bytes_cases m Hv) as Hp.
  assert (Hpb : page_bytes s'.1.1 = page_bytes m) by (unfold page_bytes; by rewrite Hty).
  assert (Hsz : Memory_size s'.1.1 = Memory_size m + additional).
  { rewrite Memory_size_div by (by rewrite Hty). rewrite Hlen, Hpb. apply Z.div_mul. lia. }
  split; [|done]. unfold Memory_wf. rewrite Hty, Hsz, Hlen, Hpb.
  split_and!; try done; lia.
Qed.

(** Growing a memory keeps it well formed and of the same type.  On success it
    returns the old size, the memory has exactly the requested pages more, the
    old bytes are kept and the new ones are zero, the limiter's bound holds and
    exactly the documented cost was charged.  On failure the memory is as it
    was, whatever failed: bounds, limiter, fuel or allocation.  It never
    panics. *)
Theorem Memory_grow_spec additional m fuel lim r m' fuel' lim' :
  Memory_wf m -> max_bytes_fit m -> 0 <= additional < 2 ^ 64 ->
  Memory_grow additional (m, fuel, lim) = (r, (m', fuel', lim')) ->
  Memory_wf m' /\ mem_ty m' = mem_ty m /\
  match r with
  | Ok n =>
      n = Memory_size m /\ Memory_size m' = n + additional /\
      Memory_data m' = Memory_data m ++ zeros (additional * page_bytes m) /\
      (0 < additional -> bounded_by lim (Z.of_nat (length (Memory_data m')))) /\
      (forall f, 0 < additional -> fuel = Some f -> fuel_enabled f = true ->
        grow_cost additional m f <= fuel_remaining f /\
        fuel' = Some (set_fuel_remaining (fuel_remaining f - grow_cost additional m f) f))
  | Err _ => m' = m
  | Panic => False
  end.
Proof.
  intros Hw Hf Ha. rewrite Memory_grow_eq by done.
  destruct (Z.eqb_spec additional 0) as [->|?].
  { intros [= <- <- <- <-]. split; [done|]. split; [done|]. split; [done|].
    split; [lia|]. split; [by rewrite app_nil_r|]. split; [lia|]. lia. }
  destruct (growable additional m) eqn:Hg; [|by intros [= <- <- <- <-]].
  intros [Hpost Hb]%grow_within_spec; [|done|lia|done].
  destruct r as [k|e|]; [|cbn in Hpost; by rewrite Hpost|done].
  assert (Hpos : 0 < additional) by lia.
  destruct (grow_post_wf _ _ _ _ _ Hw Hpos Hg Hpost) as [Hw' Hsz].
  destruct Hpost as (-> & Hty & _ & Hlen & Hdata & Hfuel & Hcost). cbn [fst snd] in *.
  split_and!; try done.
  - intros _. rewrite Memory_data_length by done. rewrite Hsz.
    replace (page_bytes m') with (page_bytes m) by (unfold page_bytes; by rewrite Hty).
    by apply Hb.
  - intros f _ -> Hen. split; [by apply Hcost|]. rewrite Hfuel. cbn. by rewrite Hen.
Qed.

(** A growth beyond the maximum of the type, the address space or the host is
    refused before the limiter or the fuel counter see it. *)
Theorem Memory_grow_out_of_bounds additional m fuel lim :
  Memory_wf m -> max_bytes_fit m -> 0 < additional < 2 ^ 64 ->
  (absolute_max (mem_ty m) < Memory_size m + additional \/
   (exists max, mt_maximum (mem_ty m) = Some max /\ max < Memory_size m + additional) \/
   2 ^ usize_bits <= (Memory_size m + additional) * page_bytes m) ->
  Memory_grow additional (m, fuel, lim) = (Err ME_OutOfBoundsGrowth, (m, fuel, lim)).
Proof.
  intros Hw Hf Ha Ho. rewrite Memory_grow_eq by (done || lia).
  destruct (Z.eqb_spec additional 0); [lia|].
  destruct (growable additional m) eqn:Hg; [|done].
  apply growable_true in Hg as (? & Hm & ?). exfalso.
  destruct Ho as [?|[(max & E & ?)|?]]; [lia|specialize (Hm _ E); lia|lia].
Qed.
End Bounded.

(** ** Creation *)

(** A created memory has the type asked for, its minimum number of pages, all
    zero, within the limiter's bound; creation never panics. *)
Lemma Memory_new_impl_spec {BL : BoundedLimiter L} ty make_buffer lim r lim' :
  MemoryType_valid ty -> 0 <= mt_minimum ty ->
  (forall size, 0 <= size < 2 ^ usize_bits ->
    match make_buffer size with
    | Ok b => ByteBuffer_wf b /\ ByteBuffer_data b = zeros size
    | Err _ => True
    | Panic => False
    end) ->
  Memory_new_impl ty make_buffer lim = (r, lim') ->
  match r with
  | Ok m => Memory_wf m /\ mem_ty m = ty /\ Memory_size m = mt_minimum ty /\
            Memory_data m = zeros (mt_minimum ty * 2 ^ mt_page_size_log2 ty) /\
            bounded_by lim (mt_minimum ty * 2 ^ mt_page_size_log2 ty)
  | Err _ => True
  | Panic => False
  end.
Proof.
  intros Hv Hmin Hmk. pose proof Hv as (_ & Hlog & Habs & Hmax).
  unfold Memory_new_impl, minimum_byte_size. unfold_m.
  rewrite (proj2 (Z.ltb_ge _ _)) by done.
  assert (Hsh : forall z, Z.shiftl z (mt_page_size_log2 ty) = z * 2 ^ mt_page_size_log2 ty).
  { intros. apply Z.shiftl_mul_pow2. lia. }
  rewrite Hsh. assert (Hp : 2 ^ mt_page_size_log2 ty = 1 \/ 2 ^ mt_page_size_log2 ty = 65536).
  { by destruct Hlog as [-> | ->]; [left|right]. }
  set (P := 2 ^ mt_page_size_log2 ty) in *.
  unfold try_from_u at 1. destruct (Z.ltb_spec (mt_minimum ty * P) (2 ^ usize_bits));
    [|by intros [= <- <-]].
  assert (exists ms, Memory_max_size ty = Ok ms) as [ms ->].
  { unfold Memory_max_size. destruct (mt_maximum ty) as [max|]; [|by eexists].
    rewrite (proj2 (Z.ltb_ge _ _)) by lia. by eexists. }
  assert (Hok : forall b lim, ByteBuffer_wf b -> ByteBuffer_data b = zeros (mt_minimum ty * P) ->
    bounded_by lim (mt_minimum ty * P) ->
    Memory_wf (Build_Memory b ty) /\ Memory_size (Build_Memory b ty) = mt_minimum ty /\
    Memory_data (Build_Memory b ty) = zeros (mt_minimum ty * P)).
  { intros b _ Hwb Hd _. pose proof (length_ByteBuffer_data b Hwb) as Hl.
    rewrite Hd, length_zeros in Hl by nia.
    assert (Hs : Memory_size (Build_Memory b ty) = mt_minimum ty).
    { rewrite Memory_size_div by done. unfold page_bytes. cbn. fold P. rewrite <-Hl.
      apply Z.div_mul. lia. }
    split; [|done]. unfold Memory_wf. rewrite Hs. unfold page_bytes. cbn. fold P.
    split_and!; try done. intros max E. rewrite E in Hmax. lia. }
  specialize (Hmk (mt_minimum ty * P) ltac:(nia)).
  rewrite on_limiter_eq. destruct lim as [l|].
  - destruct (memory_growing _ _ _ l) as [rl l'] eqn:El.
    apply memory_growing_bounded in El as (Hnp & _ & _ & Hb).
    destruct rl as [[]|e|]; [|by intros [= <- <-]|by intros [= <- <-]|done].
    cbn [map_err negb]. destruct (make_buffer _) as [b|e|]; [| |done].
    + intros [= <- <-]. destruct Hmk as [Hwb Hd].
      assert (Hbd : bounded_by (Some l) (mt_minimum ty * P)).
      { intros l1 b1 [= <-] Hm. by apply Hb. }
      destruct (Hok b (Some l) Hwb Hd Hbd) as (? & ? & ?). by split_and!.
    + rewrite on_limiter_eq. destruct (memory_grow_failed e l') as [rl l2] eqn:E2.
      apply memory_grow_failed_bounded in E2 as [? _]. by destruct rl; intros [= <- <-].
  - cbn [negb]. destruct (make_buffer _) as [b|e|]; [| |done].
    + intros [= <- <-]. destruct Hmk as [Hwb Hd].
      assert (Hbd : bounded_by None (mt_minimum ty * P)) by (by intros l1 b1).
      destruct (Hok b None Hwb Hd Hbd) as (? & ? & ?). by split_and!.
    + rewrite on_limiter_eq. by intros [= <- <-].
Qed.

(** ** Host accesses *)

Lemma get_range_spec start len (data : list Z) : 0 <= start -> 0 <= len ->
  get_range (start, start + len) data =
  if start + len <=? Z.of_nat (length data)
  then Some (take (Z.to_nat len) (drop (Z.to_nat start) data)) else None.
Proof.
  intros Hs Hl. unfold get_range. cbn [fst snd].
  rewrite (proj2 (Z.leb_le _ _)) by lia. replace (start + len - start) with len by lia.
  destruct (get_span start len data) as [xs|] eqn:E.
  - apply get_span_Some in E as [? ->]; [|done..]. by rewrite (proj2 (Z.leb_le _ _)) by done.
  - apply get_span_None in E; [|done..]. by rewrite (proj2 (Z.leb_gt _ _)) by done.
Qed.

Lemma Memory_read_eq m offset len : Memory_wf m -> 0 <= offset -> 0 <= len ->
  Memory_read m offset len =
  if offset + len <=? Z.of_nat (length (Memory_data m))
  then Ok (take (Z.to_nat len) (drop (Z.to_nat offset) (Memory_data m)))
  else Err ME_OutOfBoundsAccess.
Proof.
  intros Hw Ho Hl. pose proof Hw as (_ & _ & Hb & _).
  pose proof (length_ByteBuffer_data _ Hb) as Hlen. destruct Hb as [? _].
  unfold Memory_read, Memory_access_span, checked_add. unfold_m.
  destruct (Z.ltb_spec (offset + len) (2 ^ usize_bits)).
  - rewrite get_range_spec by done. by destruct (_ <=? _).
  - rewrite (proj2 (Z.leb_gt _ _)); [done|]. unfold Memory_data. lia.
Qed.

Lemma Memory_write_eq m offset buffer : Memory_wf m -> 0 <= offset ->
  Memory_write offset buffer m =
  if offset + Z.of_nat (length buffer) <=? Z.of_nat (length (Memory_data m))
  then (Ok tt, Memory_set_data (set_span offset buffer (Memory_data m)) m)
  else (Err ME_OutOfBoundsAccess, m).
Proof.
  intros Hw Ho. pose proof Hw as (_ & _ & Hb & _).
  pose proof (length_ByteBuffer_data _ Hb) as Hlen. destruct Hb as [? _].
  unfold Memory_write, Memory_access_span, checked_add. unfold_m.
  destruct (Z.ltb_spec (offset + Z.of_nat (length buffer)) (2 ^ usize_bits)).
  - rewrite get_range_spec by lia. by destruct (_ <=? _).
  - rewrite (proj2 (Z.leb_gt _ _)); [done|]. unfold Memory_data. lia.
Qed.

(** What the host writes it reads back; a write changes only its span, and an
    access out of bounds is an error that changes nothing. *)
Theorem Memory_write_read m offset buffer r m' :
  Memory_wf m -> 0 <= offset ->
  Memory_write offset buffer m = (r, m') ->
  Memory_wf m' /\ mem_ty m' = mem_ty m /\
  length (Memory_data m') = length (Memory_data m) /\
  match r with
  | Ok _ => Memory_read m' offset (Z.of_nat (length buffer)) = Ok buffer /\
            (forall j, Z.of_nat j < offset \/ offset + Z.of_nat (length buffer) <= Z.of_nat j ->
                       Memory_data m' !! j = Memory_data m !! j)
  | Err e => e = ME_OutOfBoundsAccess /\ m' = m /\
             Memory_read m offset (Z.of_nat (length buffer)) = Err ME_OutOfBoundsAccess
  | Panic => False
  end.
Proof.
  intros Hw Ho. rewrite Memory_write_eq by done.
  destruct (Z.leb_spec (offset + Z.of_nat (length buffer)) (Z.of_nat (length (Memory_data m)))).
  - intros [= <- <-]. set (d := set_span offset buffer (Memory_data m)).
    destruct (ByteBuffer_data_set_data d (mem_bytes m)) as [Hd Hwb].
    { apply Hw. } { apply length_set_span. }
    assert (Hw' : Memory_wf (Memory_set_data d m)).
    { destruct Hw as (? & ? & ? & ? & [? ?] & ?). by split_and!. }
    assert (Hd' : Memory_data (Memory_set_data d m) = d) by exact Hd.
    split; [done|]. split; [done|]. rewrite Hd'. split; [apply length_set_span|].
    split; [|intros; by apply set_span_lookup_out].
    rewrite Memory_read_eq by (done || lia). rewrite Hd'. unfold d at 1. rewrite length_set_span.
    rewrite (proj2 (Z.leb_le _ _)) by done. f_equal.
    pose proof (get_set_span_eq offset buffer (Memory_data m) Ho ltac:(lia)) as Hg.
    rewrite get_span_Some in Hg by lia. destruct Hg as [_ Hg]. by symmetry.
  - intros [= <- <-]. split_and!; try done. rewrite Memory_read_eq by (done || lia).
    by rewrite (proj2 (Z.leb_gt _ _)) by done.
Qed.

(** The dynamic type of a well-formed memory exists, has the memory's current
    size as its minimum, and is a subtype of the declared type. *)
Theorem Memory_dynamic_ty_spec m : Memory_wf m ->
  exists ty, Memory_dynamic_ty m = Ok ty /\ mt_minimum ty = Memory_size m /\
  mt_maximum ty = mt_maximum (mem_ty m) /\ mt_index_type ty = mt_index_type (mem_ty m) /\
  MemoryType_valid ty /\ MemoryType_is_subtype_of (E := MemoryError) ty (mem_ty m) = Ok true.
Proof.
  intros (Hv & ? & _ & _ & [? Hs] & Hmx). unfold Memory_dynamic_ty.
  set (b := MemoryTypeBuilder_memory64 _ _).
  assert (Hi : mt_index_type b = mt_index_type (mem_ty m)).
  { subst b. cbn. unfold MemoryType_is_64. by destruct (mt_index_type (mem_ty m)). }
  assert (Hb : MemoryType_valid b).
  { destruct Hv as (Hf & Hl & Hm & Hx). unfold MemoryType_valid, absolute_max,
      max_size_based_on_index_type in *. rewrite Hi. cbn in *. split_and!; try done.
    destruct (mt_maximum (mem_ty m)) as [max|]; [|done]. split; [by apply Hmx|apply Hx]. }
  rewrite (proj2 (proj1 (MemoryTypeBuilder_build_spec b)) Hb).
  exists b. split_and!; try done.
  destruct (MemoryType_is_subtype_of_spec (E := MemoryError) b (mem_ty m) Hb Hv) as ([] & -> & Hi');
    [done|]. exfalso. enough (false = true) by done. apply Hi'.
  split; [done|]. split; [done|]. split; [done|]. intros x Hx. exists x. by split.
Qed.

(** Creating a memory, in a vector or in a static buffer, gives the minimum
    number of zeroed pages within the limiter's bound, or an error. *)
Theorem Memory_new_spec {BL : BoundedLimiter L} ty (static : option (list Z)) lim r lim' :
  MemoryType_valid ty -> 0 <= mt_minimum ty ->
  (forall buffer, static = Some buffer -> Z.of_nat (length buffer) < 2 ^ usize_bits) ->
  match static with
  | Some buffer => Memory_new_static ty buffer lim
  | None => Memory_new ty lim
  end = (r, lim') ->
  match r with
  | Ok m => Memory_wf m /\ mem_ty m = ty /\ Memory_size m = mt_minimum ty /\
            Memory_data m = zeros (mt_minimum ty * 2 ^ mt_page_size_log2 ty) /\
            bounded_by lim (mt_minimum ty * 2 ^ mt_page_size_log2 ty)
  | Err _ => True
  | Panic => False
  end.
Proof.
  intros Hv Hmin Hst. destruct static as [buffer|].
  - apply Memory_new_impl_spec; [done..|]. intros size Hs.
    destruct (ByteBuffer_new_static buffer size) as [b|e|] eqn:E; [|done|].
    + apply (ByteBuffer_new_static_spec buffer size b); [lia|by apply Hst|done].
    + unfold ByteBuffer_new_static in E. by destruct (get_to size buffer).
  - apply Memory_new_impl_spec; [done..|]. intros size Hs.
    destruct (ByteBuffer_new size) as [b|e|] eqn:E; [|done|].
    + apply (ByteBuffer_new_spec size b); [lia|done].
    + unfold ByteBuffer_new in E. by destruct (try_reserve 1 0 0 size).
Qed.

(** [validate] accepts the 64-bit type with a maximum of [2^48] pages of 64 KiB,
    the only valid type whose maximum is no [u64] of bytes; growing a memory of
    that type panics. *)
Theorem Memory_grow_maximum_panics m additional fuel lim :
  Memory_wf m -> 0 < additional -> ~ max_bytes_fit m ->
  (forall max, mt_maximum (mem_ty m) = Some max -> in_u 64 max) ->
  mem_ty m = {| mt_minimum := mt_minimum (mem_ty m); mt_maximum := Some (2 ^ 48);
                mt_page_size_log2 := 16; mt_index_type := IndexType_I64 |} /\
  MemoryTypeBuilder_build (mem_ty m) = Ok (mem_ty m) /\
  Memory_grow additional (m, fuel, lim) = (Panic, (m, fuel, lim)).
Proof.
  intros Hw Ha Hf Hu. pose proof Hw as (Hv & _ & (Hlen & _) & _).
  assert (Hty : exists max, mt_maximum (mem_ty m) = Some max /\ 2 ^ 64 <= max * page_bytes m).
  { unfold max_bytes_fit in Hf. destruct (mt_maximum (mem_ty m)) as [max|].
    - exists max. split; [done|]. destruct (Z.le_gt_cases (2 ^ 64) (max * page_bytes m)); [done|].
      exfalso. apply Hf. by intros x [= <-].
    - exfalso. apply Hf. by intros x. }
  destruct Hty as (max & Hmax & Hbig). pose proof (Hu _ Hmax) as [_ Hlt].
  split_and!.
  - destruct Hv as (_ & Hlog & _ & Hb). rewrite Hmax in Hb.
    unfold page_bytes, absolute_max, max_size_based_on_index_type in *.
    destruct (mem_ty m) as [mi mx lg ix]. cbn in *. subst mx.
    destruct Hlog as [-> | ->], ix; cbn in Hb, Hbig; try lia;
      [change (Z.shiftr _ 16) with (2 ^ 16) in Hb; lia|].
    change (Z.shiftr _ 16) with (2 ^ 48) in Hb. repeat f_equal. lia.
  - by apply MemoryTypeBuilder_build_spec.
  - unfold Memory_grow. unfold_m. cbn [fst snd].
    destruct (Z.eqb_spec additional 0); [lia|].
    rewrite Memory_size_in_bytes_eq by done. unfold Memory_max_size_in_bytes. rewrite Hmax.
    rewrite page_size_valid by done. unfold_m. fold (page_bytes m).
    unfold checked_mul. by rewrite (proj2 (Z.ltb_ge _ _)) by done.
Qed.
End Memory.

(** On a 32-bit host a memory whose maximum is the whole address space reports
    a maximum of zero bytes to the limiter when it grows, since the byte count
    is truncated to [usize], although its creation reported [usize::MAX]: the
    default store limits, which set no bound, deny every growth. *)
Theorem Memory_grow_limiter_maximum_truncated `{T : Target} {Alloc : Allocator} m additional fuel :
  usize_bits = 32 -> Memory_wf m -> 0 < additional < 2 ^ 64 ->
  mt_maximum (mem_ty m) = Some 65536 -> mt_page_size_log2 (mem_ty m) = 16 ->
  Memory_max_size (mem_ty m) = Ok (Some (2 ^ 32 - 1)) /\
  Memory_grow additional (m, fuel, Some StoreLimits_default) =
    (Err ME_OutOfBoundsGrowth, (m, fuel, Some StoreLimits_default)).
Proof.
  intros Hb Hw Ha Hmax Hlog. split.
  - destruct Hw as (Hv & _). destruct Hv as (_ & _ & _ & Hm). rewrite Hmax in Hm.
    unfold Memory_max_size. rewrite Hmax, Hlog, Hb. by rewrite (proj2 (Z.ltb_ge _ _)) by lia.
  - assert (Hp : page_bytes m = 65536) by (unfold page_bytes; by rewrite Hlog).
    rewrite Memory_grow_eq; [|done| |lia].
    2: { unfold max_bytes_fit. rewrite Hmax, Hp. by intros max [= <-]. }
    destruct (Z.eqb_spec additional 0); [lia|]. destruct (growable additional m); [|done].
    unfold grow_within. unfold_m. cbn [fst snd]. rewrite on_limiter_eq, Hmax, Hp, Hb.
    change (wrapu 32 (65536 * 65536)) with 0.
    unfold memory_growing, StoreLimits_ResourceLimiter, StoreLimits_memory_growing,
      StoreLimits_allow. cbn [sl_memory_size sl_trap_on_grow_failure StoreLimits_default].
    destruct Hw as (_ & ? & _ & _ & [? _] & _).
    rewrite (proj2 (Z.ltb_lt 0 _)) by lia. done.
Qed.

(** ** Witnesses *)

Section Witnesses.

Definition sample_type (minimum : Z) (maximum : option Z) : MemoryType :=
  {| mt_minimum := minimum; mt_maximum := maximum; mt_page_size_log2 := 0;
     mt_index_type := IndexType_I32 |}.

Definition sample_limits : StoreLimits :=
  StoreLimitsBuilder_build (StoreLimitsBuilder_memory_size 6 StoreLimitsBuilder_new).

(** A byte-paged memory holding [3; 1; 4]. *)
Definition sample : Memory :=
  {| mem_bytes := {| bb_mem := [3; 1; 4]; bb_len := 3; bb_capacity := 3; bb_is_static := false |};
     mem_ty := sample_type 2 (Some 9) |}.

Lemma sample_wf (T : Target) : feat_memory64 = true -> Memory_wf sample.
Proof.
  intros Hf. pose proof usize_bits_bounds.
  unfold Memory_wf, MemoryType_valid, ByteBuffer_wf, Memory_size. cbn.
  change (absolute_max (sample_type 2 (Some 9))) with (2 ^ 32).
  split_and!; try done; try lia; try (by intros ? [= <-]).
Qed.

(** [sample] holding other bytes. *)
Definition sample_with (bytes : list Z) : Memory :=
  {| mem_bytes := {| bb_mem := bytes; bb_len := Z.of_nat (length bytes);
                     bb_capacity := Z.of_nat (length bytes); bb_is_static := false |};
     mem_ty := sample_type 2 (Some 9) |}.

Lemma Memory_grow_spec_witness :
  let T := default_target in let A := limit_allocator default_target 100 in
  let m' := sample_with [3; 1; 4; 0; 0] in
  Memory_grow 2 (sample, None, Some sample_limits) = (Ok 3, (m', None, Some sample_limits)) /\
  Memory_data m' = [3; 1; 4; 0; 0] /\ Memory_wf m'.
Proof.
  intros T A m'. split; [reflexivity|].
  destruct (Memory_grow_spec (T := T) (Alloc := A) (L := StoreLimits) 2 sample None
    (Some sample_limits) (Ok 3) m' None (Some sample_limits) (sample_wf T eq_refl)
    ltac:(by intros ? [= <-]) ltac:(lia) eq_refl) as (Hw & _ & _ & _ & Hd & _).
  split; [exact Hd|exact Hw].
Defined.

Lemma Memory_grow_out_of_bounds_witness :
  let T := default_target in let A := limit_allocator default_target 100 in
  Memory_grow 7 (sample, None, Some sample_limits) =
    (Err ME_OutOfBoundsGrowth, (sample, None, Some sample_limits)).
Proof.
  intros T A. apply Memory_grow_out_of_bounds; [by apply sample_wf|by intros ? [= <-]|lia|].
  right; left. exists 9. done.
Defined.

Lemma Memory_write_read_witness :
  let T := default_target in
  let m' := sample_with [3; 5; 9] in
  Memory_write 1 [5; 9] sample = (Ok tt, m') /\ Memory_read m' 1 2 = Ok [5; 9].
Proof.
  intros T m'. split; [reflexivity|].
  exact (proj1 (proj2 (proj2 (proj2 (Memory_write_read (T := T) sample 1 [5; 9] (Ok tt) m'
    (sample_wf T eq_refl) ltac:(lia) eq_refl))))).
Defined.

Lemma Memory_dynamic_ty_spec_witness :
  let T := default_target in exists ty, Memory_dynamic_ty sample = Ok ty /\ mt_minimum ty = 3.
Proof.
  intros T. destruct (Memory_dynamic_ty_spec (T := T) sample (sample_wf T eq_refl))
    as (ty & E & Hm & _).
  exists ty. split; [exact E|exact Hm].
Defined.

Lemma Memory_new_spec_witness :
  let T := default_target in let A := limit_allocator default_target 100 in
  let m := {| mem_bytes := mem_bytes (sample_with [0; 0]); mem_ty := sample_type 2 None |} in
  Memory_new (sample_type 2 None) (Some sample_limits) = (Ok m, Some sample_limits) /\
  Memory_data m = [0; 0].
Proof.
  intros T A m. split; [reflexivity|].
  refine (proj1 (proj2 (proj2 (proj2 (Memory_new_spec (T := T) (Alloc := A) (L := StoreLimits)
    (sample_type 2 None) None (Some sample_limits) (Ok m) (Some sample_limits) _ _ _ _)))));
    try done.
  unfold MemoryType_valid. cbn. change (absolute_max (sample_type 2 None)) with (2 ^ 32).
  split_and!; try done. by left.
Defined.

(** A 64-bit memory of the largest maximum and no pages. *)
Definition huge : Memory :=
  {| mem_bytes := {| bb_mem := []; bb_len := 0; bb_capacity := 0; bb_is_static := false |};
     mem_ty := {| mt_minimum := 0; mt_maximum := Some (2 ^ 48); mt_page_size_log2 := 16;
                  mt_index_type := IndexType_I64 |} |}.

Lemma empty_wf (T : Target) ty : MemoryType_valid ty -> mt_minimum ty = 0 ->
  Memory_wf {| mem_bytes := {| bb_mem := []; bb_len := 0; bb_capacity := 0; bb_is_static := false |};
               mem_ty := ty |}.
Proof.
  intros Hv H0. pose proof usize_bits_bounds. pose proof Hv as (_ & _ & Ha & Hm).
  unfold Memory_wf, ByteBuffer_wf, Memory_size. cbn [mem_bytes mem_ty bb_len bb_mem bb_capacity
    bb_is_static length]. rewrite Z.shiftr_0_l. cbn [Z.of_nat].
  split_and!; try done; try lia. intros max E. rewrite E in Hm. lia.
Qed.

Lemma Memory_grow_maximum_panics_witness :
  let T := default_target in let A := limit_allocator default_target 100 in
  Memory_grow 1 (huge, None, @None StoreLimits) = (Panic, (huge, None, None)).
Proof.
  intros T A. apply Memory_grow_maximum_panics; [|lia| |by intros ? [= <-]].
  - apply empty_wf; [|done]. split; [done|]. split; [by right|]. by split.
  - intros H. specialize (H _ eq_refl). vm_compute in H. discriminate.
Defined.

(** A 32-bit memory with a maximum of 4 GiB. *)
Definition wide : Memory :=
  {| mem_bytes := {| bb_mem := []; bb_len := 0; bb_capacity := 0; bb_is_static := false |};
     mem_ty := {| mt_minimum := 0; mt_maximum := Some 65536; mt_page_size_log2 := 16;
                  mt_index_type := IndexType_I32 |} |}.

Lemma Memory_grow_limiter_maximum_truncated_witness :
  let T := small_target in let A := limit_allocator small_target (2 ^ 20) in
  fst (Memory_grow 1 (wide, None, Some StoreLimits_default)) = Err ME_OutOfBoundsGrowth /\
  growable 1 wide = true.
Proof.
  intros T A. split; [|reflexivity].
  destruct (Memory_grow_limiter_maximum_truncated (T := T) (Alloc := A) wide 1 None) as [_ E];
    try done.
  - apply empty_wf; [|done]. split; [done|]. split; [by right|]. by split.
Defined.
End Witnesses.
