(* ===== verification/Table.v ===== *)
(** * Tables

    [crates/core/src/table/]: table types, element segments and tables, with
    their growth and bulk operations under a fuel counter and a limiter. *)

From Stdlib Require Import ZArith Lia.
From stdpp Require Import base option decidable numbers list.
From S2P Require Import Prelude Value Fuel Limiter.
Local Open Scope Z_scope.

(** ** Types *)

Record TableType : Type := {
  tt_element : RefType;
  tt_min : Z;
  tt_max : option Z;
  tt_index_ty : IndexType
}.

(** The [assert!]s of [new_impl]. *)
Definition TableType_new_impl {E} (element : RefType) (index_ty : IndexType) (min : Z)
    (max : option Z) : res E TableType :=
  let absolute_max := IndexType_max_size index_ty in
  assert_that (min <=? absolute_max);;
  assert_that (match max with
               | Some max => (min <=? max) && (max <=? absolute_max)
               | None => true
               end);;
  Ok {| tt_element := element; tt_min := min; tt_max := max; tt_index_ty := index_ty |}.

Definition TableType_new {E} (element : RefType) (min : Z) (max : option Z) : res E TableType :=
  TableType_new_impl element IndexType_I32 min max.
Definition TableType_new64 {E} (element : RefType) (min : Z) (max : option Z) : res E TableType :=
  TableType_new_impl element IndexType_I64 min max.

Definition TableType_is_64 (self : TableType) : bool := IndexType_is_64 (tt_index_ty self).

Definition TableType_ensure_element_type_matches (self : TableType) (ty : RefType) :
    res TableError unit :=
  if negb (bool_decide (tt_element self = ty)) then Err TE_ElementTypeMismatch else Ok tt.

Definition TableType_is_subtype_of (self other : TableType) : bool :=
  if negb (eqb (TableType_is_64 self) (TableType_is_64 other)) then false
  else if negb (bool_decide (tt_element self = tt_element other)) then false
  else if tt_min self <? tt_min other then false
  else match tt_max self, tt_max other with
       | _, None => true
       | Some max, Some other_max => max <=? other_max
       | _, _ => false
       end.

(** ** Element segments *)

Record ElementSegment : Type := { es_ty : RefType; es_items : list RawRef }.

Definition ElementSegment_new {E} (ty : RefType) (items : list RawRef) : res E ElementSegment :=
  assert_that (bool_decide (is_Some (try_from_u 32 (Z.of_nat (length items)))));;
  Ok {| es_ty := ty; es_items := items |}.

Definition ElementSegment_size {E} (self : ElementSegment) : res E Z :=
  expect (try_from_u 32 (Z.of_nat (length (es_items self)))).

Definition ElementSegment_drop_items (self : ElementSegment) : ElementSegment :=
  {| es_ty := es_ty self; es_items := [] |}.

(** ** Tables

    [tab_capacity] is the capacity of the vector of elements. *)
Record Table : Type := {
  tab_ty : TableType;
  tab_elements : list RawRef;
  tab_capacity : Z
}.

(** [size_of::<RawRef>()]. *)
Definition RawRef_size : Z := 4.

Definition set_elements (l : list RawRef) (t : Table) : Table :=
  {| tab_ty := tab_ty t; tab_elements := l; tab_capacity := tab_capacity t |}.

Section Table.
Context `{T : Target} {Alloc : Allocator}.

Definition Table_size (self : Table) : Z := Z.of_nat (length (tab_elements self)).

Definition Table_dynamic_ty {E} (self : Table) : res E TableType :=
  TableType_new_impl (tt_element (tab_ty self)) (tt_index_ty (tab_ty self)) (Table_size self)
    (tt_max (tab_ty self)).

Definition Table_unwrap_typed (self : Table) (value : TypedRawRef) : res TableError RawRef :=
  (fun _ => tref_raw value) <$> TableType_ensure_element_type_matches (tab_ty self) (tref_ty value).

(** *** Creation and growth *)

Section Grow.
Context {L : Type} {RL : ResourceLimiter L}.

Definition on_table_limiter {A} (d : A) (m : M L LimiterError A) :
    M (ResourceLimiterRef L) TableError A :=
  with_resource_limiter TableError_from_LimiterError d m.

Definition Table_new (ty : TableType) (init : TypedRawRef) :
    M (ResourceLimiterRef L) TableError Table :=
  lift (TableType_ensure_element_type_matches ty (tref_ty init));;
  min_size ← lift (ok_or (try_from_u usize_bits (tt_min ty)) TE_MinimumSizeOverflow);
  max_size ← lift (ok_or (transpose_try_from_u usize_bits (tt_max ty)) TE_MaximumSizeOverflow);
  allowed ← on_table_limiter true (table_growing 0 min_size max_size);
  if negb allowed then fail TE_ResourceLimiterDeniedAllocation else
  match try_reserve RawRef_size 0 0 min_size with
  | None =>
      on_table_limiter tt (table_grow_failed TE_OutOfSystemMemory);;
      fail TE_OutOfSystemMemory
  | Some capacity =>
      mret {| tab_ty := ty; tab_elements := replicate (Z.to_nat min_size) (tref_raw init);
              tab_capacity := capacity |}
  end.

Definition TableGrowState : Type := Table * option Fuel * ResourceLimiterRef L.

Definition table_notify_limiter {A} (err : TableError) : M TableGrowState TableError A :=
  zoom snd (fun l s => (fst s, l)) id (on_table_limiter tt (table_grow_failed err));;
  fail err.

Definition Table_grow_fuel (delta : Z) : M TableGrowState TableError unit :=
  s ← get_st;
  match s.1.2 with
  | None => mret tt
  | Some fuel =>
      match consume_fuel (fun costs => fuel_for_copying_values costs RawRef_size delta) fuel with
      | (Ok _, fuel) | (Err FuelMeteringDisabled, fuel) => put_st (s.1.1, Some fuel, s.2)
      | (Err (FuelError_OutOfFuel required_fuel), fuel) =>
          put_st (s.1.1, Some fuel, s.2);;
          table_notify_limiter (TE_OutOfFuel required_fuel)
      | (Panic, _) => panic
      end
  end.

Definition Table_grow_raw (delta : Z) (init : RawRef) : M TableGrowState TableError Z :=
  s ← get_st;
  let self := s.1.1 in
  if delta =? 0 then mret (Table_size self) else
  delta_size ← lift (ok_or (try_from_u usize_bits delta) TE_GrowOutOfBounds);
  desired ← lift (ok_or (checked_add 64 (Table_size self) delta) TE_GrowOutOfBounds);
  if IndexType_max_size (tt_index_ty (tab_ty self)) <=? desired then fail TE_GrowOutOfBounds else
  let current := Table_size self in
  desired ← lift (ok_or (try_from_u usize_bits desired) TE_GrowOutOfBounds);
  maximum ← lift (ok_or (transpose_try_from_u usize_bits (tt_max (tab_ty self))) TE_GrowOutOfBounds);
  allowed ← zoom snd (fun l s => (fst s, l)) id
    (on_table_limiter true (table_growing current desired maximum));
  if negb allowed then fail TE_GrowOutOfBounds else
  if (match maximum with Some maximum => maximum <? desired | None => false end)
  then table_notify_limiter TE_GrowOutOfBounds else
  Table_grow_fuel delta;;
  s ← get_st;
  let self := s.1.1 in
  match try_reserve RawRef_size (tab_capacity self) (Table_size self) delta_size with
  | None => table_notify_limiter TE_OutOfSystemMemory
  | Some capacity =>
      let size_before := Table_size self in
      put_st ({| tab_ty := tab_ty self;
                 tab_elements := resize (Z.to_nat desired) init (tab_elements self);
                 tab_capacity := capacity |}, s.1.2, s.2);;
      mret size_before
  end.

Definition Table_grow (delta : Z) (init : TypedRawRef) : M TableGrowState TableError Z :=
  s ← get_st;
  init ← lift (Table_unwrap_typed s.1.1 init);
  Table_grow_raw delta init.
End Grow.

(** *** Element access *)

Definition Table_get (self : Table) (index : Z) : option TypedRawRef :=
  index ← try_from_u usize_bits index;
  raw ← tab_elements self !! Z.to_nat index;
  Some (TypedRawRef_new raw (tt_element (tab_ty self))).

Definition Table_set_raw (index : Z) (value : RawRef) : M Table TableError unit := fun self =>
  match (index ← try_from_u usize_bits index; _ ← tab_elements self !! Z.to_nat index;
         Some (Z.to_nat index)) with
  | None => (Err TE_SetOutOfBounds, self)
  | Some index => (Ok tt, set_elements (<[index := value]> (tab_elements self)) self)
  end.

Definition Table_set (index : Z) (value : TypedRawRef) : M Table TableError unit :=
  self ← get_st;
  value ← lift (Table_unwrap_typed self value);
  Table_set_raw index value.

(** *** Bulk operations: the state is the table and the fuel counter *)

Definition TableFuel : Type := Table * option Fuel.

(** [if let Some(fuel) = fuel { fuel.consume_fuel_if(..)?; }] for [len] elements. *)
Definition Table_consume_fuel (len : Z) : M TableFuel TableError unit := fun s =>
  match s.2 with
  | None => (Ok tt, s)
  | Some fuel =>
      let '(r, fuel) :=
        consume_fuel_if (fun costs => fuel_for_copying_values costs RawRef_size len) fuel in
      (match r with
       | Ok _ => Ok tt
       | Err error => match TableError_from_FuelError error with
                      | Ok error | Err error => Err error
                      | Panic => Panic
                      end
       | Panic => Panic
       end, (s.1, Some fuel))
  end.

Definition Table_write_items (index : Z) (items : list RawRef) : M TableFuel TableError unit :=
  s ← get_st;
  put_st (set_elements (set_span index items (tab_elements s.1)) s.1, s.2).

Definition Table_init (element : ElementSegment) (dst_index src_index len : Z) :
    M TableFuel TableError unit :=
  s ← get_st;
  let self := s.1 in
  lift (TableType_ensure_element_type_matches (tab_ty self) (es_ty element));;
  dst_index ← lift (ok_or (try_from_u usize_bits dst_index) TE_InitOutOfBounds);
  src_index ← lift (ok_or (try_from_u usize_bits src_index) TE_InitOutOfBounds);
  len_size ← lift (ok_or (try_from_u usize_bits len) TE_InitOutOfBounds);
  lift (ok_or (get_span dst_index len_size (tab_elements self)) TE_InitOutOfBounds);;
  src_items ← lift (ok_or (get_span src_index len_size (es_items element)) TE_InitOutOfBounds);
  if len =? 0 then mret tt else
  Table_consume_fuel len;;
  Table_write_items dst_index src_items.

(** The state is the destination table; the source is another table. *)
Definition Table_copy (dst_index : Z) (src_table : Table) (src_index len : Z) :
    M TableFuel TableError unit :=
  s ← get_st;
  let dst_table := s.1 in
  lift (TableType_ensure_element_type_matches (tab_ty dst_table) (tt_element (tab_ty src_table)));;
  src_index ← lift (ok_or (try_from_u usize_bits src_index) TE_CopyOutOfBounds);
  dst_index ← lift (ok_or (try_from_u usize_bits dst_index) TE_CopyOutOfBounds);
  len_size ← lift (ok_or (try_from_u usize_bits len) TE_CopyOutOfBounds);
  lift (ok_or (get_span dst_index len_size (tab_elements dst_table)) TE_CopyOutOfBounds);;
  src_items ← lift (ok_or (get_span src_index len_size (tab_elements src_table)) TE_CopyOutOfBounds);
  Table_consume_fuel len;;
  Table_write_items dst_index src_items.

(** [slice::copy_within(start..end, dest)], which panics out of bounds and
    otherwise moves the elements as they were before the call. *)
Definition slice_copy_within {A} (start stop dest : Z) (l : list A) : option (list A) :=
  if (start <=? stop) && (stop <=? Z.of_nat (length l)) &&
     (dest <=? Z.of_nat (length l) - (stop - start))
  then Some (set_span dest (take (Z.to_nat (stop - start)) (drop (Z.to_nat start) l)) l)
  else None.

Definition Table_copy_within (dst_index src_index len : Z) : M TableFuel TableError unit :=
  s ← get_st;
  let max_offset := Z.max dst_index src_index in
  lift (ok_or (offset ← checked_add 64 max_offset len;
               if offset <=? Table_size s.1 then Some offset else None) TE_CopyOutOfBounds);;
  src_index ← lift (ok_or (try_from_u usize_bits src_index) TE_CopyOutOfBounds);
  dst_index ← lift (ok_or (try_from_u usize_bits dst_index) TE_CopyOutOfBounds);
  len_size ← lift (ok_or (try_from_u usize_bits len) TE_CopyOutOfBounds);
  Table_consume_fuel len;;
  s ← get_st;
  elements ← lift (expect (slice_copy_within src_index (wrapu usize_bits (src_index + len_size))
                             dst_index (tab_elements s.1)));
  put_st (set_elements elements s.1, s.2).

Definition Table_fill_raw (dst : Z) (val : RawRef) (len : Z) : M TableFuel TableError unit :=
  s ← get_st;
  dst_index ← lift (ok_or (try_from_u usize_bits dst) TE_FillOutOfBounds);
  len_size ← lift (ok_or (try_from_u usize_bits len) TE_FillOutOfBounds);
  lift (ok_or (get_span dst_index len_size (tab_elements s.1)) TE_FillOutOfBounds);;
  Table_consume_fuel len;;
  Table_write_items dst_index (replicate (Z.to_nat len_size) val).

Definition Table_fill (dst : Z) (val : TypedRawRef) (len : Z) : M TableFuel TableError unit :=
  s ← get_st;
  val ← lift (Table_unwrap_typed s.1 val);
  Table_fill_raw dst val len.
End Table.

(** ** Properties *)

Definition TableType_valid (ty : TableType) : Prop :=
  0 <= tt_min ty <= IndexType_max_size (tt_index_ty ty) /\
  (forall max, tt_max ty = Some max -> tt_min ty <= max <= IndexType_max_size (tt_index_ty ty)).

Lemma TableType_new_impl_spec {E} element index_ty min max :
  0 <= min ->
  let ty := {| tt_element := element; tt_min := min; tt_max := max; tt_index_ty := index_ty |} in
  TableType_new_impl (E := E) element index_ty min max = Ok ty /\ TableType_valid ty \/
  TableType_new_impl (E := E) element index_ty min max = Panic /\ ~ TableType_valid ty.
Proof.
  intros Hmin ty. unfold TableType_new_impl, TableType_valid. unfold_m. cbn [tt_min tt_max tt_index_ty ty].
  destruct (Z.leb_spec min (IndexType_max_size index_ty)); [|right; split; [done|lia]].
  destruct max as [max|]; [|left; split; [done|]; split; [lia|done]].
  destruct (Z.leb_spec min max); [|right; split; [done|]; intros [_ H']; specialize (H' _ eq_refl); lia].
  destruct (Z.leb_spec max (IndexType_max_size index_ty));
    [|right; split; [done|]; intros [_ H']; specialize (H' _ eq_refl); lia].
  left. split; [done|]. split; [lia|]. by intros x [= <-].
Qed.

(** What [is_subtype_of] decides. *)
Definition TableType_matches (ty other : TableType) : Prop :=
  tt_index_ty ty = tt_index_ty other /\ tt_element ty = tt_element other /\
  tt_min other <= tt_min ty /\
  forall other_max, tt_max other = Some other_max ->
  exists max, tt_max ty = Some max /\ max <= other_max.

Lemma TableType_is_subtype_of_spec ty other :
  TableType_is_subtype_of ty other = true <-> TableType_matches ty other.
Proof.
  unfold TableType_is_subtype_of, TableType_matches, TableType_is_64.
  destruct (tt_index_ty ty), (tt_index_ty other); cbn [IndexType_is_64 eqb negb];
    try (split; [done|]; by intros [? _]);
  (case_bool_decide; cbn [negb]; [|naive_solver]);
  (destruct (Z.ltb_spec (tt_min ty) (tt_min other));
    [split; [done|]; intros (_ & _ & ? & _); lia|]);
  (destruct (tt_max ty) as [max|], (tt_max other) as [omax|]; rewrite ?Z.leb_le;
    [|naive_solver..]);
  (split; [intros; split_and!; try done; intros ? [= <-]; by eexists|]);
  intros (_ & _ & _ & Hm); destruct (Hm _ eq_refl) as (? & [= <-] & ?); done.
Qed.

Section Properties.
Context `{T : Target} {Alloc : Allocator}.

(** A table of a valid type has a size within the bounds of its type and of
    the host. *)
Definition Table_wf (t : Table) : Prop :=
  TableType_valid (tab_ty t) /\
  tt_min (tab_ty t) <= Table_size t <= IndexType_max_size (tt_index_ty (tab_ty t)) /\
  (forall max, tt_max (tab_ty t) = Some max -> Table_size t <= max) /\
  Table_size t < 2 ^ usize_bits.

Lemma Table_size_set_elements l t :
  length l = length (tab_elements t) -> Table_size (set_elements l t) = Table_size t.
Proof. unfold Table_size. cbn. by intros ->. Qed.

Lemma Table_wf_set_elements l t :
  length l = length (tab_elements t) -> Table_wf t -> Table_wf (set_elements l t).
Proof. intros Hl. unfold Table_wf. by rewrite Table_size_set_elements. Qed.

Lemma set_span_lookup_in {A} i (xs l : list A) j :
  0 <= i -> i + Z.of_nat (length xs) <= Z.of_nat (length l) ->
  i <= Z.of_nat j < i + Z.of_nat (length xs) ->
  set_span i xs l !! j = xs !! Z.to_nat (Z.of_nat j - i).
Proof.
  intros. unfold set_span. rewrite list_lookup_inserts by lia. f_equal. lia.
Qed.

(** *** Bulk operations *)

Definition table_cost (len : Z) (f : Fuel) : Z :=
  fuel_for_copying_values (fuel_costs f) RawRef_size len.

(** The fuel counter after charging for [len] elements, [None] out of fuel. *)
Definition charged (len : Z) (fuel : option Fuel) : option (option Fuel) :=
  match fuel with
  | None => Some None
  | Some f =>
      if negb (fuel_enabled f) then Some (Some f)
      else if table_cost len f <=? fuel_remaining f
      then Some (Some (set_fuel_remaining (fuel_remaining f - table_cost len f) f))
      else None
  end.

Lemma Table_consume_fuel_eq len t fuel :
  Table_consume_fuel len (t, fuel) =
  match charged len fuel with
  | Some fuel' => (Ok tt, (t, fuel'))
  | None => (Err (TE_OutOfFuel (match fuel with Some f => table_cost len f | None => 0 end)),
             (t, fuel))
  end.
Proof.
  unfold Table_consume_fuel, charged. destruct fuel as [f|]; [|done]. cbn [fst snd].
  rewrite consume_fuel_if_eq. unfold charge_if. fold (table_cost len f).
  destruct (fuel_enabled f); [|done]. cbn [negb]. by destruct (_ <=? _).
Qed.

(** The contract of a bulk operation that writes [len] elements from [dst] on,
    the [k]-th of them [src k]: it needs its spans in bounds and the fuel, and
    an error leaves table and fuel as they were. *)
Definition bulk_outcome (inb : bool) (err : TableError) (dst len : Z) (src : Z -> option RawRef)
    (t : Table) (fuel : option Fuel) (run : res TableError unit * TableFuel) : Prop :=
  if inb then
    match charged len fuel with
    | Some fuel' =>
        exists l', run = (Ok tt, (set_elements l' t, fuel')) /\
        length l' = length (tab_elements t) /\
        forall j : nat, l' !! j =
          if (dst <=? Z.of_nat j) && (Z.of_nat j <? dst + len)
          then src (Z.of_nat j - dst) else tab_elements t !! j
    | None => exists n, run = (Err (TE_OutOfFuel n), (t, fuel))
    end
  else run = (Err err, (t, fuel)).

Lemma set_span_outcome t dst items fuel' :
  0 <= dst -> dst + Z.of_nat (length items) <= Table_size t ->
  exists l', (Ok (E := TableError) tt, (set_elements (set_span dst items (tab_elements t)) t, fuel' : option Fuel)) =
             (Ok tt, (set_elements l' t, fuel')) /\
  length l' = length (tab_elements t) /\
  forall j : nat, l' !! j =
    if (dst <=? Z.of_nat j) && (Z.of_nat j <? dst + Z.of_nat (length items))
    then items !! Z.to_nat (Z.of_nat j - dst) else tab_elements t !! j.
Proof.
  intros Hd Hl. eexists. split; [done|]. split; [apply length_set_span|]. intros j.
  destruct (Z.leb_spec dst (Z.of_nat j)); cbn [andb];
    [destruct (Z.ltb_spec (Z.of_nat j) (dst + Z.of_nat (length items)))|].
  - apply set_span_lookup_in; [done|done|lia].
  - apply set_span_lookup_out; [done|lia].
  - apply set_span_lookup_out; [done|lia].
Qed.

(** Charging and writing, as every bulk operation does once in bounds. *)
Lemma charge_write_outcome err t fuel dst items :
  0 <= dst -> dst + Z.of_nat (length items) <= Table_size t ->
  bulk_outcome true err dst (Z.of_nat (length items)) (fun k => items !! Z.to_nat k) t fuel
    ((Table_consume_fuel (Z.of_nat (length items));; Table_write_items dst items) (t, fuel)).
Proof.
  intros Hd Hl. unfold bulk_outcome, Table_write_items. unfold_m. rewrite Table_consume_fuel_eq.
  destruct (charged _ fuel) as [fuel'|]; [|by eexists]. cbn [fst snd].
  by apply set_span_outcome.
Qed.

Lemma bulk_outcome_ext inb err dst len src src' t fuel run :
  (forall k, 0 <= k < len -> src k = src' k) ->
  bulk_outcome inb err dst len src t fuel run -> bulk_outcome inb err dst len src' t fuel run.
Proof.
  intros Hs. unfold bulk_outcome. destruct inb, (charged len fuel) as [f|]; try done.
  intros (l' & ? & ? & Hl). exists l'. split; [done|]. split; [done|]. intros j. rewrite Hl.
  destruct (Z.leb_spec dst (Z.of_nat j)), (Z.ltb_spec (Z.of_nat j) (dst + len)); cbn [andb];
    try done. apply Hs. lia.
Qed.

(** The span of [len] elements from [i] on in [l]. *)
Definition in_span {A} (i len : Z) (l : list A) : bool := i + len <=? Z.of_nat (length l).

Lemma ok_or_get_span {E A} i n (l : list A) (e : E) : 0 <= i -> 0 <= n ->
  ok_or (get_span i n l) e =
  if in_span i n l then Ok (take (Z.to_nat n) (drop (Z.to_nat i) l)) else Err e.
Proof.
  intros Hi Hn. unfold in_span.
  destruct (get_span i n l) as [xs|] eqn:E'.
  - apply get_span_Some in E' as [? ->]; [|done..]. by rewrite (proj2 (Z.leb_le _ _)) by done.
  - apply get_span_None in E'; [|done..]. by rewrite (proj2 (Z.leb_gt _ _)) by done.
Qed.

(** An index or length too large for the host is out of bounds as well. *)
Lemma ok_or_try_from_u {E} z (e : E) :
  ok_or (try_from_u usize_bits z) e = if z <? 2 ^ usize_bits then Ok z else Err e.
Proof. unfold try_from_u. by case_if. Qed.

Lemma span_usize {A} i n (l : list A) : 0 <= i -> 0 <= n ->
  Z.of_nat (length l) < 2 ^ usize_bits -> in_span i n l = true ->
  (i <? 2 ^ usize_bits) = true /\ (n <? 2 ^ usize_bits) = true.
Proof. intros ??? H%Z.leb_le. split; apply Z.ltb_lt; lia. Qed.

Lemma lookup_take_drop {A} (i n : Z) (l : list A) k : 0 <= i -> 0 <= k < n ->
  take (Z.to_nat n) (drop (Z.to_nat i) l) !! Z.to_nat k = l !! Z.to_nat (i + k).
Proof. intros. rewrite lookup_take_lt, lookup_drop by lia. f_equal. lia. Qed.

Lemma length_take_drop {A} (i n : Z) (l : list A) : 0 <= i -> 0 <= n ->
  in_span i n l = true -> Z.of_nat (length (take (Z.to_nat n) (drop (Z.to_nat i) l))) = n.
Proof. intros ?? H%Z.leb_le. rewrite length_take, length_drop. lia. Qed.

(** Charging for and writing the span of [len] items from [src] on. *)
Lemma charge_write_span err t fuel dst src len items :
  0 <= dst -> 0 <= src -> 0 <= len ->
  in_span dst len (tab_elements t) = true -> in_span src len items = true ->
  bulk_outcome true err dst len (fun k => items !! Z.to_nat (src + k)) t fuel
    ((Table_consume_fuel len;;
      Table_write_items dst (take (Z.to_nat len) (drop (Z.to_nat src) items))) (t, fuel)).
Proof.
  intros Hd Hs Hl H1%Z.leb_le H2. eapply bulk_outcome_ext.
  { intros k Hk. by apply lookup_take_drop. }
  pose proof (length_take_drop src len items Hs Hl H2) as Hlen.
  pose proof (charge_write_outcome err t fuel dst
    (take (Z.to_nat len) (drop (Z.to_nat src) items))) as Hc.
  rewrite Hlen in Hc. by apply Hc.
Qed.

Lemma charged_zero fuel : (forall f, fuel = Some f -> Fuel_wf f) -> charged 0 fuel = Some fuel.
Proof.
  intros Hf. destruct fuel as [f|]; [|done]. specialize (Hf f eq_refl). unfold charged.
  assert (table_cost 0 f = 0) as ->.
  { unfold table_cost, fuel_for_copying_values, fuel_for_copying_bytes. cbn. apply Z.div_0_l. lia. }
  destruct Hf as [? _]. rewrite (proj2 (Z.leb_le _ _)) by done. rewrite Z.sub_0_r.
  destruct (fuel_enabled f) eqn:E; [|done]. cbn. unfold set_fuel_remaining. rewrite E.
  destruct f. cbn in E. by subst.
Qed.

Lemma usize_small n : n < 2 ^ 32 -> n < 2 ^ usize_bits.
Proof. pose proof usize_bits_bounds. lia. Qed.

(** An operation that fails with [err] unless all of [bs] hold. *)
Lemma bulk_outcome_nested (inb : bool) (bs : list bool) err dst len src t fuel run :
  (inb = true -> forallb (fun b => b) bs = true) -> (forallb (fun b => b) bs = true -> inb = true) ->
  (inb = true -> bulk_outcome true err dst len src t fuel run) ->
  bulk_outcome inb err dst len src t fuel
    (foldr (fun (b : bool) k => if b then k else (Err err, (t, fuel))) run bs).
Proof.
  intros H1 H2 Hrun. destruct inb.
  - specialize (H1 eq_refl). specialize (Hrun eq_refl). clear H2. revert H1.
    induction bs as [|b bs IH]; [done|].
    intros [-> ?]%andb_true_iff. by apply IH.
  - clear H1 Hrun. cbn. revert H2. induction bs as [|b bs IH]; cbn.
    + intros H. by specialize (H eq_refl).
    + by destruct b.
Qed.

(** Steps through the conversions and bounds checks of a bulk operation. *)
Ltac bulk_checks bs :=
  repeat (rewrite bind_get_st || rewrite ok_or_try_from_u || (rewrite ok_or_get_span by lia) ||
          rewrite bind_lift_if); cbn [fst snd];
  match goal with
  | |- bulk_outcome ?inb ?err ?dst ?len ?src ?t ?fuel _ =>
      refine (bulk_outcome_nested inb bs err dst len src t fuel _ _ _ _)
  end; cbn [forallb]; rewrite ?andb_true_iff.

(** [table.init] copies the segment's items into the table, or reports a type
    mismatch, an access out of bounds or missing fuel and changes nothing. *)
Theorem Table_init_spec t fuel seg dst src len :
  Table_wf t -> Z.of_nat (length (es_items seg)) < 2 ^ 32 ->
  0 <= dst -> 0 <= src -> 0 <= len -> (forall f, fuel = Some f -> Fuel_wf f) ->
  let run := Table_init seg dst src len (t, fuel) in
  if bool_decide (tt_element (tab_ty t) = es_ty seg) then
    bulk_outcome (in_span dst len (tab_elements t) && in_span src len (es_items seg))
      TE_InitOutOfBounds dst len (fun k => es_items seg !! Z.to_nat (src + k)) t fuel run
  else run = (Err TE_ElementTypeMismatch, (t, fuel)).
Proof.
  intros (_ & _ & _ & Hsz) Hseg Hd Hs Hl Hf run. subst run.
  pose proof (usize_small _ Hseg) as Hseg'. unfold Table_size in Hsz.
  unfold Table_init, TableType_ensure_element_type_matches.
  rewrite bind_get_st, bind_lift. cbn [fst snd].
  case_bool_decide; cbn [negb]; [|done].
  bulk_checks [dst <? 2 ^ usize_bits; src <? 2 ^ usize_bits; len <? 2 ^ usize_bits;
    in_span dst len (tab_elements t); in_span src len (es_items seg)].
  - intros [H1 H2]. pose proof (span_usize _ _ _ Hd Hl Hsz H1).
    pose proof (span_usize _ _ _ Hs Hl Hseg' H2). tauto.
  - tauto.
  - intros [H1 H2]. destruct (Z.eqb_spec len 0) as [->|?].
    + unfold bulk_outcome. rewrite charged_zero by done. exists (tab_elements t).
      split; [by destruct t|]. split; [done|]. intros j.
      destruct (Z.leb_spec dst (Z.of_nat j)); [|done].
      by rewrite (proj2 (Z.ltb_ge _ _)) by lia.
    + by apply charge_write_span.
Qed.

(** [table.copy] between two tables, with the same contract. *)
Theorem Table_copy_spec t fuel src_table dst src len :
  Table_wf t -> Table_wf src_table -> 0 <= dst -> 0 <= src -> 0 <= len ->
  let run := Table_copy dst src_table src len (t, fuel) in
  if bool_decide (tt_element (tab_ty t) = tt_element (tab_ty src_table)) then
    bulk_outcome (in_span dst len (tab_elements t) && in_span src len (tab_elements src_table))
      TE_CopyOutOfBounds dst len (fun k => tab_elements src_table !! Z.to_nat (src + k)) t fuel run
  else run = (Err TE_ElementTypeMismatch, (t, fuel)).
Proof.
  intros (_ & _ & _ & Hsz) (_ & _ & _ & Hsrc) Hd Hs Hl run. subst run. unfold Table_size in *.
  unfold Table_copy, TableType_ensure_element_type_matches.
  rewrite bind_get_st, bind_lift. cbn [fst snd].
  case_bool_decide; cbn [negb]; [|done].
  bulk_checks [src <? 2 ^ usize_bits; dst <? 2 ^ usize_bits; len <? 2 ^ usize_bits;
    in_span dst len (tab_elements t); in_span src len (tab_elements src_table)].
  - intros [H1 H2]. pose proof (span_usize _ _ _ Hd Hl Hsz H1).
    pose proof (span_usize _ _ _ Hs Hl Hsrc H2). tauto.
  - tauto.
  - intros [H1 H2]. by apply charge_write_span.
Qed.

(** [table.copy] within one table reads the elements as they were before the
    call, also when the spans overlap. *)
Theorem Table_copy_within_spec t fuel dst src len :
  Table_wf t -> 0 <= dst -> 0 <= src -> 0 <= len ->
  bulk_outcome (in_span dst len (tab_elements t) && in_span src len (tab_elements t))
    TE_CopyOutOfBounds dst len (fun k => tab_elements t !! Z.to_nat (src + k)) t fuel
    (Table_copy_within dst src len (t, fuel)).
Proof.
  intros (_ & _ & _ & Hsz) Hd Hs Hl. unfold Table_size in *. pose proof usize_bits_bounds.
  assert (Hmax : forall e : TableError,
    ok_or (offset ← checked_add 64 (Z.max dst src) len;
           if offset <=? Table_size t then Some offset else None) e =
    if in_span dst len (tab_elements t) && in_span src len (tab_elements t)
    then Ok (Z.max dst src + len) else Err e).
  { intros e. unfold checked_add, Table_size, in_span. unfold_m.
    destruct (Z.leb_spec (dst + len) (Z.of_nat (length (tab_elements t))));
    destruct (Z.leb_spec (src + len) (Z.of_nat (length (tab_elements t)))); cbn [andb];
    destruct (Z.ltb_spec (Z.max dst src + len) (2 ^ 64)); try lia; try done;
    destruct (Z.leb_spec (Z.max dst src + len) (Z.of_nat (length (tab_elements t)))); try lia; done. }
  unfold Table_copy_within. rewrite bind_get_st. cbn [fst snd]. rewrite Hmax, bind_lift_if.
  bulk_checks [in_span dst len (tab_elements t) && in_span src len (tab_elements t);
    src <? 2 ^ usize_bits; dst <? 2 ^ usize_bits; len <? 2 ^ usize_bits].
  - intros [H1 H2]. pose proof (span_usize _ _ _ Hd Hl Hsz H1).
    pose proof (span_usize _ _ _ Hs Hl Hsz H2). rewrite H1, H2. tauto.
  - tauto.
  - intros [H1 H2]. pose proof (charge_write_span TE_CopyOutOfBounds t fuel dst src len
      (tab_elements t) Hd Hs Hl H1 H2) as Hc.
    unfold bulk_outcome in *. rewrite bind_run in *. rewrite Table_consume_fuel_eq in *.
    destruct (charged len fuel) as [fuel'|]; [|done]. rewrite bind_get_st. cbn [fst snd].
    apply Z.leb_le in H1, H2. unfold slice_copy_within.
    rewrite wrapu_small by (unfold in_u; lia).
    rewrite !(proj2 (Z.leb_le _ _)) by lia. cbn [andb].
    replace (src + len - src) with len by lia. exact Hc.
Qed.

(** [table.fill] writes one value to the span. *)
Theorem Table_fill_spec t fuel dst val len :
  Table_wf t -> 0 <= dst -> 0 <= len ->
  let run := Table_fill dst val len (t, fuel) in
  if bool_decide (tt_element (tab_ty t) = tref_ty val) then
    bulk_outcome (in_span dst len (tab_elements t)) TE_FillOutOfBounds dst len
      (fun _ => Some (tref_raw val)) t fuel run
  else run = (Err TE_ElementTypeMismatch, (t, fuel)).
Proof.
  intros (_ & _ & _ & Hsz) Hd Hl run. subst run. unfold Table_size in *.
  unfold Table_fill, Table_unwrap_typed, TableType_ensure_element_type_matches.
  rewrite bind_get_st, bind_lift. cbn [fst snd].
  case_bool_decide; cbn [negb]; [|done]. cbn [fmap res_fmap]. unfold Table_fill_raw.
  bulk_checks [dst <? 2 ^ usize_bits; len <? 2 ^ usize_bits; in_span dst len (tab_elements t)].
  - intros H1. pose proof (span_usize _ _ _ Hd Hl Hsz H1). tauto.
  - tauto.
  - intros H1%Z.leb_le. assert (Hn : Z.of_nat (length (replicate (Z.to_nat len) (tref_raw val))) = len).
    { rewrite length_replicate. lia. }
    pose proof (charge_write_outcome TE_FillOutOfBounds t fuel dst
      (replicate (Z.to_nat len) (tref_raw val))) as Hc. rewrite Hn in Hc.
    eapply bulk_outcome_ext; [|by apply Hc].
    intros k Hk. cbn. apply lookup_replicate_2. lia.
Qed.

(** An element written is the one read back, other elements are kept; an index
    beyond the table or an element of another type is an error that changes
    nothing. *)
Theorem Table_set_get t index value r t' :
  Table_wf t -> 0 <= index -> Table_set index value t = (r, t') ->
  Table_wf t' /\ tab_ty t' = tab_ty t /\
  match r with
  | Ok _ => index < Table_size t /\ tref_ty value = tt_element (tab_ty t) /\
            Table_get t' index = Some value /\
            forall i, 0 <= i -> i <> index -> Table_get t' i = Table_get t i
  | Err TE_ElementTypeMismatch => t' = t /\ tref_ty value <> tt_element (tab_ty t)
  | Err TE_SetOutOfBounds => t' = t /\ Table_size t <= index /\ Table_get t index = None
  | _ => False
  end.
Proof.
  intros Hw Hi. pose proof Hw as (_ & _ & _ & Hsz). unfold Table_size in *.
  unfold Table_set, Table_unwrap_typed, TableType_ensure_element_type_matches.
  rewrite bind_get_st, bind_lift. case_bool_decide as Hty; cbn [negb]; [|intros [= <- <-];
    split_and!; congruence].
  cbn [fmap res_fmap]. unfold Table_set_raw, Table_get, try_from_u.
  destruct (Z.ltb_spec index (2 ^ usize_bits)); cbn [mbind option_bind].
  2: { intros [= <- <-]. split_and!; try done. lia. }
  destruct (tab_elements t !! Z.to_nat index) as [x|] eqn:Ex; cbn [mbind option_bind].
  - intros [= <- <-]. apply lookup_lt_Some in Ex.
    split; [apply Table_wf_set_elements; [by rewrite length_insert|done]|].
    split; [done|]. split; [lia|]. split; [done|]. cbn.
    split.
    + rewrite list_lookup_insert_eq by lia. cbn. rewrite Hty. by destruct value.
    + intros i Hi' Hne. destruct (i <? 2 ^ usize_bits); [|done]. cbn.
      rewrite list_lookup_insert_ne by lia. done.
  - intros [= <- <-]. apply lookup_ge_None in Ex. split_and!; try done. lia.
Qed.

(** The dynamic type of a well-formed table exists, has the table's size as its
    minimum and is a subtype of the declared type. *)
Theorem Table_dynamic_ty_spec t : Table_wf t ->
  exists ty, Table_dynamic_ty (E := TableError) t = Ok ty /\ tt_min ty = Table_size t /\
  TableType_valid ty /\ TableType_is_subtype_of ty (tab_ty t) = true.
Proof.
  intros (Hv & [? ?] & Hm & _). unfold Table_dynamic_ty.
  destruct (TableType_new_impl_spec (E := TableError) (tt_element (tab_ty t)) (tt_index_ty (tab_ty t))
    (Table_size t) (tt_max (tab_ty t))) as [[-> Hv']|[_ Hn]].
  - unfold Table_size. lia.
  - eexists. split; [done|]. split; [done|]. split; [done|].
    apply TableType_is_subtype_of_spec. unfold TableType_matches. cbn.
    split_and!; try done. intros x Hx. exists x. by split.
  - exfalso. apply Hn. destruct Hv as [? Hx]. unfold TableType_valid. cbn.
    split; [unfold Table_size in *; lia|]. intros max E. specialize (Hm max E).
    specialize (Hx max E). lia.
Qed.
End Properties.

(** ** Growth and creation *)

Section GrowProperties.
Context `{T : Target} {Alloc : Allocator} {L : Type} {RL : ResourceLimiter L}
  {BL : BoundedLimiter L}.

Definition table_bounded_by (lim : ResourceLimiterRef L) (elements : Z) : Prop :=
  forall l b, lim = Some l -> table_bound l = Some b -> elements <= b.

Lemma table_notify_limiter_eq {A} err (t : Table) fuel lim :
  exists e lim', table_notify_limiter (A := A) err (t, fuel, lim) = (Err e, (t, fuel, lim')).
Proof.
  unfold table_notify_limiter, on_table_limiter, with_resource_limiter. unfold_m. cbn [fst snd].
  destruct lim as [l|]; [|eexists _, _; reflexivity].
  destruct (table_grow_failed err l) as [rl l'] eqn:E.
  destruct (table_grow_failed_bounded _ _ _ _ E) as [? _].
  destruct rl; [eexists _, _; reflexivity..|done].
Qed.

(** The limiter's answer, its error being the operation's. *)
Lemma on_table_limiter_growing cur des max (t : Table) fuel lim r s' :
  zoom (S := TableGrowState) snd (fun l s => (fst s, l)) id
    (on_table_limiter true (table_growing cur des max)) (t, fuel, lim) = (r, s') ->
  s'.1 = (t, fuel) /\ r <> Panic /\ (r = Ok true -> table_bounded_by lim des).
Proof.
  unfold zoom, on_table_limiter, with_resource_limiter. cbn [fst snd].
  destruct lim as [l|].
  - destruct (table_growing cur des max l) as [rl l'] eqn:El.
    apply table_growing_bounded in El as (Hnp & _ & _ & Hb).
    intros [= <- <-]. split; [done|]. split; [by destruct rl|].
    intros Hr l1 b [= <-] Hm. apply Hb; [|done]. destruct rl as [[]|e|]; done.
  - intros [= <- <-]. split; [done|]. split; [done|]. by intros _ l b.
Qed.

Lemma Table_grow_fuel_spec delta t fuel lim r s' :
  Table_grow_fuel delta (t, fuel, lim) = (r, s') ->
  match r with
  | Ok _ => exists fuel', charged delta fuel = Some fuel' /\ s' = (t, fuel', lim)
  | Err _ => s'.1 = (t, fuel) /\ charged delta fuel = None
  | Panic => False
  end.
Proof.
  unfold Table_grow_fuel, charged. rewrite bind_get_st. cbn [fst snd].
  destruct fuel as [f|]; [|intros [= <- <-]; by eexists].
  rewrite consume_fuel_eq, consume_fuel_unchecked_eq. fold (table_cost delta f).
  destruct (fuel_enabled f); cbn [negb]; [|intros [= <- <-]; by eexists].
  destruct (Z.leb_spec (table_cost delta f) (fuel_remaining f)); cbn [fst snd].
  - intros [= <- <-]. by eexists.
  - rewrite bind_run. cbn [put_st].
    destruct (table_notify_limiter_eq (A := unit) (TE_OutOfFuel (table_cost delta f)) t (Some f) lim)
      as (e & lim' & ->).
    by intros [= <- <-].
Qed.

Lemma transpose_Some o m : transpose_try_from_u usize_bits o = Some m -> m = o.
Proof.
  unfold transpose_try_from_u, try_from_u. destruct o as [z|]; [|by intros [= <-]].
  case_if; [|done]. by intros [= <-].
Qed.

(** Growing appends copies of the initial element, or fails and leaves the
    table as it was; it respects the type's maximum and the limiter's bound,
    charges the cost of the new elements and never panics. *)
Theorem Table_grow_spec t delta init fuel lim r t' fuel' lim' :
  Table_wf t -> 0 <= delta ->
  Table_grow delta init (t, fuel, lim) = (r, (t', fuel', lim')) ->
  Table_wf t' /\ tab_ty t' = tab_ty t /\
  match r with
  | Ok n =>
      n = Table_size t /\ tref_ty init = tt_element (tab_ty t) /\
      tab_elements t' = tab_elements t ++ replicate (Z.to_nat delta) (tref_raw init) /\
      (0 < delta -> table_bounded_by lim (Table_size t') /\ charged delta fuel = Some fuel')
  | Err _ => t' = t
  | Panic => False
  end.
Proof.
  intros Hw Hd. unfold Table_grow, Table_unwrap_typed, TableType_ensure_element_type_matches.
  rewrite bind_get_st, bind_lift. cbn [fst snd]. case_bool_decide as Hty; cbn [negb];
    [|by intros [= <- <- <- <-]]. cbn [fmap res_fmap]. unfold Table_grow_raw.
  rewrite bind_get_st. cbn [fst snd]. destruct (Z.eqb_spec delta 0) as [->|Hd0].
  { intros [= <- <- <- <-]. split_and!; try done; try lia. by rewrite app_nil_r. }
  rewrite ok_or_try_from_u, bind_lift_if. destruct (Z.ltb_spec delta (2 ^ usize_bits));
    [|by intros [= <- <- <- <-]].
  rewrite bind_lift. unfold checked_add. destruct (Z.ltb_spec (Table_size t + delta) (2 ^ 64));
    cbn [ok_or]; [|by intros [= <- <- <- <-]].
  destruct (Z.leb_spec (IndexType_max_size (tt_index_ty (tab_ty t))) (Table_size t + delta));
    [by intros [= <- <- <- <-]|].
  rewrite ok_or_try_from_u, bind_lift_if.
  destruct (Z.ltb_spec (Table_size t + delta) (2 ^ usize_bits)); [|by intros [= <- <- <- <-]].
  rewrite bind_lift. destruct (transpose_try_from_u usize_bits (tt_max (tab_ty t))) as [mx|] eqn:Emx;
    cbn [ok_or]; [|by intros [= <- <- <- <-]].
  apply transpose_Some in Emx as ->. rewrite bind_run.
  destruct (zoom _ _ _ _ _) as [ra s1] eqn:Ea. apply on_table_limiter_growing in Ea as (Hs1 & Hnp & Hb).
  destruct s1 as [[t1 fuel1] lim1]. cbn in Hs1. injection Hs1 as -> ->.
  destruct ra as [[]|e|]; cbn [negb]; [|by intros [= <- <- <- <-]|by intros [= <- <- <- <-]|done].
  assert (Hfail : forall (e : TableError) fuel0 lim0, table_notify_limiter (A := Z) e (t, fuel0, lim0) =
      (r, (t', fuel', lim')) -> exists e', r = Err e' /\ t' = t).
  { intros e fuel0 lim0. destruct (table_notify_limiter_eq (A := Z) e t fuel0 lim0) as (e' & l' & ->).
    intros [= <- <- <- <-]. by eexists. }
  destruct (match tt_max (tab_ty t) with Some m => _ | None => false end) eqn:Emax.
  { intros H'. by destruct (Hfail _ _ _ H') as (? & -> & ->). }
  rewrite bind_run. destruct (Table_grow_fuel delta _) as [rf s2] eqn:Ef.
  apply Table_grow_fuel_spec in Ef. destruct rf as [[]|e|]; [| |done].
  2: { intros [= <- ->]. destruct Ef as [[= ->] _]. by split_and!. }
  destruct Ef as (fuel2 & Hch & ->). rewrite bind_get_st. cbn [fst snd].
  destruct (try_reserve _ _ _ _) as [cap|].
  2: { intros H'. by destruct (Hfail _ _ _ H') as (? & -> & ->). }
  intros [= <- <- <- <-]. cbn [tab_ty tab_elements]. destruct Hw as (Hv & [? ?] & Hmx & ?).
  assert (Hel : resize (Z.to_nat (Table_size t + delta)) (tref_raw init) (tab_elements t) =
    tab_elements t ++ replicate (Z.to_nat delta) (tref_raw init)).
  { rewrite resize_ge by (unfold Table_size; lia). f_equal. f_equal. unfold Table_size. lia. }
  rewrite Hel. assert (Hsz : forall c, Table_size (Build_Table (tab_ty t) (tab_elements t ++
      replicate (Z.to_nat delta) (tref_raw init)) c) = Table_size t + delta).
  { intros c. unfold Table_size. cbn. rewrite length_app, length_replicate. lia. }
  unfold Table_wf. rewrite Hsz. cbn [tab_ty tab_elements]. split_and!; try done; try lia.
  - intros max E. rewrite E in Emax. by apply Z.ltb_ge in Emax.
  - intros _. split; [by apply Hb|done].
Qed.

(** A new table holds the minimum number of copies of the initial element. *)
Theorem Table_new_spec ty init lim r lim' :
  TableType_valid ty -> Table_new ty init lim = (r, lim') ->
  match r with
  | Ok t => Table_wf t /\ tab_ty t = ty /\ tref_ty init = tt_element ty /\
            tab_elements t = replicate (Z.to_nat (tt_min ty)) (tref_raw init) /\
            table_bounded_by lim (Table_size t)
  | Err e => e = TE_ElementTypeMismatch <-> tref_ty init <> tt_element ty
  | Panic => False
  end.
Proof.
  intros [Hmin Hmax]. unfold Table_new, TableType_ensure_element_type_matches.
  rewrite bind_lift. case_bool_decide as Hty; cbn [negb];
    [|intros [= <- <-]; split; [intros _; congruence|done]].
  assert (Hne : forall e : TableError, e <> TE_ElementTypeMismatch ->
    (e = TE_ElementTypeMismatch <-> tref_ty init <> tt_element ty)).
  { intros e He. split; [done|]. intros H. by rewrite Hty in H. }
  rewrite ok_or_try_from_u, bind_lift_if. destruct (Z.ltb_spec (tt_min ty) (2 ^ usize_bits));
    [|intros [= <- <-]; by apply Hne].
  rewrite bind_lift. destruct (transpose_try_from_u usize_bits (tt_max ty)) as [mx|];
    cbn [ok_or]; [|intros [= <- <-]; by apply Hne].
  rewrite bind_run. unfold on_table_limiter, with_resource_limiter.
  destruct lim as [l|].
  - destruct (table_growing 0 (tt_min ty) mx l) as [rl l'] eqn:El.
    apply table_growing_bounded in El as (Hnp & _ & _ & Hb).
    destruct rl as [[]|[]|]; cbn [map_err negb]; [|intros [= <- <-]; by apply Hne..|done].
    destruct (try_reserve _ _ _ _) as [cap|].
    + intros [= <- <-]. cbn [tab_ty tab_elements].
      assert (Hs : Table_size (Build_Table ty (replicate (Z.to_nat (tt_min ty)) (tref_raw init)) cap)
        = tt_min ty) by (unfold Table_size; cbn; rewrite length_replicate; lia).
      split_and!; try done.
      * unfold Table_wf. rewrite Hs. cbn [tab_ty]. split_and!; try done; try lia.
        intros max E. by apply Hmax.
      * intros l1 b [= <-] Hm. rewrite Hs. by apply Hb.
    + rewrite bind_run. destruct (table_grow_failed TE_OutOfSystemMemory l') as [rf l2] eqn:E2.
      apply table_grow_failed_bounded in E2 as [? _].
      destruct rf as [[]|[]|]; cbn; [intros [= <- <-]; by apply Hne..|done].
  - cbn [negb]. destruct (try_reserve _ _ _ _) as [cap|].
    + intros [= <- <-]. cbn [tab_ty tab_elements].
      assert (Hs : Table_size (Build_Table ty (replicate (Z.to_nat (tt_min ty)) (tref_raw init)) cap)
        = tt_min ty) by (unfold Table_size; cbn; rewrite length_replicate; lia).
      split_and!; try done.
      unfold Table_wf. rewrite Hs. cbn [tab_ty]. split_and!; try done; try lia.
      intros max E. by apply Hmax.
    + rewrite bind_run. intros [= <- <-]. by apply Hne.
Qed.
End GrowProperties.

(** ** Witnesses *)

Section Witnesses.

Definition sample_table_type : TableType :=
  {| tt_element := RefType_Func; tt_min := 4; tt_max := Some 8; tt_index_ty := IndexType_I32 |}.

(** A table holding the references [bits]. *)
Definition table_of (bits : list Z) : Table :=
  {| tab_ty := sample_table_type; tab_elements := Build_RawRef <$> bits; tab_capacity := 8 |}.

Definition sample_segment : ElementSegment :=
  {| es_ty := RefType_Func; es_items := Build_RawRef <$> [7; 8; 9] |}.

Definition sample_fuel (n : Z) : Fuel := set_fuel_remaining n (Fuel_new true FuelCostsProvider_default).

Lemma sample_table_type_valid : TableType_valid sample_table_type.
Proof.
  unfold TableType_valid. change (IndexType_max_size _) with (2 ^ 32).
  cbn [sample_table_type tt_min tt_max]. split; [lia|]. intros max [= <-]. lia.
Qed.

Lemma table_of_wf (T : Target) bits :
  ((4 <=? length bits) && (length bits <=? 8))%nat = true -> Table_wf (table_of bits).
Proof.
  intros [H4%Nat.leb_le H8%Nat.leb_le]%andb_true_iff. pose proof usize_bits_bounds. unfold Table_wf, Table_size.
  cbn [table_of tab_ty tab_elements sample_table_type tt_min tt_max tt_index_ty].
  rewrite length_fmap. change (IndexType_max_size IndexType_I32) with (2 ^ 32).
  split; [apply sample_table_type_valid|].
  split_and!; try lia. intros max [= <-]. lia.
Qed.

Lemma sample_fuel_wf f : Some (sample_fuel 9) = Some f -> Fuel_wf f.
Proof. intros [= <-]. unfold Fuel_wf, in_u. cbn. lia. Qed.

Lemma Table_copy_within_spec_witness :
  let T := default_target in
  fst (Table_copy_within 1 0 3 (table_of [1; 2; 3; 4; 5], Some (sample_fuel 9))) = Ok tt /\
  bulk_outcome true TE_CopyOutOfBounds 1 3 (fun k => Build_RawRef <$> [1; 2; 3; 4; 5] !! Z.to_nat (0 + k))
    (table_of [1; 2; 3; 4; 5]) (Some (sample_fuel 9))
    (Table_copy_within 1 0 3 (table_of [1; 2; 3; 4; 5], Some (sample_fuel 9))).
Proof.
  intros T. split; [reflexivity|].
  eapply bulk_outcome_ext; [|exact (Table_copy_within_spec (T := T) (table_of [1; 2; 3; 4; 5])
    (Some (sample_fuel 9)) 1 0 3 (table_of_wf T [1; 2; 3; 4; 5] eq_refl) ltac:(lia) ltac:(lia) ltac:(lia))].
  intros k _. cbn [table_of tab_elements]. apply list_lookup_fmap.
Defined.

Lemma Table_init_spec_witness :
  let T := default_target in
  fst (Table_init sample_segment 1 0 3 (table_of [1; 2; 3; 4], Some (sample_fuel 9))) = Ok tt /\
  bulk_outcome true TE_InitOutOfBounds 1 3 (fun k => es_items sample_segment !! Z.to_nat (0 + k))
    (table_of [1; 2; 3; 4]) (Some (sample_fuel 9))
    (Table_init sample_segment 1 0 3 (table_of [1; 2; 3; 4], Some (sample_fuel 9))).
Proof.
  intros T. split; [reflexivity|].
  exact (Table_init_spec (T := T) (table_of [1; 2; 3; 4]) (Some (sample_fuel 9)) sample_segment 1 0 3
    (table_of_wf T [1; 2; 3; 4] eq_refl) eq_refl ltac:(lia) ltac:(lia) ltac:(lia)
    sample_fuel_wf).
Defined.

Lemma Table_copy_spec_witness :
  let T := default_target in
  bulk_outcome false TE_CopyOutOfBounds 2 3 (fun k => tab_elements (table_of [1; 2; 3; 4]) !! Z.to_nat (0 + k))
    (table_of [5; 6; 7; 8]) None (Table_copy 2 (table_of [1; 2; 3; 4]) 0 3 (table_of [5; 6; 7; 8], None)).
Proof.
  intros T.
  exact (Table_copy_spec (T := T) (table_of [5; 6; 7; 8]) None (table_of [1; 2; 3; 4]) 2 0 3
    (table_of_wf T [5; 6; 7; 8] eq_refl) (table_of_wf T [1; 2; 3; 4] eq_refl)
    ltac:(lia) ltac:(lia) ltac:(lia)).
Defined.

Lemma Table_fill_spec_witness :
  let T := default_target in
  Table_fill 1 (TypedRawRef_null RefType_Extern) 2 (table_of [1; 2; 3; 4], None) =
  (Err TE_ElementTypeMismatch, (table_of [1; 2; 3; 4], None)).
Proof.
  intros T.
  exact (Table_fill_spec (T := T) (table_of [1; 2; 3; 4]) None 1 (TypedRawRef_null RefType_Extern) 2
    (table_of_wf T [1; 2; 3; 4] eq_refl) ltac:(lia) ltac:(lia)).
Defined.

Lemma Table_set_get_witness :
  let T := default_target in
  Table_get (table_of [1; 2; 7; 4]) 2 = Some (TypedRawRef_new (Build_RawRef 7) RefType_Func).
Proof.
  intros T.
  exact (proj1 (proj2 (proj2 (proj2 (proj2 (Table_set_get (T := T) (table_of [1; 2; 3; 4]) 2
    (TypedRawRef_new (Build_RawRef 7) RefType_Func) (Ok tt) (table_of [1; 2; 7; 4])
    (table_of_wf T [1; 2; 3; 4] eq_refl) ltac:(lia) eq_refl)))))).
Defined.

Lemma Table_dynamic_ty_spec_witness :
  let T := default_target in
  exists ty, Table_dynamic_ty (E := TableError) (table_of [1; 2; 3; 4; 5]) = Ok ty /\ tt_min ty = 5.
Proof.
  intros T. destruct (Table_dynamic_ty_spec (T := T) (table_of [1; 2; 3; 4; 5])
    (table_of_wf T [1; 2; 3; 4; 5] eq_refl)) as (ty & E & Hm & _).
  exists ty. split; [exact E|exact Hm].
Defined.

Definition table_limits : StoreLimits :=
  StoreLimitsBuilder_build (StoreLimitsBuilder_table_elements 7 StoreLimitsBuilder_new).

Lemma Table_grow_spec_witness :
  let T := default_target in let A := limit_allocator default_target 100 in
  let init := TypedRawRef_new (Build_RawRef 9) RefType_Func in
  let t' := {| tab_ty := sample_table_type; tab_elements := Build_RawRef <$> [1; 2; 3; 4; 9; 9];
               tab_capacity := 6 |} in
  Table_grow 2 init (table_of [1; 2; 3; 4], Some (sample_fuel 5), Some table_limits) =
    (Ok 4, (t', Some (sample_fuel 5), Some table_limits)) /\ Table_wf t'.
Proof.
  intros T A init t'. split; [reflexivity|].
  exact (proj1 (Table_grow_spec (T := T) (Alloc := A) (L := StoreLimits) (table_of [1; 2; 3; 4]) 2 init
    (Some (sample_fuel 5)) (Some table_limits) (Ok 4) t' (Some (sample_fuel 5)) (Some table_limits)
    (table_of_wf T [1; 2; 3; 4] eq_refl) ltac:(lia) eq_refl)).
Defined.

Lemma Table_new_spec_witness :
  let T := default_target in let A := limit_allocator default_target 100 in
  let init := TypedRawRef_null RefType_Func in
  let t := {| tab_ty := sample_table_type; tab_elements := Build_RawRef <$> [0; 0; 0; 0];
              tab_capacity := 4 |} in
  Table_new sample_table_type init (Some table_limits) = (Ok t, Some table_limits) /\ Table_wf t.
Proof.
  intros T A init t. split; [reflexivity|].
  exact (proj1 (Table_new_spec (T := T) (Alloc := A) (L := StoreLimits) sample_table_type init
    (Some table_limits) (Ok t) (Some table_limits) sample_table_type_valid eq_refl)).
Defined.
End Witnesses.
