(* ===== verification/Slot.v ===== *)
(** * Operands of the bytecode: stack slots, spans and immediates

    [crates/ir/src/index.rs], [span.rs] and [primitive.rs]: stack slots with
    their two representations, spans of slots and the iterator over them, branch
    offsets, block fuel, addresses and memory offsets. *)

From Stdlib Require Import ZArith Lia.
From stdpp Require Import base option decidable numbers list.
From S2P Require Import Prelude.
Local Open Scope Z_scope.

Inductive IrError : Type :=
| StackSlotOutOfBounds
| BlockFuelOutOfBounds
| MemoryIndexOutOfBounds.

(** ** Slots

    [RawSlot] is a [u16] with the [slot16] feature and otherwise a [u32] that
    counts bytes, eight per cell.  The derived order is the order of the bits. *)
Record Slot : Type := { slot_raw : Z }.

#[export] Instance Slot_eq_dec : EqDecision Slot.
Proof. solve_decision. Defined.

Definition CELL_BYTES : Z := 8.

Section Slot.
Context `{T : Target}.

Definition raw_bits : Z := if feat_slot16 then 16 else 32.
Definition raw_unit : Z := if feat_slot16 then 1 else CELL_BYTES.

Definition Slot_from (value : Z) : Slot := {| slot_raw := value * raw_unit |}.
Definition Slot_into (s : Slot) : Z :=
  if feat_slot16 then slot_raw s else wrapu 16 (slot_raw s / CELL_BYTES).
Definition Slot_byte_offset (s : Slot) : Z :=
  if feat_slot16 then Slot_into s * CELL_BYTES else slot_raw s.

Definition Slot_next_n (self : Slot) (n : Z) : Slot :=
  {| slot_raw := wrapu raw_bits (slot_raw self + slot_raw (Slot_from n)) |}.
Definition Slot_prev_n (self : Slot) (n : Z) : Slot :=
  {| slot_raw := wrapu raw_bits (slot_raw self - slot_raw (Slot_from n)) |}.
Definition Slot_next (self : Slot) : Slot := Slot_next_n self 1.
Definition Slot_prev (self : Slot) : Slot := Slot_prev_n self 1.

Definition Slot_leb (a b : Slot) : bool := slot_raw a <=? slot_raw b.
Definition Slot_ltb (a b : Slot) : bool := slot_raw a <? slot_raw b.

(** ** Iterating over spans *)

Record SlotSpanIter : Type := { iter_next : Slot; iter_last : Slot }.

Definition SlotSpanIter_new {E} (start : Slot) (len : Z) : res E SlotSpanIter :=
  let last := Slot_next_n start len in
  assert_that (Slot_leb start last);;
  Ok {| iter_next := start; iter_last := last |}.

Definition SlotSpanIter_len (self : SlotSpanIter) : Z :=
  Z.abs (Slot_into (iter_last self) - Slot_into (iter_next self)).

Definition SlotSpanIter_is_empty (self : SlotSpanIter) : bool :=
  bool_decide (iter_next self = iter_last self).

Definition SlotSpanIter_next (self : SlotSpanIter) : option Slot * SlotSpanIter :=
  if bool_decide (iter_next self = iter_last self) then (None, self)
  else (Some (iter_next self),
        {| iter_next := Slot_next (iter_next self); iter_last := iter_last self |}).

Definition SlotSpanIter_next_back (self : SlotSpanIter) : option Slot * SlotSpanIter :=
  if bool_decide (iter_next self = iter_last self) then (None, self)
  else let last := Slot_prev (iter_last self) in
       (Some last, {| iter_next := iter_next self; iter_last := last |}).

Definition has_overlapping_copies {E} (results values : SlotSpanIter) : res E bool :=
  assert_that (SlotSpanIter_len results =? SlotSpanIter_len values);;
  let len := SlotSpanIter_len results in
  if len <=? 1 then Ok false else
  let first_value := iter_next values in
  let first_result := iter_next results in
  if Slot_leb first_result first_value then Ok false else
  last_value ← expect (fst (SlotSpanIter_next_back values));
  Ok (Slot_leb first_result last_value).

(** ** Spans *)

Record SlotSpan : Type := { span_head : Slot }.

Definition SlotSpan_iter {E} (self : SlotSpan) (len : Z) : res E SlotSpanIter :=
  SlotSpanIter_new (span_head self) len.

(** A [FixedSlotSpan<N>] is the span; [n] is its constant. *)
Definition FixedSlotSpan_new (n : Z) (span : SlotSpan) : res IrError SlotSpan :=
  if Slot_leb (Slot_next_n (span_head span) n) (span_head span) then Err StackSlotOutOfBounds
  else Ok span.

Definition FixedSlotSpan_to_array (self : SlotSpan) : list Slot :=
  [span_head self; Slot_next (span_head self)].

Definition FixedSlotSpan_contains (n : Z) (self : SlotSpan) (reg : Slot) : bool :=
  if n =? 0 then false
  else Slot_leb (span_head self) reg && Slot_ltb reg (Slot_next_n (span_head self) n).

Record BoundedSlotSpan : Type := { bspan : SlotSpan; bspan_len : Z }.

Definition BoundedSlotSpan_iter {E} (self : BoundedSlotSpan) : res E SlotSpanIter :=
  SlotSpan_iter (bspan self) (bspan_len self).

Definition BoundedSlotSpan_head (self : BoundedSlotSpan) : Slot := span_head (bspan self).

Definition BoundedSlotSpan_is_empty (self : BoundedSlotSpan) : bool := bspan_len self =? 0.

Definition BoundedSlotSpan_contains (self : BoundedSlotSpan) (reg : Slot) : bool :=
  if BoundedSlotSpan_is_empty self then false
  else let min := BoundedSlotSpan_head self in
       let max := Slot_next_n min (bspan_len self) in
       Slot_leb min reg && Slot_ltb reg max.

(** ** Immediates *)

Record BranchOffset : Type := { branch_offset : Z }.

Definition BranchOffset_is_backwards (self : BranchOffset) : bool := branch_offset self <? 0.
Definition BranchOffset_is_forwards (self : BranchOffset) : bool := 0 <? branch_offset self.
Definition BranchOffset_is_init (self : BranchOffset) : bool := negb (branch_offset self =? 0).
Definition BranchOffset_uninit : BranchOffset := {| branch_offset := 0 |}.
Definition BranchOffset_init {E} (valid_offset : BranchOffset) : M BranchOffset E unit :=
  assert_m (BranchOffset_is_init valid_offset);;
  self ← get_st;
  assert_m (negb (BranchOffset_is_init self));;
  put_st valid_offset.

Record BlockFuel : Type := { block_fuel : Z }.

Definition BlockFuel_bump_by (amount : Z) : M BlockFuel IrError unit :=
  self ← get_st;
  fuel ← lift (ok_or (checked_add 64 (block_fuel self) amount) BlockFuelOutOfBounds);
  put_st {| block_fuel := fuel |}.

Definition Address_new (addr : Z) : option Z := try_from_u usize_bits addr.

(** [Offset] is a [u64] with the [memory64] feature and otherwise a [u32]. *)
Definition offset_bits : Z := if feat_memory64 then 64 else 32.
Definition Offset_new (offset : Z) : option Z := try_from_u offset_bits offset.
Definition Offset16_new (offset : Z) : option Z := try_from_u 16 offset.

(** [TryFrom<u32> for Memory]. *)
Definition MemoryIdx_try_from (index : Z) : res IrError Z :=
  ok_or (try_from_u 16 index) MemoryIndexOutOfBounds.

(** ** Properties *)

Lemma raw_unit_cases :
  raw_unit = 1 /\ raw_bits = 16 /\ feat_slot16 = true \/
  raw_unit = 8 /\ raw_bits = 32 /\ feat_slot16 = false.
Proof. unfold raw_unit, raw_bits, CELL_BYTES. destruct feat_slot16; [left|right]; done. Qed.

(** The slot of a cell index that fits the representation. *)
Lemma Slot_next_n_from i n : 0 <= i -> 0 <= n -> i + n < 2 ^ 16 ->
  Slot_next_n (Slot_from i) n = Slot_from (i + n).
Proof.
  intros. unfold Slot_next_n, Slot_from. cbn [slot_raw]. f_equal.
  destruct raw_unit_cases as [(-> & -> & _)|(-> & -> & _)];
    rewrite wrapu_small by (unfold in_u; lia); lia.
Qed.

Lemma Slot_prev_n_from i n : 0 <= n <= i -> i < 2 ^ 16 ->
  Slot_prev_n (Slot_from i) n = Slot_from (i - n).
Proof.
  intros. unfold Slot_prev_n, Slot_from. cbn [slot_raw]. f_equal.
  destruct raw_unit_cases as [(-> & -> & _)|(-> & -> & _)];
    rewrite wrapu_small by (unfold in_u; lia); lia.
Qed.

Lemma Slot_into_from i : in_u 16 i -> Slot_into (Slot_from i) = i.
Proof.
  intros. unfold Slot_into, Slot_from, raw_unit, CELL_BYTES. cbn [slot_raw].
  destruct feat_slot16; [lia|]. rewrite Z.div_mul by lia. by apply wrapu_small.
Qed.

Lemma Slot_from_inj i j : Slot_from i = Slot_from j -> i = j.
Proof.
  intros [= H]. destruct raw_unit_cases as [(E & _)|(E & _)]; rewrite E in H; lia.
Qed.

Lemma Slot_leb_from i j : Slot_leb (Slot_from i) (Slot_from j) = (i <=? j).
Proof.
  unfold Slot_leb, Slot_from. cbn [slot_raw].
  destruct raw_unit_cases as [(-> & _)|(-> & _)]; destruct (Z.leb_spec i j);
    apply Z.leb_le || apply Z.leb_gt; lia.
Qed.

Lemma Slot_ltb_from i j : Slot_ltb (Slot_from i) (Slot_from j) = (i <? j).
Proof.
  unfold Slot_ltb, Slot_from. cbn [slot_raw].
  destruct raw_unit_cases as [(-> & _)|(-> & _)]; destruct (Z.ltb_spec i j);
    apply Z.ltb_lt || apply Z.ltb_ge; lia.
Qed.

(** Both representations are the same abstract type: a slot is its cell index,
    addition and subtraction of cells are exact while they stay a [u16], the
    byte offset is eight times the index and the order is that of the indices. *)
Theorem Slot_spec i n : 0 <= i -> 0 <= n -> i + n < 2 ^ 16 ->
  Slot_into (Slot_from i) = i /\
  Slot_next_n (Slot_from i) n = Slot_from (i + n) /\
  Slot_prev_n (Slot_from (i + n)) n = Slot_from i /\
  Slot_byte_offset (Slot_from i) = 8 * i /\
  Slot_ltb (Slot_from i) (Slot_from (i + n)) = (0 <? n).
Proof.
  intros Hi Hn Hlt. split; [apply Slot_into_from; unfold in_u; lia|].
  split; [by apply Slot_next_n_from|].
  split; [rewrite Slot_prev_n_from by lia; f_equal; lia|].
  split.
  - unfold Slot_byte_offset. pose proof (Slot_into_from i ltac:(unfold in_u; lia)) as Hs.
    destruct raw_unit_cases as [(_ & _ & E)|(E' & _ & E)]; rewrite E in *.
    + rewrite Hs. unfold CELL_BYTES. lia.
    + unfold Slot_from. rewrite E'. cbn. lia.
  - rewrite Slot_ltb_from. destruct (Z.ltb_spec i (i + n)), (Z.ltb_spec 0 n); lia || done.
Qed.

(** The slots of the span of [len] cells from [i] on. *)
Definition cells (i : Z) (len : nat) : list Slot := (fun k => Slot_from (i + Z.of_nat k)) <$> seq 0 len.

Definition span_ok (i len : Z) : Prop := 0 <= i /\ 0 <= len /\ i + len < 2 ^ 16.

Lemma SlotSpanIter_new_eq {E} i len : span_ok i len ->
  SlotSpanIter_new (E := E) (Slot_from i) len =
  Ok {| iter_next := Slot_from i; iter_last := Slot_from (i + len) |}.
Proof.
  intros (? & ? & ?). unfold SlotSpanIter_new. rewrite Slot_next_n_from by done.
  rewrite Slot_leb_from. by rewrite (proj2 (Z.leb_le _ _)) by lia.
Qed.

Lemma SlotSpanIter_len_eq i len : span_ok i len ->
  SlotSpanIter_len {| iter_next := Slot_from i; iter_last := Slot_from (i + len) |} = len.
Proof.
  intros (? & ? & ?). unfold SlotSpanIter_len. cbn [iter_next iter_last].
  rewrite !Slot_into_from by (unfold in_u; lia). lia.
Qed.

(** What the iterator yields when it is driven from either end; [fuel] bounds
    the number of calls. *)
Fixpoint iter_forward (fuel : nat) (it : SlotSpanIter) : list Slot :=
  match fuel with
  | O => []
  | S fuel => match SlotSpanIter_next it with
              | (Some s, it) => s :: iter_forward fuel it
              | (None, _) => []
              end
  end.
Fixpoint iter_backward (fuel : nat) (it : SlotSpanIter) : list Slot :=
  match fuel with
  | O => []
  | S fuel => match SlotSpanIter_next_back it with
              | (Some s, it) => s :: iter_backward fuel it
              | (None, _) => []
              end
  end.

Lemma cells_cons i len : cells i (S len) = Slot_from i :: cells (i + 1) len.
Proof.
  unfold cells. cbn [seq fmap list_fmap]. f_equal; [f_equal; lia|].
  rewrite <-fmap_S_seq, <-list_fmap_compose. apply list_fmap_ext. intros k x _. cbn. f_equal. lia.
Qed.

Lemma cells_snoc i len : cells i (S len) = cells i len ++ [Slot_from (i + Z.of_nat len)].
Proof. unfold cells. by rewrite seq_S, fmap_app. Qed.

Lemma Slot_from_ne i j : i <> j -> Slot_from i <> Slot_from j.
Proof. intros Hne E. by apply Slot_from_inj in E. Qed.

(** Iterating a span forward yields its cells in ascending order, iterating it
    backward yields them in descending order, and [len] many calls exhaust it. *)
Theorem SlotSpanIter_spec fuel i (len : nat) it :
  span_ok i (Z.of_nat len) -> (len <= fuel)%nat ->
  SlotSpanIter_new (E := unit) (Slot_from i) (Z.of_nat len) = Ok it ->
  SlotSpanIter_len it = Z.of_nat len /\
  iter_forward fuel it = cells i len /\ iter_backward fuel it = reverse (cells i len).
Proof.
  intros Hok Hfuel. rewrite SlotSpanIter_new_eq by done. intros [= <-].
  split; [by apply SlotSpanIter_len_eq|].
  revert i len Hok Hfuel. induction fuel as [|fuel IH]; intros i len (? & _ & ?) Hfuel.
  { assert (len = 0%nat) as -> by lia. done. }
  destruct len as [|len].
  { cbn [iter_forward iter_backward]. unfold SlotSpanIter_next, SlotSpanIter_next_back.
    cbn [iter_next iter_last]. rewrite Z.add_0_r. by rewrite bool_decide_true. }
  cbn [iter_forward iter_backward]. unfold SlotSpanIter_next, SlotSpanIter_next_back.
  cbn [iter_next iter_last].
  rewrite bool_decide_false by (apply Slot_from_ne; lia). split.
  - unfold Slot_next. rewrite Slot_next_n_from by lia. rewrite cells_cons. f_equal.
    replace (i + Z.of_nat (S len)) with (i + 1 + Z.of_nat len) by lia.
    apply IH; [unfold span_ok; lia|lia].
  - unfold Slot_prev. rewrite Slot_prev_n_from by lia. rewrite cells_snoc, reverse_snoc.
    replace (i + Z.of_nat (S len) - 1) with (i + Z.of_nat len) by lia. f_equal.
    apply IH; [unfold span_ok; lia|lia].
Qed.

(** Membership is membership in the span. *)
Lemma BoundedSlotSpan_contains_spec i len j : span_ok i len -> 0 <= j ->
  BoundedSlotSpan_contains {| bspan := {| span_head := Slot_from i |}; bspan_len := len |}
    (Slot_from j) = (i <=? j) && (j <? i + len).
Proof.
  intros (? & ? & ?) ?. unfold BoundedSlotSpan_contains, BoundedSlotSpan_is_empty,
    BoundedSlotSpan_head. cbn [bspan bspan_len span_head].
  destruct (Z.eqb_spec len 0) as [->|].
  - destruct (Z.leb_spec i j), (Z.ltb_spec j (i + 0)); done || lia.
  - rewrite Slot_next_n_from by lia. by rewrite Slot_leb_from, Slot_ltb_from.
Qed.

(** *** Copying spans

    A register file, and the copies [result <- value] done one after the other
    in ascending order, as a copy operator without overlap does them. *)
Definition copy_ascending {V} (copies : list (Slot * Slot)) (regs : Slot -> V) : Slot -> V :=
  foldl (fun regs '(result, value) s => if bool_decide (s = result) then regs value else regs s)
    regs copies.

(** Copying [n] cells from [v] on to [r] on. *)
Definition copy_span {V} (r v : Z) (n : nat) (regs : Slot -> V) : Slot -> V :=
  copy_ascending (zip (cells r n) (cells v n)) regs.

Lemma length_cells i n : length (cells i n) = n.
Proof. unfold cells. by rewrite length_fmap, length_seq. Qed.

Lemma copy_span_S {V} r v n (regs : Slot -> V) s :
  copy_span r v (S n) regs s =
  if bool_decide (s = Slot_from (r + Z.of_nat n))
  then copy_span r v n regs (Slot_from (v + Z.of_nat n)) else copy_span r v n regs s.
Proof.
  unfold copy_span. rewrite !cells_snoc, zip_with_app by (by rewrite !length_cells).
  unfold copy_ascending. by rewrite foldl_app.
Qed.

Lemma copy_span_out {V} r v n (regs : Slot -> V) s :
  (forall k, (k < n)%nat -> s <> Slot_from (r + Z.of_nat k)) -> copy_span r v n regs s = regs s.
Proof.
  induction n as [|n IH]; [done|]. intros Hs. rewrite copy_span_S.
  rewrite bool_decide_false by (apply Hs; lia). apply IH. intros k Hk. apply Hs. lia.
Qed.

Lemma copy_span_disjoint {V} r v n len (regs : Slot -> V) k :
  r <= v \/ v + len <= r -> Z.of_nat n <= len -> (k < n)%nat ->
  copy_span r v n regs (Slot_from (r + Z.of_nat k)) = regs (Slot_from (v + Z.of_nat k)).
Proof.
  intros Hd. revert k. induction n as [|n IH]; intros k Hn Hk; [lia|]. rewrite copy_span_S.
  case_bool_decide as E.
  - apply Slot_from_inj in E. assert (k = n) as -> by lia.
    apply copy_span_out. intros j Hj. apply Slot_from_ne. lia.
  - apply IH; [lia|]. destruct (decide (k = n)) as [->|]; [done|lia].
Qed.

(** The first copy's result is not written again. *)
Lemma copy_span_first {V} r v n (regs : Slot -> V) :
  (0 < n)%nat -> copy_span r v n regs (Slot_from r) = regs (Slot_from v).
Proof.
  induction n as [|[|n] IH]; intros Hn; [lia| |]; rewrite copy_span_S.
  - change (Z.of_nat 0) with 0. rewrite !Z.add_0_r. by rewrite bool_decide_true.
  - rewrite bool_decide_false by (apply Slot_from_ne; lia). apply IH. lia.
Qed.

Lemma copy_span_overlap {V} r v n (regs : Slot -> V) k :
  r = v + Z.of_nat k -> (0 < k < n)%nat ->
  copy_span r v n regs (Slot_from (r + Z.of_nat k)) = regs (Slot_from v).
Proof.
  intros Hr. induction n as [|n IH]; intros Hk; [lia|]. rewrite copy_span_S.
  case_bool_decide as E.
  - apply Slot_from_inj in E. assert (k = n) as -> by lia. rewrite <-Hr.
    apply copy_span_first. lia.
  - apply IH. destruct (decide (k = n)) as [->|]; [done|lia].
Qed.

Lemma has_overlapping_copies_eq {E} r v len :
  span_ok r len -> span_ok v len ->
  has_overlapping_copies (E := E)
    {| iter_next := Slot_from r; iter_last := Slot_from (r + len) |}
    {| iter_next := Slot_from v; iter_last := Slot_from (v + len) |} =
  Ok ((v <? r) && (r <? v + len) && (1 <? len)).
Proof.
  intros Hr Hv. unfold has_overlapping_copies. rewrite !SlotSpanIter_len_eq by done.
  rewrite Z.eqb_refl. cbn [assert_that mbind res_bind iter_next].
  destruct Hr as (? & ? & ?), Hv as (? & ? & ?).
  destruct (Z.leb_spec len 1), (Z.ltb_spec 1 len); try lia; [by rewrite andb_false_r|].
  rewrite Slot_leb_from. rewrite andb_true_r.
  destruct (Z.leb_spec r v), (Z.ltb_spec v r); try lia; [done|]. cbn [andb].
  unfold SlotSpanIter_next_back. cbn [iter_next iter_last].
  rewrite bool_decide_false by (apply Slot_from_ne; lia). cbn [fst expect mbind res_bind].
  unfold Slot_prev. rewrite Slot_prev_n_from by lia. rewrite Slot_leb_from. f_equal.
  destruct (Z.leb_spec r (v + len - 1)), (Z.ltb_spec r (v + len)); done || lia.
Qed.

(** C38: [has_overlapping_copies] answers exactly whether copying the span in
    ascending order can go wrong: when it says no, every result ends up with the
    value its source had before the copy and no other slot changes; when it says
    yes, there is a register file for which some result does not. *)
Theorem has_overlapping_copies_spec r v (len : nat) results values :
  span_ok r (Z.of_nat len) -> span_ok v (Z.of_nat len) ->
  SlotSpanIter_new (E := unit) (Slot_from r) (Z.of_nat len) = Ok results ->
  SlotSpanIter_new (E := unit) (Slot_from v) (Z.of_nat len) = Ok values ->
  exists b, has_overlapping_copies (E := unit) results values = Ok b /\
  (if b then
     exists (regs : Slot -> Slot) k, (k < len)%nat /\
       copy_span r v len regs (Slot_from (r + Z.of_nat k)) <> regs (Slot_from (v + Z.of_nat k))
   else
     forall (regs : Slot -> Slot),
       (forall k, (k < len)%nat ->
          copy_span r v len regs (Slot_from (r + Z.of_nat k)) = regs (Slot_from (v + Z.of_nat k))) /\
       (forall s, (forall k, (k < len)%nat -> s <> Slot_from (r + Z.of_nat k)) ->
          copy_span r v len regs s = regs s)).
Proof.
  intros Hr Hv. rewrite !SlotSpanIter_new_eq by done. intros [= <-] [= <-].
  rewrite has_overlapping_copies_eq by done. eexists. split; [done|].
  destruct (Z.ltb_spec v r), (Z.ltb_spec r (v + Z.of_nat len)), (Z.ltb_spec 1 (Z.of_nat len));
    cbn [andb]; try (intros regs; split; [intros k Hk|intros s Hs; by apply copy_span_out];
      apply (copy_span_disjoint r v len (Z.of_nat len)); lia).
  exists id, (Z.to_nat (r - v)). split; [lia|].
  rewrite copy_span_overlap by lia. unfold id. apply Slot_from_ne. lia.
Qed.

(** [FixedSlotSpan::new] rejects a span exactly when it is empty or wraps
    around in the representation of slots.  A span that starts at a valid slot
    can wrap around only with the [slot16] feature: by default a span whose
    last slot is no [u16] index is accepted. *)
Theorem FixedSlotSpan_new_spec n i : in_u 16 n -> in_u 16 i ->
  FixedSlotSpan_new n {| span_head := Slot_from i |} =
  if (n =? 0) || (feat_slot16 && (2 ^ 16 <=? i + n))
  then Err StackSlotOutOfBounds else Ok {| span_head := Slot_from i |}.
Proof.
  intros [? ?] [? ?]. unfold FixedSlotSpan_new, Slot_leb, Slot_next_n, Slot_from.
  cbn [span_head slot_raw].
  destruct raw_unit_cases as [(-> & -> & ->)|(-> & -> & ->)]; cbn [andb orb].
  - rewrite !Z.mul_1_r. destruct (Z.leb_spec (2 ^ 16) (i + n)).
    + assert (wrapu 16 (i + n) = i + n - 2 ^ 16) as ->.
      { unfold wrapu. symmetry. apply (Z.mod_unique _ _ 1); lia. }
      rewrite (proj2 (Z.leb_le _ _)) by lia. by rewrite orb_true_r.
    + rewrite wrapu_small by (unfold in_u; lia). rewrite orb_false_r.
      destruct (Z.leb_spec (i + n) i), (Z.eqb_spec n 0); done || lia.
  - rewrite wrapu_small by (unfold in_u; lia). rewrite orb_false_r.
    destruct (Z.leb_spec (i * 8 + n * 8) (i * 8)), (Z.eqb_spec n 0); done || lia.
Qed.

(** Block fuel never wraps: a bump adds exactly the amount or is an error that
    keeps the fuel. *)
Lemma BlockFuel_bump_by_spec amount f : 0 <= amount -> in_u 64 (block_fuel f) ->
  let '(r, f') := BlockFuel_bump_by amount f in
  in_u 64 (block_fuel f') /\
  match r with
  | Ok _ => block_fuel f' = block_fuel f + amount
  | Err e => e = BlockFuelOutOfBounds /\ f' = f /\ 2 ^ 64 <= block_fuel f + amount
  | Panic => False
  end.
Proof.
  intros Ha [? ?]. unfold BlockFuel_bump_by, checked_add. unfold_m.
  destruct (Z.ltb_spec (block_fuel f + amount) (2 ^ 64)); cbn; unfold in_u; cbn;
    split_and!; done || lia.
Qed.
End Slot.

(** ** Witnesses *)

Lemma Slot_spec_witness :
  let T := default_target in
  Slot_next_n (Slot_from 3) 4 = Slot_from 7 /\ Slot_into (Slot_from 3) = 3.
Proof.
  intros T. destruct (Slot_spec (T := T) 3 4) as (H1 & H2 & _); [lia..|]. split; [exact H2|exact H1].
Defined.

Lemma SlotSpanIter_spec_witness :
  let T := small_target in
  exists it, SlotSpanIter_new (E := unit) (Slot_from 5) 3 = Ok it /\
  iter_forward 9 it = [Slot_from 5; Slot_from 6; Slot_from 7].
Proof.
  intros T. eexists. split; [reflexivity|].
  refine (proj1 (proj2 (SlotSpanIter_spec (T := T) 9 5 3 _ _ _ eq_refl))); [unfold span_ok; lia|lia].
Defined.

Lemma has_overlapping_copies_spec_witness :
  let T := default_target in
  exists it1 it2, SlotSpanIter_new (E := unit) (Slot_from 1) 2 = Ok it1 /\
  SlotSpanIter_new (E := unit) (Slot_from 0) 2 = Ok it2 /\
  has_overlapping_copies (E := unit) it1 it2 = Ok true /\
  exists (regs : Slot -> Slot) k, (k < 2)%nat /\
    copy_span 1 0 2 regs (Slot_from (1 + Z.of_nat k)) <> regs (Slot_from (0 + Z.of_nat k)).
Proof.
  intros T. eexists _, _. split; [reflexivity|]. split; [reflexivity|].
  destruct (has_overlapping_copies_spec (T := T) 1 0 2 _ _ ltac:(unfold span_ok; lia)
    ltac:(unfold span_ok; lia) eq_refl eq_refl) as (b & E & H).
  assert (b = true) as ->; [by injection E|]. split; [exact E|exact H].
Defined.

Lemma FixedSlotSpan_new_spec_witness :
  let T := default_target in
  FixedSlotSpan_new 2 {| span_head := Slot_from 65535 |} = Ok {| span_head := Slot_from 65535 |}.
Proof. intros T. apply (FixedSlotSpan_new_spec (T := T) 2 65535); unfold in_u; lia. Defined.
