(* ===== verification/Locals.v ===== *)
(** * Local variables of the translated function

    [crates/wasmi/src/engine/translator/]: the translation errors
    ([error.rs]), the cells per type ([utils.rs]), the registry of local types
    ([func/locals.rs]), the stack layout ([func/layout.rs]) and the heads of
    the lists of local operands ([func/stack/locals.rs]). *)

From Stdlib Require Import ZArith Lia.
From stdpp Require Import base option decidable numbers list sorting.
From S2P Require Import Prelude Value Slot.
Local Open Scope Z_scope.

(** The constructors with a payload of the parser's types are left out:
    nothing modelled here raises them. *)
Inductive TranslationError : Type :=
| BranchTableTargetsOutOfBounds
| BranchOffsetOutOfBounds
| TE_BlockFuelOutOfBounds
| AllocatedTooManySlots
| SlotAccessOutOfBounds
| SlotOutOfBounds
| EmulatedValueStackOverflow
| ProviderSliceOverflow
| TooManyFuncLocalConstValues
| TooManyFunctionResults
| TooManyFunctionParams
| TooManyLocalVariables
| LazyCompilationFailed
| TranslationOutOfSystemMemory.

(** [LocalIdx] is a [u32]. *)
Notation LocalIdx := nat (only parsing).

Section Cells.
Context `{T : Target}.

Definition required_cells_for_ty (ty : ValType) : Z :=
  match ty with
  | ValType_V128 => if feat_simd then 2 else 1
  | _ => 1
  end.

Definition required_cells_for_tys (tys : list ValType) : res TranslationError Z :=
  let len_cells := foldr Z.add 0 (required_cells_for_ty <$> tys) in
  ok_or (try_from_u 16 len_cells) SlotAccessOutOfBounds.

Lemma required_cells_bounds ty : 1 <= required_cells_for_ty ty <= 2.
Proof. unfold required_cells_for_ty. destruct ty, feat_simd; lia. Qed.
End Cells.

(** ** The registry of local types *)

Definition LOCAL_VARIABLES_MAX : Z := 30000.
Definition FIRST_TYS_MAX : Z := 100.

Record LocalGroup : Type := { max_index : Z; lg_ty : ValType }.

Record LocalsRegistry : Type := {
  tys_first : list ValType;
  tys_remaining : list LocalGroup;
  len_locals : Z
}.

Definition LocalsRegistry_default : LocalsRegistry :=
  {| tys_first := []; tys_remaining := []; len_locals := 0 |}.
Definition LocalsRegistry_reset (_ : LocalsRegistry) : LocalsRegistry := LocalsRegistry_default.

(** [slice::binary_search_by_key] on a slice with strictly ascending keys: the
    index with the key, or the index where it would be inserted. *)
Fixpoint binary_search_by_key {A} (b : Z) (key : A -> Z) (l : list A) : res nat nat :=
  match l with
  | [] => Err O
  | x :: l =>
      if key x =? b then Ok O
      else if b <? key x then Err O
      else match binary_search_by_key b key l with
           | Ok i => Ok (S i)
           | Err i => Err (S i)
           | Panic => Panic
           end
  end.

Section Registry.
Context `{T : Target}.

Definition LocalsRegistry_register (amount : Z) (ty : ValType) :
    M LocalsRegistry TranslationError unit := fun self =>
  if amount =? 0 then (Ok tt, self)
  else if LOCAL_VARIABLES_MAX <? saturating_add usize_bits (len_locals self) amount
  then (Err TooManyFunctionParams, self)
  else
    let vacant_first := saturating_sub FIRST_TYS_MAX (Z.of_nat (length (tys_first self))) in
    let push_to_first := Z.min vacant_first amount in
    let remaining_amount := amount - push_to_first in
    let remaining_index := wrapu 32 (len_locals self + amount - 1) in
    (Ok tt,
     {| tys_first := tys_first self ++ replicate (Z.to_nat push_to_first) ty;
        tys_remaining :=
          if 0 <? remaining_amount
          then tys_remaining self ++ [{| max_index := remaining_index; lg_ty := ty |}]
          else tys_remaining self;
        len_locals := len_locals self + amount |}).

Definition LocalsRegistry_ty_slow (self : LocalsRegistry) (index : LocalIdx) : option ValType :=
  match tys_remaining self with
  | [] => None
  | _ =>
      match binary_search_by_key (Z.of_nat index) max_index (tys_remaining self) with
      | Err i => if (i =? length (tys_remaining self))%nat then None
                 else lg_ty <$> tys_remaining self !! i
      | Ok i => lg_ty <$> tys_remaining self !! i
      | Panic => None
      end
  end.

Definition LocalsRegistry_ty {E} (self : LocalsRegistry) (index : LocalIdx) : res E ValType :=
  match tys_first self !! index with
  | Some ty => Ok ty
  | None => expect (LocalsRegistry_ty_slow self index)
  end.
End Registry.

(** ** The stack layout *)

Record StackLayout : Type := { local_offsets : list Z; min_temp_offset : Z }.

Definition StackLayout_default : StackLayout := {| local_offsets := []; min_temp_offset := 0 |}.
Definition StackLayout_reset (_ : StackLayout) : StackLayout := StackLayout_default.

Inductive StackSpace : Type := StackSpace_Local | StackSpace_Temp.

Section Layout.
Context `{T : Target}.

(** The loop of [register_locals]; [+=] on a [u16] panics on overflow. *)
Fixpoint StackLayout_push_locals (amount : nat) (cells_per_local : Z) :
    M StackLayout TranslationError unit :=
  match amount with
  | O => mret tt
  | S amount =>
      self ← get_st;
      new_offset ← lift (expect (checked_add 16 (min_temp_offset self) cells_per_local));
      put_st {| local_offsets := local_offsets self ++ [min_temp_offset self];
                min_temp_offset := new_offset |};;
      StackLayout_push_locals amount cells_per_local
  end.

Definition StackLayout_register_locals (amount : Z) (ty : ValType) :
    M StackLayout TranslationError unit :=
  let cells_per_local := required_cells_for_ty ty in
  delta_offset ← lift (ok_or (checked_mul usize_bits amount cells_per_local) AllocatedTooManySlots);
  self ← get_st;
  lift (ok_or (new_max ← checked_add usize_bits (min_temp_offset self) delta_offset;
               if new_max <=? 2 ^ 16 - 1 then Some new_max else None) AllocatedTooManySlots);;
  StackLayout_push_locals (Z.to_nat amount) cells_per_local.

Definition StackLayout_stack_space (self : StackLayout) (slot : Slot) : StackSpace :=
  if Slot_into slot <? min_temp_offset self then StackSpace_Local else StackSpace_Temp.

Definition StackLayout_local_to_slot (self : StackLayout) (index : LocalIdx) :
    res TranslationError Slot :=
  assert_that (index <? length (local_offsets self))%nat;;
  index ← ok_or (try_from_u 16 (Z.of_nat index)) AllocatedTooManySlots;
  offset ← expect (local_offsets self !! Z.to_nat index);
  Ok (Slot_from offset).
End Layout.

(** ** The heads of the lists of local operands *)

Notation LocalsHead := (list (option nat)) (only parsing).

Definition LocalsHead_register (amount : Z) (self : LocalsHead) : LocalsHead :=
  self ++ replicate (Z.to_nat amount) None.

(** [replace_first]: the old head; out of bounds indexing panics. *)
Definition LocalsHead_replace_first {E} (index : LocalIdx) (first_operand : option nat) :
    M LocalsHead E (option nat) := fun self =>
  match self !! index with
  | None => (Panic, self)
  | Some cell => (Ok cell, <[index := first_operand]> self)
  end.

(** ** Properties *)

Section RegistryProperties.
Context `{T : Target}.

(** The registry represents the types [tys] of the locals in order. *)
Definition registry_repr (r : LocalsRegistry) (tys : list ValType) : Prop :=
  len_locals r = Z.of_nat (length tys) /\
  len_locals r <= LOCAL_VARIABLES_MAX /\
  tys_first r = take (Z.to_nat FIRST_TYS_MAX) tys /\
  (forall i g, tys_remaining r !! i = Some g -> FIRST_TYS_MAX <= max_index g < len_locals r) /\
  (forall i j g h, (i < j)%nat -> tys_remaining r !! i = Some g -> tys_remaining r !! j = Some h ->
     max_index g < max_index h) /\
  (forall (k : nat) ty, FIRST_TYS_MAX <= Z.of_nat k -> tys !! k = Some ty ->
     exists i g, tys_remaining r !! i = Some g /\ Z.of_nat k <= max_index g /\ lg_ty g = ty /\
       (forall j h, (j < i)%nat -> tys_remaining r !! j = Some h -> max_index h < Z.of_nat k)).

(** The search finds the first group whose key is not below the target. *)
Lemma binary_search_first {A} (b : Z) (key : A -> Z) (l : list A) i g :
  l !! i = Some g -> b <= key g ->
  (forall j h, (j < i)%nat -> l !! j = Some h -> key h < b) ->
  binary_search_by_key b key l = if key g =? b then Ok i else Err i.
Proof.
  revert i. induction l as [|x l IH]; intros i Hg Hb Hlt; [done|]. cbn.
  destruct i as [|i].
  - injection Hg as ->. destruct (Z.eqb_spec (key g) b); [done|].
    by rewrite (proj2 (Z.ltb_lt _ _)) by lia.
  - pose proof (Hlt 0%nat x ltac:(lia) eq_refl). rewrite (proj2 (Z.eqb_neq _ _)) by lia.
    rewrite (proj2 (Z.ltb_ge _ _)) by lia.
    rewrite (IH i Hg Hb) by (intros j h ? ?; apply (Hlt (S j)); [lia|done]).
    by destruct (key g =? b).
Qed.

Lemma registry_repr_default : registry_repr LocalsRegistry_default [].
Proof. unfold registry_repr. cbn. split_and!; try done; intros; by simplify_eq. Qed.

Lemma LocalsRegistry_ty_repr {E} r tys (index : LocalIdx) ty :
  registry_repr r tys -> tys !! index = Some ty -> LocalsRegistry_ty (E := E) r index = Ok ty.
Proof.
  intros (Hlen & _ & Hfirst & _ & _ & Hrem) Hty. unfold LocalsRegistry_ty. rewrite Hfirst.
  unfold FIRST_TYS_MAX in *.
  destruct (decide (index < 100)%nat).
  - by rewrite lookup_take_lt, Hty by lia.
  - rewrite lookup_take_ge by lia. destruct (Hrem index ty ltac:(lia) Hty) as (i & g & Hg & Hle & <- & Hlt).
    unfold LocalsRegistry_ty_slow. rewrite (binary_search_first _ _ _ i g Hg Hle Hlt).
    pose proof (lookup_lt_Some _ _ _ Hg).
    destruct (tys_remaining r) as [|x l] eqn:E'; [done|]. rewrite <-E' in *.
    destruct (_ =? _); [by rewrite Hg|]. destruct (Nat.eqb_spec i (length (tys_remaining r))); [lia|].
    by rewrite Hg.
Qed.

Lemma replicate_app_Z {A} (a b : Z) (x : A) : 0 <= a -> 0 <= b ->
  replicate (Z.to_nat (a + b)) x = replicate (Z.to_nat a) x ++ replicate (Z.to_nat b) x.
Proof. intros. rewrite Z2Nat.inj_add by lia. apply replicate_add. Qed.

Lemma LocalsRegistry_register_eq r tys amount ty :
  registry_repr r tys -> 0 < amount -> len_locals r + amount <= LOCAL_VARIABLES_MAX ->
  exists r', LocalsRegistry_register amount ty r = (Ok tt, r') /\
  registry_repr r' (tys ++ replicate (Z.to_nat amount) ty).
Proof.
  intros (Hlen & Hmax & Hfirst & Hbnd & Hsort & Hrem) Ha Hle. pose proof usize_bits_bounds.
  unfold LocalsRegistry_register, LOCAL_VARIABLES_MAX, FIRST_TYS_MAX in *.
  rewrite (proj2 (Z.eqb_neq _ _)) by lia. unfold saturating_add.
  rewrite (proj2 (Z.ltb_ge _ _)) by lia. eexists. split; [done|].
  assert (Hl1 : Z.of_nat (length (tys_first r)) = Z.min 100 (len_locals r)).
  { rewrite Hfirst, length_take. lia. }
  rewrite Hl1. unfold saturating_sub. rewrite wrapu_small by (unfold in_u; lia).
  set (p := Z.min (Z.max (100 - Z.min 100 (len_locals r)) 0) amount).
  unfold registry_repr. cbn [len_locals tys_first tys_remaining].
  rewrite length_app, length_replicate. split; [lia|]. split; [unfold LOCAL_VARIABLES_MAX; lia|].
  split.
  { rewrite Hfirst. unfold FIRST_TYS_MAX. rewrite take_app. f_equal.
    rewrite take_replicate. f_equal. lia. }
  assert (Hnew : forall k t, (tys ++ replicate (Z.to_nat amount) ty) !! k = Some t ->
    tys !! k = Some t \/ (length tys <= k < length tys + Z.to_nat amount)%nat /\ t = ty).
  { intros k t [?|[? Hk]]%lookup_app_Some; [by left|right].
    apply lookup_replicate in Hk as [-> ?]. split; [lia|done]. }
  destruct (Z.ltb_spec 0 (amount - p)).
  - split_and!.
    + intros i g [Hi|[? Hi]]%lookup_app_Some; [specialize (Hbnd i g Hi); unfold FIRST_TYS_MAX in *; lia|].
      apply list_lookup_singleton_Some in Hi as [_ <-]. cbn. unfold FIRST_TYS_MAX. lia.
    + intros i j g h Hij [Hi|[? Hi]]%lookup_app_Some [Hj|[? Hj]]%lookup_app_Some.
      * by apply (Hsort i j).
      * apply list_lookup_singleton_Some in Hj as [_ <-]. cbn. specialize (Hbnd i g Hi). lia.
      * apply lookup_lt_Some in Hj. lia.
      * apply list_lookup_singleton_Some in Hi as [? _].
        apply list_lookup_singleton_Some in Hj as [? _]. lia.
    + intros k t Hk [Ht|[Hk' ->]]%Hnew.
      * destruct (Hrem k t Hk Ht) as (i & g & Hi & ? & ? & Hlt). exists i, g.
        split; [by apply lookup_app_l_Some|]. split_and!; try done.
        intros j h Hj Hh. apply (Hlt j h Hj). rewrite lookup_app_l in Hh; [done|].
        apply lookup_lt_Some in Hi. lia.
      * exists (length (tys_remaining r)), {| max_index := len_locals r + amount - 1; lg_ty := ty |}.
        rewrite lookup_app_r, Nat.sub_diag by lia. split_and!; try done; [cbn; lia|].
        intros j h Hj Hh. rewrite lookup_app_l in Hh by done. specialize (Hbnd j h Hh). lia.
  - split_and!; [|done|].
    + intros i g Hi. specialize (Hbnd i g Hi). lia.
    + intros k t Hk [Ht|[Hk' ->]]%Hnew; [by apply Hrem|]. exfalso.
      unfold FIRST_TYS_MAX in *. lia.
Qed.

(** *** All declarations of a function *)

(** The flat list of the types that the groups [(amount, ty)] declare. *)
Definition flat_tys (groups : list (Z * ValType)) : list ValType :=
  mjoin ((fun g => replicate (Z.to_nat g.1) g.2) <$> groups).

Fixpoint register_all (groups : list (Z * ValType)) : M LocalsRegistry TranslationError unit :=
  match groups with
  | [] => mret tt
  | (amount, ty) :: groups => LocalsRegistry_register amount ty;; register_all groups
  end.

Lemma flat_tys_cons amount ty groups :
  flat_tys ((amount, ty) :: groups) = replicate (Z.to_nat amount) ty ++ flat_tys groups.
Proof. done. Qed.

Lemma register_all_repr groups r tys :
  Forall (fun g : Z * ValType => 0 <= g.1) groups -> registry_repr r tys ->
  match register_all groups r with
  | (Ok _, r') => registry_repr r' (tys ++ flat_tys groups)
  | (Err e, _) => e = TooManyFunctionParams /\
                  LOCAL_VARIABLES_MAX < Z.of_nat (length (tys ++ flat_tys groups))
  | (Panic, _) => False
  end.
Proof.
  intros Hg. revert r tys. induction Hg as [|[amount ty] groups Ha Hg IH]; intros r tys Hr.
  { cbn. by rewrite app_nil_r. }
  cbn [register_all]. rewrite bind_run, flat_tys_cons. cbn in Ha.
  destruct (Z.eq_dec amount 0) as [->|Hne].
  { cbn. by apply IH. }
  destruct (Z.le_gt_cases (len_locals r + amount) LOCAL_VARIABLES_MAX).
  - destruct (LocalsRegistry_register_eq r tys amount ty Hr) as (r' & -> & Hr'); [lia|done|].
    rewrite app_assoc. by apply IH.
  - pose proof Hr as (Hlen & Hmax & _). pose proof usize_bits_bounds.
    unfold LocalsRegistry_register, LOCAL_VARIABLES_MAX, saturating_add in *.
    rewrite (proj2 (Z.eqb_neq _ _)) by lia. rewrite (proj2 (Z.ltb_lt 30000 _)) by lia.
    split; [done|]. rewrite !length_app, length_replicate. lia.
Qed.

(** Registering the groups of a function succeeds exactly when they declare at
    most 30000 locals; then the compressed registry answers for every index with
    the type the flat list of declarations has there. *)
Theorem LocalsRegistry_spec groups :
  Forall (fun g : Z * ValType => 0 <= g.1) groups ->
  match register_all groups LocalsRegistry_default with
  | (Ok _, r) =>
      Z.of_nat (length (flat_tys groups)) <= LOCAL_VARIABLES_MAX /\
      len_locals r = Z.of_nat (length (flat_tys groups)) /\
      forall index : LocalIdx, LocalsRegistry_ty (E := TranslationError) r index =
        match flat_tys groups !! index with Some ty => Ok ty | None => Panic end
  | (Err e, _) => e = TooManyFunctionParams /\
                  LOCAL_VARIABLES_MAX < Z.of_nat (length (flat_tys groups))
  | (Panic, _) => False
  end.
Proof.
  intros Hg. pose proof (register_all_repr groups _ _ Hg registry_repr_default) as H.
  destruct (register_all _ _) as [[[]|e|] r]; [|done..]. cbn [app] in H.
  pose proof H as (Hlen & Hmax & Hfirst & Hbnd & Hsort & Hrem).
  split; [by rewrite <-Hlen|]. split; [done|]. intros index.
  destruct (flat_tys groups !! index) as [ty|] eqn:E.
  { by apply (LocalsRegistry_ty_repr r (flat_tys groups)). }
  apply lookup_ge_None in E. unfold LocalsRegistry_ty.
  rewrite lookup_ge_None_2 by (rewrite Hfirst, length_take; lia).
  unfold LocalsRegistry_ty_slow.
  assert (Hs : forall l : list LocalGroup, (forall j h, l !! j = Some h -> max_index h < Z.of_nat index) ->
    binary_search_by_key (Z.of_nat index) max_index l = Err (length l)).
  { induction l as [|x l IH]; intros Hl; [done|]. cbn. pose proof (Hl 0%nat x eq_refl).
    rewrite (proj2 (Z.eqb_neq _ _)), (proj2 (Z.ltb_ge _ _)) by lia.
    by rewrite IH by (intros j h ?; by apply (Hl (S j))). }
  rewrite Hs by (intros j h Hj; specialize (Hbnd j h Hj); lia).
  rewrite Nat.eqb_refl. by destruct (tys_remaining r).
Qed.

(** *** The layout *)

Definition cells_sum (tys : list ValType) : Z := foldr Z.add 0 (required_cells_for_ty <$> tys).

Lemma cells_sum_app a b : cells_sum (a ++ b) = cells_sum a + cells_sum b.
Proof. unfold cells_sum. induction a as [|x a IH]; cbn in *; lia. Qed.

Lemma cells_sum_nonneg tys : 0 <= cells_sum tys.
Proof.
  unfold cells_sum. induction tys as [|ty tys IH]; cbn; [lia|].
  pose proof (required_cells_bounds ty). lia.
Qed.

Lemma cells_sum_split k ty tys : tys !! k = Some ty ->
  cells_sum tys = cells_sum (take k tys) + required_cells_for_ty ty + cells_sum (drop (S k) tys).
Proof.
  intros H. rewrite <-(take_drop_middle tys k ty H) at 1. rewrite cells_sum_app.
  unfold cells_sum at 2. cbn. fold (cells_sum (drop (S k) tys)). lia.
Qed.

(** Each local starts after the cells of the locals before it. *)
Definition layout_repr (l : StackLayout) (tys : list ValType) : Prop :=
  local_offsets l = (fun k => cells_sum (take k tys)) <$> seq 0 (length tys) /\
  min_temp_offset l = cells_sum tys /\ cells_sum tys < 2 ^ 16.

Lemma layout_repr_default : layout_repr StackLayout_default [].
Proof. by split. Qed.

Lemma StackLayout_push_locals_eq n ty l tys :
  layout_repr l tys -> cells_sum (tys ++ replicate n ty) < 2 ^ 16 ->
  exists l', StackLayout_push_locals n (required_cells_for_ty ty) l = (Ok tt, l') /\
  layout_repr l' (tys ++ replicate n ty).
Proof.
  revert l tys. induction n as [|n IH]; intros l tys Hl Hsum.
  { exists l. cbn. by rewrite app_nil_r. }
  cbn [StackLayout_push_locals replicate] in *. rewrite bind_get_st, bind_lift.
  pose proof Hl as (Hoff & Hmin & Hlt).
  assert (Hs : cells_sum (tys ++ ty :: replicate n ty) =
    cells_sum tys + required_cells_for_ty ty + cells_sum (replicate n ty)).
  { rewrite cells_sum_app. unfold cells_sum at 2. cbn. unfold cells_sum. lia. }
  pose proof (cells_sum_nonneg (replicate n ty)). rewrite Hs in Hsum.
  unfold checked_add. rewrite Hmin, (proj2 (Z.ltb_lt _ _)) by lia. cbn [expect].
  rewrite bind_run. cbn [put_st].
  destruct (IH {| local_offsets := local_offsets l ++ [cells_sum tys];
      min_temp_offset := cells_sum tys + required_cells_for_ty ty |} (tys ++ [ty])) as (l' & El & Hl').
  - assert (Hs1 : cells_sum (tys ++ [ty]) = cells_sum tys + required_cells_for_ty ty).
    { rewrite cells_sum_app. unfold cells_sum. cbn. lia. }
    split_and!; cbn [local_offsets min_temp_offset]; [|done|lia].
    rewrite length_app, Nat.add_1_r, seq_S, fmap_app, Hoff. f_equal.
    + apply list_fmap_ext. intros i k [-> ?]%lookup_seq. f_equal. symmetry. apply take_app_le. lia.
    + cbn. by rewrite take_app_length.
  - rewrite <-app_assoc. cbn [app]. lia.
  - exists l'. split; [done|]. by rewrite <-app_assoc in Hl'.
Qed.

(** Registering locals extends the layout by their cells; when the cells do not
    fit a [u16] it is an error that changes nothing.  Every local then gets a
    slot of its own in front of the temporaries: the cells of two locals do not
    overlap and [stack_space] tells them from temporaries. *)
Theorem StackLayout_spec l tys amount ty :
  layout_repr l tys -> 0 <= amount -> cells_sum tys + amount * required_cells_for_ty ty < 2 ^ usize_bits ->
  let '(r, l') := StackLayout_register_locals amount ty l in
  match r with
  | Ok _ =>
      layout_repr l' (tys ++ replicate (Z.to_nat amount) ty) /\
      (forall (i j : LocalIdx) ti, (i < j < length tys + Z.to_nat amount)%nat ->
         (tys ++ replicate (Z.to_nat amount) ty) !! i = Some ti ->
         exists si sj, StackLayout_local_to_slot l' i = Ok (Slot_from si) /\
           StackLayout_local_to_slot l' j = Ok (Slot_from sj) /\
           0 <= si /\ si + required_cells_for_ty ti <= sj < min_temp_offset l' /\
           StackLayout_stack_space l' (Slot_from sj) = StackSpace_Local)
  | Err e => e = AllocatedTooManySlots /\ l' = l /\
             2 ^ 16 <= cells_sum tys + amount * required_cells_for_ty ty
  | Panic => False
  end.
Proof.
  intros Hl Ha Hfit. pose proof Hl as (Hoff & Hmin & Hlt). pose proof (required_cells_bounds ty).
  pose proof usize_bits_bounds. pose proof (cells_sum_nonneg tys).
  unfold StackLayout_register_locals. rewrite bind_lift. unfold checked_mul.
  rewrite (proj2 (Z.ltb_lt _ _)) by lia. cbn [ok_or]. rewrite bind_get_st, bind_lift.
  unfold checked_add. rewrite Hmin, (proj2 (Z.ltb_lt _ _)) by lia. cbn [mbind option_bind].
  destruct (Z.leb_spec (cells_sum tys + amount * required_cells_for_ty ty) (2 ^ 16 - 1)); cbn [ok_or].
  2: { split_and!; [done|done|lia]. }
  assert (Hsum : forall n, cells_sum (replicate n ty) = Z.of_nat n * required_cells_for_ty ty).
  { intros n. unfold cells_sum. induction n as [|n IH]; [done|]. cbn in *. lia. }
  destruct (StackLayout_push_locals_eq (Z.to_nat amount) ty l tys Hl) as (l' & -> & Hl').
  { rewrite cells_sum_app, Hsum. lia. }
  split; [done|]. destruct Hl' as (Hoff' & Hmin' & Hlt').
  set (all := tys ++ replicate (Z.to_nat amount) ty) in *.
  assert (Hall : length all = (length tys + Z.to_nat amount)%nat).
  { subst all. by rewrite length_app, length_replicate. }
  assert (Hcells : forall a b, cells_sum (a ++ b) = cells_sum a + cells_sum b) by apply cells_sum_app.
  assert (Hlen : Z.of_nat (length all) <= cells_sum all).
  { clear. unfold cells_sum. induction all as [|x a IH]; cbn in *; [lia|].
    pose proof (required_cells_bounds x). lia. }
  assert (Hslot : forall k, (k < length all)%nat ->
    StackLayout_local_to_slot l' k = Ok (Slot_from (cells_sum (take k all)))).
  { intros k Hk. unfold StackLayout_local_to_slot. rewrite Hoff', length_fmap, length_seq.
    rewrite (proj2 (Nat.ltb_lt _ _)) by done. unfold try_from_u.
    rewrite (proj2 (Z.ltb_lt _ _)) by lia. cbn. rewrite Nat2Z.id, list_lookup_fmap.
    by rewrite lookup_seq_lt by done. }
  intros i j ti Hij Hti. exists (cells_sum (take i all)), (cells_sum (take j all)).
  split; [apply Hslot; lia|]. split; [apply Hslot; lia|].
  split; [apply cells_sum_nonneg|].
  assert (Hj : cells_sum (take j all) = cells_sum (take i all) + required_cells_for_ty ti
    + cells_sum (drop (S i) (take j all))).
  { rewrite (cells_sum_split i ti) by (by rewrite lookup_take_lt by lia).
    by rewrite take_take, Nat.min_l by lia. }
  destruct (lookup_lt_is_Some_2 all j ltac:(lia)) as [tj Htj].
  pose proof (cells_sum_split j tj all Htj) as Hlast.
  pose proof (cells_sum_nonneg (drop (S j) all)).
  pose proof (required_cells_bounds tj). pose proof (cells_sum_nonneg (drop (S i) (take j all))).
  pose proof (cells_sum_nonneg (take j all)).
  split; [lia|]. unfold StackLayout_stack_space.
  rewrite Slot_into_from by (unfold in_u; lia). rewrite (proj2 (Z.ltb_lt _ _)) by lia. done.
Qed.
End RegistryProperties.

(** ** Witnesses *)

Lemma LocalsRegistry_spec_witness :
  let T := default_target in
  exists r, register_all [(99, ValType_I32); (4, ValType_I64); (2, ValType_F32)] LocalsRegistry_default
    = (Ok tt, r) /\
  LocalsRegistry_ty (E := TranslationError) r 102 = Ok ValType_I64 /\
  LocalsRegistry_ty (E := TranslationError) r 105 = Panic.
Proof.
  intros T.
  pose proof (LocalsRegistry_spec (T := T) [(99, ValType_I32); (4, ValType_I64); (2, ValType_F32)]
    ltac:(repeat constructor; cbn; lia)) as H.
  eexists. split; [reflexivity|]. destruct H as (_ & _ & H). split; [exact (H 102%nat)|exact (H 105%nat)].
Defined.

Lemma StackLayout_spec_witness :
  let T := default_target in
  exists l', StackLayout_register_locals 3 ValType_I32 StackLayout_default = (Ok tt, l') /\
  layout_repr l' [ValType_I32; ValType_I32; ValType_I32].
Proof.
  intros T. pose proof (StackLayout_spec (T := T) StackLayout_default [] 3 ValType_I32
    layout_repr_default ltac:(lia) ltac:(vm_compute; reflexivity)) as H.
  eexists. split; [reflexivity|]. exact (proj1 H).
Defined.
