(* ===== verification/Operands.v ===== *)
(** * The operand stack of the translator

    [crates/wasmi/src/engine/translator/func/stack/operand.rs] and
    [operands.rs]: the emulated Wasm stack of a function under translation, with
    the doubly linked lists that thread all uses of each local through the
    stack, the register links and the offsets of the temporaries. *)

From Stdlib Require Import ZArith Lia.
From stdpp Require Import base option decidable numbers list.
From S2P Require Import Prelude Value Slot Locals.
Local Open Scope Z_scope.

(** ** Data

    A [StackPos] is a non-zero [usize] that stores the index plus one; it is
    modelled by the index. *)
Notation StackPos := nat (only parsing).

Inductive StackOperand : Type :=
| SO_Local (temp_slots : SlotSpan) (ty : ValType) (local_index : LocalIdx)
    (prev_local next_local : option StackPos)
| SO_Temp (temp_slots : SlotSpan) (ty : ValType) (in_reg : bool)
| SO_Immediate (temp_slots : SlotSpan) (ty : ValType) (val : RawVal).

Definition StackOperand_ty (self : StackOperand) : ValType :=
  match self with
  | SO_Local _ ty _ _ _ | SO_Temp _ ty _ | SO_Immediate _ ty _ => ty
  end.

Definition StackOperand_temp_slots (self : StackOperand) : SlotSpan :=
  match self with
  | SO_Local temp_slots _ _ _ _ | SO_Temp temp_slots _ _ | SO_Immediate temp_slots _ _ => temp_slots
  end.

Inductive Allocation : Type := Allocation_None | Allocation_Reg.
Definition Allocation_is_reg (self : Allocation) : bool :=
  match self with Allocation_Reg => true | Allocation_None => false end.

Record LocalOperand : Type := {
  lo_temp_slots : SlotSpan; lo_ty : ValType; lo_in_reg : bool; lo_local_index : LocalIdx
}.
Record TempOperand : Type := {
  to_temp_slots : SlotSpan; to_ty : ValType; to_stack_pos : StackPos; to_in_reg : bool
}.
Record ImmediateOperand : Type := { io_temp_slots : SlotSpan; io_ty : ValType; io_val : RawVal }.

Inductive Operand : Type :=
| Operand_Local (operand : LocalOperand)
| Operand_Temp (operand : TempOperand)
| Operand_Immediate (operand : ImmediateOperand).

Definition Operand_new (stack_pos : StackPos) (operand : StackOperand) (in_reg : bool) : Operand :=
  match operand with
  | SO_Temp temp_slots ty in_reg =>
      Operand_Temp {| to_temp_slots := temp_slots; to_ty := ty; to_stack_pos := stack_pos;
                      to_in_reg := in_reg |}
  | SO_Local temp_slots ty local_index _ _ =>
      Operand_Local {| lo_temp_slots := temp_slots; lo_ty := ty; lo_in_reg := in_reg;
                       lo_local_index := local_index |}
  | SO_Immediate temp_slots ty val =>
      Operand_Immediate {| io_temp_slots := temp_slots; io_ty := ty; io_val := val |}
  end.

Definition ImmediateOperand_val (self : ImmediateOperand) : TypedRawVal :=
  TypedRawVal_new (io_ty self) (io_val self).

Definition TempOperand_alloc (self : TempOperand) : Allocation :=
  if to_in_reg self then Allocation_Reg else Allocation_None.

Definition Operand_ty (self : Operand) : ValType :=
  match self with
  | Operand_Local o => lo_ty o
  | Operand_Temp o => to_ty o
  | Operand_Immediate o => io_ty o
  end.

Definition Operand_in_reg (self : Operand) : bool :=
  match self with
  | Operand_Local o => lo_in_reg o
  | Operand_Temp o => to_in_reg o
  | Operand_Immediate _ => false
  end.

Definition Operand_span (self : Operand) : SlotSpan :=
  match self with
  | Operand_Local o => lo_temp_slots o
  | Operand_Temp o => to_temp_slots o
  | Operand_Immediate o => io_temp_slots o
  end.

(** [temp_slots()]: the span with the cells of the type. *)
Definition Operand_temp_slots `{Target} (self : Operand) : BoundedSlotSpan :=
  {| bspan := Operand_span self; bspan_len := required_cells_for_ty (Operand_ty self) |}.

Definition Operand_is_same (self other : Operand) : bool :=
  match self, other with
  | Operand_Local lhs, Operand_Local rhs => (lo_local_index lhs =? lo_local_index rhs)%nat
  | Operand_Temp lhs, Operand_Temp rhs => (to_stack_pos lhs =? to_stack_pos rhs)%nat
  | Operand_Immediate lhs, Operand_Immediate rhs =>
      bool_decide (io_ty lhs = io_ty rhs) && bool_decide (io_val lhs = io_val rhs)
  | _, _ => false
  end.

Inductive ResolvedOperand (A : Type) : Type :=
| Resolved_Reg (ty : ValType)
| Resolved_Slot (slot : Slot)
| Resolved_Immediate (value : A).
Arguments Resolved_Reg {A}. Arguments Resolved_Slot {A}. Arguments Resolved_Immediate {A}.

Definition ResolvedOperand_sort {A} (a b : ResolvedOperand A) :
    ResolvedOperand A * ResolvedOperand A :=
  match a, b with
  | Resolved_Slot _, Resolved_Reg _
  | Resolved_Immediate _, Resolved_Reg _
  | Resolved_Immediate _, Resolved_Slot _ => (b, a)
  | _, _ => (a, b)
  end.

Definition Operand_resolve `{Target} (self : Operand) (layout : StackLayout) :
    res TranslationError (ResolvedOperand TypedRawVal) :=
  match self with
  | Operand_Local o =>
      if lo_in_reg o then Ok (Resolved_Reg (lo_ty o))
      else Resolved_Slot <$> StackLayout_local_to_slot layout (lo_local_index o)
  | Operand_Temp o =>
      if to_in_reg o then Ok (Resolved_Reg (to_ty o))
      else Ok (Resolved_Slot (span_head (to_temp_slots o)))
  | Operand_Immediate o => Ok (Resolved_Immediate (ImmediateOperand_val o))
  end.

(** ** Registers *)

Inductive RegisterLink : Type := Link_Temp (pos : StackPos) | Link_Local (index : LocalIdx).

#[export] Instance RegisterLink_eq_dec : EqDecision RegisterLink.
Proof. solve_decision. Defined.

Record RegisterMap : Type := {
  ireg : option RegisterLink; freg32 : option RegisterLink; freg64 : option RegisterLink
}.

Definition RegisterMap_default : RegisterMap := {| ireg := None; freg32 := None; freg64 := None |}.

(** Writing through [get_mut(ty)]; there is no register for vectors. *)
Definition RegisterMap_set {E} (ty : ValType) (link : option RegisterLink) :
    M RegisterMap E unit := fun self =>
  match ty with
  | ValType_I32 | ValType_FuncRef | ValType_ExternRef | ValType_I64 =>
      (Ok tt, {| ireg := link; freg32 := freg32 self; freg64 := freg64 self |})
  | ValType_F32 => (Ok tt, {| ireg := ireg self; freg32 := link; freg64 := freg64 self |})
  | ValType_F64 => (Ok tt, {| ireg := ireg self; freg32 := freg32 self; freg64 := link |})
  | ValType_V128 => (Panic, self)
  end.

Definition RegisterMap_get (self : RegisterMap) (ty : ValType) : option RegisterLink :=
  match ty with
  | ValType_I32 | ValType_FuncRef | ValType_ExternRef | ValType_I64 => ireg self
  | ValType_F32 => freg32 self
  | ValType_F64 => freg64 self
  | ValType_V128 => None
  end.

Definition RegisterMap_alloc {E} (ty : ValType) (link : RegisterLink) :
    M RegisterMap E (option RegisterLink) :=
  self ← get_st;
  RegisterMap_set ty (Some link);;
  mret (RegisterMap_get self ty).

Definition RegisterMap_dealloc {E} (ty : ValType) : M RegisterMap E (option RegisterLink) :=
  self ← get_st;
  RegisterMap_set ty None;;
  mret (RegisterMap_get self ty).

Definition RegisterMap_dealloc_temp {E} (ty : ValType) (skip_threshold : nat) :
    M RegisterMap E (option StackPos) := fun self =>
  match ty with
  | ValType_V128 => (Panic, self)
  | _ =>
      match RegisterMap_get self ty with
      | Some (Link_Temp pos) =>
          if (skip_threshold <=? pos)%nat then (Ok None, self)
          else (RegisterMap_set ty None;; mret (Some pos)) self
      | _ => (Ok None, self)
      end
  end.

Definition is_local_in_reg (self : RegisterMap) (ty : ValType) (local_index : LocalIdx) : bool :=
  match RegisterMap_get self ty with
  | Some (Link_Local index) => (index =? local_index)%nat
  | _ => false
  end.

Definition is_local_in_any_reg (self : RegisterMap) (local_index : LocalIdx) : bool :=
  is_local_in_reg self ValType_I64 local_index ||
  is_local_in_reg self ValType_F32 local_index ||
  is_local_in_reg self ValType_F64 local_index.

Definition RegisterMap_wrap_operand (self : RegisterMap) (pos : StackPos) (operand : StackOperand) :
    Operand :=
  let in_reg := match operand with
                | SO_Local _ ty local_index _ _ => is_local_in_reg self ty local_index
                | _ => false
                end in
  Operand_new pos operand in_reg.

Definition take_if_local (link : option RegisterLink) : option RegisterLink :=
  match link with Some (Link_Local _) => None | _ => link end.

Definition RegisterMap_discard_local_regs (self : RegisterMap) : RegisterMap :=
  {| ireg := take_if_local (ireg self); freg32 := take_if_local (freg32 self);
     freg64 := take_if_local (freg64 self) |}.

(** ** The stack *)

Record OperandStack : Type := {
  operands : list StackOperand;
  local_heads : LocalsHead;
  os_len_locals : nat;
  local_slots : Z;
  temp_offset : Z;
  max_offset : Z;
  regs : RegisterMap
}.

Definition OperandStack_default : OperandStack := {|
  operands := []; local_heads := []; os_len_locals := 0; local_slots := 0; temp_offset := 0;
  max_offset := 0; regs := RegisterMap_default
|}.
Definition OperandStack_reset (_ : OperandStack) : OperandStack := OperandStack_default.

Definition set_operands (l : list StackOperand) (s : OperandStack) : OperandStack :=
  {| operands := l; local_heads := local_heads s; os_len_locals := os_len_locals s;
     local_slots := local_slots s; temp_offset := temp_offset s; max_offset := max_offset s;
     regs := regs s |}.
Definition set_local_heads (h : LocalsHead) (s : OperandStack) : OperandStack :=
  {| operands := operands s; local_heads := h; os_len_locals := os_len_locals s;
     local_slots := local_slots s; temp_offset := temp_offset s; max_offset := max_offset s;
     regs := regs s |}.
Definition set_len_locals (n : nat) (s : OperandStack) : OperandStack :=
  {| operands := operands s; local_heads := local_heads s; os_len_locals := n;
     local_slots := local_slots s; temp_offset := temp_offset s; max_offset := max_offset s;
     regs := regs s |}.
Definition set_slots (locals temp max : Z) (s : OperandStack) : OperandStack :=
  {| operands := operands s; local_heads := local_heads s; os_len_locals := os_len_locals s;
     local_slots := locals; temp_offset := temp; max_offset := max; regs := regs s |}.
Definition set_regs (r : RegisterMap) (s : OperandStack) : OperandStack :=
  {| operands := operands s; local_heads := local_heads s; os_len_locals := os_len_locals s;
     local_slots := local_slots s; temp_offset := temp_offset s; max_offset := max_offset s;
     regs := r |}.

Definition with_heads {A} (m : M LocalsHead TranslationError A) : M OperandStack TranslationError A :=
  zoom local_heads set_local_heads id m.
Definition with_regs {A} (m : M RegisterMap TranslationError A) : M OperandStack TranslationError A :=
  zoom regs set_regs id m.

Section Stack.
Context `{T : Target}.

Definition push_local_slots (delta : Z) : M OperandStack TranslationError unit :=
  self ← get_st;
  assert_m (local_slots self =? max_offset self);;
  new_value ← lift (ok_or (checked_add 16 (local_slots self) delta) AllocatedTooManySlots);
  put_st (set_slots new_value new_value (Z.max (max_offset self) new_value) self).

Definition OperandStack_register_locals (amount : Z) (ty : ValType) :
    M OperandStack TranslationError unit :=
  self ← get_st;
  put_st (set_local_heads (LocalsHead_register amount (local_heads self)) self);;
  let cells_per_item := required_cells_for_ty ty in
  amount ← lift (ok_or (try_from_u 16 amount) TooManyLocalVariables);
  required_cells ← lift (ok_or (checked_mul 16 amount cells_per_item) AllocatedTooManySlots);
  push_local_slots required_cells.

Definition register_local_for_reg (ty : ValType) (local_index : LocalIdx) :
    M OperandStack TranslationError unit :=
  match ty with
  | ValType_V128 => mret tt
  | _ => with_regs (RegisterMap_alloc ty (Link_Local local_index));; mret tt
  end.

Definition dealloc_local_for_reg (ty : ValType) (local_index : LocalIdx) :
    M OperandStack TranslationError unit :=
  match ty with
  | ValType_V128 => mret tt
  | _ =>
      self ← get_st;
      if is_local_in_any_reg (regs self) local_index
      then with_regs (RegisterMap_dealloc ty);; mret tt else mret tt
  end.

Definition push_temp_offset (delta : Z) : M OperandStack TranslationError SlotSpan :=
  self ← get_st;
  let old_offset := temp_offset self in
  new_value ← lift (ok_or (checked_add 16 old_offset delta) AllocatedTooManySlots);
  put_st (set_slots (local_slots self) new_value (Z.max (max_offset self) new_value) self);;
  mret {| span_head := Slot_from old_offset |}.

Definition pop_temp_offset (delta : Z) : M OperandStack TranslationError unit :=
  delta ← lift (ok_or (try_from_u 16 delta) AllocatedTooManySlots);
  self ← get_st;
  new_value ← lift (expect (checked_sub (temp_offset self) delta));
  put_st (set_slots (local_slots self) new_value (max_offset self) self).

Definition OperandStack_height (self : OperandStack) : nat := length (operands self).
Definition next_temp_slots (self : OperandStack) : SlotSpan :=
  {| span_head := Slot_from (temp_offset self) |}.
Definition max_stack_offset (self : OperandStack) : Z := max_offset self.
Definition next_stack_pos (self : OperandStack) : StackPos := length (operands self).

(** The subtractions are on [usize]. *)
Definition depth_to_stack_pos {E} (self : OperandStack) (depth : nat) : res E StackPos :=
  if (depth + 1 <=? OperandStack_height self)%nat
  then Ok (OperandStack_height self - depth - 1)%nat else Panic.

Definition get_at {E} (self : OperandStack) (pos : StackPos) : res E StackOperand :=
  expect (operands self !! pos).

Definition OperandStack_get {E} (self : OperandStack) (depth : nat) : res E Operand :=
  stack_pos ← depth_to_stack_pos self depth;
  operand ← get_at self stack_pos;
  Ok (RegisterMap_wrap_operand (regs self) stack_pos operand).

(** All operands that the iterator of [peek(n)] yields. *)
Definition OperandStack_peek {E} (self : OperandStack) (n : nat) : res E (list Operand) :=
  if (n <=? length (operands self))%nat then
    let first_index := (length (operands self) - n)%nat in
    Ok (imap (fun i o => RegisterMap_wrap_operand (regs self) (first_index + i) o)
             (drop first_index (operands self)))
  else Panic.

(** *** Links *)

Definition update_prev_local (local_pos : StackPos) (prev_pos : option StackPos) :
    M OperandStack TranslationError unit := fun self =>
  match operands self !! local_pos with
  | Some (SO_Local temp_slots ty local_index _ next_local) =>
      (Ok tt, set_operands (<[local_pos := SO_Local temp_slots ty local_index prev_pos next_local]>
                              (operands self)) self)
  | _ => (Panic, self)
  end.

Definition update_next_local (local_pos : StackPos) (next_pos : option StackPos) :
    M OperandStack TranslationError unit := fun self =>
  match operands self !! local_pos with
  | Some (SO_Local temp_slots ty local_index prev_local _) =>
      (Ok tt, set_operands (<[local_pos := SO_Local temp_slots ty local_index prev_local next_pos]>
                              (operands self)) self)
  | _ => (Panic, self)
  end.

Definition when_some {S E A} (o : option A) (f : A -> M S E unit) : M S E unit :=
  match o with Some a => f a | None => mret tt end.

Definition unlink_local (local_index : LocalIdx) (prev_local next_local : option StackPos) :
    M OperandStack TranslationError unit :=
  match prev_local with
  | Some prev_local => update_next_local prev_local next_local
  | None => with_heads (LocalsHead_replace_first local_index next_local);; mret tt
  end;;
  when_some next_local (fun next_local => update_prev_local next_local prev_local);;
  self ← get_st;
  len_locals ← lift (expect (match os_len_locals self with S n => Some n | O => None end));
  put_st (set_len_locals len_locals self).

Definition try_unlink_local (operand : StackOperand) : M OperandStack TranslationError unit :=
  match operand with
  | SO_Local _ _ local_index prev_local next_local => unlink_local local_index prev_local next_local
  | _ => mret tt
  end.

Definition try_unlink_reg (operand : StackOperand) :
    M OperandStack TranslationError (option StackPos) :=
  match operand with
  | SO_Temp _ ty true =>
      link ← with_regs (RegisterMap_dealloc ty);
      mret (match link with Some (Link_Temp stack_pos) => Some stack_pos | _ => None end)
  | _ => mret None
  end.

Definition alloc_reg (link : RegisterLink) (ty : ValType) : M OperandStack TranslationError unit :=
  prev_link ← with_regs (RegisterMap_alloc ty link);
  assert_m (match prev_link with None => true | Some _ => false end).

(** *** Pushing and popping *)

Definition push_back (o : StackOperand) : M OperandStack TranslationError unit :=
  self ← get_st; put_st (set_operands (operands self ++ [o]) self).

Definition push_local (local_index : LocalIdx) (ty : ValType) :
    M OperandStack TranslationError LocalOperand :=
  self ← get_st;
  let stack_pos := next_stack_pos self in
  next_local ← with_heads (LocalsHead_replace_first local_index (Some stack_pos));
  when_some next_local (fun next_local => update_prev_local next_local (Some stack_pos));;
  temp_slots ← push_temp_offset (required_cells_for_ty ty);
  push_back (SO_Local temp_slots ty local_index None next_local);;
  self ← get_st;
  put_st (set_len_locals (S (os_len_locals self)) self);;
  let in_reg := is_local_in_reg (regs self) ty local_index in
  mret {| lo_temp_slots := temp_slots; lo_ty := ty; lo_in_reg := in_reg; lo_local_index := local_index |}.

Definition push_temp (ty : ValType) (alloc : Allocation) : M OperandStack TranslationError TempOperand :=
  self ← get_st;
  let stack_pos := next_stack_pos self in
  (if Allocation_is_reg alloc then alloc_reg (Link_Temp stack_pos) ty else mret tt);;
  temp_slots ← push_temp_offset (required_cells_for_ty ty);
  let in_reg := Allocation_is_reg alloc in
  push_back (SO_Temp temp_slots ty in_reg);;
  mret {| to_temp_slots := temp_slots; to_ty := ty; to_stack_pos := stack_pos; to_in_reg := in_reg |}.

Definition push_immediate (value : TypedRawVal) : M OperandStack TranslationError ImmediateOperand :=
  let ty := typed_ty value in
  let val := typed_value value in
  temp_slots ← push_temp_offset (required_cells_for_ty ty);
  push_back (SO_Immediate temp_slots ty val);;
  mret {| io_temp_slots := temp_slots; io_ty := ty; io_val := val |}.

Definition push_operand (operand : Operand) : M OperandStack TranslationError Operand :=
  match operand with
  | Operand_Local op => o ← push_local (lo_local_index op) (lo_ty op); mret (Operand_Local o)
  | Operand_Temp op => o ← push_temp (to_ty op) (TempOperand_alloc op); mret (Operand_Temp o)
  | Operand_Immediate op => o ← push_immediate (ImmediateOperand_val op); mret (Operand_Immediate o)
  end.

Definition OperandStack_pop : M OperandStack TranslationError Operand :=
  self ← get_st;
  operand ← lift (expect (last (operands self)));
  put_st (set_operands (removelast (operands self)) self);;
  (fun s => match pop_temp_offset (required_cells_for_ty (StackOperand_ty operand)) s with
            | (Err _, s) => (Panic, s)
            | r => r
            end);;
  self ← get_st;
  let stack_pos := next_stack_pos self in
  try_unlink_local operand;;
  reg_pos ← try_unlink_reg operand;
  assert_m (match reg_pos with Some reg_pos => (stack_pos =? reg_pos)%nat | None => true end);;
  self ← get_st;
  mret (RegisterMap_wrap_operand (regs self) stack_pos operand).

(** *** Conversion to temporaries *)

Definition operand_to_temp_at (index : StackPos) : M OperandStack TranslationError StackOperand :=
  self ← get_st;
  operand ← lift (get_at self index);
  let temp_slots := StackOperand_temp_slots operand in
  let ty := StackOperand_ty operand in
  try_unlink_local operand;;
  try_unlink_reg operand;;
  self ← get_st;
  put_st (set_operands (<[index := SO_Temp temp_slots ty false]> (operands self)) self);;
  mret operand.

Definition operand_to_temp (depth : nat) : M OperandStack TranslationError Operand :=
  self ← get_st;
  pos ← lift (depth_to_stack_pos self depth);
  opd ← operand_to_temp_at pos;
  mret (Operand_new pos opd false).

Definition preserve_local_at (pos : StackPos) : M OperandStack TranslationError StackOperand :=
  self ← get_st;
  operand ← lift (get_at self pos);
  match operand with
  | SO_Local temp_slots ty local_index prev_local next_local =>
      unlink_local local_index prev_local next_local;;
      self ← get_st;
      put_st (set_operands (<[pos := SO_Temp temp_slots ty false]> (operands self)) self);;
      mret operand
  | _ => panic
  end.

Definition dealloc_reg (ty : ValType) : M OperandStack TranslationError (option TempOperand) :=
  link ← with_regs (RegisterMap_dealloc ty);
  match link with
  | Some (Link_Temp pos) =>
      self ← get_st;
      operand ← lift (get_at self pos);
      match operand with
      | SO_Temp temp_slots ty in_reg =>
          put_st (set_operands (<[pos := SO_Temp temp_slots ty false]> (operands self)) self);;
          mret (Some {| to_temp_slots := temp_slots; to_ty := ty; to_stack_pos := pos;
                        to_in_reg := in_reg |})
      | _ => panic
      end
  | _ => mret None
  end.

(** *** Preserving the uses of one local *)

Record PreservedLocalsIter : Type := { pl_stack_pos : option StackPos; pl_in_reg : bool }.

Definition preserve_locals (local_index : LocalIdx) :
    M OperandStack TranslationError PreservedLocalsIter :=
  stack_pos ← with_heads (LocalsHead_replace_first local_index None);
  self ← get_st;
  mret {| pl_stack_pos := stack_pos; pl_in_reg := is_local_in_any_reg (regs self) local_index |}.

Definition PreservedLocalsIter_next (it : PreservedLocalsIter) :
    M OperandStack TranslationError (option (LocalOperand * PreservedLocalsIter)) :=
  match pl_stack_pos it with
  | None => mret None
  | Some stack_pos =>
      operand ← preserve_local_at stack_pos;
      match operand with
      | SO_Local temp_slots ty local_index _ next_local =>
          mret (Some ({| lo_temp_slots := temp_slots; lo_ty := ty; lo_in_reg := pl_in_reg it;
                         lo_local_index := local_index |},
                      {| pl_stack_pos := next_local; pl_in_reg := pl_in_reg it |}))
      | _ => panic
      end
  end.

(** The caller's [for] loop over the iterator, with a bound on its rounds. *)
Fixpoint preserved_locals (fuel : nat) (it : PreservedLocalsIter) :
    M OperandStack TranslationError (list LocalOperand) :=
  match fuel with
  | O => panic
  | S fuel =>
      next ← PreservedLocalsIter_next it;
      match next with
      | None => mret []
      | Some (o, it) => os ← preserved_locals fuel it; mret (o :: os)
      end
  end.

(** *** Preserving all locals *)

Record PreservedAllLocalsIter : Type := {
  pa_stack_pos : nat; pa_skip : nat; pa_remaining_locals : nat
}.

Definition preserve_all_locals (skip : nat) (self : OperandStack) : PreservedAllLocalsIter :=
  {| pa_stack_pos := length (operands self); pa_skip := skip; pa_remaining_locals := os_len_locals self |}.

(** The loop of [find_next_local] from [stack_pos] down: the position found and
    the new [skip] and [remaining_locals]. *)
Fixpoint find_next_local {E} (ops : list StackOperand) (stack_pos skip remaining_locals : nat) :
    res E (option nat) * nat * nat :=
  if (remaining_locals =? 0)%nat then (Ok None, skip, remaining_locals) else
  match stack_pos with
  | O => (Panic, skip, remaining_locals)
  | S stack_pos =>
      match ops !! stack_pos with
      | None => (Ok None, skip, remaining_locals)
      | Some (SO_Local _ _ _ _ _) =>
          let remaining_locals := (remaining_locals - 1)%nat in
          if (0 <? skip)%nat then find_next_local ops stack_pos (skip - 1) remaining_locals
          else (Ok (Some stack_pos), skip, remaining_locals)
      | Some _ => find_next_local ops stack_pos skip remaining_locals
      end
  end.

Definition PreservedAllLocalsIter_next (it : PreservedAllLocalsIter) :
    M OperandStack TranslationError (option (LocalOperand * PreservedAllLocalsIter)) :=
  self ← get_st;
  let '(found, skip, remaining) :=
    find_next_local (operands self) (pa_stack_pos it) (pa_skip it) (pa_remaining_locals it) in
  found ← lift found;
  match found with
  | None => mret None
  | Some stack_pos =>
      operand ← preserve_local_at stack_pos;
      self ← get_st;
      match operand with
      | SO_Local temp_slots ty local_index _ _ =>
          let in_reg := is_local_in_reg (regs self) ty local_index in
          mret (Some ({| lo_temp_slots := temp_slots; lo_ty := ty; lo_in_reg := in_reg;
                         lo_local_index := local_index |},
                      {| pa_stack_pos := stack_pos; pa_skip := skip; pa_remaining_locals := remaining |}))
      | _ => panic
      end
  end.

Fixpoint preserved_all_locals (fuel : nat) (it : PreservedAllLocalsIter) :
    M OperandStack TranslationError (list LocalOperand) :=
  match fuel with
  | O => panic
  | S fuel =>
      next ← PreservedAllLocalsIter_next it;
      match next with
      | None => mret []
      | Some (o, it) => os ← preserved_all_locals fuel it; mret (o :: os)
      end
  end.

(** *** Preserving registers *)

Record PreservedRegs : Type := {
  pr_ireg : option Slot; pr_freg32 : option Slot; pr_freg64 : option Slot
}.

Definition OperandStack_discard_local_regs : M OperandStack TranslationError unit :=
  self ← get_st; put_st (set_regs (RegisterMap_discard_local_regs (regs self)) self).

Definition preserve_reg (ty : ValType) : M OperandStack TranslationError (option Slot) :=
  link ← with_regs (RegisterMap_dealloc ty);
  match link with
  | Some (Link_Temp stack_pos) =>
      o ← operand_to_temp_at stack_pos;
      mret (Some (span_head (StackOperand_temp_slots o)))
  | _ => mret None
  end.

Definition preserve_all_regs : M OperandStack TranslationError PreservedRegs :=
  r0 ← preserve_reg ValType_I64;
  r1 ← preserve_reg ValType_F32;
  r2 ← preserve_reg ValType_F64;
  mret {| pr_ireg := r0; pr_freg32 := r1; pr_freg64 := r2 |}.

Definition preserve_temp_reg (skip_threshold : nat) (ty : ValType) :
    M OperandStack TranslationError (option Slot) :=
  pos ← with_regs (RegisterMap_dealloc_temp ty skip_threshold);
  match pos with
  | Some pos =>
      o ← operand_to_temp_at pos;
      mret (Some (span_head (StackOperand_temp_slots o)))
  | None => mret None
  end.

Definition preserve_all_temp_regs (skip : nat) : M OperandStack TranslationError PreservedRegs :=
  self ← get_st;
  assert_m (skip <=? length (operands self))%nat;;
  let skip_threshold := (length (operands self) - skip)%nat in
  r0 ← preserve_temp_reg skip_threshold ValType_I64;
  r1 ← preserve_temp_reg skip_threshold ValType_F32;
  r2 ← preserve_temp_reg skip_threshold ValType_F64;
  mret {| pr_ireg := r0; pr_freg32 := r1; pr_freg64 := r2 |}.
End Stack.

(** ** Lists threaded through the operand stack

    The uses of each local on the operand stack form a doubly linked list, from
    the top of the stack down, whose head [LocalsHead] keeps.  Here is
    what that means for the table of links alone: pushing and
    unlinking a use, as [func/stack/operands.rs] does them, keeps it. *)

Local Close Scope Z_scope.

(** A use of a local: the local and the links to the uses above and below. *)
Definition link : Type := LocalIdx * option nat * option nat.
Definition link_table : Type := nat -> option link.

Definition uses (L : link_table) (l p : nat) : Prop := exists pv nx, L p = Some (l, pv, nx).

(** [nx] is the greatest use of [l] below [p], [pv] the least one above. *)
Definition next_ok (L : link_table) (l p : nat) (nx : option nat) : Prop :=
  match nx with
  | Some q => q < p /\ uses L l q /\ forall r, q < r < p -> ~ uses L l r
  | None => forall r, r < p -> ~ uses L l r
  end.
Definition prev_ok (L : link_table) (l p : nat) (pv : option nat) : Prop :=
  match pv with
  | Some q => p < q /\ uses L l q /\ forall r, p < r < q -> ~ uses L l r
  | None => forall r, p < r -> ~ uses L l r
  end.

(** All links are right; [n] bounds the positions and the head of a local is
    the greatest use below [n]. *)
Definition links_ok (L : link_table) (h : LocalsHead) (n : nat) : Prop :=
  (forall p l pv nx, L p = Some (l, pv, nx) ->
     p < n /\ l < length h /\ next_ok L l p nx /\ prev_ok L l p pv) /\
  (forall l hd, h !! l = Some hd -> next_ok L l n hd).

Definition with_prev (pv : option nat) (k : option link) : option link :=
  (fun '(l, _, nx) => (l, pv, nx)) <$> k.
Definition with_next (nx : option nat) (k : option link) : option link :=
  (fun '(l, pv, _) => (l, pv, nx)) <$> k.

(** Unlinking the use at [p] with links [pv] and [nx]; pushing one at [p]. *)
Definition unlinked (L : link_table) (p : nat) (pv nx : option nat) : link_table := fun r =>
  if decide (r = p) then None
  else if decide (Some r = pv) then with_next nx (L r)
  else if decide (Some r = nx) then with_prev pv (L r)
  else L r.
Definition unlinked_heads (h : LocalsHead) (l : nat) (pv nx : option nat) : LocalsHead :=
  match pv with Some _ => h | None => <[l := nx]> h end.

Definition pushed (L : link_table) (l p : nat) (hd : option nat) : link_table := fun r =>
  if decide (r = p) then Some (l, None, hd)
  else if decide (Some r = hd) then with_prev (Some p) (L r)
  else L r.

Lemma uses_unique L l l' p : uses L l p -> uses L l' p -> l = l'.
Proof. intros (? & ? & E) (? & ? & E'). congruence. Qed.

Lemma next_ok_fun L l p q q' : next_ok L l p q -> next_ok L l p q' -> q = q'.
Proof.
  destruct q as [q|], q' as [q'|]; cbn; [|naive_solver|naive_solver|done].
  intros (? & Hq & Hn) (? & Hq' & Hn'). f_equal.
  destruct (lt_eq_lt_dec q q') as [[?|?]|?]; [|done|]; exfalso.
  - apply (Hn q'); [lia|done].
  - apply (Hn' q); [lia|done].
Qed.

(** The link of a use is the position just below it, from either side. *)
Lemma next_prev L l p q : uses L l p -> next_ok L l p (Some q) ->
  forall pv, prev_ok L l q pv -> pv = Some p.
Proof.
  intros Hp (Hlt & Hq & Hn) [r|]; cbn.
  - intros (? & Hr & Hn'). f_equal. destruct (lt_eq_lt_dec r p) as [[?|?]|?]; [|done|]; exfalso.
    + apply (Hn r); [lia|done].
    + apply (Hn' p); [lia|done].
  - intros Hn'. exfalso. apply (Hn' p); [lia|done].
Qed.

Lemma prev_next L l p q : uses L l p -> prev_ok L l p (Some q) ->
  forall nx, next_ok L l q nx -> nx = Some p.
Proof.
  intros Hp (Hlt & Hq & Hn) [r|]; cbn.
  - intros (? & Hr & Hn'). f_equal. destruct (lt_eq_lt_dec r p) as [[?|?]|?]; [|done|]; exfalso.
    + apply (Hn' p); [lia|done].
    + apply (Hn r); [lia|done].
  - intros Hn'. exfalso. apply (Hn' p); [lia|done].
Qed.

Lemma uses_with_next nx L l p : (exists pv' nx', with_next nx (L p) = Some (l, pv', nx')) <-> uses L l p.
Proof. unfold uses, with_next. destruct (L p) as [[[? ?] ?]|]; cbn; naive_solver. Qed.
Lemma uses_with_prev pv L l p : (exists pv' nx', with_prev pv (L p) = Some (l, pv', nx')) <-> uses L l p.
Proof. unfold uses, with_prev. destruct (L p) as [[[? ?] ?]|]; cbn; naive_solver. Qed.

Lemma uses_unlinked L p pv nx l r : uses (unlinked L p pv nx) l r <-> uses L l r /\ r <> p.
Proof.
  unfold uses at 1, unlinked. destruct (decide (r = p)) as [->|Hne].
  { split; [naive_solver|]. by intros [_ ?]. }
  destruct (decide _); [rewrite uses_with_next; naive_solver|].
  destruct (decide _); [rewrite uses_with_prev; naive_solver|]. unfold uses. naive_solver.
Qed.

Lemma uses_pushed L l p hd l' r : ~ (exists l0, uses L l0 p) ->
  uses (pushed L l p hd) l' r <-> uses L l' r \/ (r = p /\ l' = l).
Proof.
  intros Hp. unfold uses at 1, pushed. destruct (decide (r = p)) as [->|Hne].
  { split; [naive_solver|]. intros [?|[_ ->]]; [exfalso; by apply Hp; eexists|by eexists _, _]. }
  destruct (decide _); [rewrite uses_with_prev; naive_solver|]. unfold uses. naive_solver.
Qed.

(** [next_ok] and [prev_ok] only depend on which positions use the local. *)
Lemma next_ok_iff L L' l p nx : (forall r, r < p -> uses L' l r <-> uses L l r) ->
  next_ok L l p nx -> next_ok L' l p nx.
Proof.
  intros H. destruct nx as [q|]; cbn.
  - intros (? & ? & Hn). split_and!; [done|by apply H|]. intros r Hr. rewrite H by lia. by apply Hn.
  - intros Hn r Hr. rewrite H by done. by apply Hn.
Qed.
Lemma prev_ok_iff L L' l p pv : (forall r, p < r -> uses L' l r <-> uses L l r) ->
  prev_ok L l p pv -> prev_ok L' l p pv.
Proof.
  intros H. destruct pv as [q|]; cbn.
  - intros (? & ? & Hn). split_and!; [done|by apply H|]. intros r Hr. rewrite H by lia. by apply Hn.
  - intros Hn r Hr. rewrite H by done. by apply Hn.
Qed.

(** Removing a position from the uses: a link to it skips to its own link. *)
Lemma next_ok_skip L L' l p r q nx :
  (forall k, uses L' l k <-> uses L l k /\ k <> p) ->
  next_ok L l r q -> (q = Some p -> next_ok L l p nx) ->
  next_ok L' l r (if decide (q = Some p) then nx else q).
Proof.
  intros Hu Hq Hp. destruct (decide (q = Some p)) as [->|Hne].
  - specialize (Hp eq_refl). destruct Hq as (? & ? & Hn), nx as [k|]; cbn.
    + destruct Hp as (? & ? & Hn'). split_and!; [lia|apply Hu; split; [done|lia]|].
      intros j Hj [Hj' ?]%Hu. destruct (lt_eq_lt_dec j p) as [[?|?]|?]; [|done|].
      * apply (Hn' j); [lia|done].
      * apply (Hn j); [lia|done].
    + intros j Hj [Hj' ?]%Hu. destruct (lt_eq_lt_dec j p) as [[?|?]|?]; [|done|].
      * apply (Hp j); [lia|done].
      * apply (Hn j); [lia|done].
  - destruct q as [q|]; cbn in *.
    + destruct Hq as (? & ? & Hn). split_and!; [done|apply Hu; split; congruence|].
      intros j Hj [? _]%Hu. apply (Hn j); [lia|done].
    + intros j Hj [? _]%Hu. apply (Hq j); [lia|done].
Qed.
Lemma prev_ok_skip L L' l p r q pv :
  (forall k, uses L' l k <-> uses L l k /\ k <> p) ->
  prev_ok L l r q -> (q = Some p -> prev_ok L l p pv) ->
  prev_ok L' l r (if decide (q = Some p) then pv else q).
Proof.
  intros Hu Hq Hp. destruct (decide (q = Some p)) as [->|Hne].
  - specialize (Hp eq_refl). destruct Hq as (? & ? & Hn), pv as [k|]; cbn.
    + destruct Hp as (? & ? & Hn'). split_and!; [lia|apply Hu; split; [done|lia]|].
      intros j Hj [Hj' ?]%Hu. destruct (lt_eq_lt_dec j p) as [[?|?]|?]; [|done|].
      * apply (Hn j); [lia|done].
      * apply (Hn' j); [lia|done].
    + intros j Hj [Hj' ?]%Hu. destruct (lt_eq_lt_dec j p) as [[?|?]|?]; [|done|].
      * apply (Hn j); [lia|done].
      * apply (Hp j); [lia|done].
  - destruct q as [q|]; cbn in *.
    + destruct Hq as (? & ? & Hn). split_and!; [done|apply Hu; split; congruence|].
      intros j Hj [? _]%Hu. apply (Hn j); [lia|done].
    + intros j Hj [? _]%Hu. apply (Hq j); [lia|done].
Qed.

(** What [unlinked] stores at the positions it keeps. *)
Lemma unlinked_Some L h n p l pv nx r l' pv' nx' :
  links_ok L h n -> L p = Some (l, pv, nx) -> unlinked L p pv nx r = Some (l', pv', nx') ->
  r <> p /\ exists pv0 nx0, L r = Some (l', pv0, nx0) /\
    pv' = (if decide (pv0 = Some p) then pv else pv0) /\
    nx' = (if decide (nx0 = Some p) then nx else nx0).
Proof.
  intros [HL _] Hp Hr. unfold unlinked in Hr. destruct (decide (r = p)); [done|]. split; [done|].
  pose proof (HL p _ _ _ Hp) as (_ & _ & Hnx & Hpv).
  assert (Hup : uses L l p) by (by eexists _, _).
  destruct (L r) as [[[l0 pv0] nx0]|] eqn:Er; [|by repeat destruct (decide _)].
  pose proof (HL r _ _ _ Er) as (_ & _ & Hnx0 & Hpv0).
  assert (Hur : uses L l0 r) by (by eexists _, _).
  (* the use above p is the one whose next link is p, and symmetrically *)
  assert (Habove : nx0 = Some p <-> Some r = pv).
  { split.
    - intros ->. assert (l0 = l) as -> by (destruct Hnx0 as (_ & ? & _); by apply (uses_unique L l0 l p)).
      symmetry. by apply (next_prev L l r p Hur Hnx0).
    - intros <-. assert (l0 = l) as -> by (destruct Hpv as (_ & ? & _); by apply (uses_unique L l0 l r)).
      by apply (prev_next L l p r Hup Hpv). }
  assert (Hbelow : pv0 = Some p <-> Some r = nx).
  { split.
    - intros ->. assert (l0 = l) as -> by (destruct Hpv0 as (_ & ? & _); by apply (uses_unique L l0 l p)).
      symmetry. by apply (prev_next L l r p Hur Hpv0).
    - intros <-. assert (l0 = l) as -> by (destruct Hnx as (_ & ? & _); by apply (uses_unique L l0 l r)).
      by apply (next_prev L l p r Hup Hnx). }
  exists pv0, nx0. destruct (decide (Some r = pv)) as [Hr1|Hr1].
  - cbn in Hr. injection Hr as <- <- <-. rewrite (decide_True _ _ (proj2 Habove Hr1)).
    split; [done|]. split; [|done]. rewrite decide_False; [done|].
    intros Hb%Hbelow. destruct pv, nx; simplify_eq. destruct Hnx, Hpv. lia.
  - rewrite (decide_False (P := nx0 = Some p)) by tauto. destruct (decide (Some r = nx)) as [Hr2|Hr2].
    + cbn in Hr. injection Hr as <- <- <-. by rewrite (decide_True _ _ (proj2 Hbelow Hr2)).
    + injection Hr as <- <- <-. rewrite decide_False by tauto. done.
Qed.

(** Unlinking keeps the links of all other uses right. *)
Lemma links_ok_unlinked L h n p l pv nx :
  links_ok L h n -> L p = Some (l, pv, nx) ->
  links_ok (unlinked L p pv nx) (unlinked_heads h l pv nx) n.
Proof.
  intros Hok Hp. pose proof Hok as [HL Hh]. pose proof (HL p _ _ _ Hp) as (Hpn & Hlh & Hnx & Hpv).
  assert (Hup : uses L l p) by (by eexists _, _).
  assert (Hlen : length (unlinked_heads h l pv nx) = length h).
  { destruct pv; cbn; [done|apply length_insert]. }
  split.
  - intros r l' pv' nx' Hr.
    destruct (unlinked_Some _ _ _ _ _ _ _ _ _ _ _ Hok Hp Hr) as (Hne & pv0 & nx0 & Er & -> & ->).
    pose proof (HL r _ _ _ Er) as (? & ? & Hnx0 & Hpv0). rewrite Hlen. split_and!; [done|done|..].
    + apply (next_ok_skip L _ l' p r nx0 nx); [apply uses_unlinked|done|].
      intros ->. destruct Hnx0 as (_ & Hu & _). by rewrite (uses_unique _ _ _ _ Hu Hup).
    + apply (prev_ok_skip L _ l' p r pv0 pv); [apply uses_unlinked|done|].
      intros ->. destruct Hpv0 as (_ & Hu & _). by rewrite (uses_unique _ _ _ _ Hu Hup).
  - intros l' hd Hhd.
    assert (Hskip : forall hd0, h !! l' = Some hd0 ->
      next_ok (unlinked L p pv nx) l' n (if decide (hd0 = Some p) then nx else hd0)).
    { intros hd0 Hhd0. pose proof (Hh _ _ Hhd0) as Hn.
      apply (next_ok_skip L _ l' p n hd0 nx); [apply uses_unlinked|done|].
      intros ->. destruct Hn as (_ & Hu & _). by rewrite (uses_unique _ _ _ _ Hu Hup). }
    unfold unlinked_heads in Hhd. destruct pv as [q|]; cbv beta iota in Hhd.
    + specialize (Hskip _ Hhd). rewrite decide_False in Hskip; [done|]. intros ->.
      pose proof (Hh _ _ Hhd) as (_ & Hu & Hn). destruct Hpv as (? & Hq & _).
      pose proof (uses_unique _ _ _ _ Hu Hup) as ->.
      destruct Hq as (? & ? & Eq). pose proof (HL _ _ _ _ Eq) as (? & _).
      apply (Hn q); [lia|by eexists _, _].
    + destruct (decide (l' = l)) as [->|Hne].
      * rewrite list_lookup_insert_eq in Hhd by done. injection Hhd as <-.
        destruct (lookup_lt_is_Some_2 h l Hlh) as [hd0 Hhd0]. specialize (Hskip _ Hhd0).
        pose proof (Hh _ _ Hhd0) as Hn. rewrite decide_True in Hskip; [done|].
        apply (next_ok_fun L l n); [done|]. split_and!; [done|done|].
        intros r Hr. apply Hpv. lia.
      * rewrite list_lookup_insert_ne in Hhd by done. specialize (Hskip _ Hhd).
        rewrite decide_False in Hskip; [done|]. intros ->.
        pose proof (Hh _ _ Hhd) as (_ & Hu & _). by apply Hne, (uses_unique L l' l p).
Qed.

(** The bound is only a bound. *)
Lemma links_ok_bound L h n n' :
  (forall p, is_Some (L p) -> p < n') -> links_ok L h n -> links_ok L h n'.
Proof.
  intros Hb [HL Hh]. split.
  - intros p l pv nx Hp. destruct (HL p _ _ _ Hp) as (_ & ? & ? & ?). split_and!; [|done..].
    apply Hb. by rewrite Hp.
  - intros l hd Hhd. pose proof (Hh _ _ Hhd) as Hn. destruct hd as [q|]; cbn in *.
    + destruct Hn as (? & Hq & Hn). split_and!; [|done|].
      * apply Hb. destruct Hq as (? & ? & ->). by eexists.
      * intros r Hr Hu. apply (Hn r); [|done]. split; [lia|].
        destruct Hu as (? & ? & E). by apply (HL _ _ _ _ E).
    + intros r Hr Hu. apply (Hn r); [|done]. destruct Hu as (? & ? & E). by apply (HL _ _ _ _ E).
Qed.

Lemma links_ok_ext L L' h n : (forall p, L p = L' p) -> links_ok L h n -> links_ok L' h n.
Proof.
  intros E [HL Hh].
  assert (Hu : forall l p, uses L' l p <-> uses L l p) by (intros; unfold uses; by rewrite E).
  split.
  - intros p l pv nx Hp. rewrite <-E in Hp. destruct (HL _ _ _ _ Hp) as (? & ? & ? & ?).
    split_and!; [done|done|eapply next_ok_iff; [|done]; naive_solver|eapply prev_ok_iff; [|done]; naive_solver].
  - intros l hd Hhd. eapply next_ok_iff; [|by apply Hh]. naive_solver.
Qed.

(** Pushing a use on top keeps the links right. *)
Lemma links_ok_pushed L h n l hd :
  links_ok L h n -> h !! l = Some hd ->
  links_ok (pushed L l n hd) (<[l := Some n]> h) (S n).
Proof.
  intros [HL Hh] Hhd. pose proof (Hh _ _ Hhd) as Hn. pose proof (lookup_lt_Some _ _ _ Hhd) as Hlt.
  assert (Hfree : ~ (exists l0, uses L l0 n)).
  { intros (l0 & ? & ? & E). destruct (HL _ _ _ _ E). lia. }
  assert (Hu : forall l' r, uses (pushed L l n hd) l' r <-> uses L l' r \/ (r = n /\ l' = l)).
  { intros. by apply uses_pushed. }
  assert (Hlow : forall l' p nx, p <= n -> next_ok L l' p nx -> next_ok (pushed L l n hd) l' p nx).
  { intros l' p nx Hp. apply next_ok_iff. intros r Hr. rewrite Hu.
    split; [|by left]. intros [?|[-> _]]; [done|lia]. }
  split.
  - intros p l' pv nx Hp. rewrite length_insert. unfold pushed in Hp.
    destruct (decide (p = n)) as [->|Hne].
    { injection Hp as <- <- <-. split_and!; [lia|done|by apply Hlow|].
      intros r Hr [(? & ? & E)|[-> _]]%Hu; [|lia]. destruct (HL _ _ _ _ E). lia. }
    assert (Hold : exists pv0, L p = Some (l', pv0, nx) /\
      (Some p = hd /\ pv = Some n \/ Some p <> hd /\ pv = pv0)).
    { destruct (decide (Some p = hd)); [|by exists pv; auto].
      destruct (L p) as [[[? pv0] ?]|]; cbn in Hp; [|done]. injection Hp as <- <- <-. exists pv0. auto. }
    destruct Hold as (pv0 & E & Hpv0). destruct (HL _ _ _ _ E) as (? & ? & Hnx & Hpv).
    split_and!; [lia|done|apply Hlow; [lia|done]|].
    destruct Hpv0 as [[<- ->]|[Hne' ->]].
    + (* the old head *)
      destruct Hn as (_ & Hup & Hn). assert (l' = l) as ->.
      { apply (uses_unique L _ _ p); [by eexists _, _|done]. }
      split_and!; [done|apply Hu; by right|]. intros r Hr [?|[-> _]]%Hu; [|lia]. by apply (Hn r).
    + destruct (decide (l' = l)) as [->|Hl].
      * destruct pv0 as [q|].
        -- destruct Hpv as (? & Hq & Hnone). split_and!; [done|apply Hu; by left|].
           intros r Hr [?|[-> _]]%Hu; [by apply (Hnone r)|].
           destruct Hq as (? & ? & Eq). destruct (HL _ _ _ _ Eq). lia.
        -- exfalso. apply Hne'. cbn in Hpv. apply (next_ok_fun L l n); [|done].
           split_and!; [done|by eexists _, _|]. intros r Hr. apply Hpv. lia.
      * eapply prev_ok_iff; [|done]. intros r Hr. rewrite Hu. naive_solver.
  - intros l' hd' Hhd'. destruct (decide (l' = l)) as [->|Hl].
    + rewrite list_lookup_insert_eq in Hhd' by done. injection Hhd' as <-.
      split_and!; [lia|apply Hu; by right|lia].
    + rewrite list_lookup_insert_ne in Hhd' by done.
      pose proof (Hlow _ _ _ (le_n n) (Hh _ _ Hhd')) as Hlow'.
      destruct hd' as [q|]; cbn in *.
      * destruct Hlow' as (? & ? & Hnone). split_and!; [lia|done|]. intros r Hr Hur.
        destruct (decide (r = n)) as [->|]; [|apply (Hnone r); [lia|done]].
        apply Hu in Hur as [Hur|[_ ?]]; [|done]. apply Hfree. by eexists.
      * intros r Hr Hur. destruct (decide (r = n)) as [->|]; [|apply (Hlow' r); [lia|done]].
        apply Hu in Hur as [Hur|[_ ?]]; [|done]. apply Hfree. by eexists.
Qed.

Lemma prev_ok_fun L l p q q' : prev_ok L l p q -> prev_ok L l p q' -> q = q'.
Proof.
  destruct q as [q|], q' as [q'|]; cbn; [|naive_solver|naive_solver|done].
  intros (? & Hq & Hn) (? & Hq' & Hn'). f_equal.
  destruct (lt_eq_lt_dec q q') as [[?|?]|?]; [|done|]; exfalso.
  - apply (Hn' q); [lia|done].
  - apply (Hn q'); [lia|done].
Qed.

(** The links are determined by which positions use which local. *)
Lemma links_ok_unique L L' h h' n :
  links_ok L h n -> links_ok L' h' n -> length h = length h' ->
  (forall l p, uses L l p <-> uses L' l p) -> (forall p, L p = L' p) /\ h = h'.
Proof.
  intros [HL Hh] [HL' Hh'] Hlen Hu.
  assert (Hnx : forall l p nx, next_ok L' l p nx -> next_ok L l p nx).
  { intros l p nx. apply next_ok_iff. intros. apply Hu. }
  assert (Hpv : forall l p pv, prev_ok L' l p pv -> prev_ok L l p pv).
  { intros l p pv. apply prev_ok_iff. intros. apply Hu. }
  split.
  - intros p. destruct (L p) as [[[l pv] nx]|] eqn:E.
    + assert (uses L' l p) as (pv' & nx' & E') by (apply Hu; by eexists _, _).
      destruct (HL _ _ _ _ E) as (_ & _ & Hn & Hp), (HL' _ _ _ _ E') as (_ & _ & Hn' & Hp').
      rewrite E'. f_equal. f_equal; [f_equal|].
      * eapply prev_ok_fun; [done|by apply Hpv].
      * eapply next_ok_fun; [done|by apply Hnx].
    + destruct (L' p) as [[[l pv] nx]|] eqn:E'; [|done]. exfalso.
      assert (uses L l p) as (? & ? & ?) by (apply Hu; by eexists _, _). congruence.
  - apply list_eq. intros l. destruct (h !! l) as [hd|] eqn:E.
    + destruct (lookup_lt_is_Some_2 h' l) as [hd' E']; [by rewrite <-Hlen; apply lookup_lt_Some in E|].
      rewrite E'. f_equal. eapply next_ok_fun; [by apply Hh|by apply Hnx, Hh'].
    + symmetry. apply lookup_ge_None in E. apply lookup_ge_None. lia.
Qed.
