(* ===== verification/OperandSpec.v ===== *)
(** * Correctness of the operand stack

    The invariant of the operand stack of [Operands.v] and the theorems about
    its operations: pushing, popping, and turning operands into temporaries. *)

From Stdlib Require Import ZArith Lia.
From stdpp Require Import base option decidable numbers list.
From S2P Require Import Prelude Value Slot Locals Operands.
Local Open Scope Z_scope.

(** ** The invariant *)

(** The table of links of the stack, and an operand without its links. *)
Definition tab (ops : list StackOperand) : link_table := fun p =>
  match ops !! p with
  | Some (SO_Local _ _ l pv nx) => Some (l, pv, nx)
  | _ => None
  end.

Definition skel (o : StackOperand) : StackOperand :=
  match o with
  | SO_Local temp_slots ty l _ _ => SO_Local temp_slots ty l None None
  | _ => o
  end.

Definition is_local (o : StackOperand) : bool :=
  match o with SO_Local _ _ _ _ _ => true | _ => false end.

Definition count_locals (ops : list StackOperand) : nat :=
  sum_list_with (fun o => if is_local o then 1%nat else 0%nat) ops.

Section Spec.
Context `{T : Target}.

Definition ops_cells (ops : list StackOperand) : Z := cells_sum (StackOperand_ty <$> ops).

(** Every operand owns the slots after the locals and the operands below it. *)
Definition slots_ok (ops : list StackOperand) (locals temp max : Z) : Prop :=
  0 <= locals /\ temp = locals + ops_cells ops /\ temp <= max < 2 ^ 16 /\
  forall p o, ops !! p = Some o ->
    StackOperand_temp_slots o = {| span_head := Slot_from (locals + ops_cells (take p ops)) |}.

(** A register is linked to a temporary exactly when the temporary says so. *)
Definition regs_ok (ops : list StackOperand) (r : RegisterMap) : Prop :=
  (forall ty p, RegisterMap_get r ty = Some (Link_Temp p) ->
     exists ts ty', ops !! p = Some (SO_Temp ts ty' true) /\
       forall r', RegisterMap_get r' ty' = RegisterMap_get r' ty) /\
  (forall p ts ty, ops !! p = Some (SO_Temp ts ty true) -> RegisterMap_get r ty = Some (Link_Temp p)).

Definition wf (s : OperandStack) : Prop :=
  links_ok (tab (operands s)) (local_heads s) (length (operands s)) /\
  os_len_locals s = count_locals (operands s) /\
  slots_ok (skel <$> operands s) (local_slots s) (temp_offset s) (max_offset s) /\
  regs_ok (skel <$> operands s) (regs s).

(** ** Lists of operands *)

Lemma skel_idemp o : skel (skel o) = skel o.
Proof. by destruct o. Qed.
Lemma skel_ty o : StackOperand_ty (skel o) = StackOperand_ty o.
Proof. by destruct o. Qed.
Lemma skel_temp_slots o : StackOperand_temp_slots (skel o) = StackOperand_temp_slots o.
Proof. by destruct o. Qed.
Lemma skel_is_local o : is_local (skel o) = is_local o.
Proof. by destruct o. Qed.

Lemma count_locals_app a b : count_locals (a ++ b) = (count_locals a + count_locals b)%nat.
Proof. apply sum_list_with_app. Qed.

Lemma count_locals_skel ops : count_locals (skel <$> ops) = count_locals ops.
Proof.
  unfold count_locals. induction ops as [|o ops IH]; [done|]. cbn. by rewrite skel_is_local, IH.
Qed.

Lemma count_locals_eq ops ops' : skel <$> ops = skel <$> ops' -> count_locals ops = count_locals ops'.
Proof. intros E. by rewrite <-count_locals_skel, E, count_locals_skel. Qed.

Lemma skel_eq_length ops ops' : skel <$> ops = skel <$> ops' -> length ops = length ops'.
Proof. intros E. by rewrite <-(length_fmap skel ops), E, length_fmap. Qed.

Lemma count_locals_insert ops p o o' : ops !! p = Some o -> is_local o = true -> is_local o' = false ->
  count_locals ops = S (count_locals (<[p := o']> ops)).
Proof.
  intros Hp Ho Ho'. rewrite <-(take_drop_middle ops p o Hp) at 1.
  rewrite insert_take_drop by (by apply lookup_lt_Some in Hp).
  rewrite !count_locals_app. unfold count_locals. cbn. rewrite Ho, Ho'. lia.
Qed.

Lemma count_locals_insert_same ops p o o' : ops !! p = Some o -> is_local o' = is_local o ->
  count_locals (<[p := o']> ops) = count_locals ops.
Proof.
  intros Hp Ho. rewrite <-(take_drop_middle ops p o Hp) at 2.
  rewrite insert_take_drop by (by apply lookup_lt_Some in Hp).
  rewrite !count_locals_app. unfold count_locals. cbn. by rewrite Ho.
Qed.

Lemma ops_cells_app a b : ops_cells (a ++ b) = ops_cells a + ops_cells b.
Proof. unfold ops_cells. by rewrite fmap_app, cells_sum_app. Qed.

Lemma ops_cells_single o : ops_cells [o] = required_cells_for_ty (StackOperand_ty o).
Proof. unfold ops_cells, cells_sum. cbn. lia. Qed.

Lemma ops_cells_nonneg ops : 0 <= ops_cells ops.
Proof. apply cells_sum_nonneg. Qed.

Lemma ops_cells_insert ops p o o' : ops !! p = Some o -> StackOperand_ty o' = StackOperand_ty o ->
  forall k, ops_cells (take k (<[p := o']> ops)) = ops_cells (take k ops).
Proof.
  intros Hp Ho k. unfold ops_cells. f_equal.
  rewrite !fmap_take, list_fmap_insert, Ho. f_equal. apply list_insert_id.
  by rewrite list_lookup_fmap, Hp.
Qed.

Lemma ops_cells_insert_all ops p o o' : ops !! p = Some o -> StackOperand_ty o' = StackOperand_ty o ->
  ops_cells (<[p := o']> ops) = ops_cells ops.
Proof.
  intros Hp Ho. pose proof (ops_cells_insert ops p o o' Hp Ho (length ops)) as E.
  rewrite !take_ge in E by (rewrite ?length_insert; lia). done.
Qed.

(** ** The slots invariant *)

Lemma slots_ok_push ops locals temp max o :
  slots_ok ops locals temp max ->
  StackOperand_temp_slots o = {| span_head := Slot_from temp |} ->
  temp + required_cells_for_ty (StackOperand_ty o) < 2 ^ 16 ->
  slots_ok (ops ++ [o]) locals (temp + required_cells_for_ty (StackOperand_ty o))
    (Z.max max (temp + required_cells_for_ty (StackOperand_ty o))).
Proof.
  intros (? & -> & ? & Hs) Ho Hlt. split; [done|]. rewrite ops_cells_app, ops_cells_single.
  split; [lia|]. split; [lia|]. intros p o' [Hp|[Hp Hp']]%lookup_app_Some.
  - rewrite take_app_le by (apply lookup_lt_Some in Hp; lia). by apply Hs.
  - apply list_lookup_singleton_Some in Hp' as [? <-]. assert (p = length ops) as -> by lia.
    by rewrite take_app_length.
Qed.

Lemma slots_ok_pop ops locals temp max o :
  slots_ok (ops ++ [o]) locals temp max ->
  slots_ok ops locals (temp - required_cells_for_ty (StackOperand_ty o)) max.
Proof.
  intros (? & -> & ? & Hs). rewrite ops_cells_app, ops_cells_single in *.
  pose proof (required_cells_bounds (StackOperand_ty o)).
  split; [done|]. split; [lia|]. split; [lia|]. intros p o' Hp.
  rewrite (Hs p o') by (by apply lookup_app_l_Some).
  rewrite take_app_le by (apply lookup_lt_Some in Hp; lia). done.
Qed.

Lemma slots_ok_insert ops locals temp max p o o' :
  slots_ok ops locals temp max -> ops !! p = Some o ->
  StackOperand_ty o' = StackOperand_ty o -> StackOperand_temp_slots o' = StackOperand_temp_slots o ->
  slots_ok (<[p := o']> ops) locals temp max.
Proof.
  intros (? & ? & ? & Hs) Hp Hty Hts. split; [done|].
  rewrite (ops_cells_insert_all _ _ _ _ Hp Hty). split; [done|]. split; [done|].
  intros q oq Hq. rewrite (ops_cells_insert _ _ _ _ Hp Hty).
  destruct (decide (p = q)) as [<-|Hne].
  - rewrite list_lookup_insert_eq in Hq by (by apply lookup_lt_Some in Hp). injection Hq as <-.
    rewrite Hts. by apply Hs.
  - rewrite list_lookup_insert_ne in Hq by done. by apply Hs.
Qed.

(** ** The registers invariant *)

Lemma regs_ok_push ops r o : regs_ok ops r ->
  (forall ts ty, o <> SO_Temp ts ty true) -> regs_ok (ops ++ [o]) r.
Proof.
  intros [H1 H2] Ho. split.
  - intros ty p Hp. destruct (H1 ty p Hp) as (ts & ty' & Hl & ?). exists ts, ty'.
    split; [by apply lookup_app_l_Some|done].
  - intros p ts ty [Hp|[? Hp]]%lookup_app_Some; [by eapply H2|].
    apply list_lookup_singleton_Some in Hp as [_ ->]. by destruct (Ho ts ty).
Qed.

Lemma regs_ok_pop ops r o : regs_ok (ops ++ [o]) r ->
  (forall ts ty, o <> SO_Temp ts ty true) -> regs_ok ops r.
Proof.
  intros [H1 H2] Ho. split.
  - intros ty p Hp. destruct (H1 ty p Hp) as (ts & ty' & Hl & ?). exists ts, ty'. split; [|done].
    apply lookup_app_Some in Hl as [?|[? Hl]]; [done|].
    apply list_lookup_singleton_Some in Hl as [_ ->]. by destruct (Ho ts ty').
  - intros p ts ty Hp. eapply H2. by apply lookup_app_l_Some.
Qed.

(** Replacing an operand that is in no register by another such operand. *)
Lemma regs_ok_insert ops r p o o' : regs_ok ops r -> ops !! p = Some o ->
  (forall ts ty, o <> SO_Temp ts ty true) -> (forall ts ty, o' <> SO_Temp ts ty true) ->
  regs_ok (<[p := o']> ops) r.
Proof.
  intros [H1 H2] Hp Ho Ho'. split.
  - intros ty q Hq. destruct (H1 ty q Hq) as (ts & ty' & Hl & ?). exists ts, ty'. split; [|done].
    rewrite list_lookup_insert_ne; [done|]. intros <-. rewrite Hp in Hl. injection Hl as ->.
    by destruct (Ho ts ty').
  - intros q ts ty Hq. destruct (decide (p = q)) as [<-|Hne].
    + rewrite list_lookup_insert_eq in Hq by (by apply lookup_lt_Some in Hp). injection Hq as ->.
      by destruct (Ho' ts ty).
    + rewrite list_lookup_insert_ne in Hq by done. by eapply H2.
Qed.

(** Emptying the register of a type, as [dealloc] does. *)
Definition clear_reg (ty : ValType) (r : RegisterMap) : RegisterMap :=
  match ty with
  | ValType_I32 | ValType_FuncRef | ValType_ExternRef | ValType_I64 =>
      {| ireg := None; freg32 := freg32 r; freg64 := freg64 r |}
  | ValType_F32 => {| ireg := ireg r; freg32 := None; freg64 := freg64 r |}
  | ValType_F64 => {| ireg := ireg r; freg32 := freg32 r; freg64 := None |}
  | ValType_V128 => r
  end.

Definition same_reg (ty ty' : ValType) : Prop := forall r, RegisterMap_get r ty' = RegisterMap_get r ty.

(** Two types share a register or have independent ones. *)
Lemma same_reg_dec ty ty' : same_reg ty ty' \/
  (forall r, RegisterMap_get (clear_reg ty r) ty' = RegisterMap_get r ty') /\ ~ same_reg ty ty'.
Proof.
  assert (Hd : forall a, RegisterMap_get {| ireg := Some (Link_Temp 0); freg32 := Some (Link_Temp 1);
    freg64 := Some (Link_Temp 2) |} ty' <> a -> RegisterMap_get {| ireg := Some (Link_Temp 0);
    freg32 := Some (Link_Temp 1); freg64 := Some (Link_Temp 2) |} ty = a -> ~ same_reg ty ty').
  { intros a H1 H2 Hs. apply H1. rewrite <-H2. apply Hs. }
  destruct ty, ty'; first [left; by intros r|right; split; [done|]; refine (Hd _ _ eq_refl); discriminate].
Qed.

Lemma clear_reg_same ty ty' r : same_reg ty ty' -> RegisterMap_get (clear_reg ty r) ty' = None.
Proof. intros Hs. rewrite Hs. by destruct ty. Qed.

Lemma clear_reg_None ty r : RegisterMap_get r ty = None -> clear_reg ty r = r.
Proof. destruct r, ty; cbn; intros; by subst. Qed.

(** Taking the register away from the temporary at [p]. *)
Lemma regs_ok_clear ops r p ts ty o' : regs_ok ops r -> ops !! p = Some (SO_Temp ts ty true) ->
  (forall ts ty, o' <> SO_Temp ts ty true) -> regs_ok (<[p := o']> ops) (clear_reg ty r).
Proof.
  intros [H1 H2] Hp Ho'. pose proof (H2 p ts ty Hp) as Hr. split.
  - intros ty' q Hq. destruct (same_reg_dec ty ty') as [Hs|[Hc _]].
    { by rewrite clear_reg_same in Hq. }
    rewrite Hc in Hq. destruct (H1 ty' q Hq) as (ts' & ty'' & Hl & Hs). exists ts', ty''.
    split; [|done]. rewrite list_lookup_insert_ne; [done|]. intros <-.
    rewrite Hp in Hl. injection Hl as <- <-.
    specialize (Hc r). rewrite <-Hs in Hc at 1. rewrite clear_reg_same in Hc by done. congruence.
  - intros q ts' ty' Hq. destruct (decide (p = q)) as [<-|Hne].
    { rewrite list_lookup_insert_eq in Hq by (by apply lookup_lt_Some in Hp). injection Hq as ->.
      by destruct (Ho' ts' ty'). }
    rewrite list_lookup_insert_ne in Hq by done. pose proof (H2 q ts' ty' Hq) as Hq'.
    destruct (same_reg_dec ty ty') as [Hs|[-> _]]; [|done].
    rewrite Hs, Hr in Hq'. by injection Hq'.
Qed.

(** Linking the register of [ty] to [link]. *)
Definition put_reg (ty : ValType) (link : option RegisterLink) (r : RegisterMap) : RegisterMap :=
  snd (RegisterMap_set (E := unit) ty link r).

Lemma RegisterMap_set_eq {E} ty link r :
  RegisterMap_set (E := E) ty link r =
  (if decide (ty = ValType_V128) then Panic else Ok tt, put_reg ty link r).
Proof. by destruct ty. Qed.

Lemma put_reg_None ty r : put_reg ty None r = clear_reg ty r.
Proof. by destruct ty. Qed.

Lemma put_reg_get ty link r ty' : ty <> ValType_V128 ->
  (same_reg ty ty' /\ RegisterMap_get (put_reg ty link r) ty' = link) \/
  (~ same_reg ty ty' /\ RegisterMap_get (put_reg ty link r) ty' = RegisterMap_get r ty').
Proof.
  intros Hv. destruct (same_reg_dec ty ty') as [Hs|[Hc Hns]].
  - left. split; [done|]. rewrite Hs. by destruct ty.
  - right. split; [done|]. specialize (Hc r). destruct ty, ty'; try done; cbn in *; try by rewrite Hc.
    all: exfalso; apply Hns; by intros r'.
Qed.

(** Pushing a temporary in a free register. *)
Lemma regs_ok_push_reg ops r ts ty : regs_ok ops r -> ty <> ValType_V128 ->
  RegisterMap_get r ty = None ->
  regs_ok (ops ++ [SO_Temp ts ty true]) (put_reg ty (Some (Link_Temp (length ops))) r).
Proof.
  intros [H1 H2] Hv Hfree. split.
  - intros ty' p Hp. destruct (put_reg_get ty (Some (Link_Temp (length ops))) r ty' Hv) as [[Hs E]|[_ E]].
    + rewrite E in Hp. injection Hp as <-. exists ts, ty. split; [|intros r'; by rewrite Hs].
      rewrite lookup_app_r, Nat.sub_diag by lia. done.
    + rewrite E in Hp. destruct (H1 ty' p Hp) as (ts' & ty'' & Hl & ?). exists ts', ty''.
      split; [by apply lookup_app_l_Some|done].
  - intros p ts' ty' [Hp|[? Hp]]%lookup_app_Some.
    + pose proof (H2 _ _ _ Hp) as Hp'.
      destruct (put_reg_get ty (Some (Link_Temp (length ops))) r ty' Hv) as [[Hs _]|[_ ->]]; [|done].
      rewrite Hs in Hp'. congruence.
    + apply list_lookup_singleton_Some in Hp as [? [= <- <-]].
      destruct (put_reg_get ty (Some (Link_Temp (length ops))) r ty Hv) as [[_ ->]|[Hns _]];
        [assert (p = length ops) as -> by lia; done|]. exfalso. apply Hns. by intros r'.
Qed.

Lemma regs_ok_pop_reg ops r ts ty : regs_ok (ops ++ [SO_Temp ts ty true]) r ->
  RegisterMap_get r ty = Some (Link_Temp (length ops)) /\ regs_ok ops (clear_reg ty r).
Proof.
  intros Hr. assert (Hl : (ops ++ [SO_Temp ts ty true]) !! length ops = Some (SO_Temp ts ty true)).
  { by rewrite lookup_app_r, Nat.sub_diag by lia. }
  split; [by apply Hr in Hl|].
  pose proof (regs_ok_clear _ _ _ _ _ (SO_Temp ts ty false) Hr Hl) as H.
  rewrite insert_app_r_alt, Nat.sub_diag in H by lia. cbn in H.
  apply (regs_ok_pop _ _ (SO_Temp ts ty false)); [by apply H|done].
Qed.

(** ** Runs of the link operations *)

Lemma skel_insert_same (ops : list StackOperand) (p : nat) o o' : ops !! p = Some o -> skel o' = skel o ->
  skel <$> <[p := o']> ops = skel <$> ops.
Proof. intros Hp Ho. rewrite list_fmap_insert, Ho. apply list_insert_id. by rewrite list_lookup_fmap, Hp. Qed.

Lemma tab_Some ops p l pv nx : tab ops p = Some (l, pv, nx) ->
  exists ts ty, ops !! p = Some (SO_Local ts ty l pv nx).
Proof.
  unfold tab. destruct (ops !! p) as [[ts ty ? ? ?|?|?]|] eqn:E; intros; simplify_eq. by exists ts, ty.
Qed.

Lemma tab_insert (ops : list StackOperand) (p : nat) o r : (p < length ops)%nat ->
  tab (<[p := o]> ops) r = if decide (r = p) then tab [o] 0%nat else tab ops r.
Proof.
  intros Hp. unfold tab. destruct (decide (r = p)) as [->|Hne].
  - by rewrite list_lookup_insert_eq.
  - by rewrite list_lookup_insert_ne.
Qed.

Lemma tab_app_l ops o r : r <> length ops -> tab (ops ++ [o]) r = tab ops r.
Proof.
  intros Hr. unfold tab. destruct (decide (r < length ops)%nat).
  - by rewrite lookup_app_l.
  - rewrite !lookup_ge_None_2; [done|lia|rewrite length_app; cbn; lia].
Qed.

Lemma tab_app_top ops o : tab (ops ++ [o]) (length ops) = tab [o] 0%nat.
Proof. unfold tab. by rewrite lookup_app_r, Nat.sub_diag by lia. Qed.

Lemma tab_lt ops p k : tab ops p = Some k -> (p < length ops)%nat.
Proof.
  unfold tab. destruct (ops !! p) eqn:E; [|done]. intros _. by apply lookup_lt_Some in E.
Qed.

Lemma update_prev_local_run s q k pv : tab (operands s) q = Some k ->
  exists ops', update_prev_local q pv s = (Ok tt, set_operands ops' s) /\
    skel <$> ops' = skel <$> operands s /\
    forall r, tab ops' r = if decide (r = q) then with_prev pv (Some k) else tab (operands s) r.
Proof.
  destruct k as [[l pv0] nx0]. intros Hq. destruct (tab_Some _ _ _ _ _ Hq) as (ts & ty & E).
  unfold update_prev_local. rewrite E. eexists. split; [done|]. split.
  - by apply (skel_insert_same _ _ _ _ E).
  - intros r. rewrite tab_insert by (by apply lookup_lt_Some in E). done.
Qed.

Lemma update_next_local_run s q k nx : tab (operands s) q = Some k ->
  exists ops', update_next_local q nx s = (Ok tt, set_operands ops' s) /\
    skel <$> ops' = skel <$> operands s /\
    forall r, tab ops' r = if decide (r = q) then with_next nx (Some k) else tab (operands s) r.
Proof.
  destruct k as [[l pv0] nx0]. intros Hq. destruct (tab_Some _ _ _ _ _ Hq) as (ts & ty & E).
  unfold update_next_local. rewrite E. eexists. split; [done|]. split.
  - by apply (skel_insert_same _ _ _ _ E).
  - intros r. rewrite tab_insert by (by apply lookup_lt_Some in E). done.
Qed.

(** Unlinking the use that [L] has at [p], in a stack that agrees with [L]
    elsewhere. *)
Lemma unlink_local_run s L h n p l pv nx k :
  links_ok L h n -> L p = Some (l, pv, nx) -> length (local_heads s) = length h ->
  (forall r, r <> p -> tab (operands s) r = L r) -> os_len_locals s = S k ->
  exists ops', unlink_local l pv nx s =
      (Ok tt, set_len_locals k (set_local_heads (unlinked_heads (local_heads s) l pv nx)
                                  (set_operands ops' s))) /\
    skel <$> ops' = skel <$> operands s /\
    forall r, r <> p -> tab ops' r = unlinked L p pv nx r.
Proof.
  intros [HL _] Hp Hlen Htab Hk. destruct (HL _ _ _ _ Hp) as (_ & Hl & Hnx & Hpv).
  assert (H1 : exists ops1, (match pv with
      | Some q => update_next_local q nx
      | None => with_heads (LocalsHead_replace_first l nx);; mret tt
      end) s = (Ok tt, set_local_heads (unlinked_heads (local_heads s) l pv nx) (set_operands ops1 s)) /\
    skel <$> ops1 = skel <$> operands s /\
    forall r, r <> p -> tab ops1 r = if decide (Some r = pv) then with_next nx (L r) else L r).
  { destruct pv as [q|]; cbn in Hpv.
    - destruct Hpv as (Hlt & (? & ? & Eq) & _). pose proof Eq as Eq'. rewrite <-Htab in Eq' by lia.
      destruct (update_next_local_run s q _ nx Eq') as (ops1 & E & ? & Ht). exists ops1. split.
      { rewrite E. by destruct s. }
      split; [done|]. intros r Hr. rewrite Ht. destruct (decide (r = q)) as [->|Hne].
      + by rewrite decide_True, Eq.
      + rewrite decide_False by congruence. by apply Htab.
    - exists (operands s). split; [|by split; [|intros; apply Htab]].
      destruct (lookup_lt_is_Some_2 (local_heads s) l) as [hd Hhd]; [lia|].
      unfold with_heads, LocalsHead_replace_first. unfold_m. rewrite Hhd. by destruct s. }
  destruct H1 as (ops1 & E1 & Hs1 & Ht1). unfold unlink_local. rewrite bind_run, E1. clear E1.
  assert (H2 : exists ops2, when_some nx (fun nx => update_prev_local nx pv)
      (set_local_heads (unlinked_heads (local_heads s) l pv nx) (set_operands ops1 s)) =
      (Ok tt, set_local_heads (unlinked_heads (local_heads s) l pv nx) (set_operands ops2 s)) /\
    skel <$> ops2 = skel <$> operands s /\
    forall r, r <> p -> tab ops2 r = unlinked L p pv nx r).
  { destruct nx as [q|]; cbn in Hnx.
    - destruct Hnx as (Hlt & (? & ? & Eq) & _).
      assert (Hpq : pv <> Some q).
      { intros ->. destruct Hpv. lia. }
      assert (Eq' : tab ops1 q = L q).
      { rewrite Ht1 by lia. by rewrite decide_False. }
      rewrite Eq in Eq'.
      edestruct (update_prev_local_run (set_local_heads (unlinked_heads (local_heads s) l pv (Some q))
        (set_operands ops1 s))) as (ops2 & E & Hs2 & Ht2); [exact Eq'|].
      exists ops2. split; [exact E|]. split; [by rewrite Hs2|]. intros r Hr. rewrite Ht2. cbn [operands set_local_heads set_operands].
      unfold unlinked. rewrite (decide_False (P := r = p)) by done.
      destruct (decide (r = q)) as [->|Hne].
      + rewrite (decide_False (P := Some q = pv)) by done. by rewrite decide_True, Eq.
      + rewrite Ht1 by done. destruct (decide (Some r = pv)); [done|].
        by rewrite decide_False by congruence.
    - exists ops1. split; [done|]. split; [done|]. intros r Hr. rewrite Ht1 by done.
      unfold unlinked. by rewrite (decide_False (P := r = p)). }
  destruct H2 as (ops2 & E2 & Hs2 & Ht2). rewrite bind_run, E2. clear E2.
  exists ops2. split; [|done]. unfold_m. cbn. by rewrite Hk.
Qed.

(** ** Pushing *)

(** The operand that pushing [op] leaves on the stack, without its links. *)
Definition pushed_operand (op : Operand) (offset : Z) : StackOperand :=
  let slots := {| span_head := Slot_from offset |} in
  match op with
  | Operand_Local o => SO_Local slots (lo_ty o) (lo_local_index o) None None
  | Operand_Temp o => SO_Temp slots (to_ty o) (to_in_reg o)
  | Operand_Immediate o => SO_Immediate slots (io_ty o) (io_val o)
  end.

(** What callers guarantee: the local is registered, the register is free. *)
Definition push_ready (s : OperandStack) (op : Operand) : Prop :=
  match op with
  | Operand_Local o => (lo_local_index o < length (local_heads s))%nat
  | Operand_Temp o => to_in_reg o = true ->
      to_ty o <> ValType_V128 /\ RegisterMap_get (regs s) (to_ty o) = None
  | Operand_Immediate _ => True
  end.

Definition pushed_regs (s : OperandStack) (op : Operand) : RegisterMap :=
  match op with
  | Operand_Temp o =>
      if to_in_reg o then put_reg (to_ty o) (Some (Link_Temp (length (operands s)))) (regs s)
      else regs s
  | _ => regs s
  end.

Lemma push_temp_offset_run s c :
  push_temp_offset c s =
  if temp_offset s + c <? 2 ^ 16
  then (Ok {| span_head := Slot_from (temp_offset s) |},
        set_slots (local_slots s) (temp_offset s + c) (Z.max (max_offset s) (temp_offset s + c)) s)
  else (Err AllocatedTooManySlots, s).
Proof. unfold push_temp_offset, checked_add. unfold_m. by destruct (_ <? _). Qed.

Lemma links_ok_push_nonlocal ops h o : is_local o = false ->
  links_ok (tab ops) h (length ops) -> links_ok (tab (ops ++ [o])) h (length (ops ++ [o])).
Proof.
  intros Ho Hl. apply (links_ok_ext (tab ops)).
  - intros p. destruct (decide (p = length ops)) as [->|Hne]; [|by rewrite tab_app_l].
    rewrite tab_app_top. unfold tab. rewrite lookup_ge_None_2 by done. by destruct o.
  - eapply links_ok_bound; [|done]. intros p [k Hp]. apply tab_lt in Hp. rewrite length_app. lia.
Qed.

Lemma links_ok_pop_nonlocal ops h o : is_local o = false ->
  links_ok (tab (ops ++ [o])) h (length (ops ++ [o])) -> links_ok (tab ops) h (length ops).
Proof.
  intros Ho Hl. apply (links_ok_bound _ _ (length (ops ++ [o]))).
  { intros p [k Hp]. by apply tab_lt in Hp. }
  apply (links_ok_ext (tab (ops ++ [o]))); [|done].
  intros p. destruct (decide (p = length ops)) as [->|Hne]; [|by rewrite tab_app_l].
  rewrite tab_app_top. unfold tab. rewrite (lookup_ge_None_2 ops) by done. by destruct o.
Qed.

(** The state after a push, from what it leaves at the top. *)
Definition after_push (ops : list StackOperand) (h : LocalsHead) (n : nat) (r : RegisterMap) (c : Z)
    (s : OperandStack) : OperandStack :=
  {| operands := ops; local_heads := h; os_len_locals := n; local_slots := local_slots s;
     temp_offset := temp_offset s + c; max_offset := Z.max (max_offset s) (temp_offset s + c);
     regs := r |}.

Lemma wf_push_nonlocal s o r : wf s -> is_local o = false ->
  StackOperand_temp_slots o = {| span_head := Slot_from (temp_offset s) |} ->
  temp_offset s + required_cells_for_ty (StackOperand_ty o) < 2 ^ 16 ->
  regs_ok ((skel <$> operands s) ++ [skel o]) r ->
  wf (after_push (operands s ++ [o]) (local_heads s) (os_len_locals s) r
        (required_cells_for_ty (StackOperand_ty o)) s).
Proof.
  intros (Hl & Hc & Hs & _) Ho Hts Hlt Hr. unfold wf, after_push. cbn [operands local_heads os_len_locals local_slots temp_offset max_offset regs].
  split_and!.
  - by apply links_ok_push_nonlocal.
  - rewrite count_locals_app, Hc. unfold count_locals at 3. cbn. rewrite Ho. lia.
  - rewrite fmap_app. cbn [fmap list_fmap]. rewrite <-(skel_ty o). apply slots_ok_push.
    + done.
    + by rewrite skel_temp_slots.
    + by rewrite skel_ty.
  - by rewrite fmap_app.
Qed.

Lemma wf_push_local s ops1 ts ty l hd : wf s ->
  local_heads s !! l = Some hd -> skel <$> ops1 = skel <$> operands s ->
  (forall r, tab ops1 r = if decide (Some r = hd) then with_prev (Some (length (operands s))) (tab (operands s) r)
             else tab (operands s) r) ->
  ts = {| span_head := Slot_from (temp_offset s) |} ->
  temp_offset s + required_cells_for_ty ty < 2 ^ 16 ->
  wf (after_push (ops1 ++ [SO_Local ts ty l None hd]) (<[l := Some (length (operands s))]> (local_heads s))
        (S (os_len_locals s)) (regs s) (required_cells_for_ty ty) s).
Proof.
  intros (Hl & Hc & Hs & Hr) Hhd Hsk Htab -> Hlt. unfold wf, after_push.
  cbn [operands local_heads os_len_locals local_slots temp_offset max_offset regs].
  assert (Hlen : length ops1 = length (operands s)) by (by apply skel_eq_length).
  rewrite !fmap_app, Hsk. split_and!.
  - rewrite length_app, Hlen. cbn [length]. rewrite Nat.add_1_r.
    apply (links_ok_ext (pushed (tab (operands s)) l (length (operands s)) hd)).
    + intros p. unfold pushed. rewrite <-Hlen. destruct (decide (p = length ops1)) as [->|Hne].
      * by rewrite tab_app_top.
      * by rewrite tab_app_l, Htab, Hlen.
    + by apply links_ok_pushed.
  - rewrite count_locals_app, (count_locals_eq _ _ Hsk), Hc. unfold count_locals at 3. cbn. lia.
  - by apply (slots_ok_push _ _ _ _ (SO_Local _ ty l None None)).
  - by apply regs_ok_push.
Qed.

(** The result of a run that ends in [Ok] and keeps the heads' length. *)
Definition push_post (op : Operand) (s : OperandStack) (x : Operand) (s' : OperandStack) : Prop :=
  wf s' /\
  skel <$> operands s' = (skel <$> operands s) ++ [pushed_operand op (temp_offset s)] /\
  x = RegisterMap_wrap_operand (regs s') (length (operands s)) (pushed_operand op (temp_offset s)) /\
  length (local_heads s') = length (local_heads s) /\
  local_slots s' = local_slots s /\
  temp_offset s' = temp_offset s + required_cells_for_ty (Operand_ty op) /\
  max_offset s' = Z.max (max_offset s) (temp_offset s') /\
  regs s' = pushed_regs s op.

Lemma push_local_run s l ty in_reg : wf s -> (l < length (local_heads s))%nat ->
  let op := Operand_Local {| lo_temp_slots := {| span_head := Slot_from 0 |}; lo_ty := ty;
                             lo_in_reg := in_reg; lo_local_index := l |} in
  if temp_offset s + required_cells_for_ty ty <? 2 ^ 16
  then exists x s', push_local l ty s = (Ok x, s') /\ push_post op s (Operand_Local x) s'
  else fst (push_local l ty s) = Err AllocatedTooManySlots.
Proof.
  intros Hwf Hl op. destruct (lookup_lt_is_Some_2 _ _ Hl) as [hd Hhd].
  pose proof Hwf as (Hlk & Hc & _). unfold push_local. rewrite bind_get_st, bind_run.
  unfold with_heads, zoom, LocalsHead_replace_first, next_stack_pos. rewrite Hhd.
  cbn [map_err]. rewrite bind_run.
  set (n := length (operands s)). set (s1 := set_local_heads _ s).
  assert (H1 : exists ops1, when_some hd (fun q => update_prev_local q (Some n)) s1 =
      (Ok tt, set_operands ops1 s1) /\ skel <$> ops1 = skel <$> operands s /\
    forall r, tab ops1 r = if decide (Some r = hd) then with_prev (Some n) (tab (operands s) r)
              else tab (operands s) r).
  { destruct hd as [q|].
    - destruct Hlk as [_ Hh]. pose proof (Hh _ _ Hhd) as (_ & (? & ? & Eq) & _).
      edestruct (update_prev_local_run s1) as (ops1 & E & ? & Ht); [exact Eq|].
      exists ops1. split; [exact E|]. split; [done|]. intros r. rewrite Ht.
      destruct (decide (r = q)) as [->|Hne]; [by rewrite decide_True, Eq|].
      by rewrite decide_False by congruence.
    - exists (operands s). split; [by destruct s|]. by split. }
  destruct H1 as (ops1 & -> & Hsk & Htab). rewrite bind_run, push_temp_offset_run.
  change (temp_offset (set_operands ops1 s1)) with (temp_offset s).
  destruct (Z.ltb_spec (temp_offset s + required_cells_for_ty ty) (2 ^ 16)) as [Hlt|]; [|done].
  eexists _, _. split; [reflexivity|]. unfold push_post.
  pose proof (wf_push_local _ _ _ ty _ _ Hwf Hhd Hsk Htab eq_refl Hlt) as Hwf'.
  split; [exact Hwf'|]. cbn. rewrite fmap_app, Hsk, length_insert. done.
Qed.

Lemma push_nonlocal_run s o : wf s -> is_local o = false -> skel o = o ->
  StackOperand_temp_slots o = {| span_head := Slot_from (temp_offset s) |} ->
  forall r, regs_ok ((skel <$> operands s) ++ [o]) r ->
  temp_offset s + required_cells_for_ty (StackOperand_ty o) < 2 ^ 16 ->
  wf (after_push (operands s ++ [o]) (local_heads s) (os_len_locals s) r
        (required_cells_for_ty (StackOperand_ty o)) s).
Proof. intros Hwf Ho Hsk Hts r Hr Hlt. apply wf_push_nonlocal; try done. by rewrite Hsk. Qed.

Lemma push_temp_run s ts ty pos in_reg : wf s ->
  let op := Operand_Temp {| to_temp_slots := ts; to_ty := ty; to_stack_pos := pos; to_in_reg := in_reg |} in
  push_ready s op ->
  if temp_offset s + required_cells_for_ty ty <? 2 ^ 16
  then exists x s', push_temp ty (if in_reg then Allocation_Reg else Allocation_None) s = (Ok x, s') /\
    push_post op s (Operand_Temp x) s'
  else fst (push_temp ty (if in_reg then Allocation_Reg else Allocation_None) s) = Err AllocatedTooManySlots.
Proof.
  intros Hwf op Hready. unfold push_temp. rewrite bind_get_st, bind_run.
  assert (H1 : (if Allocation_is_reg (if in_reg then Allocation_Reg else Allocation_None)
      then alloc_reg (Link_Temp (next_stack_pos s)) ty else mret tt) s =
    (Ok tt, set_regs (pushed_regs s op) s)).
  { unfold op, pushed_regs, push_ready in *. cbn [to_in_reg to_ty] in *. destruct in_reg; cbn [Allocation_is_reg].
    - destruct (Hready eq_refl) as [Hv Hfree].
      unfold alloc_reg, with_regs, zoom, RegisterMap_alloc. rewrite bind_run, bind_get_st, bind_run.
      rewrite RegisterMap_set_eq, decide_False by done. unfold_m. by rewrite Hfree.
    - by destruct s. }
  rewrite H1. clear H1. rewrite bind_run, push_temp_offset_run.
  change (temp_offset (set_regs _ s)) with (temp_offset s).
  destruct (Z.ltb_spec (temp_offset s + required_cells_for_ty ty) (2 ^ 16)) as [Hlt|]; [|done].
  eexists _, _. split; [reflexivity|].
  assert (Hwf' : wf (after_push (operands s ++ [pushed_operand op (temp_offset s)]) (local_heads s)
      (os_len_locals s) (pushed_regs s op) (required_cells_for_ty ty) s)).
  { apply (push_nonlocal_run s (pushed_operand op (temp_offset s))); try done.
    destruct Hwf as (_ & _ & _ & Hr). unfold op, pushed_regs, pushed_operand, push_ready in *.
    cbn [to_in_reg to_ty] in *. destruct in_reg; [|by apply regs_ok_push].
    destruct (Hready eq_refl) as [Hv Hfree].
    rewrite <-(length_fmap skel (operands s)). by apply regs_ok_push_reg. }
  unfold push_post. destruct in_reg; (split; [exact Hwf'|]); cbn; by rewrite fmap_app.
Qed.

Lemma push_operand_run s op : wf s -> push_ready s op ->
  if temp_offset s + required_cells_for_ty (Operand_ty op) <? 2 ^ 16
  then exists x s', push_operand op s = (Ok x, s') /\ push_post op s x s'
  else fst (push_operand op s) = Err AllocatedTooManySlots.
Proof.
  intros Hwf Hready. destruct op as [[ts ty in_reg l]|[ts ty pos in_reg]|[ts ty v]].
  - pose proof (push_local_run s l ty in_reg Hwf Hready) as H. cbn [Operand_ty lo_ty] in *.
    unfold push_operand. rewrite bind_run. cbn [lo_local_index lo_ty]. destruct (_ <? _).
    + destruct H as (x & s' & -> & H). by eexists _, _.
    + destruct (push_local l ty s) as [[]]; by simplify_eq/=.
  - pose proof (push_temp_run s ts ty pos in_reg Hwf Hready) as H. cbn [Operand_ty to_ty] in *.
    unfold push_operand. rewrite bind_run. unfold TempOperand_alloc. cbn [to_ty to_in_reg]. destruct (_ <? _).
    + destruct H as (x & s' & -> & H). by eexists _, _.
    + destruct (push_temp ty _ s) as [[]]; by simplify_eq/=.
  - unfold push_operand, push_immediate. cbn [Operand_ty io_ty]. rewrite !bind_run, push_temp_offset_run.
    cbn [ImmediateOperand_val typed_ty typed_value io_ty io_val].
    destruct (Z.ltb_spec (temp_offset s + required_cells_for_ty ty) (2 ^ 16)) as [Hlt|]; [|done].
    eexists _, _. split; [reflexivity|].
    assert (Hwf' : wf (after_push (operands s ++ [SO_Immediate {| span_head := Slot_from (temp_offset s) |} ty v])
        (local_heads s) (os_len_locals s) (regs s) (required_cells_for_ty ty) s)).
    { apply (push_nonlocal_run s (SO_Immediate _ ty v)); try done.
      apply regs_ok_push; [apply Hwf|done]. }
    unfold push_post. split; [exact Hwf'|]. cbn. by rewrite fmap_app.
Qed.

(** C2: Pushing an operand keeps the stack well-formed and appends the operand with
    the slots at the current offset, takes the register if the operand is a
    temporary in a register, raises the maximum offset when needed, and returns
    the operand as [get(0)] shows it; it fails exactly when the slots of the
    frame no longer fit 16 bits. *)
Theorem push_operand_spec s op : wf s -> push_ready s op ->
  if temp_offset s + required_cells_for_ty (Operand_ty op) <? 2 ^ 16
  then exists x s', push_operand op s = (Ok x, s') /\ push_post op s x s'
  else fst (push_operand op s) = Err AllocatedTooManySlots.
Proof. apply push_operand_run. Qed.

Lemma wf_push_operand s op : wf s -> push_ready s op ->
  is_ok (fst (push_operand op s)) = true -> wf (snd (push_operand op s)).
Proof.
  intros Hwf Hr Hok. pose proof (push_operand_run s op Hwf Hr) as H.
  destruct (_ <? _); [|by rewrite H in Hok]. destruct H as (x & s' & -> & Hp). apply Hp.
Qed.

(** ** Popping *)

Definition popped_regs (r : RegisterMap) (o : StackOperand) : RegisterMap :=
  match o with SO_Temp _ ty true => clear_reg ty r | _ => r end.

Lemma wrap_operand_skel r p o : RegisterMap_wrap_operand r p (skel o) = RegisterMap_wrap_operand r p o.
Proof. by destruct o. Qed.

Lemma wrap_operand_popped r p o :
  RegisterMap_wrap_operand (popped_regs r o) p o = RegisterMap_wrap_operand r p o.
Proof. by destruct o as [|? ? []|]. Qed.

Lemma pop_temp_offset_run s c : 0 <= c < 2 ^ 16 -> c <= temp_offset s ->
  pop_temp_offset c s = (Ok tt, set_slots (local_slots s) (temp_offset s - c) (max_offset s) s).
Proof.
  intros Hc Hle. unfold pop_temp_offset, try_from_u, checked_sub. unfold_m.
  destruct (Z.ltb_spec c (2 ^ 16)); [|lia]. destruct (Z.leb_spec c (temp_offset s)); [done|lia].
Qed.

Definition pop_post (s : OperandStack) (ops : list StackOperand) (o : StackOperand)
    (x : Operand) (s' : OperandStack) : Prop :=
  wf s' /\
  skel <$> operands s' = skel <$> ops /\
  x = RegisterMap_wrap_operand (regs s) (length ops) o /\
  length (local_heads s') = length (local_heads s) /\
  local_slots s' = local_slots s /\
  temp_offset s' = temp_offset s - required_cells_for_ty (StackOperand_ty o) /\
  max_offset s' = max_offset s /\
  regs s' = popped_regs (regs s) o.

(** Everything of the invariant but the links after a pop. *)
Lemma wf_pop_rest ops o locals temp max r :
  slots_ok (skel <$> (ops ++ [o])) locals temp max -> regs_ok (skel <$> (ops ++ [o])) r ->
  slots_ok (skel <$> ops) locals (temp - required_cells_for_ty (StackOperand_ty o)) max /\
  regs_ok (skel <$> ops) (popped_regs r o).
Proof.
  rewrite fmap_app. intros Hs Hr. split.
  - rewrite <-(skel_ty o). by apply (slots_ok_pop _ _ _ _ (skel o)).
  - destruct o as [ts ty l pv nx|ts ty []|]; cbn in *; [by eapply regs_ok_pop| |by eapply regs_ok_pop..].
    by eapply regs_ok_pop_reg.
Qed.

Lemma pop_links s s1 ops o : wf s -> operands s = ops ++ [o] -> operands s1 = ops ->
  local_heads s1 = local_heads s -> os_len_locals s1 = os_len_locals s ->
  exists s', try_unlink_local o s1 = (Ok tt, s') /\
    links_ok (tab (operands s')) (local_heads s') (length (operands s')) /\
    os_len_locals s' = count_locals (operands s') /\
    skel <$> operands s' = skel <$> ops /\
    length (local_heads s') = length (local_heads s) /\
    local_slots s' = local_slots s1 /\ temp_offset s' = temp_offset s1 /\
    max_offset s' = max_offset s1 /\ regs s' = regs s1.
Proof.
  intros (Hl & Hc & _) E E1 Eh En. rewrite E in Hl, Hc. destruct (is_local o) eqn:Ho.
  - destruct o as [ts ty l pv nx| |]; [|done..].
    assert (Htop : tab (ops ++ [SO_Local ts ty l pv nx]) (length ops) = Some (l, pv, nx)) by apply tab_app_top.
    rewrite count_locals_app in Hc. unfold count_locals at 2 in Hc. cbn in Hc.
    edestruct (unlink_local_run s1) as (ops' & E' & Hsk & Ht); [exact Hl|exact Htop|by rewrite Eh|..].
    { intros r Hr. rewrite E1. symmetry. by apply tab_app_l. }
    { rewrite En, Hc. rewrite Nat.add_1_r. done. }
    eexists. split; [exact E'|]. cbn. rewrite E1 in Hsk. pose proof (skel_eq_length _ _ Hsk) as Hlen.
    split_and!; try done.
    + rewrite Eh. eapply links_ok_bound; [|eapply links_ok_ext; [|apply (links_ok_unlinked _ _ _ _ _ _ _ Hl Htop)]].
      { intros p [k Hp]. by apply tab_lt in Hp. }
      intros r. destruct (decide (r = length ops)) as [->|Hne]; [|by rewrite Ht].
      unfold unlinked. rewrite decide_True by done. unfold tab. by rewrite lookup_ge_None_2 by lia.
    + symmetry. by apply count_locals_eq.
    + rewrite Eh. destruct pv; [done|]. cbn. by rewrite length_insert.
  - exists s1. split; [by destruct o|]. rewrite Eh, En, E1. split_and!; try done.
    + by eapply links_ok_pop_nonlocal.
    + rewrite Hc, count_locals_app. unfold count_locals at 2. cbn. rewrite Ho. lia.
Qed.

Lemma try_unlink_reg_run o s :
  try_unlink_reg o s =
  match o with
  | SO_Temp _ ty true =>
      if decide (ty = ValType_V128) then (Panic, set_regs (regs s) s)
      else (Ok match RegisterMap_get (regs s) ty with Some (Link_Temp p) => Some p | _ => None end,
            set_regs (clear_reg ty (regs s)) s)
  | _ => (Ok None, s)
  end.
Proof.
  destruct o as [|ts ty []|]; try done. unfold try_unlink_reg, with_regs, zoom, RegisterMap_dealloc.
  rewrite bind_run, bind_get_st, bind_run, RegisterMap_set_eq, put_reg_None.
  destruct (decide (ty = ValType_V128)) as [->|]; done.
Qed.

Lemma OperandStack_pop_run s ops o : wf s -> operands s = ops ++ [o] ->
  exists x s', OperandStack_pop s = (Ok x, s') /\ pop_post s ops o x s'.
Proof.
  intros Hwf E. pose proof Hwf as (_ & _ & Hs & Hr). rewrite E in Hs, Hr.
  pose proof (required_cells_bounds (StackOperand_ty o)) as Hb.
  pose proof Hs as (Hn & Ht & Hm & _).
  assert (Hcells : required_cells_for_ty (StackOperand_ty o) <= temp_offset s).
  { rewrite fmap_app, ops_cells_app in Ht. cbn [fmap list_fmap] in Ht.
    rewrite ops_cells_single, skel_ty in Ht. pose proof (ops_cells_nonneg (skel <$> ops)). lia. }
  destruct (wf_pop_rest _ _ _ _ _ _ Hs Hr) as [Hs' Hr'].
  unfold OperandStack_pop. rewrite bind_get_st, E, last_snoc, bind_lift. cbn [expect].
  rewrite removelast_last, bind_run. cbn [put_st]. rewrite bind_run.
  rewrite pop_temp_offset_run by (cbn; lia). rewrite bind_get_st, bind_run.
  match goal with |- context [try_unlink_local o ?s1] =>
    destruct (pop_links s s1 ops o Hwf E eq_refl eq_refl eq_refl)
      as (s2 & E2 & Hl2 & Hc2 & Hsk2 & Hh2 & Hls2 & Ht2 & Hm2 & Hr2)
  end.
  rewrite E2.
  cbn [local_slots temp_offset max_offset regs set_slots set_operands] in Hls2, Ht2, Hm2, Hr2.
  rewrite bind_run, try_unlink_reg_run.
  assert (Hpop : pop_post s ops o (RegisterMap_wrap_operand (regs s) (length ops) o)
                   (set_regs (popped_regs (regs s) o) s2)).
  { unfold pop_post, wf. cbn. rewrite Hsk2, Hls2, Ht2, Hm2. split_and!; done. }
  destruct o as [ts ty l pv nx|ts ty []|ts ty v].
  1,3,4: eexists _, s2; split; [rewrite bind_run; cbn; rewrite ?Hr2; reflexivity|];
    cbn [popped_regs] in Hpop; replace (set_regs (regs s) s2) with s2 in Hpop
      by (rewrite <-Hr2; by destruct s2); cbn in *; rewrite ?Hr2; exact Hpop.
  rewrite fmap_app in Hr. destruct (regs_ok_pop_reg _ _ ts ty Hr) as [Hget _].
  rewrite length_fmap in Hget. rewrite decide_False by (by intros ->).
  eexists _, _. split; [|exact Hpop]. rewrite Hr2, Hget, bind_run. cbn. by rewrite Nat.eqb_refl.
Qed.

(** The last operand is the one of depth 0: for [operands.rs], whose documentation of
    [get] says that a depth of 1 returns it, depth 1 is the operand before it and
    out of bounds if there is none. *)
Lemma OperandStack_get_depth1 s ops o : operands s = ops ++ [o] ->
  OperandStack_get (E := TranslationError) s 0 = Ok (RegisterMap_wrap_operand (regs s) (length ops) o) /\
  OperandStack_get (E := TranslationError) s 1 =
    match last ops with
    | Some o' => Ok (RegisterMap_wrap_operand (regs s) (length ops - 1) o')
    | None => Panic
    end.
Proof.
  intros E. unfold OperandStack_get, depth_to_stack_pos, OperandStack_height, get_at. rewrite E, length_app.
  cbn [length]. split.
  - rewrite (leb_correct (0 + 1)) by lia. replace (length ops + 1 - 0 - 1)%nat with (length ops) by lia.
    unfold_m. by rewrite lookup_app_r, Nat.sub_diag by lia.
  - destruct ops as [|o' ops _] using rev_ind; [done|]. rewrite last_snoc, length_app. cbn [length].
    rewrite (leb_correct (1 + 1)) by lia. replace (length ops + 1 + 1 - 1 - 1)%nat with (length ops) by lia.
    replace (length ops + 1 - 1)%nat with (length ops) by lia. unfold_m.
    by rewrite <-app_assoc, lookup_app_r, Nat.sub_diag by lia.
Qed.

(** C3: Popping an empty stack panics; popping any other well-formed stack succeeds,
    returns the operand that [get(0)] shows, and removes it with its slots, its
    links and its register. *)
Theorem OperandStack_pop_spec s : wf s ->
  (operands s = [] -> OperandStack_pop s = (Panic, s)) /\
  (forall ops o, operands s = ops ++ [o] ->
     exists x s', OperandStack_pop s = (Ok x, s') /\ pop_post s ops o x s' /\
       OperandStack_get (E := TranslationError) s 0 = Ok x).
Proof.
  intros Hwf. split.
  - intros E. unfold OperandStack_pop. by rewrite bind_get_st, E.
  - intros ops o E. destruct (OperandStack_pop_run s ops o Hwf E) as (x & s' & Ep & Hp).
    exists x, s'. split; [done|]. split; [done|].
    destruct Hp as (_ & _ & -> & _). apply (OperandStack_get_depth1 s ops o E).
Qed.

(** The links of a well-formed stack are determined by its operands. *)
Lemma wf_unique s s' : wf s -> wf s' -> skel <$> operands s = skel <$> operands s' ->
  length (local_heads s) = length (local_heads s') ->
  operands s = operands s' /\ local_heads s = local_heads s' /\ os_len_locals s = os_len_locals s'.
Proof.
  intros (Hl & Hc & _) (Hl' & Hc' & _) Hsk Hlen. pose proof (skel_eq_length _ _ Hsk) as Hn.
  assert (Hat : forall p, skel <$> operands s !! p = skel <$> operands s' !! p).
  { intros p. by rewrite <-!list_lookup_fmap, Hsk. }
  assert (Hu : forall l p, uses (tab (operands s)) l p <-> uses (tab (operands s')) l p).
  { intros l p. specialize (Hat p). unfold uses, tab.
    destruct (operands s !! p) as [[]|], (operands s' !! p) as [[]|]; cbn in Hat; naive_solver. }
  rewrite Hn in Hl. destruct (links_ok_unique _ _ _ _ _ Hl Hl' Hlen Hu) as [Ht ->].
  split_and!; [|done|by rewrite Hc, Hc'; apply count_locals_eq].
  apply list_eq. intros p. specialize (Hat p). specialize (Ht p). unfold tab in Ht.
  destruct (operands s !! p) as [[]|], (operands s' !! p) as [[]|]; cbn in Hat; simplify_eq; done.
Qed.

Lemma clear_put_reg ty link r : ty <> ValType_V128 -> RegisterMap_get r ty = None ->
  clear_reg ty (put_reg ty link r) = r.
Proof. intros ? H. destruct ty; try done; cbn in H; destruct r; cbn in *; by subst. Qed.

(** C1: Popping undoes pushing: the operand comes back and the stack is as before,
    links, registers and all, but for the maximum offset it has reached. *)
Theorem push_operand_pop s op x s1 : wf s -> push_ready s op ->
  push_operand op s = (Ok x, s1) ->
  OperandStack_pop s1 =
    (Ok x, set_slots (local_slots s) (temp_offset s) (Z.max (max_offset s) (temp_offset s1)) s).
Proof.
  intros Hwf Hready Hpush. pose proof (push_operand_run s op Hwf Hready) as H. rewrite Hpush in H.
  destruct (_ <? _); [|by cbn in H]. destruct H as (x' & s1' & [= <- <-] & Hpost).
  destruct Hpost as (Hwf1 & Hsk1 & -> & Hh1 & Hls1 & Ht1 & Hm1 & Hr1).
  assert (Hne : exists ops o, operands s1 = ops ++ [o] /\ skel <$> ops = skel <$> operands s /\
    skel o = pushed_operand op (temp_offset s)).
  { apply fmap_app_inv in Hsk1 as (ops & os & ? & Hos & E). symmetry in Hos.
    destruct os as [|o [|]]; cbn in Hos; [done| |done]. injection Hos as ?. by exists ops, o. }
  destruct Hne as (ops & o & E1 & Hsk & Ho).
  destruct (OperandStack_pop_run s1 ops o Hwf1 E1) as (x & s2 & -> & Hwf2 & Hsk2 & -> & Hh2 & Hls2 & Ht2 & Hm2 & Hr2).
  rewrite Hsk in Hsk2. destruct (wf_unique s2 s Hwf2 Hwf Hsk2) as (Eo & Eh & En); [by rewrite Hh2|].
  rewrite (skel_eq_length _ _ Hsk), <-Ho, wrap_operand_skel. f_equal.
  assert (Hty : StackOperand_ty o = Operand_ty op).
  { rewrite <-(skel_ty o), Ho. by destruct op. }
  assert (Hreg : regs s2 = regs s).
  { rewrite Hr2, Hr1. destruct op as [p|p|p]; cbn in Ho, Hready; destruct o as [|ts ty in_reg|];
      cbn in Ho; simplify_eq; try done; cbn in *.
    destruct (to_in_reg p); [|done]. destruct (Hready eq_refl). by apply clear_put_reg. }
  rewrite Hty, Ht1 in Ht2. rewrite Hm1 in Hm2. rewrite Hls1 in Hls2. clear -Eo Eh En Hls2 Ht2 Hm2 Hreg.
  destruct s2, s; cbn in *; subst. unfold set_slots. cbn. f_equal; lia.
Qed.

(** ** Turning operands into temporaries *)

Definition temp_of (o : StackOperand) : StackOperand :=
  SO_Temp (StackOperand_temp_slots o) (StackOperand_ty o) false.

(** What turning the operand at [p] into a temporary changes, next to links. *)
Definition temp_post (s : OperandStack) (p : nat) (o : StackOperand) (s' : OperandStack) : Prop :=
  wf s' /\
  skel <$> operands s' = <[p := temp_of o]> (skel <$> operands s) /\
  length (local_heads s') = length (local_heads s) /\
  local_slots s' = local_slots s /\ temp_offset s' = temp_offset s /\ max_offset s' = max_offset s /\
  regs s' = popped_regs (regs s) o.

Lemma slots_regs_to_temp ops locals temp max r p o : ops !! p = Some o ->
  slots_ok (skel <$> ops) locals temp max -> regs_ok (skel <$> ops) r ->
  slots_ok (<[p := temp_of o]> (skel <$> ops)) locals temp max /\
  regs_ok (<[p := temp_of o]> (skel <$> ops)) (popped_regs r o).
Proof.
  intros Hp Hs Hr. assert (Hp' : (skel <$> ops) !! p = Some (skel o)) by (by rewrite list_lookup_fmap, Hp).
  split.
  - eapply slots_ok_insert; [done|done|by destruct o..].
  - destruct o as [|? ? []|]; cbn in *; [by eapply regs_ok_insert|by eapply regs_ok_clear|by eapply regs_ok_insert..].
Qed.

Lemma local_to_temp_run s h p ts ty l pv nx : wf s ->
  operands s !! p = Some (SO_Local ts ty l pv nx) ->
  length h = length (local_heads s) ->
  unlinked_heads h l pv nx = unlinked_heads (local_heads s) l pv nx ->
  exists s', unlink_local l pv nx (set_local_heads h s) = (Ok tt, s') /\
    (p < length (operands s'))%nat /\
    let s'' := set_operands (<[p := SO_Temp ts ty false]> (operands s')) s' in
    temp_post s p (SO_Local ts ty l pv nx) s'' /\
    local_heads s'' = unlinked_heads (local_heads s) l pv nx.
Proof.
  intros (Hl & Hc & Hs & Hr) Hp Hlen Hh.
  assert (Htab : tab (operands s) p = Some (l, pv, nx)) by (unfold tab; by rewrite Hp).
  pose proof (count_locals_insert _ _ _ (SO_Temp ts ty false) Hp eq_refl eq_refl) as Hk.
  edestruct (unlink_local_run (set_local_heads h s)) as (ops' & E & Hsk & Ht);
    [exact Hl|exact Htab|exact Hlen|done|cbn; by rewrite Hc, Hk|].
  destruct (slots_regs_to_temp _ _ _ _ _ _ _ Hp Hs Hr) as [Hs' Hr'].
  cbn [operands set_local_heads] in Hsk. pose proof (skel_eq_length _ _ Hsk) as Hn.
  assert (Hpn : (p < length ops')%nat) by (rewrite Hn; by apply lookup_lt_Some in Hp).
  eexists. split; [exact E|]. cbn. split; [done|]. split; [|done]. rewrite Hh.
  assert (Hsk' : skel <$> <[p := SO_Temp ts ty false]> ops' =
    <[p := SO_Temp ts ty false]> (skel <$> operands s)) by (by rewrite list_fmap_insert, Hsk).
  unfold temp_post, wf. cbn. rewrite Hsk'. split_and!; try done.
  - rewrite length_insert, Hn. eapply links_ok_ext; [|apply (links_ok_unlinked _ _ _ _ _ _ _ Hl Htab)].
    intros r. rewrite tab_insert by done. destruct (decide (r = p)) as [->|Hne]; [|by rewrite Ht].
    unfold unlinked. by rewrite decide_True.
  - apply count_locals_eq. by rewrite Hsk', list_fmap_insert.
  - destruct pv; [done|]. cbn. by rewrite length_insert.
Qed.

Lemma nonlocal_to_temp s p o : wf s -> operands s !! p = Some o -> is_local o = false ->
  temp_post s p o (set_operands (<[p := temp_of o]> (operands s)) (set_regs (popped_regs (regs s) o) s)).
Proof.
  intros (Hl & Hc & Hs & Hr) Hp Ho. destruct (slots_regs_to_temp _ _ _ _ _ _ _ Hp Hs Hr) as [Hs' Hr'].
  assert (Hsk' : skel <$> <[p := temp_of o]> (operands s) = <[p := temp_of o]> (skel <$> operands s))
    by (by rewrite list_fmap_insert).
  unfold temp_post, wf. cbn. rewrite Hsk'. split_and!; try done.
  - rewrite length_insert. eapply links_ok_ext; [|exact Hl]. intros r.
    rewrite tab_insert by (by apply lookup_lt_Some in Hp). destruct (decide (r = p)) as [->|Hne]; [|done].
    unfold tab. rewrite Hp. by destruct o.
  - by rewrite (count_locals_insert_same _ _ _ _ Hp).
Qed.

(** Turning an operand into a temporary keeps the stack well-formed, replaces
    this operand alone, unlinks it if it is a local and frees its register if
    it has one; out of bounds it panics. *)
Theorem operand_to_temp_at_spec s p : wf s ->
  match operands s !! p with
  | Some o => exists s', operand_to_temp_at p s = (Ok o, s') /\ temp_post s p o s'
  | None => operand_to_temp_at p s = (Panic, s)
  end.
Proof.
  intros Hwf. unfold operand_to_temp_at. rewrite bind_get_st, bind_lift. unfold get_at, expect.
  destruct (operands s !! p) as [o|] eqn:Hp; [|done]. destruct (is_local o) eqn:Ho.
  - destruct o as [ts ty l pv nx| |]; [|done..].
    destruct (local_to_temp_run s (local_heads s) p ts ty l pv nx Hwf Hp eq_refl eq_refl)
      as (s' & E & _ & Hpost & _). cbn [try_unlink_local].
    replace (set_local_heads (local_heads s) s) with s in E by (by destruct s).
    rewrite bind_run, E. eexists. split; [reflexivity|exact Hpost].
  - pose proof (nonlocal_to_temp s p o Hwf Hp Ho) as Hpost. destruct Hwf as (_ & _ & _ & Hr).
    assert (E : try_unlink_local o s = (Ok tt, s)) by (by destruct o). rewrite bind_run, E, bind_run.
    rewrite try_unlink_reg_run. destruct o as [|ts ty []|ts ty v]; [done|..].
    + rewrite decide_False; [eexists; split; [reflexivity|exact Hpost]|]. intros ->.
      destruct Hr as [_ Hr]. specialize (Hr p ts ValType_V128).
      rewrite list_lookup_fmap, Hp in Hr. by specialize (Hr eq_refl).
    + eexists. split; [reflexivity|]. cbn [popped_regs] in Hpost.
      by replace (set_regs (regs s) s) with s in Hpost by (by destruct s).
    + eexists. split; [reflexivity|]. cbn [popped_regs] in Hpost.
      by replace (set_regs (regs s) s) with s in Hpost by (by destruct s).
Qed.

(** The same through [preserve_local_at], where the head of the local may have
    been cleared before. *)
Lemma preserve_local_at_run s h p ts ty l pv nx : wf s ->
  operands s !! p = Some (SO_Local ts ty l pv nx) ->
  length h = length (local_heads s) ->
  unlinked_heads h l pv nx = unlinked_heads (local_heads s) l pv nx ->
  exists s', preserve_local_at p (set_local_heads h s) = (Ok (SO_Local ts ty l pv nx), s') /\
    temp_post s p (SO_Local ts ty l pv nx) s' /\
    local_heads s' = unlinked_heads (local_heads s) l pv nx.
Proof.
  intros Hwf Hp Hlen Hh. destruct (local_to_temp_run s h p ts ty l pv nx Hwf Hp Hlen Hh)
    as (s' & E & _ & Hpost & Hheads).
  unfold preserve_local_at. rewrite bind_get_st, bind_lift. unfold get_at, expect.
  cbn [operands set_local_heads]. rewrite Hp, bind_run, E.
  eexists. split; [reflexivity|]. by split.
Qed.

(** ** Registering locals *)

Lemma wf_no_operands s : operands s = [] -> os_len_locals s = 0%nat ->
  (forall l hd, local_heads s !! l = Some hd -> hd = None) ->
  0 <= local_slots s -> temp_offset s = local_slots s -> temp_offset s <= max_offset s < 2 ^ 16 ->
  (forall ty p, RegisterMap_get (regs s) ty <> Some (Link_Temp p)) -> wf s.
Proof.
  intros Eo En Hh H0 Ht Hm Hr. unfold wf. rewrite Eo, En. split_and!; [|done| |].
  - split; [done|]. intros l hd Hl. rewrite (Hh _ _ Hl). cbn. lia.
  - split; [done|]. split; [cbn; lia|]. by split.
  - split; [|done]. intros ty p Hp. by destruct (Hr ty p).
Qed.

(** Registering locals on a stack without operands appends their heads and
    reserves their slots below all temporaries, keeping the stack well-formed;
    it fails exactly when the number of locals or of slots does not fit 16 bits,
    and panics when operands have been pushed before. *)
Theorem OperandStack_register_locals_spec s amount ty : wf s -> operands s = [] -> in_u usize_bits amount ->
  let n := amount * required_cells_for_ty ty in
  let '(r, s') := OperandStack_register_locals amount ty s in
  match r with
  | Ok _ => local_slots s = max_offset s /\ local_slots s + n < 2 ^ 16 /\ wf s' /\ operands s' = [] /\
      local_heads s' = local_heads s ++ replicate (Z.to_nat amount) None /\
      local_slots s' = local_slots s + n /\ temp_offset s' = local_slots s' /\ max_offset s' = local_slots s'
  | Err TooManyLocalVariables => 2 ^ 16 <= amount
  | Err AllocatedTooManySlots => amount < 2 ^ 16 <= local_slots s + n
  | Err _ => False
  | Panic => amount < 2 ^ 16 /\ local_slots s < max_offset s
  end.
Proof.
  intros Hwf Eo [Ha _] n. pose proof Hwf as ([_ Hh] & Hc & (H0 & Ht & Hm & _) & [Hr _]).
  pose proof (required_cells_bounds ty) as Hb. rewrite Eo in *. cbn in Ht.
  unfold OperandStack_register_locals, push_local_slots, try_from_u, checked_mul, checked_add. unfold_m.
  destruct (Z.ltb_spec amount (2 ^ 16)) as [Hlt|]; [|done]. change (amount * required_cells_for_ty ty) with n.
  destruct (Z.ltb_spec n (2 ^ 16)) as [Hn|Hn]; [|lia]. cbn [local_slots max_offset set_local_heads].
  destruct (Z.eqb_spec (local_slots s) (max_offset s)) as [He|He]; [|lia].
  destruct (Z.ltb_spec (local_slots s + n) (2 ^ 16)) as [Hs|Hs]; [|lia].
  cbn. rewrite Eo. split_and!; try done; [|lia].
  apply wf_no_operands; cbn; try done; try lia.
  - intros l hd [Hl|[_ Hl]]%lookup_app_Some.
    + specialize (Hh _ _ Hl). destruct hd; [|done]. cbn in Hh. lia.
    + by apply lookup_replicate in Hl as [-> _].
  - intros ty' p Hp. destruct (Hr ty' p Hp) as (? & ? & Hl & _). done.
Qed.
End Spec.

(** ** A sample stack

    Three locals of one cell; on the stack local 0, a temporary in the [f64]
    register, a constant, local 0 again and local 1. *)
Module Sample.
#[local] Existing Instance default_target.

Definition op_local (l : LocalIdx) (ty : ValType) : Operand :=
  Operand_Local {| lo_temp_slots := {| span_head := Slot_from 0 |}; lo_ty := ty; lo_in_reg := false;
                   lo_local_index := l |}.
Definition op_temp (ty : ValType) (in_reg : bool) : Operand :=
  Operand_Temp {| to_temp_slots := {| span_head := Slot_from 0 |}; to_ty := ty; to_stack_pos := 0%nat;
                  to_in_reg := in_reg |}.
Definition op_imm (ty : ValType) (bits : Z) : Operand :=
  Operand_Immediate {| io_temp_slots := {| span_head := Slot_from 0 |}; io_ty := ty;
                       io_val := {| lo64 := bits; hi64 := 0 |} |}.

Definition s0 : OperandStack := snd (OperandStack_register_locals 3 ValType_I64 OperandStack_default).
Definition s1 : OperandStack := snd (push_operand (op_local 0 ValType_I64) s0).
Definition s2 : OperandStack := snd (push_operand (op_temp ValType_F64 true) s1).
Definition s3 : OperandStack := snd (push_operand (op_imm ValType_I32 7) s2).
Definition s4 : OperandStack := snd (push_operand (op_local 0 ValType_I64) s3).
Definition s5 : OperandStack := snd (push_operand (op_local 1 ValType_I64) s4).

Lemma wf_default : wf OperandStack_default.
Proof. apply wf_no_operands; try done. by intros [] p. Qed.

Lemma wf_s0 : wf s0.
Proof.
  apply wf_no_operands; try done; [|by intros [] p].
  intros l hd Hl. change (local_heads s0) with (replicate 3 (@None nat)) in Hl.
  by apply lookup_replicate in Hl as [-> _].
Qed.

Lemma wf_s4 : wf s4.
Proof.
  assert (H1 : wf s1) by (apply wf_push_operand; [apply wf_s0|apply Nat.ltb_lt; reflexivity|done]).
  assert (H2 : wf s2) by (apply wf_push_operand; [apply H1|done|done]).
  assert (H3 : wf s3) by (apply wf_push_operand; [apply H2|done|done]).
  apply wf_push_operand; [apply H3|apply Nat.ltb_lt; reflexivity|done].
Qed.
Lemma wf_s5 : wf s5.
Proof. apply wf_push_operand; [apply wf_s4|apply Nat.ltb_lt; reflexivity|done]. Qed.

(** What pushing local 1 on [s4] returns. *)
Definition x5 : Operand :=
  Operand_Local {| lo_temp_slots := {| span_head := {| slot_raw := 56 |} |}; lo_ty := ValType_I64;
                   lo_in_reg := false; lo_local_index := 1 |}.
End Sample.

Lemma OperandStack_register_locals_spec_witness :
  wf (T := default_target) OperandStack_default /\
  local_slots (snd (OperandStack_register_locals (T := default_target) 3 ValType_I64 OperandStack_default)) = 3.
Proof.
  split; [apply Sample.wf_default|].
  pose proof (OperandStack_register_locals_spec (T := default_target) OperandStack_default 3 ValType_I64
    Sample.wf_default eq_refl ltac:(split; [lia|reflexivity])) as H.
  destruct H as (_ & _ & _ & _ & _ & H & _). exact H.
Defined.

Lemma push_operand_spec_witness :
  exists x s', push_operand (T := default_target) (Sample.op_temp ValType_I32 true) Sample.s5 = (Ok x, s') /\
    push_post (T := default_target) (Sample.op_temp ValType_I32 true) Sample.s5 x s'.
Proof.
  exact (push_operand_spec (T := default_target) Sample.s5 (Sample.op_temp ValType_I32 true) Sample.wf_s5
    (fun _ => conj (fun H : ValType_I32 = ValType_V128 => ltac:(discriminate H)) eq_refl)).
Defined.

Lemma OperandStack_pop_spec_witness :
  exists x s', OperandStack_pop (T := default_target) Sample.s5 = (Ok x, s') /\ temp_offset s' = 7.
Proof.
  pose proof (OperandStack_pop_spec (T := default_target) Sample.s5 Sample.wf_s5) as [_ H].
  destruct (H (take 4 (operands Sample.s5)) (SO_Local {| span_head := {| slot_raw := 56 |} |} ValType_I64 1 None None)
    ltac:(vm_compute; reflexivity)) as (x & s' & E & (_ & _ & _ & _ & _ & Ht & _) & _).
  exists x, s'. split; [exact E|]. rewrite Ht. vm_compute. reflexivity.
Defined.

Lemma push_operand_pop_witness :
  push_operand (T := default_target) (Sample.op_local 1 ValType_I64) Sample.s4 = (Ok Sample.x5, Sample.s5) /\
  OperandStack_pop (T := default_target) Sample.s5 = (Ok Sample.x5, set_slots 3 7 8 Sample.s4).
Proof.
  assert (E : push_operand (T := default_target) (Sample.op_local 1 ValType_I64) Sample.s4 =
    (Ok Sample.x5, Sample.s5)) by (vm_compute; reflexivity).
  split; [exact E|].
  exact (push_operand_pop (T := default_target) Sample.s4 (Sample.op_local 1 ValType_I64) Sample.x5 Sample.s5
    Sample.wf_s4 ltac:(apply Nat.ltb_lt; reflexivity) E).
Defined.

Lemma operand_to_temp_at_spec_witness :
  exists s', operand_to_temp_at 3 Sample.s5 =
    (Ok (SO_Local {| span_head := {| slot_raw := 48 |} |} ValType_I64 0 None (Some 0%nat)), s') /\
    max_offset s' = 8.
Proof.
  pose proof (operand_to_temp_at_spec (T := default_target) Sample.s5 3 Sample.wf_s5) as H.
  assert (Ho : operands Sample.s5 !! 3%nat =
    Some (SO_Local {| span_head := {| slot_raw := 48 |} |} ValType_I64 0 None (Some 0%nat))) by (vm_compute; reflexivity).
  rewrite Ho in H. destruct H as (s' & E & (_ & _ & _ & _ & _ & Hm & _)).
  exists s'. split; [exact E|]. rewrite Hm. vm_compute. reflexivity.
Defined.
