(* ===== verification/Preserve.v ===== *)
(** * Preserving operands

    What [preserve_locals], [preserve_all_locals] and [preserve_all_regs] of
    [func/stack/operands.rs] do to the operand stack: the translator calls them
    before a local or a register is overwritten and at control flow joins, and
    copies every operand they yield to its own slot. *)

From Stdlib Require Import ZArith Lia.
From stdpp Require Import base option decidable numbers list.
From S2P Require Import Prelude Value Slot Locals Operands OperandSpec.
Local Open Scope nat_scope.

Section Preserve.
Context `{T : Target}.

(** ** The uses of one local *)

(** An operand after the preservation of local [l], and what the iterator
    yields for it. *)
Definition preserved_local (l : LocalIdx) (o : StackOperand) : StackOperand :=
  match o with
  | SO_Local _ _ l' _ _ => if decide (l' = l) then temp_of o else o
  | _ => o
  end.

Definition yielded_local (l : LocalIdx) (in_reg : bool) (o : StackOperand) : option LocalOperand :=
  match o with
  | SO_Local ts ty l' _ _ =>
      if decide (l' = l)
      then Some {| lo_temp_slots := ts; lo_ty := ty; lo_in_reg := in_reg; lo_local_index := l' |} else None
  | _ => None
  end.

Lemma yielded_none l in_reg ops :
  (forall p, ~ uses (tab ops) l p) -> omap (yielded_local l in_reg) (skel <$> ops) = [] /\
  preserved_local l <$> (skel <$> ops) = skel <$> ops.
Proof.
  induction ops as [|o ops IH]; intros Hn; [done|].
  destruct IH as [IH1 IH2]. { intros p Hp. apply (Hn (S p)). exact Hp. }
  assert (Ho : yielded_local l in_reg (skel o) = None /\ preserved_local l (skel o) = skel o).
  { destruct o as [ts ty l' pv nx| |]; try done. cbn. destruct (decide (l' = l)) as [->|]; [|done].
    destruct (Hn 0). by eexists _, _. }
  destruct Ho as [Ho1 Ho2]. cbn. by rewrite Ho1, Ho2, IH1, IH2.
Qed.

Lemma uses_drop ops p l r : uses (tab (drop p ops)) l r <-> uses (tab ops) l (p + r).
Proof. unfold uses, tab. by rewrite lookup_drop. Qed.

(** The top-most use of [l] is at [p]. *)
Lemma yielded_top l in_reg ops p ts ty pv nx o' :
  ops !! p = Some (SO_Local ts ty l pv nx) -> (forall r, p < r -> ~ uses (tab ops) l r) ->
  o' = SO_Temp ts ty false ->
  rev (omap (yielded_local l in_reg) (skel <$> ops)) =
    {| lo_temp_slots := ts; lo_ty := ty; lo_in_reg := in_reg; lo_local_index := l |} ::
    rev (omap (yielded_local l in_reg) (<[p := o']> (skel <$> ops))) /\
  preserved_local l <$> <[p := o']> (skel <$> ops) = preserved_local l <$> (skel <$> ops).
Proof.
  intros Hp Hn ->.
  assert (Hp' : (skel <$> ops) !! p = Some (SO_Local ts ty l None None)) by (by rewrite list_lookup_fmap, Hp).
  assert (Hd : omap (yielded_local l in_reg) (drop (S p) (skel <$> ops)) = []).
  { rewrite <-fmap_drop. apply yielded_none. intros r Hr%uses_drop. apply (Hn (S p + r)); [lia|done]. }
  split.
  - rewrite <-(take_drop_middle _ _ _ Hp') at 1.
    rewrite insert_take_drop by (by apply lookup_lt_Some in Hp').
    rewrite !omap_app. cbn [omap list_omap yielded_local]. rewrite decide_True by done.
    rewrite Hd, app_nil_r, rev_app_distr. done.
  - rewrite list_fmap_insert. apply list_insert_id. rewrite list_lookup_fmap, Hp'. cbn.
    by rewrite decide_True.
Qed.

Definition frame_same (s s' : OperandStack) : Prop :=
  length (local_heads s') = length (local_heads s) /\ local_slots s' = local_slots s /\
  temp_offset s' = temp_offset s /\ max_offset s' = max_offset s.

Definition preserve_locals_post (l : LocalIdx) (in_reg : bool) (s : OperandStack)
    (os : list LocalOperand) (s' : OperandStack) : Prop :=
  wf s' /\
  skel <$> operands s' = preserved_local l <$> (skel <$> operands s) /\
  os = rev (omap (yielded_local l in_reg) (skel <$> operands s)) /\
  frame_same s s' /\ regs s' = regs s.

(** The loop of the caller from the head of the list, which may be cleared. *)
Lemma preserved_locals_run fuel l in_reg : forall s h hd, wf s ->
  local_heads s !! l = Some hd ->
  h = local_heads s \/ h = <[l := None]> (local_heads s) ->
  (forall p, hd = Some p -> S p < fuel) -> 0 < fuel ->
  exists os s', preserved_locals fuel {| pl_stack_pos := hd; pl_in_reg := in_reg |} (set_local_heads h s) =
    (Ok os, s') /\ preserve_locals_post l in_reg s os s'.
Proof.
  induction fuel as [|fuel IH]; intros s h hd Hwf Hhd Hh Hfuel Hpos; [lia|].
  pose proof Hwf as ([HL Hheads] & _). pose proof (Hheads _ _ Hhd) as Hn. destruct hd as [p|].
  - destruct Hn as (Hpn & (pv & nx & Htab) & Htop). destruct (tab_Some _ _ _ _ _ Htab) as (ts & ty & Hp).
    destruct (HL _ _ _ _ Htab) as (_ & Hlh & Hnx & Hpv).
    assert (pv = None) as ->.
    { destruct pv as [q|]; [|done]. exfalso. destruct Hpv as (? & (? & ? & Eq) & _).
      pose proof (tab_lt _ _ _ Eq). apply (Htop q); [lia|by eexists _, _]. }
    assert (Hlen : length h = length (local_heads s)).
    { destruct Hh as [-> | ->]; [done|apply length_insert]. }
    assert (Hhu : unlinked_heads h l None nx = unlinked_heads (local_heads s) l None nx).
    { destruct Hh as [-> | ->]; [done|]. cbn. by rewrite list_insert_insert_eq. }
    destruct (preserve_local_at_run s h p ts ty l None nx Hwf Hp Hlen Hhu) as (s1 & E1 & Hpost & Hh1).
    destruct Hpost as (Hwf1 & Hsk1 & Hlen1 & Hls1 & Ht1 & Hm1 & Hr1).
    destruct (IH s1 (local_heads s1) nx) as (os & s2 & E2 & Hwf2 & Hsk2 & Hos & Hf2 & Hr2); try done.
    { rewrite Hh1. cbn. by apply list_lookup_insert_eq. }
    { by left. }
    { intros q ->. destruct Hnx as (? & _). specialize (Hfuel p eq_refl). lia. }
    { specialize (Hfuel p eq_refl). lia. }
    replace (set_local_heads (local_heads s1) s1) with s1 in E2 by (by destruct s1).
    cbn [preserved_locals]. unfold PreservedLocalsIter_next. cbn [pl_stack_pos].
    rewrite !bind_run, E1. cbn [mret M_ret pl_in_reg]. rewrite bind_run, E2.
    eexists _, _. split; [reflexivity|].
    destruct (yielded_top l in_reg _ _ _ _ _ _ (SO_Temp ts ty false) Hp) as [Hy1 Hy2]; [|done|].
    { intros r Hr Hu. destruct (decide (r < length (operands s))) as [|Hge].
      - by apply (Htop r).
      - destruct Hu as (? & ? & Eq). apply tab_lt in Eq. lia. }
    unfold preserve_locals_post, frame_same in *. rewrite Hsk2, Hos, Hsk1, Hy1. unfold temp_of.
    cbn [StackOperand_temp_slots StackOperand_ty]. rewrite Hy2, Hr2, Hr1.
    destruct Hf2 as (-> & -> & -> & ->). rewrite Hlen1, Hls1, Ht1, Hm1. done.
  - assert (h = local_heads s) as ->.
    { destruct Hh as [-> | ->]; [done|]. by apply list_insert_id. }
    destruct (yielded_none l in_reg (operands s)) as [Hy1 Hy2].
    { intros p Hu. pose proof Hu as (? & ? & Eq). apply tab_lt in Eq. by apply (Hn p). }
    eexists [], s. split; [by destruct s|]. unfold preserve_locals_post, frame_same. by rewrite Hy1, Hy2.
Qed.

(** C36: Preserving local [l] and consuming the iterator, with fuel beyond the
    height of the stack, turns exactly the uses of [l] into temporaries, keeps
    the stack well-formed, and yields those uses once each from the top down;
    for a local that is not registered it panics. *)
Theorem preserve_locals_spec s l fuel : wf s -> length (operands s) < fuel ->
  if decide (l < length (local_heads s))
  then exists it s1 os s', preserve_locals l s = (Ok it, s1) /\
    preserved_locals fuel it s1 = (Ok os, s') /\
    preserve_locals_post l (is_local_in_any_reg (regs s) l) s os s'
  else preserve_locals l s = (Panic, set_local_heads (local_heads s) s).
Proof.
  intros Hwf Hfuel. unfold preserve_locals, with_heads, zoom, LocalsHead_replace_first.
  destruct (decide _) as [Hl|Hl].
  - destruct (lookup_lt_is_Some_2 _ _ Hl) as [hd Hhd].
    edestruct (preserved_locals_run fuel l (is_local_in_any_reg (regs s) l) s) as (os & s' & E & Hpost);
      [done|exact Hhd|by right| |lia|].
    { intros p ->. destruct Hwf as ([_ Hh] & _). destruct (Hh _ _ Hhd) as (? & _). lia. }
    rewrite bind_run, Hhd. eexists _, _, _, _. split; [reflexivity|]. split; [exact E|done].
  - by rewrite bind_run, lookup_ge_None_2 by lia.
Qed.

(** ** All locals but the top-most *)

(** The stack, from the top down, after preserving all locals but the [skip]
    top-most ones, and the locals yielded. *)
Fixpoint preserve_but (skip : nat) (l : list StackOperand) : list StackOperand :=
  match l with
  | [] => []
  | SO_Local _ _ _ _ _ as o :: l =>
      match skip with
      | O => temp_of o :: preserve_but O l
      | S skip => o :: preserve_but skip l
      end
  | o :: l => o :: preserve_but skip l
  end.

Fixpoint yield_but (r : RegisterMap) (skip : nat) (l : list StackOperand) : list LocalOperand :=
  match l with
  | [] => []
  | SO_Local ts ty i _ _ :: l =>
      match skip with
      | O => {| lo_temp_slots := ts; lo_ty := ty; lo_in_reg := is_local_in_reg r ty i;
                lo_local_index := i |} :: yield_but r O l
      | S skip => yield_but r skip l
      end
  | _ :: l => yield_but r skip l
  end.

Lemma preserve_but_nonlocal skip o l : is_local o = false ->
  preserve_but skip (o :: l) = o :: preserve_but skip l.
Proof. by destruct o. Qed.
Lemma yield_but_nonlocal r skip o l : is_local o = false ->
  yield_but r skip (o :: l) = yield_but r skip l.
Proof. by destruct o. Qed.

Lemma preserve_but_none skip l : count_locals l = 0 -> preserve_but skip l = l.
Proof.
  revert skip. induction l as [|o l IH]; intros skip Hc; [done|]. unfold count_locals in Hc. cbn in Hc.
  destruct o; cbn in Hc; [lia|..]; cbn; by rewrite IH.
Qed.
Lemma yield_but_none r skip l : count_locals l = 0 -> yield_but r skip l = [].
Proof.
  revert skip. induction l as [|o l IH]; intros skip Hc; [done|]. unfold count_locals in Hc. cbn in Hc.
  destruct o; cbn in Hc; [lia|..]; cbn; by rewrite IH.
Qed.

Lemma count_locals_rev l : count_locals (rev l) = count_locals l.
Proof.
  induction l as [|o l IH]; [done|]. cbn [rev]. rewrite count_locals_app, IH.
  unfold count_locals. cbn. lia.
Qed.

Lemma take_S_top {A} (l : list A) p x : l !! p = Some x -> rev (take (S p) l) = x :: rev (take p l).
Proof. intros Hp. rewrite (take_S_r _ _ _ Hp), rev_app_distr. done. Qed.

Lemma count_locals_S l p o : l !! p = Some o ->
  count_locals (take (S p) l) = count_locals (take p l) + (if is_local o then 1 else 0).
Proof.
  intros Hp. rewrite (take_S_r _ _ _ Hp), count_locals_app. unfold count_locals at 2. cbn. lia.
Qed.

(** [find_next_local] finds the next local to preserve when there is one; the
    operands between are those [preserve_but] keeps. *)
Lemma find_next_local_run {E} r ops pos : forall skip, pos <= length ops ->
  exists res skip' rem', find_next_local (E := E) ops pos skip (count_locals (take pos ops)) =
    (Ok res, skip', rem') /\
  match res with
  | None => preserve_but skip (rev (take pos ops)) = rev (take pos ops) /\
            yield_but r skip (rev (take pos ops)) = []
  | Some q => q < pos /\ skip' = 0 /\ rem' = count_locals (take q ops) /\
      exists ts ty l pv nx, ops !! q = Some (SO_Local ts ty l pv nx) /\
        preserve_but skip (rev (take pos ops)) =
          rev (drop (S q) (take pos ops)) ++ SO_Temp ts ty false :: preserve_but 0 (rev (take q ops)) /\
        yield_but r skip (rev (take pos ops)) =
          {| lo_temp_slots := ts; lo_ty := ty; lo_in_reg := is_local_in_reg r ty l; lo_local_index := l |}
          :: yield_but r 0 (rev (take q ops))
  end.
Proof.
  induction pos as [|pos IH]; intros skip Hpos.
  - exists None, skip, 0. by split.
  - destruct (lookup_lt_is_Some_2 ops pos) as [o Ho]; [lia|].
    rewrite (count_locals_S _ _ _ Ho), (take_S_top _ _ _ Ho). cbn [find_next_local].
    destruct (Nat.eqb_spec (count_locals (take pos ops) + (if is_local o then 1 else 0)) 0) as [Hz|Hnz].
    { eexists None, _, _. split; [done|].
      assert (Hn : is_local o = false) by (destruct (is_local o); [lia|done]).
      assert (Hz' : count_locals (rev (take pos ops)) = 0) by (rewrite count_locals_rev; lia).
      by rewrite preserve_but_nonlocal, yield_but_nonlocal, preserve_but_none, yield_but_none. }
    rewrite Ho.
    (* the operand is kept: continue below *)
    assert (Hkeep : forall skip', preserve_but skip (o :: rev (take pos ops)) = o :: preserve_but skip' (rev (take pos ops)) ->
      yield_but r skip (o :: rev (take pos ops)) = yield_but r skip' (rev (take pos ops)) ->
      exists res skip'' rem', find_next_local (E := E) ops pos skip' (count_locals (take pos ops)) = (Ok res, skip'', rem') /\
      match res with
      | None => preserve_but skip (o :: rev (take pos ops)) = o :: rev (take pos ops) /\
                yield_but r skip (o :: rev (take pos ops)) = []
      | Some q => q < S pos /\ skip'' = 0 /\ rem' = count_locals (take q ops) /\
          exists ts ty l pv nx, ops !! q = Some (SO_Local ts ty l pv nx) /\
            preserve_but skip (o :: rev (take pos ops)) =
              rev (drop (S q) (take (S pos) ops)) ++ SO_Temp ts ty false :: preserve_but 0 (rev (take q ops)) /\
            yield_but r skip (o :: rev (take pos ops)) =
              {| lo_temp_slots := ts; lo_ty := ty; lo_in_reg := is_local_in_reg r ty l; lo_local_index := l |}
              :: yield_but r 0 (rev (take q ops))
      end).
    { intros skip' Hp Hy. destruct (IH skip') as (res & s2 & rem & E1 & Hres); [lia|].
      exists res, s2, rem. split; [done|]. rewrite Hp, Hy. destruct res as [q|].
      - destruct Hres as (Hq & -> & -> & ts & ty & l & pv & nx & Hl & E2 & E3).
        split_and!; [lia|done|done|]. exists ts, ty, l, pv, nx. split; [done|]. rewrite E2, E3. split; [|done].
        rewrite (take_S_r _ _ _ Ho), drop_app_le, rev_app_distr by (rewrite length_take; lia). done.
      - destruct Hres as [-> ->]. done. }
    destruct o as [ts ty l pv nx| |]; cbn [is_local] in *.
    + rewrite Nat.add_sub. destruct skip as [|skip]; cbn [Nat.ltb Nat.leb].
      * eexists (Some pos), 0, _. split; [done|]. split_and!; [lia|done|done|].
        exists ts, ty, l, pv, nx. split; [done|]. split; [|done].
        by rewrite drop_ge by (rewrite length_take; lia).
      * rewrite Nat.sub_succ, Nat.sub_0_r. by apply Hkeep.
    + rewrite Nat.add_0_r. by apply Hkeep.
    + rewrite Nat.add_0_r. by apply Hkeep.
Qed.

(** [find_next_local] does not look at links. *)
Lemma find_next_local_skel {E} ops pos : forall skip rem,
  find_next_local (E := E) (skel <$> ops) pos skip rem = find_next_local ops pos skip rem.
Proof.
  induction pos as [|pos IH]; intros skip rem; cbn; [done|]. destruct (rem =? 0); [done|].
  rewrite list_lookup_fmap. destruct (ops !! pos) as [[]|]; cbn; rewrite ?IH; done.
Qed.

Lemma preserved_all_locals_run fuel : forall s pos skip, wf s ->
  pos <= length (operands s) -> pos < fuel ->
  exists os s', preserved_all_locals fuel
      {| pa_stack_pos := pos; pa_skip := skip;
         pa_remaining_locals := count_locals (take pos (skel <$> operands s)) |} s = (Ok os, s') /\
    wf s' /\
    skel <$> operands s' =
      rev (preserve_but skip (rev (take pos (skel <$> operands s)))) ++ drop pos (skel <$> operands s) /\
    os = yield_but (regs s) skip (rev (take pos (skel <$> operands s))) /\
    frame_same s s' /\ regs s' = regs s.
Proof.
  induction fuel as [|fuel IH]; intros s pos skip Hwf Hpos Hfuel; [lia|].
  destruct (find_next_local_run (E := TranslationError) (regs s) (skel <$> operands s) pos skip)
    as (res & skip' & rem' & E & Hres); [by rewrite length_fmap|].
  cbn [preserved_all_locals]. unfold PreservedAllLocalsIter_next. rewrite bind_run, bind_get_st.
  cbn [pa_stack_pos pa_skip pa_remaining_locals].
  rewrite <-find_next_local_skel, E, bind_lift. destruct res as [q|].
  - destruct Hres as (Hq & -> & -> & ts & ty & l & pv0 & nx0 & Hl & E2 & E3).
    rewrite list_lookup_fmap in Hl. destruct (operands s !! q) as [[ts1 ty1 l1 pv nx| |]|] eqn:Hp; cbn in Hl; simplify_eq.
    destruct (preserve_local_at_run s (local_heads s) q ts ty l pv nx Hwf Hp eq_refl eq_refl)
      as (s1 & E1 & (Hwf1 & Hsk1 & Hlen1 & Hls1 & Ht1 & Hm1 & Hr1) & _).
    replace (set_local_heads (local_heads s) s) with s in E1 by (by destruct s).
    rewrite bind_run, E1, bind_get_st. cbn [popped_regs] in Hr1.
    destruct (IH s1 q 0 Hwf1) as (os & s2 & E4 & Hwf2 & Hsk2 & Hos & Hf2 & Hr2).
    { rewrite <-(length_fmap skel), Hsk1, length_insert, length_fmap. lia. }
    { lia. }
    assert (Hlt : q < length (skel <$> operands s)) by (rewrite length_fmap; lia).
    rewrite Hsk1, take_insert_ge in E4, Hsk2, Hos by lia.
    cbn [mret M_ret]. rewrite bind_run, E4. eexists _, _. split; [reflexivity|]. split; [done|]. split_and!.
    + rewrite Hsk2, E2, rev_app_distr, rev_involutive. cbn [rev].
      rewrite insert_take_drop by done. rewrite (drop_app_ge (take q _)) by (rewrite length_take; lia).
      rewrite length_take, Nat.min_l, Nat.sub_diag by lia. cbn [drop].
      rewrite <-!app_assoc. cbn [app]. f_equal. unfold temp_of. cbn. f_equal.
      rewrite <-(take_drop pos (skel <$> operands s)) at 1. rewrite drop_app_le; [done|].
      rewrite length_take, length_fmap. lia.
    + by rewrite E3, Hos, Hr1.
    + unfold frame_same in *. destruct Hf2 as (-> & -> & -> & ->). by rewrite Hlen1, Hls1, Ht1, Hm1.
    + by rewrite Hr2.
  - destruct Hres as [-> ->]. eexists [], s. split; [reflexivity|]. rewrite rev_involutive, take_drop.
    unfold frame_same. done.
Qed.

(** Preserving all locals and consuming the iterator, with fuel beyond the
    height of the stack, never panics: it turns all [Local] operands into
    temporaries but the [skip] top-most [Local] operands, leaves everything else
    alone, keeps the stack well-formed, and yields the preserved ones once each
    from the top down. *)
Theorem preserve_all_locals_spec s skip fuel : wf s -> length (operands s) < fuel ->
  exists os s', preserved_all_locals fuel (preserve_all_locals skip s) s = (Ok os, s') /\ wf s' /\
    rev (skel <$> operands s') = preserve_but skip (rev (skel <$> operands s)) /\
    os = yield_but (regs s) skip (rev (skel <$> operands s)) /\
    frame_same s s' /\ regs s' = regs s.
Proof.
  intros Hwf Hfuel. destruct (preserved_all_locals_run fuel s (length (operands s)) skip Hwf) as (os & s' & E & H);
    [lia|lia|].
  rewrite take_ge, drop_ge, app_nil_r, count_locals_skel in * by (by rewrite length_fmap).
  exists os, s'. destruct H as (? & -> & ?). rewrite rev_involutive.
  unfold preserve_all_locals. destruct Hwf as (_ & -> & _). done.
Qed.

(** ** Registers *)

(** An operand after the registers have been preserved. *)
Definition out_of_reg (o : StackOperand) : StackOperand :=
  match o with SO_Temp ts ty true => SO_Temp ts ty false | _ => o end.

(** The operand below [threshold] that loses its register. *)
Definition out_of_reg_below (threshold p : nat) (o : StackOperand) : StackOperand :=
  if p <? threshold then out_of_reg o else o.

(** The slot of the temporary that a register holds. *)
Definition reg_slot (s : OperandStack) (link : option RegisterLink) : option Slot :=
  match link with
  | Some (Link_Temp p) => (fun o => span_head (StackOperand_temp_slots o)) <$> operands s !! p
  | _ => None
  end.

Lemma clear_reg_idemp ty ty' r : same_reg ty ty' -> clear_reg ty' (clear_reg ty r) = clear_reg ty r.
Proof. intros Hs. apply clear_reg_None. by apply clear_reg_same. Qed.

Lemma clear_reg_shared ty ty' r : same_reg ty ty' -> clear_reg ty' r = clear_reg ty r.
Proof.
  intros Hs. pose proof (Hs {| ireg := Some (Link_Temp 0); freg32 := Some (Link_Temp 1); freg64 := Some (Link_Temp 2) |}).
  by destruct ty, ty'.
Qed.

(** The temporary in the register of [ty] becomes an ordinary one. *)
Lemma reg_to_temp_run s ty p : wf s -> RegisterMap_get (regs s) ty = Some (Link_Temp p) ->
  exists ts ty' s', operands s !! p = Some (SO_Temp ts ty' true) /\
    operand_to_temp_at p (set_regs (clear_reg ty (regs s)) s) = (Ok (SO_Temp ts ty' true), s') /\
    wf s' /\ skel <$> operands s' = <[p := SO_Temp ts ty' false]> (skel <$> operands s) /\
    frame_same s s' /\ regs s' = clear_reg ty (regs s).
Proof.
  intros Hwf Hg. pose proof Hwf as (_ & _ & _ & [H1 H2]).
  destruct (H1 ty p Hg) as (ts & ty' & Hl & Hs). rewrite list_lookup_fmap in Hl.
  destruct (operands s !! p) as [[|ts1 ty1 in_reg|]|] eqn:Hp; cbn in Hl; simplify_eq.
  assert (Hs' : same_reg ty ty') by (intros r; apply Hs).
  destruct (nonlocal_to_temp s p _ Hwf Hp eq_refl) as (Hwf' & Hsk & Hh & Hls & Ht & Hm & Hr).
  cbn [popped_regs] in *. rewrite (clear_reg_shared ty ty' _ Hs') in *.
  exists ts, ty'. eexists. split; [done|]. split.
  - unfold operand_to_temp_at. rewrite bind_get_st, bind_lift. unfold get_at, expect. cbn [operands set_regs].
    rewrite Hp, bind_run. cbn [try_unlink_local mret M_ret]. rewrite bind_run, try_unlink_reg_run.
    cbn [regs set_regs]. rewrite clear_reg_idemp by done. rewrite decide_False by (intros ->; by rewrite <-(Hs' (regs s)) in Hg).
    reflexivity.
  - split; [exact Hwf'|]. split; [exact Hsk|]. done.
Qed.

(** The step of [preserve_all_regs] and of [preserve_all_temp_regs] for one
    register: only operands that lose their register change. *)
Definition preserve_reg_post (f : nat -> StackOperand -> StackOperand) (s s' : OperandStack) : Prop :=
  wf s' /\ imap f (skel <$> operands s') = imap f (skel <$> operands s) /\
  (forall p, span_head ∘ StackOperand_temp_slots <$> operands s' !! p =
             span_head ∘ StackOperand_temp_slots <$> operands s !! p) /\
  frame_same s s'.

Lemma preserve_reg_post_insert f s s' p ts ty :
  f p (SO_Temp ts ty false) = f p (SO_Temp ts ty true) ->
  operands s !! p = Some (SO_Temp ts ty true) ->
  wf s' -> skel <$> operands s' = <[p := SO_Temp ts ty false]> (skel <$> operands s) ->
  frame_same s s' -> preserve_reg_post f s s'.
Proof.
  intros Hf Hp Hwf Hsk Hfr. split_and!; [done| | |done].
  - rewrite Hsk. apply list_eq. intros q. rewrite !list_lookup_imap.
    destruct (decide (p = q)) as [<-|Hne]; [|by rewrite list_lookup_insert_ne].
    rewrite list_lookup_insert_eq by (rewrite length_fmap; by apply lookup_lt_Some in Hp).
    rewrite list_lookup_fmap, Hp. cbn. by rewrite Hf.
  - intros q. assert (E : forall ops : list StackOperand, span_head ∘ StackOperand_temp_slots <$> ops !! q =
      span_head ∘ StackOperand_temp_slots <$> (skel <$> ops) !! q).
    { intros ops. rewrite list_lookup_fmap. destruct (ops !! q) as [[]|]; done. }
    rewrite (E (operands s')), (E (operands s)), Hsk.
    destruct (decide (p = q)) as [<-|Hne]; [|by rewrite list_lookup_insert_ne].
    rewrite list_lookup_insert_eq by (rewrite length_fmap; by apply lookup_lt_Some in Hp).
    by rewrite list_lookup_fmap, Hp.
Qed.

Lemma preserve_reg_post_refl f s : wf s -> preserve_reg_post f s s.
Proof. intros. unfold preserve_reg_post, frame_same. done. Qed.

Lemma preserve_reg_post_trans f a b c :
  preserve_reg_post f a b -> preserve_reg_post f b c -> preserve_reg_post f a c.
Proof.
  intros (_ & E1 & F1 & ? & ? & ? & ?) (? & E2 & F2 & ? & ? & ? & ?).
  split_and!; [done|by rewrite E2|intros p; by rewrite F2|unfold frame_same; split_and!; congruence].
Qed.

Lemma reg_slot_post f s s' link : preserve_reg_post f s s' -> reg_slot s' link = reg_slot s link.
Proof. intros (_ & _ & F & _). destruct link as [[p|]|]; [apply F|done..]. Qed.

(** Clearing the register of a local keeps the invariant. *)
Lemma wf_clear_reg s ty : wf s -> (forall p, RegisterMap_get (regs s) ty <> Some (Link_Temp p)) ->
  wf (set_regs (clear_reg ty (regs s)) s).
Proof.
  intros (Hl & Hc & Hs & [H1 H2]) Hn. unfold wf. cbn. split_and!; try done. split.
  - intros ty' p Hp. destruct (same_reg_dec ty ty') as [Hsr|[Hcl _]].
    + by rewrite clear_reg_same in Hp.
    + rewrite Hcl in Hp. by apply H1.
  - intros p ts ty' Hp. pose proof (H2 p ts ty' Hp) as Hg.
    destruct (same_reg_dec ty ty') as [Hsr|[-> _]]; [|done]. rewrite Hsr in Hg. by destruct (Hn p).
Qed.

Lemma with_regs_dealloc_run s ty : ty <> ValType_V128 ->
  with_regs (RegisterMap_dealloc ty) s = (Ok (RegisterMap_get (regs s) ty), set_regs (clear_reg ty (regs s)) s).
Proof.
  intros Hv. unfold with_regs, zoom, RegisterMap_dealloc.
  by rewrite bind_get_st, bind_run, RegisterMap_set_eq, put_reg_None, decide_False.
Qed.

Lemma preserve_reg_run f s ty : wf s -> ty <> ValType_V128 ->
  (forall p ts ty, f p (SO_Temp ts ty false) = f p (SO_Temp ts ty true)) ->
  exists s', preserve_reg ty s = (Ok (reg_slot s (RegisterMap_get (regs s) ty)), s') /\
    preserve_reg_post f s s' /\ regs s' = clear_reg ty (regs s).
Proof.
  intros Hwf Hv Hf. unfold preserve_reg. rewrite bind_run, with_regs_dealloc_run by done.
  destruct (RegisterMap_get (regs s) ty) as [[p|i]|] eqn:Hg.
  - destruct (reg_to_temp_run s ty p Hwf Hg) as (ts & ty' & s' & Hp & E & Hwf' & Hsk & Hfr & Hr).
    exists s'. rewrite bind_run, E. cbn [reg_slot]. rewrite Hp. split; [done|]. split; [|done].
    eapply preserve_reg_post_insert; eauto.
  - eexists. split; [reflexivity|]. split; [|done].
    pose proof (wf_clear_reg s ty Hwf ltac:(by rewrite Hg)). unfold preserve_reg_post, frame_same. done.
  - eexists. split; [reflexivity|]. split; [|done].
    pose proof (wf_clear_reg s ty Hwf ltac:(by rewrite Hg)). unfold preserve_reg_post, frame_same. done.
Qed.

Lemma preserve_temp_reg_run f thr s ty : wf s -> ty <> ValType_V128 ->
  (forall p ts ty, p < thr -> f p (SO_Temp ts ty false) = f p (SO_Temp ts ty true)) ->
  let below := match RegisterMap_get (regs s) ty with Some (Link_Temp p) => p <? thr | _ => false end in
  exists s', preserve_temp_reg thr ty s =
      (Ok (if below then reg_slot s (RegisterMap_get (regs s) ty) else None), s') /\
    preserve_reg_post f s s' /\ regs s' = (if below then clear_reg ty (regs s) else regs s).
Proof.
  intros Hwf Hv Hf. unfold preserve_temp_reg, with_regs, zoom, RegisterMap_dealloc_temp.
  rewrite bind_run. assert (Hid : set_regs (regs s) s = s) by (by destruct s).
  assert (Hskip : forall m, m = (Ok None, regs s) ->
    exists s', (let '(r, s0) := let '(r, t) := m in (map_err (E := TranslationError) (F := TranslationError) id r, set_regs t s) in
      match r with
      | Ok (Some pos) => (o ← operand_to_temp_at pos; mret (Some (span_head (StackOperand_temp_slots o)))) s0
      | Ok None => (mret None : M _ _ _) s0
      | Err e => (Err e, s0) | Panic => (Panic, s0) end) = (Ok None, s') /\
      preserve_reg_post f s s' /\ regs s' = regs s).
  { intros m ->. cbn. rewrite Hid. exists s. split; [done|]. by split; [apply preserve_reg_post_refl|]. }
  destruct (RegisterMap_get (regs s) ty) as [[p|i]|] eqn:Hg.
  2,3: destruct (Hskip (Ok None, regs s) eq_refl) as (s' & E & H1 & H2); cbn in E; cbv zeta;
       exists s'; split; [|by split]; rewrite <-E; by destruct ty.
  cbv zeta. destruct (Nat.ltb_spec p thr) as [Hlt|Hge].
  - destruct (reg_to_temp_run s ty p Hwf Hg) as (ts & ty' & s' & Hp & E & Hwf' & Hsk & Hfr & Hr).
    exists s'. cbn [reg_slot]. rewrite Hp.
    assert (Hm : (match ty with ValType_V128 => (Panic, regs s) | _ =>
        if thr <=? p then (Ok None, regs s) else
          (RegisterMap_set ty None;; mret (Some p)) (regs s) end : res TranslationError _ * _) = (Ok (Some p), clear_reg ty (regs s))).
    { rewrite (leb_correct_conv p thr) by done. rewrite bind_run, RegisterMap_set_eq, put_reg_None, decide_False by done.
      by destruct ty. }
    rewrite Hm. cbn [map_err]. rewrite bind_run, E. split; [done|]. split; [|done].
    eapply preserve_reg_post_insert; eauto.
  - destruct (Hskip (Ok None, regs s) eq_refl) as (s' & E & H1 & H2); cbn in E.
    exists s'. split; [|by split]. rewrite <-E, (leb_correct thr p) by done. by destruct ty.
Qed.

Lemma imap_const {A B} (f : A -> B) l : imap (fun _ => f) l = f <$> l.
Proof.
  apply list_eq. intros p. by rewrite list_lookup_imap, list_lookup_fmap.
Qed.

(** When no register holds a temporary below [thr], those operands are as
    [out_of_reg_below] leaves them. *)
Lemma out_of_reg_done thr s : wf s ->
  (forall ty p, RegisterMap_get (regs s) ty = Some (Link_Temp p) -> thr <= p) ->
  imap (out_of_reg_below thr) (skel <$> operands s) = skel <$> operands s.
Proof.
  intros (_ & _ & _ & [_ H2]) Hn. apply list_eq. intros p. rewrite list_lookup_imap.
  destruct ((skel <$> operands s) !! p) as [o|] eqn:Hp; [|done]. cbn. f_equal.
  unfold out_of_reg_below. destruct (Nat.ltb_spec p thr); [|done].
  destruct o as [|ts ty []|]; [done| |done..]. pose proof (Hn ty p (H2 _ _ _ Hp)). lia.
Qed.

(** [preserve_all_regs] empties all registers: every temporary in a register
    becomes an ordinary one, nothing else changes on the stack, which stays
    well-formed, and the slots of those temporaries are returned, each for its
    register; it never fails. *)
Theorem preserve_all_regs_spec s : wf s ->
  exists s', preserve_all_regs s =
      (Ok {| pr_ireg := reg_slot s (ireg (regs s)); pr_freg32 := reg_slot s (freg32 (regs s));
             pr_freg64 := reg_slot s (freg64 (regs s)) |}, s') /\
    wf s' /\ skel <$> operands s' = out_of_reg <$> (skel <$> operands s) /\
    regs s' = RegisterMap_default /\ frame_same s s'.
Proof.
  intros Hwf. set (g := fun (_ : nat) => out_of_reg).
  assert (Hg : forall p ts ty, g p (SO_Temp ts ty false) = g p (SO_Temp ts ty true)) by done.
  destruct (preserve_reg_run g s ValType_I64 Hwf ltac:(done) Hg) as (s1 & E1 & P1 & R1).
  destruct (preserve_reg_run g s1 ValType_F32 (proj1 P1) ltac:(done) Hg) as (s2 & E2 & P2 & R2).
  destruct (preserve_reg_run g s2 ValType_F64 (proj1 P2) ltac:(done) Hg) as (s3 & E3 & P3 & R3).
  pose proof (preserve_reg_post_trans _ _ _ _ P1 P2) as P12.
  pose proof (preserve_reg_post_trans _ _ _ _ P12 P3) as P13.
  assert (Hr : regs s3 = RegisterMap_default) by (by rewrite R3, R2, R1; destruct (regs s)).
  exists s3. unfold preserve_all_regs. rewrite bind_run, E1, bind_run, E2, bind_run, E3.
  split.
  - cbn [mret M_ret]. rewrite (reg_slot_post _ _ _ _ P1), (reg_slot_post _ _ _ _ P12), R2, R1. done.
  - pose proof P13 as (Hwf3 & E & _ & Hfr). split; [done|]. split_and!; [|done|done].
    unfold g in E. rewrite !imap_const in E. rewrite <-E. symmetry.
    pose proof Hwf3 as (_ & _ & _ & [_ H2]). apply list_eq. intros p. rewrite list_lookup_fmap.
    destruct ((skel <$> operands s3) !! p) as [o|] eqn:Hp; [|done]. cbn. f_equal.
    destruct o as [|ts ty []|]; [done| |done..]. specialize (H2 _ _ _ Hp). rewrite Hr in H2. by destruct ty.
Qed.

(** Whether the register of [ty] holds a temporary below [thr], and the
    registers after it has been preserved. *)
Definition holds_below (thr : nat) (r : RegisterMap) (ty : ValType) : bool :=
  match RegisterMap_get r ty with Some (Link_Temp p) => p <? thr | _ => false end.
Definition clear_below (thr : nat) (ty : ValType) (r : RegisterMap) : RegisterMap :=
  if holds_below thr r ty then clear_reg ty r else r.

Lemma clear_below_other thr ty r ty' :
  (forall r, RegisterMap_get (clear_reg ty r) ty' = RegisterMap_get r ty') ->
  RegisterMap_get (clear_below thr ty r) ty' = RegisterMap_get r ty'.
Proof. intros Hc. unfold clear_below. destruct (holds_below thr r ty); [apply Hc|done]. Qed.

Lemma clear_below_same thr ty r ty' : same_reg ty ty' ->
  RegisterMap_get (clear_below thr ty r) ty' =
  if holds_below thr r ty' then None else RegisterMap_get r ty'.
Proof.
  intros Hs. unfold clear_below, holds_below. rewrite (Hs r).
  destruct (match RegisterMap_get r ty with Some (Link_Temp p) => p <? thr | _ => false end);
    [by apply clear_reg_same|apply Hs].
Qed.

(** The three registers are emptied independently. *)
Lemma clear_below_all thr r ty :
  RegisterMap_get (clear_below thr ValType_F64 (clear_below thr ValType_F32 (clear_below thr ValType_I64 r))) ty =
  if holds_below thr r ty then None else RegisterMap_get r ty.
Proof.
  assert (Hh : forall ty ty' r, (forall r, RegisterMap_get (clear_reg ty r) ty' = RegisterMap_get r ty') ->
    holds_below thr (clear_below thr ty r) ty' = holds_below thr r ty').
  { intros ???? . unfold holds_below at 1 2. by rewrite clear_below_other. }
  destruct ty; try done; repeat first [rewrite clear_below_other by done
    |rewrite clear_below_same by (by intros ?)|rewrite Hh by done]; done.
Qed.

Definition below_slot (thr : nat) (s : OperandStack) (link : option RegisterLink) : option Slot :=
  match link with
  | Some (Link_Temp p) => if p <? thr then reg_slot s link else None
  | _ => None
  end.

Lemma below_slot_eq thr s link :
  (if match link with Some (Link_Temp p) => p <? thr | _ => false end then reg_slot s link else None) =
  below_slot thr s link.
Proof. by destruct link as [[]|]. Qed.

(** [preserve_all_temp_regs skip] does the same for the temporaries below the
    [skip] top-most operands and leaves the registers of the others and of
    locals alone; it panics exactly when there are fewer than [skip] operands. *)
Theorem preserve_all_temp_regs_spec s skip : wf s ->
  let thr := length (operands s) - skip in
  if skip <=? length (operands s) then
    exists s', preserve_all_temp_regs skip s =
        (Ok {| pr_ireg := below_slot thr s (ireg (regs s)); pr_freg32 := below_slot thr s (freg32 (regs s));
               pr_freg64 := below_slot thr s (freg64 (regs s)) |}, s') /\
      wf s' /\ skel <$> operands s' = imap (out_of_reg_below thr) (skel <$> operands s) /\
      (forall ty, RegisterMap_get (regs s') ty =
         if holds_below thr (regs s) ty then None else RegisterMap_get (regs s) ty) /\ frame_same s s'
  else preserve_all_temp_regs skip s = (Panic, s).
Proof.
  intros Hwf thr. unfold preserve_all_temp_regs. rewrite bind_get_st. unfold assert_m, assert_that.
  rewrite bind_lift. destruct (skip <=? length (operands s)); [|done]. cbv zeta. fold thr.
  set (f := out_of_reg_below thr).
  assert (Hf : forall p ts ty, p < thr -> f p (SO_Temp ts ty false) = f p (SO_Temp ts ty true)).
  { intros p ts ty Hp. unfold f, out_of_reg_below. by destruct (Nat.ltb_spec p thr); [|lia]. }
  destruct (preserve_temp_reg_run f thr s ValType_I64 Hwf ltac:(done) Hf) as (s1 & E1 & P1 & R1).
  destruct (preserve_temp_reg_run f thr s1 ValType_F32 (proj1 P1) ltac:(done) Hf) as (s2 & E2 & P2 & R2).
  destruct (preserve_temp_reg_run f thr s2 ValType_F64 (proj1 P2) ltac:(done) Hf) as (s3 & E3 & P3 & R3).
  pose proof (preserve_reg_post_trans _ _ _ _ P1 P2) as P12.
  pose proof (preserve_reg_post_trans _ _ _ _ P12 P3) as P13.
  rewrite below_slot_eq in E1, E2, E3.
  change (regs s1 = clear_below thr ValType_I64 (regs s)) in R1.
  change (regs s2 = clear_below thr ValType_F32 (regs s1)) in R2.
  change (regs s3 = clear_below thr ValType_F64 (regs s2)) in R3.
  assert (Hregs : forall ty, RegisterMap_get (regs s3) ty =
    if holds_below thr (regs s) ty then None else RegisterMap_get (regs s) ty).
  { intros ty. rewrite R3, R2, R1. apply clear_below_all. }
  exists s3. rewrite bind_run, E1, bind_run, E2, bind_run, E3. split; [|split; [apply P13|]].
  - assert (Hb : forall f s s' link, preserve_reg_post f s s' -> below_slot thr s' link = below_slot thr s link).
    { intros f' a b link Hp. destruct link as [[p|]|]; [|done..]. cbn [below_slot].
      by rewrite (reg_slot_post _ _ _ _ Hp). }
    cbn [mret M_ret]. rewrite (Hb _ _ _ _ P1), (Hb _ _ _ _ P12), R2, R1.
    pose proof (clear_below_other thr ValType_I64 (regs s) ValType_F32 ltac:(done)) as F32.
    pose proof (clear_below_other thr ValType_I64 (regs s) ValType_F64 ltac:(done)) as F64.
    pose proof (clear_below_other thr ValType_F32 (clear_below thr ValType_I64 (regs s)) ValType_F64 ltac:(done)) as F64'.
    cbn [RegisterMap_get] in *. by rewrite F64', F64, F32.
  - split; [|split; [done|apply P13]]. destruct P13 as (Hwf3 & E & _). fold f. rewrite <-E. symmetry.
    apply out_of_reg_done; [done|]. intros ty p Hp. rewrite Hregs in Hp.
    unfold holds_below in Hp. destruct (RegisterMap_get (regs s) ty) as [[q|]|]; [|done..].
    destruct (Nat.ltb_spec q thr); [done|]. by injection Hp as <-.
Qed.

Lemma find_next_local_few {E} ops pos : forall skip,
  pos <= length ops -> count_locals (take pos ops) <= skip ->
  exists skip' rem', find_next_local (E := E) ops pos skip (count_locals (take pos ops)) = (Ok None, skip', rem').
Proof.
  induction pos as [|pos IH]; intros skip Hpos Hc; [by eexists _, _|].
  destruct (lookup_lt_is_Some_2 ops pos) as [o Ho]; [lia|].
  rewrite (count_locals_S _ _ _ Ho) in *. cbn [find_next_local].
  destruct (Nat.eqb_spec (count_locals (take pos ops) + (if is_local o then 1 else 0)) 0); [by eexists _, _|].
  rewrite Ho. destruct o; cbn [is_local] in *; rewrite ?Nat.add_0_r in *; [|apply IH; lia..].
  rewrite Nat.add_sub. destruct skip as [|skip]; cbn [Nat.ltb Nat.leb]; [lia|].
  rewrite Nat.sub_succ, Nat.sub_0_r. apply IH; lia.
Qed.

(** The [skip] of [preserve_all_locals] counts local operands only: with at most
    [skip] of them on the stack none is preserved, however many operands lie
    above them, although the iterator documents it as skipping the [skip]
    top-most operands and its callers pass the number of block parameters. *)
Theorem preserve_all_locals_skips_locals s skip fuel :
  wf s -> 0 < fuel -> count_locals (operands s) <= skip ->
  preserved_all_locals fuel (preserve_all_locals skip s) s = (Ok [], s).
Proof.
  intros (_ & Hc & _) Hfuel Hle. destruct fuel as [|fuel]; [lia|]. cbn [preserved_all_locals].
  unfold PreservedAllLocalsIter_next, preserve_all_locals. rewrite bind_run, bind_get_st.
  cbn [pa_stack_pos pa_skip pa_remaining_locals]. rewrite Hc.
  destruct (find_next_local_few (E := TranslationError) (operands s) (length (operands s)) skip)
    as (skip' & rem' & E); [lia|by rewrite firstn_all|].
  rewrite firstn_all in E. by rewrite E.
Qed.
End Preserve.

(** ** Instances on the sample stack *)

Lemma preserve_locals_spec_witness :
  exists it s1 os s', preserve_locals 0 Sample.s5 = (Ok it, s1) /\
    preserved_locals 6 it s1 = (Ok os, s') /\ length os = 2.
Proof.
  pose proof (preserve_locals_spec (T := default_target) Sample.s5 0 6 Sample.wf_s5
    ltac:(apply Nat.ltb_lt; vm_compute; reflexivity)) as H.
  rewrite decide_True in H by (apply Nat.ltb_lt; vm_compute; reflexivity).
  destruct H as (it & s1 & os & s' & E1 & E2 & (_ & _ & Ho & _)).
  exists it, s1, os, s'. split; [exact E1|]. split; [exact E2|]. rewrite Ho. vm_compute. reflexivity.
Defined.

Lemma preserve_all_locals_spec_witness :
  exists os s', preserved_all_locals 6 (preserve_all_locals 1 Sample.s5) Sample.s5 = (Ok os, s') /\
    map lo_local_index os = [0; 0].
Proof.
  pose proof (preserve_all_locals_spec (T := default_target) Sample.s5 1 6 Sample.wf_s5
    ltac:(apply Nat.ltb_lt; vm_compute; reflexivity)) as H.
  destruct H as (os & s' & E & _ & _ & Ho & _).
  exists os, s'. split; [exact E|]. rewrite Ho. vm_compute. reflexivity.
Defined.

Lemma preserve_all_locals_skips_locals_witness :
  let s := snd (push_operand (T := default_target) (Sample.op_temp ValType_I32 false) Sample.s1) in
  preserved_all_locals 3 (preserve_all_locals 1 s) s = (Ok [], s) /\
  operands s !! 0 = Some (SO_Local {| span_head := {| slot_raw := 24 |} |} ValType_I64 0 None None).
Proof.
  split; [|vm_compute; reflexivity].
  apply (preserve_all_locals_skips_locals (T := default_target)).
  - repeat (apply wf_push_operand; [|first [done|apply Nat.ltb_lt; reflexivity]|done]). apply Sample.wf_s0.
  - lia.
  - vm_compute. lia.
Defined.

Lemma preserve_all_regs_spec_witness :
  exists s', preserve_all_regs Sample.s5 =
    (Ok {| pr_ireg := None; pr_freg32 := None; pr_freg64 := Some {| slot_raw := 32 |} |}, s') /\
    regs s' = RegisterMap_default.
Proof.
  destruct (preserve_all_regs_spec (T := default_target) Sample.s5 Sample.wf_s5) as (s' & E & _ & _ & Hr & _).
  exists s'. split; [|exact Hr]. rewrite E. vm_compute. reflexivity.
Defined.

Lemma preserve_all_temp_regs_spec_witness :
  exists s', preserve_all_temp_regs 4 Sample.s5 =
    (Ok {| pr_ireg := None; pr_freg32 := None; pr_freg64 := None |}, s') /\
    RegisterMap_get (regs s') ValType_F64 = Some (Link_Temp 1).
Proof.
  pose proof (preserve_all_temp_regs_spec (T := default_target) Sample.s5 4 Sample.wf_s5) as H.
  replace (4 <=? length (operands Sample.s5)) with true in H by (vm_compute; reflexivity).
  destruct H as (s' & E & _ & _ & Hr & _). exists s'. split.
  - rewrite E. vm_compute. reflexivity.
  - rewrite Hr. vm_compute. reflexivity.
Defined.
