(* ===== verification/OpFields.v ===== *)
(** * Operators and their fields

    [crates/ir/build/ty.rs] and [build/op.rs]: the types of operator fields and,
    for each class of operators, the fields an operator has and their order.
    The build script generates the operators and their encoders from these. *)

From Stdlib Require Import ZArith Lia String.
From stdpp Require Import base option decidable list.
From S2P Require Import Prelude.
Local Open Scope string_scope.

(** ** Types *)

Inductive Layout : Type :=
| Layout_Bits8 | Layout_Bits16 | Layout_Bits32 | Layout_Bits64 | Layout_Bits128
| Layout_Bits8x8 | Layout_Bits16x4 | Layout_Bits32x2.

Inductive Ty : Type :=
| Ty_Bits8 | Ty_Bits16 | Ty_Bits32 | Ty_Bits64 | Ty_Bits8x8 | Ty_Bits16x4 | Ty_Bits32x2
| Ty_I32 | Ty_I64 | Ty_U8 | Ty_U16 | Ty_U32 | Ty_U64 | Ty_NonZeroI32 | Ty_NonZeroI64
| Ty_NonZeroU32 | Ty_NonZeroU64 | Ty_F32 | Ty_F64 | Ty_SignF32 | Ty_SignF64 | Ty_V128
| Ty_I8x16 | Ty_I16x8 | Ty_I32x4 | Ty_I64x2 | Ty_U8x16 | Ty_U16x8 | Ty_U32x4 | Ty_U64x2
| Ty_F32x4 | Ty_F64x2 | Ty_ShiftAmount.

Inductive FieldTy : Type :=
| FieldTy_Slot | FieldTy_SlotSpan | FieldTy_SlotAndRegInt | FieldTy_SlotAndRegF32
| FieldTy_SlotAndRegF64 | FieldTy_RegInt | FieldTy_RegF32 | FieldTy_RegF64
| FieldTy_BoundedSlotSpan | FieldTy_FixedSlotSpan2 | FieldTy_U8 | FieldTy_U16 | FieldTy_U32
| FieldTy_U64 | FieldTy_I8 | FieldTy_I16 | FieldTy_I32 | FieldTy_I64 | FieldTy_F32
| FieldTy_F64 | FieldTy_NonZeroI32 | FieldTy_NonZeroI64 | FieldTy_NonZeroU32
| FieldTy_NonZeroU64 | FieldTy_SignF32 | FieldTy_SignF64 | FieldTy_Address | FieldTy_Offset
| FieldTy_Offset16 | FieldTy_BranchOffset | FieldTy_Memory | FieldTy_Table | FieldTy_Global
| FieldTy_Func | FieldTy_FuncType | FieldTy_InternalFunc | FieldTy_Elem | FieldTy_Data
| FieldTy_TrapCode | FieldTy_BlockFuel | FieldTy_Array16ImmLaneIdx32 | FieldTy_ImmLaneIdx16
| FieldTy_ImmLaneIdx8 | FieldTy_ImmLaneIdx4 | FieldTy_ImmLaneIdx2 | FieldTy_Bytes16
| FieldTy_V128 | FieldTy_ShiftAmount | FieldTy_EmptyTuple | FieldTy_Local (index : Z).

Inductive LaneWidth : Type :=
| LaneWidth_W8 | LaneWidth_W16 | LaneWidth_W32 | LaneWidth_W64.

Inductive SimdTy : Type :=
| SimdTy_I8x16 | SimdTy_U8x16 | SimdTy_I16x8 | SimdTy_U16x8 | SimdTy_U32x4 | SimdTy_U64x2
| SimdTy_F32x4 | SimdTy_F64x2.

#[export] Instance FieldTy_eq_dec : EqDecision FieldTy.
Proof. solve_decision. Defined.

Inductive Wrapped : Type := Wrapped_I8 | Wrapped_I16 | Wrapped_I32.

Definition FieldTy_from_Wrapped (value : Wrapped) : FieldTy :=
  match value with
  | Wrapped_I8 => FieldTy_I8 | Wrapped_I16 => FieldTy_I16 | Wrapped_I32 => FieldTy_I32
  end.

Definition FieldTy_is_reg (self : FieldTy) : bool :=
  match self with FieldTy_RegInt | FieldTy_RegF32 | FieldTy_RegF64 => true | _ => false end.

Definition Layout_from_Wrapped (value : Wrapped) : Layout :=
  match value with
  | Wrapped_I8 => Layout_Bits8 | Wrapped_I16 => Layout_Bits16 | Wrapped_I32 => Layout_Bits32
  end.

Definition Layout_from_LaneWidth (value : LaneWidth) : Layout :=
  match value with
  | LaneWidth_W8 => Layout_Bits8 | LaneWidth_W16 => Layout_Bits16
  | LaneWidth_W32 => Layout_Bits32 | LaneWidth_W64 => Layout_Bits64
  end.

Definition FieldTy_from_Layout (value : Layout) : FieldTy :=
  match value with
  | Layout_Bits8 => FieldTy_U8 | Layout_Bits16 => FieldTy_U16 | Layout_Bits32 => FieldTy_U32
  | Layout_Bits64 => FieldTy_U64 | Layout_Bits128 => FieldTy_V128 | Layout_Bits8x8 => FieldTy_U64
  | Layout_Bits16x4 => FieldTy_U64 | Layout_Bits32x2 => FieldTy_U64
  end.

Definition FieldTy_from_Ty (ty : Ty) : FieldTy :=
  match ty with
  | Ty_Bits8 => FieldTy_U8
  | Ty_Bits16 => FieldTy_U16
  | Ty_Bits32 => FieldTy_U32
  | Ty_Bits64 => FieldTy_U64
  | Ty_Bits8x8 => FieldTy_U64
  | Ty_Bits16x4 => FieldTy_U64
  | Ty_Bits32x2 => FieldTy_U64
  | Ty_I32 => FieldTy_I32
  | Ty_I64 => FieldTy_I64
  | Ty_U8 => FieldTy_U8
  | Ty_U16 => FieldTy_U16
  | Ty_U32 => FieldTy_U32
  | Ty_U64 => FieldTy_U64
  | Ty_NonZeroI32 => FieldTy_NonZeroI32
  | Ty_NonZeroI64 => FieldTy_NonZeroI64
  | Ty_NonZeroU32 => FieldTy_NonZeroU32
  | Ty_NonZeroU64 => FieldTy_NonZeroU64
  | Ty_F32 => FieldTy_F32
  | Ty_F64 => FieldTy_F64
  | Ty_SignF32 => FieldTy_SignF32
  | Ty_SignF64 => FieldTy_SignF64
  | Ty_V128 | Ty_I8x16 | Ty_I16x8 | Ty_I32x4 | Ty_I64x2
  | Ty_U8x16 | Ty_U16x8 | Ty_U32x4 | Ty_U64x2 | Ty_F32x4 | Ty_F64x2 => FieldTy_V128
  | Ty_ShiftAmount => FieldTy_ShiftAmount
  end.

Definition FieldTy_from_LaneWidth (value : LaneWidth) : FieldTy :=
  match value with
  | LaneWidth_W8 => FieldTy_ImmLaneIdx16 | LaneWidth_W16 => FieldTy_ImmLaneIdx8
  | LaneWidth_W32 => FieldTy_ImmLaneIdx4 | LaneWidth_W64 => FieldTy_ImmLaneIdx2
  end.

Definition len_lanes (self : LaneWidth) : Z :=
  match self with LaneWidth_W8 => 16 | LaneWidth_W16 => 8 | LaneWidth_W32 => 4 | LaneWidth_W64 => 2 end%Z.

Definition LaneWidth_from_SimdTy (value : SimdTy) : LaneWidth :=
  match value with
  | SimdTy_I8x16 | SimdTy_U8x16 => LaneWidth_W8
  | SimdTy_I16x8 | SimdTy_U16x8 => LaneWidth_W16
  | SimdTy_U32x4 | SimdTy_F32x4 => LaneWidth_W32
  | SimdTy_U64x2 | SimdTy_F64x2 => LaneWidth_W64
  end.

Definition lane_ty (self : SimdTy) : FieldTy :=
  match self with
  | SimdTy_I8x16 | SimdTy_U8x16 => FieldTy_ImmLaneIdx16
  | SimdTy_I16x8 | SimdTy_U16x8 => FieldTy_ImmLaneIdx8
  | SimdTy_U32x4 | SimdTy_F32x4 => FieldTy_ImmLaneIdx4
  | SimdTy_U64x2 | SimdTy_F64x2 => FieldTy_ImmLaneIdx2
  end.

Definition item_ty (self : SimdTy) : FieldTy :=
  match self with
  | SimdTy_I8x16 => FieldTy_I8 | SimdTy_U8x16 => FieldTy_U8 | SimdTy_I16x8 => FieldTy_I16
  | SimdTy_U16x8 => FieldTy_U16 | SimdTy_U32x4 => FieldTy_U32 | SimdTy_U64x2 => FieldTy_U64
  | SimdTy_F32x4 => FieldTy_F32 | SimdTy_F64x2 => FieldTy_F64
  end.

(** ** Operand kinds *)

Inductive OperandKind : Type :=
| Kind_Reg | Kind_Slot | Kind_Immediate | Kind_Local (index : Z) | Kind_SlotAndReg.

Definition field_ty (self : OperandKind) (hint : Ty) : FieldTy :=
  match self with
  | Kind_Slot => FieldTy_Slot
  | Kind_Immediate => FieldTy_from_Ty hint
  | Kind_Reg =>
      match hint with
      | Ty_F32 | Ty_SignF32 => FieldTy_RegF32
      | Ty_F64 | Ty_SignF64 => FieldTy_RegF64
      | _ => FieldTy_RegInt
      end
  | Kind_Local index => FieldTy_Local index
  | Kind_SlotAndReg =>
      match hint with
      | Ty_F32 | Ty_SignF32 => FieldTy_SlotAndRegF32
      | Ty_F64 | Ty_SignF64 => FieldTy_SlotAndRegF64
      | _ => FieldTy_SlotAndRegInt
      end
  end.

Record Field : Type := { f_ident : string; f_ty : FieldTy }.
Definition field (ident : string) (ty : FieldTy) : Field := {| f_ident := ident; f_ty := ty |}.

(** ** Classes of operators

    The fields that do not take part in an operator's layout (its name, its
    capabilities) are left out of the records. *)

Record UnaryOp : Type := { un_result_ty : Ty; un_value_ty : Ty; un_result : OperandKind; un_value : OperandKind }.
Definition UnaryOp_fields (op : UnaryOp) : list Field :=
  [field "result" (field_ty (un_result op) (un_result_ty op));
   field "value" (field_ty (un_value op) (un_value_ty op))].

Record BinaryOp : Type := {
  bin_result_ty : Ty; bin_lhs_ty : Ty; bin_rhs_ty : Ty;
  bin_result : OperandKind; bin_lhs : OperandKind; bin_rhs : OperandKind
}.
Definition BinaryOp_fields (op : BinaryOp) : list Field :=
  [field "result" (field_ty (bin_result op) (bin_result_ty op));
   field "lhs" (field_ty (bin_lhs op) (bin_lhs_ty op));
   field "rhs" (field_ty (bin_rhs op) (bin_rhs_ty op))].

Definition TernaryOp_fields : list Field :=
  [field "result" FieldTy_Slot; field "a" FieldTy_Slot; field "b" FieldTy_Slot; field "c" FieldTy_Slot].

Record CmpBranchOp : Type := { cb_input_ty : Ty; cb_lhs : OperandKind; cb_rhs : OperandKind }.
Definition CmpBranchOp_fields (op : CmpBranchOp) : list Field :=
  [field "offset" FieldTy_BranchOffset;
   field "lhs" (field_ty (cb_lhs op) (cb_input_ty op));
   field "rhs" (field_ty (cb_rhs op) (cb_input_ty op))].

Inductive BranchTableCopies : Type := Copies_None | Copies_Span.
Record BranchTableOp : Type := { bt_copies : BranchTableCopies; bt_index : OperandKind }.
Definition BranchTableOp_values_field (op : BranchTableOp) : option Field :=
  match bt_copies op with
  | Copies_None => None
  | Copies_Span => Some (field "values" FieldTy_BoundedSlotSpan)
  end.
Definition BranchTableOp_fields (op : BranchTableOp) : list (option Field) :=
  [Some (field "len_targets" FieldTy_U32);
   Some (field "index" (field_ty (bt_index op) Ty_U32));
   BranchTableOp_values_field op].

Record SelectOp : Type := {
  sel_result_ty : Ty; sel_result : OperandKind; sel_condition : OperandKind;
  sel_true_val : OperandKind; sel_false_val : OperandKind
}.
Definition SelectOp_fields (op : SelectOp) : list Field :=
  [field "result" (field_ty (sel_result op) (sel_result_ty op));
   field "condition" (field_ty (sel_condition op) Ty_I32);
   field "true_val" (field_ty (sel_true_val op) (sel_result_ty op));
   field "false_val" (field_ty (sel_false_val op) (sel_result_ty op))].

Inductive MemoryOperand : Type := Mem_Immediate | Mem_Mem0.
Inductive OffsetOperand : Type := Off_Offset | Off_Offset16.

Definition ptr_field (ptr : OperandKind) : Field :=
  field "ptr" (match ptr with
               | Kind_Slot => FieldTy_Slot
               | Kind_Immediate => FieldTy_Address
               | Kind_Reg => FieldTy_RegInt
               | Kind_Local index => FieldTy_Local index
               | Kind_SlotAndReg => FieldTy_SlotAndRegInt
               end).
Definition offset_field (ptr : OperandKind) (offset : OffsetOperand) : option Field :=
  match ptr with
  | Kind_Slot | Kind_Reg =>
      Some (field "offset" (match offset with
                            | Off_Offset => FieldTy_Offset
                            | Off_Offset16 => FieldTy_Offset16
                            end))
  | _ => None
  end.
Definition memory_field (mem : MemoryOperand) : option Field :=
  match mem with
  | Mem_Immediate => Some (field "memory" FieldTy_Memory)
  | Mem_Mem0 => None
  end.

Record LoadOp : Type := {
  ld_result_ty : Ty; ld_result : OperandKind; ld_ptr : OperandKind;
  ld_mem : MemoryOperand; ld_offset : OffsetOperand
}.
Definition LoadOp_fields (op : LoadOp) : list (option Field) :=
  [Some (field "result" (field_ty (ld_result op) (ld_result_ty op)));
   Some (ptr_field (ld_ptr op));
   offset_field (ld_ptr op) (ld_offset op);
   memory_field (ld_mem op)].

Inductive StoreKind : Type :=
| StoreKind_Value
| StoreKind_Wrap (wrapped : Wrapped)
| StoreKind_Lane (width : LaneWidth).

Record StoreOp : Type := {
  st_kind : StoreKind; st_value_ty : Ty; st_ptr : OperandKind; st_value : OperandKind;
  st_mem : MemoryOperand; st_offset : OffsetOperand
}.
Definition StoreOp_value_field (op : StoreOp) : Field :=
  field "value"
    (match st_value op with
     | Kind_Slot | Kind_Reg | Kind_SlotAndReg => field_ty (st_value op) (st_value_ty op)
     | Kind_Immediate =>
         match st_kind op with
         | StoreKind_Value => FieldTy_from_Ty (st_value_ty op)
         | StoreKind_Wrap wrapped => FieldTy_from_Wrapped wrapped
         | StoreKind_Lane width => FieldTy_from_LaneWidth width
         end
     | Kind_Local index => FieldTy_Local index
     end).
Definition StoreOp_laneidx_field (op : StoreOp) : option Field :=
  match st_kind op with
  | StoreKind_Lane width => Some (field "lane" (FieldTy_from_LaneWidth width))
  | _ => None
  end.
Definition StoreOp_fields (op : StoreOp) : list (option Field) :=
  [Some (ptr_field (st_ptr op));
   offset_field (st_ptr op) (st_offset op);
   Some (StoreOp_value_field op);
   memory_field (st_mem op);
   StoreOp_laneidx_field op].

Record GlobalGetOp : Type := { gg_result_ty : Ty; gg_result : OperandKind }.
Definition GlobalGetOp_fields (op : GlobalGetOp) : list Field :=
  [field "global" FieldTy_Global; field "result" (field_ty (gg_result op) (gg_result_ty op))].

Record GlobalSetOp : Type := { gs_value_ty : Ty; gs_value : OperandKind }.
Definition GlobalSetOp_fields (op : GlobalSetOp) : list Field :=
  [field "global" FieldTy_Global; field "value" (field_ty (gs_value op) (gs_value_ty op))].

Record TableGetOp : Type := { tg_result : OperandKind; tg_index : OperandKind }.
Definition TableGetOp_fields (op : TableGetOp) : list Field :=
  [field "result" (field_ty (tg_result op) Ty_U32);
   field "index" (field_ty (tg_index op) Ty_U32);
   field "table" FieldTy_Table].

Record TableSetOp : Type := { ts_index : OperandKind; ts_value : OperandKind }.
Definition TableSetOp_fields (op : TableSetOp) : list Field :=
  [field "table" FieldTy_Table;
   field "index" (field_ty (ts_index op) Ty_U32);
   field "value" (field_ty (ts_value op) Ty_U32)].

Definition CallIndirectOp_fields (index : OperandKind) : list Field :=
  [field "table" FieldTy_Table; field "func_type" FieldTy_FuncType;
   field "params" FieldTy_BoundedSlotSpan; field "index" (field_ty index Ty_U32)].

Definition V128ExtractLaneOp_fields (ty : SimdTy) : list Field :=
  [field "result" (match ty with
                   | SimdTy_I8x16 | SimdTy_U8x16 | SimdTy_I16x8 | SimdTy_U16x8
                   | SimdTy_U32x4 | SimdTy_U64x2 => FieldTy_RegInt
                   | SimdTy_F32x4 => FieldTy_RegF32
                   | SimdTy_F64x2 => FieldTy_RegF64
                   end);
   field "value" FieldTy_Slot;
   field "lane" (lane_ty ty)].

Record ReplaceLaneOp : Type := { rl_ty : SimdTy; rl_value : OperandKind }.
Definition ReplaceLaneOp_fields (op : ReplaceLaneOp) : list Field :=
  [field "result" FieldTy_Slot;
   field "v128" FieldTy_Slot;
   field "value" (match rl_value op with
                  | Kind_Slot => FieldTy_Slot
                  | Kind_SlotAndReg =>
                      match item_ty (rl_ty op) with
                      | FieldTy_F32 => FieldTy_SlotAndRegF32
                      | FieldTy_F64 => FieldTy_SlotAndRegF64
                      | _ => FieldTy_SlotAndRegInt
                      end
                  | Kind_Reg =>
                      match item_ty (rl_ty op) with
                      | FieldTy_F32 => FieldTy_RegF32
                      | FieldTy_F64 => FieldTy_RegF64
                      | _ => FieldTy_RegInt
                      end
                  | Kind_Immediate => item_ty (rl_ty op)
                  | Kind_Local index => FieldTy_Local index
                  end);
   field "lane" (lane_ty (rl_ty op))].

(** An operator of the instruction set.  [CallIndirect] leaves out the kind of
    the call, [Generic] the name of the operator. *)
Inductive OpDesc : Type :=
| Op_Unary (op : UnaryOp) | Op_Binary (op : BinaryOp) | Op_Ternary | Op_CmpBranch (op : CmpBranchOp)
| Op_BranchTable (op : BranchTableOp) | Op_Select (op : SelectOp) | Op_Load (op : LoadOp)
| Op_Store (op : StoreOp) | Op_GlobalGet (op : GlobalGetOp) | Op_GlobalSet (op : GlobalSetOp)
| Op_TableGet (op : TableGetOp) | Op_TableSet (op : TableSetOp) | Op_CallIndirect (index : OperandKind)
| Op_Generic (fields : list Field) | Op_V128ReplaceLane (op : ReplaceLaneOp)
| Op_V128ExtractLane (ty : SimdTy).

(** The fields that the generated encoder writes after the op-code, in order. *)
Definition OpDesc_fields (op : OpDesc) : list Field :=
  match op with
  | Op_Unary op => UnaryOp_fields op
  | Op_Binary op => BinaryOp_fields op
  | Op_Ternary => TernaryOp_fields
  | Op_CmpBranch op => CmpBranchOp_fields op
  | Op_BranchTable op => omap id (BranchTableOp_fields op)
  | Op_Select op => SelectOp_fields op
  | Op_Load op => omap id (LoadOp_fields op)
  | Op_Store op => omap id (StoreOp_fields op)
  | Op_GlobalGet op => GlobalGetOp_fields op
  | Op_GlobalSet op => GlobalSetOp_fields op
  | Op_TableGet op => TableGetOp_fields op
  | Op_TableSet op => TableSetOp_fields op
  | Op_CallIndirect index => CallIndirectOp_fields index
  | Op_Generic fields => fields
  | Op_V128ReplaceLane op => ReplaceLaneOp_fields op
  | Op_V128ExtractLane ty => V128ExtractLaneOp_fields ty
  end.
