(* ===== verification/Codec.v ===== *)
(** * Encoding and decoding of operator fields

    [crates/ir/src/encode.rs] and [decode/mod.rs]: how a value of each field
    type is written to an encoder and read back from a slice of bytes. *)

From Stdlib Require Import ZArith Lia.
From stdpp Require Import base option decidable numbers list.
From S2P Require Import Prelude Trap Value MemoryAccess Slot OpFields.
Local Open Scope Z_scope.

(** ** Encoders

    An encoder of positions [P] and errors [E], with state [S]. *)
Class Encoder (S P E : Type) : Type := {
  write_bytes : list Z -> M S E P;
  encode_op_code : Z -> M S E P;
  enc_branch_offset : P -> BranchOffset -> M S E unit;
  enc_block_fuel : P -> BlockFuel -> M S E unit
}.

(** The byte order of the host. *)
Class Endian : Type := { big_endian : bool }.
Definition to_ne_bytes `{Endian} (p : Prim) (v : Z) : list Z :=
  if big_endian then rev (into_le_bytes p v) else into_le_bytes p v.
Definition from_ne_bytes `{Endian} (p : Prim) (bytes : list Z) : Z :=
  from_le_bytes p (if big_endian then rev bytes else bytes).

Section Fields.
Context `{T : Target} `{En : Endian}.

Definition P_usize : Prim := if usize_bits =? 32 then P_u32 else P_u64.
Definition P_raw_slot : Prim := if feat_slot16 then P_u16 else P_u32.
Definition P_OffsetRepr : Prim := if feat_memory64 then P_u64 else P_u32.

(** The values of a field.  Integers and newtypes around them are [Z]; there is
    no type [Sign] in the crate. *)
Definition denote (t : FieldTy) : Type :=
  match t with
  | FieldTy_Slot | FieldTy_SlotAndRegInt | FieldTy_SlotAndRegF32 | FieldTy_SlotAndRegF64 => Slot
  | FieldTy_SlotSpan | FieldTy_FixedSlotSpan2 => SlotSpan
  | FieldTy_BoundedSlotSpan => BoundedSlotSpan
  | FieldTy_RegInt | FieldTy_RegF32 | FieldTy_RegF64 | FieldTy_EmptyTuple | FieldTy_Local _ => unit
  | FieldTy_SignF32 | FieldTy_SignF64 => Empty_set
  | FieldTy_BranchOffset => BranchOffset
  | FieldTy_BlockFuel => BlockFuel
  | FieldTy_TrapCode => TrapCode
  | FieldTy_V128 => V128
  | FieldTy_ShiftAmount => ShiftAmount
  | FieldTy_Array16ImmLaneIdx32 | FieldTy_Bytes16 => list Z
  | _ => Z
  end.

(** ** Encoding *)

Section Encode.
Context {S P E : Type} `{Enc : Encoder S P E}.

Definition encode_prim (p : Prim) (v : Z) : M S E P := write_bytes (to_ne_bytes p v).

Definition BranchOffset_encode (self : BranchOffset) : M S E P :=
  pos ← encode_prim P_i32 (branch_offset self);
  enc_branch_offset pos self;;
  mret pos.

Definition BlockFuel_encode (self : BlockFuel) : M S E P :=
  pos ← encode_prim P_u64 (block_fuel self);
  enc_block_fuel pos self;;
  mret pos.

Definition Slot_encode (self : Slot) : M S E P := encode_prim P_raw_slot (slot_raw self).
Definition SlotSpan_encode (self : SlotSpan) : M S E P := Slot_encode (span_head self).

(** Tuples and arrays: all items in order, the position of the first. *)
Fixpoint encode_rest (items : list (M S E P)) : M S E unit :=
  match items with
  | [] => mret tt
  | item :: items => item;; encode_rest items
  end.
Definition encode_seq (items : list (M S E P)) : M S E P :=
  match items with
  | [] => panic
  | first :: rest => pos ← first; encode_rest rest;; mret pos
  end.

Definition BoundedSlotSpan_encode (self : BoundedSlotSpan) : M S E P :=
  encode_seq [SlotSpan_encode (bspan self); encode_prim P_u16 (bspan_len self)].

Definition ImmLaneIdx_encode (n lane : Z) : M S E P := encode_prim P_u8 (ImmLaneIdx_into_u8 n lane).

(** [BranchTableTarget]. *)
Record BranchTableTarget : Type := { btt_results : SlotSpan; btt_offset : BranchOffset }.
Definition BranchTableTarget_encode (self : BranchTableTarget) : M S E P :=
  encode_seq [SlotSpan_encode (btt_results self); BranchOffset_encode (btt_offset self)].

Definition field_encode (t : FieldTy) : denote t -> M S E P :=
  match t with
  | FieldTy_Slot => Slot_encode
  | FieldTy_SlotAndRegInt | FieldTy_SlotAndRegF32 | FieldTy_SlotAndRegF64 =>
      fun v => pos ← Slot_encode v; write_bytes [];; mret pos
  | FieldTy_SlotSpan | FieldTy_FixedSlotSpan2 => SlotSpan_encode
  | FieldTy_BoundedSlotSpan => BoundedSlotSpan_encode
  | FieldTy_RegInt | FieldTy_RegF32 | FieldTy_RegF64 | FieldTy_Local _ => fun _ => write_bytes []
  | FieldTy_EmptyTuple => fun _ => panic
  | FieldTy_SignF32 | FieldTy_SignF64 => fun v => match v with end
  | FieldTy_U8 => encode_prim P_u8
  | FieldTy_U16 => encode_prim P_u16
  | FieldTy_U32 => encode_prim P_u32
  | FieldTy_U64 => encode_prim P_u64
  | FieldTy_I8 => encode_prim P_i8
  | FieldTy_I16 => encode_prim P_i16
  | FieldTy_I32 | FieldTy_NonZeroI32 => encode_prim P_i32
  | FieldTy_I64 | FieldTy_NonZeroI64 => encode_prim P_i64
  | FieldTy_NonZeroU32 => encode_prim P_u32
  | FieldTy_NonZeroU64 => encode_prim P_u64
  | FieldTy_F32 => encode_prim P_f32
  | FieldTy_F64 => encode_prim P_f64
  | FieldTy_Address => encode_prim P_u64
  | FieldTy_Offset => encode_prim P_OffsetRepr
  | FieldTy_Offset16 => encode_prim P_u16
  | FieldTy_BranchOffset => BranchOffset_encode
  | FieldTy_Memory => encode_prim P_u16
  | FieldTy_Table | FieldTy_Global | FieldTy_Func | FieldTy_FuncType | FieldTy_Elem | FieldTy_Data =>
      encode_prim P_u32
  | FieldTy_InternalFunc => encode_prim P_usize
  | FieldTy_TrapCode => fun c => encode_prim P_u8 (TrapCode_into_u8 c)
  | FieldTy_BlockFuel => BlockFuel_encode
  | FieldTy_Array16ImmLaneIdx32 => fun l => encode_seq (ImmLaneIdx_encode 32 <$> l)
  | FieldTy_ImmLaneIdx16 => ImmLaneIdx_encode 16
  | FieldTy_ImmLaneIdx8 => ImmLaneIdx_encode 8
  | FieldTy_ImmLaneIdx4 => ImmLaneIdx_encode 4
  | FieldTy_ImmLaneIdx2 => ImmLaneIdx_encode 2
  | FieldTy_Bytes16 => fun l => encode_seq (encode_prim P_u8 <$> l)
  | FieldTy_V128 => fun v => encode_prim P_u128 (V128_as_u128 v)
  | FieldTy_ShiftAmount => fun s => encode_prim P_u8 (shamt s)
  end.
End Encode.

(** ** Decoding from a slice *)

Inductive DecodeError : Type := OutOfBytes | InvalidBitPattern.

(** [read_bytes]: [split_at_checked] on the rest of the slice. *)
Definition read_bytes (n : Z) : M (list Z) DecodeError (list Z) := fun self =>
  if n <=? Z.of_nat (length self)
  then (Ok (take (Z.to_nat n) self), drop (Z.to_nat n) self)
  else (Err OutOfBytes, self).

Definition decode_prim (p : Prim) : M (list Z) DecodeError Z :=
  bytes ← read_bytes (prim_bytes p);
  mret (from_ne_bytes p bytes).

Definition Slot_decode : M (list Z) DecodeError Slot :=
  raw ← decode_prim P_raw_slot; mret {| slot_raw := raw |}.
Definition SlotSpan_decode : M (list Z) DecodeError SlotSpan :=
  head ← Slot_decode; mret {| span_head := head |}.
Definition BoundedSlotSpan_decode : M (list Z) DecodeError BoundedSlotSpan :=
  span ← SlotSpan_decode;
  len ← decode_prim P_u16;
  mret {| bspan := span; bspan_len := len |}.
Definition FixedSlotSpan_decode (n : Z) : M (list Z) DecodeError SlotSpan :=
  span ← SlotSpan_decode;
  lift (match FixedSlotSpan_new n span with
        | Ok s => Ok s | Err _ => Err InvalidBitPattern | Panic => Panic
        end).
Definition BranchOffset_decode : M (list Z) DecodeError BranchOffset :=
  value ← decode_prim P_i32; mret {| branch_offset := value |}.
Definition BlockFuel_decode : M (list Z) DecodeError BlockFuel :=
  value ← decode_prim P_u64; mret {| block_fuel := value |}.
Definition BranchTableTarget_decode : M (list Z) DecodeError BranchTableTarget :=
  results ← SlotSpan_decode;
  offset ← BranchOffset_decode;
  mret {| btt_results := results; btt_offset := offset |}.

Definition NonZero_decode (p : Prim) : M (list Z) DecodeError Z :=
  value ← decode_prim p;
  if value =? 0 then fail InvalidBitPattern else mret value.
Definition Address_decode : M (list Z) DecodeError Z :=
  value ← decode_prim P_u64;
  lift (ok_or (Address_new value) InvalidBitPattern).
Definition TrapCode_decode : M (list Z) DecodeError TrapCode :=
  code ← decode_prim P_u8;
  lift (match TrapCode_try_from code with
        | Ok c => Ok c | Err _ => Err InvalidBitPattern | Panic => Panic
        end).
Definition ImmLaneIdx_decode (n : Z) : M (list Z) DecodeError Z :=
  byte ← decode_prim P_u8;
  lift (ok_or (ImmLaneIdx_try_from n byte) InvalidBitPattern).

(** [[T; N]]. *)
Fixpoint decode_array {A} (n : nat) (decode : M (list Z) DecodeError A) :
    M (list Z) DecodeError (list A) :=
  match n with
  | O => mret []
  | Datatypes.S n => x ← decode; xs ← decode_array n decode; mret (x :: xs)
  end.

Definition field_decode (t : FieldTy) : M (list Z) DecodeError (denote t) :=
  match t with
  | FieldTy_Slot | FieldTy_SlotAndRegInt | FieldTy_SlotAndRegF32 | FieldTy_SlotAndRegF64 => Slot_decode
  | FieldTy_SlotSpan => SlotSpan_decode
  | FieldTy_FixedSlotSpan2 => FixedSlotSpan_decode 2
  | FieldTy_BoundedSlotSpan => BoundedSlotSpan_decode
  | FieldTy_RegInt | FieldTy_RegF32 | FieldTy_RegF64 | FieldTy_Local _ | FieldTy_EmptyTuple => mret tt
  | FieldTy_SignF32 | FieldTy_SignF64 => panic
  | FieldTy_U8 => decode_prim P_u8
  | FieldTy_U16 => decode_prim P_u16
  | FieldTy_U32 => decode_prim P_u32
  | FieldTy_U64 => decode_prim P_u64
  | FieldTy_I8 => decode_prim P_i8
  | FieldTy_I16 => decode_prim P_i16
  | FieldTy_I32 => decode_prim P_i32
  | FieldTy_I64 => decode_prim P_i64
  | FieldTy_NonZeroI32 => NonZero_decode P_i32
  | FieldTy_NonZeroI64 => NonZero_decode P_i64
  | FieldTy_NonZeroU32 => NonZero_decode P_u32
  | FieldTy_NonZeroU64 => NonZero_decode P_u64
  | FieldTy_F32 => decode_prim P_f32
  | FieldTy_F64 => decode_prim P_f64
  | FieldTy_Address => Address_decode
  | FieldTy_Offset => decode_prim P_OffsetRepr
  | FieldTy_Offset16 => decode_prim P_u16
  | FieldTy_BranchOffset => BranchOffset_decode
  | FieldTy_Memory => decode_prim P_u16
  | FieldTy_Table | FieldTy_Global | FieldTy_Func | FieldTy_FuncType | FieldTy_Elem | FieldTy_Data =>
      decode_prim P_u32
  | FieldTy_InternalFunc => decode_prim P_usize
  | FieldTy_TrapCode => TrapCode_decode
  | FieldTy_BlockFuel => BlockFuel_decode
  | FieldTy_Array16ImmLaneIdx32 => decode_array 16 (ImmLaneIdx_decode 32)
  | FieldTy_ImmLaneIdx16 => ImmLaneIdx_decode 16
  | FieldTy_ImmLaneIdx8 => ImmLaneIdx_decode 8
  | FieldTy_ImmLaneIdx4 => ImmLaneIdx_decode 4
  | FieldTy_ImmLaneIdx2 => ImmLaneIdx_decode 2
  | FieldTy_Bytes16 => decode_array 16 (decode_prim P_u8)
  | FieldTy_V128 => value ← decode_prim P_u128; mret (V128_from_u128 value)
  | FieldTy_ShiftAmount => value ← decode_prim P_u8; mret {| shamt := value |}
  end.
End Fields.

(** ** Round trips *)

(** What an encoder that appends to its contents promises. *)
Class AppendEncoder (S P E : Type) `{Enc : Encoder S P E} : Type := {
  contents : S -> list Z;
  op_code_bytes : Z -> list Z;
  write_bytes_appends : forall bs s p s',
    write_bytes bs s = (Ok p, s') -> contents s' = contents s ++ bs;
  encode_op_code_appends : forall code s p s',
    encode_op_code code s = (Ok p, s') -> contents s' = contents s ++ op_code_bytes code;
  branch_offset_keeps : forall p o s r s',
    enc_branch_offset p o s = (r, s') -> contents s' = contents s;
  block_fuel_keeps : forall p f s r s',
    enc_block_fuel p f s = (r, s') -> contents s' = contents s
}.

(** [m] appends [bs] when it succeeds; [d] consumes exactly [bs] and returns [a]. *)
Definition writes {S P E A} `{AppendEncoder S P E} (m : M S E A) (bs : list Z) : Prop :=
  forall s a s', m s = (Ok a, s') -> contents s' = contents s ++ bs.
Definition reads {A} (d : M (list Z) DecodeError A) (bs : list Z) (a : A) : Prop :=
  forall rest, d (bs ++ rest) = (Ok a, rest).

Lemma reads_ret {A} (a : A) : reads (mret a) [] a.
Proof. done. Qed.

Lemma reads_bind {A B} (d : M (list Z) DecodeError A) (f : A -> M (list Z) DecodeError B) bs bs' a b :
  reads d bs a -> reads (f a) bs' b -> reads (d ≫= f) (bs ++ bs') b.
Proof. intros Hd Hf rest. rewrite bind_run, <-app_assoc, Hd. apply Hf. Qed.

(** A conversion after a decoder. *)
Lemma reads_then {A B} (d : M (list Z) DecodeError A) (f : A -> M (list Z) DecodeError B) bs a b :
  reads d bs a -> (forall rest, f a rest = (Ok b, rest)) -> reads (d ≫= f) bs b.
Proof. intros Hd Hf rest. rewrite bind_run, Hd. apply Hf. Qed.

Section Writes.
Context {S P E : Type} `{AppendEncoder S P E}.

Lemma writes_ret {A} (a : A) : writes (mret a : M S E A) [].
Proof. intros s b s' [= _ <-]. by rewrite app_nil_r. Qed.

Lemma writes_bind {A B} (m : M S E A) (f : A -> M S E B) bs bs' :
  writes m bs -> (forall a, writes (f a) bs') -> writes (m ≫= f) (bs ++ bs').
Proof.
  intros Hm Hf s b s' E1. rewrite bind_run in E1. destruct (m s) as [[a|e|] s1] eqn:Em; try done.
  apply Hf in E1. apply Hm in Em. by rewrite E1, Em, app_assoc.
Qed.

Lemma writes_then {A B} (m : M S E A) (f : A -> M S E B) bs :
  writes m bs -> (forall a, writes (f a) []) -> writes (m ≫= f) bs.
Proof. intros Hm Hf. rewrite <-(app_nil_r bs). by apply writes_bind. Qed.

Lemma writes_write bs : writes (write_bytes bs) bs.
Proof. intros s p s'. apply write_bytes_appends. Qed.

Lemma writes_rest (items : list (M S E P)) (bss : list (list Z)) :
  Forall2 writes items bss -> writes (encode_rest items) (concat bss).
Proof.
  induction 1 as [|item bs items bss Hi _ IH]; [apply writes_ret|].
  cbn [encode_rest concat]. by apply writes_bind.
Qed.

Lemma writes_seq (items : list (M S E P)) (bss : list (list Z)) :
  Forall2 writes items bss -> writes (encode_seq items) (concat bss).
Proof.
  intros Hi. destruct Hi as [|item bs items bss Hi Hr]; [done|].
  cbn [encode_seq concat]. apply writes_bind; [done|]. intros a.
  apply writes_then; [by apply writes_rest|]. intros _. apply writes_ret.
Qed.
End Writes.

Section RoundTrip.
Context `{T : Target} `{En : Endian} {S P E : Type} `{AE : AppendEncoder S P E}.

Lemma length_to_ne_bytes p v : Z.of_nat (length (to_ne_bytes p v)) = prim_bytes p.
Proof. unfold to_ne_bytes. destruct big_endian; rewrite ?length_rev; apply length_into_le_bytes. Qed.

Lemma from_to_ne_bytes p v : from_ne_bytes p (to_ne_bytes p v) = cast p v.
Proof.
  unfold from_ne_bytes, to_ne_bytes. destruct big_endian; rewrite ?rev_involutive; apply from_into_le_bytes.
Qed.

Lemma writes_prim p v : writes (encode_prim p v) (to_ne_bytes p v).
Proof. apply writes_write. Qed.

Lemma read_bytes_app bs rest : read_bytes (Z.of_nat (length bs)) (bs ++ rest) = (Ok bs, rest).
Proof.
  unfold read_bytes. rewrite length_app. destruct (Z.leb_spec (Z.of_nat (length bs)) (Z.of_nat (length bs + length rest)));
    [|lia]. by rewrite Nat2Z.id, take_app_length, drop_app_length.
Qed.

Lemma reads_prim p v : prim_val p v -> p <> P_bool -> reads (decode_prim p) (to_ne_bytes p v) v.
Proof.
  intros Hv Hp rest. unfold decode_prim. rewrite bind_run, <-(length_to_ne_bytes p v), read_bytes_app.
  cbn [mret M_ret]. by rewrite from_to_ne_bytes, cast_id.
Qed.

Lemma writes_slot s : writes (Slot_encode s) (to_ne_bytes P_raw_slot (slot_raw s)).
Proof. apply writes_prim. Qed.

Lemma reads_slot s : prim_val P_raw_slot (slot_raw s) ->
  reads Slot_decode (to_ne_bytes P_raw_slot (slot_raw s)) s.
Proof.
  intros Hs. eapply reads_then; [apply reads_prim; [done|by unfold P_raw_slot; destruct feat_slot16]|].
  by destruct s.
Qed.
Lemma reads_span s : prim_val P_raw_slot (slot_raw (span_head s)) ->
  reads SlotSpan_decode (to_ne_bytes P_raw_slot (slot_raw (span_head s))) s.
Proof. intros Hs. eapply reads_then; [by apply reads_slot|]. by destruct s. Qed.

(** The lane index types: [n] is a power of two up to 32. *)
Definition lane_ok (n lane : Z) : Prop := 0 <= lane <= lane_mask n.

Lemma lane_encode n lane : In n [2; 4; 8; 16; 32] -> lane_ok n lane ->
  writes (ImmLaneIdx_encode n lane) (to_ne_bytes P_u8 lane) /\
  reads (ImmLaneIdx_decode n) (to_ne_bytes P_u8 lane) lane.
Proof.
  intros Hn Hl. assert (Hk : exists k, 1 <= k <= 5 /\ n = 2 ^ k).
  { destruct Hn as [<-|[<-|[<-|[<-|[<-|[]]]]]];
      [exists 1|exists 2|exists 3|exists 4|exists 5]; (split; [lia|reflexivity]). }
  destruct Hk as (k & Hk & ->).
  assert (Hb : ImmLaneIdx_into_u8 (2 ^ k) lane = lane /\ prim_val P_u8 lane).
  { unfold ImmLaneIdx_into_u8, lane_ok, lane_mask in *. rewrite Z.log2_pow2 in * by lia.
    pose proof (Z.pow_le_mono_r 2 k 5 ltac:(lia) ltac:(lia)). split.
    - rewrite Z.sub_1_r, <-Z.ones_equiv, Z.land_ones by lia. apply Z.mod_small. lia.
    - change (prim_val P_u8 lane) with (0 <= lane < 2 ^ 8). lia. }
  destruct Hb as (Hb & Hv). split.
  - unfold ImmLaneIdx_encode. rewrite Hb. apply writes_prim.
  - eapply reads_then; [by apply reads_prim|]. intros rest. unfold ImmLaneIdx_try_from.
    destruct (Z.ltb_spec (lane_mask (2 ^ k)) lane); [unfold lane_ok in Hl; lia|done].
Qed.

Lemma reads_array {A} (d : M (list Z) DecodeError A) (bss : list (list Z)) (xs : list A) :
  Forall2 (reads d) bss xs -> reads (decode_array (length xs) d) (concat bss) xs.
Proof.
  induction 1 as [|bs x bss xs Hx _ IH]; [apply reads_ret|]. cbn [length decode_array concat].
  eapply reads_bind; [done|]. eapply reads_then; [done|]. done.
Qed.

(** Arrays of items with a round trip. *)
Lemma array_roundtrip {A} n (enc : A -> M S E P) (dec : M (list Z) DecodeError A) (bytes : A -> list Z) xs :
  length xs = n -> Forall (fun x => writes (enc x) (bytes x) /\ reads dec (bytes x) x) xs ->
  writes (encode_seq (enc <$> xs)) (concat (bytes <$> xs)) /\
  reads (decode_array n dec) (concat (bytes <$> xs)) xs.
Proof.
  intros <- Hxs. split.
  - apply writes_seq. induction Hxs as [|x xs [Hw _] _ IH]; cbn; by constructor.
  - apply reads_array. induction Hxs as [|x xs [_ Hr] _ IH]; cbn; by constructor.
Qed.

(** The values of a field type. *)
Definition field_ok (t : FieldTy) : denote t -> Prop :=
  match t with
  | FieldTy_Slot | FieldTy_SlotAndRegInt | FieldTy_SlotAndRegF32 | FieldTy_SlotAndRegF64 =>
      fun s => prim_val P_raw_slot (slot_raw s)
  | FieldTy_SlotSpan => fun s => prim_val P_raw_slot (slot_raw (span_head s))
  | FieldTy_FixedSlotSpan2 =>
      fun s => prim_val P_raw_slot (slot_raw (span_head s)) /\ FixedSlotSpan_new 2 s = Ok s
  | FieldTy_BoundedSlotSpan =>
      fun s => prim_val P_raw_slot (slot_raw (span_head (bspan s))) /\ in_u 16 (bspan_len s)
  | FieldTy_RegInt | FieldTy_RegF32 | FieldTy_RegF64 | FieldTy_Local _ => fun _ => True
  | FieldTy_EmptyTuple => fun _ => False
  | FieldTy_SignF32 | FieldTy_SignF64 => fun v => match v with end
  | FieldTy_U8 => prim_val P_u8
  | FieldTy_U16 | FieldTy_Offset16 | FieldTy_Memory => prim_val P_u16
  | FieldTy_U32 | FieldTy_Table | FieldTy_Global | FieldTy_Func | FieldTy_FuncType | FieldTy_Elem
  | FieldTy_Data => prim_val P_u32
  | FieldTy_U64 => prim_val P_u64
  | FieldTy_I8 => prim_val P_i8
  | FieldTy_I16 => prim_val P_i16
  | FieldTy_I32 => prim_val P_i32
  | FieldTy_I64 => prim_val P_i64
  | FieldTy_F32 => prim_val P_f32
  | FieldTy_F64 => prim_val P_f64
  | FieldTy_NonZeroI32 => fun v => prim_val P_i32 v /\ v <> 0
  | FieldTy_NonZeroI64 => fun v => prim_val P_i64 v /\ v <> 0
  | FieldTy_NonZeroU32 => fun v => prim_val P_u32 v /\ v <> 0
  | FieldTy_NonZeroU64 => fun v => prim_val P_u64 v /\ v <> 0
  | FieldTy_Address => fun v => 0 <= v < 2 ^ usize_bits
  | FieldTy_Offset => prim_val P_OffsetRepr
  | FieldTy_BranchOffset => fun o => in_s 32 (branch_offset o)
  | FieldTy_BlockFuel => fun f => in_u 64 (block_fuel f)
  | FieldTy_InternalFunc => prim_val P_usize
  | FieldTy_TrapCode => fun _ => True
  | FieldTy_Array16ImmLaneIdx32 => fun l => length l = 16%nat /\ Forall (lane_ok 32) l
  | FieldTy_ImmLaneIdx16 => lane_ok 16
  | FieldTy_ImmLaneIdx8 => lane_ok 8
  | FieldTy_ImmLaneIdx4 => lane_ok 4
  | FieldTy_ImmLaneIdx2 => lane_ok 2
  | FieldTy_Bytes16 => fun l => length l = 16%nat /\ Forall (prim_val P_u8) l
  | FieldTy_V128 => V128_val
  | FieldTy_ShiftAmount => fun s => prim_val P_u8 (shamt s)
  end.

Definition roundtrips {A} (enc : M S E P) (dec : M (list Z) DecodeError A) (a : A) : Prop :=
  exists bs, writes enc bs /\ reads dec bs a.

Lemma roundtrips_prim p v : prim_val p v -> p <> P_bool -> roundtrips (encode_prim p v) (decode_prim p) v.
Proof. intros. eexists. split; [apply writes_prim|by apply reads_prim]. Qed.

Lemma roundtrips_nonzero p v : prim_val p v -> p <> P_bool -> v <> 0 ->
  roundtrips (encode_prim p v) (NonZero_decode p) v.
Proof.
  intros Hv Hp H0. eexists. split; [apply writes_prim|]. eapply reads_then; [by apply reads_prim|].
  intros rest. by destruct (Z.eqb_spec v 0).
Qed.

Lemma roundtrips_lane n v : In n [2; 4; 8; 16; 32] -> lane_ok n v ->
  roundtrips (ImmLaneIdx_encode n v) (ImmLaneIdx_decode n) v.
Proof. intros Hn Hv. eexists. by apply lane_encode. Qed.

Lemma roundtrips_slot s : prim_val P_raw_slot (slot_raw s) -> roundtrips (Slot_encode s) Slot_decode s.
Proof. intros. eexists. split; [apply writes_slot|by apply reads_slot]. Qed.

Lemma roundtrips_branch_offset o : in_s 32 (branch_offset o) ->
  roundtrips (BranchOffset_encode o) BranchOffset_decode o.
Proof.
  intros Ho. eexists. split.
  - eapply writes_then; [apply writes_prim|]. intros pos. apply (writes_then (S := S) _ _ []).
    + intros s a s' E1. rewrite app_nil_r. by eapply branch_offset_keeps.
    + intros _. apply writes_ret.
  - eapply reads_then; [by apply reads_prim|]. by destruct o.
Qed.

Lemma roundtrips_block_fuel f : in_u 64 (block_fuel f) ->
  roundtrips (BlockFuel_encode f) BlockFuel_decode f.
Proof.
  intros Hf. eexists. split.
  - eapply writes_then; [apply writes_prim|]. intros pos. apply (writes_then (S := S) _ _ []).
    + intros s a s' E1. rewrite app_nil_r. by eapply block_fuel_keeps.
    + intros _. apply writes_ret.
  - eapply reads_then; [by apply reads_prim|]. by destruct f.
Qed.

Lemma roundtrips_array {A} n (enc : A -> M S E P) dec (ok : A -> Prop) xs :
  (forall x, ok x -> roundtrips (enc x) dec x) -> length xs = n -> Forall ok xs ->
  roundtrips (encode_seq (enc <$> xs)) (decode_array n dec) xs.
Proof.
  intros Hx <- Hxs.
  assert (Hb : exists bss, Forall2 writes (enc <$> xs) bss /\ Forall2 (reads dec) bss xs).
  { induction Hxs as [|x xs Hok _ (bss & IH1 & IH2)]; [by exists []|].
    destruct (Hx x Hok) as (bs & ? & ?). exists (bs :: bss). split; by constructor. }
  destruct Hb as (bss & Hw & Hr). exists (concat bss). split; [by apply writes_seq|by apply reads_array].
Qed.

(** Whatever the encoder writes for a field, the decoder of the field's type
    reads back, consuming exactly those bytes. *)
Lemma field_roundtrip t v : field_ok t v -> roundtrips (field_encode t v) (field_decode t) v.
Proof.
  assert (Hus : P_usize <> P_bool) by (unfold P_usize; by destruct (_ =? _)).
  assert (Hor : P_OffsetRepr <> P_bool) by (unfold P_OffsetRepr; by destruct feat_memory64).
  destruct t; cbn [field_ok field_encode field_decode denote] in *; intros Hok;
    try (by apply roundtrips_prim); try (by destruct v); try (by destruct Hok; apply roundtrips_nonzero);
    try (by apply roundtrips_slot);
    try (by apply roundtrips_lane; [cbn; tauto|]).
  - (* SlotSpan *) eexists. split; [apply writes_slot|by apply reads_span].
  - eexists. split; [|by apply reads_slot]. eapply writes_then; [apply writes_slot|]. intros a.
    apply (writes_then (S := S) _ _ []); [apply writes_write|intros _; apply writes_ret].
  - eexists. split; [|by apply reads_slot]. eapply writes_then; [apply writes_slot|]. intros a.
    apply (writes_then (S := S) _ _ []); [apply writes_write|intros _; apply writes_ret].
  - eexists. split; [|by apply reads_slot]. eapply writes_then; [apply writes_slot|]. intros a.
    apply (writes_then (S := S) _ _ []); [apply writes_write|intros _; apply writes_ret].
  - eexists. split; [apply writes_write|]. destruct v. apply reads_ret.
  - eexists. split; [apply writes_write|]. destruct v. apply reads_ret.
  - eexists. split; [apply writes_write|]. destruct v. apply reads_ret.
  - (* BoundedSlotSpan *) destruct Hok as [Hs Hl]. eexists. split.
    + apply (writes_seq [_; _]). repeat constructor; [apply writes_slot|apply writes_prim].
    + cbn [concat]. eapply reads_bind; [by apply reads_span|]. rewrite app_nil_r.
      eapply reads_then; [by apply reads_prim|]. by destruct v.
  - (* FixedSlotSpan2 *) destruct Hok as [Hs Hn]. eexists. split; [apply writes_slot|].
    eapply reads_then; [by apply reads_span|]. intros rest. by rewrite Hn.
  - (* Address *) eexists. split; [apply writes_prim|]. eapply reads_then; [apply reads_prim; [|done]|].
    + change (0 <= v < 2 ^ 64). pose proof usize_bits_bounds. lia.
    + intros rest. unfold Address_new, try_from_u. by rewrite (proj2 (Z.ltb_lt _ _)) by lia.
  - by apply roundtrips_branch_offset.
  - (* TrapCode *) eexists. split; [apply writes_prim|]. eapply reads_then; [apply reads_prim; [|done]|].
    + pose proof (TrapCode_into_u8_range v). change (0 <= TrapCode_into_u8 v < 2 ^ 8). lia.
    + intros rest. by rewrite (proj2 (TrapCode_try_from_iff _ v) eq_refl).
  - by apply roundtrips_block_fuel.
  - destruct Hok. eapply roundtrips_array; [|done|done]. intros. apply roundtrips_lane; [cbn; tauto|done].
  - destruct Hok. eapply roundtrips_array; [|done|done]. intros. by apply roundtrips_prim.
  - (* V128 *) eexists. split; [apply writes_prim|]. eapply reads_then; [apply reads_prim; [|done]|].
    + apply (V128_as_u128_range v Hok).
    + intros rest. by rewrite V128_from_as.
  - (* ShiftAmount *) eexists. split; [apply writes_prim|]. eapply reads_then; [by apply reads_prim|]. by destruct v.
  - eexists. split; [apply writes_write|]. destruct v. apply reads_ret.
Qed.
End RoundTrip.
