(* ===== verification/EncodedOps.v ===== *)
(** * The buffer of encoded operators

    [EncodedOps] and [SliceEncoder] of
    [crates/wasmi/src/engine/translator/func/encoder.rs]: the byte buffer that
    operators are appended to, and updating an encoded item in place. *)

From Stdlib Require Import ZArith Lia.
From stdpp Require Import base option decidable numbers list.
From S2P Require Import Prelude Value MemoryAccess Slot Locals OpFields Codec.
Local Open Scope Z_scope.

(** How op-codes are encoded: the [indirect-dispatch] feature and the function
    that resolves an op-code to its handler (the executor's handler table is
    generated), as an address. *)
Class Dispatch : Type := {
  indirect_dispatch : bool;
  op_code_to_handler : Z -> Z
}.

(** A [BytePos] or a typed [Pos] is the index of a byte. *)
Notation BytePos := Z (only parsing).

Inductive ReportingPos : Type :=
| Reporting_BranchOffset (pos : BytePos)
| Reporting_BlockFuel (pos : BytePos).

Record EncodedOps : Type := { buffer : list Z; buffer_cap : Z; temp : option ReportingPos }.

Definition EncodedOps_default : EncodedOps := {| buffer := []; buffer_cap := 0; temp := None |}.
(** [reset] keeps the capacity and [temp]. *)
Definition EncodedOps_reset (self : EncodedOps) : EncodedOps :=
  {| buffer := []; buffer_cap := buffer_cap self; temp := temp self |}.

Definition set_buffer (b : list Z) (self : EncodedOps) : EncodedOps :=
  {| buffer := b; buffer_cap := Z.max (buffer_cap self) (Z.of_nat (length b)); temp := temp self |}.
Definition set_temp (t : option ReportingPos) (self : EncodedOps) : EncodedOps :=
  {| buffer := buffer self; buffer_cap := buffer_cap self; temp := t |}.

Definition next_pos (self : EncodedOps) : BytePos := Z.of_nat (length (buffer self)).

Definition take_reporting_pos {E} : M EncodedOps E (option ReportingPos) :=
  self ← get_st; put_st (set_temp None self);; mret (temp self).

Definition EncodedOps_truncate {E} (pos : BytePos) : M EncodedOps E unit :=
  self ← get_st;
  assert_m (pos <=? next_pos self);;
  put_st (set_buffer (take (Z.to_nat pos) (buffer self)) self).

Section Buffer.
Context `{Al : Allocator} `{En : Endian} `{Di : Dispatch}.

Definition EncodedOps_write_bytes (bytes : list Z) : M EncodedOps TranslationError BytePos := fun self =>
  let pos := next_pos self in
  match try_reserve 1 (buffer_cap self) (next_pos self) (Z.of_nat (length bytes)) with
  | None => (Err TranslationOutOfSystemMemory, self)
  | Some cap =>
      (Ok pos, {| buffer := buffer self ++ bytes; buffer_cap := cap; temp := temp self |})
  end.

(** [encode_op_code]: a [u16] or the address of the handler. *)
Definition op_code_repr (code : Z) : list Z :=
  if indirect_dispatch then to_ne_bytes P_u16 code else to_ne_bytes P_usize (op_code_to_handler code).

Definition EncodedOps_report (pos : ReportingPos) : M EncodedOps TranslationError unit :=
  self ← get_st;
  assert_m (match temp self with None => true | Some _ => false end);;
  put_st (set_temp (Some pos) self).

#[export] Instance EncodedOps_Encoder : Encoder EncodedOps BytePos TranslationError := {|
  write_bytes := EncodedOps_write_bytes;
  encode_op_code := fun code => EncodedOps_write_bytes (op_code_repr code);
  enc_branch_offset := fun pos _ => EncodedOps_report (Reporting_BranchOffset pos);
  enc_block_fuel := fun pos _ => EncodedOps_report (Reporting_BlockFuel pos)
|}.

(** ** Encoding to a slice *)

Inductive SliceEncoderError : Type := mk_SliceEncoderError.

(** [write_bytes] writes to the start of the slice, which stays the same. *)
Definition SliceEncoder_write_bytes (bytes : list Z) : M (list Z) SliceEncoderError unit := fun self =>
  match get_to (Z.of_nat (length bytes)) self with
  | None => (Err mk_SliceEncoderError, self)
  | Some _ => (Ok tt, set_span 0 bytes self)
  end.

#[export] Instance SliceEncoder_Encoder : Encoder (list Z) unit SliceEncoderError := {|
  write_bytes := SliceEncoder_write_bytes;
  encode_op_code := fun code => SliceEncoder_write_bytes (op_code_repr code);
  enc_branch_offset := fun _ _ => mret tt;
  enc_block_fuel := fun _ _ => mret tt
|}.

(** ** Updating encoded items *)

Inductive UpdateEncodedErrorKind : Type :=
| BufferOutOfBounds | FailedToDecode | FailedToEncode | FailedToUpdateEncoded.

Definition update_encoded_or_err {A} (decode : M (list Z) DecodeError A)
    (encode : A -> M (list Z) SliceEncoderError unit) (pos : BytePos) (f : A -> option A) :
    M EncodedOps UpdateEncodedErrorKind unit := fun self =>
  match get_from pos (buffer self) with
  | None => (Err BufferOutOfBounds, self)
  | Some slice =>
      match fst (decode slice) with
      | Panic => (Panic, self)
      | Err _ => (Err FailedToDecode, self)
      | Ok decoded =>
          match f decoded with
          | None => (Err FailedToUpdateEncoded, self)
          | Some updated =>
              let '(r, slice) := encode updated slice in
              let self := set_buffer (take (Z.to_nat pos) (buffer self) ++ slice) self in
              match r with
              | Panic => (Panic, self)
              | Err _ => (Err FailedToEncode, self)
              | Ok _ => (Ok tt, self)
              end
          end
      end
  end.

Definition update_encoded {A E} (decode : M (list Z) DecodeError A)
    (encode : A -> M (list Z) SliceEncoderError unit) (pos : BytePos) (f : A -> option A) :
    M EncodedOps E unit := fun self =>
  match update_encoded_or_err decode encode pos f self with
  | (Ok _, self) => (Ok tt, self)
  | (_, self) => (Panic, self)
  end.

Definition EncodedOps_update_branch_offset {E} (pos : BytePos) (offset : BranchOffset) :
    M EncodedOps E unit :=
  update_encoded BranchOffset_decode BranchOffset_encode pos (fun _ => Some offset).

(** ** Properties *)

#[export] Program Instance EncodedOps_AppendEncoder : AppendEncoder EncodedOps BytePos TranslationError := {|
  contents := buffer;
  op_code_bytes := op_code_repr
|}.
Next Obligation.
  intros bs s p s'. cbn. unfold EncodedOps_write_bytes. destruct (try_reserve _ _ _ _); intros [=]. by subst.
Qed.
Next Obligation.
  intros code s p s'. cbn. unfold EncodedOps_write_bytes. destruct (try_reserve _ _ _ _); intros [=]. by subst.
Qed.
Next Obligation.
  intros p o s r s'. cbn. unfold EncodedOps_report. unfold_m. destruct (temp s); intros [=]; by subst.
Qed.
Next Obligation.
  intros p o s r s'. cbn. unfold EncodedOps_report. unfold_m. destruct (temp s); intros [=]; by subst.
Qed.
End Buffer.
