(* ===== verification/OpLayout.v ===== *)
(** * Layouts of encoded operators

    The build script writes an operator as its op-code followed by its fields
    ([build/display/encode.rs]) and names, for every operator, the structure of
    [crates/ir/src/decode/op.rs] that reads it back ([build/display/decode.rs]).
    This file compares the two and shows that decoding undoes encoding. *)

From Stdlib Require Import ZArith Lia String.
From stdpp Require Import base option decidable numbers list.
From S2P Require Import Prelude Trap Value MemoryAccess Slot Locals OpFields Codec EncodedOps.
Local Open Scope Z_scope.

(** ** The structures that decode operators

    The field types of each structure, in the order its [decode] reads them. *)
Definition Decode_UnaryOp (R V : FieldTy) := [R; V].
Definition Decode_BinaryOp (Res Lhs Rhs : FieldTy) := [Res; Lhs; Rhs].
Definition Decode_TernaryOp (A B C : FieldTy) := [FieldTy_Slot; A; B; C].
Definition Decode_CmpBranchOp (Lhs Rhs : FieldTy) := [FieldTy_BranchOffset; Lhs; Rhs].
Definition Decode_BranchTableOp (Index Values : FieldTy) := [FieldTy_U32; Index; Values].
Definition Decode_SelectOp (Res Cond Tval Fval : FieldTy) := [Res; Cond; Tval; Fval].
Definition Decode_LoadOp (Res Ptr : FieldTy) := [Res; Ptr; FieldTy_Offset; FieldTy_Memory].
Definition Decode_LoadAtOp (Res : FieldTy) := [Res; FieldTy_Address; FieldTy_Memory].
Definition Decode_LoadOpMem0Offset16 (Res Ptr : FieldTy) := [Res; Ptr; FieldTy_Offset16].
Definition Decode_StoreOp (Ptr Val : FieldTy) := [Ptr; FieldTy_Offset; Val; FieldTy_Memory].
Definition Decode_StoreAtOp (Val : FieldTy) := [FieldTy_Address; Val; FieldTy_Memory].
Definition Decode_StoreOpMem0Offset16 (Ptr Val : FieldTy) := [Ptr; FieldTy_Offset16; Val].
Definition Decode_StoreLaneOp (Ptr Val LaneIdx : FieldTy) := [Ptr; FieldTy_U64; Val; FieldTy_Memory; LaneIdx].
Definition Decode_StoreLaneOpMem0Offset16 (Ptr Val LaneIdx : FieldTy) := [Ptr; FieldTy_Offset16; Val; LaneIdx].
Definition Decode_GlobalGet (R : FieldTy) := [FieldTy_Global; R].
Definition Decode_GlobalSet (V : FieldTy) := [FieldTy_Global; V].
Definition Decode_TableGet (I : FieldTy) := [FieldTy_RegInt; I; FieldTy_Table].
Definition Decode_TableSet (I V : FieldTy) := [FieldTy_Table; I; V].
Definition Decode_CallIndirect (I : FieldTy) := [FieldTy_Table; FieldTy_FuncType; FieldTy_BoundedSlotSpan; I].
Definition Decode_V128ExtractLaneOp (N Res : FieldTy) := [Res; FieldTy_Slot; N].
Definition Decode_V128ReplaceLaneOp (V N : FieldTy) := [FieldTy_Slot; FieldTy_Slot; V; N].

(** ** The structure of each operator

    [None] where the generated type alias names no structure of the crate or
    gives it the wrong number of parameters, which does not compile. *)

Definition LoadOp_layout (op : LoadOp) : option (list FieldTy) :=
  let result_ty := field_ty (ld_result op) (ld_result_ty op) in
  let ptr_ty := match ld_ptr op with
                | Kind_Reg => Some FieldTy_RegInt
                | Kind_Slot => Some FieldTy_Slot
                | Kind_SlotAndReg => Some FieldTy_SlotAndRegInt
                | Kind_Immediate | Kind_Local _ => None
                end in
  let at_suffix := match ld_ptr op with Kind_Immediate => true | _ => false end in
  match at_suffix, ld_mem op, ld_offset op, ptr_ty with
  | false, Mem_Immediate, Off_Offset, Some ptr_ty => Some (Decode_LoadOp result_ty ptr_ty)
  | true, Mem_Immediate, Off_Offset, None => Some (Decode_LoadAtOp result_ty)
  | false, Mem_Mem0, Off_Offset16, Some ptr_ty => Some (Decode_LoadOpMem0Offset16 result_ty ptr_ty)
  | _, _, _, _ => None
  end.

Definition StoreOp_layout (op : StoreOp) : option (list FieldTy) :=
  let lane := f_ty <$> StoreOp_laneidx_field op in
  let at_suffix := match st_ptr op with Kind_Immediate => true | _ => false end in
  let ptr_ty := match st_ptr op with
                | Kind_Reg | Kind_Slot | Kind_SlotAndReg => Some (f_ty (ptr_field (st_ptr op)))
                | Kind_Immediate | Kind_Local _ => None
                end in
  let value_ty := f_ty (StoreOp_value_field op) in
  match lane, at_suffix, st_mem op, st_offset op, ptr_ty with
  | None, false, Mem_Immediate, Off_Offset, Some ptr_ty => Some (Decode_StoreOp ptr_ty value_ty)
  | None, true, Mem_Immediate, Off_Offset, None => Some (Decode_StoreAtOp value_ty)
  | None, false, Mem_Mem0, Off_Offset16, Some ptr_ty => Some (Decode_StoreOpMem0Offset16 ptr_ty value_ty)
  | Some lane, false, Mem_Immediate, Off_Offset, Some ptr_ty =>
      Some (Decode_StoreLaneOp ptr_ty value_ty lane)
  | Some lane, false, Mem_Mem0, Off_Offset16, Some ptr_ty =>
      Some (Decode_StoreLaneOpMem0Offset16 ptr_ty value_ty lane)
  | _, _, _, _, _ => None
  end.

(** The type alias [V128ExtractLaneOp<N, _>] has [N] lanes. *)
Definition imm_lane_ty (lanes : Z) : FieldTy :=
  if lanes =? 16 then FieldTy_ImmLaneIdx16
  else if lanes =? 8 then FieldTy_ImmLaneIdx8
  else if lanes =? 4 then FieldTy_ImmLaneIdx4
  else FieldTy_ImmLaneIdx2.

Definition field_at (fields : list Field) (i : nat) : FieldTy :=
  match fields !! i with Some f => f_ty f | None => FieldTy_EmptyTuple end.

Definition OpDesc_layout (op : OpDesc) : option (list FieldTy) :=
  match op with
  | Op_Unary op => let f := UnaryOp_fields op in Some (Decode_UnaryOp (field_at f 0) (field_at f 1))
  | Op_Binary op =>
      let f := BinaryOp_fields op in Some (Decode_BinaryOp (field_at f 0) (field_at f 1) (field_at f 2))
  | Op_Ternary =>
      let f := TernaryOp_fields in Some (Decode_TernaryOp (field_at f 1) (field_at f 2) (field_at f 3))
  | Op_CmpBranch op =>
      let f := CmpBranchOp_fields op in Some (Decode_CmpBranchOp (field_at f 1) (field_at f 2))
  | Op_BranchTable op =>
      Some (Decode_BranchTableOp (field_ty (bt_index op) Ty_U32)
              (match bt_copies op with
               | Copies_None => FieldTy_EmptyTuple
               | Copies_Span => FieldTy_BoundedSlotSpan
               end))
  | Op_Select op =>
      let f := SelectOp_fields op in
      Some (Decode_SelectOp (field_at f 0) (field_at f 1) (field_at f 2) (field_at f 3))
  | Op_Load op => LoadOp_layout op
  | Op_Store op => StoreOp_layout op
  | Op_GlobalGet op => Some (Decode_GlobalGet (field_at (GlobalGetOp_fields op) 1))
  | Op_GlobalSet op => Some (Decode_GlobalSet (field_at (GlobalSetOp_fields op) 1))
  | Op_TableGet op => Some (Decode_TableGet (field_at (TableGetOp_fields op) 1))
  | Op_TableSet op =>
      let f := TableSetOp_fields op in Some (Decode_TableSet (field_at f 1) (field_at f 2))
  | Op_CallIndirect index => Some (Decode_CallIndirect (field_at (CallIndirectOp_fields index) 3))
  | Op_Generic fields => Some (f_ty <$> fields)
  | Op_V128ReplaceLane op =>
      Some (Decode_V128ReplaceLaneOp (field_at (ReplaceLaneOp_fields op) 2)
              (imm_lane_ty (len_lanes (LaneWidth_from_SimdTy (rl_ty op)))))
  | Op_V128ExtractLane ty =>
      Some (Decode_V128ExtractLaneOp (imm_lane_ty (len_lanes (LaneWidth_from_SimdTy ty)))
              (field_at (V128ExtractLaneOp_fields ty) 0))
  end.

(** ** The memory operators of the instruction set *)

Definition load (kind_result : OperandKind) (ty : Ty) (ptr : OperandKind) (mem : MemoryOperand)
    (offset : OffsetOperand) : OpDesc :=
  Op_Load {| ld_result_ty := ty; ld_result := kind_result; ld_ptr := ptr; ld_mem := mem; ld_offset := offset |}.
Definition store (kind : StoreKind) (ty : Ty) (ptr value : OperandKind) (mem : MemoryOperand)
    (offset : OffsetOperand) : OpDesc :=
  Op_Store {| st_kind := kind; st_value_ty := ty; st_ptr := ptr; st_value := value; st_mem := mem;
              st_offset := offset |}.

Definition isa_load_tys : list Ty :=
  [Ty_U32; Ty_U64; Ty_F32; Ty_F64; Ty_I32; Ty_I32; Ty_U32; Ty_U32;
   Ty_I64; Ty_I64; Ty_I64; Ty_U64; Ty_U64; Ty_U64].

Definition add_load_ops : list OpDesc :=
  result_ty ← isa_load_tys;
  ptr ← [Kind_Reg; Kind_Slot; Kind_Immediate];
  load Kind_Reg result_ty ptr Mem_Immediate Off_Offset ::
  match ptr with
  | Kind_Reg | Kind_Slot =>
      (fun result => load result result_ty ptr Mem_Mem0 Off_Offset16) <$> [Kind_Reg; Kind_SlotAndReg]
  | _ => []
  end.

Definition isa_store_kinds : list (StoreKind * Ty) :=
  [(StoreKind_Value, Ty_U32); (StoreKind_Value, Ty_U64); (StoreKind_Value, Ty_F32); (StoreKind_Value, Ty_F64);
   (StoreKind_Wrap Wrapped_I8, Ty_I32); (StoreKind_Wrap Wrapped_I16, Ty_I32);
   (StoreKind_Wrap Wrapped_I8, Ty_I64); (StoreKind_Wrap Wrapped_I16, Ty_I64);
   (StoreKind_Wrap Wrapped_I32, Ty_I64)].

Definition Ty_is_float (ty : Ty) : bool := match ty with Ty_F32 | Ty_F64 => true | _ => false end.
Definition Kind_is_reg (kind : OperandKind) : bool := match kind with Kind_Reg => true | _ => false end.

Definition add_store_ops : list OpDesc :=
  '(kind, value_ty) ← isa_store_kinds;
  ptr ← [Kind_Reg; Kind_Slot; Kind_Immediate];
  value ← [Kind_Reg; Kind_Slot; Kind_Immediate];
  if Kind_is_reg ptr && Kind_is_reg value && negb (Ty_is_float value_ty) then []
  else if Ty_is_float value_ty && negb (Kind_is_reg value) then []
  else
    store kind value_ty ptr value Mem_Immediate Off_Offset ::
    match ptr with
    | Kind_Immediate => []
    | _ => [store kind value_ty ptr value Mem_Mem0 Off_Offset16]
    end.

Definition add_simd_load_ops : list OpDesc :=
  ptr ← [Kind_Reg; Kind_Slot];
  [load Kind_Slot Ty_V128 ptr Mem_Immediate Off_Offset; load Kind_Slot Ty_V128 ptr Mem_Mem0 Off_Offset16].

Definition add_simd_store_ops : list OpDesc :=
  kind ← [StoreKind_Value; StoreKind_Lane LaneWidth_W8; StoreKind_Lane LaneWidth_W16];
  ptr ← [Kind_Reg; Kind_Slot];
  [store kind Ty_V128 ptr Kind_Slot Mem_Immediate Off_Offset;
   store kind Ty_V128 ptr Kind_Slot Mem_Mem0 Off_Offset16].

Definition isa_memory_ops : list OpDesc :=
  add_load_ops ++ add_store_ops ++ add_simd_load_ops ++ add_simd_store_ops.

(** The operators of the instruction set: memory operators as listed above and
    [table.get] with a register result; any other operator of the other classes. *)
Definition isa_op (op : OpDesc) : Prop :=
  match op with
  | Op_Load _ | Op_Store _ => op ∈ isa_memory_ops
  | Op_TableGet op => tg_result op = Kind_Reg
  | _ => True
  end.

(** The lane stores with an explicit memory. *)
Definition is_store_lane (op : OpDesc) : bool :=
  match op with
  | Op_Store op =>
      match st_kind op, st_mem op with StoreKind_Lane _, Mem_Immediate => true | _, _ => false end
  | _ => false
  end.

(** ** Operators as values *)

Definition FieldVal `{Target} : Type := { t : FieldTy & denote t }.

Section Ops.
Context `{T : Target} `{En : Endian} {S P E : Type} `{AE : AppendEncoder S P E}.

Definition val_encode (v : FieldVal) : M S E P := field_encode (projT1 v) (projT2 v).
Definition val_ok (v : FieldVal) : Prop := field_ok (projT1 v) (projT2 v).

(** [(OpCode::X, fields..).encode(encoder)]. *)
Definition Op_encode (code : Z) (args : list FieldVal) : M S E P :=
  encode_seq (encode_op_code code :: (val_encode <$> args)).

(** The [decode] of a structure with fields [l]. *)
Fixpoint fields_decode (l : list FieldTy) : M (list Z) DecodeError (list FieldVal) :=
  match l with
  | [] => mret []
  | t :: l => v ← field_decode t; vs ← fields_decode l; mret (existT t v :: vs)
  end.

(** ** Agreement of layouts *)

(** A decoded type for a field: the same, or the [u64] that [StoreLaneOp] reads
    for an [Offset] of 64 bits. *)
Definition agrees (t : FieldTy) (t' : FieldTy) : Prop :=
  t = t' \/ (feat_memory64 = true /\ t = FieldTy_U64 /\ t' = FieldTy_Offset).
Definition val_agrees (v v' : FieldVal) : Prop :=
  v = v' \/ (feat_memory64 = true /\ exists z, v = existT FieldTy_U64 z /\ v' = existT FieldTy_Offset z).

(** The fields that are decoded, without the empty ones. *)
Definition not_empty (t : FieldTy) : Prop := t <> FieldTy_EmptyTuple.
#[local] Instance not_empty_dec t : Decision (not_empty t) := _.
Definition val_not_empty (v : FieldVal) : Prop := not_empty (projT1 v).

(** The two sides of one operator, as booleans to compute on the list. *)
Definition layout_eqb (op : OpDesc) : bool :=
  match OpDesc_layout op with
  | Some l => bool_decide (filter not_empty l = f_ty <$> OpDesc_fields op)
  | None => false
  end.

Lemma memory_ops_layouts : forallb (fun op => is_store_lane op || layout_eqb op) isa_memory_ops = true.
Proof. vm_compute. reflexivity. Qed.

Lemma memory_op_layout op : op ∈ isa_memory_ops -> is_store_lane op = false -> layout_eqb op = true.
Proof.
  intros Hop Hlane. pose proof (proj1 (forallb_forall _ _) memory_ops_layouts op) as H.
  cbv beta in H. rewrite Hlane in H. apply H. by apply list_elem_of_In.
Qed.

(** The lane stores with an explicit memory, and their fields. *)
Definition lane_stores : list OpDesc :=
  kind ← [StoreKind_Lane LaneWidth_W8; StoreKind_Lane LaneWidth_W16];
  ptr ← [Kind_Reg; Kind_Slot];
  [store kind Ty_V128 ptr Kind_Slot Mem_Immediate Off_Offset].

Lemma lane_stores_eq : List.filter is_store_lane isa_memory_ops = lane_stores.
Proof. vm_compute. reflexivity. Qed.

Lemma filter_not_empty_id l : Forall not_empty l -> filter not_empty l = l.
Proof. induction 1 as [|t l Ht _ IH]; [done|]. by rewrite filter_cons_True, IH. Qed.

(** The operators other than lane stores: both sides have the same fields. *)
Lemma layouts_agree op : isa_op op -> is_store_lane op = false ->
  Forall not_empty (f_ty <$> OpDesc_fields op) ->
  exists l, OpDesc_layout op = Some l /\ filter not_empty l = f_ty <$> OpDesc_fields op.
Proof.
  assert (Hid : forall l, OpDesc_layout op = Some l -> l = f_ty <$> OpDesc_fields op ->
    Forall not_empty (f_ty <$> OpDesc_fields op) ->
    exists l, OpDesc_layout op = Some l /\ filter not_empty l = f_ty <$> OpDesc_fields op).
  { intros l El -> Hne'. eexists. split; [exact El|]. by apply filter_not_empty_id. }
  intros Hisa Hlane Hne. destruct op as [op|op| |op|op|op|op|op|op|op|op|op|index|fields|op|ty];
    try (by eapply Hid).
  - destruct op as [[] []]; (eexists; split; [reflexivity|]); reflexivity.
  - pose proof (memory_op_layout _ Hisa Hlane) as H. unfold layout_eqb in H.
    destruct (OpDesc_layout (Op_Load op)) as [l|]; [|done]. apply bool_decide_eq_true in H. eauto.
  - pose proof (memory_op_layout _ Hisa Hlane) as H. unfold layout_eqb in H.
    destruct (OpDesc_layout (Op_Store op)) as [l|]; [|done]. apply bool_decide_eq_true in H. eauto.
  - destruct op as [result index]. cbn in Hisa. subst. by eapply Hid.
  - destruct op as [ty value]. eapply Hid; [reflexivity| |done]. by destruct ty.
  - eapply Hid; [reflexivity| |done]. by destruct ty.
Qed.

Lemma lane_layout op : isa_op op -> is_store_lane op = true ->
  exists p n, OpDesc_layout op = Some [p; FieldTy_U64; FieldTy_Slot; FieldTy_Memory; n] /\
    f_ty <$> OpDesc_fields op = [p; FieldTy_Offset; FieldTy_Slot; FieldTy_Memory; n] /\
    (p = FieldTy_RegInt \/ p = FieldTy_Slot) /\ (n = FieldTy_ImmLaneIdx16 \/ n = FieldTy_ImmLaneIdx8).
Proof.
  intros Hisa Hlane. assert (Hin : In op lane_stores).
  { rewrite <-lane_stores_eq. apply filter_In. split; [|done].
    destruct op; try done. by apply list_elem_of_In. }
  cbn in Hin. destruct Hin as [<-|[<-|[<-|[<-|[]]]]]; (eexists _, _; split; [reflexivity|]); cbn; auto.
Qed.

(** ** Round trips *)

Lemma val_roundtrip v : val_ok v -> exists bs, writes (val_encode v) bs /\ reads (field_decode (projT1 v)) bs (projT2 v).
Proof. destruct v as [t v]. apply field_roundtrip. Qed.

(** Decoding a field by a type that agrees with it. *)
Lemma val_roundtrip_agrees t v : agrees t (projT1 v) -> val_ok v ->
  exists bs w, writes (val_encode v) bs /\ reads (field_decode t) bs w /\ val_agrees (existT t w) v.
Proof.
  intros [->|(Hm & -> & Ht)] Hok.
  - destruct (val_roundtrip v Hok) as (bs & ? & ?). exists bs, (projT2 v). split_and!; [done|done|].
    left. by destruct v.
  - destruct v as [t' z]. cbn in Ht. subst t'. cbn in z.
    assert (Hor : P_OffsetRepr = P_u64) by (unfold P_OffsetRepr; by rewrite Hm).
    eexists _, z. split_and!; [apply writes_prim| |right; eauto].
    rewrite Hor. apply reads_prim; [|done]. cbn in Hok. unfold val_ok in Hok. cbn in Hok. by rewrite Hor in Hok.
Qed.

Lemma fields_roundtrip l args :
  Forall2 agrees (filter not_empty l) (projT1 <$> args) -> Forall val_ok args ->
  exists bss vs, Forall2 writes (val_encode <$> args) bss /\
    reads (fields_decode l) (concat bss) vs /\ Forall2 val_agrees (filter val_not_empty vs) args.
Proof.
  revert args. induction l as [|t l IH]; intros args Ha Hok.
  - inversion Ha as [E'|]. destruct args; [|done]. exists [], []. split_and!; constructor.
  - destruct (decide (not_empty t)) as [Ht|Ht].
    + rewrite filter_cons_True in Ha by done. destruct args as [|v args]; [by inversion Ha|].
      cbn in Ha. apply Forall2_cons in Ha as [Hv Ha]. apply Forall_cons in Hok as [Hok1 Hok].
      destruct (IH args Ha Hok) as (bss & vs & Hw & Hr & Hag).
      destruct (val_roundtrip_agrees t v Hv Hok1) as (bs & w & Hw1 & Hr1 & Hag1).
      exists (bs :: bss), (existT t w :: vs). split_and!.
      * by constructor.
      * cbn [fields_decode concat]. eapply reads_bind; [done|]. eapply reads_then; [done|]. done.
      * rewrite filter_cons_True by done. by constructor.
    + assert (t = FieldTy_EmptyTuple) as -> by (by apply dec_stable).
      rewrite filter_cons_False in Ha by done.
      destruct (IH args Ha Hok) as (bss & vs & Hw & Hr & Hag).
      exists bss, (existT FieldTy_EmptyTuple tt :: vs). split_and!; [done| |].
      * intros rest. cbn [fields_decode field_decode]. rewrite bind_run. cbn [mret M_ret].
        rewrite bind_run, Hr. done.
      * rewrite filter_cons_False by done. done.
Qed.

Lemma args_not_empty args : Forall val_ok args -> Forall not_empty (projT1 <$> args).
Proof.
  induction 1 as [|[t v] args Hv _ IH]; cbn; [done|]. constructor; [|done]. intros ->. by cbn in Hv.
Qed.

Lemma op_layout_agrees op args : isa_op op -> (is_store_lane op = true -> feat_memory64 = true) ->
  projT1 <$> args = f_ty <$> OpDesc_fields op -> Forall val_ok args ->
  exists l, OpDesc_layout op = Some l /\ Forall2 agrees (filter not_empty l) (projT1 <$> args).
Proof.
  intros Hisa Hm Hty Hok. pose proof (args_not_empty _ Hok) as Hne. destruct (is_store_lane op) eqn:Hlane.
  - destruct (lane_layout op Hisa Hlane) as (p & n & El & Ef & Hp & Hn). exists [p; FieldTy_U64; FieldTy_Slot; FieldTy_Memory; n].
    split; [done|]. rewrite Hty, Ef.
    assert (not_empty p /\ not_empty n) as [? ?].
    { split; [destruct Hp as [-> | ->]|destruct Hn as [-> | ->]]; done. }
    rewrite filter_not_empty_id by (repeat constructor; done).
    specialize (Hm eq_refl).
    repeat (apply Forall2_cons; split); try (by left). right. auto.
  - rewrite Hty in Hne. destruct (layouts_agree op Hisa Hlane Hne) as (l & El & Ef). exists l. split; [done|].
    rewrite Ef, <-Hty. apply Forall_Forall2_diag. apply Forall_forall. intros. by left.
Qed.

(** Operators other than lane stores without [memory64] are read back. *)
Lemma op_roundtrip_agrees op code args s p s' :
  isa_op op -> (is_store_lane op = true -> feat_memory64 = true) ->
  projT1 <$> args = f_ty <$> OpDesc_fields op -> Forall val_ok args ->
  Op_encode code args s = (Ok p, s') ->
  exists l bs vs, OpDesc_layout op = Some l /\
    contents s' = contents s ++ op_code_bytes code ++ bs /\
    (forall rest, fields_decode l (bs ++ rest) = (Ok vs, rest)) /\
    Forall2 val_agrees (filter val_not_empty vs) args.
Proof.
  intros Hisa Hm Hty Hok Henc. destruct (op_layout_agrees op args Hisa Hm Hty Hok) as (l & El & Hag).
  destruct (fields_roundtrip l args Hag Hok) as (bss & vs & Hw & Hr & Hvs).
  exists l, (concat bss), vs. split_and!; try done.
  assert (Hseq : writes (Op_encode code args) (op_code_bytes code ++ concat bss)).
  { apply (writes_seq (_ :: _) (_ :: _)). constructor; [|done]. intros s0 a s1. apply encode_op_code_appends. }
  by apply Hseq in Henc.
Qed.

(** ** The lane stores without [memory64] *)

Definition consumes {A} (d : M (list Z) DecodeError A) (n : Z) : Prop :=
  forall bs a rest, d bs = (Ok a, rest) -> Z.of_nat (length bs) = n + Z.of_nat (length rest).

Lemma consumes_ret {A} (a : A) : consumes (mret a) 0.
Proof. intros bs b rest [= _ <-]. lia. Qed.
Lemma consumes_bind {A B} (d : M (list Z) DecodeError A) (f : A -> M (list Z) DecodeError B) n m :
  consumes d n -> (forall a, consumes (f a) m) -> consumes (d ≫= f) (n + m).
Proof.
  intros Hd Hf bs b rest E1. rewrite bind_run in E1. destruct (d bs) as [[a|e|] bs'] eqn:E2; try done.
  apply Hd in E2. apply Hf in E1. lia.
Qed.
Lemma consumes_lift {A} (r : res DecodeError A) : consumes (lift r) 0.
Proof. intros bs b rest [= _ <-]. lia. Qed.
Lemma consumes_prim p : consumes (decode_prim p) (prim_bytes p).
Proof.
  unfold decode_prim. replace (prim_bytes p) with (prim_bytes p + 0) at 2 by lia.
  apply consumes_bind; [|intros; apply consumes_ret].
  assert (0 <= prim_bytes p) by (destruct p; cbn; lia).
  intros bs a rest. unfold read_bytes.
  destruct (Z.leb_spec (prim_bytes p) (Z.of_nat (length bs))); intros Hr; simplify_eq.
  rewrite length_drop. lia.
Qed.
Lemma consumes_fields_cons t l n m : consumes (field_decode t) n -> consumes (fields_decode l) m ->
  consumes (fields_decode (t :: l)) (n + m).
Proof.
  intros Ht Hl. cbn [fields_decode]. apply consumes_bind; [done|]. intros v.
  rewrite <-(Z.add_0_r m). apply consumes_bind; [done|]. intros vs. apply consumes_ret.
Qed.

(** The sizes of the fields of lane stores. *)
Definition lane_field_size (t : FieldTy) : Z :=
  match t with
  | FieldTy_Slot => prim_bytes P_raw_slot
  | FieldTy_Offset => prim_bytes P_OffsetRepr
  | FieldTy_U64 => 8
  | FieldTy_Memory => 2
  | FieldTy_ImmLaneIdx16 | FieldTy_ImmLaneIdx8 => 1
  | _ => 0
  end.
Definition lane_field (t : FieldTy) : Prop :=
  In t [FieldTy_RegInt; FieldTy_Slot; FieldTy_Offset; FieldTy_U64; FieldTy_Memory; FieldTy_ImmLaneIdx16; FieldTy_ImmLaneIdx8].

Lemma consumes_lane_field t : lane_field t -> consumes (field_decode t) (lane_field_size t).
Proof.
  intros Ht. cbn in Ht. destruct Ht as [<-|[<-|[<-|[<-|[<-|[<-|[<-|[]]]]]]]]; cbn [field_decode lane_field_size].
  - apply consumes_ret.
  - rewrite <-Z.add_0_r. apply consumes_bind; [apply consumes_prim|intros; apply consumes_ret].
  - apply consumes_prim.
  - apply (consumes_prim P_u64).
  - apply (consumes_prim P_u16).
  - change 1 with (1 + 0). apply consumes_bind; [apply (consumes_prim P_u8)|intros; apply consumes_lift].
  - change 1 with (1 + 0). apply consumes_bind; [apply (consumes_prim P_u8)|intros; apply consumes_lift].
Qed.

Lemma consumes_lane_fields l : Forall lane_field l -> consumes (fields_decode l) (foldr Z.add 0 (lane_field_size <$> l)).
Proof.
  induction 1 as [|t l Ht _ IH]; [apply consumes_ret|].
  change (consumes (fields_decode (t :: l)) (lane_field_size t + foldr Z.add 0 (lane_field_size <$> l))).
  apply consumes_fields_cons; [by apply consumes_lane_field|done].
Qed.

(** Without [memory64] an offset is encoded in 32 bits but [StoreLaneOp] reads
    64 of them: decoding a lane store consumes four bytes more than were
    encoded, that is, bytes of the next operator. *)
Theorem store_lane_overrun op code args s p s' :
  isa_op op -> is_store_lane op = true -> feat_memory64 = false ->
  projT1 <$> args = f_ty <$> OpDesc_fields op -> Forall val_ok args ->
  Op_encode code args s = (Ok p, s') ->
  exists l bs, OpDesc_layout op = Some l /\
    contents s' = contents s ++ op_code_bytes code ++ bs /\
    forall rest vs rest', fields_decode l (bs ++ rest) = (Ok vs, rest') ->
      Z.of_nat (length rest') = Z.of_nat (length rest) - 4.
Proof.
  intros Hisa Hlane Hm Hty Hok Henc. destruct (lane_layout op Hisa Hlane) as (t & n & El & Ef & Ht & Hn).
  rewrite Ef in Hty.
  assert (Hne : not_empty t /\ not_empty n /\ lane_field t /\ lane_field n).
  { destruct Ht as [-> | ->], Hn as [-> | ->]; cbn; split_and!; (done || tauto). }
  destruct Hne as (? & ? & ? & ?).
  destruct (fields_roundtrip [t; FieldTy_Offset; FieldTy_Slot; FieldTy_Memory; n] args) as (bss & ws & Hw & Hr & _); [|done|].
  { rewrite filter_not_empty_id by (repeat constructor; done). rewrite Hty.
    apply Forall_Forall2_diag. apply Forall_forall. intros. by left. }
  exists [t; FieldTy_U64; FieldTy_Slot; FieldTy_Memory; n], (concat bss). split; [done|]. split.
  { assert (Hseq : writes (Op_encode code args) (op_code_bytes code ++ concat bss)).
    { apply (writes_seq (_ :: _) (_ :: _)). constructor; [|done]. intros s0 a s1. apply encode_op_code_appends. }
    by apply Hseq in Henc. }
  intros rest vs rest' Hdec.
  assert (Hlf : Forall lane_field [t; FieldTy_Offset; FieldTy_Slot; FieldTy_Memory; n] /\
                Forall lane_field [t; FieldTy_U64; FieldTy_Slot; FieldTy_Memory; n]).
  { split; repeat (apply Forall_cons; split); try apply Forall_nil_2; try done; cbn; tauto. }
  destruct Hlf as [Hlf1 Hlf2].
  pose proof (consumes_lane_fields _ Hlf1 _ _ _ (Hr rest)) as L1.
  pose proof (consumes_lane_fields _ Hlf2 _ _ _ Hdec) as L2.
  cbn [fmap list_fmap foldr lane_field_size] in L1, L2.
  assert (Hor : prim_bytes P_OffsetRepr = 4) by (unfold P_OffsetRepr; by rewrite Hm).
  rewrite length_app in *. lia.
Qed.

(** C39: For every operator of the instruction set, what the generated encoder writes
    after the op-code is read back by the structure the build script names for it:
    all bytes are consumed, and the fields are those encoded.  The exception are lane
    stores without the [memory64] feature: decoding them always consumes four bytes
    of what follows. *)
Theorem op_roundtrip op code args s p s' :
  isa_op op -> projT1 <$> args = f_ty <$> OpDesc_fields op -> Forall val_ok args ->
  Op_encode code args s = (Ok p, s') ->
  exists l bs, OpDesc_layout op = Some l /\
    contents s' = contents s ++ op_code_bytes code ++ bs /\
    if is_store_lane op && negb feat_memory64
    then forall rest vs rest', fields_decode l (bs ++ rest) = (Ok vs, rest') ->
           Z.of_nat (length rest') = Z.of_nat (length rest) - 4
    else exists vs, (forall rest, fields_decode l (bs ++ rest) = (Ok vs, rest)) /\
           Forall2 val_agrees (filter val_not_empty vs) args.
Proof.
  intros Hisa Hty Hok Henc. destruct (is_store_lane op && negb feat_memory64) eqn:Hl.
  - apply andb_true_iff in Hl as [Hl Hm%negb_true_iff]. by eapply store_lane_overrun.
  - apply andb_false_iff in Hl. destruct (op_roundtrip_agrees op code args s p s') as (l & bs & vs & ? & ? & ? & ?); try done.
    + intros Ht. destruct Hl as [Hl|Hl%negb_false_iff]; [congruence|done].
    + exists l, bs. split_and!; [done..|by exists vs].
Qed.
End Ops.

(** ** A sample operator

    The store of an 8-bit lane with its address and its vector in slots. *)
Module Lane.
Definition op : OpDesc := store (StoreKind_Lane LaneWidth_W8) Ty_V128 Kind_Slot Kind_Slot Mem_Immediate Off_Offset.
Definition args (T : Target) : list (FieldVal (H := T)) :=
  [existT FieldTy_Slot {| slot_raw := 4 |}; existT FieldTy_Offset 1000; existT FieldTy_Slot {| slot_raw := 6 |};
   existT FieldTy_Memory 1; existT FieldTy_ImmLaneIdx16 15].

#[local] Instance endian : Endian := {| big_endian := true |}.
#[local] Instance dispatch : Dispatch := {| indirect_dispatch := true; op_code_to_handler := fun _ => 0 |}.

Lemma isa : isa_op op.
Proof. apply list_elem_of_In. vm_compute. tauto. Qed.
Lemma args_ok (T : Target) : Forall (val_ok (T := T)) (args T).
Proof.
  assert (Hs : forall n, 0 <= n < 2 ^ 16 -> prim_val (P_raw_slot (T := T)) n).
  { intros n Hn. unfold P_raw_slot. destruct feat_slot16; [exact Hn|]. change (0 <= n < 2 ^ 32). lia. }
  assert (Ho : prim_val (P_OffsetRepr (T := T)) 1000).
  { unfold P_OffsetRepr. destruct feat_memory64; by split. }
  repeat (apply Forall_cons; split); [| | | | |apply Forall_nil_2]; unfold val_ok; cbn [projT1 projT2 field_ok].
  - by apply Hs.
  - exact Ho.
  - by apply Hs.
  - by split.
  - by split.
Qed.

Section Run.
Context (T : Target).
#[local] Instance alloc : Allocator := limit_allocator T 100.

Definition run := Op_encode (S := EncodedOps) 77 (args T) EncodedOps_default.
End Run.

Lemma op_roundtrip_witness : exists p s', run default_target = (Ok p, s') /\
  exists l bs, OpDesc_layout op = Some l /\ buffer s' = op_code_repr (H := default_target) 77 ++ bs /\
    exists vs, (forall rest, fields_decode (T := default_target) l (bs ++ rest) = (Ok vs, rest)) /\
      Forall2 (val_agrees (T := default_target)) (filter (val_not_empty (T := default_target)) vs) (args default_target).
Proof.
  assert (Hr : run default_target = (Ok 0, snd (run default_target))) by (vm_compute; reflexivity).
  exists 0, (snd (run default_target)). split; [exact Hr|].
  exact (op_roundtrip (T := default_target) (AE := EncodedOps_AppendEncoder (Al := alloc default_target)) op 77 (args default_target)
    EncodedOps_default 0 _ isa eq_refl (args_ok _) Hr).
Defined.

(** Without [memory64], four bytes of the next operator are consumed. *)
Lemma store_lane_overrun_witness : exists p s', run small_target = (Ok p, s') /\
  exists l bs, OpDesc_layout op = Some l /\ buffer s' = op_code_repr (H := small_target) 77 ++ bs /\
    forall rest vs rest', fields_decode (T := small_target) l (bs ++ rest) = (Ok vs, rest') ->
      Z.of_nat (length rest') = Z.of_nat (length rest) - 4.
Proof.
  assert (Hr : run small_target = (Ok 0, snd (run small_target))) by (vm_compute; reflexivity).
  exists 0, (snd (run small_target)). split; [exact Hr|].
  exact (store_lane_overrun (T := small_target) (AE := EncodedOps_AppendEncoder (Al := alloc small_target)) op 77 (args small_target)
    EncodedOps_default 0 _ isa eq_refl eq_refl eq_refl (args_ok _) Hr).
Defined.
End Lane.
