(* ===== verification/Encoder.v ===== *)
(** * Branch labels

    [crates/wasmi/src/engine/translator/func/labels.rs]: labels that are pinned
    to a position of the encoded operators at most once, and the branches whose
    offset is resolved once their label has been pinned. *)

From Stdlib Require Import ZArith Lia.
From stdpp Require Import base option decidable numbers list.
From S2P Require Import Prelude Trap Value Fuel MemoryAccess Slot Locals OpFields Codec EncodedOps OpLayout.
Local Open Scope Z_scope.

(** [LabelRef] is an index. *)
Notation LabelRef := nat (only parsing).

Inductive Label : Type := Pinned (pos : BytePos) | Unpinned.

(** A user: its label, its position, and the position of its offset field. *)
Record LabelUser : Type := { lu_dst : LabelRef; lu_src : BytePos; lu_pos : BytePos }.

Record LabelRegistry : Type := { lr_labels : list Label; lr_users : list LabelUser }.

Definition LabelRegistry_default : LabelRegistry := {| lr_labels := []; lr_users := [] |}.
Definition LabelRegistry_reset (self : LabelRegistry) : LabelRegistry :=
  {| lr_labels := []; lr_users := [] |}.

Inductive LabelError : Type := AlreadyPinned (label : LabelRef) (target : BytePos).

Section Registry.
Context {E : Type}.

(** [RegisteredLabels]. *)
Definition RegisteredLabels_push : M (list Label) E LabelRef := fun self =>
  (Ok (length self), self ++ [Unpinned]).
Definition RegisteredLabels_get (self : list Label) (lref : LabelRef) : res E Label := expect (self !! lref).

Definition set_labels (ls : list Label) (self : LabelRegistry) : LabelRegistry :=
  {| lr_labels := ls; lr_users := lr_users self |}.

Definition LabelRegistry_new_label : M LabelRegistry E LabelRef :=
  zoom lr_labels set_labels id RegisteredLabels_push.

Definition LabelRegistry_new_user (dst : LabelRef) (src pos : BytePos) : M LabelRegistry E unit := fun self =>
  (Ok tt, {| lr_labels := lr_labels self;
             lr_users := lr_users self ++ [{| lu_dst := dst; lu_src := src; lu_pos := pos |}] |}).

Definition get_label (self : LabelRegistry) (lref : LabelRef) : res E Label :=
  RegisteredLabels_get (lr_labels self) lref.

Definition is_pinned (self : LabelRegistry) (lref : LabelRef) : res E bool :=
  label ← get_label self lref;
  mret (match label with Pinned _ => true | Unpinned => false end).
End Registry.

Definition pin_label_or_err (label : LabelRef) (target : BytePos) : M LabelRegistry LabelError unit :=
  self ← get_st;
  cell ← lift (RegisteredLabels_get (lr_labels self) label);
  match cell with
  | Pinned pinned => fail (AlreadyPinned label pinned)
  | Unpinned => put_st (set_labels (<[label := Pinned target]> (lr_labels self)) self)
  end.

Definition LabelRegistry_pin_label {E} (label : LabelRef) (target : BytePos) : M LabelRegistry E unit :=
  fun self =>
  match pin_label_or_err label target self with
  | (Ok _, self) => (Ok tt, self)
  | (_, self) => (Panic, self)
  end.

Definition LabelRegistry_pin_label_if_unpinned {E} (label : LabelRef) (target : BytePos) :
    M LabelRegistry E unit :=
  self ← get_st;
  cell ← lift (RegisteredLabels_get (lr_labels self) label);
  match cell with
  | Pinned _ => mret tt
  | Unpinned => put_st (set_labels (<[label := Pinned target]> (lr_labels self)) self)
  end.

(** [ResolvedUserIter::next] for one user. *)
Record ResolvedLabelUser : Type := { ru_src : BytePos; ru_dst : BytePos; ru_pos : BytePos }.
Definition resolve_user {E} (labels : list Label) (user : LabelUser) : res E ResolvedLabelUser :=
  label ← RegisteredLabels_get labels (lu_dst user);
  match label with
  | Pinned dst => Ok {| ru_src := lu_src user; ru_dst := dst; ru_pos := lu_pos user |}
  | Unpinned => Panic
  end.

(** ** Properties *)

Section Spec.
Context {E : Type}.
Implicit Types self r : LabelRegistry.

(** A label keeps its target once pinned. *)
Definition labels_le (ls ls' : list Label) : Prop :=
  forall lref t, ls !! lref = Some (Pinned t) -> ls' !! lref = Some (Pinned t).

#[export] Instance labels_le_preorder : PreOrder labels_le.
Proof. split; [by intros ls lref t|]. intros a b c Hab Hbc lref t Ha. eauto. Qed.

Lemma labels_le_push ls : labels_le ls (ls ++ [Unpinned]).
Proof. intros lref t Hl. rewrite lookup_app_l; [done|]. by apply lookup_lt_Some in Hl. Qed.

Lemma labels_le_pin ls lref t : ls !! lref = Some Unpinned -> labels_le ls (<[lref := Pinned t]> ls).
Proof.
  intros Hl l' t' Hl'. destruct (decide (lref = l')) as [<-|Hne]; [congruence|].
  by rewrite list_lookup_insert_ne.
Qed.

Lemma pinned_push (ls : list Label) (lref : LabelRef) t : (ls ++ [Unpinned]) !! lref = Some (Pinned t) -> ls !! lref = Some (Pinned t).
Proof.
  intros Hl. destruct (decide (lref < length ls)%nat); [by rewrite lookup_app_l in Hl|].
  rewrite lookup_app_r in Hl by lia. destruct (lref - length ls)%nat as [|[|]]; done.
Qed.

Lemma pinned_insert (ls : list Label) (lref l' : LabelRef) t t' :
  <[lref := Pinned t]> ls !! l' = Some (Pinned t') -> t' = t \/ ls !! l' = Some (Pinned t').
Proof.
  destruct (decide (lref = l')) as [<-|Hne]; [|rewrite list_lookup_insert_ne by done; auto].
  destruct (decide (lref < length ls)%nat); [rewrite list_lookup_insert_eq by done; intros [= <-]; auto|].
  rewrite list_insert_ge by lia. auto.
Qed.

(** What pinning does on every branch: an unknown label and a label that has
    been pinned before panic. *)
Lemma LabelRegistry_pin_label_run label target self :
  LabelRegistry_pin_label (E := E) label target self =
  match lr_labels self !! label with
  | Some Unpinned => (Ok tt, set_labels (<[label := Pinned target]> (lr_labels self)) self)
  | _ => (Panic, self)
  end.
Proof.
  unfold LabelRegistry_pin_label, pin_label_or_err, RegisteredLabels_get. unfold_m.
  by destruct (lr_labels self !! label) as [[]|].
Qed.

Lemma pin_if_unpinned_run label target self :
  LabelRegistry_pin_label_if_unpinned (E := E) label target self =
  match lr_labels self !! label with
  | Some Unpinned => (Ok tt, set_labels (<[label := Pinned target]> (lr_labels self)) self)
  | Some (Pinned _) => (Ok tt, self)
  | None => (Panic, self)
  end.
Proof.
  unfold LabelRegistry_pin_label_if_unpinned, RegisteredLabels_get. unfold_m.
  by destruct (lr_labels self !! label) as [[]|].
Qed.
End Spec.

(** ** The operator encoder

    [OpEncoder] of [crates/wasmi/src/engine/translator/func/encoder.rs]: stages,
    replaces and drops the last operator, pins labels, encodes branches whose
    offsets are filled in later, and accounts the fuel of each basic block to
    its [ConsumeFuel] operator. *)

(** [next_multiple_of]; the length of a vector is far from overflowing it. *)
Definition next_multiple_of (n align : Z) : Z :=
  match n mod align with 0 => n | r => n + (align - r) end.

(** [Option::is_some]. *)
Definition is_Some_b {A} (o : option A) : bool := match o with Some _ => true | None => false end.

Section Encoder.
Context `{Al : Allocator} `{En : Endian} `{Di : Dispatch}.

(** ** Operators

    An [Op] is its op-code and the values of its fields. *)
Record Op : Type := { op_code : Z; op_args : list FieldVal }.

(** The generated [Op::consume_fuel]; [consume_fuel_code] is its op-code. *)
Context (consume_fuel_code : Z).
Definition Op_consume_fuel (fuel : BlockFuel) : Op :=
  {| op_code := consume_fuel_code; op_args := [existT FieldTy_BlockFuel fuel] |}.

(** The values that implement both [Encode] and [UpdateBranchOffset]. *)
Inductive Item : Type :=
| Item_Op (op : Op)
| Item_BranchOffset (offset : BranchOffset)
| Item_BranchTableTarget (target : BranchTableTarget).

Definition Item_encode (item : Item) : M EncodedOps TranslationError BytePos :=
  match item with
  | Item_Op op => Op_encode (op_code op) (op_args op)
  | Item_BranchOffset offset => BranchOffset_encode offset
  | Item_BranchTableTarget target => BranchTableTarget_encode target
  end.

(** ** State *)

Definition FuelUsed := Z.

Record StagedOp : Type := {
  staged_op : Op;
  staged_pos : BytePos;
  staged_fuel : option (BytePos * FuelUsed)
}.

Definition StagedOp_update (op : Op) (self : StagedOp) : StagedOp :=
  {| staged_op := op; staged_pos := staged_pos self; staged_fuel := staged_fuel self |}.

Record OpEncoder : Type := {
  staged : option StagedOp;
  oe_fuel_costs : option FuelCostsProvider;
  ops : EncodedOps;
  oe_labels : LabelRegistry
}.

Definition set_staged (s : option StagedOp) (self : OpEncoder) : OpEncoder :=
  {| staged := s; oe_fuel_costs := oe_fuel_costs self; ops := ops self; oe_labels := oe_labels self |}.
Definition set_ops (o : EncodedOps) (self : OpEncoder) : OpEncoder :=
  {| staged := staged self; oe_fuel_costs := oe_fuel_costs self; ops := o; oe_labels := oe_labels self |}.
Definition set_oe_labels (l : LabelRegistry) (self : OpEncoder) : OpEncoder :=
  {| staged := staged self; oe_fuel_costs := oe_fuel_costs self; ops := ops self; oe_labels := l |}.

(** [new], from the reset allocations of an earlier function and the fuel costs
    of the configuration, if it enables fuel metering. *)
Definition OpEncoder_new (consume_fuel : bool) (costs : FuelCostsProvider)
    (alloc_ops : EncodedOps) (alloc_labels : LabelRegistry) : OpEncoder :=
  {| staged := None;
     oe_fuel_costs := if consume_fuel then Some costs else None;
     ops := alloc_ops;
     oe_labels := alloc_labels |}.

Notation M' := (M OpEncoder TranslationError).
Definition in_ops {A} (m : M EncodedOps TranslationError A) : M' A := zoom ops set_ops id m.
Definition in_labels {A} (m : M LabelRegistry TranslationError A) : M' A := zoom oe_labels set_oe_labels id m.

(** [OpEncoderAllocations::reset]. *)
Definition OpEncoderAllocations_reset (alloc : EncodedOps * LabelRegistry) : EncodedOps * LabelRegistry :=
  (EncodedOps_reset (fst alloc), LabelRegistry_reset (snd alloc)).

(** A selector of fuel costs: a function, or a constant. *)
Definition FuelCostsSelector := FuelCostsProvider -> FuelUsed.

(** ** Padding and fuel *)

Definition ALIGN : Z := usize_bits / 8.

Definition pad_to_op_alignment : M' unit :=
  if indirect_dispatch then mret tt
  else
    self ← get_st;
    let len := next_pos (ops self) in
    let padding_len := next_multiple_of len ALIGN - len in
    put_st (set_ops (set_buffer (buffer (ops self) ++ replicate (Z.to_nat padding_len) 0) (ops self)) self).

Definition bump_fuel_consumption_by (fuel_pos : option BytePos) (delta : FuelUsed) : M' unit :=
  self ← get_st;
  assert_m (Bool.eqb (is_Some_b fuel_pos) (is_Some_b (oe_fuel_costs self)));;
  match fuel_pos with
  | None => mret tt
  | Some fuel_pos =>
      in_ops (update_encoded BlockFuel_decode BlockFuel_encode fuel_pos (fun fuel =>
        match BlockFuel_bump_by delta fuel with
        | (Ok _, fuel) => Some fuel
        | _ => None
        end))
  end.

Definition bump_fuel_consumption (fuel_pos : option BytePos) (fuel_selector : FuelCostsSelector) : M' unit :=
  self ← get_st;
  assert_m (Bool.eqb (is_Some_b fuel_pos) (is_Some_b (oe_fuel_costs self)));;
  let fuel_used := match oe_fuel_costs self with Some costs => fuel_selector costs | None => 0 end in
  if fuel_used =? 0 then mret tt else bump_fuel_consumption_by fuel_pos fuel_used.

(** ** Staging *)

Definition commit_staged (staged : StagedOp) : M' unit :=
  match staged_fuel staged with
  | Some (fuel_pos, fuel_used) => bump_fuel_consumption_by (Some fuel_pos) fuel_used
  | None => mret tt
  end;;
  self ← get_st;
  assert_m (negb (is_Some_b (temp (ops self)))).

Definition commit_staged_if_any : M' unit :=
  self ← get_st;
  put_st (set_staged None self);;
  match staged self with
  | Some staged => commit_staged staged
  | None => mret tt
  end;;
  self ← get_st;
  assert_m (negb (is_Some_b (staged self))).

Definition encode_impl (item : Item) : M' BytePos :=
  self ← get_st;
  let pos := next_pos (ops self) in
  in_ops (Item_encode item);;
  mret pos.

Definition peek_staged (self : OpEncoder) : option Op := staged_op <$> staged self.

Definition stage_op (new_staged : Op) (fuel_op : option BytePos) (fuel_selector : FuelCostsSelector) : M' unit :=
  commit_staged_if_any;;
  pad_to_op_alignment;;
  pos ← encode_impl (Item_Op new_staged);
  self ← get_st;
  fuel ← lift (match fuel_op, oe_fuel_costs self with
               | None, None => Ok None
               | Some fuel_op, Some fuel_costs => Ok (Some (fuel_op, fuel_selector fuel_costs))
               | _, _ => Panic
               end);
  put_st (set_staged (Some {| staged_op := new_staged; staged_pos := pos; staged_fuel := fuel |}) self).

Definition drop_staged : M' (option BytePos * FuelUsed) :=
  self ← get_st;
  match staged self with
  | None => panic
  | Some staged =>
      put_st (set_staged None self);;
      in_ops (EncodedOps_truncate (staged_pos staged));;
      mret (fst <$> staged_fuel staged,
            match staged_fuel staged with Some (_, used) => used | None => 0 end)
  end.

Definition replace_staged (new_staged : Op) : M' unit :=
  self ← get_st;
  match staged self with
  | None => panic
  | Some staged =>
      put_st (set_staged (Some (StagedOp_update new_staged staged)) self);;
      in_ops (EncodedOps_truncate (staged_pos staged));;
      encode_impl (Item_Op new_staged);;
      mret tt
  end.

(** ** Encoding *)

(** [debug_assert!(self.ops.take_reporting_pos().is_none())]. *)
Definition encode_op (op : Op) (fuel_pos : option BytePos) (fuel_selector : FuelCostsSelector) : M' BytePos :=
  commit_staged_if_any;;
  bump_fuel_consumption fuel_pos fuel_selector;;
  pad_to_op_alignment;;
  pos ← encode_impl (Item_Op op);
  reporting ← in_ops take_reporting_pos;
  assert_m (negb (is_Some_b reporting));;
  self ← get_st;
  assert_m (negb (is_Some_b (staged self)));;
  mret pos.

Definition encode_consume_fuel_op : M' (option BytePos) :=
  self ← get_st;
  match oe_fuel_costs self with
  | None => mret None
  | Some fuel_costs =>
      let consumed_fuel := {| block_fuel := FuelCostsProvider_base fuel_costs |} in
      commit_staged_if_any;;
      pad_to_op_alignment;;
      in_ops (Item_encode (Item_Op (Op_consume_fuel consumed_fuel)));;
      reporting ← in_ops take_reporting_pos;
      match reporting with
      | Some (Reporting_BlockFuel pos) =>
          self ← get_st;
          assert_m (negb (is_Some_b (staged self)));;
          mret (Some pos)
      | _ => panic
      end
  end.

(** ** Labels and branches *)

(** Positions are [usize]; the difference of two [isize] values that are not
    negative does not overflow. *)
Definition trace_branch_offset (src dst : BytePos) : res TranslationError BranchOffset :=
  ok_or (src ← try_from_u (usize_bits - 1) src;
         dst ← try_from_u (usize_bits - 1) dst;
         let offset := dst - src in
         if bool_decide (in_s 32 offset) then Some {| branch_offset := offset |} else None)
        BranchOffsetOutOfBounds.

Definition new_label : M' LabelRef := in_labels LabelRegistry_new_label.

Definition pin_label (lref : LabelRef) : M' unit :=
  commit_staged_if_any;;
  pad_to_op_alignment;;
  self ← get_st;
  in_labels (LabelRegistry_pin_label lref (next_pos (ops self))).

Definition pin_label_if_unpinned (lref : LabelRef) : M' unit :=
  commit_staged_if_any;;
  pad_to_op_alignment;;
  self ← get_st;
  in_labels (LabelRegistry_pin_label_if_unpinned lref (next_pos (ops self))).

Definition try_resolve_label (lref : LabelRef) : M' BranchOffset :=
  self ← get_st;
  assert_m (negb (is_Some_b (staged self)));;
  let src := next_pos (ops self) in
  label ← lift (get_label (oe_labels self) lref);
  match label with
  | Pinned dst => lift (trace_branch_offset src dst)
  | Unpinned => mret BranchOffset_uninit
  end.

Definition encode_branch (dst : LabelRef) (make_branch : BranchOffset -> Item)
    (fuel_pos : option BytePos) (fuel_selector : FuelCostsSelector) : M' (BytePos * BytePos) :=
  commit_staged_if_any;;
  bump_fuel_consumption fuel_pos fuel_selector;;
  offset ← try_resolve_label dst;
  pos_item ← encode_impl (make_branch offset);
  reporting ← in_ops take_reporting_pos;
  match reporting with
  | Some (Reporting_BranchOffset pos_offset) =>
      self ← get_st;
      pinned ← lift (is_pinned (oe_labels self) dst);
      (if pinned : bool then mret tt else in_labels (LabelRegistry_new_user dst pos_item pos_offset));;
      self ← get_st;
      assert_m (negb (is_Some_b (staged self)));;
      mret (pos_item, pos_offset)
  | _ => panic
  end.

(** The loop over [resolved_users], which is lazy. *)
Fixpoint update_users (labels : list Label) (users : list LabelUser) : M EncodedOps TranslationError unit :=
  match users with
  | [] => mret tt
  | user :: users =>
      user ← lift (resolve_user labels user);
      offset ← lift (trace_branch_offset (ru_src user) (ru_dst user));
      EncodedOps_update_branch_offset (ru_pos user) offset;;
      update_users labels users
  end.

Definition update_branch_offsets : M' unit :=
  self ← get_st;
  in_ops (update_users (lr_labels (oe_labels self)) (lr_users (oe_labels self))).

Definition encoded_ops (self : OpEncoder) : res TranslationError (list Z) :=
  assert_that (negb (is_Some_b (staged self)));;
  mret (buffer (ops self)).
End Encoder.
