(* ===== verification/EncodedSpec.v ===== *)
(** * What encoding does to the buffer

    Encoding an item appends bytes and reports at most one field that has to be
    updated later, whose position lies within the appended bytes; updating an
    encoded field in place changes the bytes of that field and no others. *)

From Stdlib Require Import ZArith Lia.
From stdpp Require Import base option decidable numbers list sets.
From S2P Require Import Prelude Trap Value Fuel MemoryAccess Slot Locals OpFields Codec EncodedOps OpLayout Encoder.
Local Open Scope Z_scope.

Lemma get_span_app {A} i n (l k xs : list A) : 0 <= i -> 0 <= n ->
  get_span i n l = Some xs -> get_span i n (l ++ k) = Some xs.
Proof.
  intros Hi Hn [Hl ->]%get_span_Some; [|done..]. apply get_span_Some; [done..|].
  rewrite length_app. split; [lia|]. rewrite drop_app_le, take_app_le by (rewrite ?length_drop; lia). done.
Qed.

Lemma get_span_end {A} (l xs : list A) :
  get_span (Z.of_nat (length l)) (Z.of_nat (length xs)) (l ++ xs) = Some xs.
Proof.
  apply get_span_Some; [lia..|]. rewrite length_app, !Nat2Z.id, drop_app_length, firstn_all. split; [lia|done].
Qed.

Lemma get_span_take {A} i n m (l xs : list A) : 0 <= i -> 0 <= n -> i + n <= m ->
  get_span i n l = Some xs -> get_span i n (take (Z.to_nat m) l) = Some xs.
Proof.
  intros Hi Hn Hm [Hl ->]%get_span_Some; [|done..]. apply get_span_Some; [done..|].
  rewrite length_take. split; [lia|]. rewrite skipn_firstn_comm, take_take. f_equal. lia.
Qed.

Lemma set_span_split {A} i (xs l : list A) : 0 <= i <= Z.of_nat (length l) ->
  take (Z.to_nat i) l ++ set_span 0 xs (drop (Z.to_nat i) l) = set_span i xs l.
Proof.
  intros Hi. apply list_eq. intros j. unfold set_span. destruct (decide (j < Z.to_nat i)%nat) as [Hj|Hj].
  - rewrite lookup_app_l by (rewrite length_take; lia).
    rewrite lookup_take_lt, list_lookup_inserts_lt by lia. done.
  - rewrite lookup_app_r by (rewrite length_take; lia). rewrite length_take_le by lia.
    destruct (decide (j - Z.to_nat i < length xs)%nat) as [Hk|Hk].
    + destruct (decide (j < length l)%nat) as [Hjl|Hjl].
      * rewrite !list_lookup_inserts by (rewrite ?length_drop; lia). f_equal. lia.
      * rewrite !lookup_ge_None_2; [done|rewrite length_inserts; lia|rewrite length_inserts, length_drop; lia].
    + rewrite !list_lookup_inserts_ge by lia. rewrite lookup_drop. f_equal. lia.
Qed.

Section Grow.
Context `{Al : Allocator} `{En : Endian} `{Di : Dispatch}.

(** The reported field holds one of [os] or [fs], at a position from [lo] on. *)
Definition report_ok (os : list BranchOffset) (fs : list BlockFuel) (lo : Z) (s : EncodedOps) : Prop :=
  match temp s with
  | None => False
  | Some (Reporting_BranchOffset q) => lo <= q /\
      exists o, o ∈ os /\ get_span q 4 (buffer s) = Some (to_ne_bytes P_i32 (branch_offset o))
  | Some (Reporting_BlockFuel q) => lo <= q /\
      exists f, f ∈ fs /\ get_span q 8 (buffer s) = Some (to_ne_bytes P_u64 (block_fuel f))
  end.

Definition grows {A} (m : M EncodedOps TranslationError A) os fs : Prop := forall s a s',
  m s = (Ok a, s') ->
  (exists bs, buffer s' = buffer s ++ bs) /\
  (temp s' = temp s \/ temp s = None /\ report_ok os fs (next_pos s) s').

Definition at_start (m : M EncodedOps TranslationError BytePos) : Prop := forall s p s',
  m s = (Ok p, s') -> p = next_pos s.

Lemma grows_ret {A} (a : A) : grows (mret a) [] [].
Proof. intros s b s' [= _ <-]. split; [exists []; by rewrite app_nil_r|by left]. Qed.

Lemma report_ok_mono os fs os' fs' lo lo' s s' bs : 0 <= lo -> lo <= lo' -> os ⊆ os' -> fs ⊆ fs' ->
  temp s' = temp s -> buffer s' = buffer s ++ bs -> report_ok os fs lo' s -> report_ok os' fs' lo s'.
Proof.
  intros Hlo Hlo' Hos Hfs Ht Hb. unfold report_ok. rewrite Ht, Hb.
  destruct (temp s) as [[q|q]|]; [| |done]; intros (Hq & x & Hx & Hs);
    (split; [lia|exists x; split; [by auto|by apply get_span_app; [lia|lia|]]]).
Qed.

Lemma grows_bind {A B} (m : M EncodedOps TranslationError A) (k : A -> M EncodedOps TranslationError B) os fs os' fs' :
  grows m os fs -> (forall a, grows (k a) os' fs') -> grows (m ≫= k) (os ++ os') (fs ++ fs').
Proof.
  intros Hm Hk s b s' E1. rewrite bind_run in E1. destruct (m s) as [[a|e|] s1] eqn:Em; try done.
  apply Hm in Em as ([bs1 B1] & T1). apply Hk in E1 as ([bs2 B2] & T2).
  split; [exists (bs1 ++ bs2); by rewrite B2, B1, app_assoc|].
  assert (Hp : 0 <= next_pos s <= next_pos s1) by (unfold next_pos; rewrite B1, length_app; lia).
  destruct T1 as [T1|[T0 R1]], T2 as [T2|[T2 R2]].
  - left. congruence.
  - right. split; [congruence|].
    eapply (report_ok_mono _ _ _ _ _ (next_pos s1) s' s' []); [..|exact R2]; [lia|lia|set_solver|set_solver|done|].
    by rewrite app_nil_r.
  - right. split; [done|]. eapply (report_ok_mono _ _ _ _ _ (next_pos s) s1 s'); [..|exact R1]; try done; try lia; set_solver.
  - exfalso. unfold report_ok in R1. by rewrite T2 in R1.
Qed.

Lemma grows_then {A B} (m : M EncodedOps TranslationError A) (k : A -> M EncodedOps TranslationError B) os fs :
  grows m os fs -> (forall a, grows (k a) [] []) -> grows (m ≫= k) os fs.
Proof. intros Hm Hk. rewrite <-(app_nil_r os), <-(app_nil_r fs). by apply grows_bind. Qed.

Lemma grows_write bs : grows (write_bytes bs) [] [].
Proof.
  intros s p s' E1. cbn in E1. unfold EncodedOps_write_bytes in E1.
  destruct (try_reserve _ _ _ _); simplify_eq. split; [by eexists|by left].
Qed.

Lemma at_start_write bs : at_start (write_bytes bs).
Proof.
  intros s p s' E1. cbn in E1. unfold EncodedOps_write_bytes in E1.
  destruct (try_reserve _ _ _ _); by simplify_eq.
Qed.

Lemma at_start_then (m : M EncodedOps TranslationError BytePos) {A} (k : BytePos -> M EncodedOps TranslationError A) :
  at_start m -> at_start (pos ← m; k pos;; mret pos).
Proof.
  intros Hm s p s' E1. rewrite bind_run in E1. destruct (m s) as [[a|e|] s1] eqn:Em; try done.
  apply Hm in Em. rewrite bind_run in E1. destruct (k a s1) as [[b|e|] s2]; [|done..].
  by injection E1 as <- <-.
Qed.

(** A run that appends exactly [bs] at a reported position. *)
Lemma write_span bs s p s' : write_bytes bs s = (Ok p, s') ->
  p = next_pos s /\ get_span p (Z.of_nat (length bs)) (buffer s') = Some bs /\ temp s' = temp s.
Proof.
  intros E1. cbn in E1. unfold EncodedOps_write_bytes in E1. destruct (try_reserve _ _ _ _); simplify_eq.
  split_and!; [done|apply get_span_end|done].
Qed.

Lemma grows_report pos rep bs os fs (k : M EncodedOps TranslationError unit) :
  (forall s, temp s = Some (rep pos) -> get_span pos (Z.of_nat (length bs)) (buffer s) = Some bs ->
     report_ok os fs pos s) ->
  k = EncodedOps_report (rep pos) -> forall s s0, write_bytes bs s0 = (Ok pos, s) -> forall s' u,
  k s = (Ok u, s') -> temp s0 = None /\ buffer s' = buffer s /\ report_ok os fs (next_pos s0) s'.
Proof.
  intros Hr -> s s0 Hw s' u E1. apply write_span in Hw as (-> & Hs & Ht). unfold EncodedOps_report in E1.
  unfold_m. destruct (temp s) eqn:Et; [done|]. simplify_eq. split_and!; [done|done|]. by apply Hr.
Qed.

Lemma grows_BranchOffset o : grows (BranchOffset_encode o) [o] [].
Proof.
  intros s p s' E1. unfold BranchOffset_encode, encode_prim in E1. rewrite bind_run in E1.
  destruct (write_bytes (to_ne_bytes P_i32 (branch_offset o)) s) as [[q|e|] s1] eqn:Ew; try done.
  rewrite bind_run in E1. destruct (enc_branch_offset q o s1) as [[u|e|] s2] eqn:Er; try done.
  injection E1 as <- <-.
  destruct (grows_write _ _ _ _ Ew) as ([bs B1] & _).
  destruct (grows_report q Reporting_BranchOffset (to_ne_bytes P_i32 (branch_offset o)) [o] [] _
    ltac:(intros s0 Ht Hs; unfold report_ok; rewrite Ht; split; [reflexivity|]; exists o; split; [set_solver|by rewrite length_to_ne_bytes in Hs])
    eq_refl _ _ Ew _ _ Er) as (H1 & H2 & H3).
  split; [exists bs; congruence|by right].
Qed.

Lemma grows_BlockFuel f : grows (BlockFuel_encode f) [] [f].
Proof.
  intros s p s' E1. unfold BlockFuel_encode, encode_prim in E1. rewrite bind_run in E1.
  destruct (write_bytes (to_ne_bytes P_u64 (block_fuel f)) s) as [[q|e|] s1] eqn:Ew; try done.
  rewrite bind_run in E1. destruct (enc_block_fuel q f s1) as [[u|e|] s2] eqn:Er; try done.
  injection E1 as <- <-.
  destruct (grows_write _ _ _ _ Ew) as ([bs B1] & _).
  destruct (grows_report q Reporting_BlockFuel (to_ne_bytes P_u64 (block_fuel f)) [] [f] _
    ltac:(intros s0 Ht Hs; unfold report_ok; rewrite Ht; split; [reflexivity|]; exists f; split; [set_solver|by rewrite length_to_ne_bytes in Hs])
    eq_refl _ _ Ew _ _ Er) as (H1 & H2 & H3).
  split; [exists bs; congruence|by right].
Qed.

(** ** Sequences and fields *)

Lemma grows_rest (items : list (M EncodedOps TranslationError BytePos)) (oss : list (list BranchOffset)) fss :
  Forall3 grows items oss fss -> grows (encode_rest items) (concat oss) (concat fss).
Proof.
  induction 1 as [|m os fs items oss fss Hm _ IH]; [apply grows_ret|]. by apply grows_bind.
Qed.

Lemma grows_seq (items : list (M EncodedOps TranslationError BytePos)) (oss : list (list BranchOffset)) fss :
  Forall3 grows items oss fss -> grows (encode_seq items) (concat oss) (concat fss).
Proof.
  intros Hi. destruct Hi as [|m os fs items oss fss Hm Hr]; [done|]. cbn [encode_seq concat].
  apply grows_bind; [done|]. intros a. apply grows_then; [by apply grows_rest|]. intros _. apply grows_ret.
Qed.

Lemma at_start_seq m items : at_start m -> at_start (encode_seq (m :: items)).
Proof. apply (at_start_then m (fun _ => _)). Qed.

(** Items that report nothing. *)
Lemma grows_seq_quiet (items : list (M EncodedOps TranslationError BytePos)) :
  Forall (fun m => grows m [] []) items -> grows (encode_seq items) [] [].
Proof.
  intros Hi. assert (Hb : exists oss fss, Forall3 grows items oss fss /\ concat oss = [] /\ concat fss = []).
  { induction Hi as [|m items Hm _ (oss & fss & ? & ? & ?)]; [exists [], []; split_and!; [constructor|done|done]|].
    exists ([] :: oss), ([] :: fss). split_and!; [by constructor|done|done]. }
  destruct Hb as (oss & fss & Hg & E1 & E2). apply grows_seq in Hg. by rewrite E1, E2 in Hg.
Qed.

Definition field_offsets (t : FieldTy) : denote t -> list BranchOffset :=
  match t with FieldTy_BranchOffset => fun o => [o] | _ => fun _ => [] end.
Definition field_fuels (t : FieldTy) : denote t -> list BlockFuel :=
  match t with FieldTy_BlockFuel => fun f => [f] | _ => fun _ => [] end.

Lemma grows_prim p v : grows (encode_prim p v) [] [].
Proof. apply grows_write. Qed.

Lemma grows_seq_prims {A} (p : Prim) (f : A -> Z) (l : list A) :
  grows (encode_seq ((fun x => encode_prim p (f x)) <$> l)) [] [].
Proof. apply grows_seq_quiet, Forall_fmap, Forall_forall. intros x _. apply grows_prim. Qed.

Lemma grows_slot_and_reg s : grows (pos ← Slot_encode s; write_bytes [];; mret pos) [] [].
Proof.
  apply grows_then; [apply grows_prim|]. intros a. apply grows_then; [apply grows_write|].
  intros _. apply grows_ret.
Qed.

Lemma grows_field t v : grows (field_encode t v) (field_offsets t v) (field_fuels t v).
Proof.
  destruct t; cbn [field_encode field_offsets field_fuels];
    match goal with
    | |- grows (encode_prim _ _) _ _ => apply grows_prim
    | |- grows (Slot_encode _) _ _ => apply grows_prim
    | |- grows (SlotSpan_encode _) _ _ => apply grows_prim
    | |- grows (ImmLaneIdx_encode _ _) _ _ => apply grows_prim
    | |- grows (write_bytes _) _ _ => apply grows_write
    | |- grows (BranchOffset_encode _) _ _ => apply grows_BranchOffset
    | |- grows (BlockFuel_encode _) _ _ => apply grows_BlockFuel
    | |- grows (match _ with end) _ _ => destruct v
    | |- grows panic _ _ => done
    | |- grows (BoundedSlotSpan_encode _) _ _ =>
        apply grows_seq_quiet; apply Forall_cons; split; [apply grows_prim|];
        apply Forall_cons; split; [apply grows_prim|apply Forall_nil_2]
    | |- grows (encode_seq (ImmLaneIdx_encode _ <$> _)) _ _ =>
        apply (grows_seq_prims P_u8 (ImmLaneIdx_into_u8 32))
    | |- grows (encode_seq _) _ _ => apply (grows_seq_prims P_u8 (fun x => x))
    | |- _ => apply grows_slot_and_reg
    end.
Qed.

Lemma at_start_prim p v : at_start (encode_prim p v).
Proof. apply at_start_write. Qed.

Lemma at_start_field t v : at_start (field_encode t v).
Proof.
  destruct t; cbn [field_encode];
    match goal with
    | |- at_start (encode_prim _ _) => apply at_start_prim
    | |- at_start (Slot_encode _) => apply at_start_prim
    | |- at_start (SlotSpan_encode _) => apply at_start_prim
    | |- at_start (ImmLaneIdx_encode _ _) => apply at_start_prim
    | |- at_start (write_bytes _) => apply at_start_write
    | |- at_start (match _ with end) => destruct v
    | |- at_start (BoundedSlotSpan_encode _) => apply at_start_seq, at_start_prim
    | |- at_start panic => done
    | |- at_start (encode_seq _) => destruct v; [done|apply at_start_seq, at_start_prim]
    | |- _ => exact (at_start_then _ (fun _ => _) (at_start_prim _ _))
    end.
Qed.

(** ** Items *)

Definition val_offsets (v : FieldVal) : list BranchOffset := field_offsets (projT1 v) (projT2 v).
Definition val_fuels (v : FieldVal) : list BlockFuel := field_fuels (projT1 v) (projT2 v).

(** The branch offsets and the block fuels an item contains. *)
Definition item_offsets (item : Item) : list BranchOffset :=
  match item with
  | Item_Op op => concat (val_offsets <$> op_args op)
  | Item_BranchOffset offset => [offset]
  | Item_BranchTableTarget target => [btt_offset target]
  end.
Definition item_fuels (item : Item) : list BlockFuel :=
  match item with
  | Item_Op op => concat (val_fuels <$> op_args op)
  | _ => []
  end.

Lemma grows_op_code code : grows (encode_op_code code) [] [].
Proof. apply grows_write. Qed.

Lemma grows_item item : grows (Item_encode item) (item_offsets item) (item_fuels item).
Proof.
  destruct item as [[code args]|o|[r o]]; cbn [Item_encode item_offsets item_fuels op_args op_code].
  - apply (grows_seq (_ :: _) ([] :: _) ([] :: _)). constructor; [apply grows_op_code|].
    induction args as [|[t v] args IH]; constructor; [apply grows_field|done].
  - apply grows_BranchOffset.
  - apply (grows_seq [_; _] [[]; [o]] [[]; []]).
    constructor; [apply grows_prim|constructor; [apply grows_BranchOffset|constructor]].
Qed.

Lemma at_start_item item : at_start (Item_encode item).
Proof.
  destruct item as [op|o|t].
  - apply at_start_seq, at_start_write.
  - exact (at_start_then _ (fun _ => _) (at_start_prim _ _)).
  - apply at_start_seq, at_start_prim.
Qed.

(** An item without such fields reports nothing. *)
Lemma item_quiet item s p s' : item_offsets item = [] -> item_fuels item = [] ->
  Item_encode item s = (Ok p, s') -> temp s' = temp s.
Proof.
  intros Ho Hf E1. apply grows_item in E1 as (_ & [?|(_ & R)]); [done|]. rewrite Ho, Hf in R. exfalso.
  unfold report_ok in R. destruct (temp s') as [[|]|]; [| |done]; destruct R as (_ & x & Hx & _); set_solver.
Qed.

Lemma bounded_span_writes s : exists bs, writes (BoundedSlotSpan_encode (S := EncodedOps) s) bs.
Proof.
  eexists. eapply (writes_seq [_; _]).
  constructor; [apply writes_prim|constructor; [apply writes_prim|constructor]].
Qed.

(** The bytes an item is encoded to do not depend on the state. *)
Lemma field_writes t (v : denote t) : exists bs, writes (field_encode (S := EncodedOps) t v) bs.
Proof.
  assert (Hreg : forall s, exists bs, writes (S := EncodedOps) (pos ← Slot_encode s; write_bytes [];; mret pos) bs).
  { intros s. eexists. eapply writes_bind; [apply writes_prim|]. intros a.
    eapply writes_bind; [apply writes_write|]. intros _. apply writes_ret. }
  assert (Hseq : forall {A} (f : A -> Z) l, exists bs, writes (S := EncodedOps) (encode_seq ((fun x => encode_prim P_u8 (f x)) <$> l)) bs).
  { intros A f l. eexists. apply writes_seq. instantiate (1 := (fun x => to_ne_bytes P_u8 (f x)) <$> l).
    induction l; constructor; [apply writes_prim|done]. }
  assert (Hrep : forall m o (k : BytePos -> M EncodedOps TranslationError unit) bs, writes m bs ->
    (forall p, k p = enc_branch_offset p o) \/ (exists f, forall p, k p = enc_block_fuel p f) ->
    writes (pos ← m; k pos;; mret pos) bs).
  { intros m o k bs Hm Hk. eapply writes_then; [done|]. intros p. apply (writes_then (S := EncodedOps) _ _ []).
    - intros s a s' E1. rewrite app_nil_r. destruct Hk as [Hk|[f Hk]]; rewrite Hk in E1;
        [by eapply branch_offset_keeps|by eapply block_fuel_keeps].
    - intros _. apply writes_ret. }
  destruct t; cbn [field_encode];
    match goal with
    | |- exists _, writes (encode_prim _ _) _ => eexists; apply writes_prim
    | |- exists _, writes (Slot_encode _) _ => eexists; apply writes_prim
    | |- exists _, writes (SlotSpan_encode _) _ => eexists; apply writes_prim
    | |- exists _, writes (ImmLaneIdx_encode _ _) _ => eexists; apply writes_prim
    | |- exists _, writes (write_bytes _) _ => eexists; apply writes_write
    | |- exists _, writes (match _ with end) _ => destruct v
    | |- exists _, writes panic _ => by exists []
    | |- exists _, writes (BranchOffset_encode _) _ =>
        eexists; exact (Hrep _ v _ _ (writes_prim _ _) (or_introl (fun _ => eq_refl)))
    | |- exists _, writes (BlockFuel_encode _) _ =>
        eexists; exact (Hrep _ BranchOffset_uninit _ _ (writes_prim _ _) (or_intror (ex_intro _ v (fun _ => eq_refl))))
    | |- exists _, writes (BoundedSlotSpan_encode _) _ =>
        apply bounded_span_writes
    | |- exists _, writes (encode_seq (ImmLaneIdx_encode _ <$> _)) _ => apply (Hseq Z (ImmLaneIdx_into_u8 32))
    | |- exists _, writes (encode_seq _) _ => apply (Hseq Z (fun x => x))
    | |- _ => apply Hreg
    end.
Qed.

Lemma op_writes op : exists bs, writes (Item_encode (Item_Op op)) bs.
Proof.
  destruct op as [code args].
  assert (Hs : exists bss, Forall2 writes (val_encode (S := EncodedOps) <$> args) bss).
  { induction args as [|[t v] args [bss IH]]; [by exists []; constructor|].
    destruct (field_writes t v) as [bs Hbs]. exists (bs :: bss). by constructor. }
  destruct Hs as [bss Hs]. eexists. eapply (writes_seq (_ :: _)).
  constructor; [|exact Hs]. intros s p s'. apply encode_op_code_appends.
Qed.

(** ** Updating a field in place *)

Definition writes_slice {A} (encode : A -> M (list Z) SliceEncoderError unit) (bytes : A -> list Z) (n : Z) : Prop :=
  forall a sl, Z.of_nat (length (bytes a)) = n /\ (n <= Z.of_nat (length sl) -> encode a sl = (Ok tt, set_span 0 (bytes a) sl)).

Lemma slice_BranchOffset : writes_slice BranchOffset_encode (fun o => to_ne_bytes P_i32 (branch_offset o)) 4.
Proof.
  intros o sl. rewrite length_to_ne_bytes. split; [done|]. intros Hl.
  unfold BranchOffset_encode, encode_prim. rewrite bind_run. cbn [write_bytes SliceEncoder_Encoder].
  unfold SliceEncoder_write_bytes, get_to. rewrite length_to_ne_bytes.
  by rewrite (proj2 (Z.leb_le _ _)) by (cbn; lia).
Qed.

Lemma slice_BlockFuel : writes_slice BlockFuel_encode (fun f => to_ne_bytes P_u64 (block_fuel f)) 8.
Proof.
  intros o sl. rewrite length_to_ne_bytes. split; [done|]. intros Hl.
  unfold BlockFuel_encode, encode_prim. rewrite bind_run. cbn [write_bytes SliceEncoder_Encoder].
  unfold SliceEncoder_write_bytes, get_to. rewrite length_to_ne_bytes.
  by rewrite (proj2 (Z.leb_le _ _)) by (cbn; lia).
Qed.

Definition put_span (pos : Z) (bs : list Z) (s : EncodedOps) : EncodedOps := set_buffer (set_span pos bs (buffer s)) s.

Lemma update_encoded_run {A E} (decode : M (list Z) DecodeError A) encode bytes n pos (f : A -> option A) s bs a :
  writes_slice encode bytes n -> 0 <= pos -> 0 <= n -> get_span pos n (buffer s) = Some bs -> reads decode bs a ->
  update_encoded (E := E) decode encode pos f s =
  match f a with
  | Some a' => (Ok tt, put_span pos (bytes a') s)
  | None => (Panic, s)
  end.
Proof.
  intros Hw Hp Hn [Hl ->]%get_span_Some Hr; [|done..]. unfold update_encoded, update_encoded_or_err, get_from.
  rewrite (proj2 (Z.leb_le _ _)) by lia.
  assert (Ed : fst (decode (drop (Z.to_nat pos) (buffer s))) = Ok a).
  { rewrite <-(take_drop (Z.to_nat n) (drop (Z.to_nat pos) (buffer s))). by rewrite Hr. }
  rewrite Ed. destruct (f a) as [a'|]; [|done].
  destruct (Hw a' (drop (Z.to_nat pos) (buffer s))) as [_ ->]; [|rewrite length_drop; lia].
  rewrite set_span_split by lia. done.
Qed.

Lemma reads_BranchOffset o : in_s 32 (branch_offset o) ->
  reads BranchOffset_decode (to_ne_bytes P_i32 (branch_offset o)) o.
Proof. intros Ho. eapply reads_then; [by apply reads_prim|]. by destruct o. Qed.

Lemma reads_BlockFuel f : in_u 64 (block_fuel f) ->
  reads BlockFuel_decode (to_ne_bytes P_u64 (block_fuel f)) f.
Proof. intros Hf. eapply reads_then; [by apply reads_prim|]. by destruct f. Qed.

(** Every four bytes are some branch offset. *)
Lemma reads_any_BranchOffset bs : Z.of_nat (length bs) = 4 -> exists o, reads BranchOffset_decode bs o.
Proof.
  intros Hl. eexists. intros rest. unfold BranchOffset_decode, decode_prim. rewrite !bind_run.
  change (prim_bytes P_i32) with 4. rewrite <-Hl, read_bytes_app. reflexivity.
Qed.

Lemma update_branch_offset_run {E} pos o s : 0 <= pos -> pos + 4 <= next_pos s ->
  EncodedOps_update_branch_offset (E := E) pos o s = (Ok tt, put_span pos (to_ne_bytes P_i32 (branch_offset o)) s).
Proof.
  intros Hp Hl. destruct (get_span pos 4 (buffer s)) as [bs|] eqn:Es;
    [|apply get_span_None in Es; unfold next_pos in Hl; lia].
  destruct (reads_any_BranchOffset bs) as [o' Ho']; [apply (get_span_length pos 4 (buffer s)); [lia|lia|done]|].
  unfold EncodedOps_update_branch_offset.
  by rewrite (update_encoded_run _ _ _ 4 _ _ _ _ _ slice_BranchOffset Hp ltac:(lia) Es Ho').
Qed.

Lemma bump_fuel_run {E} pos delta fuel s : 0 <= pos -> 0 <= delta -> in_u 64 fuel ->
  get_span pos 8 (buffer s) = Some (to_ne_bytes P_u64 fuel) ->
  update_encoded (E := E) BlockFuel_decode BlockFuel_encode pos (fun fuel =>
        match BlockFuel_bump_by delta fuel with
        | (Ok _, fuel) => Some fuel
        | _ => None
        end) s =
  if fuel + delta <? 2 ^ 64 then (Ok tt, put_span pos (to_ne_bytes P_u64 (fuel + delta)) s) else (Panic, s).
Proof.
  intros Hp Hd Hf Hs.
  rewrite (update_encoded_run _ _ _ 8 _ _ _ _ _ slice_BlockFuel Hp ltac:(lia) Hs (reads_BlockFuel {| block_fuel := fuel |} Hf)).
  unfold BlockFuel_bump_by, checked_add. unfold_m. cbn [block_fuel].
  by destruct (fuel + delta <? 2 ^ 64).
Qed.

Lemma put_span_eq pos bs s : 0 <= pos -> pos + Z.of_nat (length bs) <= next_pos s ->
  get_span pos (Z.of_nat (length bs)) (buffer (put_span pos bs s)) = Some bs.
Proof. intros. by apply get_set_span_eq. Qed.

Lemma put_span_ne pos bs s p n : 0 <= pos -> 0 <= p -> 0 <= n ->
  (p + n <= pos \/ pos + Z.of_nat (length bs) <= p) ->
  get_span p n (buffer (put_span pos bs s)) = get_span p n (buffer s).
Proof. intros. by apply get_set_span_ne. Qed.

Lemma next_pos_put_span pos bs s : next_pos (put_span pos bs s) = next_pos s.
Proof. unfold next_pos. cbn. by rewrite length_set_span. Qed.

Lemma temp_put_span pos bs s : temp (put_span pos bs s) = temp s.
Proof. done. Qed.
End Grow.
