(* ===== verification/EncoderInv.v ===== *)
(** * The invariant of the operator encoder

    The public methods of [OpEncoder] as a transition relation that also logs
    the branches and the [ConsumeFuel] operators encoded so far and the fuel
    charged to each of them, and the invariant of its reachable states. *)

From Stdlib Require Import ZArith Lia Sorted.
From stdpp Require Import base option decidable numbers sets list.
From S2P Require Import Prelude Trap Value Fuel MemoryAccess Slot Locals OpFields Codec EncodedOps OpLayout Encoder EncodedSpec.
Local Open Scope Z_scope.

(** ** The log *)

(** An encoded field that is updated later. *)
Inductive Entry : Type :=
| E_Branch (user : LabelUser)
| E_Fuel (pos : BytePos).

#[export] Instance LabelUser_eq_dec : EqDecision LabelUser.
Proof. solve_decision. Defined.
#[export] Instance Entry_eq_dec : EqDecision Entry.
Proof. solve_decision. Defined.

Definition entry_pos (e : Entry) : Z := match e with E_Branch u => lu_pos u | E_Fuel p => p end.
Definition entry_width (e : Entry) : Z := match e with E_Branch _ => 4 | E_Fuel _ => 8 end.
Definition before (e e' : Entry) : Prop := entry_pos e + entry_width e <= entry_pos e'.

Lemma entry_width_pos e : 4 <= entry_width e.
Proof. destruct e; cbn; lia. Qed.

Record Trace : Type := { entries : list Entry; charges : list (BytePos * FuelUsed) }.

Definition empty_trace : Trace := {| entries := []; charges := [] |}.
Definition charge (cs : list (BytePos * FuelUsed)) (tr : Trace) : Trace :=
  {| entries := entries tr; charges := charges tr ++ cs |}.
Definition log (e : Entry) (tr : Trace) : Trace :=
  {| entries := entries tr ++ [e]; charges := charges tr |}.

(** The fuel charged to the [ConsumeFuel] operator at [p]. *)
Fixpoint sum_charges (p : BytePos) (cs : list (BytePos * FuelUsed)) : Z :=
  match cs with
  | [] => 0
  | (q, d) :: cs => (if q =? p then d else 0) + sum_charges p cs
  end.
Definition charged (tr : Trace) (p : BytePos) : Z := sum_charges p (charges tr).

Lemma sum_charges_app p cs cs' : sum_charges p (cs ++ cs') = sum_charges p cs + sum_charges p cs'.
Proof. induction cs as [|[q d] cs IH]; cbn; lia. Qed.

Lemma sum_charges_none p cs : (forall q d, (q, d) ∈ cs -> q <> p) -> sum_charges p cs = 0.
Proof.
  induction cs as [|[q d] cs IH]; intros H; cbn; [done|]. rewrite IH by (intros; eapply H; by right).
  destruct (Z.eqb_spec q p) as [->|]; [|done]. destruct (H p d); [by left|done].
Qed.

(** ** Disjoint entries *)

Lemma sorted_snoc es e : StronglySorted before es -> Forall (fun x => before x e) es ->
  StronglySorted before (es ++ [e]).
Proof.
  induction 1 as [|x es Hs IH Hx]; intros Hf; cbn; [by repeat constructor|].
  apply Forall_cons in Hf as [? ?]. constructor; [by apply IH|]. apply Forall_app. split; [done|by constructor].
Qed.

Lemma sorted_disjoint es e e' : StronglySorted before es -> e ∈ es -> e' ∈ es -> e <> e' ->
  before e e' \/ before e' e.
Proof.
  induction 1 as [|x es Hs IH Hx]; intros He He' Hne; [by apply elem_of_nil in He|].
  rewrite Forall_forall in Hx.
  apply elem_of_cons in He as [->|He]; apply elem_of_cons in He' as [->|He']; [done|left|right|]; auto.
Qed.

Section Reach.
Context `{Al : Allocator} `{En : Endian} `{Di : Dispatch} (consume_fuel_code : Z).

(** ** Reachable states

    One rule per public method that changes the encoder.  The hypotheses are
    what callers keep to: fuel positions are those of [ConsumeFuel] operators,
    staged operators have no field that is updated later, and a branch
    contains no offset but the one it is made from. *)

Definition staged_charge (enc : OpEncoder) : list (BytePos * FuelUsed) :=
  match staged enc with
  | Some s => match staged_fuel s with Some c => [c] | None => [] end
  | None => []
  end.
Definition op_charge (enc : OpEncoder) (fuel_pos : option BytePos) (sel : FuelCostsSelector) :
    list (BytePos * FuelUsed) :=
  match fuel_pos, oe_fuel_costs enc with
  | Some p, Some costs => [(p, sel costs)]
  | _, _ => []
  end.

Definition fuel_arg (tr : Trace) (fuel_pos : option BytePos) (sel : FuelCostsSelector) : Prop :=
  (forall p, fuel_pos = Some p -> E_Fuel p ∈ entries tr) /\ forall costs, in_u 64 (sel costs).
Definition quiet (op : Op) : Prop := item_offsets (Item_Op op) = [] /\ item_fuels (Item_Op op) = [].
Definition makes_branch (mk : BranchOffset -> Item) : Prop := forall o, item_offsets (mk o) = [o].

Inductive reach : OpEncoder -> Trace -> Prop :=
| reach_new consume_fuel costs ops labels :
    in_u 64 (FuelCostsProvider_base costs) -> temp ops = None ->
    reach (OpEncoder_new consume_fuel costs (EncodedOps_reset ops) (LabelRegistry_reset labels)) empty_trace
| reach_new_label enc tr l enc' :
    reach enc tr -> new_label enc = (Ok l, enc') -> reach enc' tr
| reach_pin_label enc tr l enc' :
    reach enc tr -> pin_label l enc = (Ok tt, enc') -> reach enc' (charge (staged_charge enc) tr)
| reach_pin_label_if_unpinned enc tr l enc' :
    reach enc tr -> pin_label_if_unpinned l enc = (Ok tt, enc') -> reach enc' (charge (staged_charge enc) tr)
| reach_commit_staged_if_any enc tr enc' :
    reach enc tr -> commit_staged_if_any enc = (Ok tt, enc') -> reach enc' (charge (staged_charge enc) tr)
| reach_pad_to_op_alignment enc tr enc' :
    reach enc tr -> pad_to_op_alignment enc = (Ok tt, enc') -> reach enc' tr
| reach_stage_op enc tr op fuel_op sel enc' :
    reach enc tr -> fuel_arg tr fuel_op sel -> quiet op ->
    stage_op op fuel_op sel enc = (Ok tt, enc') -> reach enc' (charge (staged_charge enc) tr)
| reach_replace_staged enc tr op enc' :
    reach enc tr -> quiet op -> replace_staged op enc = (Ok tt, enc') -> reach enc' tr
| reach_drop_staged enc tr r enc' :
    reach enc tr -> drop_staged enc = (Ok r, enc') -> reach enc' tr
| reach_encode_op enc tr op fuel_pos sel pos enc' :
    reach enc tr -> fuel_arg tr fuel_pos sel -> encode_op op fuel_pos sel enc = (Ok pos, enc') ->
    reach enc' (charge (staged_charge enc ++ op_charge enc fuel_pos sel) tr)
| reach_no_consume_fuel_op enc tr enc' :
    reach enc tr -> encode_consume_fuel_op consume_fuel_code enc = (Ok None, enc') -> reach enc' tr
| reach_encode_consume_fuel_op enc tr pos enc' :
    reach enc tr -> encode_consume_fuel_op consume_fuel_code enc = (Ok (Some pos), enc') ->
    reach enc' (log (E_Fuel pos) (charge (staged_charge enc) tr))
| reach_encode_branch enc tr dst mk fuel_pos sel src pos enc' :
    reach enc tr -> fuel_arg tr fuel_pos sel -> makes_branch mk ->
    encode_branch dst mk fuel_pos sel enc = (Ok (src, pos), enc') ->
    reach enc' (log (E_Branch {| lu_dst := dst; lu_src := src; lu_pos := pos |})
                  (charge (staged_charge enc ++ op_charge enc fuel_pos sel) tr)).

(** ** The invariant *)

(** Where the bytes that stay end: before the staged operator. *)
Definition limit (enc : OpEncoder) : Z :=
  match staged enc with Some s => staged_pos s | None => next_pos (ops enc) end.

Definition buf (enc : OpEncoder) : list Z := buffer (ops enc).
Definition labels (enc : OpEncoder) : list Label := lr_labels (oe_labels enc).
Definition users (enc : OpEncoder) : list LabelUser := lr_users (oe_labels enc).

Definition branch_done (ls : list Label) (b : list Z) (u : LabelUser) : Prop :=
  exists t o, ls !! lu_dst u = Some (Pinned t) /\ trace_branch_offset (lu_src u) t = Ok o /\
    get_span (lu_pos u) 4 b = Some (to_ne_bytes P_i32 (branch_offset o)).
Definition fuel_done (costs : option FuelCostsProvider) (b : list Z) (p : BytePos) (n : Z) : Prop :=
  exists c, costs = Some c /\ in_u 64 (FuelCostsProvider_base c + n) /\
    get_span p 8 b = Some (to_ne_bytes P_u64 (FuelCostsProvider_base c + n)).

Definition entry_ok (enc : OpEncoder) (tr : Trace) (e : Entry) : Prop :=
  match e with
  | E_Branch u => u ∈ users enc \/ branch_done (labels enc) (buf enc) u
  | E_Fuel p => fuel_done (oe_fuel_costs enc) (buf enc) p (charged tr p)
  end.

Definition aligned (t : Z) : Prop := indirect_dispatch = false -> t mod ALIGN = 0.

Definition staged_ok (tr : Trace) (s : option StagedOp) : Prop :=
  forall st p d, s = Some st -> staged_fuel st = Some (p, d) -> E_Fuel p ∈ entries tr /\ in_u 64 d.

Record Inv (enc : OpEncoder) (tr : Trace) : Prop := {
  inv_sorted : StronglySorted before (entries tr);
  inv_bound : forall e, e ∈ entries tr -> 0 <= entry_pos e /\ entry_pos e + entry_width e <= limit enc;
  inv_limit : 0 <= limit enc <= next_pos (ops enc);
  inv_entries : forall e, e ∈ entries tr -> entry_ok enc tr e;
  inv_users : forall u, u ∈ users enc -> E_Branch u ∈ entries tr;
  inv_labels : forall l t, labels enc !! l = Some (Pinned t) -> 0 <= t <= limit enc /\ aligned t;
  inv_staged : staged_ok tr (staged enc);
  inv_temp : temp (ops enc) = None;
  inv_base : forall costs, oe_fuel_costs enc = Some costs -> in_u 64 (FuelCostsProvider_base costs);
  inv_charges : forall p d, (p, d) ∈ charges tr -> E_Fuel p ∈ entries tr;
  inv_src : forall u, E_Branch u ∈ entries tr -> 0 <= lu_src u <= lu_pos u
}.

(** The bytes below [lim] of the first buffer are those of the second. *)
Definition keeps (lim : Z) (b b' : list Z) : Prop := forall q n bs,
  0 <= q -> 0 <= n -> q + n <= lim -> get_span q n b = Some bs -> get_span q n b' = Some bs.

Lemma keeps_refl lim b : keeps lim b b.
Proof. by intros q n bs. Qed.
Lemma keeps_app lim b bs : keeps lim b (b ++ bs).
Proof. intros q n xs Hq Hn _. by apply get_span_app. Qed.
Lemma keeps_take lim b : keeps lim b (take (Z.to_nat lim) b).
Proof. intros q n xs Hq Hn Hl. by apply get_span_take. Qed.
Lemma keeps_trans lim b1 b2 b3 : keeps lim b1 b2 -> keeps lim b2 b3 -> keeps lim b1 b3.
Proof. intros H1 H2 q n bs Hq Hn Hl Hs. apply H2; [done..|]. by apply H1. Qed.

(** A change that keeps the entries, the labels and the costs. *)
Lemma Inv_frame enc enc' tr : Inv enc tr ->
  oe_labels enc' = oe_labels enc -> oe_fuel_costs enc' = oe_fuel_costs enc -> temp (ops enc') = None ->
  staged_ok tr (staged enc') -> limit enc <= limit enc' <= next_pos (ops enc') ->
  keeps (limit enc) (buf enc) (buf enc') -> Inv enc' tr.
Proof.
  intros I Hl Hc Ht Hs Hlim Hk. pose proof (inv_limit _ _ I) as L.
  split; try done.
  - apply (inv_sorted _ _ I).
  - intros e He. pose proof (inv_bound _ _ I e He). lia.
  - lia.
  - intros e He. pose proof (inv_bound _ _ I e He) as [Hp Hw]. pose proof (inv_entries _ _ I e He) as He'.
    destruct e as [u|p]; cbn in *; unfold users, labels in *; rewrite ?Hl, ?Hc.
    + destruct He' as [?|(t & o & ? & ? & Hsp)]; [by left|right]. exists t, o. split_and!; [done..|].
      apply Hk; [done|lia|lia|done].
    + destruct He' as (c & ? & ? & Hsp). exists c. split_and!; [done..|]. apply Hk; [done|lia|lia|done].
  - intros u. unfold users. rewrite Hl. apply (inv_users _ _ I).
  - intros l t. unfold labels. rewrite Hl. intros H2. destruct (inv_labels _ _ I l t H2). split; [lia|done].
  - rewrite Hc. apply (inv_base _ _ I).
  - apply (inv_charges _ _ I).
  - apply (inv_src _ _ I).
Qed.

(** Charging fuel to an entry. *)
Lemma Inv_charge enc tr p d enc' : Inv enc tr -> E_Fuel p ∈ entries tr ->
  (forall c, oe_fuel_costs enc = Some c -> in_u 64 (FuelCostsProvider_base c + charged tr p + d) /\
     enc' = set_ops (put_span p (to_ne_bytes P_u64 (FuelCostsProvider_base c + charged tr p + d)) (ops enc)) enc) ->
  Inv enc' (charge [(p, d)] tr).
Proof.
  intros I Hp Henc. pose proof (inv_entries _ _ I _ Hp) as (c & Hc & _ & Hsp).
  destruct (Henc c Hc) as [Hr ->]. clear Henc. pose proof (inv_bound _ _ I _ Hp) as [Hp0 Hpl]. cbn in Hp0, Hpl.
  set (bs := to_ne_bytes _ _). assert (Hb : Z.of_nat (length bs) = 8) by apply length_to_ne_bytes.
  pose proof (inv_limit _ _ I) as L.
  assert (Hlim : limit (set_ops (put_span p bs (ops enc)) enc) = limit enc).
  { unfold limit. cbn [staged set_ops ops]. by rewrite next_pos_put_span. }
  assert (Hcs : forall q, charged (charge [(p, d)] tr) q = charged tr q + if p =? q then d else 0).
  { intros q. unfold charged. cbn [charges charge]. rewrite sum_charges_app. cbn. lia. }
  split; try apply I.
  - rewrite Hlim. apply I.
  - rewrite Hlim. cbn [ops set_ops]. by rewrite next_pos_put_span.
  - intros e He. destruct (decide (e = E_Fuel p)) as [->|Hne].
    + exists c. cbn [oe_fuel_costs set_ops buf ops]. rewrite Hcs, Z.eqb_refl, Z.add_assoc. split_and!; [done..|].
      rewrite <-Hb at 1. apply (put_span_eq p bs); lia.
    + assert (Hk : get_span (entry_pos e) (entry_width e) (buf (set_ops (put_span p bs (ops enc)) enc)) =
        get_span (entry_pos e) (entry_width e) (buf enc)).
      { pose proof (inv_bound _ _ I _ He) as [? _]. pose proof (entry_width_pos e). apply put_span_ne; try lia.
        rewrite Hb. destruct (sorted_disjoint _ _ _ (inv_sorted _ _ I) He Hp Hne); unfold before in *; cbn in *; lia. }
      pose proof (inv_entries _ _ I _ He) as Hok. destruct e as [u|q]; cbn [entry_ok entry_pos entry_width] in *.
      * destruct Hok as [?|(t & o & ? & ? & ?)]; [by left|right]. exists t, o. split_and!; [done..|]. by rewrite Hk.
      * destruct Hok as (c' & ? & ? & ?). exists c'. rewrite Hcs, Hk. destruct (Z.eqb_spec p q); [congruence|].
        by rewrite Z.add_0_r.
  - rewrite Hlim. apply I.
  - intros q d'. cbn [charges charge entries]. rewrite elem_of_app, list_elem_of_singleton.
    intros [Hq|[= -> ->]]; [by eapply (inv_charges _ _ I)|done].
Qed.

(** Logging a new entry, and the user of a branch that is still unresolved. *)
Lemma Inv_log enc enc' tr e lb : Inv enc tr -> staged enc = None ->
  lr_labels lb = labels enc -> lr_users lb = users enc \/ (exists u, e = E_Branch u /\ lr_users lb = users enc ++ [u]) ->
  oe_labels enc' = lb -> oe_fuel_costs enc' = oe_fuel_costs enc -> temp (ops enc') = None -> staged enc' = None ->
  limit enc <= entry_pos e -> entry_pos e + entry_width e <= next_pos (ops enc') ->
  keeps (limit enc) (buf enc) (buf enc') -> entry_ok enc' tr e ->
  (forall u, e = E_Branch u -> 0 <= lu_src u <= lu_pos u) -> Inv enc' (log e tr).
Proof.
  intros I Hs Hll Hlu Hlb Hc Ht Hs' Hpos Hend Hk Hok Hsrc. pose proof (inv_limit _ _ I) as L.
  assert (Hlim : limit enc' = next_pos (ops enc')) by (unfold limit; by rewrite Hs').
  pose proof (entry_width_pos e).
  split; try done.
  - apply sorted_snoc; [apply I|]. apply Forall_forall. intros x Hx.
    pose proof (inv_bound _ _ I x Hx). unfold before. lia.
  - cbn [entries log]. intros x. rewrite elem_of_app, list_elem_of_singleton, Hlim.
    intros [Hx| ->]; [|lia]. pose proof (inv_bound _ _ I x Hx). lia.
  - lia.
  - cbn [entries log]. intros x. rewrite elem_of_app, list_elem_of_singleton. intros [Hx| ->]; [|by destruct e].
    pose proof (inv_bound _ _ I x Hx) as [Hp Hw]. pose proof (inv_entries _ _ I x Hx) as Hx'.
    destruct x as [u|p]; cbn [entry_ok entry_pos entry_width] in *; unfold users, labels in *; rewrite ?Hlb, ?Hll, ?Hc.
    + destruct Hx' as [Hu|(t & o & ? & ? & Hsp)].
      * left. destruct Hlu as [->|(v & _ & ->)]; set_solver.
      * right. exists t, o. split_and!; [done..|]. apply Hk; [done|lia|lia|done].
    + destruct Hx' as (c & ? & ? & Hsp). exists c. split_and!; [done..|]. apply Hk; [done|lia|lia|done].
  - intros u. unfold users. rewrite Hlb. cbn [entries log]. rewrite elem_of_app, list_elem_of_singleton.
    destruct Hlu as [->|(v & -> & ->)]; [intros Hu; left; by apply (inv_users _ _ I)|].
    rewrite elem_of_app, list_elem_of_singleton. intros [Hu| ->]; [left; by apply (inv_users _ _ I)|by right].
  - intros l t. unfold labels. rewrite Hlb, Hll, Hlim. intros Hlt. pose proof (inv_labels _ _ I l t Hlt) as [? ?].
    split; [lia|done].
  - intros st p d. by rewrite Hs'.
  - rewrite Hc. apply (inv_base _ _ I).
  - intros p d Hpd. cbn [entries log]. rewrite elem_of_app. left. by eapply (inv_charges _ _ I).
  - intros u. cbn [entries log]. rewrite elem_of_app, list_elem_of_singleton.
    intros [Hu|<-]; [by apply (inv_src _ _ I)|by apply Hsrc].
Qed.
End Reach.

(** ** Every step of the encoder keeps the invariant *)

Lemma next_multiple_of_spec n a : 0 < a -> 0 <= n ->
  n <= next_multiple_of n a /\ next_multiple_of n a mod a = 0.
Proof.
  intros Ha Hn. pose proof (Z.mod_pos_bound n a Ha) as Hb.
  assert (Hm : next_multiple_of n a = if n mod a =? 0 then n else n + (a - n mod a)).
  { unfold next_multiple_of. by destruct (n mod a). }
  rewrite Hm. destruct (Z.eqb_spec (n mod a) 0) as [E0|E0]; [done|]. split; [lia|].
  rewrite (Z.div_mod n a) at 1 by lia.
  replace (a * (n / a) + n mod a + (a - n mod a)) with ((n / a + 1) * a) by lia. by apply Z.mod_mul, Z.neq_sym, Z.lt_neq.
Qed.

Section Steps.
Context `{Al : Allocator} `{En : Endian} `{Di : Dispatch} (consume_fuel_code : Z).

Lemma ALIGN_pos : 0 < ALIGN.
Proof. unfold ALIGN. by destruct usize_bits_cases as [-> | ->]. Qed.

(** What a step leaves unchanged. *)
Definition same (enc enc' : OpEncoder) : Prop :=
  oe_fuel_costs enc' = oe_fuel_costs enc /\ oe_labels enc' = oe_labels enc.

Lemma charge_nil tr : charge [] tr = tr.
Proof. unfold charge. rewrite app_nil_r. by destruct tr. Qed.
Lemma charge_app cs cs' tr : charge cs' (charge cs tr) = charge (cs ++ cs') tr.
Proof. unfold charge. cbn. by rewrite app_assoc. Qed.

Lemma Inv_charge_zero enc tr p : Inv enc tr -> E_Fuel p ∈ entries tr -> Inv enc (charge [(p, 0)] tr).
Proof.
  intros I Hp. split; try apply I.
  - intros e He. pose proof (inv_entries _ _ I e He) as Hok. destruct e as [u|q]; [done|]. cbn [entry_ok] in *.
    replace (charged (charge [(p, 0)] tr) q) with (charged tr q); [done|]. unfold charged.
    cbn [charges charge]. rewrite sum_charges_app. cbn. destruct (p =? q); lia.
  - intros q d. cbn [charges charge entries]. rewrite elem_of_app, list_elem_of_singleton.
    intros [Hq|[= -> ->]]; [by eapply (inv_charges _ _ I)|done].
Qed.

Definition by_charge (fuel_pos : option BytePos) (d : Z) : list (BytePos * FuelUsed) :=
  match fuel_pos with Some p => [(p, d)] | None => [] end.

Lemma bump_by_step enc tr fuel_pos d u enc' : Inv enc tr ->
  (forall p, fuel_pos = Some p -> E_Fuel p ∈ entries tr) -> in_u 64 d ->
  bump_fuel_consumption_by fuel_pos d enc = (Ok u, enc') ->
  Inv enc' (charge (by_charge fuel_pos d) tr) /\ same enc enc' /\ staged enc' = staged enc /\
  next_pos (ops enc') = next_pos (ops enc).
Proof.
  intros I Hp [Hd0 Hd] E1. unfold bump_fuel_consumption_by in E1. rewrite bind_get_st in E1.
  apply bind_Ok_inv in E1 as (? & s1 & Ea & E1). apply assert_Ok_inv in Ea as [_ ->].
  destruct fuel_pos as [p|].
  2:{ injection E1 as <- <-. by rewrite charge_nil. }
  specialize (Hp p eq_refl). apply zoom_Ok_inv in E1 as (t & E1 & ->).
  pose proof (inv_entries _ _ I _ Hp) as (c & Hc & Hr & Hsp). pose proof (inv_bound _ _ I _ Hp) as [Hp0 _].
  rewrite (bump_fuel_run p d _ _ Hp0 Hd0 Hr Hsp) in E1.
  destruct (Z.ltb_spec (FuelCostsProvider_base c + charged tr p + d) (2 ^ 64)); [|done]. injection E1 as _ <-.
  split_and!; [|done|done|apply next_pos_put_span]. eapply Inv_charge; [done|done|].
  intros c' Hc'. assert (c' = c) as -> by congruence. split; [|done]. destruct Hr. split; lia.
Qed.

Lemma bump_step enc tr fuel_pos sel u enc' : Inv enc tr -> fuel_arg tr fuel_pos sel ->
  bump_fuel_consumption fuel_pos sel enc = (Ok u, enc') ->
  Inv enc' (charge (op_charge enc fuel_pos sel) tr) /\ same enc enc' /\ staged enc' = staged enc /\
  next_pos (ops enc') = next_pos (ops enc).
Proof.
  intros I [Hp Hsel] E1. unfold bump_fuel_consumption in E1. rewrite bind_get_st in E1.
  apply bind_Ok_inv in E1 as (? & s1 & Ea & E1). apply assert_Ok_inv in Ea as [Ha ->]. unfold op_charge.
  destruct fuel_pos as [p|], (oe_fuel_costs enc) as [c|]; try done.
  - destruct (Z.eqb_spec (sel c) 0) as [E0|E0].
    + injection E1 as <- <-. rewrite E0. split; [|done]. apply Inv_charge_zero; [done|by apply Hp].
    + by eapply (bump_by_step enc tr (Some p)).
  - injection E1 as <- <-. by rewrite charge_nil.
Qed.

Lemma commit_step enc tr u enc' : Inv enc tr -> commit_staged_if_any enc = (Ok u, enc') ->
  Inv enc' (charge (staged_charge enc) tr) /\ same enc enc' /\ staged enc' = None /\
  next_pos (ops enc') = next_pos (ops enc).
Proof.
  intros I E1. unfold commit_staged_if_any in E1. rewrite bind_get_st in E1.
  apply bind_Ok_inv in E1 as (? & s1 & Ep & E1). injection Ep as _ <-.
  assert (I1 : Inv (set_staged None enc) tr).
  { pose proof (inv_limit _ _ I). apply (Inv_frame enc); try done; [apply I|cbn; lia|apply keeps_refl]. }
  apply bind_Ok_inv in E1 as (? & s2 & E2 & E1). rewrite bind_get_st in E1. apply assert_Ok_inv in E1 as [Hs ->].
  assert (Hs2 : staged s2 = None) by (by destruct (staged s2)). clear Hs. unfold staged_charge.
  destruct (staged enc) as [st|] eqn:Est; [|injection E2 as <- <-; rewrite charge_nil; by split_and!].
  unfold commit_staged in E2. apply bind_Ok_inv in E2 as (? & s3 & E2 & E3). rewrite bind_get_st in E3.
  apply assert_Ok_inv in E3 as [_ <-].
  destruct (staged_fuel st) as [[p d]|] eqn:Ef; [|injection E2 as <- <-; rewrite charge_nil; by split_and!].
  destruct (inv_staged _ _ I st p d Est Ef) as [Hp Hd].
  destruct (bump_by_step _ _ (Some p) d _ _ I1 ltac:(by intros ? [= <-]) Hd E2) as (I2 & Hsm & _ & Hn).
  split; [done|]. split; [exact Hsm|]. done.
Qed.

Lemma pad_step enc tr u enc' : Inv enc tr -> pad_to_op_alignment enc = (Ok u, enc') ->
  Inv enc' tr /\ same enc enc' /\ staged enc' = staged enc /\ aligned (next_pos (ops enc')) /\
  next_pos (ops enc) <= next_pos (ops enc').
Proof.
  intros I E1. unfold pad_to_op_alignment in E1. unfold aligned.
  destruct indirect_dispatch; [injection E1 as <- <-; by split_and!|].
  rewrite bind_get_st in E1. injection E1 as <- <-. pose proof (inv_limit _ _ I) as L.
  destruct (next_multiple_of_spec (next_pos (ops enc)) ALIGN ALIGN_pos) as [Hle Hal]; [lia|].
  assert (Hn : next_pos (set_buffer (buffer (ops enc) ++ replicate
      (Z.to_nat (next_multiple_of (next_pos (ops enc)) ALIGN - next_pos (ops enc))) 0) (ops enc)) =
    next_multiple_of (next_pos (ops enc)) ALIGN).
  { unfold next_pos at 1. cbn [buffer set_buffer]. rewrite length_app, length_replicate. unfold next_pos in *. lia. }
  split_and!; try done.
  - apply (Inv_frame enc); try done; try apply I; [|apply keeps_app].
    unfold limit in *. cbn [staged set_ops ops]. rewrite Hn. destruct (staged enc); lia.
  - intros _. cbn [ops set_ops]. by rewrite Hn.
  - cbn [ops set_ops]. by rewrite Hn.
Qed.

(** ** Encoding an item *)

Lemma encode_impl_step item enc p enc' : encode_impl item enc = (Ok p, enc') ->
  p = next_pos (ops enc) /\ same enc enc' /\ staged enc' = staged enc /\
  (exists bs, buf enc' = buf enc ++ bs) /\
  (temp (ops enc') = temp (ops enc) \/
   temp (ops enc) = None /\ report_ok (item_offsets item) (item_fuels item) (next_pos (ops enc)) (ops enc')) /\
  exists q, Item_encode item (ops enc) = (Ok q, ops enc').
Proof.
  intros E1. unfold encode_impl in E1. rewrite bind_get_st in E1.
  apply bind_Ok_inv in E1 as (q & s1 & E1 & E2). injection E2 as <- <-.
  apply zoom_Ok_inv in E1 as (t & E1 & ->). destruct (grows_item item _ _ _ E1) as [[bs Hb] Ht].
  split_and!; try done; eauto.
Qed.

Lemma next_pos_app enc enc' bs : buf enc' = buf enc ++ bs -> next_pos (ops enc) <= next_pos (ops enc').
Proof. unfold buf, next_pos. intros ->. rewrite length_app. lia. Qed.

(** Appending bytes without a report, and staging from the old end. *)
Lemma Inv_append enc enc' tr bs st : Inv enc tr -> limit enc = next_pos (ops enc) -> same enc enc' ->
  buf enc' = buf enc ++ bs -> temp (ops enc') = None -> staged enc' = st -> staged_ok tr st ->
  (forall s, st = Some s -> staged_pos s = limit enc) -> Inv enc' tr.
Proof.
  intros I Hl [Hc Hlb] Hb Ht Hst Hok Hpos. pose proof (inv_limit _ _ I). pose proof (next_pos_app _ _ _ Hb).
  apply (Inv_frame enc); try done.
  - by rewrite Hst.
  - unfold limit at 2 3. rewrite Hst. destruct st as [s|]; [rewrite (Hpos s eq_refl)|]; lia.
  - rewrite Hb. apply keeps_app.
Qed.

Lemma limit_none enc : staged enc = None -> limit enc = next_pos (ops enc).
Proof. unfold limit. by intros ->. Qed.

Lemma quiet_temp op enc q o' : quiet op -> Item_encode (Item_Op op) (ops enc) = (Ok q, o') ->
  temp o' = temp (ops enc).
Proof. intros [Ho Hf] E1. by apply (item_quiet _ _ _ _ Ho Hf E1). Qed.

Lemma same_trans a b c : same a b -> same b c -> same a c.
Proof. unfold same. intuition congruence. Qed.

Lemma charge_entries cs tr e : e ∈ entries tr -> e ∈ entries (charge cs tr).
Proof. done. Qed.
End Steps.
