(* ===== verification/EncoderSpec.v ===== *)
(** * Correctness of the operator encoder

    Every reachable state satisfies the invariant; from it: each [ConsumeFuel]
    operator carries the base costs plus the fuel charged to it, and after
    [update_branch_offsets] every branch carries the distance to its label. *)

From Stdlib Require Import ZArith Lia Sorted.
From stdpp Require Import base option decidable numbers list sets.
From S2P Require Import Prelude Trap Value Fuel MemoryAccess Slot Locals OpFields Codec EncodedOps OpLayout Encoder EncodedSpec EncoderInv.
Local Open Scope Z_scope.

Section Spec.
Context `{Al : Allocator} `{En : Endian} `{Di : Dispatch} (consume_fuel_code : Z).

(** ** Labels *)

Lemma Inv_labels enc tr ls : Inv enc tr -> labels_le (labels enc) ls ->
  (forall (l : LabelRef) t, ls !! l = Some (Pinned t) -> 0 <= t <= limit enc /\ aligned t) ->
  Inv (set_oe_labels (set_labels ls (oe_labels enc)) enc) tr.
Proof.
  intros I Hle Hls. split; try apply I; [|done].
  intros e He. pose proof (inv_entries _ _ I e He) as Hok. destruct e as [u|p]; [|done].
  destruct Hok as [?|(t & o & Ht & ? & ?)]; [by left|right]. exists t, o. split_and!; [by apply Hle|done..].
Qed.

Lemma new_label_inv enc tr l enc' : Inv enc tr -> new_label enc = (Ok l, enc') -> Inv enc' tr.
Proof.
  intros I E1. apply zoom_Ok_inv in E1 as (r & E1 & ->). apply zoom_Ok_inv in E1 as (ls & E1 & ->).
  injection E1 as _ <-. apply Inv_labels; [done|apply labels_le_push|].
  intros l' t Hl'. apply (inv_labels _ _ I l'). by apply pinned_push.
Qed.

(** Pinning a label to the end of the buffer. *)
Lemma pin_inv enc tr l : Inv enc tr -> staged enc = None -> aligned (next_pos (ops enc)) ->
  labels enc !! l = Some Unpinned ->
  Inv (set_oe_labels (set_labels (<[l := Pinned (next_pos (ops enc))]> (labels enc)) (oe_labels enc)) enc) tr.
Proof.
  intros I Hs Ha Hl. apply Inv_labels; [done|by apply labels_le_pin|].
  intros l' t Hl'. apply pinned_insert in Hl' as [->|Hl']; [|by apply (inv_labels _ _ I l')].
  pose proof (inv_limit _ _ I). rewrite (limit_none enc) in * by done. split; [lia|done].
Qed.

(** Committing and padding, which most methods start with. *)
Lemma commit_pad_inv {A} enc tr (k : unit -> M OpEncoder TranslationError A) r enc' : Inv enc tr ->
  (commit_staged_if_any;; pad_to_op_alignment ≫= k) enc = (Ok r, enc') ->
  exists s, Inv s (charge (staged_charge enc) tr) /\ staged s = None /\ same enc s /\
    aligned (next_pos (ops s)) /\ next_pos (ops enc) <= next_pos (ops s) /\ k tt s = (Ok r, enc').
Proof.
  intros I E1. apply bind_Ok_inv in E1 as (? & s1 & Ec & E1). apply bind_Ok_inv in E1 as ([] & s2 & Ep & E1).
  destruct (commit_step _ _ _ _ I Ec) as (I1 & S1 & N1 & P1).
  destruct (pad_step _ _ _ _ I1 Ep) as (I2 & S2 & N2 & A2 & P2). exists s2.
  split; [done|]. split; [congruence|]. split; [by eapply same_trans|]. split; [done|]. split; [lia|done].
Qed.

Lemma pin_label_inv enc tr l u enc' : Inv enc tr -> pin_label l enc = (Ok u, enc') ->
  Inv enc' (charge (staged_charge enc) tr).
Proof.
  intros I E1. apply (commit_pad_inv _ _ _ _ _ I) in E1 as (s & I1 & N1 & _ & A1 & _ & E1).
  rewrite bind_get_st in E1. apply zoom_Ok_inv in E1 as (r & E1 & ->).
  rewrite LabelRegistry_pin_label_run in E1. destruct (lr_labels (oe_labels s) !! l) as [[]|] eqn:El; try done.
  injection E1 as _ <-. by apply pin_inv.
Qed.

Lemma pin_label_if_unpinned_inv enc tr l u enc' : Inv enc tr -> pin_label_if_unpinned l enc = (Ok u, enc') ->
  Inv enc' (charge (staged_charge enc) tr).
Proof.
  intros I E1. apply (commit_pad_inv _ _ _ _ _ I) in E1 as (s & I1 & N1 & _ & A1 & _ & E1).
  rewrite bind_get_st in E1. apply zoom_Ok_inv in E1 as (r & E1 & ->).
  rewrite pin_if_unpinned_run in E1. destruct (lr_labels (oe_labels s) !! l) as [[]|] eqn:El; try done.
  - injection E1 as _ <-. by destruct s.
  - injection E1 as _ <-. by apply pin_inv.
Qed.

(** ** Staging *)

Lemma stage_op_inv enc tr op fuel_op sel u enc' : Inv enc tr -> fuel_arg tr fuel_op sel -> quiet op ->
  stage_op op fuel_op sel enc = (Ok u, enc') -> Inv enc' (charge (staged_charge enc) tr).
Proof.
  intros I [Hp Hsel] Hq E1. apply (commit_pad_inv _ _ _ _ _ I) in E1 as (s & I1 & N1 & Hs1 & A1 & _ & E1).
  apply bind_Ok_inv in E1 as (pos & s2 & Ei & E1).
  apply encode_impl_step in Ei as (-> & Hs2 & N2 & [bs B2] & _ & q & Eq).
  rewrite bind_get_st, bind_lift in E1.
  assert (Hfuel : exists fuel, enc' = set_staged (Some {| staged_op := op; staged_pos := next_pos (ops s); staged_fuel := fuel |}) s2 /\
    forall p d, fuel = Some (p, d) -> fuel_op = Some p /\ in_u 64 d).
  { destruct fuel_op as [p|], (oe_fuel_costs s2) as [c|]; try done; injection E1 as _ <-; (eexists; split; [done|]).
    - by intros p' d [= <- <-].
    - done. }
  destruct Hfuel as (fuel & -> & Hfuel). clear E1.
  eapply (Inv_append s); [done|by apply limit_none|done|done| |done| |].
  - cbn [ops set_staged]. rewrite (quiet_temp op s _ _ Hq Eq). apply I1.
  - intros st p d [= <-] Hf. cbn in Hf. destruct (Hfuel p d Hf) as [-> ?]. split; [by apply Hp|done].
  - intros st [= <-]. by rewrite (limit_none s).
Qed.

Lemma truncate_run {E} pos o u o' : EncodedOps_truncate (E := E) pos o = (Ok u, o') ->
  pos <= next_pos o /\ o' = set_buffer (take (Z.to_nat pos) (buffer o)) o.
Proof.
  intros E1. unfold EncodedOps_truncate in E1. rewrite bind_get_st in E1.
  apply bind_Ok_inv in E1 as (? & s1 & Ea & E1). apply assert_Ok_inv in Ea as [Ha ->]. injection E1 as _ <-.
  by apply Z.leb_le in Ha.
Qed.

(** Dropping the bytes of the staged operator. *)
Lemma truncate_inv enc tr st enc' o : Inv enc tr -> staged enc = Some st ->
  o = set_buffer (take (Z.to_nat (staged_pos st)) (buf enc)) (ops enc) -> enc' = set_ops o (set_staged None enc) ->
  Inv enc' tr /\ next_pos (ops enc') = staged_pos st.
Proof.
  intros I Hst -> ->. pose proof (inv_limit _ _ I) as L. unfold limit in L. rewrite Hst in L.
  assert (Hn : next_pos (set_buffer (take (Z.to_nat (staged_pos st)) (buf enc)) (ops enc)) = staged_pos st).
  { unfold next_pos in *. cbn [buffer set_buffer]. rewrite length_take. unfold buf. lia. }
  split; [|done]. apply (Inv_frame enc); try done; [apply I| |].
  - unfold limit. cbn [staged set_ops set_staged ops]. rewrite Hst, Hn. lia.
  - unfold limit. rewrite Hst. apply keeps_take.
Qed.

Lemma drop_staged_inv enc tr r enc' : Inv enc tr -> drop_staged enc = (Ok r, enc') -> Inv enc' tr.
Proof.
  intros I E1. unfold drop_staged in E1. rewrite bind_get_st in E1. destruct (staged enc) as [st|] eqn:Est; [|done].
  apply bind_Ok_inv in E1 as (? & s1 & Ep & E1). injection Ep as _ <-.
  apply bind_Ok_inv in E1 as (? & s2 & Et & E1). injection E1 as _ <-.
  apply zoom_Ok_inv in Et as (o & Et & ->). apply truncate_run in Et as [_ ->].
  by eapply (truncate_inv enc tr st).
Qed.

Lemma replace_staged_inv enc tr op u enc' : Inv enc tr -> quiet op -> replace_staged op enc = (Ok u, enc') ->
  Inv enc' tr.
Proof.
  intros I Hq E1. unfold replace_staged in E1. rewrite bind_get_st in E1. destruct (staged enc) as [st|] eqn:Est; [|done].
  apply bind_Ok_inv in E1 as (? & s1 & Ep & E1). injection Ep as _ <-.
  apply bind_Ok_inv in E1 as (? & s2 & Et & E1). apply bind_Ok_inv in E1 as (pos & s3 & Ei & E1). injection E1 as _ <-.
  apply zoom_Ok_inv in Et as (o & Et & ->). apply truncate_run in Et as [_ ->].
  destruct (truncate_inv enc tr st _ _ I Est eq_refl eq_refl) as [I1 P1].
  apply encode_impl_step in Ei as (_ & Hs2 & N2 & [bs B2] & _ & q & Eq).
  match type of I1 with Inv ?e _ => set (e0 := e) in *; assert (Hl0 : limit e0 = next_pos (ops e0)) by done end.
  refine (Inv_append e0 _ tr bs _ I1 Hl0 Hs2 B2 _ N2 _ _).
  - rewrite (quiet_temp op _ _ _ Hq Eq). apply I.
  - intros s p d [= <-]. by apply (inv_staged _ _ I st).
  - intros s [= <-]. by rewrite Hl0, P1.
Qed.

(** ** Encoding *)

Lemma take_reporting_run {E} o r o' : take_reporting_pos (E := E) o = (Ok r, o') ->
  r = temp o /\ o' = set_temp None o.
Proof. intros [= <- <-]. done. Qed.

Lemma encode_op_inv enc tr op fuel_pos sel pos enc' : Inv enc tr -> fuel_arg tr fuel_pos sel ->
  encode_op op fuel_pos sel enc = (Ok pos, enc') ->
  Inv enc' (charge (staged_charge enc ++ op_charge enc fuel_pos sel) tr).
Proof.
  intros I Hf E1. apply bind_Ok_inv in E1 as (? & s1 & Ec & E1). apply bind_Ok_inv in E1 as (? & s2 & Eb & E1).
  apply bind_Ok_inv in E1 as (? & s3 & Ep & E1). apply bind_Ok_inv in E1 as (p & s4 & Ei & E1).
  apply bind_Ok_inv in E1 as (r & s5 & Er & E1). apply bind_Ok_inv in E1 as (? & s6 & Ea & E1).
  rewrite bind_get_st in E1. apply bind_Ok_inv in E1 as (? & s7 & Ea' & E1). injection E1 as _ <-.
  apply assert_Ok_inv in Ea as [Hr ->]. apply assert_Ok_inv in Ea' as [_ ->].
  destruct (commit_step _ _ _ _ I Ec) as (I1 & [C1 L1] & N1 & P1).
  destruct (bump_step _ _ _ _ _ _ I1 Hf Eb) as (I2 & [C2 L2] & N2 & P2).
  destruct (pad_step _ _ _ _ I2 Ep) as (I3 & [C3 L3] & N3 & _ & P3).
  apply encode_impl_step in Ei as (_ & [C4 L4] & N4 & [bs B4] & _).
  apply zoom_Ok_inv in Er as (o & Er & ->). apply take_reporting_run in Er as [_ ->].
  assert (Hcost : op_charge s1 fuel_pos sel = op_charge enc fuel_pos sel) by (unfold op_charge; by rewrite C1).
  rewrite <-Hcost, <-charge_app.
  eapply (Inv_append s3 _ _ bs None); try done; [apply limit_none; congruence|cbn; congruence].
Qed.

(** A report of the only offset or fuel of an item. *)
Lemma consume_fuel_inv enc tr pos enc' : Inv enc tr ->
  encode_consume_fuel_op consume_fuel_code enc = (Ok (Some pos), enc') ->
  Inv enc' (log (E_Fuel pos) (charge (staged_charge enc) tr)).
Proof.
  intros I E1. unfold encode_consume_fuel_op in E1. rewrite bind_get_st in E1.
  destruct (oe_fuel_costs enc) as [c|] eqn:Ec; [|done].
  apply (commit_pad_inv _ _ _ _ _ I) in E1 as (s & I1 & N1 & [C1 L1] & _ & _ & E1).
  apply bind_Ok_inv in E1 as (q & s1 & Ei & E1). apply zoom_Ok_inv in Ei as (o1 & Ei & ->).
  apply bind_Ok_inv in E1 as (r & s2 & Er & E1). apply zoom_Ok_inv in Er as (o2 & Er & ->).
  apply take_reporting_run in Er as [-> ->]. cbn [ops set_ops] in E1.
  destruct (grows_item _ _ _ _ Ei) as [[bs B1] [T1|[T0 R1]]].
  { rewrite T1, (inv_temp _ _ I1) in E1. done. }
  unfold report_ok in R1. destruct (temp o1) as [[p|p]|] eqn:Et; try done.
  rewrite bind_get_st in E1. apply bind_Ok_inv in E1 as (? & s3 & Ea & E1). apply assert_Ok_inv in Ea as [_ ->].
  injection E1 as -> <-. destruct R1 as (Hlo & f & Hf & Hsp).
  assert (f = {| block_fuel := FuelCostsProvider_base c |}) as -> by set_solver.
  pose proof (inv_limit _ _ I1) as Lim. rewrite (limit_none s N1) in Lim.
  assert (Hend : pos + 8 <= next_pos o1) by (apply get_span_Some in Hsp as [? _]; unfold next_pos in *; lia).
  eapply (Inv_log s _ _ _ (oe_labels s)); try done; [by left|by rewrite (limit_none s N1)|unfold buf; cbn; rewrite B1; apply keeps_app|].
  exists c. cbn [oe_fuel_costs set_ops]. split; [congruence|].
  assert (Hz : charged (charge (staged_charge enc) tr) pos = 0).
  { apply sum_charges_none. intros p d Hpd ->. apply (inv_charges _ _ I1) in Hpd.
    pose proof (inv_bound _ _ I1 _ Hpd) as [_ Hb]. cbn in Hb. rewrite (limit_none s N1) in Hb. lia. }
  rewrite Hz, Z.add_0_r. split; [|done]. apply (inv_base _ _ I). done.
Qed.

Lemma encode_branch_inv enc tr dst mk fuel_pos sel src pos enc' : Inv enc tr -> fuel_arg tr fuel_pos sel ->
  makes_branch mk -> encode_branch dst mk fuel_pos sel enc = (Ok (src, pos), enc') ->
  Inv enc' (log (E_Branch {| lu_dst := dst; lu_src := src; lu_pos := pos |})
                (charge (staged_charge enc ++ op_charge enc fuel_pos sel) tr)).
Proof.
  intros I Hf Hmk E1. apply bind_Ok_inv in E1 as (? & s1 & Ec & E1). apply bind_Ok_inv in E1 as (? & s2 & Eb & E1).
  apply bind_Ok_inv in E1 as (o & s3 & Et & E1). apply bind_Ok_inv in E1 as (p & s4 & Ei & E1).
  apply bind_Ok_inv in E1 as (r & s5 & Er & E1).
  destruct (commit_step _ _ _ _ I Ec) as (I1 & [C1 L1] & N1 & P1).
  destruct (bump_step _ _ _ _ _ _ I1 Hf Eb) as (I2 & [C2 L2] & N2 & P2).
  assert (Hcost : op_charge s1 fuel_pos sel = op_charge enc fuel_pos sel) by (unfold op_charge; by rewrite C1).
  rewrite charge_app, Hcost in I2.
  unfold try_resolve_label in Et. rewrite bind_get_st in Et. apply bind_Ok_inv in Et as (? & ? & Ea & Et).
  apply assert_Ok_inv in Ea as [_ ->]. cbv beta iota zeta in Et. rewrite bind_lift in Et.
  unfold get_label, RegisteredLabels_get in Et. destruct (lr_labels (oe_labels s2) !! dst) as [lbl|] eqn:El; [|done].
  cbn [expect] in Et.
  assert (Hs3 : s3 = s2 /\ match lbl with Pinned t => trace_branch_offset (next_pos (ops s2)) t = Ok o | Unpinned => True end).
  { destruct lbl; [|by injection Et as _ <-]. unfold lift in Et. by injection Et as -> <-. }
  destruct Hs3 as [-> Ho]. clear Et.
  apply encode_impl_step in Ei as (-> & [C4 L4] & N4 & [bs B4] & Ht4 & _).
  apply zoom_Ok_inv in Er as (o2 & Er & ->). apply take_reporting_run in Er as [-> ->].
  assert (N2' : staged s2 = None) by congruence.
  destruct Ht4 as [T4|[T0 R4]]; [by rewrite T4, (inv_temp _ _ I2) in E1|].
  unfold report_ok in R4. destruct (temp (ops s4)) as [[q|q]|] eqn:Et; try done.
  destruct R4 as (Hlo & o' & Ho' & Hsp). rewrite Hmk in Ho'. apply list_elem_of_singleton in Ho' as ->.
  rewrite bind_get_st in E1. cbv beta iota zeta in E1. rewrite bind_lift in E1.
  unfold is_pinned, get_label, RegisteredLabels_get in E1. cbn [oe_labels set_ops] in E1. rewrite L4, El in E1.
  pose proof (inv_limit _ _ I2) as Lim. rewrite (limit_none s2 N2') in Lim.
  assert (Hend : q + 4 <= next_pos (ops s4)) by (apply get_span_Some in Hsp as [? _]; unfold next_pos in *; lia).
  destruct lbl as [t|]; cbn [expect mbind res_bind mret res_ret] in E1.
  - apply bind_Ok_inv in E1 as (? & s6 & E2 & E1). injection E2 as _ <-. rewrite bind_get_st in E1.
    apply bind_Ok_inv in E1 as (? & ? & Ea & E1). apply assert_Ok_inv in Ea as [_ ->]. injection E1 as <- <- <-.
    eapply (Inv_log s2 _ _ _ (oe_labels s2)); try done; [by left|cbn; congruence|by rewrite (limit_none s2 N2')|unfold buf in *; cbn; rewrite B4; apply keeps_app| |intros u [= <-]; cbn; lia].
    right. exists t, o. unfold labels. cbn [oe_labels set_ops]. rewrite L4. split_and!; done.
  - apply bind_Ok_inv in E1 as (? & s6 & E2 & E1). apply zoom_Ok_inv in E2 as (lb & E2 & ->). injection E2 as _ <-.
    rewrite bind_get_st in E1. apply bind_Ok_inv in E1 as (? & ? & Ea & E1). apply assert_Ok_inv in Ea as [_ ->].
    injection E1 as <- <- <-. cbn [oe_labels set_ops]. rewrite L4.
    match goal with |- context [set_oe_labels ?l _] => eapply (Inv_log s2 _ _ _ l) end; try done;
      [right; by eexists|cbn; congruence|by rewrite (limit_none s2 N2')|unfold buf in *; cbn; rewrite B4; apply keeps_app
      | |intros u [= <-]; cbn; lia].
    left. unfold users. cbn. set_solver.
Qed.

(** ** Reachable states *)

Lemma new_inv consume_fuel costs o lb : in_u 64 (FuelCostsProvider_base costs) -> temp o = None ->
  Inv (OpEncoder_new consume_fuel costs (EncodedOps_reset o) (LabelRegistry_reset lb)) empty_trace.
Proof.
  intros Hb Ht. split; cbn; try done.
  - constructor.
  - by intros e He%elem_of_nil.
  - by intros e He%elem_of_nil.
  - by intros u Hu%elem_of_nil.
  - destruct consume_fuel; [|done]. by intros c [= <-].
  - by intros p d Hpd%elem_of_nil.
  - by intros u Hu%elem_of_nil.
Qed.

Lemma reach_Inv enc tr : reach consume_fuel_code enc tr -> Inv enc tr.
Proof.
  induction 1 as [cf c o lb Hb Ht|enc tr l enc' _ IH E1|enc tr l enc' _ IH E1|enc tr l enc' _ IH E1|enc tr enc' _ IH E1
    |enc tr enc' _ IH E1|enc tr op fp sel enc' _ IH Hf Hq E1|enc tr op enc' _ IH Hq E1|enc tr r enc' _ IH E1
    |enc tr op fp sel pos enc' _ IH Hf E1|enc tr enc' _ IH E1|enc tr pos enc' _ IH E1|enc tr dst mk fp sel src pos enc' _ IH Hf Hm E1].
  - by apply new_inv.
  - by eapply new_label_inv.
  - by eapply pin_label_inv.
  - by eapply pin_label_if_unpinned_inv.
  - by eapply commit_step.
  - by eapply pad_step.
  - by eapply stage_op_inv.
  - by eapply replace_staged_inv.
  - by eapply drop_staged_inv.
  - by eapply encode_op_inv.
  - unfold encode_consume_fuel_op in E1. rewrite bind_get_st in E1. destruct (oe_fuel_costs enc); [|by injection E1 as <-].
    apply (commit_pad_inv _ _ _ _ _ IH) in E1 as (s & _ & _ & _ & _ & _ & E1).
    apply bind_Ok_inv in E1 as (? & s1 & _ & E1). apply bind_Ok_inv in E1 as (r & s2 & _ & E1).
    destruct r as [[|]|]; try done. rewrite bind_get_st in E1. by apply bind_Ok_inv in E1 as (? & s3 & _ & E1).
  - by eapply consume_fuel_inv.
  - by eapply encode_branch_inv.
Qed.

(** ** Resolving the users of labels *)

Definition apart (p n : Z) (u : LabelUser) : Prop := p + n <= lu_pos u \/ lu_pos u + 4 <= p.

Lemma trace_branch_offset_run src dst : 0 <= src -> 0 <= dst ->
  trace_branch_offset src dst =
  if bool_decide (src < 2 ^ (usize_bits - 1) /\ dst < 2 ^ (usize_bits - 1) /\ in_s 32 (dst - src))
  then Ok {| branch_offset := dst - src |} else Err BranchOffsetOutOfBounds.
Proof.
  intros Hs Hd. unfold trace_branch_offset, try_from_u. unfold_m.
  destruct (Z.ltb_spec src (2 ^ (usize_bits - 1))); [|by rewrite bool_decide_eq_false_2 by lia].
  destruct (Z.ltb_spec dst (2 ^ (usize_bits - 1))); [|by rewrite bool_decide_eq_false_2 by lia].
  case_bool_decide; [by rewrite bool_decide_eq_true_2|by rewrite bool_decide_eq_false_2 by tauto].
Qed.

Lemma update_users_spec (ls : list Label) us o :
  (forall u, u ∈ us -> 0 <= lu_pos u /\ lu_pos u + 4 <= next_pos o) ->
  (forall u v, u ∈ us -> v ∈ us -> u <> v -> apart (lu_pos u) 4 v) ->
  let '(r, o') := update_users ls us o in
  next_pos o' = next_pos o /\
  (forall p n, 0 <= p -> 0 <= n -> (forall u, u ∈ us -> apart p n u) ->
     get_span p n (buffer o') = get_span p n (buffer o)) /\
  match r with
  | Ok _ => forall u, u ∈ us -> branch_done ls (buffer o') u
  | Err e => exists u t, u ∈ us /\ ls !! lu_dst u = Some (Pinned t) /\ trace_branch_offset (lu_src u) t = Err e
  | Panic => exists u, u ∈ us /\ forall t, ls !! lu_dst u <> Some (Pinned t)
  end.
Proof.
  revert o. induction us as [|u us IH]; intros o Hb Hd.
  { cbn. split_and!; [done|done|]. by intros u Hu%elem_of_nil. }
  destruct (Hb u ltac:(left)) as [Hp Hl]. cbn [update_users]. rewrite bind_lift.
  unfold resolve_user, RegisteredLabels_get. destruct (ls !! lu_dst u) as [[t|]|] eqn:El; cbn.
  2:{ split_and!; [done|done|]. exists u. split; [left|congruence]. }
  2:{ split_and!; [done|done|]. exists u. split; [left|congruence]. }
  rewrite bind_lift. destruct (trace_branch_offset (lu_src u) t) as [off|e|] eqn:Et; cbn [ru_src ru_dst ru_pos].
  2:{ split_and!; [done|done|]. exists u, t. split; [left|done]. }
  2:{ unfold trace_branch_offset, ok_or in Et. by case_match. }
  rewrite bind_run, update_branch_offset_run by done. set (o1 := put_span _ _ o).
  assert (Hb1 : Z.of_nat (length (to_ne_bytes P_i32 (branch_offset off))) = 4) by apply length_to_ne_bytes.
  specialize (IH o1). unfold o1 in IH at 1. rewrite next_pos_put_span in IH.
  specialize (IH ltac:(intros v Hv; apply Hb; by right) ltac:(intros v w Hv Hw; apply Hd; by right)).
  destruct (update_users ls us o1) as [r o']. destruct IH as (Hn & Hs & Hr).
  rewrite Hn. unfold o1. rewrite next_pos_put_span. split_and!; [done| |].
  - intros p n Hp0 Hn0 Ha. rewrite Hs by (try done; intros v Hv; apply Ha; by right).
    apply put_span_ne; [done..|]. rewrite Hb1. apply (Ha u). left.
  - destruct r as [[]|e|]; [|destruct Hr as (v & t' & ? & ?); exists v, t'; split; [by right|done]
      |destruct Hr as (v & ? & ?); exists v; split; [by right|done]].
    intros v Hv. apply elem_of_cons in Hv as [->|Hv]; [|by apply Hr].
    destruct (decide (u ∈ us)) as [Hu|Hu]; [by apply Hr|]. exists t, off. split_and!; [done..|].
    rewrite Hs; [|done|done|intros w Hw; apply Hd; [left|by right|intros ->; done]].
    rewrite <-Hb1. apply put_span_eq; lia.
Qed.

Lemma decode_at {A} (d : M (list Z) DecodeError A) pos n b bs a : 0 <= pos -> 0 <= n ->
  get_span pos n b = Some bs -> reads d bs a -> fst (d (drop (Z.to_nat pos) b)) = Ok a.
Proof.
  intros Hp Hn [_ ->]%get_span_Some Hr; [|done..].
  rewrite <-(take_drop (Z.to_nat n) (drop (Z.to_nat pos) b)). by rewrite Hr.
Qed.

Lemma fuel_done_decode costs b p n : 0 <= p -> fuel_done costs b p n ->
  exists c, costs = Some c /\ fst (BlockFuel_decode (drop (Z.to_nat p) b)) = Ok {| block_fuel := FuelCostsProvider_base c + n |}.
Proof.
  intros Hp (c & Hc & Hr & Hs). exists c. split; [done|].
  by eapply (decode_at _ p 8); [..|apply (reads_BlockFuel {| block_fuel := _ |})].
Qed.

Lemma branch_done_decode ls b u : 0 <= lu_pos u -> 0 <= lu_src u -> (forall l t, ls !! l = Some (Pinned t) -> 0 <= t) ->
  branch_done ls b u ->
  exists t, ls !! lu_dst u = Some (Pinned t) /\
    fst (BranchOffset_decode (drop (Z.to_nat (lu_pos u)) b)) = Ok {| branch_offset := t - lu_src u |}.
Proof.
  intros Hp Hs Ht (t & o & Hl & Htr & Hsp). exists t. split; [done|].
  rewrite trace_branch_offset_run in Htr by (done || by eapply Ht). case_bool_decide as Hc; [|done].
  injection Htr as <-. eapply (decode_at _ _ 4); [done|done|done|]. apply reads_BranchOffset. apply Hc.
Qed.

(** ** The theorems *)

(** C7: In every reachable state the fuel field of each [ConsumeFuel] operator
    decodes to the base costs plus what the committed operators of its block
    were charged: staged operators that were dropped are not charged, replaced
    ones once. *)
Theorem fuel_accounting enc tr p : reach consume_fuel_code enc tr -> E_Fuel p ∈ entries tr ->
  exists costs, oe_fuel_costs enc = Some costs /\
    fst (BlockFuel_decode (drop (Z.to_nat p) (buf enc))) =
      Ok {| block_fuel := FuelCostsProvider_base costs + charged tr p |}.
Proof.
  intros Hr%reach_Inv Hp. pose proof (inv_bound _ _ Hr _ Hp) as [? _].
  apply fuel_done_decode; [done|]. apply (inv_entries _ _ Hr _ Hp).
Qed.

(** C6: [update_branch_offsets] in every reachable state, on every outcome.  It
    succeeds with every branch ever encoded, forward or backward, holding the
    distance from its position to the target of its label, and with the fuel
    fields unchanged; it fails only for a pinned label that is too far from a
    branch; it panics only for a branch to a label that was never pinned. *)
Theorem update_branch_offsets_spec enc tr : reach consume_fuel_code enc tr ->
  let '(r, enc') := update_branch_offsets enc in
  length (buf enc') = length (buf enc) /\
  match r with
  | Ok _ =>
      (forall dst src pos, E_Branch {| lu_dst := dst; lu_src := src; lu_pos := pos |} ∈ entries tr ->
         exists t, labels enc !! dst = Some (Pinned t) /\
           fst (BranchOffset_decode (drop (Z.to_nat pos) (buf enc'))) = Ok {| branch_offset := t - src |}) /\
      (forall p, E_Fuel p ∈ entries tr ->
         fst (BlockFuel_decode (drop (Z.to_nat p) (buf enc'))) = fst (BlockFuel_decode (drop (Z.to_nat p) (buf enc))))
  | Err e => e = BranchOffsetOutOfBounds /\
      exists u t, E_Branch u ∈ entries tr /\ labels enc !! lu_dst u = Some (Pinned t) /\
        ~ (lu_src u < 2 ^ (usize_bits - 1) /\ t < 2 ^ (usize_bits - 1) /\ in_s 32 (t - lu_src u))
  | Panic => exists u, E_Branch u ∈ entries tr /\ forall t, labels enc !! lu_dst u <> Some (Pinned t)
  end.
Proof.
  intros I%reach_Inv. pose proof (inv_limit _ _ I) as L. unfold update_branch_offsets. rewrite bind_get_st.
  unfold in_ops, zoom. fold (labels enc). fold (users enc).
  assert (Hb : forall e, e ∈ entries tr -> 0 <= entry_pos e /\ entry_pos e + entry_width e <= next_pos (ops enc)).
  { intros e He. pose proof (inv_bound _ _ I e He). lia. }
  assert (Hap : forall e u, e ∈ entries tr -> E_Branch u ∈ entries tr -> e <> E_Branch u -> apart (entry_pos e) (entry_width e) u).
  { intros e u He Hu Hne. destruct (sorted_disjoint _ _ _ (inv_sorted _ _ I) He Hu Hne); [by left|by right]. }
  pose proof (update_users_spec (labels enc) (users enc) (ops enc)
    ltac:(intros u Hu; apply (Hb (E_Branch u)), (inv_users _ _ I u Hu))
    ltac:(intros u v Hu Hv Hne; apply (Hap (E_Branch u)); [by apply (inv_users _ _ I)..|congruence])) as H1.
  destruct (update_users (labels enc) (users enc) (ops enc)) as [r o']. destruct H1 as (Hn & Hs & Hr).
  split; [unfold next_pos in Hn; unfold buf; cbn; lia|]. unfold buf. cbn [ops set_ops].
  assert (Hkeep : forall e, e ∈ entries tr -> (forall u, u ∈ users enc -> e <> E_Branch u) ->
    get_span (entry_pos e) (entry_width e) (buffer o') = get_span (entry_pos e) (entry_width e) (buf enc)).
  { intros e He Hne. pose proof (Hb e He). pose proof (entry_width_pos e). apply Hs; [lia|lia|].
    intros u Hu. apply Hap; [done|by apply (inv_users _ _ I)|by apply Hne]. }
  destruct r as [[]|e|]; cbn [map_err].
  - split.
    + intros dst src pos He. pose proof (inv_src _ _ I _ He). pose proof (Hb _ He) as [? _].
      apply (branch_done_decode (labels enc) (buffer o') {| lu_dst := dst; lu_src := src; lu_pos := pos |});
        [done|cbn in *; lia|intros l t Hl; by apply (inv_labels _ _ I l)|].
      destruct (decide ({| lu_dst := dst; lu_src := src; lu_pos := pos |} ∈ users enc)) as [Hu|Hu]; [by apply Hr|].
      pose proof (inv_entries _ _ I _ He) as [?|(t & o & ? & ? & Hsp)]; [done|]. exists t, o. split_and!; [done..|].
      rewrite <-Hsp. apply (Hkeep _ He). intros u Hu' [= <-]. done.
    + intros p Hp. pose proof (inv_entries _ _ I _ Hp) as (c & ? & ? & Hsp). pose proof (Hb _ Hp) as [? _].
      pose proof (Hkeep _ Hp ltac:(done)) as Hk. cbn [entry_pos entry_width] in Hk. rewrite Hsp in Hk.
      etrans; [eapply (decode_at _ p 8)|symmetry; eapply (decode_at _ p 8)];
        try exact Hsp; try exact Hk; try done; by apply (reads_BlockFuel {| block_fuel := _ |}).
  - destruct Hr as (u & t & Hu & Ht & Hc). pose proof (inv_users _ _ I u Hu) as He.
    pose proof (inv_src _ _ I u He). pose proof (inv_labels _ _ I _ _ Ht) as [? _].
    rewrite trace_branch_offset_run in Hc by lia. case_bool_decide as Hb'; [done|]. injection Hc as <-.
    split; [done|]. by exists u, t.
  - destruct Hr as (u & Hu & Ht). exists u. split; [by apply (inv_users _ _ I)|done].
Qed.

(** A label is pinned within the encoded bytes, at a position where an operator
    may start: with direct dispatch it is aligned like a function pointer. *)
Theorem pinned_label_spec enc tr (l : LabelRef) t : reach consume_fuel_code enc tr ->
  labels enc !! l = Some (Pinned t) ->
  0 <= t <= Z.of_nat (length (buf enc)) /\ (indirect_dispatch = false -> t mod (usize_bits / 8) = 0).
Proof.
  intros I%reach_Inv Hl. pose proof (inv_limit _ _ I) as L. destruct (inv_labels _ _ I _ _ Hl) as [Ht Ha].
  unfold next_pos in L. unfold buf. split; [lia|done].
Qed.
(** ** Staging *)

(** Two encoders that differ at most in the capacity of their buffers. *)
Definition same_content (enc enc' : OpEncoder) : Prop :=
  buf enc' = buf enc /\ temp (ops enc') = temp (ops enc) /\ staged enc' = staged enc /\ same enc enc'.

Lemma commit_pad_staged enc s : (commit_staged_if_any;; pad_to_op_alignment) enc = (Ok tt, s) -> staged s = None.
Proof.
  intros E1. apply bind_Ok_inv in E1 as (? & s1 & Ec & Ep). unfold commit_staged_if_any in Ec.
  rewrite bind_get_st in Ec. apply bind_Ok_inv in Ec as (? & s2 & _ & Ec).
  apply bind_Ok_inv in Ec as (? & s3 & _ & Ec). rewrite bind_get_st in Ec. apply assert_Ok_inv in Ec as [Hs ->].
  unfold pad_to_op_alignment in Ep. destruct indirect_dispatch;
    [|rewrite bind_get_st in Ep]; injection Ep as <-; cbn [staged set_ops]; by destruct (staged s3).
Qed.

(** What [stage_op] leaves behind. *)
Lemma stage_op_run op fuel_op sel enc u enc' : quiet op -> stage_op op fuel_op sel enc = (Ok u, enc') ->
  exists s bs fuel, (commit_staged_if_any;; pad_to_op_alignment) enc = (Ok tt, s) /\
    writes (Item_encode (Item_Op op)) bs /\
    buf enc' = buf s ++ bs /\ temp (ops enc') = temp (ops s) /\ same s enc' /\
    staged enc' = Some {| staged_op := op; staged_pos := next_pos (ops s); staged_fuel := fuel |} /\
    fuel = match fuel_op, oe_fuel_costs s with Some p, Some c => Some (p, sel c) | _, _ => None end /\
    (fuel_op = None <-> oe_fuel_costs s = None).
Proof.
  intros Hq E1. unfold stage_op in E1. apply bind_Ok_inv in E1 as (? & s1 & Ec & E1).
  apply bind_Ok_inv in E1 as ([] & s & Ep & E1). destruct (op_writes op) as [bs Hbs].
  apply bind_Ok_inv in E1 as (pos & s2 & Ei & E1).
  apply encode_impl_step in Ei as (-> & Hs2 & N2 & _ & _ & q & Eq).
  rewrite bind_get_st, bind_lift in E1. destruct Hs2 as [C2 L2].
  exists s, bs, (match fuel_op, oe_fuel_costs s with Some p, Some c => Some (p, sel c) | _, _ => None end).
  split; [rewrite bind_run, Ec; exact Ep|]. split; [done|].
  rewrite C2 in E1. pose proof (quiet_temp op s _ _ Hq Eq) as Ht. apply Hbs in Eq.
  destruct fuel_op as [p|], (oe_fuel_costs s) as [c|] eqn:Ecs; try done; injection E1 as _ <-;
    (split; [exact Eq|]); (split; [exact Ht|]); (split; [split; cbn; congruence|done]).
Qed.

(** [replace_staged] has the effect of having staged the new operator. *)
Theorem replace_staged_stage_op enc op op' fuel_op sel e1 e2 e3 : quiet op -> quiet op' ->
  stage_op op fuel_op sel enc = (Ok tt, e1) -> replace_staged op' e1 = (Ok tt, e2) ->
  stage_op op' fuel_op sel enc = (Ok tt, e3) -> same_content e3 e2.
Proof.
  intros Hq Hq' E1 E2 E3.
  apply (stage_op_run _ _ _ _ _ _ Hq) in E1 as (s & bs & fuel & Es & Hbs & B1 & T1 & [C1 L1] & S1 & F1 & _).
  apply (stage_op_run _ _ _ _ _ _ Hq') in E3 as (s' & bs' & fuel' & Es' & Hbs' & B3 & T3 & [C3 L3] & S3 & F3 & _).
  rewrite Es in Es'. injection Es' as <-. unfold replace_staged in E2. rewrite bind_get_st, S1 in E2.
  apply bind_Ok_inv in E2 as (? & e4 & Ep & E2). injection Ep as _ <-.
  apply bind_Ok_inv in E2 as (? & e5 & Et & E2). apply bind_Ok_inv in E2 as (pos & e6 & Ei & E2). injection E2 as <-.
  apply zoom_Ok_inv in Et as (o & Et & ->). apply truncate_run in Et as [_ ->].
  apply encode_impl_step in Ei as (_ & [C6 L6] & N6 & _ & _ & q & Eq).
  pose proof (quiet_temp op' _ _ _ Hq' Eq) as T6. apply Hbs' in Eq. cbn in Eq, T6, N6, C6, L6.
  unfold buf in B1. rewrite B1 in Eq. unfold next_pos in Eq. rewrite Nat2Z.id, take_app_length in Eq.
  split_and!.
  - rewrite B3. exact Eq.
  - congruence.
  - rewrite N6, S3. unfold StagedOp_update. cbn. congruence.
  - split; congruence.
Qed.

(** [drop_staged] undoes [stage_op] up to the padding before the operator, and
    returns its fuel position and costs. *)
Theorem drop_staged_stage_op enc op fuel_op sel e1 r e2 : quiet op ->
  stage_op op fuel_op sel enc = (Ok tt, e1) -> drop_staged e1 = (Ok r, e2) ->
  exists s, (commit_staged_if_any;; pad_to_op_alignment) enc = (Ok tt, s) /\ same_content s e2 /\
    r = (fuel_op, match oe_fuel_costs s with Some c => sel c | None => 0 end).
Proof.
  intros Hq E1 E2.
  apply (stage_op_run _ _ _ _ _ _ Hq) in E1 as (s & bs & fuel & Es & Hbs & B1 & T1 & [C1 L1] & S1 & F1 & Ff).
  unfold drop_staged in E2. rewrite bind_get_st, S1 in E2.
  apply bind_Ok_inv in E2 as (? & e4 & Ep & E2). injection Ep as _ <-.
  apply bind_Ok_inv in E2 as (? & e5 & Et & E2). injection E2 as <- <-.
  apply zoom_Ok_inv in Et as (o & Et & ->). apply truncate_run in Et as [_ ->].
  exists s. split; [done|]. split.
  - unfold same_content, buf. cbn [ops set_ops set_staged buffer set_buffer temp staged staged_pos].
    unfold buf in B1. rewrite B1. unfold next_pos. rewrite Nat2Z.id, take_app_length.
    split_and!; [done|done|by rewrite (commit_pad_staged _ _ Es)|by split].
  - cbn [staged_fuel]. subst fuel. destruct fuel_op, (oe_fuel_costs s); try done;
      destruct Ff as [Ff1 Ff2]; [by specialize (Ff2 eq_refl)|by specialize (Ff1 eq_refl)].
Qed.
End Spec.

(** ** A sample run

    A block with fuel metering: a forward branch, a staged operator, the label,
    and a backward branch to it. *)
Module Sample.
#[local] Instance target : Target := default_target.
#[local] Instance alloc : Allocator := limit_allocator target 1000.
#[local] Instance endian : Endian := {| big_endian := false |}.
#[local] Instance dispatch : Dispatch := {| indirect_dispatch := false; op_code_to_handler := fun code => 4096 + 16 * code |}.

Definition branch (o : BranchOffset) : Item :=
  Item_Op {| op_code := 7; op_args := [existT FieldTy_BranchOffset o; existT FieldTy_Slot {| slot_raw := 3 |}] |}.
Definition copy : Op := {| op_code := 9; op_args := [existT FieldTy_Slot {| slot_raw := 3 |}; existT FieldTy_I64 (-1)] |}.
Definition costs_of (n : Z) : FuelCostsSelector := fun _ => n.

Definition s0 : OpEncoder :=
  OpEncoder_new true FuelCostsProvider_default (EncodedOps_reset EncodedOps_default) (LabelRegistry_reset LabelRegistry_default).
Definition s1 := snd (new_label s0).
Definition s2 := snd (encode_consume_fuel_op 1 s1).
Definition s3 := snd (encode_branch 0 branch (Some 8) (costs_of 2) s2).
Definition s4 := snd (stage_op copy (Some 8) (costs_of 3) s3).
Definition s5 := snd (pin_label 0 s4).
Definition s6 := snd (encode_branch 0 Item_BranchOffset (Some 8) (costs_of 0) s5).

Definition b1 : LabelUser := {| lu_dst := 0; lu_src := 16; lu_pos := 24 |}.
Definition b2 : LabelUser := {| lu_dst := 0; lu_src := 56; lu_pos := 56 |}.
Definition t6 : Trace :=
  {| entries := [E_Fuel 8; E_Branch b1; E_Branch b2]; charges := [(8, 2); (8, 3); (8, 0)] |}.

Lemma fuel_arg_ok tr n : E_Fuel 8 ∈ entries tr -> in_u 64 n -> fuel_arg tr (Some 8) (costs_of n).
Proof. intros Hp Hn. split; [by intros p [= <-]|done]. Qed.

Lemma reach_s6 : reach 1 s6 t6.
Proof.
  assert (H0 : reach 1 s0 empty_trace) by (apply reach_new; [by split|done]).
  assert (H1 : reach 1 s1 empty_trace) by (eapply (reach_new_label _ s0 _ 0 s1 H0); by vm_compute).
  pose proof (reach_encode_consume_fuel_op 1 s1 _ 8 s2 H1 ltac:(by vm_compute)) as H2.
  pose proof (reach_encode_branch 1 s2 _ 0 branch (Some 8) (costs_of 2) 16 24 s3 H2
    ltac:(apply fuel_arg_ok; [left|by split]) ltac:(done) ltac:(by vm_compute)) as H3.
  pose proof (reach_stage_op 1 s3 _ copy (Some 8) (costs_of 3) s4 H3
    ltac:(apply fuel_arg_ok; [left|by split]) ltac:(done) ltac:(by vm_compute)) as H4.
  pose proof (reach_pin_label 1 s4 _ 0 s5 H4 ltac:(by vm_compute)) as H5.
  exact (reach_encode_branch 1 s5 _ 0 Item_BranchOffset (Some 8) (costs_of 0) 56 56 s6 H5
    ltac:(apply fuel_arg_ok; [left|by split]) ltac:(done) ltac:(by vm_compute)).
Qed.

(** Base cost 1, and 2 + 3 + 0 charged. *)
Lemma fuel_accounting_witness : reach 1 s6 t6 /\ E_Fuel 8 ∈ entries t6 /\
  exists costs, oe_fuel_costs s6 = Some costs /\
    fst (BlockFuel_decode (drop 8 (buf s6))) = Ok {| block_fuel := FuelCostsProvider_base costs + 5 |}.
Proof.
  split; [exact reach_s6|]. split; [left|].
  exact (fuel_accounting 1 s6 t6 8 reach_s6 ltac:(left)).
Defined.

Lemma update_branch_offsets_spec_witness : exists enc',
  update_branch_offsets s6 = (Ok tt, enc') /\
  fst (BranchOffset_decode (drop 24 (buf enc'))) = Ok {| branch_offset := 40 |} /\
  fst (BranchOffset_decode (drop 56 (buf enc'))) = Ok {| branch_offset := 0 |}.
Proof.
  pose proof (update_branch_offsets_spec 1 s6 t6 reach_s6) as Hs. exists (snd (update_branch_offsets s6)).
  assert (Ht : forall t, labels s6 !! 0%nat = Some (Pinned t) -> t = 56) by (intros t; vm_compute; congruence).
  assert (Hr : fst (update_branch_offsets s6) = Ok tt) by (vm_compute; reflexivity).
  destruct (update_branch_offsets s6) as [r enc']. cbn [fst snd] in *. subst r. destruct Hs as (_ & Hb & _).
  split; [reflexivity|]. split.
  - destruct (Hb 0%nat 16 24) as (t & Hl & Hd); [right; left|]. apply Ht in Hl as ->. exact Hd.
  - destruct (Hb 0%nat 56 56) as (t & Hl & Hd); [right; right; left|]. apply Ht in Hl as ->. exact Hd.
Defined.

Lemma pinned_label_spec_witness : labels s6 !! 0%nat = Some (Pinned 56) /\ 0 <= 56 <= Z.of_nat (length (buf s6)) /\
  56 mod 8 = 0.
Proof.
  assert (Hl : labels s6 !! 0%nat = Some (Pinned 56)) by (vm_compute; reflexivity). split; [exact Hl|].
  destruct (pinned_label_spec 1 s6 t6 0 56 reach_s6 Hl) as [Hb Ha]. split; [exact Hb|exact (Ha eq_refl)].
Defined.

Definition copy' : Op := {| op_code := 9; op_args := [existT FieldTy_Slot {| slot_raw := 5 |}; existT FieldTy_I64 2] |}.
Definition s4r := snd (replace_staged copy' s4).
Definition s4' := snd (stage_op copy' (Some 8) (costs_of 3) s3).

Lemma replace_staged_stage_op_witness :
  replace_staged copy' s4 = (Ok tt, s4r) /\ stage_op copy' (Some 8) (costs_of 3) s3 = (Ok tt, s4') /\
  same_content s4' s4r.
Proof.
  assert (H2 : replace_staged copy' s4 = (Ok tt, s4r)) by (vm_compute; reflexivity).
  assert (H3 : stage_op copy' (Some 8) (costs_of 3) s3 = (Ok tt, s4')) by (vm_compute; reflexivity).
  split; [exact H2|]. split; [exact H3|].
  assert (H1 : stage_op copy (Some 8) (costs_of 3) s3 = (Ok tt, s4)) by (vm_compute; reflexivity).
  assert (Hq : quiet copy) by (split; reflexivity). assert (Hq' : quiet copy') by (split; reflexivity).
  exact (replace_staged_stage_op s3 copy copy' (Some 8) (costs_of 3) s4 s4r s4' Hq Hq' H1 H2 H3).
Defined.

Definition s4d := snd (drop_staged s4).

Lemma drop_staged_stage_op_witness : drop_staged s4 = (Ok (Some 8, 3), s4d) /\ exists s,
  (commit_staged_if_any;; pad_to_op_alignment) s3 = (Ok tt, s) /\ same_content s s4d.
Proof.
  assert (H1 : stage_op copy (Some 8) (costs_of 3) s3 = (Ok tt, s4)) by (vm_compute; reflexivity).
  assert (H2 : drop_staged s4 = (Ok (Some 8, 3), s4d)) by (vm_compute; reflexivity).
  assert (Hq : quiet copy) by (split; reflexivity). split; [exact H2|].
  destruct (drop_staged_stage_op s3 copy (Some 8) (costs_of 3) s4 _ s4d Hq H1 H2) as (s & Hs & Hc & _).
  exists s. split; [exact Hs|exact Hc].
Defined.
End Sample.
