(* ===== verification/Cells.v ===== *)
(** * Cells and registers of the executor

    [crates/wasmi/src/engine/executor/handler/cell.rs] (64-bit cells, how values
    are stored to, loaded from, lowered to and lifted from them), the registers
    and the stack pointer of [handler/state.rs], the value accesses and span
    copies of [handler/utils.rs], the parameter and result window
    [executor/inout.rs], and the host-side values of [value.rs], [reftype.rs]
    and [store/id.rs] that cross this boundary. *)

From Stdlib Require Import ZArith Lia.
From stdpp Require Import base option decidable numbers list.
From S2P Require Import Prelude Value Slot.
Local Open Scope Z_scope.

(** ** Cells

    A [Cell] is a [u64].  [Cell_from] and [Cell_into] are the conversions of
    [impl_from_for_cell!] and [impl_into_for_cell!]; the 128-bit integers have
    none, a [RawRef] has those of [u32]. *)
Notation Cell := Z (only parsing).

Definition Cell_from (p : Prim) (value : Z) : Cell :=
  match p with
  | P_i8 | P_i16 | P_i32 | P_i64 => wrapu (prim_bits p) value
  | _ => value
  end.

Definition Cell_into (p : Prim) (c : Cell) : Z :=
  match p with
  | P_bool => if c =? 0 then 0 else 1
  | P_i8 | P_i16 | P_i32 => cast p (cast P_i64 c)
  | _ => cast p c
  end.

Definition has_cell (p : Prim) : bool :=
  match p with P_i128 | P_u128 => false | _ => true end.

Inductive CellError : Type := NotEnoughCells | NotEnoughValues | StoreOwnerMismatch.

(** [trait CellsWriter] and [trait CellsReader]. *)
Class CellsWriter (S : Type) : Type := cells_write : Cell -> M S CellError unit.
Class CellsReader (S : Type) : Type := cells_read : M S CellError Cell.

(** A [&mut [Cell]] being written: the cells already passed and the rest. *)
Record CellsMut : Type := { cm_written : list Cell; cm_rest : list Cell }.

#[export] Instance CellsMut_writer : CellsWriter CellsMut := fun value =>
  self ← get_st;
  match cm_rest self with
  | [] => fail NotEnoughCells
  | _ :: rest => put_st {| cm_written := cm_written self ++ [value]; cm_rest := rest |}
  end.

#[export] Instance slice_reader : CellsReader (list Cell) :=
  self ← get_st;
  match self with
  | [] => fail NotEnoughCells
  | cell :: rest => put_st rest;; mret cell
  end.

(** An [Sp] being advanced: the cells it points into and its index.  Access
    outside of the cells is undefined behaviour, here [Panic]. *)
Record SpCells : Type := { sp_cells : list Cell; sp_index : Z }.

#[export] Instance Sp_writer : CellsWriter SpCells := fun value =>
  self ← get_st;
  assert_m ((0 <=? sp_index self) && (sp_index self <? Z.of_nat (length (sp_cells self))));;
  put_st {| sp_cells := <[Z.to_nat (sp_index self) := value]> (sp_cells self);
            sp_index := sp_index self + 1 |}.

#[export] Instance Sp_reader : CellsReader SpCells :=
  self ← get_st;
  assert_m (0 <=? sp_index self);;
  value ← lift (expect (sp_cells self !! Z.to_nat (sp_index self)));
  put_st {| sp_cells := sp_cells self; sp_index := sp_index self + 1 |};;
  mret value.

(** ** Storing and loading *)

Section Transfer.
Context {S : Type} `{CellsWriter S} `{CellsReader S}.

Definition store_prim (p : Prim) (value : Z) : M S CellError unit :=
  cells_write (Cell_from p value).

Definition store_V128 (v : V128) : M S CellError unit :=
  let value := V128_as_u128 v in
  let value_lo := wrapu 64 (Z.land value 0xFFFFFFFFFFFFFFFF) in
  let value_hi := wrapu 64 (Z.shiftr value 64) in
  store_prim P_u64 value_lo;;
  store_prim P_u64 value_hi.

Definition load_prim (p : Prim) : M S CellError Z :=
  cell ← cells_read;
  mret (Cell_into p cell).

Definition load_V128 : M S CellError V128 :=
  lo ← cells_read;
  hi ← cells_read;
  mret (V128_from_u128 (Z.lor (Z.shiftl hi 64) lo)).

End Transfer.

(** ** Values of the host *)

Notation StoreId := Z (only parsing).
Record Stored (A : Type) : Type := { st_store : StoreId; st_value : A }.
Arguments st_store {A} _.
Arguments st_value {A} _.

Definition StoreId_wrap {A} (self : StoreId) (value : A) : Stored A :=
  {| st_store := self; st_value := value |}.
Definition StoreId_unwrap {A} (self : StoreId) (value : Stored A) : option A :=
  if bool_decide (st_store value = self) then Some (st_value value) else None.

(** [Nullable<Func>] and [Nullable<ExternRef>]: the handle is a [NonZero<u32>]. *)
Notation NullableRef := (option (Stored Z)).

Definition Nullable_from_raw_parts (val : RawRef) (store : StoreId) : NullableRef :=
  if ref_bits val =? 0 then None else Some (StoreId_wrap store (ref_bits val)).

Definition Nullable_unwrap_raw (self : NullableRef) (store : StoreId) : option RawRef :=
  match self with
  | None => Some {| ref_bits := 0 |}
  | Some value => raw ← StoreId_unwrap store value; Some {| ref_bits := raw |}
  end.

Inductive Val : Type :=
| Val_I32 (value : Z) | Val_I64 (value : Z) | Val_F32 (value : Z) | Val_F64 (value : Z)
| Val_V128 (value : V128)
| Val_FuncRef (value : NullableRef) | Val_ExternRef (value : NullableRef).

Definition Val_ty (self : Val) : ValType :=
  match self with
  | Val_I32 _ => ValType_I32 | Val_I64 _ => ValType_I64
  | Val_F32 _ => ValType_F32 | Val_F64 _ => ValType_F64
  | Val_V128 _ => ValType_V128
  | Val_FuncRef _ => ValType_FuncRef | Val_ExternRef _ => ValType_ExternRef
  end.

Definition Val_from_raw_parts (val : RawVal) (ty : ValType) (store : StoreId) : Val :=
  match ty with
  | ValType_I32 => Val_I32 (RawVal_into P_i32 val)
  | ValType_I64 => Val_I64 (RawVal_into P_i64 val)
  | ValType_F32 => Val_F32 (RawVal_into P_f32 val)
  | ValType_F64 => Val_F64 (RawVal_into P_f64 val)
  | ValType_V128 => Val_V128 (V128_from_RawVal val)
  | ValType_FuncRef => Val_FuncRef (Nullable_from_raw_parts (RawRef_from_RawVal val) store)
  | ValType_ExternRef => Val_ExternRef (Nullable_from_raw_parts (RawRef_from_RawVal val) store)
  end.

Definition Val_unwrap_raw_val (self : Val) (store : StoreId) : option RawVal :=
  match self with
  | Val_I32 value => Some (RawVal_from P_i32 value)
  | Val_I64 value => Some (RawVal_from P_i64 value)
  | Val_F32 value => Some (RawVal_from P_f32 value)
  | Val_F64 value => Some (RawVal_from P_f64 value)
  | Val_V128 value => Some (RawVal_from_V128 value)
  | Val_FuncRef value | Val_ExternRef value =>
      raw ← Nullable_unwrap_raw value store; Some (RawVal_from_RawRef raw)
  end.

(** ** Lowering and lifting

    [trait LowerToCells] and [trait LiftFromCells].  Lifting into a [&mut Val]
    keeps the variant of the value it overwrites. *)
Section Lower.
Context {S : Type} `{CellsWriter S} `{CellsReader S}.
Variable store : StoreId.

Definition lower_ref (value : Stored Z) : M S CellError unit :=
  match StoreId_unwrap store value with
  | None => fail StoreOwnerMismatch
  | Some raw => store_prim P_u32 raw
  end.

Definition lower_nullable (self : NullableRef) : M S CellError unit :=
  match self with
  | None => store_prim P_u32 0
  | Some value => lower_ref value
  end.

Definition lower_Val (self : Val) : M S CellError unit :=
  match self with
  | Val_I32 value => store_prim P_i32 value
  | Val_I64 value => store_prim P_i64 value
  | Val_F32 value => store_prim P_f32 value
  | Val_F64 value => store_prim P_f64 value
  | Val_V128 value => store_V128 value
  | Val_FuncRef value => lower_nullable value
  | Val_ExternRef value => lower_nullable value
  end.

Fixpoint lower_Vals (self : list Val) : M S CellError unit :=
  match self with
  | [] => mret tt
  | val :: rest => lower_Val val;; lower_Vals rest
  end.

Definition lift_nullable : M S CellError NullableRef :=
  rawref ← load_prim P_u32;
  mret (Nullable_from_raw_parts {| ref_bits := rawref |} store).

Definition lift_Val (self : Val) : M S CellError Val :=
  match self with
  | Val_I32 _ => value ← load_prim P_i32; mret (Val_I32 value)
  | Val_I64 _ => value ← load_prim P_i64; mret (Val_I64 value)
  | Val_F32 _ => value ← load_prim P_f32; mret (Val_F32 value)
  | Val_F64 _ => value ← load_prim P_f64; mret (Val_F64 value)
  | Val_V128 _ => value ← load_V128; mret (Val_V128 value)
  | Val_FuncRef _ => value ← lift_nullable; mret (Val_FuncRef value)
  | Val_ExternRef _ => value ← lift_nullable; mret (Val_ExternRef value)
  end.

(** The values before a failing one are lifted in place; the result is the
    whole slice when there is no error. *)
Fixpoint lift_Vals (self : list Val) : M S CellError (list Val) :=
  match self with
  | [] => mret []
  | val :: rest =>
      val ← lift_Val val;
      rest ← lift_Vals rest;
      mret (val :: rest)
  end.

End Lower.

(** ** The window of a host call *)

Record InOutParams : Type := { io_cells : list Cell; io_len_params : Z; io_len_results : Z }.

Definition InOutParams_new (cells : list Cell) (len_params len_results : Z) :
    res CellError InOutParams :=
  let required_cells := Z.max len_params len_results in
  if required_cells <? Z.of_nat (length cells) then Err NotEnoughValues
  else if Z.of_nat (length cells) <? required_cells then Err NotEnoughCells
  else Ok {| io_cells := cells; io_len_params := len_params; io_len_results := len_results |}.

Definition InOutParams_params {E} (self : InOutParams) : res E (list Cell) :=
  expect (get_to (io_len_params self) (io_cells self)).

Definition decode_params_into (self : InOutParams) (store : StoreId) (out : list Val) :
    res CellError (list Val) :=
  params ← InOutParams_params self;
  fst (lift_Vals store out params).

(** The cells after the call, together with the slice of the results. *)
Definition encode_results (self : InOutParams) (store : StoreId) (results : list Val) :
    res CellError (list Cell * list Cell) :=
  cells ← expect (get_to (io_len_results self) (io_cells self));
  let '(r, w) := lower_Vals store results {| cm_written := []; cm_rest := cells |} in
  r;;
  let lowered := cm_written w ++ cm_rest w in
  Ok (set_span 0 lowered (io_cells self), lowered).

(** ** Registers

    [Ireg] holds 64 bits, [Freg32] and [Freg64] a float each.  The conversions
    are [impl_reg_lossless_conversions!] and [impl_reg_lossy_conversions!]; a
    [ShiftAmount] is read like a [u8], a [RawRef] like a [u32]. *)
Definition Ireg_from (p : Prim) (value : Z) : Z :=
  match p with
  | P_i8 | P_i16 | P_i32 | P_i64 => wrapu (prim_bits p) value
  | _ => value
  end.

Definition Ireg_into (p : Prim) (r : Z) : Z :=
  match p with
  | P_bool => if r =? 0 then 0 else 1
  | _ => cast p r
  end.

(** The state an operator accesses: the cells from the [Sp] of its frame on
    and the three registers. *)
Record Regs : Type := { ireg : Z; freg32 : Z; freg64 : Z }.
Record Frame_state : Type := { fr_cells : list Cell; fr_regs : Regs }.

Definition Regs_default : Regs := {| ireg := 0; freg32 := 0; freg64 := 0 |}.

Inductive RegTy : Type := Reg_i64 | Reg_f32 | Reg_f64.

Definition RegTy_get (r : RegTy) (p : Prim) (regs : Regs) : Z :=
  match r with
  | Reg_i64 => Ireg_into p (ireg regs)
  | Reg_f32 => freg32 regs
  | Reg_f64 => freg64 regs
  end.

Definition RegTy_set (r : RegTy) (p : Prim) (value : Z) (regs : Regs) : Regs :=
  match r with
  | Reg_i64 => {| ireg := Ireg_from p value; freg32 := freg32 regs; freg64 := freg64 regs |}
  | Reg_f32 => {| ireg := ireg regs; freg32 := value; freg64 := freg64 regs |}
  | Reg_f64 => {| ireg := ireg regs; freg32 := freg32 regs; freg64 := value |}
  end.

Section Sp.
Context `{T : Target}.

(** [Sp::offset] in cells; a slot is a multiple of the size of a cell. *)
Definition Sp_offset (slot : Slot) : Z := Slot_byte_offset slot / CELL_BYTES.

Definition Sp_get {A} (load : M SpCells CellError A) (slot : Slot) (cells : list Cell) :
    res unit A :=
  match fst (load {| sp_cells := cells; sp_index := Sp_offset slot |}) with
  | Ok value => Ok value
  | _ => Panic
  end.

Definition Sp_set (store : M SpCells CellError unit) (slot : Slot) : M (list Cell) unit unit :=
  fun cells =>
  match store {| sp_cells := cells; sp_index := Sp_offset slot |} with
  | (Ok _, sp) => (Ok tt, sp_cells sp)
  | (_, sp) => (Panic, sp_cells sp)
  end.

Definition get_slot_value (p : Prim) (src : Slot) (cells : list Cell) : res unit Z :=
  Sp_get (load_prim p) src cells.
Definition set_slot_value (dst : Slot) (p : Prim) (src : Z) : M (list Cell) unit unit :=
  Sp_set (store_prim p src) dst.

(** [GetValue] and [SetValue] of operands: a register, a slot, an immediate; a
    [Local<N>] is the slot [N] and a [SlotAndReg] is written to both. *)
Inductive Src : Type := Src_reg (r : RegTy) | Src_slot (s : Slot) | Src_imm (value : Z).
Inductive Dst : Type := Dst_reg (r : RegTy) | Dst_slot (s : Slot) | Dst_both (s : Slot) (r : RegTy).

Definition get_value (p : Prim) (src : Src) (st : Frame_state) : res unit Z :=
  match src with
  | Src_reg r => Ok (RegTy_get r p (fr_regs st))
  | Src_slot s => get_slot_value p s (fr_cells st)
  | Src_imm value => Ok value
  end.

Definition set_reg (r : RegTy) (p : Prim) (value : Z) : M Frame_state unit unit :=
  st ← get_st;
  put_st {| fr_cells := fr_cells st; fr_regs := RegTy_set r p value (fr_regs st) |}.

Definition set_slot (s : Slot) (p : Prim) (value : Z) : M Frame_state unit unit :=
  zoom fr_cells (fun c st => {| fr_cells := c; fr_regs := fr_regs st |}) id
    (set_slot_value s p value).

Definition set_value (dst : Dst) (p : Prim) (value : Z) : M Frame_state unit unit :=
  match dst with
  | Dst_reg r => set_reg r p value
  | Dst_slot s => set_slot s p value
  | Dst_both s r => set_slot s p value;; set_reg r p value
  end.

(** ** Copies of spans

    The [while] loops; [fuel] bounds the iterations. *)
Fixpoint copy_asc_loop (fuel : nat) (dst dst_end src : Slot) : M (list Cell) unit unit :=
  match fuel with
  | O => panic
  | S fuel =>
      if bool_decide (dst = dst_end) then mret tt else
      cells ← get_st;
      value ← lift (get_slot_value P_u64 src cells);
      set_slot_value dst P_u64 value;;
      copy_asc_loop fuel (Slot_next dst) dst_end (Slot_next src)
  end.

Definition exec_copy_span_asc (fuel : nat) (dst src : SlotSpan) (len : Z) :
    M (list Cell) unit unit :=
  assert_m (Slot_ltb (span_head dst) (span_head src));;
  assert_m (0 <? len);;
  let dst_end := Slot_next_n (span_head dst) len in
  copy_asc_loop fuel (span_head dst) dst_end (span_head src).

Fixpoint copy_des_loop (fuel : nat) (dst dst_end src : Slot) : M (list Cell) unit unit :=
  match fuel with
  | O => panic
  | S fuel =>
      if bool_decide (dst = dst_end) then mret tt else
      let dst := Slot_prev dst in
      let src := Slot_prev src in
      cells ← get_st;
      value ← lift (get_slot_value P_u64 src cells);
      set_slot_value dst P_u64 value;;
      copy_des_loop fuel dst dst_end src
  end.

Definition exec_copy_span_des (fuel : nat) (dst src : SlotSpan) (len : Z) :
    M (list Cell) unit unit :=
  assert_m (Slot_ltb (span_head src) (span_head dst));;
  assert_m (0 <? len);;
  let dst_end := span_head dst in
  copy_des_loop fuel (Slot_next_n (span_head dst) len) dst_end (Slot_next_n (span_head src) len).

Definition exec_copy_span (fuel : nat) (dst src : SlotSpan) (len : Z) : M (list Cell) unit unit :=
  assert_m (negb (bool_decide (span_head dst = span_head src)));;
  assert_m (0 <? len);;
  if Slot_leb (span_head dst) (span_head src)
  then exec_copy_span_asc fuel dst src len
  else exec_copy_span_des fuel dst src len.

End Sp.

(** ** Conversions *)

Lemma Cell_into_from p v : has_cell p = true -> prim_val p v -> Cell_into p (Cell_from p v) = v.
Proof.
  intros Hp Hv. destruct p; cbn [has_cell] in Hp; try done; unfold Cell_into, Cell_from.
  - destruct Hv as [-> | ->]; done.
  - rewrite cast_cast by done. rewrite cast_wrapu. by apply cast_id.
  - by apply cast_id.
  - rewrite cast_cast by done. rewrite cast_wrapu. by apply cast_id.
  - by apply cast_id.
  - rewrite cast_cast by done. rewrite cast_wrapu. by apply cast_id.
  - by apply cast_id.
  - rewrite cast_wrapu. by apply cast_id.
  - by apply cast_id.
  - by apply cast_id.
  - by apply cast_id.
Qed.

Lemma Cell_from_range p v : has_cell p = true -> prim_val p v -> in_u 64 (Cell_from p v).
Proof.
  intros Hp Hv.
  assert (Hw : 0 <= wrapu (prim_bits p) v < 2 ^ prim_bits p).
  { apply wrapu_range. destruct p; done. }
  unfold Cell_from, in_u.
  destruct p; try done; unfold prim_val, prim_signed, in_u in *;
    repeat match goal with
    | H : context [prim_bits ?q] |- _ =>
        let n := eval vm_compute in (prim_bits q) in change (prim_bits q) with n in *
    end; lia.
Qed.

Lemma Ireg_into_from p v : has_cell p = true -> prim_val p v -> Ireg_into p (Ireg_from p v) = v.
Proof.
  intros Hp Hv. destruct p; cbn [has_cell] in Hp; try done; unfold Ireg_into, Ireg_from;
    rewrite ?cast_wrapu; try by apply cast_id.
  destruct Hv as [-> | ->]; done.
Qed.

(** ** Lowering writes an encoding, lifting reads it back *)

Definition nullable_cell (r : NullableRef) : Cell :=
  match r with None => 0 | Some v => st_value v end.

(** The cells of a value: one, or the low and the high half of a [V128]. *)
Definition Val_cells (v : Val) : list Cell :=
  match v with
  | Val_I32 v => [wrapu 32 v]
  | Val_I64 v => [wrapu 64 v]
  | Val_F32 v | Val_F64 v => [v]
  | Val_V128 v => [wrapu 64 (V128_as_u128 v); wrapu 64 (Z.shiftr (V128_as_u128 v) 64)]
  | Val_FuncRef r | Val_ExternRef r => [nullable_cell r]
  end.

Definition Vals_cells (vs : list Val) : list Cell := vs ≫= Val_cells.

Definition nullable_ok (store : StoreId) (r : NullableRef) : Prop :=
  match r with None => True | Some v => st_store v = store /\ 0 < st_value v < 2 ^ 32 end.

(** A value of its type whose reference, if any, belongs to the store. *)
Definition Val_ok (store : StoreId) (v : Val) : Prop :=
  match v with
  | Val_I32 v => prim_val P_i32 v
  | Val_I64 v => prim_val P_i64 v
  | Val_F32 v => prim_val P_f32 v
  | Val_F64 v => prim_val P_f64 v
  | Val_V128 v => V128_val v
  | Val_FuncRef r | Val_ExternRef r => nullable_ok store r
  end.

(** Whether a reference belongs to another store. *)
Definition Val_foreign (store : StoreId) (v : Val) : Prop :=
  match v with
  | Val_FuncRef (Some r) | Val_ExternRef (Some r) => st_store r <> store
  | _ => False
  end.

(** Writing cells one by one, as far as they fit. *)
Definition write_cells (l : list Cell) : M CellsMut CellError unit := fun w =>
  let n := length (cm_rest w) in
  if decide (length l <= n)%nat
  then (Ok tt, {| cm_written := cm_written w ++ l; cm_rest := drop (length l) (cm_rest w) |})
  else (Err NotEnoughCells, {| cm_written := cm_written w ++ take n l; cm_rest := [] |}).

Lemma cells_write_run c w : cells_write (S := CellsMut) c w = write_cells [c] w.
Proof.
  unfold cells_write, CellsMut_writer, write_cells. rewrite bind_get_st.
  destruct w as [wr [|x rest]]; cbn.
  - by rewrite app_nil_r.
  - by rewrite drop_0.
Qed.

Lemma write_cells_app a b w :
  (write_cells a ≫= fun _ => write_cells b) w = write_cells (a ++ b) w.
Proof.
  unfold mbind, M_bind, write_cells. destruct w as [wr rest]. cbn [cm_written cm_rest].
  rewrite length_app. destruct (decide (length a <= length rest)%nat) as [Ha|Ha].
  - cbn [cm_written cm_rest]. rewrite length_drop, drop_drop.
    destruct (decide (length b <= length rest - length a)%nat) as [Hb|Hb].
    + rewrite decide_True by lia. by rewrite app_assoc.
    + rewrite decide_False by lia. rewrite <-app_assoc.
      rewrite take_app, (take_ge a) by lia. done.
  - rewrite decide_False by lia. by rewrite take_app_le by lia.
Qed.

Lemma lower_Val_run store v w : Val_ok store v ->
  lower_Val (S := CellsMut) store v w = write_cells (Val_cells v) w.
Proof.
  intros Hv.
  assert (Hn : forall r, nullable_ok store r ->
    lower_nullable (S := CellsMut) store r w = write_cells [nullable_cell r] w).
  { intros [[s raw]|] Hr; cbn [lower_nullable]; [|by apply cells_write_run].
    unfold lower_ref, StoreId_unwrap. destruct Hr as [Hs _]. cbn in Hs |- *.
    rewrite bool_decide_true by done. apply cells_write_run. }
  destruct v as [v|v|v|v|v|r|r]; cbn [lower_Val Val_cells] in *.
  1-4: apply cells_write_run.
  - unfold store_V128, store_prim. cbn [Cell_from].
    change 0xFFFFFFFFFFFFFFFF with (Z.ones 64). rewrite Z.land_ones by lia.
    fold (wrapu 64 (V128_as_u128 v)). rewrite wrapu_wrapu.
    match goal with |- _ = write_cells [?a; ?b] w =>
      change [a; b] with ([a] ++ [b]); rewrite <-write_cells_app end.
    unfold mbind, M_bind. rewrite cells_write_run.
    destruct (write_cells [_] w) as [[[]|e|] w']; [|done..]. apply cells_write_run.
  - by apply Hn.
  - by apply Hn.
Qed.

Lemma lower_Vals_run store vs : forall w, Forall (Val_ok store) vs ->
  lower_Vals (S := CellsMut) store vs w = write_cells (Vals_cells vs) w.
Proof.
  induction vs as [|v vs IH]; intros w Hv.
  - unfold write_cells. cbn. by rewrite app_nil_r, drop_0; destruct w.
  - apply Forall_cons in Hv as [Hv Hvs]. cbn [lower_Vals].
    change (Vals_cells (v :: vs)) with (Val_cells v ++ Vals_cells vs).
    rewrite <-write_cells_app. unfold mbind, M_bind. rewrite (lower_Val_run store) by done.
    destruct (write_cells (Val_cells v) w) as [[[]|e|] w']; [|done..]. by apply IH.
Qed.

Lemma lower_foreign store v w : Val_foreign store v ->
  lower_Val (S := CellsMut) store v w = (Err StoreOwnerMismatch, w).
Proof.
  destruct v as [v|v|v|v|v|[r|]|[r|]]; try done; intros Hr; cbn [lower_Val lower_nullable Val_foreign] in *;
    unfold lower_ref, StoreId_unwrap; by rewrite bool_decide_false.
Qed.

Lemma lower_Vals_app store a b w : lower_Vals (S := CellsMut) store (a ++ b) w =
  (lower_Vals (S := CellsMut) store a ≫= fun _ => lower_Vals store b) w.
Proof.
  revert w. induction a as [|v a IH]; intros w; cbn [lower_Vals app]; [done|].
  unfold mbind, M_bind in *. destruct (lower_Val store v w) as [[[]|e|] w']; [|done..]. apply IH.
Qed.

(** What a lowered value is read back to: exactly the value. *)
Lemma load_prim_run p v rest : has_cell p = true -> prim_val p v ->
  load_prim (S := list Cell) p (Cell_from p v :: rest) = (Ok v, rest).
Proof.
  intros Hp Hv. unfold load_prim, cells_read, slice_reader, mbind, M_bind, get_st, put_st, mret, M_ret.
  by rewrite Cell_into_from.
Qed.

Lemma lift_nullable_run store r rest : nullable_ok store r ->
  lift_nullable (S := list Cell) store (nullable_cell r :: rest) = (Ok r, rest).
Proof.
  intros Hr. unfold lift_nullable. change (nullable_cell r) with (Cell_from P_u32 (nullable_cell r)).
  unfold mbind, M_bind.
  rewrite load_prim_run; [|done|]; cycle 1.
  { change (in_u 32 (nullable_cell r)). unfold in_u. destruct r as [[]|]; cbn in *; lia. }
  unfold Nullable_from_raw_parts, mret, M_ret. destruct r as [[s raw]|]; cbn in *; [|done].
  destruct Hr as [-> Hr]. by rewrite (proj2 (Z.eqb_neq _ _)) by lia.
Qed.

Lemma V128_halves v : V128_val v ->
  Z.lor (Z.shiftl (wrapu 64 (Z.shiftr (V128_as_u128 v) 64)) 64) (wrapu 64 (V128_as_u128 v)) =
  V128_as_u128 v.
Proof.
  intros Hv. pose proof (V128_as_u128_range v Hv) as Hr. unfold in_u in Hr.
  rewrite lor_halves by by apply wrapu_range. unfold wrapu. rewrite Z.shiftr_div_pow2 by lia.
  rewrite (Z.mod_small (_ / _)).
  - pose proof (Z.div_mod (V128_as_u128 v) (2 ^ 64)). lia.
  - split; [apply Z.div_pos; lia|]. apply Z.div_lt_upper_bound; [lia|].
    change (2 ^ 64 * 2 ^ 64) with (2 ^ 128). lia.
Qed.

Lemma lift_Val_run store v t rest : Val_ok store v -> Val_ty t = Val_ty v ->
  lift_Val (S := list Cell) store t (Val_cells v ++ rest) = (Ok v, rest).
Proof.
  intros Hv Ht. destruct v as [v|v|v|v|v|r|r], t; try discriminate Ht;
    cbn [lift_Val Val_cells app].
  - change (wrapu 32 v) with (Cell_from P_i32 v). unfold mbind, M_bind. by rewrite load_prim_run.
  - change (wrapu 64 v) with (Cell_from P_i64 v). unfold mbind, M_bind. by rewrite load_prim_run.
  - change (v :: rest) with (Cell_from P_f32 v :: rest). unfold mbind, M_bind. by rewrite load_prim_run.
  - change (v :: rest) with (Cell_from P_f64 v :: rest). unfold mbind, M_bind. by rewrite load_prim_run.
  - unfold load_V128, cells_read, slice_reader, mbind, M_bind, get_st, put_st, mret, M_ret.
    by rewrite V128_halves, V128_from_as.
  - unfold mbind, M_bind. by rewrite lift_nullable_run.
  - unfold mbind, M_bind. by rewrite lift_nullable_run.
Qed.

Lemma lift_Vals_run store vs : forall ts rest, Forall (Val_ok store) vs ->
  Val_ty <$> ts = Val_ty <$> vs ->
  lift_Vals (S := list Cell) store ts (Vals_cells vs ++ rest) = (Ok vs, rest).
Proof.
  induction vs as [|v vs IH]; intros [|t ts] rest Hv Ht; try discriminate Ht; [done|].
  apply Forall_cons in Hv as [Hv Hvs]. injection Ht as Ht Hts.
  change (Vals_cells (v :: vs)) with (Val_cells v ++ Vals_cells vs). rewrite <-app_assoc.
  cbn [lift_Vals]. unfold mbind, M_bind. rewrite lift_Val_run by done. by rewrite IH.
Qed.

(** Lowering a list of values succeeds exactly when all of its references
    belong to the store and the slice has a cell for each value, two for each
    [V128]; it then overwrites exactly these cells, and lifting into any values
    of the same types yields the values back and leaves the cells behind them.
    A foreign reference is an error although everything before it is written. *)
Theorem lower_lift_spec store vs ts cells r w :
  Forall (Val_ok store) vs -> Val_ty <$> ts = Val_ty <$> vs ->
  lower_Vals store vs {| cm_written := []; cm_rest := cells |} = (r, w) ->
  (r = Ok tt <-> (length (Vals_cells vs) <= length cells)%nat) /\
  (r <> Ok tt -> r = Err NotEnoughCells) /\
  (r = Ok tt ->
    cm_written w ++ cm_rest w = set_span 0 (Vals_cells vs) cells /\
    lift_Vals store ts (cm_written w ++ cm_rest w) = (Ok vs, cm_rest w)) /\
  (forall v vs', Val_foreign store v -> r = Ok tt ->
    fst (lower_Vals store (vs ++ v :: vs') {| cm_written := []; cm_rest := cells |}) =
    Err StoreOwnerMismatch).
Proof.
  intros Hv Ht E. pose proof E as E'. rewrite lower_Vals_run in E by done.
  unfold write_cells in E. cbn [cm_written cm_rest app] in E.
  destruct (decide _) as [Hl|Hl]; injection E as <- <-; cbn [cm_written cm_rest].
  - split_and!; [done|congruence| |].
    + intros _. split; [|by rewrite lift_Vals_run].
      unfold set_span. cbn. rewrite <-(take_drop (length (Vals_cells vs)) cells) at 2.
      by rewrite list_inserts_0_r by (rewrite length_take; lia).
    + intros v vs' Hf _. rewrite lower_Vals_app. unfold mbind, M_bind. rewrite E'.
      cbn [lower_Vals]. unfold mbind, M_bind. by rewrite lower_foreign.
  - split_and!; [split; [discriminate|lia]|done|discriminate|discriminate].
Qed.

(** ** Span copies *)

Section Copy.
Context `{T : Target}.

Lemma Sp_offset_from i : in_u 16 i -> Sp_offset (Slot_from i) = i.
Proof.
  intros Hi. unfold Sp_offset.
  destruct (Slot_spec i 0) as (_ & _ & _ & -> & _); unfold in_u, CELL_BYTES in *; try lia.
  rewrite Z.mul_comm. by apply Z.div_mul.
Qed.

Lemma get_slot_value_run p i c cells : in_u 16 i -> cells !! Z.to_nat i = Some c ->
  get_slot_value p (Slot_from i) cells = Ok (Cell_into p c).
Proof.
  intros Hi Hc. unfold get_slot_value, Sp_get, load_prim, cells_read, Sp_reader.
  rewrite Sp_offset_from by done. unfold_m. cbn [sp_index sp_cells].
  rewrite (proj2 (Z.leb_le 0 i)) by (unfold in_u in Hi; lia). by rewrite Hc.
Qed.

Lemma set_slot_value_run p i v cells : in_u 16 i -> i < Z.of_nat (length cells) ->
  set_slot_value (Slot_from i) p v cells = (Ok tt, <[Z.to_nat i := Cell_from p v]> cells).
Proof.
  intros Hi Hl. unfold set_slot_value, Sp_set, store_prim, cells_write, Sp_writer.
  rewrite Sp_offset_from by done. unfold_m. cbn [sp_index sp_cells].
  rewrite (proj2 (Z.leb_le 0 i)) by (unfold in_u in Hi; lia).
  by rewrite (proj2 (Z.ltb_lt i _)) by done.
Qed.

(** Copying one cell: [dst := src]. *)
Lemma copy_cell_run {A} d s c cells (k : unit -> M (list Cell) unit A) :
  in_u 16 d -> in_u 16 s -> in_u 64 c ->
  cells !! Z.to_nat s = Some c -> d < Z.of_nat (length cells) ->
  (cells ← get_st;
   value ← lift (get_slot_value P_u64 (Slot_from s) cells);
   set_slot_value (Slot_from d) P_u64 value ≫= k) cells =
  k tt (<[Z.to_nat d := c]> cells).
Proof.
  intros Hd Hs Hc Hl Hlen. rewrite bind_get_st, (get_slot_value_run P_u64 s c) by done.
  rewrite bind_lift. change (Cell_into P_u64 c) with (wrapu 64 c). rewrite wrapu_small by done.
  unfold mbind, M_bind. by rewrite set_slot_value_run.
Qed.

Lemma list_inserts_insert_ge {A} (k l : list A) i j x : (i + length k <= j)%nat ->
  list_inserts i k (<[j := x]> l) = <[j := x]> (list_inserts i k l).
Proof.
  revert i. induction k as [|y k IH]; intros i H; cbn [list_inserts length] in *; [done|].
  rewrite IH by lia. apply list_insert_insert_ne. lia.
Qed.

Lemma copy_asc_loop_run n : forall d s cells fuel, span_ok d (Z.of_nat n) ->
  span_ok s (Z.of_nat n) -> d < s -> Forall (in_u 64) cells ->
  s + Z.of_nat n <= Z.of_nat (length cells) -> (n < fuel)%nat ->
  copy_asc_loop fuel (Slot_from d) (Slot_from (d + Z.of_nat n)) (Slot_from s) cells =
  (Ok tt, set_span d (take n (drop (Z.to_nat s) cells)) cells).
Proof.
  induction n as [|n IH]; intros d s cells fuel Hd Hs Hlt Hc Hl Hf;
    (destruct fuel as [|fuel]; [lia|]); cbn [copy_asc_loop].
  - rewrite bool_decide_true by (f_equal; lia). by rewrite take_0.
  - unfold span_ok in *. rewrite bool_decide_false by (intros E%Slot_from_inj; lia).
    destruct (lookup_lt_is_Some_2 cells (Z.to_nat s)) as [c Hcs]; [lia|].
    rewrite (copy_cell_run d s c) by first [done | unfold in_u; lia | by eapply Forall_lookup_1].
    unfold Slot_next. rewrite (Slot_next_n_from d 1), (Slot_next_n_from s 1) by lia.
    replace (d + Z.of_nat (S n)) with (d + 1 + Z.of_nat n) by lia.
    rewrite (IH (d + 1) (s + 1)); [|lia|lia|lia| |rewrite length_insert; lia|lia].
    + f_equal. rewrite drop_insert_lt by lia. rewrite (drop_S cells c (Z.to_nat s)) by done.
      rewrite firstn_cons. unfold set_span. cbn [list_inserts].
      replace (Z.to_nat (s + 1)) with (S (Z.to_nat s)) by lia.
      replace (Z.to_nat (d + 1)) with (S (Z.to_nat d)) by lia.
      symmetry. apply list_insert_inserts_lt. lia.
    + apply Forall_insert; [done|]. by eapply Forall_lookup_1.
Qed.

Lemma copy_des_loop_run n : forall d s cells fuel, span_ok d (Z.of_nat n) ->
  span_ok s (Z.of_nat n) -> s < d -> Forall (in_u 64) cells ->
  d + Z.of_nat n <= Z.of_nat (length cells) -> (n < fuel)%nat ->
  copy_des_loop fuel (Slot_from (d + Z.of_nat n)) (Slot_from d) (Slot_from (s + Z.of_nat n)) cells =
  (Ok tt, set_span d (take n (drop (Z.to_nat s) cells)) cells).
Proof.
  induction n as [|n IH]; intros d s cells fuel Hd Hs Hlt Hc Hl Hf;
    (destruct fuel as [|fuel]; [lia|]); cbn [copy_des_loop].
  - rewrite bool_decide_true by (f_equal; lia). by rewrite take_0.
  - unfold span_ok in *. rewrite bool_decide_false by (intros E%Slot_from_inj; lia).
    unfold Slot_prev. rewrite (Slot_prev_n_from (d + _) 1), (Slot_prev_n_from (s + _) 1) by lia.
    replace (d + Z.of_nat (S n) - 1) with (d + Z.of_nat n) by lia.
    replace (s + Z.of_nat (S n) - 1) with (s + Z.of_nat n) by lia.
    destruct (lookup_lt_is_Some_2 cells (Z.to_nat s + n)%nat) as [c Hcs]; [lia|].
    rewrite (copy_cell_run (d + Z.of_nat n) (s + Z.of_nat n) c)
      by first [done | unfold in_u; lia | by eapply Forall_lookup_1
               | rewrite <-Hcs; f_equal; lia].
    rewrite (IH d s); [|lia|lia|lia| |rewrite length_insert; lia|lia].
    + f_equal. rewrite (take_S_r _ n c) by by rewrite lookup_drop.
      unfold set_span. rewrite list_inserts_app_l. cbn [list_inserts].
      rewrite length_take_le by (rewrite length_drop; lia).
      replace (Z.to_nat (d + Z.of_nat n)) with (n + Z.to_nat d)%nat by lia.
      rewrite take_drop_commute, (take_insert_ge cells) by lia. rewrite <-take_drop_commute.
      apply list_inserts_insert_ge. rewrite length_take. lia.
    + apply Forall_insert; [done|]. by eapply Forall_lookup_1.
Qed.

(** C37: The executor's span copy is the copy of all cells at once, whether or not
    the spans overlap and in whichever direction; both loops end. *)
Theorem exec_copy_span_spec d s len cells fuel :
  span_ok d len -> span_ok s len -> 0 < len -> d <> s ->
  d + len <= Z.of_nat (length cells) -> s + len <= Z.of_nat (length cells) ->
  Forall (in_u 64) cells -> (Z.to_nat len < fuel)%nat ->
  exec_copy_span fuel {| span_head := Slot_from d |} {| span_head := Slot_from s |} len cells =
  (Ok tt, set_span d (take (Z.to_nat len) (drop (Z.to_nat s) cells)) cells).
Proof.
  intros Hd Hs Hlen Hne Hdl Hsl Hc Hf. unfold exec_copy_span. cbn [span_head].
  unfold mbind, M_bind, assert_m, lift, assert_that.
  rewrite bool_decide_false by (intros E%Slot_from_inj; lia). cbn [negb].
  rewrite (proj2 (Z.ltb_lt 0 len)) by done. rewrite Slot_leb_from.
  destruct (Z.leb_spec d s).
  - unfold exec_copy_span_asc. cbn [span_head]. unfold mbind, M_bind, assert_m, lift, assert_that.
    rewrite Slot_ltb_from, (proj2 (Z.ltb_lt d s)), (proj2 (Z.ltb_lt 0 len)) by lia.
    unfold span_ok in *. rewrite Slot_next_n_from by lia.
    rewrite <-(Z2Nat.id len) at 1 by lia.
    apply copy_asc_loop_run; unfold span_ok; rewrite ?Z2Nat.id by lia; lia || done.
  - unfold exec_copy_span_des. cbn [span_head]. unfold mbind, M_bind, assert_m, lift, assert_that.
    rewrite Slot_ltb_from, (proj2 (Z.ltb_lt s d)), (proj2 (Z.ltb_lt 0 len)) by lia.
    unfold span_ok in *. rewrite !Slot_next_n_from by lia.
    rewrite <-(Z2Nat.id len) at 1 2 by lia.
    apply copy_des_loop_run; unfold span_ok; rewrite ?Z2Nat.id by lia; lia || done.
Qed.

End Copy.

(** ** Witnesses *)

(** Two values, one of them a null reference, in three cells; a reference of
    another store is refused. *)
Lemma lower_lift_spec_witness :
  let vs := [Val_F64 77; Val_FuncRef None] in
  let w := {| cm_written := []; cm_rest := [1; 2; 3] |} in
  lower_Vals 4 vs w = (Ok tt, {| cm_written := [77; 0]; cm_rest := [3] |}) /\
  lift_Vals 4 vs [77; 0; 3] = (Ok vs, [3]) /\
  fst (lower_Vals 4 (vs ++ [Val_ExternRef (Some {| st_store := 5; st_value := 1 |})]) w) =
    Err StoreOwnerMismatch.
Proof.
  set (vs := [Val_F64 77; Val_FuncRef None]). cbv zeta.
  set (w := {| cm_written := [77; 0]; cm_rest := [3] |}).
  assert (Hok : Forall (Val_ok 4) vs) by (repeat constructor; by vm_compute).
  assert (E : lower_Vals 4 vs {| cm_written := []; cm_rest := [1; 2; 3] |} = (Ok tt, w)) by by vm_compute.
  destruct (lower_lift_spec 4 vs vs [1; 2; 3] (Ok tt) w Hok eq_refl E) as (_ & _ & Hl & Hf).
  split; [exact E|]. split; [apply (Hl eq_refl)|].
  apply (Hf (Val_ExternRef (Some {| st_store := 5; st_value := 1 |})) []); [by vm_compute|reflexivity].
Defined.

(** Overlapping spans, in both directions. *)
Lemma exec_copy_span_spec_witness :
  let T := default_target in
  exec_copy_span 9 {| span_head := Slot_from 1 |} {| span_head := Slot_from 0 |} 3 [10; 11; 12; 13; 14] =
    (Ok tt, [10; 10; 11; 12; 14]) /\
  exec_copy_span 9 {| span_head := Slot_from 1 |} {| span_head := Slot_from 2 |} 3 [10; 11; 12; 13; 14] =
    (Ok tt, [10; 12; 13; 14; 14]).
Proof.
  intros T. assert (Hc : Forall (in_u 64) [10; 11; 12; 13; 14]) by (repeat constructor; by vm_compute).
  assert (Hs : forall s, 0 <= s <= 2 -> span_ok s 3) by (intros s Hs; unfold span_ok; lia).
  split.
  - apply (exec_copy_span_spec 1 0 3 [10; 11; 12; 13; 14] 9); [apply Hs; lia..|lia|lia| | |exact Hc|lia]; by vm_compute.
  - apply (exec_copy_span_spec 1 2 3 [10; 11; 12; 13; 14] 9); [apply Hs; lia..|lia|lia| | |exact Hc|lia]; by vm_compute.
Defined.
