(* ===== verification/ExecStack.v ===== *)
(** * The executor's stack

    [crates/wasmi/src/engine/executor/handler/state.rs]: the value stack of
    64-bit cells, the call stack of function frames and [Stack], which combines
    both with the synchronised registers.  A pointer into the value stack
    ([Sp]) is the index it was computed from; an instruction pointer and an
    instance are their addresses. *)

From Stdlib Require Import ZArith Lia.
From stdpp Require Import base option decidable numbers list.
From S2P Require Import Prelude Trap Value Slot Cells.
Local Open Scope Z_scope.

(** ** Pointers *)

Notation Ip := Z (only parsing).
Notation Inst := Z (only parsing).
Notation SpOffset := Z (only parsing).

Inductive Sp : Type := Sp_dangling | Sp_new (offset : SpOffset).

#[export] Instance Sp_eq_dec : EqDecision Sp.
Proof. solve_decision. Defined.

(** The cached bytes of memory 0 of an instance: address and length. *)
Record Mem0 : Type := { mem0_ptr : Z; mem0_len : Z }.

(** The contents of cells behind the length of a vector, which
    [ValueStack::grow_if_needed] makes part of it without writing them: a
    function of the vector and the index. *)
Class Uninit : Type := uninit_cell : list Cell -> nat -> Cell.

Section Stack.
Context `{Allocator} `{Uninit}.

Definition SpOffset_add (self : SpOffset) (delta : Z) : res TrapCode SpOffset :=
  match checked_add usize_bits self delta with
  | Some new_sp => Ok new_sp
  | None => Err StackOverflow
  end.

(** ** The value stack *)

Record ValueStack : Type := { vs_cells : list Cell; vs_capacity : Z; vs_max_height : Z }.

Definition set_cells (cells : list Cell) (self : ValueStack) : ValueStack :=
  {| vs_cells := cells; vs_capacity := vs_capacity self; vs_max_height := vs_max_height self |}.

(** [Vec::with_capacity] allocates exactly what it is asked for. *)
Definition ValueStack_new {E} (min_height max_height : Z) : res E ValueStack :=
  assert_that (min_height <=? max_height);;
  let min_height := min_height / CELL_BYTES in
  let max_height := max_height / CELL_BYTES in
  Ok {| vs_cells := []; vs_capacity := min_height; vs_max_height := max_height |}.

Definition ValueStack_empty : ValueStack :=
  {| vs_cells := []; vs_capacity := 0; vs_max_height := 0 |}.

Definition ValueStack_reset (self : ValueStack) : ValueStack := set_cells [] self.

Definition ValueStack_bytes_allocated (self : ValueStack) : Z := vs_capacity self * CELL_BYTES.

Definition vs_len (self : ValueStack) : Z := Z.of_nat (length (vs_cells self)).

Definition ValueStack_sp {E} (self : ValueStack) (start : SpOffset) : res E Sp :=
  assert_that (start <=? vs_len self);;
  Ok (Sp_new start).

Definition sp_or_dangling {E} (self : ValueStack) (start : SpOffset) : res E Sp :=
  match vs_cells self with
  | [] => assert_that (start =? 0);; Ok Sp_dangling
  | _ => ValueStack_sp self start
  end.

(** [Vec::set_len] to a length that is not smaller. *)
Definition set_len (new_len : Z) (cells : list Cell) : list Cell :=
  cells ++ (uninit_cell cells <$> seq (length cells) (Z.to_nat new_len - length cells)).

Definition grow_if_needed (new_len : SpOffset) : M ValueStack TrapCode unit :=
  self ← get_st;
  if vs_max_height self <? new_len then fail StackOverflow else
  let capacity := vs_capacity self in
  let len := vs_len self in
  (if capacity <? new_len then
     assert_m (len <=? capacity);;
     let additional := new_len - len in
     cap ← lift (ok_or (try_reserve CELL_BYTES capacity len additional) TrapCode_OutOfSystemMemory);
     assert_m (new_len <=? cap);;
     put_st {| vs_cells := vs_cells self; vs_capacity := cap; vs_max_height := vs_max_height self |}
   else mret tt);;
  self ← get_st;
  let max_len := Z.max new_len len in
  put_st (set_cells (set_len max_len (vs_cells self)) self).

Definition cells_from (self : ValueStack) (start : SpOffset) : option (list Cell) :=
  get_from start (vs_cells self).

(** [cells.get_mut(start..end)]. *)
Definition cells_from_to (self : ValueStack) (start end_ : SpOffset) : option (list Cell) :=
  if start <=? end_ then get_span start (end_ - start) (vs_cells self) else None.

(** [<[Cell]>::copy_within(start..end, dest)]: panics out of range. *)
Definition copy_within {E} (start end_ dest : Z) (cells : list Cell) : res E (list Cell) :=
  assert_that ((start <=? end_) && (end_ <=? Z.of_nat (length cells)));;
  let count := end_ - start in
  assert_that (dest <=? Z.of_nat (length cells) - count);;
  Ok (set_span dest (take (Z.to_nat count) (drop (Z.to_nat start) cells)) cells).

(** [cells[start..end].fill_with(Cell::default)]: panics out of range. *)
Definition fill_default {E} (start end_ : Z) (cells : list Cell) : res E (list Cell) :=
  assert_that ((start <=? end_) && (end_ <=? Z.of_nat (length cells)));;
  Ok (set_span start (replicate (Z.to_nat (end_ - start)) 0) cells).

Definition update_cells (f : list Cell -> res TrapCode (list Cell)) : M ValueStack TrapCode unit :=
  self ← get_st;
  cells ← lift (f (vs_cells self));
  put_st (set_cells cells self).

Definition ValueStack_push (start : SpOffset) (len_local_slots len_stack_slots len_params : Z) :
    M ValueStack TrapCode Sp :=
  assert_m (len_params <=? len_stack_slots);;
  assert_m (len_params <=? len_local_slots);;
  assert_m (len_local_slots <=? len_stack_slots);;
  if len_stack_slots =? 0 then mret Sp_dangling else
  end_ ← lift (SpOffset_add start len_stack_slots);
  grow_if_needed end_;;
  let start_locals := wrapu usize_bits (start + len_params) in
  let end_locals := wrapu usize_bits (start + len_local_slots) in
  update_cells (fill_default start_locals end_locals);;
  self ← get_st;
  lift (ValueStack_sp self start).

(** The source writes through the slice [cells[callee_start..]]; the ranges are
    relative to it. *)
Definition ValueStack_replace (callee_start : SpOffset) (callee_locals callee_size : Z)
    (callee_params : BoundedSlotSpan) : M ValueStack TrapCode Sp :=
  assert_m (callee_locals <=? callee_size);;
  let params_len := bspan_len callee_params in
  let params_start := Slot_into (span_head (bspan callee_params)) in
  let params_end := wrapu usize_bits (params_start + params_len) in
  if callee_size =? 0 then mret Sp_dangling else
  callee_end ← lift (SpOffset_add callee_start callee_size);
  grow_if_needed callee_end;;
  self ← get_st;
  callee_cells ← lift (expect (cells_from self callee_start));
  callee_cells ← lift (copy_within params_start params_end 0 callee_cells);
  callee_cells ← lift (fill_default params_len callee_locals callee_cells);
  put_st (set_cells (take (Z.to_nat callee_start) (vs_cells self) ++ callee_cells) self);;
  self ← get_st;
  lift (ValueStack_sp self callee_start).

(** [InOutParams] views cells of the stack; the window is given by its start. *)
Record Window : Type := { win_start : SpOffset; win_params : InOutParams }.

Definition inout_unwrap (r : res CellError InOutParams) : res TrapCode InOutParams :=
  match r with Ok io => Ok io | _ => Panic end.

Definition ValueStack_prepare_host_frame (caller_start : SpOffset)
    (callee_params : BoundedSlotSpan) (results_len : Z) : M ValueStack TrapCode (Sp * Window) :=
  let params_offset := Slot_into (span_head (bspan callee_params)) in
  let params_len := bspan_len callee_params in
  let callee_size := Z.max params_len results_len in
  callee_start ← lift (SpOffset_add caller_start params_offset);
  callee_end ← lift (SpOffset_add callee_start callee_size);
  grow_if_needed callee_end;;
  self ← get_st;
  sp ← lift (ValueStack_sp self caller_start);
  cells ← lift (expect (cells_from_to self callee_start callee_end));
  inout ← lift (inout_unwrap (InOutParams_new cells params_len results_len));
  mret (sp, {| win_start := callee_start; win_params := inout |}).

(** [Control<(Ip, Sp, Inst), Sp>]. *)
Inductive ReturnCallHost : Type :=
| Continue (ip : Ip) (sp : Sp) (instance : Inst)
| Break (sp : Sp).

Definition return_control (caller : option (Ip * SpOffset * Inst)) (sp : Sp) : ReturnCallHost :=
  match caller with
  | Some (ip, _, instance) => Continue ip sp instance
  | None => Break sp
  end.

Definition ValueStack_return_prepare_host_frame (caller : option (Ip * SpOffset * Inst))
    (callee_start : SpOffset) (callee_params : BoundedSlotSpan) (results_len : Z) :
    M ValueStack TrapCode (ReturnCallHost * Window) :=
  let caller_start := from_option (fun '(_, start, _) => start) 0 caller in
  let params_offset := Slot_into (span_head (bspan callee_params)) in
  let params_len := bspan_len callee_params in
  let callee_size := Z.max params_len results_len in
  if callee_size =? 0 then
    self ← get_st;
    sp ← lift (match caller with
               | Some _ => if negb (caller_start =? callee_start)
                           then ValueStack_sp self caller_start else Ok Sp_dangling
               | None => Ok Sp_dangling
               end);
    inout ← lift (inout_unwrap (InOutParams_new [] 0 0));
    mret (return_control caller sp, {| win_start := callee_start; win_params := inout |})
  else
  params_start ← lift (SpOffset_add callee_start params_offset);
  params_end ← lift (SpOffset_add params_start params_len);
  update_cells (copy_within params_start params_end callee_start);;
  callee_end ← lift (SpOffset_add callee_start callee_size);
  grow_if_needed callee_end;;
  self ← get_st;
  caller_sp ← lift (ValueStack_sp self caller_start);
  cells ← lift (expect (cells_from_to self callee_start callee_end));
  inout ← lift (inout_unwrap (InOutParams_new cells params_len results_len));
  mret (return_control caller caller_sp, {| win_start := callee_start; win_params := inout |}).

(** ** The call stack

    The frames are in the order of the vector: the top-most one is last. *)
Record Frame : Type := { fr_ip : Ip; fr_start : SpOffset; fr_instance : option Inst }.

Record CallStack : Type := {
  cs_frames : list Frame; cs_instance : option Inst; cs_max_height : Z
}.

Definition CallStack_new (max_height : Z) : CallStack :=
  {| cs_frames := []; cs_instance := None; cs_max_height := max_height |}.

Definition CallStack_empty : CallStack := CallStack_new 0.

Definition CallStack_reset (self : CallStack) : CallStack :=
  {| cs_frames := []; cs_instance := None; cs_max_height := cs_max_height self |}.

Definition CallStack_top (self : CallStack) : option Frame := last (cs_frames self).

Definition CallStack_top_start (self : CallStack) : SpOffset :=
  match CallStack_top self with
  | Some top => fr_start top
  | None => 0
  end.

Definition set_frames (frames : list Frame) (self : CallStack) : CallStack :=
  {| cs_frames := frames; cs_instance := cs_instance self; cs_max_height := cs_max_height self |}.
Definition set_instance (instance : option Inst) (self : CallStack) : CallStack :=
  {| cs_frames := cs_frames self; cs_instance := instance; cs_max_height := cs_max_height self |}.

(** Assigns to the last frame of a non-empty vector. *)
Definition set_top (f : Frame) (self : CallStack) : CallStack :=
  set_frames (<[pred (length (cs_frames self)) := f]> (cs_frames self)) self.

Definition CallStack_sync_ip {E} (ip : Ip) : M CallStack E unit :=
  self ← get_st;
  top ← lift (expect (CallStack_top self));
  put_st (set_top {| fr_ip := ip; fr_start := fr_start top; fr_instance := fr_instance top |} self).

Definition CallStack_restore_frame (self : CallStack) : option (Ip * SpOffset * Inst) :=
  instance ← cs_instance self;
  top ← CallStack_top self;
  Some (fr_ip top, fr_start top, instance).

Definition CallStack_prepare_host_frame {E} (caller_ip : option Ip) : M CallStack E SpOffset :=
  match caller_ip with
  | Some caller_ip => CallStack_sync_ip caller_ip
  | None => mret tt
  end;;
  self ← get_st;
  mret (CallStack_top_start self).

(** [unreachable_unchecked] on an empty stack is the panic. *)
Definition CallStack_pop {E} : M CallStack E (option (Ip * SpOffset * option Inst)) :=
  self ← get_st;
  popped ← lift (expect (CallStack_top self));
  put_st (set_frames (take (pred (length (cs_frames self))) (cs_frames self)) self);;
  self ← get_st;
  match CallStack_top self with
  | None => mret None
  | Some top =>
      let ip := fr_ip top in
      let start := fr_start top in
      match fr_instance popped with
      | Some instance => put_st (set_instance (Some instance) self)
      | None => mret tt
      end;;
      mret (Some (ip, start, fr_instance popped))
  end.

Definition CallStack_return_prepare_host_frame {E} (callee_instance : Inst) :
    M CallStack E (SpOffset * option (Ip * SpOffset * Inst)) :=
  self ← get_st;
  let callee_start := CallStack_top_start self in
  popped ← CallStack_pop;
  let caller := match popped with
                | Some (ip, start, instance) => Some (ip, start, default callee_instance instance)
                | None => None
                end in
  mret (callee_start, caller).

Definition CallStack_push (caller_ip : option Ip) (callee_ip : Ip)
    (callee_params : BoundedSlotSpan) (instance : option Inst) : M CallStack TrapCode SpOffset :=
  self ← get_st;
  if Z.of_nat (length (cs_frames self)) =? cs_max_height self then fail StackOverflow else
  match caller_ip with
  | Some caller_ip => CallStack_sync_ip caller_ip
  | None => assert_m (bool_decide (cs_frames self = []))
  end;;
  self ← get_st;
  prev_instance ←
    match instance with
    | Some instance =>
        if bool_decide (cs_instance self = Some instance) then mret None
        else put_st (set_instance (Some instance) self);; mret (cs_instance self)
    | None => mret None
    end;
  self ← get_st;
  let params_offset := Slot_into (span_head (bspan callee_params)) in
  start ← lift (SpOffset_add (CallStack_top_start self) params_offset);
  put_st (set_frames (cs_frames self ++
    [{| fr_ip := callee_ip; fr_start := start; fr_instance := prev_instance |}]) self);;
  mret start.

Definition CallStack_replace (callee_ip : Ip) (instance : option Inst) :
    M CallStack TrapCode SpOffset :=
  self ← get_st;
  caller_frame ← lift (expect (CallStack_top self));
  let start := fr_start caller_frame in
  match instance with
  | Some callee_instance =>
      assert_m (negb (bool_decide (cs_instance self = Some callee_instance)));;
      let restore := match fr_instance caller_frame with
                     | None => cs_instance self
                     | Some i => Some i
                     end in
      put_st (set_instance (Some callee_instance)
        (set_top {| fr_ip := callee_ip; fr_start := start; fr_instance := restore |} self))
  | None =>
      put_st (set_top {| fr_ip := callee_ip; fr_start := start;
                         fr_instance := fr_instance caller_frame |} self)
  end;;
  mret start.

(** ** Both stacks *)

Record Stack : Type := { st_values : ValueStack; st_frames : CallStack; st_regs : Regs }.

Definition on_values {E A} (m : M ValueStack E A) : M Stack E A :=
  zoom st_values (fun v s => {| st_values := v; st_frames := st_frames s; st_regs := st_regs s |}) id m.
Definition on_frames {E A} (m : M CallStack E A) : M Stack E A :=
  zoom st_frames (fun f s => {| st_values := st_values s; st_frames := f; st_regs := st_regs s |}) id m.

Definition Stack_new {E} (min_stack_height max_stack_height max_recursion_depth : Z) : res E Stack :=
  values ← ValueStack_new min_stack_height max_stack_height;
  Ok {| st_values := values; st_frames := CallStack_new max_recursion_depth; st_regs := Regs_default |}.

Definition Stack_empty : Stack :=
  {| st_values := ValueStack_empty; st_frames := CallStack_empty; st_regs := Regs_default |}.

Definition Stack_reset (self : Stack) : Stack :=
  {| st_values := ValueStack_reset (st_values self);
     st_frames := CallStack_reset (st_frames self); st_regs := Regs_default |}.

Definition Stack_sync_ip {E} (ip : Ip) : M Stack E unit := on_frames (CallStack_sync_ip ip).

Definition Stack_sync_regs {E} (regs : Regs) : M Stack E unit :=
  self ← get_st;
  put_st {| st_values := st_values self; st_frames := st_frames self; st_regs := regs |}.

Definition Stack_restore_frame {E} (self : Stack) : res E (Ip * Sp * Inst * Regs) :=
  '(ip, start, instance) ← expect (CallStack_restore_frame (st_frames self));
  sp ← sp_or_dangling (st_values self) start;
  Ok (ip, sp, instance, st_regs self).

Definition Stack_return_prepare_host_frame (callee_params : BoundedSlotSpan) (results_len : Z)
    (caller_instance : Inst) : M Stack TrapCode (ReturnCallHost * Window) :=
  '(callee_start, caller) ← on_frames (CallStack_return_prepare_host_frame caller_instance);
  on_values (ValueStack_return_prepare_host_frame caller callee_start callee_params results_len).

Definition Stack_prepare_host_frame (caller_ip : option Ip) (callee_params : BoundedSlotSpan)
    (results_len : Z) : M Stack TrapCode (Sp * Window) :=
  caller_start ← on_frames (CallStack_prepare_host_frame caller_ip);
  on_values (ValueStack_prepare_host_frame caller_start callee_params results_len).

Definition Stack_push_frame (caller_ip : option Ip) (callee_ip : Ip)
    (callee_params : BoundedSlotSpan) (callee_locals callee_slots : Z)
    (callee_instance : option Inst) : M Stack TrapCode Sp :=
  start ← on_frames (CallStack_push caller_ip callee_ip callee_params callee_instance);
  on_values (ValueStack_push start callee_locals callee_slots (bspan_len callee_params)).

(** [extract_mem0] reads the current memory 0 of an instance from the store. *)
Definition Stack_pop_frame {E} (extract_mem0 : Inst -> Mem0) (mem0 : Mem0) (instance : Inst) :
    M Stack E (option (Ip * Sp * Mem0 * Inst)) :=
  popped ← on_frames CallStack_pop;
  match popped with
  | None => mret None
  | Some (ip, start, changed_instance) =>
      self ← get_st;
      sp ← lift (sp_or_dangling (st_values self) start);
      let '(mem0, instance) := match changed_instance with
                               | Some instance => (extract_mem0 instance, instance)
                               | None => (mem0, instance)
                               end in
      mret (Some (ip, sp, mem0, instance))
  end.

Definition Stack_replace_frame (callee_ip : Ip) (callee_params : BoundedSlotSpan)
    (callee_locals callee_size : Z) (callee_instance : option Inst) : M Stack TrapCode Sp :=
  start ← on_frames (CallStack_replace callee_ip callee_instance);
  on_values (ValueStack_replace start callee_locals callee_size callee_params).

End Stack.
