(* ===== verification/Calls.v ===== *)
(** * Calls, tail calls and returns

    The call operators of the interpreter:
    [crates/wasmi/src/engine/executor/handler/utils.rs] ([call_wasm],
    [call_host], [call_wasm_or_host], their tail-call twins and
    [update_instance]), [handler/args.rs] ([Args], the registers of the
    dispatch loop) and the call handlers of [handler/exec.rs], over the stacks
    of [ExecStack].

    The store, the compiler and host functions are parameters: what a call
    needs of them is the current memory 0 of an instance, the entry point and
    frame size of a function, and the effect of a host function on the store
    and on its window of cells. *)

From Stdlib Require Import ZArith Lia.
From stdpp Require Import base option decidable numbers list.
From S2P Require Import Prelude Trap Value Slot Cells ExecStack.
Local Open Scope Z_scope.

(** ** Functions and outcomes *)

Notation EngineFunc := Z (only parsing).
Notation Trampoline := Z (only parsing).

(** [DedupFuncType] is the key of the type in the engine's arena. *)
Notation DedupFuncType := Z (only parsing).

Record HostFuncEntity : Type := {
  hf_len_param_cells : Z; hf_len_result_cells : Z; hf_ty : DedupFuncType; hf_trampoline : Trampoline
}.
Record WasmFuncEntity : Type := { wf_ty : DedupFuncType; wf_body : EngineFunc; wf_instance : Inst }.
Inductive FuncEntity : Type :=
| FuncEntity_Wasm (func : WasmFuncEntity)
| FuncEntity_Host (func : HostFuncEntity).

Definition FuncEntity_ty_dedup (self : FuncEntity) : DedupFuncType :=
  match self with
  | FuncEntity_Wasm func => wf_ty func
  | FuncEntity_Host func => hf_ty func
  end.

(** [DoneReason]; [Error] is the crate's error type. *)
Inductive DoneReason (Error : Type) : Type :=
| DoneReason_Return (sp : Sp)
| DoneReason_Host (error : Error) (func : FuncEntity) (results : SlotSpan)
| DoneReason_OutOfFuel (required_fuel : Z)
| DoneReason_Error (error : Error).
Arguments DoneReason_Return {Error} sp.
Arguments DoneReason_Host {Error} error func results.
Arguments DoneReason_OutOfFuel {Error} required_fuel.
Arguments DoneReason_Error {Error} error.

(** How a handler leaves the loop: [trap!] carries the code, [done!] leaves the
    reason in the [VmState], which [execution_outcome] takes exactly once. *)
Inductive Halt (Error : Type) : Type :=
| Halt_Trap (code : TrapCode)
| Halt_Done (reason : DoneReason Error).
Arguments Halt_Trap {Error} code.
Arguments Halt_Done {Error} reason.

(** [DoneReason::into_execution_outcome]. *)
Definition into_execution_outcome {Error} (self : DoneReason Error) :
    res (DoneReason Error) Sp :=
  match self with
  | DoneReason_Return sp => Ok sp
  | reason => Err reason
  end.

(** The registers of the dispatch loop; the accumulators are in [Cells]. *)
Record Args : Type := { a_ip : Ip; a_sp : Sp; a_mem0 : Mem0; a_instance : Inst }.

(** What the calls need from the store, the code map and the host. *)
Class Engine (Store Error : Type) : Type := {
  extract_mem0 : Store -> Inst -> Mem0;
  get_or_compile : EngineFunc -> M Store Error (Ip * Z * Z);
  call_host_func : Trampoline -> option Inst -> InOutParams -> M Store Error (list Cell)
}.

Record VmState (Store : Type) : Type := { vm_store : Store; vm_stack : Stack }.
Arguments vm_store {Store} _.
Arguments vm_stack {Store} _.

Section Calls.
Context `{Allocator} `{Uninit} {Store Error : Type} `{Engine Store Error}.
Local Notation VM A := (M (VmState Store) (Halt Error) A).

Definition on_stack {A} (m : M Stack TrapCode A) : VM A :=
  zoom vm_stack (fun k s => {| vm_store := vm_store s; vm_stack := k |}) Halt_Trap m.

Definition on_store {A} (m : M Store Error A) : VM A :=
  zoom vm_store (fun st s => {| vm_store := st; vm_stack := vm_stack s |})
    (fun e => Halt_Done (DoneReason_Error e)) m.

Definition update_instance (store : Store) (instance new_instance : Inst) (mem0 : Mem0) :
    Inst * Mem0 :=
  if bool_decide (new_instance = instance) then (instance, mem0)
  else (new_instance, extract_mem0 store new_instance).

Definition call_wasm (caller_ip : Ip) (params : BoundedSlotSpan) (func : EngineFunc)
    (instance : option Inst) : VM (Ip * Sp) :=
  '(callee_ip, len_local_slots, len_stack_slots) ← on_store (get_or_compile func);
  callee_sp ← on_stack
    (Stack_push_frame (Some caller_ip) callee_ip params len_local_slots len_stack_slots instance);
  mret (callee_ip, callee_sp).

Definition return_call_wasm (params : BoundedSlotSpan) (func : EngineFunc)
    (instance : option Inst) : VM (Ip * Sp) :=
  '(callee_ip, len_local_slots, len_stack_slots) ← on_store (get_or_compile func);
  callee_sp ← on_stack
    (Stack_replace_frame callee_ip params len_local_slots len_stack_slots instance);
  mret (callee_ip, callee_sp).

(** Host code writes its results through the window into the value stack. *)
Definition write_window (w : Window) (cells : list Cell) (s : Stack) : Stack :=
  {| st_values := set_cells (set_span (win_start w) cells (vs_cells (st_values s))) (st_values s);
     st_frames := st_frames s; st_regs := st_regs s |}.

(** [store.call_host_func(trampoline, instance, inout, hooks)]; [on_err] makes
    the reason of a failing host function. *)
Definition invoke_host (trampoline : Trampoline) (instance : option Inst) (w : Window)
    (on_err : Error -> DoneReason Error) : VM unit := fun s =>
  match call_host_func trampoline instance (win_params w) (vm_store s) with
  | (Ok cells, store) =>
      (Ok tt, {| vm_store := store; vm_stack := write_window w cells (vm_stack s) |})
  | (Err error, store) =>
      (Err (Halt_Done (on_err error)), {| vm_store := store; vm_stack := vm_stack s |})
  | (Panic, store) => (Panic, {| vm_store := store; vm_stack := vm_stack s |})
  end.

Definition call_host (host_func : HostFuncEntity) (caller_ip : option Ip)
    (params : BoundedSlotSpan) (instance : option Inst) : VM Sp :=
  assert_m (bspan_len params =? hf_len_param_cells host_func);;
  '(sp, inout) ← on_stack
    (Stack_prepare_host_frame caller_ip params (hf_len_result_cells host_func));
  invoke_host (hf_trampoline host_func) instance inout
    (fun error => DoneReason_Host error (FuncEntity_Host host_func) (bspan params));;
  mret sp.

Definition return_call_host (host_func : HostFuncEntity) (params : BoundedSlotSpan)
    (instance : Inst) : VM (Ip * Sp * Inst) :=
  assert_m (bspan_len params =? hf_len_param_cells host_func);;
  '(control, inout) ← on_stack
    (Stack_return_prepare_host_frame params (hf_len_result_cells host_func) instance);
  invoke_host (hf_trampoline host_func) (Some instance) inout
    (fun error => match control with
                  | Continue _ _ _ =>
                      DoneReason_Host error (FuncEntity_Host host_func) (bspan params)
                  | Break _ => DoneReason_Error error
                  end);;
  match control with
  | Continue ip sp instance => mret (ip, sp, instance)
  | Break sp => fail (Halt_Done (DoneReason_Return sp))
  end.

(** ** The operators

    The methods of [Args]; [ip] is already behind the operator.  [self] is the
    registers before, the result those after. *)

Definition Args_reload_mem0 (store : Store) (self : Args) : Args :=
  {| a_ip := a_ip self; a_sp := a_sp self; a_mem0 := extract_mem0 store (a_instance self);
     a_instance := a_instance self |}.

(** [call_func_entry] of a function of the same instance ([call_internal]). *)
Definition Args_call_func_entry (func : EngineFunc) (params : BoundedSlotSpan)
    (instance : option Inst) (self : Args) : VM Args :=
  '(ip, sp) ← call_wasm (a_ip self) params func instance;
  mret {| a_ip := ip; a_sp := sp; a_mem0 := a_mem0 self; a_instance := a_instance self |}.

Definition Args_return_call_func_entry (func : EngineFunc) (params : BoundedSlotSpan)
    (instance : option Inst) (self : Args) : VM Args :=
  '(ip, sp) ← return_call_wasm params func instance;
  mret {| a_ip := ip; a_sp := sp; a_mem0 := a_mem0 self; a_instance := a_instance self |}.

Definition call_wasm_or_host (func : FuncEntity) (params : BoundedSlotSpan) (self : Args) :
    VM Args :=
  match func with
  | FuncEntity_Wasm wasm_func =>
      let callee_instance := wf_instance wasm_func in
      '(callee_ip, callee_sp) ←
        call_wasm (a_ip self) params (wf_body wasm_func) (Some callee_instance);
      state ← get_st;
      let '(instance, mem0) :=
        update_instance (vm_store state) (a_instance self) callee_instance (a_mem0 self) in
      mret {| a_ip := callee_ip; a_sp := callee_sp; a_mem0 := mem0; a_instance := instance |}
  | FuncEntity_Host host_func =>
      sp ← call_host host_func (Some (a_ip self)) params (Some (a_instance self));
      state ← get_st;
      let mem0 := extract_mem0 (vm_store state) (a_instance self) in
      mret {| a_ip := a_ip self; a_sp := sp; a_mem0 := mem0; a_instance := a_instance self |}
  end.

Definition return_call_wasm_or_host (func : FuncEntity) (params : BoundedSlotSpan)
    (self : Args) : VM Args :=
  '(callee_ip, sp, new_instance) ←
    match func with
    | FuncEntity_Wasm wasm_func =>
        let callee_instance := wf_instance wasm_func in
        let changed_instance :=
          if bool_decide (callee_instance = a_instance self) then None else Some callee_instance in
        '(callee_ip, callee_sp) ← return_call_wasm params (wf_body wasm_func) changed_instance;
        mret (callee_ip, callee_sp, callee_instance)
    | FuncEntity_Host host_func => return_call_host host_func params (a_instance self)
    end;
  state ← get_st;
  let '(instance, mem0) :=
    update_instance (vm_store state) (a_instance self) new_instance (a_mem0 self) in
  mret {| a_ip := callee_ip; a_sp := sp; a_mem0 := mem0; a_instance := instance |}.

Definition Args_pop_frame (self : Args) : VM Args :=
  state ← get_st;
  popped ← on_stack (Stack_pop_frame (extract_mem0 (vm_store state)) (a_mem0 self) (a_instance self));
  match popped with
  | Some (ip, sp, mem0, instance) =>
      mret {| a_ip := ip; a_sp := sp; a_mem0 := mem0; a_instance := instance |}
  | None => fail (Halt_Done (DoneReason_Return (a_sp self)))
  end.

(** ** Leaving and entering the loop

    A call from outside starts with the frame of its root function; a call that
    was left for want of fuel or by a failing host function goes on with the
    frame that [sync_ip] and [sync_regs] have stored. *)

(** [out_of_fuel!], with the instruction pointer the call goes on with. *)
Definition out_of_fuel {A} (ip : Ip) (regs : Regs) (required_fuel : Z) : VM A :=
  on_stack (Stack_sync_ip ip);;
  on_stack (Stack_sync_regs regs);;
  fail (Halt_Done (DoneReason_OutOfFuel required_fuel)).

Record WasmFuncCall : Type := {
  wc_callee_ip : Ip; wc_callee_sp : Sp; wc_instance : Inst; wc_regs : Regs
}.

(** An error of [push_frame] is converted by [Error::from], as a trap is. *)
Definition init_wasm_func_call (func : EngineFunc) (instance : Inst) : VM WasmFuncCall :=
  '(callee_ip, len_local_slots, len_stack_slots) ← on_store (get_or_compile func);
  let callee_params := {| bspan := {| span_head := Slot_from 0 |}; bspan_len := 0 |} in
  callee_sp ← on_stack
    (Stack_push_frame None callee_ip callee_params len_local_slots len_stack_slots (Some instance));
  state ← get_st;
  mret {| wc_callee_ip := callee_ip; wc_callee_sp := callee_sp; wc_instance := instance;
          wc_regs := st_regs (vm_stack state) |}.

Definition resume_wasm_func_call : VM WasmFuncCall :=
  state ← get_st;
  '(callee_ip, callee_sp, instance, regs) ← lift (map_err Halt_Trap (Stack_restore_frame (vm_stack state)));
  mret {| wc_callee_ip := callee_ip; wc_callee_sp := callee_sp; wc_instance := instance;
          wc_regs := regs |}.

(** The registers [execute_stock] starts the loop with. *)
Definition execute_stock (call : WasmFuncCall) : VM (Args * Regs) :=
  store ← get_st;
  mret ({| a_ip := wc_callee_ip call; a_sp := wc_callee_sp call;
           a_mem0 := extract_mem0 (vm_store store) (wc_instance call);
           a_instance := wc_instance call |}, wc_regs call).

Definition init_host_func_call (func : HostFuncEntity) : VM (Sp * Window) :=
  let callee_params :=
    {| bspan := {| span_head := Slot_from 0 |}; bspan_len := hf_len_param_cells func |} in
  on_stack (Stack_prepare_host_frame None callee_params (hf_len_result_cells func)).

Definition HostFuncCall_execute (func : HostFuncEntity) (inout : Window) : VM unit :=
  invoke_host (hf_trampoline func) None inout DoneReason_Error.

End Calls.
