(* ===== verification/CallSpec.v ===== *)
(** * What calls do to the stacks

    The contract of [ExecStack] and [Calls].  The call stack stores instances as
    differences: a frame remembers an instance only when its callee runs in
    another one.  It refines a stack of frames that name their instance, and
    the value stack always covers the cells of every frame. *)

From Stdlib Require Import ZArith Lia.
From stdpp Require Import base option decidable numbers list.
From S2P Require Import Prelude Trap Value Slot Cells ExecStack Calls.
Local Open Scope Z_scope.

(** ** Frames that name their instance

    [af_slots] is the number of cells the function may use from its start. *)
Record AFrame : Type := { af_ip : Ip; af_start : Z; af_inst : Inst; af_slots : Z }.

(** Top-most frame first. *)
Inductive frames_repr : Inst -> list Frame -> list AFrame -> Prop :=
| frames_nil cur : frames_repr cur [] []
| frames_cons cur f fs a l :
    af_ip a = fr_ip f -> af_start a = fr_start f -> af_inst a = cur ->
    frames_repr (default cur (fr_instance f)) fs l ->
    frames_repr cur (f :: fs) (a :: l).

Definition cs_repr (cs : CallStack) (a : AFrame) (l : list AFrame) : Prop :=
  cs_instance cs = Some (af_inst a) /\ frames_repr (af_inst a) (rev (cs_frames cs)) (a :: l).

Lemma rev_cons_inv {A} (l : list A) x t : rev l = x :: t -> l = rev t ++ [x].
Proof. intros E. by rewrite <-(rev_involutive l), E. Qed.

Lemma set_last {A} (l : list A) x y : <[pred (length (l ++ [x])) := y]> (l ++ [x]) = l ++ [y].
Proof.
  rewrite length_app. cbn [length]. replace (pred (length l + 1)) with (length l + 0)%nat by lia.
  by rewrite insert_app_r.
Qed.

Lemma drop_last {A} (l : list A) x : take (pred (length (l ++ [x]))) (l ++ [x]) = l.
Proof.
  rewrite length_app. cbn [length]. replace (pred (length l + 1)) with (length l) by lia.
  by rewrite take_app_length.
Qed.

Lemma cs_repr_top cs a l : cs_repr cs a l -> exists fs f,
  cs_frames cs = fs ++ [f] /\ cs_instance cs = Some (af_inst a) /\
  CallStack_top cs = Some f /\ af_ip a = fr_ip f /\ af_start a = fr_start f /\
  frames_repr (default (af_inst a) (fr_instance f)) (rev fs) l.
Proof.
  intros [Hi Hr]. inversion Hr as [|cur f fs a' l' Hip Hst _ Hfs Ec Ef]; subst.
  symmetry in Ef. apply rev_cons_inv in Ef.
  exists (rev fs), f. rewrite rev_involutive. unfold CallStack_top.
  rewrite Ef, last_snoc. done.
Qed.

Lemma cs_repr_length cs a l : cs_repr cs a l -> length (cs_frames cs) = S (length l).
Proof.
  intros [_ Hr]. rewrite <-length_rev.
  enough (G : forall cur fs l, frames_repr cur fs l -> length fs = length l) by by rewrite (G _ _ _ Hr).
  clear. induction 1; cbn; congruence.
Qed.

(** ** The call stack *)

Section Frames.
Context `{T : Target}.

Definition AFrame_sync (ip : Ip) (a : AFrame) : AFrame :=
  {| af_ip := ip; af_start := af_start a; af_inst := af_inst a; af_slots := af_slots a |}.

Lemma CallStack_sync_ip_run {E} ip cs a l : cs_repr cs a l ->
  exists cs', CallStack_sync_ip (E := E) ip cs = (Ok tt, cs') /\
    cs_repr cs' (AFrame_sync ip a) l /\ cs_max_height cs' = cs_max_height cs.
Proof.
  intros H. destruct (cs_repr_top cs a l H) as (fs & f & Ef & Hi & Ht & Hip & Hst & Hfs).
  unfold CallStack_sync_ip, set_top. rewrite bind_get_st, Ht. cbn [expect]. rewrite bind_lift.
  eexists. split; [done|]. split; [|done]. split; [done|].
  cbn [set_frames cs_frames]. rewrite Ef, set_last, rev_app_distr. cbn.
  by constructor.
Qed.

Lemma CallStack_top_start_run cs a l : cs_repr cs a l -> CallStack_top_start cs = af_start a.
Proof.
  intros H. destruct (cs_repr_top cs a l H) as (fs & f & _ & _ & Ht & _ & Hst & _).
  unfold CallStack_top_start. by rewrite Ht.
Qed.

(** The head of the parameters, as a number of cells. *)
Definition params_head (params : BoundedSlotSpan) : Z := Slot_into (span_head (bspan params)).

Definition callee_frame (ip start inst slots : Z) : AFrame :=
  {| af_ip := ip; af_start := start; af_inst := inst; af_slots := slots |}.

Lemma CallStack_push_run caller_ip callee_ip params instance cs a l slots : cs_repr cs a l ->
  Z.of_nat (S (length l)) < cs_max_height cs -> af_start a + params_head params < 2 ^ usize_bits ->
  exists cs', CallStack_push (Some caller_ip) callee_ip params instance cs =
      (Ok (af_start a + params_head params), cs') /\
    cs_repr cs' (callee_frame callee_ip (af_start a + params_head params)
                   (default (af_inst a) instance) slots) (AFrame_sync caller_ip a :: l) /\
    cs_max_height cs' = cs_max_height cs.
Proof.
  intros H Hh Hs. unfold CallStack_push. rewrite bind_get_st, (cs_repr_length _ _ _ H).
  rewrite (proj2 (Z.eqb_neq _ _)) by lia.
  destruct (CallStack_sync_ip_run (E := TrapCode) caller_ip cs a l H) as (cs1 & E1 & H1 & Hm1).
  rewrite (bind_Ok _ _ _ _ _ E1), bind_get_st.
  assert (Hadd : forall cs2, CallStack_top_start cs2 = af_start a ->
    SpOffset_add (CallStack_top_start cs2) (Slot_into (span_head (bspan params))) =
    Ok (af_start a + params_head params)).
  { intros cs2 ->. unfold SpOffset_add, checked_add. fold (params_head params).
    by rewrite (proj2 (Z.ltb_lt _ _)). }
  destruct H1 as [Hi1 Hf1].
  pose proof (CallStack_top_start_run cs1 _ _ (conj Hi1 Hf1)) as Ht1. cbn [AFrame_sync af_start] in Ht1.
  assert (G : forall prev cs2, cs_frames cs2 = cs_frames cs1 -> cs_max_height cs2 = cs_max_height cs1 ->
    cs_instance cs2 = Some (default (af_inst a) instance) ->
    default (default (af_inst a) instance) prev = af_inst a ->
    exists cs', (self ← get_st;
      let params_offset := Slot_into (span_head (bspan params)) in
      start ← lift (SpOffset_add (CallStack_top_start self) params_offset);
      put_st (set_frames (cs_frames self ++
        [{| fr_ip := callee_ip; fr_start := start; fr_instance := prev |}]) self);;
      mret start) cs2 = (Ok (af_start a + params_head params), cs') /\
    cs_repr cs' (callee_frame callee_ip (af_start a + params_head params)
                   (default (af_inst a) instance) slots) (AFrame_sync caller_ip a :: l) /\
    cs_max_height cs' = cs_max_height cs).
  { intros prev cs2 Ef Em Ei Hp. rewrite bind_get_st. cbv zeta.
    rewrite Hadd by (unfold CallStack_top_start, CallStack_top in *; by rewrite Ef).
    rewrite bind_lift. eexists. split; [done|]. split; [|by rewrite <-Hm1, <-Em].
    split; [done|]. cbn [set_frames cs_frames]. rewrite Ef, rev_app_distr.
    constructor; [done..|]. cbn [fr_instance callee_frame af_inst rev app]. by rewrite Hp. }
  destruct instance as [i|]; [|by apply (G None)].
  case_bool_decide as Ei; cbn [AFrame_sync af_inst] in Hi1; rewrite Hi1 in Ei.
  - injection Ei as Ei. cbn [from_option default] in G.
    rewrite (bind_Ok _ _ _ None cs1) by done. apply (G None); [done..| |done].
    cbn. by rewrite Hi1, Ei.
  - erewrite bind_Ok by done. apply (G (cs_instance cs1)); [done..|]. by rewrite Hi1.
Qed.

Lemma CallStack_pop_run {E} cs a b l : cs_repr cs a (b :: l) ->
  exists changed cs', CallStack_pop (E := E) cs = (Ok (Some (af_ip b, af_start b, changed)), cs') /\
    cs_repr cs' b l /\ cs_max_height cs' = cs_max_height cs /\
    af_inst b = default (af_inst a) changed.
Proof.
  intros H. destruct (cs_repr_top _ _ _ H) as (fs & f & Ef & Hi & Ht & _ & _ & Hfs).
  inversion Hfs as [|cur g gs b' l' Hip Hst Hinst Hgs Ec Eg]; subst.
  symmetry in Eg. apply rev_cons_inv in Eg.
  unfold CallStack_pop. rewrite bind_get_st, Ht. cbn [expect]. rewrite bind_lift.
  erewrite bind_Ok by done. rewrite bind_get_st. unfold CallStack_top at 1.
  cbn [set_frames cs_frames]. rewrite Ef, drop_last, Eg, last_snoc, <-Eg, <-Hip, <-Hst.
  exists (fr_instance f). destruct (fr_instance f) as [i|] eqn:Ei; cbn [from_option default] in *.
  - erewrite bind_Ok by done. eexists. split; [done|]. split; [|done].
    split; [cbn; by rewrite Hinst|]. cbn [set_instance set_frames cs_frames]. rewrite Hinst.
    rewrite Eg, rev_app_distr, rev_involutive. by constructor.
  - erewrite bind_Ok by done. eexists. split; [done|]. split; [|done].
    split; [cbn; by rewrite Hinst|]. cbn [set_frames cs_frames]. rewrite Hinst.
    rewrite Eg, rev_app_distr, rev_involutive. by constructor.
Qed.

Lemma CallStack_pop_last {E} cs a : cs_repr cs a [] ->
  exists cs', CallStack_pop (E := E) cs = (Ok None, cs').
Proof.
  intros H. destruct (cs_repr_top _ _ _ H) as (fs & f & Ef & Hi & Ht & _ & _ & Hfs).
  assert (fs = []) as ->.
  { rewrite <-(rev_involutive fs). by inversion Hfs. }
  unfold CallStack_pop. rewrite bind_get_st, Ht. cbn [expect]. rewrite bind_lift.
  erewrite bind_Ok by done. rewrite bind_get_st. unfold CallStack_top at 1.
  cbn [set_frames cs_frames]. rewrite Ef. cbn. eauto.
Qed.

(** A tail call keeps the start and the caller of the frame it replaces. *)
Lemma CallStack_replace_run callee_ip instance cs a l slots : cs_repr cs a l ->
  instance <> Some (af_inst a) ->
  exists cs', CallStack_replace callee_ip instance cs = (Ok (af_start a), cs') /\
    cs_repr cs' (callee_frame callee_ip (af_start a) (default (af_inst a) instance) slots) l /\
    cs_max_height cs' = cs_max_height cs.
Proof.
  intros H Hne. destruct (cs_repr_top _ _ _ H) as (fs & f & Ef & Hi & Ht & Hip & Hst & Hfs).
  unfold CallStack_replace. rewrite bind_get_st, Ht. cbn [expect]. rewrite bind_lift. cbv zeta.
  destruct instance as [i|].
  - rewrite Hi. rewrite bool_decide_false by congruence. cbn [negb].
    erewrite bind_Ok by done.
    eexists. split; [by rewrite Hst|]. split; [|done]. split; [done|].
    cbn [set_instance set_top set_frames cs_frames]. rewrite Ef, set_last, rev_app_distr.
    constructor; [done..|]. cbn [fr_instance from_option default callee_frame af_inst].
    destruct (fr_instance f); done.
  - erewrite bind_Ok by done.
    eexists. split; [by rewrite Hst|]. split; [|done]. split; [done|].
    cbn [set_top set_frames cs_frames]. rewrite Ef, set_last, rev_app_distr.
    by constructor.
Qed.

End Frames.

(** ** The value stack *)

Section Values.
Context `{Allocator} `{Uninit}.

Record vs_ok (v : ValueStack) : Prop := {
  vs_within : vs_len v <= vs_capacity v;
  vs_below : vs_len v <= vs_max_height v;
  vs_alloc : CELL_BYTES * vs_capacity v < 2 ^ (usize_bits - 1)
}.

Lemma set_len_spec n cells : Z.of_nat (length cells) <= n ->
  Z.of_nat (length (set_len n cells)) = n /\ cells `prefix_of` set_len n cells.
Proof.
  intros Hn. unfold set_len. rewrite length_app, length_fmap, length_seq.
  split; [lia|]. by apply prefix_app_r.
Qed.

(** Growing keeps the cells and fails exactly above the configured height or
    when the allocation fails. *)
Lemma grow_if_needed_spec new_len v r v' : vs_ok v -> 0 <= new_len ->
  grow_if_needed new_len v = (r, v') ->
  vs_ok v' /\ vs_max_height v' = vs_max_height v /\ vs_cells v `prefix_of` vs_cells v' /\
  match r with
  | Ok _ => new_len <= vs_max_height v /\ vs_len v' = Z.max new_len (vs_len v)
  | Err e => v' = v /\ (e = StackOverflow /\ vs_max_height v < new_len \/
                        e = TrapCode_OutOfSystemMemory /\ vs_capacity v < new_len)
  | Panic => False
  end.
Proof.
  intros [Hw Hb Ha] Hn. unfold grow_if_needed. rewrite bind_get_st.
  destruct (Z.ltb_spec (vs_max_height v) new_len) as [Hm|Hm].
  { intros [= <- <-]. by split_and!; [..|left]. }
  assert (G : forall v1, vs_cells v1 = vs_cells v -> vs_max_height v1 = vs_max_height v ->
    new_len <= vs_capacity v1 -> vs_len v <= vs_capacity v1 ->
    CELL_BYTES * vs_capacity v1 < 2 ^ (usize_bits - 1) ->
    (self ← get_st;
     let max_len := Z.max new_len (vs_len v) in
     put_st (set_cells (set_len max_len (vs_cells self)) self)) v1 = (r, v') ->
    vs_ok v' /\ vs_max_height v' = vs_max_height v /\ vs_cells v `prefix_of` vs_cells v' /\
    match r with
    | Ok _ => new_len <= vs_max_height v /\ vs_len v' = Z.max new_len (vs_len v)
    | Err e => v' = v /\ (e = StackOverflow /\ vs_max_height v < new_len \/
                          e = TrapCode_OutOfSystemMemory /\ vs_capacity v < new_len)
    | Panic => False
    end).
  { intros v1 Ec Em Hc Hc' Ha1. rewrite bind_get_st. cbv zeta. intros [= <- <-].
    rewrite Ec.
    destruct (set_len_spec (Z.max new_len (vs_len v)) (vs_cells v)) as [Hlen Hpre];
      [unfold vs_len; lia|].
    unfold set_cells, vs_len in *. cbn [vs_cells vs_max_height vs_capacity] in *.
    split_and!; [|done|done|done|done]. split; cbn [vs_cells vs_max_height vs_capacity];
      unfold vs_len; cbn [vs_cells]; rewrite ?Hlen; lia. }
  destruct (Z.ltb_spec (vs_capacity v) new_len) as [Hcap|Hcap].
  - destruct (try_reserve CELL_BYTES (vs_capacity v) (vs_len v) (new_len - vs_len v)) as [cap|] eqn:Er.
    + pose proof (try_reserve_law CELL_BYTES _ _ _ _ ltac:(done) Er) as [Hr1 Hr2].
      unfold assert_m. cbv zeta. rewrite (proj2 (Z.leb_le (vs_len v) _)) by lia.
      rewrite (bind_Ok _ _ v tt {| vs_cells := vs_cells v; vs_capacity := cap;
                                    vs_max_height := vs_max_height v |}).
      * intros E. apply (G _) in E; cbn; try done; try lia.
      * cbn [assert_that ok_or]. rewrite !bind_lift.
        rewrite (proj2 (Z.leb_le new_len _)) by lia. done.
    + unfold assert_m. cbv zeta. rewrite (proj2 (Z.leb_le (vs_len v) _)) by lia.
      rewrite bind_run. cbn [assert_that ok_or]. rewrite !bind_lift. intros [= <- <-].
      split_and!; [done..|]. by right.
  - rewrite (bind_Ok _ _ v tt v) by done. intros E. apply (G _) in E; try done; lia.
Qed.

Definition grew (v v' : ValueStack) : Prop :=
  vs_ok v' /\ vs_max_height v' = vs_max_height v /\ vs_len v <= vs_len v'.

Lemma grew_refl v : vs_ok v -> grew v v.
Proof. intros Hv. by split_and!. Qed.

Lemma vs_ok_set_cells v cells : vs_ok v -> length cells = length (vs_cells v) -> vs_ok (set_cells cells v).
Proof.
  intros [Hw Hb Ha] Hl. unfold vs_len in *.
  split; unfold vs_len; cbn [set_cells vs_cells vs_capacity vs_max_height]; by rewrite ?Hl.
Qed.

Lemma grew_set_cells v v' cells : grew v v' -> length cells = length (vs_cells v') ->
  grew v (set_cells cells v').
Proof.
  intros (Hok & Hm & Hl) Hc. split; [by apply vs_ok_set_cells|]. split; [done|].
  unfold vs_len in *. cbn. by rewrite Hc.
Qed.

Lemma usize_room v x : vs_ok v -> 0 <= x <= vs_len v -> forall n, 0 <= n < 2 ^ 18 -> x + n < 2 ^ usize_bits.
Proof.
  intros [Hw Hb Ha] Hx n Hn. pose proof usize_bits_bounds. pose proof pow2_usize_half.
  unfold CELL_BYTES in Ha. lia.
Qed.

Lemma SpOffset_add_run v x n : vs_ok v -> 0 <= x <= vs_len v -> 0 <= n < 2 ^ 18 ->
  SpOffset_add x n = Ok (x + n).
Proof.
  intros Hv Hx Hn. unfold SpOffset_add, checked_add.
  by rewrite (proj2 (Z.ltb_lt _ _)) by by eapply usize_room.
Qed.

(** The pointer a frame of [slots] cells from [start] on is run with. *)
Definition frame_sp (start slots : Z) : Sp := if slots =? 0 then Sp_dangling else Sp_new start.

Lemma fill_default_run {E} a b (cells : list Cell) : 0 <= a <= b -> b <= Z.of_nat (length cells) ->
  fill_default (E := E) a b cells = Ok (set_span a (replicate (Z.to_nat (b - a)) 0) cells).
Proof.
  intros Ha Hb. unfold fill_default.
  by rewrite (proj2 (Z.leb_le _ _)), (proj2 (Z.leb_le b _)) by lia.
Qed.

Lemma fill_default_lookup a b (cells : list Cell) : 0 <= a <= b -> b <= Z.of_nat (length cells) ->
  let cells' := set_span a (replicate (Z.to_nat (b - a)) 0) cells in
  length cells' = length cells /\
  (forall i, a <= Z.of_nat i < b -> cells' !! i = Some 0) /\
  (forall i, Z.of_nat i < a \/ b <= Z.of_nat i -> cells' !! i = cells !! i).
Proof.
  intros Ha Hb. cbv zeta. split; [apply length_set_span|]. split; intros i Hi.
  - unfold set_span. rewrite list_lookup_inserts by (rewrite ?length_replicate; lia).
    apply lookup_replicate. lia.
  - apply set_span_lookup_out; [lia|]. rewrite length_replicate. lia.
Qed.

Lemma update_cells_run f cells v : f (vs_cells v) = Ok cells ->
  update_cells f v = (Ok tt, set_cells cells v).
Proof. intros Hf. unfold update_cells. rewrite bind_get_st, Hf. by rewrite bind_lift. Qed.

Definition grow_error (v : ValueStack) (n : Z) (e : TrapCode) : Prop :=
  e = StackOverflow /\ vs_max_height v < n \/ e = TrapCode_OutOfSystemMemory /\ vs_capacity v < n.

Lemma grew_room v v' n : grew v v' -> n <= vs_len v' -> n <= vs_max_height v.
Proof. intros ([_ Hb _] & <- & _) ?. lia. Qed.

(** Making room for [n] cells from [x] on, then going on with [k]. *)
Lemma grow_to {A} v x n (k : Z -> M ValueStack TrapCode A) r v' :
  vs_ok v -> 0 <= x <= vs_len v -> 0 <= n < 2 ^ 18 ->
  (e ← lift (SpOffset_add x n); grow_if_needed e;; k e) v = (r, v') ->
  (exists e, r = Err e /\ grew v v' /\ grow_error v (x + n) e /\ v' = v) \/
  (exists v1, k (x + n) v1 = (r, v') /\ grew v v1 /\ vs_cells v `prefix_of` vs_cells v1 /\
     x + n <= vs_len v1).
Proof.
  intros Hv Hx Hn. rewrite (SpOffset_add_run v) by done. rewrite bind_lift, bind_run.
  destruct (grow_if_needed (x + n) v) as [r1 v1] eqn:Eg.
  apply grow_if_needed_spec in Eg as (Hv1 & Hm1 & Hpre & Hr1); [|done|lia].
  destruct r1 as [[]|e|]; [|intros [= <- <-]|done].
  - destruct Hr1 as [Hmax Hlen1]. intros E. right. exists v1.
    split; [done|]. split; [split; [done|split; [done|lia]]|]. split; [done|lia].
  - destruct Hr1 as [-> Hr1]. left. exists e. split; [done|]. split; [by apply grew_refl|].
    by split.
Qed.

(** Entering a function keeps its parameters, zeroes its other locals, leaves
    everything below alone and provides all of its cells. *)
Lemma ValueStack_push_spec v start locals slots params r v' : vs_ok v ->
  0 <= start -> start + params <= vs_len v ->
  0 <= params <= locals -> locals <= slots < 2 ^ 16 ->
  ValueStack_push start locals slots params v = (r, v') ->
  grew v v' /\
  match r with
  | Ok sp => sp = frame_sp start slots /\ start + slots <= vs_len v' /\
      (forall i, Z.of_nat i < start + params -> vs_cells v' !! i = vs_cells v !! i) /\
      (forall i, start + params <= Z.of_nat i < start + locals -> vs_cells v' !! i = Some 0)
  | Err e => grow_error v (start + slots) e
  | Panic => False
  end.
Proof.
  intros Hv Hs Hp Hl Hk. unfold ValueStack_push, frame_sp.
  rewrite (bind_Ok (assert_m _) _ v tt v) by (unfold assert_m; by rewrite (proj2 (Z.leb_le _ _)) by lia).
  rewrite (bind_Ok (assert_m _) _ v tt v) by (unfold assert_m; by rewrite (proj2 (Z.leb_le _ _)) by lia).
  rewrite (bind_Ok (assert_m _) _ v tt v) by (unfold assert_m; by rewrite (proj2 (Z.leb_le _ _)) by lia).
  destruct (Z.eqb_spec slots 0) as [->|Hne].
  { intros [= <- <-]. split; [by apply grew_refl|]. split_and!; [done|lia|done|intros; lia]. }
  intros E. apply grow_to in E as [(e & -> & Hg & He & _)|(v1 & E & Hg & Hpre & Hlen1)]; [done| |done|lia|lia].
  revert E. cbv zeta.
  assert (Hpos : forall n, 0 <= n <= slots -> wrapu usize_bits (start + n) = start + n).
  { intros n Hn. apply wrapu_small. unfold in_u. pose proof (usize_room v start Hv ltac:(lia) n). lia. }
  rewrite !Hpos by lia.
  erewrite bind_Ok by (apply update_cells_run, fill_default_run; unfold vs_len in Hlen1; lia).
  destruct (fill_default_lookup (start + params) (start + locals) (vs_cells v1)) as (Hc1 & Hc2 & Hc3);
    [lia|unfold vs_len in Hlen1; lia|].
  rewrite bind_get_st. unfold ValueStack_sp.
  rewrite (proj2 (Z.leb_le start _)) by (unfold vs_len in *; cbn; rewrite Hc1; lia).
  cbn [assert_that]. intros [= <- <-]. split.
  - by apply grew_set_cells.
  - cbn [set_cells vs_cells]. split_and!.
    + done.
    + unfold vs_len in *. cbn. rewrite Hc1. lia.
    + intros i Hi. rewrite Hc3 by lia. destruct Hpre as [k ->].
      by rewrite lookup_app_l by (unfold vs_len in Hp; lia).
    + done.
Qed.

Lemma copy_within_run {E} a b d (cells : list Cell) : 0 <= d <= a -> a <= b ->
  b <= Z.of_nat (length cells) -> exists cells', copy_within (E := E) a b d cells = Ok cells' /\
    length cells' = length cells /\
    (forall i, Z.of_nat i < b - a -> cells' !! (Z.to_nat d + i)%nat = cells !! (Z.to_nat a + i)%nat) /\
    (forall i, Z.of_nat i < d \/ d + (b - a) <= Z.of_nat i -> cells' !! i = cells !! i).
Proof.
  intros Hd Ha Hb. unfold copy_within.
  rewrite (proj2 (Z.leb_le a _)), (proj2 (Z.leb_le b _)), (proj2 (Z.leb_le d _)) by lia.
  cbn [andb assert_that]. eexists. split; [done|]. split; [apply length_set_span|].
  assert (Hl : length (take (Z.to_nat (b - a)) (drop (Z.to_nat a) cells)) = Z.to_nat (b - a)).
  { rewrite length_take, length_drop. lia. }
  split; intros i Hi.
  - unfold set_span. rewrite list_lookup_inserts by (rewrite ?Hl; lia).
    rewrite lookup_take_lt, lookup_drop by lia. f_equal. lia.
  - apply set_span_lookup_out; [lia|]. rewrite Hl. lia.
Qed.

(** A tail call moves its parameters to the start of the frame it reuses. *)
Lemma ValueStack_replace_spec v start locals size params r v' : vs_ok v ->
  0 <= start -> 0 <= params_head params < 2 ^ 16 ->
  start + params_head params + bspan_len params <= vs_len v ->
  0 <= bspan_len params <= locals -> locals <= size < 2 ^ 16 ->
  ValueStack_replace start locals size params v = (r, v') ->
  grew v v' /\
  match r with
  | Ok sp => sp = frame_sp start size /\ start + size <= vs_len v' /\
      (forall i, Z.of_nat i < bspan_len params -> vs_cells v' !! (Z.to_nat start + i)%nat =
        vs_cells v !! (Z.to_nat (start + params_head params) + i)%nat) /\
      (forall i, start + bspan_len params <= Z.of_nat i < start + locals -> vs_cells v' !! i = Some 0) /\
      (forall i, Z.of_nat i < start -> vs_cells v' !! i = vs_cells v !! i)
  | Err e => grow_error v (start + size) e
  | Panic => False
  end.
Proof.
  intros Hv Hs Hh Hpl Hp Hk. unfold ValueStack_replace, frame_sp. fold (params_head params).
  rewrite (bind_Ok (assert_m _) _ v tt v) by (unfold assert_m; by rewrite (proj2 (Z.leb_le _ _)) by lia).
  cbv zeta. destruct (Z.eqb_spec size 0) as [->|Hne].
  { intros [= <- <-]. split; [by apply grew_refl|]. split_and!; [done|lia|intros; lia|intros; lia|done]. }
  intros E. apply grow_to in E as [(e & -> & Hg & He & _)|(v1 & E & Hg & Hpre & Hlen1)]; [done| |done|lia|lia].
  revert E. assert (Hlen : vs_len v <= vs_len v1) by apply Hg.
  rewrite bind_get_st. unfold cells_from, get_from. rewrite (proj2 (Z.leb_le start _)) by (unfold vs_len in *; lia).
  cbn [expect]. rewrite bind_lift.
  set (callee := drop (Z.to_nat start) (vs_cells v1)).
  assert (Hcl : Z.of_nat (length callee) = vs_len v1 - start).
  { unfold callee, vs_len in *. rewrite length_drop. lia. }
  rewrite wrapu_small.
  2:{ unfold in_u. pose proof (usize_room v start Hv ltac:(lia) (params_head params + bspan_len params)). lia. }
  destruct (copy_within_run (E := TrapCode) (params_head params) (params_head params + bspan_len params) 0 callee)
    as (c1 & -> & Hl1 & Hin1 & Hout1); [lia..|]. rewrite bind_lift.
  rewrite fill_default_run by lia. rewrite bind_lift.
  destruct (fill_default_lookup (bspan_len params) locals c1) as (Hl2 & Hin2 & Hout2); [lia..|].
  erewrite bind_Ok by done. rewrite bind_get_st. unfold ValueStack_sp.
  set (c2 := set_span _ _ c1) in *.
  set (cells' := take (Z.to_nat start) (vs_cells v1) ++ c2).
  assert (Ht : length (take (Z.to_nat start) (vs_cells v1)) = Z.to_nat start).
  { rewrite length_take. unfold vs_len in *. lia. }
  assert (Hc' : length cells' = length (vs_cells v1)).
  { unfold cells'. rewrite length_app, Ht, Hl2, Hl1. unfold vs_len in *. lia. }
  rewrite (proj2 (Z.leb_le start _)) by (unfold vs_len in *; cbn [set_cells vs_cells]; rewrite Hc'; lia).
  cbn [assert_that]. intros [= <- <-].
  split; [by apply grew_set_cells|].
  cbn [set_cells vs_cells]. destruct Hpre as [k Hk1]. unfold vs_len in *. cbn [set_cells vs_cells].
  split; [done|]. split; [rewrite Hc'; lia|]. unfold cells'. split; [|split]; intros i Hi.
  - rewrite lookup_app_r by lia. rewrite Ht. replace (Z.to_nat start + i - Z.to_nat start)%nat with i by lia.
    rewrite Hout2 by lia. rewrite (Hin1 i ltac:(lia) : c1 !! i = _). unfold callee. rewrite lookup_drop, Hk1.
    rewrite lookup_app_l by lia. f_equal. lia.
  - rewrite lookup_app_r by lia. rewrite Ht. apply Hin2. lia.
  - rewrite lookup_app_l by lia. rewrite lookup_take_lt by lia. rewrite Hk1. by rewrite lookup_app_l by lia.
Qed.

(** A host call gets a window that starts at its parameters and has room for
    its results; the caller's frame keeps its pointer. *)
Lemma ValueStack_prepare_host_frame_spec v start params results r v' : vs_ok v ->
  0 <= start -> 0 <= params_head params < 2 ^ 16 -> 0 <= bspan_len params < 2 ^ 16 ->
  0 <= results < 2 ^ 16 -> start + params_head params + bspan_len params <= vs_len v ->
  ValueStack_prepare_host_frame start params results v = (r, v') ->
  grew v v' /\ vs_cells v `prefix_of` vs_cells v' /\
  match r with
  | Ok (sp, w) => sp = Sp_new start /\ win_start w = start + params_head params /\
      io_cells (win_params w) = take (Z.to_nat (Z.max (bspan_len params) results))
        (drop (Z.to_nat (win_start w)) (vs_cells v')) /\
      win_start w + Z.max (bspan_len params) results <= vs_len v'
  | Err e => grow_error v (start + params_head params + Z.max (bspan_len params) results) e
  | Panic => False
  end.
Proof.
  intros Hv Hs Hh Hp Hr Hpl. unfold ValueStack_prepare_host_frame. fold (params_head params). cbv zeta.
  rewrite (SpOffset_add_run v) by (done || lia). rewrite bind_lift.
  set (size := Z.max _ _). set (cstart := start + params_head params).
  intros E. apply grow_to in E as [(e & -> & Hg & He & ->)|(v1 & E & Hg & Hpre & Hlen1)]; [| |done|lia|lia].
  { by split_and!. }
  assert (Hlen : vs_len v <= vs_len v1) by apply Hg.
  revert E. rewrite bind_get_st. unfold ValueStack_sp.
  rewrite (proj2 (Z.leb_le start _)) by lia. cbn [assert_that].
  rewrite (bind_Ok (lift _) _ v1 (Sp_new start) v1) by done.
  unfold cells_from_to. rewrite (proj2 (Z.leb_le _ _)) by lia.
  replace (cstart + size - cstart) with size by lia.
  destruct (get_span cstart size (vs_cells v1)) as [io|] eqn:Eio.
  2:{ apply get_span_None in Eio; unfold vs_len in *; lia. }
  apply get_span_Some in Eio as [Hfit Eio]; [|lia..].
  assert (Hiol : Z.of_nat (length io) = size).
  { rewrite Eio, length_take, length_drop. unfold vs_len in *. lia. }
  cbn [expect]. rewrite bind_lift. unfold InOutParams_new. fold size. rewrite Hiol, Z.ltb_irrefl.
  cbn [inout_unwrap]. rewrite bind_lift. intros [= <- <-].
  split; [done|]. split; [done|].
  cbn [win_start win_params io_cells]. split_and!; [done|done|done|lia].
Qed.

Definition caller_start (caller : option (Ip * Z * Inst)) : Z := from_option (fun '(_, st, _) => st) 0 caller.

(** The pointer the caller of a tail-called host function goes on with: with no
    parameters and no results it is dangling when both frames start at the same
    cell. *)
Definition return_sp (caller : option (Ip * Z * Inst)) (callee_start size : Z) : Sp :=
  if size =? 0 then
    match caller with
    | Some (_, st, _) => if st =? callee_start then Sp_dangling else Sp_new st
    | None => Sp_dangling
    end
  else Sp_new (caller_start caller).

Lemma ValueStack_return_prepare_host_frame_spec v caller start params results r v' : vs_ok v ->
  0 <= start -> 0 <= params_head params < 2 ^ 16 -> 0 <= bspan_len params < 2 ^ 16 ->
  0 <= results < 2 ^ 16 -> start + params_head params + bspan_len params <= vs_len v ->
  0 <= caller_start caller <= vs_len v ->
  ValueStack_return_prepare_host_frame caller start params results v = (r, v') ->
  grew v v' /\
  match r with
  | Ok (control, w) =>
      control = return_control caller (return_sp caller start (Z.max (bspan_len params) results)) /\
      0 <= win_start w /\
      win_start w + Z.of_nat (length (io_cells (win_params w))) <= vs_len v' /\
      start + Z.max (bspan_len params) results <= vs_len v'
  | Err e => grow_error v (start + Z.max (bspan_len params) results) e
  | Panic => False
  end.
Proof.
  intros Hv Hs Hh Hp Hr Hpl Hc. unfold ValueStack_return_prepare_host_frame, return_sp.
  fold (params_head params). cbv zeta. set (size := Z.max _ _).
  destruct (Z.eqb_spec size 0) as [Hz|Hnz].
  { rewrite bind_get_st.
    rewrite (bind_Ok _ _ v match caller with
      | Some (_, st, _) => if st =? start then Sp_dangling else Sp_new st
      | None => Sp_dangling
      end v).
    - intros [= <- <-]. split; [by apply grew_refl|]. cbn [win_start win_params io_cells length].
      split_and!; [done|lia..].
    - destruct caller as [[[ip st] i]|]; [|done]. cbn in Hc |- *.
      destruct (Z.eqb_spec st start); cbn [negb]; [done|].
      unfold ValueStack_sp. by rewrite (proj2 (Z.leb_le st _)) by lia. }
  rewrite (SpOffset_add_run v start (params_head params)) by (done || lia). rewrite bind_lift.
  rewrite (SpOffset_add_run v _ (bspan_len params)) by (done || lia). rewrite bind_lift.
  destruct (copy_within_run (E := TrapCode) (start + params_head params)
    (start + params_head params + bspan_len params) start (vs_cells v)) as (c & Ec & Hl & _);
    [lia|lia|unfold vs_len in *; lia|].
  rewrite (bind_Ok _ _ v tt (set_cells c v)) by by apply update_cells_run.
  assert (Hg0 : grew v (set_cells c v)) by (apply grew_set_cells; [by apply grew_refl|done]).
  assert (Hl0 : vs_len (set_cells c v) = vs_len v) by (unfold vs_len; cbn; by rewrite Hl).
  intros E. apply grow_to in E as [(e & -> & Hg & He & ->)|(v1 & E & Hg & _ & Hfit)];
    [| |apply Hg0|lia|lia].
  { by split. }
  assert (Hg1 : grew v v1) by (destruct Hg0 as (?&?&?), Hg as (?&?&?); split_and!; [done|congruence|lia]).
  assert (Hlen : vs_len v <= vs_len v1) by apply Hg1.
  revert E. rewrite bind_get_st. unfold ValueStack_sp.
  change (from_option _ 0 caller) with (caller_start caller).
  rewrite (proj2 (Z.leb_le (caller_start caller) _)) by lia. cbn [assert_that].
  rewrite (bind_Ok (lift _) _ v1 (Sp_new (caller_start caller)) v1) by done.
  unfold cells_from_to. rewrite (proj2 (Z.leb_le _ _)) by lia.
  replace (start + size - start) with size by lia.
  destruct (get_span start size (vs_cells v1)) as [io|] eqn:Eio.
  2:{ apply get_span_None in Eio; unfold vs_len in *; lia. }
  apply get_span_length in Eio as Hiol; [|lia..].
  cbn [expect]. rewrite bind_lift. unfold InOutParams_new. fold size.
  rewrite (proj2 (Z.ltb_ge size _)), (proj2 (Z.ltb_ge _ size)) by lia.
  cbn [inout_unwrap]. rewrite bind_lift. intros [= <- <-]. split; [done|].
  cbn [win_start win_params io_cells]. split_and!; [done|lia..].
Qed.

End Values.

(** ** The interpreter between two calls *)

(** What the parameters promise: the code of a function is fixed, it has at
    least its parameters as locals and keeps its frame below the slot limit,
    compiling leaves the memories alone, and a host function that returns has
    filled its window. *)
Class EngineLaws (Store Error : Type) `{Engine Store Error} : Type := {
  func_params : EngineFunc -> Z;
  func_ip : EngineFunc -> Ip;
  func_locals : EngineFunc -> Z;
  func_slots : EngineFunc -> Z;
  func_law : forall f, 0 <= func_params f <= func_locals f /\ func_locals f <= func_slots f < 2 ^ 16;
  entry_law : forall f (st : Store), match get_or_compile f st with
    | (Ok entry, _) => entry = (func_ip f, func_locals f, func_slots f)
    | (Err _, _) => True
    | (Panic, _) => False
    end;
  compile_mem0 : forall f (st : Store) i, extract_mem0 (snd (get_or_compile f st)) i = extract_mem0 st i;
  host_law : forall t i io (st : Store), match call_host_func t i io st with
    | (Ok cells, _) => length cells = length (io_cells io)
    | (Err _, _) => True
    | (Panic, _) => False
    end
}.

(** The call operators; a function of the own instance is named by its body. *)
Inductive CallOp : Type :=
| Op_call_internal (func : EngineFunc) (params : BoundedSlotSpan)
| Op_call (func : FuncEntity) (params : BoundedSlotSpan)
| Op_return_call_internal (func : EngineFunc) (params : BoundedSlotSpan)
| Op_return_call (func : FuncEntity) (params : BoundedSlotSpan)
| Op_return.

Section Machine.
Context `{Allocator} `{Uninit} {Store Error : Type} `{EngineLaws Store Error}.
Local Notation VM A := (M (VmState Store) (Halt Error) A).

Definition exec (op : CallOp) (self : Args) : VM Args :=
  match op with
  | Op_call_internal func params => Args_call_func_entry func params None self
  | Op_call func params => call_wasm_or_host func params self
  | Op_return_call_internal func params => Args_return_call_func_entry func params None self
  | Op_return_call func params => return_call_wasm_or_host func params self
  | Op_return => Args_pop_frame self
  end.

Definition frame_ok (v : ValueStack) (a : AFrame) : Prop :=
  0 <= af_start a /\ 0 <= af_slots a < 2 ^ 16 /\ af_start a + af_slots a <= vs_len v.

Record stack_ok (s : Stack) (a : AFrame) (l : list AFrame) : Prop := {
  so_values : vs_ok (st_values s);
  so_frames : cs_repr (st_frames s) a l;
  so_bounds : Forall (frame_ok (st_values s)) (a :: l);
  so_height : Z.of_nat (S (length l)) <= cs_max_height (st_frames s)
}.

(** The running frame is [a], its callers are [l]: its pointer is right unless
    it has no cells, and the cached memory is that of its instance. *)
Record machine_ok (self : Args) (st : VmState Store) (a : AFrame) (l : list AFrame) : Prop := {
  mo_stack : stack_ok (vm_stack st) a l;
  mo_instance : a_instance self = af_inst a;
  mo_mem0 : a_mem0 self = extract_mem0 (vm_store st) (af_inst a);
  mo_sp : af_slots a = 0 \/ a_sp self = Sp_new (af_start a)
}.

(** The parameters of a call lie within the frame. *)
Definition params_ok (a : AFrame) (params : BoundedSlotSpan) : Prop :=
  0 <= params_head params < 2 ^ 16 /\ 0 <= bspan_len params < 2 ^ 16 /\
  params_head params + bspan_len params <= af_slots a.

Definition host_ok (h : HostFuncEntity) (params : BoundedSlotSpan) : Prop :=
  bspan_len params = hf_len_param_cells h /\ 0 <= hf_len_result_cells h < 2 ^ 16.

Definition keeps_mem0 (h : HostFuncEntity) : Prop := forall i io (st : Store) j,
  extract_mem0 (snd (call_host_func (hf_trampoline h) i io st)) j = extract_mem0 st j.

(** A host function may only be tail-called when it has parameters or results
    and leaves the memories alone. *)
Definition op_ok (op : CallOp) (a : AFrame) : Prop :=
  match op with
  | Op_call_internal f params | Op_return_call_internal f params =>
      params_ok a params /\ bspan_len params = func_params f
  | Op_call (FuncEntity_Wasm f) params | Op_return_call (FuncEntity_Wasm f) params =>
      params_ok a params /\ bspan_len params = func_params (wf_body f)
  | Op_call (FuncEntity_Host h) params => params_ok a params /\ host_ok h params
  | Op_return_call (FuncEntity_Host h) params =>
      params_ok a params /\ host_ok h params /\
      0 < Z.max (bspan_len params) (hf_len_result_cells h) /\ keeps_mem0 h
  | Op_return => True
  end.

(** The abstract machine: the effect of an operator on the running frame and
    its callers.  [ip] is the operator behind the call; the result starts with
    the operator that is run next.  [None]: the outermost function has ended. *)
Definition next_frames (ip : Ip) (a : AFrame) (l : list AFrame) (op : CallOp) :
    option (Ip * AFrame * list AFrame) :=
  match op with
  | Op_call_internal f params =>
      Some (func_ip f, callee_frame (func_ip f) (af_start a + params_head params) (af_inst a) (func_slots f),
            AFrame_sync ip a :: l)
  | Op_call (FuncEntity_Wasm w) params =>
      let f := wf_body w in
      Some (func_ip f, callee_frame (func_ip f) (af_start a + params_head params) (wf_instance w) (func_slots f),
            AFrame_sync ip a :: l)
  | Op_call (FuncEntity_Host _) _ => Some (ip, AFrame_sync ip a, l)
  | Op_return_call_internal f _ =>
      Some (func_ip f, callee_frame (func_ip f) (af_start a) (af_inst a) (func_slots f), l)
  | Op_return_call (FuncEntity_Wasm w) _ =>
      let f := wf_body w in
      Some (func_ip f, callee_frame (func_ip f) (af_start a) (wf_instance w) (func_slots f), l)
  | Op_return_call (FuncEntity_Host _) _ | Op_return =>
      match l with
      | b :: l => Some (af_ip b, b, l)
      | [] => None
      end
  end.

(** *** Leaving the loop *)

(** The cells of the value stack an operator needs, and whether it needs a frame. *)
Definition needed (op : CallOp) (a : AFrame) : Z :=
  match op with
  | Op_call_internal f params => af_start a + params_head params + func_slots f
  | Op_call (FuncEntity_Wasm w) params => af_start a + params_head params + func_slots (wf_body w)
  | Op_call (FuncEntity_Host h) params =>
      af_start a + params_head params + Z.max (bspan_len params) (hf_len_result_cells h)
  | Op_return_call_internal f _ => af_start a + func_slots f
  | Op_return_call (FuncEntity_Wasm w) _ => af_start a + func_slots (wf_body w)
  | Op_return_call (FuncEntity_Host h) params => af_start a + Z.max (bspan_len params) (hf_len_result_cells h)
  | Op_return => 0
  end.
Definition pushes (op : CallOp) : bool :=
  match op with Op_call_internal _ _ | Op_call (FuncEntity_Wasm _) _ => true | _ => false end.
Definition op_body (op : CallOp) : option EngineFunc :=
  match op with
  | Op_call_internal f _ | Op_return_call_internal f _ => Some f
  | Op_call (FuncEntity_Wasm w) _ | Op_return_call (FuncEntity_Wasm w) _ => Some (wf_body w)
  | _ => None
  end.

Definition frames_full (st : VmState Store) (l : list AFrame) : Prop :=
  Z.of_nat (S (length l)) = cs_max_height (st_frames (vm_stack st)).

(** The limits of both stacks allow the operator. *)
Definition fits (op : CallOp) (st : VmState Store) (a : AFrame) (l : list AFrame) : Prop :=
  (pushes op = true -> ~ frames_full st l) /\ needed op a <= vs_max_height (st_values (vm_stack st)).

Definition compile_fails (f : EngineFunc) (st : VmState Store) (h : Halt Error) : Prop :=
  exists e, h = Halt_Done (DoneReason_Error e) /\ fst (get_or_compile f (vm_store st)) = Err e.
Definition no_room (n : Z) (st : VmState Store) (h : Halt Error) : Prop :=
  exists e, h = Halt_Trap e /\ grow_error (st_values (vm_stack st)) n e.
Definition host_fails (t : Trampoline) (i : Inst) (on_err : Error -> DoneReason Error) (st : VmState Store)
    (h : Halt Error) : Prop :=
  exists io e, h = Halt_Done (on_err e) /\ fst (call_host_func t (Some i) io (vm_store st)) = Err e.

(** Why an operator leaves the loop: compiling the callee failed; the limit on the
    number of frames is reached; the value stack would exceed its limit, or memory
    for it could not be allocated; the host function failed; the outermost function
    returned. *)
Inductive halts (op : CallOp) (self : Args) (st : VmState Store) (a : AFrame) (l : list AFrame) :
    Halt Error -> Prop :=
| halts_compile f h : op_body op = Some f -> compile_fails f st h -> halts op self st a l h
| halts_frames : pushes op = true -> frames_full st l -> halts op self st a l (Halt_Trap StackOverflow)
| halts_cells h : no_room (needed op a) st h -> halts op self st a l h
| halts_host f params h : op = Op_call (FuncEntity_Host f) params \/ op = Op_return_call (FuncEntity_Host f) params /\ l <> [] ->
    host_fails (hf_trampoline f) (af_inst a)
      (fun e => DoneReason_Host e (FuncEntity_Host f) (bspan params)) st h -> halts op self st a l h
| halts_host_last f params h : op = Op_return_call (FuncEntity_Host f) params -> l = [] ->
    host_fails (hf_trampoline f) (af_inst a) DoneReason_Error st h -> halts op self st a l h
| halts_return sp : l = [] -> (op = Op_return /\ sp = a_sp self \/ exists f params, op = Op_return_call (FuncEntity_Host f) params) ->
    halts op self st a l (Halt_Done (DoneReason_Return sp)).

Lemma frame_ok_grew v v' a : grew v v' -> frame_ok v a -> frame_ok v' a.
Proof. intros (_ & _ & Hl) (? & ? & ?). split_and!; lia. Qed.

Lemma on_stack_run {A} (m : Stack -> res TrapCode A * Stack) (st : VmState Store) r k' :
  m (vm_stack st) = (r, k') ->
  on_stack (Error := Error) m st = (map_err Halt_Trap r, {| vm_store := vm_store st; vm_stack := k' |}).
Proof. intros Hm. unfold on_stack, zoom. by rewrite Hm. Qed.

(** Running [on_frames] and then [on_values]. *)
Lemma frames_then_values {A B} (m : M CallStack TrapCode A) (k : A -> M ValueStack TrapCode B) (s : Stack) x cs' :
  m (st_frames s) = (Ok x, cs') ->
  (y ← on_frames m; on_values (k y)) s =
  let '(r, v') := k x (st_values s) in
  (map_err id r, {| st_values := v'; st_frames := cs'; st_regs := st_regs s |}).
Proof.
  intros Hm. rewrite (bind_Ok _ _ _ x {| st_values := st_values s; st_frames := cs'; st_regs := st_regs s |}).
  - unfold on_values, zoom. cbn. by destruct (k x (st_values s)).
  - unfold on_frames, zoom. by rewrite Hm.
Qed.

Lemma Stack_push_frame_spec s a l caller_ip ip params locals slots instance r s' :
  stack_ok s a l -> params_ok a params -> bspan_len params <= locals -> locals <= slots < 2 ^ 16 ->
  Stack_push_frame (Some caller_ip) ip params locals slots instance s = (r, s') ->
  match r with
  | Ok sp => let start := af_start a + params_head params in
      sp = frame_sp start slots /\
      stack_ok s' (callee_frame ip start (default (af_inst a) instance) slots) (AFrame_sync caller_ip a :: l) /\
      Z.of_nat (S (length l)) <> cs_max_height (st_frames s) /\ start + slots <= vs_max_height (st_values s)
  | Err e => e = StackOverflow /\ Z.of_nat (S (length l)) = cs_max_height (st_frames s) \/
      grow_error (st_values s) (af_start a + params_head params + slots) e
  | Panic => False
  end.
Proof.
  intros [Hv Hf Hb Hh] (Hp1 & Hp2 & Hp3) Hl Hk. unfold Stack_push_frame.
  apply Forall_cons in Hb as [(Ha1 & Ha2 & Ha3) Hb].
  destruct (Z.eq_dec (Z.of_nat (S (length l))) (cs_max_height (st_frames s))) as [Hfull|Hroom].
  { rewrite bind_run. unfold on_frames, zoom, CallStack_push. rewrite bind_get_st.
    rewrite (cs_repr_length _ _ _ Hf), (proj2 (Z.eqb_eq _ _)) by done. intros [= <- <-]. by left. }
  destruct (CallStack_push_run caller_ip ip params instance (st_frames s) a l slots Hf) as (cs' & E & Hf' & Hm');
    [lia|apply (usize_room (st_values s)); [done|lia|lia]|].
  rewrite (frames_then_values _ _ _ _ _ E).
  destruct (ValueStack_push _ _ _ _ _) as [rv v'] eqn:Ev.
  apply ValueStack_push_spec in Ev as [Hg Hr]; [|done|lia|lia|lia|lia].
  intros [= <- <-]. destruct rv as [sp|e|]; cbn [map_err id] in *; [|by right|done].
  destruct Hr as (-> & Hlen & _). split; [done|].
  split; [|split; [done|by apply (grew_room _ _ _ Hg)]]. split; cbn [st_values st_frames].
  - apply Hg.
  - done.
  - apply Forall_cons. split; [unfold frame_ok; cbn; lia|].
    apply Forall_cons. split; [apply (frame_ok_grew _ _ _ Hg); unfold frame_ok; cbn; lia|].
    eapply Forall_impl; [done|]. intros x. by apply frame_ok_grew.
  - rewrite Hm'. cbn [length]. lia.
Qed.

Lemma Stack_replace_frame_spec s a l ip params locals slots instance r s' :
  stack_ok s a l -> params_ok a params -> bspan_len params <= locals -> locals <= slots < 2 ^ 16 ->
  instance <> Some (af_inst a) ->
  Stack_replace_frame ip params locals slots instance s = (r, s') ->
  match r with
  | Ok sp => sp = frame_sp (af_start a) slots /\
      stack_ok s' (callee_frame ip (af_start a) (default (af_inst a) instance) slots) l /\
      af_start a + slots <= vs_max_height (st_values s)
  | Err e => grow_error (st_values s) (af_start a + slots) e
  | Panic => False
  end.
Proof.
  intros [Hv Hf Hb Hh] (Hp1 & Hp2 & Hp3) Hl Hk Hne. unfold Stack_replace_frame.
  apply Forall_cons in Hb as [(Ha1 & Ha2 & Ha3) Hb].
  destruct (CallStack_replace_run ip instance (st_frames s) a l slots Hf Hne) as (cs' & E & Hf' & Hm').
  rewrite (frames_then_values _ _ _ _ _ E).
  destruct (ValueStack_replace _ _ _ _ _) as [rv v'] eqn:Ev.
  apply ValueStack_replace_spec in Ev as [Hg Hr]; [|done|lia|lia|lia|lia|lia].
  intros [= <- <-]. destruct rv as [sp|e|]; cbn [map_err id] in *; [|done..].
  destruct Hr as (-> & Hlen & _). split; [done|].
  split; [|by apply (grew_room _ _ _ Hg)]. split; cbn [st_values st_frames].
  - apply Hg.
  - done.
  - apply Forall_cons. split; [unfold frame_ok; cbn; lia|].
    eapply Forall_impl; [done|]. intros x. by apply frame_ok_grew.
  - by rewrite Hm'.
Qed.

Lemma stack_ok_values s a l v' : grew (st_values s) v' -> stack_ok s a l ->
  stack_ok {| st_values := v'; st_frames := st_frames s; st_regs := st_regs s |} a l.
Proof.
  intros Hg [Hv Hf Hb Hh]. split; cbn [st_values st_frames]; [apply Hg|done| |done].
  eapply Forall_impl; [done|]. intros x. by apply frame_ok_grew.
Qed.

(** A window that lies within the cells of the stack. *)
Definition window_ok (s : Stack) (w : Window) : Prop :=
  0 <= win_start w /\
  win_start w + Z.of_nat (length (io_cells (win_params w))) <= vs_len (st_values s).

Lemma write_window_ok s a l w cells : stack_ok s a l -> stack_ok (write_window w cells s) a l.
Proof.
  intros Hs. unfold write_window. apply (stack_ok_values s); [|done].
  apply grew_set_cells; [apply grew_refl, Hs|apply length_set_span].
Qed.

Lemma Stack_prepare_host_frame_spec s a l caller_ip params results r s' :
  stack_ok s a l -> params_ok a params -> 0 <= results < 2 ^ 16 ->
  Stack_prepare_host_frame (Some caller_ip) params results s = (r, s') ->
  match r with
  | Ok (sp, w) => sp = Sp_new (af_start a) /\ stack_ok s' (AFrame_sync caller_ip a) l /\ window_ok s' w /\
      af_start a + params_head params + Z.max (bspan_len params) results <= vs_max_height (st_values s)
  | Err e => grow_error (st_values s) (af_start a + params_head params + Z.max (bspan_len params) results) e
  | Panic => False
  end.
Proof.
  intros [Hv Hf Hb Hh] (Hp1 & Hp2 & Hp3) Hr. unfold Stack_prepare_host_frame.
  destruct (CallStack_sync_ip_run (E := TrapCode) caller_ip _ _ _ Hf) as (cs' & E & Hf' & Hm').
  assert (E' : CallStack_prepare_host_frame (E := TrapCode) (Some caller_ip) (st_frames s) = (Ok (af_start a), cs')).
  { unfold CallStack_prepare_host_frame. rewrite (bind_Ok _ _ _ _ _ E), bind_get_st.
    by rewrite (CallStack_top_start_run _ _ _ Hf'). }
  rewrite (frames_then_values _ _ _ _ _ E').
  apply Forall_cons in Hb as [(Ha1 & Ha2 & Ha3) Hb].
  destruct (ValueStack_prepare_host_frame _ _ _ _) as [rv v'] eqn:Ev.
  apply ValueStack_prepare_host_frame_spec in Ev as (Hg & _ & Hr'); [|done|lia|lia|lia|lia|lia].
  intros [= <- <-]. destruct rv as [[sp w]|e|]; cbn [map_err id] in *; [|done..].
  destruct Hr' as (-> & Hw & Hio & Hfit). split; [done|].
  split; [|split; [split; [lia|]|apply (grew_room _ _ _ Hg); lia]].
  - apply (stack_ok_values {| st_values := st_values s; st_frames := cs'; st_regs := st_regs s |});
      [done|]. split; [done|done| |cbn [st_frames]; by rewrite Hm'].
    apply Forall_cons. split; [by unfold frame_ok|done].
  - cbn [st_values]. rewrite Hio, length_take, length_drop. unfold vs_len in *. lia.
Qed.

Lemma sp_or_dangling_run {E} v a : frame_ok v a ->
  exists sp, sp_or_dangling (E := E) v (af_start a) = Ok sp /\ (af_slots a = 0 \/ sp = Sp_new (af_start a)).
Proof.
  intros (Hs & Hk & Hfit). unfold sp_or_dangling, ValueStack_sp, vs_len in *.
  destruct (vs_cells v) as [|c cells] eqn:Ec.
  - cbn [length] in Hfit. rewrite (proj2 (Z.eqb_eq _ _)) by lia. exists Sp_dangling. split; [done|left; lia].
  - rewrite <-Ec in *. rewrite (proj2 (Z.leb_le _ _)) by lia. eauto.
Qed.

Lemma Stack_pop_frame_spec {E} s a b l get_mem0 mem0 : stack_ok s a (b :: l) ->
  mem0 = get_mem0 (af_inst a) ->
  exists sp s', Stack_pop_frame (E := E) get_mem0 mem0 (af_inst a) s =
      (Ok (Some (af_ip b, sp, get_mem0 (af_inst b), af_inst b)), s') /\
    stack_ok s' b l /\ (af_slots b = 0 \/ sp = Sp_new (af_start b)).
Proof.
  intros [Hv Hf Hb Hh] ->. destruct (CallStack_pop_run (E := E) _ _ _ _ Hf) as (ch & cs' & Ep & Hf' & Hm' & Hi).
  apply Forall_cons in Hb as [_ Hb].
  destruct (sp_or_dangling_run (E := E) (st_values s) b) as (sp & Esp & Hsp); [by apply Forall_cons in Hb as [? _]|].
  set (s' := {| st_values := st_values s; st_frames := cs'; st_regs := st_regs s |}).
  exists sp, s'. split; [|split; [|done]].
  - unfold Stack_pop_frame. rewrite (bind_Ok _ _ _ (Some (af_ip b, af_start b, ch)) s').
    + rewrite bind_get_st. subst s'. cbn [st_values]. rewrite Esp, bind_lift.
      rewrite Hi. by destruct ch.
    + unfold on_frames, zoom. by rewrite Ep.
  - split; [done|done|done|]. cbn. rewrite Hm'. cbn [length] in Hh. lia.
Qed.

Definition frame_caller (b : AFrame) : option (Ip * Z * Inst) := Some (af_ip b, af_start b, af_inst b).

Lemma Stack_return_prepare_host_frame_spec s a b l params results r s' :
  stack_ok s a (b :: l) -> params_ok a params -> 0 <= results < 2 ^ 16 ->
  Stack_return_prepare_host_frame params results (af_inst a) s = (r, s') ->
  match r with
  | Ok (control, w) =>
      control = Continue (af_ip b)
        (return_sp (frame_caller b) (af_start a) (Z.max (bspan_len params) results)) (af_inst b) /\
      stack_ok s' b l /\ window_ok s' w /\
      af_start a + Z.max (bspan_len params) results <= vs_max_height (st_values s)
  | Err e => grow_error (st_values s) (af_start a + Z.max (bspan_len params) results) e
  | Panic => False
  end.
Proof.
  intros [Hv Hf Hb Hh] (Hp1 & Hp2 & Hp3) Hr. unfold Stack_return_prepare_host_frame.
  destruct (CallStack_pop_run (E := TrapCode) _ _ _ _ Hf) as (ch & cs' & Ep & Hf' & Hm' & Hi).
  assert (E : CallStack_return_prepare_host_frame (E := TrapCode) (af_inst a) (st_frames s) =
    (Ok (af_start a, frame_caller b), cs')).
  { unfold CallStack_return_prepare_host_frame. rewrite bind_get_st. cbv zeta.
    rewrite (bind_Ok _ _ _ _ _ Ep), (CallStack_top_start_run _ _ _ Hf).
    unfold frame_caller. by rewrite Hi. }
  pose proof (frames_then_values _ (fun '(callee_start, caller) =>
    ValueStack_return_prepare_host_frame caller callee_start params results) _ _ _ E) as Ev.
  assert (Hu : forall m : M Stack TrapCode _,
    (y ← m; on_values (let '(callee_start, caller) := y in
       ValueStack_return_prepare_host_frame caller callee_start params results)) s =
    ('(callee_start, caller) ← m;
     on_values (ValueStack_return_prepare_host_frame caller callee_start params results)) s).
  { intros m. rewrite !bind_run. by destruct (m s) as [[[]| |] ?]. }
  rewrite Hu in Ev. rewrite Ev. clear Ev Hu.
  apply Forall_cons in Hb as [(Ha1 & Ha2 & Ha3) Hb]. apply Forall_cons in Hb as Hb'.
  destruct Hb' as [(Hb1 & Hb2 & Hb3) _].
  destruct (ValueStack_return_prepare_host_frame _ _ _ _ _) as [rv v'] eqn:Ev.
  apply ValueStack_return_prepare_host_frame_spec in Ev as [Hg Hr']; [|done|lia..|cbn; lia].
  intros [= <- <-]. destruct rv as [[control w]|e|]; cbn [map_err id] in *; [|done..].
  destruct Hr' as (-> & Hw1 & Hw2 & Hfit). split; [done|].
  split; [|split; [by split|by apply (grew_room _ _ _ Hg)]].
  apply (stack_ok_values {| st_values := st_values s; st_frames := cs'; st_regs := st_regs s |});
    [done|]. split; [done|done|done|]. cbn [st_frames]. rewrite Hm'. cbn [length] in Hh. lia.
Qed.

(** ** The operators refine the frames *)

Definition same_mem0 (st st' : VmState Store) : Prop :=
  forall j, extract_mem0 (vm_store st') j = extract_mem0 (vm_store st) j.

(** Compiling a function and then changing the stack. *)
Lemma compile_then {A} f (st : VmState Store) (k : Ip * Z * Z -> VM A) r st' :
  (on_store (get_or_compile f) ≫= k) st = (r, st') ->
  (exists h, r = Err h /\ compile_fails f st h) \/
  exists st1, k (func_ip f, func_locals f, func_slots f) st1 = (r, st') /\
    vm_stack st1 = vm_stack st /\ same_mem0 st st1.
Proof.
  rewrite bind_run. unfold on_store, zoom.
  pose proof (entry_law f (vm_store st)) as He. pose proof (compile_mem0 f (vm_store st)) as Hm.
  unfold compile_fails. destruct (get_or_compile f (vm_store st)) as [[entry|e|] st1]; [| |by destruct He].
  2:{ intros [= <- <-]. left. eexists. split; [done|]. by exists e. }
  subst entry. intros E. right. eexists. split; [exact E|]. by split.
Qed.

Lemma call_wasm_spec st a l caller_ip params f instance r st' :
  stack_ok (vm_stack st) a l -> params_ok a params -> bspan_len params = func_params f ->
  call_wasm caller_ip params f instance st = (r, st') ->
  match r with
  | Ok (ip, sp) => let start := af_start a + params_head params in
      ip = func_ip f /\
      stack_ok (vm_stack st') (callee_frame ip start (default (af_inst a) instance) (func_slots f))
        (AFrame_sync caller_ip a :: l) /\
      (func_slots f = 0 \/ sp = Sp_new start) /\ same_mem0 st st' /\
      ~ frames_full st l /\ start + func_slots f <= vs_max_height (st_values (vm_stack st))
  | Err h => compile_fails f st h \/ h = Halt_Trap StackOverflow /\ frames_full st l \/
      no_room (af_start a + params_head params + func_slots f) st h
  | Panic => False
  end.
Proof.
  intros Hs Hp Hf E. unfold call_wasm in E.
  apply (compile_then f st) in E as [(h & -> & Hh)|(st1 & E & Hst & Hm)]; [by left|].
  pose proof (func_law f) as [Hl Hk]. unfold frames_full, no_room. rewrite <-Hst in *.
  destruct (Stack_push_frame (Some caller_ip) (func_ip f) params (func_locals f) (func_slots f) instance (vm_stack st1)) as [rs k'] eqn:Ek.
  rewrite bind_run, (on_stack_run _ _ _ _ Ek) in E.
  apply (Stack_push_frame_spec _ _ _ _ _ _ _ _ _ _ _ Hs Hp) in Ek; [|lia|lia].
  destruct rs as [sp|e|]; cbn [map_err] in E; [| |done]; injection E as <- <-.
  - destruct Ek as (-> & Hk' & Hfits). cbv zeta. split; [done|]. split; [done|]. split; [|done].
    unfold frame_sp. destruct (Z.eqb_spec (func_slots f) 0); auto.
  - right. destruct Ek as [[-> ?]|?]; [by left|]. right. by eexists.
Qed.

Lemma return_call_wasm_spec st a l params f instance r st' :
  stack_ok (vm_stack st) a l -> params_ok a params -> bspan_len params = func_params f ->
  instance <> Some (af_inst a) ->
  return_call_wasm params f instance st = (r, st') ->
  match r with
  | Ok (ip, sp) => ip = func_ip f /\
      stack_ok (vm_stack st') (callee_frame ip (af_start a) (default (af_inst a) instance) (func_slots f)) l /\
      (func_slots f = 0 \/ sp = Sp_new (af_start a)) /\ same_mem0 st st' /\
      af_start a + func_slots f <= vs_max_height (st_values (vm_stack st))
  | Err h => compile_fails f st h \/ no_room (af_start a + func_slots f) st h
  | Panic => False
  end.
Proof.
  intros Hs Hp Hf Hne E. unfold return_call_wasm in E.
  apply (compile_then f st) in E as [(h & -> & Hh)|(st1 & E & Hst & Hm)]; [by left|].
  pose proof (func_law f) as [Hl Hk]. unfold no_room. rewrite <-Hst in *.
  destruct (Stack_replace_frame (func_ip f) params (func_locals f) (func_slots f) instance (vm_stack st1)) as [rs k'] eqn:Ek.
  rewrite bind_run, (on_stack_run _ _ _ _ Ek) in E.
  apply (Stack_replace_frame_spec _ _ _ _ _ _ _ _ _ _ Hs Hp) in Ek; [|lia|lia|done].
  destruct rs as [sp|e|]; cbn [map_err] in E; [| |done]; injection E as <- <-; [|right; by eexists].
  destruct Ek as (-> & Hk' & Hfits). split; [done|]. split; [done|]. split; [|done].
  unfold frame_sp. destruct (Z.eqb_spec (func_slots f) 0); auto.
Qed.

(** Running a host function on a window. *)
Lemma invoke_host_spec t instance w on_err (st : VmState Store) r st' a l :
  stack_ok (vm_stack st) a l -> invoke_host t (Some instance) w on_err st = (r, st') ->
  match r with
  | Ok _ => stack_ok (vm_stack st') a l /\
      vm_store st' = snd (call_host_func t (Some instance) (win_params w) (vm_store st))
  | Err h => host_fails t instance on_err st h
  | Panic => False
  end.
Proof.
  intros Hs. unfold invoke_host, host_fails. pose proof (host_law t (Some instance) (win_params w) (vm_store st)) as Hh.
  destruct (call_host_func t (Some instance) (win_params w) (vm_store st)) as [[cells|e|] store] eqn:Ec;
    [|intros [= <- <-]; eexists _, e; by rewrite Ec|done].
  intros [= <- <-]. split; [|done]. by apply write_window_ok.
Qed.

Lemma call_host_spec st a l caller_ip h params instance r st' :
  stack_ok (vm_stack st) a l -> params_ok a params -> host_ok h params ->
  call_host h (Some caller_ip) params (Some instance) st = (r, st') ->
  let n := af_start a + params_head params + Z.max (bspan_len params) (hf_len_result_cells h) in
  match r with
  | Ok sp => sp = Sp_new (af_start a) /\ stack_ok (vm_stack st') (AFrame_sync caller_ip a) l /\
      n <= vs_max_height (st_values (vm_stack st))
  | Err halt => no_room n st halt \/ host_fails (hf_trampoline h) instance
      (fun e => DoneReason_Host e (FuncEntity_Host h) (bspan params)) st halt
  | Panic => False
  end.
Proof.
  intros Hs Hp (Hl & Hr) E. unfold call_host in E.
  rewrite (bind_Ok _ _ _ tt st) in E by (unfold assert_m; by rewrite Hl, Z.eqb_refl).
  destruct (Stack_prepare_host_frame (Some caller_ip) params (hf_len_result_cells h) (vm_stack st)) as [rs k'] eqn:Ek.
  rewrite bind_run, (on_stack_run _ _ _ _ Ek) in E.
  apply (Stack_prepare_host_frame_spec _ _ _ _ _ _ _ _ Hs Hp Hr) in Ek.
  destruct rs as [[sp w]|e|]; cbn [map_err] in E; [|injection E as <- <-; left; by eexists|done].
  destruct Ek as (-> & Hk & Hw & Hfits). rewrite bind_run in E.
  destruct (invoke_host _ _ _ _ _) as [ri st1] eqn:Ei in E.
  eapply invoke_host_spec in Ei; [|exact Hk].
  destruct ri as [[]|e|]; [|injection E as <- <-; by right|done]. injection E as <- <-. by destruct Ei.
Qed.

Lemma return_call_host_spec st a b l h params r st' :
  stack_ok (vm_stack st) a (b :: l) -> params_ok a params -> host_ok h params ->
  return_call_host h params (af_inst a) st = (r, st') ->
  match r with
  | Ok (ip, sp, instance) => ip = af_ip b /\ instance = af_inst b /\
      sp = return_sp (frame_caller b) (af_start a) (Z.max (bspan_len params) (hf_len_result_cells h)) /\
      stack_ok (vm_stack st') b l /\
      (exists io, vm_store st' = snd (call_host_func (hf_trampoline h) (Some (af_inst a)) io (vm_store st))) /\
      af_start a + Z.max (bspan_len params) (hf_len_result_cells h) <= vs_max_height (st_values (vm_stack st))
  | Err halt => no_room (af_start a + Z.max (bspan_len params) (hf_len_result_cells h)) st halt \/
      host_fails (hf_trampoline h) (af_inst a) (fun e => DoneReason_Host e (FuncEntity_Host h) (bspan params)) st halt
  | Panic => False
  end.
Proof.
  intros Hs Hp (Hl & Hr) E. unfold return_call_host in E.
  rewrite (bind_Ok _ _ _ tt st) in E by (unfold assert_m; by rewrite Hl, Z.eqb_refl).
  destruct (Stack_return_prepare_host_frame params (hf_len_result_cells h) (af_inst a) (vm_stack st)) as [rs k'] eqn:Ek.
  rewrite bind_run, (on_stack_run _ _ _ _ Ek) in E.
  apply (Stack_return_prepare_host_frame_spec _ _ _ _ _ _ _ _ Hs Hp Hr) in Ek.
  destruct rs as [[control w]|e|]; cbn [map_err] in E; [|injection E as <- <-; left; by eexists|done].
  destruct Ek as (-> & Hk & Hw & Hfits). rewrite bind_run in E.
  destruct (invoke_host _ _ _ _ _) as [ri st1] eqn:Ei in E.
  eapply invoke_host_spec in Ei; [|exact Hk].
  destruct ri as [[]|e|]; [|injection E as <- <-; by right|done]. injection E as <- <-.
  destruct Ei as [Hk1 ->]. split_and!; [done..| |done]. by exists (win_params w).
Qed.

Lemma update_instance_run (st : VmState Store) i j mem0 : mem0 = extract_mem0 (vm_store st) i ->
  update_instance (vm_store st) i j mem0 = (j, extract_mem0 (vm_store st) j).
Proof. intros ->. unfold update_instance. case_bool_decide; by subst. Qed.

End Machine.
