(* ===== verification/CallRefine.v ===== *)
(** * The interpreter's calls refine a stack of frames

    Every call operator, run from a state in which the stacks represent the
    running frame and its callers, goes on with the operator the abstract
    machine [next_frames] names, in a state that represents its frames - or
    leaves the loop for the reason [halts] gives.  Two operators are outside of
    this, as they go wrong: a tail call of a host function without parameters and
    results, and one of a host function that changes a memory. *)

From Stdlib Require Import ZArith Lia.
From stdpp Require Import base option decidable numbers list.
From S2P Require Import Prelude Trap Value Slot Cells ExecStack Calls CallSpec.
Local Open Scope Z_scope.

Section Refine.
Context `{Allocator} `{Uninit} {Store Error : Type} `{EngineLaws Store Error}.
Local Notation VM A := (M (VmState Store) (Halt Error) A).

Lemma return_call_host_last self st a h params r st' :
  stack_ok (vm_stack st) a [] -> params_ok a params -> host_ok h params ->
  return_call_host h params (af_inst a) st = (r, st') ->
  exists halt, r = Err halt /\ halts (Op_return_call (FuncEntity_Host h) params) self st a [] halt.
Proof.
  intros [Hv Hf Hb Hh] (Hp1 & Hp2 & Hp3) (Hl & Hr) E. unfold return_call_host in E.
  rewrite (bind_Ok _ _ _ tt st) in E by (unfold assert_m; by rewrite Hl, Z.eqb_refl).
  apply Forall_cons in Hb as [(Ha1 & Ha2 & Ha3) _].
  destruct (CallStack_pop_last (E := TrapCode) _ _ Hf) as (cs' & Ep).
  assert (Ec : CallStack_return_prepare_host_frame (E := TrapCode) (af_inst a) (st_frames (vm_stack st)) =
    (Ok (af_start a, None), cs')).
  { unfold CallStack_return_prepare_host_frame. rewrite bind_get_st. cbv zeta.
    by rewrite (bind_Ok _ _ _ _ _ Ep), (CallStack_top_start_run _ _ _ Hf). }
  destruct (ValueStack_return_prepare_host_frame None (af_start a) params (hf_len_result_cells h)
    (st_values (vm_stack st))) as [rv v'] eqn:Ev.
  assert (Ek : exists k', Stack_return_prepare_host_frame params (hf_len_result_cells h) (af_inst a)
    (vm_stack st) = (rv, k')).
  { unfold Stack_return_prepare_host_frame.
    erewrite bind_Ok by (unfold on_frames, zoom; by rewrite Ec).
    unfold on_values, zoom. cbn. rewrite Ev. destruct rv; eauto. }
  destruct Ek as [k' Ek]. rewrite bind_run, (on_stack_run _ _ _ _ Ek) in E.
  apply ValueStack_return_prepare_host_frame_spec in Ev as [_ Hr']; [|done|lia..|cbn; unfold vs_len; lia].
  destruct rv as [[control w]|e|]; cbn [map_err] in E;
    [|injection E as <- <-; eexists; split; [done|]; apply halts_cells; by eexists|done].
  destruct Hr' as (-> & _). rewrite bind_run in E. unfold invoke_host in E. cbn [vm_store vm_stack return_control] in E.
  pose proof (host_law (hf_trampoline h) (Some (af_inst a)) (win_params w) (vm_store st)) as Hh'.
  destruct (call_host_func _ _ _ _) as [[cells|e|] store] eqn:Eh in E, Hh'; [| |done];
    injection E as <- <-; eexists; (split; [done|]).
  - apply halts_return; [done|]. right. by eexists _, _.
  - eapply halts_host_last; [done..|]. exists (win_params w), e. by rewrite Eh.
Qed.

(** The outcome of one operator: it goes on if the limits allow it. *)
Definition step_ok (op : CallOp) (self : Args) (st : VmState Store) (a : AFrame) (l : list AFrame)
    (r : res (Halt Error) Args) (st' : VmState Store) : Prop :=
  match r with
  | Ok self' => exists a' l', next_frames (a_ip self) a l op = Some (a_ip self', a', l') /\
      machine_ok self' st' a' l' /\ fits op st a l
  | Err h => halts op self st a l h
  | Panic => False
  end.

(** A result of [VM (Ip * Sp)] becomes the new registers. *)
Lemma machine_ok_intro ip sp mem0 i (st : VmState Store) a l : stack_ok (vm_stack st) a l -> i = af_inst a ->
  mem0 = extract_mem0 (vm_store st) (af_inst a) -> (af_slots a = 0 \/ sp = Sp_new (af_start a)) ->
  machine_ok {| a_ip := ip; a_sp := sp; a_mem0 := mem0; a_instance := i |} st a l.
Proof. by split. Qed.

Lemma call_halts op f self st a l h : op_body op = Some f -> pushes op = true ->
  compile_fails f st h \/ h = Halt_Trap StackOverflow /\ frames_full st l \/ no_room (needed op a) st h ->
  halts op self st a l h.
Proof.
  intros Hb Hp [?|[[-> ?]|?]]; [by eapply halts_compile|by apply halts_frames|by apply halts_cells].
Qed.
Lemma return_call_halts op f self st a l h : op_body op = Some f ->
  compile_fails f st h \/ no_room (needed op a) st h -> halts op self st a l h.
Proof. intros Hb [?|?]; [by eapply halts_compile|by apply halts_cells]. Qed.

Lemma call_internal_step st a l self f params r st' :
  machine_ok self st a l -> params_ok a params -> bspan_len params = func_params f ->
  Args_call_func_entry f params None self st = (r, st') ->
  step_ok (Op_call_internal f params) self st a l r st'.
Proof.
  intros [Hs Hi Hm Hsp] Hp Hf E. unfold Args_call_func_entry in E. rewrite bind_run in E.
  destruct (call_wasm _ _ _ _ st) as [rc st1] eqn:Ec.
  eapply call_wasm_spec in Ec; [|done..].
  destruct rc as [[ip sp]|h|]; [|injection E as <- <-; by eapply call_halts|done]. injection E as <- <-.
  destruct Ec as (-> & Hk & Hsp' & Hm' & Hfull & Hfit). eexists _, _. split; [done|]. split; [|by split].
  apply machine_ok_intro; [done|done| |done]. cbn. by rewrite Hm, Hm'.
Qed.

Lemma call_step st a l self f params r st' :
  machine_ok self st a l -> op_ok (Op_call f params) a ->
  call_wasm_or_host f params self st = (r, st') ->
  step_ok (Op_call f params) self st a l r st'.
Proof.
  intros [Hs Hi Hm Hsp] Hop E. destruct f as [w|h]; cbn in Hop |- *; unfold call_wasm_or_host in E;
    rewrite bind_run in E.
  - destruct Hop as [Hp Hf]. destruct (call_wasm _ _ _ _ st) as [rc st1] eqn:Ec.
    eapply call_wasm_spec in Ec; [|done..].
    destruct rc as [[ip sp]|h|]; [|injection E as <- <-; by eapply call_halts|done].
    destruct Ec as (-> & Hk & Hsp' & Hm' & Hfull & Hfit). rewrite bind_get_st in E.
    rewrite update_instance_run in E by by rewrite Hi, Hm, Hm'. injection E as <- <-.
    eexists _, _. split; [done|]. split; [by apply machine_ok_intro|by split].
  - destruct Hop as [Hp Hh]. rewrite Hi in E. destruct (call_host _ _ _ _ st) as [rc st1] eqn:Ec.
    eapply call_host_spec in Ec; [|done..].
    destruct rc as [sp|h'|]; [|injection E as <- <-|done].
    + destruct Ec as (-> & Hk & Hfit). rewrite bind_get_st in E. injection E as <- <-.
      eexists _, _. split; [done|]. split; [by apply machine_ok_intro; auto|by split].
    + destruct Ec as [?|?]; [by apply halts_cells|]. eapply halts_host; [by left|done].
Qed.

Lemma return_call_internal_step st a l self f params r st' :
  machine_ok self st a l -> params_ok a params -> bspan_len params = func_params f ->
  Args_return_call_func_entry f params None self st = (r, st') ->
  step_ok (Op_return_call_internal f params) self st a l r st'.
Proof.
  intros [Hs Hi Hm Hsp] Hp Hf E. unfold Args_return_call_func_entry in E. rewrite bind_run in E.
  destruct (return_call_wasm _ _ _ st) as [rc st1] eqn:Ec.
  eapply return_call_wasm_spec in Ec; [|done..].
  destruct rc as [[ip sp]|h|]; [|injection E as <- <-; by eapply return_call_halts|done]. injection E as <- <-.
  destruct Ec as (-> & Hk & Hsp' & Hm' & Hfit). eexists _, _. split; [done|]. split; [|by split].
  apply machine_ok_intro; [done|done| |done]. cbn. by rewrite Hm, Hm'.
Qed.

Lemma return_call_step st a l self f params r st' :
  machine_ok self st a l -> op_ok (Op_return_call f params) a ->
  return_call_wasm_or_host f params self st = (r, st') ->
  step_ok (Op_return_call f params) self st a l r st'.
Proof.
  intros [Hs Hi Hm Hsp] Hop E. destruct f as [w|h]; cbn in Hop; unfold return_call_wasm_or_host in E;
    rewrite !bind_run in E.
  - destruct Hop as [Hp Hf].
    set (changed := if bool_decide _ then None else Some _) in E.
    assert (Hc : changed <> Some (af_inst a) /\ default (af_inst a) changed = wf_instance w).
    { subst changed. clear E. rewrite Hi. case_bool_decide; cbn; split; congruence. }
    destruct Hc as [Hne Hdef].
    destruct (return_call_wasm _ _ changed st) as [rc st1] eqn:Ec.
    eapply return_call_wasm_spec in Ec; [|done..].
    destruct rc as [[ip sp]|h|]; [|injection E as <- <-; by eapply return_call_halts|done].
    destruct Ec as (-> & Hk & Hsp' & Hm' & Hfit). cbn in E. rewrite bind_get_st in E.
    rewrite update_instance_run in E by by rewrite Hi, Hm, Hm'. injection E as <- <-.
    rewrite Hdef in Hk. eexists _, _. split; [done|]. split; [by apply machine_ok_intro|by split].
  - destruct Hop as (Hp & Hh & Hpos & Hkeep). rewrite Hi in E.
    destruct (return_call_host _ _ _ st) as [rc st1] eqn:Ec. destruct l as [|b l].
    + eapply return_call_host_last in Ec as (h' & -> & Hh'); [|done..]. injection E as <- <-. exact Hh'.
    + eapply return_call_host_spec in Ec; [|done..].
      destruct rc as [[[ip sp] i]|h'|]; [|injection E as <- <-|done].
      2:{ destruct Ec as [?|?]; [by apply halts_cells|]. eapply halts_host; [by right|done]. }
      destruct Ec as (-> & -> & -> & Hk & (io & Hst) & Hfit). cbn in E. rewrite bind_get_st in E.
      rewrite update_instance_run in E by by rewrite Hm, Hst, Hkeep. injection E as <- <-.
      eexists _, _. split; [done|]. split; [|by split]. apply machine_ok_intro; [done..|]. right.
      unfold return_sp. rewrite (proj2 (Z.eqb_neq _ _)) by lia. done.
Qed.

Lemma return_step st a l self r st' : machine_ok self st a l ->
  Args_pop_frame self st = (r, st') -> step_ok Op_return self st a l r st'.
Proof.
  intros [Hs Hi Hm Hsp] E. unfold Args_pop_frame in E. rewrite bind_get_st, Hi in E. destruct l as [|b l].
  - destruct Hs as [Hv Hf Hb Hh]. destruct (CallStack_pop_last (E := TrapCode) _ _ Hf) as (cs' & Ep).
    revert E. rewrite bind_run. erewrite on_stack_run.
    2:{ unfold Stack_pop_frame. erewrite bind_Ok by (unfold on_frames, zoom; by rewrite Ep). done. }
    cbn. intros [= <- <-]. apply halts_return; [done|]. by left.
  - pose proof (vs_below _ (so_values _ _ _ Hs)) as Hmax. unfold vs_len in Hmax.
    destruct (Stack_pop_frame_spec (E := TrapCode) _ _ _ _ (extract_mem0 (vm_store st)) _ Hs Hm)
      as (sp & s' & Ep & Hs' & Hsp').
    revert E. rewrite bind_run. erewrite on_stack_run by exact Ep. cbn. intros [= <- <-].
    eexists _, _. split; [done|]. split; [by apply machine_ok_intro|split; [done|cbn; lia]].
Qed.

Lemma exec_step op st a l self r st' : machine_ok self st a l -> op_ok op a ->
  exec op self st = (r, st') -> step_ok op self st a l r st'.
Proof.
  intros Hm Hop E. destruct op; cbn [exec] in E.
  - destruct Hop. by eapply call_internal_step.
  - by eapply call_step.
  - destruct Hop. by eapply return_call_internal_step.
  - by eapply return_call_step.
  - by eapply return_step.
Qed.

(** ** Runs

    Between two calls the code of a function moves the instruction pointer,
    writes cells and registers, and changes the store, after which it reloads
    the cached memory. *)
Inductive Event : Type :=
| Ev_op (op : CallOp)
| Ev_local (ip : Ip) (write : list Cell -> list Cell) (update : Store -> Store).

Definition exec_event (e : Event) (self : Args) : VM Args :=
  match e with
  | Ev_op op => exec op self
  | Ev_local ip write update =>
      st ← get_st;
      let stack := vm_stack st in
      let store := update (vm_store st) in
      put_st {| vm_store := store;
                vm_stack := {| st_values := set_cells (write (vs_cells (st_values stack))) (st_values stack);
                               st_frames := st_frames stack; st_regs := st_regs stack |} |};;
      mret (Args_reload_mem0 store {| a_ip := ip; a_sp := a_sp self; a_mem0 := a_mem0 self;
                                      a_instance := a_instance self |})
  end.

Fixpoint exec_all (es : list Event) (self : Args) : VM Args :=
  match es with
  | [] => mret self
  | e :: es => self ← exec_event e self; exec_all es self
  end.

Definition next_event (ip : Ip) (a : AFrame) (l : list AFrame) (e : Event) :
    option (Ip * AFrame * list AFrame) :=
  match e with
  | Ev_op op => next_frames ip a l op
  | Ev_local ip _ _ => Some (ip, a, l)
  end.

Fixpoint run_frames (es : list Event) (ip : Ip) (a : AFrame) (l : list AFrame) :
    option (Ip * AFrame * list AFrame) :=
  match es with
  | [] => Some (ip, a, l)
  | e :: es => '(ip, a, l) ← next_event ip a l e; run_frames es ip a l
  end.

Definition event_ok (a : AFrame) (e : Event) : Prop :=
  match e with
  | Ev_op op => op_ok op a
  | Ev_local _ write _ => forall cells, length (write cells) = length cells
  end.

Fixpoint events_ok (es : list Event) (ip : Ip) (a : AFrame) (l : list AFrame) : Prop :=
  match es with
  | [] => True
  | e :: es => event_ok a e /\
      match next_event ip a l e with
      | Some (ip, a, l) => events_ok es ip a l
      | None => True
      end
  end.

Definition event_halts (e : Event) (self : Args) (st : VmState Store) (a : AFrame) (l : list AFrame)
    (h : Halt Error) : Prop :=
  match e with Ev_op op => halts op self st a l h | Ev_local _ _ _ => False end.
Definition event_fits (e : Event) (st : VmState Store) (a : AFrame) (l : list AFrame) : Prop :=
  match e with Ev_op op => fits op st a l | Ev_local _ _ _ => True end.

Lemma exec_event_step e st a l self r st' : machine_ok self st a l -> event_ok a e ->
  exec_event e self st = (r, st') ->
  match r with
  | Ok self' => exists a' l', next_event (a_ip self) a l e = Some (a_ip self', a', l') /\
      machine_ok self' st' a' l' /\ event_fits e st a l
  | Err h => event_halts e self st a l h
  | Panic => False
  end.
Proof.
  intros Hm He E. destruct e as [op|ip write update].
  - by eapply exec_step in E.
  - destruct Hm as [Hs Hi Hm Hsp]. injection E as <- <-. eexists _, _. split; [done|]. split; [|done].
    apply machine_ok_intro; [|done|by rewrite <-Hi|done]. cbn [vm_stack].
    apply (stack_ok_values (vm_stack st)); [|done].
    apply grew_set_cells; [apply grew_refl, Hs|apply He].
Qed.

Lemma events_ok_app es1 es2 ip a l : events_ok (es1 ++ es2) ip a l ->
  events_ok es1 ip a l /\
  match run_frames es1 ip a l with Some (ip, a, l) => events_ok es2 ip a l | None => True end.
Proof.
  revert ip a l. induction es1 as [|e es1 IH]; intros ip a l; cbn [app events_ok run_frames]; [done|].
  intros [He Hes]. destruct (next_event ip a l e) as [[[ip' a'] l']|]; cbn; [|done].
  destruct (IH _ _ _ Hes) as [? ?]. by split.
Qed.

Lemma exec_all_run es st a l self r st' :
  machine_ok self st a l -> events_ok es (a_ip self) a l -> exec_all es self st = (r, st') ->
  match r with
  | Ok self' => exists a' l', run_frames es (a_ip self) a l = Some (a_ip self', a', l') /\
      machine_ok self' st' a' l'
  | Err h => exists es1 e es2 self1 st1 a1 l1, es = es1 ++ e :: es2 /\
      exec_all es1 self st = (Ok self1, st1) /\
      run_frames es1 (a_ip self) a l = Some (a_ip self1, a1, l1) /\ machine_ok self1 st1 a1 l1 /\
      event_halts e self1 st1 a1 l1 h
  | Panic => False
  end.
Proof.
  revert st a l self. induction es as [|e es IH]; intros st a l self Hm Hes E.
  { injection E as <- <-. by eexists _, _. }
  cbn [exec_all] in E. rewrite bind_run in E. destruct Hes as [He Hes].
  destruct (exec_event e self st) as [re st1] eqn:Ee. pose proof Ee as Ee'.
  eapply exec_event_step in Ee; [|done..]. cbn [run_frames].
  destruct re as [self1|h|]; [|injection E as <- <-; by exists [], e, es, self, st, a, l|done].
  destruct Ee as (a1 & l1 & En & Hm1 & _). rewrite En in Hes |- *. specialize (IH st1 a1 l1 self1 Hm1 Hes E).
  destruct r as [self'|h|]; [done| |done].
  destruct IH as (es1 & e' & es2 & self2 & st2 & a2 & l2 & -> & E2 & Er & Hm2 & Hh).
  exists (e :: es1), e', es2, self2, st2, a2, l2. split; [done|]. split; [|split; [|done]].
  - cbn [exec_all]. by rewrite (bind_Ok _ _ _ _ _ Ee').
  - cbn [run_frames]. by rewrite En.
Qed.

(** C8: Every run of calls, tail calls and returns goes through the frames of the
    abstract machine, as far as the limits of both stacks allow, and never panics.
    If it leaves the loop, the events before it have been run, in a state that
    represents the frames the machine is in then, and the event that leaves has one of
    the reasons of [halts]: compiling its callee or its host function failed, a limit
    of the stacks is exceeded or memory for them is not available, or the outermost
    function returned.  By [op_ok] the tail calls of host functions are those with a
    parameter or result that leave the default memories alone: the others go wrong, see
    [return_call_host_dangling] and [return_call_host_stale_mem0]. *)
Theorem calls_refine_frames es st a l self r st' :
  machine_ok self st a l -> events_ok es (a_ip self) a l -> exec_all es self st = (r, st') ->
  match r with
  | Ok self' => exists a' l', run_frames es (a_ip self) a l = Some (a_ip self', a', l') /\
      machine_ok self' st' a' l'
  | Err h => exists es1 e es2 self1 st1 a1 l1, es = es1 ++ e :: es2 /\
      exec_all es1 self st = (Ok self1, st1) /\
      run_frames es1 (a_ip self) a l = Some (a_ip self1, a1, l1) /\ machine_ok self1 st1 a1 l1 /\
      event_halts e self1 st1 a1 l1 h
  | Panic => False
  end /\
  (forall es1 e es2 self1 st1 a1 l1 self2 st2, es = es1 ++ e :: es2 ->
     exec_all es1 self st = (Ok self1, st1) -> run_frames es1 (a_ip self) a l = Some (a_ip self1, a1, l1) ->
     exec_event e self1 st1 = (Ok self2, st2) -> event_fits e st1 a1 l1).
Proof.
  intros Hm Hes E. split; [by eapply exec_all_run|].
  intros es1 e es2 self1 st1 a1 l1 self2 st2 -> E1 Er E2.
  apply events_ok_app in Hes as [Hes1 Hes2].
  pose proof (exec_all_run _ _ _ _ _ _ _ Hm Hes1 E1) as (a' & l' & Er' & Hm1).
  rewrite Er in Er'. injection Er' as <- <-. rewrite Er in Hes2.
  pose proof (exec_event_step _ _ _ _ _ _ _ Hm1 (proj1 Hes2) E2) as (? & ? & _ & _ & Hf). exact Hf.
Qed.

(** ** Entering the loop *)

Definition stack_reset (s : Stack) : Prop :=
  vs_ok (st_values s) /\ vs_cells (st_values s) = [] /\ cs_frames (st_frames s) = [] /\
  cs_instance (st_frames s) = None /\ 0 <= cs_max_height (st_frames s).

Lemma Stack_reset_ok s : vs_ok (st_values s) -> 0 <= vs_capacity (st_values s) ->
  0 <= vs_max_height (st_values s) -> 0 <= cs_max_height (st_frames s) -> stack_reset (Stack_reset s).
Proof. intros [Hw Hb Ha] Hc Hm Hh. by split_and!; [split|..]. Qed.

Lemma execute_stock_run call (st : VmState Store) a l : stack_ok (vm_stack st) a l ->
  wc_instance call = af_inst a -> (af_slots a = 0 \/ wc_callee_sp call = Sp_new (af_start a)) ->
  exists self, execute_stock call st = (Ok (self, wc_regs call), st) /\
    a_ip self = wc_callee_ip call /\ machine_ok self st a l.
Proof.
  intros Hs Hi Hsp. eexists. split; [done|]. split; [done|].
  apply machine_ok_intro; [done|done|by rewrite <-Hi|done].
Qed.

(** The loop is entered with the frame of the root function. *)
Lemma init_wasm_func_call_spec f i st r st' : stack_reset (vm_stack st) ->
  init_wasm_func_call f i st = (r, st') ->
  match r with
  | Ok call => exists self, execute_stock call st' = (Ok (self, st_regs (vm_stack st)), st') /\
      a_ip self = func_ip f /\ machine_ok self st' (callee_frame (func_ip f) 0 i (func_slots f)) []
  | Err h => compile_fails f st h \/
      h = Halt_Trap StackOverflow /\ cs_max_height (st_frames (vm_stack st)) = 0 \/ no_room (func_slots f) st h
  | Panic => False
  end.
Proof.
  intros Hs E. unfold init_wasm_func_call in E.
  apply (compile_then f st) in E as [(h & -> & Hh)|(st1 & E & Hst & Hm)]; [by left|].
  pose proof (func_law f) as [Hl Hk]. unfold no_room. rewrite <-Hst in *. destruct Hs as (Hv & Hc & Hf & Hi & Hh).
  set (params := {| bspan := _; bspan_len := 0 |}) in E. cbv zeta in E.
  assert (Hp : params_head params = 0) by (unfold params_head, Slot_into; cbn; by destruct feat_slot16).
  destruct (Stack_push_frame None (func_ip f) params (func_locals f) (func_slots f) (Some i) (vm_stack st1))
    as [rs k'] eqn:Ek.
  rewrite bind_run, (on_stack_run _ _ _ _ Ek) in E. unfold Stack_push_frame in Ek.
  destruct (Z.eq_dec 0 (cs_max_height (st_frames (vm_stack st1)))) as [Hfull|Hroom].
  { rewrite bind_run in Ek. unfold on_frames, zoom, CallStack_push in Ek. rewrite bind_get_st, Hf in Ek.
    cbn [length] in Ek. rewrite (proj2 (Z.eqb_eq _ _)) in Ek by done. injection Ek as <- <-.
    injection E as <- <-. right. by left. }
  set (cs' := {| cs_frames := [{| fr_ip := func_ip f; fr_start := 0; fr_instance := None |}];
                 cs_instance := Some i; cs_max_height := cs_max_height (st_frames (vm_stack st1)) |}).
  assert (Ep : CallStack_push None (func_ip f) params (Some i) (st_frames (vm_stack st1)) = (Ok 0, cs')).
  { unfold CallStack_push. rewrite bind_get_st, Hf. cbn [length].
    rewrite (proj2 (Z.eqb_neq _ _)) by lia. rewrite bool_decide_true by done.
    erewrite bind_Ok by done. rewrite bind_get_st, Hi, bool_decide_false by done.
    erewrite bind_Ok by done. rewrite bind_get_st. cbv zeta.
    unfold CallStack_top_start, CallStack_top. cbn [set_instance cs_frames]. rewrite Hf. cbn [last].
    fold (params_head params). rewrite Hp.
    rewrite (SpOffset_add_run (st_values (vm_stack st1))); [|done|unfold vs_len; lia|done].
    rewrite bind_lift. subst cs'. unfold set_frames. cbn. done. }
  rewrite (frames_then_values _ _ _ _ _ Ep) in Ek.
  destruct (ValueStack_push _ _ _ _ _) as [rv v'] eqn:Ev in Ek.
  apply ValueStack_push_spec in Ev as [Hg Hr]; [|done|done|cbn; unfold vs_len; lia|cbn; lia|lia].
  injection Ek as <- <-. destruct rv as [sp|e|]; cbn [map_err id] in E;
    [|injection E as <- <-; right; right; by eexists|done].
  destruct Hr as (-> & Hlen & _). injection E as <- <-.
  eapply execute_stock_run; cbn [vm_stack callee_frame af_inst af_slots af_start wc_callee_sp]; [|done|].
  - split; cbn [st_values st_frames]; [apply Hg|split; [done|by repeat constructor]| |cbn; lia].
    apply Forall_singleton. unfold frame_ok. cbn. lia.
  - unfold frame_sp. destruct (Z.eqb_spec (func_slots f) 0); auto.
Qed.

(** Going on with a stack that was left. *)
Lemma resume_wasm_func_call_spec st a l : stack_ok (vm_stack st) a l ->
  exists call self, resume_wasm_func_call (Error := Error) st = (Ok call, st) /\
    execute_stock call st = (Ok (self, st_regs (vm_stack st)), st) /\
    a_ip self = af_ip a /\ machine_ok self st a l.
Proof.
  intros Hs. destruct Hs as [Hv Hf Hb Hh] eqn:Eq. clear Eq.
  destruct (cs_repr_top _ _ _ Hf) as (fs & f & Ef & Hi & Ht & Hip & Hst & _).
  destruct (sp_or_dangling_run (E := TrapCode) (st_values (vm_stack st)) a) as (sp & Esp & Hsp);
    [by apply Forall_cons in Hb as [? _]|].
  assert (Er : Stack_restore_frame (E := TrapCode) (vm_stack st) =
    Ok (af_ip a, sp, af_inst a, st_regs (vm_stack st))).
  { unfold Stack_restore_frame, CallStack_restore_frame. rewrite Hi, Ht. cbn.
    by rewrite <-Hst, Esp, Hip. }
  eexists. destruct (execute_stock_run {| wc_callee_ip := af_ip a; wc_callee_sp := sp;
    wc_instance := af_inst a; wc_regs := st_regs (vm_stack st) |} st a l) as (self & Ee & Hip' & Hm);
    [by split|done|done|].
  exists self. split; [|done]. unfold resume_wasm_func_call. rewrite bind_get_st, Er. done.
Qed.

(** What [out_of_fuel!] leaves is enough to enter the loop again at [ip], with the
    same registers, stack pointer, instance and memory. *)
Lemma out_of_fuel_spec {A} ip regs required st a l self :
  machine_ok self st a l ->
  exists st' call self',
    out_of_fuel (Error := Error) (A := A) ip regs required st = (Err (Halt_Done (DoneReason_OutOfFuel required)), st') /\
    vm_store st' = vm_store st /\ st_values (vm_stack st') = st_values (vm_stack st) /\
    resume_wasm_func_call (Error := Error) st' = (Ok call, st') /\
    execute_stock call st' = (Ok (self', regs), st') /\
    a_ip self' = ip /\ a_instance self' = a_instance self /\ a_mem0 self' = a_mem0 self /\
    (af_slots a = 0 \/ a_sp self' = a_sp self) /\
    machine_ok self' st' (AFrame_sync ip a) l.
Proof.
  intros [[Hv Hf Hb Hh] Hi Hm Hsp].
  destruct (CallStack_sync_ip_run (E := TrapCode) ip _ _ _ Hf) as (cs' & Es & Hf' & Hm').
  set (st' := {| vm_store := vm_store st;
                 vm_stack := {| st_values := st_values (vm_stack st); st_frames := cs'; st_regs := regs |} |}).
  assert (Hs' : stack_ok (vm_stack st') (AFrame_sync ip a) l).
  { split; [done|done| |cbn; by rewrite Hm']. by apply Forall_cons in Hb as [? ?]; apply Forall_cons. }
  destruct (resume_wasm_func_call_spec st' _ l Hs') as (call & self' & Er & Ee & Hip & Hmo).
  exists st', call, self'. split_and!; [|done..| | | |done].
  - unfold out_of_fuel. erewrite bind_Ok by
      (unfold on_stack, zoom, Stack_sync_ip, on_frames, zoom; by rewrite Es). done.
  - rewrite (mo_instance _ _ _ _ Hmo). by rewrite Hi.
  - rewrite (mo_mem0 _ _ _ _ Hmo). by rewrite Hm.
  - destruct (mo_sp _ _ _ _ Hmo) as [?| ->]; [by left|]. destruct Hsp as [?| ->]; [by left|by right].
Qed.

(** The caller of a host function that was called last, with neither parameters
    nor results, goes on with a dangling pointer when both frames start at the
    same cell, however many cells it has. *)
Theorem return_call_host_dangling h params self st a b l self' st' :
  machine_ok self st a (b :: l) -> params_ok a params -> host_ok h params ->
  bspan_len params = 0 -> hf_len_result_cells h = 0 -> af_start b = af_start a ->
  exec (Op_return_call (FuncEntity_Host h) params) self st = (Ok self', st') ->
  a_ip self' = af_ip b /\ a_sp self' = Sp_dangling.
Proof.
  intros [Hs Hi Hm Hsp] Hp Hh Hpar Hres Hst E. cbn [exec] in E. unfold return_call_wasm_or_host in E.
  rewrite !bind_run, Hi in E. destruct (return_call_host _ _ _ st) as [rc st1] eqn:Ec.
  eapply return_call_host_spec in Ec; [|done..]. destruct rc as [[[ip sp] i]|h'|]; [|discriminate E..].
  destruct Ec as (-> & -> & -> & _). cbn in E. rewrite bind_get_st in E.
  destruct (update_instance _ _ _ _). injection E as <- <-. split; [done|].
  unfold return_sp. rewrite Hpar, Hres. cbn. by rewrite Hst, Z.max_id, !Z.eqb_refl.
Qed.

(** After the last call of a function was a host function, its caller in the
    same instance goes on with the memory cached before the host function ran. *)
Theorem return_call_host_stale_mem0 h params self st a b l self' st' :
  machine_ok self st a (b :: l) -> params_ok a params -> host_ok h params ->
  af_inst b = af_inst a ->
  exec (Op_return_call (FuncEntity_Host h) params) self st = (Ok self', st') ->
  a_instance self' = af_inst b /\ a_mem0 self' = extract_mem0 (vm_store st) (af_inst b).
Proof.
  intros [Hs Hi Hm Hsp] Hp Hh Hinst E. cbn [exec] in E. unfold return_call_wasm_or_host in E.
  rewrite !bind_run, Hi in E. destruct (return_call_host _ _ _ st) as [rc st1] eqn:Ec.
  eapply return_call_host_spec in Ec; [|done..]. destruct rc as [[[ip sp] i]|h'|]; [|discriminate E..].
  destruct Ec as (-> & -> & -> & _). cbn in E. rewrite bind_get_st, Hinst in E. unfold update_instance in E.
  rewrite bool_decide_true in E by done. injection E as <- <-. cbn. by rewrite Hinst.
Qed.

End Refine.

(** ** Calls on a concrete engine

    A small engine - the store is the address of memory 0, every function has
    three slots, host function 1 fails and host function 2 moves the memory -
    and the call theorems applied to runs on it. *)

#[local] Instance demo_target : Target := default_target.
#[local] Instance demo_alloc : Allocator := limit_allocator demo_target 100.
#[local] Instance demo_uninit : Uninit := fun _ _ => 0.

#[local] Instance demo_engine : Engine Z Z := {
  extract_mem0 store instance := {| mem0_ptr := store; mem0_len := instance |};
  get_or_compile func store := (Ok (100 * func, 2, 3), store);
  call_host_func trampoline _ io store :=
    if trampoline =? 1 then (Err 7, store)
    else if trampoline =? 2 then (Ok (io_cells io), store + 1) else (Ok (io_cells io), store)
}.

#[local] Instance demo_laws : EngineLaws Z Z.
Proof.
  refine {| func_params := fun _ => 0; func_ip := fun f => 100 * f;
            func_locals := fun _ => 2; func_slots := fun _ => 3 |}.
  - intros _. done.
  - intros f st. done.
  - intros f st i. done.
  - intros t i io st. cbn. by destruct (t =? 1), (t =? 2).
Defined.

Definition demo_params (head len : Z) : BoundedSlotSpan :=
  {| bspan := {| span_head := Slot_from head |}; bspan_len := len |}.

Definition demo_empty : VmState Z := {|
  vm_store := 5000;
  vm_stack := {| st_values := {| vs_cells := []; vs_capacity := 0; vs_max_height := 50 |};
                 st_frames := CallStack_new 10; st_regs := Regs_default |}
|}.

Definition demo_st : VmState Z := snd (init_wasm_func_call 4 9 demo_empty).
Definition demo_self : Args := {|
  a_ip := 400; a_sp := Sp_new 0; a_mem0 := {| mem0_ptr := 5000; mem0_len := 9 |}; a_instance := 9
|}.
Definition demo_frame : AFrame := callee_frame 400 0 9 3.

Lemma demo_machine_ok : machine_ok demo_self demo_st demo_frame [].
Proof.
  assert (Hr : stack_reset (vm_stack demo_empty)) by (split_and!; [by split|done..]).
  pose proof (init_wasm_func_call_spec 4 9 demo_empty
    (fst (init_wasm_func_call 4 9 demo_empty)) demo_st Hr) as Hi.
  destruct Hi as (self & E & _ & Hm); [by vm_compute|]. injection E as <-. exact Hm.
Qed.

(** The root function calls function 5, whose frame starts at [head]. *)
Definition demo_st1 (head : Z) : VmState Z :=
  snd (exec (Op_call_internal 5 (demo_params head 0)) demo_self demo_st).
Definition demo_self1 (head : Z) : Args := {|
  a_ip := 500; a_sp := Sp_new head; a_mem0 := {| mem0_ptr := 5000; mem0_len := 9 |}; a_instance := 9
|}.

Lemma demo_machine_ok1 head : head = 0 \/ head = 2 ->
  machine_ok (demo_self1 head) (demo_st1 head) (callee_frame 500 head 9 3) [demo_frame].
Proof.
  intros Hh. assert (Hop : op_ok (Op_call_internal 5 (demo_params head 0)) demo_frame)
    by by destruct Hh as [-> | ->].
  pose proof (exec_step _ _ _ _ _ (Ok (demo_self1 head)) (demo_st1 head) demo_machine_ok Hop) as Hs.
  destruct Hh as [-> | ->]; (destruct Hs as (a & l & E & Hm & _); [by vm_compute|]; injection E as <- <-; exact Hm).
Qed.

(** A call into another instance, a host call, a failing push and the return to
    the root function. *)
Definition demo_events : list Event := [
  Ev_op (Op_call (FuncEntity_Wasm {| wf_ty := 0; wf_body := 6; wf_instance := 8 |}) (demo_params 2 0));
  Ev_local 630 (fun cells => cells) (fun store => store + 1);
  Ev_op (Op_call (FuncEntity_Host {| hf_ty := 0; hf_trampoline := 2; hf_len_param_cells := 1; hf_len_result_cells := 2 |})
           (demo_params 1 1));
  Ev_op (Op_return_call (FuncEntity_Wasm {| wf_ty := 0; wf_body := 7; wf_instance := 9 |}) (demo_params 0 0));
  Ev_op Op_return
].

Lemma calls_refine_frames_witness :
  exists self st', exec_all demo_events demo_self demo_st = (Ok self, st') /\
    a_ip self = 400 /\ a_mem0 self = {| mem0_ptr := 5002; mem0_len := 9 |} /\
    run_frames demo_events 400 demo_frame [] = Some (400, demo_frame, []) /\
    machine_ok self st' demo_frame [].
Proof.
  assert (Hes : events_ok demo_events (a_ip demo_self) demo_frame []) by by vm_compute.
  destruct (exec_all demo_events demo_self demo_st) as [r st'] eqn:E.
  pose proof (calls_refine_frames demo_events demo_st demo_frame [] demo_self r st' demo_machine_ok Hes E) as [H _].
  vm_compute in E. injection E as <- <-.
  destruct H as (a & l & Er & Hm). injection Er as <- <-.
  eexists _, _. split; [reflexivity|]. split; [done|]. split; [done|]. split; [done|exact Hm].
Defined.

Definition demo_nullary : HostFuncEntity :=
  {| hf_ty := 0; hf_trampoline := 0; hf_len_param_cells := 0; hf_len_result_cells := 0 |}.

Lemma return_call_host_dangling_witness : exists self' st',
  exec (Op_return_call (FuncEntity_Host demo_nullary) (demo_params 0 0)) (demo_self1 0) (demo_st1 0) = (Ok self', st') /\
  a_ip self' = 400 /\ a_sp self' = Sp_dangling /\ af_slots demo_frame = 3.
Proof.
  assert (Hp : params_ok (callee_frame 500 0 9 3) (demo_params 0 0)) by by vm_compute.
  assert (Hh : host_ok demo_nullary (demo_params 0 0)) by by vm_compute.
  destruct (exec (Op_return_call (FuncEntity_Host demo_nullary) (demo_params 0 0)) (demo_self1 0) (demo_st1 0))
    as [r st'] eqn:E.
  assert (Hr : exists self', r = Ok self') by (vm_compute in E; injection E as <- <-; by eexists).
  destruct Hr as [self' ->]. exists self', st'. split; [done|].
  destruct (return_call_host_dangling demo_nullary (demo_params 0 0) (demo_self1 0) (demo_st1 0)
    (callee_frame 500 0 9 3) demo_frame [] self' st'
    (demo_machine_ok1 0 (or_introl eq_refl)) Hp Hh eq_refl eq_refl eq_refl E)
    as [-> ->]. done.
Defined.

Definition demo_growing : HostFuncEntity :=
  {| hf_ty := 0; hf_trampoline := 2; hf_len_param_cells := 0; hf_len_result_cells := 1 |}.

Lemma return_call_host_stale_mem0_witness : exists self' st',
  exec (Op_return_call (FuncEntity_Host demo_growing) (demo_params 0 0)) (demo_self1 2) (demo_st1 2) = (Ok self', st') /\
  a_mem0 self' = {| mem0_ptr := 5000; mem0_len := 9 |} /\
  extract_mem0 (vm_store st') (a_instance self') = {| mem0_ptr := 5001; mem0_len := 9 |}.
Proof.
  assert (Hp : params_ok (callee_frame 500 2 9 3) (demo_params 0 0)) by by vm_compute.
  assert (Hh : host_ok demo_growing (demo_params 0 0)) by by vm_compute.
  destruct (exec (Op_return_call (FuncEntity_Host demo_growing) (demo_params 0 0)) (demo_self1 2) (demo_st1 2))
    as [r st'] eqn:E.
  assert (Hr : exists self', r = Ok self' /\ vm_store st' = 5001)
    by (vm_compute in E; injection E as <- <-; by eexists).
  destruct Hr as (self' & -> & Hst). exists self', st'. split; [done|].
  pose proof (return_call_host_stale_mem0 demo_growing (demo_params 0 0) (demo_self1 2) (demo_st1 2)
    (callee_frame 500 2 9 3) demo_frame [] self' st'
    (demo_machine_ok1 2 (or_intror eq_refl)) Hp Hh eq_refl E) as [Hi Hm].
  split; [rewrite Hm; by vm_compute|]. by rewrite Hi, Hst.
Defined.
