(* ===== verification/Arena.v ===== *)
(** * Arenas

    [crates/collections/src/arena]: keys, the arena with its iterators, the
    deduplicating arena and the component vector, and the string interner of
    [crates/collections/src/string_interner].

    A reference into an arena is given by its key: a method returning [&mut T]
    returns the entity, and writing through it is [Arena_update]. *)

From Stdlib Require Import ZArith Lia.
From stdpp Require Import base option decidable numbers gmap strings list.
From S2P Require Import Prelude.
Local Open Scope Z_scope.

(** ** Keys *)

Class ArenaKey (Key : Type) : Type := {
  into_usize : Key -> Z;
  from_usize : Z -> option Key
}.

(** What an arena needs of its keys: an index has at most one key, which leads
    back to it, and keys of smaller indices exist. *)
Class ArenaKeyLaws (Key : Type) `{ArenaKey Key} : Prop := {
  into_from : forall n k, 0 <= n -> from_usize n = Some k -> into_usize k = n;
  from_smaller : forall n m, 0 <= m <= n -> from_usize n <> None -> from_usize m <> None
}.

Section Keys.
Context `{T : Target}.

Definition key_usize : ArenaKey Z := {|
  into_usize self := self;
  from_usize value := Some value
|}.
Definition key_u32 : ArenaKey Z := {|
  into_usize self := self;
  from_usize value := try_from_u 32 value
|}.

(** [NonZero::new]. *)
Definition nonzero (value : Z) : option Z := if value =? 0 then None else Some value.

Definition key_nonzero_usize : ArenaKey Z := {|
  into_usize self := wrapu usize_bits (self - 1);
  from_usize value := nonzero (wrapu usize_bits (value + 1))
|}.
Definition key_nonzero_u32 : ArenaKey Z := {|
  into_usize self := wrapu 32 (self - 1);
  from_usize value := value ← try_from_u 32 value; nonzero (wrapu 32 (value + 1))
|}.

(** [RawHandle<T>] over a [NonZero<u32>], as all entities of a store use it. *)
Record RawHandle : Type := { rh_raw : Z }.

#[export] Instance RawHandle_key : ArenaKey RawHandle := {
  into_usize self := into_usize (ArenaKey := key_nonzero_u32) (rh_raw self);
  from_usize value := raw ← from_usize (ArenaKey := key_nonzero_u32) value; Some {| rh_raw := raw |}
}.

End Keys.

#[export] Instance RawHandle_eq_dec : EqDecision RawHandle.
Proof. solve_decision. Defined.

Inductive ArenaError : Type :=
| ArenaError_OutOfSystemMemory | KeyOutOfBounds | NotEnoughKeys | AliasingPairAccess.

(** ** The arena *)

Record Arena (T : Type) : Type := { items : list T; items_capacity : Z }.
Arguments items {T} _.
Arguments items_capacity {T} _.

(** [mem::size_of::<T>()]. *)
Class SizeOf (T : Type) : Type := size_of : Z.

Section Arena.
Context `{Allocator} {Key T : Type} `{ArenaKey Key} `{SizeOf T}.

Definition Arena_new : Arena T := {| items := []; items_capacity := 0 |}.
Definition Arena_len (self : Arena T) : Z := Z.of_nat (length (items self)).
Definition Arena_is_empty (self : Arena T) : bool := Arena_len self =? 0.
Definition Arena_clear (self : Arena T) : Arena T :=
  {| items := []; items_capacity := items_capacity self |}.

Definition next_key (self : Arena T) : res ArenaError Key :=
  ok_or (from_usize (Arena_len self)) NotEnoughKeys.

(** [self.items.try_reserve(additional)]. *)
Definition reserve_items (additional : Z) : M (Arena T) ArenaError unit :=
  self ← get_st;
  if items_capacity self - Arena_len self <? additional then
    cap ← lift (ok_or (try_reserve size_of (items_capacity self) (Arena_len self) additional)
                  ArenaError_OutOfSystemMemory);
    put_st {| items := items self; items_capacity := cap |}
  else mret tt.

Definition push_items (entities : list T) : M (Arena T) ArenaError unit :=
  self ← get_st;
  put_st {| items := items self ++ entities; items_capacity := items_capacity self |}.

Definition Arena_alloc (entity : T) : M (Arena T) ArenaError Key :=
  self ← get_st;
  key ← lift (next_key self);
  reserve_items 1;;
  push_items [entity];;
  mret key.

(** [T::default] is [dflt]; the result is the range from the first to behind
    the last new key. *)
Definition Arena_alloc_many (dflt : T) (amount : Z) : M (Arena T) ArenaError (Key * Key) :=
  self ← get_st;
  start ← lift (next_key self);
  reserve_items amount;;
  push_items (replicate (Z.to_nat amount) dflt);;
  self ← get_st;
  end_ ← lift (next_key self);
  mret (start, end_).

Definition Arena_get (self : Arena T) (key : Key) : res ArenaError T :=
  let key := into_usize key in
  ok_or (items self !! Z.to_nat key) KeyOutOfBounds.

Definition Arena_get_mut (key : Key) (self : Arena T) : res ArenaError T :=
  let key := into_usize key in
  ok_or (items self !! Z.to_nat key) KeyOutOfBounds.

(** Writing through the reference [get_mut] returns. *)
Definition Arena_update (key : Key) (entity : T) (self : Arena T) : Arena T :=
  {| items := <[Z.to_nat (into_usize key) := entity]> (items self);
     items_capacity := items_capacity self |}.

(** [split_at_mut_checked(snd_key)], then [fst_set[fst_key]] and [snd_set[0]];
    indexing panics out of bounds. *)
Definition get_ordered_pair (fst_key snd_key : Z) (self : Arena T) : res ArenaError (T * T) :=
  if snd_key <=? Arena_len self then
    let fst_set := take (Z.to_nat snd_key) (items self) in
    let snd_set := drop (Z.to_nat snd_key) (items self) in
    fst ← expect (fst_set !! Z.to_nat fst_key);
    snd ← expect (snd_set !! 0%nat);
    Ok (fst, snd)
  else Err KeyOutOfBounds.

Definition Arena_get_pair_mut (fst snd : Key) (self : Arena T) : res ArenaError (T * T) :=
  let fst_key := into_usize fst in
  let snd_key := into_usize snd in
  if fst_key =? snd_key then Err AliasingPairAccess
  else if snd_key <? fst_key then
    '(snd, fst) ← get_ordered_pair snd_key fst_key self;
    Ok (fst, snd)
  else get_ordered_pair fst_key snd_key self.

(** ** Iterators

    [Enumerate] counts the items it has returned from the front; from the back
    it returns the count plus the number of items left. *)
Record ArenaIter : Type := { ai_count : Z; ai_slice : list T }.

Definition Arena_iter (self : Arena T) : ArenaIter := {| ai_count := 0; ai_slice := items self |}.

Definition Enumerate_next (it : ArenaIter) : option (Z * T * ArenaIter) :=
  match ai_slice it with
  | [] => None
  | x :: xs => Some (ai_count it, x, {| ai_count := ai_count it + 1; ai_slice := xs |})
  end.

Definition Enumerate_next_back (it : ArenaIter) : option (Z * T * ArenaIter) :=
  match last (ai_slice it) with
  | None => None
  | Some x =>
      let xs := take (pred (length (ai_slice it))) (ai_slice it) in
      Some (ai_count it + Z.of_nat (length xs), x, {| ai_count := ai_count it; ai_slice := xs |})
  end.

Definition Iter_next {E} (it : ArenaIter) : res E (option (Key * T * ArenaIter)) :=
  match Enumerate_next it with
  | None => Ok None
  | Some (key, entity, it) => key ← expect (from_usize key); Ok (Some (key, entity, it))
  end.

Definition Iter_next_back {E} (it : ArenaIter) : res E (option (Key * T * ArenaIter)) :=
  match Enumerate_next it with
  | None => Ok None
  | Some (key, entity, it) => key ← expect (from_usize key); Ok (Some (key, entity, it))
  end.

Definition Iter_len (it : ArenaIter) : Z := Z.of_nat (length (ai_slice it)).

(** ** The deduplicating arena *)

Context `{Countable T}.

Record DedupArena : Type := { item2key : gmap T Key; da_items : Arena T }.

Definition DedupArena_new : DedupArena := {| item2key := ∅; da_items := Arena_new |}.
Definition DedupArena_clear (self : DedupArena) : DedupArena :=
  {| item2key := ∅; da_items := Arena_clear (da_items self) |}.

Definition DedupArena_alloc (item : T) : M DedupArena ArenaError Key := fun self =>
  match item2key self !! item with
  | Some key => (Ok key, self)
  | None =>
      match next_key (da_items self) with
      | Ok key =>
          match Arena_alloc item (da_items self) with
          | (Ok _, a) => (Ok key, {| item2key := <[item := key]> (item2key self); da_items := a |})
          | (Err e, a) => (Err e, {| item2key := item2key self; da_items := a |})
          | (Panic, a) => (Panic, {| item2key := item2key self; da_items := a |})
          end
      | Err e => (Err e, self)
      | Panic => (Panic, self)
      end
  end.

Definition DedupArena_get (self : DedupArena) (key : Key) : res ArenaError T :=
  Arena_get (da_items self) key.

(** [Map::from_iter] of the pairs [iter] yields: a later pair wins. *)
Fixpoint collect_keys (n : Z) (l : list T) (map : gmap T Key) : res ArenaError (gmap T Key) :=
  match l with
  | [] => Ok map
  | item :: l => key ← expect (from_usize n); collect_keys (n + 1) l (<[item := key]> map)
  end.

Definition DedupArena_from_iter (iter : list T) : res ArenaError DedupArena :=
  let items := {| items := iter; items_capacity := Z.of_nat (length iter) |} in
  item2key ← collect_keys 0 iter ∅;
  Ok {| item2key := item2key; da_items := items |}.

(** ** The component vector *)

Record ComponentVec : Type := { components : list (option T) }.

Definition ComponentVec_new : ComponentVec := {| components := [] |}.
Definition ComponentVec_clear (self : ComponentVec) : ComponentVec := {| components := [] |}.

Definition ComponentVec_set (index : Key) (component : T) (self : ComponentVec) :
    option T * ComponentVec :=
  let index := Z.to_nat (into_usize index) in
  let cs := components self in
  let cs := if decide (length cs <= index)%nat
            then cs ++ replicate (index + 1 - length cs) None else cs in
  (default None (cs !! index), {| components := <[index := Some component]> cs |}).

Definition ComponentVec_unset (index : Key) (self : ComponentVec) : option T * ComponentVec :=
  let index := Z.to_nat (into_usize index) in
  match components self !! index with
  | Some c => (c, {| components := <[index := None]> (components self) |})
  | None => (None, self)
  end.

Definition ComponentVec_get (self : ComponentVec) (index : Key) : option T :=
  default None (components self !! Z.to_nat (into_usize index)).

End Arena.

Arguments ArenaIter T : clear implicits.
Arguments DedupArena Key T {_ _} : rename.
Arguments ComponentVec T : clear implicits.

(** ** Properties *)

#[export] Instance RawHandle_key_laws : ArenaKeyLaws RawHandle.
Proof.
  split; intros n; cbn; unfold try_from_u, nonzero.
  - intros k Hn. destruct (n <? 2 ^ 32) eqn:E; [|done]. apply Z.ltb_lt in E. cbn.
    destruct (_ =? 0) eqn:E0; [done|]. apply Z.eqb_neq in E0. intros [= <-]. cbn.
    assert (n + 1 < 2 ^ 32).
    { destruct (Z.eq_dec (n + 1) (2 ^ 32)) as [En|]; [|lia]. rewrite En in E0. by vm_compute in E0. }
    unfold wrapu in *. rewrite (Z.mod_small (n + 1)) by lia. rewrite Z.mod_small by lia. lia.
  - intros m Hm. destruct (n <? 2 ^ 32) eqn:E; [|done]. apply Z.ltb_lt in E. cbn.
    rewrite (proj2 (Z.ltb_lt m _)) by lia. cbn. destruct (Z.eq_dec n m) as [->|]; [done|]. intros _.
    unfold wrapu. rewrite Z.mod_small by lia. rewrite (proj2 (Z.eqb_neq _ _)) by lia. done.
Qed.

Section Spec.
Context `{Allocator} {Key T : Type} `{ArenaKeyLaws Key} `{SizeOf T}.
Implicit Types a : Arena T.

Lemma Arena_get_Ok a (k : Key) x :
  Arena_get a k = Ok x <-> items a !! Z.to_nat (into_usize k) = Some x.
Proof. unfold Arena_get, ok_or. destruct (items a !! _); split; congruence. Qed.

Lemma reserve_items_spec n a r a' : reserve_items n a = (r, a') ->
  items a' = items a /\ (r = Ok tt \/ r = Err ArenaError_OutOfSystemMemory /\ a' = a).
Proof.
  unfold reserve_items. rewrite bind_get_st. case_if; [|intros [= <- <-]; auto].
  destruct (try_reserve _ _ _ _); cbn [ok_or].
  - rewrite bind_lift. intros [= <- <-]. auto.
  - intros [= <- <-]. auto.
Qed.

(** Allocating appends: the new key leads to the new entity and every older key
    to what it led to; without keys or memory nothing changes. *)
Theorem Arena_alloc_spec e a r a' : Arena_alloc (Key := Key) e a = (r, a') ->
  match r with
  | Ok k => into_usize k = Arena_len a /\ Arena_get a' k = Ok e /\ Arena_len a' = Arena_len a + 1 /\
      forall (k' : Key) x, Arena_get a k' = Ok x -> Arena_get a' k' = Ok x
  | Err NotEnoughKeys => from_usize (Key := Key) (Arena_len a) = None /\ a' = a
  | Err ArenaError_OutOfSystemMemory => a' = a
  | _ => False
  end.
Proof.
  unfold Arena_alloc, next_key. rewrite bind_get_st.
  destruct (from_usize (Arena_len a)) as [k|] eqn:Ek; cbn [ok_or]; [|by intros [= <- <-]].
  rewrite bind_lift, bind_run. destruct (reserve_items 1 a) as [r1 a1] eqn:Er.
  apply reserve_items_spec in Er as [Hi [->|[-> ->]]]; [|by intros [= <- <-]].
  unfold push_items. rewrite bind_run. cbn. intros [= <- <-].
  apply into_from in Ek; [|unfold Arena_len; lia].
  split; [done|]. split; [|split].
  - apply Arena_get_Ok. cbn. rewrite Ek, Hi. unfold Arena_len. rewrite Nat2Z.id.
    by rewrite lookup_app_r, Nat.sub_diag by lia.
  - unfold Arena_len. cbn. rewrite length_app, Hi. cbn. lia.
  - intros k' x Hx. apply Arena_get_Ok in Hx. apply Arena_get_Ok. cbn. rewrite Hi.
    by apply lookup_app_l_Some.
Qed.

Lemma get_ordered_pair_spec a i j : 0 <= i < j ->
  get_ordered_pair i j a =
  match items a !! Z.to_nat i, items a !! Z.to_nat j with
  | Some x, Some y => Ok (x, y)
  | _, _ => if j =? Arena_len a then Panic else Err KeyOutOfBounds
  end.
Proof.
  intros Hij. unfold get_ordered_pair, Arena_len.
  destruct (items a !! Z.to_nat j) as [y|] eqn:Ey.
  - apply lookup_lt_Some in Ey as Hl. rewrite (proj2 (Z.leb_le _ _)) by lia.
    rewrite lookup_take_lt by lia.
    destruct (items a !! Z.to_nat i) as [x|] eqn:Ex; [|apply lookup_ge_None in Ex; lia]. cbn.
    by rewrite lookup_drop, Nat.add_0_r, Ey.
  - apply lookup_ge_None in Ey. destruct (Z.leb_spec j (Z.of_nat (length (items a)))).
    + rewrite (proj2 (Z.eqb_eq _ _)) by lia. rewrite lookup_take_lt by lia.
      destruct (items a !! Z.to_nat i) as [x|] eqn:Ex; [|apply lookup_ge_None in Ex; lia]. cbn.
      rewrite lookup_drop. by rewrite lookup_ge_None_2 by lia.
    + rewrite (proj2 (Z.eqb_neq _ _)) by lia. by destruct (items a !! Z.to_nat i).
Qed.

(** Two different keys in bounds give both of their entities, in the order of
    the keys; equal keys are refused.  A key that is out of bounds by one is a
    panic, not the error the documentation names. *)
Theorem Arena_get_pair_mut_spec (i j : Key) a : 0 <= into_usize i -> 0 <= into_usize j ->
  Arena_get_pair_mut i j a =
  if into_usize i =? into_usize j then Err AliasingPairAccess else
  match Arena_get a i, Arena_get a j with
  | Ok x, Ok y => Ok (x, y)
  | _, _ => if Z.max (into_usize i) (into_usize j) =? Arena_len a then Panic else Err KeyOutOfBounds
  end.
Proof.
  intros Hi Hj. unfold Arena_get_pair_mut, Arena_get. cbv zeta.
  destruct (Z.eqb_spec (into_usize i) (into_usize j)) as [|Hne]; [done|].
  destruct (Z.ltb_spec (into_usize j) (into_usize i)).
  - rewrite get_ordered_pair_spec, Z.max_l by lia.
    destruct (items a !! Z.to_nat (into_usize j)), (items a !! Z.to_nat (into_usize i)); cbn [ok_or]; try done;
      by destruct (_ =? _).
  - rewrite get_ordered_pair_spec, Z.max_r by lia.
    destruct (items a !! Z.to_nat (into_usize j)), (items a !! Z.to_nat (into_usize i)); cbn [ok_or]; try done;
      by destruct (_ =? _).
Qed.

(** The iterators count from the front, so a key they yield leads back to its
    item. *)
Lemma Iter_next_key a n it : it = {| ai_count := Z.of_nat n; ai_slice := drop n (items a) |} ->
  forall (k : Key) x it', Iter_next (E := unit) it = Ok (Some (k, x, it')) ->
  Arena_get a k = Ok x /\ it' = {| ai_count := Z.of_nat (S n); ai_slice := drop (S n) (items a) |}.
Proof.
  intros -> k x it'. unfold Iter_next, Enumerate_next. cbn [ai_slice ai_count].
  destruct (drop n (items a)) as [|y ys] eqn:Ed; [done|].
  destruct (from_usize (Z.of_nat n)) as [k'|] eqn:Ek; [|done]. cbn. intros [= <- <- <-].
  apply into_from in Ek; [|lia]. split.
  - apply Arena_get_Ok. rewrite Ek, Nat2Z.id, <-(Nat.add_0_r n), <-lookup_drop, Ed. done.
  - f_equal; [lia|]. rewrite <-Nat.add_1_r, <-drop_drop, Ed. done.
Qed.

(** From the back the iterators yield the first item. *)
Theorem Iter_next_back_first a x xs y (k : Key) : items a = x :: xs ++ [y] -> from_usize 0 = Some k ->
  Iter_next_back (E := unit) (Arena_iter a) = Ok (Some (k, x, {| ai_count := 1; ai_slice := xs ++ [y] |})) /\
  exists it, Enumerate_next_back (Arena_iter a) = Some (Z.of_nat (length (x :: xs)), y, it).
Proof.
  intros Ha Hk. unfold Iter_next_back, Enumerate_next, Enumerate_next_back, Arena_iter.
  cbn [ai_slice ai_count]. rewrite Ha, Hk. split; [done|].
  change (x :: xs ++ [y]) with ((x :: xs) ++ [y]). rewrite last_snoc. eexists. do 3 f_equal.
  rewrite length_take, length_app. cbn. lia.
Qed.

Context `{Countable T}.

(** Every item of the arena is known by exactly the key that leads to it. *)
Definition dedup_ok (d : DedupArena Key T) : Prop :=
  (forall x k, item2key d !! x = Some k -> Arena_get (da_items d) k = Ok x) /\
  (forall x, x ∈ items (da_items d) -> is_Some (item2key d !! x)).

Lemma DedupArena_new_ok : dedup_ok DedupArena_new.
Proof. split; [intros x k; cbn; by rewrite lookup_empty|intros x; cbn; by rewrite elem_of_nil]. Qed.

(** An item that is known keeps its key and changes nothing; a new item gets the
    next key, and no other item is affected. *)
Theorem DedupArena_alloc_spec x d r d' : dedup_ok d -> DedupArena_alloc x d = (r, d') ->
  dedup_ok d' /\
  match r with
  | Ok k => item2key d' !! x = Some k /\ Arena_get (da_items d') k = Ok x /\
      (forall k0, item2key d !! x = Some k0 -> k = k0 /\ d' = d) /\
      (forall y k', item2key d !! y = Some k' -> item2key d' !! y = Some k') /\
      (item2key d !! x = None -> items (da_items d') = items (da_items d) ++ [x])
  | Err _ => d' = d
  | Panic => False
  end.
Proof.
  intros [Hk Hi]. unfold DedupArena_alloc. destruct (item2key d !! x) as [k|] eqn:Ex.
  { intros [= <- <-]. split; [done|]. split_and!; [done|by apply Hk|intros k0 [= <-]; done|done|done]. }
  destruct (next_key (da_items d)) as [k|e|] eqn:En; [|by intros [= <- <-]|].
  2:{ unfold next_key in En. by destruct (from_usize _). }
  destruct (Arena_alloc x (da_items d)) as [ra a'] eqn:Ea.
  pose proof (Arena_alloc_spec _ _ _ _ Ea) as Hs.
  destruct ra as [k2|[]|]; try done.
  - destruct Hs as (Hk2 & Hx & Hlen & Hold). intros [= <- <-].
    assert (Ekk : Arena_get a' k = Ok x).
    { unfold next_key in En. destruct (from_usize _) as [k3|] eqn:E3; [|done]. injection En as ->.
      apply into_from in E3; [|unfold Arena_len; lia].
      apply Arena_get_Ok. apply Arena_get_Ok in Hx. by rewrite E3, <-Hk2. }
    assert (Hit : items a' = items (da_items d) ++ [x]).
    { unfold Arena_alloc in Ea. rewrite bind_get_st, En, bind_lift, bind_run in Ea.
      destruct (reserve_items 1 (da_items d)) as [r1 a1] eqn:Er.
      apply reserve_items_spec in Er as [Hi1 [->|[-> ->]]]; [|done].
      unfold push_items in Ea. rewrite bind_run in Ea. cbn in Ea. injection Ea as _ <-. cbn. by rewrite Hi1. }
    split; [split|].
    + cbn. intros y ky. destruct (decide (x = y)) as [<-|Hne].
      * rewrite lookup_insert_eq. by intros [= <-].
      * rewrite lookup_insert_ne by done. intros Hy. by apply Hold, Hk.
    + cbn. intros y. rewrite Hit, elem_of_app, list_elem_of_singleton. intros [Hy| ->].
      * destruct (decide (x = y)) as [<-|Hne]; [rewrite lookup_insert_eq; eauto|].
        rewrite lookup_insert_ne by done. by apply Hi.
      * rewrite lookup_insert_eq; eauto.
    + cbn. rewrite lookup_insert_eq. split_and!; [done|done|done| |done].
      intros y ky Hy. rewrite lookup_insert_ne; [done|]. intros ->. congruence.
  - subst a'. intros [= <- <-]. destruct d. split; [by split|done].
  - destruct Hs as [_ ->]. intros [= <- <-]. destruct d. split; [by split|done].
Qed.

End Spec.

(** ** Witnesses *)

Section Witnesses.

#[local] Instance demo_target : Target := default_target.
#[local] Instance demo_alloc : Allocator := limit_allocator default_target 100.
#[local] Instance demo_size : SizeOf Z := 8.

Definition demo_items : Arena Z := {| items := [5; 6; 7]; items_capacity := 3 |}.

(** In bounds, with equal keys, one behind the end and two behind the end. *)
Lemma Arena_get_pair_mut_spec_witness :
  Arena_get_pair_mut {| rh_raw := 3 |} {| rh_raw := 1 |} demo_items = Ok (7, 5) /\
  Arena_get_pair_mut {| rh_raw := 2 |} {| rh_raw := 2 |} demo_items = Err AliasingPairAccess /\
  Arena_get_pair_mut {| rh_raw := 1 |} {| rh_raw := 4 |} demo_items = Panic /\
  Arena_get_pair_mut {| rh_raw := 1 |} {| rh_raw := 5 |} demo_items = Err KeyOutOfBounds.
Proof.
  assert (G : forall i j : RawHandle, 0 <= into_usize i -> 0 <= into_usize j -> _) by
    exact (fun i j => Arena_get_pair_mut_spec i j demo_items).
  split_and!.
  - exact (G {| rh_raw := 3 |} {| rh_raw := 1 |} ltac:(done) ltac:(done)).
  - exact (G {| rh_raw := 2 |} {| rh_raw := 2 |} ltac:(done) ltac:(done)).
  - exact (G {| rh_raw := 1 |} {| rh_raw := 4 |} ltac:(done) ltac:(done)).
  - exact (G {| rh_raw := 1 |} {| rh_raw := 5 |} ltac:(done) ltac:(done)).
Defined.

Lemma Iter_next_back_first_witness : exists it,
  Iter_next_back (Key := RawHandle) (E := unit) (Arena_iter demo_items) = Ok (Some ({| rh_raw := 1 |}, 5, it)).
Proof.
  eexists. exact (proj1 (Iter_next_back_first demo_items 5 [6] 7 {| rh_raw := 1 |} eq_refl eq_refl)).
Defined.

Definition demo_dedup : DedupArena RawHandle Z := snd (DedupArena_alloc 40 DedupArena_new).

Lemma DedupArena_alloc_spec_witness :
  DedupArena_alloc 50 demo_dedup = (Ok {| rh_raw := 2 |}, snd (DedupArena_alloc 50 demo_dedup)) /\
  item2key (snd (DedupArena_alloc 50 demo_dedup)) !! 40 = Some {| rh_raw := 1 |} /\
  DedupArena_alloc 40 demo_dedup = (Ok {| rh_raw := 1 |}, demo_dedup).
Proof.
  destruct (DedupArena_alloc_spec 40 (DedupArena_new (Key := RawHandle)) (Ok {| rh_raw := 1 |}) demo_dedup
    DedupArena_new_ok ltac:(by vm_compute)) as (Hd & Hk & _).
  destruct (DedupArena_alloc_spec 50 demo_dedup (Ok {| rh_raw := 2 |}) (snd (DedupArena_alloc 50 demo_dedup)) Hd ltac:(by vm_compute))
    as (_ & _ & _ & _ & Ho & _).
  split; [by vm_compute|]. split; [exact (Ho _ _ Hk)|by vm_compute].
Defined.

End Witnesses.

(** ** The string interner

    [crates/collections/src/string_interner]: symbols, the order by length and
    then by bytes that the map of the BTree implementation
    ([string_interner/detail.rs]) uses, and interning with its hints.  A string
    is the list of its bytes; the BTree map is a finite map, which is what it is
    as long as its order is total - [LenOrder_cmp_spec]. *)

Notation Bytes := (list Z) (only parsing).

(** [<[u8] as Ord>::cmp]: lexicographic, a prefix is less. *)
Fixpoint bytes_cmp (lhs rhs : Bytes) : comparison :=
  match lhs, rhs with
  | [], [] => Eq
  | [], _ => Lt
  | _, [] => Gt
  | l :: lhs, r :: rhs => match l ?= r with Eq => bytes_cmp lhs rhs | ordering => ordering end
  end.

(** The loop over [lhs.iter().zip(rhs)] for short strings. *)
Fixpoint zip_cmp (lhs rhs : Bytes) : comparison :=
  match lhs, rhs with
  | l :: lhs, r :: rhs => match l ?= r with Eq => zip_cmp lhs rhs | ordering => ordering end
  | _, _ => Eq
  end.

Definition LenOrder_cmp (lhs rhs : Bytes) : comparison :=
  match Nat.compare (length lhs) (length rhs) with
  | Eq => if (length lhs <? 8)%nat then zip_cmp lhs rhs else bytes_cmp lhs rhs
  | ordering => ordering
  end.

(** [Sym::from_usize] panics above [u32::MAX]. *)
Definition Sym_from_usize {E} (value : Z) : res E Z := expect (try_from_u 32 value).

Inductive InternHint : Type := InternHint_None | LikelyExists | LikelyNew.

Record StringInterner : Type := { string2symbol : gmap Bytes Z; strings : list Bytes }.

Definition StringInterner_new : StringInterner := {| string2symbol := ∅; strings := [] |}.

Definition StringInterner_len (self : StringInterner) : Z := Z.of_nat (size (string2symbol self)).

Definition get_or_intern_hint_new {E} (string : Bytes) : M StringInterner E Z :=
  self ← get_st;
  match string2symbol self !! string with
  | None =>
      symbol ← lift (Sym_from_usize (Z.of_nat (length (strings self))));
      put_st {| string2symbol := string2symbol self; strings := strings self ++ [string] |};;
      self ← get_st;
      put_st {| string2symbol := <[string := symbol]> (string2symbol self); strings := strings self |};;
      mret symbol
  | Some symbol => mret symbol
  end.

Definition StringInterner_intern {E} (string : Bytes) : M StringInterner E Z :=
  self ← get_st;
  symbol ← lift (Sym_from_usize (Z.of_nat (length (strings self))));
  let old := string2symbol self !! string in
  put_st {| string2symbol := <[string := symbol]> (string2symbol self); strings := strings self |};;
  assert_m (bool_decide (old = None));;
  self ← get_st;
  put_st {| string2symbol := string2symbol self; strings := strings self ++ [string] |};;
  mret symbol.

Definition get_or_intern_hint_existing {E} (string : Bytes) : M StringInterner E Z :=
  self ← get_st;
  match string2symbol self !! string with
  | Some symbol => mret symbol
  | None => StringInterner_intern string
  end.

Definition get_or_intern_with_hint {E} (string : Bytes) (hint : InternHint) : M StringInterner E Z :=
  match hint with
  | LikelyExists => get_or_intern_hint_existing string
  | LikelyNew | InternHint_None => get_or_intern_hint_new string
  end.

Definition StringInterner_get (self : StringInterner) (string : Bytes) : option Z :=
  string2symbol self !! string.

Definition StringInterner_resolve (self : StringInterner) (symbol : Z) : option Bytes :=
  strings self !! Z.to_nat symbol.

(** ** The order *)

Lemma zip_cmp_bytes lhs : forall rhs, length lhs = length rhs -> zip_cmp lhs rhs = bytes_cmp lhs rhs.
Proof.
  induction lhs as [|l lhs IH]; intros [|r rhs] Hl; try done. cbn. destruct (l ?= r); [|done..]. apply IH.
  by injection Hl.
Qed.

Lemma LenOrder_cmp_bytes lhs rhs : LenOrder_cmp lhs rhs =
  match Nat.compare (length lhs) (length rhs) with Eq => bytes_cmp lhs rhs | ordering => ordering end.
Proof.
  unfold LenOrder_cmp. destruct (Nat.compare_spec (length lhs) (length rhs)); [|done..].
  case_if; [by apply zip_cmp_bytes|done].
Qed.

Lemma bytes_cmp_Eq lhs : forall rhs, bytes_cmp lhs rhs = Eq <-> lhs = rhs.
Proof.
  induction lhs as [|l lhs IH]; intros [|r rhs]; try done. cbn. destruct (Z.compare_spec l r) as [->|?|?].
  - rewrite IH. split; congruence.
  - split; [done|]. intros [= -> _]. lia.
  - split; [done|]. intros [= -> _]. lia.
Qed.

Lemma bytes_cmp_antisym lhs : forall rhs, bytes_cmp rhs lhs = CompOpp (bytes_cmp lhs rhs).
Proof.
  induction lhs as [|l lhs IH]; intros [|r rhs]; try done. cbn. rewrite Z.compare_antisym.
  destruct (l ?= r); cbn; [apply IH|done..].
Qed.

Lemma bytes_cmp_trans a : forall b c, bytes_cmp a b = Lt -> bytes_cmp b c = Lt -> bytes_cmp a c = Lt.
Proof.
  induction a as [|x a IH]; intros [|y b] [|z c]; try done. cbn.
  destruct (Z.compare_spec x y), (Z.compare_spec y z); try done; subst.
  - rewrite Z.compare_refl. apply IH.
  - intros _ _. by rewrite (proj2 (Z.compare_lt_iff _ _)).
  - intros _ _. by rewrite (proj2 (Z.compare_lt_iff _ _)).
  - intros _ _. by rewrite (proj2 (Z.compare_lt_iff _ _)) by lia.
Qed.

(** The order the map is sorted by is a strict total order in which only equal
    strings are equal, although short strings are compared by another loop. *)
Theorem LenOrder_cmp_spec a b c :
  (LenOrder_cmp a b = Eq <-> a = b) /\
  LenOrder_cmp b a = CompOpp (LenOrder_cmp a b) /\
  (LenOrder_cmp a b = Lt -> LenOrder_cmp b c = Lt -> LenOrder_cmp a c = Lt).
Proof.
  rewrite !LenOrder_cmp_bytes. split_and!.
  - destruct (Nat.compare_spec (length a) (length b)); [apply bytes_cmp_Eq|..];
      (split; [done|intros ->; lia]).
  - rewrite Nat.compare_antisym. destruct (Nat.compare _ _); cbn; [apply bytes_cmp_antisym|done..].
  - destruct (Nat.compare_spec (length a) (length b)) as [E1|?|?],
      (Nat.compare_spec (length b) (length c)) as [E2|?|?]; try done.
    + rewrite E1, E2, Nat.compare_refl. apply bytes_cmp_trans.
    + intros _ _. by rewrite (proj2 (Nat.compare_lt_iff _ _)) by lia.
    + intros _ _. by rewrite (proj2 (Nat.compare_lt_iff _ _)) by lia.
    + intros _ _. by rewrite (proj2 (Nat.compare_lt_iff _ _)) by lia.
Qed.

(** ** Interning *)

(** Symbols and strings are in bijection. *)
Definition interner_ok (self : StringInterner) : Prop :=
  forall s n, string2symbol self !! s = Some n <-> 0 <= n /\ strings self !! Z.to_nat n = Some s.

Lemma StringInterner_new_ok : interner_ok StringInterner_new.
Proof. intros s n. cbn. rewrite lookup_empty, lookup_nil. by split; [|intros []]. Qed.

(** Interning gives a string the symbol it has, or the next one; the symbol
    resolves to the string, all others keep their meaning, and the hint does not
    matter. *)
Theorem get_or_intern_spec {E} s hint self r self' : interner_ok self ->
  Z.of_nat (length (strings self)) < 2 ^ 32 ->
  get_or_intern_with_hint (E := E) s hint self = (r, self') ->
  interner_ok self' /\
  (exists n, r = Ok n /\ StringInterner_resolve self' n = Some s /\ StringInterner_get self' s = Some n) /\
  (forall t m, StringInterner_get self t = Some m -> StringInterner_get self' t = Some m) /\
  (forall hint', get_or_intern_with_hint (E := E) s hint' self = (r, self')).
Proof.
  intros Hok Hlen.
  set (n := Z.of_nat (length (strings self))) in *.
  set (out := match string2symbol self !! s with
              | Some m => (Ok m, self)
              | None => (Ok n, {| string2symbol := <[s := n]> (string2symbol self); strings := strings self ++ [s] |})
              end : res E Z * StringInterner).
  assert (Hrun : forall hint', get_or_intern_with_hint s hint' self = out).
  { intros hint'. subst out. destruct hint'; cbn [get_or_intern_with_hint];
      unfold get_or_intern_hint_new, get_or_intern_hint_existing; rewrite bind_get_st;
      destruct (string2symbol self !! s) as [m|] eqn:Em; try done;
      unfold StringInterner_intern; rewrite ?bind_get_st;
      unfold Sym_from_usize, try_from_u; fold n; rewrite (proj2 (Z.ltb_lt _ _)) by done;
      cbn [expect]; rewrite bind_lift; cbn; rewrite ?Em; done. }
  rewrite Hrun. intros Ho. subst out. split_and!.
  - destruct (string2symbol self !! s) as [m|] eqn:Em; injection Ho as <- <-; [done|].
    intros t k. cbn. destruct (decide (s = t)) as [<-|Hne].
    + rewrite lookup_insert_eq. split.
      * intros [= <-]. split; [lia|]. unfold n. by rewrite Nat2Z.id, lookup_app_r, Nat.sub_diag by lia.
      * intros [Hk Ht]. destruct (decide (Z.to_nat k < length (strings self))%nat) as [Hlt|Hge].
        { rewrite lookup_app_l in Ht by done. assert (string2symbol self !! s = Some k) by by apply Hok.
          congruence. }
        assert (Hl : (Z.to_nat k < length (strings self ++ [s]))%nat) by by eapply lookup_lt_Some.
        rewrite length_app in Hl. cbn in Hl. f_equal. unfold n. lia.
    + rewrite lookup_insert_ne by done. rewrite (Hok t k). split; intros [Hk Ht]; (split; [done|]).
      * by apply lookup_app_l_Some.
      * apply lookup_app_Some in Ht as [Ht|[_ Ht]]; [done|].
        destruct (Z.to_nat k - length (strings self))%nat; [by injection Ht|done].
  - destruct (string2symbol self !! s) as [m|] eqn:Em; injection Ho as <- <-.
    + exists m. split; [done|]. split; [by apply Hok|done].
    + exists n. split; [done|]. unfold StringInterner_resolve, StringInterner_get. cbn.
      rewrite lookup_insert_eq. unfold n. by rewrite Nat2Z.id, lookup_app_r, Nat.sub_diag by lia.
  - destruct (string2symbol self !! s) as [m|] eqn:Em; injection Ho as <- <-; [done|].
    intros t m Hm. unfold StringInterner_get in *. cbn. rewrite lookup_insert_ne; [done|]. congruence.
  - intros hint'. by rewrite Hrun.
Qed.

Lemma get_or_intern_spec_witness :
  let s1 := snd (get_or_intern_with_hint (E := Empty_set) [97] LikelyNew StringInterner_new) in
  let run := get_or_intern_with_hint (E := Empty_set) [98; 97] LikelyExists s1 in
  interner_ok s1 /\ fst run = Ok 1 /\
  StringInterner_resolve (snd run) 1 = Some [98; 97] /\ StringInterner_get (snd run) [97] = Some 0.
Proof.
  intros s1 run.
  destruct (get_or_intern_spec (E := Empty_set) [97] LikelyNew StringInterner_new (Ok 0) s1
    StringInterner_new_ok ltac:(done) eq_refl) as (H1 & _).
  destruct (get_or_intern_spec (E := Empty_set) [98; 97] LikelyExists s1 (Ok 1) (snd run) H1 ltac:(done) eq_refl)
    as (_ & (n & E & Hr & _) & Ho & _). injection E as <-.
  split; [exact H1|]. split; [reflexivity|]. split; [exact Hr|]. apply Ho. reflexivity.
Defined.
