(* ===== verification/Store.v ===== *)
(** * The store

    [crates/wasmi/src/store/inner.rs] and [store/pruned.rs]: the arenas of the
    entities a store owns, the handles that lead to them, and growing of memories
    and tables; with the entities that have no file of their own: globals
    ([crates/core/src/global.rs]), data segments ([memory/data.rs]) and instances
    ([instance/mod.rs], [instance/exports.rs]).

    A method that returns [&mut] entities returns the entities; writing through
    them is [put_memory] and its like. *)

From Stdlib Require Import ZArith Lia.
From stdpp Require Import base option decidable numbers gmap list.
From S2P Require Import Prelude Trap Value Fuel Limiter MemoryType Memory Table Cells ExecStack Calls Arena.
Local Open Scope Z_scope.

(** ** Globals *)

Inductive GlobalError : Type := ImmutableWrite | GlobalError_TypeMismatch.
Inductive Mutability : Type := Mutability_Const | Mutability_Var.

#[export] Instance Mutability_eq_dec : EqDecision Mutability.
Proof. solve_decision. Defined.

Definition Mutability_is_mut (self : Mutability) : bool := bool_decide (self = Mutability_Var).

Record GlobalType : Type := { gt_content : ValType; gt_mutability : Mutability }.
Record CoreGlobal : Type := { g_value : RawVal; g_ty : GlobalType }.

Definition CoreGlobal_new (value : RawVal) (ty : GlobalType) : CoreGlobal :=
  {| g_value := value; g_ty := ty |}.

Definition CoreGlobal_write (value : RawVal) (self : CoreGlobal) : CoreGlobal :=
  {| g_value := value; g_ty := g_ty self |}.

Definition CoreGlobal_set (new_value : TypedRawVal) : M CoreGlobal GlobalError unit :=
  self ← get_st;
  if negb (Mutability_is_mut (gt_mutability (g_ty self))) then fail ImmutableWrite else
  if negb (bool_decide (gt_content (g_ty self) = typed_ty new_value)) then fail GlobalError_TypeMismatch else
  put_st (CoreGlobal_write (typed_value new_value) self).

Definition CoreGlobal_get (self : CoreGlobal) : TypedRawVal :=
  TypedRawVal_new (gt_content (g_ty self)) (g_value self).

(** The [debug_assert!] of [get_raw_ptr]; the pointer is the value. *)
Definition CoreGlobal_get_raw_ptr {E} (self : CoreGlobal) : res E RawVal :=
  assert_that (Mutability_is_mut (gt_mutability (g_ty self)));;
  Ok (g_value self).

(** ** Data segments and instances *)

Record DataSegmentEntity : Type := { ds_bytes : option (list Z) }.

Definition DataSegmentEntity_active : DataSegmentEntity := {| ds_bytes := None |}.
Definition DataSegmentEntity_passive (bytes : list Z) : DataSegmentEntity := {| ds_bytes := Some bytes |}.
Definition DataSegmentEntity_bytes (self : DataSegmentEntity) : list Z := default [] (ds_bytes self).
Definition DataSegmentEntity_drop_bytes (self : DataSegmentEntity) : DataSegmentEntity := {| ds_bytes := None |}.

(** [Func], [Table], [Memory], [Global], [DataSegment], [ElementSegment]. *)
Notation Handle := (Stored RawHandle) (only parsing).

Inductive Extern : Type :=
| Extern_Global (global : Handle)
| Extern_Table (table : Handle)
| Extern_Memory (memory : Handle)
| Extern_Func (func : Handle).

Definition into_global (self : Extern) : option Handle :=
  match self with Extern_Global global => Some global | _ => None end.
Definition into_table (self : Extern) : option Handle :=
  match self with Extern_Table table => Some table | _ => None end.
Definition into_memory (self : Extern) : option Handle :=
  match self with Extern_Memory memory => Some memory | _ => None end.
Definition into_func (self : Extern) : option Handle :=
  match self with Extern_Func func => Some func | _ => None end.

(** The exports are a [Map] keyed by name. *)
Record InstanceEntity : Type := {
  ie_initialized : bool;
  ie_func_types : list DedupFuncType;
  ie_tables : list Handle;
  ie_funcs : list Handle;
  ie_memories : list Handle;
  ie_globals : list Handle;
  ie_data_segments : list Handle;
  ie_elem_segments : list Handle;
  ie_exports : gmap (list Z) Extern
}.

Definition InstanceEntity_uninitialized : InstanceEntity := {|
  ie_initialized := false; ie_func_types := []; ie_tables := []; ie_funcs := []; ie_memories := [];
  ie_globals := []; ie_data_segments := []; ie_elem_segments := []; ie_exports := ∅
|}.

Definition get_memory (self : InstanceEntity) (index : Z) : option Handle := ie_memories self !! Z.to_nat index.
Definition get_table (self : InstanceEntity) (index : Z) : option Handle := ie_tables self !! Z.to_nat index.
Definition get_global (self : InstanceEntity) (index : Z) : option Handle := ie_globals self !! Z.to_nat index.
Definition get_func (self : InstanceEntity) (index : Z) : option Handle := ie_funcs self !! Z.to_nat index.
Definition get_signature (self : InstanceEntity) (index : Z) : option DedupFuncType :=
  ie_func_types self !! Z.to_nat index.
Definition get_data_segment (self : InstanceEntity) (index : Z) : option Handle :=
  ie_data_segments self !! Z.to_nat index.
Definition get_element_segment (self : InstanceEntity) (index : Z) : option Handle :=
  ie_elem_segments self !! Z.to_nat index.

Definition get_export (self : InstanceEntity) (name : list Z) : option Extern := ie_exports self !! name.

(** ** The store *)

Inductive InternalStoreError : Type := RestoreTypeMismatch | StoreMismatch | EntityNotFound.

Inductive StoreError (E : Type) : Type :=
| StoreError_Internal (error : InternalStoreError)
| StoreError_External (error : E).
Arguments StoreError_Internal {E} error.
Arguments StoreError_External {E} error.

(** External objects are opaque. *)
Record StoreInner : Type := {
  si_id : StoreId;
  si_funcs : Arena FuncEntity;
  si_memories : Arena Memory;
  si_tables : Arena Table;
  si_globals : Arena CoreGlobal;
  si_instances : Arena InstanceEntity;
  si_datas : Arena DataSegmentEntity;
  si_elems : Arena ElementSegment;
  si_extern_objects : Arena Z;
  si_fuel : Fuel
}.

(** The arena of one kind of entity, with the way to replace it. *)
Record StoreArena (Entity : Type) : Type := {
  sa_get : StoreInner -> Arena Entity;
  sa_set : Arena Entity -> StoreInner -> StoreInner
}.
Arguments sa_get {Entity} _ _.
Arguments sa_set {Entity} _ _ _.

Definition sa_funcs : StoreArena FuncEntity := {|
  sa_get := si_funcs;
  sa_set a s := {| si_id := si_id s; si_funcs := a; si_memories := si_memories s; si_tables := si_tables s;
    si_globals := si_globals s; si_instances := si_instances s; si_datas := si_datas s;
    si_elems := si_elems s; si_extern_objects := si_extern_objects s; si_fuel := si_fuel s |} |}.
Definition sa_memories : StoreArena Memory := {|
  sa_get := si_memories;
  sa_set a s := {| si_id := si_id s; si_funcs := si_funcs s; si_memories := a; si_tables := si_tables s;
    si_globals := si_globals s; si_instances := si_instances s; si_datas := si_datas s;
    si_elems := si_elems s; si_extern_objects := si_extern_objects s; si_fuel := si_fuel s |} |}.
Definition sa_tables : StoreArena Table := {|
  sa_get := si_tables;
  sa_set a s := {| si_id := si_id s; si_funcs := si_funcs s; si_memories := si_memories s; si_tables := a;
    si_globals := si_globals s; si_instances := si_instances s; si_datas := si_datas s;
    si_elems := si_elems s; si_extern_objects := si_extern_objects s; si_fuel := si_fuel s |} |}.
Definition sa_globals : StoreArena CoreGlobal := {|
  sa_get := si_globals;
  sa_set a s := {| si_id := si_id s; si_funcs := si_funcs s; si_memories := si_memories s;
    si_tables := si_tables s; si_globals := a; si_instances := si_instances s; si_datas := si_datas s;
    si_elems := si_elems s; si_extern_objects := si_extern_objects s; si_fuel := si_fuel s |} |}.
Definition sa_instances : StoreArena InstanceEntity := {|
  sa_get := si_instances;
  sa_set a s := {| si_id := si_id s; si_funcs := si_funcs s; si_memories := si_memories s;
    si_tables := si_tables s; si_globals := si_globals s; si_instances := a; si_datas := si_datas s;
    si_elems := si_elems s; si_extern_objects := si_extern_objects s; si_fuel := si_fuel s |} |}.
Definition sa_datas : StoreArena DataSegmentEntity := {|
  sa_get := si_datas;
  sa_set a s := {| si_id := si_id s; si_funcs := si_funcs s; si_memories := si_memories s;
    si_tables := si_tables s; si_globals := si_globals s; si_instances := si_instances s; si_datas := a;
    si_elems := si_elems s; si_extern_objects := si_extern_objects s; si_fuel := si_fuel s |} |}.
Definition sa_elems : StoreArena ElementSegment := {|
  sa_get := si_elems;
  sa_set a s := {| si_id := si_id s; si_funcs := si_funcs s; si_memories := si_memories s;
    si_tables := si_tables s; si_globals := si_globals s; si_instances := si_instances s;
    si_datas := si_datas s; si_elems := a; si_extern_objects := si_extern_objects s; si_fuel := si_fuel s |} |}.
Definition sa_extern_objects : StoreArena Z := {|
  sa_get := si_extern_objects;
  sa_set a s := {| si_id := si_id s; si_funcs := si_funcs s; si_memories := si_memories s;
    si_tables := si_tables s; si_globals := si_globals s; si_instances := si_instances s;
    si_datas := si_datas s; si_elems := si_elems s; si_extern_objects := a; si_fuel := si_fuel s |} |}.

Definition set_si_fuel (f : Fuel) (s : StoreInner) : StoreInner :=
  {| si_id := si_id s; si_funcs := si_funcs s; si_memories := si_memories s; si_tables := si_tables s;
    si_globals := si_globals s; si_instances := si_instances s; si_datas := si_datas s;
    si_elems := si_elems s; si_extern_objects := si_extern_objects s; si_fuel := f |}.

Definition StoreInner_new (id : StoreId) (fuel_enabled : bool) (fuel_costs : FuelCostsProvider) : StoreInner := {|
  si_id := id; si_funcs := Arena_new; si_memories := Arena_new; si_tables := Arena_new;
  si_globals := Arena_new; si_instances := Arena_new; si_datas := Arena_new; si_elems := Arena_new;
  si_extern_objects := Arena_new; si_fuel := Fuel_new fuel_enabled fuel_costs
|}.

Definition unwrap_stored (self : StoreInner) (stored : Handle) : res InternalStoreError RawHandle :=
  ok_or (StoreId_unwrap (si_id self) stored) StoreMismatch.

Section Store.
Context `{Allocator}.

(** [alloc_global] and its like: an exhausted arena is a panic. *)
Definition alloc_entity {Entity} `{SizeOf Entity} (sa : StoreArena Entity) (value : Entity) :
    M StoreInner Empty_set Handle := fun self =>
  match Arena_alloc value (sa_get sa self) with
  | (Ok key, a) => (Ok (StoreId_wrap (si_id self) key), sa_set sa a self)
  | (_, a) => (Panic, sa_set sa a self)
  end.

Definition alloc_instance `{SizeOf InstanceEntity} : M StoreInner Empty_set Handle :=
  alloc_entity sa_instances InstanceEntity_uninitialized.

Definition resolve {Entity} (self : StoreInner) (idx : Handle) (entities : Arena Entity) :
    res InternalStoreError Entity :=
  idx ← unwrap_stored self idx;
  map_err (fun _ => EntityNotFound) (Arena_get entities idx).

Definition resolve_mut {Entity} (idx : RawHandle) (entities : Arena Entity) : res InternalStoreError Entity :=
  map_err (fun _ => EntityNotFound) (Arena_get_mut idx entities).

(** Writing through a reference to the entity of a handle. *)
Definition put_entity {Entity} (sa : StoreArena Entity) (idx : Handle) (entity : Entity) (self : StoreInner) :
    StoreInner :=
  sa_set sa (Arena_update (st_value idx) entity (sa_get sa self)) self.

Definition initialize_instance (instance : Handle) (init : InstanceEntity) : M StoreInner Empty_set unit :=
  self ← get_st;
  assert_m (ie_initialized init);;
  match unwrap_stored self instance with
  | Ok idx =>
      match Arena_get_mut idx (si_instances self) with
      | Ok uninit =>
          assert_m (negb (ie_initialized uninit));;
          put_st (put_entity sa_instances instance init self)
      | _ => panic
      end
  | _ => panic
  end.

(** [try_resolve_global] and the other shared resolvers, and the exclusive ones. *)
Definition try_resolve {Entity} (sa : StoreArena Entity) (self : StoreInner) (idx : Handle) :
    res InternalStoreError Entity := resolve self idx (sa_get sa self).
Definition try_resolve_mut {Entity} (sa : StoreArena Entity) (self : StoreInner) (idx : Handle) :
    res InternalStoreError Entity :=
  idx ← unwrap_stored self idx;
  resolve_mut idx (sa_get sa self).

(** An entity together with the fuel. *)
Definition try_resolve_and_fuel_mut {Entity} (sa : StoreArena Entity) (self : StoreInner) (idx : Handle) :
    res InternalStoreError (Entity * Fuel) :=
  idx ← unwrap_stored self idx;
  entity ← resolve_mut idx (sa_get sa self);
  Ok (entity, si_fuel self).

Definition try_resolve_table_and_element_mut (self : StoreInner) (table elem : Handle) :
    res InternalStoreError (Table * ElementSegment) :=
  table_idx ← unwrap_stored self table;
  elem_idx ← unwrap_stored self elem;
  table ← resolve_mut table_idx (si_tables self);
  elem ← resolve_mut elem_idx (si_elems self);
  Ok (table, elem).

(** [try_resolve_table_pair_and_fuel] and [try_resolve_memory_pair_and_fuel]:
    any error of the arena is a panic. *)
Definition try_resolve_pair_and_fuel {Entity} (sa : StoreArena Entity) (self : StoreInner) (fst snd : Handle) :
    res InternalStoreError (Entity * Entity * Fuel) :=
  fst ← unwrap_stored self fst;
  snd ← unwrap_stored self snd;
  match Arena_get_pair_mut fst snd (sa_get sa self) with
  | Ok (fst, snd) => Ok (fst, snd, si_fuel self)
  | _ => Panic
  end.

Definition try_resolve_table_init_params (self : StoreInner) (table segment : Handle) :
    res InternalStoreError (Table * ElementSegment * Fuel) :=
  mem_idx ← unwrap_stored self table;
  elem ← resolve self segment (si_elems self);
  mem ← resolve_mut mem_idx (si_tables self);
  Ok (mem, elem, si_fuel self).

Definition try_resolve_memory_init_params (self : StoreInner) (memory segment : Handle) :
    res InternalStoreError (Memory * DataSegmentEntity * Fuel) :=
  mem_idx ← unwrap_stored self memory;
  data ← resolve self segment (si_datas self);
  mem ← resolve_mut mem_idx (si_memories self);
  Ok (mem, data, si_fuel self).

(** [resolve_*] of [define_panicking_getters!] and of the executor: an error
    never happens for the handles of a store's own instances. *)
Definition panicking {E A} (r : res InternalStoreError A) : res E A :=
  match r with Ok a => Ok a | _ => Panic end.

(** ** Growing

    The store with the resource limiter of its host state. *)
Context {L : Type} `{ResourceLimiter L}.

Definition PrunedStore : Type := StoreInner * ResourceLimiterRef L.

Definition grow_memory (memory : Handle) (delta : Z) : M PrunedStore (StoreError MemoryError) Z := fun s =>
  match try_resolve_and_fuel_mut sa_memories s.1 memory with
  | Ok (m, fuel) =>
      match Memory_grow delta (m, Some fuel, s.2) with
      | (r, (m, fuel, limiter)) =>
          (map_err StoreError_External r,
           (set_si_fuel (default (si_fuel s.1) fuel) (put_entity sa_memories memory m s.1), limiter))
      end
  | Err e => (Err (StoreError_Internal e), s)
  | Panic => (Panic, s)
  end.

Definition grow_table (table : Handle) (delta : Z) (init : RawRef) : M PrunedStore (StoreError TableError) Z := fun s =>
  match try_resolve_and_fuel_mut sa_tables s.1 table with
  | Ok (t, fuel) =>
      match Table_grow_raw delta init (t, Some fuel, s.2) with
      | (r, (t, fuel, limiter)) =>
          (map_err StoreError_External r,
           (set_si_fuel (default (si_fuel s.1) fuel) (put_entity sa_tables table t s.1), limiter))
      end
  | Err e => (Err (StoreError_Internal e), s)
  | Panic => (Panic, s)
  end.

End Store.

Arguments PrunedStore L : clear implicits.
