(* ===== verification/Float.v ===== *)
(** * Wasm float instructions

    The [Float] trait of [crates/core/src/value.rs] with its implementations for
    [f32] and [f64], the conversions between floats and integers, and the float
    instructions of [crates/core/src/wasm.rs].

    A float is its bit pattern; what a pattern stands for and the arithmetic of
    IEEE 754 are [spec_float] of the Standard Library.  Which NaN an arithmetic
    operation of the host yields is a parameter ([FloatNans]), as is the Cargo
    feature [deterministic]. *)

From Stdlib Require Import ZArith Lia SpecFloat.
From stdpp Require Import base option decidable numbers tactics list.
From S2P Require Import Prelude Trap Value WasmInt.
Local Open Scope Z_scope.

(** ** Formats *)

Inductive FloatTy : Type := F32 | F64.

#[export] Instance FloatTy_eq_dec : EqDecision FloatTy.
Proof. solve_decision. Defined.

Definition float_bits (ty : FloatTy) : Z := match ty with F32 => 32 | F64 => 64 end.
Definition float_prec (ty : FloatTy) : Z := match ty with F32 => 24 | F64 => 53 end.
Definition float_emax (ty : FloatTy) : Z := match ty with F32 => 128 | F64 => 1024 end.
Definition float_emin (ty : FloatTy) : Z := emin (float_prec ty) (float_emax ty).
(** The bits of the mantissa and of the exponent of a pattern. *)
Definition mant_bits (ty : FloatTy) : Z := float_prec ty - 1.
Definition exp_bits (ty : FloatTy) : Z := float_bits ty - float_prec ty.

Definition sign_mask (ty : FloatTy) : Z := 2 ^ (float_bits ty - 1).
Definition is_sign_negative (ty : FloatTy) (v : Z) : bool := Z.testbit v (float_bits ty - 1).
Definition is_sign_positive (ty : FloatTy) (v : Z) : bool := negb (is_sign_negative ty v).
Definition float_mantissa (ty : FloatTy) (v : Z) : Z := v mod 2 ^ mant_bits ty.
Definition float_exponent (ty : FloatTy) (v : Z) : Z := v / 2 ^ mant_bits ty mod 2 ^ exp_bits ty.

(** The number a bit pattern stands for, and the pattern of a number; [nan] is
    the pattern of a NaN. *)
Definition to_sf (ty : FloatTy) (v : Z) : spec_float :=
  let s := is_sign_negative ty v in
  let m := float_mantissa ty v in
  let e := float_exponent ty v in
  if e =? 2 ^ exp_bits ty - 1 then if m =? 0 then S754_infinity s else S754_nan
  else if e =? 0 then
    match m with Zpos m => S754_finite s m (float_emin ty) | _ => S754_zero s end
  else
    match m + 2 ^ mant_bits ty with Zpos m => S754_finite s m (e - 1 + float_emin ty) | _ => S754_nan end.

Definition sign_of (ty : FloatTy) (s : bool) : Z := if s then sign_mask ty else 0.

Definition of_sf (ty : FloatTy) (nan : Z) (x : spec_float) : Z :=
  match x with
  | S754_zero s => sign_of ty s
  | S754_infinity s => sign_of ty s + (2 ^ exp_bits ty - 1) * 2 ^ mant_bits ty
  | S754_nan => nan
  | S754_finite s m e =>
      if Zpos m <? 2 ^ mant_bits ty then sign_of ty s + Zpos m
      else sign_of ty s + (e - float_emin ty + 1) * 2 ^ mant_bits ty + (Zpos m - 2 ^ mant_bits ty)
  end.

Definition is_nan (ty : FloatTy) (v : Z) : bool :=
  match to_sf ty v with S754_nan => true | _ => false end.
Definition is_infinite (ty : FloatTy) (v : Z) : bool :=
  match to_sf ty v with S754_infinity _ => true | _ => false end.

(** ** NaNs of the host *)

Class FloatNans : Type := {
  deterministic : bool;
  (** the NaN of an arithmetic operation on these operands *)
  arith_nan : FloatTy -> list Z -> Z;
  (** the NaN a NaN of the other format is converted to *)
  convert_nan : FloatTy -> Z -> Z
}.

Class FloatNanLaws `{FloatNans} : Prop := {
  arith_nan_law : forall ty args, is_nan ty (arith_nan ty args) = true;
  convert_nan_law : forall ty v, is_nan ty (convert_nan ty v) = true
}.

Definition quiet_bit (ty : FloatTy) : Z :=
  match ty with F32 => 0x00400000 | F64 => 0x0008000000000000 end.
Definition CANONICAL_NAN (ty : FloatTy) : Z :=
  match ty with F32 => 0x7FC00000 | F64 => 0x7FF8000000000000 end.

Definition into_quiet_nan (ty : FloatTy) (v : Z) : option Z :=
  if negb (is_nan ty v) then None else Some (Z.lor v (quiet_bit ty)).
Definition canonicalize_nan (ty : FloatTy) (v : Z) : Z :=
  if negb (is_nan ty v) then v else CANONICAL_NAN ty.

(** ** The [Float] trait *)

Section Float.
Context `{FloatNans}.

Definition canonicalize_nan_if_enabled (ty : FloatTy) (v : Z) : Z :=
  if deterministic then canonicalize_nan ty v else v.

(** The operators of Rust on [f32] and [f64]. *)
Definition float_binop (f : Z -> Z -> spec_float -> spec_float -> spec_float) (ty : FloatTy) (lhs rhs : Z) : Z :=
  of_sf ty (arith_nan ty [lhs; rhs]) (f (float_prec ty) (float_emax ty) (to_sf ty lhs) (to_sf ty rhs)).

Definition float_lt (ty : FloatTy) (lhs rhs : Z) : bool := SFltb (to_sf ty lhs) (to_sf ty rhs).
Definition float_le (ty : FloatTy) (lhs rhs : Z) : bool := SFleb (to_sf ty lhs) (to_sf ty rhs).
Definition float_gt (ty : FloatTy) (lhs rhs : Z) : bool := float_lt ty rhs lhs.
Definition float_ge (ty : FloatTy) (lhs rhs : Z) : bool := float_le ty rhs lhs.
Definition float_eq (ty : FloatTy) (lhs rhs : Z) : bool := SFeqb (to_sf ty lhs) (to_sf ty rhs).
Definition float_ne (ty : FloatTy) (lhs rhs : Z) : bool := negb (float_eq ty lhs rhs).

Definition Float_neg (ty : FloatTy) (v : Z) : Z := Z.lxor v (sign_mask ty).
Definition Float_abs (ty : FloatTy) (v : Z) : Z := v mod sign_mask ty.
Definition Float_copysign (ty : FloatTy) (lhs rhs : Z) : Z :=
  lhs mod sign_mask ty + sign_of ty (is_sign_negative ty rhs).

(** Rounding to an integer, applied to the quotient and the remainder of the
    magnitude by a power of two. *)
Inductive Rounding : Type := Floor | Ceil | Trunc | Nearest.

Definition round_up (r : Rounding) (s : bool) (q rem half2 : Z) : bool :=
  match r with
  | Trunc => false
  | Floor => s && negb (rem =? 0)
  | Ceil => negb s && negb (rem =? 0)
  | Nearest => (half2 <? 2 * rem) || ((2 * rem =? half2) && Z.odd q)
  end.

(** A positive integer of at most [float_prec] bits as a float. *)
Definition exact_float (ty : FloatTy) (s : bool) (n : Z) : spec_float :=
  match n with
  | Zpos p => let d := float_prec ty - Zpos (digits2_pos p) in
              match n * 2 ^ d with Zpos m => S754_finite s m (- d) | _ => S754_nan end
  | _ => S754_zero s
  end.

Definition round_integral (r : Rounding) (ty : FloatTy) (v : Z) : Z :=
  match to_sf ty v with
  | S754_finite s m e =>
      if 0 <=? e then v else
      let q := Zpos m / 2 ^ - e in
      let rem := Zpos m mod 2 ^ - e in
      of_sf ty v (exact_float ty s (if round_up r s q rem (2 ^ - e) then q + 1 else q))
  | _ => v
  end.

Definition Float_round (r : Rounding) (ty : FloatTy) (v : Z) : Z :=
  match into_quiet_nan ty v with
  | Some qnan => canonicalize_nan_if_enabled ty qnan
  | None => round_integral r ty v
  end.
Definition Float_floor : FloatTy -> Z -> Z := Float_round Floor.
Definition Float_ceil : FloatTy -> Z -> Z := Float_round Ceil.
Definition Float_trunc : FloatTy -> Z -> Z := Float_round Trunc.
Definition Float_nearest : FloatTy -> Z -> Z := Float_round Nearest.

Definition Float_sqrt (ty : FloatTy) (v : Z) : Z :=
  match into_quiet_nan ty v with
  | Some qnan => canonicalize_nan_if_enabled ty qnan
  | None =>
      canonicalize_nan_if_enabled ty
        (of_sf ty (arith_nan ty [v]) (SFsqrt (float_prec ty) (float_emax ty) (to_sf ty v)))
  end.

Definition float_add : FloatTy -> Z -> Z -> Z := float_binop SFadd.

Definition Float_add (ty : FloatTy) (lhs rhs : Z) : Z :=
  canonicalize_nan_if_enabled ty (float_add ty lhs rhs).
Definition Float_sub (ty : FloatTy) (lhs rhs : Z) : Z :=
  canonicalize_nan_if_enabled ty (float_binop SFsub ty lhs rhs).
Definition Float_mul (ty : FloatTy) (lhs rhs : Z) : Z :=
  canonicalize_nan_if_enabled ty (float_binop SFmul ty lhs rhs).
Definition Float_div (ty : FloatTy) (lhs rhs : Z) : Z :=
  canonicalize_nan_if_enabled ty (float_binop SFdiv ty lhs rhs).

Definition Float_min (ty : FloatTy) (lhs rhs : Z) : Z :=
  if float_lt ty lhs rhs then lhs
  else if float_lt ty rhs lhs then rhs
  else if float_eq ty lhs rhs then
    if is_sign_negative ty lhs && is_sign_positive ty rhs then lhs else rhs
  else canonicalize_nan_if_enabled ty (float_add ty lhs rhs).

Definition Float_max (ty : FloatTy) (lhs rhs : Z) : Z :=
  if float_gt ty lhs rhs then lhs
  else if float_gt ty rhs lhs then rhs
  else if float_eq ty lhs rhs then
    if is_sign_positive ty lhs && is_sign_negative ty rhs then lhs else rhs
  else canonicalize_nan_if_enabled ty (float_add ty lhs rhs).

(** ** Conversions *)

(** [value as f32] and [value as f64] of an integer, and between floats. *)
Definition float_of_int (ty : FloatTy) (value : Z) : Z :=
  of_sf ty 0 (binary_normalize (float_prec ty) (float_emax ty) value 0 false).
Definition float_convert (from into : FloatTy) (v : Z) : Z :=
  of_sf into (convert_nan into v)
    match to_sf from v with
    | S754_finite s m e => binary_round (float_prec into) (float_emax into) s m e
    | x => x
    end.

Definition demote_f64 (value : Z) : Z := canonicalize_nan_if_enabled F32 (float_convert F64 F32 value).
Definition promote_f32 (value : Z) : Z := canonicalize_nan_if_enabled F64 (float_convert F32 F64 value).

(** The integer part of a number. *)
Definition sf_trunc (x : spec_float) : Z :=
  match x with
  | S754_finite s m e => cond_Zopp s (if 0 <=? e then Zpos m * 2 ^ e else Zpos m / 2 ^ - e)
  | _ => 0
  end.

(** The least and the greatest value of an integer type. *)
Definition int_min (into : Prim) : Z := if prim_signed into then - 2 ^ (prim_bits into - 1) else 0.
Definition int_max (into : Prim) : Z :=
  if prim_signed into then 2 ^ (prim_bits into - 1) - 1 else 2 ^ prim_bits into - 1.

(** [self as T] of a float and an integer type, which saturates. *)
Definition float_to_int (from : FloatTy) (into : Prim) (v : Z) : Z :=
  match to_sf from v with
  | S754_nan => 0
  | S754_infinity s => if s then int_min into else int_max into
  | x => Z.max (int_min into) (Z.min (sf_trunc x) (int_max into))
  end.

(** [rmin] and [rmax] are float literals with integer values. *)
Definition try_truncate_into (from : FloatTy) (into : Prim) (rmin rmax : Z) (v : Z) : res TrapCode Z :=
  if is_nan from v then Err BadConversionToInteger else
  if float_le from v (float_of_int from rmin) || float_ge from v (float_of_int from rmax)
  then Err IntegerOverflow
  else Ok (float_to_int from into v).

Definition truncate_saturate_into (from : FloatTy) (into : Prim) (v : Z) : Z :=
  if is_nan from v then 0 else
  if is_infinite from v && is_sign_positive from v then int_max into else
  if is_infinite from v && is_sign_negative from v then int_min into else
  float_to_int from into v.

(** ** Instructions of [wasm.rs] *)

Definition f32_eq : Z -> Z -> bool := float_eq F32.
Definition f64_eq : Z -> Z -> bool := float_eq F64.
Definition f32_ne : Z -> Z -> bool := float_ne F32.
Definition f64_ne : Z -> Z -> bool := float_ne F64.
Definition f32_lt : Z -> Z -> bool := float_lt F32.
Definition f64_lt : Z -> Z -> bool := float_lt F64.
Definition f32_le : Z -> Z -> bool := float_le F32.
Definition f64_le : Z -> Z -> bool := float_le F64.
Definition f32_gt : Z -> Z -> bool := float_gt F32.
Definition f64_gt : Z -> Z -> bool := float_gt F64.
Definition f32_ge : Z -> Z -> bool := float_ge F32.
Definition f64_ge : Z -> Z -> bool := float_ge F64.

Definition f32_abs : Z -> Z := Float_abs F32.
Definition f64_abs : Z -> Z := Float_abs F64.
Definition f32_neg : Z -> Z := Float_neg F32.
Definition f64_neg : Z -> Z := Float_neg F64.
Definition f32_ceil : Z -> Z := Float_ceil F32.
Definition f64_ceil : Z -> Z := Float_ceil F64.
Definition f32_floor : Z -> Z := Float_floor F32.
Definition f64_floor : Z -> Z := Float_floor F64.
Definition f32_trunc : Z -> Z := Float_trunc F32.
Definition f64_trunc : Z -> Z := Float_trunc F64.
Definition f32_nearest : Z -> Z := Float_nearest F32.
Definition f64_nearest : Z -> Z := Float_nearest F64.
Definition f32_sqrt : Z -> Z := Float_sqrt F32.
Definition f64_sqrt : Z -> Z := Float_sqrt F64.

Definition f32_add : Z -> Z -> Z := Float_add F32.
Definition f64_add : Z -> Z -> Z := Float_add F64.
Definition f32_sub : Z -> Z -> Z := Float_sub F32.
Definition f64_sub : Z -> Z -> Z := Float_sub F64.
Definition f32_mul : Z -> Z -> Z := Float_mul F32.
Definition f64_mul : Z -> Z -> Z := Float_mul F64.
Definition f32_div : Z -> Z -> Z := Float_div F32.
Definition f64_div : Z -> Z -> Z := Float_div F64.
Definition f32_min : Z -> Z -> Z := Float_min F32.
Definition f64_min : Z -> Z -> Z := Float_min F64.
Definition f32_max : Z -> Z -> Z := Float_max F32.
Definition f64_max : Z -> Z -> Z := Float_max F64.
Definition f32_copysign : Z -> Z -> Z := Float_copysign F32.
Definition f64_copysign : Z -> Z -> Z := Float_copysign F64.

Definition f32_demote_f64 : Z -> Z := demote_f64.
Definition f64_promote_f32 : Z -> Z := promote_f32.

(** [impl_try_truncate_into!]. *)
Definition i32_trunc_f32_s : Z -> res TrapCode Z := try_truncate_into F32 P_i32 (-2147483904) 2147483648.
Definition i64_trunc_f32_s : Z -> res TrapCode Z := try_truncate_into F32 P_i64 (-9223373136366403584) 9223372036854775808.
Definition i32_trunc_f32_u : Z -> res TrapCode Z := try_truncate_into F32 P_u32 (-1) 4294967296.
Definition i64_trunc_f32_u : Z -> res TrapCode Z := try_truncate_into F32 P_u64 (-1) 18446744073709551616.
Definition i32_trunc_f64_s : Z -> res TrapCode Z := try_truncate_into F64 P_i32 (-2147483649) 2147483648.
Definition i64_trunc_f64_s : Z -> res TrapCode Z := try_truncate_into F64 P_i64 (-9223372036854777856) 9223372036854775808.
Definition i32_trunc_f64_u : Z -> res TrapCode Z := try_truncate_into F64 P_u32 (-1) 4294967296.
Definition i64_trunc_f64_u : Z -> res TrapCode Z := try_truncate_into F64 P_u64 (-1) 18446744073709551616.

Definition f32_convert_i32_s : Z -> Z := float_of_int F32.
Definition f32_convert_i32_u : Z -> Z := float_of_int F32.
Definition f32_convert_i64_s : Z -> Z := float_of_int F32.
Definition f32_convert_i64_u : Z -> Z := float_of_int F32.
Definition f64_convert_i32_s : Z -> Z := float_of_int F64.
Definition f64_convert_i32_u : Z -> Z := float_of_int F64.
Definition f64_convert_i64_s : Z -> Z := float_of_int F64.
Definition f64_convert_i64_u : Z -> Z := float_of_int F64.

Definition i32_trunc_sat_f32_s : Z -> Z := truncate_saturate_into F32 P_i32.
Definition i32_trunc_sat_f32_u : Z -> Z := truncate_saturate_into F32 P_u32.
Definition i32_trunc_sat_f64_s : Z -> Z := truncate_saturate_into F64 P_i32.
Definition i32_trunc_sat_f64_u : Z -> Z := truncate_saturate_into F64 P_u32.
Definition i64_trunc_sat_f32_s : Z -> Z := truncate_saturate_into F32 P_i64.
Definition i64_trunc_sat_f32_u : Z -> Z := truncate_saturate_into F32 P_u64.
Definition i64_trunc_sat_f64_s : Z -> Z := truncate_saturate_into F64 P_i64.
Definition i64_trunc_sat_f64_u : Z -> Z := truncate_saturate_into F64 P_u64.

End Float.

(** ** Floats as numbers

    The comparisons of [Float] decide the order of the numbers that bit patterns
    stand for.  The truncating conversions trap exactly on the floats whose
    integer part the integer type cannot hold; [min] and [max] pick by the total
    order of the patterns. *)

(** ** Numbers of a format *)

Definition float_scale (ty : FloatTy) : Z := 2 ^ - float_emin ty.

(** The number times [float_scale], an integer for every finite float. *)
Definition scaled (ty : FloatTy) (x : spec_float) : Z :=
  match x with
  | S754_finite s m e => cond_Zopp s (Zpos m * 2 ^ (e - float_emin ty))
  | _ => 0
  end.

Definition sf_finite (x : spec_float) : bool :=
  match x with S754_zero _ | S754_finite _ _ _ => true | _ => false end.

(** The finite floats as [to_sf] yields them. *)
Definition canonical (ty : FloatTy) (x : spec_float) : bool :=
  match x with
  | S754_finite _ m e =>
      (Zpos m <? 2 ^ float_prec ty) && (float_emin ty <=? e)
      && ((2 ^ mant_bits ty <=? Zpos m) || (e =? float_emin ty))
  | _ => true
  end.

Lemma to_sf_canonical ty v : canonical ty (to_sf ty v) = true.
Proof.
  assert (0 <= float_mantissa ty v < 2 ^ mant_bits ty) as Hm.
  { unfold float_mantissa. apply Z.mod_pos_bound. destruct ty; done. }
  assert (0 <= float_exponent ty v) as He.
  { unfold float_exponent. apply Z.mod_pos_bound. destruct ty; done. }
  assert (2 ^ float_prec ty = 2 * 2 ^ mant_bits ty) as Hp by (by destruct ty).
  unfold to_sf. repeat case_match; try done; simplify_eq; cbn [canonical];
    repeat match goal with Hx : (_ =? _) = _ |- _ => first [apply Z.eqb_eq in Hx | apply Z.eqb_neq in Hx] end;
    rewrite ?andb_true_iff, ?orb_true_iff, ?Z.ltb_lt, ?Z.leb_le, ?Z.eqb_eq; lia.
Qed.

Lemma scaled_finite ty s m e :
  canonical ty (S754_finite s m e) = true ->
  0 < Zpos m * 2 ^ (e - float_emin ty).
Proof.
  cbn [canonical]. rewrite !andb_true_iff, Z.leb_le. intros [[_ He] _].
  assert (0 < 2 ^ (e - float_emin ty)) by (apply Z.pow_pos_nonneg; lia). lia.
Qed.

(** A greater exponent means a greater number. *)
Lemma scaled_exponent ty s1 m1 e1 s2 m2 e2 :
  canonical ty (S754_finite s1 m1 e1) = true ->
  canonical ty (S754_finite s2 m2 e2) = true ->
  e1 < e2 ->
  Zpos m1 * 2 ^ (e1 - float_emin ty) < Zpos m2 * 2 ^ (e2 - float_emin ty).
Proof.
  assert (2 ^ float_prec ty = 2 * 2 ^ mant_bits ty) as Hp by (by destruct ty).
  cbn [canonical].
  rewrite !andb_true_iff, !orb_true_iff, !Z.ltb_lt, !Z.leb_le, !Z.eqb_eq. intros Hc1 Hc2 Hlt.
  replace (e2 - float_emin ty) with (e1 - float_emin ty + 1 + (e2 - e1 - 1)) by lia.
  rewrite !Z.pow_add_r by lia.
  assert (0 < 2 ^ (e1 - float_emin ty)) by (apply Z.pow_pos_nonneg; lia).
  assert (0 < 2 ^ (e2 - e1 - 1)) by (apply Z.pow_pos_nonneg; lia).
  change (2 ^ 1) with 2.
  generalize dependent (2 ^ (e1 - float_emin ty)). generalize dependent (2 ^ (e2 - e1 - 1)).
  intros q Hq p Hpos. apply Z.lt_le_trans with (2 * Zpos m2 * p); nia.
Qed.

Lemma scaled_compare ty s1 m1 e1 s2 m2 e2 :
  canonical ty (S754_finite s1 m1 e1) = true ->
  canonical ty (S754_finite s2 m2 e2) = true ->
  match Z.compare e1 e2 with
  | Lt => Lt
  | Gt => Gt
  | Eq => Pos.compare_cont Eq m1 m2
  end = Z.compare (Zpos m1 * 2 ^ (e1 - float_emin ty)) (Zpos m2 * 2 ^ (e2 - float_emin ty)).
Proof.
  intros Hc1 Hc2. destruct (Z.compare_spec e1 e2) as [->|Hl|Hl]; symmetry.
  - assert (0 < 2 ^ (e2 - float_emin ty)) by (pose proof (scaled_finite _ _ _ _ Hc2); nia).
    rewrite <- Zmult_compare_compat_r by lia. done.
  - apply Z.compare_lt_iff. by eapply scaled_exponent.
  - apply Z.compare_gt_iff. by eapply scaled_exponent.
Qed.

Lemma SFcompare_scaled ty x y :
  canonical ty x = true -> canonical ty y = true ->
  sf_finite x = true -> sf_finite y = true ->
  SFcompare x y = Some (Z.compare (scaled ty x) (scaled ty y)).
Proof.
  intros Hx Hy Hfx Hfy.
  destruct x as [sx| | |sx mx ex], y as [sy| | |sy my ey]; try done; cbn [SFcompare scaled];
    try (pose proof (scaled_finite _ _ _ _ Hx)); try (pose proof (scaled_finite _ _ _ _ Hy)).
  all: f_equal.
  - destruct sy; cbn [cond_Zopp]; symmetry; [apply Z.compare_gt_iff|apply Z.compare_lt_iff]; lia.
  - destruct sx; cbn [cond_Zopp]; symmetry; [apply Z.compare_lt_iff|apply Z.compare_gt_iff]; lia.
  - destruct sx, sy; cbn [cond_Zopp]; symmetry; try done.
    + rewrite Z.compare_opp, Z.compare_antisym, <- (scaled_compare ty true mx ex true my ey) by done.
      by destruct (ex ?= ey).
    + apply Z.compare_lt_iff; lia.
    + apply Z.compare_gt_iff; lia.
    + by rewrite (scaled_compare ty false mx ex false my ey) by done.
Qed.

(** ** Truncation *)

Lemma sf_trunc_scaled ty x : canonical ty x = true -> sf_trunc x = scaled ty x ÷ float_scale ty.
Proof.
  assert (0 < - float_emin ty) by (destruct ty; done).
  destruct x as [sx| | |sx mx ex]; intros Hx; cbn [scaled sf_trunc];
    try (symmetry; by apply Z.quot_0_l; destruct ty).
  assert (forall z, cond_Zopp sx z ÷ float_scale ty = cond_Zopp sx (z ÷ float_scale ty)) as ->.
  { intros z. destruct sx; cbn [cond_Zopp]; [|done]. apply Z.quot_opp_l. by destruct ty. }
  f_equal. unfold float_scale.
  cbn [canonical] in Hx. rewrite !andb_true_iff, Z.leb_le in Hx. destruct Hx as [[_ He] _].
  destruct (Z.leb_spec 0 ex).
  - replace (ex - float_emin ty) with (ex + - float_emin ty) by lia.
    rewrite Z.pow_add_r, Z.mul_assoc, Z.quot_mul by lia. done.
  - replace (- float_emin ty) with ((- ex) + (ex - float_emin ty)) by lia.
    rewrite Z.pow_add_r by lia.
    assert (0 < 2 ^ (ex - float_emin ty)) by (apply Z.pow_pos_nonneg; lia).
    assert (0 < 2 ^ - ex) by (apply Z.pow_pos_nonneg; lia).
    rewrite Z.quot_mul_cancel_r by lia. rewrite Z.quot_div_nonneg by lia. done.
Qed.

(** No float lies strictly between [2 ^ k] and the next one. *)
Lemma scaled_gap ty k s m e :
  float_prec ty <= k -> canonical ty (S754_finite s m e) = true ->
  2 ^ k * float_scale ty < Zpos m * 2 ^ (e - float_emin ty) ->
  (2 ^ k + 2 ^ (k - mant_bits ty)) * float_scale ty <= Zpos m * 2 ^ (e - float_emin ty).
Proof.
  assert (0 < - float_emin ty) by (destruct ty; done).
  assert (0 < float_prec ty /\ mant_bits ty = float_prec ty - 1) as [Hp Hmb] by (destruct ty; done).
  intros Hk Hc Hlt. cbn [canonical] in Hc. rewrite !andb_true_iff, Z.ltb_lt, Z.leb_le in Hc.
  destruct Hc as [[Hm He] _]. unfold float_scale in *.
  assert (k - mant_bits ty <= e) as Hke.
  { destruct (Z.le_gt_cases (k - mant_bits ty) e); [done|exfalso].
    assert (2 ^ float_prec ty * 2 ^ (e - float_emin ty) <= 2 ^ k * 2 ^ - float_emin ty) as Hle.
    { rewrite <- !Z.pow_add_r by lia. apply Z.pow_le_mono_r; lia. }
    assert (0 < 2 ^ (e - float_emin ty)) by (apply Z.pow_pos_nonneg; lia). nia. }
  set (d := k - mant_bits ty) in *.
  replace (e - float_emin ty) with ((e - d) + (d + - float_emin ty)) in * by lia.
  replace k with (mant_bits ty + d) in * by lia.
  rewrite !Z.pow_add_r in * by lia.
  assert (0 < 2 ^ d) by (apply Z.pow_pos_nonneg; lia).
  assert (0 < 2 ^ - float_emin ty) by (apply Z.pow_pos_nonneg; lia).
  generalize dependent (2 ^ (e - d)). generalize dependent (2 ^ d). generalize dependent (2 ^ - float_emin ty).
  generalize (2 ^ mant_bits ty). intros M S HS D HD E Hlt.
  assert (M < Zpos m * E) by (apply Z.mul_lt_mono_pos_r with (D * S); nia).
  pose proof (Z.mul_le_mono_nonneg_r (M + 1) (Zpos m * E) (D * S) ltac:(nia) ltac:(lia)). lia.
Qed.

(** The truncating instructions with the types they convert between. *)
Definition trunc_instructions : list (FloatTy * Prim * (Z -> res TrapCode Z)) :=
  [(F32, P_i32, i32_trunc_f32_s); (F32, P_u32, i32_trunc_f32_u);
   (F64, P_i32, i32_trunc_f64_s); (F64, P_u32, i32_trunc_f64_u);
   (F32, P_i64, i64_trunc_f32_s); (F32, P_u64, i64_trunc_f32_u);
   (F64, P_i64, i64_trunc_f64_s); (F64, P_u64, i64_trunc_f64_u)].

(** [rmin] is the greatest float whose integer part is below the type's range. *)
Definition rmin_ok (from : FloatTy) (lo rmin : Z) : bool :=
  (rmin =? lo - 1) ||
  ((float_prec from <=? Z.log2 (- lo)) && (lo =? - 2 ^ Z.log2 (- lo))
   && (rmin =? lo - 2 ^ (Z.log2 (- lo) - mant_bits from))).

Definition bounds_ok (from : FloatTy) (into : Prim) (rmin rmax : Z) : bool :=
  rmin_ok from (int_min into) rmin && (rmax =? int_max into + 1)
  && forallb (fun r => sf_finite (to_sf from (float_of_int from r))
                       && (scaled from (to_sf from (float_of_int from r)) =? r * float_scale from))
       [rmin; rmax].

Lemma above_rmin from lo rmin x :
  rmin_ok from lo rmin = true -> lo <= 0 -> canonical from x = true -> sf_finite x = true ->
  rmin * float_scale from < scaled from x <-> lo <= scaled from x ÷ float_scale from.
Proof.
  intros Hok Hlo Hc Hf.
  assert (0 < float_scale from) as HS by (destruct from; done).
  assert (forall X S, 0 < S -> (lo - 1) * S < X <-> lo <= X ÷ S) as Hexact.
  { intros X S HS'. pose proof (Z.quot_rem' X S). pose proof (Z.rem_bound_abs X S ltac:(lia)).
    destruct (Z.le_gt_cases 0 X).
    - pose proof (Z.quot_pos X S ltac:(lia) ltac:(lia)). split; nia.
    - pose proof (Z.rem_nonpos X S ltac:(lia) ltac:(lia)). split; nia. }
  unfold rmin_ok in Hok. apply orb_true_iff in Hok as [->%Z.eqb_eq|Hok]; [by apply Hexact|].
  rewrite !andb_true_iff, Z.leb_le, !Z.eqb_eq in Hok. destruct Hok as [[Hk Hlo2] ->].
  rewrite <- Hexact by done. set (k := Z.log2 (- lo)) in *.
  assert (0 < 2 ^ (k - mant_bits from)).
  { apply Z.pow_pos_nonneg; [lia|]. destruct from; unfold mant_bits in *; lia. }
  split; [|nia]. intros Hlt. destruct x as [s| | |s m e]; try done; cbn [scaled] in *; [nia|].
  pose proof (scaled_finite _ _ _ _ Hc). destruct s; cbn [cond_Zopp] in *; [|nia].
  destruct (Z.le_gt_cases (Zpos m * 2 ^ (e - float_emin from)) (2 ^ k * float_scale from)); [nia|].
  pose proof (scaled_gap _ k _ _ _ Hk Hc ltac:(lia)). nia.
Qed.

Lemma below_rmax hi X S : 0 < S -> 0 <= hi -> X < (hi + 1) * S <-> X ÷ S <= hi.
Proof.
  intros HS Hhi. pose proof (Z.quot_rem' X S). pose proof (Z.rem_bound_abs X S ltac:(lia)).
  destruct (Z.le_gt_cases 0 X).
  - pose proof (Z.rem_nonneg X S ltac:(lia) ltac:(lia)). split; nia.
  - pose proof (Z.rem_nonpos X S ltac:(lia) ltac:(lia)). split; nia.
Qed.

(** The integer part of a float, if it has one that the type can hold. *)
Definition truncated (from : FloatTy) (into : Prim) (v : Z) : res TrapCode Z :=
  match to_sf from v with
  | S754_nan => Err BadConversionToInteger
  | S754_infinity _ => Err IntegerOverflow
  | x => if (int_min into <=? sf_trunc x) && (sf_trunc x <=? int_max into)
         then Ok (sf_trunc x) else Err IntegerOverflow
  end.

Lemma SFleb_scaled ty x y :
  canonical ty x = true -> canonical ty y = true ->
  sf_finite x = true -> sf_finite y = true ->
  SFleb x y = (scaled ty x <=? scaled ty y).
Proof.
  intros. unfold SFleb. rewrite (SFcompare_scaled ty) by done.
  unfold Z.leb. by destruct (scaled ty x ?= scaled ty y).
Qed.

Lemma try_truncate_into_truncated from into rmin rmax v :
  bounds_ok from into rmin rmax = true ->
  try_truncate_into from into rmin rmax v = truncated from into v.
Proof.
  unfold bounds_ok. cbn [forallb]. rewrite !andb_true_iff, !Z.eqb_eq.
  intros [[Hmin ->] [[Hf1 Hs1] [[Hf2 Hs2] _]]].
  pose proof (to_sf_canonical from v) as Hc.
  unfold try_truncate_into, truncated, is_nan, float_to_int, float_le, float_ge, float_le.
  pose proof (to_sf_canonical from (float_of_int from rmin)) as Hc1.
  pose proof (to_sf_canonical from (float_of_int from (int_max into + 1))) as Hc2.
  assert (int_min into <= 0 /\ 0 <= int_max into) as [Hlo Hhi] by (destruct into; done).
  set (lo := to_sf from (float_of_int from rmin)) in *.
  set (hi := to_sf from (float_of_int from (int_max into + 1))) in *.
  assert (forall x, canonical from x = true -> sf_finite x = true ->
    SFleb x lo || SFleb hi x =
    negb ((int_min into <=? sf_trunc x) && (sf_trunc x <=? int_max into))) as Hin.
  { intros x Hx Hfx. rewrite !(SFleb_scaled from) by done. rewrite Hs1, Hs2, (sf_trunc_scaled from) by done.
    pose proof (above_rmin from _ _ x Hmin Hlo Hx Hfx).
    pose proof (below_rmax (int_max into) (scaled from x) (float_scale from) ltac:(by destruct from) Hhi).
    apply eq_true_iff_eq.
    rewrite negb_true_iff, orb_true_iff, andb_false_iff, !Z.leb_le, !Z.leb_gt. lia. }
  destruct (to_sf from v) as [s|s| |s m e] eqn:Hx; [|clear Hin|done|].
  - rewrite Hin by done. by destruct into.
  - clearbody lo hi. destruct s, lo as [?|?| |? ? ?], hi as [?|?| |? ? ?]; done.
  - rewrite Hin by done. destruct (_ && _) eqn:Hr; [|done]. cbn [negb].
    apply andb_true_iff in Hr as [?%Z.leb_le ?%Z.leb_le]. f_equal. lia.
Qed.

Lemma trunc_instructions_bounds :
  forallb (fun '(from, into, rmin, rmax) => bounds_ok from into rmin rmax)
    [(F32, P_i32, -2147483904, 2147483648); (F32, P_u32, -1, 4294967296);
     (F64, P_i32, -2147483649, 2147483648); (F64, P_u32, -1, 4294967296);
     (F32, P_i64, -9223373136366403584, 9223372036854775808); (F32, P_u64, -1, 18446744073709551616);
     (F64, P_i64, -9223372036854777856, 9223372036854775808); (F64, P_u64, -1, 18446744073709551616)] = true.
Proof. vm_compute. reflexivity. Qed.

(** C25: Each of the eight truncating instructions traps with a bad conversion
    exactly on NaNs and with an integer overflow exactly on the infinities and on
    the floats whose integer part its type cannot hold; every other float yields
    its integer part.  In particular the literals the source compares with are
    neither too tight nor too loose, although the numbers just outside the range
    are not always floats. *)
Theorem trunc_instructions_spec from into f v :
  (from, into, f) ∈ trunc_instructions -> f v = truncated from into v.
Proof.
  intros Hin. pose proof trunc_instructions_bounds as Hb. cbn [forallb] in Hb.
  rewrite !andb_true_iff in Hb.
  unfold trunc_instructions in Hin. rewrite !elem_of_cons, elem_of_nil in Hin.
  destruct_or!; simplify_eq; apply try_truncate_into_truncated; tauto.
Qed.

Lemma trunc_instructions_spec_witness :
  i32_trunc_f32_s 0xCF000000 = Ok (-2147483648) /\
  i32_trunc_f32_s 0xCF000001 = Err IntegerOverflow /\
  i32_trunc_f64_s 0xC1E00000001FFFFF = Ok (-2147483648).
Proof.
  assert ((F32, P_i32, i32_trunc_f32_s) ∈ trunc_instructions) as H32 by (apply list_elem_of_here).
  assert ((F64, P_i32, i32_trunc_f64_s) ∈ trunc_instructions) as H64.
  { do 2 apply list_elem_of_further. apply list_elem_of_here. }
  split; [|split].
  - exact (trunc_instructions_spec F32 P_i32 i32_trunc_f32_s 0xCF000000 H32).
  - exact (trunc_instructions_spec F32 P_i32 i32_trunc_f32_s 0xCF000001 H32).
  - exact (trunc_instructions_spec F64 P_i32 i32_trunc_f64_s 0xC1E00000001FFFFF H64).
Defined.

(** ** The order of the patterns *)

Definition float_ok (ty : FloatTy) (v : Z) : Prop := 0 <= v < 2 ^ float_bits ty.
Definition magnitude (ty : FloatTy) (v : Z) : Z := v mod sign_mask ty.

(** The number of a pattern's place among all patterns of its format: [-0] comes
    right before [+0]. *)
Definition float_place (ty : FloatTy) (v : Z) : Z :=
  if is_sign_negative ty v then - magnitude ty v - 1 else magnitude ty v.

Lemma float_pattern ty v : float_ok ty v -> v = sign_of ty (is_sign_negative ty v) + magnitude ty v.
Proof.
  intros Hv. unfold magnitude, sign_of, sign_mask, is_sign_negative, float_ok in *.
  set (n := float_bits ty - 1) in *.
  assert (0 <= n) by (destruct ty; done).
  replace (float_bits ty) with (Z.succ n) in Hv by lia. rewrite Z.pow_succ_r in Hv by lia.
  assert (0 < 2 ^ n) by (apply Z.pow_pos_nonneg; lia).
  rewrite (Z.div_mod v (2 ^ n)) at 1 by lia.
  destruct (Z.testbit v n) eqn:Ht.
  - assert (v / 2 ^ n = 1); [|lia]. pose proof (Z.testbit_true v n ltac:(lia)) as Hb.
    apply Hb in Ht. assert (0 <= v / 2 ^ n < 2).
    { split; [apply Z.div_pos; lia|apply Z.div_lt_upper_bound; lia]. }
    rewrite Z.mod_small in Ht by lia. done.
  - assert (v / 2 ^ n = 0); [|lia]. pose proof (Z.testbit_false v n ltac:(lia)) as Hb.
    apply Hb in Ht. assert (0 <= v / 2 ^ n < 2).
    { split; [apply Z.div_pos; lia|apply Z.div_lt_upper_bound; lia]. }
    rewrite Z.mod_small in Ht by lia. done.
Qed.

Lemma to_sf_magnitude ty v :
  match to_sf ty v with
  | S754_zero s => s = is_sign_negative ty v /\ magnitude ty v = 0
  | S754_infinity s => s = is_sign_negative ty v /\ magnitude ty v = (2 ^ exp_bits ty - 1) * 2 ^ mant_bits ty
  | S754_finite s m e =>
      s = is_sign_negative ty v /\ magnitude ty v = (e - float_emin ty) * 2 ^ mant_bits ty + Zpos m
      /\ 0 < magnitude ty v < (2 ^ exp_bits ty - 1) * 2 ^ mant_bits ty
  | S754_nan => True
  end.
Proof.
  assert (magnitude ty v = float_exponent ty v * 2 ^ mant_bits ty + float_mantissa ty v) as Hmag.
  { unfold magnitude, float_exponent, float_mantissa.
    replace (sign_mask ty) with (2 ^ mant_bits ty * 2 ^ exp_bits ty) by (by destruct ty).
    rewrite Z.rem_mul_r by (destruct ty; done). lia. }
  assert (0 <= float_mantissa ty v < 2 ^ mant_bits ty) as Hm.
  { apply Z.mod_pos_bound. by destruct ty. }
  assert (0 <= float_exponent ty v < 2 ^ exp_bits ty) as He.
  { apply Z.mod_pos_bound. by destruct ty. }
  assert (1 < 2 ^ exp_bits ty) by (by destruct ty).
  unfold to_sf.
  destruct (Z.eqb_spec (float_exponent ty v) (2 ^ exp_bits ty - 1)) as [E1|E1].
  { destruct (Z.eqb_spec (float_mantissa ty v) 0); [|done]. split; [done|]. nia. }
  destruct (Z.eqb_spec (float_exponent ty v) 0) as [E2|E2].
  - destruct (float_mantissa ty v) as [|m|m] eqn:Em; [split; [done|nia]| |lia].
    split; [done|]. split; nia.
  - destruct (float_mantissa ty v + 2 ^ mant_bits ty) as [|m|m] eqn:Em; try done.
    split; [done|]. split; nia.
Qed.

(** The order of the numbers is that of the signed magnitudes. *)
Definition signed_magnitude (ty : FloatTy) (v : Z) : Z := cond_Zopp (is_sign_negative ty v) (magnitude ty v).

Lemma magnitude_nonneg ty v : 0 <= magnitude ty v.
Proof. apply Z.mod_pos_bound. by destruct ty. Qed.

Lemma magnitude_compare ty a b sa ma ea sb mb eb :
  to_sf ty a = S754_finite sa ma ea -> to_sf ty b = S754_finite sb mb eb ->
  match Z.compare ea eb with
  | Lt => Lt
  | Gt => Gt
  | Eq => Pos.compare_cont Eq ma mb
  end = Z.compare (magnitude ty a) (magnitude ty b).
Proof.
  intros Ha Hb.
  pose proof (to_sf_magnitude ty a) as Hma. pose proof (to_sf_magnitude ty b) as Hmb.
  pose proof (to_sf_canonical ty a) as Hca. pose proof (to_sf_canonical ty b) as Hcb.
  rewrite Ha in Hma, Hca. rewrite Hb in Hmb, Hcb. destruct_and?. cbn [canonical] in *.
  rewrite !andb_true_iff, !orb_true_iff, !Z.ltb_lt, !Z.leb_le, !Z.eqb_eq in *.
  assert (0 < 2 ^ mant_bits ty) by (by destruct ty).
  assert (2 ^ float_prec ty = 2 * 2 ^ mant_bits ty) by (by destruct ty).
  destruct (Z.compare_spec ea eb) as [->|Hl|Hl]; symmetry.
  - change (Pos.compare_cont Eq ma mb) with (Zpos ma ?= Zpos mb).
    destruct (Z.compare_spec (Zpos ma) (Zpos mb));
      [apply Z.compare_eq_iff|apply Z.compare_lt_iff|apply Z.compare_gt_iff]; lia.
  - apply Z.compare_lt_iff. nia.
  - apply Z.compare_gt_iff. nia.
Qed.

Lemma SFcompare_magnitude ty a b :
  is_nan ty a = false -> is_nan ty b = false ->
  SFcompare (to_sf ty a) (to_sf ty b) = Some (Z.compare (signed_magnitude ty a) (signed_magnitude ty b)).
Proof.
  unfold is_nan, signed_magnitude. intros Ha Hb.
  pose proof (to_sf_magnitude ty a) as Hma. pose proof (to_sf_magnitude ty b) as Hmb.
  pose proof (magnitude_compare ty a b) as Hfin.
  pose proof (magnitude_nonneg ty a). pose proof (magnitude_nonneg ty b).
  assert (0 < (2 ^ exp_bits ty - 1) * 2 ^ mant_bits ty) by (by destruct ty).
  destruct (to_sf ty a) as [sa|sa| |sa ma ea], (to_sf ty b) as [sb|sb| |sb mb eb]; try done;
    cbn [SFcompare]; destruct_and?; subst;
    try (clear Hfin; destruct (is_sign_negative ty a), (is_sign_negative ty b); cbn [cond_Zopp]; f_equal; symmetry;
      first [apply Z.compare_eq_iff; lia|apply Z.compare_lt_iff; lia|apply Z.compare_gt_iff; lia]).
  specialize (Hfin _ _ _ _ _ _ eq_refl eq_refl). f_equal.
  destruct (is_sign_negative ty a), (is_sign_negative ty b); cbn [cond_Zopp].
  - rewrite Z.compare_opp, (Z.compare_antisym (magnitude ty a)), <- Hfin. by destruct (ea ?= eb).
  - symmetry. apply Z.compare_lt_iff. lia.
  - symmetry. apply Z.compare_gt_iff. lia.
  - done.
Qed.

Lemma SFcompare_nan ty a b :
  is_nan ty a || is_nan ty b = true -> SFcompare (to_sf ty a) (to_sf ty b) = None.
Proof. unfold is_nan. by destruct (to_sf ty a), (to_sf ty b). Qed.

Section MinMax.
Context `{FloatNanLaws}.

(** The NaN of an operation: some NaN, the canonical one if the interpreter is
    built to be deterministic. *)
Definition nan_result (ty : FloatTy) (v : Z) : Prop :=
  is_nan ty v = true /\ (deterministic = true -> v = CANONICAL_NAN ty).

Lemma canonicalize_nan_result ty v :
  is_nan ty v = true -> nan_result ty (canonicalize_nan_if_enabled ty v).
Proof.
  intros Hn. unfold nan_result, canonicalize_nan_if_enabled, canonicalize_nan. rewrite Hn.
  destruct deterministic; cbn [negb]; [by destruct ty|done].
Qed.

Lemma float_add_nan ty lhs rhs :
  is_nan ty lhs || is_nan ty rhs = true -> is_nan ty (float_add ty lhs rhs) = true.
Proof.
  intros Hn. unfold float_add, float_binop. unfold is_nan in Hn.
  pose proof (arith_nan_law ty [lhs; rhs]).
  by destruct (to_sf ty lhs), (to_sf ty rhs).
Qed.

(** C26: [min] and [max] of two numbers are the first and the last of the two in the
    order of the numbers with [-0] before [+0], on every pair of patterns; with a
    NaN among the operands both yield a NaN. *)
Theorem Float_min_max_spec ty lhs rhs :
  float_ok ty lhs -> float_ok ty rhs ->
  if is_nan ty lhs || is_nan ty rhs
  then nan_result ty (Float_min ty lhs rhs) /\ nan_result ty (Float_max ty lhs rhs)
  else Float_min ty lhs rhs = (if float_place ty lhs <=? float_place ty rhs then lhs else rhs)
       /\ Float_max ty lhs rhs = (if float_place ty lhs <=? float_place ty rhs then rhs else lhs).
Proof.
  intros Hl Hr. destruct (is_nan ty lhs || is_nan ty rhs) eqn:Hn.
  { pose proof (SFcompare_nan ty lhs rhs Hn) as H1.
    assert (is_nan ty rhs || is_nan ty lhs = true) as Hn' by (by rewrite orb_comm).
    pose proof (SFcompare_nan ty rhs lhs Hn') as H2.
    unfold Float_min, Float_max, float_gt, float_lt, float_eq, SFltb, SFeqb. rewrite H1, H2.
    split; apply canonicalize_nan_result, float_add_nan, Hn. }
  apply orb_false_iff in Hn as [Hnl Hnr].
  pose proof (float_pattern ty lhs Hl) as Pl. pose proof (float_pattern ty rhs Hr) as Pr.
  pose proof (magnitude_nonneg ty lhs). pose proof (magnitude_nonneg ty rhs).
  unfold Float_min, Float_max, float_gt, float_lt, float_eq, SFltb, SFeqb.
  rewrite (SFcompare_magnitude ty lhs rhs), (SFcompare_magnitude ty rhs lhs) by done.
  unfold signed_magnitude, float_place, is_sign_positive, sign_of in *.
  destruct (is_sign_negative ty lhs), (is_sign_negative ty rhs); cbn [cond_Zopp negb andb].
  all: repeat match goal with |- context [?x ?= ?y] => destruct (Z.compare_spec x y) end; try lia.
  all: repeat match goal with |- context [?x <=? ?y] => destruct (Z.leb_spec x y) end; try lia.
  all: split; try done; lia.
Qed.

End MinMax.

(** A host whose operations yield the positive quiet NaN. *)
Definition demo_nans (det : bool) : FloatNans :=
  {| deterministic := det; arith_nan ty _ := CANONICAL_NAN ty; convert_nan ty _ := CANONICAL_NAN ty |}.

Lemma demo_nans_laws det : @FloatNanLaws (demo_nans det).
Proof. by split; intros []. Qed.

Lemma Float_min_max_spec_witness :
  @Float_min (demo_nans false) F32 0 0x80000000 = 0x80000000 /\
  @nan_result (demo_nans true) F64 (@Float_min (demo_nans true) F64 0x7FF0000000000001 0).
Proof.
  assert (float_ok F32 0) as H1 by (split; vm_compute; congruence).
  assert (float_ok F32 0x80000000) as H2 by (split; vm_compute; congruence).
  assert (float_ok F64 0x7FF0000000000001) as H3 by (split; vm_compute; congruence).
  assert (float_ok F64 0) as H4 by (split; vm_compute; congruence).
  split.
  - exact (proj1 (@Float_min_max_spec (demo_nans false) (demo_nans_laws false) F32 0 0x80000000 H1 H2)).
  - exact (proj1 (@Float_min_max_spec (demo_nans true) (demo_nans_laws true) F64 0x7FF0000000000001 0 H3 H4)).
Defined.
