(* ===== verification/Simd.v ===== *)
(** * Vector instructions

    [crates/core/src/simd.rs]: the lanes of a [V128] and the instructions of the
    [simd] and [relaxed-simd] proposals.

    A lane holds an item of a primitive type, the array of all lanes is the list of
    its items and an instruction of the source that is an instance of a macro is one
    of the definition named after that macro.  Vectors are bytes in the order of a
    little-endian host, on which [from_v128] and [into_v128] reinterpret them. *)

From Stdlib Require Import ZArith Lia SpecFloat.
From stdpp Require Import base option decidable numbers list.
From S2P Require Import Prelude Trap Value WasmInt MemoryAccess Float.
Local Open Scope Z_scope.

(** ** Lane indices *)

(** [IntoLaneIdx]: the vector of items of type [p] has [16 / size_of::<p>()] lanes. *)
Definition LaneIdx (p : Prim) : Type := ImmLaneIdx (16 / prim_bytes p).
Definition LaneIdx_into_u8 {p} (lane : LaneIdx p) : Z := ImmLaneIdx_into_u8 (16 / prim_bytes p) lane.

(** ** Lanes *)

(** [array::from_fn] and indexing: all indices below are within the arrays. *)
Definition from_fn {A} (n : nat) (f : nat -> A) : list A := f <$> seq 0 n.
Definition array_item (l : list Z) (i : nat) : Z := nth i l 0.

Section Lanes.
Variable p : Prim.

Definition lane_size : nat := Z.to_nat (prim_bytes p).
Definition LANES : nat := Z.to_nat (16 / prim_bytes p).
Definition ALL_ONES : Z := from_le_bytes p (replicate lane_size 0xFF).
Definition ALL_ZEROS : Z := from_le_bytes p (replicate lane_size 0x00).

Definition from_v128 (value : V128) : list Z :=
  from_fn LANES (fun i => from_le_bytes p (take lane_size (drop (i * lane_size) (v128_bytes value)))).
Definition into_v128 (self : list Z) : V128 := {| v128_bytes := self ≫= into_le_bytes p |}.

Definition Lanes_splat (value : Z) : list Z := replicate LANES value.
Definition Lanes_extract_lane (self : list Z) (lane : LaneIdx p) : Z := array_item self (Z.to_nat (LaneIdx_into_u8 lane)).
Definition Lanes_replace_lane (self : list Z) (lane : LaneIdx p) (value : Z) : list Z :=
  <[Z.to_nat (LaneIdx_into_u8 lane) := value]> self.

(** The loops over the indices of the array. *)
Definition Lanes_lanewise_unary (self : list Z) (f : Z -> Z) : list Z := f <$> self.
Definition Lanes_lanewise_binary (self other : list Z) (f : Z -> Z -> Z) : list Z := zip_with f self other.
Definition Lanes_lanewise_ternary (self b c : list Z) (f : Z -> Z -> Z -> Z) : list Z :=
  zip_with (fun g c => g c) (zip_with f self b) c.
Definition Lanes_lanewise_comparison (self other : list Z) (f : Z -> Z -> bool) : list Z :=
  Lanes_lanewise_binary self other (fun lhs rhs => if f lhs rhs then ALL_ONES else ALL_ZEROS).
Fixpoint reduce_from {T} (i : nat) (self : list Z) (acc : T) (f : Z -> Z -> T -> T) : T :=
  match self with
  | [] => acc
  | v :: self => reduce_from (S i) self (f (Z.of_nat i) v acc) f
  end.
Definition Lanes_lanewise_reduce {T} (self : list Z) (acc : T) (f : Z -> Z -> T -> T) : T := reduce_from 0 self acc f.
End Lanes.

(** [FromNarrow]: [wide] is the item type of [Self]. *)
Section FromNarrow.
Variable wide : Prim.

Definition FromNarrow_pairwise_unary (narrow : list Z) (f : Z -> Z -> Z) : list Z :=
  from_fn (LANES wide) (fun i => f (array_item narrow (2 * i)) (array_item narrow (2 * i + 1))).
Definition FromNarrow_pairwise_binary (lhs rhs : list Z) (f : Z * Z -> Z * Z -> Z) : list Z :=
  from_fn (LANES wide) (fun i =>
    f (array_item lhs (2 * i), array_item lhs (2 * i + 1)) (array_item rhs (2 * i), array_item rhs (2 * i + 1))).
Definition FromNarrow_low_unary (narrow : list Z) (f : Z -> Z) : list Z :=
  from_fn (LANES wide) (fun i => f (array_item narrow i)).
Definition FromNarrow_high_unary (narrow : list Z) (f : Z -> Z) : list Z :=
  from_fn (LANES wide) (fun i => f (array_item narrow (i + LANES wide))).
Definition FromNarrow_low_binary (lhs rhs : list Z) (f : Z -> Z -> Z) : list Z :=
  from_fn (LANES wide) (fun i => f (array_item lhs i) (array_item rhs i)).
Definition FromNarrow_high_binary (lhs rhs : list Z) (f : Z -> Z -> Z) : list Z :=
  from_fn (LANES wide) (fun i => f (array_item lhs (i + LANES wide)) (array_item rhs (i + LANES wide))).
End FromNarrow.

(** [FromWide]: [narrow] is the item type of [Self]. *)
Section FromWide.
Variables narrow wide : Prim.

Definition FromWide_from_low_high (low high : list Z) (f : Z -> Z) : list Z :=
  from_fn (LANES narrow) (fun i =>
    if (i <? LANES wide)%nat then f (array_item low i) else f (array_item high (i - LANES wide))).
Definition FromWide_from_low_or (low : list Z) (high : Z) (f : Z -> Z) : list Z :=
  from_fn (LANES narrow) (fun i => if (i <? LANES wide)%nat then f (array_item low i) else high).
End FromWide.

(** [ReinterpretAs]. *)
Definition reinterpret_as (from to : Prim) (value : Z) : Z := from_le_bytes to (into_le_bytes from value).

(** ** Operations of vectors *)

Definition V128_splat (p : Prim) (value : Z) : V128 := into_v128 p (Lanes_splat p value).
Definition V128_extract_lane (p : Prim) (self : V128) (lane : LaneIdx p) : Z :=
  Lanes_extract_lane p (from_v128 p self) lane.
Definition V128_replace_lane (p : Prim) (self : V128) (lane : LaneIdx p) (value : Z) : V128 :=
  into_v128 p (Lanes_replace_lane p (from_v128 p self) lane value).
Definition V128_lanewise_unary (p : Prim) (self : V128) (f : Z -> Z) : V128 :=
  into_v128 p (Lanes_lanewise_unary (from_v128 p self) f).
Definition V128_lanewise_unary_cast (p out : Prim) (self : V128) (f : Z -> Z) : V128 :=
  into_v128 p (Lanes_lanewise_unary (from_v128 p self) (fun v => reinterpret_as out p (f v))).
Definition V128_lanewise_binary (p : Prim) (lhs rhs : V128) (f : Z -> Z -> Z) : V128 :=
  into_v128 p (Lanes_lanewise_binary (from_v128 p lhs) (from_v128 p rhs) f).
Definition V128_lanewise_ternary (p : Prim) (a b c : V128) (f : Z -> Z -> Z -> Z) : V128 :=
  into_v128 p (Lanes_lanewise_ternary (from_v128 p a) (from_v128 p b) (from_v128 p c) f).
Definition V128_lanewise_comparison (p : Prim) (lhs rhs : V128) (f : Z -> Z -> bool) : V128 :=
  into_v128 p (Lanes_lanewise_comparison p (from_v128 p lhs) (from_v128 p rhs) f).
Definition V128_lanewise_reduce_enumerate (p : Prim) {T} (self : V128) (acc : T) (f : Z -> Z -> T -> T) : T :=
  Lanes_lanewise_reduce (from_v128 p self) acc f.
Definition V128_lanewise_reduce (p : Prim) {T} (self : V128) (acc : T) (f : Z -> T -> T) : T :=
  V128_lanewise_reduce_enumerate p self acc (fun _ v acc => f v acc).

Definition V128_pairwise_unary (narrow wide : Prim) (self : V128) (f : Z -> Z -> Z) : V128 :=
  into_v128 wide (FromNarrow_pairwise_unary wide (from_v128 narrow self) f).
Definition V128_pairwise_binary (narrow wide : Prim) (lhs rhs : V128) (f : Z * Z -> Z * Z -> Z) : V128 :=
  into_v128 wide (FromNarrow_pairwise_binary wide (from_v128 narrow lhs) (from_v128 narrow rhs) f).
Definition V128_low_unary (narrow wide : Prim) (self : V128) (f : Z -> Z) : V128 :=
  into_v128 wide (FromNarrow_low_unary wide (from_v128 narrow self) f).
Definition V128_high_unary (narrow wide : Prim) (self : V128) (f : Z -> Z) : V128 :=
  into_v128 wide (FromNarrow_high_unary wide (from_v128 narrow self) f).
Definition V128_from_low_binary (narrow wide : Prim) (lhs rhs : V128) (f : Z -> Z -> Z) : V128 :=
  into_v128 wide (FromNarrow_low_binary wide (from_v128 narrow lhs) (from_v128 narrow rhs) f).
Definition V128_from_high_binary (narrow wide : Prim) (lhs rhs : V128) (f : Z -> Z -> Z) : V128 :=
  into_v128 wide (FromNarrow_high_binary wide (from_v128 narrow lhs) (from_v128 narrow rhs) f).
Definition V128_from_low_high (narrow wide : Prim) (lhs rhs : V128) (f : Z -> Z) : V128 :=
  into_v128 narrow (FromWide_from_low_high narrow wide (from_v128 wide lhs) (from_v128 wide rhs) f).
Definition V128_low_or (narrow wide : Prim) (self : V128) (high : Z) (f : Z -> Z) : V128 :=
  into_v128 narrow (FromWide_from_low_or narrow wide (from_v128 wide self) high f).

(** ** Operations of items *)

Definition wrapping_add (p : Prim) (a b : Z) : Z := cast p (a + b).
Definition wrapping_sub (p : Prim) (a b : Z) : Z := cast p (a - b).
Definition wrapping_mul (p : Prim) (a b : Z) : Z := cast p (a * b).
Definition wrapping_neg (p : Prim) (v : Z) : Z := cast p (- v).
Definition wrapping_abs (p : Prim) (v : Z) : Z := cast p (Z.abs v).
(** The amount is taken modulo the width. *)
Definition wrapping_shl (p : Prim) (v rhs : Z) : Z := cast p (Z.shiftl v (rhs mod prim_bits p)).
Definition wrapping_shr (p : Prim) (v rhs : Z) : Z := cast p (Z.shiftr v (rhs mod prim_bits p)).
(** [value.clamp(T::MIN, T::MAX)]. *)
Definition clamp (p : Prim) (value : Z) : Z := Z.max (int_min p) (Z.min value (int_max p)).
Definition prim_saturating_add (p : Prim) (a b : Z) : Z := clamp p (a + b).
Definition prim_saturating_sub (p : Prim) (a b : Z) : Z := clamp p (a - b).
Definition prim_not (p : Prim) (v : Z) : Z := cast p (Z.lnot v).

(** The product of two [i16] and the rounding constant fit into an [i32]. *)
Definition i16x8_q15mulr_sat (x y : Z) : Z :=
  let q15mulr := Z.shiftr (x * y + Z.shiftl 1 14) 15 in
  cast P_i16 (clamp P_i16 q15mulr).

(** [x.div_ceil(2)] of an unsigned integer. *)
Definition div_ceil2 (x : Z) : Z := x / 2 + x mod 2.
Definition avgr (ty wide_ty : Prim) (a b : Z) : Z := cast ty (div_ceil2 (wrapping_add wide_ty a b)).

Definition extmul (wide : Prim) (a b : Z) : Z := wrapping_mul wide a b.

(** ** Instructions *)

Section Simd.
Context {Tg : Target} {Fn : FloatNans}.

Definition pmin (ty : FloatTy) (lhs rhs : Z) : Z := if float_lt ty rhs lhs then rhs else lhs.
Definition pmax (ty : FloatTy) (lhs rhs : Z) : Z := if float_lt ty lhs rhs then rhs else lhs.

(** The exact [x * y + z], rounded once. *)
Definition sf_int (x : spec_float) : Z :=
  match x with S754_finite s m _ => cond_Zopp s (Zpos m) | _ => 0 end.
Definition sf_exp (x : spec_float) : Z := match x with S754_finite _ _ e => e | _ => 0 end.
Definition sf_sign (x : spec_float) : bool :=
  match x with S754_finite s _ _ | S754_zero s | S754_infinity s => s | S754_nan => false end.
Definition SFfma (prec emax : Z) (x y z : spec_float) : spec_float :=
  let sign := xorb (sf_sign x) (sf_sign y) in
  match x, y, z with
  | S754_nan, _, _ | _, S754_nan, _ | _, _, S754_nan => S754_nan
  | S754_infinity _, S754_zero _, _ | S754_zero _, S754_infinity _, _ => S754_nan
  | S754_infinity _, _, S754_infinity s | _, S754_infinity _, S754_infinity s =>
      if Bool.eqb sign s then S754_infinity s else S754_nan
  | S754_infinity _, _, _ | _, S754_infinity _, _ => S754_infinity sign
  | _, _, S754_infinity s => S754_infinity s
  | _, _, _ =>
      let e := sf_exp x + sf_exp y in
      let least := Z.min e (sf_exp z) in
      let m := sf_int x * sf_int y * 2 ^ (e - least) + sf_int z * 2 ^ (sf_exp z - least) in
      binary_normalize prec emax m least (andb sign (sf_sign z))
  end.
Definition float_mul_add (ty : FloatTy) (a b c : Z) : Z :=
  of_sf ty (arith_nan ty [a; b; c]) (SFfma (float_prec ty) (float_emax ty) (to_sf ty a) (to_sf ty b) (to_sf ty c)).
Definition Float_mul_add (ty : FloatTy) (a b c : Z) : Z := canonicalize_nan_if_enabled ty (float_mul_add ty a b c).
Definition neg_mul_add (ty : FloatTy) (a b c : Z) : Z := Float_mul_add ty (Float_neg ty a) b c.

Definition impl_splat_for (p : Prim) (value : Z) : V128 := V128_splat p value.
Definition i64x2_splat : Z -> V128 := impl_splat_for P_i64.
Definition i32x4_splat : Z -> V128 := impl_splat_for P_i32.
Definition i16x8_splat : Z -> V128 := impl_splat_for P_i16.
Definition i8x16_splat : Z -> V128 := impl_splat_for P_i8.
Definition f32x4_splat : Z -> V128 := impl_splat_for P_f32.
Definition f64x2_splat : Z -> V128 := impl_splat_for P_f64.

Definition impl_extract_for (p : Prim) (convert : Z -> Z) (v128 : V128) (lane : LaneIdx p) : Z :=
  convert (V128_extract_lane p v128 lane).
Definition i64x2_extract_lane : V128 -> LaneIdx P_i64 -> Z := impl_extract_for P_i64 id.
Definition i32x4_extract_lane : V128 -> LaneIdx P_i32 -> Z := impl_extract_for P_i32 id.
Definition f64x2_extract_lane : V128 -> LaneIdx P_f64 -> Z := impl_extract_for P_f64 id.
Definition f32x4_extract_lane : V128 -> LaneIdx P_f32 -> Z := impl_extract_for P_f32 id.
Definition i8x16_extract_lane_s : V128 -> LaneIdx P_i8 -> Z := impl_extract_for P_i8 id.
Definition i8x16_extract_lane_u : V128 -> LaneIdx P_u8 -> Z := impl_extract_for P_u8 id.
Definition i16x8_extract_lane_s : V128 -> LaneIdx P_i16 -> Z := impl_extract_for P_i16 id.
Definition i16x8_extract_lane_u : V128 -> LaneIdx P_u16 -> Z := impl_extract_for P_u16 id.

Definition impl_replace_for (p : Prim) (v128 : V128) (lane : LaneIdx p) (value : Z) : V128 :=
  V128_replace_lane p v128 lane value.
Definition i64x2_replace_lane : V128 -> LaneIdx P_i64 -> Z -> V128 := impl_replace_for P_i64.
Definition i32x4_replace_lane : V128 -> LaneIdx P_i32 -> Z -> V128 := impl_replace_for P_i32.
Definition i16x8_replace_lane : V128 -> LaneIdx P_i16 -> Z -> V128 := impl_replace_for P_i16.
Definition i8x16_replace_lane : V128 -> LaneIdx P_i8 -> Z -> V128 := impl_replace_for P_i8.
Definition f64x2_replace_lane : V128 -> LaneIdx P_f64 -> Z -> V128 := impl_replace_for P_f64.
Definition f32x4_replace_lane : V128 -> LaneIdx P_f32 -> Z -> V128 := impl_replace_for P_f32.

Definition i8x16_shuffle (a b : V128) (s : list (ImmLaneIdx 32)) : V128 :=
  let a := from_v128 P_i8 a in
  let b := from_v128 P_i8 b in
  into_v128 P_i8 ((fun lane =>
    let i := Z.to_nat (ImmLaneIdx_into_u8 32 lane) in
    if (i <? 16)%nat then array_item a i else array_item b (i - 16)) <$> s).
Definition i8x16_swizzle (a s : V128) : V128 :=
  let a := from_v128 P_u8 a in
  let s := from_v128 P_u8 s in
  into_v128 P_u8 (from_fn (LANES P_u8) (fun i =>
    let i := Z.to_nat (array_item s i) in if (i <? 16)%nat then array_item a i else 0)).

Definition impl_binary_for (p : Prim) (lanewise_expr : Z -> Z -> Z) (lhs rhs : V128) : V128 :=
  V128_lanewise_binary p lhs rhs lanewise_expr.
Definition i64x2_add : V128 -> V128 -> V128 := impl_binary_for P_i64 (wrapping_add P_i64).
Definition i32x4_add : V128 -> V128 -> V128 := impl_binary_for P_i32 (wrapping_add P_i32).
Definition i16x8_add : V128 -> V128 -> V128 := impl_binary_for P_i16 (wrapping_add P_i16).
Definition i8x16_add : V128 -> V128 -> V128 := impl_binary_for P_i8 (wrapping_add P_i8).
Definition i64x2_sub : V128 -> V128 -> V128 := impl_binary_for P_i64 (wrapping_sub P_i64).
Definition i32x4_sub : V128 -> V128 -> V128 := impl_binary_for P_i32 (wrapping_sub P_i32).
Definition i16x8_sub : V128 -> V128 -> V128 := impl_binary_for P_i16 (wrapping_sub P_i16).
Definition i8x16_sub : V128 -> V128 -> V128 := impl_binary_for P_i8 (wrapping_sub P_i8).
Definition i64x2_mul : V128 -> V128 -> V128 := impl_binary_for P_i64 (wrapping_mul P_i64).
Definition i32x4_mul : V128 -> V128 -> V128 := impl_binary_for P_i32 (wrapping_mul P_i32).
Definition i16x8_mul : V128 -> V128 -> V128 := impl_binary_for P_i16 (wrapping_mul P_i16).
Definition i8x16_mul : V128 -> V128 -> V128 := impl_binary_for P_i8 (wrapping_mul P_i8).
Definition i8x16_add_sat_s : V128 -> V128 -> V128 := impl_binary_for P_i8 (prim_saturating_add P_i8).
Definition i8x16_add_sat_u : V128 -> V128 -> V128 := impl_binary_for P_u8 (prim_saturating_add P_u8).
Definition i16x8_add_sat_s : V128 -> V128 -> V128 := impl_binary_for P_i16 (prim_saturating_add P_i16).
Definition i16x8_add_sat_u : V128 -> V128 -> V128 := impl_binary_for P_u16 (prim_saturating_add P_u16).
Definition i8x16_sub_sat_s : V128 -> V128 -> V128 := impl_binary_for P_i8 (prim_saturating_sub P_i8).
Definition i8x16_sub_sat_u : V128 -> V128 -> V128 := impl_binary_for P_u8 (prim_saturating_sub P_u8).
Definition i16x8_sub_sat_s : V128 -> V128 -> V128 := impl_binary_for P_i16 (prim_saturating_sub P_i16).
Definition i16x8_sub_sat_u : V128 -> V128 -> V128 := impl_binary_for P_u16 (prim_saturating_sub P_u16).
Definition i16x8_q15mulr_sat_s : V128 -> V128 -> V128 := impl_binary_for P_i16 i16x8_q15mulr_sat.
Definition i8x16_min_s : V128 -> V128 -> V128 := impl_binary_for P_i8 Z.min.
Definition i8x16_min_u : V128 -> V128 -> V128 := impl_binary_for P_u8 Z.min.
Definition i16x8_min_s : V128 -> V128 -> V128 := impl_binary_for P_i16 Z.min.
Definition i16x8_min_u : V128 -> V128 -> V128 := impl_binary_for P_u16 Z.min.
Definition i32x4_min_s : V128 -> V128 -> V128 := impl_binary_for P_i32 Z.min.
Definition i32x4_min_u : V128 -> V128 -> V128 := impl_binary_for P_u32 Z.min.
Definition i8x16_max_s : V128 -> V128 -> V128 := impl_binary_for P_i8 Z.max.
Definition i8x16_max_u : V128 -> V128 -> V128 := impl_binary_for P_u8 Z.max.
Definition i16x8_max_s : V128 -> V128 -> V128 := impl_binary_for P_i16 Z.max.
Definition i16x8_max_u : V128 -> V128 -> V128 := impl_binary_for P_u16 Z.max.
Definition i32x4_max_s : V128 -> V128 -> V128 := impl_binary_for P_i32 Z.max.
Definition i32x4_max_u : V128 -> V128 -> V128 := impl_binary_for P_u32 Z.max.
Definition i8x16_avgr_u : V128 -> V128 -> V128 := impl_binary_for P_u8 (avgr P_u8 P_u16).
Definition i16x8_avgr_u : V128 -> V128 -> V128 := impl_binary_for P_u16 (avgr P_u16 P_u32).
Definition v128_and : V128 -> V128 -> V128 := impl_binary_for P_u64 Z.land.
Definition v128_or : V128 -> V128 -> V128 := impl_binary_for P_u64 Z.lor.
Definition v128_xor : V128 -> V128 -> V128 := impl_binary_for P_u64 Z.lxor.
Definition v128_andnot : V128 -> V128 -> V128 := impl_binary_for P_u64 (fun a b => Z.land a (prim_not P_u64 b)).
Definition f32x4_min : V128 -> V128 -> V128 := impl_binary_for P_f32 f32_min.
Definition f64x2_min : V128 -> V128 -> V128 := impl_binary_for P_f64 f64_min.
Definition f32x4_max : V128 -> V128 -> V128 := impl_binary_for P_f32 f32_max.
Definition f64x2_max : V128 -> V128 -> V128 := impl_binary_for P_f64 f64_max.
Definition f32x4_pmin : V128 -> V128 -> V128 := impl_binary_for P_f32 (pmin F32).
Definition f64x2_pmin : V128 -> V128 -> V128 := impl_binary_for P_f64 (pmin F64).
Definition f32x4_pmax : V128 -> V128 -> V128 := impl_binary_for P_f32 (pmax F32).
Definition f64x2_pmax : V128 -> V128 -> V128 := impl_binary_for P_f64 (pmax F64).
Definition f32x4_add : V128 -> V128 -> V128 := impl_binary_for P_f32 f32_add.
Definition f64x2_add : V128 -> V128 -> V128 := impl_binary_for P_f64 f64_add.
Definition f32x4_sub : V128 -> V128 -> V128 := impl_binary_for P_f32 f32_sub.
Definition f64x2_sub : V128 -> V128 -> V128 := impl_binary_for P_f64 f64_sub.
Definition f32x4_div : V128 -> V128 -> V128 := impl_binary_for P_f32 f32_div.
Definition f64x2_div : V128 -> V128 -> V128 := impl_binary_for P_f64 f64_div.
Definition f32x4_mul : V128 -> V128 -> V128 := impl_binary_for P_f32 f32_mul.
Definition f64x2_mul : V128 -> V128 -> V128 := impl_binary_for P_f64 f64_mul.

Definition impl_unary_for (p : Prim) (lanewise_expr : Z -> Z) (v128 : V128) : V128 :=
  V128_lanewise_unary p v128 lanewise_expr.
Definition i64x2_neg : V128 -> V128 := impl_unary_for P_i64 (wrapping_neg P_i64).
Definition i32x4_neg : V128 -> V128 := impl_unary_for P_i32 (wrapping_neg P_i32).
Definition i16x8_neg : V128 -> V128 := impl_unary_for P_i16 (wrapping_neg P_i16).
Definition i8x16_neg : V128 -> V128 := impl_unary_for P_i8 (wrapping_neg P_i8).
Definition i8x16_abs : V128 -> V128 := impl_unary_for P_i8 (wrapping_abs P_i8).
Definition i16x8_abs : V128 -> V128 := impl_unary_for P_i16 (wrapping_abs P_i16).
Definition i32x4_abs : V128 -> V128 := impl_unary_for P_i32 (wrapping_abs P_i32).
Definition i64x2_abs : V128 -> V128 := impl_unary_for P_i64 (wrapping_abs P_i64).
Definition v128_not : V128 -> V128 := impl_unary_for P_i64 (prim_not P_i64).
Definition i8x16_popcnt : V128 -> V128 := impl_unary_for P_u8 (fun v => cast P_u8 (count_ones 8 v)).
Definition f32x4_neg : V128 -> V128 := impl_unary_for P_f32 (Float_neg F32).
Definition f64x2_neg : V128 -> V128 := impl_unary_for P_f64 (Float_neg F64).
Definition f32x4_abs : V128 -> V128 := impl_unary_for P_f32 (Float_abs F32).
Definition f64x2_abs : V128 -> V128 := impl_unary_for P_f64 (Float_abs F64).
Definition f32x4_sqrt : V128 -> V128 := impl_unary_for P_f32 f32_sqrt.
Definition f64x2_sqrt : V128 -> V128 := impl_unary_for P_f64 f64_sqrt.
Definition f32x4_ceil : V128 -> V128 := impl_unary_for P_f32 f32_ceil.
Definition f64x2_ceil : V128 -> V128 := impl_unary_for P_f64 f64_ceil.
Definition f32x4_floor : V128 -> V128 := impl_unary_for P_f32 f32_floor.
Definition f64x2_floor : V128 -> V128 := impl_unary_for P_f64 f64_floor.
Definition f32x4_trunc : V128 -> V128 := impl_unary_for P_f32 f32_trunc.
Definition f64x2_trunc : V128 -> V128 := impl_unary_for P_f64 f64_trunc.
Definition f32x4_nearest : V128 -> V128 := impl_unary_for P_f32 f32_nearest.
Definition f64x2_nearest : V128 -> V128 := impl_unary_for P_f64 f64_nearest.

Definition impl_unary_cast_for (p out : Prim) (lanewise_expr : Z -> Z) (v128 : V128) : V128 :=
  V128_lanewise_unary_cast p out v128 lanewise_expr.
Definition f32x4_convert_i32x4_s : V128 -> V128 := impl_unary_cast_for P_i32 P_f32 f32_convert_i32_s.
Definition f32x4_convert_i32x4_u : V128 -> V128 := impl_unary_cast_for P_u32 P_f32 f32_convert_i32_u.
Definition i32x4_trunc_sat_f32x4_s : V128 -> V128 := impl_unary_cast_for P_f32 P_i32 i32_trunc_sat_f32_s.
Definition i32x4_trunc_sat_f32x4_u : V128 -> V128 := impl_unary_cast_for P_f32 P_u32 i32_trunc_sat_f32_u.

Definition impl_comparison_for (p : Prim) (lanewise_expr : Z -> Z -> bool) (lhs rhs : V128) : V128 :=
  V128_lanewise_comparison p lhs rhs lanewise_expr.
Definition i8x16_eq : V128 -> V128 -> V128 := impl_comparison_for P_i8 Z.eqb.
Definition i16x8_eq : V128 -> V128 -> V128 := impl_comparison_for P_i16 Z.eqb.
Definition i32x4_eq : V128 -> V128 -> V128 := impl_comparison_for P_i32 Z.eqb.
Definition i64x2_eq : V128 -> V128 -> V128 := impl_comparison_for P_i64 Z.eqb.
Definition f32x4_eq : V128 -> V128 -> V128 := impl_comparison_for P_f32 (float_eq F32).
Definition f64x2_eq : V128 -> V128 -> V128 := impl_comparison_for P_f64 (float_eq F64).
Definition i8x16_ne : V128 -> V128 -> V128 := impl_comparison_for P_i8 (fun lhs rhs => negb (lhs =? rhs)).
Definition i16x8_ne : V128 -> V128 -> V128 := impl_comparison_for P_i16 (fun lhs rhs => negb (lhs =? rhs)).
Definition i32x4_ne : V128 -> V128 -> V128 := impl_comparison_for P_i32 (fun lhs rhs => negb (lhs =? rhs)).
Definition i64x2_ne : V128 -> V128 -> V128 := impl_comparison_for P_i64 (fun lhs rhs => negb (lhs =? rhs)).
Definition f32x4_ne : V128 -> V128 -> V128 := impl_comparison_for P_f32 (float_ne F32).
Definition f64x2_ne : V128 -> V128 -> V128 := impl_comparison_for P_f64 (float_ne F64).
Definition i8x16_lt_s : V128 -> V128 -> V128 := impl_comparison_for P_i8 Z.ltb.
Definition i8x16_lt_u : V128 -> V128 -> V128 := impl_comparison_for P_u8 Z.ltb.
Definition i16x8_lt_s : V128 -> V128 -> V128 := impl_comparison_for P_i16 Z.ltb.
Definition i16x8_lt_u : V128 -> V128 -> V128 := impl_comparison_for P_u16 Z.ltb.
Definition i32x4_lt_s : V128 -> V128 -> V128 := impl_comparison_for P_i32 Z.ltb.
Definition i32x4_lt_u : V128 -> V128 -> V128 := impl_comparison_for P_u32 Z.ltb.
Definition i64x2_lt_s : V128 -> V128 -> V128 := impl_comparison_for P_i64 Z.ltb.
Definition f32x4_lt : V128 -> V128 -> V128 := impl_comparison_for P_f32 (float_lt F32).
Definition f64x2_lt : V128 -> V128 -> V128 := impl_comparison_for P_f64 (float_lt F64).
Definition i8x16_le_s : V128 -> V128 -> V128 := impl_comparison_for P_i8 Z.leb.
Definition i8x16_le_u : V128 -> V128 -> V128 := impl_comparison_for P_u8 Z.leb.
Definition i16x8_le_s : V128 -> V128 -> V128 := impl_comparison_for P_i16 Z.leb.
Definition i16x8_le_u : V128 -> V128 -> V128 := impl_comparison_for P_u16 Z.leb.
Definition i32x4_le_s : V128 -> V128 -> V128 := impl_comparison_for P_i32 Z.leb.
Definition i32x4_le_u : V128 -> V128 -> V128 := impl_comparison_for P_u32 Z.leb.
Definition i64x2_le_s : V128 -> V128 -> V128 := impl_comparison_for P_i64 Z.leb.
Definition f32x4_le : V128 -> V128 -> V128 := impl_comparison_for P_f32 (float_le F32).
Definition f64x2_le : V128 -> V128 -> V128 := impl_comparison_for P_f64 (float_le F64).
Definition i8x16_gt_s : V128 -> V128 -> V128 := impl_comparison_for P_i8 Z.gtb.
Definition i8x16_gt_u : V128 -> V128 -> V128 := impl_comparison_for P_u8 Z.gtb.
Definition i16x8_gt_s : V128 -> V128 -> V128 := impl_comparison_for P_i16 Z.gtb.
Definition i16x8_gt_u : V128 -> V128 -> V128 := impl_comparison_for P_u16 Z.gtb.
Definition i32x4_gt_s : V128 -> V128 -> V128 := impl_comparison_for P_i32 Z.gtb.
Definition i32x4_gt_u : V128 -> V128 -> V128 := impl_comparison_for P_u32 Z.gtb.
Definition i64x2_gt_s : V128 -> V128 -> V128 := impl_comparison_for P_i64 Z.gtb.
Definition f32x4_gt : V128 -> V128 -> V128 := impl_comparison_for P_f32 (float_gt F32).
Definition f64x2_gt : V128 -> V128 -> V128 := impl_comparison_for P_f64 (float_gt F64).
Definition i8x16_ge_s : V128 -> V128 -> V128 := impl_comparison_for P_i8 Z.geb.
Definition i8x16_ge_u : V128 -> V128 -> V128 := impl_comparison_for P_u8 Z.geb.
Definition i16x8_ge_s : V128 -> V128 -> V128 := impl_comparison_for P_i16 Z.geb.
Definition i16x8_ge_u : V128 -> V128 -> V128 := impl_comparison_for P_u16 Z.geb.
Definition i32x4_ge_s : V128 -> V128 -> V128 := impl_comparison_for P_i32 Z.geb.
Definition i32x4_ge_u : V128 -> V128 -> V128 := impl_comparison_for P_u32 Z.geb.
Definition i64x2_ge_s : V128 -> V128 -> V128 := impl_comparison_for P_i64 Z.geb.
Definition f32x4_ge : V128 -> V128 -> V128 := impl_comparison_for P_f32 (float_ge F32).
Definition f64x2_ge : V128 -> V128 -> V128 := impl_comparison_for P_f64 (float_ge F64).

Definition impl_widen_low_unary (narrow wide : Prim) (convert : Z -> Z) (v128 : V128) : V128 :=
  V128_low_unary narrow wide v128 convert.
Definition i16x8_extend_low_i8x16_s : V128 -> V128 := impl_widen_low_unary P_i8 P_i16 id.
Definition i16x8_extend_low_i8x16_u : V128 -> V128 := impl_widen_low_unary P_u8 P_u16 id.
Definition i32x4_extend_low_i16x8_s : V128 -> V128 := impl_widen_low_unary P_i16 P_i32 id.
Definition i32x4_extend_low_i16x8_u : V128 -> V128 := impl_widen_low_unary P_u16 P_u32 id.
Definition i64x2_extend_low_i32x4_s : V128 -> V128 := impl_widen_low_unary P_i32 P_i64 id.
Definition i64x2_extend_low_i32x4_u : V128 -> V128 := impl_widen_low_unary P_u32 P_u64 id.
Definition f64x2_convert_low_i32x4_s : V128 -> V128 := impl_widen_low_unary P_i32 P_f64 f64_convert_i32_s.
Definition f64x2_convert_low_i32x4_u : V128 -> V128 := impl_widen_low_unary P_u32 P_f64 f64_convert_i32_u.
Definition f64x2_promote_low_f32x4 : V128 -> V128 := impl_widen_low_unary P_f32 P_f64 f64_promote_f32.

Definition impl_widen_high_unary (narrow wide : Prim) (convert : Z -> Z) (v128 : V128) : V128 :=
  V128_high_unary narrow wide v128 convert.
Definition i16x8_extend_high_i8x16_s : V128 -> V128 := impl_widen_high_unary P_i8 P_i16 id.
Definition i16x8_extend_high_i8x16_u : V128 -> V128 := impl_widen_high_unary P_u8 P_u16 id.
Definition i32x4_extend_high_i16x8_s : V128 -> V128 := impl_widen_high_unary P_i16 P_i32 id.
Definition i32x4_extend_high_i16x8_u : V128 -> V128 := impl_widen_high_unary P_u16 P_u32 id.
Definition i64x2_extend_high_i32x4_s : V128 -> V128 := impl_widen_high_unary P_i32 P_i64 id.
Definition i64x2_extend_high_i32x4_u : V128 -> V128 := impl_widen_high_unary P_u32 P_u64 id.

Definition impl_ext_binary_low (narrow wide : Prim) (f : Z -> Z -> Z) (lhs rhs : V128) : V128 :=
  V128_from_low_binary narrow wide lhs rhs f.
Definition i16x8_extmul_low_i8x16_s : V128 -> V128 -> V128 := impl_ext_binary_low P_i8 P_i16 (extmul P_i16).
Definition i16x8_extmul_low_i8x16_u : V128 -> V128 -> V128 := impl_ext_binary_low P_u8 P_u16 (extmul P_u16).
Definition i32x4_extmul_low_i16x8_s : V128 -> V128 -> V128 := impl_ext_binary_low P_i16 P_i32 (extmul P_i32).
Definition i32x4_extmul_low_i16x8_u : V128 -> V128 -> V128 := impl_ext_binary_low P_u16 P_u32 (extmul P_u32).
Definition i64x2_extmul_low_i32x4_s : V128 -> V128 -> V128 := impl_ext_binary_low P_i32 P_i64 (extmul P_i64).
Definition i64x2_extmul_low_i32x4_u : V128 -> V128 -> V128 := impl_ext_binary_low P_u32 P_u64 (extmul P_u64).

Definition impl_ext_binary_high (narrow wide : Prim) (f : Z -> Z -> Z) (lhs rhs : V128) : V128 :=
  V128_from_high_binary narrow wide lhs rhs f.
Definition i16x8_extmul_high_i8x16_s : V128 -> V128 -> V128 := impl_ext_binary_high P_i8 P_i16 (extmul P_i16).
Definition i16x8_extmul_high_i8x16_u : V128 -> V128 -> V128 := impl_ext_binary_high P_u8 P_u16 (extmul P_u16).
Definition i32x4_extmul_high_i16x8_s : V128 -> V128 -> V128 := impl_ext_binary_high P_i16 P_i32 (extmul P_i32).
Definition i32x4_extmul_high_i16x8_u : V128 -> V128 -> V128 := impl_ext_binary_high P_u16 P_u32 (extmul P_u32).
Definition i64x2_extmul_high_i32x4_s : V128 -> V128 -> V128 := impl_ext_binary_high P_i32 P_i64 (extmul P_i64).
Definition i64x2_extmul_high_i32x4_u : V128 -> V128 -> V128 := impl_ext_binary_high P_u32 P_u64 (extmul P_u64).

Definition impl_extadd_pairwise (narrow wide : Prim) (v128 : V128) : V128 :=
  V128_pairwise_unary narrow wide v128 (wrapping_add wide).
Definition i16x8_extadd_pairwise_i8x16_s : V128 -> V128 := impl_extadd_pairwise P_i8 P_i16.
Definition i16x8_extadd_pairwise_i8x16_u : V128 -> V128 := impl_extadd_pairwise P_u8 P_u16.
Definition i32x4_extadd_pairwise_i16x8_s : V128 -> V128 := impl_extadd_pairwise P_i16 P_i32.
Definition i32x4_extadd_pairwise_i16x8_u : V128 -> V128 := impl_extadd_pairwise P_u16 P_u32.

Definition impl_shift_ops (p : Prim) (lanewise_expr : Z -> Z -> Z) (v128 : V128) (rhs : Z) : V128 :=
  V128_lanewise_unary p v128 (fun v => lanewise_expr v rhs).
Definition i8x16_shl : V128 -> Z -> V128 := impl_shift_ops P_i8 (wrapping_shl P_i8).
Definition i16x8_shl : V128 -> Z -> V128 := impl_shift_ops P_i16 (wrapping_shl P_i16).
Definition i32x4_shl : V128 -> Z -> V128 := impl_shift_ops P_i32 (wrapping_shl P_i32).
Definition i64x2_shl : V128 -> Z -> V128 := impl_shift_ops P_i64 (wrapping_shl P_i64).
Definition i8x16_shr_s : V128 -> Z -> V128 := impl_shift_ops P_i8 (wrapping_shr P_i8).
Definition i8x16_shr_u : V128 -> Z -> V128 := impl_shift_ops P_u8 (wrapping_shr P_u8).
Definition i16x8_shr_s : V128 -> Z -> V128 := impl_shift_ops P_i16 (wrapping_shr P_i16).
Definition i16x8_shr_u : V128 -> Z -> V128 := impl_shift_ops P_u16 (wrapping_shr P_u16).
Definition i32x4_shr_s : V128 -> Z -> V128 := impl_shift_ops P_i32 (wrapping_shr P_i32).
Definition i32x4_shr_u : V128 -> Z -> V128 := impl_shift_ops P_u32 (wrapping_shr P_u32).
Definition i64x2_shr_s : V128 -> Z -> V128 := impl_shift_ops P_i64 (wrapping_shr P_i64).
Definition i64x2_shr_u : V128 -> Z -> V128 := impl_shift_ops P_u64 (wrapping_shr P_u64).

Definition impl_narrowing_low_high_ops (narrow wide : Prim) (f : Z -> Z) (low high : V128) : V128 :=
  V128_from_low_high narrow wide low high f.

Definition def_narrow_from_to (to : Prim) (value : Z) : Z := cast to (clamp to value).
Definition narrow_i16_to_i8 (value : Z) : Z := def_narrow_from_to P_i8 value.
Definition narrow_u16_to_u8 (value : Z) : Z := def_narrow_from_to P_u8 (cast P_i16 value).
Definition narrow_i32_to_i16 (value : Z) : Z := def_narrow_from_to P_i16 value.
Definition narrow_u32_to_u16 (value : Z) : Z := def_narrow_from_to P_u16 (cast P_i32 value).
Definition i8x16_narrow_i16x8_s : V128 -> V128 -> V128 := impl_narrowing_low_high_ops P_i8 P_i16 narrow_i16_to_i8.
Definition i8x16_narrow_i16x8_u : V128 -> V128 -> V128 := impl_narrowing_low_high_ops P_u8 P_u16 narrow_u16_to_u8.
Definition i16x8_narrow_i32x4_s : V128 -> V128 -> V128 := impl_narrowing_low_high_ops P_i16 P_i32 narrow_i32_to_i16.
Definition i16x8_narrow_i32x4_u : V128 -> V128 -> V128 := impl_narrowing_low_high_ops P_u16 P_u32 narrow_u32_to_u16.

Definition impl_narrowing_low_or_ops (narrow wide : Prim) (high : Z) (f : Z -> Z) (low : V128) : V128 :=
  V128_low_or narrow wide low high f.
Definition i32x4_trunc_sat_f64x2_s_zero : V128 -> V128 := impl_narrowing_low_or_ops P_i32 P_f64 0 i32_trunc_sat_f64_s.
Definition i32x4_trunc_sat_f64x2_u_zero : V128 -> V128 := impl_narrowing_low_or_ops P_u32 P_f64 0 i32_trunc_sat_f64_u.
Definition f32x4_demote_f64x2_zero : V128 -> V128 := impl_narrowing_low_or_ops P_f32 P_f64 0 f32_demote_f64.

Definition all_true (v : Z) (acc : bool) : bool := andb acc (negb (v =? 0)).

Definition impl_all_true_ops (p : Prim) (v128 : V128) : bool := V128_lanewise_reduce p v128 true all_true.
Definition i8x16_all_true : V128 -> bool := impl_all_true_ops P_i8.
Definition i16x8_all_true : V128 -> bool := impl_all_true_ops P_i16.
Definition i32x4_all_true : V128 -> bool := impl_all_true_ops P_i32.
Definition i64x2_all_true : V128 -> bool := impl_all_true_ops P_i64.

Definition bitmask (n v acc : Z) : Z := Z.lor acc (wrapping_shl P_i32 (Z.b2z (v <? 0)) n).

Definition impl_bitmask_ops (p : Prim) (v128 : V128) : Z :=
  cast P_u32 (V128_lanewise_reduce_enumerate p v128 0 bitmask).
Definition i8x16_bitmask : V128 -> Z := impl_bitmask_ops P_i8.
Definition i16x8_bitmask : V128 -> Z := impl_bitmask_ops P_i16.
Definition i32x4_bitmask : V128 -> Z := impl_bitmask_ops P_i32.
Definition i64x2_bitmask : V128 -> Z := impl_bitmask_ops P_i64.

Definition v128_any_true (v128 : V128) : bool := negb (V128_as_u128 v128 =? 0).

Definition dot (wide : Prim) (a b : Z * Z) : Z :=
  let dot0 := wrapping_mul wide (fst a) (fst b) in
  let dot1 := wrapping_mul wide (snd a) (snd b) in
  wrapping_add wide dot0 dot1.
Definition i32x4_dot_i16x8_s (lhs rhs : V128) : V128 := V128_pairwise_binary P_i16 P_i32 lhs rhs (dot P_i32).
Definition i16x8_relaxed_dot_i8x16_i7x16_s (lhs rhs : V128) : V128 :=
  V128_pairwise_binary P_i8 P_i16 lhs rhs (dot P_i16).
Definition i32x4_relaxed_dot_i8x16_i7x16_add_s (lhs rhs c : V128) : V128 :=
  let dot := i16x8_relaxed_dot_i8x16_i7x16_s lhs rhs in
  let ext := i32x4_extadd_pairwise_i16x8_s dot in
  i32x4_add ext c.
Definition v128_bitselect (v1 v2 c : V128) : V128 := v128_or (v128_and v1 c) (v128_andnot v2 c).

Definition impl_ternary_for (p : Prim) (lanewise_expr : Z -> Z -> Z -> Z) (a b c : V128) : V128 :=
  V128_lanewise_ternary p a b c lanewise_expr.
Definition f32x4_relaxed_madd : V128 -> V128 -> V128 -> V128 := impl_ternary_for P_f32 (Float_mul_add F32).
Definition f32x4_relaxed_nmadd : V128 -> V128 -> V128 -> V128 := impl_ternary_for P_f32 (neg_mul_add F32).
Definition f64x2_relaxed_madd : V128 -> V128 -> V128 -> V128 := impl_ternary_for P_f64 (Float_mul_add F64).
Definition f64x2_relaxed_nmadd : V128 -> V128 -> V128 -> V128 := impl_ternary_for P_f64 (neg_mul_add F64).

(** *** Memory *)

Definition v128_store (ptr offset : Z) (value : V128) : M (list Z) TrapCode unit :=
  store P_u128 ptr offset (V128_as_u128 value).
Definition v128_store_at (address : Z) (value : V128) : M (list Z) TrapCode unit :=
  store_at P_u128 address (V128_as_u128 value).

Definition impl_v128_storeN_lane (p : Prim) (ptr offset : Z) (value : V128) (imm : LaneIdx p) :
    M (list Z) TrapCode unit :=
  store p ptr offset (V128_extract_lane p value imm).

Definition impl_v128_storeN_lane_at (p : Prim) (address : Z) (value : V128) (imm : LaneIdx p) :
    M (list Z) TrapCode unit :=
  store_at p address (V128_extract_lane p value imm).
Definition v128_store8_lane : Z -> Z -> V128 -> LaneIdx P_u8 -> M (list Z) TrapCode unit := impl_v128_storeN_lane P_u8.
Definition v128_store16_lane : Z -> Z -> V128 -> LaneIdx P_u16 -> M (list Z) TrapCode unit := impl_v128_storeN_lane P_u16.
Definition v128_store32_lane : Z -> Z -> V128 -> LaneIdx P_u32 -> M (list Z) TrapCode unit := impl_v128_storeN_lane P_u32.
Definition v128_store64_lane : Z -> Z -> V128 -> LaneIdx P_u64 -> M (list Z) TrapCode unit := impl_v128_storeN_lane P_u64.
Definition v128_store8_lane_at : Z -> V128 -> LaneIdx P_u8 -> M (list Z) TrapCode unit := impl_v128_storeN_lane_at P_u8.
Definition v128_store16_lane_at : Z -> V128 -> LaneIdx P_u16 -> M (list Z) TrapCode unit := impl_v128_storeN_lane_at P_u16.
Definition v128_store32_lane_at : Z -> V128 -> LaneIdx P_u32 -> M (list Z) TrapCode unit := impl_v128_storeN_lane_at P_u32.
Definition v128_store64_lane_at : Z -> V128 -> LaneIdx P_u64 -> M (list Z) TrapCode unit := impl_v128_storeN_lane_at P_u64.

Definition v128_load (memory : list Z) (ptr offset : Z) : res TrapCode V128 :=
  V128_from_u128 <$> load P_u128 memory ptr offset.
Definition v128_load_at (memory : list Z) (address : Z) : res TrapCode V128 :=
  V128_from_u128 <$> load_at P_u128 memory address.

Definition impl_v128_lowN_zero_for (p : Prim) (bits : Z) : V128 :=
  V128_replace_lane p (V128_splat p 0) (ImmLaneIdx_zero _) bits.
Definition v128_low32_zero : Z -> V128 := impl_v128_lowN_zero_for P_u32.
Definition v128_low64_zero : Z -> V128 := impl_v128_lowN_zero_for P_u64.

Definition impl_v128_loadN_zero_for (p : Prim) (memory : list Z) (ptr offset : Z) : res TrapCode V128 :=
  bits ← load p memory ptr offset;
  Ok (V128_replace_lane p (V128_splat p 0) (ImmLaneIdx_zero _) bits).
Definition v128_load32_zero : list Z -> Z -> Z -> res TrapCode V128 := impl_v128_loadN_zero_for P_u32.
Definition v128_load64_zero : list Z -> Z -> Z -> res TrapCode V128 := impl_v128_loadN_zero_for P_u64.

Definition impl_v128_loadN_zero_at_for (p : Prim) (memory : list Z) (address : Z) : res TrapCode V128 :=
  bits ← load_at p memory address;
  Ok (V128_replace_lane p (V128_splat p 0) (ImmLaneIdx_zero _) bits).
Definition v128_load32_zero_at : list Z -> Z -> res TrapCode V128 := impl_v128_loadN_zero_at_for P_u32.
Definition v128_load64_zero_at : list Z -> Z -> res TrapCode V128 := impl_v128_loadN_zero_at_for P_u64.

Definition impl_v128_loadN_splat_for (p : Prim) (memory : list Z) (ptr offset : Z) : res TrapCode V128 :=
  V128_splat p <$> load p memory ptr offset.
Definition v128_load8_splat : list Z -> Z -> Z -> res TrapCode V128 := impl_v128_loadN_splat_for P_u8.
Definition v128_load16_splat : list Z -> Z -> Z -> res TrapCode V128 := impl_v128_loadN_splat_for P_u16.
Definition v128_load32_splat : list Z -> Z -> Z -> res TrapCode V128 := impl_v128_loadN_splat_for P_u32.
Definition v128_load64_splat : list Z -> Z -> Z -> res TrapCode V128 := impl_v128_loadN_splat_for P_u64.

Definition impl_v128_loadN_splat_at_for (p : Prim) (memory : list Z) (address : Z) : res TrapCode V128 :=
  V128_splat p <$> load_at p memory address.
Definition v128_load8_splat_at : list Z -> Z -> res TrapCode V128 := impl_v128_loadN_splat_at_for P_u8.
Definition v128_load16_splat_at : list Z -> Z -> res TrapCode V128 := impl_v128_loadN_splat_at_for P_u16.
Definition v128_load32_splat_at : list Z -> Z -> res TrapCode V128 := impl_v128_loadN_splat_at_for P_u32.
Definition v128_load64_splat_at : list Z -> Z -> res TrapCode V128 := impl_v128_loadN_splat_at_for P_u64.

Definition impl_v128_loadN_lane_for (p : Prim) (memory : list Z) (ptr offset : Z) (x : V128) (lane : LaneIdx p) :
    res TrapCode V128 :=
  (fun value => V128_replace_lane p x lane value) <$> load p memory ptr offset.
Definition v128_load8_lane : list Z -> Z -> Z -> V128 -> LaneIdx P_u8 -> res TrapCode V128 := impl_v128_loadN_lane_for P_u8.
Definition v128_load16_lane : list Z -> Z -> Z -> V128 -> LaneIdx P_u16 -> res TrapCode V128 := impl_v128_loadN_lane_for P_u16.
Definition v128_load32_lane : list Z -> Z -> Z -> V128 -> LaneIdx P_u32 -> res TrapCode V128 := impl_v128_loadN_lane_for P_u32.
Definition v128_load64_lane : list Z -> Z -> Z -> V128 -> LaneIdx P_u64 -> res TrapCode V128 := impl_v128_loadN_lane_for P_u64.

Definition impl_v128_loadN_lane_at_for (p : Prim) (memory : list Z) (address : Z) (x : V128) (lane : LaneIdx p) :
    res TrapCode V128 :=
  (fun value => V128_replace_lane p x lane value) <$> load_at p memory address.
Definition v128_load8_lane_at : list Z -> Z -> V128 -> LaneIdx P_u8 -> res TrapCode V128 := impl_v128_loadN_lane_at_for P_u8.
Definition v128_load16_lane_at : list Z -> Z -> V128 -> LaneIdx P_u16 -> res TrapCode V128 := impl_v128_loadN_lane_at_for P_u16.
Definition v128_load32_lane_at : list Z -> Z -> V128 -> LaneIdx P_u32 -> res TrapCode V128 := impl_v128_loadN_lane_at_for P_u32.
Definition v128_load64_lane_at : list Z -> Z -> V128 -> LaneIdx P_u64 -> res TrapCode V128 := impl_v128_loadN_lane_at_for P_u64.

(** [SplitInto]: the items a [u64] consists of, and [ExtendArray]. *)
Definition split_into (ty : Prim) (self : Z) : list Z :=
  let bytes := into_le_bytes P_u64 self in
  from_fn (Z.to_nat (prim_bytes P_u64 / prim_bytes ty)) (fun i =>
    from_le_bytes ty (from_fn (lane_size ty) (fun j => array_item bytes (lane_size ty * i + j)))).
Definition extend_array (ext : Prim) (self : list Z) : list Z := extend_into ext <$> self.
Definition widen_nxm (narrow wide : Prim) (bits : Z) : V128 :=
  into_v128 wide (extend_array wide (split_into narrow bits)).

Definition impl_v128_widen_mxn (narrow wide : Prim) (bits : Z) : V128 := widen_nxm narrow wide bits.
Definition v128_widen8x8_s : Z -> V128 := impl_v128_widen_mxn P_i8 P_i16.
Definition v128_widen8x8_u : Z -> V128 := impl_v128_widen_mxn P_u8 P_u16.
Definition v128_widen16x4_s : Z -> V128 := impl_v128_widen_mxn P_i16 P_i32.
Definition v128_widen16x4_u : Z -> V128 := impl_v128_widen_mxn P_u16 P_u32.
Definition v128_widen32x2_s : Z -> V128 := impl_v128_widen_mxn P_i32 P_i64.
Definition v128_widen32x2_u : Z -> V128 := impl_v128_widen_mxn P_u32 P_u64.

Definition impl_v128_load_mxn (narrow wide : Prim) (memory : list Z) (ptr offset : Z) : res TrapCode V128 :=
  widen_nxm narrow wide <$> load P_u64 memory ptr offset.
Definition v128_load8x8_s : list Z -> Z -> Z -> res TrapCode V128 := impl_v128_load_mxn P_i8 P_i16.
Definition v128_load8x8_u : list Z -> Z -> Z -> res TrapCode V128 := impl_v128_load_mxn P_u8 P_u16.
Definition v128_load16x4_s : list Z -> Z -> Z -> res TrapCode V128 := impl_v128_load_mxn P_i16 P_i32.
Definition v128_load16x4_u : list Z -> Z -> Z -> res TrapCode V128 := impl_v128_load_mxn P_u16 P_u32.
Definition v128_load32x2_s : list Z -> Z -> Z -> res TrapCode V128 := impl_v128_load_mxn P_i32 P_i64.
Definition v128_load32x2_u : list Z -> Z -> Z -> res TrapCode V128 := impl_v128_load_mxn P_u32 P_u64.

Definition impl_v128_load_mxn_at (narrow wide : Prim) (memory : list Z) (address : Z) : res TrapCode V128 :=
  widen_nxm narrow wide <$> load_at P_u64 memory address.
Definition v128_load8x8_s_at : list Z -> Z -> res TrapCode V128 := impl_v128_load_mxn_at P_i8 P_i16.
Definition v128_load8x8_u_at : list Z -> Z -> res TrapCode V128 := impl_v128_load_mxn_at P_u8 P_u16.
Definition v128_load16x4_s_at : list Z -> Z -> res TrapCode V128 := impl_v128_load_mxn_at P_i16 P_i32.
Definition v128_load16x4_u_at : list Z -> Z -> res TrapCode V128 := impl_v128_load_mxn_at P_u16 P_u32.
Definition v128_load32x2_s_at : list Z -> Z -> res TrapCode V128 := impl_v128_load_mxn_at P_i32 P_i64.
Definition v128_load32x2_u_at : list Z -> Z -> res TrapCode V128 := impl_v128_load_mxn_at P_u32 P_u64.

(** *** Relaxed instructions *)

Definition i8x16_relaxed_swizzle : V128 -> V128 -> V128 := i8x16_swizzle.
Definition i8x16_relaxed_laneselect : V128 -> V128 -> V128 -> V128 := v128_bitselect.
Definition i16x8_relaxed_laneselect : V128 -> V128 -> V128 -> V128 := v128_bitselect.
Definition i32x4_relaxed_laneselect : V128 -> V128 -> V128 -> V128 := v128_bitselect.
Definition i64x2_relaxed_laneselect : V128 -> V128 -> V128 -> V128 := v128_bitselect.
Definition f32x4_relaxed_min : V128 -> V128 -> V128 := f32x4_min.
Definition f32x4_relaxed_max : V128 -> V128 -> V128 := f32x4_max.
Definition f64x2_relaxed_min : V128 -> V128 -> V128 := f64x2_min.
Definition f64x2_relaxed_max : V128 -> V128 -> V128 := f64x2_max.
Definition i16x8_relaxed_q15mulr_s : V128 -> V128 -> V128 := i16x8_q15mulr_sat_s.
Definition i32x4_relaxed_trunc_f32x4_s : V128 -> V128 := i32x4_trunc_sat_f32x4_s.
Definition i32x4_relaxed_trunc_f32x4_u : V128 -> V128 := i32x4_trunc_sat_f32x4_u.
Definition i32x4_relaxed_trunc_f64x2_s_zero : V128 -> V128 := i32x4_trunc_sat_f64x2_s_zero.
Definition i32x4_relaxed_trunc_f64x2_u_zero : V128 -> V128 := i32x4_trunc_sat_f64x2_u_zero.
End Simd.
