(* ===== verification/SimdSpec.v ===== *)
(** * Vector instructions, lane by lane

    A vector is the array of its lanes, for every type of lanes.  The instructions
    meet their definition in WebAssembly: each lane of the result is the operation on
    the lanes at its place, on integers as mathematics defines it. *)

From Stdlib Require Import ZArith Lia.
From stdpp Require Import base option decidable numbers list_numbers list.
From S2P Require Import Prelude Trap Value WasmInt MemoryAccess Float Simd.
Local Open Scope Z_scope.

(** ** Arrays and their bytes *)

(** The types of lanes. *)
Definition lane_ty (p : Prim) : bool :=
  match p with
  | P_i8 | P_u8 | P_i16 | P_u16 | P_i32 | P_u32 | P_i64 | P_u64 | P_f32 | P_f64 => true
  | _ => false
  end.

Lemma lane_size_bytes p : lane_ty p = true -> (LANES p * lane_size p = 16)%nat /\ (0 < lane_size p)%nat.
Proof. destruct p; intros H; try discriminate H; (split; [reflexivity|by apply Nat.ltb_lt]). Qed.

Definition lanes_ok (p : Prim) (l : list Z) : Prop := length l = LANES p /\ Forall (prim_val p) l.

Lemma length_from_fn {A} n (f : nat -> A) : length (from_fn n f) = n.
Proof. unfold from_fn. by rewrite length_fmap, length_seq. Qed.
Lemma lookup_from_fn {A} n (f : nat -> A) i : (i < n)%nat -> from_fn n f !! i = Some (f i).
Proof. intros Hi. unfold from_fn. by rewrite list_lookup_fmap, lookup_seq_lt. Qed.
Lemma from_fn_ext {A} n (f g : nat -> A) : (forall i, (i < n)%nat -> f i = g i) -> from_fn n f = from_fn n g.
Proof.
  intros H. apply list_eq_same_length with n; rewrite ?length_from_fn; [done..|].
  intros i x y Hi. rewrite !lookup_from_fn by done. intros [= <-] [= <-]. by apply H.
Qed.
Lemma from_fn_Forall {A} (P : A -> Prop) n f : (forall i, (i < n)%nat -> P (f i)) -> Forall P (from_fn n f).
Proof.
  intros H. apply Forall_lookup_2. intros i x Hx. apply lookup_lt_Some in Hx as Hi. rewrite length_from_fn in Hi.
  rewrite lookup_from_fn in Hx by done. injection Hx as <-. by apply H.
Qed.

Lemma array_item_lookup l i x : l !! i = Some x -> array_item l i = x.
Proof. unfold array_item. revert i. induction l as [|y l IH]; intros [|i]; try done; cbn; [congruence|apply IH]. Qed.
Lemma array_item_val p l i : lanes_ok p l -> (i < LANES p)%nat -> prim_val p (array_item l i).
Proof.
  intros [Hl Hv] Hi. destruct (lookup_lt_is_Some_2 l i) as [x Hx]; [lia|].
  rewrite (array_item_lookup _ _ _ Hx). by apply (Forall_lookup_1 _ _ _ _ Hv Hx).
Qed.
Lemma list_from_fn p l : length l = LANES p -> from_fn (LANES p) (array_item l) = l.
Proof.
  intros Hl. apply list_eq_same_length with (LANES p); rewrite ?length_from_fn; [done..|].
  intros i x y Hi. rewrite lookup_from_fn by done. intros [= <-] Hy. by rewrite (array_item_lookup _ _ _ Hy).
Qed.

(** The [i]-th chunk of a concatenation of chunks of [n] bytes. *)
Lemma chunk_bind {A B} (f : A -> list B) n l : (forall x, length (f x) = n) -> forall i x, l !! i = Some x ->
  take n (drop (i * n) (l ≫= f)) = f x.
Proof.
  intros Hf. induction l as [|y l IH]; intros i x Hx; [done|]. cbn. destruct i as [|i].
  - injection Hx as ->. cbn. rewrite drop_0, take_app_length' by by rewrite Hf. done.
  - cbn in Hx. rewrite drop_app_ge by (rewrite Hf; lia). rewrite Hf.
    replace (S i * n - n)%nat with (i * n)%nat by lia. by apply IH.
Qed.
Lemma length_bind_chunks {A B} (f : A -> list B) n l : (forall x, length (f x) = n) -> length (l ≫= f) = (length l * n)%nat.
Proof. intros Hf. induction l as [|x l IH]; [done|]. cbn. rewrite length_app, Hf. cbn in IH. rewrite IH. lia. Qed.
(** A list is the concatenation of its chunks. *)
Lemma bind_chunks {A} n : forall k (l : list A), length l = (k * n)%nat ->
  (from_fn k (fun i => take n (drop (i * n) l)) ≫= id) = l.
Proof.
  induction k as [|k IH]; intros l Hl.
  - by destruct l.
  - unfold from_fn. cbn [seq fmap list_fmap mbind list_bind]. cbn [Nat.mul]. rewrite drop_0.
    rewrite <-(take_drop n l) at 2. f_equal. rewrite <-(IH (drop n l)) by (rewrite length_drop; lia).
    unfold from_fn. rewrite <-fmap_S_seq, <-list_fmap_compose. f_equal. apply list_fmap_ext.
    intros i j Hj. cbn. rewrite drop_drop. f_equal.
Qed.

(** ** Vectors are arrays of lanes *)

Lemma from_v128_ok p v : lane_ty p = true -> lanes_ok p (from_v128 p v).
Proof.
  intros Hp. split; [apply length_from_fn|]. apply from_fn_Forall. intros i _. apply cast_val. by destruct p.
Qed.

Lemma length_into_le_bytes_nat p v : length (into_le_bytes p v) = lane_size p.
Proof. pose proof (length_into_le_bytes p v). unfold lane_size. lia. Qed.

Lemma into_v128_val p l : lane_ty p = true -> length l = LANES p -> V128_val (into_v128 p l).
Proof.
  intros Hp Hl. split; cbn [v128_bytes into_v128].
  - rewrite (length_bind_chunks _ (lane_size p)) by apply length_into_le_bytes_nat. rewrite Hl. by apply lane_size_bytes.
  - apply Forall_bind. apply Forall_true. intros x. apply into_le_bytes_ok.
Qed.

Lemma from_into_v128 p l : lane_ty p = true -> lanes_ok p l -> from_v128 p (into_v128 p l) = l.
Proof.
  intros Hp [Hl Hv]. unfold from_v128. apply list_eq_same_length with (LANES p); rewrite ?length_from_fn; [done..|].
  intros i x y Hi. rewrite lookup_from_fn by done. intros [= <-] Hy. cbn [v128_bytes into_v128].
  rewrite (chunk_bind _ _ l (length_into_le_bytes_nat p) i y Hy), from_into_le_bytes.
  apply cast_id; [by apply (Forall_lookup_1 _ _ _ _ Hv Hy)|by destruct p].
Qed.

Lemma into_from_le_bytes p bs : length bs = lane_size p -> bytes_ok bs -> into_le_bytes p (from_le_bytes p bs) = bs.
Proof.
  intros Hl Hb. unfold into_le_bytes, from_le_bytes. pose proof (prim_bits_pos p) as Hp. unfold prim_bits in Hp.
  assert (Z.of_nat (length bs) = prim_bytes p) as Hn by (rewrite Hl; unfold lane_size; lia).
  pose proof (little_endian_to_Z_bound 8 bs ltac:(lia) Hb) as Hr.
  replace (wrapu (prim_bits p) _) with (little_endian_to_Z 8 bs); [by apply Z_to_little_endian_to_Z|].
  unfold cast. replace (Z.of_nat (length bs) * 8) with (prim_bits p) in Hr by (unfold prim_bits; lia).
  destruct (prim_signed p); [rewrite wrapu_wraps by apply prim_bits_pos|rewrite wrapu_wrapu];
    by rewrite wrapu_small.
Qed.

Lemma into_from_v128 p v : lane_ty p = true -> V128_val v -> into_v128 p (from_v128 p v) = v.
Proof.
  intros Hp [Hl Hb]. destruct v as [bs]. unfold into_v128, from_v128. f_equal. cbn [v128_bytes] in *.
  destruct (lane_size_bytes p Hp) as [H16 H0].
  transitivity (from_fn (LANES p) (fun i => take (lane_size p) (drop (i * lane_size p) bs)) ≫= id);
    [|by apply bind_chunks; lia].
  unfold from_fn. rewrite !list_fmap_bind. apply Forall_bind_ext, Forall_seq. intros i Hi. cbn.
  apply into_from_le_bytes; [|by apply Forall_take, Forall_drop].
  rewrite length_take, length_drop. nia.
Qed.

(** ** Lanes of results *)

(** Lane [i] of a vector of lanes of type [p]. *)
Definition lane (p : Prim) (v : V128) (i : nat) : Z := array_item (from_v128 p v) i.

Lemma lane_val p v i : lane_ty p = true -> (i < LANES p)%nat -> prim_val p (lane p v i).
Proof. intros Hp Hi. apply array_item_val; [by apply from_v128_ok|done]. Qed.

(** Vectors built of an array with an item for every lane. *)
Lemma into_v128_lanes p (f : nat -> Z) : lane_ty p = true -> (forall i, (i < LANES p)%nat -> prim_val p (f i)) ->
  V128_val (into_v128 p (from_fn (LANES p) f)) /\
  forall i, (i < LANES p)%nat -> lane p (into_v128 p (from_fn (LANES p) f)) i = f i.
Proof.
  intros Hp Hf. split; [by apply into_v128_val, length_from_fn|]. intros i Hi.
  unfold lane. rewrite from_into_v128; [|done|by split; [apply length_from_fn|apply from_fn_Forall]].
  by apply array_item_lookup, lookup_from_fn.
Qed.

(** Arrays written by loops over them. *)
Lemma fmap_from_v128 p v (f : Z -> Z) : f <$> from_v128 p v = from_fn (LANES p) (fun i => f (lane p v i)).
Proof.
  apply list_eq_same_length with (LANES p); rewrite ?length_fmap; [apply length_from_fn..|].
  intros i x y Hi. rewrite list_lookup_fmap. destruct (from_v128 p v !! i) eqn:E; [|done]. cbn.
  rewrite lookup_from_fn by done. unfold lane. rewrite (array_item_lookup _ _ _ E). congruence.
Qed.
Lemma zip_from_v128 p l r (f : Z -> Z -> Z) :
  zip_with f (from_v128 p l) (from_v128 p r) = from_fn (LANES p) (fun i => f (lane p l i) (lane p r i)).
Proof.
  apply list_eq_same_length with (LANES p); [apply length_from_fn| |].
  { rewrite length_zip_with. unfold from_v128. rewrite !length_from_fn. lia. }
  intros i x y Hi. rewrite lookup_zip_with. destruct (from_v128 p l !! i) eqn:E1; [|done]. cbn.
  destruct (from_v128 p r !! i) eqn:E2; [|done]. cbn. rewrite lookup_from_fn by done.
  unfold lane. rewrite (array_item_lookup _ _ _ E1), (array_item_lookup _ _ _ E2). congruence.
Qed.

(** The bits of a type do not depend on whether it is signed. *)
Lemma lane_cast p q v i : lane_size p = lane_size q -> prim_bits p = prim_bits q -> LANES p = LANES q ->
  (i < LANES p)%nat -> cast q (lane p v i) = lane q v i.
Proof.
  intros Hs Hb Hl Hi. unfold lane, from_v128.
  rewrite (array_item_lookup _ _ _ (lookup_from_fn (LANES p) _ i Hi)).
  rewrite (array_item_lookup _ _ _ (lookup_from_fn (LANES q) _ i ltac:(lia))).
  rewrite <-Hs. unfold from_le_bytes. apply cast_cast. lia.
Qed.

(** ** The instructions, as WebAssembly defines them *)

Definition saturate (p : Prim) (z : Z) : Z :=
  if z <? int_min p then int_min p else if int_max p <? z then int_max p else z.
(** All bits of a lane are those of a comparison. *)
Definition mask (p : Prim) (b : bool) : Z := if b then cast p (-1) else 0.
Definition ones_below (n : nat) (v : Z) : Z := foldr (fun i sum => Z.b2z (Z.testbit v (Z.of_nat i)) + sum) 0 (seq 0 n).

Inductive LaneInstr : Type :=
| LI_unary (p : Prim) (op : V128 -> V128) (f : Z -> Z)
| LI_binary (p : Prim) (op : V128 -> V128 -> V128) (f : Z -> Z -> Z)
| LI_shift (p : Prim) (op : V128 -> Z -> V128) (f : Z -> Z -> Z)
| LI_low (narrow wide : Prim) (op : V128 -> V128) (f : Z -> Z)
| LI_high (narrow wide : Prim) (op : V128 -> V128) (f : Z -> Z)
| LI_low2 (narrow wide : Prim) (op : V128 -> V128 -> V128) (f : Z -> Z -> Z)
| LI_high2 (narrow wide : Prim) (op : V128 -> V128 -> V128) (f : Z -> Z -> Z)
| LI_pairwise (narrow wide : Prim) (op : V128 -> V128) (f : Z -> Z -> Z)
| LI_pair2 (narrow wide : Prim) (op : V128 -> V128 -> V128) (f : Z -> Z -> Z -> Z -> Z)
| LI_narrow (narrow wide : Prim) (op : V128 -> V128 -> V128) (f : Z -> Z)
| LI_dot_add (op : V128 -> V128 -> V128 -> V128) (f : Z -> Z -> Z -> Z)
| LI_swizzle (op : V128 -> V128 -> V128)
| LI_shuffle (op : V128 -> V128 -> list (ImmLaneIdx 32) -> V128).

(** [r] is a vector whose lanes are [f 0], [f 1], ... *)
Definition has_lanes (p : Prim) (r : V128) (f : nat -> Z) : Prop :=
  V128_val r /\ forall i, (i < LANES p)%nat -> lane p r i = f i.

Definition meets (instr : LaneInstr) : Prop :=
  match instr with
  | LI_unary p op f => forall v, has_lanes p (op v) (fun i => f (lane p v i))
  | LI_binary p op f => forall a b, has_lanes p (op a b) (fun i => f (lane p a i) (lane p b i))
  | LI_shift p op f => forall v k, 0 <= k -> has_lanes p (op v k) (fun i => f (lane p v i) k)
  | LI_low narrow wide op f => forall v, has_lanes wide (op v) (fun i => f (lane narrow v i))
  | LI_high narrow wide op f => forall v, has_lanes wide (op v) (fun i => f (lane narrow v (i + LANES wide)))
  | LI_low2 narrow wide op f =>
      forall a b, has_lanes wide (op a b) (fun i => f (lane narrow a i) (lane narrow b i))
  | LI_high2 narrow wide op f => forall a b, has_lanes wide (op a b)
      (fun i => f (lane narrow a (i + LANES wide)) (lane narrow b (i + LANES wide)))
  | LI_pairwise narrow wide op f =>
      forall v, has_lanes wide (op v) (fun i => f (lane narrow v (2 * i)) (lane narrow v (2 * i + 1)))
  | LI_pair2 narrow wide op f => forall a b, has_lanes wide (op a b) (fun i =>
      f (lane narrow a (2 * i)) (lane narrow a (2 * i + 1)) (lane narrow b (2 * i)) (lane narrow b (2 * i + 1)))
  | LI_narrow narrow wide op f => forall low high, has_lanes narrow (op low high) (fun i =>
      f (if (i <? LANES wide)%nat then lane wide low i else lane wide high (i - LANES wide)))
  | LI_dot_add op f => forall a b c, has_lanes P_i32 (op a b c) (fun i =>
      let dot j := cast P_i16 (lane P_i8 a (2 * j) * lane P_i8 b (2 * j) +
                               lane P_i8 a (2 * j + 1) * lane P_i8 b (2 * j + 1)) in
      f (dot (2 * i)%nat) (dot (2 * i + 1)%nat) (lane P_i32 c i))
  | LI_swizzle op => forall a s, has_lanes P_u8 (op a s) (fun i =>
      let j := lane P_u8 s i in if j <? 16 then lane P_u8 a (Z.to_nat j) else 0)
  | LI_shuffle op => forall a b lanes s, length lanes = 16%nat -> Forall (in_u 8) lanes ->
      mapM (ImmLaneIdx_try_from 32) lanes = Some s -> Forall (fun j => j < 32) lanes /\
      has_lanes P_i8 (op a b s) (fun i =>
        let j := nth i lanes 0 in if j <? 16 then lane P_i8 a (Z.to_nat j) else lane P_i8 b (Z.to_nat (j - 16)))
  end.

(** A value of the type that is the stated one. *)
Definition item_is (p : Prim) (z w : Z) : Prop := prim_val p z /\ z = w.

(** What is left to show of an instruction: its items are of the type and as stated. *)
Lemma has_lanes_of p g f : lane_ty p = true -> (forall i, (i < LANES p)%nat -> item_is p (g i) (f i)) ->
  has_lanes p (into_v128 p (from_fn (LANES p) g)) f.
Proof.
  intros Hp Hg. destruct (into_v128_lanes p g Hp) as [Hv Hl]; [intros i Hi; by apply Hg|].
  split; [done|]. intros i Hi. rewrite Hl by done. by apply Hg.
Qed.

Lemma meets_unary p e f : lane_ty p = true -> (forall v, prim_val p v -> item_is p (e v) (f v)) ->
  meets (LI_unary p (impl_unary_for p e) f).
Proof.
  intros Hp He v. unfold impl_unary_for, V128_lanewise_unary, Lanes_lanewise_unary. rewrite fmap_from_v128.
  apply has_lanes_of; [done|]. intros i Hi. by apply He, lane_val.
Qed.
Lemma meets_binary p e f : lane_ty p = true ->
  (forall a b, prim_val p a -> prim_val p b -> item_is p (e a b) (f a b)) ->
  meets (LI_binary p (impl_binary_for p e) f).
Proof.
  intros Hp He a b. unfold impl_binary_for, V128_lanewise_binary, Lanes_lanewise_binary. rewrite zip_from_v128.
  apply has_lanes_of; [done|]. intros i Hi. by apply He; apply lane_val.
Qed.
Lemma ALL_ONES_eq p : lane_ty p = true -> ALL_ONES p = cast p (-1).
Proof. by destruct p. Qed.
Lemma ALL_ZEROS_eq p : lane_ty p = true -> ALL_ZEROS p = 0.
Proof. by destruct p. Qed.
Lemma meets_comparison p e f : lane_ty p = true -> (forall a b, prim_val p a -> prim_val p b -> e a b = f a b) ->
  meets (LI_binary p (impl_comparison_for p e) (fun a b => mask p (f a b))).
Proof.
  intros Hp He a b. unfold impl_comparison_for, V128_lanewise_comparison, Lanes_lanewise_comparison.
  unfold Lanes_lanewise_binary. rewrite zip_from_v128. apply has_lanes_of; [done|]. intros i Hi.
  rewrite ALL_ONES_eq, ALL_ZEROS_eq, He by (done || by apply lane_val). unfold mask.
  split; [|done]. destruct (f _ _); [by apply cast_val; destruct p|]. by destruct p.
Qed.
Lemma meets_shift p e f : lane_ty p = true ->
  (forall v k, prim_val p v -> 0 <= k -> item_is p (e v k) (f v k)) ->
  meets (LI_shift p (impl_shift_ops p e) f).
Proof.
  intros Hp He v k Hk. unfold impl_shift_ops, V128_lanewise_unary, Lanes_lanewise_unary. rewrite fmap_from_v128.
  apply has_lanes_of; [done|]. intros i Hi. apply He; [by apply lane_val|done].
Qed.

Section Halves.
Variables narrow wide : Prim.
Hypothesis narrow_lane : lane_ty narrow = true.
Hypothesis wide_lane : lane_ty wide = true.
Hypothesis twice : LANES narrow = (2 * LANES wide)%nat.

Lemma meets_low e f : (forall v, prim_val narrow v -> item_is wide (e v) (f v)) ->
  meets (LI_low narrow wide (impl_widen_low_unary narrow wide e) f).
Proof. intros He v. apply has_lanes_of; [done|]. intros i Hi. apply He, lane_val; [done|lia]. Qed.
Lemma meets_high e f : (forall v, prim_val narrow v -> item_is wide (e v) (f v)) ->
  meets (LI_high narrow wide (impl_widen_high_unary narrow wide e) f).
Proof. intros He v. apply has_lanes_of; [done|]. intros i Hi. apply He, lane_val; [done|lia]. Qed.
Lemma meets_low2 e f :
  (forall a b, prim_val narrow a -> prim_val narrow b -> item_is wide (e a b) (f a b)) ->
  meets (LI_low2 narrow wide (impl_ext_binary_low narrow wide e) f).
Proof. intros He a b. apply has_lanes_of; [done|]. intros i Hi. apply He; apply lane_val; done || lia. Qed.
Lemma meets_high2 e f :
  (forall a b, prim_val narrow a -> prim_val narrow b -> item_is wide (e a b) (f a b)) ->
  meets (LI_high2 narrow wide (impl_ext_binary_high narrow wide e) f).
Proof. intros He a b. apply has_lanes_of; [done|]. intros i Hi. apply He; apply lane_val; done || lia. Qed.
Lemma meets_pairwise f :
  (forall a b, prim_val narrow a -> prim_val narrow b ->
    item_is wide (wrapping_add wide a b) (f a b)) ->
  meets (LI_pairwise narrow wide (impl_extadd_pairwise narrow wide) f).
Proof. intros He v. apply has_lanes_of; [done|]. intros i Hi. apply He; apply lane_val; done || lia. Qed.
Lemma meets_pair2 e f :
  (forall a0 a1 b0 b1, prim_val narrow a0 -> prim_val narrow a1 -> prim_val narrow b0 -> prim_val narrow b1 ->
    item_is wide (e (a0, a1) (b0, b1)) (f a0 a1 b0 b1)) ->
  meets (LI_pair2 narrow wide (fun a b => V128_pairwise_binary narrow wide a b e) f).
Proof. intros He a b. apply has_lanes_of; [done|]. intros i Hi. apply He; apply lane_val; done || lia. Qed.

(** [wide'] is the type of the same width the code reads. *)
Lemma meets_narrow wide' e f : lane_ty wide' = true -> lane_size wide' = lane_size wide ->
  prim_bits wide' = prim_bits wide -> LANES wide' = LANES wide ->
  (forall v, prim_val wide' v -> item_is narrow (e v) (f (cast wide v))) ->
  meets (LI_narrow narrow wide (impl_narrowing_low_high_ops narrow wide' e) f).
Proof.
  intros Hp Hs Hb Hl He low high. unfold impl_narrowing_low_high_ops, V128_from_low_high, FromWide_from_low_high.
  apply has_lanes_of; [done|]. intros i Hi. cbv beta. rewrite Hl.
  fold (lane wide' low i). fold (lane wide' high (i - LANES wide)).
  destruct (Nat.ltb_spec i (LANES wide)); rewrite <-(lane_cast wide' wide) by (done || lia);
    apply He, lane_val; done || lia.
Qed.
End Halves.

(** ** The table *)

Definition vector_instructions : list LaneInstr :=
  [ LI_binary P_i64 i64x2_add (fun a b => cast P_i64 (a + b));
    LI_binary P_i32 i32x4_add (fun a b => cast P_i32 (a + b));
    LI_binary P_i16 i16x8_add (fun a b => cast P_i16 (a + b));
    LI_binary P_i8 i8x16_add (fun a b => cast P_i8 (a + b));
    LI_binary P_i64 i64x2_sub (fun a b => cast P_i64 (a - b));
    LI_binary P_i32 i32x4_sub (fun a b => cast P_i32 (a - b));
    LI_binary P_i16 i16x8_sub (fun a b => cast P_i16 (a - b));
    LI_binary P_i8 i8x16_sub (fun a b => cast P_i8 (a - b));
    LI_binary P_i64 i64x2_mul (fun a b => cast P_i64 (a * b));
    LI_binary P_i32 i32x4_mul (fun a b => cast P_i32 (a * b));
    LI_binary P_i16 i16x8_mul (fun a b => cast P_i16 (a * b));
    LI_binary P_i8 i8x16_mul (fun a b => cast P_i8 (a * b));
    LI_binary P_i8 i8x16_add_sat_s (fun a b => saturate P_i8 (a + b));
    LI_binary P_u8 i8x16_add_sat_u (fun a b => saturate P_u8 (a + b));
    LI_binary P_i16 i16x8_add_sat_s (fun a b => saturate P_i16 (a + b));
    LI_binary P_u16 i16x8_add_sat_u (fun a b => saturate P_u16 (a + b));
    LI_binary P_i8 i8x16_sub_sat_s (fun a b => saturate P_i8 (a - b));
    LI_binary P_u8 i8x16_sub_sat_u (fun a b => saturate P_u8 (a - b));
    LI_binary P_i16 i16x8_sub_sat_s (fun a b => saturate P_i16 (a - b));
    LI_binary P_u16 i16x8_sub_sat_u (fun a b => saturate P_u16 (a - b));
    LI_binary P_i16 i16x8_q15mulr_sat_s (fun a b => saturate P_i16 ((a * b + 2 ^ 14) / 2 ^ 15));
    LI_binary P_i8 i8x16_min_s (fun a b => if a <? b then a else b);
    LI_binary P_u8 i8x16_min_u (fun a b => if a <? b then a else b);
    LI_binary P_i16 i16x8_min_s (fun a b => if a <? b then a else b);
    LI_binary P_u16 i16x8_min_u (fun a b => if a <? b then a else b);
    LI_binary P_i32 i32x4_min_s (fun a b => if a <? b then a else b);
    LI_binary P_u32 i32x4_min_u (fun a b => if a <? b then a else b);
    LI_binary P_i8 i8x16_max_s (fun a b => if a <? b then b else a);
    LI_binary P_u8 i8x16_max_u (fun a b => if a <? b then b else a);
    LI_binary P_i16 i16x8_max_s (fun a b => if a <? b then b else a);
    LI_binary P_u16 i16x8_max_u (fun a b => if a <? b then b else a);
    LI_binary P_i32 i32x4_max_s (fun a b => if a <? b then b else a);
    LI_binary P_u32 i32x4_max_u (fun a b => if a <? b then b else a);
    LI_binary P_u8 i8x16_avgr_u (fun a b => (a + b + 1) / 2);
    LI_binary P_u16 i16x8_avgr_u (fun a b => (a + b + 1) / 2);
    LI_binary P_u64 v128_and (fun a b => Z.land a b);
    LI_binary P_u64 v128_or (fun a b => Z.lor a b);
    LI_binary P_u64 v128_xor (fun a b => Z.lxor a b);
    LI_binary P_u64 v128_andnot (fun a b => Z.ldiff a b);
    LI_binary P_f32 f32x4_pmin (fun a b => if float_lt F32 b a then b else a);
    LI_binary P_f64 f64x2_pmin (fun a b => if float_lt F64 b a then b else a);
    LI_binary P_f32 f32x4_pmax (fun a b => if float_lt F32 a b then b else a);
    LI_binary P_f64 f64x2_pmax (fun a b => if float_lt F64 a b then b else a);
    LI_unary P_i64 i64x2_neg (fun v => cast P_i64 (- v));
    LI_unary P_i32 i32x4_neg (fun v => cast P_i32 (- v));
    LI_unary P_i16 i16x8_neg (fun v => cast P_i16 (- v));
    LI_unary P_i8 i8x16_neg (fun v => cast P_i8 (- v));
    LI_unary P_i8 i8x16_abs (fun v => if v =? int_min P_i8 then v else Z.abs v);
    LI_unary P_i16 i16x8_abs (fun v => if v =? int_min P_i16 then v else Z.abs v);
    LI_unary P_i32 i32x4_abs (fun v => if v =? int_min P_i32 then v else Z.abs v);
    LI_unary P_i64 i64x2_abs (fun v => if v =? int_min P_i64 then v else Z.abs v);
    LI_unary P_i64 v128_not (fun v => - v - 1);
    LI_unary P_u8 i8x16_popcnt (fun v => ones_below 8 v);
    LI_unary P_f32 f32x4_neg (fun v => Z.lxor v (sign_mask F32));
    LI_unary P_f64 f64x2_neg (fun v => Z.lxor v (sign_mask F64));
    LI_unary P_f32 f32x4_abs (fun v => v mod sign_mask F32);
    LI_unary P_f64 f64x2_abs (fun v => v mod sign_mask F64);
    LI_binary P_i8 i8x16_eq (fun a b => mask P_i8 (a =? b));
    LI_binary P_i16 i16x8_eq (fun a b => mask P_i16 (a =? b));
    LI_binary P_i32 i32x4_eq (fun a b => mask P_i32 (a =? b));
    LI_binary P_i64 i64x2_eq (fun a b => mask P_i64 (a =? b));
    LI_binary P_f32 f32x4_eq (fun a b => mask P_f32 (float_eq F32 a b));
    LI_binary P_f64 f64x2_eq (fun a b => mask P_f64 (float_eq F64 a b));
    LI_binary P_i8 i8x16_ne (fun a b => mask P_i8 (negb (a =? b)));
    LI_binary P_i16 i16x8_ne (fun a b => mask P_i16 (negb (a =? b)));
    LI_binary P_i32 i32x4_ne (fun a b => mask P_i32 (negb (a =? b)));
    LI_binary P_i64 i64x2_ne (fun a b => mask P_i64 (negb (a =? b)));
    LI_binary P_f32 f32x4_ne (fun a b => mask P_f32 (negb (float_eq F32 a b)));
    LI_binary P_f64 f64x2_ne (fun a b => mask P_f64 (negb (float_eq F64 a b)));
    LI_binary P_i8 i8x16_lt_s (fun a b => mask P_i8 (a <? b));
    LI_binary P_u8 i8x16_lt_u (fun a b => mask P_u8 (a <? b));
    LI_binary P_i16 i16x8_lt_s (fun a b => mask P_i16 (a <? b));
    LI_binary P_u16 i16x8_lt_u (fun a b => mask P_u16 (a <? b));
    LI_binary P_i32 i32x4_lt_s (fun a b => mask P_i32 (a <? b));
    LI_binary P_u32 i32x4_lt_u (fun a b => mask P_u32 (a <? b));
    LI_binary P_i64 i64x2_lt_s (fun a b => mask P_i64 (a <? b));
    LI_binary P_f32 f32x4_lt (fun a b => mask P_f32 (float_lt F32 a b));
    LI_binary P_f64 f64x2_lt (fun a b => mask P_f64 (float_lt F64 a b));
    LI_binary P_i8 i8x16_le_s (fun a b => mask P_i8 (a <=? b));
    LI_binary P_u8 i8x16_le_u (fun a b => mask P_u8 (a <=? b));
    LI_binary P_i16 i16x8_le_s (fun a b => mask P_i16 (a <=? b));
    LI_binary P_u16 i16x8_le_u (fun a b => mask P_u16 (a <=? b));
    LI_binary P_i32 i32x4_le_s (fun a b => mask P_i32 (a <=? b));
    LI_binary P_u32 i32x4_le_u (fun a b => mask P_u32 (a <=? b));
    LI_binary P_i64 i64x2_le_s (fun a b => mask P_i64 (a <=? b));
    LI_binary P_f32 f32x4_le (fun a b => mask P_f32 (float_le F32 a b));
    LI_binary P_f64 f64x2_le (fun a b => mask P_f64 (float_le F64 a b));
    LI_binary P_i8 i8x16_gt_s (fun a b => mask P_i8 (b <? a));
    LI_binary P_u8 i8x16_gt_u (fun a b => mask P_u8 (b <? a));
    LI_binary P_i16 i16x8_gt_s (fun a b => mask P_i16 (b <? a));
    LI_binary P_u16 i16x8_gt_u (fun a b => mask P_u16 (b <? a));
    LI_binary P_i32 i32x4_gt_s (fun a b => mask P_i32 (b <? a));
    LI_binary P_u32 i32x4_gt_u (fun a b => mask P_u32 (b <? a));
    LI_binary P_i64 i64x2_gt_s (fun a b => mask P_i64 (b <? a));
    LI_binary P_f32 f32x4_gt (fun a b => mask P_f32 (float_lt F32 b a));
    LI_binary P_f64 f64x2_gt (fun a b => mask P_f64 (float_lt F64 b a));
    LI_binary P_i8 i8x16_ge_s (fun a b => mask P_i8 (b <=? a));
    LI_binary P_u8 i8x16_ge_u (fun a b => mask P_u8 (b <=? a));
    LI_binary P_i16 i16x8_ge_s (fun a b => mask P_i16 (b <=? a));
    LI_binary P_u16 i16x8_ge_u (fun a b => mask P_u16 (b <=? a));
    LI_binary P_i32 i32x4_ge_s (fun a b => mask P_i32 (b <=? a));
    LI_binary P_u32 i32x4_ge_u (fun a b => mask P_u32 (b <=? a));
    LI_binary P_i64 i64x2_ge_s (fun a b => mask P_i64 (b <=? a));
    LI_binary P_f32 f32x4_ge (fun a b => mask P_f32 (float_le F32 b a));
    LI_binary P_f64 f64x2_ge (fun a b => mask P_f64 (float_le F64 b a));
    LI_low P_i8 P_i16 i16x8_extend_low_i8x16_s (fun v => v);
    LI_low P_u8 P_u16 i16x8_extend_low_i8x16_u (fun v => v);
    LI_low P_i16 P_i32 i32x4_extend_low_i16x8_s (fun v => v);
    LI_low P_u16 P_u32 i32x4_extend_low_i16x8_u (fun v => v);
    LI_low P_i32 P_i64 i64x2_extend_low_i32x4_s (fun v => v);
    LI_low P_u32 P_u64 i64x2_extend_low_i32x4_u (fun v => v);
    LI_low2 P_i8 P_i16 i16x8_extmul_low_i8x16_s (fun a b => a * b);
    LI_low2 P_u8 P_u16 i16x8_extmul_low_i8x16_u (fun a b => a * b);
    LI_low2 P_i16 P_i32 i32x4_extmul_low_i16x8_s (fun a b => a * b);
    LI_low2 P_u16 P_u32 i32x4_extmul_low_i16x8_u (fun a b => a * b);
    LI_low2 P_i32 P_i64 i64x2_extmul_low_i32x4_s (fun a b => a * b);
    LI_low2 P_u32 P_u64 i64x2_extmul_low_i32x4_u (fun a b => a * b);
    LI_high P_i8 P_i16 i16x8_extend_high_i8x16_s (fun v => v);
    LI_high P_u8 P_u16 i16x8_extend_high_i8x16_u (fun v => v);
    LI_high P_i16 P_i32 i32x4_extend_high_i16x8_s (fun v => v);
    LI_high P_u16 P_u32 i32x4_extend_high_i16x8_u (fun v => v);
    LI_high P_i32 P_i64 i64x2_extend_high_i32x4_s (fun v => v);
    LI_high P_u32 P_u64 i64x2_extend_high_i32x4_u (fun v => v);
    LI_high2 P_i8 P_i16 i16x8_extmul_high_i8x16_s (fun a b => a * b);
    LI_high2 P_u8 P_u16 i16x8_extmul_high_i8x16_u (fun a b => a * b);
    LI_high2 P_i16 P_i32 i32x4_extmul_high_i16x8_s (fun a b => a * b);
    LI_high2 P_u16 P_u32 i32x4_extmul_high_i16x8_u (fun a b => a * b);
    LI_high2 P_i32 P_i64 i64x2_extmul_high_i32x4_s (fun a b => a * b);
    LI_high2 P_u32 P_u64 i64x2_extmul_high_i32x4_u (fun a b => a * b);
    LI_pairwise P_i8 P_i16 i16x8_extadd_pairwise_i8x16_s (fun a b => a + b);
    LI_pairwise P_u8 P_u16 i16x8_extadd_pairwise_i8x16_u (fun a b => a + b);
    LI_pairwise P_i16 P_i32 i32x4_extadd_pairwise_i16x8_s (fun a b => a + b);
    LI_pairwise P_u16 P_u32 i32x4_extadd_pairwise_i16x8_u (fun a b => a + b);
    LI_shift P_i8 i8x16_shl (fun v k => cast P_i8 (v * 2 ^ (k mod prim_bits P_i8)));
    LI_shift P_i16 i16x8_shl (fun v k => cast P_i16 (v * 2 ^ (k mod prim_bits P_i16)));
    LI_shift P_i32 i32x4_shl (fun v k => cast P_i32 (v * 2 ^ (k mod prim_bits P_i32)));
    LI_shift P_i64 i64x2_shl (fun v k => cast P_i64 (v * 2 ^ (k mod prim_bits P_i64)));
    LI_shift P_i8 i8x16_shr_s (fun v k => v / 2 ^ (k mod prim_bits P_i8));
    LI_shift P_u8 i8x16_shr_u (fun v k => v / 2 ^ (k mod prim_bits P_u8));
    LI_shift P_i16 i16x8_shr_s (fun v k => v / 2 ^ (k mod prim_bits P_i16));
    LI_shift P_u16 i16x8_shr_u (fun v k => v / 2 ^ (k mod prim_bits P_u16));
    LI_shift P_i32 i32x4_shr_s (fun v k => v / 2 ^ (k mod prim_bits P_i32));
    LI_shift P_u32 i32x4_shr_u (fun v k => v / 2 ^ (k mod prim_bits P_u32));
    LI_shift P_i64 i64x2_shr_s (fun v k => v / 2 ^ (k mod prim_bits P_i64));
    LI_shift P_u64 i64x2_shr_u (fun v k => v / 2 ^ (k mod prim_bits P_u64));
    LI_pair2 P_i16 P_i32 i32x4_dot_i16x8_s (fun a0 a1 b0 b1 => cast P_i32 (a0 * b0 + a1 * b1));
    LI_pair2 P_i8 P_i16 i16x8_relaxed_dot_i8x16_i7x16_s (fun a0 a1 b0 b1 => cast P_i16 (a0 * b0 + a1 * b1));
    LI_narrow P_i8 P_i16 i8x16_narrow_i16x8_s (saturate P_i8);
    LI_narrow P_u8 P_i16 i8x16_narrow_i16x8_u (saturate P_u8);
    LI_narrow P_i16 P_i32 i16x8_narrow_i32x4_s (saturate P_i16);
    LI_narrow P_u16 P_i32 i16x8_narrow_i32x4_u (saturate P_u16);
    LI_dot_add i32x4_relaxed_dot_i8x16_i7x16_add_s (fun d0 d1 c => cast P_i32 (d0 + d1 + c));
    LI_swizzle i8x16_swizzle; LI_swizzle i8x16_relaxed_swizzle; LI_shuffle i8x16_shuffle].

(** The widths and bounds of concrete types as numbers. *)
Ltac concrete f :=
  repeat match goal with
  | |- context [f ?p] => let n := eval vm_compute in (f p) in progress change (f p) with n
  | H : context [f ?p] |- _ => let n := eval vm_compute in (f p) in progress change (f p) with n in H
  end.
Ltac bounds := concrete prim_bits; concrete int_min; concrete int_max.

Lemma prim_val_bounds p z : p <> P_bool -> prim_val p z <-> int_min p <= z <= int_max p.
Proof. intros Hp. destruct p; try done; unfold prim_val, in_u, in_s, int_min, int_max; cbn; lia. Qed.

Lemma saturate_val p z : p <> P_bool -> prim_val p (saturate p z).
Proof.
  intros Hp. rewrite prim_val_bounds by done. assert (int_min p <= int_max p) by (by destruct p).
  unfold saturate. repeat case_if; zb; lia.
Qed.
Lemma clamp_saturate p z : clamp p z = saturate p z.
Proof.
  unfold clamp, saturate. assert (int_min p <= int_max p) by (by destruct p).
  repeat case_if; zb; lia.
Qed.
Lemma cast_saturate p z : p <> P_bool -> cast p (saturate p z) = saturate p z.
Proof. intros Hp. by apply cast_id; [apply saturate_val|]. Qed.

Lemma item_cast p z : p <> P_bool -> item_is p (cast p z) (cast p z).
Proof. split; [by apply cast_val|done]. Qed.
Lemma item_exact p z : prim_val p z -> item_is p z z.
Proof. by split. Qed.
Lemma item_saturate p z : p <> P_bool -> item_is p (clamp p z) (saturate p z).
Proof. intros Hp. rewrite clamp_saturate. split; [by apply saturate_val|done]. Qed.
Lemma item_min p a b : prim_val p a -> prim_val p b -> item_is p (Z.min a b) (if a <? b then a else b).
Proof. intros Ha Hb. unfold item_is. destruct (Z.min_spec a b) as [[? ->]|[? ->]]; case_if; zb; (split; [done|lia]). Qed.
Lemma item_max p a b : prim_val p a -> prim_val p b -> item_is p (Z.max a b) (if a <? b then b else a).
Proof. intros Ha Hb. unfold item_is. destruct (Z.max_spec a b) as [[? ->]|[? ->]]; case_if; zb; (split; [done|lia]). Qed.
Lemma item_avgr ty wide a b : prim_val ty a -> prim_val ty b -> ty = P_u8 /\ wide = P_u16 \/ ty = P_u16 /\ wide = P_u32 ->
  item_is ty (avgr ty wide a b) ((a + b + 1) / 2).
Proof.
  intros Ha Hb H. assert (ty <> P_bool /\ wide <> P_bool) as [H1 H2].
  { by destruct H as [[-> ->]|[-> ->]]. }
  assert (0 <= a <= int_max ty /\ 0 <= b <= int_max ty /\ prim_val wide (a + b)) as (Ha' & Hb' & Hw).
  { apply prim_val_bounds in Ha, Hb; [|done..]. rewrite prim_val_bounds by done.
    destruct H as [[-> ->]|[-> ->]]; bounds; lia. }
  unfold avgr, wrapping_add, div_ceil2. rewrite (cast_id wide) by done.
  assert ((a + b) / 2 + (a + b) mod 2 = (a + b + 1) / 2) as ->.
  { pose proof (Z.div_mod (a + b) 2 ltac:(lia)). pose proof (Z.mod_pos_bound (a + b) 2 ltac:(lia)).
    apply Z.div_unique with (1 - (a + b) mod 2); lia. }
  assert (prim_val ty ((a + b + 1) / 2)) as Hr.
  { rewrite prim_val_bounds by done. assert (int_min ty <= 0) by (by destruct ty).
    split; [pose proof (Z.div_pos (a + b + 1) 2); lia|]. apply Z.lt_succ_r, Z.div_lt_upper_bound; lia. }
  by rewrite cast_id.
Qed.
Lemma item_q15mulr a b : prim_val P_i16 a -> prim_val P_i16 b ->
  item_is P_i16 (i16x8_q15mulr_sat a b) (saturate P_i16 ((a * b + 2 ^ 14) / 2 ^ 15)).
Proof.
  intros _ _. unfold i16x8_q15mulr_sat. rewrite Z.shiftr_div_pow2, clamp_saturate, cast_saturate by done.
  split; [by apply saturate_val|done].
Qed.
(** Bitwise operations. *)
Lemma testbit_high_u w a n : in_u w a -> 0 <= w <= n -> Z.testbit a n = false.
Proof. intros Ha Hn. by apply (Z.bounded_iff_bits_nonneg' w); unfold in_u in *; lia. Qed.
Lemma bitwise_u (f : bool -> bool -> bool) w a b c : 0 <= w -> f false false = false -> in_u w a -> in_u w b -> 0 <= c ->
  (forall n, 0 <= n -> Z.testbit c n = f (Z.testbit a n) (Z.testbit b n)) -> in_u w c.
Proof.
  intros Hw Hf Ha Hb Hc H. unfold in_u. split; [done|].
  apply (Z.bounded_iff_bits_nonneg' w); [done..|]. intros n Hn.
  by rewrite H, (testbit_high_u w a), (testbit_high_u w b) by (done || lia).
Qed.
Lemma item_land a b : prim_val P_u64 a -> prim_val P_u64 b -> item_is P_u64 (Z.land a b) (Z.land a b).
Proof.
  intros Ha Hb. apply item_exact. apply (bitwise_u andb 64 a b); try done; [apply Z.land_nonneg; left; apply Ha|].
  intros n _. apply Z.land_spec.
Qed.
Lemma item_lor a b : prim_val P_u64 a -> prim_val P_u64 b -> item_is P_u64 (Z.lor a b) (Z.lor a b).
Proof.
  intros Ha Hb. apply item_exact. apply (bitwise_u orb 64 a b); try done; [apply Z.lor_nonneg; split; [apply Ha|apply Hb]|].
  intros n _. apply Z.lor_spec.
Qed.
Lemma item_lxor a b : prim_val P_u64 a -> prim_val P_u64 b -> item_is P_u64 (Z.lxor a b) (Z.lxor a b).
Proof.
  intros Ha Hb. apply item_exact. apply (bitwise_u xorb 64 a b); try done;
    [apply Z.lxor_nonneg; split; intros; [apply Hb|apply Ha]|].
  intros n _. apply Z.lxor_spec.
Qed.
Lemma item_andnot a b : prim_val P_u64 a -> prim_val P_u64 b ->
  item_is P_u64 (Z.land a (prim_not P_u64 b)) (Z.ldiff a b).
Proof.
  intros Ha Hb. assert (Z.land a (prim_not P_u64 b) = Z.ldiff a b) as ->.
  { apply Z.bits_inj_iff'. intros n Hn. rewrite Z.land_spec, Z.ldiff_spec. unfold prim_not, cast. cbn -[Z.lnot].
    unfold wrapu. change (prim_bits P_u64) with 64. destruct (Z.ltb_spec n 64).
    - rewrite Z.mod_pow2_bits_low, Z.lnot_spec by lia. done.
    - by rewrite (testbit_high_u 64 a) by (done || lia). }
  apply item_exact. apply (bitwise_u (fun x y => x && negb y) 64 a b); try done; [apply Z.ldiff_nonneg; left; apply Ha|].
  intros n _. apply Z.ldiff_spec.
Qed.

(** Unary operations. *)
Lemma item_abs p v : p <> P_bool -> prim_signed p = true -> prim_val p v ->
  item_is p (wrapping_abs p v) (if v =? int_min p then v else Z.abs v).
Proof.
  intros Hp Hs Hv. unfold wrapping_abs. pose proof Hv as Hb. rewrite prim_val_bounds in Hb by done.
  split; [by apply cast_val|]. case_if; zb.
  - subst v. destruct p; try discriminate Hs; by vm_compute.
  - apply cast_id; [|done]. rewrite prim_val_bounds by done.
    destruct p; try discriminate Hs; bounds; lia.
Qed.
Lemma item_not v : prim_val P_i64 v -> item_is P_i64 (prim_not P_i64 v) (- v - 1).
Proof.
  intros Hv. unfold prim_not. replace (Z.lnot v) with (- v - 1) by (unfold Z.lnot; lia).
  assert (prim_val P_i64 (- v - 1)). { rewrite prim_val_bounds in * by done. bounds. lia. }
  by rewrite cast_id.
Qed.
Lemma item_popcnt v : prim_val P_u8 v -> item_is P_u8 (cast P_u8 (count_ones 8 v)) (ones_below 8 v).
Proof.
  intros Hv. assert (Forall (fun v => cast P_u8 (count_ones 8 v) = ones_below 8 v) (seqZ 0 256)) as H.
  { apply (Forall_impl (fun v => Is_true (cast P_u8 (count_ones 8 v) =? ones_below 8 v))).
    - apply forallb_True. vm_compute. exact I.
    - intros x Hx. by apply Is_true_true, Z.eqb_eq in Hx. }
  rewrite Forall_forall in H. rewrite <-(H v); [split; [by apply cast_val|done]|].
  apply elem_of_seqZ. cbn in Hv. unfold in_u in Hv. bounds. lia.
Qed.

(** Shifts. *)
Lemma item_shl p v k : p <> P_bool -> item_is p (wrapping_shl p v k) (cast p (v * 2 ^ (k mod prim_bits p))).
Proof.
  intros Hp. unfold wrapping_shl. rewrite Z.shiftl_mul_pow2; [by split; [apply cast_val|]|].
  apply Z.mod_pos_bound, prim_bits_pos.
Qed.
Lemma item_shr p v k : p <> P_bool -> prim_val p v -> item_is p (wrapping_shr p v k) (v / 2 ^ (k mod prim_bits p)).
Proof.
  intros Hp Hv. unfold wrapping_shr. pose proof (Z.mod_pos_bound k _ (prim_bits_pos p)) as Hk.
  rewrite Z.shiftr_div_pow2 by lia. set (d := 2 ^ _).
  assert (0 < d) by (unfold d; lia). assert (prim_val p (v / d)).
  { rewrite prim_val_bounds in * by done. split.
    - apply Z.div_le_lower_bound; [done|]. assert (int_min p <= 0) by (by destruct p). nia.
    - apply Z.lt_succ_r, Z.div_lt_upper_bound; [done|]. assert (0 <= int_max p) by (by destruct p). nia. }
  by rewrite cast_id.
Qed.

(** Exact widening operations. *)
Lemma item_mul wide a b : wide <> P_bool -> prim_val wide (a * b) -> item_is wide (extmul wide a b) (a * b).
Proof. intros Hw H. unfold extmul, wrapping_mul. by rewrite cast_id. Qed.
Lemma item_add wide a b : wide <> P_bool -> prim_val wide (a + b) -> item_is wide (wrapping_add wide a b) (a + b).
Proof. intros Hw H. unfold wrapping_add. by rewrite cast_id. Qed.
Lemma cast_add_mod p a b : p <> P_bool -> cast p (cast p a + cast p b) = cast p (a + b).
Proof.
  intros Hp. rewrite <-(cast_wrapu p (cast p a + cast p b)), <-(cast_wrapu p (a + b)). f_equal.
  assert (forall z, cast p z mod 2 ^ prim_bits p = z mod 2 ^ prim_bits p) as Hm;
    [|unfold wrapu; rewrite Z.add_mod, !Hm, <-Z.add_mod by (pose proof (prim_bits_pos p); lia); done].
  intros z. pose proof (prim_bits_pos p). fold (wrapu (prim_bits p) (cast p z)). fold (wrapu (prim_bits p) z).
  unfold cast. destruct (prim_signed p); [by apply wrapu_wraps|apply wrapu_wrapu].
Qed.
Lemma item_dot wide a0 a1 b0 b1 : wide <> P_bool ->
  item_is wide (dot wide (a0, a1) (b0, b1)) (cast wide (a0 * b0 + a1 * b1)).
Proof.
  intros Hw. unfold dot, wrapping_add, wrapping_mul. cbn [fst snd]. rewrite cast_add_mod by done.
  split; [by apply cast_val|done].
Qed.

(** Floats. *)
Lemma item_float_neg ty p v : (ty, p) = (F32, P_f32) \/ (ty, p) = (F64, P_f64) -> prim_val p v ->
  item_is p (Float_neg ty v) (Z.lxor v (sign_mask ty)).
Proof.
  intros H Hv. apply item_exact. assert (in_u (prim_bits p) v) as Hv' by (by destruct H as [[= -> ->]|[= -> ->]]).
  assert (in_u (prim_bits p) (Float_neg ty v)); [|by destruct H as [[= -> ->]|[= -> ->]]].
  apply (bitwise_u xorb _ v (sign_mask ty)); [by pose proof (prim_bits_pos p); lia|done|done| | |].
  - destruct H as [[= -> ->]|[= -> ->]]; unfold in_u; concrete sign_mask; bounds; lia.
  - apply Z.lxor_nonneg. split; intros _; [by destruct H as [[= -> ->]|[= -> ->]]|apply Hv'].
  - intros n _. apply Z.lxor_spec.
Qed.
Lemma item_float_abs ty p v : (ty, p) = (F32, P_f32) \/ (ty, p) = (F64, P_f64) ->
  item_is p (Float_abs ty v) (v mod sign_mask ty).
Proof.
  intros H. apply item_exact. unfold Float_abs.
  assert (0 < sign_mask ty < 2 ^ prim_bits p) by (destruct H as [[= -> ->]|[= -> ->]]; concrete sign_mask; bounds; lia).
  pose proof (Z.mod_pos_bound v (sign_mask ty) ltac:(lia)).
  assert (in_u (prim_bits p) (v mod sign_mask ty)) by (unfold in_u; lia).
  by destruct H as [[= -> ->]|[= -> ->]].
Qed.
Lemma item_if p (c : bool) a b : prim_val p a -> prim_val p b -> item_is p (if c then a else b) (if c then a else b).
Proof. intros Ha Hb. apply item_exact. by destruct c. Qed.

Ltac item_solve :=
  first
  [ apply item_cast; done | apply item_saturate; done | apply item_min; assumption | apply item_max; assumption
  | apply item_land; assumption | apply item_lor; assumption | apply item_lxor; assumption
  | apply item_andnot; assumption | apply item_q15mulr; assumption
  | apply item_avgr; [assumption..|by (left + right)]
  | apply item_abs; done | apply item_not; assumption | apply item_popcnt; assumption
  | apply item_shl; done | apply item_shr; done
  | apply item_float_neg; [by (left + right)|assumption] | apply item_float_abs; by (left + right)
  | apply item_if; assumption
  | apply item_dot; done
  | apply item_mul; [done|rewrite !prim_val_bounds in * by done; bounds; nia]
  | apply item_add; [done|rewrite !prim_val_bounds in * by done; bounds; lia]
  | apply item_exact; rewrite !prim_val_bounds in * by done; bounds; unfold id; lia ].

Lemma item_narrow p q v : p <> P_bool -> item_is p (cast p (clamp p (cast q v))) (saturate p (cast q v)).
Proof. intros Hp. rewrite clamp_saturate, cast_saturate by done. split; [by apply saturate_val|done]. Qed.
Lemma item_narrow_id p q v : p <> P_bool -> q <> P_bool -> prim_val q v ->
  item_is p (cast p (clamp p v)) (saturate p (cast q v)).
Proof. intros Hp Hq Hv. rewrite <-(cast_id q v) at 1 by done. by apply item_narrow. Qed.

Ltac meets_solve :=
  lazymatch goal with
  | |- meets (LI_unary _ _ _) => apply meets_unary; [done|intros; item_solve]
  | |- meets (LI_binary _ _ (fun a b => mask _ _)) =>
      refine (meets_comparison _ _ (fun a b => _) _ _);
      [done|intros; first [done|apply Z.gtb_ltb|apply Z.geb_leb]]
  | |- meets (LI_binary _ _ _) => apply meets_binary; [done|intros; item_solve]
  | |- meets (LI_shift _ _ _) => apply meets_shift; [done|intros; item_solve]
  | |- meets (LI_low _ _ _ _) => apply meets_low; [done..|intros; item_solve]
  | |- meets (LI_high _ _ _ _) => apply meets_high; [done..|intros; item_solve]
  | |- meets (LI_low2 _ _ _ _) => apply meets_low2; [done..|intros; item_solve]
  | |- meets (LI_high2 _ _ _ _) => apply meets_high2; [done..|intros; item_solve]
  | |- meets (LI_pairwise _ _ _ _) => apply meets_pairwise; [done..|intros; item_solve]
  | |- meets (LI_pair2 _ _ _ _) => apply meets_pair2; [done..|intros; item_solve]
  | |- meets (LI_narrow P_i8 P_i16 _ _) => eapply (meets_narrow _ _) with (wide' := P_i16); try done; intros; by apply item_narrow_id
  | |- meets (LI_narrow P_i16 P_i32 _ _) => eapply (meets_narrow _ _) with (wide' := P_i32); try done; intros; by apply item_narrow_id
  | |- meets (LI_narrow P_u8 P_i16 _ _) => eapply (meets_narrow _ _) with (wide' := P_u16); try done; intros; by apply item_narrow
  | |- meets (LI_narrow P_u16 P_i32 _ _) => eapply (meets_narrow _ _) with (wide' := P_u32); try done; intros; by apply item_narrow
  end.

Lemma meets_dot_add : meets (LI_dot_add i32x4_relaxed_dot_i8x16_i7x16_add_s (fun d0 d1 c => cast P_i32 (d0 + d1 + c))).
Proof.
  intros a b c. unfold i32x4_relaxed_dot_i8x16_i7x16_add_s. cbv zeta.
  assert (meets (LI_pair2 P_i8 P_i16 i16x8_relaxed_dot_i8x16_i7x16_s (fun a0 a1 b0 b1 => cast P_i16 (a0 * b0 + a1 * b1)))) as Hd
    by meets_solve.
  assert (meets (LI_pairwise P_i16 P_i32 i32x4_extadd_pairwise_i16x8_s (fun a b => a + b))) as He by meets_solve.
  assert (meets (LI_binary P_i32 i32x4_add (fun a b => cast P_i32 (a + b)))) as Ha by meets_solve.
  specialize (Hd a b) as [_ Hd]. specialize (He (i16x8_relaxed_dot_i8x16_i7x16_s a b)) as [_ He].
  destruct (Ha (i32x4_extadd_pairwise_i16x8_s (i16x8_relaxed_dot_i8x16_i7x16_s a b)) c) as [Hv Hl].
  split; [done|]. intros i Hi. cbv zeta. change (LANES P_i32) with 4%nat in *. change (LANES P_i16) with 8%nat in *.
  by rewrite Hl, He, !Hd by lia.
Qed.

(** The lane an index chooses. *)
Lemma meets_swizzle : meets (LI_swizzle i8x16_swizzle).
Proof.
  intros a s. apply (has_lanes_of P_u8); [done|]. intros i Hi. cbv zeta. fold (lane P_u8 s i).
  pose proof (lane_val P_u8 s i eq_refl Hi) as Hj. unfold prim_val, in_u in Hj. cbn in Hj.
  destruct (Nat.ltb_spec (Z.to_nat (lane P_u8 s i)) 16) as [H|H], (Z.ltb_spec (lane P_u8 s i) 16) as [H'|H']; try lia;
    apply item_exact; [|done]. apply lane_val; [done|]. change (LANES P_u8) with 16%nat. lia.
Qed.

Lemma meets_shuffle : meets (LI_shuffle i8x16_shuffle).
Proof.
  intros a b lanes s Hl Hu Hs. apply mapM_Some in Hs.
  assert (Forall2 (fun j k => k = j /\ j < 32) lanes s) as Hs'.
  { clear Hl. induction Hs as [|j k lanes s Hj _ IH]; [constructor|]. apply Forall_cons in Hu as [_ Hu].
    constructor; [|by apply IH]. revert Hj. unfold ImmLaneIdx_try_from. case_if; [done|]. intros [= <-]. zb.
    change (lane_mask 32) with 31 in *. split; [done|lia]. }
  assert (s = lanes) as -> by (clear -Hs'; induction Hs' as [|j k l l' [-> _] _ IH]; [done|by rewrite IH]).
  assert (Forall (fun j => j < 32) lanes) as Hlt.
  { apply Forall_lookup. intros i j Hi. by destruct (Forall2_lookup_lr _ _ _ _ _ _ Hs' Hi Hi). }
  split; [done|]. unfold i8x16_shuffle. cbv zeta.
  match goal with |- has_lanes _ (into_v128 _ ?l) ?f => assert (l = from_fn (LANES P_i8) f) as -> end.
  { apply list_eq_same_length with 16%nat; [apply length_from_fn|by rewrite length_fmap|].
    intros i x y Hi Hx. rewrite lookup_from_fn by done. intros [= <-].
    apply list_lookup_fmap_Some in Hx as (j & -> & Hj). cbv zeta.
    rewrite (nth_lookup_Some _ _ _ _ Hj). pose proof (Forall_lookup_1 _ _ _ _ Hu Hj) as Hr. unfold in_u in Hr.
    pose proof (Forall_lookup_1 _ _ _ _ Hlt Hj) as Hr'. cbv beta in Hr'.
    assert (ImmLaneIdx_into_u8 32 j = j) as ->.
    { unfold ImmLaneIdx_into_u8. change (lane_mask 32) with (Z.ones 5). rewrite Z.land_ones by lia. apply Z.mod_small. lia. }
    destruct (Nat.ltb_spec (Z.to_nat j) 16), (Z.ltb_spec j 16); try lia; [done|].
    unfold lane. f_equal. lia. }
  apply has_lanes_of; [done|]. intros i Hi. apply item_exact. cbv zeta.
  assert (0 <= nth i lanes 0 < 32) as Hr.
  { destruct (lookup_lt_is_Some_2 lanes i) as [j Hj]; [by rewrite Hl|]. rewrite (nth_lookup_Some _ _ _ _ Hj).
    pose proof (Forall_lookup_1 _ _ _ _ Hu Hj) as H1. unfold in_u in H1.
    pose proof (Forall_lookup_1 _ _ _ _ Hlt Hj). cbv beta in *. lia. }
  destruct (Z.ltb_spec (nth i lanes 0) 16); apply lane_val; try done; change (LANES P_i8) with 16%nat; lia.
Qed.


(** ** Single lanes *)

Lemma LaneIdx_range p (l : LaneIdx p) : lane_ty p = true -> 0 <= l -> 
  (Z.to_nat (LaneIdx_into_u8 l) < LANES p)%nat.
Proof.
  intros Hp Hl. unfold LaneIdx_into_u8, ImmLaneIdx_into_u8.
  assert (exists k, 0 <= k /\ lane_mask (16 / prim_bytes p) = Z.ones k /\ Z.of_nat (LANES p) = 2 ^ k) as (k & Hk & -> & H).
  { exists (Z.log2 (16 / prim_bytes p)). destruct p; try discriminate Hp; by vm_compute. }
  rewrite Z.land_ones by done. pose proof (Z.mod_pos_bound (l) (2 ^ k) ltac:(lia)). lia.
Qed.
(** An index the constructor accepts is used as it is. *)
Lemma LaneIdx_try_from p n (l : LaneIdx p) : lane_ty p = true -> in_u 8 n -> ImmLaneIdx_try_from (16 / prim_bytes p) n = Some l ->
  l = n /\ LaneIdx_into_u8 l = n /\ n < Z.of_nat (LANES p).
Proof.
  intros Hp Hn. unfold ImmLaneIdx_try_from, LaneIdx_into_u8, ImmLaneIdx_into_u8. case_if; [done|]. intros [= <-]. zb.
  assert (exists k, 0 <= k /\ lane_mask (16 / prim_bytes p) = Z.ones k /\ Z.of_nat (LANES p) = 2 ^ k) as (k & Hk & E & H).
  { exists (Z.log2 (16 / prim_bytes p)). destruct p; try discriminate Hp; by vm_compute. }
  rewrite E in *. rewrite Z.ones_equiv in *. split; [done|].
  rewrite <-Z.ones_equiv, Z.land_ones, Z.mod_small by (unfold in_u in Hn; lia). lia.
Qed.

Lemma extract_lane_eq p v (l : LaneIdx p) : V128_extract_lane p v l = lane p v (Z.to_nat (LaneIdx_into_u8 l)).
Proof. done. Qed.

Lemma replace_lane_lanes p v (l : LaneIdx p) x : lane_ty p = true -> prim_val p x ->
  has_lanes p (V128_replace_lane p v l x) (fun i => if decide (i = Z.to_nat (LaneIdx_into_u8 l)) then x else lane p v i).
Proof.
  intros Hp Hx. unfold V128_replace_lane, Lanes_replace_lane. set (j := Z.to_nat _).
  assert (<[j := x]> (from_v128 p v) = from_fn (LANES p) (fun i => if decide (i = j) then x else lane p v i)) as ->.
  { apply list_eq_same_length with (LANES p); rewrite ?length_insert; [apply length_from_fn..|].
    intros i y z Hi. rewrite lookup_from_fn by done. intros Hy [= <-]. case_decide as Hij.
    - subst i. rewrite list_lookup_insert_eq in Hy by (unfold from_v128; rewrite length_from_fn; done). congruence.
    - rewrite list_lookup_insert_ne in Hy by done. by rewrite <-(array_item_lookup _ _ _ Hy). }
  apply has_lanes_of; [done|]. intros i Hi. apply item_exact. case_decide; [done|by apply lane_val].
Qed.

Lemma splat_lanes p x : lane_ty p = true -> prim_val p x -> has_lanes p (V128_splat p x) (fun _ => x).
Proof.
  intros Hp Hx. unfold V128_splat, Lanes_splat.
  assert (replicate (LANES p) x = from_fn (LANES p) (fun _ => x)) as ->.
  { apply list_eq_same_length with (LANES p); [apply length_from_fn|apply length_replicate|].
    intros i y z Hi Hy Hz. rewrite lookup_from_fn in Hz by done. rewrite lookup_replicate_2 in Hy by done. congruence. }
  apply has_lanes_of; [done|]. intros i Hi. by apply item_exact.
Qed.

(** Vectors with the same lanes are equal. *)
Lemma lanes_inj p v w : lane_ty p = true -> V128_val v -> V128_val w ->
  (forall i, (i < LANES p)%nat -> lane p v i = lane p w i) -> v = w.
Proof.
  intros Hp Hv Hw H. rewrite <-(into_from_v128 p v), <-(into_from_v128 p w) by done. f_equal.
  rewrite <-(list_from_fn p (from_v128 p v)), <-(list_from_fn p (from_v128 p w)) by apply length_from_fn.
  by apply from_fn_ext.
Qed.

(** C28: A vector is the array of its lanes, for each of the ten types of lanes: a
    vector is made of its lanes and of nothing else, a lane that was replaced is
    extracted again and no other changes, all lanes of a splat are its argument, and
    an index that is accepted at translation is in range and not altered by the mask
    the execution applies. *)
Theorem lane_access_spec p v w x (l l' : LaneIdx p) n : lane_ty p = true -> V128_val v -> V128_val w ->
  prim_val p x -> in_u 8 n -> ImmLaneIdx_try_from (16 / prim_bytes p) n = Some l ->
  into_v128 p (from_v128 p v) = v /\
  (v = w <-> forall i, (i < LANES p)%nat -> lane p v i = lane p w i) /\
  V128_extract_lane p (V128_splat p x) l = x /\
  V128_extract_lane p (V128_replace_lane p v l x) l = x /\
  (0 <= l' -> LaneIdx_into_u8 l' <> n ->
    V128_extract_lane p (V128_replace_lane p v l x) l' = V128_extract_lane p v l') /\
  LaneIdx_into_u8 l = n /\ 0 <= n < 16 / prim_bytes p.
Proof.
  intros Hp Hv Hw Hx Hn Hl. destruct (LaneIdx_try_from p n l Hp Hn Hl) as (Hi & Hu & Hr).
  assert (Z.to_nat (LaneIdx_into_u8 l) < LANES p)%nat as Hlt by (rewrite Hu; unfold in_u in Hn; lia).
  destruct (splat_lanes p x Hp Hx) as [_ Hs]. destruct (replace_lane_lanes p v l x Hp Hx) as [_ Hrep].
  split_and!; [by apply into_from_v128| |by rewrite extract_lane_eq, Hs| | |done|apply Hn|].
  - split; [by intros -> |by apply lanes_inj].
  - rewrite extract_lane_eq, Hrep by done. by case_decide.
  - intros Hl' Hne. pose proof (LaneIdx_range p l' Hp Hl'). rewrite extract_lane_eq, Hrep by done.
    case_decide as Heq; [|done]. exfalso. apply Hne.
    assert (0 <= LaneIdx_into_u8 l') by (unfold LaneIdx_into_u8, ImmLaneIdx_into_u8; apply Z.land_nonneg; by left).
    unfold in_u in Hn. lia.
  - unfold LANES in Hr. assert (0 <= 16 / prim_bytes p) by (by destruct p). lia.
Qed.

Lemma lane_access_spec_witness :
  ImmLaneIdx_try_from 8 5 = Some 5 /\
  V128_extract_lane P_i16 (V128_replace_lane P_i16 (i8x16_splat 3) 5 (-7)) 5 = -7.
Proof.
  assert (V128_val (i8x16_splat 3)) as Hv.
  { split; [reflexivity|]. apply (bool_decide_unpack _). vm_compute. exact I. }
  split; [reflexivity|].
  destruct (lane_access_spec P_i16 (i8x16_splat 3) (i8x16_splat 3) (-7) 5 4 5)
    as (_ & _ & _ & H & _); [reflexivity|exact Hv|exact Hv|by vm_compute|by vm_compute|reflexivity|].
  exact H.
Defined.

(** ** Tests of all lanes *)

Lemma reduce_from_spec {T} (P : nat -> T -> Prop) f : forall l i acc, P i acc ->
  (forall j v acc, l !! j = Some v -> P (i + j)%nat acc -> P (S (i + j)) (f (Z.of_nat (i + j)) v acc)) ->
  P (i + length l)%nat (reduce_from i l acc f).
Proof.
  induction l as [|v l IH]; intros i acc H0 Hs; cbn; [by rewrite Nat.add_0_r|].
  replace (i + S (length l))%nat with (S i + length l)%nat by lia. apply IH.
  - specialize (Hs 0%nat v acc eq_refl). rewrite Nat.add_0_r in Hs. by apply Hs.
  - intros j w acc' Hj HP. specialize (Hs (S j) w acc' Hj). replace (i + S j)%nat with (S i + j)%nat in Hs by lia. by apply Hs.
Qed.

Lemma reduce_spec {T} p v (P : nat -> T -> Prop) f acc : P 0%nat acc ->
  (forall j acc, (j < LANES p)%nat -> P j acc -> P (S j) (f (Z.of_nat j) (lane p v j) acc)) ->
  P (LANES p) (V128_lanewise_reduce_enumerate p v acc f).
Proof.
  intros H0 Hs. pose proof (reduce_from_spec P f (from_v128 p v) 0 acc H0) as H.
  cbn [Nat.add] in H. unfold from_v128 in H at 2. rewrite length_from_fn in H. apply H.
  intros j x acc' Hj HP. apply lookup_lt_Some in Hj as Hlt. unfold from_v128 in Hlt. rewrite length_from_fn in Hlt.
  rewrite <-(array_item_lookup _ _ _ Hj). by apply Hs.
Qed.

Lemma all_true_spec p v : impl_all_true_ops p v = true <-> forall i, (i < LANES p)%nat -> lane p v i <> 0.
Proof.
  apply (reduce_spec p v (fun n acc => acc = true <-> forall i, (i < n)%nat -> lane p v i <> 0)).
  - split; [lia|done].
  - intros j acc Hj IH. unfold all_true. rewrite andb_true_iff, IH, negb_true_iff, Z.eqb_neq. split.
    + intros [H1 H2] i Hi. destruct (decide (i = j)) as [->|]; [done|apply H1; lia].
    + intros H. split; [intros i Hi; apply H; lia|apply H; lia].
Qed.

Lemma shiftl_b2z c n : 0 <= n -> forall k, Z.testbit (Z.shiftl (Z.b2z c) n) k = c && (k =? n).
Proof.
  intros Hn k. destruct (Z.ltb_spec k 0).
  - rewrite Z.testbit_neg_r by done. assert (k =? n = false) as -> by (apply Z.eqb_neq; lia). by destruct c.
  - rewrite Z.shiftl_spec by done. destruct (Z.eqb_spec k n) as [->|].
    + rewrite Z.sub_diag. by destruct c.
    + destruct c; cbn [Z.b2z]; [|by rewrite Z.bits_0].
      destruct (Z.ltb_spec (k - n) 0); [by apply Z.testbit_neg_r|]. apply (Z.bits_above_log2 1); cbn; lia.
Qed.

Lemma bitmask_spec p v : (LANES p <= 16)%nat ->
  let mask := impl_bitmask_ops p v in
  0 <= mask < 2 ^ Z.of_nat (LANES p) /\
  forall i, (i < LANES p)%nat -> Z.testbit mask (Z.of_nat i) = (lane p v i <? 0).
Proof.
  intros HL. cbv zeta. unfold impl_bitmask_ops.
  assert (0 <= V128_lanewise_reduce_enumerate p v 0 bitmask < 2 ^ Z.of_nat (LANES p) /\
    forall i, (i < LANES p)%nat ->
      Z.testbit (V128_lanewise_reduce_enumerate p v 0 bitmask) (Z.of_nat i) = (lane p v i <? 0)) as [Hr Ht].
  { apply (reduce_spec p v (fun n acc => 0 <= acc < 2 ^ Z.of_nat n /\
      forall i, (i < n)%nat -> Z.testbit acc (Z.of_nat i) = (lane p v i <? 0))); [split; [done|lia]|].
    intros j acc Hj [Ha Ht]. unfold bitmask, wrapping_shl. change (prim_bits P_i32) with 32.
    rewrite Z.mod_small by lia. set (b := lane p v j <? 0).
    assert (0 <= Z.shiftl (Z.b2z b) (Z.of_nat j) <= 2 ^ Z.of_nat j) as Hb.
    { rewrite Z.shiftl_mul_pow2 by lia. destruct b; cbn [Z.b2z]; lia. }
    assert (2 ^ Z.of_nat j <= 2 ^ 16) by (apply Z.pow_le_mono_r; lia).
    rewrite (cast_id P_i32); [|rewrite prim_val_bounds by done; bounds; lia|done].
    assert (forall k, 0 <= k -> Z.testbit (Z.lor acc (Z.shiftl (Z.b2z b) (Z.of_nat j))) k =
      Z.testbit acc k || (b && (k =? Z.of_nat j))) as Hbits.
    { intros k Hk. by rewrite Z.lor_spec, shiftl_b2z by lia. }
    split.
    - assert (0 <= Z.lor acc (Z.shiftl (Z.b2z b) (Z.of_nat j))) as H0 by (apply Z.lor_nonneg; lia).
      split; [done|]. apply (Z.bounded_iff_bits_nonneg' (Z.of_nat (S j))); [lia|done|]. intros k Hk.
      rewrite Hbits by lia. rewrite (proj1 (Z.bounded_iff_bits_nonneg' (Z.of_nat j) acc ltac:(lia) ltac:(lia))) by lia.
      assert (k =? Z.of_nat j = false) as -> by (apply Z.eqb_neq; lia). by rewrite andb_false_r.
    - intros i Hi. rewrite Hbits by lia. destruct (decide (i = j)) as [->|].
      + rewrite (proj1 (Z.bounded_iff_bits_nonneg' (Z.of_nat j) acc ltac:(lia) ltac:(lia))) by lia.
        by rewrite Z.eqb_refl, andb_true_r.
      + rewrite Ht by lia. assert (Z.of_nat i =? Z.of_nat j = false) as -> by (apply Z.eqb_neq; lia).
        by rewrite andb_false_r, orb_false_r. }
  assert (2 ^ Z.of_nat (LANES p) <= 2 ^ 16) by (apply Z.pow_le_mono_r; lia).
  rewrite (cast_id P_u32); [done| |done]. rewrite prim_val_bounds by done. bounds. lia.
Qed.

(** ** The vector as 128 bits *)

Lemma testbit_bytes bs n : bytes_ok bs -> 0 <= n < 8 * Z.of_nat (length bs) ->
  Z.testbit (little_endian_to_Z 8 bs) n = Z.testbit (array_item bs (Z.to_nat (n / 8))) (n mod 8).
Proof.
  intros Hb Hn. apply little_endian_to_Z_spec; [lia|lia|done|].
  destruct (lookup_lt_is_Some_2 bs (Z.to_nat (n / 8))) as [x Hx].
  { pose proof (Z.div_lt_upper_bound n 8 (Z.of_nat (length bs)) ltac:(lia)). pose proof (Z.div_pos n 8). lia. }
  by rewrite Hx, (array_item_lookup _ _ _ Hx).
Qed.

Lemma testbit_lane p v n : lane_ty p = true -> prim_signed p = false -> V128_val v -> 0 <= n < 128 ->
  Z.testbit (V128_as_u128 v) n = Z.testbit (lane p v (Z.to_nat (n / prim_bits p))) (n mod prim_bits p).
Proof.
  intros Hp Hs [Hl Hb] Hn. unfold V128_as_u128. rewrite testbit_bytes by (done || lia).
  destruct (lane_size_bytes p Hp) as [H16 H0]. pose proof (prim_bits_pos p).
  assert (prim_bits p = 8 * Z.of_nat (lane_size p)) as Hbits by (unfold prim_bits, lane_size in *; lia).
  pose proof (Z.div_mod n (prim_bits p) ltac:(lia)) as Hdm.
  pose proof (Z.mod_pos_bound n (prim_bits p) ltac:(lia)) as Hm.
  assert (0 <= n / prim_bits p) as Hq by (apply Z.div_pos; lia).
  set (q := n / prim_bits p) in *. set (m := n mod prim_bits p) in *. set (i := Z.to_nat q).
  assert (n = m + q * Z.of_nat (lane_size p) * 8) as En by (rewrite Hdm, Hbits; lia).
  assert ((i < LANES p)%nat) as Hi by (unfold i; nia).
  unfold lane, from_v128. rewrite (array_item_lookup _ _ _ (lookup_from_fn (LANES p) _ i Hi)).
  set (chunk := take _ _).
  assert (length chunk = lane_size p) as Hlc by (unfold chunk; rewrite length_take, length_drop; nia).
  assert (bytes_ok chunk) as Hbc by (by apply Forall_take, Forall_drop).
  unfold from_le_bytes, cast. rewrite Hs. unfold wrapu. rewrite Z.mod_pow2_bits_low by lia.
  rewrite testbit_bytes by (done || lia).
  assert (n mod 8 = m mod 8) as -> by (by rewrite En, Z.mod_add by lia).
  f_equal. unfold array_item, chunk.
  assert (Z.to_nat (n / 8) = (i * lane_size p + Z.to_nat (m / 8))%nat) as ->.
  { rewrite En, Z.div_add by lia. pose proof (Z.div_pos m 8). unfold i. nia. }
  assert (Z.to_nat (m / 8) < lane_size p)%nat.
  { pose proof (Z.div_lt_upper_bound m 8 (Z.of_nat (lane_size p)) ltac:(lia)). pose proof (Z.div_pos m 8). lia. }
  rewrite !nth_lookup, lookup_take_lt, lookup_drop by done. done.
Qed.

Lemma v128_bitselect_lane v1 v2 c i : (i < 2)%nat -> lane P_u64 (v128_bitselect v1 v2 c) i =
  Z.lor (Z.land (lane P_u64 v1 i) (lane P_u64 c i)) (Z.ldiff (lane P_u64 v2 i) (lane P_u64 c i)).
Proof.
  intros Hi. unfold v128_bitselect.
  destruct (meets_binary P_u64 Z.lor Z.lor eq_refl item_lor (v128_and v1 c) (v128_andnot v2 c)) as [_ H1].
  destruct (meets_binary P_u64 Z.land Z.land eq_refl item_land v1 c) as [_ H2].
  destruct (meets_binary P_u64 _ Z.ldiff eq_refl item_andnot v2 c) as [_ H3].
  unfold v128_or. rewrite H1 by done. unfold v128_and, v128_andnot. by rewrite H2, H3.
Qed.
Lemma v128_bitselect_val v1 v2 c : V128_val (v128_bitselect v1 v2 c).
Proof. by destruct (meets_binary P_u64 Z.lor Z.lor eq_refl item_lor (v128_and v1 c) (v128_andnot v2 c)). Qed.

Lemma V128_zero_lane p i : lane_ty p = true -> (i < LANES p)%nat -> lane p (V128_from_u128 0) i = 0.
Proof.
  intros Hp Hi. assert (V128_from_u128 0 = V128_splat p 0) as ->; [by destruct p|].
  apply splat_lanes; [done| |done]. destruct p; try discriminate Hp; by vm_compute.
Qed.
Lemma v128_any_true_lanes p v : lane_ty p = true -> V128_val v ->
  v128_any_true v = false <-> forall i, (i < LANES p)%nat -> lane p v i = 0.
Proof.
  intros Hp Hv. unfold v128_any_true. rewrite negb_false_iff, Z.eqb_eq. split.
  - intros H i Hi. rewrite <-(V128_from_as v), H by done. by apply V128_zero_lane.
  - intros H. assert (v = V128_from_u128 0) as ->; [|by vm_compute].
    apply (lanes_inj p); [done..| |].
    + split; [reflexivity|]. apply (bool_decide_unpack _). vm_compute. exact I.
    + intros i Hi. by rewrite H, V128_zero_lane.
Qed.

(** C31: What is computed of all lanes or bits: [all_true] says that no lane is zero,
    [any_true] that some lane, of any type of lanes, is not, bit [i] of [bitmask] is
    the sign of lane [i] and there are no other bits, and [v128.bitselect] takes each
    of the 128 bits from the operand the mask selects. *)
Theorem lane_tests_spec p v v2 c : lane_ty p = true -> V128_val v -> V128_val v2 -> V128_val c ->
  (impl_all_true_ops p v = true <-> forall i, (i < LANES p)%nat -> lane p v i <> 0) /\
  (v128_any_true v = false <-> forall i, (i < LANES p)%nat -> lane p v i = 0) /\
  0 <= impl_bitmask_ops p v < 2 ^ Z.of_nat (LANES p) /\
  (forall i, (i < LANES p)%nat -> Z.testbit (impl_bitmask_ops p v) (Z.of_nat i) = (lane p v i <? 0)) /\
  V128_val (v128_bitselect v v2 c) /\
  forall n, 0 <= n < 128 -> Z.testbit (V128_as_u128 (v128_bitselect v v2 c)) n =
    if Z.testbit (V128_as_u128 c) n then Z.testbit (V128_as_u128 v) n else Z.testbit (V128_as_u128 v2) n.
Proof.
  intros Hp Hv Hv2 Hc. destruct (bitmask_spec p v) as [Hr Ht]; [destruct p; done || by vm_compute; lia|].
  split_and!; [apply all_true_spec|by apply v128_any_true_lanes|apply Hr|apply Hr|done|apply v128_bitselect_val|].
  intros n Hn. rewrite !(testbit_lane P_u64) by (done || apply v128_bitselect_val).
  change (prim_bits P_u64) with 64. rewrite v128_bitselect_lane by (pose proof (Z.div_lt_upper_bound n 64 2); lia).
  rewrite Z.lor_spec, Z.land_spec, Z.ldiff_spec. by repeat destruct (Z.testbit _ _).
Qed.

Lemma lane_tests_spec_witness :
  let v := i32x4_replace_lane (i32x4_splat 7) 2 (-1) in
  V128_val v /\ i32x4_bitmask v = 4 /\
  forall i, (i < 4)%nat -> Z.testbit (i32x4_bitmask v) (Z.of_nat i) = (lane P_i32 v i <? 0).
Proof.
  assert (V128_val (i32x4_replace_lane (i32x4_splat 7) 2 (-1))) as Hv.
  { split; [reflexivity|]. apply (bool_decide_unpack _). vm_compute. exact I. }
  split; [exact Hv|]. split; [reflexivity|].
  destruct (lane_tests_spec P_i32 _ _ _ eq_refl Hv Hv Hv) as (_ & _ & _ & H & _). exact H.
Defined.

(** ** Memory *)

Lemma set_span_chunk (a : Z) i n (bs memory : list Z) : 0 <= a -> a + Z.of_nat (length bs) <= Z.of_nat (length memory) ->
  (i + n <= length bs)%nat ->
  take n (drop (Z.to_nat a + i) (set_span a bs memory)) = take n (drop i bs).
Proof.
  intros Ha Hl Hi. apply list_eq_same_length with n.
  - rewrite length_take, length_drop. lia.
  - rewrite length_take, length_drop, length_set_span. lia.
  - intros j x y Hj. rewrite !lookup_take_lt, !lookup_drop by done. unfold set_span.
    rewrite list_lookup_inserts by lia. replace (Z.to_nat a + i + j - Z.to_nat a)%nat with (i + j)%nat by lia. congruence.
Qed.

Lemma into_le_bytes_u128 v : V128_val v -> into_le_bytes P_u128 (V128_as_u128 v) = v128_bytes v.
Proof.
  intros Hv. pose proof (V128_from_as v Hv) as H. apply (f_equal v128_bytes) in H.
  unfold into_le_bytes. change (prim_bytes P_u128) with 16. change (prim_bits P_u128) with 128.
  rewrite wrapu_small by by apply V128_as_u128_range. exact H.
Qed.

Section Memory.
Context {Tg : Target}.

(** C30: Vectors in memory: a vector is stored exactly if its sixteen bytes fit, else
    the memory is unchanged; a vector that was stored is loaded again, and lane [i],
    of any type of lanes, is then the scalar at [i] times its size behind the address:
    lanes are little-endian and in ascending order. *)
Theorem vector_memory_spec v ptr offset memory r memory' :
  V128_val v -> addressable memory -> 0 <= ptr -> 0 <= offset ->
  v128_store ptr offset v memory = (r, memory') ->
  let address := wasm_address ptr offset in
  length memory' = length memory /\
  if address + 16 <=? Z.of_nat (length memory) then
    r = Ok tt /\ v128_load memory' ptr offset = Ok v /\
    forall p i, lane_ty p = true -> (i < LANES p)%nat ->
      load_at p memory' (address + Z.of_nat i * prim_bytes p) = Ok (lane p v i)
  else r = Err MemoryOutOfBounds /\ memory' = memory.
Proof.
  intros Hv Hm Hp Ho Hs address. pose proof (wasm_address_nonneg ptr offset Hp Ho) as Ha. fold address in Ha.
  pose proof (store_Ok_load P_u128 ptr offset (V128_as_u128 v) memory memory' Hm Hp Ho) as Hload.
  unfold v128_store in Hs. rewrite store_eq in Hs by done. fold address in Hs.
  change (prim_bytes P_u128) with 16 in Hs. destruct (Z.leb_spec (address + 16) (Z.of_nat (length memory))) as [Hfit|Hfit];
    injection Hs as <- <-; rewrite ?length_set_span; (split; [done|]); [|done].
  split; [done|]. split.
  - unfold v128_load. rewrite Hload; [|rewrite store_eq by done; fold address; change (prim_bytes P_u128) with 16;
      by rewrite (proj2 (Z.leb_le _ _))].
    cbn [fmap res_fmap]. f_equal. rewrite cast_id by (done || by apply V128_as_u128_range). by apply V128_from_as.
  - intros p i Hlp Hi. destruct (lane_size_bytes p Hlp) as [H16 H0].
    assert (prim_bytes p = Z.of_nat (lane_size p)) as Hb by (unfold lane_size; pose proof (prim_bits_pos p); unfold prim_bits in *; lia).
    assert (i * lane_size p + lane_size p <= 16)%nat as Hend by nia.
    rewrite load_at_eq by nia. rewrite length_set_span, (proj2 (Z.leb_le _ _)) by nia.
    rewrite into_le_bytes_u128 by done. destruct Hv as [Hl Hv'].
    replace (Z.to_nat (address + Z.of_nat i * prim_bytes p)) with (Z.to_nat address + i * lane_size p)%nat by lia.
    replace (Z.to_nat (prim_bytes p)) with (lane_size p) by done.
    rewrite set_span_chunk by lia. f_equal. unfold lane, from_v128.
    by rewrite (array_item_lookup _ _ _ (lookup_from_fn (LANES p) _ i Hi)).
Qed.
End Memory.

Lemma vector_memory_spec_witness :
  let T := default_target in
  let v := i32x4_replace_lane (i32x4_splat 7) 2 (-1) in
  v128_load (snd (v128_store 3 4 v (replicate 40 0))) 3 4 = Ok v /\
  load_at P_i32 (snd (v128_store 3 4 v (replicate 40 0))) 15 = Ok (-1).
Proof.
  intros T v. assert (V128_val v) as Hv.
  { split; [reflexivity|]. apply (bool_decide_unpack _). vm_compute. exact I. }
  assert (addressable (replicate 40 0)) as Hm by (vm_compute; reflexivity).
  destruct (v128_store 3 4 v (replicate 40 0)) as [r m] eqn:E.
  pose proof (vector_memory_spec v 3 4 (replicate 40 0) r m Hv Hm ltac:(lia) ltac:(lia) E) as [_ H].
  destruct H as (_ & H1 & H2). split; [exact H1|]. exact (H2 P_i32 2%nat eq_refl ltac:(by apply Nat.ltb_lt)).
Defined.
