(* ===== verification/OpTables.v ===== *)
(** * Evaluation of Wasmi's own operators

    The functions of [crates/wasmi/src/engine/eval.rs]: what the operators
    compute that Wasm does not have, and those whose right operand is an
    immediate of a narrower type. *)

From Stdlib Require Import ZArith.
From stdpp Require Import base.
From S2P Require Import Prelude Trap Value WasmInt MemoryAccess Slot Cells Float.
Local Open Scope Z_scope.

Definition wasmi_f32_nabs (value : Z) : Z := f32_neg (f32_abs value).
Definition wasmi_f64_nabs (value : Z) : Z := f64_neg (f64_abs value).

(** [rhs] is a [NonZero]. *)
Definition wasmi_i32_div_ssi (lhs rhs : Z) : res TrapCode Z := i32_div_s lhs rhs.
Definition wasmi_i64_div_ssi (lhs rhs : Z) : res TrapCode Z := i64_div_s lhs rhs.
Definition wasmi_u32_div_ssi (lhs rhs : Z) : Z := lhs / rhs.
Definition wasmi_u64_div_ssi (lhs rhs : Z) : Z := lhs / rhs.
Definition wasmi_i32_rem_ssi (lhs rhs : Z) : res TrapCode Z := i32_rem_s lhs rhs.
Definition wasmi_i64_rem_ssi (lhs rhs : Z) : res TrapCode Z := i64_rem_s lhs rhs.
Definition wasmi_u32_rem_ssi (lhs rhs : Z) : Z := lhs mod rhs.
Definition wasmi_u64_rem_ssi (lhs rhs : Z) : Z := lhs mod rhs.

(** [rhs] is a [ShiftAmount]. *)
Definition wasmi_i32_shl_ssi (lhs rhs : Z) : Z := i32_shl lhs rhs.
Definition wasmi_i32_shr_ssi (lhs rhs : Z) : Z := i32_shr_s lhs rhs.
Definition wasmi_u32_shr_ssi (lhs rhs : Z) : Z := i32_shr_u lhs rhs.
Definition wasmi_i32_rotl_ssi (lhs rhs : Z) : Z := i32_rotl lhs rhs.
Definition wasmi_i32_rotr_ssi (lhs rhs : Z) : Z := i32_rotr lhs rhs.
Definition wasmi_i64_shl_ssi (lhs rhs : Z) : Z := i64_shl lhs rhs.
Definition wasmi_i64_shr_ssi (lhs rhs : Z) : Z := i64_shr_s lhs rhs.
Definition wasmi_u64_shr_ssi (lhs rhs : Z) : Z := i64_shr_u lhs rhs.
Definition wasmi_i64_rotl_ssi (lhs rhs : Z) : Z := i64_rotl lhs rhs.
Definition wasmi_i64_rotr_ssi (lhs rhs : Z) : Z := i64_rotr lhs rhs.

Definition wasmi_i32_and (lhs rhs : Z) : bool := negb (Z.land lhs rhs =? 0).
Definition wasmi_i32_not_and (lhs rhs : Z) : bool := negb (wasmi_i32_and lhs rhs).
Definition wasmi_i32_or (lhs rhs : Z) : bool := negb (rhs =? 0) || negb (lhs =? 0).
Definition wasmi_i32_not_or (lhs rhs : Z) : bool := negb (wasmi_i32_or lhs rhs).
Definition wasmi_i64_and (lhs rhs : Z) : bool := negb (Z.land lhs rhs =? 0).
Definition wasmi_i64_not_and (lhs rhs : Z) : bool := negb (wasmi_i64_and lhs rhs).
Definition wasmi_i64_or (lhs rhs : Z) : bool := negb (rhs =? 0) || negb (lhs =? 0).
Definition wasmi_i64_not_or (lhs rhs : Z) : bool := negb (wasmi_i64_or lhs rhs).

Definition wasmi_f32_not_le (lhs rhs : Z) : bool := negb (f32_le lhs rhs).
Definition wasmi_f64_not_le (lhs rhs : Z) : bool := negb (f64_le lhs rhs).
Definition wasmi_f32_not_lt (lhs rhs : Z) : bool := negb (f32_lt lhs rhs).
Definition wasmi_f64_not_lt (lhs rhs : Z) : bool := negb (f64_lt lhs rhs).

(** ** Handlers of the unary operators

    What the macros of [handler/exec/macros.rs] and [handler/exec.rs] are applied
    to: a handler is described by the types it reads and writes, the function it
    computes and the places of its operands.  The tables of the copies and of the
    unary operators are those of [handler/exec.rs]; an operator has its name in
    the source and the fields that are not registers. *)

(** ** Handlers *)

(** [IntoControl], for values that are stored in a register or a slot. *)
Class IntoRes (A : Type) := into_res : A -> res TrapCode Z.
#[export] Instance IntoRes_Z : IntoRes Z := Ok.
#[export] Instance IntoRes_bool : IntoRes bool := fun b => Ok (Z.b2z b).
#[export] Instance IntoRes_res : IntoRes (res TrapCode Z) := id.

Record UnaryHandler : Type := unary {
  un_ty : Prim;
  un_out : Prim;
  un_eval : Z -> res TrapCode Z;
  un_dst : Dst;
  un_src : Src
}.

Record BinaryHandler : Type := binary {
  bin_lhs_ty : Prim;
  bin_rhs_ty : Prim;
  bin_out : Prim;
  bin_eval : Z -> Z -> res TrapCode Z;
  bin_dst : Dst;
  bin_lhs : Src;
  bin_rhs : Src
}.

Record CmpBranchHandler : Type := cmp_branch {
  br_ty : Prim;
  br_eval : Z -> Z -> bool;
  br_offset : BranchOffset;
  br_lhs : Src;
  br_rhs : Src
}.

Record SelectHandler : Type := select {
  sel_ty : Prim;
  sel_dst : Dst;
  sel_condition : Src;
  sel_true : Src;
  sel_false : Src
}.

Inductive LoadHandler : Type :=
| load_any (p : Prim) (eval : list Z -> Z -> Z -> res TrapCode Z) (result : Dst) (ptr offset : Src) (memory : Z)
| load_ri (p : Prim) (eval : list Z -> Z -> res TrapCode Z) (result : Dst) (address : Src) (memory : Z)
| load_mem0 (p : Prim) (eval : list Z -> Z -> Z -> res TrapCode Z) (result : Dst) (ptr offset : Src).

Inductive StoreHandler : Type :=
| store_any (hint : Prim) (eval : Z -> Z -> Z -> M (list Z) TrapCode unit) (ptr offset value : Src) (memory : Z)
| store_ix (hint : Prim) (eval : Z -> Z -> M (list Z) TrapCode unit) (address value : Src) (memory : Z)
| store_mem0 (hint : Prim) (eval : Z -> Z -> Z -> M (list Z) TrapCode unit) (ptr offset value : Src).

(** ** Operators *)

Inductive CopyInst : Type :=
| U64Copy_S0s1 | U64Copy_S0s2 | U64Copy_S0s3 | U64Copy_S0s4 | U64Copy_S0s5 | U64Copy_S1s0 | U64Copy_S1s2
| U64Copy_S1s3 | U64Copy_S1s4 | U64Copy_S1s5 | U64Copy_S2s0 | U64Copy_S2s1 | U64Copy_S2s3 | U64Copy_S2s4
| U64Copy_S2s5 | U64Copy_S3s0 | U64Copy_S3s1 | U64Copy_S3s2 | U64Copy_S3s4 | U64Copy_S3s5 | U64Copy_S4s0
| U64Copy_S4s1 | U64Copy_S4s2 | U64Copy_S4s3 | U64Copy_S4s5 | U64Copy_S5s0 | U64Copy_S5s1 | U64Copy_S5s2
| U64Copy_S5s3 | U64Copy_S5s4 | U64Copy_S0r | U64Copy_S1r | U64Copy_S2r | U64Copy_S3r | U64Copy_S4r
| U64Copy_S5r | U64Copy_S6r | U64Copy_S7r | U64Copy_S8r | U64Copy_S9r
| F32Copy_S0r | F32Copy_S1r | F32Copy_S2r | F32Copy_S3r | F32Copy_S4r | F32Copy_S5r | F32Copy_S6r
| F32Copy_S7r | F32Copy_S8r | F32Copy_S9r
| F64Copy_S0r | F64Copy_S1r | F64Copy_S2r | F64Copy_S3r | F64Copy_S4r | F64Copy_S5r | F64Copy_S6r
| F64Copy_S7r | F64Copy_S8r | F64Copy_S9r
| U32Copy_Ri (value : Z) | U32Copy_Si (result : Slot) (value : Z)
| U64Copy_Rs (value : Slot) | U64Copy_Ri (value : Z) | U64Copy_Sr (result : Slot)
| U64Copy_Ss (result : Slot) (value : Slot) | U64Copy_Si (result : Slot) (value : Z)
| F32Copy_Ri (value : Z) | F32Copy_Rs (value : Slot) | F32Copy_Sr (result : Slot)
| F64Copy_Rs (value : Slot) | F64Copy_Ri (value : Z) | F64Copy_Sr (result : Slot).

Inductive UnaryInst : Type :=
| F32ReinterpretI32_Rr
| I32ReinterpretF32_Rr
| F64ReinterpretI64_Rr
| I64ReinterpretF64_Rr
| I32Popcnt_Rs (value : Slot) | I32Popcnt_Rr
| I32Ctz_Rs (value : Slot) | I32Ctz_Rr
| I32Clz_Rs (value : Slot) | I32Clz_Rr
| I32Sext8_Rs (value : Slot) | I32Sext8_Rr
| I32Sext16_Rs (value : Slot) | I32Sext16_Rr
| I32WrapI64_Rs (value : Slot) | I32WrapI64_Rr
| I64Popcnt_Rs (value : Slot) | I64Popcnt_Rr
| I64Ctz_Rs (value : Slot) | I64Ctz_Rr
| I64Clz_Rs (value : Slot) | I64Clz_Rr
| I64Sext8_Rs (value : Slot) | I64Sext8_Rr
| I64Sext16_Rs (value : Slot) | I64Sext16_Rr
| I64Sext32_Rs (value : Slot) | I64Sext32_Rr
| F32Abs_Rs (value : Slot) | F32Abs_Rr
| F32Neg_Rs (value : Slot) | F32Neg_Rr
| F32Nabs_Rs (value : Slot) | F32Nabs_Rr
| F32Ceil_Rs (value : Slot) | F32Ceil_Rr
| F32Floor_Rs (value : Slot) | F32Floor_Rr
| F32Trunc_Rs (value : Slot) | F32Trunc_Rr
| F32Nearest_Rs (value : Slot) | F32Nearest_Rr
| F32Sqrt_Rs (value : Slot) | F32Sqrt_Rr
| F32ConvertI32_Rs (value : Slot) | F32ConvertI32_Rr
| F32ConvertU32_Rs (value : Slot) | F32ConvertU32_Rr
| F32ConvertI64_Rs (value : Slot) | F32ConvertI64_Rr
| F32ConvertU64_Rs (value : Slot) | F32ConvertU64_Rr
| F32DemoteF64_Rs (value : Slot) | F32DemoteF64_Rr
| F64Abs_Rs (value : Slot) | F64Abs_Rr
| F64Neg_Rs (value : Slot) | F64Neg_Rr
| F64Nabs_Rs (value : Slot) | F64Nabs_Rr
| F64Ceil_Rs (value : Slot) | F64Ceil_Rr
| F64Floor_Rs (value : Slot) | F64Floor_Rr
| F64Trunc_Rs (value : Slot) | F64Trunc_Rr
| F64Nearest_Rs (value : Slot) | F64Nearest_Rr
| F64Sqrt_Rs (value : Slot) | F64Sqrt_Rr
| F64ConvertI32_Rs (value : Slot) | F64ConvertI32_Rr
| F64ConvertU32_Rs (value : Slot) | F64ConvertU32_Rr
| F64ConvertI64_Rs (value : Slot) | F64ConvertI64_Rr
| F64ConvertU64_Rs (value : Slot) | F64ConvertU64_Rr
| F64PromoteF32_Rs (value : Slot) | F64PromoteF32_Rr
| I32TruncF32_Rs (value : Slot) | I32TruncF32_Rr
| U32TruncF32_Rs (value : Slot) | U32TruncF32_Rr
| I32TruncF64_Rs (value : Slot) | I32TruncF64_Rr
| U32TruncF64_Rs (value : Slot) | U32TruncF64_Rr
| I64TruncF32_Rs (value : Slot) | I64TruncF32_Rr
| U64TruncF32_Rs (value : Slot) | U64TruncF32_Rr
| I64TruncF64_Rs (value : Slot) | I64TruncF64_Rr
| U64TruncF64_Rs (value : Slot) | U64TruncF64_Rr
| I32TruncSatF32_Rs (value : Slot) | I32TruncSatF32_Rr
| U32TruncSatF32_Rs (value : Slot) | U32TruncSatF32_Rr
| I32TruncSatF64_Rs (value : Slot) | I32TruncSatF64_Rr
| U32TruncSatF64_Rs (value : Slot) | U32TruncSatF64_Rr
| I64TruncSatF32_Rs (value : Slot) | I64TruncSatF32_Rr
| U64TruncSatF32_Rs (value : Slot) | U64TruncSatF32_Rr
| I64TruncSatF64_Rs (value : Slot) | I64TruncSatF64_Rr
| U64TruncSatF64_Rs (value : Slot) | U64TruncSatF64_Rr.

(** ** Tables *)

Section Tables.
Context `{T : Target} `{FloatNans}.

Definition copy_handler (op : CopyInst) : UnaryHandler :=
  match op with
  | U64Copy_S0s1 => unary P_u64 P_u64 (fun value => Ok value) (Dst_slot (Slot_from 0)) (Src_slot (Slot_from 1))
  | U64Copy_S0s2 => unary P_u64 P_u64 (fun value => Ok value) (Dst_slot (Slot_from 0)) (Src_slot (Slot_from 2))
  | U64Copy_S0s3 => unary P_u64 P_u64 (fun value => Ok value) (Dst_slot (Slot_from 0)) (Src_slot (Slot_from 3))
  | U64Copy_S0s4 => unary P_u64 P_u64 (fun value => Ok value) (Dst_slot (Slot_from 0)) (Src_slot (Slot_from 4))
  | U64Copy_S0s5 => unary P_u64 P_u64 (fun value => Ok value) (Dst_slot (Slot_from 0)) (Src_slot (Slot_from 5))
  | U64Copy_S1s0 => unary P_u64 P_u64 (fun value => Ok value) (Dst_slot (Slot_from 1)) (Src_slot (Slot_from 0))
  | U64Copy_S1s2 => unary P_u64 P_u64 (fun value => Ok value) (Dst_slot (Slot_from 1)) (Src_slot (Slot_from 2))
  | U64Copy_S1s3 => unary P_u64 P_u64 (fun value => Ok value) (Dst_slot (Slot_from 1)) (Src_slot (Slot_from 3))
  | U64Copy_S1s4 => unary P_u64 P_u64 (fun value => Ok value) (Dst_slot (Slot_from 1)) (Src_slot (Slot_from 4))
  | U64Copy_S1s5 => unary P_u64 P_u64 (fun value => Ok value) (Dst_slot (Slot_from 1)) (Src_slot (Slot_from 5))
  | U64Copy_S2s0 => unary P_u64 P_u64 (fun value => Ok value) (Dst_slot (Slot_from 2)) (Src_slot (Slot_from 0))
  | U64Copy_S2s1 => unary P_u64 P_u64 (fun value => Ok value) (Dst_slot (Slot_from 2)) (Src_slot (Slot_from 1))
  | U64Copy_S2s3 => unary P_u64 P_u64 (fun value => Ok value) (Dst_slot (Slot_from 2)) (Src_slot (Slot_from 3))
  | U64Copy_S2s4 => unary P_u64 P_u64 (fun value => Ok value) (Dst_slot (Slot_from 2)) (Src_slot (Slot_from 4))
  | U64Copy_S2s5 => unary P_u64 P_u64 (fun value => Ok value) (Dst_slot (Slot_from 2)) (Src_slot (Slot_from 5))
  | U64Copy_S3s0 => unary P_u64 P_u64 (fun value => Ok value) (Dst_slot (Slot_from 3)) (Src_slot (Slot_from 0))
  | U64Copy_S3s1 => unary P_u64 P_u64 (fun value => Ok value) (Dst_slot (Slot_from 3)) (Src_slot (Slot_from 1))
  | U64Copy_S3s2 => unary P_u64 P_u64 (fun value => Ok value) (Dst_slot (Slot_from 3)) (Src_slot (Slot_from 2))
  | U64Copy_S3s4 => unary P_u64 P_u64 (fun value => Ok value) (Dst_slot (Slot_from 3)) (Src_slot (Slot_from 4))
  | U64Copy_S3s5 => unary P_u64 P_u64 (fun value => Ok value) (Dst_slot (Slot_from 3)) (Src_slot (Slot_from 5))
  | U64Copy_S4s0 => unary P_u64 P_u64 (fun value => Ok value) (Dst_slot (Slot_from 4)) (Src_slot (Slot_from 0))
  | U64Copy_S4s1 => unary P_u64 P_u64 (fun value => Ok value) (Dst_slot (Slot_from 4)) (Src_slot (Slot_from 1))
  | U64Copy_S4s2 => unary P_u64 P_u64 (fun value => Ok value) (Dst_slot (Slot_from 4)) (Src_slot (Slot_from 2))
  | U64Copy_S4s3 => unary P_u64 P_u64 (fun value => Ok value) (Dst_slot (Slot_from 4)) (Src_slot (Slot_from 3))
  | U64Copy_S4s5 => unary P_u64 P_u64 (fun value => Ok value) (Dst_slot (Slot_from 4)) (Src_slot (Slot_from 5))
  | U64Copy_S5s0 => unary P_u64 P_u64 (fun value => Ok value) (Dst_slot (Slot_from 5)) (Src_slot (Slot_from 0))
  | U64Copy_S5s1 => unary P_u64 P_u64 (fun value => Ok value) (Dst_slot (Slot_from 5)) (Src_slot (Slot_from 1))
  | U64Copy_S5s2 => unary P_u64 P_u64 (fun value => Ok value) (Dst_slot (Slot_from 5)) (Src_slot (Slot_from 2))
  | U64Copy_S5s3 => unary P_u64 P_u64 (fun value => Ok value) (Dst_slot (Slot_from 5)) (Src_slot (Slot_from 3))
  | U64Copy_S5s4 => unary P_u64 P_u64 (fun value => Ok value) (Dst_slot (Slot_from 5)) (Src_slot (Slot_from 4))
  | U64Copy_S0r => unary P_u64 P_u64 (fun value => Ok value) (Dst_slot (Slot_from 0)) (Src_reg Reg_i64)
  | U64Copy_S1r => unary P_u64 P_u64 (fun value => Ok value) (Dst_slot (Slot_from 1)) (Src_reg Reg_i64)
  | U64Copy_S2r => unary P_u64 P_u64 (fun value => Ok value) (Dst_slot (Slot_from 2)) (Src_reg Reg_i64)
  | U64Copy_S3r => unary P_u64 P_u64 (fun value => Ok value) (Dst_slot (Slot_from 3)) (Src_reg Reg_i64)
  | U64Copy_S4r => unary P_u64 P_u64 (fun value => Ok value) (Dst_slot (Slot_from 4)) (Src_reg Reg_i64)
  | U64Copy_S5r => unary P_u64 P_u64 (fun value => Ok value) (Dst_slot (Slot_from 5)) (Src_reg Reg_i64)
  | U64Copy_S6r => unary P_u64 P_u64 (fun value => Ok value) (Dst_slot (Slot_from 6)) (Src_reg Reg_i64)
  | U64Copy_S7r => unary P_u64 P_u64 (fun value => Ok value) (Dst_slot (Slot_from 7)) (Src_reg Reg_i64)
  | U64Copy_S8r => unary P_u64 P_u64 (fun value => Ok value) (Dst_slot (Slot_from 8)) (Src_reg Reg_i64)
  | U64Copy_S9r => unary P_u64 P_u64 (fun value => Ok value) (Dst_slot (Slot_from 9)) (Src_reg Reg_i64)
  | F32Copy_S0r => unary P_f32 P_f32 (fun value => Ok value) (Dst_slot (Slot_from 0)) (Src_reg Reg_f32)
  | F32Copy_S1r => unary P_f32 P_f32 (fun value => Ok value) (Dst_slot (Slot_from 1)) (Src_reg Reg_f32)
  | F32Copy_S2r => unary P_f32 P_f32 (fun value => Ok value) (Dst_slot (Slot_from 2)) (Src_reg Reg_f32)
  | F32Copy_S3r => unary P_f32 P_f32 (fun value => Ok value) (Dst_slot (Slot_from 3)) (Src_reg Reg_f32)
  | F32Copy_S4r => unary P_f32 P_f32 (fun value => Ok value) (Dst_slot (Slot_from 4)) (Src_reg Reg_f32)
  | F32Copy_S5r => unary P_f32 P_f32 (fun value => Ok value) (Dst_slot (Slot_from 5)) (Src_reg Reg_f32)
  | F32Copy_S6r => unary P_f32 P_f32 (fun value => Ok value) (Dst_slot (Slot_from 6)) (Src_reg Reg_f32)
  | F32Copy_S7r => unary P_f32 P_f32 (fun value => Ok value) (Dst_slot (Slot_from 7)) (Src_reg Reg_f32)
  | F32Copy_S8r => unary P_f32 P_f32 (fun value => Ok value) (Dst_slot (Slot_from 8)) (Src_reg Reg_f32)
  | F32Copy_S9r => unary P_f32 P_f32 (fun value => Ok value) (Dst_slot (Slot_from 9)) (Src_reg Reg_f32)
  | F64Copy_S0r => unary P_f64 P_f64 (fun value => Ok value) (Dst_slot (Slot_from 0)) (Src_reg Reg_f64)
  | F64Copy_S1r => unary P_f64 P_f64 (fun value => Ok value) (Dst_slot (Slot_from 1)) (Src_reg Reg_f64)
  | F64Copy_S2r => unary P_f64 P_f64 (fun value => Ok value) (Dst_slot (Slot_from 2)) (Src_reg Reg_f64)
  | F64Copy_S3r => unary P_f64 P_f64 (fun value => Ok value) (Dst_slot (Slot_from 3)) (Src_reg Reg_f64)
  | F64Copy_S4r => unary P_f64 P_f64 (fun value => Ok value) (Dst_slot (Slot_from 4)) (Src_reg Reg_f64)
  | F64Copy_S5r => unary P_f64 P_f64 (fun value => Ok value) (Dst_slot (Slot_from 5)) (Src_reg Reg_f64)
  | F64Copy_S6r => unary P_f64 P_f64 (fun value => Ok value) (Dst_slot (Slot_from 6)) (Src_reg Reg_f64)
  | F64Copy_S7r => unary P_f64 P_f64 (fun value => Ok value) (Dst_slot (Slot_from 7)) (Src_reg Reg_f64)
  | F64Copy_S8r => unary P_f64 P_f64 (fun value => Ok value) (Dst_slot (Slot_from 8)) (Src_reg Reg_f64)
  | F64Copy_S9r => unary P_f64 P_f64 (fun value => Ok value) (Dst_slot (Slot_from 9)) (Src_reg Reg_f64)
  | U32Copy_Ri value => unary P_u32 P_u32 (fun value => Ok value) (Dst_reg Reg_i64) (Src_imm value)
  | U32Copy_Si result value => unary P_u32 P_u32 (fun value => Ok value) (Dst_slot result) (Src_imm value)
  | U64Copy_Rs value => unary P_u64 P_u64 (fun value => Ok value) (Dst_reg Reg_i64) (Src_slot value)
  | U64Copy_Ri value => unary P_u64 P_u64 (fun value => Ok value) (Dst_reg Reg_i64) (Src_imm value)
  | U64Copy_Sr result => unary P_u64 P_u64 (fun value => Ok value) (Dst_slot result) (Src_reg Reg_i64)
  | U64Copy_Ss result value => unary P_u64 P_u64 (fun value => Ok value) (Dst_slot result) (Src_slot value)
  | U64Copy_Si result value => unary P_u64 P_u64 (fun value => Ok value) (Dst_slot result) (Src_imm value)
  | F32Copy_Ri value => unary P_f32 P_f32 (fun value => Ok value) (Dst_reg Reg_f32) (Src_imm value)
  | F32Copy_Rs value => unary P_f32 P_f32 (fun value => Ok value) (Dst_reg Reg_f32) (Src_slot value)
  | F32Copy_Sr result => unary P_f32 P_f32 (fun value => Ok value) (Dst_slot result) (Src_reg Reg_f32)
  | F64Copy_Rs value => unary P_f64 P_f64 (fun value => Ok value) (Dst_reg Reg_f64) (Src_slot value)
  | F64Copy_Ri value => unary P_f64 P_f64 (fun value => Ok value) (Dst_reg Reg_f64) (Src_imm value)
  | F64Copy_Sr result => unary P_f64 P_f64 (fun value => Ok value) (Dst_slot result) (Src_reg Reg_f64)
  end.

Definition unary_op_handler (op : UnaryInst) : UnaryHandler :=
  match op with
  | F32ReinterpretI32_Rr => unary P_i32 P_f32 (fun value => into_res (f32_reinterpret_i32 value)) (Dst_reg Reg_f32) (Src_reg Reg_i64)
  | I32ReinterpretF32_Rr => unary P_f32 P_i32 (fun value => into_res (i32_reinterpret_f32 value)) (Dst_reg Reg_i64) (Src_reg Reg_f32)
  | F64ReinterpretI64_Rr => unary P_i64 P_f64 (fun value => into_res (f64_reinterpret_i64 value)) (Dst_reg Reg_f64) (Src_reg Reg_i64)
  | I64ReinterpretF64_Rr => unary P_f64 P_i64 (fun value => into_res (i64_reinterpret_f64 value)) (Dst_reg Reg_i64) (Src_reg Reg_f64)
  | I32Popcnt_Rs value => unary P_i32 P_i32 (fun value => into_res (i32_popcnt value)) (Dst_reg Reg_i64) (Src_slot value)
  | I32Popcnt_Rr => unary P_i32 P_i32 (fun value => into_res (i32_popcnt value)) (Dst_reg Reg_i64) (Src_reg Reg_i64)
  | I32Ctz_Rs value => unary P_i32 P_i32 (fun value => into_res (i32_ctz value)) (Dst_reg Reg_i64) (Src_slot value)
  | I32Ctz_Rr => unary P_i32 P_i32 (fun value => into_res (i32_ctz value)) (Dst_reg Reg_i64) (Src_reg Reg_i64)
  | I32Clz_Rs value => unary P_i32 P_i32 (fun value => into_res (i32_clz value)) (Dst_reg Reg_i64) (Src_slot value)
  | I32Clz_Rr => unary P_i32 P_i32 (fun value => into_res (i32_clz value)) (Dst_reg Reg_i64) (Src_reg Reg_i64)
  | I32Sext8_Rs value => unary P_i32 P_i32 (fun value => into_res (i32_extend8_s value)) (Dst_reg Reg_i64) (Src_slot value)
  | I32Sext8_Rr => unary P_i32 P_i32 (fun value => into_res (i32_extend8_s value)) (Dst_reg Reg_i64) (Src_reg Reg_i64)
  | I32Sext16_Rs value => unary P_i32 P_i32 (fun value => into_res (i32_extend16_s value)) (Dst_reg Reg_i64) (Src_slot value)
  | I32Sext16_Rr => unary P_i32 P_i32 (fun value => into_res (i32_extend16_s value)) (Dst_reg Reg_i64) (Src_reg Reg_i64)
  | I32WrapI64_Rs value => unary P_i64 P_i32 (fun value => into_res (i32_wrap_i64 value)) (Dst_reg Reg_i64) (Src_slot value)
  | I32WrapI64_Rr => unary P_i64 P_i32 (fun value => into_res (i32_wrap_i64 value)) (Dst_reg Reg_i64) (Src_reg Reg_i64)
  | I64Popcnt_Rs value => unary P_i64 P_i64 (fun value => into_res (i64_popcnt value)) (Dst_reg Reg_i64) (Src_slot value)
  | I64Popcnt_Rr => unary P_i64 P_i64 (fun value => into_res (i64_popcnt value)) (Dst_reg Reg_i64) (Src_reg Reg_i64)
  | I64Ctz_Rs value => unary P_i64 P_i64 (fun value => into_res (i64_ctz value)) (Dst_reg Reg_i64) (Src_slot value)
  | I64Ctz_Rr => unary P_i64 P_i64 (fun value => into_res (i64_ctz value)) (Dst_reg Reg_i64) (Src_reg Reg_i64)
  | I64Clz_Rs value => unary P_i64 P_i64 (fun value => into_res (i64_clz value)) (Dst_reg Reg_i64) (Src_slot value)
  | I64Clz_Rr => unary P_i64 P_i64 (fun value => into_res (i64_clz value)) (Dst_reg Reg_i64) (Src_reg Reg_i64)
  | I64Sext8_Rs value => unary P_i64 P_i64 (fun value => into_res (i64_extend8_s value)) (Dst_reg Reg_i64) (Src_slot value)
  | I64Sext8_Rr => unary P_i64 P_i64 (fun value => into_res (i64_extend8_s value)) (Dst_reg Reg_i64) (Src_reg Reg_i64)
  | I64Sext16_Rs value => unary P_i64 P_i64 (fun value => into_res (i64_extend16_s value)) (Dst_reg Reg_i64) (Src_slot value)
  | I64Sext16_Rr => unary P_i64 P_i64 (fun value => into_res (i64_extend16_s value)) (Dst_reg Reg_i64) (Src_reg Reg_i64)
  | I64Sext32_Rs value => unary P_i64 P_i64 (fun value => into_res (i64_extend32_s value)) (Dst_reg Reg_i64) (Src_slot value)
  | I64Sext32_Rr => unary P_i64 P_i64 (fun value => into_res (i64_extend32_s value)) (Dst_reg Reg_i64) (Src_reg Reg_i64)
  | F32Abs_Rs value => unary P_f32 P_f32 (fun value => into_res (f32_abs value)) (Dst_reg Reg_f32) (Src_slot value)
  | F32Abs_Rr => unary P_f32 P_f32 (fun value => into_res (f32_abs value)) (Dst_reg Reg_f32) (Src_reg Reg_f32)
  | F32Neg_Rs value => unary P_f32 P_f32 (fun value => into_res (f32_neg value)) (Dst_reg Reg_f32) (Src_slot value)
  | F32Neg_Rr => unary P_f32 P_f32 (fun value => into_res (f32_neg value)) (Dst_reg Reg_f32) (Src_reg Reg_f32)
  | F32Nabs_Rs value => unary P_f32 P_f32 (fun value => into_res (wasmi_f32_nabs value)) (Dst_reg Reg_f32) (Src_slot value)
  | F32Nabs_Rr => unary P_f32 P_f32 (fun value => into_res (wasmi_f32_nabs value)) (Dst_reg Reg_f32) (Src_reg Reg_f32)
  | F32Ceil_Rs value => unary P_f32 P_f32 (fun value => into_res (f32_ceil value)) (Dst_reg Reg_f32) (Src_slot value)
  | F32Ceil_Rr => unary P_f32 P_f32 (fun value => into_res (f32_ceil value)) (Dst_reg Reg_f32) (Src_reg Reg_f32)
  | F32Floor_Rs value => unary P_f32 P_f32 (fun value => into_res (f32_floor value)) (Dst_reg Reg_f32) (Src_slot value)
  | F32Floor_Rr => unary P_f32 P_f32 (fun value => into_res (f32_floor value)) (Dst_reg Reg_f32) (Src_reg Reg_f32)
  | F32Trunc_Rs value => unary P_f32 P_f32 (fun value => into_res (f32_trunc value)) (Dst_reg Reg_f32) (Src_slot value)
  | F32Trunc_Rr => unary P_f32 P_f32 (fun value => into_res (f32_trunc value)) (Dst_reg Reg_f32) (Src_reg Reg_f32)
  | F32Nearest_Rs value => unary P_f32 P_f32 (fun value => into_res (f32_nearest value)) (Dst_reg Reg_f32) (Src_slot value)
  | F32Nearest_Rr => unary P_f32 P_f32 (fun value => into_res (f32_nearest value)) (Dst_reg Reg_f32) (Src_reg Reg_f32)
  | F32Sqrt_Rs value => unary P_f32 P_f32 (fun value => into_res (f32_sqrt value)) (Dst_reg Reg_f32) (Src_slot value)
  | F32Sqrt_Rr => unary P_f32 P_f32 (fun value => into_res (f32_sqrt value)) (Dst_reg Reg_f32) (Src_reg Reg_f32)
  | F32ConvertI32_Rs value => unary P_i32 P_f32 (fun value => into_res (f32_convert_i32_s value)) (Dst_reg Reg_f32) (Src_slot value)
  | F32ConvertI32_Rr => unary P_i32 P_f32 (fun value => into_res (f32_convert_i32_s value)) (Dst_reg Reg_f32) (Src_reg Reg_i64)
  | F32ConvertU32_Rs value => unary P_u32 P_f32 (fun value => into_res (f32_convert_i32_u value)) (Dst_reg Reg_f32) (Src_slot value)
  | F32ConvertU32_Rr => unary P_u32 P_f32 (fun value => into_res (f32_convert_i32_u value)) (Dst_reg Reg_f32) (Src_reg Reg_i64)
  | F32ConvertI64_Rs value => unary P_i64 P_f32 (fun value => into_res (f32_convert_i64_s value)) (Dst_reg Reg_f32) (Src_slot value)
  | F32ConvertI64_Rr => unary P_i64 P_f32 (fun value => into_res (f32_convert_i64_s value)) (Dst_reg Reg_f32) (Src_reg Reg_i64)
  | F32ConvertU64_Rs value => unary P_u64 P_f32 (fun value => into_res (f32_convert_i64_u value)) (Dst_reg Reg_f32) (Src_slot value)
  | F32ConvertU64_Rr => unary P_u64 P_f32 (fun value => into_res (f32_convert_i64_u value)) (Dst_reg Reg_f32) (Src_reg Reg_i64)
  | F32DemoteF64_Rs value => unary P_f64 P_f32 (fun value => into_res (f32_demote_f64 value)) (Dst_reg Reg_f32) (Src_slot value)
  | F32DemoteF64_Rr => unary P_f64 P_f32 (fun value => into_res (f32_demote_f64 value)) (Dst_reg Reg_f32) (Src_reg Reg_f64)
  | F64Abs_Rs value => unary P_f64 P_f64 (fun value => into_res (f64_abs value)) (Dst_reg Reg_f64) (Src_slot value)
  | F64Abs_Rr => unary P_f64 P_f64 (fun value => into_res (f64_abs value)) (Dst_reg Reg_f64) (Src_reg Reg_f64)
  | F64Neg_Rs value => unary P_f64 P_f64 (fun value => into_res (f64_neg value)) (Dst_reg Reg_f64) (Src_slot value)
  | F64Neg_Rr => unary P_f64 P_f64 (fun value => into_res (f64_neg value)) (Dst_reg Reg_f64) (Src_reg Reg_f64)
  | F64Nabs_Rs value => unary P_f64 P_f64 (fun value => into_res (wasmi_f64_nabs value)) (Dst_reg Reg_f64) (Src_slot value)
  | F64Nabs_Rr => unary P_f64 P_f64 (fun value => into_res (wasmi_f64_nabs value)) (Dst_reg Reg_f64) (Src_reg Reg_f64)
  | F64Ceil_Rs value => unary P_f64 P_f64 (fun value => into_res (f64_ceil value)) (Dst_reg Reg_f64) (Src_slot value)
  | F64Ceil_Rr => unary P_f64 P_f64 (fun value => into_res (f64_ceil value)) (Dst_reg Reg_f64) (Src_reg Reg_f64)
  | F64Floor_Rs value => unary P_f64 P_f64 (fun value => into_res (f64_floor value)) (Dst_reg Reg_f64) (Src_slot value)
  | F64Floor_Rr => unary P_f64 P_f64 (fun value => into_res (f64_floor value)) (Dst_reg Reg_f64) (Src_reg Reg_f64)
  | F64Trunc_Rs value => unary P_f64 P_f64 (fun value => into_res (f64_trunc value)) (Dst_reg Reg_f64) (Src_slot value)
  | F64Trunc_Rr => unary P_f64 P_f64 (fun value => into_res (f64_trunc value)) (Dst_reg Reg_f64) (Src_reg Reg_f64)
  | F64Nearest_Rs value => unary P_f64 P_f64 (fun value => into_res (f64_nearest value)) (Dst_reg Reg_f64) (Src_slot value)
  | F64Nearest_Rr => unary P_f64 P_f64 (fun value => into_res (f64_nearest value)) (Dst_reg Reg_f64) (Src_reg Reg_f64)
  | F64Sqrt_Rs value => unary P_f64 P_f64 (fun value => into_res (f64_sqrt value)) (Dst_reg Reg_f64) (Src_slot value)
  | F64Sqrt_Rr => unary P_f64 P_f64 (fun value => into_res (f64_sqrt value)) (Dst_reg Reg_f64) (Src_reg Reg_f64)
  | F64ConvertI32_Rs value => unary P_i32 P_f64 (fun value => into_res (f64_convert_i32_s value)) (Dst_reg Reg_f64) (Src_slot value)
  | F64ConvertI32_Rr => unary P_i32 P_f64 (fun value => into_res (f64_convert_i32_s value)) (Dst_reg Reg_f64) (Src_reg Reg_i64)
  | F64ConvertU32_Rs value => unary P_u32 P_f64 (fun value => into_res (f64_convert_i32_u value)) (Dst_reg Reg_f64) (Src_slot value)
  | F64ConvertU32_Rr => unary P_u32 P_f64 (fun value => into_res (f64_convert_i32_u value)) (Dst_reg Reg_f64) (Src_reg Reg_i64)
  | F64ConvertI64_Rs value => unary P_i64 P_f64 (fun value => into_res (f64_convert_i64_s value)) (Dst_reg Reg_f64) (Src_slot value)
  | F64ConvertI64_Rr => unary P_i64 P_f64 (fun value => into_res (f64_convert_i64_s value)) (Dst_reg Reg_f64) (Src_reg Reg_i64)
  | F64ConvertU64_Rs value => unary P_u64 P_f64 (fun value => into_res (f64_convert_i64_u value)) (Dst_reg Reg_f64) (Src_slot value)
  | F64ConvertU64_Rr => unary P_u64 P_f64 (fun value => into_res (f64_convert_i64_u value)) (Dst_reg Reg_f64) (Src_reg Reg_i64)
  | F64PromoteF32_Rs value => unary P_f32 P_f64 (fun value => into_res (f64_promote_f32 value)) (Dst_reg Reg_f64) (Src_slot value)
  | F64PromoteF32_Rr => unary P_f32 P_f64 (fun value => into_res (f64_promote_f32 value)) (Dst_reg Reg_f64) (Src_reg Reg_f32)
  | I32TruncF32_Rs value => unary P_f32 P_i32 (fun value => into_res (i32_trunc_f32_s value)) (Dst_reg Reg_i64) (Src_slot value)
  | I32TruncF32_Rr => unary P_f32 P_i32 (fun value => into_res (i32_trunc_f32_s value)) (Dst_reg Reg_i64) (Src_reg Reg_f32)
  | U32TruncF32_Rs value => unary P_f32 P_u32 (fun value => into_res (i32_trunc_f32_u value)) (Dst_reg Reg_i64) (Src_slot value)
  | U32TruncF32_Rr => unary P_f32 P_u32 (fun value => into_res (i32_trunc_f32_u value)) (Dst_reg Reg_i64) (Src_reg Reg_f32)
  | I32TruncF64_Rs value => unary P_f64 P_i32 (fun value => into_res (i32_trunc_f64_s value)) (Dst_reg Reg_i64) (Src_slot value)
  | I32TruncF64_Rr => unary P_f64 P_i32 (fun value => into_res (i32_trunc_f64_s value)) (Dst_reg Reg_i64) (Src_reg Reg_f64)
  | U32TruncF64_Rs value => unary P_f64 P_u32 (fun value => into_res (i32_trunc_f64_u value)) (Dst_reg Reg_i64) (Src_slot value)
  | U32TruncF64_Rr => unary P_f64 P_u32 (fun value => into_res (i32_trunc_f64_u value)) (Dst_reg Reg_i64) (Src_reg Reg_f64)
  | I64TruncF32_Rs value => unary P_f32 P_i64 (fun value => into_res (i64_trunc_f32_s value)) (Dst_reg Reg_i64) (Src_slot value)
  | I64TruncF32_Rr => unary P_f32 P_i64 (fun value => into_res (i64_trunc_f32_s value)) (Dst_reg Reg_i64) (Src_reg Reg_f32)
  | U64TruncF32_Rs value => unary P_f32 P_u64 (fun value => into_res (i64_trunc_f32_u value)) (Dst_reg Reg_i64) (Src_slot value)
  | U64TruncF32_Rr => unary P_f32 P_u64 (fun value => into_res (i64_trunc_f32_u value)) (Dst_reg Reg_i64) (Src_reg Reg_f32)
  | I64TruncF64_Rs value => unary P_f64 P_i64 (fun value => into_res (i64_trunc_f64_s value)) (Dst_reg Reg_i64) (Src_slot value)
  | I64TruncF64_Rr => unary P_f64 P_i64 (fun value => into_res (i64_trunc_f64_s value)) (Dst_reg Reg_i64) (Src_reg Reg_f64)
  | U64TruncF64_Rs value => unary P_f64 P_u64 (fun value => into_res (i64_trunc_f64_u value)) (Dst_reg Reg_i64) (Src_slot value)
  | U64TruncF64_Rr => unary P_f64 P_u64 (fun value => into_res (i64_trunc_f64_u value)) (Dst_reg Reg_i64) (Src_reg Reg_f64)
  | I32TruncSatF32_Rs value => unary P_f32 P_i32 (fun value => into_res (i32_trunc_sat_f32_s value)) (Dst_reg Reg_i64) (Src_slot value)
  | I32TruncSatF32_Rr => unary P_f32 P_i32 (fun value => into_res (i32_trunc_sat_f32_s value)) (Dst_reg Reg_i64) (Src_reg Reg_f32)
  | U32TruncSatF32_Rs value => unary P_f32 P_u32 (fun value => into_res (i32_trunc_sat_f32_u value)) (Dst_reg Reg_i64) (Src_slot value)
  | U32TruncSatF32_Rr => unary P_f32 P_u32 (fun value => into_res (i32_trunc_sat_f32_u value)) (Dst_reg Reg_i64) (Src_reg Reg_f32)
  | I32TruncSatF64_Rs value => unary P_f64 P_i32 (fun value => into_res (i32_trunc_sat_f64_s value)) (Dst_reg Reg_i64) (Src_slot value)
  | I32TruncSatF64_Rr => unary P_f64 P_i32 (fun value => into_res (i32_trunc_sat_f64_s value)) (Dst_reg Reg_i64) (Src_reg Reg_f64)
  | U32TruncSatF64_Rs value => unary P_f64 P_u32 (fun value => into_res (i32_trunc_sat_f64_u value)) (Dst_reg Reg_i64) (Src_slot value)
  | U32TruncSatF64_Rr => unary P_f64 P_u32 (fun value => into_res (i32_trunc_sat_f64_u value)) (Dst_reg Reg_i64) (Src_reg Reg_f64)
  | I64TruncSatF32_Rs value => unary P_f32 P_i64 (fun value => into_res (i64_trunc_sat_f32_s value)) (Dst_reg Reg_i64) (Src_slot value)
  | I64TruncSatF32_Rr => unary P_f32 P_i64 (fun value => into_res (i64_trunc_sat_f32_s value)) (Dst_reg Reg_i64) (Src_reg Reg_f32)
  | U64TruncSatF32_Rs value => unary P_f32 P_u64 (fun value => into_res (i64_trunc_sat_f32_u value)) (Dst_reg Reg_i64) (Src_slot value)
  | U64TruncSatF32_Rr => unary P_f32 P_u64 (fun value => into_res (i64_trunc_sat_f32_u value)) (Dst_reg Reg_i64) (Src_reg Reg_f32)
  | I64TruncSatF64_Rs value => unary P_f64 P_i64 (fun value => into_res (i64_trunc_sat_f64_s value)) (Dst_reg Reg_i64) (Src_slot value)
  | I64TruncSatF64_Rr => unary P_f64 P_i64 (fun value => into_res (i64_trunc_sat_f64_s value)) (Dst_reg Reg_i64) (Src_reg Reg_f64)
  | U64TruncSatF64_Rs value => unary P_f64 P_u64 (fun value => into_res (i64_trunc_sat_f64_u value)) (Dst_reg Reg_i64) (Src_slot value)
  | U64TruncSatF64_Rr => unary P_f64 P_u64 (fun value => into_res (i64_trunc_sat_f64_u value)) (Dst_reg Reg_i64) (Src_reg Reg_f64)
  end.

End Tables.
