(* ===== verification/BinaryTables.v ===== *)
(** * Handlers of the binary operators

    The binary operators with the tables of [handler/exec.rs], by the type of
    their operands. *)

From Stdlib Require Import ZArith.
From stdpp Require Import base.
From S2P Require Import Prelude Trap Value WasmInt MemoryAccess Slot Cells Float OpTables.
Local Open Scope Z_scope.

Inductive BinaryInstI32 : Type :=
| I32Eq_Rrs (rhs : Slot) | I32Eq_Rri (rhs : Z) | I32Eq_Rss (lhs : Slot) (rhs : Slot)
| I32Eq_Rsi (lhs : Slot) (rhs : Z)
| I32And_Rrs (rhs : Slot) | I32And_Rri (rhs : Z) | I32And_Rss (lhs : Slot) (rhs : Slot)
| I32And_Rsi (lhs : Slot) (rhs : Z)
| I32Or_Rrs (rhs : Slot) | I32Or_Rri (rhs : Z) | I32Or_Rss (lhs : Slot) (rhs : Slot)
| I32Or_Rsi (lhs : Slot) (rhs : Z)
| I32NotEq_Rrs (rhs : Slot) | I32NotEq_Rri (rhs : Z) | I32NotEq_Rss (lhs : Slot) (rhs : Slot)
| I32NotEq_Rsi (lhs : Slot) (rhs : Z)
| I32NotAnd_Rrs (rhs : Slot) | I32NotAnd_Rri (rhs : Z) | I32NotAnd_Rss (lhs : Slot) (rhs : Slot)
| I32NotAnd_Rsi (lhs : Slot) (rhs : Z)
| I32NotOr_Rrs (rhs : Slot) | I32NotOr_Rri (rhs : Z) | I32NotOr_Rss (lhs : Slot) (rhs : Slot)
| I32NotOr_Rsi (lhs : Slot) (rhs : Z)
| I32Add_Rrs (rhs : Slot) | I32Add_Rri (rhs : Z) | I32Add_Rss (lhs : Slot) (rhs : Slot)
| I32Add_Rsi (lhs : Slot) (rhs : Z) | I32Add_Rs_rs (result : Slot) (rhs : Slot)
| I32Add_Rs_ri (result : Slot) (rhs : Z) | I32Add_Rs_ss (result : Slot) (lhs : Slot) (rhs : Slot)
| I32Add_Rs_si (result : Slot) (lhs : Slot) (rhs : Z)
| I32Mul_Rrr | I32Mul_Rrs (rhs : Slot) | I32Mul_Rri (rhs : Z) | I32Mul_Rss (lhs : Slot) (rhs : Slot)
| I32Mul_Rsi (lhs : Slot) (rhs : Z)
| I32BitAnd_Rrs (rhs : Slot) | I32BitAnd_Rri (rhs : Z) | I32BitAnd_Rss (lhs : Slot) (rhs : Slot)
| I32BitAnd_Rsi (lhs : Slot) (rhs : Z)
| I32BitOr_Rrs (rhs : Slot) | I32BitOr_Rri (rhs : Z) | I32BitOr_Rss (lhs : Slot) (rhs : Slot)
| I32BitOr_Rsi (lhs : Slot) (rhs : Z)
| I32BitXor_Rrs (rhs : Slot) | I32BitXor_Rri (rhs : Z) | I32BitXor_Rss (lhs : Slot) (rhs : Slot)
| I32BitXor_Rsi (lhs : Slot) (rhs : Z)
| I32Sub_Rrs (rhs : Slot) | I32Sub_Rsr (lhs : Slot) | I32Sub_Rss (lhs : Slot) (rhs : Slot)
| I32Sub_Rir (lhs : Z) | I32Sub_Ris (lhs : Z) (rhs : Slot)
| I32Div_Rrs (rhs : Slot) | I32Div_Rri (rhs : Z) | I32Div_Rsr (lhs : Slot)
| I32Div_Rss (lhs : Slot) (rhs : Slot) | I32Div_Rsi (lhs : Slot) (rhs : Z) | I32Div_Rir (lhs : Z)
| I32Div_Ris (lhs : Z) (rhs : Slot)
| U32Div_Rrs (rhs : Slot) | U32Div_Rri (rhs : Z) | U32Div_Rsr (lhs : Slot)
| U32Div_Rss (lhs : Slot) (rhs : Slot) | U32Div_Rsi (lhs : Slot) (rhs : Z) | U32Div_Rir (lhs : Z)
| U32Div_Ris (lhs : Z) (rhs : Slot)
| I32Rem_Rrs (rhs : Slot) | I32Rem_Rri (rhs : Z) | I32Rem_Rsr (lhs : Slot)
| I32Rem_Rss (lhs : Slot) (rhs : Slot) | I32Rem_Rsi (lhs : Slot) (rhs : Z) | I32Rem_Rir (lhs : Z)
| I32Rem_Ris (lhs : Z) (rhs : Slot)
| U32Rem_Rrs (rhs : Slot) | U32Rem_Rri (rhs : Z) | U32Rem_Rsr (lhs : Slot)
| U32Rem_Rss (lhs : Slot) (rhs : Slot) | U32Rem_Rsi (lhs : Slot) (rhs : Z) | U32Rem_Rir (lhs : Z)
| U32Rem_Ris (lhs : Z) (rhs : Slot)
| I32Le_Rrs (rhs : Slot) | I32Le_Rri (rhs : Z) | I32Le_Rsr (lhs : Slot) | I32Le_Rss (lhs : Slot) (rhs : Slot)
| I32Le_Rsi (lhs : Slot) (rhs : Z) | I32Le_Rir (lhs : Z) | I32Le_Ris (lhs : Z) (rhs : Slot)
| I32Lt_Rrs (rhs : Slot) | I32Lt_Rri (rhs : Z) | I32Lt_Rsr (lhs : Slot) | I32Lt_Rss (lhs : Slot) (rhs : Slot)
| I32Lt_Rsi (lhs : Slot) (rhs : Z) | I32Lt_Rir (lhs : Z) | I32Lt_Ris (lhs : Z) (rhs : Slot)
| U32Le_Rrs (rhs : Slot) | U32Le_Rri (rhs : Z) | U32Le_Rsr (lhs : Slot) | U32Le_Rss (lhs : Slot) (rhs : Slot)
| U32Le_Rsi (lhs : Slot) (rhs : Z) | U32Le_Rir (lhs : Z) | U32Le_Ris (lhs : Z) (rhs : Slot)
| U32Lt_Rrs (rhs : Slot) | U32Lt_Rri (rhs : Z) | U32Lt_Rsr (lhs : Slot) | U32Lt_Rss (lhs : Slot) (rhs : Slot)
| U32Lt_Rsi (lhs : Slot) (rhs : Z) | U32Lt_Rir (lhs : Z) | U32Lt_Ris (lhs : Z) (rhs : Slot)
| I32Shl_Rrs (rhs : Slot) | I32Shl_Rri (rhs : Z) | I32Shl_Rsr (lhs : Slot)
| I32Shl_Rss (lhs : Slot) (rhs : Slot) | I32Shl_Rsi (lhs : Slot) (rhs : Z) | I32Shl_Rir (lhs : Z)
| I32Shl_Ris (lhs : Z) (rhs : Slot)
| I32Shr_Rrs (rhs : Slot) | I32Shr_Rri (rhs : Z) | I32Shr_Rsr (lhs : Slot)
| I32Shr_Rss (lhs : Slot) (rhs : Slot) | I32Shr_Rsi (lhs : Slot) (rhs : Z) | I32Shr_Rir (lhs : Z)
| I32Shr_Ris (lhs : Z) (rhs : Slot)
| U32Shr_Rrs (rhs : Slot) | U32Shr_Rri (rhs : Z) | U32Shr_Rsr (lhs : Slot)
| U32Shr_Rss (lhs : Slot) (rhs : Slot) | U32Shr_Rsi (lhs : Slot) (rhs : Z) | U32Shr_Rir (lhs : Z)
| U32Shr_Ris (lhs : Z) (rhs : Slot)
| I32Rotl_Rrs (rhs : Slot) | I32Rotl_Rri (rhs : Z) | I32Rotl_Rsr (lhs : Slot)
| I32Rotl_Rss (lhs : Slot) (rhs : Slot) | I32Rotl_Rsi (lhs : Slot) (rhs : Z) | I32Rotl_Rir (lhs : Z)
| I32Rotl_Ris (lhs : Z) (rhs : Slot)
| I32Rotr_Rrs (rhs : Slot) | I32Rotr_Rri (rhs : Z) | I32Rotr_Rsr (lhs : Slot)
| I32Rotr_Rss (lhs : Slot) (rhs : Slot) | I32Rotr_Rsi (lhs : Slot) (rhs : Z) | I32Rotr_Rir (lhs : Z)
| I32Rotr_Ris (lhs : Z) (rhs : Slot).

Inductive BinaryInstI64 : Type :=
| I64Eq_Rrs (rhs : Slot) | I64Eq_Rri (rhs : Z) | I64Eq_Rss (lhs : Slot) (rhs : Slot)
| I64Eq_Rsi (lhs : Slot) (rhs : Z)
| I64And_Rrs (rhs : Slot) | I64And_Rri (rhs : Z) | I64And_Rss (lhs : Slot) (rhs : Slot)
| I64And_Rsi (lhs : Slot) (rhs : Z)
| I64Or_Rrs (rhs : Slot) | I64Or_Rri (rhs : Z) | I64Or_Rss (lhs : Slot) (rhs : Slot)
| I64Or_Rsi (lhs : Slot) (rhs : Z)
| I64NotEq_Rrs (rhs : Slot) | I64NotEq_Rri (rhs : Z) | I64NotEq_Rss (lhs : Slot) (rhs : Slot)
| I64NotEq_Rsi (lhs : Slot) (rhs : Z)
| I64NotAnd_Rrs (rhs : Slot) | I64NotAnd_Rri (rhs : Z) | I64NotAnd_Rss (lhs : Slot) (rhs : Slot)
| I64NotAnd_Rsi (lhs : Slot) (rhs : Z)
| I64NotOr_Rrs (rhs : Slot) | I64NotOr_Rri (rhs : Z) | I64NotOr_Rss (lhs : Slot) (rhs : Slot)
| I64NotOr_Rsi (lhs : Slot) (rhs : Z)
| I64Add_Rrs (rhs : Slot) | I64Add_Rri (rhs : Z) | I64Add_Rss (lhs : Slot) (rhs : Slot)
| I64Add_Rsi (lhs : Slot) (rhs : Z) | I64Add_Rs_rs (result : Slot) (rhs : Slot)
| I64Add_Rs_ri (result : Slot) (rhs : Z) | I64Add_Rs_ss (result : Slot) (lhs : Slot) (rhs : Slot)
| I64Add_Rs_si (result : Slot) (lhs : Slot) (rhs : Z)
| I64Mul_Rrr | I64Mul_Rrs (rhs : Slot) | I64Mul_Rri (rhs : Z) | I64Mul_Rss (lhs : Slot) (rhs : Slot)
| I64Mul_Rsi (lhs : Slot) (rhs : Z)
| I64BitAnd_Rrs (rhs : Slot) | I64BitAnd_Rri (rhs : Z) | I64BitAnd_Rss (lhs : Slot) (rhs : Slot)
| I64BitAnd_Rsi (lhs : Slot) (rhs : Z)
| I64BitOr_Rrs (rhs : Slot) | I64BitOr_Rri (rhs : Z) | I64BitOr_Rss (lhs : Slot) (rhs : Slot)
| I64BitOr_Rsi (lhs : Slot) (rhs : Z)
| I64BitXor_Rrs (rhs : Slot) | I64BitXor_Rri (rhs : Z) | I64BitXor_Rss (lhs : Slot) (rhs : Slot)
| I64BitXor_Rsi (lhs : Slot) (rhs : Z)
| I64Sub_Rrs (rhs : Slot) | I64Sub_Rsr (lhs : Slot) | I64Sub_Rss (lhs : Slot) (rhs : Slot)
| I64Sub_Rir (lhs : Z) | I64Sub_Ris (lhs : Z) (rhs : Slot)
| I64Div_Rrs (rhs : Slot) | I64Div_Rri (rhs : Z) | I64Div_Rsr (lhs : Slot)
| I64Div_Rss (lhs : Slot) (rhs : Slot) | I64Div_Rsi (lhs : Slot) (rhs : Z) | I64Div_Rir (lhs : Z)
| I64Div_Ris (lhs : Z) (rhs : Slot)
| U64Div_Rrs (rhs : Slot) | U64Div_Rri (rhs : Z) | U64Div_Rsr (lhs : Slot)
| U64Div_Rss (lhs : Slot) (rhs : Slot) | U64Div_Rsi (lhs : Slot) (rhs : Z) | U64Div_Rir (lhs : Z)
| U64Div_Ris (lhs : Z) (rhs : Slot)
| I64Rem_Rrs (rhs : Slot) | I64Rem_Rri (rhs : Z) | I64Rem_Rsr (lhs : Slot)
| I64Rem_Rss (lhs : Slot) (rhs : Slot) | I64Rem_Rsi (lhs : Slot) (rhs : Z) | I64Rem_Rir (lhs : Z)
| I64Rem_Ris (lhs : Z) (rhs : Slot)
| U64Rem_Rrs (rhs : Slot) | U64Rem_Rri (rhs : Z) | U64Rem_Rsr (lhs : Slot)
| U64Rem_Rss (lhs : Slot) (rhs : Slot) | U64Rem_Rsi (lhs : Slot) (rhs : Z) | U64Rem_Rir (lhs : Z)
| U64Rem_Ris (lhs : Z) (rhs : Slot)
| I64Le_Rrs (rhs : Slot) | I64Le_Rri (rhs : Z) | I64Le_Rsr (lhs : Slot) | I64Le_Rss (lhs : Slot) (rhs : Slot)
| I64Le_Rsi (lhs : Slot) (rhs : Z) | I64Le_Rir (lhs : Z) | I64Le_Ris (lhs : Z) (rhs : Slot)
| I64Lt_Rrs (rhs : Slot) | I64Lt_Rri (rhs : Z) | I64Lt_Rsr (lhs : Slot) | I64Lt_Rss (lhs : Slot) (rhs : Slot)
| I64Lt_Rsi (lhs : Slot) (rhs : Z) | I64Lt_Rir (lhs : Z) | I64Lt_Ris (lhs : Z) (rhs : Slot)
| U64Le_Rrs (rhs : Slot) | U64Le_Rri (rhs : Z) | U64Le_Rsr (lhs : Slot) | U64Le_Rss (lhs : Slot) (rhs : Slot)
| U64Le_Rsi (lhs : Slot) (rhs : Z) | U64Le_Rir (lhs : Z) | U64Le_Ris (lhs : Z) (rhs : Slot)
| U64Lt_Rrs (rhs : Slot) | U64Lt_Rri (rhs : Z) | U64Lt_Rsr (lhs : Slot) | U64Lt_Rss (lhs : Slot) (rhs : Slot)
| U64Lt_Rsi (lhs : Slot) (rhs : Z) | U64Lt_Rir (lhs : Z) | U64Lt_Ris (lhs : Z) (rhs : Slot)
| I64Shl_Rrs (rhs : Slot) | I64Shl_Rri (rhs : Z) | I64Shl_Rsr (lhs : Slot)
| I64Shl_Rss (lhs : Slot) (rhs : Slot) | I64Shl_Rsi (lhs : Slot) (rhs : Z) | I64Shl_Rir (lhs : Z)
| I64Shl_Ris (lhs : Z) (rhs : Slot)
| I64Shr_Rrs (rhs : Slot) | I64Shr_Rri (rhs : Z) | I64Shr_Rsr (lhs : Slot)
| I64Shr_Rss (lhs : Slot) (rhs : Slot) | I64Shr_Rsi (lhs : Slot) (rhs : Z) | I64Shr_Rir (lhs : Z)
| I64Shr_Ris (lhs : Z) (rhs : Slot)
| U64Shr_Rrs (rhs : Slot) | U64Shr_Rri (rhs : Z) | U64Shr_Rsr (lhs : Slot)
| U64Shr_Rss (lhs : Slot) (rhs : Slot) | U64Shr_Rsi (lhs : Slot) (rhs : Z) | U64Shr_Rir (lhs : Z)
| U64Shr_Ris (lhs : Z) (rhs : Slot)
| I64Rotl_Rrs (rhs : Slot) | I64Rotl_Rri (rhs : Z) | I64Rotl_Rsr (lhs : Slot)
| I64Rotl_Rss (lhs : Slot) (rhs : Slot) | I64Rotl_Rsi (lhs : Slot) (rhs : Z) | I64Rotl_Rir (lhs : Z)
| I64Rotl_Ris (lhs : Z) (rhs : Slot)
| I64Rotr_Rrs (rhs : Slot) | I64Rotr_Rri (rhs : Z) | I64Rotr_Rsr (lhs : Slot)
| I64Rotr_Rss (lhs : Slot) (rhs : Slot) | I64Rotr_Rsi (lhs : Slot) (rhs : Z) | I64Rotr_Rir (lhs : Z)
| I64Rotr_Ris (lhs : Z) (rhs : Slot).

Inductive BinaryInstF32 : Type :=
| F32Add_Rrs (rhs : Slot) | F32Add_Rri (rhs : Z) | F32Add_Rsr (lhs : Slot)
| F32Add_Rss (lhs : Slot) (rhs : Slot) | F32Add_Rsi (lhs : Slot) (rhs : Z) | F32Add_Rir (lhs : Z)
| F32Add_Ris (lhs : Z) (rhs : Slot)
| F32Sub_Rrs (rhs : Slot) | F32Sub_Rri (rhs : Z) | F32Sub_Rsr (lhs : Slot)
| F32Sub_Rss (lhs : Slot) (rhs : Slot) | F32Sub_Rsi (lhs : Slot) (rhs : Z) | F32Sub_Rir (lhs : Z)
| F32Sub_Ris (lhs : Z) (rhs : Slot)
| F32Mul_Rrr | F32Mul_Rrs (rhs : Slot) | F32Mul_Rri (rhs : Z) | F32Mul_Rsr (lhs : Slot)
| F32Mul_Rss (lhs : Slot) (rhs : Slot) | F32Mul_Rsi (lhs : Slot) (rhs : Z) | F32Mul_Rir (lhs : Z)
| F32Mul_Ris (lhs : Z) (rhs : Slot)
| F32Div_Rrs (rhs : Slot) | F32Div_Rri (rhs : Z) | F32Div_Rsr (lhs : Slot)
| F32Div_Rss (lhs : Slot) (rhs : Slot) | F32Div_Rsi (lhs : Slot) (rhs : Z) | F32Div_Rir (lhs : Z)
| F32Div_Ris (lhs : Z) (rhs : Slot)
| F32Min_Rrs (rhs : Slot) | F32Min_Rri (rhs : Z) | F32Min_Rsr (lhs : Slot)
| F32Min_Rss (lhs : Slot) (rhs : Slot) | F32Min_Rsi (lhs : Slot) (rhs : Z) | F32Min_Rir (lhs : Z)
| F32Min_Ris (lhs : Z) (rhs : Slot)
| F32Max_Rrs (rhs : Slot) | F32Max_Rri (rhs : Z) | F32Max_Rsr (lhs : Slot)
| F32Max_Rss (lhs : Slot) (rhs : Slot) | F32Max_Rsi (lhs : Slot) (rhs : Z) | F32Max_Rir (lhs : Z)
| F32Max_Ris (lhs : Z) (rhs : Slot)
| F32Copysign_Rrs (rhs : Slot) | F32Copysign_Rsr (lhs : Slot) | F32Copysign_Rss (lhs : Slot) (rhs : Slot)
| F32Copysign_Rir (lhs : Z) | F32Copysign_Ris (lhs : Z) (rhs : Slot)
| F32Eq_Rrs (rhs : Slot) | F32Eq_Rri (rhs : Z) | F32Eq_Rss (lhs : Slot) (rhs : Slot)
| F32Eq_Rsi (lhs : Slot) (rhs : Z)
| F32Lt_Rrs (rhs : Slot) | F32Lt_Rri (rhs : Z) | F32Lt_Rsr (lhs : Slot) | F32Lt_Rss (lhs : Slot) (rhs : Slot)
| F32Lt_Rsi (lhs : Slot) (rhs : Z) | F32Lt_Rir (lhs : Z) | F32Lt_Ris (lhs : Z) (rhs : Slot)
| F32Le_Rrs (rhs : Slot) | F32Le_Rri (rhs : Z) | F32Le_Rsr (lhs : Slot) | F32Le_Rss (lhs : Slot) (rhs : Slot)
| F32Le_Rsi (lhs : Slot) (rhs : Z) | F32Le_Rir (lhs : Z) | F32Le_Ris (lhs : Z) (rhs : Slot)
| F32NotEq_Rrs (rhs : Slot) | F32NotEq_Rri (rhs : Z) | F32NotEq_Rss (lhs : Slot) (rhs : Slot)
| F32NotEq_Rsi (lhs : Slot) (rhs : Z)
| F32NotLt_Rrs (rhs : Slot) | F32NotLt_Rri (rhs : Z) | F32NotLt_Rsr (lhs : Slot)
| F32NotLt_Rss (lhs : Slot) (rhs : Slot) | F32NotLt_Rsi (lhs : Slot) (rhs : Z) | F32NotLt_Rir (lhs : Z)
| F32NotLt_Ris (lhs : Z) (rhs : Slot)
| F32NotLe_Rrs (rhs : Slot) | F32NotLe_Rri (rhs : Z) | F32NotLe_Rsr (lhs : Slot)
| F32NotLe_Rss (lhs : Slot) (rhs : Slot) | F32NotLe_Rsi (lhs : Slot) (rhs : Z) | F32NotLe_Rir (lhs : Z)
| F32NotLe_Ris (lhs : Z) (rhs : Slot).

Inductive BinaryInstF64 : Type :=
| F64Add_Rrs (rhs : Slot) | F64Add_Rri (rhs : Z) | F64Add_Rsr (lhs : Slot)
| F64Add_Rss (lhs : Slot) (rhs : Slot) | F64Add_Rsi (lhs : Slot) (rhs : Z) | F64Add_Rir (lhs : Z)
| F64Add_Ris (lhs : Z) (rhs : Slot)
| F64Sub_Rrs (rhs : Slot) | F64Sub_Rri (rhs : Z) | F64Sub_Rsr (lhs : Slot)
| F64Sub_Rss (lhs : Slot) (rhs : Slot) | F64Sub_Rsi (lhs : Slot) (rhs : Z) | F64Sub_Rir (lhs : Z)
| F64Sub_Ris (lhs : Z) (rhs : Slot)
| F64Mul_Rrr | F64Mul_Rrs (rhs : Slot) | F64Mul_Rri (rhs : Z) | F64Mul_Rsr (lhs : Slot)
| F64Mul_Rss (lhs : Slot) (rhs : Slot) | F64Mul_Rsi (lhs : Slot) (rhs : Z) | F64Mul_Rir (lhs : Z)
| F64Mul_Ris (lhs : Z) (rhs : Slot)
| F64Div_Rrs (rhs : Slot) | F64Div_Rri (rhs : Z) | F64Div_Rsr (lhs : Slot)
| F64Div_Rss (lhs : Slot) (rhs : Slot) | F64Div_Rsi (lhs : Slot) (rhs : Z) | F64Div_Rir (lhs : Z)
| F64Div_Ris (lhs : Z) (rhs : Slot)
| F64Min_Rrs (rhs : Slot) | F64Min_Rri (rhs : Z) | F64Min_Rsr (lhs : Slot)
| F64Min_Rss (lhs : Slot) (rhs : Slot) | F64Min_Rsi (lhs : Slot) (rhs : Z) | F64Min_Rir (lhs : Z)
| F64Min_Ris (lhs : Z) (rhs : Slot)
| F64Max_Rrs (rhs : Slot) | F64Max_Rri (rhs : Z) | F64Max_Rsr (lhs : Slot)
| F64Max_Rss (lhs : Slot) (rhs : Slot) | F64Max_Rsi (lhs : Slot) (rhs : Z) | F64Max_Rir (lhs : Z)
| F64Max_Ris (lhs : Z) (rhs : Slot)
| F64Copysign_Rrs (rhs : Slot) | F64Copysign_Rsr (lhs : Slot) | F64Copysign_Rss (lhs : Slot) (rhs : Slot)
| F64Copysign_Rir (lhs : Z) | F64Copysign_Ris (lhs : Z) (rhs : Slot)
| F64Eq_Rrs (rhs : Slot) | F64Eq_Rri (rhs : Z) | F64Eq_Rss (lhs : Slot) (rhs : Slot)
| F64Eq_Rsi (lhs : Slot) (rhs : Z)
| F64Lt_Rrs (rhs : Slot) | F64Lt_Rri (rhs : Z) | F64Lt_Rsr (lhs : Slot) | F64Lt_Rss (lhs : Slot) (rhs : Slot)
| F64Lt_Rsi (lhs : Slot) (rhs : Z) | F64Lt_Rir (lhs : Z) | F64Lt_Ris (lhs : Z) (rhs : Slot)
| F64Le_Rrs (rhs : Slot) | F64Le_Rri (rhs : Z) | F64Le_Rsr (lhs : Slot) | F64Le_Rss (lhs : Slot) (rhs : Slot)
| F64Le_Rsi (lhs : Slot) (rhs : Z) | F64Le_Rir (lhs : Z) | F64Le_Ris (lhs : Z) (rhs : Slot)
| F64NotEq_Rrs (rhs : Slot) | F64NotEq_Rri (rhs : Z) | F64NotEq_Rss (lhs : Slot) (rhs : Slot)
| F64NotEq_Rsi (lhs : Slot) (rhs : Z)
| F64NotLt_Rrs (rhs : Slot) | F64NotLt_Rri (rhs : Z) | F64NotLt_Rsr (lhs : Slot)
| F64NotLt_Rss (lhs : Slot) (rhs : Slot) | F64NotLt_Rsi (lhs : Slot) (rhs : Z) | F64NotLt_Rir (lhs : Z)
| F64NotLt_Ris (lhs : Z) (rhs : Slot)
| F64NotLe_Rrs (rhs : Slot) | F64NotLe_Rri (rhs : Z) | F64NotLe_Rsr (lhs : Slot)
| F64NotLe_Rss (lhs : Slot) (rhs : Slot) | F64NotLe_Rsi (lhs : Slot) (rhs : Z) | F64NotLe_Rir (lhs : Z)
| F64NotLe_Ris (lhs : Z) (rhs : Slot).

Section Tables.
Context `{T : Target} `{FloatNans}.

Definition binary_i32_handler (op : BinaryInstI32) : BinaryHandler :=
  match op with
  | I32Eq_Rrs rhs => binary P_i32 P_i32 P_bool (fun lhs rhs => into_res (i32_eq lhs rhs)) (Dst_reg Reg_i64) (Src_reg Reg_i64) (Src_slot rhs)
  | I32Eq_Rri rhs => binary P_i32 P_i32 P_bool (fun lhs rhs => into_res (i32_eq lhs rhs)) (Dst_reg Reg_i64) (Src_reg Reg_i64) (Src_imm rhs)
  | I32Eq_Rss lhs rhs => binary P_i32 P_i32 P_bool (fun lhs rhs => into_res (i32_eq lhs rhs)) (Dst_reg Reg_i64) (Src_slot lhs) (Src_slot rhs)
  | I32Eq_Rsi lhs rhs => binary P_i32 P_i32 P_bool (fun lhs rhs => into_res (i32_eq lhs rhs)) (Dst_reg Reg_i64) (Src_slot lhs) (Src_imm rhs)
  | I32And_Rrs rhs => binary P_i32 P_i32 P_bool (fun lhs rhs => into_res (wasmi_i32_and lhs rhs)) (Dst_reg Reg_i64) (Src_reg Reg_i64) (Src_slot rhs)
  | I32And_Rri rhs => binary P_i32 P_i32 P_bool (fun lhs rhs => into_res (wasmi_i32_and lhs rhs)) (Dst_reg Reg_i64) (Src_reg Reg_i64) (Src_imm rhs)
  | I32And_Rss lhs rhs => binary P_i32 P_i32 P_bool (fun lhs rhs => into_res (wasmi_i32_and lhs rhs)) (Dst_reg Reg_i64) (Src_slot lhs) (Src_slot rhs)
  | I32And_Rsi lhs rhs => binary P_i32 P_i32 P_bool (fun lhs rhs => into_res (wasmi_i32_and lhs rhs)) (Dst_reg Reg_i64) (Src_slot lhs) (Src_imm rhs)
  | I32Or_Rrs rhs => binary P_i32 P_i32 P_bool (fun lhs rhs => into_res (wasmi_i32_or lhs rhs)) (Dst_reg Reg_i64) (Src_reg Reg_i64) (Src_slot rhs)
  | I32Or_Rri rhs => binary P_i32 P_i32 P_bool (fun lhs rhs => into_res (wasmi_i32_or lhs rhs)) (Dst_reg Reg_i64) (Src_reg Reg_i64) (Src_imm rhs)
  | I32Or_Rss lhs rhs => binary P_i32 P_i32 P_bool (fun lhs rhs => into_res (wasmi_i32_or lhs rhs)) (Dst_reg Reg_i64) (Src_slot lhs) (Src_slot rhs)
  | I32Or_Rsi lhs rhs => binary P_i32 P_i32 P_bool (fun lhs rhs => into_res (wasmi_i32_or lhs rhs)) (Dst_reg Reg_i64) (Src_slot lhs) (Src_imm rhs)
  | I32NotEq_Rrs rhs => binary P_i32 P_i32 P_bool (fun lhs rhs => into_res (i32_ne lhs rhs)) (Dst_reg Reg_i64) (Src_reg Reg_i64) (Src_slot rhs)
  | I32NotEq_Rri rhs => binary P_i32 P_i32 P_bool (fun lhs rhs => into_res (i32_ne lhs rhs)) (Dst_reg Reg_i64) (Src_reg Reg_i64) (Src_imm rhs)
  | I32NotEq_Rss lhs rhs => binary P_i32 P_i32 P_bool (fun lhs rhs => into_res (i32_ne lhs rhs)) (Dst_reg Reg_i64) (Src_slot lhs) (Src_slot rhs)
  | I32NotEq_Rsi lhs rhs => binary P_i32 P_i32 P_bool (fun lhs rhs => into_res (i32_ne lhs rhs)) (Dst_reg Reg_i64) (Src_slot lhs) (Src_imm rhs)
  | I32NotAnd_Rrs rhs => binary P_i32 P_i32 P_bool (fun lhs rhs => into_res (wasmi_i32_not_and lhs rhs)) (Dst_reg Reg_i64) (Src_reg Reg_i64) (Src_slot rhs)
  | I32NotAnd_Rri rhs => binary P_i32 P_i32 P_bool (fun lhs rhs => into_res (wasmi_i32_not_and lhs rhs)) (Dst_reg Reg_i64) (Src_reg Reg_i64) (Src_imm rhs)
  | I32NotAnd_Rss lhs rhs => binary P_i32 P_i32 P_bool (fun lhs rhs => into_res (wasmi_i32_not_and lhs rhs)) (Dst_reg Reg_i64) (Src_slot lhs) (Src_slot rhs)
  | I32NotAnd_Rsi lhs rhs => binary P_i32 P_i32 P_bool (fun lhs rhs => into_res (wasmi_i32_not_and lhs rhs)) (Dst_reg Reg_i64) (Src_slot lhs) (Src_imm rhs)
  | I32NotOr_Rrs rhs => binary P_i32 P_i32 P_bool (fun lhs rhs => into_res (wasmi_i32_not_or lhs rhs)) (Dst_reg Reg_i64) (Src_reg Reg_i64) (Src_slot rhs)
  | I32NotOr_Rri rhs => binary P_i32 P_i32 P_bool (fun lhs rhs => into_res (wasmi_i32_not_or lhs rhs)) (Dst_reg Reg_i64) (Src_reg Reg_i64) (Src_imm rhs)
  | I32NotOr_Rss lhs rhs => binary P_i32 P_i32 P_bool (fun lhs rhs => into_res (wasmi_i32_not_or lhs rhs)) (Dst_reg Reg_i64) (Src_slot lhs) (Src_slot rhs)
  | I32NotOr_Rsi lhs rhs => binary P_i32 P_i32 P_bool (fun lhs rhs => into_res (wasmi_i32_not_or lhs rhs)) (Dst_reg Reg_i64) (Src_slot lhs) (Src_imm rhs)
  | I32Add_Rrs rhs => binary P_i32 P_i32 P_i32 (fun lhs rhs => into_res (i32_add lhs rhs)) (Dst_reg Reg_i64) (Src_reg Reg_i64) (Src_slot rhs)
  | I32Add_Rri rhs => binary P_i32 P_i32 P_i32 (fun lhs rhs => into_res (i32_add lhs rhs)) (Dst_reg Reg_i64) (Src_reg Reg_i64) (Src_imm rhs)
  | I32Add_Rss lhs rhs => binary P_i32 P_i32 P_i32 (fun lhs rhs => into_res (i32_add lhs rhs)) (Dst_reg Reg_i64) (Src_slot lhs) (Src_slot rhs)
  | I32Add_Rsi lhs rhs => binary P_i32 P_i32 P_i32 (fun lhs rhs => into_res (i32_add lhs rhs)) (Dst_reg Reg_i64) (Src_slot lhs) (Src_imm rhs)
  | I32Add_Rs_rs result rhs => binary P_i32 P_i32 P_i32 (fun lhs rhs => into_res (i32_add lhs rhs)) (Dst_both result Reg_i64) (Src_reg Reg_i64) (Src_slot rhs)
  | I32Add_Rs_ri result rhs => binary P_i32 P_i32 P_i32 (fun lhs rhs => into_res (i32_add lhs rhs)) (Dst_both result Reg_i64) (Src_reg Reg_i64) (Src_imm rhs)
  | I32Add_Rs_ss result lhs rhs => binary P_i32 P_i32 P_i32 (fun lhs rhs => into_res (i32_add lhs rhs)) (Dst_both result Reg_i64) (Src_slot lhs) (Src_slot rhs)
  | I32Add_Rs_si result lhs rhs => binary P_i32 P_i32 P_i32 (fun lhs rhs => into_res (i32_add lhs rhs)) (Dst_both result Reg_i64) (Src_slot lhs) (Src_imm rhs)
  | I32Mul_Rrr => binary P_i32 P_i32 P_i32 (fun lhs rhs => into_res (i32_mul lhs rhs)) (Dst_reg Reg_i64) (Src_reg Reg_i64) (Src_reg Reg_i64)
  | I32Mul_Rrs rhs => binary P_i32 P_i32 P_i32 (fun lhs rhs => into_res (i32_mul lhs rhs)) (Dst_reg Reg_i64) (Src_reg Reg_i64) (Src_slot rhs)
  | I32Mul_Rri rhs => binary P_i32 P_i32 P_i32 (fun lhs rhs => into_res (i32_mul lhs rhs)) (Dst_reg Reg_i64) (Src_reg Reg_i64) (Src_imm rhs)
  | I32Mul_Rss lhs rhs => binary P_i32 P_i32 P_i32 (fun lhs rhs => into_res (i32_mul lhs rhs)) (Dst_reg Reg_i64) (Src_slot lhs) (Src_slot rhs)
  | I32Mul_Rsi lhs rhs => binary P_i32 P_i32 P_i32 (fun lhs rhs => into_res (i32_mul lhs rhs)) (Dst_reg Reg_i64) (Src_slot lhs) (Src_imm rhs)
  | I32BitAnd_Rrs rhs => binary P_i32 P_i32 P_i32 (fun lhs rhs => into_res (i32_bitand lhs rhs)) (Dst_reg Reg_i64) (Src_reg Reg_i64) (Src_slot rhs)
  | I32BitAnd_Rri rhs => binary P_i32 P_i32 P_i32 (fun lhs rhs => into_res (i32_bitand lhs rhs)) (Dst_reg Reg_i64) (Src_reg Reg_i64) (Src_imm rhs)
  | I32BitAnd_Rss lhs rhs => binary P_i32 P_i32 P_i32 (fun lhs rhs => into_res (i32_bitand lhs rhs)) (Dst_reg Reg_i64) (Src_slot lhs) (Src_slot rhs)
  | I32BitAnd_Rsi lhs rhs => binary P_i32 P_i32 P_i32 (fun lhs rhs => into_res (i32_bitand lhs rhs)) (Dst_reg Reg_i64) (Src_slot lhs) (Src_imm rhs)
  | I32BitOr_Rrs rhs => binary P_i32 P_i32 P_i32 (fun lhs rhs => into_res (i32_bitor lhs rhs)) (Dst_reg Reg_i64) (Src_reg Reg_i64) (Src_slot rhs)
  | I32BitOr_Rri rhs => binary P_i32 P_i32 P_i32 (fun lhs rhs => into_res (i32_bitor lhs rhs)) (Dst_reg Reg_i64) (Src_reg Reg_i64) (Src_imm rhs)
  | I32BitOr_Rss lhs rhs => binary P_i32 P_i32 P_i32 (fun lhs rhs => into_res (i32_bitor lhs rhs)) (Dst_reg Reg_i64) (Src_slot lhs) (Src_slot rhs)
  | I32BitOr_Rsi lhs rhs => binary P_i32 P_i32 P_i32 (fun lhs rhs => into_res (i32_bitor lhs rhs)) (Dst_reg Reg_i64) (Src_slot lhs) (Src_imm rhs)
  | I32BitXor_Rrs rhs => binary P_i32 P_i32 P_i32 (fun lhs rhs => into_res (i32_bitxor lhs rhs)) (Dst_reg Reg_i64) (Src_reg Reg_i64) (Src_slot rhs)
  | I32BitXor_Rri rhs => binary P_i32 P_i32 P_i32 (fun lhs rhs => into_res (i32_bitxor lhs rhs)) (Dst_reg Reg_i64) (Src_reg Reg_i64) (Src_imm rhs)
  | I32BitXor_Rss lhs rhs => binary P_i32 P_i32 P_i32 (fun lhs rhs => into_res (i32_bitxor lhs rhs)) (Dst_reg Reg_i64) (Src_slot lhs) (Src_slot rhs)
  | I32BitXor_Rsi lhs rhs => binary P_i32 P_i32 P_i32 (fun lhs rhs => into_res (i32_bitxor lhs rhs)) (Dst_reg Reg_i64) (Src_slot lhs) (Src_imm rhs)
  | I32Sub_Rrs rhs => binary P_i32 P_i32 P_i32 (fun lhs rhs => into_res (i32_sub lhs rhs)) (Dst_reg Reg_i64) (Src_reg Reg_i64) (Src_slot rhs)
  | I32Sub_Rsr lhs => binary P_i32 P_i32 P_i32 (fun lhs rhs => into_res (i32_sub lhs rhs)) (Dst_reg Reg_i64) (Src_slot lhs) (Src_reg Reg_i64)
  | I32Sub_Rss lhs rhs => binary P_i32 P_i32 P_i32 (fun lhs rhs => into_res (i32_sub lhs rhs)) (Dst_reg Reg_i64) (Src_slot lhs) (Src_slot rhs)
  | I32Sub_Rir lhs => binary P_i32 P_i32 P_i32 (fun lhs rhs => into_res (i32_sub lhs rhs)) (Dst_reg Reg_i64) (Src_imm lhs) (Src_reg Reg_i64)
  | I32Sub_Ris lhs rhs => binary P_i32 P_i32 P_i32 (fun lhs rhs => into_res (i32_sub lhs rhs)) (Dst_reg Reg_i64) (Src_imm lhs) (Src_slot rhs)
  | I32Div_Rrs rhs => binary P_i32 P_i32 P_i32 (fun lhs rhs => into_res (i32_div_s lhs rhs)) (Dst_reg Reg_i64) (Src_reg Reg_i64) (Src_slot rhs)
  | I32Div_Rri rhs => binary P_i32 P_i32 P_i32 (fun lhs rhs => into_res (wasmi_i32_div_ssi lhs rhs)) (Dst_reg Reg_i64) (Src_reg Reg_i64) (Src_imm rhs)
  | I32Div_Rsr lhs => binary P_i32 P_i32 P_i32 (fun lhs rhs => into_res (i32_div_s lhs rhs)) (Dst_reg Reg_i64) (Src_slot lhs) (Src_reg Reg_i64)
  | I32Div_Rss lhs rhs => binary P_i32 P_i32 P_i32 (fun lhs rhs => into_res (i32_div_s lhs rhs)) (Dst_reg Reg_i64) (Src_slot lhs) (Src_slot rhs)
  | I32Div_Rsi lhs rhs => binary P_i32 P_i32 P_i32 (fun lhs rhs => into_res (wasmi_i32_div_ssi lhs rhs)) (Dst_reg Reg_i64) (Src_slot lhs) (Src_imm rhs)
  | I32Div_Rir lhs => binary P_i32 P_i32 P_i32 (fun lhs rhs => into_res (i32_div_s lhs rhs)) (Dst_reg Reg_i64) (Src_imm lhs) (Src_reg Reg_i64)
  | I32Div_Ris lhs rhs => binary P_i32 P_i32 P_i32 (fun lhs rhs => into_res (i32_div_s lhs rhs)) (Dst_reg Reg_i64) (Src_imm lhs) (Src_slot rhs)
  | U32Div_Rrs rhs => binary P_u32 P_u32 P_u32 (fun lhs rhs => into_res (i32_div_u lhs rhs)) (Dst_reg Reg_i64) (Src_reg Reg_i64) (Src_slot rhs)
  | U32Div_Rri rhs => binary P_u32 P_u32 P_u32 (fun lhs rhs => into_res (wasmi_u32_div_ssi lhs rhs)) (Dst_reg Reg_i64) (Src_reg Reg_i64) (Src_imm rhs)
  | U32Div_Rsr lhs => binary P_u32 P_u32 P_u32 (fun lhs rhs => into_res (i32_div_u lhs rhs)) (Dst_reg Reg_i64) (Src_slot lhs) (Src_reg Reg_i64)
  | U32Div_Rss lhs rhs => binary P_u32 P_u32 P_u32 (fun lhs rhs => into_res (i32_div_u lhs rhs)) (Dst_reg Reg_i64) (Src_slot lhs) (Src_slot rhs)
  | U32Div_Rsi lhs rhs => binary P_u32 P_u32 P_u32 (fun lhs rhs => into_res (wasmi_u32_div_ssi lhs rhs)) (Dst_reg Reg_i64) (Src_slot lhs) (Src_imm rhs)
  | U32Div_Rir lhs => binary P_u32 P_u32 P_u32 (fun lhs rhs => into_res (i32_div_u lhs rhs)) (Dst_reg Reg_i64) (Src_imm lhs) (Src_reg Reg_i64)
  | U32Div_Ris lhs rhs => binary P_u32 P_u32 P_u32 (fun lhs rhs => into_res (i32_div_u lhs rhs)) (Dst_reg Reg_i64) (Src_imm lhs) (Src_slot rhs)
  | I32Rem_Rrs rhs => binary P_i32 P_i32 P_i32 (fun lhs rhs => into_res (i32_rem_s lhs rhs)) (Dst_reg Reg_i64) (Src_reg Reg_i64) (Src_slot rhs)
  | I32Rem_Rri rhs => binary P_i32 P_i32 P_i32 (fun lhs rhs => into_res (wasmi_i32_rem_ssi lhs rhs)) (Dst_reg Reg_i64) (Src_reg Reg_i64) (Src_imm rhs)
  | I32Rem_Rsr lhs => binary P_i32 P_i32 P_i32 (fun lhs rhs => into_res (i32_rem_s lhs rhs)) (Dst_reg Reg_i64) (Src_slot lhs) (Src_reg Reg_i64)
  | I32Rem_Rss lhs rhs => binary P_i32 P_i32 P_i32 (fun lhs rhs => into_res (i32_rem_s lhs rhs)) (Dst_reg Reg_i64) (Src_slot lhs) (Src_slot rhs)
  | I32Rem_Rsi lhs rhs => binary P_i32 P_i32 P_i32 (fun lhs rhs => into_res (wasmi_i32_rem_ssi lhs rhs)) (Dst_reg Reg_i64) (Src_slot lhs) (Src_imm rhs)
  | I32Rem_Rir lhs => binary P_i32 P_i32 P_i32 (fun lhs rhs => into_res (i32_rem_s lhs rhs)) (Dst_reg Reg_i64) (Src_imm lhs) (Src_reg Reg_i64)
  | I32Rem_Ris lhs rhs => binary P_i32 P_i32 P_i32 (fun lhs rhs => into_res (i32_rem_s lhs rhs)) (Dst_reg Reg_i64) (Src_imm lhs) (Src_slot rhs)
  | U32Rem_Rrs rhs => binary P_u32 P_u32 P_u32 (fun lhs rhs => into_res (i32_rem_u lhs rhs)) (Dst_reg Reg_i64) (Src_reg Reg_i64) (Src_slot rhs)
  | U32Rem_Rri rhs => binary P_u32 P_u32 P_u32 (fun lhs rhs => into_res (wasmi_u32_rem_ssi lhs rhs)) (Dst_reg Reg_i64) (Src_reg Reg_i64) (Src_imm rhs)
  | U32Rem_Rsr lhs => binary P_u32 P_u32 P_u32 (fun lhs rhs => into_res (i32_rem_u lhs rhs)) (Dst_reg Reg_i64) (Src_slot lhs) (Src_reg Reg_i64)
  | U32Rem_Rss lhs rhs => binary P_u32 P_u32 P_u32 (fun lhs rhs => into_res (i32_rem_u lhs rhs)) (Dst_reg Reg_i64) (Src_slot lhs) (Src_slot rhs)
  | U32Rem_Rsi lhs rhs => binary P_u32 P_u32 P_u32 (fun lhs rhs => into_res (wasmi_u32_rem_ssi lhs rhs)) (Dst_reg Reg_i64) (Src_slot lhs) (Src_imm rhs)
  | U32Rem_Rir lhs => binary P_u32 P_u32 P_u32 (fun lhs rhs => into_res (i32_rem_u lhs rhs)) (Dst_reg Reg_i64) (Src_imm lhs) (Src_reg Reg_i64)
  | U32Rem_Ris lhs rhs => binary P_u32 P_u32 P_u32 (fun lhs rhs => into_res (i32_rem_u lhs rhs)) (Dst_reg Reg_i64) (Src_imm lhs) (Src_slot rhs)
  | I32Le_Rrs rhs => binary P_i32 P_i32 P_bool (fun lhs rhs => into_res (i32_le_s lhs rhs)) (Dst_reg Reg_i64) (Src_reg Reg_i64) (Src_slot rhs)
  | I32Le_Rri rhs => binary P_i32 P_i32 P_bool (fun lhs rhs => into_res (i32_le_s lhs rhs)) (Dst_reg Reg_i64) (Src_reg Reg_i64) (Src_imm rhs)
  | I32Le_Rsr lhs => binary P_i32 P_i32 P_bool (fun lhs rhs => into_res (i32_le_s lhs rhs)) (Dst_reg Reg_i64) (Src_slot lhs) (Src_reg Reg_i64)
  | I32Le_Rss lhs rhs => binary P_i32 P_i32 P_bool (fun lhs rhs => into_res (i32_le_s lhs rhs)) (Dst_reg Reg_i64) (Src_slot lhs) (Src_slot rhs)
  | I32Le_Rsi lhs rhs => binary P_i32 P_i32 P_bool (fun lhs rhs => into_res (i32_le_s lhs rhs)) (Dst_reg Reg_i64) (Src_slot lhs) (Src_imm rhs)
  | I32Le_Rir lhs => binary P_i32 P_i32 P_bool (fun lhs rhs => into_res (i32_le_s lhs rhs)) (Dst_reg Reg_i64) (Src_imm lhs) (Src_reg Reg_i64)
  | I32Le_Ris lhs rhs => binary P_i32 P_i32 P_bool (fun lhs rhs => into_res (i32_le_s lhs rhs)) (Dst_reg Reg_i64) (Src_imm lhs) (Src_slot rhs)
  | I32Lt_Rrs rhs => binary P_i32 P_i32 P_bool (fun lhs rhs => into_res (i32_lt_s lhs rhs)) (Dst_reg Reg_i64) (Src_reg Reg_i64) (Src_slot rhs)
  | I32Lt_Rri rhs => binary P_i32 P_i32 P_bool (fun lhs rhs => into_res (i32_lt_s lhs rhs)) (Dst_reg Reg_i64) (Src_reg Reg_i64) (Src_imm rhs)
  | I32Lt_Rsr lhs => binary P_i32 P_i32 P_bool (fun lhs rhs => into_res (i32_lt_s lhs rhs)) (Dst_reg Reg_i64) (Src_slot lhs) (Src_reg Reg_i64)
  | I32Lt_Rss lhs rhs => binary P_i32 P_i32 P_bool (fun lhs rhs => into_res (i32_lt_s lhs rhs)) (Dst_reg Reg_i64) (Src_slot lhs) (Src_slot rhs)
  | I32Lt_Rsi lhs rhs => binary P_i32 P_i32 P_bool (fun lhs rhs => into_res (i32_lt_s lhs rhs)) (Dst_reg Reg_i64) (Src_slot lhs) (Src_imm rhs)
  | I32Lt_Rir lhs => binary P_i32 P_i32 P_bool (fun lhs rhs => into_res (i32_lt_s lhs rhs)) (Dst_reg Reg_i64) (Src_imm lhs) (Src_reg Reg_i64)
  | I32Lt_Ris lhs rhs => binary P_i32 P_i32 P_bool (fun lhs rhs => into_res (i32_lt_s lhs rhs)) (Dst_reg Reg_i64) (Src_imm lhs) (Src_slot rhs)
  | U32Le_Rrs rhs => binary P_u32 P_u32 P_bool (fun lhs rhs => into_res (i32_le_u lhs rhs)) (Dst_reg Reg_i64) (Src_reg Reg_i64) (Src_slot rhs)
  | U32Le_Rri rhs => binary P_u32 P_u32 P_bool (fun lhs rhs => into_res (i32_le_u lhs rhs)) (Dst_reg Reg_i64) (Src_reg Reg_i64) (Src_imm rhs)
  | U32Le_Rsr lhs => binary P_u32 P_u32 P_bool (fun lhs rhs => into_res (i32_le_u lhs rhs)) (Dst_reg Reg_i64) (Src_slot lhs) (Src_reg Reg_i64)
  | U32Le_Rss lhs rhs => binary P_u32 P_u32 P_bool (fun lhs rhs => into_res (i32_le_u lhs rhs)) (Dst_reg Reg_i64) (Src_slot lhs) (Src_slot rhs)
  | U32Le_Rsi lhs rhs => binary P_u32 P_u32 P_bool (fun lhs rhs => into_res (i32_le_u lhs rhs)) (Dst_reg Reg_i64) (Src_slot lhs) (Src_imm rhs)
  | U32Le_Rir lhs => binary P_u32 P_u32 P_bool (fun lhs rhs => into_res (i32_le_u lhs rhs)) (Dst_reg Reg_i64) (Src_imm lhs) (Src_reg Reg_i64)
  | U32Le_Ris lhs rhs => binary P_u32 P_u32 P_bool (fun lhs rhs => into_res (i32_le_u lhs rhs)) (Dst_reg Reg_i64) (Src_imm lhs) (Src_slot rhs)
  | U32Lt_Rrs rhs => binary P_u32 P_u32 P_bool (fun lhs rhs => into_res (i32_lt_u lhs rhs)) (Dst_reg Reg_i64) (Src_reg Reg_i64) (Src_slot rhs)
  | U32Lt_Rri rhs => binary P_u32 P_u32 P_bool (fun lhs rhs => into_res (i32_lt_u lhs rhs)) (Dst_reg Reg_i64) (Src_reg Reg_i64) (Src_imm rhs)
  | U32Lt_Rsr lhs => binary P_u32 P_u32 P_bool (fun lhs rhs => into_res (i32_lt_u lhs rhs)) (Dst_reg Reg_i64) (Src_slot lhs) (Src_reg Reg_i64)
  | U32Lt_Rss lhs rhs => binary P_u32 P_u32 P_bool (fun lhs rhs => into_res (i32_lt_u lhs rhs)) (Dst_reg Reg_i64) (Src_slot lhs) (Src_slot rhs)
  | U32Lt_Rsi lhs rhs => binary P_u32 P_u32 P_bool (fun lhs rhs => into_res (i32_lt_u lhs rhs)) (Dst_reg Reg_i64) (Src_slot lhs) (Src_imm rhs)
  | U32Lt_Rir lhs => binary P_u32 P_u32 P_bool (fun lhs rhs => into_res (i32_lt_u lhs rhs)) (Dst_reg Reg_i64) (Src_imm lhs) (Src_reg Reg_i64)
  | U32Lt_Ris lhs rhs => binary P_u32 P_u32 P_bool (fun lhs rhs => into_res (i32_lt_u lhs rhs)) (Dst_reg Reg_i64) (Src_imm lhs) (Src_slot rhs)
  | I32Shl_Rrs rhs => binary P_i32 P_i32 P_i32 (fun lhs rhs => into_res (i32_shl lhs rhs)) (Dst_reg Reg_i64) (Src_reg Reg_i64) (Src_slot rhs)
  | I32Shl_Rri rhs => binary P_i32 P_u8 P_i32 (fun lhs rhs => into_res (wasmi_i32_shl_ssi lhs rhs)) (Dst_reg Reg_i64) (Src_reg Reg_i64) (Src_imm rhs)
  | I32Shl_Rsr lhs => binary P_i32 P_i32 P_i32 (fun lhs rhs => into_res (i32_shl lhs rhs)) (Dst_reg Reg_i64) (Src_slot lhs) (Src_reg Reg_i64)
  | I32Shl_Rss lhs rhs => binary P_i32 P_i32 P_i32 (fun lhs rhs => into_res (i32_shl lhs rhs)) (Dst_reg Reg_i64) (Src_slot lhs) (Src_slot rhs)
  | I32Shl_Rsi lhs rhs => binary P_i32 P_u8 P_i32 (fun lhs rhs => into_res (wasmi_i32_shl_ssi lhs rhs)) (Dst_reg Reg_i64) (Src_slot lhs) (Src_imm rhs)
  | I32Shl_Rir lhs => binary P_i32 P_i32 P_i32 (fun lhs rhs => into_res (i32_shl lhs rhs)) (Dst_reg Reg_i64) (Src_imm lhs) (Src_reg Reg_i64)
  | I32Shl_Ris lhs rhs => binary P_i32 P_i32 P_i32 (fun lhs rhs => into_res (i32_shl lhs rhs)) (Dst_reg Reg_i64) (Src_imm lhs) (Src_slot rhs)
  | I32Shr_Rrs rhs => binary P_i32 P_i32 P_i32 (fun lhs rhs => into_res (i32_shr_s lhs rhs)) (Dst_reg Reg_i64) (Src_reg Reg_i64) (Src_slot rhs)
  | I32Shr_Rri rhs => binary P_i32 P_u8 P_i32 (fun lhs rhs => into_res (wasmi_i32_shr_ssi lhs rhs)) (Dst_reg Reg_i64) (Src_reg Reg_i64) (Src_imm rhs)
  | I32Shr_Rsr lhs => binary P_i32 P_i32 P_i32 (fun lhs rhs => into_res (i32_shr_s lhs rhs)) (Dst_reg Reg_i64) (Src_slot lhs) (Src_reg Reg_i64)
  | I32Shr_Rss lhs rhs => binary P_i32 P_i32 P_i32 (fun lhs rhs => into_res (i32_shr_s lhs rhs)) (Dst_reg Reg_i64) (Src_slot lhs) (Src_slot rhs)
  | I32Shr_Rsi lhs rhs => binary P_i32 P_u8 P_i32 (fun lhs rhs => into_res (wasmi_i32_shr_ssi lhs rhs)) (Dst_reg Reg_i64) (Src_slot lhs) (Src_imm rhs)
  | I32Shr_Rir lhs => binary P_i32 P_i32 P_i32 (fun lhs rhs => into_res (i32_shr_s lhs rhs)) (Dst_reg Reg_i64) (Src_imm lhs) (Src_reg Reg_i64)
  | I32Shr_Ris lhs rhs => binary P_i32 P_i32 P_i32 (fun lhs rhs => into_res (i32_shr_s lhs rhs)) (Dst_reg Reg_i64) (Src_imm lhs) (Src_slot rhs)
  | U32Shr_Rrs rhs => binary P_u32 P_u32 P_u32 (fun lhs rhs => into_res (i32_shr_u lhs rhs)) (Dst_reg Reg_i64) (Src_reg Reg_i64) (Src_slot rhs)
  | U32Shr_Rri rhs => binary P_u32 P_u8 P_u32 (fun lhs rhs => into_res (wasmi_u32_shr_ssi lhs rhs)) (Dst_reg Reg_i64) (Src_reg Reg_i64) (Src_imm rhs)
  | U32Shr_Rsr lhs => binary P_u32 P_u32 P_u32 (fun lhs rhs => into_res (i32_shr_u lhs rhs)) (Dst_reg Reg_i64) (Src_slot lhs) (Src_reg Reg_i64)
  | U32Shr_Rss lhs rhs => binary P_u32 P_u32 P_u32 (fun lhs rhs => into_res (i32_shr_u lhs rhs)) (Dst_reg Reg_i64) (Src_slot lhs) (Src_slot rhs)
  | U32Shr_Rsi lhs rhs => binary P_u32 P_u8 P_u32 (fun lhs rhs => into_res (wasmi_u32_shr_ssi lhs rhs)) (Dst_reg Reg_i64) (Src_slot lhs) (Src_imm rhs)
  | U32Shr_Rir lhs => binary P_u32 P_u32 P_u32 (fun lhs rhs => into_res (i32_shr_u lhs rhs)) (Dst_reg Reg_i64) (Src_imm lhs) (Src_reg Reg_i64)
  | U32Shr_Ris lhs rhs => binary P_u32 P_u32 P_u32 (fun lhs rhs => into_res (i32_shr_u lhs rhs)) (Dst_reg Reg_i64) (Src_imm lhs) (Src_slot rhs)
  | I32Rotl_Rrs rhs => binary P_i32 P_i32 P_i32 (fun lhs rhs => into_res (i32_rotl lhs rhs)) (Dst_reg Reg_i64) (Src_reg Reg_i64) (Src_slot rhs)
  | I32Rotl_Rri rhs => binary P_i32 P_u8 P_i32 (fun lhs rhs => into_res (wasmi_i32_rotl_ssi lhs rhs)) (Dst_reg Reg_i64) (Src_reg Reg_i64) (Src_imm rhs)
  | I32Rotl_Rsr lhs => binary P_i32 P_i32 P_i32 (fun lhs rhs => into_res (i32_rotl lhs rhs)) (Dst_reg Reg_i64) (Src_slot lhs) (Src_reg Reg_i64)
  | I32Rotl_Rss lhs rhs => binary P_i32 P_i32 P_i32 (fun lhs rhs => into_res (i32_rotl lhs rhs)) (Dst_reg Reg_i64) (Src_slot lhs) (Src_slot rhs)
  | I32Rotl_Rsi lhs rhs => binary P_i32 P_u8 P_i32 (fun lhs rhs => into_res (wasmi_i32_rotl_ssi lhs rhs)) (Dst_reg Reg_i64) (Src_slot lhs) (Src_imm rhs)
  | I32Rotl_Rir lhs => binary P_i32 P_i32 P_i32 (fun lhs rhs => into_res (i32_rotl lhs rhs)) (Dst_reg Reg_i64) (Src_imm lhs) (Src_reg Reg_i64)
  | I32Rotl_Ris lhs rhs => binary P_i32 P_i32 P_i32 (fun lhs rhs => into_res (i32_rotl lhs rhs)) (Dst_reg Reg_i64) (Src_imm lhs) (Src_slot rhs)
  | I32Rotr_Rrs rhs => binary P_i32 P_i32 P_i32 (fun lhs rhs => into_res (i32_rotr lhs rhs)) (Dst_reg Reg_i64) (Src_reg Reg_i64) (Src_slot rhs)
  | I32Rotr_Rri rhs => binary P_i32 P_u8 P_i32 (fun lhs rhs => into_res (wasmi_i32_rotr_ssi lhs rhs)) (Dst_reg Reg_i64) (Src_reg Reg_i64) (Src_imm rhs)
  | I32Rotr_Rsr lhs => binary P_i32 P_i32 P_i32 (fun lhs rhs => into_res (i32_rotr lhs rhs)) (Dst_reg Reg_i64) (Src_slot lhs) (Src_reg Reg_i64)
  | I32Rotr_Rss lhs rhs => binary P_i32 P_i32 P_i32 (fun lhs rhs => into_res (i32_rotr lhs rhs)) (Dst_reg Reg_i64) (Src_slot lhs) (Src_slot rhs)
  | I32Rotr_Rsi lhs rhs => binary P_i32 P_u8 P_i32 (fun lhs rhs => into_res (wasmi_i32_rotr_ssi lhs rhs)) (Dst_reg Reg_i64) (Src_slot lhs) (Src_imm rhs)
  | I32Rotr_Rir lhs => binary P_i32 P_i32 P_i32 (fun lhs rhs => into_res (i32_rotr lhs rhs)) (Dst_reg Reg_i64) (Src_imm lhs) (Src_reg Reg_i64)
  | I32Rotr_Ris lhs rhs => binary P_i32 P_i32 P_i32 (fun lhs rhs => into_res (i32_rotr lhs rhs)) (Dst_reg Reg_i64) (Src_imm lhs) (Src_slot rhs)
  end.

Definition binary_i64_handler (op : BinaryInstI64) : BinaryHandler :=
  match op with
  | I64Eq_Rrs rhs => binary P_i64 P_i64 P_bool (fun lhs rhs => into_res (i64_eq lhs rhs)) (Dst_reg Reg_i64) (Src_reg Reg_i64) (Src_slot rhs)
  | I64Eq_Rri rhs => binary P_i64 P_i64 P_bool (fun lhs rhs => into_res (i64_eq lhs rhs)) (Dst_reg Reg_i64) (Src_reg Reg_i64) (Src_imm rhs)
  | I64Eq_Rss lhs rhs => binary P_i64 P_i64 P_bool (fun lhs rhs => into_res (i64_eq lhs rhs)) (Dst_reg Reg_i64) (Src_slot lhs) (Src_slot rhs)
  | I64Eq_Rsi lhs rhs => binary P_i64 P_i64 P_bool (fun lhs rhs => into_res (i64_eq lhs rhs)) (Dst_reg Reg_i64) (Src_slot lhs) (Src_imm rhs)
  | I64And_Rrs rhs => binary P_i64 P_i64 P_bool (fun lhs rhs => into_res (wasmi_i64_and lhs rhs)) (Dst_reg Reg_i64) (Src_reg Reg_i64) (Src_slot rhs)
  | I64And_Rri rhs => binary P_i64 P_i64 P_bool (fun lhs rhs => into_res (wasmi_i64_and lhs rhs)) (Dst_reg Reg_i64) (Src_reg Reg_i64) (Src_imm rhs)
  | I64And_Rss lhs rhs => binary P_i64 P_i64 P_bool (fun lhs rhs => into_res (wasmi_i64_and lhs rhs)) (Dst_reg Reg_i64) (Src_slot lhs) (Src_slot rhs)
  | I64And_Rsi lhs rhs => binary P_i64 P_i64 P_bool (fun lhs rhs => into_res (wasmi_i64_and lhs rhs)) (Dst_reg Reg_i64) (Src_slot lhs) (Src_imm rhs)
  | I64Or_Rrs rhs => binary P_i64 P_i64 P_bool (fun lhs rhs => into_res (wasmi_i64_or lhs rhs)) (Dst_reg Reg_i64) (Src_reg Reg_i64) (Src_slot rhs)
  | I64Or_Rri rhs => binary P_i64 P_i64 P_bool (fun lhs rhs => into_res (wasmi_i64_or lhs rhs)) (Dst_reg Reg_i64) (Src_reg Reg_i64) (Src_imm rhs)
  | I64Or_Rss lhs rhs => binary P_i64 P_i64 P_bool (fun lhs rhs => into_res (wasmi_i64_or lhs rhs)) (Dst_reg Reg_i64) (Src_slot lhs) (Src_slot rhs)
  | I64Or_Rsi lhs rhs => binary P_i64 P_i64 P_bool (fun lhs rhs => into_res (wasmi_i64_or lhs rhs)) (Dst_reg Reg_i64) (Src_slot lhs) (Src_imm rhs)
  | I64NotEq_Rrs rhs => binary P_i64 P_i64 P_bool (fun lhs rhs => into_res (i64_ne lhs rhs)) (Dst_reg Reg_i64) (Src_reg Reg_i64) (Src_slot rhs)
  | I64NotEq_Rri rhs => binary P_i64 P_i64 P_bool (fun lhs rhs => into_res (i64_ne lhs rhs)) (Dst_reg Reg_i64) (Src_reg Reg_i64) (Src_imm rhs)
  | I64NotEq_Rss lhs rhs => binary P_i64 P_i64 P_bool (fun lhs rhs => into_res (i64_ne lhs rhs)) (Dst_reg Reg_i64) (Src_slot lhs) (Src_slot rhs)
  | I64NotEq_Rsi lhs rhs => binary P_i64 P_i64 P_bool (fun lhs rhs => into_res (i64_ne lhs rhs)) (Dst_reg Reg_i64) (Src_slot lhs) (Src_imm rhs)
  | I64NotAnd_Rrs rhs => binary P_i64 P_i64 P_bool (fun lhs rhs => into_res (wasmi_i64_not_and lhs rhs)) (Dst_reg Reg_i64) (Src_reg Reg_i64) (Src_slot rhs)
  | I64NotAnd_Rri rhs => binary P_i64 P_i64 P_bool (fun lhs rhs => into_res (wasmi_i64_not_and lhs rhs)) (Dst_reg Reg_i64) (Src_reg Reg_i64) (Src_imm rhs)
  | I64NotAnd_Rss lhs rhs => binary P_i64 P_i64 P_bool (fun lhs rhs => into_res (wasmi_i64_not_and lhs rhs)) (Dst_reg Reg_i64) (Src_slot lhs) (Src_slot rhs)
  | I64NotAnd_Rsi lhs rhs => binary P_i64 P_i64 P_bool (fun lhs rhs => into_res (wasmi_i64_not_and lhs rhs)) (Dst_reg Reg_i64) (Src_slot lhs) (Src_imm rhs)
  | I64NotOr_Rrs rhs => binary P_i64 P_i64 P_bool (fun lhs rhs => into_res (wasmi_i64_not_or lhs rhs)) (Dst_reg Reg_i64) (Src_reg Reg_i64) (Src_slot rhs)
  | I64NotOr_Rri rhs => binary P_i64 P_i64 P_bool (fun lhs rhs => into_res (wasmi_i64_not_or lhs rhs)) (Dst_reg Reg_i64) (Src_reg Reg_i64) (Src_imm rhs)
  | I64NotOr_Rss lhs rhs => binary P_i64 P_i64 P_bool (fun lhs rhs => into_res (wasmi_i64_not_or lhs rhs)) (Dst_reg Reg_i64) (Src_slot lhs) (Src_slot rhs)
  | I64NotOr_Rsi lhs rhs => binary P_i64 P_i64 P_bool (fun lhs rhs => into_res (wasmi_i64_not_or lhs rhs)) (Dst_reg Reg_i64) (Src_slot lhs) (Src_imm rhs)
  | I64Add_Rrs rhs => binary P_i64 P_i64 P_i64 (fun lhs rhs => into_res (i64_add lhs rhs)) (Dst_reg Reg_i64) (Src_reg Reg_i64) (Src_slot rhs)
  | I64Add_Rri rhs => binary P_i64 P_i64 P_i64 (fun lhs rhs => into_res (i64_add lhs rhs)) (Dst_reg Reg_i64) (Src_reg Reg_i64) (Src_imm rhs)
  | I64Add_Rss lhs rhs => binary P_i64 P_i64 P_i64 (fun lhs rhs => into_res (i64_add lhs rhs)) (Dst_reg Reg_i64) (Src_slot lhs) (Src_slot rhs)
  | I64Add_Rsi lhs rhs => binary P_i64 P_i64 P_i64 (fun lhs rhs => into_res (i64_add lhs rhs)) (Dst_reg Reg_i64) (Src_slot lhs) (Src_imm rhs)
  | I64Add_Rs_rs result rhs => binary P_i64 P_i64 P_i64 (fun lhs rhs => into_res (i64_add lhs rhs)) (Dst_both result Reg_i64) (Src_reg Reg_i64) (Src_slot rhs)
  | I64Add_Rs_ri result rhs => binary P_i64 P_i64 P_i64 (fun lhs rhs => into_res (i64_add lhs rhs)) (Dst_both result Reg_i64) (Src_reg Reg_i64) (Src_imm rhs)
  | I64Add_Rs_ss result lhs rhs => binary P_i64 P_i64 P_i64 (fun lhs rhs => into_res (i64_add lhs rhs)) (Dst_both result Reg_i64) (Src_slot lhs) (Src_slot rhs)
  | I64Add_Rs_si result lhs rhs => binary P_i64 P_i64 P_i64 (fun lhs rhs => into_res (i64_add lhs rhs)) (Dst_both result Reg_i64) (Src_slot lhs) (Src_imm rhs)
  | I64Mul_Rrr => binary P_i64 P_i64 P_i64 (fun lhs rhs => into_res (i64_mul lhs rhs)) (Dst_reg Reg_i64) (Src_reg Reg_i64) (Src_reg Reg_i64)
  | I64Mul_Rrs rhs => binary P_i64 P_i64 P_i64 (fun lhs rhs => into_res (i64_mul lhs rhs)) (Dst_reg Reg_i64) (Src_reg Reg_i64) (Src_slot rhs)
  | I64Mul_Rri rhs => binary P_i64 P_i64 P_i64 (fun lhs rhs => into_res (i64_mul lhs rhs)) (Dst_reg Reg_i64) (Src_reg Reg_i64) (Src_imm rhs)
  | I64Mul_Rss lhs rhs => binary P_i64 P_i64 P_i64 (fun lhs rhs => into_res (i64_mul lhs rhs)) (Dst_reg Reg_i64) (Src_slot lhs) (Src_slot rhs)
  | I64Mul_Rsi lhs rhs => binary P_i64 P_i64 P_i64 (fun lhs rhs => into_res (i64_mul lhs rhs)) (Dst_reg Reg_i64) (Src_slot lhs) (Src_imm rhs)
  | I64BitAnd_Rrs rhs => binary P_i64 P_i64 P_i64 (fun lhs rhs => into_res (i64_bitand lhs rhs)) (Dst_reg Reg_i64) (Src_reg Reg_i64) (Src_slot rhs)
  | I64BitAnd_Rri rhs => binary P_i64 P_i64 P_i64 (fun lhs rhs => into_res (i64_bitand lhs rhs)) (Dst_reg Reg_i64) (Src_reg Reg_i64) (Src_imm rhs)
  | I64BitAnd_Rss lhs rhs => binary P_i64 P_i64 P_i64 (fun lhs rhs => into_res (i64_bitand lhs rhs)) (Dst_reg Reg_i64) (Src_slot lhs) (Src_slot rhs)
  | I64BitAnd_Rsi lhs rhs => binary P_i64 P_i64 P_i64 (fun lhs rhs => into_res (i64_bitand lhs rhs)) (Dst_reg Reg_i64) (Src_slot lhs) (Src_imm rhs)
  | I64BitOr_Rrs rhs => binary P_i64 P_i64 P_i64 (fun lhs rhs => into_res (i64_bitor lhs rhs)) (Dst_reg Reg_i64) (Src_reg Reg_i64) (Src_slot rhs)
  | I64BitOr_Rri rhs => binary P_i64 P_i64 P_i64 (fun lhs rhs => into_res (i64_bitor lhs rhs)) (Dst_reg Reg_i64) (Src_reg Reg_i64) (Src_imm rhs)
  | I64BitOr_Rss lhs rhs => binary P_i64 P_i64 P_i64 (fun lhs rhs => into_res (i64_bitor lhs rhs)) (Dst_reg Reg_i64) (Src_slot lhs) (Src_slot rhs)
  | I64BitOr_Rsi lhs rhs => binary P_i64 P_i64 P_i64 (fun lhs rhs => into_res (i64_bitor lhs rhs)) (Dst_reg Reg_i64) (Src_slot lhs) (Src_imm rhs)
  | I64BitXor_Rrs rhs => binary P_i64 P_i64 P_i64 (fun lhs rhs => into_res (i64_bitxor lhs rhs)) (Dst_reg Reg_i64) (Src_reg Reg_i64) (Src_slot rhs)
  | I64BitXor_Rri rhs => binary P_i64 P_i64 P_i64 (fun lhs rhs => into_res (i64_bitxor lhs rhs)) (Dst_reg Reg_i64) (Src_reg Reg_i64) (Src_imm rhs)
  | I64BitXor_Rss lhs rhs => binary P_i64 P_i64 P_i64 (fun lhs rhs => into_res (i64_bitxor lhs rhs)) (Dst_reg Reg_i64) (Src_slot lhs) (Src_slot rhs)
  | I64BitXor_Rsi lhs rhs => binary P_i64 P_i64 P_i64 (fun lhs rhs => into_res (i64_bitxor lhs rhs)) (Dst_reg Reg_i64) (Src_slot lhs) (Src_imm rhs)
  | I64Sub_Rrs rhs => binary P_i64 P_i64 P_i64 (fun lhs rhs => into_res (i64_sub lhs rhs)) (Dst_reg Reg_i64) (Src_reg Reg_i64) (Src_slot rhs)
  | I64Sub_Rsr lhs => binary P_i64 P_i64 P_i64 (fun lhs rhs => into_res (i64_sub lhs rhs)) (Dst_reg Reg_i64) (Src_slot lhs) (Src_reg Reg_i64)
  | I64Sub_Rss lhs rhs => binary P_i64 P_i64 P_i64 (fun lhs rhs => into_res (i64_sub lhs rhs)) (Dst_reg Reg_i64) (Src_slot lhs) (Src_slot rhs)
  | I64Sub_Rir lhs => binary P_i64 P_i64 P_i64 (fun lhs rhs => into_res (i64_sub lhs rhs)) (Dst_reg Reg_i64) (Src_imm lhs) (Src_reg Reg_i64)
  | I64Sub_Ris lhs rhs => binary P_i64 P_i64 P_i64 (fun lhs rhs => into_res (i64_sub lhs rhs)) (Dst_reg Reg_i64) (Src_imm lhs) (Src_slot rhs)
  | I64Div_Rrs rhs => binary P_i64 P_i64 P_i64 (fun lhs rhs => into_res (i64_div_s lhs rhs)) (Dst_reg Reg_i64) (Src_reg Reg_i64) (Src_slot rhs)
  | I64Div_Rri rhs => binary P_i64 P_i64 P_i64 (fun lhs rhs => into_res (wasmi_i64_div_ssi lhs rhs)) (Dst_reg Reg_i64) (Src_reg Reg_i64) (Src_imm rhs)
  | I64Div_Rsr lhs => binary P_i64 P_i64 P_i64 (fun lhs rhs => into_res (i64_div_s lhs rhs)) (Dst_reg Reg_i64) (Src_slot lhs) (Src_reg Reg_i64)
  | I64Div_Rss lhs rhs => binary P_i64 P_i64 P_i64 (fun lhs rhs => into_res (i64_div_s lhs rhs)) (Dst_reg Reg_i64) (Src_slot lhs) (Src_slot rhs)
  | I64Div_Rsi lhs rhs => binary P_i64 P_i64 P_i64 (fun lhs rhs => into_res (wasmi_i64_div_ssi lhs rhs)) (Dst_reg Reg_i64) (Src_slot lhs) (Src_imm rhs)
  | I64Div_Rir lhs => binary P_i64 P_i64 P_i64 (fun lhs rhs => into_res (i64_div_s lhs rhs)) (Dst_reg Reg_i64) (Src_imm lhs) (Src_reg Reg_i64)
  | I64Div_Ris lhs rhs => binary P_i64 P_i64 P_i64 (fun lhs rhs => into_res (i64_div_s lhs rhs)) (Dst_reg Reg_i64) (Src_imm lhs) (Src_slot rhs)
  | U64Div_Rrs rhs => binary P_u64 P_u64 P_u64 (fun lhs rhs => into_res (i64_div_u lhs rhs)) (Dst_reg Reg_i64) (Src_reg Reg_i64) (Src_slot rhs)
  | U64Div_Rri rhs => binary P_u64 P_u64 P_u64 (fun lhs rhs => into_res (wasmi_u64_div_ssi lhs rhs)) (Dst_reg Reg_i64) (Src_reg Reg_i64) (Src_imm rhs)
  | U64Div_Rsr lhs => binary P_u64 P_u64 P_u64 (fun lhs rhs => into_res (i64_div_u lhs rhs)) (Dst_reg Reg_i64) (Src_slot lhs) (Src_reg Reg_i64)
  | U64Div_Rss lhs rhs => binary P_u64 P_u64 P_u64 (fun lhs rhs => into_res (i64_div_u lhs rhs)) (Dst_reg Reg_i64) (Src_slot lhs) (Src_slot rhs)
  | U64Div_Rsi lhs rhs => binary P_u64 P_u64 P_u64 (fun lhs rhs => into_res (wasmi_u64_div_ssi lhs rhs)) (Dst_reg Reg_i64) (Src_slot lhs) (Src_imm rhs)
  | U64Div_Rir lhs => binary P_u64 P_u64 P_u64 (fun lhs rhs => into_res (i64_div_u lhs rhs)) (Dst_reg Reg_i64) (Src_imm lhs) (Src_reg Reg_i64)
  | U64Div_Ris lhs rhs => binary P_u64 P_u64 P_u64 (fun lhs rhs => into_res (i64_div_u lhs rhs)) (Dst_reg Reg_i64) (Src_imm lhs) (Src_slot rhs)
  | I64Rem_Rrs rhs => binary P_i64 P_i64 P_i64 (fun lhs rhs => into_res (i64_rem_s lhs rhs)) (Dst_reg Reg_i64) (Src_reg Reg_i64) (Src_slot rhs)
  | I64Rem_Rri rhs => binary P_i64 P_i64 P_i64 (fun lhs rhs => into_res (wasmi_i64_rem_ssi lhs rhs)) (Dst_reg Reg_i64) (Src_reg Reg_i64) (Src_imm rhs)
  | I64Rem_Rsr lhs => binary P_i64 P_i64 P_i64 (fun lhs rhs => into_res (i64_rem_s lhs rhs)) (Dst_reg Reg_i64) (Src_slot lhs) (Src_reg Reg_i64)
  | I64Rem_Rss lhs rhs => binary P_i64 P_i64 P_i64 (fun lhs rhs => into_res (i64_rem_s lhs rhs)) (Dst_reg Reg_i64) (Src_slot lhs) (Src_slot rhs)
  | I64Rem_Rsi lhs rhs => binary P_i64 P_i64 P_i64 (fun lhs rhs => into_res (wasmi_i64_rem_ssi lhs rhs)) (Dst_reg Reg_i64) (Src_slot lhs) (Src_imm rhs)
  | I64Rem_Rir lhs => binary P_i64 P_i64 P_i64 (fun lhs rhs => into_res (i64_rem_s lhs rhs)) (Dst_reg Reg_i64) (Src_imm lhs) (Src_reg Reg_i64)
  | I64Rem_Ris lhs rhs => binary P_i64 P_i64 P_i64 (fun lhs rhs => into_res (i64_rem_s lhs rhs)) (Dst_reg Reg_i64) (Src_imm lhs) (Src_slot rhs)
  | U64Rem_Rrs rhs => binary P_u64 P_u64 P_u64 (fun lhs rhs => into_res (i64_rem_u lhs rhs)) (Dst_reg Reg_i64) (Src_reg Reg_i64) (Src_slot rhs)
  | U64Rem_Rri rhs => binary P_u64 P_u64 P_u64 (fun lhs rhs => into_res (wasmi_u64_rem_ssi lhs rhs)) (Dst_reg Reg_i64) (Src_reg Reg_i64) (Src_imm rhs)
  | U64Rem_Rsr lhs => binary P_u64 P_u64 P_u64 (fun lhs rhs => into_res (i64_rem_u lhs rhs)) (Dst_reg Reg_i64) (Src_slot lhs) (Src_reg Reg_i64)
  | U64Rem_Rss lhs rhs => binary P_u64 P_u64 P_u64 (fun lhs rhs => into_res (i64_rem_u lhs rhs)) (Dst_reg Reg_i64) (Src_slot lhs) (Src_slot rhs)
  | U64Rem_Rsi lhs rhs => binary P_u64 P_u64 P_u64 (fun lhs rhs => into_res (wasmi_u64_rem_ssi lhs rhs)) (Dst_reg Reg_i64) (Src_slot lhs) (Src_imm rhs)
  | U64Rem_Rir lhs => binary P_u64 P_u64 P_u64 (fun lhs rhs => into_res (i64_rem_u lhs rhs)) (Dst_reg Reg_i64) (Src_imm lhs) (Src_reg Reg_i64)
  | U64Rem_Ris lhs rhs => binary P_u64 P_u64 P_u64 (fun lhs rhs => into_res (i64_rem_u lhs rhs)) (Dst_reg Reg_i64) (Src_imm lhs) (Src_slot rhs)
  | I64Le_Rrs rhs => binary P_i64 P_i64 P_bool (fun lhs rhs => into_res (i64_le_s lhs rhs)) (Dst_reg Reg_i64) (Src_reg Reg_i64) (Src_slot rhs)
  | I64Le_Rri rhs => binary P_i64 P_i64 P_bool (fun lhs rhs => into_res (i64_le_s lhs rhs)) (Dst_reg Reg_i64) (Src_reg Reg_i64) (Src_imm rhs)
  | I64Le_Rsr lhs => binary P_i64 P_i64 P_bool (fun lhs rhs => into_res (i64_le_s lhs rhs)) (Dst_reg Reg_i64) (Src_slot lhs) (Src_reg Reg_i64)
  | I64Le_Rss lhs rhs => binary P_i64 P_i64 P_bool (fun lhs rhs => into_res (i64_le_s lhs rhs)) (Dst_reg Reg_i64) (Src_slot lhs) (Src_slot rhs)
  | I64Le_Rsi lhs rhs => binary P_i64 P_i64 P_bool (fun lhs rhs => into_res (i64_le_s lhs rhs)) (Dst_reg Reg_i64) (Src_slot lhs) (Src_imm rhs)
  | I64Le_Rir lhs => binary P_i64 P_i64 P_bool (fun lhs rhs => into_res (i64_le_s lhs rhs)) (Dst_reg Reg_i64) (Src_imm lhs) (Src_reg Reg_i64)
  | I64Le_Ris lhs rhs => binary P_i64 P_i64 P_bool (fun lhs rhs => into_res (i64_le_s lhs rhs)) (Dst_reg Reg_i64) (Src_imm lhs) (Src_slot rhs)
  | I64Lt_Rrs rhs => binary P_i64 P_i64 P_bool (fun lhs rhs => into_res (i64_lt_s lhs rhs)) (Dst_reg Reg_i64) (Src_reg Reg_i64) (Src_slot rhs)
  | I64Lt_Rri rhs => binary P_i64 P_i64 P_bool (fun lhs rhs => into_res (i64_lt_s lhs rhs)) (Dst_reg Reg_i64) (Src_reg Reg_i64) (Src_imm rhs)
  | I64Lt_Rsr lhs => binary P_i64 P_i64 P_bool (fun lhs rhs => into_res (i64_lt_s lhs rhs)) (Dst_reg Reg_i64) (Src_slot lhs) (Src_reg Reg_i64)
  | I64Lt_Rss lhs rhs => binary P_i64 P_i64 P_bool (fun lhs rhs => into_res (i64_lt_s lhs rhs)) (Dst_reg Reg_i64) (Src_slot lhs) (Src_slot rhs)
  | I64Lt_Rsi lhs rhs => binary P_i64 P_i64 P_bool (fun lhs rhs => into_res (i64_lt_s lhs rhs)) (Dst_reg Reg_i64) (Src_slot lhs) (Src_imm rhs)
  | I64Lt_Rir lhs => binary P_i64 P_i64 P_bool (fun lhs rhs => into_res (i64_lt_s lhs rhs)) (Dst_reg Reg_i64) (Src_imm lhs) (Src_reg Reg_i64)
  | I64Lt_Ris lhs rhs => binary P_i64 P_i64 P_bool (fun lhs rhs => into_res (i64_lt_s lhs rhs)) (Dst_reg Reg_i64) (Src_imm lhs) (Src_slot rhs)
  | U64Le_Rrs rhs => binary P_u64 P_u64 P_bool (fun lhs rhs => into_res (i64_le_u lhs rhs)) (Dst_reg Reg_i64) (Src_reg Reg_i64) (Src_slot rhs)
  | U64Le_Rri rhs => binary P_u64 P_u64 P_bool (fun lhs rhs => into_res (i64_le_u lhs rhs)) (Dst_reg Reg_i64) (Src_reg Reg_i64) (Src_imm rhs)
  | U64Le_Rsr lhs => binary P_u64 P_u64 P_bool (fun lhs rhs => into_res (i64_le_u lhs rhs)) (Dst_reg Reg_i64) (Src_slot lhs) (Src_reg Reg_i64)
  | U64Le_Rss lhs rhs => binary P_u64 P_u64 P_bool (fun lhs rhs => into_res (i64_le_u lhs rhs)) (Dst_reg Reg_i64) (Src_slot lhs) (Src_slot rhs)
  | U64Le_Rsi lhs rhs => binary P_u64 P_u64 P_bool (fun lhs rhs => into_res (i64_le_u lhs rhs)) (Dst_reg Reg_i64) (Src_slot lhs) (Src_imm rhs)
  | U64Le_Rir lhs => binary P_u64 P_u64 P_bool (fun lhs rhs => into_res (i64_le_u lhs rhs)) (Dst_reg Reg_i64) (Src_imm lhs) (Src_reg Reg_i64)
  | U64Le_Ris lhs rhs => binary P_u64 P_u64 P_bool (fun lhs rhs => into_res (i64_le_u lhs rhs)) (Dst_reg Reg_i64) (Src_imm lhs) (Src_slot rhs)
  | U64Lt_Rrs rhs => binary P_u64 P_u64 P_bool (fun lhs rhs => into_res (i64_lt_u lhs rhs)) (Dst_reg Reg_i64) (Src_reg Reg_i64) (Src_slot rhs)
  | U64Lt_Rri rhs => binary P_u64 P_u64 P_bool (fun lhs rhs => into_res (i64_lt_u lhs rhs)) (Dst_reg Reg_i64) (Src_reg Reg_i64) (Src_imm rhs)
  | U64Lt_Rsr lhs => binary P_u64 P_u64 P_bool (fun lhs rhs => into_res (i64_lt_u lhs rhs)) (Dst_reg Reg_i64) (Src_slot lhs) (Src_reg Reg_i64)
  | U64Lt_Rss lhs rhs => binary P_u64 P_u64 P_bool (fun lhs rhs => into_res (i64_lt_u lhs rhs)) (Dst_reg Reg_i64) (Src_slot lhs) (Src_slot rhs)
  | U64Lt_Rsi lhs rhs => binary P_u64 P_u64 P_bool (fun lhs rhs => into_res (i64_lt_u lhs rhs)) (Dst_reg Reg_i64) (Src_slot lhs) (Src_imm rhs)
  | U64Lt_Rir lhs => binary P_u64 P_u64 P_bool (fun lhs rhs => into_res (i64_lt_u lhs rhs)) (Dst_reg Reg_i64) (Src_imm lhs) (Src_reg Reg_i64)
  | U64Lt_Ris lhs rhs => binary P_u64 P_u64 P_bool (fun lhs rhs => into_res (i64_lt_u lhs rhs)) (Dst_reg Reg_i64) (Src_imm lhs) (Src_slot rhs)
  | I64Shl_Rrs rhs => binary P_i64 P_i64 P_i64 (fun lhs rhs => into_res (i64_shl lhs rhs)) (Dst_reg Reg_i64) (Src_reg Reg_i64) (Src_slot rhs)
  | I64Shl_Rri rhs => binary P_i64 P_u8 P_i64 (fun lhs rhs => into_res (wasmi_i64_shl_ssi lhs rhs)) (Dst_reg Reg_i64) (Src_reg Reg_i64) (Src_imm rhs)
  | I64Shl_Rsr lhs => binary P_i64 P_i64 P_i64 (fun lhs rhs => into_res (i64_shl lhs rhs)) (Dst_reg Reg_i64) (Src_slot lhs) (Src_reg Reg_i64)
  | I64Shl_Rss lhs rhs => binary P_i64 P_i64 P_i64 (fun lhs rhs => into_res (i64_shl lhs rhs)) (Dst_reg Reg_i64) (Src_slot lhs) (Src_slot rhs)
  | I64Shl_Rsi lhs rhs => binary P_i64 P_u8 P_i64 (fun lhs rhs => into_res (wasmi_i64_shl_ssi lhs rhs)) (Dst_reg Reg_i64) (Src_slot lhs) (Src_imm rhs)
  | I64Shl_Rir lhs => binary P_i64 P_i64 P_i64 (fun lhs rhs => into_res (i64_shl lhs rhs)) (Dst_reg Reg_i64) (Src_imm lhs) (Src_reg Reg_i64)
  | I64Shl_Ris lhs rhs => binary P_i64 P_i64 P_i64 (fun lhs rhs => into_res (i64_shl lhs rhs)) (Dst_reg Reg_i64) (Src_imm lhs) (Src_slot rhs)
  | I64Shr_Rrs rhs => binary P_i64 P_i64 P_i64 (fun lhs rhs => into_res (i64_shr_s lhs rhs)) (Dst_reg Reg_i64) (Src_reg Reg_i64) (Src_slot rhs)
  | I64Shr_Rri rhs => binary P_i64 P_u8 P_i64 (fun lhs rhs => into_res (wasmi_i64_shr_ssi lhs rhs)) (Dst_reg Reg_i64) (Src_reg Reg_i64) (Src_imm rhs)
  | I64Shr_Rsr lhs => binary P_i64 P_i64 P_i64 (fun lhs rhs => into_res (i64_shr_s lhs rhs)) (Dst_reg Reg_i64) (Src_slot lhs) (Src_reg Reg_i64)
  | I64Shr_Rss lhs rhs => binary P_i64 P_i64 P_i64 (fun lhs rhs => into_res (i64_shr_s lhs rhs)) (Dst_reg Reg_i64) (Src_slot lhs) (Src_slot rhs)
  | I64Shr_Rsi lhs rhs => binary P_i64 P_u8 P_i64 (fun lhs rhs => into_res (wasmi_i64_shr_ssi lhs rhs)) (Dst_reg Reg_i64) (Src_slot lhs) (Src_imm rhs)
  | I64Shr_Rir lhs => binary P_i64 P_i64 P_i64 (fun lhs rhs => into_res (i64_shr_s lhs rhs)) (Dst_reg Reg_i64) (Src_imm lhs) (Src_reg Reg_i64)
  | I64Shr_Ris lhs rhs => binary P_i64 P_i64 P_i64 (fun lhs rhs => into_res (i64_shr_s lhs rhs)) (Dst_reg Reg_i64) (Src_imm lhs) (Src_slot rhs)
  | U64Shr_Rrs rhs => binary P_u64 P_u64 P_u64 (fun lhs rhs => into_res (i64_shr_u lhs rhs)) (Dst_reg Reg_i64) (Src_reg Reg_i64) (Src_slot rhs)
  | U64Shr_Rri rhs => binary P_u64 P_u8 P_u64 (fun lhs rhs => into_res (wasmi_u64_shr_ssi lhs rhs)) (Dst_reg Reg_i64) (Src_reg Reg_i64) (Src_imm rhs)
  | U64Shr_Rsr lhs => binary P_u64 P_u64 P_u64 (fun lhs rhs => into_res (i64_shr_u lhs rhs)) (Dst_reg Reg_i64) (Src_slot lhs) (Src_reg Reg_i64)
  | U64Shr_Rss lhs rhs => binary P_u64 P_u64 P_u64 (fun lhs rhs => into_res (i64_shr_u lhs rhs)) (Dst_reg Reg_i64) (Src_slot lhs) (Src_slot rhs)
  | U64Shr_Rsi lhs rhs => binary P_u64 P_u8 P_u64 (fun lhs rhs => into_res (wasmi_u64_shr_ssi lhs rhs)) (Dst_reg Reg_i64) (Src_slot lhs) (Src_imm rhs)
  | U64Shr_Rir lhs => binary P_u64 P_u64 P_u64 (fun lhs rhs => into_res (i64_shr_u lhs rhs)) (Dst_reg Reg_i64) (Src_imm lhs) (Src_reg Reg_i64)
  | U64Shr_Ris lhs rhs => binary P_u64 P_u64 P_u64 (fun lhs rhs => into_res (i64_shr_u lhs rhs)) (Dst_reg Reg_i64) (Src_imm lhs) (Src_slot rhs)
  | I64Rotl_Rrs rhs => binary P_i64 P_i64 P_i64 (fun lhs rhs => into_res (i64_rotl lhs rhs)) (Dst_reg Reg_i64) (Src_reg Reg_i64) (Src_slot rhs)
  | I64Rotl_Rri rhs => binary P_i64 P_u8 P_i64 (fun lhs rhs => into_res (wasmi_i64_rotl_ssi lhs rhs)) (Dst_reg Reg_i64) (Src_reg Reg_i64) (Src_imm rhs)
  | I64Rotl_Rsr lhs => binary P_i64 P_i64 P_i64 (fun lhs rhs => into_res (i64_rotl lhs rhs)) (Dst_reg Reg_i64) (Src_slot lhs) (Src_reg Reg_i64)
  | I64Rotl_Rss lhs rhs => binary P_i64 P_i64 P_i64 (fun lhs rhs => into_res (i64_rotl lhs rhs)) (Dst_reg Reg_i64) (Src_slot lhs) (Src_slot rhs)
  | I64Rotl_Rsi lhs rhs => binary P_i64 P_u8 P_i64 (fun lhs rhs => into_res (wasmi_i64_rotl_ssi lhs rhs)) (Dst_reg Reg_i64) (Src_slot lhs) (Src_imm rhs)
  | I64Rotl_Rir lhs => binary P_i64 P_i64 P_i64 (fun lhs rhs => into_res (i64_rotl lhs rhs)) (Dst_reg Reg_i64) (Src_imm lhs) (Src_reg Reg_i64)
  | I64Rotl_Ris lhs rhs => binary P_i64 P_i64 P_i64 (fun lhs rhs => into_res (i64_rotl lhs rhs)) (Dst_reg Reg_i64) (Src_imm lhs) (Src_slot rhs)
  | I64Rotr_Rrs rhs => binary P_i64 P_i64 P_i64 (fun lhs rhs => into_res (i64_rotr lhs rhs)) (Dst_reg Reg_i64) (Src_reg Reg_i64) (Src_slot rhs)
  | I64Rotr_Rri rhs => binary P_i64 P_u8 P_i64 (fun lhs rhs => into_res (wasmi_i64_rotr_ssi lhs rhs)) (Dst_reg Reg_i64) (Src_reg Reg_i64) (Src_imm rhs)
  | I64Rotr_Rsr lhs => binary P_i64 P_i64 P_i64 (fun lhs rhs => into_res (i64_rotr lhs rhs)) (Dst_reg Reg_i64) (Src_slot lhs) (Src_reg Reg_i64)
  | I64Rotr_Rss lhs rhs => binary P_i64 P_i64 P_i64 (fun lhs rhs => into_res (i64_rotr lhs rhs)) (Dst_reg Reg_i64) (Src_slot lhs) (Src_slot rhs)
  | I64Rotr_Rsi lhs rhs => binary P_i64 P_u8 P_i64 (fun lhs rhs => into_res (wasmi_i64_rotr_ssi lhs rhs)) (Dst_reg Reg_i64) (Src_slot lhs) (Src_imm rhs)
  | I64Rotr_Rir lhs => binary P_i64 P_i64 P_i64 (fun lhs rhs => into_res (i64_rotr lhs rhs)) (Dst_reg Reg_i64) (Src_imm lhs) (Src_reg Reg_i64)
  | I64Rotr_Ris lhs rhs => binary P_i64 P_i64 P_i64 (fun lhs rhs => into_res (i64_rotr lhs rhs)) (Dst_reg Reg_i64) (Src_imm lhs) (Src_slot rhs)
  end.

Definition binary_f32_handler (op : BinaryInstF32) : BinaryHandler :=
  match op with
  | F32Add_Rrs rhs => binary P_f32 P_f32 P_f32 (fun lhs rhs => into_res (f32_add lhs rhs)) (Dst_reg Reg_f32) (Src_reg Reg_f32) (Src_slot rhs)
  | F32Add_Rri rhs => binary P_f32 P_f32 P_f32 (fun lhs rhs => into_res (f32_add lhs rhs)) (Dst_reg Reg_f32) (Src_reg Reg_f32) (Src_imm rhs)
  | F32Add_Rsr lhs => binary P_f32 P_f32 P_f32 (fun lhs rhs => into_res (f32_add lhs rhs)) (Dst_reg Reg_f32) (Src_slot lhs) (Src_reg Reg_f32)
  | F32Add_Rss lhs rhs => binary P_f32 P_f32 P_f32 (fun lhs rhs => into_res (f32_add lhs rhs)) (Dst_reg Reg_f32) (Src_slot lhs) (Src_slot rhs)
  | F32Add_Rsi lhs rhs => binary P_f32 P_f32 P_f32 (fun lhs rhs => into_res (f32_add lhs rhs)) (Dst_reg Reg_f32) (Src_slot lhs) (Src_imm rhs)
  | F32Add_Rir lhs => binary P_f32 P_f32 P_f32 (fun lhs rhs => into_res (f32_add lhs rhs)) (Dst_reg Reg_f32) (Src_imm lhs) (Src_reg Reg_f32)
  | F32Add_Ris lhs rhs => binary P_f32 P_f32 P_f32 (fun lhs rhs => into_res (f32_add lhs rhs)) (Dst_reg Reg_f32) (Src_imm lhs) (Src_slot rhs)
  | F32Sub_Rrs rhs => binary P_f32 P_f32 P_f32 (fun lhs rhs => into_res (f32_sub lhs rhs)) (Dst_reg Reg_f32) (Src_reg Reg_f32) (Src_slot rhs)
  | F32Sub_Rri rhs => binary P_f32 P_f32 P_f32 (fun lhs rhs => into_res (f32_sub lhs rhs)) (Dst_reg Reg_f32) (Src_reg Reg_f32) (Src_imm rhs)
  | F32Sub_Rsr lhs => binary P_f32 P_f32 P_f32 (fun lhs rhs => into_res (f32_sub lhs rhs)) (Dst_reg Reg_f32) (Src_slot lhs) (Src_reg Reg_f32)
  | F32Sub_Rss lhs rhs => binary P_f32 P_f32 P_f32 (fun lhs rhs => into_res (f32_sub lhs rhs)) (Dst_reg Reg_f32) (Src_slot lhs) (Src_slot rhs)
  | F32Sub_Rsi lhs rhs => binary P_f32 P_f32 P_f32 (fun lhs rhs => into_res (f32_sub lhs rhs)) (Dst_reg Reg_f32) (Src_slot lhs) (Src_imm rhs)
  | F32Sub_Rir lhs => binary P_f32 P_f32 P_f32 (fun lhs rhs => into_res (f32_sub lhs rhs)) (Dst_reg Reg_f32) (Src_imm lhs) (Src_reg Reg_f32)
  | F32Sub_Ris lhs rhs => binary P_f32 P_f32 P_f32 (fun lhs rhs => into_res (f32_sub lhs rhs)) (Dst_reg Reg_f32) (Src_imm lhs) (Src_slot rhs)
  | F32Mul_Rrr => binary P_f32 P_f32 P_f32 (fun lhs rhs => into_res (f32_mul lhs rhs)) (Dst_reg Reg_f32) (Src_reg Reg_f32) (Src_reg Reg_f32)
  | F32Mul_Rrs rhs => binary P_f32 P_f32 P_f32 (fun lhs rhs => into_res (f32_mul lhs rhs)) (Dst_reg Reg_f32) (Src_reg Reg_f32) (Src_slot rhs)
  | F32Mul_Rri rhs => binary P_f32 P_f32 P_f32 (fun lhs rhs => into_res (f32_mul lhs rhs)) (Dst_reg Reg_f32) (Src_reg Reg_f32) (Src_imm rhs)
  | F32Mul_Rsr lhs => binary P_f32 P_f32 P_f32 (fun lhs rhs => into_res (f32_mul lhs rhs)) (Dst_reg Reg_f32) (Src_slot lhs) (Src_reg Reg_f32)
  | F32Mul_Rss lhs rhs => binary P_f32 P_f32 P_f32 (fun lhs rhs => into_res (f32_mul lhs rhs)) (Dst_reg Reg_f32) (Src_slot lhs) (Src_slot rhs)
  | F32Mul_Rsi lhs rhs => binary P_f32 P_f32 P_f32 (fun lhs rhs => into_res (f32_mul lhs rhs)) (Dst_reg Reg_f32) (Src_slot lhs) (Src_imm rhs)
  | F32Mul_Rir lhs => binary P_f32 P_f32 P_f32 (fun lhs rhs => into_res (f32_mul lhs rhs)) (Dst_reg Reg_f32) (Src_imm lhs) (Src_reg Reg_f32)
  | F32Mul_Ris lhs rhs => binary P_f32 P_f32 P_f32 (fun lhs rhs => into_res (f32_mul lhs rhs)) (Dst_reg Reg_f32) (Src_imm lhs) (Src_slot rhs)
  | F32Div_Rrs rhs => binary P_f32 P_f32 P_f32 (fun lhs rhs => into_res (f32_div lhs rhs)) (Dst_reg Reg_f32) (Src_reg Reg_f32) (Src_slot rhs)
  | F32Div_Rri rhs => binary P_f32 P_f32 P_f32 (fun lhs rhs => into_res (f32_div lhs rhs)) (Dst_reg Reg_f32) (Src_reg Reg_f32) (Src_imm rhs)
  | F32Div_Rsr lhs => binary P_f32 P_f32 P_f32 (fun lhs rhs => into_res (f32_div lhs rhs)) (Dst_reg Reg_f32) (Src_slot lhs) (Src_reg Reg_f32)
  | F32Div_Rss lhs rhs => binary P_f32 P_f32 P_f32 (fun lhs rhs => into_res (f32_div lhs rhs)) (Dst_reg Reg_f32) (Src_slot lhs) (Src_slot rhs)
  | F32Div_Rsi lhs rhs => binary P_f32 P_f32 P_f32 (fun lhs rhs => into_res (f32_div lhs rhs)) (Dst_reg Reg_f32) (Src_slot lhs) (Src_imm rhs)
  | F32Div_Rir lhs => binary P_f32 P_f32 P_f32 (fun lhs rhs => into_res (f32_div lhs rhs)) (Dst_reg Reg_f32) (Src_imm lhs) (Src_reg Reg_f32)
  | F32Div_Ris lhs rhs => binary P_f32 P_f32 P_f32 (fun lhs rhs => into_res (f32_div lhs rhs)) (Dst_reg Reg_f32) (Src_imm lhs) (Src_slot rhs)
  | F32Min_Rrs rhs => binary P_f32 P_f32 P_f32 (fun lhs rhs => into_res (f32_min lhs rhs)) (Dst_reg Reg_f32) (Src_reg Reg_f32) (Src_slot rhs)
  | F32Min_Rri rhs => binary P_f32 P_f32 P_f32 (fun lhs rhs => into_res (f32_min lhs rhs)) (Dst_reg Reg_f32) (Src_reg Reg_f32) (Src_imm rhs)
  | F32Min_Rsr lhs => binary P_f32 P_f32 P_f32 (fun lhs rhs => into_res (f32_min lhs rhs)) (Dst_reg Reg_f32) (Src_slot lhs) (Src_reg Reg_f32)
  | F32Min_Rss lhs rhs => binary P_f32 P_f32 P_f32 (fun lhs rhs => into_res (f32_min lhs rhs)) (Dst_reg Reg_f32) (Src_slot lhs) (Src_slot rhs)
  | F32Min_Rsi lhs rhs => binary P_f32 P_f32 P_f32 (fun lhs rhs => into_res (f32_min lhs rhs)) (Dst_reg Reg_f32) (Src_slot lhs) (Src_imm rhs)
  | F32Min_Rir lhs => binary P_f32 P_f32 P_f32 (fun lhs rhs => into_res (f32_min lhs rhs)) (Dst_reg Reg_f32) (Src_imm lhs) (Src_reg Reg_f32)
  | F32Min_Ris lhs rhs => binary P_f32 P_f32 P_f32 (fun lhs rhs => into_res (f32_min lhs rhs)) (Dst_reg Reg_f32) (Src_imm lhs) (Src_slot rhs)
  | F32Max_Rrs rhs => binary P_f32 P_f32 P_f32 (fun lhs rhs => into_res (f32_max lhs rhs)) (Dst_reg Reg_f32) (Src_reg Reg_f32) (Src_slot rhs)
  | F32Max_Rri rhs => binary P_f32 P_f32 P_f32 (fun lhs rhs => into_res (f32_max lhs rhs)) (Dst_reg Reg_f32) (Src_reg Reg_f32) (Src_imm rhs)
  | F32Max_Rsr lhs => binary P_f32 P_f32 P_f32 (fun lhs rhs => into_res (f32_max lhs rhs)) (Dst_reg Reg_f32) (Src_slot lhs) (Src_reg Reg_f32)
  | F32Max_Rss lhs rhs => binary P_f32 P_f32 P_f32 (fun lhs rhs => into_res (f32_max lhs rhs)) (Dst_reg Reg_f32) (Src_slot lhs) (Src_slot rhs)
  | F32Max_Rsi lhs rhs => binary P_f32 P_f32 P_f32 (fun lhs rhs => into_res (f32_max lhs rhs)) (Dst_reg Reg_f32) (Src_slot lhs) (Src_imm rhs)
  | F32Max_Rir lhs => binary P_f32 P_f32 P_f32 (fun lhs rhs => into_res (f32_max lhs rhs)) (Dst_reg Reg_f32) (Src_imm lhs) (Src_reg Reg_f32)
  | F32Max_Ris lhs rhs => binary P_f32 P_f32 P_f32 (fun lhs rhs => into_res (f32_max lhs rhs)) (Dst_reg Reg_f32) (Src_imm lhs) (Src_slot rhs)
  | F32Copysign_Rrs rhs => binary P_f32 P_f32 P_f32 (fun lhs rhs => into_res (f32_copysign lhs rhs)) (Dst_reg Reg_f32) (Src_reg Reg_f32) (Src_slot rhs)
  | F32Copysign_Rsr lhs => binary P_f32 P_f32 P_f32 (fun lhs rhs => into_res (f32_copysign lhs rhs)) (Dst_reg Reg_f32) (Src_slot lhs) (Src_reg Reg_f32)
  | F32Copysign_Rss lhs rhs => binary P_f32 P_f32 P_f32 (fun lhs rhs => into_res (f32_copysign lhs rhs)) (Dst_reg Reg_f32) (Src_slot lhs) (Src_slot rhs)
  | F32Copysign_Rir lhs => binary P_f32 P_f32 P_f32 (fun lhs rhs => into_res (f32_copysign lhs rhs)) (Dst_reg Reg_f32) (Src_imm lhs) (Src_reg Reg_f32)
  | F32Copysign_Ris lhs rhs => binary P_f32 P_f32 P_f32 (fun lhs rhs => into_res (f32_copysign lhs rhs)) (Dst_reg Reg_f32) (Src_imm lhs) (Src_slot rhs)
  | F32Eq_Rrs rhs => binary P_f32 P_f32 P_bool (fun lhs rhs => into_res (f32_eq lhs rhs)) (Dst_reg Reg_i64) (Src_reg Reg_f32) (Src_slot rhs)
  | F32Eq_Rri rhs => binary P_f32 P_f32 P_bool (fun lhs rhs => into_res (f32_eq lhs rhs)) (Dst_reg Reg_i64) (Src_reg Reg_f32) (Src_imm rhs)
  | F32Eq_Rss lhs rhs => binary P_f32 P_f32 P_bool (fun lhs rhs => into_res (f32_eq lhs rhs)) (Dst_reg Reg_i64) (Src_slot lhs) (Src_slot rhs)
  | F32Eq_Rsi lhs rhs => binary P_f32 P_f32 P_bool (fun lhs rhs => into_res (f32_eq lhs rhs)) (Dst_reg Reg_i64) (Src_slot lhs) (Src_imm rhs)
  | F32Lt_Rrs rhs => binary P_f32 P_f32 P_bool (fun lhs rhs => into_res (f32_lt lhs rhs)) (Dst_reg Reg_i64) (Src_reg Reg_f32) (Src_slot rhs)
  | F32Lt_Rri rhs => binary P_f32 P_f32 P_bool (fun lhs rhs => into_res (f32_lt lhs rhs)) (Dst_reg Reg_i64) (Src_reg Reg_f32) (Src_imm rhs)
  | F32Lt_Rsr lhs => binary P_f32 P_f32 P_bool (fun lhs rhs => into_res (f32_lt lhs rhs)) (Dst_reg Reg_i64) (Src_slot lhs) (Src_reg Reg_f32)
  | F32Lt_Rss lhs rhs => binary P_f32 P_f32 P_bool (fun lhs rhs => into_res (f32_lt lhs rhs)) (Dst_reg Reg_i64) (Src_slot lhs) (Src_slot rhs)
  | F32Lt_Rsi lhs rhs => binary P_f32 P_f32 P_bool (fun lhs rhs => into_res (f32_lt lhs rhs)) (Dst_reg Reg_i64) (Src_slot lhs) (Src_imm rhs)
  | F32Lt_Rir lhs => binary P_f32 P_f32 P_bool (fun lhs rhs => into_res (f32_lt lhs rhs)) (Dst_reg Reg_i64) (Src_imm lhs) (Src_reg Reg_f32)
  | F32Lt_Ris lhs rhs => binary P_f32 P_f32 P_bool (fun lhs rhs => into_res (f32_lt lhs rhs)) (Dst_reg Reg_i64) (Src_imm lhs) (Src_slot rhs)
  | F32Le_Rrs rhs => binary P_f32 P_f32 P_bool (fun lhs rhs => into_res (f32_le lhs rhs)) (Dst_reg Reg_i64) (Src_reg Reg_f32) (Src_slot rhs)
  | F32Le_Rri rhs => binary P_f32 P_f32 P_bool (fun lhs rhs => into_res (f32_le lhs rhs)) (Dst_reg Reg_i64) (Src_reg Reg_f32) (Src_imm rhs)
  | F32Le_Rsr lhs => binary P_f32 P_f32 P_bool (fun lhs rhs => into_res (f32_le lhs rhs)) (Dst_reg Reg_i64) (Src_slot lhs) (Src_reg Reg_f32)
  | F32Le_Rss lhs rhs => binary P_f32 P_f32 P_bool (fun lhs rhs => into_res (f32_le lhs rhs)) (Dst_reg Reg_i64) (Src_slot lhs) (Src_slot rhs)
  | F32Le_Rsi lhs rhs => binary P_f32 P_f32 P_bool (fun lhs rhs => into_res (f32_le lhs rhs)) (Dst_reg Reg_i64) (Src_slot lhs) (Src_imm rhs)
  | F32Le_Rir lhs => binary P_f32 P_f32 P_bool (fun lhs rhs => into_res (f32_le lhs rhs)) (Dst_reg Reg_i64) (Src_imm lhs) (Src_reg Reg_f32)
  | F32Le_Ris lhs rhs => binary P_f32 P_f32 P_bool (fun lhs rhs => into_res (f32_le lhs rhs)) (Dst_reg Reg_i64) (Src_imm lhs) (Src_slot rhs)
  | F32NotEq_Rrs rhs => binary P_f32 P_f32 P_bool (fun lhs rhs => into_res (f32_ne lhs rhs)) (Dst_reg Reg_i64) (Src_reg Reg_f32) (Src_slot rhs)
  | F32NotEq_Rri rhs => binary P_f32 P_f32 P_bool (fun lhs rhs => into_res (f32_ne lhs rhs)) (Dst_reg Reg_i64) (Src_reg Reg_f32) (Src_imm rhs)
  | F32NotEq_Rss lhs rhs => binary P_f32 P_f32 P_bool (fun lhs rhs => into_res (f32_ne lhs rhs)) (Dst_reg Reg_i64) (Src_slot lhs) (Src_slot rhs)
  | F32NotEq_Rsi lhs rhs => binary P_f32 P_f32 P_bool (fun lhs rhs => into_res (f32_ne lhs rhs)) (Dst_reg Reg_i64) (Src_slot lhs) (Src_imm rhs)
  | F32NotLt_Rrs rhs => binary P_f32 P_f32 P_bool (fun lhs rhs => into_res (wasmi_f32_not_lt lhs rhs)) (Dst_reg Reg_i64) (Src_reg Reg_f32) (Src_slot rhs)
  | F32NotLt_Rri rhs => binary P_f32 P_f32 P_bool (fun lhs rhs => into_res (wasmi_f32_not_lt lhs rhs)) (Dst_reg Reg_i64) (Src_reg Reg_f32) (Src_imm rhs)
  | F32NotLt_Rsr lhs => binary P_f32 P_f32 P_bool (fun lhs rhs => into_res (wasmi_f32_not_lt lhs rhs)) (Dst_reg Reg_i64) (Src_slot lhs) (Src_reg Reg_f32)
  | F32NotLt_Rss lhs rhs => binary P_f32 P_f32 P_bool (fun lhs rhs => into_res (wasmi_f32_not_lt lhs rhs)) (Dst_reg Reg_i64) (Src_slot lhs) (Src_slot rhs)
  | F32NotLt_Rsi lhs rhs => binary P_f32 P_f32 P_bool (fun lhs rhs => into_res (wasmi_f32_not_lt lhs rhs)) (Dst_reg Reg_i64) (Src_slot lhs) (Src_imm rhs)
  | F32NotLt_Rir lhs => binary P_f32 P_f32 P_bool (fun lhs rhs => into_res (wasmi_f32_not_lt lhs rhs)) (Dst_reg Reg_i64) (Src_imm lhs) (Src_reg Reg_f32)
  | F32NotLt_Ris lhs rhs => binary P_f32 P_f32 P_bool (fun lhs rhs => into_res (wasmi_f32_not_lt lhs rhs)) (Dst_reg Reg_i64) (Src_imm lhs) (Src_slot rhs)
  | F32NotLe_Rrs rhs => binary P_f32 P_f32 P_bool (fun lhs rhs => into_res (wasmi_f32_not_le lhs rhs)) (Dst_reg Reg_i64) (Src_reg Reg_f32) (Src_slot rhs)
  | F32NotLe_Rri rhs => binary P_f32 P_f32 P_bool (fun lhs rhs => into_res (wasmi_f32_not_le lhs rhs)) (Dst_reg Reg_i64) (Src_reg Reg_f32) (Src_imm rhs)
  | F32NotLe_Rsr lhs => binary P_f32 P_f32 P_bool (fun lhs rhs => into_res (wasmi_f32_not_le lhs rhs)) (Dst_reg Reg_i64) (Src_slot lhs) (Src_reg Reg_f32)
  | F32NotLe_Rss lhs rhs => binary P_f32 P_f32 P_bool (fun lhs rhs => into_res (wasmi_f32_not_le lhs rhs)) (Dst_reg Reg_i64) (Src_slot lhs) (Src_slot rhs)
  | F32NotLe_Rsi lhs rhs => binary P_f32 P_f32 P_bool (fun lhs rhs => into_res (wasmi_f32_not_le lhs rhs)) (Dst_reg Reg_i64) (Src_slot lhs) (Src_imm rhs)
  | F32NotLe_Rir lhs => binary P_f32 P_f32 P_bool (fun lhs rhs => into_res (wasmi_f32_not_le lhs rhs)) (Dst_reg Reg_i64) (Src_imm lhs) (Src_reg Reg_f32)
  | F32NotLe_Ris lhs rhs => binary P_f32 P_f32 P_bool (fun lhs rhs => into_res (wasmi_f32_not_le lhs rhs)) (Dst_reg Reg_i64) (Src_imm lhs) (Src_slot rhs)
  end.

Definition binary_f64_handler (op : BinaryInstF64) : BinaryHandler :=
  match op with
  | F64Add_Rrs rhs => binary P_f64 P_f64 P_f64 (fun lhs rhs => into_res (f64_add lhs rhs)) (Dst_reg Reg_f64) (Src_reg Reg_f64) (Src_slot rhs)
  | F64Add_Rri rhs => binary P_f64 P_f64 P_f64 (fun lhs rhs => into_res (f64_add lhs rhs)) (Dst_reg Reg_f64) (Src_reg Reg_f64) (Src_imm rhs)
  | F64Add_Rsr lhs => binary P_f64 P_f64 P_f64 (fun lhs rhs => into_res (f64_add lhs rhs)) (Dst_reg Reg_f64) (Src_slot lhs) (Src_reg Reg_f64)
  | F64Add_Rss lhs rhs => binary P_f64 P_f64 P_f64 (fun lhs rhs => into_res (f64_add lhs rhs)) (Dst_reg Reg_f64) (Src_slot lhs) (Src_slot rhs)
  | F64Add_Rsi lhs rhs => binary P_f64 P_f64 P_f64 (fun lhs rhs => into_res (f64_add lhs rhs)) (Dst_reg Reg_f64) (Src_slot lhs) (Src_imm rhs)
  | F64Add_Rir lhs => binary P_f64 P_f64 P_f64 (fun lhs rhs => into_res (f64_add lhs rhs)) (Dst_reg Reg_f64) (Src_imm lhs) (Src_reg Reg_f64)
  | F64Add_Ris lhs rhs => binary P_f64 P_f64 P_f64 (fun lhs rhs => into_res (f64_add lhs rhs)) (Dst_reg Reg_f64) (Src_imm lhs) (Src_slot rhs)
  | F64Sub_Rrs rhs => binary P_f64 P_f64 P_f64 (fun lhs rhs => into_res (f64_sub lhs rhs)) (Dst_reg Reg_f64) (Src_reg Reg_f64) (Src_slot rhs)
  | F64Sub_Rri rhs => binary P_f64 P_f64 P_f64 (fun lhs rhs => into_res (f64_sub lhs rhs)) (Dst_reg Reg_f64) (Src_reg Reg_f64) (Src_imm rhs)
  | F64Sub_Rsr lhs => binary P_f64 P_f64 P_f64 (fun lhs rhs => into_res (f64_sub lhs rhs)) (Dst_reg Reg_f64) (Src_slot lhs) (Src_reg Reg_f64)
  | F64Sub_Rss lhs rhs => binary P_f64 P_f64 P_f64 (fun lhs rhs => into_res (f64_sub lhs rhs)) (Dst_reg Reg_f64) (Src_slot lhs) (Src_slot rhs)
  | F64Sub_Rsi lhs rhs => binary P_f64 P_f64 P_f64 (fun lhs rhs => into_res (f64_sub lhs rhs)) (Dst_reg Reg_f64) (Src_slot lhs) (Src_imm rhs)
  | F64Sub_Rir lhs => binary P_f64 P_f64 P_f64 (fun lhs rhs => into_res (f64_sub lhs rhs)) (Dst_reg Reg_f64) (Src_imm lhs) (Src_reg Reg_f64)
  | F64Sub_Ris lhs rhs => binary P_f64 P_f64 P_f64 (fun lhs rhs => into_res (f64_sub lhs rhs)) (Dst_reg Reg_f64) (Src_imm lhs) (Src_slot rhs)
  | F64Mul_Rrr => binary P_f64 P_f64 P_f64 (fun lhs rhs => into_res (f64_mul lhs rhs)) (Dst_reg Reg_f64) (Src_reg Reg_f64) (Src_reg Reg_f64)
  | F64Mul_Rrs rhs => binary P_f64 P_f64 P_f64 (fun lhs rhs => into_res (f64_mul lhs rhs)) (Dst_reg Reg_f64) (Src_reg Reg_f64) (Src_slot rhs)
  | F64Mul_Rri rhs => binary P_f64 P_f64 P_f64 (fun lhs rhs => into_res (f64_mul lhs rhs)) (Dst_reg Reg_f64) (Src_reg Reg_f64) (Src_imm rhs)
  | F64Mul_Rsr lhs => binary P_f64 P_f64 P_f64 (fun lhs rhs => into_res (f64_mul lhs rhs)) (Dst_reg Reg_f64) (Src_slot lhs) (Src_reg Reg_f64)
  | F64Mul_Rss lhs rhs => binary P_f64 P_f64 P_f64 (fun lhs rhs => into_res (f64_mul lhs rhs)) (Dst_reg Reg_f64) (Src_slot lhs) (Src_slot rhs)
  | F64Mul_Rsi lhs rhs => binary P_f64 P_f64 P_f64 (fun lhs rhs => into_res (f64_mul lhs rhs)) (Dst_reg Reg_f64) (Src_slot lhs) (Src_imm rhs)
  | F64Mul_Rir lhs => binary P_f64 P_f64 P_f64 (fun lhs rhs => into_res (f64_mul lhs rhs)) (Dst_reg Reg_f64) (Src_imm lhs) (Src_reg Reg_f64)
  | F64Mul_Ris lhs rhs => binary P_f64 P_f64 P_f64 (fun lhs rhs => into_res (f64_mul lhs rhs)) (Dst_reg Reg_f64) (Src_imm lhs) (Src_slot rhs)
  | F64Div_Rrs rhs => binary P_f64 P_f64 P_f64 (fun lhs rhs => into_res (f64_div lhs rhs)) (Dst_reg Reg_f64) (Src_reg Reg_f64) (Src_slot rhs)
  | F64Div_Rri rhs => binary P_f64 P_f64 P_f64 (fun lhs rhs => into_res (f64_div lhs rhs)) (Dst_reg Reg_f64) (Src_reg Reg_f64) (Src_imm rhs)
  | F64Div_Rsr lhs => binary P_f64 P_f64 P_f64 (fun lhs rhs => into_res (f64_div lhs rhs)) (Dst_reg Reg_f64) (Src_slot lhs) (Src_reg Reg_f64)
  | F64Div_Rss lhs rhs => binary P_f64 P_f64 P_f64 (fun lhs rhs => into_res (f64_div lhs rhs)) (Dst_reg Reg_f64) (Src_slot lhs) (Src_slot rhs)
  | F64Div_Rsi lhs rhs => binary P_f64 P_f64 P_f64 (fun lhs rhs => into_res (f64_div lhs rhs)) (Dst_reg Reg_f64) (Src_slot lhs) (Src_imm rhs)
  | F64Div_Rir lhs => binary P_f64 P_f64 P_f64 (fun lhs rhs => into_res (f64_div lhs rhs)) (Dst_reg Reg_f64) (Src_imm lhs) (Src_reg Reg_f64)
  | F64Div_Ris lhs rhs => binary P_f64 P_f64 P_f64 (fun lhs rhs => into_res (f64_div lhs rhs)) (Dst_reg Reg_f64) (Src_imm lhs) (Src_slot rhs)
  | F64Min_Rrs rhs => binary P_f64 P_f64 P_f64 (fun lhs rhs => into_res (f64_min lhs rhs)) (Dst_reg Reg_f64) (Src_reg Reg_f64) (Src_slot rhs)
  | F64Min_Rri rhs => binary P_f64 P_f64 P_f64 (fun lhs rhs => into_res (f64_min lhs rhs)) (Dst_reg Reg_f64) (Src_reg Reg_f64) (Src_imm rhs)
  | F64Min_Rsr lhs => binary P_f64 P_f64 P_f64 (fun lhs rhs => into_res (f64_min lhs rhs)) (Dst_reg Reg_f64) (Src_slot lhs) (Src_reg Reg_f64)
  | F64Min_Rss lhs rhs => binary P_f64 P_f64 P_f64 (fun lhs rhs => into_res (f64_min lhs rhs)) (Dst_reg Reg_f64) (Src_slot lhs) (Src_slot rhs)
  | F64Min_Rsi lhs rhs => binary P_f64 P_f64 P_f64 (fun lhs rhs => into_res (f64_min lhs rhs)) (Dst_reg Reg_f64) (Src_slot lhs) (Src_imm rhs)
  | F64Min_Rir lhs => binary P_f64 P_f64 P_f64 (fun lhs rhs => into_res (f64_min lhs rhs)) (Dst_reg Reg_f64) (Src_imm lhs) (Src_reg Reg_f64)
  | F64Min_Ris lhs rhs => binary P_f64 P_f64 P_f64 (fun lhs rhs => into_res (f64_min lhs rhs)) (Dst_reg Reg_f64) (Src_imm lhs) (Src_slot rhs)
  | F64Max_Rrs rhs => binary P_f64 P_f64 P_f64 (fun lhs rhs => into_res (f64_max lhs rhs)) (Dst_reg Reg_f64) (Src_reg Reg_f64) (Src_slot rhs)
  | F64Max_Rri rhs => binary P_f64 P_f64 P_f64 (fun lhs rhs => into_res (f64_max lhs rhs)) (Dst_reg Reg_f64) (Src_reg Reg_f64) (Src_imm rhs)
  | F64Max_Rsr lhs => binary P_f64 P_f64 P_f64 (fun lhs rhs => into_res (f64_max lhs rhs)) (Dst_reg Reg_f64) (Src_slot lhs) (Src_reg Reg_f64)
  | F64Max_Rss lhs rhs => binary P_f64 P_f64 P_f64 (fun lhs rhs => into_res (f64_max lhs rhs)) (Dst_reg Reg_f64) (Src_slot lhs) (Src_slot rhs)
  | F64Max_Rsi lhs rhs => binary P_f64 P_f64 P_f64 (fun lhs rhs => into_res (f64_max lhs rhs)) (Dst_reg Reg_f64) (Src_slot lhs) (Src_imm rhs)
  | F64Max_Rir lhs => binary P_f64 P_f64 P_f64 (fun lhs rhs => into_res (f64_max lhs rhs)) (Dst_reg Reg_f64) (Src_imm lhs) (Src_reg Reg_f64)
  | F64Max_Ris lhs rhs => binary P_f64 P_f64 P_f64 (fun lhs rhs => into_res (f64_max lhs rhs)) (Dst_reg Reg_f64) (Src_imm lhs) (Src_slot rhs)
  | F64Copysign_Rrs rhs => binary P_f64 P_f64 P_f64 (fun lhs rhs => into_res (f64_copysign lhs rhs)) (Dst_reg Reg_f64) (Src_reg Reg_f64) (Src_slot rhs)
  | F64Copysign_Rsr lhs => binary P_f64 P_f64 P_f64 (fun lhs rhs => into_res (f64_copysign lhs rhs)) (Dst_reg Reg_f64) (Src_slot lhs) (Src_reg Reg_f64)
  | F64Copysign_Rss lhs rhs => binary P_f64 P_f64 P_f64 (fun lhs rhs => into_res (f64_copysign lhs rhs)) (Dst_reg Reg_f64) (Src_slot lhs) (Src_slot rhs)
  | F64Copysign_Rir lhs => binary P_f64 P_f64 P_f64 (fun lhs rhs => into_res (f64_copysign lhs rhs)) (Dst_reg Reg_f64) (Src_imm lhs) (Src_reg Reg_f64)
  | F64Copysign_Ris lhs rhs => binary P_f64 P_f64 P_f64 (fun lhs rhs => into_res (f64_copysign lhs rhs)) (Dst_reg Reg_f64) (Src_imm lhs) (Src_slot rhs)
  | F64Eq_Rrs rhs => binary P_f64 P_f64 P_bool (fun lhs rhs => into_res (f64_eq lhs rhs)) (Dst_reg Reg_i64) (Src_reg Reg_f64) (Src_slot rhs)
  | F64Eq_Rri rhs => binary P_f64 P_f64 P_bool (fun lhs rhs => into_res (f64_eq lhs rhs)) (Dst_reg Reg_i64) (Src_reg Reg_f64) (Src_imm rhs)
  | F64Eq_Rss lhs rhs => binary P_f64 P_f64 P_bool (fun lhs rhs => into_res (f64_eq lhs rhs)) (Dst_reg Reg_i64) (Src_slot lhs) (Src_slot rhs)
  | F64Eq_Rsi lhs rhs => binary P_f64 P_f64 P_bool (fun lhs rhs => into_res (f64_eq lhs rhs)) (Dst_reg Reg_i64) (Src_slot lhs) (Src_imm rhs)
  | F64Lt_Rrs rhs => binary P_f64 P_f64 P_bool (fun lhs rhs => into_res (f64_lt lhs rhs)) (Dst_reg Reg_i64) (Src_reg Reg_f64) (Src_slot rhs)
  | F64Lt_Rri rhs => binary P_f64 P_f64 P_bool (fun lhs rhs => into_res (f64_lt lhs rhs)) (Dst_reg Reg_i64) (Src_reg Reg_f64) (Src_imm rhs)
  | F64Lt_Rsr lhs => binary P_f64 P_f64 P_bool (fun lhs rhs => into_res (f64_lt lhs rhs)) (Dst_reg Reg_i64) (Src_slot lhs) (Src_reg Reg_f64)
  | F64Lt_Rss lhs rhs => binary P_f64 P_f64 P_bool (fun lhs rhs => into_res (f64_lt lhs rhs)) (Dst_reg Reg_i64) (Src_slot lhs) (Src_slot rhs)
  | F64Lt_Rsi lhs rhs => binary P_f64 P_f64 P_bool (fun lhs rhs => into_res (f64_lt lhs rhs)) (Dst_reg Reg_i64) (Src_slot lhs) (Src_imm rhs)
  | F64Lt_Rir lhs => binary P_f64 P_f64 P_bool (fun lhs rhs => into_res (f64_lt lhs rhs)) (Dst_reg Reg_i64) (Src_imm lhs) (Src_reg Reg_f64)
  | F64Lt_Ris lhs rhs => binary P_f64 P_f64 P_bool (fun lhs rhs => into_res (f64_lt lhs rhs)) (Dst_reg Reg_i64) (Src_imm lhs) (Src_slot rhs)
  | F64Le_Rrs rhs => binary P_f64 P_f64 P_bool (fun lhs rhs => into_res (f64_le lhs rhs)) (Dst_reg Reg_i64) (Src_reg Reg_f64) (Src_slot rhs)
  | F64Le_Rri rhs => binary P_f64 P_f64 P_bool (fun lhs rhs => into_res (f64_le lhs rhs)) (Dst_reg Reg_i64) (Src_reg Reg_f64) (Src_imm rhs)
  | F64Le_Rsr lhs => binary P_f64 P_f64 P_bool (fun lhs rhs => into_res (f64_le lhs rhs)) (Dst_reg Reg_i64) (Src_slot lhs) (Src_reg Reg_f64)
  | F64Le_Rss lhs rhs => binary P_f64 P_f64 P_bool (fun lhs rhs => into_res (f64_le lhs rhs)) (Dst_reg Reg_i64) (Src_slot lhs) (Src_slot rhs)
  | F64Le_Rsi lhs rhs => binary P_f64 P_f64 P_bool (fun lhs rhs => into_res (f64_le lhs rhs)) (Dst_reg Reg_i64) (Src_slot lhs) (Src_imm rhs)
  | F64Le_Rir lhs => binary P_f64 P_f64 P_bool (fun lhs rhs => into_res (f64_le lhs rhs)) (Dst_reg Reg_i64) (Src_imm lhs) (Src_reg Reg_f64)
  | F64Le_Ris lhs rhs => binary P_f64 P_f64 P_bool (fun lhs rhs => into_res (f64_le lhs rhs)) (Dst_reg Reg_i64) (Src_imm lhs) (Src_slot rhs)
  | F64NotEq_Rrs rhs => binary P_f64 P_f64 P_bool (fun lhs rhs => into_res (f64_ne lhs rhs)) (Dst_reg Reg_i64) (Src_reg Reg_f64) (Src_slot rhs)
  | F64NotEq_Rri rhs => binary P_f64 P_f64 P_bool (fun lhs rhs => into_res (f64_ne lhs rhs)) (Dst_reg Reg_i64) (Src_reg Reg_f64) (Src_imm rhs)
  | F64NotEq_Rss lhs rhs => binary P_f64 P_f64 P_bool (fun lhs rhs => into_res (f64_ne lhs rhs)) (Dst_reg Reg_i64) (Src_slot lhs) (Src_slot rhs)
  | F64NotEq_Rsi lhs rhs => binary P_f64 P_f64 P_bool (fun lhs rhs => into_res (f64_ne lhs rhs)) (Dst_reg Reg_i64) (Src_slot lhs) (Src_imm rhs)
  | F64NotLt_Rrs rhs => binary P_f64 P_f64 P_bool (fun lhs rhs => into_res (wasmi_f64_not_lt lhs rhs)) (Dst_reg Reg_i64) (Src_reg Reg_f64) (Src_slot rhs)
  | F64NotLt_Rri rhs => binary P_f64 P_f64 P_bool (fun lhs rhs => into_res (wasmi_f64_not_lt lhs rhs)) (Dst_reg Reg_i64) (Src_reg Reg_f64) (Src_imm rhs)
  | F64NotLt_Rsr lhs => binary P_f64 P_f64 P_bool (fun lhs rhs => into_res (wasmi_f64_not_lt lhs rhs)) (Dst_reg Reg_i64) (Src_slot lhs) (Src_reg Reg_f64)
  | F64NotLt_Rss lhs rhs => binary P_f64 P_f64 P_bool (fun lhs rhs => into_res (wasmi_f64_not_lt lhs rhs)) (Dst_reg Reg_i64) (Src_slot lhs) (Src_slot rhs)
  | F64NotLt_Rsi lhs rhs => binary P_f64 P_f64 P_bool (fun lhs rhs => into_res (wasmi_f64_not_lt lhs rhs)) (Dst_reg Reg_i64) (Src_slot lhs) (Src_imm rhs)
  | F64NotLt_Rir lhs => binary P_f64 P_f64 P_bool (fun lhs rhs => into_res (wasmi_f64_not_lt lhs rhs)) (Dst_reg Reg_i64) (Src_imm lhs) (Src_reg Reg_f64)
  | F64NotLt_Ris lhs rhs => binary P_f64 P_f64 P_bool (fun lhs rhs => into_res (wasmi_f64_not_lt lhs rhs)) (Dst_reg Reg_i64) (Src_imm lhs) (Src_slot rhs)
  | F64NotLe_Rrs rhs => binary P_f64 P_f64 P_bool (fun lhs rhs => into_res (wasmi_f64_not_le lhs rhs)) (Dst_reg Reg_i64) (Src_reg Reg_f64) (Src_slot rhs)
  | F64NotLe_Rri rhs => binary P_f64 P_f64 P_bool (fun lhs rhs => into_res (wasmi_f64_not_le lhs rhs)) (Dst_reg Reg_i64) (Src_reg Reg_f64) (Src_imm rhs)
  | F64NotLe_Rsr lhs => binary P_f64 P_f64 P_bool (fun lhs rhs => into_res (wasmi_f64_not_le lhs rhs)) (Dst_reg Reg_i64) (Src_slot lhs) (Src_reg Reg_f64)
  | F64NotLe_Rss lhs rhs => binary P_f64 P_f64 P_bool (fun lhs rhs => into_res (wasmi_f64_not_le lhs rhs)) (Dst_reg Reg_i64) (Src_slot lhs) (Src_slot rhs)
  | F64NotLe_Rsi lhs rhs => binary P_f64 P_f64 P_bool (fun lhs rhs => into_res (wasmi_f64_not_le lhs rhs)) (Dst_reg Reg_i64) (Src_slot lhs) (Src_imm rhs)
  | F64NotLe_Rir lhs => binary P_f64 P_f64 P_bool (fun lhs rhs => into_res (wasmi_f64_not_le lhs rhs)) (Dst_reg Reg_i64) (Src_imm lhs) (Src_reg Reg_f64)
  | F64NotLe_Ris lhs rhs => binary P_f64 P_f64 P_bool (fun lhs rhs => into_res (wasmi_f64_not_le lhs rhs)) (Dst_reg Reg_i64) (Src_imm lhs) (Src_slot rhs)
  end.

End Tables.
