(* ===== verification/BranchTables.v ===== *)
(** * Handlers of the fused branches

    The operators that compare and branch, with the tables of
    [handler/exec.rs], by the type of their operands. *)

From Stdlib Require Import ZArith.
From stdpp Require Import base.
From S2P Require Import Prelude Trap Value WasmInt MemoryAccess Slot Cells Float OpTables.
Local Open Scope Z_scope.

Inductive CmpBranchInstI32 : Type :=
| BranchI32Eq_Rs (offset : BranchOffset) (rhs : Slot) | BranchI32Eq_Ri (offset : BranchOffset) (rhs : Z)
| BranchI32Eq_Ss (offset : BranchOffset) (lhs : Slot) (rhs : Slot)
| BranchI32Eq_Si (offset : BranchOffset) (lhs : Slot) (rhs : Z)
| BranchI32And_Rs (offset : BranchOffset) (rhs : Slot) | BranchI32And_Ri (offset : BranchOffset) (rhs : Z)
| BranchI32And_Ss (offset : BranchOffset) (lhs : Slot) (rhs : Slot)
| BranchI32And_Si (offset : BranchOffset) (lhs : Slot) (rhs : Z)
| BranchI32Or_Rs (offset : BranchOffset) (rhs : Slot) | BranchI32Or_Ri (offset : BranchOffset) (rhs : Z)
| BranchI32Or_Ss (offset : BranchOffset) (lhs : Slot) (rhs : Slot)
| BranchI32Or_Si (offset : BranchOffset) (lhs : Slot) (rhs : Z)
| BranchI32NotEq_Rs (offset : BranchOffset) (rhs : Slot) | BranchI32NotEq_Ri (offset : BranchOffset) (rhs : Z)
| BranchI32NotEq_Ss (offset : BranchOffset) (lhs : Slot) (rhs : Slot)
| BranchI32NotEq_Si (offset : BranchOffset) (lhs : Slot) (rhs : Z)
| BranchI32NotAnd_Rs (offset : BranchOffset) (rhs : Slot)
| BranchI32NotAnd_Ri (offset : BranchOffset) (rhs : Z)
| BranchI32NotAnd_Ss (offset : BranchOffset) (lhs : Slot) (rhs : Slot)
| BranchI32NotAnd_Si (offset : BranchOffset) (lhs : Slot) (rhs : Z)
| BranchI32NotOr_Rs (offset : BranchOffset) (rhs : Slot) | BranchI32NotOr_Ri (offset : BranchOffset) (rhs : Z)
| BranchI32NotOr_Ss (offset : BranchOffset) (lhs : Slot) (rhs : Slot)
| BranchI32NotOr_Si (offset : BranchOffset) (lhs : Slot) (rhs : Z)
| BranchI32Le_Rs (offset : BranchOffset) (rhs : Slot) | BranchI32Le_Ri (offset : BranchOffset) (rhs : Z)
| BranchI32Le_Sr (offset : BranchOffset) (lhs : Slot)
| BranchI32Le_Ss (offset : BranchOffset) (lhs : Slot) (rhs : Slot)
| BranchI32Le_Si (offset : BranchOffset) (lhs : Slot) (rhs : Z)
| BranchI32Le_Ir (offset : BranchOffset) (lhs : Z)
| BranchI32Le_Is (offset : BranchOffset) (lhs : Z) (rhs : Slot)
| BranchI32Lt_Rs (offset : BranchOffset) (rhs : Slot) | BranchI32Lt_Ri (offset : BranchOffset) (rhs : Z)
| BranchI32Lt_Sr (offset : BranchOffset) (lhs : Slot)
| BranchI32Lt_Ss (offset : BranchOffset) (lhs : Slot) (rhs : Slot)
| BranchI32Lt_Si (offset : BranchOffset) (lhs : Slot) (rhs : Z)
| BranchI32Lt_Ir (offset : BranchOffset) (lhs : Z)
| BranchI32Lt_Is (offset : BranchOffset) (lhs : Z) (rhs : Slot)
| BranchU32Le_Rs (offset : BranchOffset) (rhs : Slot) | BranchU32Le_Ri (offset : BranchOffset) (rhs : Z)
| BranchU32Le_Sr (offset : BranchOffset) (lhs : Slot)
| BranchU32Le_Ss (offset : BranchOffset) (lhs : Slot) (rhs : Slot)
| BranchU32Le_Si (offset : BranchOffset) (lhs : Slot) (rhs : Z)
| BranchU32Le_Ir (offset : BranchOffset) (lhs : Z)
| BranchU32Le_Is (offset : BranchOffset) (lhs : Z) (rhs : Slot)
| BranchU32Lt_Rs (offset : BranchOffset) (rhs : Slot) | BranchU32Lt_Ri (offset : BranchOffset) (rhs : Z)
| BranchU32Lt_Sr (offset : BranchOffset) (lhs : Slot)
| BranchU32Lt_Ss (offset : BranchOffset) (lhs : Slot) (rhs : Slot)
| BranchU32Lt_Si (offset : BranchOffset) (lhs : Slot) (rhs : Z)
| BranchU32Lt_Ir (offset : BranchOffset) (lhs : Z)
| BranchU32Lt_Is (offset : BranchOffset) (lhs : Z) (rhs : Slot).

Inductive CmpBranchInstI64 : Type :=
| BranchI64Eq_Rs (offset : BranchOffset) (rhs : Slot) | BranchI64Eq_Ri (offset : BranchOffset) (rhs : Z)
| BranchI64Eq_Ss (offset : BranchOffset) (lhs : Slot) (rhs : Slot)
| BranchI64Eq_Si (offset : BranchOffset) (lhs : Slot) (rhs : Z)
| BranchI64And_Rs (offset : BranchOffset) (rhs : Slot) | BranchI64And_Ri (offset : BranchOffset) (rhs : Z)
| BranchI64And_Ss (offset : BranchOffset) (lhs : Slot) (rhs : Slot)
| BranchI64And_Si (offset : BranchOffset) (lhs : Slot) (rhs : Z)
| BranchI64Or_Rs (offset : BranchOffset) (rhs : Slot) | BranchI64Or_Ri (offset : BranchOffset) (rhs : Z)
| BranchI64Or_Ss (offset : BranchOffset) (lhs : Slot) (rhs : Slot)
| BranchI64Or_Si (offset : BranchOffset) (lhs : Slot) (rhs : Z)
| BranchI64NotEq_Rs (offset : BranchOffset) (rhs : Slot) | BranchI64NotEq_Ri (offset : BranchOffset) (rhs : Z)
| BranchI64NotEq_Ss (offset : BranchOffset) (lhs : Slot) (rhs : Slot)
| BranchI64NotEq_Si (offset : BranchOffset) (lhs : Slot) (rhs : Z)
| BranchI64NotAnd_Rs (offset : BranchOffset) (rhs : Slot)
| BranchI64NotAnd_Ri (offset : BranchOffset) (rhs : Z)
| BranchI64NotAnd_Ss (offset : BranchOffset) (lhs : Slot) (rhs : Slot)
| BranchI64NotAnd_Si (offset : BranchOffset) (lhs : Slot) (rhs : Z)
| BranchI64NotOr_Rs (offset : BranchOffset) (rhs : Slot) | BranchI64NotOr_Ri (offset : BranchOffset) (rhs : Z)
| BranchI64NotOr_Ss (offset : BranchOffset) (lhs : Slot) (rhs : Slot)
| BranchI64NotOr_Si (offset : BranchOffset) (lhs : Slot) (rhs : Z)
| BranchI64Le_Rs (offset : BranchOffset) (rhs : Slot) | BranchI64Le_Ri (offset : BranchOffset) (rhs : Z)
| BranchI64Le_Sr (offset : BranchOffset) (lhs : Slot)
| BranchI64Le_Ss (offset : BranchOffset) (lhs : Slot) (rhs : Slot)
| BranchI64Le_Si (offset : BranchOffset) (lhs : Slot) (rhs : Z)
| BranchI64Le_Ir (offset : BranchOffset) (lhs : Z)
| BranchI64Le_Is (offset : BranchOffset) (lhs : Z) (rhs : Slot)
| BranchI64Lt_Rs (offset : BranchOffset) (rhs : Slot) | BranchI64Lt_Ri (offset : BranchOffset) (rhs : Z)
| BranchI64Lt_Sr (offset : BranchOffset) (lhs : Slot)
| BranchI64Lt_Ss (offset : BranchOffset) (lhs : Slot) (rhs : Slot)
| BranchI64Lt_Si (offset : BranchOffset) (lhs : Slot) (rhs : Z)
| BranchI64Lt_Ir (offset : BranchOffset) (lhs : Z)
| BranchI64Lt_Is (offset : BranchOffset) (lhs : Z) (rhs : Slot)
| BranchU64Le_Rs (offset : BranchOffset) (rhs : Slot) | BranchU64Le_Ri (offset : BranchOffset) (rhs : Z)
| BranchU64Le_Sr (offset : BranchOffset) (lhs : Slot)
| BranchU64Le_Ss (offset : BranchOffset) (lhs : Slot) (rhs : Slot)
| BranchU64Le_Si (offset : BranchOffset) (lhs : Slot) (rhs : Z)
| BranchU64Le_Ir (offset : BranchOffset) (lhs : Z)
| BranchU64Le_Is (offset : BranchOffset) (lhs : Z) (rhs : Slot)
| BranchU64Lt_Rs (offset : BranchOffset) (rhs : Slot) | BranchU64Lt_Ri (offset : BranchOffset) (rhs : Z)
| BranchU64Lt_Sr (offset : BranchOffset) (lhs : Slot)
| BranchU64Lt_Ss (offset : BranchOffset) (lhs : Slot) (rhs : Slot)
| BranchU64Lt_Si (offset : BranchOffset) (lhs : Slot) (rhs : Z)
| BranchU64Lt_Ir (offset : BranchOffset) (lhs : Z)
| BranchU64Lt_Is (offset : BranchOffset) (lhs : Z) (rhs : Slot).

Inductive CmpBranchInstF32 : Type :=
| BranchF32Eq_Rs (offset : BranchOffset) (rhs : Slot) | BranchF32Eq_Ri (offset : BranchOffset) (rhs : Z)
| BranchF32Eq_Ss (offset : BranchOffset) (lhs : Slot) (rhs : Slot)
| BranchF32Eq_Si (offset : BranchOffset) (lhs : Slot) (rhs : Z)
| BranchF32Le_Rs (offset : BranchOffset) (rhs : Slot) | BranchF32Le_Ri (offset : BranchOffset) (rhs : Z)
| BranchF32Le_Sr (offset : BranchOffset) (lhs : Slot)
| BranchF32Le_Ss (offset : BranchOffset) (lhs : Slot) (rhs : Slot)
| BranchF32Le_Si (offset : BranchOffset) (lhs : Slot) (rhs : Z)
| BranchF32Le_Ir (offset : BranchOffset) (lhs : Z)
| BranchF32Le_Is (offset : BranchOffset) (lhs : Z) (rhs : Slot)
| BranchF32Lt_Rs (offset : BranchOffset) (rhs : Slot) | BranchF32Lt_Ri (offset : BranchOffset) (rhs : Z)
| BranchF32Lt_Sr (offset : BranchOffset) (lhs : Slot)
| BranchF32Lt_Ss (offset : BranchOffset) (lhs : Slot) (rhs : Slot)
| BranchF32Lt_Si (offset : BranchOffset) (lhs : Slot) (rhs : Z)
| BranchF32Lt_Ir (offset : BranchOffset) (lhs : Z)
| BranchF32Lt_Is (offset : BranchOffset) (lhs : Z) (rhs : Slot)
| BranchF32NotEq_Rs (offset : BranchOffset) (rhs : Slot) | BranchF32NotEq_Ri (offset : BranchOffset) (rhs : Z)
| BranchF32NotEq_Ss (offset : BranchOffset) (lhs : Slot) (rhs : Slot)
| BranchF32NotEq_Si (offset : BranchOffset) (lhs : Slot) (rhs : Z)
| BranchF32NotLe_Rs (offset : BranchOffset) (rhs : Slot) | BranchF32NotLe_Ri (offset : BranchOffset) (rhs : Z)
| BranchF32NotLe_Sr (offset : BranchOffset) (lhs : Slot)
| BranchF32NotLe_Ss (offset : BranchOffset) (lhs : Slot) (rhs : Slot)
| BranchF32NotLe_Si (offset : BranchOffset) (lhs : Slot) (rhs : Z)
| BranchF32NotLe_Ir (offset : BranchOffset) (lhs : Z)
| BranchF32NotLe_Is (offset : BranchOffset) (lhs : Z) (rhs : Slot)
| BranchF32NotLt_Rs (offset : BranchOffset) (rhs : Slot) | BranchF32NotLt_Ri (offset : BranchOffset) (rhs : Z)
| BranchF32NotLt_Sr (offset : BranchOffset) (lhs : Slot)
| BranchF32NotLt_Ss (offset : BranchOffset) (lhs : Slot) (rhs : Slot)
| BranchF32NotLt_Si (offset : BranchOffset) (lhs : Slot) (rhs : Z)
| BranchF32NotLt_Ir (offset : BranchOffset) (lhs : Z)
| BranchF32NotLt_Is (offset : BranchOffset) (lhs : Z) (rhs : Slot).

Inductive CmpBranchInstF64 : Type :=
| BranchF64Eq_Rs (offset : BranchOffset) (rhs : Slot) | BranchF64Eq_Ri (offset : BranchOffset) (rhs : Z)
| BranchF64Eq_Ss (offset : BranchOffset) (lhs : Slot) (rhs : Slot)
| BranchF64Eq_Si (offset : BranchOffset) (lhs : Slot) (rhs : Z)
| BranchF64Le_Rs (offset : BranchOffset) (rhs : Slot) | BranchF64Le_Ri (offset : BranchOffset) (rhs : Z)
| BranchF64Le_Sr (offset : BranchOffset) (lhs : Slot)
| BranchF64Le_Ss (offset : BranchOffset) (lhs : Slot) (rhs : Slot)
| BranchF64Le_Si (offset : BranchOffset) (lhs : Slot) (rhs : Z)
| BranchF64Le_Ir (offset : BranchOffset) (lhs : Z)
| BranchF64Le_Is (offset : BranchOffset) (lhs : Z) (rhs : Slot)
| BranchF64Lt_Rs (offset : BranchOffset) (rhs : Slot) | BranchF64Lt_Ri (offset : BranchOffset) (rhs : Z)
| BranchF64Lt_Sr (offset : BranchOffset) (lhs : Slot)
| BranchF64Lt_Ss (offset : BranchOffset) (lhs : Slot) (rhs : Slot)
| BranchF64Lt_Si (offset : BranchOffset) (lhs : Slot) (rhs : Z)
| BranchF64Lt_Ir (offset : BranchOffset) (lhs : Z)
| BranchF64Lt_Is (offset : BranchOffset) (lhs : Z) (rhs : Slot)
| BranchF64NotEq_Rs (offset : BranchOffset) (rhs : Slot) | BranchF64NotEq_Ri (offset : BranchOffset) (rhs : Z)
| BranchF64NotEq_Ss (offset : BranchOffset) (lhs : Slot) (rhs : Slot)
| BranchF64NotEq_Si (offset : BranchOffset) (lhs : Slot) (rhs : Z)
| BranchF64NotLe_Rs (offset : BranchOffset) (rhs : Slot) | BranchF64NotLe_Ri (offset : BranchOffset) (rhs : Z)
| BranchF64NotLe_Sr (offset : BranchOffset) (lhs : Slot)
| BranchF64NotLe_Ss (offset : BranchOffset) (lhs : Slot) (rhs : Slot)
| BranchF64NotLe_Si (offset : BranchOffset) (lhs : Slot) (rhs : Z)
| BranchF64NotLe_Ir (offset : BranchOffset) (lhs : Z)
| BranchF64NotLe_Is (offset : BranchOffset) (lhs : Z) (rhs : Slot)
| BranchF64NotLt_Rs (offset : BranchOffset) (rhs : Slot) | BranchF64NotLt_Ri (offset : BranchOffset) (rhs : Z)
| BranchF64NotLt_Sr (offset : BranchOffset) (lhs : Slot)
| BranchF64NotLt_Ss (offset : BranchOffset) (lhs : Slot) (rhs : Slot)
| BranchF64NotLt_Si (offset : BranchOffset) (lhs : Slot) (rhs : Z)
| BranchF64NotLt_Ir (offset : BranchOffset) (lhs : Z)
| BranchF64NotLt_Is (offset : BranchOffset) (lhs : Z) (rhs : Slot).

Section Tables.
Context `{T : Target} `{FloatNans}.

Definition cmp_branch_i32_handler (op : CmpBranchInstI32) : CmpBranchHandler :=
  match op with
  | BranchI32Eq_Rs offset rhs => cmp_branch P_i32 i32_eq offset (Src_reg Reg_i64) (Src_slot rhs)
  | BranchI32Eq_Ri offset rhs => cmp_branch P_i32 i32_eq offset (Src_reg Reg_i64) (Src_imm rhs)
  | BranchI32Eq_Ss offset lhs rhs => cmp_branch P_i32 i32_eq offset (Src_slot lhs) (Src_slot rhs)
  | BranchI32Eq_Si offset lhs rhs => cmp_branch P_i32 i32_eq offset (Src_slot lhs) (Src_imm rhs)
  | BranchI32And_Rs offset rhs => cmp_branch P_i32 wasmi_i32_and offset (Src_reg Reg_i64) (Src_slot rhs)
  | BranchI32And_Ri offset rhs => cmp_branch P_i32 wasmi_i32_and offset (Src_reg Reg_i64) (Src_imm rhs)
  | BranchI32And_Ss offset lhs rhs => cmp_branch P_i32 wasmi_i32_and offset (Src_slot lhs) (Src_slot rhs)
  | BranchI32And_Si offset lhs rhs => cmp_branch P_i32 wasmi_i32_and offset (Src_slot lhs) (Src_imm rhs)
  | BranchI32Or_Rs offset rhs => cmp_branch P_i32 wasmi_i32_or offset (Src_reg Reg_i64) (Src_slot rhs)
  | BranchI32Or_Ri offset rhs => cmp_branch P_i32 wasmi_i32_or offset (Src_reg Reg_i64) (Src_imm rhs)
  | BranchI32Or_Ss offset lhs rhs => cmp_branch P_i32 wasmi_i32_or offset (Src_slot lhs) (Src_slot rhs)
  | BranchI32Or_Si offset lhs rhs => cmp_branch P_i32 wasmi_i32_or offset (Src_slot lhs) (Src_imm rhs)
  | BranchI32NotEq_Rs offset rhs => cmp_branch P_i32 i32_ne offset (Src_reg Reg_i64) (Src_slot rhs)
  | BranchI32NotEq_Ri offset rhs => cmp_branch P_i32 i32_ne offset (Src_reg Reg_i64) (Src_imm rhs)
  | BranchI32NotEq_Ss offset lhs rhs => cmp_branch P_i32 i32_ne offset (Src_slot lhs) (Src_slot rhs)
  | BranchI32NotEq_Si offset lhs rhs => cmp_branch P_i32 i32_ne offset (Src_slot lhs) (Src_imm rhs)
  | BranchI32NotAnd_Rs offset rhs => cmp_branch P_i32 wasmi_i32_not_and offset (Src_reg Reg_i64) (Src_slot rhs)
  | BranchI32NotAnd_Ri offset rhs => cmp_branch P_i32 wasmi_i32_not_and offset (Src_reg Reg_i64) (Src_imm rhs)
  | BranchI32NotAnd_Ss offset lhs rhs => cmp_branch P_i32 wasmi_i32_not_and offset (Src_slot lhs) (Src_slot rhs)
  | BranchI32NotAnd_Si offset lhs rhs => cmp_branch P_i32 wasmi_i32_not_and offset (Src_slot lhs) (Src_imm rhs)
  | BranchI32NotOr_Rs offset rhs => cmp_branch P_i32 wasmi_i32_not_or offset (Src_reg Reg_i64) (Src_slot rhs)
  | BranchI32NotOr_Ri offset rhs => cmp_branch P_i32 wasmi_i32_not_or offset (Src_reg Reg_i64) (Src_imm rhs)
  | BranchI32NotOr_Ss offset lhs rhs => cmp_branch P_i32 wasmi_i32_not_or offset (Src_slot lhs) (Src_slot rhs)
  | BranchI32NotOr_Si offset lhs rhs => cmp_branch P_i32 wasmi_i32_not_or offset (Src_slot lhs) (Src_imm rhs)
  | BranchI32Le_Rs offset rhs => cmp_branch P_i32 i32_le_s offset (Src_reg Reg_i64) (Src_slot rhs)
  | BranchI32Le_Ri offset rhs => cmp_branch P_i32 i32_le_s offset (Src_reg Reg_i64) (Src_imm rhs)
  | BranchI32Le_Sr offset lhs => cmp_branch P_i32 i32_le_s offset (Src_slot lhs) (Src_reg Reg_i64)
  | BranchI32Le_Ss offset lhs rhs => cmp_branch P_i32 i32_le_s offset (Src_slot lhs) (Src_slot rhs)
  | BranchI32Le_Si offset lhs rhs => cmp_branch P_i32 i32_le_s offset (Src_slot lhs) (Src_imm rhs)
  | BranchI32Le_Ir offset lhs => cmp_branch P_i32 i32_le_s offset (Src_imm lhs) (Src_reg Reg_i64)
  | BranchI32Le_Is offset lhs rhs => cmp_branch P_i32 i32_le_s offset (Src_imm lhs) (Src_slot rhs)
  | BranchI32Lt_Rs offset rhs => cmp_branch P_i32 i32_lt_s offset (Src_reg Reg_i64) (Src_slot rhs)
  | BranchI32Lt_Ri offset rhs => cmp_branch P_i32 i32_lt_s offset (Src_reg Reg_i64) (Src_imm rhs)
  | BranchI32Lt_Sr offset lhs => cmp_branch P_i32 i32_lt_s offset (Src_slot lhs) (Src_reg Reg_i64)
  | BranchI32Lt_Ss offset lhs rhs => cmp_branch P_i32 i32_lt_s offset (Src_slot lhs) (Src_slot rhs)
  | BranchI32Lt_Si offset lhs rhs => cmp_branch P_i32 i32_lt_s offset (Src_slot lhs) (Src_imm rhs)
  | BranchI32Lt_Ir offset lhs => cmp_branch P_i32 i32_lt_s offset (Src_imm lhs) (Src_reg Reg_i64)
  | BranchI32Lt_Is offset lhs rhs => cmp_branch P_i32 i32_lt_s offset (Src_imm lhs) (Src_slot rhs)
  | BranchU32Le_Rs offset rhs => cmp_branch P_u32 i32_le_u offset (Src_reg Reg_i64) (Src_slot rhs)
  | BranchU32Le_Ri offset rhs => cmp_branch P_u32 i32_le_u offset (Src_reg Reg_i64) (Src_imm rhs)
  | BranchU32Le_Sr offset lhs => cmp_branch P_u32 i32_le_u offset (Src_slot lhs) (Src_reg Reg_i64)
  | BranchU32Le_Ss offset lhs rhs => cmp_branch P_u32 i32_le_u offset (Src_slot lhs) (Src_slot rhs)
  | BranchU32Le_Si offset lhs rhs => cmp_branch P_u32 i32_le_u offset (Src_slot lhs) (Src_imm rhs)
  | BranchU32Le_Ir offset lhs => cmp_branch P_u32 i32_le_u offset (Src_imm lhs) (Src_reg Reg_i64)
  | BranchU32Le_Is offset lhs rhs => cmp_branch P_u32 i32_le_u offset (Src_imm lhs) (Src_slot rhs)
  | BranchU32Lt_Rs offset rhs => cmp_branch P_u32 i32_lt_u offset (Src_reg Reg_i64) (Src_slot rhs)
  | BranchU32Lt_Ri offset rhs => cmp_branch P_u32 i32_lt_u offset (Src_reg Reg_i64) (Src_imm rhs)
  | BranchU32Lt_Sr offset lhs => cmp_branch P_u32 i32_lt_u offset (Src_slot lhs) (Src_reg Reg_i64)
  | BranchU32Lt_Ss offset lhs rhs => cmp_branch P_u32 i32_lt_u offset (Src_slot lhs) (Src_slot rhs)
  | BranchU32Lt_Si offset lhs rhs => cmp_branch P_u32 i32_lt_u offset (Src_slot lhs) (Src_imm rhs)
  | BranchU32Lt_Ir offset lhs => cmp_branch P_u32 i32_lt_u offset (Src_imm lhs) (Src_reg Reg_i64)
  | BranchU32Lt_Is offset lhs rhs => cmp_branch P_u32 i32_lt_u offset (Src_imm lhs) (Src_slot rhs)
  end.

Definition cmp_branch_i64_handler (op : CmpBranchInstI64) : CmpBranchHandler :=
  match op with
  | BranchI64Eq_Rs offset rhs => cmp_branch P_i64 i64_eq offset (Src_reg Reg_i64) (Src_slot rhs)
  | BranchI64Eq_Ri offset rhs => cmp_branch P_i64 i64_eq offset (Src_reg Reg_i64) (Src_imm rhs)
  | BranchI64Eq_Ss offset lhs rhs => cmp_branch P_i64 i64_eq offset (Src_slot lhs) (Src_slot rhs)
  | BranchI64Eq_Si offset lhs rhs => cmp_branch P_i64 i64_eq offset (Src_slot lhs) (Src_imm rhs)
  | BranchI64And_Rs offset rhs => cmp_branch P_i64 wasmi_i64_and offset (Src_reg Reg_i64) (Src_slot rhs)
  | BranchI64And_Ri offset rhs => cmp_branch P_i64 wasmi_i64_and offset (Src_reg Reg_i64) (Src_imm rhs)
  | BranchI64And_Ss offset lhs rhs => cmp_branch P_i64 wasmi_i64_and offset (Src_slot lhs) (Src_slot rhs)
  | BranchI64And_Si offset lhs rhs => cmp_branch P_i64 wasmi_i64_and offset (Src_slot lhs) (Src_imm rhs)
  | BranchI64Or_Rs offset rhs => cmp_branch P_i64 wasmi_i64_or offset (Src_reg Reg_i64) (Src_slot rhs)
  | BranchI64Or_Ri offset rhs => cmp_branch P_i64 wasmi_i64_or offset (Src_reg Reg_i64) (Src_imm rhs)
  | BranchI64Or_Ss offset lhs rhs => cmp_branch P_i64 wasmi_i64_or offset (Src_slot lhs) (Src_slot rhs)
  | BranchI64Or_Si offset lhs rhs => cmp_branch P_i64 wasmi_i64_or offset (Src_slot lhs) (Src_imm rhs)
  | BranchI64NotEq_Rs offset rhs => cmp_branch P_i64 i64_ne offset (Src_reg Reg_i64) (Src_slot rhs)
  | BranchI64NotEq_Ri offset rhs => cmp_branch P_i64 i64_ne offset (Src_reg Reg_i64) (Src_imm rhs)
  | BranchI64NotEq_Ss offset lhs rhs => cmp_branch P_i64 i64_ne offset (Src_slot lhs) (Src_slot rhs)
  | BranchI64NotEq_Si offset lhs rhs => cmp_branch P_i64 i64_ne offset (Src_slot lhs) (Src_imm rhs)
  | BranchI64NotAnd_Rs offset rhs => cmp_branch P_i64 wasmi_i64_not_and offset (Src_reg Reg_i64) (Src_slot rhs)
  | BranchI64NotAnd_Ri offset rhs => cmp_branch P_i64 wasmi_i64_not_and offset (Src_reg Reg_i64) (Src_imm rhs)
  | BranchI64NotAnd_Ss offset lhs rhs => cmp_branch P_i64 wasmi_i64_not_and offset (Src_slot lhs) (Src_slot rhs)
  | BranchI64NotAnd_Si offset lhs rhs => cmp_branch P_i64 wasmi_i64_not_and offset (Src_slot lhs) (Src_imm rhs)
  | BranchI64NotOr_Rs offset rhs => cmp_branch P_i64 wasmi_i64_not_or offset (Src_reg Reg_i64) (Src_slot rhs)
  | BranchI64NotOr_Ri offset rhs => cmp_branch P_i64 wasmi_i64_not_or offset (Src_reg Reg_i64) (Src_imm rhs)
  | BranchI64NotOr_Ss offset lhs rhs => cmp_branch P_i64 wasmi_i64_not_or offset (Src_slot lhs) (Src_slot rhs)
  | BranchI64NotOr_Si offset lhs rhs => cmp_branch P_i64 wasmi_i64_not_or offset (Src_slot lhs) (Src_imm rhs)
  | BranchI64Le_Rs offset rhs => cmp_branch P_i64 i64_le_s offset (Src_reg Reg_i64) (Src_slot rhs)
  | BranchI64Le_Ri offset rhs => cmp_branch P_i64 i64_le_s offset (Src_reg Reg_i64) (Src_imm rhs)
  | BranchI64Le_Sr offset lhs => cmp_branch P_i64 i64_le_s offset (Src_slot lhs) (Src_reg Reg_i64)
  | BranchI64Le_Ss offset lhs rhs => cmp_branch P_i64 i64_le_s offset (Src_slot lhs) (Src_slot rhs)
  | BranchI64Le_Si offset lhs rhs => cmp_branch P_i64 i64_le_s offset (Src_slot lhs) (Src_imm rhs)
  | BranchI64Le_Ir offset lhs => cmp_branch P_i64 i64_le_s offset (Src_imm lhs) (Src_reg Reg_i64)
  | BranchI64Le_Is offset lhs rhs => cmp_branch P_i64 i64_le_s offset (Src_imm lhs) (Src_slot rhs)
  | BranchI64Lt_Rs offset rhs => cmp_branch P_i64 i64_lt_s offset (Src_reg Reg_i64) (Src_slot rhs)
  | BranchI64Lt_Ri offset rhs => cmp_branch P_i64 i64_lt_s offset (Src_reg Reg_i64) (Src_imm rhs)
  | BranchI64Lt_Sr offset lhs => cmp_branch P_i64 i64_lt_s offset (Src_slot lhs) (Src_reg Reg_i64)
  | BranchI64Lt_Ss offset lhs rhs => cmp_branch P_i64 i64_lt_s offset (Src_slot lhs) (Src_slot rhs)
  | BranchI64Lt_Si offset lhs rhs => cmp_branch P_i64 i64_lt_s offset (Src_slot lhs) (Src_imm rhs)
  | BranchI64Lt_Ir offset lhs => cmp_branch P_i64 i64_lt_s offset (Src_imm lhs) (Src_reg Reg_i64)
  | BranchI64Lt_Is offset lhs rhs => cmp_branch P_i64 i64_lt_s offset (Src_imm lhs) (Src_slot rhs)
  | BranchU64Le_Rs offset rhs => cmp_branch P_u64 i64_le_u offset (Src_reg Reg_i64) (Src_slot rhs)
  | BranchU64Le_Ri offset rhs => cmp_branch P_u64 i64_le_u offset (Src_reg Reg_i64) (Src_imm rhs)
  | BranchU64Le_Sr offset lhs => cmp_branch P_u64 i64_le_u offset (Src_slot lhs) (Src_reg Reg_i64)
  | BranchU64Le_Ss offset lhs rhs => cmp_branch P_u64 i64_le_u offset (Src_slot lhs) (Src_slot rhs)
  | BranchU64Le_Si offset lhs rhs => cmp_branch P_u64 i64_le_u offset (Src_slot lhs) (Src_imm rhs)
  | BranchU64Le_Ir offset lhs => cmp_branch P_u64 i64_le_u offset (Src_imm lhs) (Src_reg Reg_i64)
  | BranchU64Le_Is offset lhs rhs => cmp_branch P_u64 i64_le_u offset (Src_imm lhs) (Src_slot rhs)
  | BranchU64Lt_Rs offset rhs => cmp_branch P_u64 i64_lt_u offset (Src_reg Reg_i64) (Src_slot rhs)
  | BranchU64Lt_Ri offset rhs => cmp_branch P_u64 i64_lt_u offset (Src_reg Reg_i64) (Src_imm rhs)
  | BranchU64Lt_Sr offset lhs => cmp_branch P_u64 i64_lt_u offset (Src_slot lhs) (Src_reg Reg_i64)
  | BranchU64Lt_Ss offset lhs rhs => cmp_branch P_u64 i64_lt_u offset (Src_slot lhs) (Src_slot rhs)
  | BranchU64Lt_Si offset lhs rhs => cmp_branch P_u64 i64_lt_u offset (Src_slot lhs) (Src_imm rhs)
  | BranchU64Lt_Ir offset lhs => cmp_branch P_u64 i64_lt_u offset (Src_imm lhs) (Src_reg Reg_i64)
  | BranchU64Lt_Is offset lhs rhs => cmp_branch P_u64 i64_lt_u offset (Src_imm lhs) (Src_slot rhs)
  end.

Definition cmp_branch_f32_handler (op : CmpBranchInstF32) : CmpBranchHandler :=
  match op with
  | BranchF32Eq_Rs offset rhs => cmp_branch P_f32 f32_eq offset (Src_reg Reg_f32) (Src_slot rhs)
  | BranchF32Eq_Ri offset rhs => cmp_branch P_f32 f32_eq offset (Src_reg Reg_f32) (Src_imm rhs)
  | BranchF32Eq_Ss offset lhs rhs => cmp_branch P_f32 f32_eq offset (Src_slot lhs) (Src_slot rhs)
  | BranchF32Eq_Si offset lhs rhs => cmp_branch P_f32 f32_eq offset (Src_slot lhs) (Src_imm rhs)
  | BranchF32Le_Rs offset rhs => cmp_branch P_f32 f32_le offset (Src_reg Reg_f32) (Src_slot rhs)
  | BranchF32Le_Ri offset rhs => cmp_branch P_f32 f32_le offset (Src_reg Reg_f32) (Src_imm rhs)
  | BranchF32Le_Sr offset lhs => cmp_branch P_f32 f32_le offset (Src_slot lhs) (Src_reg Reg_f32)
  | BranchF32Le_Ss offset lhs rhs => cmp_branch P_f32 f32_le offset (Src_slot lhs) (Src_slot rhs)
  | BranchF32Le_Si offset lhs rhs => cmp_branch P_f32 f32_le offset (Src_slot lhs) (Src_imm rhs)
  | BranchF32Le_Ir offset lhs => cmp_branch P_f32 f32_le offset (Src_imm lhs) (Src_reg Reg_f32)
  | BranchF32Le_Is offset lhs rhs => cmp_branch P_f32 f32_le offset (Src_imm lhs) (Src_slot rhs)
  | BranchF32Lt_Rs offset rhs => cmp_branch P_f32 f32_lt offset (Src_reg Reg_f32) (Src_slot rhs)
  | BranchF32Lt_Ri offset rhs => cmp_branch P_f32 f32_lt offset (Src_reg Reg_f32) (Src_imm rhs)
  | BranchF32Lt_Sr offset lhs => cmp_branch P_f32 f32_lt offset (Src_slot lhs) (Src_reg Reg_f32)
  | BranchF32Lt_Ss offset lhs rhs => cmp_branch P_f32 f32_lt offset (Src_slot lhs) (Src_slot rhs)
  | BranchF32Lt_Si offset lhs rhs => cmp_branch P_f32 f32_lt offset (Src_slot lhs) (Src_imm rhs)
  | BranchF32Lt_Ir offset lhs => cmp_branch P_f32 f32_lt offset (Src_imm lhs) (Src_reg Reg_f32)
  | BranchF32Lt_Is offset lhs rhs => cmp_branch P_f32 f32_lt offset (Src_imm lhs) (Src_slot rhs)
  | BranchF32NotEq_Rs offset rhs => cmp_branch P_f32 f32_ne offset (Src_reg Reg_f32) (Src_slot rhs)
  | BranchF32NotEq_Ri offset rhs => cmp_branch P_f32 f32_ne offset (Src_reg Reg_f32) (Src_imm rhs)
  | BranchF32NotEq_Ss offset lhs rhs => cmp_branch P_f32 f32_ne offset (Src_slot lhs) (Src_slot rhs)
  | BranchF32NotEq_Si offset lhs rhs => cmp_branch P_f32 f32_ne offset (Src_slot lhs) (Src_imm rhs)
  | BranchF32NotLe_Rs offset rhs => cmp_branch P_f32 wasmi_f32_not_le offset (Src_reg Reg_f32) (Src_slot rhs)
  | BranchF32NotLe_Ri offset rhs => cmp_branch P_f32 wasmi_f32_not_le offset (Src_reg Reg_f32) (Src_imm rhs)
  | BranchF32NotLe_Sr offset lhs => cmp_branch P_f32 wasmi_f32_not_le offset (Src_slot lhs) (Src_reg Reg_f32)
  | BranchF32NotLe_Ss offset lhs rhs => cmp_branch P_f32 wasmi_f32_not_le offset (Src_slot lhs) (Src_slot rhs)
  | BranchF32NotLe_Si offset lhs rhs => cmp_branch P_f32 wasmi_f32_not_le offset (Src_slot lhs) (Src_imm rhs)
  | BranchF32NotLe_Ir offset lhs => cmp_branch P_f32 wasmi_f32_not_le offset (Src_imm lhs) (Src_reg Reg_f32)
  | BranchF32NotLe_Is offset lhs rhs => cmp_branch P_f32 wasmi_f32_not_le offset (Src_imm lhs) (Src_slot rhs)
  | BranchF32NotLt_Rs offset rhs => cmp_branch P_f32 wasmi_f32_not_lt offset (Src_reg Reg_f32) (Src_slot rhs)
  | BranchF32NotLt_Ri offset rhs => cmp_branch P_f32 wasmi_f32_not_lt offset (Src_reg Reg_f32) (Src_imm rhs)
  | BranchF32NotLt_Sr offset lhs => cmp_branch P_f32 wasmi_f32_not_lt offset (Src_slot lhs) (Src_reg Reg_f32)
  | BranchF32NotLt_Ss offset lhs rhs => cmp_branch P_f32 wasmi_f32_not_lt offset (Src_slot lhs) (Src_slot rhs)
  | BranchF32NotLt_Si offset lhs rhs => cmp_branch P_f32 wasmi_f32_not_lt offset (Src_slot lhs) (Src_imm rhs)
  | BranchF32NotLt_Ir offset lhs => cmp_branch P_f32 wasmi_f32_not_lt offset (Src_imm lhs) (Src_reg Reg_f32)
  | BranchF32NotLt_Is offset lhs rhs => cmp_branch P_f32 wasmi_f32_not_lt offset (Src_imm lhs) (Src_slot rhs)
  end.

Definition cmp_branch_f64_handler (op : CmpBranchInstF64) : CmpBranchHandler :=
  match op with
  | BranchF64Eq_Rs offset rhs => cmp_branch P_f64 f64_eq offset (Src_reg Reg_f64) (Src_slot rhs)
  | BranchF64Eq_Ri offset rhs => cmp_branch P_f64 f64_eq offset (Src_reg Reg_f64) (Src_imm rhs)
  | BranchF64Eq_Ss offset lhs rhs => cmp_branch P_f64 f64_eq offset (Src_slot lhs) (Src_slot rhs)
  | BranchF64Eq_Si offset lhs rhs => cmp_branch P_f64 f64_eq offset (Src_slot lhs) (Src_imm rhs)
  | BranchF64Le_Rs offset rhs => cmp_branch P_f64 f64_le offset (Src_reg Reg_f64) (Src_slot rhs)
  | BranchF64Le_Ri offset rhs => cmp_branch P_f64 f64_le offset (Src_reg Reg_f64) (Src_imm rhs)
  | BranchF64Le_Sr offset lhs => cmp_branch P_f64 f64_le offset (Src_slot lhs) (Src_reg Reg_f64)
  | BranchF64Le_Ss offset lhs rhs => cmp_branch P_f64 f64_le offset (Src_slot lhs) (Src_slot rhs)
  | BranchF64Le_Si offset lhs rhs => cmp_branch P_f64 f64_le offset (Src_slot lhs) (Src_imm rhs)
  | BranchF64Le_Ir offset lhs => cmp_branch P_f64 f64_le offset (Src_imm lhs) (Src_reg Reg_f64)
  | BranchF64Le_Is offset lhs rhs => cmp_branch P_f64 f64_le offset (Src_imm lhs) (Src_slot rhs)
  | BranchF64Lt_Rs offset rhs => cmp_branch P_f64 f64_lt offset (Src_reg Reg_f64) (Src_slot rhs)
  | BranchF64Lt_Ri offset rhs => cmp_branch P_f64 f64_lt offset (Src_reg Reg_f64) (Src_imm rhs)
  | BranchF64Lt_Sr offset lhs => cmp_branch P_f64 f64_lt offset (Src_slot lhs) (Src_reg Reg_f64)
  | BranchF64Lt_Ss offset lhs rhs => cmp_branch P_f64 f64_lt offset (Src_slot lhs) (Src_slot rhs)
  | BranchF64Lt_Si offset lhs rhs => cmp_branch P_f64 f64_lt offset (Src_slot lhs) (Src_imm rhs)
  | BranchF64Lt_Ir offset lhs => cmp_branch P_f64 f64_lt offset (Src_imm lhs) (Src_reg Reg_f64)
  | BranchF64Lt_Is offset lhs rhs => cmp_branch P_f64 f64_lt offset (Src_imm lhs) (Src_slot rhs)
  | BranchF64NotEq_Rs offset rhs => cmp_branch P_f64 f64_ne offset (Src_reg Reg_f64) (Src_slot rhs)
  | BranchF64NotEq_Ri offset rhs => cmp_branch P_f64 f64_ne offset (Src_reg Reg_f64) (Src_imm rhs)
  | BranchF64NotEq_Ss offset lhs rhs => cmp_branch P_f64 f64_ne offset (Src_slot lhs) (Src_slot rhs)
  | BranchF64NotEq_Si offset lhs rhs => cmp_branch P_f64 f64_ne offset (Src_slot lhs) (Src_imm rhs)
  | BranchF64NotLe_Rs offset rhs => cmp_branch P_f64 wasmi_f64_not_le offset (Src_reg Reg_f64) (Src_slot rhs)
  | BranchF64NotLe_Ri offset rhs => cmp_branch P_f64 wasmi_f64_not_le offset (Src_reg Reg_f64) (Src_imm rhs)
  | BranchF64NotLe_Sr offset lhs => cmp_branch P_f64 wasmi_f64_not_le offset (Src_slot lhs) (Src_reg Reg_f64)
  | BranchF64NotLe_Ss offset lhs rhs => cmp_branch P_f64 wasmi_f64_not_le offset (Src_slot lhs) (Src_slot rhs)
  | BranchF64NotLe_Si offset lhs rhs => cmp_branch P_f64 wasmi_f64_not_le offset (Src_slot lhs) (Src_imm rhs)
  | BranchF64NotLe_Ir offset lhs => cmp_branch P_f64 wasmi_f64_not_le offset (Src_imm lhs) (Src_reg Reg_f64)
  | BranchF64NotLe_Is offset lhs rhs => cmp_branch P_f64 wasmi_f64_not_le offset (Src_imm lhs) (Src_slot rhs)
  | BranchF64NotLt_Rs offset rhs => cmp_branch P_f64 wasmi_f64_not_lt offset (Src_reg Reg_f64) (Src_slot rhs)
  | BranchF64NotLt_Ri offset rhs => cmp_branch P_f64 wasmi_f64_not_lt offset (Src_reg Reg_f64) (Src_imm rhs)
  | BranchF64NotLt_Sr offset lhs => cmp_branch P_f64 wasmi_f64_not_lt offset (Src_slot lhs) (Src_reg Reg_f64)
  | BranchF64NotLt_Ss offset lhs rhs => cmp_branch P_f64 wasmi_f64_not_lt offset (Src_slot lhs) (Src_slot rhs)
  | BranchF64NotLt_Si offset lhs rhs => cmp_branch P_f64 wasmi_f64_not_lt offset (Src_slot lhs) (Src_imm rhs)
  | BranchF64NotLt_Ir offset lhs => cmp_branch P_f64 wasmi_f64_not_lt offset (Src_imm lhs) (Src_reg Reg_f64)
  | BranchF64NotLt_Is offset lhs rhs => cmp_branch P_f64 wasmi_f64_not_lt offset (Src_imm lhs) (Src_slot rhs)
  end.

End Tables.
