(* ===== verification/AccessTables.v ===== *)
(** * Handlers of selects, loads and stores

    The operators that select, load and store, with the tables of
    [handler/exec.rs]. *)

From Stdlib Require Import ZArith.
From stdpp Require Import base.
From S2P Require Import Prelude Trap Value WasmInt MemoryAccess Slot Cells Float OpTables.
Local Open Scope Z_scope.

Inductive SelectInst : Type :=
| U32Select_Rrri (false_val : Z) | U32Select_Rrir (true_val : Z)
| U32Select_Rrsi (true_val : Slot) (false_val : Z) | U32Select_Rris (true_val : Z) (false_val : Slot)
| U32Select_Rrii (true_val : Z) (false_val : Z) | U32Select_Rsri (condition : Slot) (false_val : Z)
| U32Select_Rssi (condition : Slot) (true_val : Slot) (false_val : Z)
| U32Select_Rsir (condition : Slot) (true_val : Z)
| U32Select_Rsis (condition : Slot) (true_val : Z) (false_val : Slot)
| U32Select_Rsii (condition : Slot) (true_val : Z) (false_val : Z)
| U64Select_Rrrs (false_val : Slot) | U64Select_Rrri (false_val : Z) | U64Select_Rrsr (true_val : Slot)
| U64Select_Rrir (true_val : Z) | U64Select_Rrss (true_val : Slot) (false_val : Slot)
| U64Select_Rrsi (true_val : Slot) (false_val : Z) | U64Select_Rris (true_val : Z) (false_val : Slot)
| U64Select_Rrii (true_val : Z) (false_val : Z) | U64Select_Rsrs (condition : Slot) (false_val : Slot)
| U64Select_Rsri (condition : Slot) (false_val : Z) | U64Select_Rssr (condition : Slot) (true_val : Slot)
| U64Select_Rsss (condition : Slot) (true_val : Slot) (false_val : Slot)
| U64Select_Rssi (condition : Slot) (true_val : Slot) (false_val : Z)
| U64Select_Rsir (condition : Slot) (true_val : Z)
| U64Select_Rsis (condition : Slot) (true_val : Z) (false_val : Slot)
| U64Select_Rsii (condition : Slot) (true_val : Z) (false_val : Z)
| F32Select_Rrrs (false_val : Slot) | F32Select_Rrri (false_val : Z) | F32Select_Rrsr (true_val : Slot)
| F32Select_Rrss (true_val : Slot) (false_val : Slot) | F32Select_Rrsi (true_val : Slot) (false_val : Z)
| F32Select_Rrir (true_val : Z) | F32Select_Rris (true_val : Z) (false_val : Slot)
| F32Select_Rrii (true_val : Z) (false_val : Z) | F32Select_Rsrs (condition : Slot) (false_val : Slot)
| F32Select_Rsri (condition : Slot) (false_val : Z) | F32Select_Rssr (condition : Slot) (true_val : Slot)
| F32Select_Rsss (condition : Slot) (true_val : Slot) (false_val : Slot)
| F32Select_Rssi (condition : Slot) (true_val : Slot) (false_val : Z)
| F32Select_Rsir (condition : Slot) (true_val : Z)
| F32Select_Rsis (condition : Slot) (true_val : Z) (false_val : Slot)
| F32Select_Rsii (condition : Slot) (true_val : Z) (false_val : Z)
| F64Select_Rrrs (false_val : Slot) | F64Select_Rrri (false_val : Z) | F64Select_Rrsr (true_val : Slot)
| F64Select_Rrss (true_val : Slot) (false_val : Slot) | F64Select_Rrsi (true_val : Slot) (false_val : Z)
| F64Select_Rrir (true_val : Z) | F64Select_Rris (true_val : Z) (false_val : Slot)
| F64Select_Rrii (true_val : Z) (false_val : Z) | F64Select_Rsrs (condition : Slot) (false_val : Slot)
| F64Select_Rsri (condition : Slot) (false_val : Z) | F64Select_Rssr (condition : Slot) (true_val : Slot)
| F64Select_Rsss (condition : Slot) (true_val : Slot) (false_val : Slot)
| F64Select_Rssi (condition : Slot) (true_val : Slot) (false_val : Z)
| F64Select_Rsir (condition : Slot) (true_val : Z)
| F64Select_Rsis (condition : Slot) (true_val : Z) (false_val : Slot)
| F64Select_Rsii (condition : Slot) (true_val : Z) (false_val : Z).

Inductive LoadInst : Type :=
| U32Load_Rr (offset : Z) (memory : Z) | U32Load_Rs (ptr : Slot) (offset : Z) (memory : Z)
| U64Load_Rr (offset : Z) (memory : Z) | U64Load_Rs (ptr : Slot) (offset : Z) (memory : Z)
| F32Load_Rr (offset : Z) (memory : Z) | F32Load_Rs (ptr : Slot) (offset : Z) (memory : Z)
| F64Load_Rr (offset : Z) (memory : Z) | F64Load_Rs (ptr : Slot) (offset : Z) (memory : Z)
| I32LoadExtend8_Rr (offset : Z) (memory : Z) | I32LoadExtend8_Rs (ptr : Slot) (offset : Z) (memory : Z)
| U32LoadExtend8_Rr (offset : Z) (memory : Z) | U32LoadExtend8_Rs (ptr : Slot) (offset : Z) (memory : Z)
| I32LoadExtend16_Rr (offset : Z) (memory : Z) | I32LoadExtend16_Rs (ptr : Slot) (offset : Z) (memory : Z)
| U32LoadExtend16_Rr (offset : Z) (memory : Z) | U32LoadExtend16_Rs (ptr : Slot) (offset : Z) (memory : Z)
| I64LoadExtend8_Rr (offset : Z) (memory : Z) | I64LoadExtend8_Rs (ptr : Slot) (offset : Z) (memory : Z)
| U64LoadExtend8_Rr (offset : Z) (memory : Z) | U64LoadExtend8_Rs (ptr : Slot) (offset : Z) (memory : Z)
| I64LoadExtend16_Rr (offset : Z) (memory : Z) | I64LoadExtend16_Rs (ptr : Slot) (offset : Z) (memory : Z)
| U64LoadExtend16_Rr (offset : Z) (memory : Z) | U64LoadExtend16_Rs (ptr : Slot) (offset : Z) (memory : Z)
| I64LoadExtend32_Rr (offset : Z) (memory : Z) | I64LoadExtend32_Rs (ptr : Slot) (offset : Z) (memory : Z)
| U64LoadExtend32_Rr (offset : Z) (memory : Z) | U64LoadExtend32_Rs (ptr : Slot) (offset : Z) (memory : Z)
| U32Load_Ri (address : Z) (memory : Z)
| U64Load_Ri (address : Z) (memory : Z)
| F32Load_Ri (address : Z) (memory : Z)
| F64Load_Ri (address : Z) (memory : Z)
| I32LoadExtend8_Ri (address : Z) (memory : Z)
| U32LoadExtend8_Ri (address : Z) (memory : Z)
| I32LoadExtend16_Ri (address : Z) (memory : Z)
| U32LoadExtend16_Ri (address : Z) (memory : Z)
| I64LoadExtend8_Ri (address : Z) (memory : Z)
| U64LoadExtend8_Ri (address : Z) (memory : Z)
| I64LoadExtend16_Ri (address : Z) (memory : Z)
| U64LoadExtend16_Ri (address : Z) (memory : Z)
| I64LoadExtend32_Ri (address : Z) (memory : Z)
| U64LoadExtend32_Ri (address : Z) (memory : Z).

Inductive LoadMem0Inst : Type :=
| U32LoadMem0Offset16_Rr (offset : Z) | U32LoadMem0Offset16_Rs (ptr : Slot) (offset : Z)
| U64LoadMem0Offset16_Rr (offset : Z) | U64LoadMem0Offset16_Rs (ptr : Slot) (offset : Z)
| F32LoadMem0Offset16_Rr (offset : Z) | F32LoadMem0Offset16_Rs (ptr : Slot) (offset : Z)
| F64LoadMem0Offset16_Rr (offset : Z) | F64LoadMem0Offset16_Rs (ptr : Slot) (offset : Z)
| I32LoadExtend8Mem0Offset16_Rr (offset : Z) | I32LoadExtend8Mem0Offset16_Rs (ptr : Slot) (offset : Z)
| U32LoadExtend8Mem0Offset16_Rr (offset : Z) | U32LoadExtend8Mem0Offset16_Rs (ptr : Slot) (offset : Z)
| I32LoadExtend16Mem0Offset16_Rr (offset : Z) | I32LoadExtend16Mem0Offset16_Rs (ptr : Slot) (offset : Z)
| U32LoadExtend16Mem0Offset16_Rr (offset : Z) | U32LoadExtend16Mem0Offset16_Rs (ptr : Slot) (offset : Z)
| I64LoadExtend8Mem0Offset16_Rr (offset : Z) | I64LoadExtend8Mem0Offset16_Rs (ptr : Slot) (offset : Z)
| U64LoadExtend8Mem0Offset16_Rr (offset : Z) | U64LoadExtend8Mem0Offset16_Rs (ptr : Slot) (offset : Z)
| I64LoadExtend16Mem0Offset16_Rr (offset : Z) | I64LoadExtend16Mem0Offset16_Rs (ptr : Slot) (offset : Z)
| U64LoadExtend16Mem0Offset16_Rr (offset : Z) | U64LoadExtend16Mem0Offset16_Rs (ptr : Slot) (offset : Z)
| I64LoadExtend32Mem0Offset16_Rr (offset : Z) | I64LoadExtend32Mem0Offset16_Rs (ptr : Slot) (offset : Z)
| U64LoadExtend32Mem0Offset16_Rr (offset : Z) | U64LoadExtend32Mem0Offset16_Rs (ptr : Slot) (offset : Z)
| U32LoadMem0Offset16_Rs_r (result : Slot) (offset : Z)
| U32LoadMem0Offset16_Rs_s (result : Slot) (ptr : Slot) (offset : Z)
| U64LoadMem0Offset16_Rs_r (result : Slot) (offset : Z)
| U64LoadMem0Offset16_Rs_s (result : Slot) (ptr : Slot) (offset : Z)
| F32LoadMem0Offset16_Rs_r (result : Slot) (offset : Z)
| F32LoadMem0Offset16_Rs_s (result : Slot) (ptr : Slot) (offset : Z)
| F64LoadMem0Offset16_Rs_r (result : Slot) (offset : Z)
| F64LoadMem0Offset16_Rs_s (result : Slot) (ptr : Slot) (offset : Z)
| I32LoadExtend8Mem0Offset16_Rs_r (result : Slot) (offset : Z)
| I32LoadExtend8Mem0Offset16_Rs_s (result : Slot) (ptr : Slot) (offset : Z)
| I32LoadExtend16Mem0Offset16_Rs_r (result : Slot) (offset : Z)
| I32LoadExtend16Mem0Offset16_Rs_s (result : Slot) (ptr : Slot) (offset : Z)
| U32LoadExtend8Mem0Offset16_Rs_r (result : Slot) (offset : Z)
| U32LoadExtend8Mem0Offset16_Rs_s (result : Slot) (ptr : Slot) (offset : Z)
| U32LoadExtend16Mem0Offset16_Rs_r (result : Slot) (offset : Z)
| U32LoadExtend16Mem0Offset16_Rs_s (result : Slot) (ptr : Slot) (offset : Z)
| I64LoadExtend8Mem0Offset16_Rs_r (result : Slot) (offset : Z)
| I64LoadExtend8Mem0Offset16_Rs_s (result : Slot) (ptr : Slot) (offset : Z)
| I64LoadExtend16Mem0Offset16_Rs_r (result : Slot) (offset : Z)
| I64LoadExtend16Mem0Offset16_Rs_s (result : Slot) (ptr : Slot) (offset : Z)
| I64LoadExtend32Mem0Offset16_Rs_r (result : Slot) (offset : Z)
| I64LoadExtend32Mem0Offset16_Rs_s (result : Slot) (ptr : Slot) (offset : Z)
| U64LoadExtend8Mem0Offset16_Rs_r (result : Slot) (offset : Z)
| U64LoadExtend8Mem0Offset16_Rs_s (result : Slot) (ptr : Slot) (offset : Z)
| U64LoadExtend16Mem0Offset16_Rs_r (result : Slot) (offset : Z)
| U64LoadExtend16Mem0Offset16_Rs_s (result : Slot) (ptr : Slot) (offset : Z)
| U64LoadExtend32Mem0Offset16_Rs_r (result : Slot) (offset : Z)
| U64LoadExtend32Mem0Offset16_Rs_s (result : Slot) (ptr : Slot) (offset : Z).

Inductive StoreInst : Type :=
| U32Store_Rs (offset : Z) (value : Slot) (memory : Z) | U32Store_Ri (offset : Z) (value : Z) (memory : Z)
| U32Store_Sr (ptr : Slot) (offset : Z) (memory : Z)
| U32Store_Ss (ptr : Slot) (offset : Z) (value : Slot) (memory : Z)
| U32Store_Si (ptr : Slot) (offset : Z) (value : Z) (memory : Z)
| U64Store_Rs (offset : Z) (value : Slot) (memory : Z) | U64Store_Ri (offset : Z) (value : Z) (memory : Z)
| U64Store_Sr (ptr : Slot) (offset : Z) (memory : Z)
| U64Store_Ss (ptr : Slot) (offset : Z) (value : Slot) (memory : Z)
| U64Store_Si (ptr : Slot) (offset : Z) (value : Z) (memory : Z)
| F32Store_Rr (offset : Z) (memory : Z) | F32Store_Sr (ptr : Slot) (offset : Z) (memory : Z)
| F64Store_Rr (offset : Z) (memory : Z) | F64Store_Sr (ptr : Slot) (offset : Z) (memory : Z)
| I32StoreWrap8_Rs (offset : Z) (value : Slot) (memory : Z)
| I32StoreWrap8_Ri (offset : Z) (value : Z) (memory : Z)
| I32StoreWrap8_Sr (ptr : Slot) (offset : Z) (memory : Z)
| I32StoreWrap8_Ss (ptr : Slot) (offset : Z) (value : Slot) (memory : Z)
| I32StoreWrap8_Si (ptr : Slot) (offset : Z) (value : Z) (memory : Z)
| I32StoreWrap16_Rs (offset : Z) (value : Slot) (memory : Z)
| I32StoreWrap16_Ri (offset : Z) (value : Z) (memory : Z)
| I32StoreWrap16_Sr (ptr : Slot) (offset : Z) (memory : Z)
| I32StoreWrap16_Ss (ptr : Slot) (offset : Z) (value : Slot) (memory : Z)
| I32StoreWrap16_Si (ptr : Slot) (offset : Z) (value : Z) (memory : Z)
| I64StoreWrap8_Rs (offset : Z) (value : Slot) (memory : Z)
| I64StoreWrap8_Ri (offset : Z) (value : Z) (memory : Z)
| I64StoreWrap8_Sr (ptr : Slot) (offset : Z) (memory : Z)
| I64StoreWrap8_Ss (ptr : Slot) (offset : Z) (value : Slot) (memory : Z)
| I64StoreWrap8_Si (ptr : Slot) (offset : Z) (value : Z) (memory : Z)
| I64StoreWrap16_Rs (offset : Z) (value : Slot) (memory : Z)
| I64StoreWrap16_Ri (offset : Z) (value : Z) (memory : Z)
| I64StoreWrap16_Sr (ptr : Slot) (offset : Z) (memory : Z)
| I64StoreWrap16_Ss (ptr : Slot) (offset : Z) (value : Slot) (memory : Z)
| I64StoreWrap16_Si (ptr : Slot) (offset : Z) (value : Z) (memory : Z)
| I64StoreWrap32_Rs (offset : Z) (value : Slot) (memory : Z)
| I64StoreWrap32_Ri (offset : Z) (value : Z) (memory : Z)
| I64StoreWrap32_Sr (ptr : Slot) (offset : Z) (memory : Z)
| I64StoreWrap32_Ss (ptr : Slot) (offset : Z) (value : Slot) (memory : Z)
| I64StoreWrap32_Si (ptr : Slot) (offset : Z) (value : Z) (memory : Z)
| U32Store_Ir (address : Z) (memory : Z) | U32Store_Is (address : Z) (value : Slot) (memory : Z)
| U32Store_Ii (address : Z) (value : Z) (memory : Z)
| U64Store_Ir (address : Z) (memory : Z) | U64Store_Is (address : Z) (value : Slot) (memory : Z)
| U64Store_Ii (address : Z) (value : Z) (memory : Z)
| F32Store_Ir (address : Z) (memory : Z)
| F64Store_Ir (address : Z) (memory : Z)
| I32StoreWrap8_Ir (address : Z) (memory : Z) | I32StoreWrap8_Is (address : Z) (value : Slot) (memory : Z)
| I32StoreWrap8_Ii (address : Z) (value : Z) (memory : Z)
| I32StoreWrap16_Ir (address : Z) (memory : Z) | I32StoreWrap16_Is (address : Z) (value : Slot) (memory : Z)
| I32StoreWrap16_Ii (address : Z) (value : Z) (memory : Z)
| I64StoreWrap8_Ir (address : Z) (memory : Z) | I64StoreWrap8_Is (address : Z) (value : Slot) (memory : Z)
| I64StoreWrap8_Ii (address : Z) (value : Z) (memory : Z)
| I64StoreWrap16_Ir (address : Z) (memory : Z) | I64StoreWrap16_Is (address : Z) (value : Slot) (memory : Z)
| I64StoreWrap16_Ii (address : Z) (value : Z) (memory : Z)
| I64StoreWrap32_Ir (address : Z) (memory : Z) | I64StoreWrap32_Is (address : Z) (value : Slot) (memory : Z)
| I64StoreWrap32_Ii (address : Z) (value : Z) (memory : Z).

Inductive StoreMem0Inst : Type :=
| U32StoreMem0Offset16_Rs (offset : Z) (value : Slot) | U32StoreMem0Offset16_Ri (offset : Z) (value : Z)
| U32StoreMem0Offset16_Sr (ptr : Slot) (offset : Z)
| U32StoreMem0Offset16_Ss (ptr : Slot) (offset : Z) (value : Slot)
| U32StoreMem0Offset16_Si (ptr : Slot) (offset : Z) (value : Z)
| U64StoreMem0Offset16_Rs (offset : Z) (value : Slot) | U64StoreMem0Offset16_Ri (offset : Z) (value : Z)
| U64StoreMem0Offset16_Sr (ptr : Slot) (offset : Z)
| U64StoreMem0Offset16_Ss (ptr : Slot) (offset : Z) (value : Slot)
| U64StoreMem0Offset16_Si (ptr : Slot) (offset : Z) (value : Z)
| F32StoreMem0Offset16_Rr (offset : Z) | F32StoreMem0Offset16_Sr (ptr : Slot) (offset : Z)
| F64StoreMem0Offset16_Rr (offset : Z) | F64StoreMem0Offset16_Sr (ptr : Slot) (offset : Z)
| I32StoreWrap8Mem0Offset16_Rs (offset : Z) (value : Slot)
| I32StoreWrap8Mem0Offset16_Ri (offset : Z) (value : Z)
| I32StoreWrap8Mem0Offset16_Sr (ptr : Slot) (offset : Z)
| I32StoreWrap8Mem0Offset16_Ss (ptr : Slot) (offset : Z) (value : Slot)
| I32StoreWrap8Mem0Offset16_Si (ptr : Slot) (offset : Z) (value : Z)
| I32StoreWrap16Mem0Offset16_Rs (offset : Z) (value : Slot)
| I32StoreWrap16Mem0Offset16_Ri (offset : Z) (value : Z)
| I32StoreWrap16Mem0Offset16_Sr (ptr : Slot) (offset : Z)
| I32StoreWrap16Mem0Offset16_Ss (ptr : Slot) (offset : Z) (value : Slot)
| I32StoreWrap16Mem0Offset16_Si (ptr : Slot) (offset : Z) (value : Z)
| I64StoreWrap8Mem0Offset16_Rs (offset : Z) (value : Slot)
| I64StoreWrap8Mem0Offset16_Ri (offset : Z) (value : Z)
| I64StoreWrap8Mem0Offset16_Sr (ptr : Slot) (offset : Z)
| I64StoreWrap8Mem0Offset16_Ss (ptr : Slot) (offset : Z) (value : Slot)
| I64StoreWrap8Mem0Offset16_Si (ptr : Slot) (offset : Z) (value : Z)
| I64StoreWrap16Mem0Offset16_Rs (offset : Z) (value : Slot)
| I64StoreWrap16Mem0Offset16_Ri (offset : Z) (value : Z)
| I64StoreWrap16Mem0Offset16_Sr (ptr : Slot) (offset : Z)
| I64StoreWrap16Mem0Offset16_Ss (ptr : Slot) (offset : Z) (value : Slot)
| I64StoreWrap16Mem0Offset16_Si (ptr : Slot) (offset : Z) (value : Z)
| I64StoreWrap32Mem0Offset16_Rs (offset : Z) (value : Slot)
| I64StoreWrap32Mem0Offset16_Ri (offset : Z) (value : Z)
| I64StoreWrap32Mem0Offset16_Sr (ptr : Slot) (offset : Z)
| I64StoreWrap32Mem0Offset16_Ss (ptr : Slot) (offset : Z) (value : Slot)
| I64StoreWrap32Mem0Offset16_Si (ptr : Slot) (offset : Z) (value : Z).

Section Tables.
Context `{T : Target} `{FloatNans}.

Definition select_op_handler (op : SelectInst) : SelectHandler :=
  match op with
  | U32Select_Rrri false_val => select P_u32 (Dst_reg Reg_i64) (Src_reg Reg_i64) (Src_reg Reg_i64) (Src_imm false_val)
  | U32Select_Rrir true_val => select P_u32 (Dst_reg Reg_i64) (Src_reg Reg_i64) (Src_imm true_val) (Src_reg Reg_i64)
  | U32Select_Rrsi true_val false_val => select P_u32 (Dst_reg Reg_i64) (Src_reg Reg_i64) (Src_slot true_val) (Src_imm false_val)
  | U32Select_Rris true_val false_val => select P_u32 (Dst_reg Reg_i64) (Src_reg Reg_i64) (Src_imm true_val) (Src_slot false_val)
  | U32Select_Rrii true_val false_val => select P_u32 (Dst_reg Reg_i64) (Src_reg Reg_i64) (Src_imm true_val) (Src_imm false_val)
  | U32Select_Rsri condition false_val => select P_u32 (Dst_reg Reg_i64) (Src_slot condition) (Src_reg Reg_i64) (Src_imm false_val)
  | U32Select_Rssi condition true_val false_val => select P_u32 (Dst_reg Reg_i64) (Src_slot condition) (Src_slot true_val) (Src_imm false_val)
  | U32Select_Rsir condition true_val => select P_u32 (Dst_reg Reg_i64) (Src_slot condition) (Src_imm true_val) (Src_reg Reg_i64)
  | U32Select_Rsis condition true_val false_val => select P_u32 (Dst_reg Reg_i64) (Src_slot condition) (Src_imm true_val) (Src_slot false_val)
  | U32Select_Rsii condition true_val false_val => select P_u32 (Dst_reg Reg_i64) (Src_slot condition) (Src_imm true_val) (Src_imm false_val)
  | U64Select_Rrrs false_val => select P_u64 (Dst_reg Reg_i64) (Src_reg Reg_i64) (Src_reg Reg_i64) (Src_slot false_val)
  | U64Select_Rrri false_val => select P_u64 (Dst_reg Reg_i64) (Src_reg Reg_i64) (Src_reg Reg_i64) (Src_imm false_val)
  | U64Select_Rrsr true_val => select P_u64 (Dst_reg Reg_i64) (Src_reg Reg_i64) (Src_slot true_val) (Src_reg Reg_i64)
  | U64Select_Rrir true_val => select P_u64 (Dst_reg Reg_i64) (Src_reg Reg_i64) (Src_imm true_val) (Src_reg Reg_i64)
  | U64Select_Rrss true_val false_val => select P_u64 (Dst_reg Reg_i64) (Src_reg Reg_i64) (Src_slot true_val) (Src_slot false_val)
  | U64Select_Rrsi true_val false_val => select P_u64 (Dst_reg Reg_i64) (Src_reg Reg_i64) (Src_slot true_val) (Src_imm false_val)
  | U64Select_Rris true_val false_val => select P_u64 (Dst_reg Reg_i64) (Src_reg Reg_i64) (Src_imm true_val) (Src_slot false_val)
  | U64Select_Rrii true_val false_val => select P_u64 (Dst_reg Reg_i64) (Src_reg Reg_i64) (Src_imm true_val) (Src_imm false_val)
  | U64Select_Rsrs condition false_val => select P_u64 (Dst_reg Reg_i64) (Src_slot condition) (Src_reg Reg_i64) (Src_slot false_val)
  | U64Select_Rsri condition false_val => select P_u64 (Dst_reg Reg_i64) (Src_slot condition) (Src_reg Reg_i64) (Src_imm false_val)
  | U64Select_Rssr condition true_val => select P_u64 (Dst_reg Reg_i64) (Src_slot condition) (Src_slot true_val) (Src_reg Reg_i64)
  | U64Select_Rsss condition true_val false_val => select P_u64 (Dst_reg Reg_i64) (Src_slot condition) (Src_slot true_val) (Src_slot false_val)
  | U64Select_Rssi condition true_val false_val => select P_u64 (Dst_reg Reg_i64) (Src_slot condition) (Src_slot true_val) (Src_imm false_val)
  | U64Select_Rsir condition true_val => select P_u64 (Dst_reg Reg_i64) (Src_slot condition) (Src_imm true_val) (Src_reg Reg_i64)
  | U64Select_Rsis condition true_val false_val => select P_u64 (Dst_reg Reg_i64) (Src_slot condition) (Src_imm true_val) (Src_slot false_val)
  | U64Select_Rsii condition true_val false_val => select P_u64 (Dst_reg Reg_i64) (Src_slot condition) (Src_imm true_val) (Src_imm false_val)
  | F32Select_Rrrs false_val => select P_f32 (Dst_reg Reg_f32) (Src_reg Reg_i64) (Src_reg Reg_f32) (Src_slot false_val)
  | F32Select_Rrri false_val => select P_f32 (Dst_reg Reg_f32) (Src_reg Reg_i64) (Src_reg Reg_f32) (Src_imm false_val)
  | F32Select_Rrsr true_val => select P_f32 (Dst_reg Reg_f32) (Src_reg Reg_i64) (Src_slot true_val) (Src_reg Reg_f32)
  | F32Select_Rrss true_val false_val => select P_f32 (Dst_reg Reg_f32) (Src_reg Reg_i64) (Src_slot true_val) (Src_slot false_val)
  | F32Select_Rrsi true_val false_val => select P_f32 (Dst_reg Reg_f32) (Src_reg Reg_i64) (Src_slot true_val) (Src_imm false_val)
  | F32Select_Rrir true_val => select P_f32 (Dst_reg Reg_f32) (Src_reg Reg_i64) (Src_imm true_val) (Src_reg Reg_f32)
  | F32Select_Rris true_val false_val => select P_f32 (Dst_reg Reg_f32) (Src_reg Reg_i64) (Src_imm true_val) (Src_slot false_val)
  | F32Select_Rrii true_val false_val => select P_f32 (Dst_reg Reg_f32) (Src_reg Reg_i64) (Src_imm true_val) (Src_imm false_val)
  | F32Select_Rsrs condition false_val => select P_f32 (Dst_reg Reg_f32) (Src_slot condition) (Src_reg Reg_f32) (Src_slot false_val)
  | F32Select_Rsri condition false_val => select P_f32 (Dst_reg Reg_f32) (Src_slot condition) (Src_reg Reg_f32) (Src_imm false_val)
  | F32Select_Rssr condition true_val => select P_f32 (Dst_reg Reg_f32) (Src_slot condition) (Src_slot true_val) (Src_reg Reg_f32)
  | F32Select_Rsss condition true_val false_val => select P_f32 (Dst_reg Reg_f32) (Src_slot condition) (Src_slot true_val) (Src_slot false_val)
  | F32Select_Rssi condition true_val false_val => select P_f32 (Dst_reg Reg_f32) (Src_slot condition) (Src_slot true_val) (Src_imm false_val)
  | F32Select_Rsir condition true_val => select P_f32 (Dst_reg Reg_f32) (Src_slot condition) (Src_imm true_val) (Src_reg Reg_f32)
  | F32Select_Rsis condition true_val false_val => select P_f32 (Dst_reg Reg_f32) (Src_slot condition) (Src_imm true_val) (Src_slot false_val)
  | F32Select_Rsii condition true_val false_val => select P_f32 (Dst_reg Reg_f32) (Src_slot condition) (Src_imm true_val) (Src_imm false_val)
  | F64Select_Rrrs false_val => select P_f64 (Dst_reg Reg_f64) (Src_reg Reg_i64) (Src_reg Reg_f64) (Src_slot false_val)
  | F64Select_Rrri false_val => select P_f64 (Dst_reg Reg_f64) (Src_reg Reg_i64) (Src_reg Reg_f64) (Src_imm false_val)
  | F64Select_Rrsr true_val => select P_f64 (Dst_reg Reg_f64) (Src_reg Reg_i64) (Src_slot true_val) (Src_reg Reg_f64)
  | F64Select_Rrss true_val false_val => select P_f64 (Dst_reg Reg_f64) (Src_reg Reg_i64) (Src_slot true_val) (Src_slot false_val)
  | F64Select_Rrsi true_val false_val => select P_f64 (Dst_reg Reg_f64) (Src_reg Reg_i64) (Src_slot true_val) (Src_imm false_val)
  | F64Select_Rrir true_val => select P_f64 (Dst_reg Reg_f64) (Src_reg Reg_i64) (Src_imm true_val) (Src_reg Reg_f64)
  | F64Select_Rris true_val false_val => select P_f64 (Dst_reg Reg_f64) (Src_reg Reg_i64) (Src_imm true_val) (Src_slot false_val)
  | F64Select_Rrii true_val false_val => select P_f64 (Dst_reg Reg_f64) (Src_reg Reg_i64) (Src_imm true_val) (Src_imm false_val)
  | F64Select_Rsrs condition false_val => select P_f64 (Dst_reg Reg_f64) (Src_slot condition) (Src_reg Reg_f64) (Src_slot false_val)
  | F64Select_Rsri condition false_val => select P_f64 (Dst_reg Reg_f64) (Src_slot condition) (Src_reg Reg_f64) (Src_imm false_val)
  | F64Select_Rssr condition true_val => select P_f64 (Dst_reg Reg_f64) (Src_slot condition) (Src_slot true_val) (Src_reg Reg_f64)
  | F64Select_Rsss condition true_val false_val => select P_f64 (Dst_reg Reg_f64) (Src_slot condition) (Src_slot true_val) (Src_slot false_val)
  | F64Select_Rssi condition true_val false_val => select P_f64 (Dst_reg Reg_f64) (Src_slot condition) (Src_slot true_val) (Src_imm false_val)
  | F64Select_Rsir condition true_val => select P_f64 (Dst_reg Reg_f64) (Src_slot condition) (Src_imm true_val) (Src_reg Reg_f64)
  | F64Select_Rsis condition true_val false_val => select P_f64 (Dst_reg Reg_f64) (Src_slot condition) (Src_imm true_val) (Src_slot false_val)
  | F64Select_Rsii condition true_val false_val => select P_f64 (Dst_reg Reg_f64) (Src_slot condition) (Src_imm true_val) (Src_imm false_val)
  end.

Definition load_op_handler (op : LoadInst) : LoadHandler :=
  match op with
  | U32Load_Rr offset memory => load_any P_u32 load_u32 (Dst_reg Reg_i64) (Src_reg Reg_i64) (Src_imm offset) memory
  | U32Load_Rs ptr offset memory => load_any P_u32 load_u32 (Dst_reg Reg_i64) (Src_slot ptr) (Src_imm offset) memory
  | U64Load_Rr offset memory => load_any P_u64 load_u64 (Dst_reg Reg_i64) (Src_reg Reg_i64) (Src_imm offset) memory
  | U64Load_Rs ptr offset memory => load_any P_u64 load_u64 (Dst_reg Reg_i64) (Src_slot ptr) (Src_imm offset) memory
  | F32Load_Rr offset memory => load_any P_f32 load_f32 (Dst_reg Reg_f32) (Src_reg Reg_i64) (Src_imm offset) memory
  | F32Load_Rs ptr offset memory => load_any P_f32 load_f32 (Dst_reg Reg_f32) (Src_slot ptr) (Src_imm offset) memory
  | F64Load_Rr offset memory => load_any P_f64 load_f64 (Dst_reg Reg_f64) (Src_reg Reg_i64) (Src_imm offset) memory
  | F64Load_Rs ptr offset memory => load_any P_f64 load_f64 (Dst_reg Reg_f64) (Src_slot ptr) (Src_imm offset) memory
  | I32LoadExtend8_Rr offset memory => load_any P_i32 i32_load8_s (Dst_reg Reg_i64) (Src_reg Reg_i64) (Src_imm offset) memory
  | I32LoadExtend8_Rs ptr offset memory => load_any P_i32 i32_load8_s (Dst_reg Reg_i64) (Src_slot ptr) (Src_imm offset) memory
  | U32LoadExtend8_Rr offset memory => load_any P_i32 i32_load8_u (Dst_reg Reg_i64) (Src_reg Reg_i64) (Src_imm offset) memory
  | U32LoadExtend8_Rs ptr offset memory => load_any P_i32 i32_load8_u (Dst_reg Reg_i64) (Src_slot ptr) (Src_imm offset) memory
  | I32LoadExtend16_Rr offset memory => load_any P_i32 i32_load16_s (Dst_reg Reg_i64) (Src_reg Reg_i64) (Src_imm offset) memory
  | I32LoadExtend16_Rs ptr offset memory => load_any P_i32 i32_load16_s (Dst_reg Reg_i64) (Src_slot ptr) (Src_imm offset) memory
  | U32LoadExtend16_Rr offset memory => load_any P_i32 i32_load16_u (Dst_reg Reg_i64) (Src_reg Reg_i64) (Src_imm offset) memory
  | U32LoadExtend16_Rs ptr offset memory => load_any P_i32 i32_load16_u (Dst_reg Reg_i64) (Src_slot ptr) (Src_imm offset) memory
  | I64LoadExtend8_Rr offset memory => load_any P_i64 i64_load8_s (Dst_reg Reg_i64) (Src_reg Reg_i64) (Src_imm offset) memory
  | I64LoadExtend8_Rs ptr offset memory => load_any P_i64 i64_load8_s (Dst_reg Reg_i64) (Src_slot ptr) (Src_imm offset) memory
  | U64LoadExtend8_Rr offset memory => load_any P_i64 i64_load8_u (Dst_reg Reg_i64) (Src_reg Reg_i64) (Src_imm offset) memory
  | U64LoadExtend8_Rs ptr offset memory => load_any P_i64 i64_load8_u (Dst_reg Reg_i64) (Src_slot ptr) (Src_imm offset) memory
  | I64LoadExtend16_Rr offset memory => load_any P_i64 i64_load16_s (Dst_reg Reg_i64) (Src_reg Reg_i64) (Src_imm offset) memory
  | I64LoadExtend16_Rs ptr offset memory => load_any P_i64 i64_load16_s (Dst_reg Reg_i64) (Src_slot ptr) (Src_imm offset) memory
  | U64LoadExtend16_Rr offset memory => load_any P_i64 i64_load16_u (Dst_reg Reg_i64) (Src_reg Reg_i64) (Src_imm offset) memory
  | U64LoadExtend16_Rs ptr offset memory => load_any P_i64 i64_load16_u (Dst_reg Reg_i64) (Src_slot ptr) (Src_imm offset) memory
  | I64LoadExtend32_Rr offset memory => load_any P_i64 i64_load32_s (Dst_reg Reg_i64) (Src_reg Reg_i64) (Src_imm offset) memory
  | I64LoadExtend32_Rs ptr offset memory => load_any P_i64 i64_load32_s (Dst_reg Reg_i64) (Src_slot ptr) (Src_imm offset) memory
  | U64LoadExtend32_Rr offset memory => load_any P_i64 i64_load32_u (Dst_reg Reg_i64) (Src_reg Reg_i64) (Src_imm offset) memory
  | U64LoadExtend32_Rs ptr offset memory => load_any P_i64 i64_load32_u (Dst_reg Reg_i64) (Src_slot ptr) (Src_imm offset) memory
  | U32Load_Ri address memory => load_ri P_u32 load_u32_at (Dst_reg Reg_i64) (Src_imm address) memory
  | U64Load_Ri address memory => load_ri P_u64 load_u64_at (Dst_reg Reg_i64) (Src_imm address) memory
  | F32Load_Ri address memory => load_ri P_f32 load_f32_at (Dst_reg Reg_f32) (Src_imm address) memory
  | F64Load_Ri address memory => load_ri P_f64 load_f64_at (Dst_reg Reg_f64) (Src_imm address) memory
  | I32LoadExtend8_Ri address memory => load_ri P_i32 i32_load8_s_at (Dst_reg Reg_i64) (Src_imm address) memory
  | U32LoadExtend8_Ri address memory => load_ri P_i32 i32_load8_u_at (Dst_reg Reg_i64) (Src_imm address) memory
  | I32LoadExtend16_Ri address memory => load_ri P_i32 i32_load16_s_at (Dst_reg Reg_i64) (Src_imm address) memory
  | U32LoadExtend16_Ri address memory => load_ri P_i32 i32_load16_u_at (Dst_reg Reg_i64) (Src_imm address) memory
  | I64LoadExtend8_Ri address memory => load_ri P_i64 i64_load8_s_at (Dst_reg Reg_i64) (Src_imm address) memory
  | U64LoadExtend8_Ri address memory => load_ri P_i64 i64_load8_u_at (Dst_reg Reg_i64) (Src_imm address) memory
  | I64LoadExtend16_Ri address memory => load_ri P_i64 i64_load16_s_at (Dst_reg Reg_i64) (Src_imm address) memory
  | U64LoadExtend16_Ri address memory => load_ri P_i64 i64_load16_u_at (Dst_reg Reg_i64) (Src_imm address) memory
  | I64LoadExtend32_Ri address memory => load_ri P_i64 i64_load32_s_at (Dst_reg Reg_i64) (Src_imm address) memory
  | U64LoadExtend32_Ri address memory => load_ri P_i64 i64_load32_u_at (Dst_reg Reg_i64) (Src_imm address) memory
  end.

Definition load_mem0_op_handler (op : LoadMem0Inst) : LoadHandler :=
  match op with
  | U32LoadMem0Offset16_Rr offset => load_mem0 P_u32 load_u32 (Dst_reg Reg_i64) (Src_reg Reg_i64) (Src_imm offset)
  | U32LoadMem0Offset16_Rs ptr offset => load_mem0 P_u32 load_u32 (Dst_reg Reg_i64) (Src_slot ptr) (Src_imm offset)
  | U64LoadMem0Offset16_Rr offset => load_mem0 P_u64 load_u64 (Dst_reg Reg_i64) (Src_reg Reg_i64) (Src_imm offset)
  | U64LoadMem0Offset16_Rs ptr offset => load_mem0 P_u64 load_u64 (Dst_reg Reg_i64) (Src_slot ptr) (Src_imm offset)
  | F32LoadMem0Offset16_Rr offset => load_mem0 P_f32 load_f32 (Dst_reg Reg_f32) (Src_reg Reg_i64) (Src_imm offset)
  | F32LoadMem0Offset16_Rs ptr offset => load_mem0 P_f32 load_f32 (Dst_reg Reg_f32) (Src_slot ptr) (Src_imm offset)
  | F64LoadMem0Offset16_Rr offset => load_mem0 P_f64 load_f64 (Dst_reg Reg_f64) (Src_reg Reg_i64) (Src_imm offset)
  | F64LoadMem0Offset16_Rs ptr offset => load_mem0 P_f64 load_f64 (Dst_reg Reg_f64) (Src_slot ptr) (Src_imm offset)
  | I32LoadExtend8Mem0Offset16_Rr offset => load_mem0 P_i32 i32_load8_s (Dst_reg Reg_i64) (Src_reg Reg_i64) (Src_imm offset)
  | I32LoadExtend8Mem0Offset16_Rs ptr offset => load_mem0 P_i32 i32_load8_s (Dst_reg Reg_i64) (Src_slot ptr) (Src_imm offset)
  | U32LoadExtend8Mem0Offset16_Rr offset => load_mem0 P_i32 i32_load8_u (Dst_reg Reg_i64) (Src_reg Reg_i64) (Src_imm offset)
  | U32LoadExtend8Mem0Offset16_Rs ptr offset => load_mem0 P_i32 i32_load8_u (Dst_reg Reg_i64) (Src_slot ptr) (Src_imm offset)
  | I32LoadExtend16Mem0Offset16_Rr offset => load_mem0 P_i32 i32_load16_s (Dst_reg Reg_i64) (Src_reg Reg_i64) (Src_imm offset)
  | I32LoadExtend16Mem0Offset16_Rs ptr offset => load_mem0 P_i32 i32_load16_s (Dst_reg Reg_i64) (Src_slot ptr) (Src_imm offset)
  | U32LoadExtend16Mem0Offset16_Rr offset => load_mem0 P_i32 i32_load16_u (Dst_reg Reg_i64) (Src_reg Reg_i64) (Src_imm offset)
  | U32LoadExtend16Mem0Offset16_Rs ptr offset => load_mem0 P_i32 i32_load16_u (Dst_reg Reg_i64) (Src_slot ptr) (Src_imm offset)
  | I64LoadExtend8Mem0Offset16_Rr offset => load_mem0 P_i64 i64_load8_s (Dst_reg Reg_i64) (Src_reg Reg_i64) (Src_imm offset)
  | I64LoadExtend8Mem0Offset16_Rs ptr offset => load_mem0 P_i64 i64_load8_s (Dst_reg Reg_i64) (Src_slot ptr) (Src_imm offset)
  | U64LoadExtend8Mem0Offset16_Rr offset => load_mem0 P_i64 i64_load8_u (Dst_reg Reg_i64) (Src_reg Reg_i64) (Src_imm offset)
  | U64LoadExtend8Mem0Offset16_Rs ptr offset => load_mem0 P_i64 i64_load8_u (Dst_reg Reg_i64) (Src_slot ptr) (Src_imm offset)
  | I64LoadExtend16Mem0Offset16_Rr offset => load_mem0 P_i64 i64_load16_s (Dst_reg Reg_i64) (Src_reg Reg_i64) (Src_imm offset)
  | I64LoadExtend16Mem0Offset16_Rs ptr offset => load_mem0 P_i64 i64_load16_s (Dst_reg Reg_i64) (Src_slot ptr) (Src_imm offset)
  | U64LoadExtend16Mem0Offset16_Rr offset => load_mem0 P_i64 i64_load16_u (Dst_reg Reg_i64) (Src_reg Reg_i64) (Src_imm offset)
  | U64LoadExtend16Mem0Offset16_Rs ptr offset => load_mem0 P_i64 i64_load16_u (Dst_reg Reg_i64) (Src_slot ptr) (Src_imm offset)
  | I64LoadExtend32Mem0Offset16_Rr offset => load_mem0 P_i64 i64_load32_s (Dst_reg Reg_i64) (Src_reg Reg_i64) (Src_imm offset)
  | I64LoadExtend32Mem0Offset16_Rs ptr offset => load_mem0 P_i64 i64_load32_s (Dst_reg Reg_i64) (Src_slot ptr) (Src_imm offset)
  | U64LoadExtend32Mem0Offset16_Rr offset => load_mem0 P_i64 i64_load32_u (Dst_reg Reg_i64) (Src_reg Reg_i64) (Src_imm offset)
  | U64LoadExtend32Mem0Offset16_Rs ptr offset => load_mem0 P_i64 i64_load32_u (Dst_reg Reg_i64) (Src_slot ptr) (Src_imm offset)
  | U32LoadMem0Offset16_Rs_r result offset => load_mem0 P_u32 load_u32 (Dst_both result Reg_i64) (Src_reg Reg_i64) (Src_imm offset)
  | U32LoadMem0Offset16_Rs_s result ptr offset => load_mem0 P_u32 load_u32 (Dst_both result Reg_i64) (Src_slot ptr) (Src_imm offset)
  | U64LoadMem0Offset16_Rs_r result offset => load_mem0 P_u64 load_u64 (Dst_both result Reg_i64) (Src_reg Reg_i64) (Src_imm offset)
  | U64LoadMem0Offset16_Rs_s result ptr offset => load_mem0 P_u64 load_u64 (Dst_both result Reg_i64) (Src_slot ptr) (Src_imm offset)
  | F32LoadMem0Offset16_Rs_r result offset => load_mem0 P_f32 load_f32 (Dst_both result Reg_f32) (Src_reg Reg_i64) (Src_imm offset)
  | F32LoadMem0Offset16_Rs_s result ptr offset => load_mem0 P_f32 load_f32 (Dst_both result Reg_f32) (Src_slot ptr) (Src_imm offset)
  | F64LoadMem0Offset16_Rs_r result offset => load_mem0 P_f64 load_f64 (Dst_both result Reg_f64) (Src_reg Reg_i64) (Src_imm offset)
  | F64LoadMem0Offset16_Rs_s result ptr offset => load_mem0 P_f64 load_f64 (Dst_both result Reg_f64) (Src_slot ptr) (Src_imm offset)
  | I32LoadExtend8Mem0Offset16_Rs_r result offset => load_mem0 P_i32 i32_load8_s (Dst_both result Reg_i64) (Src_reg Reg_i64) (Src_imm offset)
  | I32LoadExtend8Mem0Offset16_Rs_s result ptr offset => load_mem0 P_i32 i32_load8_s (Dst_both result Reg_i64) (Src_slot ptr) (Src_imm offset)
  | I32LoadExtend16Mem0Offset16_Rs_r result offset => load_mem0 P_i32 i32_load16_s (Dst_both result Reg_i64) (Src_reg Reg_i64) (Src_imm offset)
  | I32LoadExtend16Mem0Offset16_Rs_s result ptr offset => load_mem0 P_i32 i32_load16_s (Dst_both result Reg_i64) (Src_slot ptr) (Src_imm offset)
  | U32LoadExtend8Mem0Offset16_Rs_r result offset => load_mem0 P_i32 i32_load8_u (Dst_both result Reg_i64) (Src_reg Reg_i64) (Src_imm offset)
  | U32LoadExtend8Mem0Offset16_Rs_s result ptr offset => load_mem0 P_i32 i32_load8_u (Dst_both result Reg_i64) (Src_slot ptr) (Src_imm offset)
  | U32LoadExtend16Mem0Offset16_Rs_r result offset => load_mem0 P_i32 i32_load16_u (Dst_both result Reg_i64) (Src_reg Reg_i64) (Src_imm offset)
  | U32LoadExtend16Mem0Offset16_Rs_s result ptr offset => load_mem0 P_i32 i32_load16_u (Dst_both result Reg_i64) (Src_slot ptr) (Src_imm offset)
  | I64LoadExtend8Mem0Offset16_Rs_r result offset => load_mem0 P_i64 i64_load8_s (Dst_both result Reg_i64) (Src_reg Reg_i64) (Src_imm offset)
  | I64LoadExtend8Mem0Offset16_Rs_s result ptr offset => load_mem0 P_i64 i64_load8_s (Dst_both result Reg_i64) (Src_slot ptr) (Src_imm offset)
  | I64LoadExtend16Mem0Offset16_Rs_r result offset => load_mem0 P_i64 i64_load16_s (Dst_both result Reg_i64) (Src_reg Reg_i64) (Src_imm offset)
  | I64LoadExtend16Mem0Offset16_Rs_s result ptr offset => load_mem0 P_i64 i64_load16_s (Dst_both result Reg_i64) (Src_slot ptr) (Src_imm offset)
  | I64LoadExtend32Mem0Offset16_Rs_r result offset => load_mem0 P_i64 i64_load32_s (Dst_both result Reg_i64) (Src_reg Reg_i64) (Src_imm offset)
  | I64LoadExtend32Mem0Offset16_Rs_s result ptr offset => load_mem0 P_i64 i64_load32_s (Dst_both result Reg_i64) (Src_slot ptr) (Src_imm offset)
  | U64LoadExtend8Mem0Offset16_Rs_r result offset => load_mem0 P_i64 i64_load8_u (Dst_both result Reg_i64) (Src_reg Reg_i64) (Src_imm offset)
  | U64LoadExtend8Mem0Offset16_Rs_s result ptr offset => load_mem0 P_i64 i64_load8_u (Dst_both result Reg_i64) (Src_slot ptr) (Src_imm offset)
  | U64LoadExtend16Mem0Offset16_Rs_r result offset => load_mem0 P_i64 i64_load16_u (Dst_both result Reg_i64) (Src_reg Reg_i64) (Src_imm offset)
  | U64LoadExtend16Mem0Offset16_Rs_s result ptr offset => load_mem0 P_i64 i64_load16_u (Dst_both result Reg_i64) (Src_slot ptr) (Src_imm offset)
  | U64LoadExtend32Mem0Offset16_Rs_r result offset => load_mem0 P_i64 i64_load32_u (Dst_both result Reg_i64) (Src_reg Reg_i64) (Src_imm offset)
  | U64LoadExtend32Mem0Offset16_Rs_s result ptr offset => load_mem0 P_i64 i64_load32_u (Dst_both result Reg_i64) (Src_slot ptr) (Src_imm offset)
  end.

Definition store_op_handler (op : StoreInst) : StoreHandler :=
  match op with
  | U32Store_Rs offset value memory => store_any P_u32 store32 (Src_reg Reg_i64) (Src_imm offset) (Src_slot value) memory
  | U32Store_Ri offset value memory => store_any P_u32 store32 (Src_reg Reg_i64) (Src_imm offset) (Src_imm value) memory
  | U32Store_Sr ptr offset memory => store_any P_u32 store32 (Src_slot ptr) (Src_imm offset) (Src_reg Reg_i64) memory
  | U32Store_Ss ptr offset value memory => store_any P_u32 store32 (Src_slot ptr) (Src_imm offset) (Src_slot value) memory
  | U32Store_Si ptr offset value memory => store_any P_u32 store32 (Src_slot ptr) (Src_imm offset) (Src_imm value) memory
  | U64Store_Rs offset value memory => store_any P_u64 store64 (Src_reg Reg_i64) (Src_imm offset) (Src_slot value) memory
  | U64Store_Ri offset value memory => store_any P_u64 store64 (Src_reg Reg_i64) (Src_imm offset) (Src_imm value) memory
  | U64Store_Sr ptr offset memory => store_any P_u64 store64 (Src_slot ptr) (Src_imm offset) (Src_reg Reg_i64) memory
  | U64Store_Ss ptr offset value memory => store_any P_u64 store64 (Src_slot ptr) (Src_imm offset) (Src_slot value) memory
  | U64Store_Si ptr offset value memory => store_any P_u64 store64 (Src_slot ptr) (Src_imm offset) (Src_imm value) memory
  | F32Store_Rr offset memory => store_any P_f32 store_f32 (Src_reg Reg_i64) (Src_imm offset) (Src_reg Reg_f32) memory
  | F32Store_Sr ptr offset memory => store_any P_f32 store_f32 (Src_slot ptr) (Src_imm offset) (Src_reg Reg_f32) memory
  | F64Store_Rr offset memory => store_any P_f64 store_f64 (Src_reg Reg_i64) (Src_imm offset) (Src_reg Reg_f64) memory
  | F64Store_Sr ptr offset memory => store_any P_f64 store_f64 (Src_slot ptr) (Src_imm offset) (Src_reg Reg_f64) memory
  | I32StoreWrap8_Rs offset value memory => store_any P_i8 i32_store8 (Src_reg Reg_i64) (Src_imm offset) (Src_slot value) memory
  | I32StoreWrap8_Ri offset value memory => store_any P_i8 i32_store8 (Src_reg Reg_i64) (Src_imm offset) (Src_imm value) memory
  | I32StoreWrap8_Sr ptr offset memory => store_any P_i8 i32_store8 (Src_slot ptr) (Src_imm offset) (Src_reg Reg_i64) memory
  | I32StoreWrap8_Ss ptr offset value memory => store_any P_i8 i32_store8 (Src_slot ptr) (Src_imm offset) (Src_slot value) memory
  | I32StoreWrap8_Si ptr offset value memory => store_any P_i8 i32_store8 (Src_slot ptr) (Src_imm offset) (Src_imm value) memory
  | I32StoreWrap16_Rs offset value memory => store_any P_i16 i32_store16 (Src_reg Reg_i64) (Src_imm offset) (Src_slot value) memory
  | I32StoreWrap16_Ri offset value memory => store_any P_i16 i32_store16 (Src_reg Reg_i64) (Src_imm offset) (Src_imm value) memory
  | I32StoreWrap16_Sr ptr offset memory => store_any P_i16 i32_store16 (Src_slot ptr) (Src_imm offset) (Src_reg Reg_i64) memory
  | I32StoreWrap16_Ss ptr offset value memory => store_any P_i16 i32_store16 (Src_slot ptr) (Src_imm offset) (Src_slot value) memory
  | I32StoreWrap16_Si ptr offset value memory => store_any P_i16 i32_store16 (Src_slot ptr) (Src_imm offset) (Src_imm value) memory
  | I64StoreWrap8_Rs offset value memory => store_any P_i8 i64_store8 (Src_reg Reg_i64) (Src_imm offset) (Src_slot value) memory
  | I64StoreWrap8_Ri offset value memory => store_any P_i8 i64_store8 (Src_reg Reg_i64) (Src_imm offset) (Src_imm value) memory
  | I64StoreWrap8_Sr ptr offset memory => store_any P_i8 i64_store8 (Src_slot ptr) (Src_imm offset) (Src_reg Reg_i64) memory
  | I64StoreWrap8_Ss ptr offset value memory => store_any P_i8 i64_store8 (Src_slot ptr) (Src_imm offset) (Src_slot value) memory
  | I64StoreWrap8_Si ptr offset value memory => store_any P_i8 i64_store8 (Src_slot ptr) (Src_imm offset) (Src_imm value) memory
  | I64StoreWrap16_Rs offset value memory => store_any P_i16 i64_store16 (Src_reg Reg_i64) (Src_imm offset) (Src_slot value) memory
  | I64StoreWrap16_Ri offset value memory => store_any P_i16 i64_store16 (Src_reg Reg_i64) (Src_imm offset) (Src_imm value) memory
  | I64StoreWrap16_Sr ptr offset memory => store_any P_i16 i64_store16 (Src_slot ptr) (Src_imm offset) (Src_reg Reg_i64) memory
  | I64StoreWrap16_Ss ptr offset value memory => store_any P_i16 i64_store16 (Src_slot ptr) (Src_imm offset) (Src_slot value) memory
  | I64StoreWrap16_Si ptr offset value memory => store_any P_i16 i64_store16 (Src_slot ptr) (Src_imm offset) (Src_imm value) memory
  | I64StoreWrap32_Rs offset value memory => store_any P_i32 i64_store32 (Src_reg Reg_i64) (Src_imm offset) (Src_slot value) memory
  | I64StoreWrap32_Ri offset value memory => store_any P_i32 i64_store32 (Src_reg Reg_i64) (Src_imm offset) (Src_imm value) memory
  | I64StoreWrap32_Sr ptr offset memory => store_any P_i32 i64_store32 (Src_slot ptr) (Src_imm offset) (Src_reg Reg_i64) memory
  | I64StoreWrap32_Ss ptr offset value memory => store_any P_i32 i64_store32 (Src_slot ptr) (Src_imm offset) (Src_slot value) memory
  | I64StoreWrap32_Si ptr offset value memory => store_any P_i32 i64_store32 (Src_slot ptr) (Src_imm offset) (Src_imm value) memory
  | U32Store_Ir address memory => store_ix P_u32 store32_at (Src_imm address) (Src_reg Reg_i64) memory
  | U32Store_Is address value memory => store_ix P_u32 store32_at (Src_imm address) (Src_slot value) memory
  | U32Store_Ii address value memory => store_ix P_u32 store32_at (Src_imm address) (Src_imm value) memory
  | U64Store_Ir address memory => store_ix P_u64 store64_at (Src_imm address) (Src_reg Reg_i64) memory
  | U64Store_Is address value memory => store_ix P_u64 store64_at (Src_imm address) (Src_slot value) memory
  | U64Store_Ii address value memory => store_ix P_u64 store64_at (Src_imm address) (Src_imm value) memory
  | F32Store_Ir address memory => store_ix P_f32 store_f32_at (Src_imm address) (Src_reg Reg_f32) memory
  | F64Store_Ir address memory => store_ix P_f64 store_f64_at (Src_imm address) (Src_reg Reg_f64) memory
  | I32StoreWrap8_Ir address memory => store_ix P_i8 i32_store8_at (Src_imm address) (Src_reg Reg_i64) memory
  | I32StoreWrap8_Is address value memory => store_ix P_i8 i32_store8_at (Src_imm address) (Src_slot value) memory
  | I32StoreWrap8_Ii address value memory => store_ix P_i8 i32_store8_at (Src_imm address) (Src_imm value) memory
  | I32StoreWrap16_Ir address memory => store_ix P_i16 i32_store16_at (Src_imm address) (Src_reg Reg_i64) memory
  | I32StoreWrap16_Is address value memory => store_ix P_i16 i32_store16_at (Src_imm address) (Src_slot value) memory
  | I32StoreWrap16_Ii address value memory => store_ix P_i16 i32_store16_at (Src_imm address) (Src_imm value) memory
  | I64StoreWrap8_Ir address memory => store_ix P_i8 i64_store8_at (Src_imm address) (Src_reg Reg_i64) memory
  | I64StoreWrap8_Is address value memory => store_ix P_i8 i64_store8_at (Src_imm address) (Src_slot value) memory
  | I64StoreWrap8_Ii address value memory => store_ix P_i8 i64_store8_at (Src_imm address) (Src_imm value) memory
  | I64StoreWrap16_Ir address memory => store_ix P_i16 i64_store16_at (Src_imm address) (Src_reg Reg_i64) memory
  | I64StoreWrap16_Is address value memory => store_ix P_i16 i64_store16_at (Src_imm address) (Src_slot value) memory
  | I64StoreWrap16_Ii address value memory => store_ix P_i16 i64_store16_at (Src_imm address) (Src_imm value) memory
  | I64StoreWrap32_Ir address memory => store_ix P_i32 i64_store32_at (Src_imm address) (Src_reg Reg_i64) memory
  | I64StoreWrap32_Is address value memory => store_ix P_i32 i64_store32_at (Src_imm address) (Src_slot value) memory
  | I64StoreWrap32_Ii address value memory => store_ix P_i32 i64_store32_at (Src_imm address) (Src_imm value) memory
  end.

Definition store_mem0_op_handler (op : StoreMem0Inst) : StoreHandler :=
  match op with
  | U32StoreMem0Offset16_Rs offset value => store_mem0 P_u32 store32 (Src_reg Reg_i64) (Src_imm offset) (Src_slot value)
  | U32StoreMem0Offset16_Ri offset value => store_mem0 P_u32 store32 (Src_reg Reg_i64) (Src_imm offset) (Src_imm value)
  | U32StoreMem0Offset16_Sr ptr offset => store_mem0 P_u32 store32 (Src_slot ptr) (Src_imm offset) (Src_reg Reg_i64)
  | U32StoreMem0Offset16_Ss ptr offset value => store_mem0 P_u32 store32 (Src_slot ptr) (Src_imm offset) (Src_slot value)
  | U32StoreMem0Offset16_Si ptr offset value => store_mem0 P_u32 store32 (Src_slot ptr) (Src_imm offset) (Src_imm value)
  | U64StoreMem0Offset16_Rs offset value => store_mem0 P_u64 store64 (Src_reg Reg_i64) (Src_imm offset) (Src_slot value)
  | U64StoreMem0Offset16_Ri offset value => store_mem0 P_u64 store64 (Src_reg Reg_i64) (Src_imm offset) (Src_imm value)
  | U64StoreMem0Offset16_Sr ptr offset => store_mem0 P_u64 store64 (Src_slot ptr) (Src_imm offset) (Src_reg Reg_i64)
  | U64StoreMem0Offset16_Ss ptr offset value => store_mem0 P_u64 store64 (Src_slot ptr) (Src_imm offset) (Src_slot value)
  | U64StoreMem0Offset16_Si ptr offset value => store_mem0 P_u64 store64 (Src_slot ptr) (Src_imm offset) (Src_imm value)
  | F32StoreMem0Offset16_Rr offset => store_mem0 P_f32 store_f32 (Src_reg Reg_i64) (Src_imm offset) (Src_reg Reg_f32)
  | F32StoreMem0Offset16_Sr ptr offset => store_mem0 P_f32 store_f32 (Src_slot ptr) (Src_imm offset) (Src_reg Reg_f32)
  | F64StoreMem0Offset16_Rr offset => store_mem0 P_f64 store_f64 (Src_reg Reg_i64) (Src_imm offset) (Src_reg Reg_f64)
  | F64StoreMem0Offset16_Sr ptr offset => store_mem0 P_f64 store_f64 (Src_slot ptr) (Src_imm offset) (Src_reg Reg_f64)
  | I32StoreWrap8Mem0Offset16_Rs offset value => store_mem0 P_i8 i32_store8 (Src_reg Reg_i64) (Src_imm offset) (Src_slot value)
  | I32StoreWrap8Mem0Offset16_Ri offset value => store_mem0 P_i8 i32_store8 (Src_reg Reg_i64) (Src_imm offset) (Src_imm value)
  | I32StoreWrap8Mem0Offset16_Sr ptr offset => store_mem0 P_i8 i32_store8 (Src_slot ptr) (Src_imm offset) (Src_reg Reg_i64)
  | I32StoreWrap8Mem0Offset16_Ss ptr offset value => store_mem0 P_i8 i32_store8 (Src_slot ptr) (Src_imm offset) (Src_slot value)
  | I32StoreWrap8Mem0Offset16_Si ptr offset value => store_mem0 P_i8 i32_store8 (Src_slot ptr) (Src_imm offset) (Src_imm value)
  | I32StoreWrap16Mem0Offset16_Rs offset value => store_mem0 P_i16 i32_store16 (Src_reg Reg_i64) (Src_imm offset) (Src_slot value)
  | I32StoreWrap16Mem0Offset16_Ri offset value => store_mem0 P_i16 i32_store16 (Src_reg Reg_i64) (Src_imm offset) (Src_imm value)
  | I32StoreWrap16Mem0Offset16_Sr ptr offset => store_mem0 P_i16 i32_store16 (Src_slot ptr) (Src_imm offset) (Src_reg Reg_i64)
  | I32StoreWrap16Mem0Offset16_Ss ptr offset value => store_mem0 P_i16 i32_store16 (Src_slot ptr) (Src_imm offset) (Src_slot value)
  | I32StoreWrap16Mem0Offset16_Si ptr offset value => store_mem0 P_i16 i32_store16 (Src_slot ptr) (Src_imm offset) (Src_imm value)
  | I64StoreWrap8Mem0Offset16_Rs offset value => store_mem0 P_i8 i64_store8 (Src_reg Reg_i64) (Src_imm offset) (Src_slot value)
  | I64StoreWrap8Mem0Offset16_Ri offset value => store_mem0 P_i8 i64_store8 (Src_reg Reg_i64) (Src_imm offset) (Src_imm value)
  | I64StoreWrap8Mem0Offset16_Sr ptr offset => store_mem0 P_i8 i64_store8 (Src_slot ptr) (Src_imm offset) (Src_reg Reg_i64)
  | I64StoreWrap8Mem0Offset16_Ss ptr offset value => store_mem0 P_i8 i64_store8 (Src_slot ptr) (Src_imm offset) (Src_slot value)
  | I64StoreWrap8Mem0Offset16_Si ptr offset value => store_mem0 P_i8 i64_store8 (Src_slot ptr) (Src_imm offset) (Src_imm value)
  | I64StoreWrap16Mem0Offset16_Rs offset value => store_mem0 P_i16 i64_store16 (Src_reg Reg_i64) (Src_imm offset) (Src_slot value)
  | I64StoreWrap16Mem0Offset16_Ri offset value => store_mem0 P_i16 i64_store16 (Src_reg Reg_i64) (Src_imm offset) (Src_imm value)
  | I64StoreWrap16Mem0Offset16_Sr ptr offset => store_mem0 P_i16 i64_store16 (Src_slot ptr) (Src_imm offset) (Src_reg Reg_i64)
  | I64StoreWrap16Mem0Offset16_Ss ptr offset value => store_mem0 P_i16 i64_store16 (Src_slot ptr) (Src_imm offset) (Src_slot value)
  | I64StoreWrap16Mem0Offset16_Si ptr offset value => store_mem0 P_i16 i64_store16 (Src_slot ptr) (Src_imm offset) (Src_imm value)
  | I64StoreWrap32Mem0Offset16_Rs offset value => store_mem0 P_i32 i64_store32 (Src_reg Reg_i64) (Src_imm offset) (Src_slot value)
  | I64StoreWrap32Mem0Offset16_Ri offset value => store_mem0 P_i32 i64_store32 (Src_reg Reg_i64) (Src_imm offset) (Src_imm value)
  | I64StoreWrap32Mem0Offset16_Sr ptr offset => store_mem0 P_i32 i64_store32 (Src_slot ptr) (Src_imm offset) (Src_reg Reg_i64)
  | I64StoreWrap32Mem0Offset16_Ss ptr offset value => store_mem0 P_i32 i64_store32 (Src_slot ptr) (Src_imm offset) (Src_slot value)
  | I64StoreWrap32Mem0Offset16_Si ptr offset value => store_mem0 P_i32 i64_store32 (Src_slot ptr) (Src_imm offset) (Src_imm value)
  end.

End Tables.
