(* ===== verification/Comparator.v ===== *)
(** * Fusing comparisons and branches

    The tables of [engine/translator/comparator.rs]: how a comparison is negated,
    how a bitwise operator becomes a logical one when only its being zero matters,
    and which operator compares and branches at once.  The source matches on all
    operators; here every function is given by the type of the operands, since the
    results stay within that type.  Operators that no arm names yield [None]. *)

From Stdlib Require Import ZArith Lia.
From stdpp Require Import base option numbers tactics.
From S2P Require Import Prelude Trap Value WasmInt Slot Cells Float OpTables BinaryTables BranchTables.

(** ** [NegateCmpInstr] *)

Definition negate_cmp_instr_i32 (self : BinaryInstI32) : option BinaryInstI32 :=
  match self with
  | I32Eq_Rrs rhs => Some (I32NotEq_Rrs rhs)
  | I32Eq_Rri rhs => Some (I32NotEq_Rri rhs)
  | I32Eq_Rss lhs rhs => Some (I32NotEq_Rss lhs rhs)
  | I32Eq_Rsi lhs rhs => Some (I32NotEq_Rsi lhs rhs)
  | I32And_Rrs rhs | I32BitAnd_Rrs rhs => Some (I32NotAnd_Rrs rhs)
  | I32And_Rri rhs | I32BitAnd_Rri rhs => Some (I32NotAnd_Rri rhs)
  | I32And_Rss lhs rhs | I32BitAnd_Rss lhs rhs => Some (I32NotAnd_Rss lhs rhs)
  | I32And_Rsi lhs rhs | I32BitAnd_Rsi lhs rhs => Some (I32NotAnd_Rsi lhs rhs)
  | I32Or_Rrs rhs | I32BitOr_Rrs rhs => Some (I32NotOr_Rrs rhs)
  | I32Or_Rri rhs | I32BitOr_Rri rhs => Some (I32NotOr_Rri rhs)
  | I32Or_Rss lhs rhs | I32BitOr_Rss lhs rhs => Some (I32NotOr_Rss lhs rhs)
  | I32Or_Rsi lhs rhs | I32BitOr_Rsi lhs rhs => Some (I32NotOr_Rsi lhs rhs)
  | I32NotEq_Rrs rhs | I32BitXor_Rrs rhs => Some (I32Eq_Rrs rhs)
  | I32NotEq_Rri rhs | I32BitXor_Rri rhs => Some (I32Eq_Rri rhs)
  | I32NotEq_Rss lhs rhs | I32BitXor_Rss lhs rhs => Some (I32Eq_Rss lhs rhs)
  | I32NotEq_Rsi lhs rhs | I32BitXor_Rsi lhs rhs => Some (I32Eq_Rsi lhs rhs)
  | I32NotAnd_Rrs rhs => Some (I32And_Rrs rhs)
  | I32NotAnd_Rri rhs => Some (I32And_Rri rhs)
  | I32NotAnd_Rss lhs rhs => Some (I32And_Rss lhs rhs)
  | I32NotAnd_Rsi lhs rhs => Some (I32And_Rsi lhs rhs)
  | I32NotOr_Rrs rhs => Some (I32Or_Rrs rhs)
  | I32NotOr_Rri rhs => Some (I32Or_Rri rhs)
  | I32NotOr_Rss lhs rhs => Some (I32Or_Rss lhs rhs)
  | I32NotOr_Rsi lhs rhs => Some (I32Or_Rsi lhs rhs)
  | I32Lt_Rrs rhs => Some (I32Le_Rsr rhs)
  | I32Lt_Rri rhs => Some (I32Le_Rir rhs)
  | I32Lt_Rsr lhs => Some (I32Le_Rrs lhs)
  | I32Lt_Rss lhs rhs => Some (I32Le_Rss rhs lhs)
  | I32Lt_Rsi lhs rhs => Some (I32Le_Ris rhs lhs)
  | I32Lt_Rir lhs => Some (I32Le_Rri lhs)
  | I32Lt_Ris lhs rhs => Some (I32Le_Rsi rhs lhs)
  | U32Lt_Rrs rhs => Some (U32Le_Rsr rhs)
  | U32Lt_Rri rhs => Some (U32Le_Rir rhs)
  | U32Lt_Rsr lhs => Some (U32Le_Rrs lhs)
  | U32Lt_Rss lhs rhs => Some (U32Le_Rss rhs lhs)
  | U32Lt_Rsi lhs rhs => Some (U32Le_Ris rhs lhs)
  | U32Lt_Rir lhs => Some (U32Le_Rri lhs)
  | U32Lt_Ris lhs rhs => Some (U32Le_Rsi rhs lhs)
  | I32Le_Rrs rhs => Some (I32Lt_Rsr rhs)
  | I32Le_Rri rhs => Some (I32Lt_Rir rhs)
  | I32Le_Rsr lhs => Some (I32Lt_Rrs lhs)
  | I32Le_Rss lhs rhs => Some (I32Lt_Rss rhs lhs)
  | I32Le_Rsi lhs rhs => Some (I32Lt_Ris rhs lhs)
  | I32Le_Rir lhs => Some (I32Lt_Rri lhs)
  | I32Le_Ris lhs rhs => Some (I32Lt_Rsi rhs lhs)
  | U32Le_Rrs rhs => Some (U32Lt_Rsr rhs)
  | U32Le_Rri rhs => Some (U32Lt_Rir rhs)
  | U32Le_Rsr lhs => Some (U32Lt_Rrs lhs)
  | U32Le_Rss lhs rhs => Some (U32Lt_Rss rhs lhs)
  | U32Le_Rsi lhs rhs => Some (U32Lt_Ris rhs lhs)
  | U32Le_Rir lhs => Some (U32Lt_Rri lhs)
  | U32Le_Ris lhs rhs => Some (U32Lt_Rsi rhs lhs)
  | _ => None
  end.

Definition negate_cmp_instr_i64 (self : BinaryInstI64) : option BinaryInstI64 :=
  match self with
  | I64Eq_Rrs rhs => Some (I64NotEq_Rrs rhs)
  | I64Eq_Rri rhs => Some (I64NotEq_Rri rhs)
  | I64Eq_Rss lhs rhs => Some (I64NotEq_Rss lhs rhs)
  | I64Eq_Rsi lhs rhs => Some (I64NotEq_Rsi lhs rhs)
  | I64And_Rrs rhs | I64BitAnd_Rrs rhs => Some (I64NotAnd_Rrs rhs)
  | I64And_Rri rhs | I64BitAnd_Rri rhs => Some (I64NotAnd_Rri rhs)
  | I64And_Rss lhs rhs | I64BitAnd_Rss lhs rhs => Some (I64NotAnd_Rss lhs rhs)
  | I64And_Rsi lhs rhs | I64BitAnd_Rsi lhs rhs => Some (I64NotAnd_Rsi lhs rhs)
  | I64Or_Rrs rhs | I64BitOr_Rrs rhs => Some (I64NotOr_Rrs rhs)
  | I64Or_Rri rhs | I64BitOr_Rri rhs => Some (I64NotOr_Rri rhs)
  | I64Or_Rss lhs rhs | I64BitOr_Rss lhs rhs => Some (I64NotOr_Rss lhs rhs)
  | I64Or_Rsi lhs rhs | I64BitOr_Rsi lhs rhs => Some (I64NotOr_Rsi lhs rhs)
  | I64NotEq_Rrs rhs | I64BitXor_Rrs rhs => Some (I64Eq_Rrs rhs)
  | I64NotEq_Rri rhs | I64BitXor_Rri rhs => Some (I64Eq_Rri rhs)
  | I64NotEq_Rss lhs rhs | I64BitXor_Rss lhs rhs => Some (I64Eq_Rss lhs rhs)
  | I64NotEq_Rsi lhs rhs | I64BitXor_Rsi lhs rhs => Some (I64Eq_Rsi lhs rhs)
  | I64NotAnd_Rrs rhs => Some (I64And_Rrs rhs)
  | I64NotAnd_Rri rhs => Some (I64And_Rri rhs)
  | I64NotAnd_Rss lhs rhs => Some (I64And_Rss lhs rhs)
  | I64NotAnd_Rsi lhs rhs => Some (I64And_Rsi lhs rhs)
  | I64NotOr_Rrs rhs => Some (I64Or_Rrs rhs)
  | I64NotOr_Rri rhs => Some (I64Or_Rri rhs)
  | I64NotOr_Rss lhs rhs => Some (I64Or_Rss lhs rhs)
  | I64NotOr_Rsi lhs rhs => Some (I64Or_Rsi lhs rhs)
  | I64Lt_Rrs rhs => Some (I64Le_Rsr rhs)
  | I64Lt_Rri rhs => Some (I64Le_Rir rhs)
  | I64Lt_Rsr lhs => Some (I64Le_Rrs lhs)
  | I64Lt_Rss lhs rhs => Some (I64Le_Rss rhs lhs)
  | I64Lt_Rsi lhs rhs => Some (I64Le_Ris rhs lhs)
  | I64Lt_Rir lhs => Some (I64Le_Rri lhs)
  | I64Lt_Ris lhs rhs => Some (I64Le_Rsi rhs lhs)
  | U64Lt_Rrs rhs => Some (U64Le_Rsr rhs)
  | U64Lt_Rri rhs => Some (U64Le_Rir rhs)
  | U64Lt_Rsr lhs => Some (U64Le_Rrs lhs)
  | U64Lt_Rss lhs rhs => Some (U64Le_Rss rhs lhs)
  | U64Lt_Rsi lhs rhs => Some (U64Le_Ris rhs lhs)
  | U64Lt_Rir lhs => Some (U64Le_Rri lhs)
  | U64Lt_Ris lhs rhs => Some (U64Le_Rsi rhs lhs)
  | I64Le_Rrs rhs => Some (I64Lt_Rsr rhs)
  | I64Le_Rri rhs => Some (I64Lt_Rir rhs)
  | I64Le_Rsr lhs => Some (I64Lt_Rrs lhs)
  | I64Le_Rss lhs rhs => Some (I64Lt_Rss rhs lhs)
  | I64Le_Rsi lhs rhs => Some (I64Lt_Ris rhs lhs)
  | I64Le_Rir lhs => Some (I64Lt_Rri lhs)
  | I64Le_Ris lhs rhs => Some (I64Lt_Rsi rhs lhs)
  | U64Le_Rrs rhs => Some (U64Lt_Rsr rhs)
  | U64Le_Rri rhs => Some (U64Lt_Rir rhs)
  | U64Le_Rsr lhs => Some (U64Lt_Rrs lhs)
  | U64Le_Rss lhs rhs => Some (U64Lt_Rss rhs lhs)
  | U64Le_Rsi lhs rhs => Some (U64Lt_Ris rhs lhs)
  | U64Le_Rir lhs => Some (U64Lt_Rri lhs)
  | U64Le_Ris lhs rhs => Some (U64Lt_Rsi rhs lhs)
  | _ => None
  end.

Definition negate_cmp_instr_f32 (self : BinaryInstF32) : option BinaryInstF32 :=
  match self with
  | F32Eq_Rrs rhs => Some (F32NotEq_Rrs rhs)
  | F32Eq_Rri rhs => Some (F32NotEq_Rri rhs)
  | F32Eq_Rss lhs rhs => Some (F32NotEq_Rss lhs rhs)
  | F32Eq_Rsi lhs rhs => Some (F32NotEq_Rsi lhs rhs)
  | F32Le_Rrs rhs => Some (F32NotLe_Rrs rhs)
  | F32Le_Rri rhs => Some (F32NotLe_Rri rhs)
  | F32Le_Rsr lhs => Some (F32NotLe_Rsr lhs)
  | F32Le_Rss lhs rhs => Some (F32NotLe_Rss lhs rhs)
  | F32Le_Rsi lhs rhs => Some (F32NotLe_Rsi lhs rhs)
  | F32Le_Rir lhs => Some (F32NotLe_Rir lhs)
  | F32Le_Ris lhs rhs => Some (F32NotLe_Ris lhs rhs)
  | F32Lt_Rrs rhs => Some (F32NotLt_Rrs rhs)
  | F32Lt_Rri rhs => Some (F32NotLt_Rri rhs)
  | F32Lt_Rsr lhs => Some (F32NotLt_Rsr lhs)
  | F32Lt_Rss lhs rhs => Some (F32NotLt_Rss lhs rhs)
  | F32Lt_Rsi lhs rhs => Some (F32NotLt_Rsi lhs rhs)
  | F32Lt_Rir lhs => Some (F32NotLt_Rir lhs)
  | F32Lt_Ris lhs rhs => Some (F32NotLt_Ris lhs rhs)
  | F32NotEq_Rrs rhs => Some (F32Eq_Rrs rhs)
  | F32NotEq_Rri rhs => Some (F32Eq_Rri rhs)
  | F32NotEq_Rss lhs rhs => Some (F32Eq_Rss lhs rhs)
  | F32NotEq_Rsi lhs rhs => Some (F32Eq_Rsi lhs rhs)
  | F32NotLe_Rrs rhs => Some (F32Le_Rrs rhs)
  | F32NotLe_Rri rhs => Some (F32Le_Rri rhs)
  | F32NotLe_Rsr lhs => Some (F32Le_Rsr lhs)
  | F32NotLe_Rss lhs rhs => Some (F32Le_Rss lhs rhs)
  | F32NotLe_Rsi lhs rhs => Some (F32Le_Rsi lhs rhs)
  | F32NotLe_Rir lhs => Some (F32Le_Rir lhs)
  | F32NotLe_Ris lhs rhs => Some (F32Le_Ris lhs rhs)
  | F32NotLt_Rrs rhs => Some (F32Lt_Rrs rhs)
  | F32NotLt_Rri rhs => Some (F32Lt_Rri rhs)
  | F32NotLt_Rsr lhs => Some (F32Lt_Rsr lhs)
  | F32NotLt_Rss lhs rhs => Some (F32Lt_Rss lhs rhs)
  | F32NotLt_Rsi lhs rhs => Some (F32Lt_Rsi lhs rhs)
  | F32NotLt_Rir lhs => Some (F32Lt_Rir lhs)
  | F32NotLt_Ris lhs rhs => Some (F32Lt_Ris lhs rhs)
  | _ => None
  end.

Definition negate_cmp_instr_f64 (self : BinaryInstF64) : option BinaryInstF64 :=
  match self with
  | F64Eq_Rrs rhs => Some (F64NotEq_Rrs rhs)
  | F64Eq_Rri rhs => Some (F64NotEq_Rri rhs)
  | F64Eq_Rss lhs rhs => Some (F64NotEq_Rss lhs rhs)
  | F64Eq_Rsi lhs rhs => Some (F64NotEq_Rsi lhs rhs)
  | F64Le_Rrs rhs => Some (F64NotLe_Rrs rhs)
  | F64Le_Rri rhs => Some (F64NotLe_Rri rhs)
  | F64Le_Rsr lhs => Some (F64NotLe_Rsr lhs)
  | F64Le_Rss lhs rhs => Some (F64NotLe_Rss lhs rhs)
  | F64Le_Rsi lhs rhs => Some (F64NotLe_Rsi lhs rhs)
  | F64Le_Rir lhs => Some (F64NotLe_Rir lhs)
  | F64Le_Ris lhs rhs => Some (F64NotLe_Ris lhs rhs)
  | F64Lt_Rrs rhs => Some (F64NotLt_Rrs rhs)
  | F64Lt_Rri rhs => Some (F64NotLt_Rri rhs)
  | F64Lt_Rsr lhs => Some (F64NotLt_Rsr lhs)
  | F64Lt_Rss lhs rhs => Some (F64NotLt_Rss lhs rhs)
  | F64Lt_Rsi lhs rhs => Some (F64NotLt_Rsi lhs rhs)
  | F64Lt_Rir lhs => Some (F64NotLt_Rir lhs)
  | F64Lt_Ris lhs rhs => Some (F64NotLt_Ris lhs rhs)
  | F64NotEq_Rrs rhs => Some (F64Eq_Rrs rhs)
  | F64NotEq_Rri rhs => Some (F64Eq_Rri rhs)
  | F64NotEq_Rss lhs rhs => Some (F64Eq_Rss lhs rhs)
  | F64NotEq_Rsi lhs rhs => Some (F64Eq_Rsi lhs rhs)
  | F64NotLe_Rrs rhs => Some (F64Le_Rrs rhs)
  | F64NotLe_Rri rhs => Some (F64Le_Rri rhs)
  | F64NotLe_Rsr lhs => Some (F64Le_Rsr lhs)
  | F64NotLe_Rss lhs rhs => Some (F64Le_Rss lhs rhs)
  | F64NotLe_Rsi lhs rhs => Some (F64Le_Rsi lhs rhs)
  | F64NotLe_Rir lhs => Some (F64Le_Rir lhs)
  | F64NotLe_Ris lhs rhs => Some (F64Le_Ris lhs rhs)
  | F64NotLt_Rrs rhs => Some (F64Lt_Rrs rhs)
  | F64NotLt_Rri rhs => Some (F64Lt_Rri rhs)
  | F64NotLt_Rsr lhs => Some (F64Lt_Rsr lhs)
  | F64NotLt_Rss lhs rhs => Some (F64Lt_Rss lhs rhs)
  | F64NotLt_Rsi lhs rhs => Some (F64Lt_Rsi lhs rhs)
  | F64NotLt_Rir lhs => Some (F64Lt_Rir lhs)
  | F64NotLt_Ris lhs rhs => Some (F64Lt_Ris lhs rhs)
  | _ => None
  end.

(** ** [LogicalizeCmpInstr] *)

Definition logicalize_cmp_instr_i32 (self : BinaryInstI32) : option BinaryInstI32 :=
  match self with
  | I32BitAnd_Rrs rhs => Some (I32And_Rrs rhs)
  | I32BitAnd_Rss lhs rhs => Some (I32And_Rss lhs rhs)
  | I32BitOr_Rrs rhs => Some (I32Or_Rrs rhs)
  | I32BitOr_Rss lhs rhs => Some (I32Or_Rss lhs rhs)
  | I32BitXor_Rrs rhs => Some (I32NotEq_Rrs rhs)
  | I32BitXor_Rss lhs rhs => Some (I32NotEq_Rss lhs rhs)
  | I32BitAnd_Rri rhs => Some (I32And_Rri rhs)
  | I32BitAnd_Rsi lhs rhs => Some (I32And_Rsi lhs rhs)
  | I32BitOr_Rri rhs => Some (I32Or_Rri rhs)
  | I32BitOr_Rsi lhs rhs => Some (I32Or_Rsi lhs rhs)
  | I32BitXor_Rri rhs => Some (I32NotEq_Rri rhs)
  | I32BitXor_Rsi lhs rhs => Some (I32NotEq_Rsi lhs rhs)
  | I32Eq_Rrs _ | I32Eq_Rri _ | I32Eq_Rss _ _ | I32Eq_Rsi _ _ | I32And_Rrs _ | I32And_Rri _ | I32And_Rss _ _
  | I32And_Rsi _ _ | I32Or_Rrs _ | I32Or_Rri _ | I32Or_Rss _ _ | I32Or_Rsi _ _ | I32NotEq_Rrs _
  | I32NotEq_Rri _ | I32NotEq_Rss _ _ | I32NotEq_Rsi _ _ | I32NotAnd_Rrs _ | I32NotAnd_Rri _
  | I32NotAnd_Rss _ _ | I32NotAnd_Rsi _ _ | I32NotOr_Rrs _ | I32NotOr_Rri _ | I32NotOr_Rss _ _
  | I32NotOr_Rsi _ _ | I32Lt_Rrs _ | I32Lt_Rri _ | I32Lt_Rsr _ | I32Lt_Rss _ _ | I32Lt_Rsi _ _ | I32Lt_Rir _
  | I32Lt_Ris _ _ | U32Lt_Rrs _ | U32Lt_Rri _ | U32Lt_Rsr _ | U32Lt_Rss _ _ | U32Lt_Rsi _ _ | U32Lt_Rir _
  | U32Lt_Ris _ _ | I32Le_Rrs _ | I32Le_Rri _ | I32Le_Rsr _ | I32Le_Rss _ _ | I32Le_Rsi _ _ | I32Le_Rir _
  | I32Le_Ris _ _ | U32Le_Rrs _ | U32Le_Rri _ | U32Le_Rsr _ | U32Le_Rss _ _ | U32Le_Rsi _ _ | U32Le_Rir _
  | U32Le_Ris _ _ => Some self
  | _ => None
  end.

Definition logicalize_cmp_instr_i64 (self : BinaryInstI64) : option BinaryInstI64 :=
  match self with
  | I64BitAnd_Rrs rhs => Some (I64And_Rrs rhs)
  | I64BitAnd_Rss lhs rhs => Some (I64And_Rss lhs rhs)
  | I64BitOr_Rrs rhs => Some (I64Or_Rrs rhs)
  | I64BitOr_Rss lhs rhs => Some (I64Or_Rss lhs rhs)
  | I64BitXor_Rrs rhs => Some (I64NotEq_Rrs rhs)
  | I64BitXor_Rss lhs rhs => Some (I64NotEq_Rss lhs rhs)
  | I64BitAnd_Rri rhs => Some (I64And_Rri rhs)
  | I64BitAnd_Rsi lhs rhs => Some (I64And_Rsi lhs rhs)
  | I64BitOr_Rri rhs => Some (I64Or_Rri rhs)
  | I64BitOr_Rsi lhs rhs => Some (I64Or_Rsi lhs rhs)
  | I64BitXor_Rri rhs => Some (I64NotEq_Rri rhs)
  | I64BitXor_Rsi lhs rhs => Some (I64NotEq_Rsi lhs rhs)
  | I64Eq_Rrs _ | I64Eq_Rri _ | I64Eq_Rss _ _ | I64Eq_Rsi _ _ | I64And_Rrs _ | I64And_Rri _ | I64And_Rss _ _
  | I64And_Rsi _ _ | I64Or_Rrs _ | I64Or_Rri _ | I64Or_Rss _ _ | I64Or_Rsi _ _ | I64NotEq_Rrs _
  | I64NotEq_Rri _ | I64NotEq_Rss _ _ | I64NotEq_Rsi _ _ | I64NotAnd_Rrs _ | I64NotAnd_Rri _
  | I64NotAnd_Rss _ _ | I64NotAnd_Rsi _ _ | I64NotOr_Rrs _ | I64NotOr_Rri _ | I64NotOr_Rss _ _
  | I64NotOr_Rsi _ _ | I64Lt_Rrs _ | I64Lt_Rri _ | I64Lt_Rsr _ | I64Lt_Rss _ _ | I64Lt_Rsi _ _ | I64Lt_Rir _
  | I64Lt_Ris _ _ | U64Lt_Rrs _ | U64Lt_Rri _ | U64Lt_Rsr _ | U64Lt_Rss _ _ | U64Lt_Rsi _ _ | U64Lt_Rir _
  | U64Lt_Ris _ _ | I64Le_Rrs _ | I64Le_Rri _ | I64Le_Rsr _ | I64Le_Rss _ _ | I64Le_Rsi _ _ | I64Le_Rir _
  | I64Le_Ris _ _ | U64Le_Rrs _ | U64Le_Rri _ | U64Le_Rsr _ | U64Le_Rss _ _ | U64Le_Rsi _ _ | U64Le_Rir _
  | U64Le_Ris _ _ => Some self
  | _ => None
  end.

Definition logicalize_cmp_instr_f32 (self : BinaryInstF32) : option BinaryInstF32 :=
  match self with
  | F32Eq_Rrs _ | F32Eq_Rri _ | F32Eq_Rss _ _ | F32Eq_Rsi _ _ | F32Le_Rrs _ | F32Le_Rri _ | F32Le_Rsr _
  | F32Le_Rss _ _ | F32Le_Rsi _ _ | F32Le_Rir _ | F32Le_Ris _ _ | F32Lt_Rrs _ | F32Lt_Rri _ | F32Lt_Rsr _
  | F32Lt_Rss _ _ | F32Lt_Rsi _ _ | F32Lt_Rir _ | F32Lt_Ris _ _ | F32NotEq_Rrs _ | F32NotEq_Rri _
  | F32NotEq_Rss _ _ | F32NotEq_Rsi _ _ | F32NotLe_Rrs _ | F32NotLe_Rri _ | F32NotLe_Rsr _
  | F32NotLe_Rss _ _ | F32NotLe_Rsi _ _ | F32NotLe_Rir _ | F32NotLe_Ris _ _ | F32NotLt_Rrs _
  | F32NotLt_Rri _ | F32NotLt_Rsr _ | F32NotLt_Rss _ _ | F32NotLt_Rsi _ _ | F32NotLt_Rir _
  | F32NotLt_Ris _ _ => Some self
  | _ => None
  end.

Definition logicalize_cmp_instr_f64 (self : BinaryInstF64) : option BinaryInstF64 :=
  match self with
  | F64Eq_Rrs _ | F64Eq_Rri _ | F64Eq_Rss _ _ | F64Eq_Rsi _ _ | F64Le_Rrs _ | F64Le_Rri _ | F64Le_Rsr _
  | F64Le_Rss _ _ | F64Le_Rsi _ _ | F64Le_Rir _ | F64Le_Ris _ _ | F64Lt_Rrs _ | F64Lt_Rri _ | F64Lt_Rsr _
  | F64Lt_Rss _ _ | F64Lt_Rsi _ _ | F64Lt_Rir _ | F64Lt_Ris _ _ | F64NotEq_Rrs _ | F64NotEq_Rri _
  | F64NotEq_Rss _ _ | F64NotEq_Rsi _ _ | F64NotLe_Rrs _ | F64NotLe_Rri _ | F64NotLe_Rsr _
  | F64NotLe_Rss _ _ | F64NotLe_Rsi _ _ | F64NotLe_Rir _ | F64NotLe_Ris _ _ | F64NotLt_Rrs _
  | F64NotLt_Rri _ | F64NotLt_Rsr _ | F64NotLt_Rss _ _ | F64NotLt_Rsi _ _ | F64NotLt_Rir _
  | F64NotLt_Ris _ _ => Some self
  | _ => None
  end.

(** ** [TryIntoCmpBranchInstr] *)

Definition try_into_cmp_branch_instr_i32 (self : BinaryInstI32) (offset : BranchOffset) : option CmpBranchInstI32 :=
  match self with
  | I32Eq_Rrs rhs => Some (BranchI32Eq_Rs offset rhs)
  | I32Eq_Rri rhs => Some (BranchI32Eq_Ri offset rhs)
  | I32Eq_Rss lhs rhs => Some (BranchI32Eq_Ss offset lhs rhs)
  | I32Eq_Rsi lhs rhs => Some (BranchI32Eq_Si offset lhs rhs)
  | I32And_Rrs rhs | I32BitAnd_Rrs rhs => Some (BranchI32And_Rs offset rhs)
  | I32And_Rss lhs rhs | I32BitAnd_Rss lhs rhs => Some (BranchI32And_Ss offset lhs rhs)
  | I32And_Rri rhs | I32BitAnd_Rri rhs => Some (BranchI32And_Ri offset rhs)
  | I32And_Rsi lhs rhs | I32BitAnd_Rsi lhs rhs => Some (BranchI32And_Si offset lhs rhs)
  | I32Or_Rrs rhs | I32BitOr_Rrs rhs => Some (BranchI32Or_Rs offset rhs)
  | I32Or_Rss lhs rhs | I32BitOr_Rss lhs rhs => Some (BranchI32Or_Ss offset lhs rhs)
  | I32Or_Rri rhs | I32BitOr_Rri rhs => Some (BranchI32Or_Ri offset rhs)
  | I32Or_Rsi lhs rhs | I32BitOr_Rsi lhs rhs => Some (BranchI32Or_Si offset lhs rhs)
  | I32NotEq_Rrs rhs | I32BitXor_Rrs rhs => Some (BranchI32NotEq_Rs offset rhs)
  | I32NotEq_Rss lhs rhs | I32BitXor_Rss lhs rhs => Some (BranchI32NotEq_Ss offset lhs rhs)
  | I32NotEq_Rri rhs | I32BitXor_Rri rhs => Some (BranchI32NotEq_Ri offset rhs)
  | I32NotEq_Rsi lhs rhs | I32BitXor_Rsi lhs rhs => Some (BranchI32NotEq_Si offset lhs rhs)
  | I32NotAnd_Rrs rhs => Some (BranchI32NotAnd_Rs offset rhs)
  | I32NotAnd_Rri rhs => Some (BranchI32NotAnd_Ri offset rhs)
  | I32NotAnd_Rss lhs rhs => Some (BranchI32NotAnd_Ss offset lhs rhs)
  | I32NotAnd_Rsi lhs rhs => Some (BranchI32NotAnd_Si offset lhs rhs)
  | I32NotOr_Rrs rhs => Some (BranchI32NotOr_Rs offset rhs)
  | I32NotOr_Rri rhs => Some (BranchI32NotOr_Ri offset rhs)
  | I32NotOr_Rss lhs rhs => Some (BranchI32NotOr_Ss offset lhs rhs)
  | I32NotOr_Rsi lhs rhs => Some (BranchI32NotOr_Si offset lhs rhs)
  | I32Lt_Rrs rhs => Some (BranchI32Lt_Rs offset rhs)
  | I32Lt_Rri rhs => Some (BranchI32Lt_Ri offset rhs)
  | I32Lt_Rsr lhs => Some (BranchI32Lt_Sr offset lhs)
  | I32Lt_Rss lhs rhs => Some (BranchI32Lt_Ss offset lhs rhs)
  | I32Lt_Rsi lhs rhs => Some (BranchI32Lt_Si offset lhs rhs)
  | I32Lt_Rir lhs => Some (BranchI32Lt_Ir offset lhs)
  | I32Lt_Ris lhs rhs => Some (BranchI32Lt_Is offset lhs rhs)
  | U32Lt_Rrs rhs => Some (BranchU32Lt_Rs offset rhs)
  | U32Lt_Rri rhs => Some (BranchU32Lt_Ri offset rhs)
  | U32Lt_Rsr lhs => Some (BranchU32Lt_Sr offset lhs)
  | U32Lt_Rss lhs rhs => Some (BranchU32Lt_Ss offset lhs rhs)
  | U32Lt_Rsi lhs rhs => Some (BranchU32Lt_Si offset lhs rhs)
  | U32Lt_Rir lhs => Some (BranchU32Lt_Ir offset lhs)
  | U32Lt_Ris lhs rhs => Some (BranchU32Lt_Is offset lhs rhs)
  | I32Le_Rrs rhs => Some (BranchI32Le_Rs offset rhs)
  | I32Le_Rri rhs => Some (BranchI32Le_Ri offset rhs)
  | I32Le_Rsr lhs => Some (BranchI32Le_Sr offset lhs)
  | I32Le_Rss lhs rhs => Some (BranchI32Le_Ss offset lhs rhs)
  | I32Le_Rsi lhs rhs => Some (BranchI32Le_Si offset lhs rhs)
  | I32Le_Rir lhs => Some (BranchI32Le_Ir offset lhs)
  | I32Le_Ris lhs rhs => Some (BranchI32Le_Is offset lhs rhs)
  | U32Le_Rrs rhs => Some (BranchU32Le_Rs offset rhs)
  | U32Le_Rri rhs => Some (BranchU32Le_Ri offset rhs)
  | U32Le_Rsr lhs => Some (BranchU32Le_Sr offset lhs)
  | U32Le_Rss lhs rhs => Some (BranchU32Le_Ss offset lhs rhs)
  | U32Le_Rsi lhs rhs => Some (BranchU32Le_Si offset lhs rhs)
  | U32Le_Rir lhs => Some (BranchU32Le_Ir offset lhs)
  | U32Le_Ris lhs rhs => Some (BranchU32Le_Is offset lhs rhs)
  | _ => None
  end.

Definition try_into_cmp_branch_instr_i64 (self : BinaryInstI64) (offset : BranchOffset) : option CmpBranchInstI64 :=
  match self with
  | I64Eq_Rrs rhs => Some (BranchI64Eq_Rs offset rhs)
  | I64Eq_Rri rhs => Some (BranchI64Eq_Ri offset rhs)
  | I64Eq_Rss lhs rhs => Some (BranchI64Eq_Ss offset lhs rhs)
  | I64Eq_Rsi lhs rhs => Some (BranchI64Eq_Si offset lhs rhs)
  | I64And_Rrs rhs | I64BitAnd_Rrs rhs => Some (BranchI64And_Rs offset rhs)
  | I64And_Rss lhs rhs | I64BitAnd_Rss lhs rhs => Some (BranchI64And_Ss offset lhs rhs)
  | I64And_Rri rhs | I64BitAnd_Rri rhs => Some (BranchI64And_Ri offset rhs)
  | I64And_Rsi lhs rhs | I64BitAnd_Rsi lhs rhs => Some (BranchI64And_Si offset lhs rhs)
  | I64Or_Rrs rhs | I64BitOr_Rrs rhs => Some (BranchI64Or_Rs offset rhs)
  | I64Or_Rss lhs rhs | I64BitOr_Rss lhs rhs => Some (BranchI64Or_Ss offset lhs rhs)
  | I64Or_Rri rhs | I64BitOr_Rri rhs => Some (BranchI64Or_Ri offset rhs)
  | I64Or_Rsi lhs rhs | I64BitOr_Rsi lhs rhs => Some (BranchI64Or_Si offset lhs rhs)
  | I64NotEq_Rrs rhs | I64BitXor_Rrs rhs => Some (BranchI64NotEq_Rs offset rhs)
  | I64NotEq_Rss lhs rhs | I64BitXor_Rss lhs rhs => Some (BranchI64NotEq_Ss offset lhs rhs)
  | I64NotEq_Rri rhs | I64BitXor_Rri rhs => Some (BranchI64NotEq_Ri offset rhs)
  | I64NotEq_Rsi lhs rhs | I64BitXor_Rsi lhs rhs => Some (BranchI64NotEq_Si offset lhs rhs)
  | I64NotAnd_Rrs rhs => Some (BranchI64NotAnd_Rs offset rhs)
  | I64NotAnd_Rri rhs => Some (BranchI64NotAnd_Ri offset rhs)
  | I64NotAnd_Rss lhs rhs => Some (BranchI64NotAnd_Ss offset lhs rhs)
  | I64NotAnd_Rsi lhs rhs => Some (BranchI64NotAnd_Si offset lhs rhs)
  | I64NotOr_Rrs rhs => Some (BranchI64NotOr_Rs offset rhs)
  | I64NotOr_Rri rhs => Some (BranchI64NotOr_Ri offset rhs)
  | I64NotOr_Rss lhs rhs => Some (BranchI64NotOr_Ss offset lhs rhs)
  | I64NotOr_Rsi lhs rhs => Some (BranchI64NotOr_Si offset lhs rhs)
  | I64Lt_Rrs rhs => Some (BranchI64Lt_Rs offset rhs)
  | I64Lt_Rri rhs => Some (BranchI64Lt_Ri offset rhs)
  | I64Lt_Rsr lhs => Some (BranchI64Lt_Sr offset lhs)
  | I64Lt_Rss lhs rhs => Some (BranchI64Lt_Ss offset lhs rhs)
  | I64Lt_Rsi lhs rhs => Some (BranchI64Lt_Si offset lhs rhs)
  | I64Lt_Rir lhs => Some (BranchI64Lt_Ir offset lhs)
  | I64Lt_Ris lhs rhs => Some (BranchI64Lt_Is offset lhs rhs)
  | U64Lt_Rrs rhs => Some (BranchU64Lt_Rs offset rhs)
  | U64Lt_Rri rhs => Some (BranchU64Lt_Ri offset rhs)
  | U64Lt_Rsr lhs => Some (BranchU64Lt_Sr offset lhs)
  | U64Lt_Rss lhs rhs => Some (BranchU64Lt_Ss offset lhs rhs)
  | U64Lt_Rsi lhs rhs => Some (BranchU64Lt_Si offset lhs rhs)
  | U64Lt_Rir lhs => Some (BranchU64Lt_Ir offset lhs)
  | U64Lt_Ris lhs rhs => Some (BranchU64Lt_Is offset lhs rhs)
  | I64Le_Rrs rhs => Some (BranchI64Le_Rs offset rhs)
  | I64Le_Rri rhs => Some (BranchI64Le_Ri offset rhs)
  | I64Le_Rsr lhs => Some (BranchI64Le_Sr offset lhs)
  | I64Le_Rss lhs rhs => Some (BranchI64Le_Ss offset lhs rhs)
  | I64Le_Rsi lhs rhs => Some (BranchI64Le_Si offset lhs rhs)
  | I64Le_Rir lhs => Some (BranchI64Le_Ir offset lhs)
  | I64Le_Ris lhs rhs => Some (BranchI64Le_Is offset lhs rhs)
  | U64Le_Rrs rhs => Some (BranchU64Le_Rs offset rhs)
  | U64Le_Rri rhs => Some (BranchU64Le_Ri offset rhs)
  | U64Le_Rsr lhs => Some (BranchU64Le_Sr offset lhs)
  | U64Le_Rss lhs rhs => Some (BranchU64Le_Ss offset lhs rhs)
  | U64Le_Rsi lhs rhs => Some (BranchU64Le_Si offset lhs rhs)
  | U64Le_Rir lhs => Some (BranchU64Le_Ir offset lhs)
  | U64Le_Ris lhs rhs => Some (BranchU64Le_Is offset lhs rhs)
  | _ => None
  end.

Definition try_into_cmp_branch_instr_f32 (self : BinaryInstF32) (offset : BranchOffset) : option CmpBranchInstF32 :=
  match self with
  | F32Eq_Rrs rhs => Some (BranchF32Eq_Rs offset rhs)
  | F32Eq_Rri rhs => Some (BranchF32Eq_Ri offset rhs)
  | F32Eq_Rss lhs rhs => Some (BranchF32Eq_Ss offset lhs rhs)
  | F32Eq_Rsi lhs rhs => Some (BranchF32Eq_Si offset lhs rhs)
  | F32Lt_Rrs rhs => Some (BranchF32Lt_Rs offset rhs)
  | F32Lt_Rri rhs => Some (BranchF32Lt_Ri offset rhs)
  | F32Lt_Rsr lhs => Some (BranchF32Lt_Sr offset lhs)
  | F32Lt_Rss lhs rhs => Some (BranchF32Lt_Ss offset lhs rhs)
  | F32Lt_Rsi lhs rhs => Some (BranchF32Lt_Si offset lhs rhs)
  | F32Lt_Rir lhs => Some (BranchF32Lt_Ir offset lhs)
  | F32Lt_Ris lhs rhs => Some (BranchF32Lt_Is offset lhs rhs)
  | F32Le_Rrs rhs => Some (BranchF32Le_Rs offset rhs)
  | F32Le_Rri rhs => Some (BranchF32Le_Ri offset rhs)
  | F32Le_Rsr lhs => Some (BranchF32Le_Sr offset lhs)
  | F32Le_Rss lhs rhs => Some (BranchF32Le_Ss offset lhs rhs)
  | F32Le_Rsi lhs rhs => Some (BranchF32Le_Si offset lhs rhs)
  | F32Le_Rir lhs => Some (BranchF32Le_Ir offset lhs)
  | F32Le_Ris lhs rhs => Some (BranchF32Le_Is offset lhs rhs)
  | F32NotEq_Rrs rhs => Some (BranchF32NotEq_Rs offset rhs)
  | F32NotEq_Rri rhs => Some (BranchF32NotEq_Ri offset rhs)
  | F32NotEq_Rss lhs rhs => Some (BranchF32NotEq_Ss offset lhs rhs)
  | F32NotEq_Rsi lhs rhs => Some (BranchF32NotEq_Si offset lhs rhs)
  | F32NotLt_Rrs rhs => Some (BranchF32NotLt_Rs offset rhs)
  | F32NotLt_Rri rhs => Some (BranchF32NotLt_Ri offset rhs)
  | F32NotLt_Rsr lhs => Some (BranchF32NotLt_Sr offset lhs)
  | F32NotLt_Rss lhs rhs => Some (BranchF32NotLt_Ss offset lhs rhs)
  | F32NotLt_Rsi lhs rhs => Some (BranchF32NotLt_Si offset lhs rhs)
  | F32NotLt_Rir lhs => Some (BranchF32NotLt_Ir offset lhs)
  | F32NotLt_Ris lhs rhs => Some (BranchF32NotLt_Is offset lhs rhs)
  | F32NotLe_Rrs rhs => Some (BranchF32NotLe_Rs offset rhs)
  | F32NotLe_Rri rhs => Some (BranchF32NotLe_Ri offset rhs)
  | F32NotLe_Rsr lhs => Some (BranchF32NotLe_Sr offset lhs)
  | F32NotLe_Rss lhs rhs => Some (BranchF32NotLe_Ss offset lhs rhs)
  | F32NotLe_Rsi lhs rhs => Some (BranchF32NotLe_Si offset lhs rhs)
  | F32NotLe_Rir lhs => Some (BranchF32NotLe_Ir offset lhs)
  | F32NotLe_Ris lhs rhs => Some (BranchF32NotLe_Is offset lhs rhs)
  | _ => None
  end.

Definition try_into_cmp_branch_instr_f64 (self : BinaryInstF64) (offset : BranchOffset) : option CmpBranchInstF64 :=
  match self with
  | F64Eq_Rrs rhs => Some (BranchF64Eq_Rs offset rhs)
  | F64Eq_Rri rhs => Some (BranchF64Eq_Ri offset rhs)
  | F64Eq_Rss lhs rhs => Some (BranchF64Eq_Ss offset lhs rhs)
  | F64Eq_Rsi lhs rhs => Some (BranchF64Eq_Si offset lhs rhs)
  | F64Lt_Rrs rhs => Some (BranchF64Lt_Rs offset rhs)
  | F64Lt_Rri rhs => Some (BranchF64Lt_Ri offset rhs)
  | F64Lt_Rsr lhs => Some (BranchF64Lt_Sr offset lhs)
  | F64Lt_Rss lhs rhs => Some (BranchF64Lt_Ss offset lhs rhs)
  | F64Lt_Rsi lhs rhs => Some (BranchF64Lt_Si offset lhs rhs)
  | F64Lt_Rir lhs => Some (BranchF64Lt_Ir offset lhs)
  | F64Lt_Ris lhs rhs => Some (BranchF64Lt_Is offset lhs rhs)
  | F64Le_Rrs rhs => Some (BranchF64Le_Rs offset rhs)
  | F64Le_Rri rhs => Some (BranchF64Le_Ri offset rhs)
  | F64Le_Rsr lhs => Some (BranchF64Le_Sr offset lhs)
  | F64Le_Rss lhs rhs => Some (BranchF64Le_Ss offset lhs rhs)
  | F64Le_Rsi lhs rhs => Some (BranchF64Le_Si offset lhs rhs)
  | F64Le_Rir lhs => Some (BranchF64Le_Ir offset lhs)
  | F64Le_Ris lhs rhs => Some (BranchF64Le_Is offset lhs rhs)
  | F64NotEq_Rrs rhs => Some (BranchF64NotEq_Rs offset rhs)
  | F64NotEq_Rri rhs => Some (BranchF64NotEq_Ri offset rhs)
  | F64NotEq_Rss lhs rhs => Some (BranchF64NotEq_Ss offset lhs rhs)
  | F64NotEq_Rsi lhs rhs => Some (BranchF64NotEq_Si offset lhs rhs)
  | F64NotLt_Rrs rhs => Some (BranchF64NotLt_Rs offset rhs)
  | F64NotLt_Rri rhs => Some (BranchF64NotLt_Ri offset rhs)
  | F64NotLt_Rsr lhs => Some (BranchF64NotLt_Sr offset lhs)
  | F64NotLt_Rss lhs rhs => Some (BranchF64NotLt_Ss offset lhs rhs)
  | F64NotLt_Rsi lhs rhs => Some (BranchF64NotLt_Si offset lhs rhs)
  | F64NotLt_Rir lhs => Some (BranchF64NotLt_Ir offset lhs)
  | F64NotLt_Ris lhs rhs => Some (BranchF64NotLt_Is offset lhs rhs)
  | F64NotLe_Rrs rhs => Some (BranchF64NotLe_Rs offset rhs)
  | F64NotLe_Rri rhs => Some (BranchF64NotLe_Ri offset rhs)
  | F64NotLe_Rsr lhs => Some (BranchF64NotLe_Sr offset lhs)
  | F64NotLe_Rss lhs rhs => Some (BranchF64NotLe_Ss offset lhs rhs)
  | F64NotLe_Rsi lhs rhs => Some (BranchF64NotLe_Si offset lhs rhs)
  | F64NotLe_Rir lhs => Some (BranchF64NotLe_Ir offset lhs)
  | F64NotLe_Ris lhs rhs => Some (BranchF64NotLe_Is offset lhs rhs)
  | _ => None
  end.

(** ** [UpdateBranchOffset] *)

(** The offset must not have been set before. *)
Definition updated {A} (offset : BranchOffset) (op : A) : res Empty_set A :=
  if BranchOffset_is_init offset then Panic else Ok op.

Definition update_branch_offset_i32 (self : CmpBranchInstI32) (new_offset : BranchOffset) : res Empty_set CmpBranchInstI32 :=
  match self with
  | BranchI32Eq_Rs offset rhs => updated offset (BranchI32Eq_Rs new_offset rhs)
  | BranchI32Eq_Ri offset rhs => updated offset (BranchI32Eq_Ri new_offset rhs)
  | BranchI32Eq_Ss offset lhs rhs => updated offset (BranchI32Eq_Ss new_offset lhs rhs)
  | BranchI32Eq_Si offset lhs rhs => updated offset (BranchI32Eq_Si new_offset lhs rhs)
  | BranchI32And_Rs offset rhs => updated offset (BranchI32And_Rs new_offset rhs)
  | BranchI32And_Ri offset rhs => updated offset (BranchI32And_Ri new_offset rhs)
  | BranchI32And_Ss offset lhs rhs => updated offset (BranchI32And_Ss new_offset lhs rhs)
  | BranchI32And_Si offset lhs rhs => updated offset (BranchI32And_Si new_offset lhs rhs)
  | BranchI32Or_Rs offset rhs => updated offset (BranchI32Or_Rs new_offset rhs)
  | BranchI32Or_Ri offset rhs => updated offset (BranchI32Or_Ri new_offset rhs)
  | BranchI32Or_Ss offset lhs rhs => updated offset (BranchI32Or_Ss new_offset lhs rhs)
  | BranchI32Or_Si offset lhs rhs => updated offset (BranchI32Or_Si new_offset lhs rhs)
  | BranchI32NotEq_Rs offset rhs => updated offset (BranchI32NotEq_Rs new_offset rhs)
  | BranchI32NotEq_Ri offset rhs => updated offset (BranchI32NotEq_Ri new_offset rhs)
  | BranchI32NotEq_Ss offset lhs rhs => updated offset (BranchI32NotEq_Ss new_offset lhs rhs)
  | BranchI32NotEq_Si offset lhs rhs => updated offset (BranchI32NotEq_Si new_offset lhs rhs)
  | BranchI32NotAnd_Rs offset rhs => updated offset (BranchI32NotAnd_Rs new_offset rhs)
  | BranchI32NotAnd_Ri offset rhs => updated offset (BranchI32NotAnd_Ri new_offset rhs)
  | BranchI32NotAnd_Ss offset lhs rhs => updated offset (BranchI32NotAnd_Ss new_offset lhs rhs)
  | BranchI32NotAnd_Si offset lhs rhs => updated offset (BranchI32NotAnd_Si new_offset lhs rhs)
  | BranchI32NotOr_Rs offset rhs => updated offset (BranchI32NotOr_Rs new_offset rhs)
  | BranchI32NotOr_Ri offset rhs => updated offset (BranchI32NotOr_Ri new_offset rhs)
  | BranchI32NotOr_Ss offset lhs rhs => updated offset (BranchI32NotOr_Ss new_offset lhs rhs)
  | BranchI32NotOr_Si offset lhs rhs => updated offset (BranchI32NotOr_Si new_offset lhs rhs)
  | BranchI32Lt_Rs offset rhs => updated offset (BranchI32Lt_Rs new_offset rhs)
  | BranchI32Lt_Ri offset rhs => updated offset (BranchI32Lt_Ri new_offset rhs)
  | BranchI32Lt_Sr offset lhs => updated offset (BranchI32Lt_Sr new_offset lhs)
  | BranchI32Lt_Ss offset lhs rhs => updated offset (BranchI32Lt_Ss new_offset lhs rhs)
  | BranchI32Lt_Si offset lhs rhs => updated offset (BranchI32Lt_Si new_offset lhs rhs)
  | BranchI32Lt_Ir offset lhs => updated offset (BranchI32Lt_Ir new_offset lhs)
  | BranchI32Lt_Is offset lhs rhs => updated offset (BranchI32Lt_Is new_offset lhs rhs)
  | BranchU32Lt_Rs offset rhs => updated offset (BranchU32Lt_Rs new_offset rhs)
  | BranchU32Lt_Ri offset rhs => updated offset (BranchU32Lt_Ri new_offset rhs)
  | BranchU32Lt_Sr offset lhs => updated offset (BranchU32Lt_Sr new_offset lhs)
  | BranchU32Lt_Ss offset lhs rhs => updated offset (BranchU32Lt_Ss new_offset lhs rhs)
  | BranchU32Lt_Si offset lhs rhs => updated offset (BranchU32Lt_Si new_offset lhs rhs)
  | BranchU32Lt_Ir offset lhs => updated offset (BranchU32Lt_Ir new_offset lhs)
  | BranchU32Lt_Is offset lhs rhs => updated offset (BranchU32Lt_Is new_offset lhs rhs)
  | BranchI32Le_Rs offset rhs => updated offset (BranchI32Le_Rs new_offset rhs)
  | BranchI32Le_Ri offset rhs => updated offset (BranchI32Le_Ri new_offset rhs)
  | BranchI32Le_Sr offset lhs => updated offset (BranchI32Le_Sr new_offset lhs)
  | BranchI32Le_Ss offset lhs rhs => updated offset (BranchI32Le_Ss new_offset lhs rhs)
  | BranchI32Le_Si offset lhs rhs => updated offset (BranchI32Le_Si new_offset lhs rhs)
  | BranchI32Le_Ir offset lhs => updated offset (BranchI32Le_Ir new_offset lhs)
  | BranchI32Le_Is offset lhs rhs => updated offset (BranchI32Le_Is new_offset lhs rhs)
  | BranchU32Le_Rs offset rhs => updated offset (BranchU32Le_Rs new_offset rhs)
  | BranchU32Le_Ri offset rhs => updated offset (BranchU32Le_Ri new_offset rhs)
  | BranchU32Le_Sr offset lhs => updated offset (BranchU32Le_Sr new_offset lhs)
  | BranchU32Le_Ss offset lhs rhs => updated offset (BranchU32Le_Ss new_offset lhs rhs)
  | BranchU32Le_Si offset lhs rhs => updated offset (BranchU32Le_Si new_offset lhs rhs)
  | BranchU32Le_Ir offset lhs => updated offset (BranchU32Le_Ir new_offset lhs)
  | BranchU32Le_Is offset lhs rhs => updated offset (BranchU32Le_Is new_offset lhs rhs)
  end.

Definition update_branch_offset_i64 (self : CmpBranchInstI64) (new_offset : BranchOffset) : res Empty_set CmpBranchInstI64 :=
  match self with
  | BranchI64Eq_Rs offset rhs => updated offset (BranchI64Eq_Rs new_offset rhs)
  | BranchI64Eq_Ri offset rhs => updated offset (BranchI64Eq_Ri new_offset rhs)
  | BranchI64Eq_Ss offset lhs rhs => updated offset (BranchI64Eq_Ss new_offset lhs rhs)
  | BranchI64Eq_Si offset lhs rhs => updated offset (BranchI64Eq_Si new_offset lhs rhs)
  | BranchI64And_Rs offset rhs => updated offset (BranchI64And_Rs new_offset rhs)
  | BranchI64And_Ri offset rhs => updated offset (BranchI64And_Ri new_offset rhs)
  | BranchI64And_Ss offset lhs rhs => updated offset (BranchI64And_Ss new_offset lhs rhs)
  | BranchI64And_Si offset lhs rhs => updated offset (BranchI64And_Si new_offset lhs rhs)
  | BranchI64Or_Rs offset rhs => updated offset (BranchI64Or_Rs new_offset rhs)
  | BranchI64Or_Ri offset rhs => updated offset (BranchI64Or_Ri new_offset rhs)
  | BranchI64Or_Ss offset lhs rhs => updated offset (BranchI64Or_Ss new_offset lhs rhs)
  | BranchI64Or_Si offset lhs rhs => updated offset (BranchI64Or_Si new_offset lhs rhs)
  | BranchI64NotEq_Rs offset rhs => updated offset (BranchI64NotEq_Rs new_offset rhs)
  | BranchI64NotEq_Ri offset rhs => updated offset (BranchI64NotEq_Ri new_offset rhs)
  | BranchI64NotEq_Ss offset lhs rhs => updated offset (BranchI64NotEq_Ss new_offset lhs rhs)
  | BranchI64NotEq_Si offset lhs rhs => updated offset (BranchI64NotEq_Si new_offset lhs rhs)
  | BranchI64NotAnd_Rs offset rhs => updated offset (BranchI64NotAnd_Rs new_offset rhs)
  | BranchI64NotAnd_Ri offset rhs => updated offset (BranchI64NotAnd_Ri new_offset rhs)
  | BranchI64NotAnd_Ss offset lhs rhs => updated offset (BranchI64NotAnd_Ss new_offset lhs rhs)
  | BranchI64NotAnd_Si offset lhs rhs => updated offset (BranchI64NotAnd_Si new_offset lhs rhs)
  | BranchI64NotOr_Rs offset rhs => updated offset (BranchI64NotOr_Rs new_offset rhs)
  | BranchI64NotOr_Ri offset rhs => updated offset (BranchI64NotOr_Ri new_offset rhs)
  | BranchI64NotOr_Ss offset lhs rhs => updated offset (BranchI64NotOr_Ss new_offset lhs rhs)
  | BranchI64NotOr_Si offset lhs rhs => updated offset (BranchI64NotOr_Si new_offset lhs rhs)
  | BranchI64Lt_Rs offset rhs => updated offset (BranchI64Lt_Rs new_offset rhs)
  | BranchI64Lt_Ri offset rhs => updated offset (BranchI64Lt_Ri new_offset rhs)
  | BranchI64Lt_Sr offset lhs => updated offset (BranchI64Lt_Sr new_offset lhs)
  | BranchI64Lt_Ss offset lhs rhs => updated offset (BranchI64Lt_Ss new_offset lhs rhs)
  | BranchI64Lt_Si offset lhs rhs => updated offset (BranchI64Lt_Si new_offset lhs rhs)
  | BranchI64Lt_Ir offset lhs => updated offset (BranchI64Lt_Ir new_offset lhs)
  | BranchI64Lt_Is offset lhs rhs => updated offset (BranchI64Lt_Is new_offset lhs rhs)
  | BranchU64Lt_Rs offset rhs => updated offset (BranchU64Lt_Rs new_offset rhs)
  | BranchU64Lt_Ri offset rhs => updated offset (BranchU64Lt_Ri new_offset rhs)
  | BranchU64Lt_Sr offset lhs => updated offset (BranchU64Lt_Sr new_offset lhs)
  | BranchU64Lt_Ss offset lhs rhs => updated offset (BranchU64Lt_Ss new_offset lhs rhs)
  | BranchU64Lt_Si offset lhs rhs => updated offset (BranchU64Lt_Si new_offset lhs rhs)
  | BranchU64Lt_Ir offset lhs => updated offset (BranchU64Lt_Ir new_offset lhs)
  | BranchU64Lt_Is offset lhs rhs => updated offset (BranchU64Lt_Is new_offset lhs rhs)
  | BranchI64Le_Rs offset rhs => updated offset (BranchI64Le_Rs new_offset rhs)
  | BranchI64Le_Ri offset rhs => updated offset (BranchI64Le_Ri new_offset rhs)
  | BranchI64Le_Sr offset lhs => updated offset (BranchI64Le_Sr new_offset lhs)
  | BranchI64Le_Ss offset lhs rhs => updated offset (BranchI64Le_Ss new_offset lhs rhs)
  | BranchI64Le_Si offset lhs rhs => updated offset (BranchI64Le_Si new_offset lhs rhs)
  | BranchI64Le_Ir offset lhs => updated offset (BranchI64Le_Ir new_offset lhs)
  | BranchI64Le_Is offset lhs rhs => updated offset (BranchI64Le_Is new_offset lhs rhs)
  | BranchU64Le_Rs offset rhs => updated offset (BranchU64Le_Rs new_offset rhs)
  | BranchU64Le_Ri offset rhs => updated offset (BranchU64Le_Ri new_offset rhs)
  | BranchU64Le_Sr offset lhs => updated offset (BranchU64Le_Sr new_offset lhs)
  | BranchU64Le_Ss offset lhs rhs => updated offset (BranchU64Le_Ss new_offset lhs rhs)
  | BranchU64Le_Si offset lhs rhs => updated offset (BranchU64Le_Si new_offset lhs rhs)
  | BranchU64Le_Ir offset lhs => updated offset (BranchU64Le_Ir new_offset lhs)
  | BranchU64Le_Is offset lhs rhs => updated offset (BranchU64Le_Is new_offset lhs rhs)
  end.

Definition update_branch_offset_f32 (self : CmpBranchInstF32) (new_offset : BranchOffset) : res Empty_set CmpBranchInstF32 :=
  match self with
  | BranchF32Eq_Rs offset rhs => updated offset (BranchF32Eq_Rs new_offset rhs)
  | BranchF32Eq_Ri offset rhs => updated offset (BranchF32Eq_Ri new_offset rhs)
  | BranchF32Eq_Ss offset lhs rhs => updated offset (BranchF32Eq_Ss new_offset lhs rhs)
  | BranchF32Eq_Si offset lhs rhs => updated offset (BranchF32Eq_Si new_offset lhs rhs)
  | BranchF32Lt_Rs offset rhs => updated offset (BranchF32Lt_Rs new_offset rhs)
  | BranchF32Lt_Ri offset rhs => updated offset (BranchF32Lt_Ri new_offset rhs)
  | BranchF32Lt_Sr offset lhs => updated offset (BranchF32Lt_Sr new_offset lhs)
  | BranchF32Lt_Ss offset lhs rhs => updated offset (BranchF32Lt_Ss new_offset lhs rhs)
  | BranchF32Lt_Si offset lhs rhs => updated offset (BranchF32Lt_Si new_offset lhs rhs)
  | BranchF32Lt_Ir offset lhs => updated offset (BranchF32Lt_Ir new_offset lhs)
  | BranchF32Lt_Is offset lhs rhs => updated offset (BranchF32Lt_Is new_offset lhs rhs)
  | BranchF32Le_Rs offset rhs => updated offset (BranchF32Le_Rs new_offset rhs)
  | BranchF32Le_Ri offset rhs => updated offset (BranchF32Le_Ri new_offset rhs)
  | BranchF32Le_Sr offset lhs => updated offset (BranchF32Le_Sr new_offset lhs)
  | BranchF32Le_Ss offset lhs rhs => updated offset (BranchF32Le_Ss new_offset lhs rhs)
  | BranchF32Le_Si offset lhs rhs => updated offset (BranchF32Le_Si new_offset lhs rhs)
  | BranchF32Le_Ir offset lhs => updated offset (BranchF32Le_Ir new_offset lhs)
  | BranchF32Le_Is offset lhs rhs => updated offset (BranchF32Le_Is new_offset lhs rhs)
  | BranchF32NotEq_Rs offset rhs => updated offset (BranchF32NotEq_Rs new_offset rhs)
  | BranchF32NotEq_Ri offset rhs => updated offset (BranchF32NotEq_Ri new_offset rhs)
  | BranchF32NotEq_Ss offset lhs rhs => updated offset (BranchF32NotEq_Ss new_offset lhs rhs)
  | BranchF32NotEq_Si offset lhs rhs => updated offset (BranchF32NotEq_Si new_offset lhs rhs)
  | BranchF32NotLt_Rs offset rhs => updated offset (BranchF32NotLt_Rs new_offset rhs)
  | BranchF32NotLt_Ri offset rhs => updated offset (BranchF32NotLt_Ri new_offset rhs)
  | BranchF32NotLt_Sr offset lhs => updated offset (BranchF32NotLt_Sr new_offset lhs)
  | BranchF32NotLt_Ss offset lhs rhs => updated offset (BranchF32NotLt_Ss new_offset lhs rhs)
  | BranchF32NotLt_Si offset lhs rhs => updated offset (BranchF32NotLt_Si new_offset lhs rhs)
  | BranchF32NotLt_Ir offset lhs => updated offset (BranchF32NotLt_Ir new_offset lhs)
  | BranchF32NotLt_Is offset lhs rhs => updated offset (BranchF32NotLt_Is new_offset lhs rhs)
  | BranchF32NotLe_Rs offset rhs => updated offset (BranchF32NotLe_Rs new_offset rhs)
  | BranchF32NotLe_Ri offset rhs => updated offset (BranchF32NotLe_Ri new_offset rhs)
  | BranchF32NotLe_Sr offset lhs => updated offset (BranchF32NotLe_Sr new_offset lhs)
  | BranchF32NotLe_Ss offset lhs rhs => updated offset (BranchF32NotLe_Ss new_offset lhs rhs)
  | BranchF32NotLe_Si offset lhs rhs => updated offset (BranchF32NotLe_Si new_offset lhs rhs)
  | BranchF32NotLe_Ir offset lhs => updated offset (BranchF32NotLe_Ir new_offset lhs)
  | BranchF32NotLe_Is offset lhs rhs => updated offset (BranchF32NotLe_Is new_offset lhs rhs)
  end.

Definition update_branch_offset_f64 (self : CmpBranchInstF64) (new_offset : BranchOffset) : res Empty_set CmpBranchInstF64 :=
  match self with
  | BranchF64Eq_Rs offset rhs => updated offset (BranchF64Eq_Rs new_offset rhs)
  | BranchF64Eq_Ri offset rhs => updated offset (BranchF64Eq_Ri new_offset rhs)
  | BranchF64Eq_Ss offset lhs rhs => updated offset (BranchF64Eq_Ss new_offset lhs rhs)
  | BranchF64Eq_Si offset lhs rhs => updated offset (BranchF64Eq_Si new_offset lhs rhs)
  | BranchF64Lt_Rs offset rhs => updated offset (BranchF64Lt_Rs new_offset rhs)
  | BranchF64Lt_Ri offset rhs => updated offset (BranchF64Lt_Ri new_offset rhs)
  | BranchF64Lt_Sr offset lhs => updated offset (BranchF64Lt_Sr new_offset lhs)
  | BranchF64Lt_Ss offset lhs rhs => updated offset (BranchF64Lt_Ss new_offset lhs rhs)
  | BranchF64Lt_Si offset lhs rhs => updated offset (BranchF64Lt_Si new_offset lhs rhs)
  | BranchF64Lt_Ir offset lhs => updated offset (BranchF64Lt_Ir new_offset lhs)
  | BranchF64Lt_Is offset lhs rhs => updated offset (BranchF64Lt_Is new_offset lhs rhs)
  | BranchF64Le_Rs offset rhs => updated offset (BranchF64Le_Rs new_offset rhs)
  | BranchF64Le_Ri offset rhs => updated offset (BranchF64Le_Ri new_offset rhs)
  | BranchF64Le_Sr offset lhs => updated offset (BranchF64Le_Sr new_offset lhs)
  | BranchF64Le_Ss offset lhs rhs => updated offset (BranchF64Le_Ss new_offset lhs rhs)
  | BranchF64Le_Si offset lhs rhs => updated offset (BranchF64Le_Si new_offset lhs rhs)
  | BranchF64Le_Ir offset lhs => updated offset (BranchF64Le_Ir new_offset lhs)
  | BranchF64Le_Is offset lhs rhs => updated offset (BranchF64Le_Is new_offset lhs rhs)
  | BranchF64NotEq_Rs offset rhs => updated offset (BranchF64NotEq_Rs new_offset rhs)
  | BranchF64NotEq_Ri offset rhs => updated offset (BranchF64NotEq_Ri new_offset rhs)
  | BranchF64NotEq_Ss offset lhs rhs => updated offset (BranchF64NotEq_Ss new_offset lhs rhs)
  | BranchF64NotEq_Si offset lhs rhs => updated offset (BranchF64NotEq_Si new_offset lhs rhs)
  | BranchF64NotLt_Rs offset rhs => updated offset (BranchF64NotLt_Rs new_offset rhs)
  | BranchF64NotLt_Ri offset rhs => updated offset (BranchF64NotLt_Ri new_offset rhs)
  | BranchF64NotLt_Sr offset lhs => updated offset (BranchF64NotLt_Sr new_offset lhs)
  | BranchF64NotLt_Ss offset lhs rhs => updated offset (BranchF64NotLt_Ss new_offset lhs rhs)
  | BranchF64NotLt_Si offset lhs rhs => updated offset (BranchF64NotLt_Si new_offset lhs rhs)
  | BranchF64NotLt_Ir offset lhs => updated offset (BranchF64NotLt_Ir new_offset lhs)
  | BranchF64NotLt_Is offset lhs rhs => updated offset (BranchF64NotLt_Is new_offset lhs rhs)
  | BranchF64NotLe_Rs offset rhs => updated offset (BranchF64NotLe_Rs new_offset rhs)
  | BranchF64NotLe_Ri offset rhs => updated offset (BranchF64NotLe_Ri new_offset rhs)
  | BranchF64NotLe_Sr offset lhs => updated offset (BranchF64NotLe_Sr new_offset lhs)
  | BranchF64NotLe_Ss offset lhs rhs => updated offset (BranchF64NotLe_Ss new_offset lhs rhs)
  | BranchF64NotLe_Si offset lhs rhs => updated offset (BranchF64NotLe_Si new_offset lhs rhs)
  | BranchF64NotLe_Ir offset lhs => updated offset (BranchF64NotLe_Ir new_offset lhs)
  | BranchF64NotLe_Is offset lhs rhs => updated offset (BranchF64NotLe_Is new_offset lhs rhs)
  end.

(** ** All types of operands *)

Inductive BinaryInst : Type :=
| Binary_i32 (op : BinaryInstI32)
| Binary_i64 (op : BinaryInstI64)
| Binary_f32 (op : BinaryInstF32)
| Binary_f64 (op : BinaryInstF64).

Inductive CmpBranchInst : Type :=
| CmpBranch_i32 (op : CmpBranchInstI32)
| CmpBranch_i64 (op : CmpBranchInstI64)
| CmpBranch_f32 (op : CmpBranchInstF32)
| CmpBranch_f64 (op : CmpBranchInstF64).

Definition negate_cmp_instr (self : BinaryInst) : option BinaryInst :=
  match self with
  | Binary_i32 op => Binary_i32 <$> negate_cmp_instr_i32 op
  | Binary_i64 op => Binary_i64 <$> negate_cmp_instr_i64 op
  | Binary_f32 op => Binary_f32 <$> negate_cmp_instr_f32 op
  | Binary_f64 op => Binary_f64 <$> negate_cmp_instr_f64 op
  end.

Definition logicalize_cmp_instr (self : BinaryInst) : option BinaryInst :=
  match self with
  | Binary_i32 op => Binary_i32 <$> logicalize_cmp_instr_i32 op
  | Binary_i64 op => Binary_i64 <$> logicalize_cmp_instr_i64 op
  | Binary_f32 op => Binary_f32 <$> logicalize_cmp_instr_f32 op
  | Binary_f64 op => Binary_f64 <$> logicalize_cmp_instr_f64 op
  end.

Definition try_into_cmp_branch_instr (self : BinaryInst) (offset : BranchOffset) : option CmpBranchInst :=
  match self with
  | Binary_i32 op => CmpBranch_i32 <$> try_into_cmp_branch_instr_i32 op offset
  | Binary_i64 op => CmpBranch_i64 <$> try_into_cmp_branch_instr_i64 op offset
  | Binary_f32 op => CmpBranch_f32 <$> try_into_cmp_branch_instr_f32 op offset
  | Binary_f64 op => CmpBranch_f64 <$> try_into_cmp_branch_instr_f64 op offset
  end.

Definition update_branch_offset (self : CmpBranchInst) (new_offset : BranchOffset) : res Empty_set CmpBranchInst :=
  match self with
  | CmpBranch_i32 op => CmpBranch_i32 <$> update_branch_offset_i32 op new_offset
  | CmpBranch_i64 op => CmpBranch_i64 <$> update_branch_offset_i64 op new_offset
  | CmpBranch_f32 op => CmpBranch_f32 <$> update_branch_offset_f32 op new_offset
  | CmpBranch_f64 op => CmpBranch_f64 <$> update_branch_offset_f64 op new_offset
  end.

Section Tables.
Context `{T : Target} `{FloatNans}.

Definition binary_handler (self : BinaryInst) : BinaryHandler :=
  match self with
  | Binary_i32 op => binary_i32_handler op
  | Binary_i64 op => binary_i64_handler op
  | Binary_f32 op => binary_f32_handler op
  | Binary_f64 op => binary_f64_handler op
  end.

Definition cmp_branch_handler (self : CmpBranchInst) : CmpBranchHandler :=
  match self with
  | CmpBranch_i32 op => cmp_branch_i32_handler op
  | CmpBranch_i64 op => cmp_branch_i64_handler op
  | CmpBranch_f32 op => cmp_branch_f32_handler op
  | CmpBranch_f64 op => cmp_branch_f64_handler op
  end.

End Tables.

(** ** Fused comparisons compute what they replace

    The three tables of [engine/translator/comparator.rs] against the handlers of
    the operators they relate: a negated comparison yields whether the original
    yields zero, a logicalized operator whether the original is not zero, and a
    fused branch is taken if the original is not zero.  All three apply to the
    same operators. *)

Local Open Scope Z_scope.

Section Spec.
Context `{T : Target} `{FloatNans}.

(** ** What handlers compute *)

Definition get {E} (p : Prim) (src : Src) (fs : Frame_state) : res E Z :=
  match get_value p src fs with Ok v => Ok v | _ => Panic end.

(** The value a binary operator computes, and whether a branch is taken. *)
Definition binary_value (h : BinaryHandler) (fs : Frame_state) : res TrapCode Z :=
  lhs ← get (bin_lhs_ty h) (bin_lhs h) fs;
  rhs ← get (bin_rhs_ty h) (bin_rhs h) fs;
  bin_eval h lhs rhs.

Definition branch_taken (h : CmpBranchHandler) (fs : Frame_state) : res TrapCode bool :=
  lhs ← get (br_ty h) (br_lhs h) fs;
  rhs ← get (br_ty h) (br_rhs h) fs;
  Ok (br_eval h lhs rhs).

(** The result of a comparison: a bool in the integer register. *)
Definition is_cmp (h : BinaryHandler) : Prop := bin_dst h = Dst_reg Reg_i64 /\ bin_out h = P_bool.

Definition when_zero (v : Z) : Z := Z.b2z (v =? 0).
Definition when_nonzero (v : Z) : Z := Z.b2z (negb (v =? 0)).

(** Reads of the two operands commute and have no effect. *)
Lemma get_pair {A} (f : Z -> Z -> res TrapCode A) p q s t fs :
  (r ← get q t fs; l ← get p s fs; f l r) = (l ← get p s fs; r ← get q t fs; f l r).
Proof. unfold get. by destruct (get_value q t fs), (get_value p s fs). Qed.

Lemma get_pair_fmap {A B} (g : A -> B) (f : Z -> Z -> res TrapCode A) p q s t fs :
  g <$> (l ← get p s fs; r ← get q t fs; f l r) = (l ← get p s fs; r ← get q t fs; g <$> f l r).
Proof. unfold get. by destruct (get_value p s fs), (get_value q t fs). Qed.

Lemma get_pair_ext {A} (f g : Z -> Z -> res TrapCode A) p q s t fs :
  (forall l r, f l r = g l r) ->
  (l ← get p s fs; r ← get q t fs; f l r) = (l ← get p s fs; r ← get q t fs; g l r).
Proof. intros Hfg. unfold get. destruct (get_value p s fs), (get_value q t fs); try done. apply Hfg. Qed.

(** ** Facts about zero *)

Lemma b2z_zero b : (Z.b2z b =? 0) = negb b.
Proof. by destruct b. Qed.

Lemma lor_zero a b : (Z.lor a b =? 0) = (a =? 0) && (b =? 0).
Proof. apply eq_true_iff_eq. rewrite andb_true_iff, !Z.eqb_eq. apply Z.lor_eq_0_iff. Qed.

Lemma lxor_zero a b : (Z.lxor a b =? 0) = (a =? b).
Proof. apply eq_true_iff_eq. rewrite !Z.eqb_eq. apply Z.lxor_eq_0_iff. Qed.

(** Unfolds the functions of the tables and decides what is left by cases on
    the truth values. *)
Ltac eval_cmp :=
  intros; cbv [into_res IntoRes_bool IntoRes_Z IntoRes_res id fmap res_fmap when_zero when_nonzero
    wasmi_i32_and wasmi_i32_not_and wasmi_i32_or wasmi_i32_not_or wasmi_i64_and wasmi_i64_not_and wasmi_i64_or
    wasmi_i64_not_or wasmi_f32_not_le wasmi_f64_not_le wasmi_f32_not_lt wasmi_f64_not_lt
    f32_ne f64_ne f32_eq f64_eq float_ne i32_bitand i64_bitand i32_bitor i64_bitor i32_bitxor i64_bitxor
    i32_eq i64_eq i32_ne i64_ne i32_lt_s i64_lt_s i32_lt_u i64_lt_u i32_le_s i64_le_s i32_le_u i64_le_u];
  rewrite ?b2z_zero, ?lor_zero, ?lxor_zero, ?negb_involutive, ?Z.leb_antisym, ?negb_involutive;
  repeat match goal with |- context [?a =? 0] => destruct (a =? 0) end; done.

(** ** The tables *)

(** One goal for each operator: the operands are read alike, or the other way
    round, and the functions agree on all values. *)
Ltac by_operator op :=
  destruct op; try done; intros [= <-];
  repeat split;
  cbv [binary_value branch_taken bin_lhs_ty bin_rhs_ty bin_lhs bin_rhs bin_eval br_ty br_lhs br_rhs br_eval
       binary_i32_handler binary_i64_handler binary_f32_handler binary_f64_handler
       cmp_branch_i32_handler cmp_branch_i64_handler cmp_branch_f32_handler cmp_branch_f64_handler];
  rewrite get_pair_fmap;
  first [apply get_pair_ext; eval_cmp | rewrite get_pair; apply get_pair_ext; eval_cmp].

Lemma negate_i32 op op' fs : negate_cmp_instr_i32 op = Some op' ->
  is_cmp (binary_i32_handler op') /\
  binary_value (binary_i32_handler op') fs = when_zero <$> binary_value (binary_i32_handler op) fs.
Proof. by_operator op. Qed.
Lemma negate_i64 op op' fs : negate_cmp_instr_i64 op = Some op' ->
  is_cmp (binary_i64_handler op') /\
  binary_value (binary_i64_handler op') fs = when_zero <$> binary_value (binary_i64_handler op) fs.
Proof. by_operator op. Qed.
Lemma negate_f32 op op' fs : negate_cmp_instr_f32 op = Some op' ->
  is_cmp (binary_f32_handler op') /\
  binary_value (binary_f32_handler op') fs = when_zero <$> binary_value (binary_f32_handler op) fs.
Proof. by_operator op. Qed.
Lemma negate_f64 op op' fs : negate_cmp_instr_f64 op = Some op' ->
  is_cmp (binary_f64_handler op') /\
  binary_value (binary_f64_handler op') fs = when_zero <$> binary_value (binary_f64_handler op) fs.
Proof. by_operator op. Qed.

Lemma logicalize_i32 op op' fs : logicalize_cmp_instr_i32 op = Some op' ->
  is_cmp (binary_i32_handler op') /\
  binary_value (binary_i32_handler op') fs = when_nonzero <$> binary_value (binary_i32_handler op) fs.
Proof. by_operator op. Qed.
Lemma logicalize_i64 op op' fs : logicalize_cmp_instr_i64 op = Some op' ->
  is_cmp (binary_i64_handler op') /\
  binary_value (binary_i64_handler op') fs = when_nonzero <$> binary_value (binary_i64_handler op) fs.
Proof. by_operator op. Qed.
Lemma logicalize_f32 op op' fs : logicalize_cmp_instr_f32 op = Some op' ->
  is_cmp (binary_f32_handler op') /\
  binary_value (binary_f32_handler op') fs = when_nonzero <$> binary_value (binary_f32_handler op) fs.
Proof. by_operator op. Qed.
Lemma logicalize_f64 op op' fs : logicalize_cmp_instr_f64 op = Some op' ->
  is_cmp (binary_f64_handler op') /\
  binary_value (binary_f64_handler op') fs = when_nonzero <$> binary_value (binary_f64_handler op) fs.
Proof. by_operator op. Qed.

Lemma branch_i32 op offset op' fs : try_into_cmp_branch_instr_i32 op offset = Some op' ->
  br_offset (cmp_branch_i32_handler op') = offset /\
  branch_taken (cmp_branch_i32_handler op') fs =
    (fun v => negb (v =? 0)) <$> binary_value (binary_i32_handler op) fs.
Proof. by_operator op. Qed.
Lemma branch_i64 op offset op' fs : try_into_cmp_branch_instr_i64 op offset = Some op' ->
  br_offset (cmp_branch_i64_handler op') = offset /\
  branch_taken (cmp_branch_i64_handler op') fs =
    (fun v => negb (v =? 0)) <$> binary_value (binary_i64_handler op) fs.
Proof. by_operator op. Qed.
Lemma branch_f32 op offset op' fs : try_into_cmp_branch_instr_f32 op offset = Some op' ->
  br_offset (cmp_branch_f32_handler op') = offset /\
  branch_taken (cmp_branch_f32_handler op') fs =
    (fun v => negb (v =? 0)) <$> binary_value (binary_f32_handler op) fs.
Proof. by_operator op. Qed.
Lemma branch_f64 op offset op' fs : try_into_cmp_branch_instr_f64 op offset = Some op' ->
  br_offset (cmp_branch_f64_handler op') = offset /\
  branch_taken (cmp_branch_f64_handler op') fs =
    (fun v => negb (v =? 0)) <$> binary_value (binary_f64_handler op) fs.
Proof. by_operator op. Qed.

(** ** The operators together *)

Ltac by_type H :=
  apply fmap_Some in H as (? & H & ->);
  eauto using negate_i32, negate_i64, negate_f32, negate_f64,
    logicalize_i32, logicalize_i64, logicalize_f32, logicalize_f64,
    branch_i32, branch_i64, branch_f32, branch_f64.

(** C32: The negation of a comparison is a comparison that reads the same operands and
    yields 1 if the original yields 0 and 0 otherwise; this holds of the float
    comparisons with NaNs as well, and of the bitwise operators that are used as
    conditions. *)
Theorem negate_cmp_instr_spec op op' fs : negate_cmp_instr op = Some op' ->
  is_cmp (binary_handler op') /\
  binary_value (binary_handler op') fs = when_zero <$> binary_value (binary_handler op) fs.
Proof. destruct op; intros E; by_type E. Qed.

(** A logicalized operator is a comparison that yields 1 if the original does not
    yield 0 and 0 otherwise. *)
Theorem logicalize_cmp_instr_spec op op' fs : logicalize_cmp_instr op = Some op' ->
  is_cmp (binary_handler op') /\
  binary_value (binary_handler op') fs = when_nonzero <$> binary_value (binary_handler op) fs.
Proof. destruct op; intros E; by_type E. Qed.

(** C33: A fused branch jumps by the given offset exactly if the operator it replaces
    does not yield 0. *)
Theorem try_into_cmp_branch_instr_spec op offset op' fs : try_into_cmp_branch_instr op offset = Some op' ->
  br_offset (cmp_branch_handler op') = offset /\
  branch_taken (cmp_branch_handler op') fs = (fun v => negb (v =? 0)) <$> binary_value (binary_handler op) fs.
Proof. destruct op; intros E; by_type E. Qed.

End Spec.

(** The three tables apply to the same operators; the negation of an operator
    can be negated again, which logicalizes it. *)
Theorem cmp_instr_tables_agree op offset :
  (is_Some (logicalize_cmp_instr op) <-> is_Some (negate_cmp_instr op)) /\
  (is_Some (try_into_cmp_branch_instr op offset) <-> is_Some (negate_cmp_instr op)) /\
  (negate_cmp_instr op ≫= negate_cmp_instr) = logicalize_cmp_instr op.
Proof.
  assert (forall {A B} (a : A) (b : B), is_Some (Some a) <-> is_Some (Some b)) as Hsome by (intros; split; eauto).
  assert (forall {A B}, is_Some (@None A) <-> is_Some (@None B)) as Hnone by (intros; split; intros [? [=]]).
  destruct op as [op|op|op|op]; destruct op; repeat split; (apply Hsome || apply Hnone || reflexivity).
Qed.

(** A branch operator that is encoded with an unset offset gets the offset of its
    label and keeps everything else; no branch operator is forgotten.  Setting the
    offset twice panics. *)
Theorem update_branch_offset_spec op new_offset :
  let h := cmp_branch_handler op in
  if BranchOffset_is_init (br_offset h) then update_branch_offset op new_offset = Panic
  else exists op', update_branch_offset op new_offset = Ok op' /\
    cmp_branch_handler op' = cmp_branch (br_ty h) (br_eval h) new_offset (br_lhs h) (br_rhs h).
Proof.
  cbv zeta. destruct op as [op|op|op|op]; destruct op; cbn; unfold updated;
    destruct (BranchOffset_is_init offset); eauto.
Qed.

(** ** Witnesses *)

Definition demo_fs : Frame_state :=
  {| fr_cells := []; fr_regs := {| ireg := 7; freg32 := 0x7FC00000; freg64 := 0 |} |}.

Lemma negate_cmp_instr_spec_witness :
  @binary_value default_target (@binary_handler (demo_nans false) (Binary_i32 (I32Le_Rir 5))) demo_fs = Ok 1 /\
  @binary_value default_target (@binary_handler (demo_nans false) (Binary_f32 (F32Lt_Rri 0))) demo_fs = Ok 0.
Proof.
  assert (negate_cmp_instr (Binary_i32 (I32Lt_Rri 5)) = Some (Binary_i32 (I32Le_Rir 5))) as H1 by (vm_compute; reflexivity).
  assert (negate_cmp_instr (Binary_f32 (F32NotLt_Rri 0)) = Some (Binary_f32 (F32Lt_Rri 0))) as H2 by (vm_compute; reflexivity).
  split.
  - exact (proj2 (@negate_cmp_instr_spec default_target (demo_nans false) _ _ demo_fs H1)).
  - exact (proj2 (@negate_cmp_instr_spec default_target (demo_nans false) _ _ demo_fs H2)).
Defined.

Lemma logicalize_cmp_instr_spec_witness :
  @binary_value default_target (@binary_handler (demo_nans false) (Binary_i32 (I32And_Rri 8))) demo_fs = Ok 0.
Proof.
  assert (logicalize_cmp_instr (Binary_i32 (I32BitAnd_Rri 8)) = Some (Binary_i32 (I32And_Rri 8))) as H1 by (vm_compute; reflexivity).
  exact (proj2 (@logicalize_cmp_instr_spec default_target (demo_nans false) _ _ demo_fs H1)).
Defined.

Lemma try_into_cmp_branch_instr_spec_witness :
  @branch_taken default_target (cmp_branch_handler (CmpBranch_i32 (BranchI32NotEq_Ri {| branch_offset := 12 |} 8))) demo_fs = Ok true.
Proof.
  assert (try_into_cmp_branch_instr (Binary_i32 (I32BitXor_Rri 8)) {| branch_offset := 12 |} =
    Some (CmpBranch_i32 (BranchI32NotEq_Ri {| branch_offset := 12 |} 8))) as H1 by (vm_compute; reflexivity).
  exact (proj2 (@try_into_cmp_branch_instr_spec default_target (demo_nans false) _ _ _ demo_fs H1)).
Defined.
