(* ===== verification/InitExpr.v ===== *)
(** * Constant expressions

    [crates/wasmi/src/module/init_expr.rs]: the initializers of globals and the
    offsets of segments, built from the operators of a Wasm constant expression
    with a stack of closures and evaluated later in a context. *)

From Stdlib Require Import ZArith Lia.
From stdpp Require Import base option numbers list.
From S2P Require Import Prelude Value WasmInt Cells.
Local Open Scope Z_scope.

(** ** Values *)

Inductive ConstVal : Type :=
| CV_I32 (value : Z) | CV_I64 (value : Z) | CV_F32 (value : Z) | CV_F64 (value : Z)
| CV_V128 (value : V128)
| CV_Null (ty : RefType).

Definition unwrap_as_i32 (self : ConstVal) : option Z := match self with CV_I32 value => Some value | _ => None end.
Definition unwrap_as_i64 (self : ConstVal) : option Z := match self with CV_I64 value => Some value | _ => None end.

Definition ConstVal_into_Val (value : ConstVal) : Val :=
  match value with
  | CV_I32 value => Val_I32 value
  | CV_I64 value => Val_I64 value
  | CV_F32 value => Val_F32 value
  | CV_F64 value => Val_F64 value
  | CV_V128 value => Val_V128 value
  | CV_Null RefType_Func => Val_FuncRef None
  | CV_Null RefType_Extern => Val_ExternRef None
  end.

Definition as_const_or_none (self : Val) : option ConstVal :=
  match self with
  | Val_I32 value => Some (CV_I32 value)
  | Val_I64 value => Some (CV_I64 value)
  | Val_F32 value => Some (CV_F32 value)
  | Val_F64 value => Some (CV_F64 value)
  | Val_V128 value => Some (CV_V128 value)
  | Val_FuncRef None => Some (CV_Null RefType_Func)
  | Val_ExternRef None => Some (CV_Null RefType_Extern)
  | _ => None
  end.

(** [Val::as_raw_or_none] of [value.rs]. *)
Definition as_raw_or_none (self : Val) : option RawVal :=
  match self with
  | Val_I32 value => Some (RawVal_from P_i32 value)
  | Val_I64 value => Some (RawVal_from P_i64 value)
  | Val_F32 value => Some (RawVal_from P_f32 value)
  | Val_F64 value => Some (RawVal_from P_f64 value)
  | Val_V128 value => Some (RawVal_from_V128 value)
  | Val_FuncRef None | Val_ExternRef None => Some (RawVal_from_RawRef RawRef_null)
  | _ => None
  end.

(** ** Evaluation *)

(** The trait [EvalContext]. *)
Record EvalContext : Type := {
  ec_get_global : Z -> option Val;
  ec_get_func : Z -> option NullableRef
}.
Definition EmptyEvalContext : EvalContext :=
  {| ec_get_global := fun _ => None; ec_get_func := fun _ => None |}.

(** [Op]; an expression operator is a closure. *)
Inductive InitOp : Type :=
| Init_Const (value : ConstVal)
| Init_GlobalGet (index : Z)
| Init_FuncRef (index : Z)
| Init_Expr (expr : EvalContext -> option Val).

Definition InitOp_eval (self : InitOp) (ctx : EvalContext) : option Val :=
  match self with
  | Init_Const value => Some (ConstVal_into_Val value)
  | Init_GlobalGet index => ec_get_global ctx index
  | Init_FuncRef index => Val_FuncRef <$> ec_get_func ctx index
  | Init_Expr expr => expr ctx
  end.

(** ** Construction *)

Record ConstExprStack : Type := { ces_top : option InitOp; ces_ops : list InitOp }.
Definition ConstExprStack_default : ConstExprStack := {| ces_top := None; ces_ops := [] |}.

Definition ConstExprStack_is_empty (self : ConstExprStack) : bool :=
  match ces_ops self with [] => true | _ => false end.
(** The end of the list is the top of the rest. *)
Definition ConstExprStack_push (op : InitOp) (self : ConstExprStack) : ConstExprStack :=
  {| ces_top := Some op;
     ces_ops := match ces_top self with Some old_top => ces_ops self ++ [old_top] | None => ces_ops self end |}.
Definition ConstExprStack_pop (self : ConstExprStack) : option InitOp * ConstExprStack :=
  (ces_top self, {| ces_top := last (ces_ops self); ces_ops := removelast (ces_ops self) |}).
Definition ConstExprStack_pop2 (self : ConstExprStack) : option (InitOp * InitOp * ConstExprStack) :=
  let '(rhs, self) := ConstExprStack_pop self in
  rhs ← rhs;
  let '(lhs, self) := ConstExprStack_pop self in
  lhs ← lhs;
  Some (lhs, rhs, self).

(** [def_expr!] *)
Definition def_expr (unwrap_as : ConstVal -> option Z) (from : Z -> ConstVal) (expr : Z -> Z -> Z)
    (lhs rhs : InitOp) : InitOp :=
  Init_Expr (fun ctx =>
    lhs ← InitOp_eval lhs ctx; lhs ← as_const_or_none lhs; lhs ← unwrap_as lhs;
    rhs ← InitOp_eval rhs ctx; rhs ← as_const_or_none rhs; rhs ← unwrap_as rhs;
    Some (ConstVal_into_Val (from (expr lhs rhs)))).

Definition expr_op {E} (unwrap_as : ConstVal -> option Z) (from : Z -> ConstVal) (expr : Z -> Z -> Z)
    (stack : ConstExprStack) : res E (InitOp * ConstExprStack) :=
  '(lhs, rhs, stack) ← expect (ConstExprStack_pop2 stack);
  Ok (def_expr unwrap_as from expr lhs rhs, stack).

(** The operators of [wasmparser] that constant expressions consist of. *)
Inductive WasmConstOp : Type :=
| WC_I32Const (value : Z) | WC_I64Const (value : Z) | WC_F32Const (bits : Z) | WC_F64Const (bits : Z)
| WC_V128Const (value : Z)
| WC_GlobalGet (index : Z) | WC_RefNull (ty : RefType) | WC_RefFunc (index : Z)
| WC_I32Add | WC_I32Sub | WC_I32Mul | WC_I64Add | WC_I64Sub | WC_I64Mul
| WC_End
| WC_Other.

Definition const_op {E} (wasm_op : WasmConstOp) (stack : ConstExprStack) : res E (InitOp * ConstExprStack) :=
  match wasm_op with
  | WC_I32Const value => Ok (Init_Const (CV_I32 value), stack)
  | WC_I64Const value => Ok (Init_Const (CV_I64 value), stack)
  | WC_F32Const bits => Ok (Init_Const (CV_F32 bits), stack)
  | WC_F64Const bits => Ok (Init_Const (CV_F64 bits), stack)
  | WC_V128Const value => Ok (Init_Const (CV_V128 (V128_from_u128 (wrapu 128 value))), stack)
  | WC_GlobalGet index => Ok (Init_GlobalGet index, stack)
  | WC_RefNull ty => Ok (Init_Const (CV_Null ty), stack)
  | WC_RefFunc index => Ok (Init_FuncRef index, stack)
  | WC_I32Add => expr_op unwrap_as_i32 CV_I32 i32_add stack
  | WC_I32Sub => expr_op unwrap_as_i32 CV_I32 i32_sub stack
  | WC_I32Mul => expr_op unwrap_as_i32 CV_I32 i32_mul stack
  | WC_I64Add => expr_op unwrap_as_i64 CV_I64 i64_add stack
  | WC_I64Sub => expr_op unwrap_as_i64 CV_I64 i64_sub stack
  | WC_I64Mul => expr_op unwrap_as_i64 CV_I64 i64_mul stack
  | WC_End | WC_Other => Panic
  end.

(** The loop; [ensure_end] demands that nothing follows the [end]. *)
Fixpoint const_loop {E} (wasm_ops : list WasmConstOp) (stack : ConstExprStack) : res E ConstExprStack :=
  match wasm_ops with
  | [] => Panic
  | WC_End :: rest => assert_that (match rest with [] => true | _ => false end);; Ok stack
  | wasm_op :: rest => '(op, stack) ← const_op wasm_op stack; const_loop rest (ConstExprStack_push op stack)
  end.

Definition ConstExpr_new {E} (wasm_ops : list WasmConstOp) : res E InitOp :=
  stack ← const_loop wasm_ops ConstExprStack_default;
  let '(op, stack) := ConstExprStack_pop stack in
  op ← expect op;
  assert_that (ConstExprStack_is_empty stack);;
  Ok op.

Definition ConstExpr_new_funcref (function_index : Z) : InitOp := Init_FuncRef function_index.
Definition ConstExpr_funcref (self : InitOp) : option Z :=
  match self with Init_FuncRef index => Some index | _ => None end.

(** ** Specification

    A constant expression is evaluated with a stack of values.  A value is
    [None] if it is not known in the context; the arithmetic operators yield
    [None] unless both operands are known integers of their type. *)
Section Spec.
Context (ctx : EvalContext).

Definition arith (unwrap_as : ConstVal -> option Z) (from : Z -> ConstVal) (expr : Z -> Z -> Z)
    (lhs rhs : option Val) : option Val :=
  let value v := v ← v; v ← as_const_or_none v; unwrap_as v in
  match value lhs, value rhs with
  | Some lhs, Some rhs => Some (ConstVal_into_Val (from (expr lhs rhs)))
  | _, _ => None
  end.

(** The head of the list is the top; [None] if operands are missing or the
    operator is not one of a constant expression. *)
Definition spec_step (wasm_op : WasmConstOp) (stack : list (option Val)) : option (list (option Val)) :=
  let binary unwrap_as from expr :=
    match stack with
    | rhs :: lhs :: stack => Some (arith unwrap_as from expr lhs rhs :: stack)
    | _ => None
    end in
  match wasm_op with
  | WC_I32Const value => Some (Some (Val_I32 value) :: stack)
  | WC_I64Const value => Some (Some (Val_I64 value) :: stack)
  | WC_F32Const bits => Some (Some (Val_F32 bits) :: stack)
  | WC_F64Const bits => Some (Some (Val_F64 bits) :: stack)
  | WC_V128Const value => Some (Some (Val_V128 (V128_from_u128 (wrapu 128 value))) :: stack)
  | WC_GlobalGet index => Some (ec_get_global ctx index :: stack)
  | WC_RefNull RefType_Func => Some (Some (Val_FuncRef None) :: stack)
  | WC_RefNull RefType_Extern => Some (Some (Val_ExternRef None) :: stack)
  | WC_RefFunc index => Some ((Val_FuncRef <$> ec_get_func ctx index) :: stack)
  | WC_I32Add => binary unwrap_as_i32 CV_I32 i32_add
  | WC_I32Sub => binary unwrap_as_i32 CV_I32 i32_sub
  | WC_I32Mul => binary unwrap_as_i32 CV_I32 i32_mul
  | WC_I64Add => binary unwrap_as_i64 CV_I64 i64_add
  | WC_I64Sub => binary unwrap_as_i64 CV_I64 i64_sub
  | WC_I64Mul => binary unwrap_as_i64 CV_I64 i64_mul
  | WC_End | WC_Other => None
  end.

Fixpoint spec_eval (wasm_ops : list WasmConstOp) (stack : list (option Val)) : option (list (option Val)) :=
  match wasm_ops with
  | [] => Some stack
  | wasm_op :: rest => stack ← spec_step wasm_op stack; spec_eval rest stack
  end.

(** The values of the operators on the stack, top first. *)
Definition stack_ops (stack : ConstExprStack) : list InitOp :=
  match ces_top stack with Some top => top :: reverse (ces_ops stack) | None => [] end.
Definition stack_values (stack : ConstExprStack) : list (option Val) :=
  (fun op => InitOp_eval op ctx) <$> stack_ops stack.
Definition stack_wf (stack : ConstExprStack) : Prop := ces_top stack = None -> ces_ops stack = [].

Lemma push_ops op stack : stack_wf stack ->
  stack_wf (ConstExprStack_push op stack) /\ stack_ops (ConstExprStack_push op stack) = op :: stack_ops stack.
Proof.
  intros Hwf. split; [done|]. unfold stack_ops, ConstExprStack_push. cbn [ces_top ces_ops].
  destruct (ces_top stack) eqn:E; [by rewrite reverse_snoc|by rewrite Hwf].
Qed.

Lemma pop_ops stack : stack_wf stack ->
  stack_wf (ConstExprStack_pop stack).2 /\
  stack_ops stack = match (ConstExprStack_pop stack).1 with
                    | Some op => op :: stack_ops (ConstExprStack_pop stack).2
                    | None => []
                    end.
Proof.
  intros Hwf. unfold stack_ops, ConstExprStack_pop, stack_wf in *.
  destruct stack as [top ops]; cbn [ces_top ces_ops fst snd] in *. destruct ops as [|op ops _] using rev_ind.
  - cbn. by destruct top.
  - rewrite last_snoc, removelast_last, reverse_snoc.
    by destruct top.
Qed.

Lemma pop2_ops stack : stack_wf stack ->
  match ConstExprStack_pop2 stack with
  | Some (lhs, rhs, rest) => stack_wf rest /\ stack_ops stack = rhs :: lhs :: stack_ops rest
  | None => (length (stack_ops stack) < 2)%nat
  end.
Proof.
  intros Hwf. unfold ConstExprStack_pop2.
  destruct (pop_ops stack Hwf) as [Hwf1 E1]. destruct (ConstExprStack_pop stack) as [[rhs|] s1];
    cbn [mbind option_bind fst snd] in *.
  2: { rewrite E1. cbn. lia. }
  destruct (pop_ops s1 Hwf1) as [Hwf2 E2]. destruct (ConstExprStack_pop s1) as [[lhs|] s2];
    cbn [mbind option_bind fst snd] in *.
  - split; [done|]. by rewrite E1, E2.
  - rewrite E1, E2. cbn. lia.
Qed.

Lemma def_expr_eval unwrap_as from expr lhs rhs :
  InitOp_eval (def_expr unwrap_as from expr lhs rhs) ctx =
    arith unwrap_as from expr (InitOp_eval lhs ctx) (InitOp_eval rhs ctx).
Proof.
  unfold def_expr, arith. cbn.
  destruct (InitOp_eval lhs ctx) as [l|]; cbn; [|done].
  destruct (as_const_or_none l) as [l'|]; cbn; [|done].
  destruct (unwrap_as l') as [z|]; cbn; [|done].
  destruct (InitOp_eval rhs ctx) as [r|]; cbn; [|done].
  destruct (as_const_or_none r) as [r'|]; cbn; [|done].
  by destruct (unwrap_as r').
Qed.

(** One operator: the same effect on the values, or a panic. *)
Lemma const_op_spec {E} wasm_op stack : stack_wf stack -> wasm_op <> WC_End ->
  match spec_step wasm_op (stack_values stack) with
  | Some values => exists op rest, const_op (E := E) wasm_op stack = Ok (op, rest) /\ stack_wf rest /\
                     values = InitOp_eval op ctx :: stack_values rest
  | None => const_op (E := E) wasm_op stack = Panic
  end.
Proof.
  intros Hwf Hend. pose proof (pop2_ops stack Hwf) as Hpop.
  assert (forall unwrap_as from expr,
    match (match stack_values stack with
           | rhs :: lhs :: stack => Some (arith unwrap_as from expr lhs rhs :: stack)
           | _ => None
           end) with
    | Some values => exists op rest, expr_op (E := E) unwrap_as from expr stack = Ok (op, rest) /\ stack_wf rest /\
                       values = InitOp_eval op ctx :: stack_values rest
    | None => expr_op (E := E) unwrap_as from expr stack = Panic
    end) as Hexpr.
  { intros unwrap_as from expr. unfold expr_op, stack_values.
    destruct (ConstExprStack_pop2 stack) as [[[lhs rhs] rest]|].
    - destruct Hpop as [Hrest ->]. cbn [fmap list_fmap].
      eexists _, _. split; [reflexivity|]. split; [done|]. by rewrite def_expr_eval.
    - by destruct (stack_ops stack) as [|? [|? ?]]; cbn in *; [..|lia]. }
  destruct wasm_op as [| | | | | |[]| | | | | | | | |]; try done; try apply Hexpr;
    by (eexists _, _; split; [reflexivity|]).
Qed.

Lemma const_loop_spec {E} wasm_ops : forall stack, stack_wf stack -> Forall (fun op => op <> WC_End) wasm_ops ->
  match spec_eval wasm_ops (stack_values stack) with
  | Some values => exists rest, const_loop (E := E) (wasm_ops ++ [WC_End]) stack = Ok rest /\ stack_wf rest /\
                     values = stack_values rest
  | None => const_loop (E := E) (wasm_ops ++ [WC_End]) stack = Panic
  end.
Proof.
  induction wasm_ops as [|op ops IH]; intros stack Hwf Hend; cbn [spec_eval app].
  { by exists stack. }
  apply Forall_cons in Hend as [Hop Hend].
  pose proof (const_op_spec (E := E) op stack Hwf Hop) as Hstep.
  assert (const_loop (E := E) (op :: ops ++ [WC_End]) stack =
    ('(op, stack) ← const_op op stack; const_loop (ops ++ [WC_End]) (ConstExprStack_push op stack))) as ->
    by (by destruct op).
  destruct (spec_step op (stack_values stack)) as [values|]; cbn.
  - destruct Hstep as (o & rest & -> & Hrest & ->).
    destruct (push_ops o rest Hrest) as [Hwf' Hops].
    specialize (IH (ConstExprStack_push o rest) Hwf' Hend).
    unfold stack_values in IH at 1. by rewrite Hops in IH.
  - by rewrite Hstep.
Qed.

(** C35: Building a constant expression and evaluating it in a context yields what
    evaluating the operators directly does: the value on top of the stack.  The
    construction panics exactly if an operator is not allowed or lacks operands,
    or if the expression leaves no value or more than two. *)
Theorem ConstExpr_new_spec {E} wasm_ops : Forall (fun op => op <> WC_End) wasm_ops ->
  match spec_eval wasm_ops [] with
  | Some [value] | Some [value; _] =>
      exists expr, ConstExpr_new (E := E) (wasm_ops ++ [WC_End]) = Ok expr /\ InitOp_eval expr ctx = value
  | _ => ConstExpr_new (E := E) (wasm_ops ++ [WC_End]) = Panic
  end.
Proof.
  intros Hend. assert (stack_wf ConstExprStack_default) as Hwf by done.
  pose proof (const_loop_spec (E := E) wasm_ops _ Hwf Hend) as Hloop. unfold ConstExpr_new.
  change (stack_values ConstExprStack_default) with (@nil (option Val)) in Hloop.
  destruct (spec_eval wasm_ops []) as [values|]; [|by rewrite Hloop].
  destruct Hloop as (rest & -> & Hrest & ->). cbn.
  destruct rest as [[top|] ops]; unfold stack_values, stack_ops, stack_wf in *; cbn in *; [|done].
  destruct ops as [|x [|y l]]; cbn; [by exists top..|].
  change (rev_append l [y; x]) with (reverse (x :: y :: l)).
  destruct (reverse (x :: y :: l)) as [|a [|b m]] eqn:E2; cbn; try done.
  - by apply (f_equal length) in E2; rewrite length_reverse in E2.
  - by apply (f_equal length) in E2; rewrite length_reverse in E2.
Qed.

End Spec.

(** ** Examples *)

Definition demo_ctx : EvalContext :=
  {| ec_get_global := fun index => if index =? 3 then Some (Val_I32 40) else None; ec_get_func := fun _ => None |}.
Definition demo_expr : list WasmConstOp := [WC_GlobalGet 3; WC_I32Const 1; WC_I32Const 3; WC_I32Sub; WC_I32Sub].

Lemma ConstExpr_new_spec_witness :
  Forall (fun op => op <> WC_End) demo_expr /\
  spec_eval demo_ctx demo_expr [] = Some [Some (Val_I32 42)] /\
  exists expr, ConstExpr_new (E := unit) (demo_expr ++ [WC_End]) = Ok expr /\
    InitOp_eval expr demo_ctx = Some (Val_I32 42).
Proof.
  assert (Forall (fun op => op <> WC_End) demo_expr) as H by (repeat constructor; done).
  assert (spec_eval demo_ctx demo_expr [] = Some [Some (Val_I32 42)]) as E by (vm_compute; reflexivity).
  pose proof (ConstExpr_new_spec demo_ctx (E := unit) demo_expr H) as Hnew. rewrite E in Hnew. done.
Defined.

(** Two values on the stack go unnoticed: [is_empty] does not look at the top. *)
Lemma ConstExprStack_is_empty_ignores_top :
  ConstExprStack_is_empty (ConstExprStack_push (Init_Const (CV_I32 1)) ConstExprStack_default) = true.
Proof. reflexivity. Qed.
