(* ===== verification/Header.v ===== *)
(** * Function types

    [crates/core/src/func_type.rs] and [engine/block_type.rs]: parameter and
    result types, stored inline if there are few of them.  Function types are
    compared structurally, so the two representations must never meet: the
    representation is a function of the types, and the types can be read back. *)

From Stdlib Require Import ZArith Lia.
From stdpp Require Import base option decidable numbers list.
From S2P Require Import Prelude Value MemoryType Table Slot Cells Store InitExpr.
Local Open Scope Z_scope.

Inductive FuncTypeError : Type := TooManyFunctionParams | TooManyFunctionResults.

Inductive FuncTypeInner : Type :=
| FT_Inline (len_params len_results : Z) (params_results : list ValType)
| FT_Big (len_params : Z) (params_results : list ValType).

#[export] Instance FuncTypeInner_eq_dec : EqDecision FuncTypeInner.
Proof. solve_decision. Defined.

Definition MAX_LEN_PARAMS : Z := 1000.
Definition MAX_LEN_RESULTS : Z := 1000.

Section FuncType.
Context `{T : Target}.

(** The target has 32-bit or 64-bit pointers. *)
Definition INLINE_SIZE : Z := if usize_bits =? 32 then 14 else 21.

(** The types are written over an array of [I32]. *)
Definition try_new_small (params results : list ValType) : option FuncTypeInner :=
  len_params ← try_from_u 8 (Z.of_nat (length params));
  len_results ← try_from_u 8 (Z.of_nat (length results));
  len_inout ← checked_add 8 len_params len_results;
  if INLINE_SIZE <? len_inout then None
  else
    let rest := replicate (Z.to_nat (INLINE_SIZE - len_inout)) ValType_I32 in
    Some (FT_Inline len_params len_results (params ++ results ++ rest)).

Definition FuncTypeInner_new (params results : list ValType) : res FuncTypeError FuncTypeInner :=
  let len_params := Z.of_nat (length params) in
  let len_results := Z.of_nat (length results) in
  if MAX_LEN_PARAMS <? len_params then Err TooManyFunctionParams else
  if MAX_LEN_RESULTS <? len_results then Err TooManyFunctionResults else
  match try_new_small params results with
  | Some small => Ok small
  | None =>
      len_params ← expect (try_from_u 16 len_params);
      Ok (FT_Big len_params (params ++ results))
  end.
End FuncType.

(** A slice out of bounds panics. *)
Definition FuncTypeInner_params {E} (self : FuncTypeInner) : res E (list ValType) :=
  match self with
  | FT_Inline len_params _ params_results | FT_Big len_params params_results =>
      expect (get_to len_params params_results)
  end.

Definition FuncTypeInner_results {E} (self : FuncTypeInner) : res E (list ValType) :=
  match self with
  | FT_Inline len_params len_results params_results => expect (get_span len_params len_results params_results)
  | FT_Big len_params params_results => expect (get_from len_params params_results)
  end.

Definition FuncTypeInner_len_params (self : FuncTypeInner) : Z :=
  match self with FT_Inline len_params _ _ | FT_Big len_params _ => len_params end.

Definition FuncTypeInner_len_results {E} (self : FuncTypeInner) : res E Z :=
  match self with
  | FT_Inline _ len_results _ => Ok len_results
  | FT_Big len_params params_results =>
      len_buffer ← expect (try_from_u 16 (Z.of_nat (length params_results)));
      expect (checked_sub len_buffer len_params)
  end.

Definition FuncTypeInner_params_results {E} (self : FuncTypeInner) : res E (list ValType * list ValType) :=
  match self with
  | FT_Inline len_params len_results params_results =>
      l ← expect (get_to (len_params + len_results) params_results);
      params ← expect (get_to len_params l); results ← expect (get_from len_params l);
      Ok (params, results)
  | FT_Big len_params params_results =>
      params ← expect (get_to len_params params_results);
      results ← expect (get_from len_params params_results);
      Ok (params, results)
  end.

(** [FuncType] wraps the inner type. *)
Record FuncType : Type := { ft_inner : FuncTypeInner }.

#[export] Instance FuncType_eq_dec : EqDecision FuncType.
Proof. solve_decision. Defined.

Definition FuncType_new `{Target} (params results : list ValType) : res FuncTypeError FuncType :=
  inner ← FuncTypeInner_new params results; Ok {| ft_inner := inner |}.
Definition FuncType_params {E} (self : FuncType) : res E (list ValType) := FuncTypeInner_params (ft_inner self).
Definition FuncType_results {E} (self : FuncType) : res E (list ValType) := FuncTypeInner_results (ft_inner self).
Definition FuncType_len_params (self : FuncType) : Z := FuncTypeInner_len_params (ft_inner self).
Definition FuncType_len_results {E} (self : FuncType) : res E Z := FuncTypeInner_len_results (ft_inner self).

(** [wasmi::FuncType], the type of the API, wraps [CoreFuncType]: the type above.
    Its constructor panics on an error. *)
Definition ApiFuncType_new {E} `{Target} (params results : list ValType) : res E FuncType :=
  match FuncType_new params results with Ok core => Ok core | _ => Panic end.

Inductive FuncError : Type :=
| ExportedFuncNotFound
| MismatchingParameterType | MismatchingParameterLen
| MismatchingResultType | MismatchingResultLen.

(** [params] are the types of the dynamically typed parameters. *)
Definition match_params (self : FuncType) (params : list ValType) : res FuncError unit :=
  tys ← FuncType_params self;
  if negb (length tys =? length params)%nat then Err MismatchingParameterLen
  else if negb (bool_decide (tys = params)) then Err MismatchingParameterType
  else Ok tt.

Definition match_results (self : FuncType) (results : list ValType) : res FuncError unit :=
  tys ← FuncType_results self;
  if negb (length tys =? length results)%nat then Err MismatchingResultLen
  else if negb (bool_decide (tys = results)) then Err MismatchingResultType
  else Ok tt.

Definition Val_default_for_ty (ty : ValType) : Val :=
  match ty with
  | ValType_I32 => Val_I32 0
  | ValType_I64 => Val_I64 0
  | ValType_F32 => Val_F32 0
  | ValType_F64 => Val_F64 0
  | ValType_V128 => Val_V128 (V128_from_u128 0)
  | ValType_FuncRef => Val_FuncRef None
  | ValType_ExternRef => Val_ExternRef None
  end.

Definition prepare_outputs (self : FuncType) : M (list Val) FuncError unit :=
  outputs ← get_st;
  tys ← lift (FuncType_results self);
  if negb (length tys =? length outputs)%nat then fail MismatchingResultLen
  else put_st (zip_with (fun _ result_ty => Val_default_for_ty result_ty) outputs tys).

(** ** Block types *)

Inductive BlockTypeInner : Type :=
| BlockType_Empty
| BlockType_Returns (ty : ValType)
| BlockType_FuncType (ty : Z).

Section BlockType.
Context `{T : Target}.
(** [Engine::resolve_func_type]: a deduplicated type is a key of the engine. *)
Context (resolve_func_type : Z -> FuncType).

Definition BlockType_len_params (self : BlockTypeInner) : Z :=
  match self with
  | BlockType_Empty | BlockType_Returns _ => 0
  | BlockType_FuncType func_type => FuncType_len_params (resolve_func_type func_type)
  end.

Definition BlockType_len_results {E} (self : BlockTypeInner) : res E Z :=
  match self with
  | BlockType_Empty => Ok 0
  | BlockType_Returns _ => Ok 1
  | BlockType_FuncType func_type => FuncType_len_results (resolve_func_type func_type)
  end.

(** [func_type_with]: the type the closure is applied to. *)
Definition BlockType_func_type {E} (self : BlockTypeInner) : res E FuncType :=
  match self with
  | BlockType_Empty => ApiFuncType_new [] []
  | BlockType_Returns ty => ApiFuncType_new [] [ty]
  | BlockType_FuncType func_type => Ok (resolve_func_type func_type)
  end.
End BlockType.

(** ** Properties *)

Section Spec.
Context `{T : Target}.

Lemma INLINE_SIZE_bounds : 0 < INLINE_SIZE < 2 ^ 8.
Proof. unfold INLINE_SIZE. zcases. Qed.

Lemma try_new_small_Some params results ft : try_new_small params results = Some ft <->
  Z.of_nat (length params) + Z.of_nat (length results) <= INLINE_SIZE /\
  ft = FT_Inline (Z.of_nat (length params)) (Z.of_nat (length results))
         (params ++ results ++
          replicate (Z.to_nat (INLINE_SIZE - (Z.of_nat (length params) + Z.of_nat (length results)))) ValType_I32).
Proof.
  pose proof INLINE_SIZE_bounds. unfold try_new_small, try_from_u, checked_add, mbind, option_bind.
  split; [|intros [? ->]]; repeat case_if; zb; intros; simplify_eq; try lia; try done.
Qed.

Lemma try_new_small_None params results : try_new_small params results = None <->
  INLINE_SIZE < Z.of_nat (length params) + Z.of_nat (length results).
Proof.
  destruct (try_new_small params results) as [ft|] eqn:E.
  - apply try_new_small_Some in E as [? _]. split; [done|lia].
  - split; [intros _|done]. apply Z.nle_gt. intros Hle.
    assert (is_Some (try_new_small params results)) as [? ?]; [|congruence].
    eexists. by apply try_new_small_Some.
Qed.

Lemma try_from_u_small w (n : nat) : Z.of_nat n < 2 ^ w -> try_from_u w (Z.of_nat n) = Some (Z.of_nat n).
Proof. intros. by apply try_from_u_Some. Qed.

(** The representation of a type within the limits. *)
Definition FuncType_of (params results : list ValType) : FuncType :=
  {| ft_inner := match try_new_small params results with
                 | Some small => small
                 | None => FT_Big (Z.of_nat (length params)) (params ++ results)
                 end |}.

Lemma FuncType_new_eq params results :
  FuncType_new params results =
    if MAX_LEN_PARAMS <? Z.of_nat (length params) then Err TooManyFunctionParams
    else if MAX_LEN_RESULTS <? Z.of_nat (length results) then Err TooManyFunctionResults
    else Ok (FuncType_of params results).
Proof.
  unfold FuncType_new, FuncTypeInner_new, FuncType_of, MAX_LEN_PARAMS.
  repeat case_if; zb; cbn; try done. destruct (try_new_small params results); [done|].
  by rewrite try_from_u_small by (cbn; lia).
Qed.

Lemma FuncType_of_reads {E} params results :
  Z.of_nat (length params) <= MAX_LEN_PARAMS -> Z.of_nat (length results) <= MAX_LEN_RESULTS ->
  let ft := FuncType_of params results in
  FuncType_params (E := E) ft = Ok params /\ FuncType_results (E := E) ft = Ok results /\
  FuncType_len_params ft = Z.of_nat (length params) /\
  FuncType_len_results (E := E) ft = Ok (Z.of_nat (length results)) /\
  FuncTypeInner_params_results (E := E) (ft_inner ft) = Ok (params, results).
Proof.
  unfold MAX_LEN_PARAMS, MAX_LEN_RESULTS. intros Hp Hr. unfold FuncType_of. cbn zeta.
  assert (forall (a b : list ValType), get_to (Z.of_nat (length a)) (a ++ b) = Some a) as Hto.
  { intros. unfold get_to. rewrite length_app. case_if; zb; [|lia]. by rewrite Nat2Z.id, take_app_length. }
  assert (forall (a b : list ValType), get_from (Z.of_nat (length a)) (a ++ b) = Some b) as Hfrom.
  { intros. unfold get_from. rewrite length_app. case_if; zb; [|lia]. by rewrite Nat2Z.id, drop_app_length. }
  destruct (try_new_small params results) as [small|] eqn:E1.
  - apply try_new_small_Some in E1 as [Hle ->].
    unfold FuncType_params, FuncType_results, FuncType_len_params, FuncType_len_results.
    cbn [ft_inner FuncTypeInner_params FuncTypeInner_results FuncTypeInner_len_params
         FuncTypeInner_len_results FuncTypeInner_params_results].
    split_and!; try done.
    + by rewrite Hto.
    + unfold get_span. rewrite Hfrom. cbn. by rewrite Hto.
    + rewrite <-Nat2Z.inj_add, <-length_app, app_assoc, Hto. cbn. by rewrite Hto, Hfrom.
  - unfold FuncType_params, FuncType_results, FuncType_len_params, FuncType_len_results.
    cbn [ft_inner FuncTypeInner_params FuncTypeInner_results FuncTypeInner_len_params
         FuncTypeInner_len_results FuncTypeInner_params_results].
    rewrite Hto, Hfrom. split_and!; try done.
    rewrite length_app, try_from_u_small by (cbn; lia). cbn.
    unfold checked_sub. case_if; zb; [|lia]. cbn. f_equal. lia.
Qed.

(** A function type is created unless it has more than 1000 parameters or
    results; then all its accessors give back what it was created from.  Two
    function types are structurally equal exactly if they have the same
    parameters and results, whichever way they are stored: deduplication by
    structural equality identifies exactly the equal types. *)
Theorem FuncType_new_spec params results :
  match FuncType_new params results with
  | Ok ft =>
      Z.of_nat (length params) <= 1000 /\ Z.of_nat (length results) <= 1000 /\
      FuncType_params (E := FuncError) ft = Ok params /\ FuncType_results (E := FuncError) ft = Ok results /\
      FuncType_len_params ft = Z.of_nat (length params) /\
      FuncType_len_results (E := FuncError) ft = Ok (Z.of_nat (length results)) /\
      forall params' results' ft', FuncType_new params' results' = Ok ft' ->
        (ft = ft' <-> params = params' /\ results = results')
  | Err TooManyFunctionParams => 1000 < Z.of_nat (length params)
  | Err TooManyFunctionResults => Z.of_nat (length params) <= 1000 < Z.of_nat (length results)
  | Panic => False
  end.
Proof.
  rewrite FuncType_new_eq. unfold MAX_LEN_PARAMS, MAX_LEN_RESULTS.
  repeat case_if; zb; try lia.
  destruct (FuncType_of_reads (E := FuncError) params results) as (Hp & Hr & Hlp & Hlr & _);
    [unfold MAX_LEN_PARAMS, MAX_LEN_RESULTS; lia..|].
  split_and!; try done. intros params' results' ft' Hft'. rewrite FuncType_new_eq in Hft'.
  unfold MAX_LEN_PARAMS, MAX_LEN_RESULTS in Hft'. repeat case_if; zb; simplify_eq.
  destruct (FuncType_of_reads (E := FuncError) params' results') as (Hp' & Hr' & _);
    [unfold MAX_LEN_PARAMS, MAX_LEN_RESULTS; lia..|].
  split; [intros E; rewrite E in Hp, Hr; rewrite Hp' in Hp; rewrite Hr' in Hr; by simplify_eq|].
  by intros [-> ->].
Qed.

(** [match_params] accepts exactly the types of the parameters; a different
    number is reported first. *)
Lemma match_params_spec params results ft tys : FuncType_new params results = Ok ft ->
  match_params ft tys =
    if decide (tys = params) then Ok tt
    else if decide (length tys = length params) then Err MismatchingParameterType
    else Err MismatchingParameterLen.
Proof.
  intros Hft. pose proof (FuncType_new_spec params results) as Hs. rewrite Hft in Hs.
  destruct Hs as (_ & _ & Hp & _). unfold match_params. rewrite Hp. cbn.
  repeat case_decide; subst; repeat case_if; zb; try done; rewrite ?Nat.eqb_eq, ?Nat.eqb_neq in *;
    repeat case_bool_decide; naive_solver.
Qed.

(** Prepared outputs have the types of the results. *)
Lemma prepare_outputs_spec params results ft outputs : FuncType_new params results = Ok ft ->
  match prepare_outputs ft outputs with
  | (Ok _, outputs') => length outputs = length results /\ Val_ty <$> outputs' = results
  | (Err e, outputs') => e = MismatchingResultLen /\ length outputs <> length results /\ outputs' = outputs
  | (Panic, _) => False
  end.
Proof.
  intros Hft. pose proof (FuncType_new_spec params results) as Hs. rewrite Hft in Hs.
  destruct Hs as (_ & _ & _ & Hr & _). unfold prepare_outputs.
  rewrite bind_get_st, Hr, bind_lift. case_if; rewrite ?negb_true_iff, ?negb_false_iff, ?Nat.eqb_eq, ?Nat.eqb_neq in *.
  - split_and!; [done|congruence|done].
  - split; [done|]. clear Hft Hr. revert outputs Heqb. induction results as [|ty results IH]; intros [|o outputs]; try done.
    cbn. intros [= Hl]. by rewrite IH by done; destruct ty.
Qed.
End Spec.

(** ** The module header

    What translation reads of a module: [ModuleHeader] of [module/mod.rs], the
    span of its functions in the engine ([engine/code_map/span.rs]) and the type
    of a Wasm block ([engine/block_type.rs]). *)

(** ** Spans of engine functions *)

(** An [EngineFunc] is a [u32]. *)
Record EngineFuncSpan : Type := { efs_start : Z; efs_end : Z }.

Definition EngineFuncSpan_new {E} (start end_ : Z) : res E EngineFuncSpan :=
  assert_that (start <=? end_);; Ok {| efs_start := start; efs_end := end_ |}.
Definition EngineFuncSpan_empty : EngineFuncSpan := {| efs_start := 0; efs_end := 0 |}.
Definition EngineFuncSpan_is_empty {E} (self : EngineFuncSpan) : res E bool :=
  assert_that (efs_start self <=? efs_end self);; Ok (efs_start self =? efs_end self).
Definition EngineFuncSpan_len {E} (self : EngineFuncSpan) : res E Z :=
  assert_that (efs_start self <=? efs_end self);; Ok (efs_end self - efs_start self).
Definition EngineFuncSpan_get {E} (self : EngineFuncSpan) (n : Z) : res E (option Z) :=
  assert_that (efs_start self <=? efs_end self);;
  len ← EngineFuncSpan_len self;
  Ok (if len <=? n then None else Some (efs_start self + n)).
Definition EngineFuncSpan_position {E} (self : EngineFuncSpan) (func : Z) : res E (option Z) :=
  assert_that (efs_start self <=? efs_end self);;
  Ok (if (func <? efs_start self) || (efs_end self <=? func) then None else Some (func - efs_start self)).
Definition EngineFuncSpan_get_or_panic {E} (self : EngineFuncSpan) (n : Z) : res E Z :=
  assert_that (efs_start self <=? efs_end self);;
  func ← EngineFuncSpan_get self n; expect func.

(** [EngineFuncSpanIter]. *)
Definition EngineFuncSpanIter_next {E} (self : EngineFuncSpan) : res E (option Z * EngineFuncSpan) :=
  empty ← EngineFuncSpan_is_empty self;
  Ok (if empty : bool then (None, self)
      else (Some (efs_start self), {| efs_start := efs_start self + 1; efs_end := efs_end self |})).
Definition EngineFuncSpanIter_next_back {E} (self : EngineFuncSpan) : res E (option Z * EngineFuncSpan) :=
  empty ← EngineFuncSpan_is_empty self;
  Ok (if empty : bool then (None, self)
      else (Some (efs_end self - 1), {| efs_start := efs_start self; efs_end := efs_end self - 1 |})).

(** ** Headers *)

(** Deduplicated function types are keys of the engine. *)
Record ModuleHeader : Type := {
  mh_func_types : list Z;
  mh_len_imported_funcs : Z;
  mh_len_imported_globals : Z;
  mh_funcs : list Z;
  mh_tables : list TableType;
  mh_memories : list MemoryType;
  mh_globals : list GlobalType;
  mh_globals_init : list InitOp;
  mh_engine_funcs : EngineFuncSpan
}.

(** Indexing out of bounds panics. *)
Definition index_or_panic {E A} (l : list A) (i : Z) : res E A := expect (l !! Z.to_nat i).

Definition get_func_type {E} (self : ModuleHeader) (func_type_idx : Z) : res E Z :=
  index_or_panic (mh_func_types self) func_type_idx.
Definition get_type_of_func {E} (self : ModuleHeader) (func_idx : Z) : res E Z :=
  index_or_panic (mh_funcs self) func_idx.
Definition get_type_of_global {E} (self : ModuleHeader) (global_idx : Z) : res E GlobalType :=
  index_or_panic (mh_globals self) global_idx.
Definition get_type_of_memory {E} (self : ModuleHeader) (memory_idx : Z) : res E MemoryType :=
  index_or_panic (mh_memories self) memory_idx.
Definition get_type_of_table {E} (self : ModuleHeader) (table_idx : Z) : res E TableType :=
  index_or_panic (mh_tables self) table_idx.

Definition get_engine_func {E} (self : ModuleHeader) (func_idx : Z) : res E (option Z) :=
  match checked_sub func_idx (mh_len_imported_funcs self) with
  | None => Ok None
  | Some index => Some <$> EngineFuncSpan_get_or_panic (mh_engine_funcs self) index
  end.

Definition get_global {E} (self : ModuleHeader) (global_idx : Z) : res E (GlobalType * option InitOp) :=
  let len_imports := mh_len_imported_globals self in
  global_type ← get_type_of_global self global_idx;
  if global_idx <? len_imports then Ok (global_type, None)
  else
    init_expr ← index_or_panic (mh_globals_init self) (global_idx - len_imports);
    Ok (global_type, Some init_expr).

(** ** Block types *)

(** [wasmparser::BlockType]. *)
Inductive WasmBlockType : Type := WasmBlock_Empty | WasmBlock_Type (ty : ValType) | WasmBlock_FuncType (index : Z).

Definition BlockType_new {E} (block_type : WasmBlockType) (header : ModuleHeader) : res E BlockTypeInner :=
  match block_type with
  | WasmBlock_Empty => Ok BlockType_Empty
  | WasmBlock_Type return_type => Ok (BlockType_Returns return_type)
  | WasmBlock_FuncType func_type_idx =>
      dedup_func_type ← get_func_type header func_type_idx; Ok (BlockType_FuncType dedup_func_type)
  end.

(** ** Properties of spans *)

Section Spans.
Context {E : Type}.

(** [position] inverts [get]. *)
Theorem EngineFuncSpan_position_get (self : EngineFuncSpan) n func : 0 <= n ->
  EngineFuncSpan_get (E := E) self n = Ok (Some func) -> EngineFuncSpan_position (E := E) self func = Ok (Some n).
Proof.
  intros Hn. unfold EngineFuncSpan_get, EngineFuncSpan_position, EngineFuncSpan_len, assert_that. cbn.
  destruct (Z.leb_spec (efs_start self) (efs_end self)); cbn; [|done].
  case_if; zb; intros; simplify_eq.
  rewrite (proj2 (Z.ltb_ge _ _)), (proj2 (Z.leb_gt _ _)) by lia. cbn. do 2 f_equal. lia.
Qed.
End Spans.
