(* ===== verification/CodeMap.v ===== *)
(** * The code map

    [engine/code_map/mod.rs] and [engine/code_map/utils.rs]: the append-only
    storage of the functions of an engine, what a function goes through until it
    is compiled, and [LazyFuncTranslator] of [engine/translator/mod.rs], which
    stores a function to be compiled on its first call.

    A bucket is an allocation: a raw pointer to it is an index of the heap
    [cm_heap], so that a reference to an entry is a bucket and a position in it.
    Dereferencing anything else is undefined behaviour, [Panic] in the model.
    The program is the one with the Cargo feature [validate]. *)

From Stdlib Require Import ZArith Lia.
From stdpp Require Import base option decidable numbers relations list.
From S2P Require Import Prelude Trap WasmInt Fuel Header.
Local Open Scope Z_scope.

(** ** Byte slices that are stored inline when short *)

Inductive SmallByteSlice : Type :=
| SmallByteSlice_Small (len : Z) (bytes : list Z)
| SmallByteSlice_Big (bytes : list Z).

Definition MAX_INLINE_SIZE : Z := 22.

Definition SmallByteSlice_default : SmallByteSlice :=
  SmallByteSlice_Small 0 (replicate (Z.to_nat MAX_INLINE_SIZE) 0).

Definition as_slice {E} (self : SmallByteSlice) : res E (list Z) :=
  match self with
  | SmallByteSlice_Small len bytes => expect (get_to len bytes)
  | SmallByteSlice_Big bytes => Ok bytes
  end.

Definition SmallByteSlice_from (bytes : list Z) : SmallByteSlice :=
  let n := Z.of_nat (length bytes) in
  if n <=? MAX_INLINE_SIZE then
    SmallByteSlice_Small (wrapu 8 n) (set_span 0 bytes (replicate (Z.to_nat MAX_INLINE_SIZE) 0))
  else SmallByteSlice_Big bytes.

(** ** Compiled functions *)

Record CompiledFuncEntry : Type := {
  cfe_ops : list Z;
  cfe_len_local_slots : Z;
  cfe_len_stack_slots : Z
}.

Definition CompiledFuncEntry_new {E} (len_local_slots len_stack_slots : Z) (ops : list Z) :
    res E CompiledFuncEntry :=
  assert_that (len_local_slots <=? len_stack_slots);;
  assert_that (negb (Z.of_nat (length ops) =? 0));;
  assert_that (Z.of_nat (length ops) <=? 2 ^ 31 - 1);;
  Ok {| cfe_ops := ops; cfe_len_local_slots := len_local_slots; cfe_len_stack_slots := len_stack_slots |}.

(** ** What compilation depends on

    [wasmparser] reads and validates the bytes of a function and drives the
    translator with the operators it finds: [translate] is [FuncTranslator] under
    [FuncTranslationDriver] (modelled in [Visit] once the operators are known),
    [translate_validating] the same with a [ValidatingFuncTranslator] around it.
    Neither is given the fuel of the store, so that no error of theirs says that
    fuel ran out. *)
Class Compiler : Type := {
  ValidatorResources : Type;
  WasmFeatures : Type;
  CompileFailure : Type;
  failure_trap_code : CompileFailure -> option TrapCode;
  translate : Z -> ModuleHeader -> list Z -> res CompileFailure CompiledFuncEntry;
  translate_validating : Z -> ModuleHeader -> list Z -> ValidatorResources -> Z -> WasmFeatures ->
    res CompileFailure CompiledFuncEntry;
  failure_not_fuel : forall e, failure_trap_code e <> Some TrapCode_OutOfFuel
}.

Section CodeMap.
Context `{C : Compiler}.

Inductive CompileError : Type :=
| ErrorKind_ResumableOutOfFuel (required_fuel : Z)
| ErrorKind_LazyCompilationFailed
| ErrorKind_Failure (e : CompileFailure).

(** [ErrorKind::as_trap_code] on the errors that occur here. *)
Definition as_trap_code (self : CompileError) : option TrapCode :=
  match self with
  | ErrorKind_ResumableOutOfFuel _ => Some TrapCode_OutOfFuel
  | ErrorKind_LazyCompilationFailed => None
  | ErrorKind_Failure e => failure_trap_code e
  end.

(** ** Uncompiled functions *)

Record FuncToValidate : Type := {
  ftv_resources : ValidatorResources;
  ftv_index : Z;
  ftv_ty : Z;
  ftv_features : WasmFeatures
}.

Record UncompiledFuncEntry : Type := {
  ufe_func_index : Z;
  ufe_bytes : SmallByteSlice;
  ufe_module : ModuleHeader;
  ufe_validation : option (Z * ValidatorResources)
}.

Definition UncompiledFuncEntry_new {E} (func_index : Z) (bytes : list Z) (module : ModuleHeader)
    (func_to_validate : option FuncToValidate) : res E UncompiledFuncEntry :=
  validation ←
    match func_to_validate with
    | Some func_to_validate =>
        assert_that (ftv_index func_to_validate =? func_index);;
        Ok (Some (ftv_ty func_to_validate, ftv_resources func_to_validate))
    | None => Ok None
    end;
  Ok {| ufe_func_index := func_index; ufe_bytes := SmallByteSlice_from bytes;
        ufe_module := module; ufe_validation := validation |}.

Definition COMPILE_FUEL_PER_BYTE : Z := 7.
Definition VALIDATE_FUEL_PER_BYTE : Z := 2.
Definition VALIDATE_AND_COMPILE_FUEL_PER_BYTE : Z := VALIDATE_FUEL_PER_BYTE + COMPILE_FUEL_PER_BYTE.

Definition needs_validation (self : UncompiledFuncEntry) : bool :=
  match ufe_validation self with Some _ => true | None => false end.

(** The fuel for a body of these bytes. *)
Definition compilation_fuel (needs_validation : bool) (wasm_bytes : list Z) : Z :=
  let len_bytes := Z.of_nat (length wasm_bytes) in
  let fuel_per_byte := if needs_validation then VALIDATE_AND_COMPILE_FUEL_PER_BYTE
                       else COMPILE_FUEL_PER_BYTE in
  saturating_mul 64 len_bytes fuel_per_byte.

(** [self.validation.take()]: what stays behind. *)
Definition without_validation (self : UncompiledFuncEntry) : UncompiledFuncEntry :=
  {| ufe_func_index := ufe_func_index self; ufe_bytes := ufe_bytes self;
     ufe_module := ufe_module self; ufe_validation := None |}.

(** Charging the store for the compilation. *)
Definition charge_compilation (cost : Z) : M (option Fuel) CompileError unit := fun fuel =>
  match fuel with
  | None => (Ok tt, None)
  | Some fuel =>
      match consume_fuel (fun _ => cost) fuel with
      | (Err (FuelError_OutOfFuel required_fuel), fuel) =>
          (Err (ErrorKind_ResumableOutOfFuel required_fuel), Some fuel)
      | (Ok _, fuel) | (Err FuelMeteringDisabled, fuel) => (Ok tt, Some fuel)
      | (Panic, fuel) => (Panic, Some fuel)
      end
  end.

(** [engine] is whether the engine of the module still exists. *)
Definition UncompiledFuncEntry_compile (engine : bool) (features : WasmFeatures)
    (fuel : option Fuel) (self : UncompiledFuncEntry) :
    res CompileError CompiledFuncEntry * option Fuel * UncompiledFuncEntry :=
  match as_slice (E := CompileError) (ufe_bytes self) with
  | Ok wasm_bytes =>
      match charge_compilation (compilation_fuel (needs_validation self) wasm_bytes) fuel with
      | (Ok _, fuel) =>
          if negb engine then (Panic, fuel, self)
          else
            let result :=
              match ufe_validation self with
              | Some (type_index, resources) =>
                  translate_validating (ufe_func_index self) (ufe_module self) wasm_bytes
                    resources type_index features
              | None => translate (ufe_func_index self) (ufe_module self) wasm_bytes
              end in
            (map_err ErrorKind_Failure result, fuel, without_validation self)
      | (Err e, fuel) => (Err e, fuel, self)
      | (Panic, fuel) => (Panic, fuel, self)
      end
  | _ => (Panic, fuel, self)
  end.

(** ** Entries *)

(** The union [FuncEntryData]: reading a field that was not written last is
    undefined behaviour. *)
Inductive FuncEntryData : Type :=
| Data_undefined
| Data_uncompiled (uncompiled : UncompiledFuncEntry)
| Data_compiled (compiled : CompiledFuncEntry).

Definition UNINIT : Z := 0.
Definition UNCOMPILED : Z := 1.
Definition COMPILING : Z := 2.
Definition FAILED_TO_COMPILE : Z := 3.
Definition COMPILED : Z := 4.

Record FuncEntry : Type := { fe_data : FuncEntryData; fe_state : Z }.

Definition set_data (data : FuncEntryData) (e : FuncEntry) : FuncEntry :=
  {| fe_data := data; fe_state := fe_state e |}.
Definition set_state (state : Z) (e : FuncEntry) : FuncEntry :=
  {| fe_data := fe_data e; fe_state := state |}.

Definition FuncEntry_uninit : FuncEntry := {| fe_data := Data_undefined; fe_state := UNINIT |}.
Definition is_initialized (self : FuncEntry) : bool := negb (fe_state self =? UNINIT).

Definition set_compiled {E} (compiled : CompiledFuncEntry) : M FuncEntry E unit := fun self =>
  (Ok tt, set_state COMPILED (set_data (Data_compiled compiled) self)).
Definition set_uncompiled {E} (uncompiled : UncompiledFuncEntry) : M FuncEntry E unit := fun self =>
  (Ok tt, set_state UNCOMPILED (set_data (Data_uncompiled uncompiled) self)).

Definition init_compiled {E} (compiled : CompiledFuncEntry) : M FuncEntry E unit :=
  self ← get_st; assert_m (negb (is_initialized self));; set_compiled compiled.
Definition init_uncompiled {E} (uncompiled : UncompiledFuncEntry) : M FuncEntry E unit :=
  self ← get_st; assert_m (negb (is_initialized self));; set_uncompiled uncompiled.

Definition take_uncompiled {E} : M FuncEntry E UncompiledFuncEntry :=
  self ← get_st;
  match fe_data self with
  | Data_uncompiled uncompiled => put_st (set_data Data_undefined self);; mret uncompiled
  | _ => panic
  end.

Definition assume_compiled {E} (self : FuncEntry) : res E CompiledFuncEntry :=
  match fe_data self with Data_compiled compiled => Ok compiled | _ => Panic end.

(** Dropping an entry frees the payload its state names. *)
Definition FuncEntry_drop {E} (self : FuncEntry) : res E FuncEntryData :=
  if bool_decide (fe_state self ∈ [UNINIT; COMPILING; FAILED_TO_COMPILE]) then Ok Data_undefined
  else if fe_state self =? UNCOMPILED then
    match fe_data self with Data_uncompiled _ => Ok (fe_data self) | _ => Panic end
  else if fe_state self =? COMPILED then
    match fe_data self with Data_compiled _ => Ok (fe_data self) | _ => Panic end
  else Panic.

(** ** Buckets *)

Definition LEN_BUCKET0_LOG2 : Z := 5.
Definition MAX_FUNCS : Z := 100000000.
Definition LEN_BUCKET0 : Z := Z.shiftl 1 LEN_BUCKET0_LOG2.

Definition locate {E} (func : Z) : res E (Z * Z) :=
  let index := func in
  let j := index + LEN_BUCKET0 in
  msb ← expect (checked_sub 63 (leading_zeros 64 j));
  bucket ← expect (checked_sub msb LEN_BUCKET0_LOG2);
  slot ← expect (checked_sub j (Z.shiftl 1 msb));
  Ok (bucket, slot).

Definition required_buckets_for_len {E} (len : Z) : res E Z :=
  if len =? 0 then Ok 0
  else
    let j := (len - 1) + LEN_BUCKET0 in
    msb ← expect (checked_sub 63 (leading_zeros 64 j));
    n ← expect (checked_sub msb LEN_BUCKET0_LOG2);
    Ok (n + 1).

Definition MAX_BUCKETS : nat :=
  match required_buckets_for_len (E := unit) MAX_FUNCS with Ok n => Z.to_nat n | _ => 0%nat end.

Context {T : Target}.

(** [1usize << (LEN_BUCKET0_LOG2 + n)] overflows when the shift exceeds the width. *)
Definition size_of_bucket_at {E} (n : Z) : res E Z :=
  assert_that (LEN_BUCKET0_LOG2 + n <? usize_bits);; Ok (Z.shiftl 1 (LEN_BUCKET0_LOG2 + n)).

(** [RawFuncsBucket]: the address of an allocation; [FuncsBucket]: its content. *)
Notation RawFuncsBucket := nat (only parsing).
Notation FuncsBucket := (list FuncEntry) (only parsing).

Record Funcs : Type := { buckets : list (option RawFuncsBucket); len_funcs : Z }.

Definition Funcs_default : Funcs := {| buckets := replicate MAX_BUCKETS None; len_funcs := 0 |}.

Definition FuncsBucket_new (size : Z) : FuncsBucket := replicate (Z.to_nat size) FuncEntry_uninit.

Record CodeMap : Type := {
  cm_funcs : Funcs;
  cm_features : WasmFeatures;
  cm_heap : list FuncsBucket
}.

Definition CodeMap_new (features : WasmFeatures) : CodeMap :=
  {| cm_funcs := Funcs_default; cm_features := features; cm_heap := [] |}.

Definition set_funcs (f : Funcs) (heap : list FuncsBucket) (m : CodeMap) : CodeMap :=
  {| cm_funcs := f; cm_features := cm_features m; cm_heap := heap |}.

(** One turn of the loop of [Funcs::alloc_funcs]: a bucket is allocated and its
    address is written. *)
Definition publish_bucket {E} (n : Z) : M CodeMap E unit :=
  m ← get_st;
  size ← lift (size_of_bucket_at n);
  assert_m (n <? Z.of_nat (length (buckets (cm_funcs m))));;
  put_st (set_funcs
    {| buckets := <[Z.to_nat n := Some (length (cm_heap m))]> (buckets (cm_funcs m));
       len_funcs := len_funcs (cm_funcs m) |}
    (cm_heap m ++ [FuncsBucket_new size]) m).

Fixpoint publish_buckets {E} (ns : list Z) : M CodeMap E unit :=
  match ns with [] => mret tt | n :: ns => publish_bucket n;; publish_buckets ns end.

Definition Funcs_alloc_funcs {E} (n : Z) : M CodeMap E EngineFuncSpan :=
  m ← get_st;
  let start := len_funcs (cm_funcs m) in
  end_ ← lift (expect (checked_add usize_bits start n));
  assert_m (end_ <=? MAX_FUNCS);;
  current_buckets ← lift (required_buckets_for_len start);
  needed ← lift (required_buckets_for_len end_);
  publish_buckets (seqZ current_buckets (needed - current_buckets));;
  m ← get_st;
  put_st (set_funcs {| buckets := buckets (cm_funcs m); len_funcs := end_ |} (cm_heap m) m);;
  lift (EngineFuncSpan_new (wrapu 32 start) (wrapu 32 end_)).

Definition CodeMap_alloc_funcs {E} (amount : Z) : M CodeMap E EngineFuncSpan :=
  Funcs_alloc_funcs amount.

(** A reference [&FuncEntry]: an address and a position. *)
Definition FuncRef : Type := RawFuncsBucket * nat.

Definition get_within {E} (self : Funcs) (func len_funcs : Z) : res E (option FuncRef) :=
  if len_funcs <=? func then Ok None
  else
    '(bucket, slot) ← locate func;
    raw ← expect (buckets self !! Z.to_nat bucket);
    raw ← expect raw;
    size ← size_of_bucket_at bucket;
    Ok (if slot <? size then Some (raw, Z.to_nat slot) else None).

Definition Funcs_get {E} (self : Funcs) (func : Z) : res E (option FuncRef) :=
  get_within self func (len_funcs self).

(** Reading and writing through a reference. *)
Definition deref {E} (r : FuncRef) (m : CodeMap) : res E FuncEntry :=
  expect (b ← cm_heap m !! r.1; b !! r.2).
Definition heap_set (r : FuncRef) (e : FuncEntry) (m : CodeMap) : CodeMap :=
  set_funcs (cm_funcs m) (alter <[r.2 := e]> r.1 (cm_heap m)) m.

(** Running a method of [&FuncEntry], which mutates it in place. *)
Definition at_ref {E A} (r : FuncRef) (f : M FuncEntry E A) : M CodeMap E A := fun m =>
  match deref (E := E) r m with
  | Ok e => let '(a, e) := f e in (a, heap_set r e m)
  | _ => (Panic, m)
  end.

Definition init_func_as_compiled {E} (func : Z) (entity : CompiledFuncEntry) : M CodeMap E unit :=
  m ← get_st;
  entry ← lift (Funcs_get (cm_funcs m) func);
  match entry with
  | Some r => at_ref r (init_compiled entity)
  | None => panic
  end.

Definition init_func_as_uncompiled {E} (func func_idx : Z) (bytes : list Z) (module : ModuleHeader)
    (func_to_validate : option FuncToValidate) : M CodeMap E unit :=
  m ← get_st;
  entry ← lift (Funcs_get (cm_funcs m) func);
  match entry with
  | Some r =>
      uncompiled ← lift (UncompiledFuncEntry_new func_idx bytes module func_to_validate);
      at_ref r (init_uncompiled uncompiled)
  | None => panic
  end.

(** ** Views

    A view keeps a reference to the code map, which the model passes along. *)
Record CodeView : Type := { cv_len_funcs : Z }.

Definition CodeMap_view (m : CodeMap) : CodeView := {| cv_len_funcs := len_funcs (cm_funcs m) |}.
Definition CodeView_refresh (m : CodeMap) (self : CodeView) : CodeView :=
  {| cv_len_funcs := len_funcs (cm_funcs m) |}.
Definition CodeView_entry {E} (m : CodeMap) (self : CodeView) (func : Z) : res E (option FuncRef) :=
  get_within (cm_funcs m) func (cv_len_funcs self).
Definition CodeView_features (m : CodeMap) (self : CodeView) : WasmFeatures := cm_features m.

(** The occupied buckets with their lengths ([Buckets::next]). *)
Definition Buckets_next {E} (m : CodeMap) (len_buckets n : Z) : res E (option (RawFuncsBucket * Z) * Z) :=
  if len_buckets <=? n then Ok (None, n)
  else
    match buckets (cm_funcs m) !! Z.to_nat n with
    | Some (Some raw) => len_bucket ← size_of_bucket_at n; Ok (Some (raw, len_bucket), n + 1)
    | _ => Ok (None, n)
    end.

(** ** Lazy translation *)

Inductive Validation : Type :=
| Validation_Checked (func_to_validate : FuncToValidate)
| Validation_Unchecked (features : WasmFeatures).

Definition Validation_is_checked (self : Validation) : bool :=
  match self with Validation_Checked _ => true | _ => false end.
Definition Validation_features (self : Validation) : WasmFeatures :=
  match self with
  | Validation_Checked func_to_validate => ftv_features func_to_validate
  | Validation_Unchecked wasm_features => wasm_features
  end.
Definition take_func_to_validate (self : Validation) : option FuncToValidate * Validation :=
  let features := Validation_features self in
  (match self with Validation_Checked func_to_validate => Some func_to_validate | _ => None end,
   Validation_Unchecked features).

Record LazyFuncTranslator : Type := {
  lft_func_idx : Z;
  lft_engine_func : Z;
  lft_module : ModuleHeader;
  lft_validation : Validation
}.

Definition LazyFuncTranslator_new (func_idx engine_func : Z) (module : ModuleHeader)
    (func_to_validate : FuncToValidate) : LazyFuncTranslator :=
  {| lft_func_idx := func_idx; lft_engine_func := engine_func; lft_module := module;
     lft_validation := Validation_Checked func_to_validate |}.
Definition LazyFuncTranslator_new_unchecked (func_idx engine_func : Z) (module : ModuleHeader)
    (features : WasmFeatures) : LazyFuncTranslator :=
  {| lft_func_idx := func_idx; lft_engine_func := engine_func; lft_module := module;
     lft_validation := Validation_Unchecked features |}.

(** [LazyFuncTranslator::setup] stores the function; visiting its operators does
    nothing. *)
Definition LazyFuncTranslator_setup {E} (engine : bool) (bytes : list Z) (self : LazyFuncTranslator) :
    M CodeMap E (bool * LazyFuncTranslator) :=
  if negb engine then panic
  else
    let '(func_to_validate, validation) := take_func_to_validate (lft_validation self) in
    init_func_as_uncompiled (lft_engine_func self) (lft_func_idx self) bytes (lft_module self)
      func_to_validate;;
    mret (true, {| lft_func_idx := lft_func_idx self; lft_engine_func := lft_engine_func self;
                   lft_module := lft_module self; lft_validation := validation |}).
End CodeMap.

(** ** A compiler and a header for examples *)

(** A compiler that keeps the bytes as they are and fails on an empty body. *)
Definition copy_compiler : Compiler := {|
  ValidatorResources := unit; WasmFeatures := unit; CompileFailure := unit;
  failure_trap_code := fun _ => None;
  translate := fun _ _ bytes => match bytes with [] => Err tt | _ => CompiledFuncEntry_new 0 1 bytes end;
  translate_validating := fun _ _ bytes _ _ _ =>
    match bytes with [] => Err tt | _ => CompiledFuncEntry_new 0 1 bytes end;
  failure_not_fuel := fun _ => None_ne_Some _
|}.

Definition empty_header : ModuleHeader := {|
  mh_func_types := []; mh_len_imported_funcs := 0; mh_len_imported_globals := 0; mh_funcs := [];
  mh_tables := []; mh_memories := []; mh_globals := []; mh_globals_init := [];
  mh_engine_funcs := EngineFuncSpan_empty |}.

(** ** The code map is a vector that never moves

    The buckets of [CodeMap] represent a list of entries.  Allocation appends to
    it, whatever was allocated before keeps its address, and a snapshot of the
    length taken earlier resolves the same entries later. *)

(** ** Positions *)

(** The bucket and the slot of the [i]-th function. *)
Definition loc_bucket (i : nat) : nat := Z.to_nat (Z.log2 (Z.of_nat i + 32) - 5).
Definition loc_slot (i : nat) : nat := Z.to_nat (Z.of_nat i + 32 - 2 ^ Z.log2 (Z.of_nat i + 32)).
(** The size of a bucket. *)
Definition bucket_size (n : nat) : nat := Z.to_nat (2 ^ (5 + Z.of_nat n)).
(** The number of functions of the first [n] buckets. *)
Definition capacity (n : nat) : nat := Z.to_nat (2 ^ (5 + Z.of_nat n) - 32).

Section Positions.
Context {E : Type}.

Lemma leading_zeros_log2 j : 0 < j < 2 ^ 64 -> checked_sub 63 (leading_zeros 64 j) = Some (Z.log2 j).
Proof.
  intros Hj. unfold leading_zeros, wrapu. rewrite Z.mod_small by lia.
  case_if; zb; [lia|]. pose proof (Z.log2_nonneg j).
  assert (Z.log2 j < 64) by (apply Z.log2_lt_pow2; lia).
  unfold checked_sub. case_if; zb; [f_equal; lia|lia].
Qed.

Lemma log2_bounds (i : nat) :
  5 <= Z.log2 (Z.of_nat i + 32) /\
  2 ^ Z.log2 (Z.of_nat i + 32) <= Z.of_nat i + 32 < 2 * 2 ^ Z.log2 (Z.of_nat i + 32).
Proof.
  split; [apply (Z.log2_le_mono 32); lia|].
  pose proof (Z.log2_spec (Z.of_nat i + 32) ltac:(lia)) as H.
  by rewrite Z.pow_succ_r in H by apply Z.log2_nonneg.
Qed.

(** The sum of the sizes of the buckets before, and the position in the bucket. *)
Lemma loc_spec (i : nat) :
  i = (capacity (loc_bucket i) + loc_slot i)%nat /\ (loc_slot i < bucket_size (loc_bucket i))%nat.
Proof.
  destruct (log2_bounds i) as [H5 Hl]. unfold loc_bucket, loc_slot, bucket_size, capacity.
  rewrite !Z2Nat.id by lia.
  replace (5 + (Z.log2 (Z.of_nat i + 32) - 5)) with (Z.log2 (Z.of_nat i + 32)) by lia.
  set (l := Z.log2 (Z.of_nat i + 32)) in *.
  assert (2 ^ 5 <= 2 ^ l) by (apply Z.pow_le_mono_r; lia).
  split; [|apply Z2Nat.inj_lt; lia].
  rewrite <- Z2Nat.inj_add by lia. apply Nat2Z.inj. rewrite Z2Nat.id; lia.
Qed.

Lemma capacity_S n : capacity (S n) = (capacity n + bucket_size n)%nat.
Proof.
  unfold capacity, bucket_size. assert (2 ^ 5 <= 2 ^ (5 + Z.of_nat n)) by (apply Z.pow_le_mono_r; lia).
  rewrite <- Z2Nat.inj_add by lia. f_equal.
  replace (5 + Z.of_nat (S n)) with (Z.succ (5 + Z.of_nat n)) by lia.
  rewrite Z.pow_succ_r; lia.
Qed.
Lemma capacity_mono n m : (n <= m)%nat -> (capacity n <= capacity m)%nat.
Proof. induction 1 as [|m _ IH]; [done|]. rewrite capacity_S. lia. Qed.

(** A function is in a bucket below [n] exactly when it is among the first
    [capacity n]. *)
Lemma loc_bucket_lt i n : (loc_bucket i < n)%nat <-> (i < capacity n)%nat.
Proof.
  destruct (loc_spec i) as [Hi Hs]. split; intros H.
  - apply (Nat.lt_le_trans _ (capacity (S (loc_bucket i)))); [rewrite capacity_S; lia|].
    apply capacity_mono. lia.
  - destruct (decide (loc_bucket i < n)%nat) as [|Hn]; [done|exfalso].
    pose proof (capacity_mono n (loc_bucket i) ltac:(lia)). lia.
Qed.

Lemma loc_inj i j : loc_bucket i = loc_bucket j -> loc_slot i = loc_slot j -> i = j.
Proof. intros Hb Hs. destruct (loc_spec i), (loc_spec j). congruence. Qed.

(** Every slot of every bucket is the position of a function. *)
Lemma loc_surj b s : (s < bucket_size b)%nat ->
  loc_bucket (capacity b + s) = b /\ loc_slot (capacity b + s) = s.
Proof.
  intros Hs. set (i := (capacity b + s)%nat).
  assert (loc_bucket i = b) as Hb.
  { assert (loc_bucket i < S b)%nat by (apply loc_bucket_lt; rewrite capacity_S; lia).
    assert (~ (loc_bucket i < b)%nat) by (rewrite loc_bucket_lt; lia). lia. }
  split; [done|]. destruct (loc_spec i) as [Hi _]. rewrite Hb in Hi. lia.
Qed.

Lemma locate_eq (i : nat) : Z.of_nat i < 2 ^ 32 ->
  locate (E := E) (Z.of_nat i) = Ok (Z.of_nat (loc_bucket i), Z.of_nat (loc_slot i)).
Proof.
  intros Hi. destruct (log2_bounds i) as [H5 Hl]. unfold locate. change LEN_BUCKET0 with 32.
  change LEN_BUCKET0_LOG2 with 5. rewrite leading_zeros_log2 by lia.
  cbn [expect mbind res_bind]. rewrite Z.shiftl_1_l. unfold checked_sub.
  rewrite !(proj2 (Z.leb_le _ _)) by lia. cbn [expect mbind res_bind].
  unfold loc_bucket, loc_slot. rewrite !Z2Nat.id by lia. done.
Qed.

(** The number of buckets for [n] functions is the first that holds them. *)
Definition required (n : nat) : nat := match n with O => O | S i => S (loc_bucket i) end.

Lemma required_eq (n : nat) : Z.of_nat n <= MAX_FUNCS ->
  required_buckets_for_len (E := E) (Z.of_nat n) = Ok (Z.of_nat (required n)).
Proof.
  intros Hn. unfold required_buckets_for_len, MAX_FUNCS in *. destruct n as [|i]; [done|].
  case_if; zb; [lia|]. change LEN_BUCKET0 with 32. change LEN_BUCKET0_LOG2 with 5.
  replace (Z.of_nat (S i) - 1 + 32) with (Z.of_nat i + 32) by lia.
  destruct (log2_bounds i) as [H5 Hl]. rewrite leading_zeros_log2 by lia. cbn [expect mbind res_bind].
  unfold checked_sub. case_if; zb; [|lia]. cbn. unfold loc_bucket. f_equal. lia.
Qed.

Lemma required_spec n : (n <= capacity (required n))%nat /\
  forall k, (n <= capacity k)%nat -> (required n <= k)%nat.
Proof.
  destruct n as [|i]; cbn; [split; [lia|intros; lia]|]. split.
  - destruct (loc_spec i) as [Hi Hs]. rewrite capacity_S. lia.
  - intros k Hk. apply loc_bucket_lt. lia.
Qed.

Lemma required_mono n m : (n <= m)%nat -> (required n <= required m)%nat.
Proof. intros H. apply required_spec. etrans; [exact H|apply required_spec]. Qed.

Lemma MAX_BUCKETS_eq : MAX_BUCKETS = 22%nat.
Proof. by vm_compute. Qed.
Lemma required_max n : Z.of_nat n <= MAX_FUNCS -> (required n <= 22)%nat.
Proof.
  intros Hn. apply required_spec. unfold MAX_FUNCS in Hn.
  apply Nat2Z.inj_le. unfold capacity. rewrite Z2Nat.id; cbn -[Z.of_nat]; lia.
Qed.
End Positions.

(** ** What a code map represents *)

Section Repr.
Context `{C : Compiler} {T : Target} {E : Type}.
Implicit Types (m : CodeMap) (ptrs : list nat) (fs : list FuncEntry) (i : nat) (r : FuncRef).

(** [ptrs] are the addresses of the published buckets. *)
Record published m ptrs : Prop := {
  pub_buckets : buckets (cm_funcs m) = (Some <$> ptrs) ++ replicate (MAX_BUCKETS - length ptrs) None;
  pub_len : (length ptrs <= MAX_BUCKETS)%nat;
  pub_nodup : NoDup ptrs;
  pub_size : forall n p, ptrs !! n = Some p ->
    exists b, cm_heap m !! p = Some b /\ length b = bucket_size n
}.

Definition ref_of ptrs i : option FuncRef := (fun p => (p, loc_slot i)) <$> ptrs !! loc_bucket i.

(** The entries in the order of their functions; slots beyond them are not
    initialized. *)
Definition represents m ptrs fs : Prop :=
  published m ptrs /\ length ptrs = required (length fs) /\
  len_funcs (cm_funcs m) = Z.of_nat (length fs) /\ Z.of_nat (length fs) <= MAX_FUNCS /\
  forall i r, ref_of ptrs i = Some r -> deref (E := E) r m = Ok (default FuncEntry_uninit (fs !! i)).

Definition repr m fs : Prop := exists ptrs, represents m ptrs fs.

Lemma size_of_bucket_at_eq (n : nat) : (n < 22)%nat ->
  size_of_bucket_at (E := E) (Z.of_nat n) = Ok (Z.of_nat (bucket_size n)).
Proof.
  intros Hn. unfold size_of_bucket_at, bucket_size. change LEN_BUCKET0_LOG2 with 5.
  rewrite (proj2 (Z.ltb_lt _ _)) by (destruct usize_bits_cases as [-> | ->]; lia).
  cbn. rewrite Z.shiftl_1_l, Z2Nat.id; [done|apply Z.pow_nonneg; lia].
Qed.

(** A function below a length that was published resolves to its position. *)
Lemma get_within_published m ptrs (i len : nat) : published m ptrs ->
  (required len <= length ptrs)%nat -> Z.of_nat len <= MAX_FUNCS ->
  get_within (E := E) (cm_funcs m) (Z.of_nat i) (Z.of_nat len) =
  Ok (if decide (i < len)%nat then ref_of ptrs i else None).
Proof.
  intros HP Hr Hm. unfold get_within. unfold MAX_FUNCS in *. destruct (decide _) as [Hi|Hi].
  2: { case_if; zb; [done|lia]. }
  case_if; zb; [lia|]. rewrite locate_eq by lia. cbn [mbind res_bind].
  assert (loc_bucket i < length ptrs)%nat as Hb.
  { apply loc_bucket_lt. destruct (required_spec len) as [Hc _].
    pose proof (capacity_mono _ _ Hr). lia. }
  destruct (ptrs !! loc_bucket i) as [p|] eqn:Hp; [|apply lookup_ge_None in Hp; lia].
  rewrite (pub_buckets _ _ HP), !Nat2Z.id, lookup_app_l by (rewrite length_fmap; lia).
  rewrite list_lookup_fmap, Hp. cbn [fmap option_fmap option_map expect mbind res_bind].
  pose proof (pub_len _ _ HP) as Hl. rewrite MAX_BUCKETS_eq in Hl.
  rewrite size_of_bucket_at_eq by lia. cbn [mbind res_bind].
  destruct (loc_spec i) as [_ Hs]. case_if; zb; [|lia].
  unfold ref_of. by rewrite Hp.
Qed.

Lemma ref_of_inj ptrs i j r : NoDup ptrs -> ref_of ptrs i = Some r -> ref_of ptrs j = Some r -> i = j.
Proof.
  unfold ref_of. intros Hn. destruct (ptrs !! loc_bucket i) as [p|] eqn:Hi; [|done].
  destruct (ptrs !! loc_bucket j) as [q|] eqn:Hj; [|done]. cbn. intros [= <-] [= -> Hs].
  apply loc_inj; [|congruence]. by eapply NoDup_lookup.
Qed.

Lemma Funcs_get_represents m ptrs fs i : represents m ptrs fs ->
  Funcs_get (E := E) (cm_funcs m) (Z.of_nat i) =
  Ok (if decide (i < length fs)%nat then ref_of ptrs i else None).
Proof.
  intros (HP & Hr & Hl & Hm & _). unfold Funcs_get. rewrite Hl.
  apply get_within_published; [done|lia|done].
Qed.

Lemma ref_of_is_Some m ptrs fs i : represents m ptrs fs -> (i < length fs)%nat ->
  is_Some (ref_of ptrs i).
Proof.
  intros (_ & Hr & _) Hi. unfold ref_of. apply fmap_is_Some, lookup_lt_is_Some. rewrite Hr.
  apply loc_bucket_lt. destruct (required_spec (length fs)). lia.
Qed.

(** ** Appending buckets *)

Lemma publish_bucket_run m ptrs : published m ptrs -> (length ptrs < 22)%nat ->
  exists m', publish_bucket (E := E) (Z.of_nat (length ptrs)) m = (Ok tt, m') /\
    published m' (ptrs ++ [length (cm_heap m)]) /\
    cm_heap m' = cm_heap m ++ [replicate (bucket_size (length ptrs)) FuncEntry_uninit] /\
    len_funcs (cm_funcs m') = len_funcs (cm_funcs m) /\ cm_features m' = cm_features m.
Proof.
  intros HP Hn. unfold publish_bucket. rewrite bind_get_st, bind_lift, size_of_bucket_at_eq by done.
  assert (length (buckets (cm_funcs m)) = 22%nat) as Hlen.
  { rewrite (pub_buckets _ _ HP), length_app, length_fmap, length_replicate, MAX_BUCKETS_eq. lia. }
  unfold assert_m. rewrite Hlen, bind_lift, (proj2 (Z.ltb_lt _ _)) by lia. cbn [assert_that].
  eexists. split; [done|]. unfold set_funcs, FuncsBucket_new. cbn. rewrite !Nat2Z.id.
  split; [|done]. split; cbn.
  - rewrite (pub_buckets _ _ HP), MAX_BUCKETS_eq, length_app, fmap_app, <- (app_assoc (Some <$> ptrs)).
    rewrite insert_app_r_alt; rewrite length_fmap; [|done]. rewrite Nat.sub_diag. f_equal.
    replace (22 - length ptrs)%nat with (S (22 - (length ptrs + 1)))%nat by lia. done.
  - rewrite length_app, MAX_BUCKETS_eq. cbn. lia.
  - apply NoDup_app. split_and!; [apply HP| |apply NoDup_singleton].
    intros p [k Hk]%list_elem_of_lookup ->%list_elem_of_singleton.
    destruct (pub_size _ _ HP _ _ Hk) as (b & Hb%lookup_lt_Some & _). lia.
  - intros n p [Hp|[Hge Hp]]%lookup_app_Some.
    + destruct (pub_size _ _ HP _ _ Hp) as (b & Hb & Hl). exists b. split; [|done].
      rewrite lookup_app_l; [done|by apply lookup_lt_Some in Hb].
    + apply list_lookup_singleton_Some in Hp as [Hn0 <-].
      exists (replicate (bucket_size (length ptrs)) FuncEntry_uninit). split.
      * by rewrite lookup_app_r, Nat.sub_diag by lia.
      * rewrite length_replicate. f_equal. lia.
Qed.

(** The buckets from [length ptrs] on are fresh and not initialized. *)
Definition fresh_heap (from k : nat) : list (list FuncEntry) :=
  (fun n => replicate (bucket_size n) FuncEntry_uninit) <$> seq from k.

Lemma publish_buckets_run k m ptrs : published m ptrs -> (length ptrs + k <= 22)%nat ->
  exists m', publish_buckets (E := E) (seqZ (Z.of_nat (length ptrs)) (Z.of_nat k)) m = (Ok tt, m') /\
    published m' (ptrs ++ seq (length (cm_heap m)) k) /\
    cm_heap m' = cm_heap m ++ fresh_heap (length ptrs) k /\
    len_funcs (cm_funcs m') = len_funcs (cm_funcs m) /\ cm_features m' = cm_features m.
Proof.
  revert m ptrs. induction k as [|k IH]; intros m ptrs HP Hk.
  { exists m. by rewrite !app_nil_r. }
  rewrite seqZ_cons by lia. cbn [publish_buckets].
  destruct (publish_bucket_run m ptrs HP ltac:(lia)) as (m1 & R1 & HP1 & Hh1 & Hl1 & Hf1).
  rewrite (bind_Ok _ _ _ _ _ R1).
  destruct (IH m1 _ HP1) as (m2 & R2 & HP2 & Hh2 & Hl2 & Hf2); [rewrite length_app; cbn; lia|].
  rewrite length_app in R2, Hh2. cbn [length] in R2, Hh2. exists m2. split_and!; [|..|congruence|congruence].
  - rewrite <- R2. f_equal. f_equal; lia.
  - rewrite Hh1, length_app, <- app_assoc in HP2. cbn in HP2. by rewrite Nat.add_1_r in HP2.
  - rewrite Hh2, Hh1, <- app_assoc. unfold fresh_heap. cbn. by rewrite Nat.add_1_r.
Qed.

(** ** Appending functions *)

Lemma deref_prefix r m m' h : cm_heap m' = cm_heap m ++ h -> is_Some (cm_heap m !! r.1) ->
  deref (E := E) r m' = deref r m.
Proof. intros Hh [b Hb]. unfold deref. by rewrite Hh, lookup_app_l, Hb by (by apply lookup_lt_Some in Hb). Qed.

Lemma default_app_replicate fs n i :
  default FuncEntry_uninit ((fs ++ replicate n FuncEntry_uninit) !! i) = default FuncEntry_uninit (fs !! i).
Proof.
  destruct (decide (i < length fs)%nat); [by rewrite lookup_app_l|].
  rewrite (lookup_ge_None_2 fs), lookup_app_r by lia. cbn.
  destruct (replicate n _ !! _) eqn:Hl; [|done]. by apply lookup_replicate in Hl as [-> _].
Qed.

Lemma ref_of_app_l ptrs qs i r : ref_of ptrs i = Some r -> ref_of (ptrs ++ qs) i = Some r.
Proof.
  unfold ref_of. destruct (ptrs !! loc_bucket i) as [p|] eqn:Hp; [|done]. cbn.
  by rewrite (lookup_app_l_Some _ _ _ _ Hp).
Qed.

Lemma ref_of_heap m ptrs i r : published m ptrs -> ref_of ptrs i = Some r -> is_Some (cm_heap m !! r.1).
Proof.
  unfold ref_of. intros HP. destruct (ptrs !! loc_bucket i) as [p|] eqn:Hp; [|done]. intros [= <-].
  destruct (pub_size _ _ HP _ _ Hp) as (b & Hb & _). cbn. by rewrite Hb.
Qed.

(** The new references are to slots that are not initialized. *)
Lemma deref_fresh m m' ptrs k i r : published m ptrs ->
  cm_heap m' = cm_heap m ++ fresh_heap (length ptrs) k ->
  ref_of ptrs i = None -> ref_of (ptrs ++ seq (length (cm_heap m)) k) i = Some r ->
  deref (E := E) r m' = Ok FuncEntry_uninit.
Proof.
  unfold ref_of. intros HP Hh. rewrite fmap_None. intros Hn%lookup_ge_None.
  rewrite lookup_app_r by done. destruct (seq _ k !! _) as [p|] eqn:Hp; [|done]. cbn. intros [= <-].
  apply lookup_seq in Hp as [-> Hk]. unfold deref. cbn.
  rewrite Hh, lookup_app_r, Nat.add_comm, Nat.add_sub by lia. unfold fresh_heap.
  rewrite list_lookup_fmap, lookup_seq_lt by done. cbn.
  destruct (loc_spec i) as [_ Hs]. rewrite lookup_replicate_2; [done|].
  by replace (length ptrs + (loc_bucket i - length ptrs))%nat with (loc_bucket i) by lia.
Qed.

Lemma alloc_funcs_run m ptrs fs (n : nat) : represents m ptrs fs ->
  Z.of_nat (length fs + n) <= MAX_FUNCS ->
  exists m' qs h, Funcs_alloc_funcs (E := E) (Z.of_nat n) m =
      (Ok {| efs_start := Z.of_nat (length fs); efs_end := Z.of_nat (length fs + n) |}, m') /\
    represents m' (ptrs ++ qs) (fs ++ replicate n FuncEntry_uninit) /\ cm_heap m' = cm_heap m ++ h.
Proof.
  intros HR Hn. pose proof HR as (HP & Hr & Hl & Hm & Hd). unfold Funcs_alloc_funcs.
  rewrite bind_get_st. cbv zeta. rewrite bind_lift, Hl. unfold checked_add, MAX_FUNCS in *.
  rewrite <- Nat2Z.inj_add.
  rewrite (proj2 (Z.ltb_lt _ _)) by (destruct usize_bits_cases as [-> | ->]; lia). cbn [expect].
  unfold assert_m. rewrite bind_lift, (proj2 (Z.leb_le _ _)) by done. cbn [assert_that].
  rewrite bind_lift, required_eq, bind_lift, required_eq by done.
  pose proof (required_mono (length fs) (length fs + n) ltac:(lia)) as Hmono.
  pose proof (required_max _ Hn) as Hmax.
  rewrite <- Hr, <- Nat2Z.inj_sub by lia.
  set (k := (required (length fs + n) - length ptrs)%nat).
  destruct (publish_buckets_run k m ptrs HP ltac:(lia)) as (m1 & R & HP1 & Hh1 & Hl1 & Hf1).
  rewrite (bind_Ok _ _ _ _ _ R), bind_get_st.
  unfold lift, EngineFuncSpan_new, wrapu. rewrite !Z.mod_small by lia.
  rewrite (proj2 (Z.leb_le _ _)) by lia.
  do 3 eexists. split; [done|]. split; [|exact Hh1].
  split_and!; [destruct HP1; by split| | | |].
  - rewrite !length_app, length_replicate, length_seq. lia.
  - cbn. by rewrite length_app, length_replicate.
  - by rewrite length_app, length_replicate.
  - intros i r Hi. rewrite default_app_replicate.
    change (deref (E := E) r m1 = Ok (default FuncEntry_uninit (fs !! i))).
    destruct (ref_of ptrs i) as [r'|] eqn:Hi'.
    + rewrite (ref_of_app_l _ _ _ _ Hi') in Hi. simplify_eq.
      rewrite (deref_prefix _ _ _ _ Hh1); [by apply Hd|by eapply ref_of_heap].
    + rewrite (lookup_ge_None_2 fs); [exact (deref_fresh m m1 ptrs k i r HP Hh1 Hi' Hi)|].
      destruct (decide (i < length fs)%nat) as [Hlt|]; [|lia].
      destruct (ref_of_is_Some _ _ _ _ HR Hlt). congruence.
Qed.

(** ** Mutating an entry in place *)

Lemma represents_update m ptrs fs i r e : represents m ptrs fs -> (i < length fs)%nat ->
  ref_of ptrs i = Some r -> represents (heap_set r e m) ptrs (<[i := e]> fs).
Proof.
  intros (HP & Hr & Hl & Hm & Hd) Hi Hri. split_and!; rewrite ?length_insert; try done.
  { destruct HP as [H1 H2 H3 H4]. split; try done. intros k p Hp.
    destruct (H4 k p Hp) as (b & Hb & Hs). unfold heap_set, set_funcs. cbn.
    destruct (decide (p = r.1)) as [->|Hne].
    - rewrite list_lookup_alter, decide_True, Hb by done. cbn. eexists. split; [done|]. by rewrite length_insert.
    - rewrite list_lookup_alter_ne by congruence. eauto. }
  intros j q Hj. pose proof (Hd _ _ Hj) as Hq. revert Hq. unfold deref, heap_set, set_funcs. cbn.
  destruct (decide (j = i)) as [->|Hne].
  - rewrite Hri in Hj. injection Hj as <-. rewrite list_lookup_alter, decide_True by done.
    destruct (cm_heap m !! r.1) as [b|]; [|done]. cbn. intros Hq.
    destruct (b !! r.2) as [x|] eqn:Hx; [|done]. apply lookup_lt_Some in Hx.
    by rewrite !list_lookup_insert_eq.
  - rewrite list_lookup_insert_ne by done. intros Hq. rewrite <- Hq.
    destruct (decide (q.1 = r.1)) as [He|Hne']; [|by rewrite list_lookup_alter_ne].
    rewrite He, list_lookup_alter, decide_True by done. destruct (cm_heap m !! r.1) as [b|]; [|done]. cbn.
    rewrite list_lookup_insert_ne; [done|]. intros Hs. apply Hne.
    eapply ref_of_inj; [apply HP|exact Hj|]. rewrite Hri. f_equal.
    destruct q, r; cbn in *; congruence.
Qed.

Lemma at_ref_represents {A} m ptrs fs i r e (f : M FuncEntry E A) : represents m ptrs fs ->
  fs !! i = Some e -> ref_of ptrs i = Some r ->
  at_ref r f m = ((f e).1, heap_set r (f e).2 m) /\
  represents (heap_set r (f e).2 m) ptrs (<[i := (f e).2]> fs).
Proof.
  intros HR He Hr. pose proof HR as (_ & _ & _ & _ & Hd). split.
  - unfold at_ref. rewrite (Hd _ _ Hr), He. cbn. by destruct (f e).
  - eapply represents_update; eauto using lookup_lt_Some.
Qed.

Lemma repr_new features : repr (CodeMap_new features) [].
Proof.
  exists []. split_and!; [|done|done|done|].
  - split; cbn; [by rewrite Nat.sub_0_r|lia|by apply NoDup_nil|intros n p Hp; by rewrite lookup_nil in Hp].
  - intros i r. unfold ref_of. by rewrite lookup_nil.
Qed.

Lemma alloc_funcs_panics m fs (n : nat) : repr m fs -> MAX_FUNCS < Z.of_nat (length fs + n) ->
  CodeMap_alloc_funcs (E := E) (Z.of_nat n) m = (Panic, m).
Proof.
  intros (ptrs & _ & _ & Hl & _) Hn. unfold CodeMap_alloc_funcs, Funcs_alloc_funcs.
  rewrite bind_get_st. cbv zeta. rewrite bind_lift, Hl. unfold checked_add.
  rewrite <- Nat2Z.inj_add. case_if; [|done]. cbn [expect]. unfold assert_m.
  by rewrite bind_lift, (proj2 (Z.leb_gt _ _)) by done.
Qed.

Lemma alloc_funcs_frozen m m' ptrs qs fs n h (func : nat) r : represents m ptrs fs ->
  represents m' (ptrs ++ qs) (fs ++ replicate n FuncEntry_uninit) -> cm_heap m' = cm_heap m ++ h ->
  Funcs_get (E := E) (cm_funcs m) (Z.of_nat func) = Ok (Some r) ->
  Funcs_get (E := E) (cm_funcs m') (Z.of_nat func) = Ok (Some r) /\ deref (E := E) r m' = deref r m.
Proof.
  intros HR HR' Hh. rewrite (Funcs_get_represents _ _ _ _ HR), (Funcs_get_represents _ _ _ _ HR').
  rewrite length_app. destruct (decide (func < length fs)%nat) as [Hf|]; [|done]. intros [= Hr].
  rewrite decide_True, (ref_of_app_l _ _ _ _ Hr) by lia. split; [done|].
  eapply deref_prefix; [done|]. eapply ref_of_heap; [apply HR|done].
Qed.

(** C11: The code map refines a vector of entries.  Allocation appends entries that
    are not initialized, returns their indices and leaves every reference that
    was handed out before valid, with the entry it refers to; beyond the limit it
    panics and changes nothing.  A function is found exactly when it is in the
    vector, and a method that runs on its entry in place changes that entry of
    the vector and no other. *)
Theorem code_map_refines m fs : repr m fs ->
  (forall n : nat,
    if decide (Z.of_nat (length fs + n) <= MAX_FUNCS) then
      exists m', CodeMap_alloc_funcs (E := E) (Z.of_nat n) m =
          (Ok {| efs_start := Z.of_nat (length fs); efs_end := Z.of_nat (length fs + n) |}, m') /\
        repr m' (fs ++ replicate n FuncEntry_uninit) /\
        forall (func : nat) r, Funcs_get (E := E) (cm_funcs m) (Z.of_nat func) = Ok (Some r) ->
          Funcs_get (E := E) (cm_funcs m') (Z.of_nat func) = Ok (Some r) /\
          deref (E := E) r m' = deref r m
    else CodeMap_alloc_funcs (E := E) (Z.of_nat n) m = (Panic, m)) /\
  (forall func : nat,
    match fs !! func with
    | Some e => exists r, Funcs_get (E := E) (cm_funcs m) (Z.of_nat func) = Ok (Some r) /\
        deref (E := E) r m = Ok e /\
        forall A (f : M FuncEntry E A), exists m', at_ref r f m = ((f e).1, m') /\
          repr m' (<[func := (f e).2]> fs)
    | None => Funcs_get (E := E) (cm_funcs m) (Z.of_nat func) = Ok None
    end).
Proof.
  intros [ptrs HR]. split.
  - intros n. destruct (decide _) as [Hn|Hn].
    + destruct (alloc_funcs_run _ _ _ n HR Hn) as (m' & qs & h & R & HR' & Hh).
      exists m'. split; [done|]. split; [by exists (ptrs ++ qs)|].
      intros func r. by eapply alloc_funcs_frozen.
    + apply (alloc_funcs_panics m fs); [by exists ptrs|lia].
  - intros func. rewrite (Funcs_get_represents _ _ _ _ HR). destruct (fs !! func) as [e|] eqn:He.
    + pose proof (lookup_lt_Some _ _ _ He) as Hlt. rewrite decide_True by done.
      destruct (ref_of_is_Some _ _ _ _ HR Hlt) as [r Hr]. exists r. rewrite Hr. split; [done|].
      split; [|intros A f; exists (heap_set r (f e).2 m);
               destruct (at_ref_represents _ _ _ _ _ _ f HR He Hr); split; [done|by exists ptrs]].
      destruct HR as (_ & _ & _ & _ & Hd). by rewrite (Hd _ _ Hr), He.
    + apply lookup_ge_None in He. by rewrite decide_False by lia.
Qed.

(** ** Views *)

(** What may happen to a code map while a view of it is alive: allocations, of
    which some panic, and methods that run on entries in place. *)
Inductive code_map_step : CodeMap -> CodeMap -> Prop :=
| step_alloc m (n : nat) : code_map_step m (CodeMap_alloc_funcs (E := E) (Z.of_nat n) m).2
| step_at_ref {A} m (func : nat) r (f : M FuncEntry E A) :
    Funcs_get (E := E) (cm_funcs m) (Z.of_nat func) = Ok (Some r) -> code_map_step m (at_ref r f m).2.

Lemma code_map_step_represents m m' ptrs fs : represents m ptrs fs -> code_map_step m m' ->
  exists qs fs', represents m' (ptrs ++ qs) fs' /\ (length fs <= length fs')%nat.
Proof.
  intros HR Hs. destruct Hs as [m n|A m func r f Hf].
  - destruct (decide (Z.of_nat (length fs + n) <= MAX_FUNCS)) as [Hn|Hn].
    + destruct (alloc_funcs_run _ _ _ n HR Hn) as (m' & qs & h & R & HR' & Hh).
      exists qs, (fs ++ replicate n FuncEntry_uninit). unfold CodeMap_alloc_funcs. rewrite R. cbn.
      split; [done|]. rewrite length_app. lia.
    + rewrite (alloc_funcs_panics m fs) by first [by exists ptrs|lia].
      exists [], fs. by rewrite app_nil_r.
  - rewrite (Funcs_get_represents _ _ _ _ HR) in Hf.
    destruct (decide (func < length fs)%nat) as [Hlt|]; [|done]. injection Hf as Hr.
    destruct (lookup_lt_is_Some_2 fs func Hlt) as [e He].
    destruct (at_ref_represents _ _ _ _ _ _ f HR He Hr) as [-> HR'].
    exists [], (<[func := (f e).2]> fs). rewrite app_nil_r, length_insert. done.
Qed.

Lemma code_map_steps_represents m m' : rtc code_map_step m m' -> forall ptrs fs,
  represents m ptrs fs ->
  exists qs fs', represents m' (ptrs ++ qs) fs' /\ (length fs <= length fs')%nat.
Proof.
  induction 1 as [m|m m1 m' Hs _ IH]; intros ptrs fs HR.
  - exists [], fs. by rewrite app_nil_r.
  - destruct (code_map_step_represents _ _ _ _ HR Hs) as (qs & fs1 & HR1 & Hl1).
    destruct (IH _ _ HR1) as (qs' & fs' & HR' & Hl'). exists (qs ++ qs'), fs'.
    rewrite app_assoc. split; [done|lia].
Qed.

(** A view is never invalid, only outdated: whatever happens to the code map, it
    resolves every function it could resolve when it was taken, to the same
    reference, and no function that was not allocated at that time. *)
Theorem code_view_valid m fs m' (func : nat) : repr m fs -> rtc code_map_step m m' ->
  (exists fs', repr m' fs' /\ (length fs <= length fs')%nat) /\
  CodeView_entry (E := E) m' (CodeMap_view m) (Z.of_nat func) =
    Funcs_get (E := E) (cm_funcs m) (Z.of_nat func) /\
  CodeView_entry (E := E) m' (CodeView_refresh m' (CodeMap_view m)) (Z.of_nat func) =
    Funcs_get (E := E) (cm_funcs m') (Z.of_nat func).
Proof.
  intros [ptrs HR] Hs. destruct (code_map_steps_represents _ _ Hs _ _ HR) as (qs & fs' & HR' & Hl).
  split; [exists fs'; split; [by exists (ptrs ++ qs)|done]|]. split; [|done].
  rewrite (Funcs_get_represents _ _ _ _ HR). unfold CodeView_entry, CodeMap_view. cbn.
  pose proof HR as (HP & Hr & Hlen & Hm & _). destruct HR' as (HP' & _).
  rewrite Hlen. rewrite (get_within_published _ _ _ _ HP'); [|rewrite length_app; lia|done].
  destruct (decide (func < length fs)%nat) as [Hf|]; [|done].
  assert (is_Some (ref_of ptrs func)) as [r Hrf] by (by eapply ref_of_is_Some).
  by rewrite (ref_of_app_l _ _ _ _ Hrf), Hrf.
Qed.
End Repr.

(** ** Examples *)

Lemma code_map_refines_witness :
  let m := CodeMap_new (C := copy_compiler) tt in
  repr (C := copy_compiler) (E := unit) m [] /\
  exists m', CodeMap_alloc_funcs (C := copy_compiler) (T := default_target) (E := unit) 40 m =
      (Ok {| efs_start := 0; efs_end := 40 |}, m') /\
    repr (C := copy_compiler) (E := unit) m'
      (replicate 40 (FuncEntry_uninit (C := copy_compiler))).
Proof.
  intros m. assert (repr (C := copy_compiler) (E := unit) m []) as Hm by apply repr_new.
  split; [exact Hm|].
  destruct (code_map_refines (C := copy_compiler) (T := default_target) (E := unit) m [] Hm) as [H _].
  specialize (H 40%nat). rewrite decide_True in H by (unfold MAX_FUNCS; cbn; lia).
  destruct H as (m' & R & HR & _). exists m'. split; [exact R|exact HR].
Defined.

Lemma code_view_valid_witness :
  let m := CodeMap_new (C := copy_compiler) tt in
  let m' := (CodeMap_alloc_funcs (C := copy_compiler) (T := default_target) (E := unit) (Z.of_nat 3) m).2 in
  CodeView_entry (C := copy_compiler) (T := default_target) (E := unit) m' (CodeMap_view m) 0 = Ok None /\
  Funcs_get (T := default_target) (E := unit) (cm_funcs m') 0 = Ok (Some (0%nat, 0%nat)).
Proof.
  intros m m'.
  destruct (code_view_valid (C := copy_compiler) (T := default_target) (E := unit) m [] m' 0%nat
    (repr_new (C := copy_compiler) (E := unit) tt)
    (rtc_once _ _ (step_alloc (T := default_target) (E := unit) m 3%nat))) as (_ & H & _).
  split; [exact H|reflexivity].
Defined.
