(* ===== verification/LazyCompile.v ===== *)
(** * Concurrent lazy compilation

    [FuncEntry::get_or_compile] of [engine/code_map/mod.rs]: any number of
    threads may call one function before it is compiled.  A thread is a program
    counter into [get_or_compile], [compile] and [assume_compiled], with one step
    for each access to the shared entry; a system interleaves the steps of its
    threads in any order (the [Acquire] and [Release] orderings of the source make
    the accesses to [state] synchronize, so that interleavings are all there is). *)

From Stdlib Require Import ZArith Lia.
From stdpp Require Import base option decidable numbers relations list.
From S2P Require Import Prelude Trap Fuel Header CodeMap.
Local Open Scope Z_scope.

Section LazyCompile.
Context `{C : Compiler}.
(** Whether the engine of the module still exists, and the features it enables. *)
Variable engine : bool.
Variable features : WasmFeatures.

(** ** Threads *)

Inductive Pc : Type :=
(* the hot path of [get_or_compile] *)
| Pc_get_or_compile
(* [self.state.load] at the head of the loop of [compile] *)
| Pc_observe
(* [self.state.compare_exchange] *)
| Pc_exchange
(* [self.take_uncompiled()] *)
| Pc_take
(* [uncompiled.compile(fuel, features)], which does not touch the entry *)
| Pc_translate (uncompiled : UncompiledFuncEntry)
(* the two accesses of [set_compiled] and of [set_uncompiled] *)
| Pc_write_compiled (compiled : CompiledFuncEntry)
| Pc_store_compiled
| Pc_write_uncompiled (uncompiled : UncompiledFuncEntry) (error : CompileError)
| Pc_store_uncompiled (error : CompileError)
(* [self.state.store(state::FAILED_TO_COMPILE)] *)
| Pc_store_failed (error : CompileError)
(* [self.assume_compiled()] *)
| Pc_assume
| Pc_return (result : res CompileError CompiledFuncEntry)
(* undefined behaviour *)
| Pc_undefined.

Record Thread : Type := { th_pc : Pc; th_fuel : option Fuel }.

Definition goto (pc : Pc) (t : Thread) : Thread := {| th_pc := pc; th_fuel := th_fuel t |}.

Definition is_out_of_fuel (e : CompileError) : bool :=
  bool_decide (as_trap_code e = Some TrapCode_OutOfFuel).

Definition translate_step (uncompiled : UncompiledFuncEntry) (t : Thread) : Thread :=
  let '(result, fuel, uncompiled) :=
    UncompiledFuncEntry_compile engine features (th_fuel t) uncompiled in
  {| th_fuel := fuel;
     th_pc := match result with
              | Ok compiled => Pc_write_compiled compiled
              | Err error =>
                  if is_out_of_fuel error then Pc_write_uncompiled uncompiled error
                  else Pc_store_failed error
              | Panic => Pc_return Panic
              end |}.

Definition observe_step (state : Z) : Pc :=
  if state =? COMPILED then Pc_assume
  else if state =? COMPILING then Pc_observe
  else if state =? FAILED_TO_COMPILE then Pc_return (Err ErrorKind_LazyCompilationFailed)
  else if state =? UNCOMPILED then Pc_exchange
  else Pc_undefined.

(** One step of a thread. *)
Definition thread_step (e : FuncEntry) (t : Thread) : FuncEntry * Thread :=
  match th_pc t with
  | Pc_get_or_compile => (e, goto (if fe_state e =? COMPILED then Pc_assume else Pc_observe) t)
  | Pc_observe => (e, goto (observe_step (fe_state e)) t)
  | Pc_exchange =>
      if fe_state e =? UNCOMPILED then (set_state COMPILING e, goto Pc_take t)
      else (e, goto Pc_observe t)
  | Pc_take =>
      match take_uncompiled (E := unit) e with
      | (Ok uncompiled, e) => (e, goto (Pc_translate uncompiled) t)
      | (_, e) => (e, goto Pc_undefined t)
      end
  | Pc_translate uncompiled => (e, translate_step uncompiled t)
  | Pc_write_compiled compiled => (set_data (Data_compiled compiled) e, goto Pc_store_compiled t)
  | Pc_store_compiled => (set_state COMPILED e, goto Pc_assume t)
  | Pc_write_uncompiled uncompiled error =>
      (set_data (Data_uncompiled uncompiled) e, goto (Pc_store_uncompiled error) t)
  | Pc_store_uncompiled error => (set_state UNCOMPILED e, goto (Pc_return (Err error)) t)
  | Pc_store_failed error => (set_state FAILED_TO_COMPILE e, goto (Pc_return (Err error)) t)
  | Pc_assume =>
      match assume_compiled (E := CompileError) e with
      | Ok compiled => (e, goto (Pc_return (Ok compiled)) t)
      | _ => (e, goto Pc_undefined t)
      end
  | Pc_return _ | Pc_undefined => (e, t)
  end.

(** ** Systems *)

Definition System : Type := FuncEntry * list Thread.

Definition returned (t : Thread) : bool := match th_pc t with Pc_return _ => true | _ => false end.

(** A step of some thread that has not returned. *)
Inductive sys_step : System -> System -> Prop :=
| sys_step_at e ts i t : ts !! i = Some t -> returned t = false ->
    sys_step (e, ts) ((thread_step e t).1, <[i := (thread_step e t).2]> ts).

(** A step that changes something: any but that of a thread that spins. *)
Definition progress (s s' : System) : Prop := sys_step s s' /\ s' <> s.

(** [threads fuels] are about to call the function, each with its own store. *)
Definition threads (fuels : list (option Fuel)) : list Thread :=
  (fun fuel => {| th_pc := Pc_get_or_compile; th_fuel := fuel |}) <$> fuels.
Definition uncompiled_entry (u : UncompiledFuncEntry) : FuncEntry :=
  {| fe_data := Data_uncompiled u; fe_state := UNCOMPILED |}.
Definition sys_init (u : UncompiledFuncEntry) (fuels : list (option Fuel)) : System :=
  (uncompiled_entry u, threads fuels).

(** The thread [i] alone, [n] steps. *)
Fixpoint run_thread (n : nat) (e : FuncEntry) (t : Thread) : FuncEntry * Thread :=
  match n with O => (e, t) | S n => let '(e, t) := thread_step e t in run_thread n e t end.

(** ** What a call may return

    The outcome of translating [u]: its bytes, what it costs and the result. *)
Section Specification.
Variable u : UncompiledFuncEntry.

Definition uncompiled_bytes : list Z :=
  match as_slice (E := unit) (ufe_bytes u) with Ok bytes => bytes | _ => [] end.
Definition compile_cost : Z := compilation_fuel (needs_validation u) uncompiled_bytes.
Definition translated : res CompileFailure CompiledFuncEntry :=
  match ufe_validation u with
  | Some (ty, resources) =>
      translate_validating (ufe_func_index u) (ufe_module u) uncompiled_bytes resources ty features
  | None => translate (ufe_func_index u) (ufe_module u) uncompiled_bytes
  end.

(** Which threads hold the payload: from the exchange they won until the store
    that gives it up; one that panicked never gives it up. *)
Definition holder (t : Thread) : bool :=
  match th_pc t with
  | Pc_take | Pc_translate _ | Pc_write_compiled _ | Pc_store_compiled | Pc_write_uncompiled _ _
  | Pc_store_uncompiled _ | Pc_store_failed _ | Pc_return Panic => true
  | _ => false
  end.

Definition thread_ok (e : FuncEntry) (t : Thread) : Prop :=
  match th_pc t with
  | Pc_get_or_compile | Pc_observe | Pc_exchange => True
  | Pc_take => fe_data e = Data_uncompiled u
  | Pc_translate u' => fe_data e = Data_undefined /\ u' = u
  | Pc_write_compiled c => fe_data e = Data_undefined /\ translated = Ok c
  | Pc_store_compiled => exists c, fe_data e = Data_compiled c /\ translated = Ok c
  | Pc_write_uncompiled u' error =>
      fe_data e = Data_undefined /\ u' = u /\ error = ErrorKind_ResumableOutOfFuel compile_cost
  | Pc_store_uncompiled error =>
      fe_data e = Data_uncompiled u /\ error = ErrorKind_ResumableOutOfFuel compile_cost
  | Pc_store_failed error =>
      fe_data e = Data_undefined /\ exists f, error = ErrorKind_Failure f /\ translated = Err f
  | Pc_assume => fe_state e = COMPILED
  | Pc_return (Ok c) => fe_state e = COMPILED /\ fe_data e = Data_compiled c
  | Pc_return (Err error) =>
      error = ErrorKind_ResumableOutOfFuel compile_cost \/
      (fe_state e = FAILED_TO_COMPILE /\
       (error = ErrorKind_LazyCompilationFailed \/
        exists f, error = ErrorKind_Failure f /\ translated = Err f))
  | Pc_return Panic => fe_data e = Data_undefined /\ (engine = false \/ translated = Panic)
  | Pc_undefined => False
  end.

Definition entry_ok (e : FuncEntry) : Prop :=
  (fe_state e = UNCOMPILED /\ fe_data e = Data_uncompiled u) \/
  (fe_state e = COMPILED /\ exists c, fe_data e = Data_compiled c /\ translated = Ok c) \/
  (fe_state e = FAILED_TO_COMPILE /\ fe_data e = Data_undefined /\ exists f, translated = Err f) \/
  fe_state e = COMPILING.

Definition b2n (b : bool) : nat := if b then 1%nat else 0%nat.
Definition holders (ts : list Thread) : nat := sum_list_with (fun t => b2n (holder t)) ts.

Definition sys_ok (s : System) : Prop :=
  entry_ok s.1 /\ (forall i t, s.2 !! i = Some t -> thread_ok s.1 t) /\
  holders s.2 = b2n (fe_state s.1 =? COMPILING).

(** ** Counting threads *)

Lemma sum_list_with_insert {A} (f : A -> nat) (l : list A) i x y : l !! i = Some x ->
  (sum_list_with f (<[i := y]> l) + f x = sum_list_with f l + f y)%nat.
Proof.
  revert i. induction l as [|z l IH]; intros [|i] Hi; cbn in *; simplify_eq; [lia|].
  rewrite <- !Nat.add_assoc. f_equal. exact (IH _ Hi).
Qed.
Lemma sum_list_with_lookup {A} (f : A -> nat) (l : list A) i x : l !! i = Some x ->
  (f x <= sum_list_with f l)%nat.
Proof. revert i. induction l as [|z l IH]; intros [|i] Hi; cbn in *; simplify_eq; [lia|]. specialize (IH _ Hi). lia. Qed.
Lemma sum_list_with_lookup_two {A} (f : A -> nat) (l : list A) i j x y : i <> j ->
  l !! i = Some x -> l !! j = Some y -> (f x + f y <= sum_list_with f l)%nat.
Proof.
  revert i j. induction l as [|z l IH]; intros [|i] [|j] Hij Hi Hj; cbn in *; simplify_eq; try done.
  - pose proof (sum_list_with_lookup f _ _ _ Hj). lia.
  - pose proof (sum_list_with_lookup f _ _ _ Hi). lia.
  - specialize (IH i j ltac:(congruence) Hi Hj). lia.
Qed.

(** ** The invariant *)

Lemma charge_compilation_cases cost fuel :
  (exists fuel', charge_compilation cost fuel = (Ok tt, fuel')) \/
  charge_compilation cost fuel = (Err (ErrorKind_ResumableOutOfFuel cost), fuel).
Proof.
  destruct fuel as [f|]; cbn; [|by left; eexists]. rewrite consume_fuel_eq.
  destruct (fuel_enabled f); [|by left; eexists]. rewrite consume_fuel_unchecked_eq.
  destruct (_ <=? _); [by left; eexists|by right].
Qed.

Context (Hbytes : is_ok (as_slice (E := unit) (ufe_bytes u)) = true).

Lemma compile_run fuel :
  UncompiledFuncEntry_compile engine features fuel u =
  match charge_compilation compile_cost fuel with
  | (Ok _, fuel) => if engine then (map_err ErrorKind_Failure translated, fuel, without_validation u)
                    else (Panic, fuel, u)
  | (Err e, fuel) => (Err e, fuel, u)
  | (Panic, fuel) => (Panic, fuel, u)
  end.
Proof.
  unfold UncompiledFuncEntry_compile, compile_cost, translated, uncompiled_bytes. revert Hbytes.
  assert (as_slice (E := CompileError) (ufe_bytes u) = match as_slice (E := unit) (ufe_bytes u) with
    | Ok b => Ok b | _ => Panic end) as ->.
  { destruct (ufe_bytes u) as [len b|b]; [|done]. cbn. by destruct (get_to len b). }
  destruct (as_slice (ufe_bytes u)); try done. intros _.
  destruct (charge_compilation _ fuel) as [[]]; try done. by destruct engine.
Qed.

Lemma is_out_of_fuel_failure f : is_out_of_fuel (ErrorKind_Failure f) = false.
Proof. apply bool_decide_eq_false, failure_not_fuel. Qed.

Local Ltac step_fin Hh := split_and!; cbn; rewrite ?Hh; eauto 10.

Lemma take_uncompiled_run {E} e u' : fe_data e = Data_uncompiled u' ->
  take_uncompiled (E := E) e = (Ok u', set_data Data_undefined e).
Proof. intros He. unfold take_uncompiled. by rewrite bind_get_st, He. Qed.

(** What one step does to its own thread and to the entry. *)
Lemma thread_step_ok e t : entry_ok e -> thread_ok e t -> (holder t = true -> fe_state e = COMPILING) ->
  let '(e', t') := thread_step e t in
  entry_ok e' /\ thread_ok e' t' /\
  (e' = e \/ fe_state e = UNCOMPILED \/ (fe_state e = COMPILING /\ holder t = true)) /\
  (b2n (holder t') + b2n (fe_state e =? COMPILING)%Z = b2n (holder t) + b2n (fe_state e' =? COMPILING)%Z)%nat.
Proof.
  intros He Ht Hh. destruct t as [pc fuel]. unfold thread_step, holder, thread_ok in *. cbn in *.
  destruct pc; cbn in *; try specialize (Hh eq_refl).
  - case_if; zb; cbn; split_and!; auto.
  - split; [done|]. unfold observe_step.
    destruct He as [[Hs Hd]|[[Hs Hd]|[(Hs & Hd & Hf)|Hs]]]; rewrite Hs; cbn; rewrite ?Hs; split_and!; auto.
  - case_if; zb; cbn; split_and!; auto; [by right; right; right| |by rewrite Heqb].
    destruct He as [[Hs Hd]|[[Hs Hd]|[(Hs & Hd & Hf)|Hs]]];
      [done|rewrite Hs in Heqb; discriminate..].
  - rewrite (take_uncompiled_run _ _ Ht). cbn. unfold entry_ok. cbn. rewrite Hh.
    by step_fin Hh.
  - destruct Ht as [Hd ->]. unfold translate_step. cbn. rewrite compile_run.
    destruct (charge_compilation_cases compile_cost fuel) as [[fuel' ->]| ->]; cbn; [|by step_fin Hh].
    destruct engine eqn:Hen; cbn; [|by step_fin Hh].
    destruct translated as [c|f|] eqn:Htr; cbn; [by step_fin Hh|rewrite is_out_of_fuel_failure; cbn|].
    + by step_fin Hh.
    + by step_fin Hh.
  - destruct Ht as [Hd Htr]. unfold entry_ok. cbn. rewrite Hh. by step_fin Hh.
  - destruct Ht as (c & Hd & Htr). unfold entry_ok. cbn. rewrite Hh. by step_fin Hh.
  - destruct Ht as (Hd & -> & ->). unfold entry_ok. cbn. rewrite Hh. by step_fin Hh.
  - destruct Ht as (Hd & ->). unfold entry_ok. cbn. rewrite Hh. by step_fin Hh.
  - destruct Ht as (Hd & f & -> & Htr). unfold entry_ok. cbn. rewrite Hh. by step_fin Hh.
  - destruct He as [[Hs Hd]|[(Hs & c & Hd & Hc)|[(Hs & Hd & Hf)|Hs]]]; try (rewrite Hs in Ht; discriminate).
    unfold assume_compiled. rewrite Hd. cbn. unfold entry_ok. by step_fin Hs.
  - by split_and!; auto.
  - done.
Qed.

(** The other threads do not notice. *)
Lemma thread_ok_other e e' t : thread_ok e t -> holder t = false ->
  fe_state e = UNCOMPILED \/ fe_state e = COMPILING -> thread_ok e' t.
Proof.
  unfold thread_ok, holder. destruct t as [pc fuel]. cbn.
  destruct pc as [| | | | | | | | | | |[]|]; try done; intros Ht _ Hs.
  - rewrite Ht in Hs. by destruct Hs.
  - destruct Ht as [Ht _]. rewrite Ht in Hs. by destruct Hs.
  - destruct Ht as [|[Ht _]]; [by left|]. rewrite Ht in Hs. by destruct Hs.
Qed.

Lemma sys_step_ok s s' : sys_ok s -> sys_step s s' -> sys_ok s'.
Proof.
  intros (He & Hts & Hc) Hs. destruct Hs as [e ts i t Hi Hr]. unfold sys_ok. cbn in *.
  pose proof (sum_list_with_lookup (fun t => b2n (holder t)) _ _ _ Hi) as Hle. cbn in Hle.
  assert (holder t = true -> fe_state e = COMPILING) as Hh.
  { intros Hh. unfold holders in Hc. rewrite Hh in Hle. cbn in Hle. destruct (fe_state e =? COMPILING) eqn:E; zb; [done|].
    cbn in Hc. lia. }
  pose proof (thread_step_ok e t He (Hts _ _ Hi) Hh) as H. destruct (thread_step e t) as [e' t']. cbn.
  destruct H as (He' & Ht' & Hch & Hcount). split_and!; [done| |].
  - intros j tj [(<- & <- & _)|[Hij Hj]]%list_lookup_insert_Some; [done|].
    destruct Hch as [->|Hch]; [by eauto|]. eapply (thread_ok_other e); [by eauto| |naive_solver].
    pose proof (sum_list_with_lookup_two (fun t => b2n (holder t)) _ _ _ _ _ Hij Hi Hj) as H2. cbn in H2.
    unfold holders in Hc. destruct (holder tj); [exfalso|done]. cbn in H2.
    destruct Hch as [Hs|[Hs Hht]]; rewrite Hs in Hc; cbn in Hc; [lia|]. rewrite Hht in H2. cbn in H2. lia.
  - unfold holders in *. pose proof (sum_list_with_insert (fun t => b2n (holder t)) _ _ _ t' Hi) as Hins.
    cbn in Hins. lia.
Qed.

Lemma sys_init_ok fuels : sys_ok (sys_init u fuels).
Proof.
  unfold sys_ok, sys_init. cbn. split_and!; [by left| |].
  - intros i t. intros (f & -> & _)%list_lookup_fmap_Some. done.
  - unfold holders, threads. by induction fuels.
Qed.

Lemma sys_reach_ok fuels s : rtc sys_step (sys_init u fuels) s -> sys_ok s.
Proof. intros H. remember (sys_init u fuels) as s0. assert (sys_ok s0) as H0 by (subst; apply sys_init_ok).
  clear Heqs0. induction H; eauto using sys_step_ok. Qed.

Lemma sys_steps_ok s s' : sys_ok s -> rtc sys_step s s' -> sys_ok s'.
Proof. intros H0 H. induction H; eauto using sys_step_ok. Qed.

(** ** Progress

    A step that is not a spin changes the counter of its thread. *)
Lemma thread_step_changes e t : thread_ok e t -> returned t = false ->
  (th_pc t = Pc_observe -> fe_state e <> COMPILING) -> entry_ok e -> (thread_step e t).2 <> t.
Proof.
  destruct t as [pc fuel]. unfold thread_ok, returned, thread_step. cbn.
  intros Ht Hr Hs He Heq. apply (f_equal th_pc) in Heq. revert Ht Hr Hs Heq.
  destruct pc; cbn; try (intros; discriminate).
  - by case_if.
  - intros _ _ Hs. specialize (Hs eq_refl). unfold observe_step.
    rewrite (proj2 (Z.eqb_neq _ COMPILING)) by done. by repeat case_if.
  - by case_if.
  - intros Ht _ _. by rewrite (take_uncompiled_run _ _ Ht).
  - unfold translate_step. cbn. destruct (UncompiledFuncEntry_compile _ _ _ _) as [[[] ?] ?]; cbn; try done.
    by case_if.
  - by destruct (assume_compiled e).
  - done.
Qed.

Lemma progress_at e ts i t : entry_ok e -> thread_ok e t -> ts !! i = Some t -> returned t = false ->
  (th_pc t = Pc_observe -> fe_state e <> COMPILING) -> exists s', progress (e, ts) s'.
Proof.
  intros He Ht Hi Hr Hs. eexists. split; [by apply (sys_step_at e ts i t)|].
  intros [= _ Heq]. apply (thread_step_changes e t Ht Hr Hs He).
  apply (f_equal (.!! i)) in Heq. rewrite list_lookup_insert_eq, Hi in Heq by (by apply lookup_lt_Some in Hi).
  by injection Heq.
Qed.

Lemma holder_exists ts : (0 < holders ts)%nat -> exists i t, ts !! i = Some t /\ holder t = true.
Proof.
  unfold holders. induction ts as [|t ts IH]; cbn; [lia|]. destruct (holder t) eqn:Ht; cbn; intros H.
  - by exists 0%nat, t.
  - destruct (IH H) as (i & t' & Hi & Ht'). by exists (S i), t'.
Qed.

Lemma no_deadlock s : sys_ok s ->
  (exists s', progress s s') \/ (forall i t, s.2 !! i = Some t -> returned t = true) \/
  exists i t, s.2 !! i = Some t /\ th_pc t = Pc_return Panic.
Proof.
  destruct s as [e ts]. intros (He & Hts & Hc). cbn in *.
  destruct (Z.eqb_spec (fe_state e) COMPILING) as [Hs|Hs].
  - destruct (holder_exists ts) as (i & t & Hi & Hh);
      [unfold holders; rewrite Hc; cbn; lia|].
    destruct (returned t) eqn:Hr.
    + right; right. exists i, t. split; [done|]. revert Hh Hr. unfold holder, returned.
      by destruct (th_pc t) as [| | | | | | | | | | |[]|].
    + left. eapply progress_at; eauto. intros Ho. unfold holder in Hh. by rewrite Ho in Hh.
  - destruct (decide (Forall (fun t => returned t = true) ts)) as [Hf|Hf].
    + right; left. intros i t Hi. eapply Forall_lookup in Hf; eauto.
    + apply not_Forall_Exists in Hf; [|intros t; apply _].
      apply Exists_exists in Hf as (t & [i Hi]%list_elem_of_lookup & Hr).
      left. eapply progress_at; eauto. by apply not_true_is_false.
Qed.

(** ** A measure

    Threads that have not won the exchange weigh more than all the others; one
    that is about to lose it weighs more than one that observes the state. *)
Definition weight (state : Z) (n : nat) (t : Thread) : nat :=
  match th_pc t with
  | Pc_get_or_compile => 2 * n + 12
  | Pc_observe => 2 * n + 11
  | Pc_exchange => 2 * n + (if (state =? UNCOMPILED)%Z then 10 else 12)
  | Pc_take => 6
  | Pc_translate _ => 5
  | Pc_write_compiled _ | Pc_write_uncompiled _ _ => 4
  | Pc_store_compiled | Pc_store_uncompiled _ | Pc_store_failed _ => 3
  | Pc_assume => 2
  | Pc_return _ | Pc_undefined => 0
  end%nat.
Definition measure (s : System) : nat :=
  sum_list_with (weight (fe_state s.1) (length s.2)) s.2.

(** Replacing one element while the weights of the others grow by at most [k]. *)
Lemma sum_list_with_replace {A} (f g : A -> nat) k (l : list A) i x y : l !! i = Some x ->
  (forall z, (g z <= f z + k)%nat) ->
  (sum_list_with g (<[i := y]> l) + f x <= sum_list_with f l + k * length l + g y)%nat.
Proof.
  intros Hi H. assert (forall l, (sum_list_with g l <= sum_list_with f l + k * length l)%nat) as Hle.
  { clear -H. intros l. induction l as [|z l IH]; cbn; [lia|]. specialize (H z). lia. }
  revert i Hi. induction l as [|z l IH]; intros [|i] Hi; cbn in Hi; simplify_eq.
  - cbn. specialize (Hle l). lia.
  - specialize (IH i Hi). specialize (H z). 
    change (sum_list_with g (<[S i:=y]> (z :: l))) with (g z + sum_list_with g (<[i:=y]> l))%nat.
    cbn [sum_list_with length]. lia.
Qed.

Lemma weight_state st st' n t :
  (weight st' n t <= weight st n t + if decide (st = UNCOMPILED /\ st' <> UNCOMPILED) then 2 else 0)%nat.
Proof.
  unfold weight. destruct (th_pc t); try lia.
  destruct (Z.eqb_spec st UNCOMPILED), (Z.eqb_spec st' UNCOMPILED); destruct (decide _); naive_solver lia.
Qed.

(** The weight of the thread that steps, and of the others, when it progresses. *)
Lemma thread_step_weight e t n : entry_ok e -> thread_ok e t ->
  (holder t = true -> fe_state e = COMPILING) -> (thread_step e t).2 <> t ->
  (weight (fe_state (thread_step e t).1) n (thread_step e t).2 +
   (if decide (fe_state e = UNCOMPILED /\ fe_state (thread_step e t).1 <> UNCOMPILED) then 2 * n else 0)
   < weight (fe_state e) n t)%nat.
Proof.
  intros He Ht Hh Hne. destruct t as [pc fuel].
  unfold thread_step, thread_ok, holder, weight in *. cbn in *.
  destruct pc; cbn in *; try specialize (Hh eq_refl); try rewrite decide_False by (rewrite Hh; by intros []).
  - case_if; cbn; rewrite decide_False by naive_solver; lia.
  - rewrite decide_False by naive_solver. revert Hne. unfold observe_step.
    repeat (case_if; cbn; try lia). done.
  - destruct (fe_state e =? UNCOMPILED) eqn:Hu; cbn; [|rewrite decide_False by naive_solver; lia].
    destruct (decide _); lia.
  - rewrite (take_uncompiled_run _ _ Ht). cbn. lia.
  - unfold translate_step. cbn. destruct (UncompiledFuncEntry_compile _ _ _ _) as [[[] ?] ?]; cbn; try lia.
    case_if; cbn; lia.
  - cbn. lia.
  - lia.
  - cbn. lia.
  - lia.
  - lia.
  - destruct (assume_compiled e); cbn; rewrite decide_False by naive_solver; lia.
  - done.
  - done.
Qed.

Lemma progress_measure s s' : sys_ok s -> progress s s' -> (measure s' < measure s)%nat.
Proof.
  intros (He & Hts & Hc) [Hs Hne]. destruct Hs as [e ts i t Hi Hr]. unfold measure in *. cbn in *.
  pose proof (sum_list_with_lookup (fun t => b2n (holder t)) _ _ _ Hi) as Hle. cbn in Hle.
  assert (holder t = true -> fe_state e = COMPILING) as Hh.
  { intros Hh. unfold holders in Hc. rewrite Hh in Hle. cbn in Hle.
    destruct (fe_state e =? COMPILING) eqn:E; zb; [done|]. cbn in Hc. lia. }
  assert ((thread_step e t).2 <> t) as Hch.
  { intros Heq. apply Hne. rewrite Heq, list_insert_id by done. f_equal.
    assert (th_pc t = Pc_observe \/ (thread_step e t).1 = e) as [Ho|]; [| |done].
    - revert Heq. unfold thread_step. destruct t as [[] ?]; cbn; auto; try discriminate; try case_if; auto.
      + discriminate.
      + unfold take_uncompiled. rewrite bind_get_st. destruct (fe_data e); auto. intros; discriminate.
      + destruct (assume_compiled e); auto.
    - unfold thread_step. by rewrite Ho. }
  pose proof (thread_step_weight e t (length ts) He (Hts _ _ Hi) Hh Hch) as Hw.
  destruct (thread_step e t) as [e' t']. cbn in *. rewrite length_insert.
  pose proof (sum_list_with_replace (weight (fe_state e) (length ts)) (weight (fe_state e') (length ts))
    _ ts i t t' Hi (weight_state (fe_state e) (fe_state e') (length ts))) as Hrep.
  destruct (decide _); lia.
Qed.

(** ** The calls of any number of threads *)

Lemma measure_init fuels : measure (sys_init u fuels) = (length fuels * (2 * length fuels + 12))%nat.
Proof.
  unfold measure, sys_init. cbn [fst snd fe_state uncompiled_entry].
  assert (forall n, sum_list_with (weight UNCOMPILED n) (threads fuels) = length fuels * (2 * n + 12))%nat as H.
  { intros n. unfold threads. induction fuels as [|f fuels IH]; cbn in *; lia. }
  rewrite H. unfold threads. by rewrite length_fmap.
Qed.

Lemma progress_bound n s s' : sys_ok s -> nsteps progress n s s' -> (n + measure s' <= measure s)%nat.
Proof.
  intros Hs H. induction H as [|n s s1 s' Hp _ IH]; [lia|].
  pose proof (progress_measure _ _ Hs Hp). destruct Hp as [Hst _].
  specialize (IH (sys_step_ok _ _ Hs Hst)). lia.
Qed.

(** ** Fuel

    [w] is the thread that paid for the compilation, if one did: the others have
    the fuel they came with. *)
Definition unpaid (t : Thread) : bool :=
  match th_pc t with
  | Pc_write_compiled _ | Pc_store_compiled | Pc_store_failed _ | Pc_return Panic => false
  | _ => true
  end.
Definition paying (t : Thread) : bool :=
  match th_pc t with
  | Pc_take | Pc_translate _ | Pc_write_uncompiled _ _ | Pc_store_uncompiled _ => true
  | _ => false
  end.
Definition paid (fuels : list (option Fuel)) (w : option nat) (ts : list Thread) : Prop :=
  length ts = length fuels /\
  forall i t fuel, ts !! i = Some t -> fuels !! i = Some fuel ->
    if decide (w = Some i) then charge_compilation compile_cost fuel = (Ok tt, th_fuel t)
    else th_fuel t = fuel.
Definition fuel_ok (fuels : list (option Fuel)) (s : System) : Prop :=
  exists w, paid fuels w s.2 /\
    if w is Some _ then fe_state s.1 <> UNCOMPILED /\ forall i t, s.2 !! i = Some t -> paying t = false
    else forall i t, s.2 !! i = Some t -> unpaid t = true.

Lemma paid_insert fuels w ts i t t' : paid fuels w ts -> ts !! i = Some t ->
  th_fuel t' = th_fuel t -> paid fuels w (<[i := t']> ts).
Proof.
  intros [Hl H] Hi Hf. split; [by rewrite length_insert|].
  intros j tj fuel [(<- & <- & _)|[_ Hj]]%list_lookup_insert_Some Hfuel; [|by apply H].
  rewrite Hf. by apply H.
Qed.

(** A step that does not translate keeps the fuel of its thread; it reaches
    neither [unpaid] nor [paying] but by the exchange. *)
Lemma thread_step_fuel e t : thread_ok e t -> (forall u', th_pc t <> Pc_translate u') ->
  th_fuel (thread_step e t).2 = th_fuel t /\
  (unpaid t = true -> unpaid (thread_step e t).2 = true) /\
  (paying t = false -> fe_state e <> UNCOMPILED ->
   paying (thread_step e t).2 = false /\ fe_state (thread_step e t).1 <> UNCOMPILED).
Proof.
  destruct t as [pc fuel]. unfold thread_ok, unpaid, paying, thread_step. cbn. intros Ht Hn.
  destruct pc; cbn in *; try done.
  - case_if; split_and!; done.
  - unfold observe_step. repeat case_if; split_and!; try done; zb; done.
  - destruct (Z.eqb_spec (fe_state e) UNCOMPILED); cbn; split_and!; try done.
  - by rewrite (take_uncompiled_run _ _ Ht).
  - by destruct (Hn uncompiled).
  - destruct (assume_compiled e); cbn; split_and!; try done.
Qed.

Lemma holder_state s i t : sys_ok s -> s.2 !! i = Some t -> holder t = true -> fe_state s.1 = COMPILING.
Proof.
  intros (_ & _ & Hc) Hi Hh. pose proof (sum_list_with_lookup (fun t => b2n (holder t)) _ _ _ Hi) as Hle.
  cbn in Hle. unfold holders in Hc. rewrite Hh in Hle. cbn in Hle.
  destruct (fe_state s.1 =? COMPILING) eqn:E; zb; [done|]. cbn in Hc. lia.
Qed.
Lemma holder_unique s i j t t' : sys_ok s -> s.2 !! i = Some t -> s.2 !! j = Some t' -> i <> j ->
  holder t = true -> holder t' = false.
Proof.
  intros (_ & _ & Hc) Hi Hj Hij Hh.
  pose proof (sum_list_with_lookup_two (fun t => b2n (holder t)) _ _ _ _ _ Hij Hi Hj) as Hle.
  cbn in Hle. unfold holders in Hc. rewrite Hh in Hle. destruct (holder t'); [|done]. cbn in Hle.
  destruct (fe_state s.1 =? COMPILING); cbn in Hc; lia.
Qed.
Lemma paying_holder t : paying t = true -> holder t = true.
Proof. unfold paying, holder. by destruct (th_pc t). Qed.

(** The step that pays. *)
Lemma translate_step_fuel t :
  (charge_compilation compile_cost (th_fuel t) = (Ok tt, th_fuel (translate_step u t)) /\
   paying (translate_step u t) = false) \/
  (th_fuel (translate_step u t) = th_fuel t /\ unpaid (translate_step u t) = true).
Proof.
  unfold translate_step. rewrite compile_run.
  destruct (charge_compilation_cases compile_cost (th_fuel t)) as [[fuel' ->]| ->].
  - left. destruct engine; [|done]. destruct translated; cbn; try done.
    by rewrite is_out_of_fuel_failure.
  - right. done.
Qed.

Lemma fuel_ok_step fuels s s' : sys_ok s -> fuel_ok fuels s -> sys_step s s' -> fuel_ok fuels s'.
Proof.
  intros Hok (w & Hp & Hw) Hs. destruct Hs as [e ts i t Hi Hr].
  pose proof Hok as (_ & Hts & _). specialize (Hts _ _ Hi). cbn in *.
  assert ((exists u', th_pc t = Pc_translate u') \/ forall u', th_pc t <> Pc_translate u')
    as [[u' Htr]|Hn'] by (destruct (th_pc t); eauto; by right).
  - (* the translation *)
    assert (holder t = true) as Hh by (unfold holder; by rewrite Htr).
    assert (paying t = true) as Hpay by (unfold paying; by rewrite Htr).
    destruct w as [w|]; [destruct Hw as [_ Hw]; rewrite (Hw _ _ Hi) in Hpay; done|].
    assert (thread_step e t = (e, translate_step u t)) as Hst.
    { unfold thread_step, thread_ok in *. rewrite Htr in Hts |- *. by destruct Hts as [_ ->]. }
    rewrite Hst. unfold fuel_ok. cbn [fst snd]. destruct (translate_step_fuel t) as [[Hc Hpay']|[Hf Hu]].
    + exists (Some i). split; [split; [rewrite length_insert; apply Hp|]|].
      * intros j tj fuel [(<- & <- & _)|[Hij Hj]]%list_lookup_insert_Some Hfuel.
        -- rewrite decide_True by done. destruct Hp as [_ Hp]. specialize (Hp _ _ _ Hi Hfuel). cbn in Hp.
           by rewrite <- Hp.
        -- rewrite decide_False by congruence. destruct Hp as [_ Hp]. by apply (Hp j).
      * rewrite (holder_state _ i t Hok Hi Hh : fe_state e = COMPILING). split; [done|].
        intros j tj [(<- & <- & _)|[Hij Hj]]%list_lookup_insert_Some; [done|].
        destruct (paying tj) eqn:Hpj; [|done]. apply paying_holder in Hpj.
        by rewrite (holder_unique _ i j t tj Hok Hi Hj Hij Hh) in Hpj.
    + exists None. split; [by eapply paid_insert|]. cbn.
      intros j tj [(<- & <- & _)|[Hij Hj]]%list_lookup_insert_Some; eauto.
  - destruct (thread_step_fuel e t Hts Hn') as (Hf & Hu & Hpay). exists w.
    split; [by eapply paid_insert|]. destruct w as [w|].
    + destruct Hw as [Hs Hw]. destruct (Hpay (Hw _ _ Hi) Hs) as [Hp' Hs']. split; [done|].
      intros j tj [(<- & <- & _)|[Hij Hj]]%list_lookup_insert_Some; eauto.
    + intros j tj [(<- & <- & _)|[Hij Hj]]%list_lookup_insert_Some; eauto.
Qed.

Lemma fuel_ok_reach fuels s : rtc sys_step (sys_init u fuels) s -> sys_ok s /\ fuel_ok fuels s.
Proof.
  intros H. pose proof (sys_init_ok fuels) as H0.
  assert (fuel_ok fuels (sys_init u fuels)) as Hf.
  { exists None. split; [split; [apply length_fmap|]|].
    - intros i t fuel (f & -> & Hf)%list_lookup_fmap_Some Hfuel. cbn. congruence.
    - intros i t (f & -> & Hf)%list_lookup_fmap_Some. done. }
  induction H as [|s s1 s' Hs H IH]; [done|]. apply IH; [by eapply sys_step_ok|by eapply fuel_ok_step].
Qed.
End Specification.

(** ** Properties *)

Lemma SmallByteSlice_roundtrip {E} (bytes : list Z) : as_slice (E := E) (SmallByteSlice_from bytes) = Ok bytes.
Proof.
  unfold SmallByteSlice_from, MAX_INLINE_SIZE. case_if; zb; [|done].
  cbn [as_slice]. unfold wrapu, get_to, set_span. rewrite Z.mod_small by lia.
  rewrite length_inserts, length_replicate, Nat2Z.id. case_if; zb; [|lia]. cbn [expect]. f_equal.
  change (Z.to_nat 0) with 0%nat. rewrite (list_eq (take (length bytes) _) bytes); [done|]. intros j.
  destruct (decide (j < length bytes)%nat) as [Hj|Hj].
  - rewrite lookup_take_lt by done. rewrite list_lookup_inserts by (rewrite ?length_replicate; lia). by rewrite Nat.sub_0_r.
  - rewrite lookup_take_ge, lookup_ge_None_2 by lia. done.
Qed.

Lemma UncompiledFuncEntry_new_bytes {E} func_index bytes module to_validate u :
  UncompiledFuncEntry_new (E := E) func_index bytes module to_validate = Ok u ->
  is_ok (as_slice (E := unit) (ufe_bytes u)) = true.
Proof.
  unfold UncompiledFuncEntry_new. destruct to_validate as [v|]; unfold_m;
    [destruct (ftv_index v =? func_index); [|done]|];
    intros [= <-]; cbn [ufe_bytes]; by rewrite SmallByteSlice_roundtrip.
Qed.

(** What a thread is about to do with the payload, without synchronization; a
    thread that returned the compiled function still refers to it. *)
Definition writes_data (t : Thread) : bool :=
  match th_pc t with Pc_take | Pc_write_compiled _ | Pc_write_uncompiled _ _ => true | _ => false end.
Definition reads_data (t : Thread) : bool :=
  match th_pc t with Pc_assume | Pc_return (Ok _) => true | _ => false end.

(** What a call may return, and the entry then. *)
Definition result_ok (u : UncompiledFuncEntry) (e : FuncEntry)
    (result : res CompileError CompiledFuncEntry) : Prop :=
  match result with
  | Ok compiled => translated u = Ok compiled /\ fe_data e = Data_compiled compiled
  | Err (ErrorKind_ResumableOutOfFuel required_fuel) => required_fuel = compile_cost u
  | Err ErrorKind_LazyCompilationFailed => exists failure, translated u = Err failure
  | Err (ErrorKind_Failure failure) => translated u = Err failure
  | Panic => engine = false \/ translated u = Panic
  end.

Section Claims.
Variables (func_index : Z) (bytes : list Z) (module : ModuleHeader) (to_validate : option FuncToValidate).
Variable u : UncompiledFuncEntry.
Context (Hu : UncompiledFuncEntry_new (E := CompileError) func_index bytes module to_validate = Ok u).
Variable fuels : list (option Fuel).

(** C9: However the calls of one function interleave, no thread reads a field of the
    union that was not written last or reaches an impossible state, and none
    accesses the payload while another one writes it.  Every call that returns
    the function returns what translation yields, all of them the same, and the
    entry holds it from then on; a failure of translation is reported as itself
    to the thread that translated and as a failed lazy compilation to the others;
    a thread that runs out of fuel learns the cost. *)
Theorem lazy_compile_safe s : rtc sys_step (sys_init u fuels) s ->
  (forall i t, s.2 !! i = Some t -> th_pc t <> Pc_undefined) /\
  (forall i j t t', s.2 !! i = Some t -> s.2 !! j = Some t' -> i <> j -> writes_data t = true ->
    writes_data t' = false /\ reads_data t' = false) /\
  (forall i t result, s.2 !! i = Some t -> th_pc t = Pc_return result -> result_ok u s.1 result).
Proof.
  intros H. apply (sys_reach_ok u (UncompiledFuncEntry_new_bytes _ _ _ _ _ Hu)) in H as Hok.
  pose proof Hok as (He & Hts & _). split_and!.
  - intros i t Hi Hpc. specialize (Hts _ _ Hi). unfold thread_ok in Hts. by rewrite Hpc in Hts.
  - intros i j t t' Hi Hj Hij Hw.
    assert (holder t = true) as Hh by (revert Hw; unfold writes_data, holder; by destruct (th_pc t)).
    pose proof (holder_unique _ _ _ _ _ _ Hok Hi Hj Hij Hh) as Hh'.
    pose proof (holder_state _ _ _ _ Hok Hi Hh) as Hs. specialize (Hts _ _ Hj).
    revert Hh' Hts. unfold writes_data, reads_data, holder, thread_ok. rewrite Hs.
    destruct (th_pc t') as [| | | | | | | | | | |[]|]; try done. by intros _ [].
  - intros i t result Hi Hpc. specialize (Hts _ _ Hi). unfold thread_ok in Hts. rewrite Hpc in Hts.
    destruct result as [c|error|]; cbn.
    + destruct Hts as [Hs Hd]. split; [|done].
      destruct He as [[Hs' _]|[(_ & c' & Hd' & Ht)|[(Hs' & _)|Hs']]]; try (rewrite Hs in Hs'; discriminate).
      by rewrite Hd in Hd'; simplify_eq.
    + destruct Hts as [->|[Hs [->|(f & -> & Ht)]]]; [done| |done].
      destruct He as [[Hs' _]|[(Hs' & _)|[(_ & _ & Hf)|Hs']]]; try (rewrite Hs in Hs'; discriminate). done.
    + by destruct Hts.
Qed.

(** C10: Lazy compilation terminates: [n] calls take at most [n * (2 * n + 12)] steps
    in all, not counting those of a thread that observes a compilation in progress
    and looks again.  As long as a call has not returned, some thread can take a
    step that counts, unless a thread panicked while it compiled. *)
Theorem lazy_compile_terminates s k s' : rtc sys_step (sys_init u fuels) s -> nsteps progress k s s' ->
  (k <= length fuels * (2 * length fuels + 12))%nat /\
  ((exists s'', progress s' s'') \/
   (forall i t, s'.2 !! i = Some t -> returned t = true) \/
   exists i t, s'.2 !! i = Some t /\ th_pc t = Pc_return Panic).
Proof.
  intros H Hk. pose proof (UncompiledFuncEntry_new_bytes _ _ _ _ _ Hu) as Hb.
  pose proof (sys_init_ok u fuels) as H0. rewrite <- (measure_init u fuels). split.
  - transitivity (measure s); [pose proof (progress_bound u Hb _ _ _ (sys_reach_ok u Hb _ _ H) Hk); lia|].
    clear Hk s' k. remember (sys_init u fuels) as s0 eqn:E. clear E. induction H as [|s0 s1 s Hs _ IH]; [done|].
    transitivity (measure s1); [by apply IH; eapply sys_step_ok|].
    destruct (decide (measure s1 = measure s0)) as [->|Hne]; [done|].
    assert (progress s0 s1) as Hp by (split; [done|intros ->; done]).
    pose proof (progress_measure u _ _ H0 Hp). lia.
  - eapply (no_deadlock u), (sys_steps_ok u Hb s); [by eapply (sys_reach_ok u Hb)|].
    clear -Hk. induction Hk as [|k s s1 s' [Hs _] _ IH]; [done|]. by eapply rtc_l.
Qed.

(** The compilation is paid for once: at most one of the calls is charged, the
    cost of compiling the body once, and all others keep their fuel. *)
Theorem lazy_compile_fuel s : rtc sys_step (sys_init u fuels) s ->
  exists w : option nat, length s.2 = length fuels /\
  forall i t fuel, s.2 !! i = Some t -> fuels !! i = Some fuel ->
    if decide (w = Some i) then charge_compilation (compile_cost u) fuel = (Ok tt, th_fuel t)
    else th_fuel t = fuel.
Proof.
  intros H. pose proof (UncompiledFuncEntry_new_bytes _ _ _ _ _ Hu) as Hb.
  destruct (fuel_ok_reach u Hb _ _ H) as (_ & w & [Hl Hp] & _). by exists w.
Qed.

(** When a thread panics while it compiles, the entry stays in the state
    [COMPILING]: no call that had not returned by then ever returns. *)
Theorem compile_panic_hangs s s' i t j t' t'' : rtc sys_step (sys_init u fuels) s -> rtc sys_step s s' ->
  s.2 !! i = Some t -> th_pc t = Pc_return Panic ->
  s.2 !! j = Some t' -> returned t' = false -> s'.2 !! j = Some t'' -> returned t'' = false.
Proof.
  intros H Hs Hi Hp Hj Hr Hj'. pose proof (UncompiledFuncEntry_new_bytes _ _ _ _ _ Hu) as Hb.
  apply (sys_reach_ok u Hb) in H. revert t' Hj Hr.
  induction Hs as [s|s s1 s' Hs _ IH]; intros t' Hj Hr; [by simplify_eq|].
  assert (holder t = true) as Hh by (unfold holder; by rewrite Hp).
  assert (i <> j) as Hij by (intros ->; simplify_eq; revert Hr; unfold returned; by rewrite Hp).
  pose proof (sys_step_ok u Hb _ _ H Hs) as H1. pose proof (holder_state u _ _ _ H Hi Hh) as Hst.
  destruct Hs as [e ts l tl Hl Hrl]. cbn in *.
  assert (i <> l) as Hil by (intros ->; simplify_eq; revert Hrl; unfold returned; by rewrite Hp).
  assert (<[l:=(thread_step e tl).2]> ts !! i = Some t) as Hi1 by (by rewrite list_lookup_insert_ne).
  destruct (decide (l = j)) as [->|Hlj].
  - rewrite Hj in Hl. injection Hl as <-. rename Hj into Hl. eapply (IH H1 Hi1 Hj'); [apply list_lookup_insert_eq; by eapply lookup_lt_Some|].
    pose proof (holder_unique u _ _ _ _ _ H Hi Hl Hij Hh) as Hh'.
    pose proof H as (_ & Hts & _). specialize (Hts _ _ Hl). cbn in Hts.
    revert Hr Hh' Hts. unfold returned, holder, thread_ok, thread_step. rewrite Hst.
    destruct (th_pc t'); cbn; try done.
  - apply (IH H1 Hi1 Hj' t'); [by rewrite list_lookup_insert_ne|done].
Qed.
End Claims.
End LazyCompile.

(** ** Examples *)

(** Running a schedule: the threads in the order in which they step. *)
Definition sys_at `{C : Compiler} (engine : bool) (features : WasmFeatures) (s : System) (i : nat) : System :=
  match s.2 !! i with
  | Some t =>
      if returned t then s
      else ((thread_step engine features s.1 t).1, <[i := (thread_step engine features s.1 t).2]> s.2)
  | None => s
  end.
Definition run_schedule `{C : Compiler} (engine : bool) (features : WasmFeatures) (schedule : list nat)
    (s : System) : System :=
  fold_left (sys_at engine features) schedule s.

Lemma run_schedule_reach `{C : Compiler} engine features schedule s :
  rtc (sys_step engine features) s (run_schedule engine features schedule s).
Proof.
  revert s. induction schedule as [|i schedule IH]; intros s; cbn; [done|].
  assert (sys_at engine features s i = s \/ sys_step engine features s (sys_at engine features s i)) as [->|Hs]; [|done|].
  - unfold sys_at. destruct (s.2 !! i) as [t|] eqn:Hi; [|by left]. destruct (returned t) eqn:Hr; [by left|].
    right. destruct s as [e ts]. by apply sys_step_at.
  - by eapply rtc_l.
Qed.

Definition body_to_validate : UncompiledFuncEntry (C := copy_compiler) :=
  Build_UncompiledFuncEntry (C := copy_compiler) 3 (SmallByteSlice_from [7; 8; 11]) empty_header (Some (0, tt)).
Definition to_validate : option (FuncToValidate (C := copy_compiler)) :=
  Some (Build_FuncToValidate (C := copy_compiler) tt 3 0 tt).
Definition fuel_of (n : Z) : option Fuel :=
  Some {| fuel_remaining := n; fuel_enabled := true; fuel_costs := FuelCostsProvider_default |}.

(** Thread 1 has too little fuel, wins the first race and gives the body back;
    thread 0, which lost it, compiles; thread 2 finds the function compiled. *)
Definition race : list nat := [0; 0; 1; 1; 1; 0; 1; 1; 0; 1; 1; 0; 0; 0; 0; 2; 2; 0; 0; 0; 2; 2; 2]%nat.
Definition race_end (engine : bool) : System (C := copy_compiler) :=
  run_schedule (C := copy_compiler) engine tt race
    (sys_init (C := copy_compiler) body_to_validate [fuel_of 100; fuel_of 20; None]).

Lemma body_new : UncompiledFuncEntry_new (C := copy_compiler) (E := CompileError (C := copy_compiler))
  3 [7; 8; 11] empty_header to_validate = Ok body_to_validate.
Proof. reflexivity. Qed.

Lemma race_reach engine : rtc (sys_step (C := copy_compiler) engine tt)
  (sys_init (C := copy_compiler) body_to_validate [fuel_of 100; fuel_of 20; None]) (race_end engine).
Proof. exact (run_schedule_reach (C := copy_compiler) engine tt race _). Qed.

(** What a call returned: the operators, or the fuel it lacks. *)
Definition returns (t : Thread (C := copy_compiler)) : option (list Z + Z) :=
  match th_pc t with
  | Pc_return (Ok c) => Some (inl (cfe_ops c))
  | Pc_return (Err (ErrorKind_ResumableOutOfFuel n)) => Some (inr n)
  | _ => None
  end.

Lemma lazy_compile_safe_witness :
  map returns (race_end true).2 = [Some (inl [7; 8; 11]); Some (inr 27); Some (inl [7; 8; 11])] /\
  forall i t result, (race_end true).2 !! i = Some t -> th_pc t = Pc_return result ->
    result_ok (C := copy_compiler) true tt body_to_validate (race_end true).1 result.
Proof.
  split; [vm_compute; reflexivity|].
  exact (proj2 (proj2 (lazy_compile_safe (C := copy_compiler) true tt 3 [7; 8; 11] empty_header
    to_validate body_to_validate body_new _ (race_end true) (race_reach true)))).
Defined.

Definition is_observing (t : Thread (C := copy_compiler)) : bool :=
  match th_pc t with Pc_observe => true | _ => false end.

Lemma lazy_compile_terminates_witness : exists k s,
  nsteps (progress (C := copy_compiler) true tt)
    k (sys_init (C := copy_compiler) body_to_validate [None]) s /\ (0 < k <= 14)%nat.
Proof.
  assert (nsteps (progress (C := copy_compiler) true tt) 1
    (sys_init (C := copy_compiler) body_to_validate [None])
    (run_schedule (C := copy_compiler) true tt [0%nat] (sys_init body_to_validate [None]))) as H.
  { apply nsteps_once. split; [refine (sys_step_at (C := copy_compiler) true tt (uncompiled_entry (C := copy_compiler) body_to_validate)
      (threads (C := copy_compiler) [None]) 0 {| th_pc := Pc_get_or_compile; th_fuel := None |} _ _); reflexivity|].
    intros H. apply (f_equal (fun s => match s.2 with [t] => is_observing t | _ => false end)) in H.
    discriminate. }
  do 2 eexists. split; [exact H|]. split; [lia|].
  apply (lazy_compile_terminates (C := copy_compiler) true tt 3 [7; 8; 11] empty_header
    to_validate body_to_validate
    body_new [None] _ _ _ (rtc_refl _ _) H).
Defined.

Lemma lazy_compile_fuel_witness : exists w : option nat,
  forall i t fuel, (race_end true).2 !! i = Some t ->
    [fuel_of 100; fuel_of 20; None] !! i = Some fuel ->
    if decide (w = Some i) then charge_compilation (C := copy_compiler) 27 fuel = (Ok tt, th_fuel t)
    else th_fuel t = fuel.
Proof.
  destruct (lazy_compile_fuel (C := copy_compiler) true tt 3 [7; 8; 11] empty_header
    to_validate body_to_validate
    body_new [fuel_of 100; fuel_of 20; None] (race_end true)
    (race_reach true)) as (w & _ & H).
  exists w. exact H.
Defined.

(** The engine is gone: the call that compiles panics, the other one hangs. *)
Lemma compile_panic_hangs_witness :
  let s := run_schedule (C := copy_compiler) false tt [0; 0; 0; 0; 0; 0]%nat
    (sys_init body_to_validate [None; None]) in
  forall s' t, rtc (sys_step (C := copy_compiler) false tt) s s' -> s'.2 !! 1%nat = Some t -> returned t = false.
Proof.
  intros s s' t Hs Ht.
  assert (s.2 !! 0%nat = Some {| th_pc := Pc_return Panic; th_fuel := None |}) as H0 by reflexivity.
  assert (s.2 !! 1%nat = Some {| th_pc := Pc_get_or_compile; th_fuel := None |}) as H1 by reflexivity.
  exact (compile_panic_hangs (C := copy_compiler) false tt 3 [7; 8; 11] empty_header
    to_validate body_to_validate
    body_new [None; None] s s' 0 _ 1 _ t (run_schedule_reach (C := copy_compiler) _ _ _ _)
    Hs H0 eq_refl H1 eq_refl Ht).
Defined.
