(* ===== verification/Keeps.v ===== *)
(** * What operations keep

    [keeps R m]: running [m], whatever its outcome, leads from a state to one that
    [R] relates it to.  For a preorder [R] this goes through sequences, so that it
    follows from the parts of an operation; [implies I] is the preorder of an
    invariant. *)

From Stdlib Require Import ZArith Lia.
From stdpp Require Import base option list.
From S2P Require Import Prelude.
Local Open Scope Z_scope.

Definition implies {S} (I : S -> Prop) (s s' : S) : Prop := I s -> I s'.

#[export] Instance implies_preorder {S} (I : S -> Prop) : PreOrder (implies I).
Proof. split; unfold implies; [by intros ?|intros ?; naive_solver]. Qed.

Section Keeps.
Context {S E : Type} (R : S -> S -> Prop) `{!PreOrder R}.

Definition keeps_at {A} (m : M S E A) (s : S) : Prop := R s (m s).2.
Definition keeps {A} (m : M S E A) : Prop := forall s, keeps_at m s.

Lemma keeps_of {A} (m : M S E A) s : keeps m -> keeps_at m s.
Proof. intros H. apply H. Qed.

Lemma keeps_bind_at {A B} (m : M S E A) (k : A -> M S E B) s : keeps_at m s ->
  (forall a s', m s = (Ok a, s') -> keeps_at (k a) s') -> keeps_at (m ≫= k) s.
Proof.
  unfold keeps_at. intros Hm Hk. rewrite bind_run. destruct (m s) as [[a|e|] s'] eqn:Em; [|exact Hm..].
  etrans; [exact Hm|]. by eapply Hk.
Qed.

Lemma keeps_get {A} (k : S -> M S E A) s : keeps_at (k s) s -> keeps_at (get_st ≫= k) s.
Proof. unfold keeps_at. by rewrite bind_get_st. Qed.

Lemma keeps_lift_bind {A B} (r : res E A) (k : A -> M S E B) s :
  (forall a, r = Ok a -> keeps_at (k a) s) -> keeps_at (lift r ≫= k) s.
Proof.
  unfold keeps_at. intros H. rewrite bind_lift. destruct r; cbn; [by apply H|reflexivity..].
Qed.

Lemma keeps_put s s' : R s s' -> keeps_at (put_st s') s.
Proof. done. Qed.
Lemma keeps_put_bind {A} (k : unit -> M S E A) s s' : R s s' -> keeps_at (k tt) s' -> keeps_at (put_st s' ≫= k) s.
Proof. unfold keeps_at. intros H1 H2. etrans; [exact H1|exact H2]. Qed.

Lemma keeps_lift {A} (r : res E A) s : keeps_at (lift r) s.
Proof. unfold keeps_at. reflexivity. Qed.
Lemma keeps_ret {A} (a : A) s : keeps_at (mret a) s.
Proof. unfold keeps_at. reflexivity. Qed.
Lemma keeps_fail {A} e s : keeps_at (A := A) (fail e) s.
Proof. unfold keeps_at. reflexivity. Qed.
Lemma keeps_panic {A} s : keeps_at (A := A) panic s.
Proof. unfold keeps_at. reflexivity. Qed.
Lemma keeps_assert b s : keeps_at (assert_m b) s.
Proof. apply keeps_lift. Qed.

Lemma keeps_bind {A B} (m : M S E A) (k : A -> M S E B) : keeps m -> (forall a, keeps (k a)) -> keeps (m ≫= k).
Proof. intros Hm Hk s. apply keeps_bind_at; [apply Hm|intros; apply Hk]. Qed.
End Keeps.

(** [for x in iter]. *)
Fixpoint for_each {S E A} (f : A -> M S E unit) (l : list A) : M S E unit :=
  match l with [] => mret tt | x :: l => f x;; for_each f l end.

(** Running an operation on a part of the state. *)
Lemma keeps_zoom {S T E F A} (R : S -> S -> Prop) (Q : T -> T -> Prop) get set (conv : F -> E) (m : M T F A) :
  (forall s t, Q (get s) t -> R s (set t s)) -> keeps Q m -> keeps R (zoom get set conv m).
Proof.
  intros Hset Hm s. unfold keeps_at, zoom. pose proof (Hm (get s)) as H. unfold keeps_at in H.
  destruct (m (get s)) as [r t]. by apply Hset.
Qed.

Lemma keeps_for_each {A S E} (R : S -> S -> Prop) `{!PreOrder R} (f : A -> M S E unit) l :
  (forall x, x ∈ l -> keeps R (f x)) -> keeps R (for_each f l).
Proof.
  intros Hf. induction l as [|x l IH]; cbn; [intros s; by apply keeps_ret|].
  apply keeps_bind; [done|apply Hf; constructor|]. intros _. apply IH. intros y Hy. apply Hf. by constructor.
Qed.

Create HintDb keeps.
#[export] Hint Resolve keeps_lift keeps_ret keeps_fail keeps_panic keeps_assert keeps_put : keeps.

(** Splits a sequence; what remains are the parts and the states that are put. *)
Ltac keeps_step :=
  lazymatch goal with
  | |- keeps _ (_ ≫= _) => let s := fresh "s" in intros s
  | |- keeps _ (mret _) => let s := fresh "s" in intros s
  | |- keeps _ (lift _) => let s := fresh "s" in intros s
  | |- keeps _ (fail _) => let s := fresh "s" in intros s
  | |- keeps _ panic => let s := fresh "s" in intros s
  | |- keeps _ (if ?b then _ else _) => destruct b eqn:?
  | |- keeps _ (match ?x with _ => _ end) => destruct x eqn:?
  | |- keeps_at _ (get_st ≫= _) _ => apply keeps_get
  | |- keeps_at _ (lift _ ≫= _) _ => apply keeps_lift_bind; [typeclasses eauto|]; intros ??
  | |- keeps_at _ (assert_m _ ≫= _) _ => unfold assert_m at 1
  | |- keeps_at _ (put_st _ ≫= _) _ => apply keeps_put_bind; [typeclasses eauto| |]
  | |- keeps_at _ (let '(_, _) := ?x in _) _ => destruct x eqn:?
  | |- keeps_at _ (if ?b then _ else _) _ => destruct b eqn:?
  | |- keeps_at _ (match ?x with _ => _ end) _ => destruct x eqn:?
  | |- keeps_at _ (_ ≫= _) _ => apply keeps_bind_at; [typeclasses eauto| |intros ???]
  | |- keeps_at _ (lift _) _ => apply keeps_lift; typeclasses eauto
  | |- keeps_at _ (mret _) _ => apply keeps_ret; typeclasses eauto
  | |- keeps_at _ (fail _) _ => apply keeps_fail; typeclasses eauto
  | |- keeps_at _ panic _ => apply keeps_panic; typeclasses eauto
  | |- keeps_at _ (assert_m _) _ => apply keeps_assert; typeclasses eauto
  | |- keeps_at _ (put_st _) _ => apply keeps_put
  | |- keeps_at _ ?m _ => apply keeps_of; solve [eauto with keeps]
  | |- keeps _ _ => solve [eauto with keeps]
  end.
Ltac keeps := repeat (first [progress cbv beta zeta | keeps_step]).
