(* ===== verification/Modules.v ===== *)
(** * Modules

    What the parser leaves of a module: [module/builder.rs], the imports and the
    accessors of [module/mod.rs], the segments of [module/element.rs] and
    [module/data.rs], [module/import.rs], [module/export.rs], [module/global.rs]
    and the function types of an engine ([engine/func_types.rs]).

    The sections themselves come from [wasmparser], as lists of their items.  A
    [Module] is a [ModuleHeader] of [Header] with the parts only instantiation
    reads. *)

From Stdlib Require Import ZArith Lia.
From stdpp Require Import base option numbers gmap decidable list.
From S2P Require Import Prelude Value MemoryType Table Cells Arena Store InitExpr Header Keeps.
Local Open Scope Z_scope.

Notation Bytes := (list Z) (only parsing).

(** ** What the parser hands over: [wasmparser]'s types *)

Inductive WasmRefType : Type := WasmRef_FUNCREF | WasmRef_EXTERNREF | WasmRef_unsupported.
Inductive WasmValType : Type :=
| WasmVal_I32 | WasmVal_I64 | WasmVal_F32 | WasmVal_F64 | WasmVal_V128 | WasmVal_Ref (ty : WasmRefType).

Record WasmTableType : Type := {
  wtt_element_type : WasmRefType;
  wtt_table64 : bool;
  wtt_initial : Z;
  wtt_maximum : option Z
}.
Record WasmMemoryType : Type := {
  wmt_memory64 : bool;
  wmt_shared : bool;
  wmt_initial : Z;
  wmt_maximum : option Z;
  wmt_page_size_log2 : option Z
}.
Record WasmGlobalType : Type := { wgt_content_type : WasmValType; wgt_mutable : bool }.
Record WasmFuncType : Type := { wft_params : list WasmValType; wft_results : list WasmValType }.

Inductive WasmTypeRef : Type :=
| TypeRef_Func (ty : Z)
| TypeRef_Table (ty : WasmTableType)
| TypeRef_Memory (ty : WasmMemoryType)
| TypeRef_Global (ty : WasmGlobalType)
| TypeRef_Tag.
Record WasmImport : Type := { wi_module : Bytes; wi_name : Bytes; wi_ty : WasmTypeRef }.
Record WasmGlobal : Type := { wg_ty : WasmGlobalType; wg_init_expr : list WasmConstOp }.

(** [module/utils.rs]: what Wasmi does not support is a panic. *)
Definition WasmiRefType_from {E} (ref_type : WasmRefType) : res E RefType :=
  match ref_type with
  | WasmRef_FUNCREF => Ok RefType_Func
  | WasmRef_EXTERNREF => Ok RefType_Extern
  | WasmRef_unsupported => Panic
  end.

Definition WasmiValueType_from {E} (value_type : WasmValType) : res E ValType :=
  match value_type with
  | WasmVal_I32 => Ok ValType_I32
  | WasmVal_I64 => Ok ValType_I64
  | WasmVal_F32 => Ok ValType_F32
  | WasmVal_F64 => Ok ValType_F64
  | WasmVal_V128 => Ok ValType_V128
  | WasmVal_Ref ref_type => ValType_from_RefType <$> WasmiRefType_from ref_type
  end.

Definition TableType_from_wasmparser {E} (table_type : WasmTableType) : res E TableType :=
  element ← WasmiRefType_from (wtt_element_type table_type);
  let minimum := wtt_initial table_type in
  let maximum := wtt_maximum table_type in
  if wtt_table64 table_type then TableType_new64 element minimum maximum
  else
    minimum ← expect (try_from_u 32 minimum);
    maximum ← expect (transpose_try_from_u 32 maximum);
    TableType_new element minimum maximum.

Section Conversions.
Context `{Target}.

(** [build().unwrap_or_else(..)]. *)
Definition MemoryType_from_wasmparser {E} (memory_type : WasmMemoryType) : res E MemoryType :=
  assert_that (negb (wmt_shared memory_type));;
  let b := MemoryTypeBuilder_default in
  let b := MemoryTypeBuilder_min (wmt_initial memory_type) b in
  let b := MemoryTypeBuilder_max (wmt_maximum memory_type) b in
  let b := MemoryTypeBuilder_memory64 (wmt_memory64 memory_type) b in
  b ← match wmt_page_size_log2 memory_type with
      | Some page_size_log2 =>
          page_size_log2 ← expect (try_from_u 8 page_size_log2);
          Ok (MemoryTypeBuilder_page_size_log2 page_size_log2 b)
      | None => Ok b
      end;
  match MemoryTypeBuilder_build b with Ok ty => Ok ty | _ => Panic end.

Definition GlobalType_from_wasmparser {E} (global_type : WasmGlobalType) : res E GlobalType :=
  value_type ← WasmiValueType_from (wgt_content_type global_type);
  let mutability := if wgt_mutable global_type then Mutability_Var else Mutability_Const in
  Ok {| gt_content := value_type; gt_mutability := mutability |}.

Fixpoint value_types_from {E} (tys : list WasmValType) : res E (list ValType) :=
  match tys with
  | [] => Ok []
  | ty :: tys => ty ← WasmiValueType_from ty; rest ← value_types_from tys; Ok (ty :: rest)
  end.
Definition FuncType_from_wasmparser {E} (func_type : WasmFuncType) : res E FuncType :=
  params ← value_types_from (wft_params func_type);
  results ← value_types_from (wft_results func_type);
  ApiFuncType_new params results.

(** ** Names and types of imports *)

Record ImportName : Type := { in_module : Bytes; in_field : Bytes }.

#[export] Instance ImportName_eq_dec : EqDecision ImportName.
Proof. solve_decision. Defined.

Definition ImportName_new (module field : Bytes) : ImportName := {| in_module := module; in_field := field |}.

Inductive ExternTypeIdx : Type :=
| ExternTypeIdx_Func (idx : Z)
| ExternTypeIdx_Table (ty : TableType)
| ExternTypeIdx_Memory (ty : MemoryType)
| ExternTypeIdx_Global (ty : GlobalType).

Record Import : Type := { imp_name : ImportName; imp_kind : ExternTypeIdx }.

Definition Import_new (module field : Bytes) (kind : ExternTypeIdx) : Import :=
  {| imp_name := ImportName_new module field; imp_kind := kind |}.
Definition into_name_and_type (self : Import) : ImportName * ExternTypeIdx := (imp_name self, imp_kind self).

Definition Import_from {E} (import : WasmImport) : res E Import :=
  kind ← match wi_ty import with
         | TypeRef_Func ty => Ok (ExternTypeIdx_Func ty)
         | TypeRef_Table ty => ExternTypeIdx_Table <$> TableType_from_wasmparser ty
         | TypeRef_Memory ty => ExternTypeIdx_Memory <$> MemoryType_from_wasmparser ty
         | TypeRef_Global ty => ExternTypeIdx_Global <$> GlobalType_from_wasmparser ty
         | TypeRef_Tag => Panic
         end;
  Ok (Import_new (wi_module import) (wi_name import) kind).
End Conversions.

Inductive ExternType : Type :=
| ExternType_Global (ty : GlobalType)
| ExternType_Table (ty : TableType)
| ExternType_Memory (ty : MemoryType)
| ExternType_Func (ty : FuncType).

Inductive Imported : Type :=
| Imported_Func (name : ImportName)
| Imported_Table (name : ImportName)
| Imported_Memory (name : ImportName)
| Imported_Global (name : ImportName).

Record ModuleImports : Type := {
  mi_items : list Imported;
  mi_len_funcs : Z;
  mi_len_globals : Z;
  mi_len_memories : Z;
  mi_len_tables : Z
}.

Record ModuleImportsBuilder : Type := {
  mib_funcs : list ImportName;
  mib_tables : list ImportName;
  mib_memories : list ImportName;
  mib_globals : list ImportName
}.

Definition ModuleImportsBuilder_default : ModuleImportsBuilder :=
  {| mib_funcs := []; mib_tables := []; mib_memories := []; mib_globals := [] |}.

Definition ModuleImportsBuilder_finish (self : ModuleImportsBuilder) : ModuleImports := {|
  mi_items := (Imported_Func <$> mib_funcs self) ++ (Imported_Table <$> mib_tables self) ++
              (Imported_Memory <$> mib_memories self) ++ (Imported_Global <$> mib_globals self);
  mi_len_funcs := Z.of_nat (length (mib_funcs self));
  mi_len_globals := Z.of_nat (length (mib_globals self));
  mi_len_memories := Z.of_nat (length (mib_memories self));
  mi_len_tables := Z.of_nat (length (mib_tables self))
|}.

(** ** Exports, globals and segments *)

Inductive ExternIdx : Type :=
| ExternIdx_Func (index : Z)
| ExternIdx_Table (index : Z)
| ExternIdx_Memory (index : Z)
| ExternIdx_Global (index : Z).

(** [wasmparser::ExternalKind]. *)
Inductive ExternalKind : Type := Kind_Func | Kind_Table | Kind_Memory | Kind_Global | Kind_Tag.

Definition ExternIdx_new {E} (kind : ExternalKind) (index : Z) : res E ExternIdx :=
  match kind with
  | Kind_Func => Ok (ExternIdx_Func index)
  | Kind_Table => Ok (ExternIdx_Table index)
  | Kind_Memory => Ok (ExternIdx_Memory index)
  | Kind_Global => Ok (ExternIdx_Global index)
  | Kind_Tag => Panic
  end.

Record InitGlobal : Type := { ig_global_type : GlobalType; ig_init_expr : InitOp }.
Definition InitGlobal_from {E} (global : WasmGlobal) : res E InitGlobal :=
  global_type ← GlobalType_from_wasmparser (wg_ty global);
  init_expr ← ConstExpr_new (wg_init_expr global);
  Ok {| ig_global_type := global_type; ig_init_expr := init_expr |}.
Definition into_type_and_init (self : InitGlobal) : GlobalType * InitOp := (ig_global_type self, ig_init_expr self).

Record ActiveElementSegment : Type := { aes_table_index : Z; aes_offset : InitOp }.
Inductive ElementSegmentKind : Type :=
| ElementSegment_Passive
| ElementSegment_Active (active : ActiveElementSegment)
| ElementSegment_Declared.

Record InitElementSegment : Type := {
  ies_kind : ElementSegmentKind;
  ies_ty : RefType;
  ies_items : list InitOp
}.

(** [wasmparser::Element]; an item that fails to parse is [None]. *)
Inductive WasmElementKind : Type :=
| WasmElement_Active (table_index : option Z) (offset_expr : list WasmConstOp)
| WasmElement_Passive
| WasmElement_Declared.
Inductive WasmElementItems : Type :=
| WasmElement_Functions (items : list (option Z))
| WasmElement_Expressions (ty : WasmRefType) (items : list (option (list WasmConstOp))).

Definition ElementSegmentKind_from {E} (element_kind : WasmElementKind) : res E ElementSegmentKind :=
  match element_kind with
  | WasmElement_Active table_index offset_expr =>
      offset ← ConstExpr_new offset_expr;
      Ok (ElementSegment_Active {| aes_table_index := default 0 table_index; aes_offset := offset |})
  | WasmElement_Passive => Ok ElementSegment_Passive
  | WasmElement_Declared => Ok ElementSegment_Declared
  end.

(** [items.map(unwrap_or_else(panic)).map(f).collect()]. *)
Fixpoint unwrap_items {E A B} (f : A -> res E B) (items : list (option A)) : res E (list B) :=
  match items with
  | [] => Ok []
  | item :: items => item ← expect item; item ← f item; rest ← unwrap_items f items; Ok (item :: rest)
  end.

Definition InitElementSegment_from {E} (kind : WasmElementKind) (items : WasmElementItems) :
    res E InitElementSegment :=
  kind ← ElementSegmentKind_from kind;
  '(items, ty) ← match items with
                 | WasmElement_Functions items =>
                     items ← unwrap_items (fun item => Ok (ConstExpr_new_funcref item)) items;
                     Ok (items, RefType_Func)
                 | WasmElement_Expressions ref_ty items =>
                     ty ← WasmiRefType_from ref_ty;
                     items ← unwrap_items ConstExpr_new items;
                     Ok (items, ty)
                 end;
  Ok {| ies_kind := kind; ies_ty := ty; ies_items := items |}.

(** The bytes of all active data segments are kept in one vector. *)
Record ActiveDataSegment : Type := { ads_memory_index : Z; ads_offset : InitOp; ads_len : Z }.
Inductive DataSegmentInner : Type :=
| DataSegment_Active (active : ActiveDataSegment)
| DataSegment_Passive (bytes : list Z).

Record DataSegments : Type := { dss_segments : list DataSegmentInner; dss_bytes : list Z }.
Definition DataSegments_build : DataSegments := {| dss_segments := []; dss_bytes := [] |}.

(** [wasmparser::Data]. *)
Inductive WasmDataKind : Type := WasmData_Passive | WasmData_Active (memory_index : Z) (offset_expr : list WasmConstOp).

Definition push_init_data_segment {E} (kind : WasmDataKind) (data : list Z) : M DataSegments E unit :=
  self ← get_st;
  match kind with
  | WasmData_Passive =>
      put_st {| dss_segments := dss_segments self ++ [DataSegment_Passive data]; dss_bytes := dss_bytes self |}
  | WasmData_Active memory_index offset_expr =>
      offset ← lift (ConstExpr_new offset_expr);
      len ← lift (expect (try_from_u 32 (Z.of_nat (length data))));
      put_st {| dss_bytes := dss_bytes self ++ data;
                dss_segments := dss_segments self ++
                  [DataSegment_Active {| ads_memory_index := memory_index; ads_offset := offset; ads_len := len |}] |}
  end.

(** [InitDataSegmentIter]: [split_at] panics behind the end. *)
Inductive InitDataSegment : Type :=
| InitData_Active (memory_index : Z) (offset : InitOp) (bytes : list Z)
| InitData_Passive (bytes : list Z).

Definition InitDataSegmentIter_next {E} (self : DataSegments) :
    res E (option InitDataSegment * DataSegments) :=
  match dss_segments self with
  | [] => Ok (None, self)
  | DataSegment_Active segment :: segments =>
      bytes ← expect (get_to (ads_len segment) (dss_bytes self));
      rest ← expect (get_from (ads_len segment) (dss_bytes self));
      Ok (Some (InitData_Active (ads_memory_index segment) (ads_offset segment) bytes),
          {| dss_segments := segments; dss_bytes := rest |})
  | DataSegment_Passive bytes :: segments =>
      Ok (Some (InitData_Passive bytes), {| dss_segments := segments; dss_bytes := dss_bytes self |})
  end.

(** Running the iterator to its end: one turn for each segment. *)
Fixpoint init_data_segments {E} (n : nat) (self : DataSegments) : res E (list InitDataSegment) :=
  match n with
  | O => Ok []
  | S n =>
      '(segment, self) ← InitDataSegmentIter_next self;
      match segment with
      | None => Ok []
      | Some segment => segments ← init_data_segments n self; Ok (segment :: segments)
      end
  end.
Definition DataSegments_into_iter {E} (self : DataSegments) : res E (list InitDataSegment) :=
  init_data_segments (length (dss_segments self)) self.

(** ** Building the header *)

Record ModuleHeaderBuilder : Type := {
  hb_func_types : list Z;
  hb_imports : ModuleImportsBuilder;
  hb_funcs : list Z;
  hb_tables : list TableType;
  hb_memories : list MemoryType;
  hb_globals : list GlobalType;
  hb_globals_init : list InitOp;
  hb_exports : gmap Bytes ExternIdx;
  hb_start : option Z;
  hb_engine_funcs : EngineFuncSpan;
  hb_element_segments : list InitElementSegment
}.

Definition ModuleHeaderBuilder_new : ModuleHeaderBuilder := {|
  hb_func_types := []; hb_imports := ModuleImportsBuilder_default; hb_funcs := []; hb_tables := [];
  hb_memories := []; hb_globals := []; hb_globals_init := []; hb_exports := ∅; hb_start := None;
  hb_engine_funcs := EngineFuncSpan_empty; hb_element_segments := [] |}.

Definition hb_set_func_types v (b : ModuleHeaderBuilder) : ModuleHeaderBuilder := {|
  hb_func_types := v; hb_imports := hb_imports b; hb_funcs := hb_funcs b; hb_tables := hb_tables b;
  hb_memories := hb_memories b; hb_globals := hb_globals b; hb_globals_init := hb_globals_init b;
  hb_exports := hb_exports b; hb_start := hb_start b; hb_engine_funcs := hb_engine_funcs b;
  hb_element_segments := hb_element_segments b |}.
(** The imports with the items of all kinds. *)
Definition hb_set_items imports funcs tables memories globals (b : ModuleHeaderBuilder) : ModuleHeaderBuilder := {|
  hb_func_types := hb_func_types b; hb_imports := imports; hb_funcs := funcs; hb_tables := tables;
  hb_memories := memories; hb_globals := globals; hb_globals_init := hb_globals_init b;
  hb_exports := hb_exports b; hb_start := hb_start b; hb_engine_funcs := hb_engine_funcs b;
  hb_element_segments := hb_element_segments b |}.
Definition hb_set_rest globals_init exports start engine_funcs element_segments (b : ModuleHeaderBuilder) :
    ModuleHeaderBuilder := {|
  hb_func_types := hb_func_types b; hb_imports := hb_imports b; hb_funcs := hb_funcs b; hb_tables := hb_tables b;
  hb_memories := hb_memories b; hb_globals := hb_globals b; hb_globals_init := globals_init;
  hb_exports := exports; hb_start := start; hb_engine_funcs := engine_funcs;
  hb_element_segments := element_segments |}.

(** What the builder asks of its engine: a key for a function type and a span of
    new functions. *)
Class HeaderEngine (Engine : Type) : Type := {
  engine_alloc_func_type : FuncType -> M Engine Empty_set Z;
  engine_alloc_funcs : Z -> M Engine Empty_set EngineFuncSpan
}.

(** [iter.collect::<Result<_, _>>()]. *)
Fixpoint collect_results {E A} (iter : list (res E A)) : res E (list A) :=
  match iter with
  | [] => Ok []
  | item :: iter => item ← item; rest ← collect_results iter; Ok (item :: rest)
  end.

Section Builder.
Context {Engine E : Type} `{HeaderEngine Engine}.
Definition HBState : Type := Engine * ModuleHeaderBuilder.
Notation HB := (M HBState E).

Definition get_hb : HB ModuleHeaderBuilder := st ← get_st; mret (snd st).
Definition put_hb (self : ModuleHeaderBuilder) : HB unit := st ← get_st; put_st (fst st, self).
Definition on_engine {A} (m : M Engine Empty_set A) : HB A :=
  zoom fst (fun e st => (e, snd st)) (fun e : Empty_set => match e with end) m.
Definition is_nil {A} (l : list A) : bool := match l with [] => true | _ => false end.

(** The sections come as iterators of results. *)
Definition push_func_types (func_types : list (res E FuncType)) : HB unit :=
  self ← get_hb;
  assert_m (is_nil (hb_func_types self));;
  for_each (fun func_type =>
    func_type ← lift func_type;
    dedup ← on_engine (engine_alloc_func_type func_type);
    self ← get_hb;
    put_hb (hb_set_func_types (hb_func_types self ++ [dedup]) self)) func_types.

Definition push_import (import : Import) : HB unit :=
  self ← get_hb;
  let '(name, kind) := into_name_and_type import in
  let imports := hb_imports self in
  match kind with
  | ExternTypeIdx_Func func_type_idx =>
      func_type ← lift (index_or_panic (hb_func_types self) func_type_idx);
      put_hb (hb_set_items
        {| mib_funcs := mib_funcs imports ++ [name]; mib_tables := mib_tables imports;
           mib_memories := mib_memories imports; mib_globals := mib_globals imports |}
        (hb_funcs self ++ [func_type]) (hb_tables self) (hb_memories self) (hb_globals self) self)
  | ExternTypeIdx_Table table_type =>
      put_hb (hb_set_items
        {| mib_funcs := mib_funcs imports; mib_tables := mib_tables imports ++ [name];
           mib_memories := mib_memories imports; mib_globals := mib_globals imports |}
        (hb_funcs self) (hb_tables self ++ [table_type]) (hb_memories self) (hb_globals self) self)
  | ExternTypeIdx_Memory memory_type =>
      put_hb (hb_set_items
        {| mib_funcs := mib_funcs imports; mib_tables := mib_tables imports;
           mib_memories := mib_memories imports ++ [name]; mib_globals := mib_globals imports |}
        (hb_funcs self) (hb_tables self) (hb_memories self ++ [memory_type]) (hb_globals self) self)
  | ExternTypeIdx_Global global_type =>
      put_hb (hb_set_items
        {| mib_funcs := mib_funcs imports; mib_tables := mib_tables imports;
           mib_memories := mib_memories imports; mib_globals := mib_globals imports ++ [name] |}
        (hb_funcs self) (hb_tables self) (hb_memories self) (hb_globals self ++ [global_type]) self)
  end.

Definition push_imports (imports : list (res E Import)) : HB unit :=
  for_each (fun import => import ← lift import; push_import import) imports.

(** [len] is what the iterator says its length is: the count of the section. *)
Definition push_funcs (len : Z) (funcs : list (res E Z)) : HB unit :=
  self ← get_hb;
  assert_m (length (hb_funcs self) =? length (mib_funcs (hb_imports self)))%nat;;
  engine_funcs ← on_engine (engine_alloc_funcs len);
  self ← get_hb;
  put_hb (hb_set_rest (hb_globals_init self) (hb_exports self) (hb_start self) engine_funcs
    (hb_element_segments self) self);;
  for_each (fun func =>
    func_type_idx ← lift func;
    self ← get_hb;
    func_type ← lift (index_or_panic (hb_func_types self) func_type_idx);
    put_hb (hb_set_items (hb_imports self) (hb_funcs self ++ [func_type]) (hb_tables self) (hb_memories self)
      (hb_globals self) self)) funcs.

Definition push_tables (tables : list (res E TableType)) : HB unit :=
  self ← get_hb;
  assert_m (length (hb_tables self) =? length (mib_tables (hb_imports self)))%nat;;
  for_each (fun table =>
    table ← lift table;
    self ← get_hb;
    put_hb (hb_set_items (hb_imports self) (hb_funcs self) (hb_tables self ++ [table]) (hb_memories self)
      (hb_globals self) self)) tables.

Definition push_memories (memories : list (res E MemoryType)) : HB unit :=
  self ← get_hb;
  assert_m (length (hb_memories self) =? length (mib_memories (hb_imports self)))%nat;;
  for_each (fun memory =>
    memory ← lift memory;
    self ← get_hb;
    put_hb (hb_set_items (hb_imports self) (hb_funcs self) (hb_tables self) (hb_memories self ++ [memory])
      (hb_globals self) self)) memories.

Definition push_globals (globals : list (res E InitGlobal)) : HB unit :=
  self ← get_hb;
  assert_m (length (hb_globals self) =? length (mib_globals (hb_imports self)))%nat;;
  for_each (fun global =>
    global ← lift global;
    let '(global_decl, global_init) := into_type_and_init global in
    self ← get_hb;
    put_hb (hb_set_rest (hb_globals_init self ++ [global_init]) (hb_exports self) (hb_start self)
      (hb_engine_funcs self) (hb_element_segments self)
      (hb_set_items (hb_imports self) (hb_funcs self) (hb_tables self) (hb_memories self)
        (hb_globals self ++ [global_decl]) self))) globals.

Definition push_exports (exports : list (res E (Bytes * ExternIdx))) : HB unit :=
  self ← get_hb;
  assert_m (bool_decide (hb_exports self = ∅));;
  exports ← lift (collect_results exports);
  put_hb (hb_set_rest (hb_globals_init self) (foldl (fun m e => <[e.1 := e.2]> m) ∅ exports) (hb_start self)
    (hb_engine_funcs self) (hb_element_segments self) self).

Definition hb_set_start (start : Z) : HB unit :=
  self ← get_hb;
  match hb_start self with
  | Some _ => panic
  | None => put_hb (hb_set_rest (hb_globals_init self) (hb_exports self) (Some start) (hb_engine_funcs self)
              (hb_element_segments self) self)
  end.

Definition push_element_segments (elements : list (res E InitElementSegment)) : HB unit :=
  self ← get_hb;
  assert_m (is_nil (hb_element_segments self));;
  elements ← lift (collect_results elements);
  put_hb (hb_set_rest (hb_globals_init self) (hb_exports self) (hb_start self) (hb_engine_funcs self) elements self).
End Builder.

(** ** Modules *)

(** The inner header: the part that translation reads, and what only
    instantiation reads. *)
Record ModuleHeaderInner : Type := {
  mhi_header : ModuleHeader;
  mhi_imports : ModuleImports;
  mhi_exports : gmap Bytes ExternIdx;
  mhi_start : option Z;
  mhi_element_segments : list InitElementSegment
}.

Definition ModuleHeaderBuilder_finish (self : ModuleHeaderBuilder) : ModuleHeaderInner :=
  let imports := ModuleImportsBuilder_finish (hb_imports self) in {|
  mhi_header := {|
    mh_func_types := hb_func_types self;
    mh_len_imported_funcs := mi_len_funcs imports;
    mh_len_imported_globals := mi_len_globals imports;
    mh_funcs := hb_funcs self;
    mh_tables := hb_tables self;
    mh_memories := hb_memories self;
    mh_globals := hb_globals self;
    mh_globals_init := hb_globals_init self;
    mh_engine_funcs := hb_engine_funcs self |};
  mhi_imports := imports;
  mhi_exports := hb_exports self;
  mhi_start := hb_start self;
  mhi_element_segments := hb_element_segments self
|}.

(** *** Custom sections

    Names and data of all sections are kept in one vector. *)

Record CustomSectionInner : Type := { cs_len_name : Z; cs_len_data : Z }.
Record CustomSections : Type := { css_items : list CustomSectionInner; css_names_and_data : Bytes }.
Definition CustomSections_default : CustomSections := {| css_items := []; css_names_and_data := [] |}.
Definition CustomSections_push (name data : Bytes) (self : CustomSections) : CustomSections := {|
  css_names_and_data := css_names_and_data self ++ name ++ data;
  css_items := css_items self ++ [{| cs_len_name := Z.of_nat (length name); cs_len_data := Z.of_nat (length data) |}]
|}.

(** [split_at] panics behind the end. *)
Definition split_at {E A} (mid : Z) (l : list A) : res E (list A * list A) :=
  l1 ← expect (get_to mid l); l2 ← expect (get_from mid l); Ok (l1, l2).

Definition CustomSectionsIter_next {E} (self : CustomSections) :
    res E (option (Bytes * Bytes) * CustomSections) :=
  match css_items self with
  | [] => Ok (None, self)
  | item :: items =>
      '(name, names_and_data) ← split_at (cs_len_name item) (css_names_and_data self);
      '(data, names_and_data) ← split_at (cs_len_data item) names_and_data;
      Ok (Some (name, data), {| css_items := items; css_names_and_data := names_and_data |})
  end.

(** *** Modules and their builder *)

Record Module_ : Type := {
  mo_header_inner : ModuleHeaderInner;
  mo_data_segments : DataSegments;
  mo_custom_sections : CustomSections
}.
Definition mo_header (self : Module_) : ModuleHeader := mhi_header (mo_header_inner self).
Definition mo_imports (self : Module_) : ModuleImports := mhi_imports (mo_header_inner self).
Definition mo_exports (self : Module_) : gmap Bytes ExternIdx := mhi_exports (mo_header_inner self).
Definition mo_start (self : Module_) : option Z := mhi_start (mo_header_inner self).
Definition mo_element_segments (self : Module_) : list InitElementSegment :=
  mhi_element_segments (mo_header_inner self).

(** The builder differs from the module only in types that can still grow. *)
Definition ModuleBuilder_new (header : ModuleHeaderInner) (custom_sections : CustomSections) : Module_ :=
  {| mo_header_inner := header; mo_data_segments := DataSegments_build; mo_custom_sections := custom_sections |}.
Definition push_data_segment {E} (kind : WasmDataKind) (data : list Z) : M Module_ E unit :=
  zoom mo_data_segments
    (fun segments self => {| mo_header_inner := mo_header_inner self; mo_data_segments := segments;
                             mo_custom_sections := mo_custom_sections self |}) id
    (push_init_data_segment kind data).

Definition Module_len_funcs (self : Module_) : Z := Z.of_nat (length (mh_funcs (mo_header self))).
Definition Module_len_tables (self : Module_) : Z := Z.of_nat (length (mh_tables (mo_header self))).
Definition Module_len_memories (self : Module_) : Z := Z.of_nat (length (mh_memories (mo_header self))).
Definition Module_len_globals (self : Module_) : Z := Z.of_nat (length (mh_globals (mo_header self))).

(** [&items[len_imported..]]. *)
Definition skip_imported {E A} (len_imported : Z) (items : list A) : res E (list A) :=
  expect (get_from len_imported items).

Definition internal_tables {E} (self : Module_) : res E (list TableType) :=
  skip_imported (mi_len_tables (mo_imports self)) (mh_tables (mo_header self)).
Definition internal_memories {E} (self : Module_) : res E (list MemoryType) :=
  skip_imported (mi_len_memories (mo_imports self)) (mh_memories (mo_header self)).
Definition internal_globals {E} (self : Module_) : res E (list (GlobalType * InitOp)) :=
  globals ← skip_imported (mi_len_globals (mo_imports self)) (mh_globals (mo_header self));
  Ok (zip globals (mh_globals_init (mo_header self))).
Definition internal_funcs {E} (self : Module_) : res E (list (Z * Z)) :=
  funcs ← skip_imported (mi_len_funcs (mo_imports self)) (mh_funcs (mo_header self));
  let engine_funcs := mh_engine_funcs (mo_header self) in
  len ← EngineFuncSpan_len engine_funcs;
  assert_that (Z.of_nat (length funcs) =? len);;
  Ok (zip funcs (seqZ (efs_start engine_funcs) len)).

Section Types.
(** The function type of a key of the engine. *)
Variable resolve_func_type : Z -> FuncType.

(** [ModuleImportsIter]: the names with the next type of their kind. *)
Record ModuleImportsIter : Type := {
  it_names : list Imported;
  it_funcs : list Z;
  it_tables : list TableType;
  it_memories : list MemoryType;
  it_globals : list GlobalType
}.

Definition Module_imports {E} (self : Module_) : res E ModuleImportsIter :=
  let header := mo_header self in
  let imports := mo_imports self in
  funcs ← expect (get_to (mi_len_funcs imports) (mh_funcs header));
  tables ← expect (get_to (mi_len_tables imports) (mh_tables header));
  memories ← expect (get_to (mi_len_memories imports) (mh_memories header));
  globals ← expect (get_to (mi_len_globals imports) (mh_globals header));
  Ok {| it_names := mi_items imports; it_funcs := funcs; it_tables := tables; it_memories := memories;
        it_globals := globals |}.

Definition ModuleImportsIter_next {E} (self : ModuleImportsIter) :
    res E (option (ImportName * ExternType) * ModuleImportsIter) :=
  match it_names self with
  | [] => Ok (None, self)
  | imported :: names =>
      match imported with
      | Imported_Func name =>
          match it_funcs self with
          | [] => Panic
          | func_type :: funcs =>
              Ok (Some (name, ExternType_Func (resolve_func_type func_type)),
                  {| it_names := names; it_funcs := funcs; it_tables := it_tables self;
                     it_memories := it_memories self; it_globals := it_globals self |})
          end
      | Imported_Table name =>
          match it_tables self with
          | [] => Panic
          | table_type :: tables =>
              Ok (Some (name, ExternType_Table table_type),
                  {| it_names := names; it_funcs := it_funcs self; it_tables := tables;
                     it_memories := it_memories self; it_globals := it_globals self |})
          end
      | Imported_Memory name =>
          match it_memories self with
          | [] => Panic
          | memory_type :: memories =>
              Ok (Some (name, ExternType_Memory memory_type),
                  {| it_names := names; it_funcs := it_funcs self; it_tables := it_tables self;
                     it_memories := memories; it_globals := it_globals self |})
          end
      | Imported_Global name =>
          match it_globals self with
          | [] => Panic
          | global_type :: globals =>
              Ok (Some (name, ExternType_Global global_type),
                  {| it_names := names; it_funcs := it_funcs self; it_tables := it_tables self;
                     it_memories := it_memories self; it_globals := globals |})
          end
      end
  end.

(** All imports: one turn for each name. *)
Fixpoint import_types {E} (n : nat) (self : ModuleImportsIter) : res E (list (ImportName * ExternType)) :=
  match n with
  | O => Ok []
  | S n =>
      '(import, self) ← ModuleImportsIter_next self;
      match import with
      | None => Ok []
      | Some import => imports ← import_types n self; Ok (import :: imports)
      end
  end.
Definition Module_import_types {E} (self : Module_) : res E (list (ImportName * ExternType)) :=
  iter ← Module_imports self; import_types (length (it_names iter)) iter.

Definition get_extern_type {E} (self : Module_) (idx : ExternIdx) : res E ExternType :=
  let header := mo_header self in
  match idx with
  | ExternIdx_Func index =>
      (fun dedup => ExternType_Func (resolve_func_type dedup)) <$> index_or_panic (mh_funcs header) index
  | ExternIdx_Table index => ExternType_Table <$> index_or_panic (mh_tables header) index
  | ExternIdx_Memory index => ExternType_Memory <$> index_or_panic (mh_memories header) index
  | ExternIdx_Global index => ExternType_Global <$> index_or_panic (mh_globals header) index
  end.

Definition Module_get_export {E} (self : Module_) (name : Bytes) : res E (option ExternType) :=
  match mo_exports self !! name with
  | None => Ok None
  | Some idx => Some <$> get_extern_type self idx
  end.
End Types.

(** ** Imports, data segments and custom sections of modules

    The imports of a module are listed once each, with their types, grouped by
    kind; segments and custom sections are read back as they were pushed. *)

(** ** Imports *)

(** The lists of entities start with those of the imports; every other global has
    an initial value. *)
Definition imports_inv (hb : ModuleHeaderBuilder) : Prop :=
  (length (mib_funcs (hb_imports hb)) <= length (hb_funcs hb))%nat /\
  (length (mib_tables (hb_imports hb)) <= length (hb_tables hb))%nat /\
  (length (mib_memories (hb_imports hb)) <= length (hb_memories hb))%nat /\
  (length (mib_globals (hb_imports hb)) + length (hb_globals_init hb) = length (hb_globals hb))%nat.

Section Imports.
Context {E : Type} (resolve_func_type : Z -> FuncType).
Notation import_types := (import_types (E := E) resolve_func_type).

(** The imports with their types, in the order of the iterator. *)
Definition imports_of (hb : ModuleHeaderBuilder) : list (ImportName * ExternType) :=
  zip_with (fun name dedup => (name, ExternType_Func (resolve_func_type dedup))) (mib_funcs (hb_imports hb)) (hb_funcs hb) ++
  zip_with (fun name ty => (name, ExternType_Table ty)) (mib_tables (hb_imports hb)) (hb_tables hb) ++
  zip_with (fun name ty => (name, ExternType_Memory ty)) (mib_memories (hb_imports hb)) (hb_memories hb) ++
  zip_with (fun name ty => (name, ExternType_Global ty)) (mib_globals (hb_imports hb)) (hb_globals hb).

Lemma import_types_funcs names : forall funcs rest tables memories globals n, length funcs = length names ->
  import_types (length names + n) {| it_names := (Imported_Func <$> names) ++ rest; it_funcs := funcs;
    it_tables := tables; it_memories := memories; it_globals := globals |} =
  (l ← import_types n {| it_names := rest; it_funcs := []; it_tables := tables; it_memories := memories;
     it_globals := globals |};
   Ok (zip_with (fun name dedup => (name, ExternType_Func (resolve_func_type dedup))) names funcs ++ l)).
Proof.
  induction names as [|name names IH]; intros [|f funcs] rest tables memories globals n Hl; try done.
  - cbn. by destruct (import_types n _).
  - cbn in *. rewrite IH by lia. cbn. by destruct (import_types n _).
Qed.
Lemma import_types_tables names : forall tables rest memories globals n, length tables = length names ->
  import_types (length names + n) {| it_names := (Imported_Table <$> names) ++ rest; it_funcs := [];
    it_tables := tables; it_memories := memories; it_globals := globals |} =
  (l ← import_types n {| it_names := rest; it_funcs := []; it_tables := []; it_memories := memories;
     it_globals := globals |};
   Ok (zip_with (fun name ty => (name, ExternType_Table ty)) names tables ++ l)).
Proof.
  induction names as [|name names IH]; intros [|f tables] rest memories globals n Hl; try done.
  - cbn. by destruct (import_types n _).
  - cbn in *. rewrite IH by lia. cbn. by destruct (import_types n _).
Qed.
Lemma import_types_memories names : forall memories rest globals n, length memories = length names ->
  import_types (length names + n) {| it_names := (Imported_Memory <$> names) ++ rest; it_funcs := [];
    it_tables := []; it_memories := memories; it_globals := globals |} =
  (l ← import_types n {| it_names := rest; it_funcs := []; it_tables := []; it_memories := [];
     it_globals := globals |};
   Ok (zip_with (fun name ty => (name, ExternType_Memory ty)) names memories ++ l)).
Proof.
  induction names as [|name names IH]; intros [|f memories] rest globals n Hl; try done.
  - cbn. by destruct (import_types n _).
  - cbn in *. rewrite IH by lia. cbn. by destruct (import_types n _).
Qed.
Lemma import_types_globals names : forall globals, length globals = length names ->
  import_types (length names) {| it_names := Imported_Global <$> names; it_funcs := [];
    it_tables := []; it_memories := []; it_globals := globals |} =
  Ok (zip_with (fun name ty => (name, ExternType_Global ty)) names globals).
Proof. induction names as [|name names IH]; intros [|f globals] Hl; try done. cbn in *. by rewrite IH by lia. Qed.

Lemma get_to_length {A B} (k : list A) (l : list B) : (length k <= length l)%nat ->
  get_to (Z.of_nat (length k)) l = Some (take (length k) l).
Proof. intros Hl. unfold get_to. case_if; zb; [by rewrite Nat2Z.id|lia]. Qed.
Lemma get_from_length {A B} (k : list A) (l : list B) : (length k <= length l)%nat ->
  get_from (Z.of_nat (length k)) l = Some (drop (length k) l).
Proof. intros Hl. unfold get_from. case_if; zb; [by rewrite Nat2Z.id|lia]. Qed.

Lemma zip_with_take_r {A B D} (f : A -> B -> D) k : forall l, zip_with f k (take (length k) l) = zip_with f k l.
Proof. induction k as [|x k IH]; intros [|y l]; cbn; [done..|]. by rewrite IH. Qed.

(** Listing the imports does not panic and gives each import with its type. *)
Lemma Module_import_types_run hb data css : imports_inv hb ->
  let module := {| mo_header_inner := ModuleHeaderBuilder_finish hb; mo_data_segments := data;
                   mo_custom_sections := css |} in
  exists iter, Module_imports (E := E) module = Ok iter /\
    length (it_names iter) = length (imports_of hb) /\
    import_types (length (it_names iter)) iter = Ok (imports_of hb).
Proof.
  intros (H1 & H2 & H3 & H4'). cbv zeta.
  assert (length (mib_globals (hb_imports hb)) <= length (hb_globals hb))%nat as H4 by lia. unfold Module_imports, mo_header, mo_imports.
  cbn [mo_header_inner ModuleHeaderBuilder_finish mhi_imports mhi_header ModuleImportsBuilder_finish mi_len_funcs
    mi_len_tables mi_len_memories mi_len_globals mh_funcs mh_tables mh_memories mh_globals mi_items].
  rewrite !get_to_length by done. cbn [expect mbind res_bind].
  eexists. split; [reflexivity|]. cbn [it_names].
  rewrite !length_app, !length_fmap. unfold imports_of. rewrite !length_app, !length_zip_with.
  split; [lia|].
  rewrite import_types_funcs, import_types_tables, import_types_memories, import_types_globals
    by (rewrite length_take; lia).
  cbn. by rewrite !zip_with_take_r.
Qed.
End Imports.

(** ** Segments *)

Section Segments.
Context {E : Type}.

(** What the iterator yields for a segment that was pushed. *)
Inductive pushed_segment : WasmDataKind * list Z -> InitDataSegment -> Prop :=
| pushed_passive bytes : pushed_segment (WasmData_Passive, bytes) (InitData_Passive bytes)
| pushed_active memory_index offset_expr offset bytes :
    ConstExpr_new (E := E) offset_expr = Ok offset ->
    pushed_segment (WasmData_Active memory_index offset_expr, bytes) (InitData_Active memory_index offset bytes).

Notation push_all := (for_each (fun segment => push_init_data_segment (E := E) segment.1 segment.2)).

(** What the segments [dss_segments] with bytes [bytes] yield, and what is left. *)
Fixpoint segments_of (segments : list DataSegmentInner) (bytes : list Z) : option (list InitDataSegment * list Z) :=
  match segments with
  | [] => Some ([], bytes)
  | DataSegment_Passive b :: segments =>
      '(l, rest) ← segments_of segments bytes; Some (InitData_Passive b :: l, rest)
  | DataSegment_Active s :: segments =>
      b ← get_to (ads_len s) bytes; rest ← get_from (ads_len s) bytes;
      '(l, rest) ← segments_of segments rest; Some (InitData_Active (ads_memory_index s) (ads_offset s) b :: l, rest)
  end.

Lemma init_data_segments_run segments : forall bytes l rest, segments_of segments bytes = Some (l, rest) ->
  init_data_segments (E := E) (length segments) {| dss_segments := segments; dss_bytes := bytes |} = Ok l.
Proof.
  induction segments as [|[s|b] segments IH]; intros bytes l rest; cbn.
  - by intros [= <- _].
  - unfold InitDataSegmentIter_next. cbn. destruct (get_to _ _); [|done]. destruct (get_from _ _) as [bytes'|]; [|done].
    cbn. destruct (segments_of segments bytes') as [[l' rest']|] eqn:Es; [|done]. intros [= <- _].
    by rewrite (IH _ _ _ Es).
  - unfold InitDataSegmentIter_next. cbn. destruct (segments_of segments bytes) as [[l' rest']|] eqn:Es; [|done].
    intros [= <- _]. by rewrite (IH _ _ _ Es).
Qed.

Lemma segments_of_app segments1 : forall segments2 bytes bytes' l1,
  segments_of segments1 bytes = Some (l1, []) ->
  segments_of (segments1 ++ segments2) (bytes ++ bytes') =
  ('(l2, rest) ← segments_of segments2 bytes'; Some (l1 ++ l2, rest)).
Proof.
  induction segments1 as [|[s|b] segments1 IH]; intros segments2 bytes bytes' l1; cbn.
  - intros [= <- ->]. cbn. by destruct (segments_of _ _) as [[]|].
  - unfold get_to, get_from. rewrite length_app. case_if; zb; [|done]. cbn.
    rewrite (proj2 (Z.leb_le _ _)) by lia. cbn. rewrite take_app_le, drop_app_le by lia.
    destruct (segments_of segments1 _) as [[l' rest']|] eqn:Es; [|done]. intros [= <- ->].
    rewrite (IH _ _ _ _ Es). by destruct (segments_of segments2 _) as [[]|].
  - destruct (segments_of segments1 _) as [[l' rest']|] eqn:Es; [|done]. intros [= <- ->].
    rewrite (IH _ _ _ _ Es). by destruct (segments_of segments2 _) as [[]|].
Qed.

Definition segments_repr (self : DataSegments) (l : list InitDataSegment) : Prop :=
  segments_of (dss_segments self) (dss_bytes self) = Some (l, []).

Lemma push_init_data_segment_repr kind data self self' l : segments_repr self l ->
  push_init_data_segment (E := E) kind data self = (Ok tt, self') ->
  exists segment, pushed_segment (kind, data) segment /\ segments_repr self' (l ++ [segment]).
Proof.
  intros Hl. unfold push_init_data_segment. rewrite bind_get_st. destruct kind as [|memory_index offset_expr].
  - intros [= <-]. eexists. split; [constructor|]. unfold segments_repr. cbn.
    rewrite <- (app_nil_r (dss_bytes self)). by rewrite (segments_of_app _ _ _ _ _ Hl).
  - rewrite bind_lift. destruct (ConstExpr_new offset_expr) as [offset|e|] eqn:Eo; [|done..].
    rewrite bind_lift. destruct (try_from_u 32 _) as [len|] eqn:El; [|done].
    apply try_from_u_Some in El as [-> _]. intros [= <-]. eexists. split; [by constructor|].
    unfold segments_repr. cbn. rewrite (segments_of_app _ _ _ _ _ Hl). cbn.
    rewrite get_to_length, get_from_length by lia. cbn. by rewrite firstn_all, drop_all.
Qed.

(** Segments are read back as they were pushed. *)
Lemma data_segments_roundtrip l : forall self self' l0, segments_repr self l0 ->
  push_all l self = (Ok tt, self') ->
  exists l', Forall2 pushed_segment l l' /\ DataSegments_into_iter (E := E) self' = Ok (l0 ++ l').
Proof.
  induction l as [|[kind data] l IH]; intros self self' l0 Hl; cbn.
  - intros [= <-]. exists []. split; [constructor|]. rewrite app_nil_r.
    unfold DataSegments_into_iter. destruct self. by eapply init_data_segments_run.
  - intros H. apply bind_Ok_inv in H as ([] & s1 & H1 & H).
    destruct (push_init_data_segment_repr _ _ _ _ _ Hl H1) as (segment & Hp & Hl1).
    destruct (IH _ _ _ Hl1 H) as (l' & Hf & Hi). exists (segment :: l'). split; [by constructor|].
    by rewrite Hi, <- app_assoc.
Qed.
End Segments.

(** ** Custom sections *)

(** What the iterator yields, one turn for each section. *)
Fixpoint custom_sections_of (n : nat) (self : CustomSections) : option (list (Bytes * Bytes)) :=
  match n with
  | O => Some []
  | S n => match CustomSectionsIter_next (E := unit) self with
           | Ok (Some section, self) => cons section <$> custom_sections_of n self
           | Ok (None, _) => Some []
           | _ => None
           end
  end.

Definition custom_repr (self : CustomSections) (l : list (Bytes * Bytes)) : Prop := forall k items' bytes',
  custom_sections_of (length (css_items self) + k)
    {| css_items := css_items self ++ items'; css_names_and_data := css_names_and_data self ++ bytes' |} =
  app l <$> custom_sections_of k {| css_items := items'; css_names_and_data := bytes' |}.

Lemma split_at_app {E A} (l1 l2 : list A) : split_at (E := E) (Z.of_nat (length l1)) (l1 ++ l2) = Ok (l1, l2).
Proof.
  unfold split_at. rewrite get_to_length, get_from_length by (rewrite length_app; lia). cbn.
  by rewrite take_app_length, drop_app_length.
Qed.

Lemma CustomSections_push_repr name data self l : custom_repr self l ->
  custom_repr (CustomSections_push name data self) (l ++ [(name, data)]).
Proof.
  intros Hl k items' bytes'. unfold CustomSections_push. cbn [css_items css_names_and_data].
  rewrite length_app. cbn [length]. rewrite <- Nat.add_assoc, <- !app_assoc, Hl. cbn [Nat.add app custom_sections_of].
  unfold CustomSectionsIter_next. cbn [css_items css_names_and_data cs_len_name cs_len_data].
  rewrite split_at_app. cbn [mbind res_bind]. rewrite split_at_app. cbn [mbind res_bind].
  destruct (custom_sections_of k _) as [l'|]; cbn; [|done]. by rewrite <- app_assoc.
Qed.

(** Custom sections are read back as they were pushed. *)
Lemma custom_sections_roundtrip l :
  let self := foldl (fun self section => CustomSections_push section.1 section.2 self) CustomSections_default l in
  custom_sections_of (length (css_items self)) self = Some l.
Proof.
  cbv zeta. cut (forall self l0, custom_repr self l0 ->
    custom_repr (foldl (fun self section => CustomSections_push section.1 section.2 self) self l) (l0 ++ l)).
  - intros H. pose proof (H CustomSections_default []) as K. destruct (foldl _ _ l) as [items bytes].
    specialize (K ltac:(intros k items' bytes'; cbn; by destruct (custom_sections_of _ _)) 0%nat [] []).
    cbn in K. by rewrite Nat.add_0_r, !app_nil_r in K.
  - induction l as [|[name data] l IH]; intros self l0 Hl; cbn; [by rewrite app_nil_r|].
    change ((name, data) :: l) with ([(name, data)] ++ l). rewrite app_assoc. by apply IH, CustomSections_push_repr.
Qed.
