(* ===== verification/Engine.v ===== *)
(** * The engine

    [engine/mod.rs]: the registry of function types ([engine/func_types.rs]), the
    allocations and stacks that are kept for reuse, the limits
    ([engine/limits]) and the configuration ([engine/config.rs]), and what happens
    to a function body in each compilation mode.

    The locks around the parts of an engine are left out: every operation below
    runs with its lock held. *)

From Stdlib Require Import ZArith Lia.
From stdpp Require Import base option decidable numbers countable gmap list.
From S2P Require Import Prelude Value Fuel Limiter Cells ExecStack Arena Header CodeMap Keeps Modules.
Local Open Scope Z_scope.

(** ** Engine identifiers *)

Definition EngineId : Type := Z.
Record EngineOwned (A : Type) : Type := { eo_engine : EngineId; eo_value : A }.
Arguments eo_engine {A} _.
Arguments eo_value {A} _.

Definition EngineId_wrap {A} (self : EngineId) (value : A) : EngineOwned A :=
  {| eo_engine := self; eo_value := value |}.
Definition EngineId_unwrap {A} (self : EngineId) (owned : EngineOwned A) : option A :=
  if negb (self =? eo_engine owned) then None else Some (eo_value owned).

(** ** The registry of function types *)

#[export] Instance ValType_countable : Countable ValType.
Proof.
  refine (inj_countable'
    (fun t => match t with
              | ValType_I32 => 0 | ValType_I64 => 1 | ValType_F32 => 2 | ValType_F64 => 3
              | ValType_V128 => 4 | ValType_FuncRef => 5 | ValType_ExternRef => 6 end)
    (fun n => match n with
              | 0 => ValType_I32 | 1 => ValType_I64 | 2 => ValType_F32 | 3 => ValType_F64
              | 4 => ValType_V128 | 5 => ValType_FuncRef | _ => ValType_ExternRef end) _).
  by intros [].
Defined.

#[export] Instance FuncType_countable : Countable FuncType.
Proof.
  refine (inj_countable'
    (fun t => match ft_inner t with
              | FT_Inline len_params len_results params_results =>
                  (true, len_params, len_results, params_results)
              | FT_Big len_params params_results => (false, len_params, 0, params_results) end)
    (fun x => let '(inline, len_params, len_results, params_results) := x in
              {| ft_inner := if inline : bool then FT_Inline len_params len_results params_results
                             else FT_Big len_params params_results |}) _).
  by intros [[]].
Defined.

Notation DedupFuncTypeKey := (EngineOwned RawHandle) (only parsing).

Section Registry.
Context {T : Target} {Alloc : Allocator} {Sf : SizeOf FuncType}.

Record FuncTypeRegistry : Type := { ftr_engine_id : EngineId; ftr_func_types : DedupArena RawHandle FuncType }.

Definition FuncTypeRegistry_new (engine_id : EngineId) : FuncTypeRegistry :=
  {| ftr_engine_id := engine_id; ftr_func_types := DedupArena_new |}.

Definition ftr_unwrap_or_panic {E A} (self : FuncTypeRegistry) (func_type : EngineOwned A) : res E A :=
  expect (EngineId_unwrap (ftr_engine_id self) func_type).

Definition ftr_alloc_func_type {E} (func_type : FuncType) : M FuncTypeRegistry E DedupFuncTypeKey := fun self =>
  match DedupArena_alloc func_type (ftr_func_types self) with
  | (Ok key, a) => (Ok (EngineId_wrap (ftr_engine_id self) key),
                    {| ftr_engine_id := ftr_engine_id self; ftr_func_types := a |})
  | (_, a) => (Panic, {| ftr_engine_id := ftr_engine_id self; ftr_func_types := a |})
  end.

Definition ftr_resolve_func_type {E} (self : FuncTypeRegistry) (key : DedupFuncTypeKey) : res E FuncType :=
  raw_key ← ftr_unwrap_or_panic self key;
  match DedupArena_get (ftr_func_types self) raw_key with Ok ty => Ok ty | _ => Panic end.
End Registry.

(** ** Reusable allocations *)

Section Reuse.
Context {TranslatorAllocs ValidatorAllocs : Type} {default_t : TranslatorAllocs} {default_v : ValidatorAllocs}.

Record ReusableAllocationStack : Type := {
  ras_max_height : Z;
  ras_translation : list TranslatorAllocs;
  ras_validation : list ValidatorAllocs
}.

Definition ReusableAllocationStack_default : ReusableAllocationStack :=
  {| ras_max_height := 1; ras_translation := []; ras_validation := [] |}.

(** The top of a stack is the last element. *)
Definition pop {A} (l : list A) : option A * list A := (last l, take (length l - 1) l).

Definition get_translation_allocs {E} : M ReusableAllocationStack E TranslatorAllocs := fun self =>
  let '(top, translation) := pop (ras_translation self) in
  (Ok (default default_t top), {| ras_max_height := ras_max_height self; ras_translation := translation;
                                  ras_validation := ras_validation self |}).
Definition get_validation_allocs {E} : M ReusableAllocationStack E ValidatorAllocs := fun self =>
  let '(top, validation) := pop (ras_validation self) in
  (Ok (default default_v top), {| ras_max_height := ras_max_height self; ras_translation := ras_translation self;
                                  ras_validation := validation |}).

Definition recycle_translation_allocs {E} (recycled : TranslatorAllocs) : M ReusableAllocationStack E unit :=
  self ← get_st;
  let len := Z.of_nat (length (ras_translation self)) in
  assert_m (len <=? ras_max_height self);;
  if ras_max_height self <=? len then mret tt
  else put_st {| ras_max_height := ras_max_height self; ras_translation := ras_translation self ++ [recycled];
                 ras_validation := ras_validation self |}.
Definition recycle_validation_allocs {E} (recycled : ValidatorAllocs) : M ReusableAllocationStack E unit :=
  self ← get_st;
  let len := Z.of_nat (length (ras_validation self)) in
  assert_m (len <=? ras_max_height self);;
  if ras_max_height self <=? len then mret tt
  else put_st {| ras_max_height := ras_max_height self; ras_translation := ras_translation self;
                 ras_validation := ras_validation self ++ [recycled] |}.
End Reuse.
Arguments ReusableAllocationStack TranslatorAllocs ValidatorAllocs : clear implicits.

(** ** Configuration *)

Record StackConfig : Type := {
  sc_max_recursion_depth : Z;
  sc_min_stack_height : Z;
  sc_max_stack_height : Z;
  sc_max_cached_stacks : Z
}.
Definition DEFAULT_MAX_RECURSION_DEPTH : Z := 1000.
Definition DEFAULT_MIN_STACK_HEIGHT : Z := 1000.
Definition DEFAULT_MAX_STACK_HEIGHT : Z := 1000000.
Definition DEFAULT_MAX_CACHED_STACKS : Z := 2.
Definition StackConfig_default : StackConfig := {|
  sc_max_recursion_depth := DEFAULT_MAX_RECURSION_DEPTH;
  sc_min_stack_height := DEFAULT_MIN_STACK_HEIGHT;
  sc_max_stack_height := DEFAULT_MAX_STACK_HEIGHT;
  sc_max_cached_stacks := DEFAULT_MAX_CACHED_STACKS
|}.

Inductive StackConfigError : Type := MinStackHeightExceedsMax.

Definition set_max_recursion_depth (value : Z) (self : StackConfig) : StackConfig :=
  {| sc_max_recursion_depth := value; sc_min_stack_height := sc_min_stack_height self;
     sc_max_stack_height := sc_max_stack_height self; sc_max_cached_stacks := sc_max_cached_stacks self |}.
Definition set_min_stack_height (value : Z) : M StackConfig StackConfigError unit :=
  self ← get_st;
  if sc_max_stack_height self <? value then fail MinStackHeightExceedsMax
  else put_st {| sc_max_recursion_depth := sc_max_recursion_depth self; sc_min_stack_height := value;
                 sc_max_stack_height := sc_max_stack_height self;
                 sc_max_cached_stacks := sc_max_cached_stacks self |}.
Definition set_max_stack_height (value : Z) : M StackConfig StackConfigError unit :=
  self ← get_st;
  if value <? sc_min_stack_height self then fail MinStackHeightExceedsMax
  else put_st {| sc_max_recursion_depth := sc_max_recursion_depth self;
                 sc_min_stack_height := sc_min_stack_height self; sc_max_stack_height := value;
                 sc_max_cached_stacks := sc_max_cached_stacks self |}.
Definition set_max_cached_stacks (value : Z) (self : StackConfig) : StackConfig :=
  {| sc_max_recursion_depth := sc_max_recursion_depth self; sc_min_stack_height := sc_min_stack_height self;
     sc_max_stack_height := sc_max_stack_height self; sc_max_cached_stacks := value |}.

(** ** Stacks *)

Record EngineStacks : Type := { es_stacks : list Stack; es_config : StackConfig }.

Definition EngineStacks_new (config : StackConfig) : EngineStacks := {| es_stacks := []; es_config := config |}.

Definition Stack_bytes_allocated (self : Stack) : Z := ValueStack_bytes_allocated (st_values self).

Definition reuse_or_new {E} : M EngineStacks E Stack :=
  self ← get_st;
  match pop (es_stacks self) with
  | (Some stack, stacks) => put_st {| es_stacks := stacks; es_config := es_config self |};; mret stack
  | (None, _) =>
      let config := es_config self in
      lift (Stack_new (sc_min_stack_height config) (sc_max_stack_height config) (sc_max_recursion_depth config))
  end.

Definition EngineStacks_recycle (stack : Stack) (self : EngineStacks) : EngineStacks :=
  if (0 <? Stack_bytes_allocated stack) &&
     (Z.of_nat (length (es_stacks self)) <? sc_max_cached_stacks (es_config self))
  then {| es_stacks := es_stacks self ++ [stack]; es_config := es_config self |}
  else self.

(** ** Limits *)

Inductive EnforcedLimitsError : Type :=
| TooManyGlobals (limit : Z)
| TooManyTables_ (limit : Z)
| TooManyFunctions (limit : Z)
| TooManyMemories_ (limit : Z)
| TooManyElementSegments (limit : Z)
| TooManyDataSegments (limit : Z)
| TooManyParameters (limit : Z)
| TooManyResults (limit : Z)
| MinAvgBytesPerFunction (limit avg : Z).

Record AvgBytesPerFunctionLimit : Type := { req_funcs_bytes : Z; min_avg_bytes_per_function : Z }.

Record EnforcedLimits : Type := {
  max_globals : option Z;
  max_functions : option Z;
  max_tables : option Z;
  max_element_segments : option Z;
  max_memories : option Z;
  max_data_segments : option Z;
  max_params : option Z;
  max_results : option Z;
  min_avg_bytes : option AvgBytesPerFunctionLimit
}.

Definition EnforcedLimits_default : EnforcedLimits := {|
  max_globals := None; max_functions := None; max_tables := None; max_element_segments := None;
  max_memories := None; max_data_segments := None; max_params := None; max_results := None;
  min_avg_bytes := None |}.
Definition EnforcedLimits_strict : EnforcedLimits := {|
  max_globals := Some 1000; max_functions := Some 10000; max_tables := Some 100;
  max_element_segments := Some 1000; max_memories := Some 1; max_data_segments := Some 1000;
  max_params := Some 32; max_results := Some 32;
  min_avg_bytes := Some {| req_funcs_bytes := 1000; min_avg_bytes_per_function := 40 |} |}.

Inductive CompilationMode : Type := Eager | LazyTranslation | Lazy.

(** ** The engine *)

Section Engine.
Context `{C : Compiler} {T : Target} {Alloc : Allocator} {Sf : SizeOf FuncType}.
Context {TranslatorAllocs ValidatorAllocs : Type} {default_t : TranslatorAllocs} {default_v : ValidatorAllocs}.

(** What [wasmparser]'s validator does with a body whose translation is lazy, and
    the allocations a translator and a validator leave behind. *)
Variable validate_body : Z -> list Z -> FuncToValidate -> res CompileFailure unit.
Variable used_translation : list Z -> TranslatorAllocs -> TranslatorAllocs.
Variable used_validation : list Z -> ValidatorAllocs -> ValidatorAllocs.

Record Config : Type := {
  cfg_stack : StackConfig;
  cfg_features : WasmFeatures;
  cfg_consume_fuel : bool;
  cfg_ignore_custom_sections : bool;
  cfg_fuel_costs : FuelCostsProvider;
  cfg_compilation_mode : CompilationMode;
  cfg_limits : EnforcedLimits
}.

Definition Config_default (default_features : WasmFeatures) (fuel_costs : FuelCostsProvider) : Config := {|
  cfg_stack := StackConfig_default; cfg_features := default_features; cfg_consume_fuel := false;
  cfg_ignore_custom_sections := false; cfg_fuel_costs := fuel_costs;
  cfg_compilation_mode := LazyTranslation; cfg_limits := EnforcedLimits_default |}.

Record EngineInner : Type := {
  en_config : Config;
  en_code_map : CodeMap;
  en_func_types : FuncTypeRegistry;
  en_allocs : ReusableAllocationStack TranslatorAllocs ValidatorAllocs;
  en_stacks : EngineStacks
}.

(** [EngineId::new] yields an identifier no other engine has. *)
Definition EngineInner_new (engine_idx : EngineId) (config : Config) : EngineInner := {|
  en_config := config;
  en_code_map := CodeMap_new (cfg_features config);
  en_func_types := FuncTypeRegistry_new engine_idx;
  en_allocs := ReusableAllocationStack_default;
  en_stacks := EngineStacks_new (cfg_stack config) |}.

Definition on_code_map {E A} (m : M CodeMap E A) : M EngineInner E A :=
  zoom en_code_map (fun code_map self => {| en_config := en_config self; en_code_map := code_map;
    en_func_types := en_func_types self; en_allocs := en_allocs self; en_stacks := en_stacks self |}) id m.
Definition on_func_types {E A} (m : M FuncTypeRegistry E A) : M EngineInner E A :=
  zoom en_func_types (fun func_types self => {| en_config := en_config self; en_code_map := en_code_map self;
    en_func_types := func_types; en_allocs := en_allocs self; en_stacks := en_stacks self |}) id m.
Definition on_allocs {E A} (m : M (ReusableAllocationStack TranslatorAllocs ValidatorAllocs) E A) :
    M EngineInner E A :=
  zoom en_allocs (fun allocs self => {| en_config := en_config self; en_code_map := en_code_map self;
    en_func_types := en_func_types self; en_allocs := allocs; en_stacks := en_stacks self |}) id m.

Definition EngineInner_alloc_func_type {E} (func_type : FuncType) : M EngineInner E DedupFuncTypeKey :=
  on_func_types (ftr_alloc_func_type func_type).
Definition EngineInner_resolve_func_type {E} (self : EngineInner) (func_type : DedupFuncTypeKey) : res E FuncType :=
  ftr_resolve_func_type (en_func_types self) func_type.
Definition EngineInner_resolve_func {E} (self : EngineInner) (func : Z) : res E (option FuncRef) :=
  let m := en_code_map self in CodeView_entry m (CodeMap_view m) func.
Definition EngineInner_alloc_funcs {E} (amount : Z) : M EngineInner E EngineFuncSpan :=
  on_code_map (CodeMap_alloc_funcs amount).
Definition EngineInner_init_func {E} (engine_func : Z) (func_entity : CompiledFuncEntry) : M EngineInner E unit :=
  on_code_map (init_func_as_compiled engine_func func_entity).
Definition EngineInner_recycle_stack (stack : Stack) (self : EngineInner) : EngineInner := {|
  en_config := en_config self; en_code_map := en_code_map self; en_func_types := en_func_types self;
  en_allocs := en_allocs self; en_stacks := EngineStacks_recycle stack (en_stacks self) |}.

Definition get_allocs {E} : M EngineInner E (TranslatorAllocs * ValidatorAllocs) :=
  on_allocs (translation ← get_translation_allocs (default_t := default_t);
             validation ← get_validation_allocs (default_v := default_v);
             mret (translation, validation)).
Definition recycle_allocs {E} (translation : TranslatorAllocs) (validation : ValidatorAllocs) :
    M EngineInner E unit :=
  on_allocs (recycle_translation_allocs translation;; recycle_validation_allocs validation).

(** A lazy translator is done after its setup. *)
Definition drive_lazy {E} (translator : LazyFuncTranslator) (bytes : list Z) : M EngineInner E unit :=
  on_code_map (LazyFuncTranslator_setup true bytes translator);; mret tt.

(** [FuncTranslationDriver] runs the translators: what an eager one makes of the
    bytes is [translate] and [translate_validating]; a validator drives every
    operator also when the translator under it is lazy. *)
Definition translate_func (func_index engine_func : Z) (bytes : list Z) (module : ModuleHeader)
    (func_to_validate : option FuncToValidate) : M EngineInner CompileFailure unit :=
  self ← get_st;
  let features := cfg_features (en_config self) in
  match cfg_compilation_mode (en_config self), func_to_validate with
  | Eager, Some func_to_validate =>
      '(translation_allocs, validation_allocs) ← get_allocs;
      func_entity ← lift (translate_validating func_index module bytes (ftv_resources func_to_validate)
                            (ftv_ty func_to_validate) (ftv_features func_to_validate));
      EngineInner_init_func engine_func func_entity;;
      recycle_allocs (used_translation bytes translation_allocs) (used_validation bytes validation_allocs)
  | Eager, None =>
      allocs ← on_allocs (get_translation_allocs (default_t := default_t));
      func_entity ← lift (translate func_index module bytes);
      EngineInner_init_func engine_func func_entity;;
      on_allocs (recycle_translation_allocs (used_translation bytes allocs))
  | LazyTranslation, Some func_to_validate =>
      allocs ← on_allocs (get_validation_allocs (default_v := default_v));
      drive_lazy (LazyFuncTranslator_new_unchecked func_index engine_func module features) bytes;;
      lift (validate_body func_index bytes func_to_validate);;
      on_allocs (recycle_validation_allocs (used_validation bytes allocs))
  | Lazy, Some func_to_validate =>
      drive_lazy (LazyFuncTranslator_new func_index engine_func module func_to_validate) bytes
  | (Lazy | LazyTranslation), None =>
      drive_lazy (LazyFuncTranslator_new_unchecked func_index engine_func module features) bytes
  end.

(** The keys of [Modules] are the raw keys of this engine. *)
#[export] Instance EngineInner_HeaderEngine : HeaderEngine EngineInner := {
  engine_alloc_func_type func_type :=
    key ← EngineInner_alloc_func_type func_type; mret (rh_raw (eo_value key));
  engine_alloc_funcs := EngineInner_alloc_funcs
}.
End Engine.

(** ** Configuration of an engine

    The methods of [Config] in [engine/config.rs].  [WasmFeatures] is a type of
    [wasmparser]: the empty set of features and setting one are parameters, of which
    nothing is assumed but that setting a feature is seen by a test of it and by no
    other. *)

(** The features that are set. *)
Inductive WasmFeature : Type :=
| MUTABLE_GLOBAL | MULTI_VALUE | MULTI_MEMORY | SATURATING_FLOAT_TO_INT | SIGN_EXTENSION | BULK_MEMORY
| REFERENCE_TYPES | GC_TYPES | TAIL_CALL | EXTENDED_CONST | FLOATS | CUSTOM_PAGE_SIZES | MEMORY64
| WIDE_ARITHMETIC | SIMD | RELAXED_SIMD.

#[export] Instance WasmFeature_eq_dec : EqDecision WasmFeature.
Proof. solve_decision. Defined.

Class Features (WasmFeatures : Type) : Type := {
  features_empty : WasmFeatures;
  features_set : WasmFeature -> bool -> WasmFeatures -> WasmFeatures;
  features_contains : WasmFeatures -> WasmFeature -> bool;
  contains_empty f : features_contains features_empty f = false;
  contains_set f enable features f' : features_contains (features_set f enable features) f' =
    if decide (f = f') then enable else features_contains features f'
}.

Section Config.
Context {C : Compiler} {T : Target} {F : Features WasmFeatures}.

Definition default_features : WasmFeatures :=
  let features := features_empty in
  let features := features_set MUTABLE_GLOBAL true features in
  let features := features_set MULTI_VALUE true features in
  let features := features_set MULTI_MEMORY true features in
  let features := features_set SATURATING_FLOAT_TO_INT true features in
  let features := features_set SIGN_EXTENSION true features in
  let features := features_set BULK_MEMORY true features in
  let features := features_set REFERENCE_TYPES true features in
  let features := features_set GC_TYPES true features in
  let features := features_set TAIL_CALL true features in
  let features := features_set EXTENDED_CONST true features in
  let features := features_set FLOATS true features in
  let features := features_set CUSTOM_PAGE_SIZES false features in
  let features := features_set MEMORY64 feat_memory64 features in
  let features := features_set WIDE_ARITHMETIC false features in
  let features := features_set SIMD feat_simd features in
  features_set RELAXED_SIMD feat_simd features.

Definition set_cfg_stack v (self : Config) : Config := {|
  cfg_stack := v; cfg_features := cfg_features self; cfg_consume_fuel := cfg_consume_fuel self;
  cfg_ignore_custom_sections := cfg_ignore_custom_sections self; cfg_fuel_costs := cfg_fuel_costs self;
  cfg_compilation_mode := cfg_compilation_mode self; cfg_limits := cfg_limits self |}.
Definition set_feature (feature : WasmFeature) (enable : bool) (self : Config) : Config := {|
  cfg_stack := cfg_stack self; cfg_features := features_set feature enable (cfg_features self);
  cfg_consume_fuel := cfg_consume_fuel self;
  cfg_ignore_custom_sections := cfg_ignore_custom_sections self; cfg_fuel_costs := cfg_fuel_costs self;
  cfg_compilation_mode := cfg_compilation_mode self; cfg_limits := cfg_limits self |}.

Definition Config_set_max_recursion_depth (value : Z) (self : Config) : Config :=
  set_cfg_stack (set_max_recursion_depth value (cfg_stack self)) self.
Definition Config_set_max_cached_stacks (value : Z) (self : Config) : Config :=
  set_cfg_stack (set_max_cached_stacks value (cfg_stack self)) self.
(** An error of the stack configuration is a panic. *)
Definition Config_set_min_stack_height {E} (value : Z) : M Config E unit := fun self =>
  match set_min_stack_height value (cfg_stack self) with
  | (Ok _, stack) => (Ok tt, set_cfg_stack stack self)
  | (_, stack) => (Panic, set_cfg_stack stack self)
  end.
Definition Config_set_max_stack_height {E} (value : Z) : M Config E unit := fun self =>
  match set_max_stack_height value (cfg_stack self) with
  | (Ok _, stack) => (Ok tt, set_cfg_stack stack self)
  | (_, stack) => (Panic, set_cfg_stack stack self)
  end.

Definition wasm_mutable_global (enable : bool) : Config -> Config := set_feature MUTABLE_GLOBAL enable.
Definition wasm_sign_extension (enable : bool) : Config -> Config := set_feature SIGN_EXTENSION enable.
Definition wasm_saturating_float_to_int (enable : bool) : Config -> Config := set_feature SATURATING_FLOAT_TO_INT enable.
Definition wasm_multi_value (enable : bool) : Config -> Config := set_feature MULTI_VALUE enable.
Definition wasm_multi_memory (enable : bool) : Config -> Config := set_feature MULTI_MEMORY enable.
Definition wasm_bulk_memory (enable : bool) : Config -> Config := set_feature BULK_MEMORY enable.
Definition wasm_reference_types (enable : bool) (self : Config) : Config :=
  set_feature GC_TYPES enable (set_feature REFERENCE_TYPES enable self).
Definition wasm_tail_call (enable : bool) : Config -> Config := set_feature TAIL_CALL enable.
Definition wasm_extended_const (enable : bool) : Config -> Config := set_feature EXTENDED_CONST enable.
Definition wasm_custom_page_sizes (enable : bool) : Config -> Config := set_feature CUSTOM_PAGE_SIZES enable.
Definition wasm_memory64 (enable : bool) : Config -> Config := set_feature MEMORY64 enable.
Definition wasm_wide_arithmetic (enable : bool) : Config -> Config := set_feature WIDE_ARITHMETIC enable.
Definition wasm_simd (enable : bool) : Config -> Config := set_feature SIMD enable.
Definition wasm_relaxed_simd (enable : bool) : Config -> Config := set_feature RELAXED_SIMD enable.
Definition Config_floats (enable : bool) : Config -> Config := set_feature FLOATS enable.

Definition Config_consume_fuel (enable : bool) (self : Config) : Config := {|
  cfg_stack := cfg_stack self; cfg_features := cfg_features self; cfg_consume_fuel := enable;
  cfg_ignore_custom_sections := cfg_ignore_custom_sections self; cfg_fuel_costs := cfg_fuel_costs self;
  cfg_compilation_mode := cfg_compilation_mode self; cfg_limits := cfg_limits self |}.
Definition Config_ignore_custom_sections (enable : bool) (self : Config) : Config := {|
  cfg_stack := cfg_stack self; cfg_features := cfg_features self; cfg_consume_fuel := cfg_consume_fuel self;
  cfg_ignore_custom_sections := enable; cfg_fuel_costs := cfg_fuel_costs self;
  cfg_compilation_mode := cfg_compilation_mode self; cfg_limits := cfg_limits self |}.
Definition Config_compilation_mode (mode : CompilationMode) (self : Config) : Config := {|
  cfg_stack := cfg_stack self; cfg_features := cfg_features self; cfg_consume_fuel := cfg_consume_fuel self;
  cfg_ignore_custom_sections := cfg_ignore_custom_sections self; cfg_fuel_costs := cfg_fuel_costs self;
  cfg_compilation_mode := mode; cfg_limits := cfg_limits self |}.
Definition Config_enforced_limits (limits : EnforcedLimits) (self : Config) : Config := {|
  cfg_stack := cfg_stack self; cfg_features := cfg_features self; cfg_consume_fuel := cfg_consume_fuel self;
  cfg_ignore_custom_sections := cfg_ignore_custom_sections self; cfg_fuel_costs := cfg_fuel_costs self;
  cfg_compilation_mode := cfg_compilation_mode self; cfg_limits := limits |}.

(** ** The heights of the stack *)

(** The invariant of the stack configuration the engine's stacks rely on. *)
Definition heights_ok (self : Config) : Prop := sc_min_stack_height (cfg_stack self) <= sc_max_stack_height (cfg_stack self).

Definition Config_new (fuel_costs : FuelCostsProvider) : Config := Config_default default_features fuel_costs.

Lemma default_ok fuel_costs : heights_ok (Config_new fuel_costs).
Proof. unfold heights_ok. cbn. unfold DEFAULT_MIN_STACK_HEIGHT, DEFAULT_MAX_STACK_HEIGHT. lia. Qed.

(** Whatever is set, a configuration never has a minimum above its maximum; setting
    a height that would is a panic that changes nothing. *)
Lemma set_heights_keep {E} self value : heights_ok self ->
  (let run := Config_set_min_stack_height (E := E) value self in
   heights_ok run.2 /\ (run.1 = Ok tt <-> value <= sc_max_stack_height (cfg_stack self))) /\
  (let run := Config_set_max_stack_height (E := E) value self in
   heights_ok run.2 /\ (run.1 = Ok tt <-> sc_min_stack_height (cfg_stack self) <= value)).
Proof.
  intros Hok. unfold heights_ok, Config_set_min_stack_height, Config_set_max_stack_height,
    set_min_stack_height, set_max_stack_height. rewrite !bind_get_st.
  split; cbv zeta; case_if; zb; cbn; (split; [first [exact Hok|lia]|]); (split; [first [done|lia]|first [done|lia]]).
Qed.

(** The features of a new configuration. *)
Lemma default_features_spec f : features_contains default_features f =
  match f with
  | CUSTOM_PAGE_SIZES | WIDE_ARITHMETIC => false
  | MEMORY64 => feat_memory64
  | SIMD | RELAXED_SIMD => feat_simd
  | _ => true
  end.
Proof. unfold default_features. rewrite !contains_set, contains_empty. by destruct f. Qed.
End Config.

(** ** What translation makes of a function body

    In every compilation mode, [translate_func] leaves the entry of the function
    ready to be called, with code or bytes that were validated or will be. *)

(** [repr] does not depend on the errors of the caller. *)
Lemma deref_errors `{Compiler} {E F} r (m : CodeMap) e :
  deref (E := E) r m = Ok e <-> deref (E := F) r m = Ok e.
Proof.
  unfold deref. destruct (cm_heap m !! r.1) as [b|]; cbn; [|done].
  destruct (b !! r.2); cbn; split; congruence.
Qed.

Lemma repr_errors `{Compiler} `{Target} {E F} m fs : repr (E := E) m fs <-> repr (E := F) m fs.
Proof.
  unfold repr, represents. split; intros (ptrs & ? & ? & ? & ? & Hd); exists ptrs; split_and!; try done;
    intros i r Hi; eapply deref_errors; by apply Hd.
Qed.

Section Prepared.
Context `{C : Compiler} {T : Target} {Alloc : Allocator} {Sf : SizeOf Header.FuncType}.
Context {TranslatorAllocs ValidatorAllocs : Type} {default_t : TranslatorAllocs} {default_v : ValidatorAllocs}.
Variable validate_body : Z -> list Z -> FuncToValidate -> res CompileFailure unit.
Variable used_translation : list Z -> TranslatorAllocs -> TranslatorAllocs.
Variable used_validation : list Z -> ValidatorAllocs -> ValidatorAllocs.

Notation EngineInner := (EngineInner (TranslatorAllocs := TranslatorAllocs) (ValidatorAllocs := ValidatorAllocs)).
Notation repr := (repr (E := CompileFailure)).

(** The entry of a function with this body, for a validator [vopt] given or not. *)
Inductive prepared (func_idx : Z) (bytes : list Z) (module : ModuleHeader) :
    option FuncToValidate -> FuncEntry -> Prop :=
| prepared_compiled entity : translate func_idx module bytes = Ok entity ->
    prepared func_idx bytes module None {| fe_data := Data_compiled entity; fe_state := COMPILED |}
| prepared_compiled_validated v entity :
    translate_validating func_idx module bytes (ftv_resources v) (ftv_ty v) (ftv_features v) = Ok entity ->
    prepared func_idx bytes module (Some v) {| fe_data := Data_compiled entity; fe_state := COMPILED |}
| prepared_uncompiled :
    prepared func_idx bytes module None
      {| fe_data := Data_uncompiled {| ufe_func_index := func_idx; ufe_bytes := SmallByteSlice_from bytes;
           ufe_module := module; ufe_validation := None |}; fe_state := UNCOMPILED |}
| prepared_uncompiled_validated v : validate_body func_idx bytes v = Ok tt ->
    prepared func_idx bytes module (Some v)
      {| fe_data := Data_uncompiled {| ufe_func_index := func_idx; ufe_bytes := SmallByteSlice_from bytes;
           ufe_module := module; ufe_validation := None |}; fe_state := UNCOMPILED |}
| prepared_uncompiled_to_validate v :
    prepared func_idx bytes module (Some v)
      {| fe_data := Data_uncompiled {| ufe_func_index := func_idx; ufe_bytes := SmallByteSlice_from bytes;
           ufe_module := module; ufe_validation := Some (ftv_ty v, ftv_resources v) |}; fe_state := UNCOMPILED |}.

Lemma prepared_initialized func_idx bytes module vopt e :
  prepared func_idx bytes module vopt e -> is_initialized e = true.
Proof. by destruct 1. Qed.

Definition allocs_ok (a : ReusableAllocationStack TranslatorAllocs ValidatorAllocs) : Prop :=
  Z.of_nat (length (ras_translation a)) <= ras_max_height a /\
  Z.of_nat (length (ras_validation a)) <= ras_max_height a.

(** ** The reusable allocations *)

Lemma pop_length {A} (l : list A) : (length (pop l).2 <= length l)%nat.
Proof. unfold pop. cbn. rewrite length_take. lia. Qed.

Lemma get_translation_allocs_run {E} a : allocs_ok a -> exists t a',
  get_translation_allocs (E := E) (default_t := default_t) a = (Ok t, a') /\ allocs_ok a'.
Proof.
  intros [H1 H2]. unfold get_translation_allocs. destruct (pop _) as [o l] eqn:Hp. do 2 eexists. split; [done|].
  pose proof (pop_length (ras_translation a)) as Hl. rewrite Hp in Hl. split; cbn in *; lia.
Qed.
Lemma get_validation_allocs_run {E} a : allocs_ok a -> exists t a',
  get_validation_allocs (E := E) (default_v := default_v) a = (Ok t, a') /\ allocs_ok a'.
Proof.
  intros [H1 H2]. unfold get_validation_allocs. destruct (pop _) as [o l] eqn:Hp. do 2 eexists. split; [done|].
  pose proof (pop_length (ras_validation a)) as Hl. rewrite Hp in Hl. split; cbn in *; lia.
Qed.
Lemma recycle_translation_allocs_run {E} t a : allocs_ok a -> exists a',
  recycle_translation_allocs (E := E) t a = (Ok tt, a') /\ allocs_ok a'.
Proof.
  intros [H1 H2]. unfold recycle_translation_allocs. rewrite bind_get_st. cbv zeta. unfold assert_m.
  rewrite bind_lift, (proj2 (Z.leb_le _ _)) by done. cbn [assert_that].
  case_if; zb; [by exists a|]. eexists. split; [done|]. split; cbn; [rewrite length_app; cbn|]; lia.
Qed.
Lemma recycle_validation_allocs_run {E} t a : allocs_ok a -> exists a',
  recycle_validation_allocs (E := E) t a = (Ok tt, a') /\ allocs_ok a'.
Proof.
  intros [H1 H2]. unfold recycle_validation_allocs. rewrite bind_get_st. cbv zeta. unfold assert_m.
  rewrite bind_lift, (proj2 (Z.leb_le _ _)) by done. cbn [assert_that].
  case_if; zb; [by exists a|]. eexists. split; [done|]. split; cbn; [|rewrite length_app; cbn]; lia.
Qed.

(** ** Entries *)

Lemma init_run (en : EngineInner) fs (f : nat) e (g : M FuncEntry CompileFailure unit) e' (m : M CodeMap CompileFailure unit) :
  repr (en_code_map en) fs -> fs !! f = Some e -> g e = (Ok tt, e') ->
  (forall r s, Funcs_get (E := CompileFailure) (cm_funcs s) (Z.of_nat f) = Ok (Some r) -> m s = at_ref r g s) ->
  exists s', m (en_code_map en) = (Ok tt, s') /\ repr s' (<[f := e']> fs).
Proof.
  intros [ptrs HR] He Hg Hm. pose proof (lookup_lt_Some _ _ _ He) as Hf.
  destruct (ref_of_is_Some _ _ _ _ HR Hf) as [r Hr].
  destruct (at_ref_represents _ _ _ _ _ _ g HR He Hr) as [R HR']. rewrite Hg in R, HR'. cbn in R, HR'.
  exists (heap_set r e' (en_code_map en)). split; [|by exists ptrs].
  rewrite (Hm r); [done|]. by rewrite (Funcs_get_represents _ _ _ _ HR), decide_True, Hr.
Qed.

Lemma init_compiled_uninit {E} entity e : is_initialized e = false ->
  init_compiled (E := E) entity e = (Ok tt, {| fe_data := Data_compiled entity; fe_state := COMPILED |}).
Proof. intros He. unfold init_compiled, assert_m. by rewrite bind_get_st, bind_lift, He. Qed.
Lemma init_uncompiled_uninit {E} u e : is_initialized e = false ->
  init_uncompiled (E := E) u e = (Ok tt, {| fe_data := Data_uncompiled u; fe_state := UNCOMPILED |}).
Proof. intros He. unfold init_uncompiled, assert_m. by rewrite bind_get_st, bind_lift, He. Qed.

Lemma init_compiled_run (en : EngineInner) fs (f : nat) e entity :
  repr (en_code_map en) fs -> fs !! f = Some e -> is_initialized e = false ->
  exists s', init_func_as_compiled (Z.of_nat f) entity (en_code_map en) = (Ok (E := CompileFailure) tt, s') /\
    repr s' (<[f := {| fe_data := Data_compiled entity; fe_state := COMPILED |}]> fs).
Proof.
  intros HR He Hi. eapply init_run; [done..|by apply init_compiled_uninit|].
  intros r s Hr. unfold init_func_as_compiled. by rewrite bind_get_st, bind_lift, Hr.
Qed.

Lemma init_uncompiled_run (en : EngineInner) fs (f : nat) e func_idx bytes module vopt :
  repr (en_code_map en) fs -> fs !! f = Some e -> is_initialized e = false ->
  (forall v, vopt = Some v -> ftv_index v = func_idx) ->
  exists s', init_func_as_uncompiled (Z.of_nat f) func_idx bytes module vopt (en_code_map en) =
      (Ok (E := CompileFailure) tt, s') /\
    repr s' (<[f := {| fe_data := Data_uncompiled {| ufe_func_index := func_idx;
      ufe_bytes := SmallByteSlice_from bytes; ufe_module := module;
      ufe_validation := (fun v => (ftv_ty v, ftv_resources v)) <$> vopt |}; fe_state := UNCOMPILED |}]> fs).
Proof.
  intros HR He Hi Hv. eapply init_run; [done..|by apply init_uncompiled_uninit|].
  intros r s Hr. unfold init_func_as_uncompiled. rewrite bind_get_st, bind_lift, Hr, bind_lift.
  unfold UncompiledFuncEntry_new. destruct vopt as [v|]; [|done].
  by rewrite (Hv v), Z.eqb_refl.
Qed.

(** ** The spec of [translate_func] *)

(** Everything but the code map and the allocations. *)
Definition same_engine (en en' : EngineInner) : Prop :=
  en_config en' = en_config en /\ en_func_types en' = en_func_types en /\ en_stacks en' = en_stacks en.

Notation translate_func := (translate_func (default_t := default_t) (default_v := default_v)
  validate_body used_translation used_validation).

Lemma on_allocs_run {A} (m : M (ReusableAllocationStack TranslatorAllocs ValidatorAllocs) CompileFailure A) en a al :
  m (en_allocs en) = (Ok a, al) -> exists en', on_allocs m en = (Ok a, en') /\
    en_allocs en' = al /\ en_code_map en' = en_code_map en /\ same_engine en en'.
Proof. intros Hm. unfold on_allocs, zoom. rewrite Hm. cbn. eexists. by split_and!. Qed.

Lemma on_code_map_run {A} (m : M CodeMap CompileFailure A) (en : EngineInner) a cm :
  m (en_code_map en) = (Ok a, cm) -> exists en', on_code_map m en = (Ok a, en') /\
    en_allocs en' = en_allocs en /\ en_code_map en' = cm /\ same_engine en en'.
Proof. intros Hm. unfold on_code_map, zoom. rewrite Hm. cbn. eexists. by split_and!. Qed.

Lemma same_engine_trans en1 en2 en3 : same_engine en1 en2 -> same_engine en2 en3 -> same_engine en1 en3.
Proof. unfold same_engine. intuition congruence. Qed.

Lemma drive_lazy_run (en : EngineInner) fs (f : nat) e func_idx bytes module validation vopt v' :
  repr (en_code_map en) fs -> fs !! f = Some e -> is_initialized e = false ->
  take_func_to_validate validation = (vopt, v') -> (forall v, vopt = Some v -> ftv_index v = func_idx) ->
  exists en', drive_lazy {| lft_func_idx := func_idx; lft_engine_func := Z.of_nat f; lft_module := module;
      lft_validation := validation |} bytes en = (Ok (E := CompileFailure) tt, en') /\
    repr (en_code_map en') (<[f := {| fe_data := Data_uncompiled {| ufe_func_index := func_idx;
      ufe_bytes := SmallByteSlice_from bytes; ufe_module := module;
      ufe_validation := (fun v => (ftv_ty v, ftv_resources v)) <$> vopt |}; fe_state := UNCOMPILED |}]> fs) /\
    en_allocs en' = en_allocs en /\ same_engine en en'.
Proof.
  intros HR He Hi Hv Hx. unfold drive_lazy, LazyFuncTranslator_setup. cbn [negb lft_validation lft_engine_func
    lft_func_idx lft_module]. rewrite Hv.
  destruct (init_uncompiled_run en fs f e func_idx bytes module vopt HR He Hi Hx) as (s' & R & HR').
  match goal with |- context [on_code_map ?m] => destruct (on_code_map_run m en
    (true, {| lft_func_idx := func_idx; lft_engine_func := Z.of_nat f; lft_module := module;
      lft_validation := v' |}) s') as (en' & R' & Ha & Hc & Hs) end.
  { by rewrite (bind_Ok _ _ _ _ _ R). }
  rewrite (bind_Ok _ _ _ _ _ R'). exists en'. by rewrite Hc.
Qed.

(** What the compiler or the validator says of a body, in each mode. *)
Definition body_result (mode : CompilationMode) (func_idx : Z) (bytes : list Z) (module : ModuleHeader)
    (vopt : option FuncToValidate) : res CompileFailure unit :=
  match mode, vopt with
  | Eager, Some v =>
      const tt <$> translate_validating func_idx module bytes (ftv_resources v) (ftv_ty v) (ftv_features v)
  | Eager, None => const tt <$> translate func_idx module bytes
  | LazyTranslation, Some v => validate_body func_idx bytes v
  | _, _ => Ok tt
  end.

Definition translated (en : EngineInner) fs (f : nat) func_idx bytes module vopt
    (r : res CompileFailure unit) (en' : EngineInner) : Prop :=
  allocs_ok (en_allocs en') /\ same_engine en en' /\
  r = body_result (cfg_compilation_mode (en_config en)) func_idx bytes module vopt /\
  exists e, repr (en_code_map en') (<[f := e]> fs) /\ (r = Ok tt -> prepared func_idx bytes module vopt e).

Section Spec.
Variables (en : EngineInner) (fs : list FuncEntry) (f : nat) (e : FuncEntry) (func_idx : Z)
  (bytes : list Z) (module : ModuleHeader).
Hypothesis Hal : allocs_ok (en_allocs en).
Hypothesis HR : repr (en_code_map en) fs.
Hypothesis He : fs !! f = Some e.
Hypothesis Hi : is_initialized e = false.

Lemma translate_eager_validating v : cfg_compilation_mode (en_config en) = Eager ->
  let '(r, en') := translate_func func_idx (Z.of_nat f) bytes module (Some v) en in
  translated en fs f func_idx bytes module (Some v) r en'.
Proof.
  intros Hmode. unfold Engine.translate_func. rewrite bind_get_st, Hmode. cbv zeta.
  destruct (get_translation_allocs_run (E := CompileFailure) _ Hal) as (t & al & R & Hal1).
  destruct (get_validation_allocs_run (E := CompileFailure) _ Hal1) as (v' & al' & R' & Hal2).
  destruct (on_allocs_run (translation ← get_translation_allocs (default_t := default_t);
    validation ← get_validation_allocs (default_v := default_v); mret (translation, validation)) en (t, v') al')
    as (en1 & R1 & H1 & H2 & H3).
  { by rewrite (bind_Ok _ _ _ _ _ R), (bind_Ok _ _ _ _ _ R'). }
  unfold get_allocs. rewrite (bind_Ok _ _ _ _ _ R1), bind_lift.
  unfold translated, body_result. rewrite Hmode.
  destruct (translate_validating _ _ _ _ _ _) as [entity|err|] eqn:Et; cbn [fmap res_fmap].
  2-3: split_and!; [by rewrite H1|done|done|exists e; rewrite list_insert_id by done; split; [by rewrite H2|done]].
  rewrite <- H2 in HR.
  destruct (init_compiled_run en1 fs f e entity HR He Hi) as (s' & R2 & HR').
  destruct (on_code_map_run _ en1 _ _ R2) as (en2 & R3 & H4 & H5 & H6).
  unfold EngineInner_init_func. rewrite (bind_Ok _ _ _ _ _ R3). unfold recycle_allocs.
  destruct (recycle_translation_allocs_run (E := CompileFailure) (used_translation bytes t) (en_allocs en2))
    as (a3 & R4 & Ha3); [by rewrite H4, H1|].
  destruct (recycle_validation_allocs_run (E := CompileFailure) (used_validation bytes v') a3 Ha3)
    as (a4 & R5 & Ha4).
  destruct (on_allocs_run (recycle_translation_allocs (E := CompileFailure) (used_translation bytes t);;
    recycle_validation_allocs (used_validation bytes v')) en2 tt a4) as (en3 & R6 & H7 & H8 & H9).
  { by rewrite (bind_Ok _ _ _ _ _ R4). }
  rewrite R6. split_and!; [by rewrite H7|eauto using same_engine_trans|done|].
  eexists. rewrite H8, H5. split; [exact HR'|]. intros _. by constructor.
Qed.

Lemma translate_eager : cfg_compilation_mode (en_config en) = Eager ->
  let '(r, en') := translate_func func_idx (Z.of_nat f) bytes module None en in
  translated en fs f func_idx bytes module None r en'.
Proof.
  intros Hmode. unfold Engine.translate_func. rewrite bind_get_st, Hmode. cbv zeta.
  destruct (get_translation_allocs_run (E := CompileFailure) _ Hal) as (t & al & R & Hal1).
  destruct (on_allocs_run _ en _ _ R) as (en1 & R1 & H1 & H2 & H3).
  rewrite (bind_Ok _ _ _ _ _ R1), bind_lift. unfold translated, body_result. rewrite Hmode.
  destruct (translate _ _ _) as [entity|err|] eqn:Et; cbn [fmap res_fmap].
  2-3: split_and!; [by rewrite H1|done|done|exists e; rewrite list_insert_id by done; split; [by rewrite H2|done]].
  rewrite <- H2 in HR.
  destruct (init_compiled_run en1 fs f e entity HR He Hi) as (s' & R2 & HR').
  destruct (on_code_map_run _ en1 _ _ R2) as (en2 & R3 & H4 & H5 & H6).
  unfold EngineInner_init_func. rewrite (bind_Ok _ _ _ _ _ R3).
  destruct (recycle_translation_allocs_run (E := CompileFailure) (used_translation bytes t) (en_allocs en2))
    as (a3 & R4 & Ha3); [by rewrite H4, H1|].
  destruct (on_allocs_run _ en2 _ _ R4) as (en3 & R6 & H7 & H8 & H9).
  rewrite R6. split_and!; [by rewrite H7|eauto using same_engine_trans|done|].
  eexists. rewrite H8, H5. split; [exact HR'|]. intros _. by constructor.
Qed.

Lemma translate_lazy_validating v : cfg_compilation_mode (en_config en) = LazyTranslation ->
  let '(r, en') := translate_func func_idx (Z.of_nat f) bytes module (Some v) en in
  translated en fs f func_idx bytes module (Some v) r en'.
Proof.
  intros Hmode. unfold Engine.translate_func. rewrite bind_get_st, Hmode. cbv zeta.
  destruct (get_validation_allocs_run (E := CompileFailure) _ Hal) as (t & al & R & Hal1).
  destruct (on_allocs_run _ en _ _ R) as (en1 & R1 & H1 & H2 & H3). rewrite (bind_Ok _ _ _ _ _ R1).
  rewrite <- H2 in HR. unfold LazyFuncTranslator_new_unchecked.
  destruct (drive_lazy_run en1 fs f e func_idx bytes module
    (Validation_Unchecked (cfg_features (en_config en))) None _ HR He Hi eq_refl ltac:(done))
    as (en2 & R2 & HR2 & H4 & H5).
  rewrite (bind_Ok _ _ _ _ _ R2), bind_lift. unfold translated, body_result. rewrite Hmode.
  destruct (validate_body func_idx bytes v) as [[]|err|] eqn:Et.
  2-3: split_and!; [by rewrite H4, H1|eauto using same_engine_trans|done|eexists; split; [exact HR2|done]].
  destruct (recycle_validation_allocs_run (E := CompileFailure) (used_validation bytes t) (en_allocs en2))
    as (a3 & R4 & Ha3); [by rewrite H4, H1|].
  destruct (on_allocs_run _ en2 _ _ R4) as (en3 & R6 & H7 & H8 & H9).
  rewrite R6. split_and!; [by rewrite H7|eauto using same_engine_trans|done|].
  eexists. rewrite H8. split; [exact HR2|]. intros _. by constructor.
Qed.

Lemma translate_lazily vopt validation v' : take_func_to_validate validation = (vopt, v') ->
  (forall v, vopt = Some v -> ftv_index v = func_idx /\ cfg_compilation_mode (en_config en) = Lazy) ->
  cfg_compilation_mode (en_config en) <> Eager ->
  let '(r, en') := drive_lazy {| lft_func_idx := func_idx; lft_engine_func := Z.of_nat f; lft_module := module;
      lft_validation := validation |} bytes en in
  translated en fs f func_idx bytes module vopt r en'.
Proof.
  intros Hv Hx Hmode.
  destruct (drive_lazy_run en fs f e func_idx bytes module validation vopt v' HR He Hi Hv) as (en2 & R2 & HR2 & H4 & H5).
  { intros v ->. by destruct (Hx v). }
  rewrite R2. split_and!; [by rewrite H4|done| |eexists; split; [exact HR2|intros _]].
  - unfold body_result. destruct vopt as [v|]; [destruct (Hx v) as [_ ->]; [done|done]|].
    by destruct (cfg_compilation_mode _).
  - destruct vopt; constructor.
Qed.
End Spec.

(** Whatever the compilation mode, [translate_func] of a function that is not
    initialized returns what the translator or the validator says of its body,
    changes no other entry of the code map, keeps a bounded number of reusable
    allocations, and on success leaves the entry prepared: compiled from this
    body, or holding it with the validation that is still to be done; with a
    validator, no body ends up in an entry that is neither validated nor will
    be. *)
Lemma translate_func_spec en fs (f : nat) e func_idx bytes module vopt r en' :
  allocs_ok (en_allocs en) -> repr (en_code_map en) fs -> fs !! f = Some e -> is_initialized e = false ->
  (forall v, cfg_compilation_mode (en_config en) = Lazy -> vopt = Some v -> ftv_index v = func_idx) ->
  translate_func func_idx (Z.of_nat f) bytes module vopt en = (r, en') ->
  translated en fs f func_idx bytes module vopt r en'.
Proof.
  intros Hal HR He Hi Hv Ht.
  cut (let '(r, en') := translate_func func_idx (Z.of_nat f) bytes module vopt en in
       translated en fs f func_idx bytes module vopt r en'); [by rewrite Ht|]. clear Ht r en'.
  destruct (cfg_compilation_mode (en_config en)) eqn:Hmode, vopt as [v|].
  - by eapply translate_eager_validating.
  - by eapply translate_eager.
  - by eapply translate_lazy_validating.
  - unfold Engine.translate_func. rewrite bind_get_st, Hmode. cbv zeta.
    by eapply translate_lazily; [..|rewrite Hmode].
  - unfold Engine.translate_func. rewrite bind_get_st, Hmode. cbv zeta.
    eapply translate_lazily; [done..| |by rewrite Hmode]. intros ? [= <-]. split; [by apply Hv|done].
  - unfold Engine.translate_func. rewrite bind_get_st, Hmode. cbv zeta.
    by eapply translate_lazily; [..|rewrite Hmode].
Qed.

(** A lazy function with a validator for another function is a panic. *)
Lemma translate_func_lazy_index (en : EngineInner) fs (f : nat) func_idx bytes module v en' :
  repr (en_code_map en) fs -> (f < length fs)%nat -> cfg_compilation_mode (en_config en) = Lazy ->
  translate_func func_idx (Z.of_nat f) bytes module (Some v) en = (Ok tt, en') -> ftv_index v = func_idx.
Proof.
  intros [ptrs HR] Hf Hmode. unfold Engine.translate_func. rewrite bind_get_st, Hmode. cbv zeta.
  unfold drive_lazy, on_code_map, LazyFuncTranslator_setup. cbn [negb lft_validation LazyFuncTranslator_new
    take_func_to_validate lft_engine_func lft_func_idx lft_module Validation_features].
  intros H. apply bind_Ok_inv in H as (x & s' & H & _). apply zoom_Ok_inv in H as (t & H & _).
  apply bind_Ok_inv in H as (x' & s'' & H & _). unfold init_func_as_uncompiled in H.
  rewrite bind_get_st, bind_lift, (Funcs_get_represents _ _ _ _ HR), decide_True in H by done.
  destruct (ref_of_is_Some _ _ _ _ HR Hf) as [r Hr]. rewrite Hr, bind_lift in H.
  unfold UncompiledFuncEntry_new, assert_that in H. by destruct (Z.eqb_spec (ftv_index v) func_idx).
Qed.
End Prepared.
