(* ===== verification/Parser.v ===== *)
(** * Parsing modules

    [module/parser/mod.rs] and [module/parser/buffered.rs]: the loop over the
    payloads of a binary.  [wasmparser]'s parser and validator are parameters: a
    parser turns the rest of the buffer into a payload and the number of bytes to
    consume, a validator accepts or rejects a payload. *)

From Stdlib Require Import ZArith Lia.
From stdpp Require Import base option decidable numbers gmap list.
From S2P Require Import Prelude Value Limiter MemoryType Table Arena Store InitExpr Header CodeMap Keeps Modules Engine.
Local Open Scope Z_scope.

(** ** Payloads *)

Section Payload.
Variable W : Type.

(** A section reader: the declared number of items, a [u32], and the items until the first
    one that is malformed. *)
Record SectionReader (A : Type) : Type := { sec_count : N; sec_items : list (W + A) }.
Arguments sec_count {A} _.
Arguments sec_items {A} _.

Inductive Payload : Type :=
| Payload_Version (num : Z) (module_encoding : bool)
| Payload_TypeSection (section : SectionReader WasmFuncType)
| Payload_ImportSection (section : SectionReader WasmImport)
| Payload_FunctionSection (section : SectionReader Z)
| Payload_TableSection (section : SectionReader (WasmTableType * bool))
| Payload_MemorySection (section : SectionReader WasmMemoryType)
| Payload_GlobalSection (section : SectionReader WasmGlobal)
| Payload_ExportSection (section : SectionReader (Bytes * ExternalKind * Z))
| Payload_StartSection (func : Z)
| Payload_ElementSection (section : SectionReader (WasmElementKind * WasmElementItems))
| Payload_DataCountSection (count : Z)
| Payload_CodeSectionStart (count size : Z)
| Payload_CodeSectionEntry (func_body : list Z)
| Payload_DataSection (section : SectionReader (WasmDataKind * list Z))
| Payload_CustomSection (name data : Bytes)
| Payload_End
| Payload_Unsupported.
End Payload.
Arguments sec_count {W A} _.
Arguments sec_items {W A} _.
Arguments Build_SectionReader {W A} _ _.
Arguments Payload_Version {W} _ _.
Arguments Payload_TypeSection {W} _.
Arguments Payload_ImportSection {W} _.
Arguments Payload_FunctionSection {W} _.
Arguments Payload_TableSection {W} _.
Arguments Payload_MemorySection {W} _.
Arguments Payload_GlobalSection {W} _.
Arguments Payload_ExportSection {W} _.
Arguments Payload_StartSection {W} _.
Arguments Payload_ElementSection {W} _.
Arguments Payload_DataCountSection {W} _.
Arguments Payload_CodeSectionStart {W} _ _.
Arguments Payload_CodeSectionEntry {W} _.
Arguments Payload_DataSection {W} _.
Arguments Payload_CustomSection {W} _ _.
Arguments Payload_End {W}.
Arguments Payload_Unsupported {W}.

(** [wasmparser::Parser::parse] at the end of the input and the methods of
    [wasmparser::Validator], one for each payload; that of a function body
    returns what is needed to validate it. *)
Class WasmParser `{Compiler} : Type := {
  BinaryReaderError : Type;
  ParserState : Type;
  Validator : Type;
  parser_new : WasmFeatures -> ParserState;
  validator_new_with_features : WasmFeatures -> Validator;
  parser_parse : Bytes -> M ParserState BinaryReaderError (Z * Payload BinaryReaderError);
  validator_payload : Payload BinaryReaderError -> M Validator BinaryReaderError unit;
  validator_code_section_entry : list Z -> M Validator BinaryReaderError FuncToValidate
}.

Section Parser.
Context `{C : Compiler} {T : Target} {Alloc : Allocator} {Sf : SizeOf FuncType} {P : WasmParser}.
Context {TranslatorAllocs ValidatorAllocs : Type} {default_t : TranslatorAllocs} {default_v : ValidatorAllocs}.
Variable validate_body : Z -> list Z -> FuncToValidate -> res CompileFailure unit.
Variable used_translation : list Z -> TranslatorAllocs -> TranslatorAllocs.
Variable used_validation : list Z -> ValidatorAllocs -> ValidatorAllocs.

Inductive ParseError : Type :=
| PE_Wasm (error : BinaryReaderError)
| PE_Limits (error : EnforcedLimitsError)
| PE_Translation (error : CompileFailure).

Notation EngineInner := (EngineInner (TranslatorAllocs := TranslatorAllocs) (ValidatorAllocs := ValidatorAllocs)).
Notation Payload := (Payload BinaryReaderError).
Notation SectionReader := (SectionReader BinaryReaderError).

Record ModuleParser : Type := {
  mp_engine : EngineInner;
  mp_validator : option Validator;
  mp_parser : ParserState;
  mp_engine_funcs : Z
}.
Notation MP := (M ModuleParser ParseError).

Definition ModuleParser_new (engine : EngineInner) : ModuleParser := {|
  mp_engine := engine; mp_validator := None;
  mp_parser := parser_new (cfg_features (en_config engine)); mp_engine_funcs := 0 |}.

Definition set_mp_engine (engine : EngineInner) (self : ModuleParser) : ModuleParser := {|
  mp_engine := engine; mp_validator := mp_validator self; mp_parser := mp_parser self;
  mp_engine_funcs := mp_engine_funcs self |}.
Definition set_mp_validator (validator : option Validator) (self : ModuleParser) : ModuleParser := {|
  mp_engine := mp_engine self; mp_validator := validator; mp_parser := mp_parser self;
  mp_engine_funcs := mp_engine_funcs self |}.
Definition set_mp_parser (parser : ParserState) (self : ModuleParser) : ModuleParser := {|
  mp_engine := mp_engine self; mp_validator := mp_validator self; mp_parser := parser;
  mp_engine_funcs := mp_engine_funcs self |}.

(** [if let Some(validator) = &mut self.validator { validator.method(..)? }]. *)
Definition validated {A} (method : M Validator BinaryReaderError A) : MP (option A) := fun self =>
  match mp_validator self with
  | Some validator =>
      let '(r, validator) := method validator in
      (map_err PE_Wasm (Some <$> r), set_mp_validator (Some validator) self)
  | None => (Ok None, self)
  end.
Definition validate_payload (payload : Payload) : MP unit := validated (validator_payload payload);; mret tt.

Definition limits {A} (f : EnforcedLimits -> A) : MP A :=
  self ← get_st; mret (f (cfg_limits (en_config (mp_engine self)))).

(** [if let Some(limit) = limit { if count > limit { return Err(..) } }]. *)
Definition enforce (limit : option Z) (count : Z) (error : Z -> EnforcedLimitsError) : res ParseError unit :=
  match limit with
  | Some limit => if limit <? count then Err (PE_Limits (error limit)) else Ok tt
  | None => Ok tt
  end.

(** [section.into_iter().map(f)]. *)
Definition section_map {A B} (f : A -> res ParseError B) (section : SectionReader A) : list (res ParseError B) :=
  (fun item => match item with inl error => Err (PE_Wasm error) | inr item => f item end) <$> sec_items section.

(** The header under construction, next to the parser. *)
Definition HState : Type := ModuleParser * ModuleHeaderBuilder.
Notation HM := (M HState ParseError).
Definition on_parser {A} (m : MP A) : HM A := zoom fst (fun p st => (p, snd st)) id m.
Definition on_header {A} (m : M (EngineInner * ModuleHeaderBuilder) ParseError A) : HM A := fun st =>
  let '(r, (engine, header)) := m (mp_engine (fst st), snd st) in
  (r, (set_mp_engine engine (fst st), header)).

Definition process_end : MP unit := validate_payload Payload_End.
Definition process_version (num : Z) (encoding : bool) : MP unit := validate_payload (Payload_Version num encoding).

Definition process_types (section : SectionReader WasmFuncType) : HM unit :=
  on_parser (validate_payload (Payload_TypeSection section));;
  limits ← on_parser (limits id);
  on_header (push_func_types (section_map (fun func_ty =>
    enforce (max_params limits) (Z.of_nat (length (wft_params func_ty))) TooManyParameters;;
    enforce (max_results limits) (Z.of_nat (length (wft_results func_ty))) TooManyResults;;
    FuncType_from_wasmparser func_ty) section)).

Definition process_imports (section : SectionReader WasmImport) : HM unit :=
  on_parser (validate_payload (Payload_ImportSection section));;
  on_header (push_imports (section_map Import_from section)).

Definition process_functions (section : SectionReader Z) : HM unit :=
  limit ← on_parser (limits max_functions);
  lift (enforce limit (Z.of_N (sec_count section)) TooManyFunctions);;
  on_parser (validate_payload (Payload_FunctionSection section));;
  on_header (push_funcs (Z.of_N (sec_count section)) (section_map Ok section)).

(** The flag of a table is whether its initial value is [TableInit::RefNull]. *)
Definition process_tables (section : SectionReader (WasmTableType * bool)) : HM unit :=
  limit ← on_parser (limits max_tables);
  lift (enforce limit (Z.of_N (sec_count section)) TooManyTables_);;
  on_parser (validate_payload (Payload_TableSection section));;
  on_header (push_tables (section_map (fun '(ty, ref_null) =>
    assert_that ref_null;; TableType_from_wasmparser ty) section)).

Definition process_memories (section : SectionReader WasmMemoryType) : HM unit :=
  limit ← on_parser (limits max_memories);
  lift (enforce limit (Z.of_N (sec_count section)) TooManyMemories_);;
  on_parser (validate_payload (Payload_MemorySection section));;
  on_header (push_memories (section_map MemoryType_from_wasmparser section)).

Definition process_globals (section : SectionReader WasmGlobal) : HM unit :=
  limit ← on_parser (limits max_globals);
  lift (enforce limit (Z.of_N (sec_count section)) TooManyGlobals);;
  on_parser (validate_payload (Payload_GlobalSection section));;
  on_header (push_globals (section_map InitGlobal_from section)).

Definition process_exports (section : SectionReader (Bytes * ExternalKind * Z)) : HM unit :=
  on_parser (validate_payload (Payload_ExportSection section));;
  on_header (push_exports (section_map (fun '(field, kind, index) =>
    idx ← ExternIdx_new kind index; Ok (field, idx)) section)).

Definition process_start (func : Z) : HM unit :=
  on_parser (validate_payload (Payload_StartSection func));;
  on_header (hb_set_start func).

Definition process_element (section : SectionReader (WasmElementKind * WasmElementItems)) : HM unit :=
  limit ← on_parser (limits max_element_segments);
  lift (enforce limit (Z.of_N (sec_count section)) TooManyElementSegments);;
  on_parser (validate_payload (Payload_ElementSection section));;
  on_header (push_element_segments (section_map (fun '(kind, items) => InitElementSegment_from kind items) section)).

Definition process_data_count (count : Z) : MP unit :=
  limit ← limits max_data_segments;
  lift (enforce limit count TooManyDataSegments);;
  validate_payload (Payload_DataCountSection count).

(** [reserve_data_segments] is a matter of capacity. *)
Definition process_data (section : SectionReader (WasmDataKind * list Z)) (builder : Module_) : MP Module_ :=
  limit ← limits max_data_segments;
  lift (enforce limit (Z.of_N (sec_count section)) TooManyDataSegments);;
  validate_payload (Payload_DataSection section);;
  match for_each (fun segment =>
          match segment with
          | inl error => fail (PE_Wasm error)
          | inr (kind, data) => push_data_segment kind data
          end) (sec_items section) builder with
  | (Ok _, builder) => mret builder
  | (Err e, _) => fail e
  | (Panic, _) => panic
  end.

(** Dividing by zero is a panic, before it the [debug_assert!]. *)
Definition process_code_start (count size : Z) : MP unit :=
  enforced_limits ← limits id;
  lift (enforce (max_functions enforced_limits) count TooManyFunctions);;
  match min_avg_bytes enforced_limits with
  | Some limit =>
      if req_funcs_bytes limit <=? size then
        assert_m (negb (count =? 0));;
        let limit := min_avg_bytes_per_function limit in
        let avg := size / count in
        if avg <? limit then fail (PE_Limits (MinAvgBytesPerFunction limit avg)) else mret tt
      else mret tt
  | None => mret tt
  end;;
  validate_payload (Payload_CodeSectionStart count size).

Definition next_func (header : ModuleHeaderInner) : MP (Z * Z) :=
  self ← get_st;
  let index := mp_engine_funcs self in
  engine_func ← lift (EngineFuncSpan_get_or_panic (mh_engine_funcs (mhi_header header)) index);
  engine_funcs ← lift (expect (checked_add 32 index 1));
  put_st {| mp_engine := mp_engine self; mp_validator := mp_validator self; mp_parser := mp_parser self;
            mp_engine_funcs := engine_funcs |};;
  len_func_imports ← lift (expect (try_from_u 32 (mi_len_funcs (mhi_imports header))));
  func_idx ← lift (expect (checked_add 32 index len_func_imports));
  mret (func_idx, engine_func).

(** Running the engine: its errors are translation errors. *)
Definition on_mp_engine {A} (m : M EngineInner CompileFailure A) : MP A :=
  zoom mp_engine set_mp_engine PE_Translation m.

Definition process_code_entry (bytes : list Z) (header : ModuleHeaderInner) : MP unit :=
  '(func, engine_func) ← next_func header;
  func_to_validate ← validated (validator_code_section_entry bytes);
  on_mp_engine (translate_func (default_t := default_t) (default_v := default_v)
    validate_body used_translation used_validation
    func engine_func bytes (mhi_header header) func_to_validate).

Definition process_custom_section (name data : Bytes) (custom_sections : CustomSections) : MP CustomSections :=
  self ← get_st;
  mret (if cfg_ignore_custom_sections (en_config (mp_engine self)) then custom_sections
        else CustomSections_push name data custom_sections).

Definition process_invalid_payload (payload : Payload) : MP unit :=
  validated (validator_payload payload);; panic.

(** ** The loops over the buffer *)

Definition next_payload (buffer : Bytes) : MP (Z * Payload) :=
  zoom mp_parser set_mp_parser PE_Wasm (parser_parse buffer).

Definition consume_buffer (consumed : Z) (buffer : Bytes) : res ParseError Bytes := snd <$> split_at consumed buffer.

(** A turn of the loop of [parse_buffered_header] on a section of the header. *)
Definition process_header_payload (payload : Payload) (custom_sections : CustomSections) : HM CustomSections :=
  match payload with
  | Payload_Version num encoding => on_parser (process_version num encoding);; mret custom_sections
  | Payload_TypeSection section => process_types section;; mret custom_sections
  | Payload_ImportSection section => process_imports section;; mret custom_sections
  | Payload_FunctionSection section => process_functions section;; mret custom_sections
  | Payload_TableSection section => process_tables section;; mret custom_sections
  | Payload_MemorySection section => process_memories section;; mret custom_sections
  | Payload_GlobalSection section => process_globals section;; mret custom_sections
  | Payload_ExportSection section => process_exports section;; mret custom_sections
  | Payload_StartSection func => process_start func;; mret custom_sections
  | Payload_ElementSection section => process_element section;; mret custom_sections
  | Payload_DataCountSection count => on_parser (process_data_count count);; mret custom_sections
  | Payload_CustomSection name data => on_parser (process_custom_section name data custom_sections)
  | unexpected => on_parser (process_invalid_payload unexpected);; mret custom_sections
  end.

(** [None]: the fuel, one unit for each payload, is used up. *)
Fixpoint parse_buffered_header (fuel : nat) (buffer : Bytes) (custom_sections : CustomSections) :
    HM (option (Bytes * CustomSections)) :=
  match fuel with
  | O => mret None
  | S fuel =>
      '(consumed, payload) ← on_parser (next_payload buffer);
      match payload with
      | Payload_CodeSectionStart count size =>
          on_parser (process_code_start count size);;
          buffer ← lift (consume_buffer consumed buffer);
          mret (Some (buffer, custom_sections))
      | Payload_DataSection _ | Payload_End => mret (Some (buffer, custom_sections))
      | payload =>
          custom_sections ← process_header_payload payload custom_sections;
          buffer ← lift (consume_buffer consumed buffer);
          parse_buffered_header fuel buffer custom_sections
      end
  end.

Fixpoint parse_buffered_code (fuel : nat) (buffer : Bytes) (header : ModuleHeaderInner) : MP (option Bytes) :=
  match fuel with
  | O => mret None
  | S fuel =>
      '(consumed, payload) ← next_payload buffer;
      match payload with
      | Payload_CodeSectionEntry bytes =>
          buffer ← lift (consume_buffer consumed buffer);
          process_code_entry bytes header;;
          parse_buffered_code fuel buffer header
      | _ => mret (Some buffer)
      end
  end.

Definition set_custom_sections (custom_sections : CustomSections) (builder : Module_) : Module_ :=
  {| mo_header_inner := mo_header_inner builder; mo_data_segments := mo_data_segments builder;
     mo_custom_sections := custom_sections |}.

Fixpoint parse_buffered_data (fuel : nat) (buffer : Bytes) (builder : Module_) : MP (option Module_) :=
  match fuel with
  | O => mret None
  | S fuel =>
      '(consumed, payload) ← next_payload buffer;
      match payload with
      | Payload_End => process_end;; mret (Some builder)
      | payload =>
          builder ←
            match payload with
            | Payload_DataSection section => process_data section builder
            | Payload_CustomSection name data =>
                custom_sections ← process_custom_section name data (mo_custom_sections builder);
                mret (set_custom_sections custom_sections builder)
            | invalid => process_invalid_payload invalid;; mret builder
            end;
          buffer ← lift (consume_buffer consumed buffer);
          parse_buffered_data fuel buffer builder
      end
  end.

Definition parse_buffered_impl (fuel : nat) (buffer : Bytes) : MP (option Module_) := fun self =>
  match parse_buffered_header fuel buffer CustomSections_default (self, ModuleHeaderBuilder_new) with
  | (Ok (Some (buffer, custom_sections)), (self, header)) =>
      let header := ModuleHeaderBuilder_finish header in
      (rest ← parse_buffered_code fuel buffer header;
       match rest with
       | Some buffer => parse_buffered_data fuel buffer (ModuleBuilder_new header custom_sections)
       | None => mret None
       end) self
  | (Ok None, (self, _)) => (Ok None, self)
  | (Err e, (self, _)) => (Err e, self)
  | (Panic, (self, _)) => (Panic, self)
  end.

Definition parse_buffered (fuel : nat) (buffer : Bytes) : MP (option Module_) :=
  self ← get_st;
  let features := cfg_features (en_config (mp_engine self)) in
  put_st (set_mp_validator (Some (validator_new_with_features features)) self);;
  parse_buffered_impl fuel buffer.

Definition parse_buffered_unchecked : nat -> Bytes -> MP (option Module_) := parse_buffered_impl.

(** [Module::new] and [Module::new_unchecked]. *)
Definition Module_new (fuel : nat) (wasm : Bytes) (engine : EngineInner) :
    res ParseError (option Module_) * EngineInner :=
  let '(r, self) := parse_buffered fuel wasm (ModuleParser_new engine) in (r, mp_engine self).
Definition Module_new_unchecked (fuel : nat) (wasm : Bytes) (engine : EngineInner) :
    res ParseError (option Module_) * EngineInner :=
  let '(r, self) := parse_buffered_unchecked fuel wasm (ModuleParser_new engine) in (r, mp_engine self).
End Parser.
