(* ===== verification/ParserSpec.v ===== *)
(** * What parsing leaves in the engine

    A module that was parsed has an entry of the code map for each of its
    functions, prepared from the body of that function, and nothing else of the
    engine's functions changed. *)

From Stdlib Require Import ZArith Lia.
From stdpp Require Import base option decidable numbers gmap list.
From S2P Require Import Prelude Value Limiter MemoryType Table Arena Store InitExpr Header CodeMap Keeps Modules Engine Parser.
Local Open Scope Z_scope.

Section ParserSpec.
Context `{C : Compiler} {T : Target} {Alloc : Allocator} {Sf : SizeOf FuncType} {P : WasmParser}.
Context {TranslatorAllocs ValidatorAllocs : Type} {default_t : TranslatorAllocs} {default_v : ValidatorAllocs}.
Variable validate_body : Z -> list Z -> FuncToValidate -> res CompileFailure unit.
Variable used_translation : list Z -> TranslatorAllocs -> TranslatorAllocs.
Variable used_validation : list Z -> ValidatorAllocs -> ValidatorAllocs.

Notation EngineInner := (EngineInner (TranslatorAllocs := TranslatorAllocs) (ValidatorAllocs := ValidatorAllocs)).
Notation ModuleParser := (ModuleParser (TranslatorAllocs := TranslatorAllocs) (ValidatorAllocs := ValidatorAllocs)).
Notation HState := (HState (TranslatorAllocs := TranslatorAllocs) (ValidatorAllocs := ValidatorAllocs)).
Notation repr := (repr (E := CompileFailure)).
Notation prepared := (prepared validate_body).

(** ** The parser's own steps *)

(** Neither the engine nor the count of functions changes, nor whether there is a
    validator. *)
Definition same_parser (p p' : ModuleParser) : Prop :=
  mp_engine p' = mp_engine p /\ mp_engine_funcs p' = mp_engine_funcs p /\
  (is_Some (mp_validator p') <-> is_Some (mp_validator p)).

#[local] Instance same_parser_preorder : PreOrder same_parser.
Proof. split; unfold same_parser; [by intros ?|intros ? ? ? (? & ? & ?) (? & ? & ?); split_and!; [congruence..|tauto]]. Qed.

Lemma validated_keeps {A} (method : M Validator BinaryReaderError A) : keeps same_parser (validated method).
Proof.
  intros p. unfold keeps_at, validated. destruct (mp_validator p) as [v|] eqn:Hv; [|reflexivity].
  destruct (method v) as [r v']. unfold same_parser. cbn. rewrite Hv. by split_and!.
Qed.

Lemma validate_payload_keeps payload : keeps same_parser (validate_payload payload).
Proof. unfold validate_payload. keeps. apply validated_keeps. Qed.

Lemma limits_keeps {A} (f : EnforcedLimits -> A) : keeps same_parser (limits f).
Proof. intros p. unfold limits. keeps. Qed.

Lemma next_payload_keeps buffer : keeps same_parser (next_payload buffer).
Proof.
  intros p. unfold keeps_at, next_payload, zoom. destruct (parser_parse _ _). unfold same_parser. by cbn.
Qed.

Lemma process_custom_section_keeps name data css : keeps same_parser (process_custom_section name data css).
Proof. intros p. unfold process_custom_section. keeps. Qed.

Lemma process_invalid_payload_keeps payload : keeps same_parser (process_invalid_payload payload).
Proof. unfold process_invalid_payload. keeps. apply validated_keeps. Qed.

#[local] Hint Resolve validated_keeps validate_payload_keeps limits_keeps next_payload_keeps
  process_custom_section_keeps process_invalid_payload_keeps : keeps.

Lemma process_data_count_keeps count : keeps same_parser (process_data_count count).
Proof. unfold process_data_count. keeps. Qed.

Lemma process_code_start_keeps count size : keeps same_parser (process_code_start count size).
Proof. unfold process_code_start. keeps. Qed.

Lemma process_data_keeps section builder : keeps same_parser (process_data section builder).
Proof. unfold process_data. keeps. Qed.

#[local] Hint Resolve process_data_count_keeps process_code_start_keeps process_data_keeps : keeps.

(** ** The payloads of a binary

    What [wasmparser] reads alone says which payloads the loops of the parser handle:
    those of the header, and the entries of the code section. *)

(** The payloads of the header, the input behind it and the state of [wasmparser]
    there. *)
Fixpoint header_payloads (fuel : nat) (buffer : Bytes) (st : ParserState) :
    option (list (Payload BinaryReaderError) * Bytes * ParserState) :=
  match fuel with
  | O => None
  | S fuel =>
      match parser_parse buffer st with
      | (Ok (_, (Payload_DataSection _ | Payload_End)), st) => Some ([], buffer, st)
      | (Ok (consumed, payload), st) =>
          match consume_buffer consumed buffer with
          | Ok rest =>
              if payload is Payload_CodeSectionStart _ _ then Some ([], rest, st) else
              '(payloads, rest, st) ← header_payloads fuel rest st; Some (payload :: payloads, rest, st)
          | _ => None
          end
      | _ => None
      end
  end.

(** The bodies of the code section. *)
Fixpoint code_bodies (fuel : nat) (buffer : Bytes) (st : ParserState) : option (list (list Z)) :=
  match fuel with
  | O => None
  | S fuel =>
      match parser_parse buffer st with
      | (Ok (consumed, Payload_CodeSectionEntry body), st) =>
          match consume_buffer consumed buffer with
          | Ok rest => bodies ← code_bodies fuel rest st; Some (body :: bodies)
          | _ => None
          end
      | (Ok _, _) => Some []
      | _ => None
      end
  end.

(** The numbers of functions of the function sections, and how many they are. *)
Definition func_count (payload : Payload BinaryReaderError) : list N :=
  if payload is Payload_FunctionSection section then [sec_count section] else [].
Definition func_counts (payloads : list (Payload BinaryReaderError)) : list N := payloads ≫= func_count.
Definition total (counts : list N) : nat := sum_list_with N.to_nat counts.

(** The functions of the last function section, behind [before] older functions. *)
Definition span_of (before : nat) (counts : list N) : EngineFuncSpan :=
  match last counts with
  | Some n => {| efs_start := Z.of_nat (before + total counts - N.to_nat n); efs_end := Z.of_nat (before + total counts) |}
  | None => EngineFuncSpan_empty
  end.

Lemma total_app counts counts' : total (counts ++ counts') = (total counts + total counts')%nat.
Proof. apply sum_list_with_app. Qed.

Lemma span_of_bounds before counts : span_of before counts = EngineFuncSpan_empty \/
  Z.of_nat before <= efs_start (span_of before counts) <= efs_end (span_of before counts) /\
  efs_end (span_of before counts) = Z.of_nat (before + total counts).
Proof.
  unfold span_of. destruct (last counts) as [n|] eqn:Hl; [right|by left].
  apply last_Some in Hl as [counts' ->]. rewrite total_app. cbn. split; lia.
Qed.

(** ** The state of [wasmparser] *)

Definition same_input (p p' : ModuleParser) : Prop := mp_parser p' = mp_parser p.
#[local] Instance same_input_preorder : PreOrder same_input.
Proof. split; unfold same_input; [by intros ?|intros ???; congruence]. Qed.

Lemma validated_input {A} (method : M Validator BinaryReaderError A) : keeps same_input (validated method).
Proof. intros p. unfold keeps_at, validated. destruct (mp_validator p) as [v|]; [|done]. by destruct (method v). Qed.
#[local] Hint Resolve validated_input : keeps.
Lemma validate_payload_input payload : keeps same_input (validate_payload payload).
Proof. unfold validate_payload. keeps. Qed.
Lemma limits_input {A} (f : EnforcedLimits -> A) : keeps same_input (limits f).
Proof. unfold limits. keeps. Qed.
#[local] Hint Resolve validate_payload_input limits_input : keeps.

Definition same_header_input (st st' : HState) : Prop := same_input st.1 st'.1.
#[local] Instance same_header_input_preorder : PreOrder same_header_input.
Proof. split; unfold same_header_input; [by intros ?|intros ???; unfold same_input; congruence]. Qed.

Lemma on_parser_input {A} (m : M ModuleParser ParseError A) : keeps same_input m -> keeps same_header_input (on_parser m).
Proof. intros Hm. eapply keeps_zoom; [|exact Hm]. by intros [p hb] p' Hs. Qed.
Lemma on_header_input {A} (m : M (EngineInner * ModuleHeaderBuilder) ParseError A) : keeps same_header_input (on_header m).
Proof. intros [p hb]. unfold keeps_at, on_header. cbn. by destruct (m (mp_engine p, hb)) as [r [en' hb']]. Qed.
Lemma process_custom_section_input name data css : keeps same_input (process_custom_section name data css).
Proof. unfold process_custom_section. keeps. Qed.
Lemma process_invalid_payload_input payload : keeps same_input (process_invalid_payload payload).
Proof. unfold process_invalid_payload. keeps. Qed.
Lemma process_data_count_input count : keeps same_input (process_data_count count).
Proof. unfold process_data_count. keeps. Qed.
Lemma process_code_start_input count size : keeps same_input (process_code_start count size).
Proof. unfold process_code_start. keeps. Qed.
#[local] Hint Resolve on_parser_input on_header_input process_custom_section_input process_invalid_payload_input
  process_data_count_input process_code_start_input : keeps.

Lemma process_header_payload_input payload css : keeps same_header_input (process_header_payload payload css).
Proof.
  destruct payload; cbn [process_header_payload]; unfold process_version, process_types, process_imports,
    process_functions, process_tables, process_memories, process_globals, process_exports, process_start,
    process_element; keeps.
Qed.

Lemma next_payload_run buffer (p p' : ModuleParser) n payload : next_payload buffer p = (Ok (n, payload), p') ->
  parser_parse buffer (mp_parser p) = (Ok (n, payload), mp_parser p').
Proof.
  unfold next_payload, zoom. destruct (parser_parse _ _) as [[[k q]|e|] st]; [|done..]. by intros [= -> -> <-].
Qed.

(** ** The header *)

Section Header.
Variables (cfg : Config) (fs0 : list FuncEntry) (checked : Prop).

Section Counts.
Variable counts : list N.

(** The functions of the function sections so far follow those of before and are not
    initialized; the span of the header is that of the last section. *)
Definition engine_inv (en : EngineInner) (span : EngineFuncSpan) : Prop :=
  en_config en = cfg /\ allocs_ok (en_allocs en) /\
  repr (en_code_map en) (fs0 ++ replicate (total counts) FuncEntry_uninit) /\ span = span_of (length fs0) counts.

Definition hb_inv (st : EngineInner * ModuleHeaderBuilder) : Prop := engine_inv st.1 (hb_engine_funcs st.2).

Definition header_inv (st : HState) : Prop :=
  hb_inv (mp_engine st.1, st.2) /\ mp_engine_funcs st.1 = 0 /\ (is_Some (mp_validator st.1) <-> checked).

(** The engine may change as long as the invariant holds for every span. *)
Definition engine_step (en en' : EngineInner) : Prop := forall span, engine_inv en span -> engine_inv en' span.
#[local] Instance engine_step_preorder : PreOrder engine_step.
Proof. split; unfold engine_step; [by intros ?|intros ???; naive_solver]. Qed.

Lemma alloc_func_type_keeps ty : keeps engine_step (engine_alloc_func_type ty : M EngineInner Empty_set Z).
Proof.
  intros en. cbn. keeps. intros span. unfold EngineInner_alloc_func_type, on_func_types, zoom.
  by destruct (ftr_alloc_func_type _ _).
Qed.

Lemma on_engine_keeps {A} (m : M EngineInner Empty_set A) :
  keeps engine_step m -> keeps (implies hb_inv) (on_engine (E := ParseError) m).
Proof. intros Hm. eapply keeps_zoom; [|exact Hm]. intros [en hb] en' Hs. unfold implies, hb_inv. cbn. apply Hs. Qed.

#[local] Hint Resolve alloc_func_type_keeps on_engine_keeps : keeps.

Lemma get_hb_keeps : keeps (implies hb_inv) (get_hb (E := ParseError)).
Proof. unfold get_hb. intros s. keeps. Qed.

(** Writing a header builder with the same span. *)
Lemma put_hb_keeps hb s : hb_engine_funcs hb = hb_engine_funcs s.2 ->
  keeps_at (implies hb_inv) (put_hb (E := ParseError) hb) s.
Proof.
  intros Hs. change (engine_inv s.1 (hb_engine_funcs s.2) -> engine_inv s.1 (hb_engine_funcs hb)). by rewrite Hs.
Qed.

#[local] Hint Resolve get_hb_keeps put_hb_keeps : keeps.

(** The operations of the builder but [push_funcs] leave the span alone. *)
Ltac builder := repeat first [progress cbv beta zeta
  | lazymatch goal with |- keeps_at _ (get_hb ≫= ?k) ?s => change (keeps_at (implies hb_inv) (k s.2) s) end
  | apply put_hb_keeps; reflexivity
  | apply keeps_of, keeps_for_each; [typeclasses eauto|intros ???]
  | keeps_step ].

Lemma push_func_types_keeps l : keeps (implies hb_inv) (push_func_types (E := ParseError) l).
Proof. unfold push_func_types. builder. Qed.
Lemma push_import_keeps i : keeps (implies hb_inv) (push_import (E := ParseError) i).
Proof. unfold push_import, into_name_and_type. builder. Qed.
#[local] Hint Resolve push_import_keeps : keeps.
Lemma push_imports_keeps l : keeps (implies hb_inv) (push_imports (E := ParseError) l).
Proof. unfold push_imports. apply keeps_for_each; [typeclasses eauto|]. intros i _. builder. Qed.
Lemma push_tables_keeps l : keeps (implies hb_inv) (push_tables (E := ParseError) l).
Proof. unfold push_tables. builder. Qed.
Lemma push_memories_keeps l : keeps (implies hb_inv) (push_memories (E := ParseError) l).
Proof. unfold push_memories. builder. Qed.
Lemma push_globals_keeps l : keeps (implies hb_inv) (push_globals (E := ParseError) l).
Proof. unfold push_globals, into_type_and_init. builder. Qed.
Lemma push_exports_keeps l : keeps (implies hb_inv) (push_exports (E := ParseError) l).
Proof. unfold push_exports. builder. Qed.
Lemma hb_set_start_keeps start : keeps (implies hb_inv) (hb_set_start (E := ParseError) start).
Proof. unfold hb_set_start. builder. Qed.
Lemma push_element_segments_keeps l : keeps (implies hb_inv) (push_element_segments (E := ParseError) l).
Proof. unfold push_element_segments. builder. Qed.

#[local] Hint Resolve push_func_types_keeps push_imports_keeps push_tables_keeps push_memories_keeps
  push_globals_keeps push_exports_keeps hb_set_start_keeps push_element_segments_keeps : keeps.

Lemma on_parser_keeps {A} (m : M ModuleParser ParseError A) :
  keeps same_parser m -> keeps (implies header_inv) (on_parser m).
Proof.
  intros Hm. eapply keeps_zoom; [|exact Hm]. intros [p hb] p' (He & Hf & Hv). cbn in *.
  unfold implies, header_inv, hb_inv. cbn. by rewrite He, Hf, Hv.
Qed.

Lemma on_header_keeps {A} (m : M (EngineInner * ModuleHeaderBuilder) ParseError A) :
  keeps (implies hb_inv) m -> keeps (implies header_inv) (on_header m).
Proof.
  intros Hm [p hb]. pose proof (Hm (mp_engine p, hb)) as H. unfold keeps_at, on_header in *. cbn in *.
  destruct (m (mp_engine p, hb)) as [r [en' hb']]. cbn in *. unfold implies, header_inv in *. cbn.
  intros [H1 H2]. split; [by apply H|done].
Qed.

#[local] Hint Resolve on_parser_keeps on_header_keeps : keeps.

(** Every payload but a function section. *)
Lemma process_header_payload_keeps payload css : func_count payload = [] ->
  keeps (implies header_inv) (process_header_payload payload css).
Proof.
  destruct payload; cbn [process_header_payload func_count]; try done; intros _;
    unfold process_version, process_types, process_imports, process_tables, process_memories, process_globals,
    process_exports, process_start, process_element; keeps.
Qed.
End Counts.

(** A function section adds its functions to the engine. *)
Lemma engine_inv_alloc counts (en en' : EngineInner) span n : engine_inv counts en (span_of (length fs0) counts) ->
  EngineInner_alloc_funcs (E := Empty_set) (Z.of_N n) en = (Ok span, en') -> engine_inv (counts ++ [n]) en' span.
Proof.
  intros (Hc & Ha & HR & _). unfold EngineInner_alloc_funcs, on_code_map, zoom. rewrite <-N_nat_Z.
  apply (repr_errors (F := Empty_set)) in HR. set (us := replicate _ _) in HR.
  assert (length (fs0 ++ us) = length fs0 + total counts)%nat as Hl by (unfold us; by rewrite length_app, length_replicate).
  destruct (decide (Z.of_nat (length (fs0 ++ us) + N.to_nat n) <= MAX_FUNCS)) as [Hn|Hn].
  - destruct HR as [ptrs HR]. destruct (alloc_funcs_run _ _ _ (N.to_nat n) HR Hn) as (m1 & qs & h & R & HR' & _).
    unfold CodeMap_alloc_funcs. rewrite R. cbn [map_err]. intros [= <- <-].
    assert (total (counts ++ [n]) = total counts + N.to_nat n)%nat as Ht by (rewrite total_app; cbn; lia).
    split_and!; [done|done| |].
    + rewrite Ht, replicate_add, app_assoc. apply (repr_errors (E := Empty_set)); by eexists.
    + unfold span_of. rewrite last_snoc, Ht, Hl. f_equal; lia.
  - by rewrite (alloc_funcs_panics _ (fs0 ++ us) _ HR) by lia.
Qed.

Lemma push_funcs_run counts n l st st' : hb_inv counts st ->
  push_funcs (E := ParseError) (Z.of_N n) l st = (Ok tt, st') -> hb_inv (counts ++ [n]) st'.
Proof.
  intros Hs H. unfold push_funcs in H.
  apply bind_Ok_inv in H as (hb & s1 & H1 & H). unfold get_hb in H1. injection H1 as <- <-.
  apply bind_Ok_inv in H as (u & s1 & H1 & H). injection H1 as _ <-.
  apply bind_Ok_inv in H as (span & s1 & H1 & H). apply zoom_Ok_inv in H1 as (en' & Ha & ->).
  assert (hb_engine_funcs st.2 = span_of (length fs0) counts) as Hspan by apply Hs.
  apply (engine_inv_alloc counts) in Ha; [|unfold hb_inv in Hs; by rewrite Hspan in Hs].
  apply bind_Ok_inv in H as (hb & s1 & H1 & H). unfold get_hb in H1. injection H1 as <- <-.
  apply bind_Ok_inv in H as ([] & s1 & H1 & H). unfold put_hb in H1. injection H1 as <-.
  lazymatch type of H with ?m ?st = _ => cut (keeps (implies (hb_inv (counts ++ [n]))) m) end.
  - intros K. match type of H with _ ?st0 = _ => specialize (K st0) end.
    unfold keeps_at in K. rewrite H in K. by apply K.
  - apply keeps_for_each; [typeclasses eauto|]. intros x _.
    repeat first [progress cbv beta zeta
      | lazymatch goal with |- keeps_at _ (get_hb ≫= ?k) ?s =>
          change (keeps_at (implies (hb_inv (counts ++ [n]))) (k s.2) s) end
      | apply put_hb_keeps; reflexivity | keeps_step ].
Qed.

Lemma process_header_payload_run counts payload css css' (st st' : HState) : header_inv counts st ->
  process_header_payload payload css st = (Ok css', st') -> header_inv (counts ++ func_count payload) st'.
Proof.
  intros Hs H. destruct (decide (func_count payload = [])) as [Hc|Hc].
  { rewrite Hc, app_nil_r. pose proof (process_header_payload_keeps counts payload css Hc st) as K.
    unfold keeps_at in K. rewrite H in K. by apply K. }
  destruct payload; try done. cbn [process_header_payload func_count] in *. unfold process_functions in H.
  apply bind_Ok_inv in H as ([] & s1 & H & H1). injection H1 as _ <-.
  apply bind_Ok_inv in H as (limit & s2 & H1 & H).
  pose proof (on_parser_keeps counts _ (limits_keeps max_functions) st) as K1. unfold keeps_at in K1. rewrite H1 in K1.
  apply bind_Ok_inv in H as (u & s3 & H2 & H). injection H2 as _ <-.
  apply bind_Ok_inv in H as ([] & s3 & H3 & H).
  pose proof (on_parser_keeps counts _ (validate_payload_keeps (Payload_FunctionSection section)) s2) as K2.
  unfold keeps_at in K2. rewrite H3 in K2. destruct (K2 (K1 Hs)) as (Hh & Hf & Hv).
  unfold on_header in H. destruct (push_funcs _ _ _) as [r [en' hb']] eqn:Hp. injection H as -> <-.
  apply (push_funcs_run counts) in Hp; [|done]. by split_and!.
Qed.

Lemma parse_buffered_header_run fuel : forall buffer css counts (st st' : HState) rest css',
  header_inv counts st -> parse_buffered_header fuel buffer css st = (Ok (Some (rest, css')), st') ->
  exists payloads, header_payloads fuel buffer (mp_parser st.1) = Some (payloads, rest, mp_parser st'.1) /\
    header_inv (counts ++ func_counts payloads) st'.
Proof.
  induction fuel as [|fuel IH]; intros buffer css counts st st' rest css' Hs H; [done|].
  cbn [parse_buffered_header header_payloads] in *.
  apply bind_Ok_inv in H as ([n payload] & s1 & Hn & H). apply zoom_Ok_inv in Hn as (p1 & Hn & ->).
  pose proof (on_parser_keeps counts _ (next_payload_keeps buffer) st) as K. unfold keeps_at, on_parser, zoom in K.
  rewrite Hn in K. specialize (K Hs). cbn [id snd] in K. rewrite (next_payload_run _ _ _ _ _ Hn).
  destruct (match payload with Payload_DataSection _ | Payload_End => true | _ => false end) eqn:Hd.
  { exists []. cbn. rewrite app_nil_r. destruct payload; try done; injection H as <- <- <-; by split. }
  destruct (match payload with Payload_CodeSectionStart _ _ => true | _ => false end) eqn:Hc.
  { exists []. cbn. rewrite app_nil_r. destruct payload; try done.
    apply bind_Ok_inv in H as ([] & s2 & H1 & H). apply bind_Ok_inv in H as (buf & s3 & H2 & H).
    unfold lift in H2. injection H2 as H2 <-. injection H as <- _ <-. rewrite H2.
    pose proof (on_parser_keeps counts _ (process_code_start_keeps count size) (p1, st.2)) as K1.
    pose proof (on_parser_input _ (process_code_start_input count size) (p1, st.2)) as K2.
    assert (on_parser (process_code_start count size) (p1, st.2) = (Ok tt, s2)) as E1 by exact H1.
    unfold keeps_at in K1, K2. rewrite E1 in K1, K2.
    split; [by rewrite <-(K2 : mp_parser s2.1 = mp_parser p1)|by apply K1]. }
  assert (exists css1 s2 buf, process_header_payload payload css (p1, st.2) = (Ok css1, s2) /\
    consume_buffer n buffer = Ok buf /\ parse_buffered_header fuel buf css1 s2 = (Ok (Some (rest, css')), st')) as
    (css1 & s2 & buf & H1 & H2 & H3).
  { destruct payload; try done; apply bind_Ok_inv in H as (css1 & s2 & H1 & H);
      apply bind_Ok_inv in H as (buf & s3 & H2 & H); unfold lift in H2; injection H2 as H2 <-; by exists css1, s2, buf. }
  pose proof (process_header_payload_input payload css (p1, st.2)) as K2. unfold keeps_at in K2. rewrite H1 in K2.
  apply (process_header_payload_run counts) in H1; [|done].
  destruct (IH _ _ _ _ _ _ _ H1 H3) as (payloads & Hp & Hi). rewrite (K2 : mp_parser s2.1 = mp_parser p1) in Hp. exists (payload :: payloads). rewrite H2, Hp. unfold func_counts in *. cbn [mbind list_bind].
  rewrite app_assoc. split; [|done]. by destruct payload.
Qed.

(** ** The code section *)

Variables (h : ModuleHeaderInner) (counts : list N).
Notation span := (mh_engine_funcs (mhi_header h)).
Notation len_imported := (mi_len_funcs (mhi_imports h)).

(** After the bodies [bodies], each with its validator if there is one, the
    entries of their functions are prepared and the other new ones are not
    initialized. *)
Definition code_inv (bodies : list (list Z * option FuncToValidate)) (p : ModuleParser) : Prop :=
  en_config (mp_engine p) = cfg /\ allocs_ok (en_allocs (mp_engine p)) /\
  mp_engine_funcs p = Z.of_nat (length bodies) /\
  exists us, repr (en_code_map (mp_engine p)) (fs0 ++ us) /\ length us = total counts /\
    (span = EngineFuncSpan_empty \/
     Z.of_nat (length fs0) <= efs_start span <= efs_end span /\ efs_end span <= Z.of_nat (length (fs0 ++ us))) /\
    (forall j b v, bodies !! j = Some (b, v) -> exists e,
      (fs0 ++ us) !! Z.to_nat (efs_start span + Z.of_nat j) = Some e /\
      prepared (Z.of_nat j + len_imported) b (mhi_header h) v e) /\
    (forall i e, us !! i = Some e ->
      (forall j, (j < length bodies)%nat -> Z.of_nat (length fs0 + i) <> efs_start span + Z.of_nat j) ->
      e = FuncEntry_uninit).

Lemma code_inv_start p : mp_engine_funcs p = 0 -> engine_inv counts (mp_engine p) span -> code_inv [] p.
Proof.
  intros Hf (Hc & Ha & HR & Hs). split_and!; [done..|]. exists (replicate (total counts) FuncEntry_uninit).
  assert (length (fs0 ++ replicate (total counts) FuncEntry_uninit) = length fs0 + total counts)%nat as Hl
    by (by rewrite length_app, length_replicate).
  split_and!; [done|apply length_replicate| |done|].
  - rewrite Hs, Hl. destruct (span_of_bounds (length fs0) counts) as [?|[? He]]; [by left|right; lia].
  - intros i e Hi _. by apply lookup_replicate in Hi as [-> _].
Qed.

Lemma next_func_run (p : ModuleParser) x p' : next_func h p = (Ok x, p') -> 0 <= mp_engine_funcs p ->
  mp_engine_funcs p < efs_end span - efs_start span /\
  x = (mp_engine_funcs p + len_imported, efs_start span + mp_engine_funcs p) /\
  mp_engine_funcs p' = mp_engine_funcs p + 1 /\ mp_engine p' = mp_engine p /\ mp_validator p' = mp_validator p.
Proof.
  unfold next_func. rewrite bind_get_st. cbv zeta. intros H Hk.
  apply bind_Ok_inv in H as (f & p1 & H & H1). unfold lift in H. injection H as Hf <-.
  apply bind_Ok_inv in H1 as (k & p1 & H & H1). unfold lift in H. injection H as Hk' <-.
  unfold checked_add in *. destruct (_ <? _) eqn:Hlt in Hk'; [|done]. injection Hk' as <-.
  apply bind_Ok_inv in H1 as (u & p1 & H & H1). injection H as _ <-.
  apply bind_Ok_inv in H1 as (l & p2 & H & H1). unfold lift in H. injection H as Hl <-.
  apply bind_Ok_inv in H1 as (i & p3 & H & H1). unfold lift in H. injection H as Hi <-.
  injection H1 as <- <-. cbn.
  unfold EngineFuncSpan_get_or_panic, EngineFuncSpan_get, EngineFuncSpan_len, assert_that in Hf.
  destruct (Z.leb_spec (efs_start span) (efs_end span)); [|done]. cbn in Hf.
  destruct (Z.leb_spec (efs_end span - efs_start span) (mp_engine_funcs p)); [done|]. injection Hf as <-.
  destruct (try_from_u 32 _) as [l'|] eqn:El; [|done]. apply try_from_u_Some in El as [-> _]. injection Hl as <-.
  destruct (_ <? _) eqn:Hlt2 in Hi; [|done]. injection Hi as <-. split_and!; done.
Qed.

Notation process_code_entry := (process_code_entry (default_t := default_t) (default_v := default_v)
  validate_body used_translation used_validation).
Notation parse_buffered_code := (parse_buffered_code (default_t := default_t) (default_v := default_v)
  validate_body used_translation used_validation).

Lemma validated_run {A} (method : M Validator BinaryReaderError A) (p : ModuleParser) x p' :
  validated method p = (Ok x, p') -> same_parser p p' /\ (is_Some x <-> is_Some (mp_validator p)).
Proof.
  intros H. split; [by pose proof (validated_keeps method p) as K; unfold keeps_at in K; rewrite H in K|].
  revert H. unfold validated. destruct (mp_validator p) as [v|].
  - destruct (method v) as [[a|e|] v']; cbn; intros [= <- _]. by split.
  - intros [= <- _]. by split.
Qed.

(** The next entry is one of the new ones, and not initialized. *)
Lemma code_inv_next (bodies : list (list Z * option FuncToValidate)) (p : ModuleParser) (us : list FuncEntry) : length bodies = Z.to_nat (mp_engine_funcs p) -> 0 <= mp_engine_funcs p ->
  mp_engine_funcs p < efs_end span - efs_start span ->
  (span = EngineFuncSpan_empty \/
   Z.of_nat (length fs0) <= efs_start span <= efs_end span /\ efs_end span <= Z.of_nat (length (fs0 ++ us))) ->
  (forall i e, us !! i = Some e ->
    (forall j, (j < length bodies)%nat -> Z.of_nat (length fs0 + i) <> efs_start span + Z.of_nat j) ->
    e = FuncEntry_uninit) ->
  Z.of_nat (length fs0) <= efs_start span + mp_engine_funcs p /\
  (fs0 ++ us) !! Z.to_nat (efs_start span + mp_engine_funcs p) = Some FuncEntry_uninit.
Proof.
  intros Hl H0 Hk [Hs|[Hs He]] Hu; [rewrite Hs in Hk; cbn in Hk; lia|]. split; [lia|].
  set (f := Z.to_nat (efs_start span + mp_engine_funcs p)).
  assert (Z.of_nat f = efs_start span + mp_engine_funcs p) as Hfz by (unfold f; lia). clearbody f.
  assert (length fs0 <= f < length (fs0 ++ us))%nat as Hf by lia.
  rewrite lookup_app_r by lia. destruct (us !! (f - length fs0)%nat) as [e|] eqn:Hi.
  - f_equal. eapply Hu; [exact Hi|]. intros j Hj. lia.
  - apply lookup_ge_None in Hi. rewrite length_app in Hf. lia.
Qed.

Lemma process_code_entry_ok bodies bytes p p' : code_inv bodies p ->
  process_code_entry bytes h p = (Ok tt, p') ->
  exists v, code_inv (bodies ++ [(bytes, v)]) p' /\ (is_Some v <-> is_Some (mp_validator p)) /\
    (is_Some (mp_validator p') <-> is_Some (mp_validator p)).
Proof.
  intros (Hc & Ha & Hf & us & HR & Hlu & Hs & Hb & Hu) H. unfold Parser.process_code_entry in H.
  apply bind_Ok_inv in H as (x & p1 & Hn & H).
  apply next_func_run in Hn as (Hk & -> & Hf1 & He1 & Hv1); [|lia].
  apply bind_Ok_inv in H as (v & p2 & Hv & H). apply validated_run in Hv as [(He2 & Hf2 & Hv2) Hvs].
  rewrite Hv1 in Hv2, Hvs. apply zoom_Ok_inv in H as (en' & Ht & ->).
  rewrite He2, He1 in Ht. exists v. split; [|split; [done|exact Hv2]].
  destruct (code_inv_next bodies p us ltac:(lia) ltac:(lia) Hk Hs Hu) as [Hge He].
  set (f := Z.to_nat (efs_start span + mp_engine_funcs p)) in *.
  assert (Z.of_nat f = efs_start span + mp_engine_funcs p) as Hfz by (unfold f; lia). clearbody f.
  assert (0 <= efs_start span) as Hs0 by (destruct Hs as [Hs|]; [rewrite Hs; done|lia]).
  replace (efs_start span + mp_engine_funcs p) with (Z.of_nat f) in Ht by lia.
  apply (translate_func_spec validate_body used_translation used_validation _ _ f _ _ _ _ _ _ _ Ha HR He eq_refl)
    in Ht as Htr.
  2: { intros v' Hmode ->. eapply translate_func_lazy_index; [exact HR| |exact Hmode|exact Ht].
       by eapply lookup_lt_Some. }
  destruct Htr as (Ha' & (Hc' & _) & _ & e & HR' & Hp). specialize (Hp eq_refl).
  rewrite insert_app_r_alt in HR' by lia.
  split_and!; [by rewrite <- Hc, <- Hc'|done|cbn; rewrite Hf2, Hf1, length_app; cbn; lia|].
  exists (<[(f - length fs0)%nat := e]> us). split_and!; [done|by rewrite length_insert| | |].
  - by rewrite !length_app, length_insert, <- length_app.
  - intros j b v' Hj. rewrite <- insert_app_r_alt by lia. destruct (decide (j = length bodies)) as [->|Hne].
    + rewrite lookup_app_r, Nat.sub_diag in Hj by lia. injection Hj as <- <-. exists e.
      replace (Z.to_nat _) with f by lia. rewrite list_lookup_insert_eq by (by eapply lookup_lt_Some).
      split; [done|]. by rewrite Hf in Hp.
    + assert (Hj' := lookup_lt_Some _ _ _ Hj). rewrite length_app in Hj'. cbn in Hj'.
      rewrite lookup_app_l in Hj by lia. destruct (Hb _ _ _ Hj) as (e' & He' & Hp'). exists e'.
      rewrite list_lookup_insert_ne; [done|]. lia.
  - intros i e' Hi Hj. destruct (decide (i = (f - length fs0)%nat)) as [->|Hne].
    + destruct (Hj (length bodies)); [rewrite length_app; cbn; lia|]. lia.
    + rewrite list_lookup_insert_ne in Hi by done. eapply Hu; [exact Hi|].
      intros j Hj'. apply Hj. rewrite length_app. lia.
Qed.

Lemma process_code_entry_input bytes : keeps same_input (process_code_entry bytes h).
Proof.
  unfold Parser.process_code_entry, next_func, on_mp_engine. keeps.
  all: first [done | apply keeps_of; by eapply (keeps_zoom _ (fun _ _ => True))].
Qed.

Lemma parse_buffered_code_ok fuel : forall buffer bodies p rest p', code_inv bodies p ->
  parse_buffered_code fuel buffer h p = (Ok (Some rest), p') ->
  exists bodies', code_inv (bodies ++ bodies') p' /\
    code_bodies fuel buffer (mp_parser p) = Some bodies'.*1 /\
    (forall b v, (b, v) ∈ bodies' -> is_Some v <-> is_Some (mp_validator p)) /\
    (is_Some (mp_validator p') <-> is_Some (mp_validator p)).
Proof.
  induction fuel as [|fuel IH]; intros buffer bodies p rest p' Hinv H; [done|].
  cbn [Parser.parse_buffered_code code_bodies] in *.
  apply bind_Ok_inv in H as ([n payload] & p1 & Hn & H).
  pose proof (next_payload_keeps buffer p) as K. unfold keeps_at in K. rewrite Hn in K. destruct K as (He & Hf & Hv).
  rewrite (next_payload_run _ _ _ _ _ Hn).
  assert (code_inv bodies p1) as Hinv1 by (unfold code_inv in *; cbn in *; by rewrite He, Hf).
  destruct payload; try (injection H as <- <-; exists []; rewrite app_nil_r; split_and!; [done|done| |done];
    by intros ?? ?%not_elem_of_nil).
  apply bind_Ok_inv in H as (buf & p2 & H1 & H). unfold lift in H1. injection H1 as Hbuf <-.
  apply bind_Ok_inv in H as ([] & p3 & H1 & H).
  pose proof (process_code_entry_input func_body p1) as Hin. unfold keeps_at in Hin. rewrite H1 in Hin.
  destruct (process_code_entry_ok _ _ _ _ Hinv1 H1) as (v & Hinv3 & Hvs & Hv3).
  destruct (IH _ _ _ _ _ Hinv3 H) as (bodies' & Hinv' & Hcb & Hb & Hv').
  exists ((func_body, v) :: bodies'). rewrite <- app_assoc in Hinv'.
  rewrite Hbuf, <-(Hin : mp_parser p3 = mp_parser p1), Hcb. split_and!; [done|done| |cbn in *; tauto].
  intros b w [[= -> ->]|Hw]%elem_of_cons; [cbn in *; tauto|]. specialize (Hb _ _ Hw). cbn in *. tauto.
Qed.

(** ** The data section *)

Lemma parse_buffered_data_keeps fuel : forall buffer builder, keeps same_parser (parse_buffered_data fuel buffer builder).
Proof.
  induction fuel as [|fuel IH]; intros buffer builder; cbn [parse_buffered_data]; unfold process_end; keeps.
Qed.

Definition same_header (b b' : Module_) : Prop := mo_header_inner b' = mo_header_inner b.
#[local] Instance same_header_preorder : PreOrder same_header.
Proof. split; unfold same_header; [by intros ?|intros ???; congruence]. Qed.

Lemma push_data_segment_keeps {E} kind data : keeps same_header (push_data_segment (E := E) kind data).
Proof. intros b. unfold keeps_at, push_data_segment, zoom. by destruct (push_init_data_segment _ _ _). Qed.
#[local] Hint Resolve push_data_segment_keeps : keeps.

Lemma process_data_header section builder (p p' : ModuleParser) b :
  process_data section builder p = (Ok b, p') -> same_header builder b.
Proof.
  unfold process_data. intros H. apply bind_Ok_inv in H as (l & p1 & _ & H).
  apply bind_Ok_inv in H as (? & p2 & _ & H). apply bind_Ok_inv in H as (? & p3 & _ & H).
  match type of H with (match ?m with _ => _ end) _ = _ => assert (same_header builder m.2) as K end.
  { apply keeps_of, keeps_for_each; [typeclasses eauto|]. intros ? _. keeps. }
  destruct (for_each _ _ _) as [[[]|e|] b']; [|done..]. injection H as <- _. exact K.
Qed.

Lemma parse_buffered_data_header fuel : forall buffer builder (p p' : ModuleParser) b,
  parse_buffered_data fuel buffer builder p = (Ok (Some b), p') -> same_header builder b.
Proof.
  induction fuel as [|fuel IH]; intros buffer builder p p' b H; [done|]. cbn [parse_buffered_data] in H.
  apply bind_Ok_inv in H as ([n payload] & p1 & _ & H).
  destruct payload; lazymatch type of H with
    | (process_end ≫= _) _ = _ => apply bind_Ok_inv in H as (? & ? & _ & H); by injection H as <- _
    | _ => apply bind_Ok_inv in H as (b1 & p2 & H1 & H);
           apply bind_Ok_inv in H as (? & ? & _ & H); apply IH in H; etrans; [|exact H]
    end.
  all: repeat lazymatch goal with
    | H : process_data _ _ _ = _ |- _ => exact (process_data_header _ _ _ _ _ H)
    | H : (_ ≫= _) _ = _ |- _ => apply bind_Ok_inv in H as (? & ? & ? & H)
    | H : mret _ _ = _ |- _ => injection H as <- _
    end; done.
Qed.
End Header.

(** ** Imports *)

Notation imports_kept := (implies (fun st : EngineInner * ModuleHeaderBuilder => imports_inv st.2)).

Lemma put_hb_imports hb s : (imports_inv s.2 -> imports_inv hb) -> keeps_at imports_kept (put_hb (E := ParseError) hb) s.
Proof. done. Qed.

Lemma on_engine_imports {A} (m : M EngineInner Empty_set A) : keeps imports_kept (on_engine (E := ParseError) m).
Proof. intros [en hb]. unfold keeps_at, on_engine, zoom, implies. cbn. by destruct (m en). Qed.
#[local] Hint Resolve on_engine_imports : keeps.

Ltac builder_imports := repeat first [progress cbv beta zeta
  | lazymatch goal with |- keeps_at _ (get_hb ≫= ?k) ?s => change (keeps_at imports_kept (k s.2) s) end
  | apply put_hb_imports; unfold imports_inv; cbn; rewrite ?length_app; cbn; lia
  | apply keeps_of, keeps_for_each; [typeclasses eauto|intros ???]
  | keeps_step ].

Lemma push_import_imports i : keeps imports_kept (push_import (E := ParseError) i).
Proof. unfold push_import, into_name_and_type. builder_imports. Qed.
#[local] Hint Resolve push_import_imports : keeps.
Lemma push_imports_imports l : keeps imports_kept (push_imports (E := ParseError) l).
Proof. unfold push_imports. apply keeps_for_each; [typeclasses eauto|]. intros i _. builder_imports. Qed.
Lemma push_func_types_imports l : keeps imports_kept (push_func_types (E := ParseError) l).
Proof. unfold push_func_types. builder_imports. Qed.
Lemma push_funcs_imports n l : keeps imports_kept (push_funcs (E := ParseError) n l).
Proof. unfold push_funcs. builder_imports. Qed.
Lemma push_tables_imports l : keeps imports_kept (push_tables (E := ParseError) l).
Proof. unfold push_tables. builder_imports. Qed.
Lemma push_memories_imports l : keeps imports_kept (push_memories (E := ParseError) l).
Proof. unfold push_memories. builder_imports. Qed.
Lemma push_globals_imports l : keeps imports_kept (push_globals (E := ParseError) l).
Proof. unfold push_globals, into_type_and_init. builder_imports. Qed.
Lemma push_exports_imports l : keeps imports_kept (push_exports (E := ParseError) l).
Proof. unfold push_exports. builder_imports. Qed.
Lemma hb_set_start_imports start : keeps imports_kept (hb_set_start (E := ParseError) start).
Proof. unfold hb_set_start. builder_imports. Qed.
Lemma push_element_segments_imports l : keeps imports_kept (push_element_segments (E := ParseError) l).
Proof. unfold push_element_segments. builder_imports. Qed.
#[local] Hint Resolve push_import_imports push_imports_imports push_func_types_imports push_funcs_imports
  push_tables_imports push_memories_imports push_globals_imports push_exports_imports hb_set_start_imports
  push_element_segments_imports : keeps.

Notation state_imports_kept := (implies (fun st : HState => imports_inv st.2)).

Lemma on_parser_imports {A} (m : M ModuleParser ParseError A) : keeps state_imports_kept (on_parser m).
Proof. intros [p hb]. unfold keeps_at, on_parser, zoom, implies. cbn. by destruct (m p). Qed.
Lemma on_header_imports {A} (m : M (EngineInner * ModuleHeaderBuilder) ParseError A) :
  keeps imports_kept m -> keeps state_imports_kept (on_header m).
Proof.
  intros Hm [p hb]. pose proof (Hm (mp_engine p, hb)) as K. unfold keeps_at, on_header in *. cbn in *.
  by destruct (m (mp_engine p, hb)) as [r [en' hb']].
Qed.
#[local] Hint Resolve on_parser_imports on_header_imports : keeps.

Lemma process_header_payload_imports payload css : keeps state_imports_kept (process_header_payload payload css).
Proof.
  destruct payload; cbn [process_header_payload]; unfold process_version, process_types, process_imports,
    process_functions, process_tables, process_memories, process_globals, process_exports, process_start,
    process_element; keeps.
Qed.
#[local] Hint Resolve process_header_payload_imports : keeps.

Lemma parse_buffered_header_imports fuel : forall buffer css,
  keeps state_imports_kept (parse_buffered_header fuel buffer css).
Proof. induction fuel as [|fuel IH]; intros buffer css; cbn [parse_buffered_header]; keeps. Qed.

(** The header of a parsed module is that of a builder that satisfies [J]. *)
Lemma Module_new_header (J : ModuleHeaderBuilder -> Prop) fuel wasm (en en' : EngineInner) module :
  J ModuleHeaderBuilder_new ->
  (forall buffer css, keeps (implies (fun st : HState => J st.2)) (parse_buffered_header fuel buffer css)) ->
  Module_new (default_t := default_t) (default_v := default_v)
    validate_body used_translation used_validation fuel wasm en = (Ok (Some module), en') ->
  exists hb, J hb /\ mo_header_inner module = ModuleHeaderBuilder_finish hb.
Proof.
  intros H0 Hk H. unfold Module_new in H. destruct (parse_buffered _ _ _ _ _ _) as [r p'] eqn:Hp.
  injection H as -> _. unfold parse_buffered in Hp. rewrite bind_get_st in Hp. cbv zeta in Hp.
  apply bind_Ok_inv in Hp as ([] & p0 & Hp0 & Hp). unfold parse_buffered_impl in Hp.
  pose proof (Hk wasm CustomSections_default (p0, ModuleHeaderBuilder_new)) as K. unfold keeps_at, implies in K.
  destruct (parse_buffered_header _ _ _ _) as [[[[buffer css]|]|e|] [p1 hb]]; try done.
  apply bind_Ok_inv in Hp as (rest & p2 & _ & Hd). destruct rest as [rest|]; [|done].
  exists hb. split; [by apply K|]. by rewrite (parse_buffered_data_header _ _ _ _ _ _ Hd).
Qed.

(** A parsed module lists its imports without a panic: each with its name and its
    type, functions first, then tables, memories and globals; its own entities
    follow those it imports. *)
Theorem parsed_module_imports {E} (resolve_func_type : Z -> FuncType) fuel wasm (en en' : EngineInner) module :
  Module_new (default_t := default_t) (default_v := default_v)
    validate_body used_translation used_validation fuel wasm en = (Ok (Some module), en') ->
  exists hb iter, mo_header_inner module = ModuleHeaderBuilder_finish hb /\
    Module_imports (E := E) module = Ok iter /\ length (it_names iter) = length (imports_of resolve_func_type hb) /\
    import_types (E := E) resolve_func_type (length (it_names iter)) iter = Ok (imports_of resolve_func_type hb) /\
    internal_tables (E := E) module = Ok (drop (length (mib_tables (hb_imports hb))) (hb_tables hb)) /\
    internal_memories (E := E) module = Ok (drop (length (mib_memories (hb_imports hb))) (hb_memories hb)) /\
    internal_globals (E := E) module =
      Ok (zip (drop (length (mib_globals (hb_imports hb))) (hb_globals hb)) (hb_globals_init hb)).
Proof.
  intros H. destruct (Module_new_header imports_inv _ _ _ _ _ ltac:(unfold imports_inv; cbn; lia)
    (parse_buffered_header_imports fuel) H) as (hb & Hb & Hm).
  destruct module as [mh data css]. cbn in Hm. subst mh.
  destruct (Module_import_types_run (E := E) resolve_func_type hb data css Hb) as (iter & Hi & Hl & Ht).
  exists hb, iter. destruct Hb as (H1 & H2 & H3 & H4). split_and!; try done.
  - unfold internal_tables, skip_imported, mo_header, mo_imports. cbn. by rewrite get_from_length.
  - unfold internal_memories, skip_imported, mo_header, mo_imports. cbn. by rewrite get_from_length.
  - unfold internal_globals, skip_imported, mo_header, mo_imports. cbn. by rewrite get_from_length by lia.
Qed.


(** ** Termination

    [wasmparser] consumes input with every payload but the last. *)
Definition parser_progress : Prop := forall buffer st consumed payload st',
  parser_parse buffer st = (Ok (consumed, payload), st') -> payload <> Payload_End -> 0 < consumed.

Lemma next_payload_inv buffer (p p' : ModuleParser) consumed payload : parser_progress ->
  next_payload buffer p = (Ok (consumed, payload), p') -> payload <> Payload_End -> 0 < consumed.
Proof.
  intros Hp. unfold next_payload, zoom. destruct (parser_parse _ _) as [[[n q]|e|] st] eqn:E; cbn; [|done..].
  intros [= <- <- _]. by apply (Hp _ _ _ _ _ E).
Qed.

Lemma consume_buffer_shorter consumed (buffer buffer' : Bytes) : 0 < consumed ->
  consume_buffer consumed buffer = Ok buffer' -> (length buffer' < length buffer)%nat.
Proof.
  intros Hc. unfold consume_buffer, split_at, get_to, get_from. case_if; cbn [expect mbind res_bind fmap res_fmap snd];  [|done]. intros [= <-]. zb. rewrite length_drop. lia.
Qed.

(** A loop that goes on with a shorter buffer. *)
Lemma parse_step {S A} consumed (buffer : Bytes) fuel (k : Bytes -> M S ParseError (option A)) s :
  0 < consumed -> (length buffer < Datatypes.S fuel)%nat ->
  (forall buffer' s', (length buffer' < fuel)%nat -> (k buffer' s').1 <> Ok None) ->
  ((buffer ← lift (consume_buffer consumed buffer); k buffer) s).1 <> Ok None.
Proof.
  intros Hc Hl Hk. rewrite bind_lift. destruct (consume_buffer _ _) as [buffer'|e|] eqn:E'; [|done..].
  apply Hk. pose proof (consume_buffer_shorter _ _ _ Hc E'). lia.
Qed.

Lemma bind_no_fuel {E S A B} (m : M S E A) (k : A -> M S E (option B)) s :
  (forall a s', m s = (Ok a, s') -> (k a s').1 <> Ok None) -> ((m ≫= k) s).1 <> Ok None.
Proof. intros Hk. rewrite bind_run. destruct (m s) as [[a|e|] s'] eqn:E'; [by apply Hk|done..]. Qed.


Lemma parse_buffered_header_ends fuel : parser_progress -> forall buffer css (st : HState),
  (length buffer < fuel)%nat -> (parse_buffered_header fuel buffer css st).1 <> Ok None.
Proof.
  intros Hp. induction fuel as [|fuel IH]; [lia|]. intros buffer css [p hb] Hl. cbn [parse_buffered_header].
  apply bind_no_fuel. intros [consumed payload] [p' hb'] E.
  unfold on_parser, zoom in E. destruct (next_payload buffer _) as [[[n q]|e|] p1] eqn:En; cbn in E; [|done..].
  injection E as -> -> <- <-. pose proof (next_payload_inv _ _ _ _ _ Hp En) as Hc.
  destruct payload; try done; apply bind_no_fuel; intros a s' _;
    (eapply parse_step; [by apply Hc|done|by intros; try apply IH]).
Qed.

Lemma parse_buffered_code_ends fuel header : parser_progress -> forall buffer (p : ModuleParser),
  (length buffer < fuel)%nat -> (parse_buffered_code (default_t := default_t) (default_v := default_v)
    validate_body used_translation used_validation fuel buffer header p).1 <> Ok None.
Proof.
  intros Hp. induction fuel as [|fuel IH]; [lia|]. intros buffer p Hl. cbn [parse_buffered_code].
  apply bind_no_fuel. intros [consumed payload] p' En. pose proof (next_payload_inv _ _ _ _ _ Hp En) as Hc.
  destruct payload; try done. eapply parse_step; [by apply Hc|done|].
  intros buffer' s' Hl'. apply bind_no_fuel. intros [] s2 _. by apply IH.
Qed.

Lemma parse_buffered_data_ends fuel : parser_progress -> forall buffer builder (p : ModuleParser),
  (length buffer < fuel)%nat -> (parse_buffered_data fuel buffer builder p).1 <> Ok None.
Proof.
  intros Hp. induction fuel as [|fuel IH]; [lia|]. intros buffer builder p Hl. cbn [parse_buffered_data].
  apply bind_no_fuel. intros [consumed payload] p' En. pose proof (next_payload_inv _ _ _ _ _ Hp En) as Hc.
  destruct payload; apply bind_no_fuel; intros a s' _; try done;
    (eapply parse_step; [by apply Hc|done|by intros; apply IH]).
Qed.

(** The loops hand on no more than they were given. *)
Lemma consume_buffer_length consumed (buffer buffer' : Bytes) :
  consume_buffer consumed buffer = Ok buffer' -> (length buffer' <= length buffer)%nat.
Proof.
  unfold consume_buffer, split_at, get_to, get_from. case_if; cbn [expect mbind res_bind fmap res_fmap snd]; [|done].
  intros [= <-]. rewrite length_drop. lia.
Qed.

Lemma parse_buffered_header_shorter fuel : forall buffer css (st st' : HState) buffer' css',
  parse_buffered_header fuel buffer css st = (Ok (Some (buffer', css')), st') -> (length buffer' <= length buffer)%nat.
Proof.
  induction fuel as [|fuel IH]; [done|]. intros buffer css st st' buffer' css' H. cbn [parse_buffered_header] in H.
  apply bind_Ok_inv in H as ([consumed payload] & s1 & _ & H).
  destruct payload; try (injection H as <- _ _; lia);
    apply bind_Ok_inv in H as (a & s2 & _ & H); apply bind_Ok_inv in H as (b & s3 & Hb & H);
    unfold lift in Hb; injection Hb as Hb _; apply consume_buffer_length in Hb;
    (injection H as <- _ _ || apply IH in H); lia.
Qed.

Lemma parse_buffered_code_shorter fuel header : forall buffer (p p' : ModuleParser) buffer',
  parse_buffered_code (default_t := default_t) (default_v := default_v)
    validate_body used_translation used_validation fuel buffer header p = (Ok (Some buffer'), p') ->
  (length buffer' <= length buffer)%nat.
Proof.
  induction fuel as [|fuel IH]; [done|]. intros buffer p p' buffer' H. cbn [parse_buffered_code] in H.
  apply bind_Ok_inv in H as ([consumed payload] & p1 & _ & H).
  destruct payload; try (injection H as <- _; lia).
  apply bind_Ok_inv in H as (b & p2 & Hb & H). unfold lift in Hb; injection Hb as Hb _.
  apply consume_buffer_length in Hb. apply bind_Ok_inv in H as ([] & p3 & _ & H). apply IH in H. lia.
Qed.

(** C17: Parsing ends: if the parser consumes input with every payload but the end,
    one unit of fuel more than the binary has bytes is enough in each of the three
    loops, so that a module or an error comes out, also of an arbitrary binary. *)
Theorem Module_new_terminates fuel wasm (en : EngineInner) :
  parser_progress -> (length wasm < fuel)%nat ->
  (Module_new (default_t := default_t) (default_v := default_v)
    validate_body used_translation used_validation fuel wasm en).1 <> Ok None.
Proof.
  intros Hp Hl. unfold Module_new. destruct (parse_buffered _ _ _ _ _ _) as [r p'] eqn:E.
  replace r with (parse_buffered (default_t := default_t) (default_v := default_v) validate_body used_translation
    used_validation fuel wasm (ModuleParser_new en)).1 by by rewrite E.
  clear E. unfold parse_buffered. rewrite bind_get_st. cbv zeta. apply bind_no_fuel. intros [] p0 _.
  unfold parse_buffered_impl.
  pose proof (parse_buffered_header_ends fuel Hp wasm CustomSections_default (p0, ModuleHeaderBuilder_new) Hl) as Hh.
  pose proof (parse_buffered_header_shorter fuel wasm CustomSections_default (p0, ModuleHeaderBuilder_new)) as Hs.
  destruct (parse_buffered_header _ _ _ _) as [[[[buffer css]|]|e|] [p1 hb]]; try done.
  apply bind_no_fuel. intros rest p2 Ec.
  pose proof (parse_buffered_code_ends fuel (ModuleHeaderBuilder_finish hb) Hp buffer p1) as Hc.
  pose proof (parse_buffered_code_shorter fuel (ModuleHeaderBuilder_finish hb) buffer p1) as Hs2.
  rewrite Ec in Hc, Hs2. specialize (Hs _ _ _ eq_refl).
  destruct rest as [rest|]; [|by destruct Hc; [lia|]]. apply parse_buffered_data_ends; [done|]. specialize (Hs2 _ _ eq_refl). lia.
Qed.
End ParserSpec.

(** ** An example

    A binary of one byte per payload. *)

(** [process_code_start] of an empty code section that claims to have bytes. *)
Theorem process_code_start_empty `{Compiler} `{Target} `{Allocator} `{SizeOf FuncType} `{!WasmParser} {TA VA}
    (p : ModuleParser (TranslatorAllocs := TA) (ValidatorAllocs := VA)) limit size :
  min_avg_bytes (cfg_limits (en_config (mp_engine p))) = Some limit -> req_funcs_bytes limit <= size ->
  (forall max, max_functions (cfg_limits (en_config (mp_engine p))) = Some max -> 0 <= max) ->
  process_code_start 0 size p = (Panic, p).
Proof.
  intros Hl Hs Hm. unfold process_code_start, limits. rewrite bind_run, bind_get_st. cbn [mret M_ret].
  rewrite bind_lift. unfold enforce. unfold id.
  destruct (max_functions _) as [max|] eqn:Em.
  - rewrite (proj2 (Z.ltb_ge _ _)) by (by apply Hm). by rewrite Hl, (proj2 (Z.leb_le _ _)).
  - by rewrite Hl, (proj2 (Z.leb_le _ _)).
Qed.

Section Example.
#[local] Existing Instance copy_compiler.
#[local] Instance demo_target : Target := default_target.
#[local] Instance demo_alloc : Allocator := limit_allocator default_target 1000.
#[local] Instance demo_size : SizeOf FuncType := 8.

Definition demo_payload (byte : Z) : Payload Z :=
  if byte =? 1 then Payload_TypeSection (Build_SectionReader 1 [inr {| wft_params := []; wft_results := [WasmVal_I32] |}])
  else if byte =? 2 then Payload_ImportSection
    (Build_SectionReader 1 [inr {| wi_module := [109]; wi_name := [102]; wi_ty := TypeRef_Func 0 |}])
  else if byte =? 3 then Payload_FunctionSection (Build_SectionReader 2 [inr 0; inr 0])
  else if byte =? 4 then Payload_CodeSectionStart 2 4
  else Payload_CodeSectionEntry [byte; 11].

(** The validator counts functions. *)
#[local] Instance demo_parser : WasmParser := {|
  BinaryReaderError := Z; ParserState := unit; Validator := Z;
  parser_new := fun _ => tt;
  validator_new_with_features := fun _ => 0;
  parser_parse := fun buffer => match buffer with
                                | [] => mret (0, Payload_End)
                                | byte :: _ => mret (1, demo_payload byte)
                                end;
  validator_payload := fun payload => match payload with
                                      | Payload_ImportSection _ => n ← get_st; put_st (n + 1)
                                      | _ => mret tt
                                      end;
  validator_code_section_entry := fun _ =>
    n ← get_st; put_st (n + 1);;
    mret {| ftv_resources := tt; ftv_index := n; ftv_ty := 0; ftv_features := tt |}
|}.

Definition demo_engine (mode : CompilationMode) (costs : Fuel.FuelCostsProvider) :
    EngineInner (TranslatorAllocs := unit) (ValidatorAllocs := unit) :=
  EngineInner_new 0 {| cfg_stack := StackConfig_default; cfg_features := tt; cfg_consume_fuel := false;
    cfg_ignore_custom_sections := false; cfg_fuel_costs := costs; cfg_compilation_mode := mode;
    cfg_limits := EnforcedLimits_default |}.

Notation demo_new mode costs :=
  (Module_new (default_t := tt) (default_v := tt) (fun _ _ _ => Ok tt) (fun _ a => a) (fun _ a => a)
    10 [1; 2; 3; 4; 5; 6] (demo_engine mode costs)).

(** The state of the three functions [0], [1] and [2] of the engine. *)
Definition demo_states mode costs : list (option Z) :=
  (fun func => match Funcs_get (E := unit) (cm_funcs (en_code_map (demo_new mode costs).2)) func with
               | Ok (Some r) => match deref (E := unit) r (en_code_map (demo_new mode costs).2) with
                                | Ok e => Some (fe_state e) | _ => None end
               | _ => None
               end) <$> [0; 1; 2].

Lemma demo_states_spec mode : demo_states mode Fuel.FuelCostsProvider_default =
  [Some (if mode is Eager then COMPILED else UNCOMPILED); Some (if mode is Eager then COMPILED else UNCOMPILED); None].
Proof. destruct mode; vm_compute; reflexivity. Qed.

Lemma ok_some_inv {E S A} (x : res E (option A) * S) :
  match x.1 with Ok (Some _) => true | _ => false end = true -> exists a s, x = (Ok (Some a), s).
Proof. destruct x as [[[a|]| |] s]; cbn; intros H; [eauto|discriminate..]. Qed.

Lemma demo_new_ok mode : exists module en', demo_new mode Fuel.FuelCostsProvider_default = (Ok (Some module), en').
Proof. apply ok_some_inv. destruct mode; vm_compute; reflexivity. Qed.


Lemma demo_parser_progress : parser_progress.
Proof. intros [|b l] st consumed payload st' [= <- <- _] Hp; [done|lia]. Qed.

(** A binary that ends in a code section whose bodies do not match its functions. *)
Lemma Module_new_terminates_witness :
  (length [3; 4; 7] < 10)%nat /\
  (Module_new (default_t := tt) (default_v := tt) (fun _ _ _ => Ok tt) (fun _ a => a) (fun _ a => a)
    10 [3; 4; 7] (demo_engine Eager Fuel.FuelCostsProvider_default)).1 <> Ok None.
Proof.
  split; [apply Nat.ltb_lt; reflexivity|].
  apply (Module_new_terminates (default_t := tt) (default_v := tt) (fun _ _ _ => Ok tt) (fun _ a => a)
    (fun _ a => a) 10 [3; 4; 7] (demo_engine Eager Fuel.FuelCostsProvider_default) demo_parser_progress).
  apply Nat.ltb_lt. reflexivity.
Defined.
End Example.
