(* ===== verification/Instantiate.v ===== *)
(** * Instantiation

    [module/instantiate/mod.rs], [module/instantiate/error.rs] and
    [instance/builder.rs]: imports are matched against the values given for them,
    the entities of the module are allocated, its segments are copied into tables
    and memories and its start function runs.  The limits of [store/mod.rs] on the
    number of entities are checked on the way.

    Running the start function is the executor's: [call_start] is a parameter. *)

From Stdlib Require Import ZArith Lia.
From stdpp Require Import base option decidable numbers gmap list.
From S2P Require Import Prelude Value Fuel Limiter MemoryType Memory Table Cells ExecStack Calls Arena Store InitExpr Header Keeps Modules.
Local Open Scope Z_scope.

(** ** Errors *)

Inductive InstantiationError : Type :=
| MismatchedNumberOfImports (expected actual : Z)
| ImportTypeMismatch (name : ImportName) (expected : ExternType) (actual : Extern)
| GlobalTypeMismatch (name : ImportName) (expected actual : GlobalType)
| FuncTypeMismatch (name : ImportName) (expected actual : FuncType)
| TableTypeMismatch (name : ImportName) (expected actual : TableType)
| MemoryTypeMismatch (name : ImportName) (expected actual : MemoryType)
| ElementSegmentDoesNotFit (table : Handle) (table_index len : Z)
| UnexpectedStartFn (index : Z)
| TooManyInstances
| TooManyTables
| TooManyMemories
| FailedToInstantiateMemory (error : MemoryError)
| FailedToInstantiateTable (error : TableError).

(** The errors [Module::instantiate] converts into [Error]; [X] are those of the
    start function. *)
Inductive InstError (X : Type) : Type :=
| IE_Instantiation (error : InstantiationError)
| IE_Memory (error : MemoryError)
| IE_Table (error : TableError)
| IE_Start (error : X).
Arguments IE_Instantiation {X} error.
Arguments IE_Memory {X} error.
Arguments IE_Table {X} error.
Arguments IE_Start {X} error.

(** ** The builder of an instance *)

Record InstanceEntityBuilder : Type := {
  ib_func_types : list Z;
  ib_tables : list Handle;
  ib_funcs : list Handle;
  ib_memories : list Handle;
  ib_globals : list Handle;
  ib_start_fn : option Z;
  ib_exports : gmap Bytes Extern;
  ib_data_segments : list Handle;
  ib_elem_segments : list Handle
}.

Definition InstanceEntityBuilder_new (module : Module_) : InstanceEntityBuilder := {|
  ib_func_types := mh_func_types (mo_header module); ib_tables := []; ib_funcs := []; ib_memories := [];
  ib_globals := []; ib_start_fn := None; ib_exports := ∅; ib_data_segments := []; ib_elem_segments := [] |}.

Section Builder.
Implicit Type self : InstanceEntityBuilder.

Definition ib_set_items tables funcs memories globals self : InstanceEntityBuilder := {|
  ib_func_types := ib_func_types self; ib_tables := tables; ib_funcs := funcs; ib_memories := memories;
  ib_globals := globals; ib_start_fn := ib_start_fn self; ib_exports := ib_exports self;
  ib_data_segments := ib_data_segments self; ib_elem_segments := ib_elem_segments self |}.
Definition ib_set_rest start_fn exports data_segments elem_segments self : InstanceEntityBuilder := {|
  ib_func_types := ib_func_types self; ib_tables := ib_tables self; ib_funcs := ib_funcs self;
  ib_memories := ib_memories self; ib_globals := ib_globals self; ib_start_fn := start_fn;
  ib_exports := exports; ib_data_segments := data_segments; ib_elem_segments := elem_segments |}.

Definition push_func (func : Handle) self : InstanceEntityBuilder :=
  ib_set_items (ib_tables self) (ib_funcs self ++ [func]) (ib_memories self) (ib_globals self) self.
Definition push_table (table : Handle) self : InstanceEntityBuilder :=
  ib_set_items (ib_tables self ++ [table]) (ib_funcs self) (ib_memories self) (ib_globals self) self.
Definition push_memory (memory : Handle) self : InstanceEntityBuilder :=
  ib_set_items (ib_tables self) (ib_funcs self) (ib_memories self ++ [memory]) (ib_globals self) self.
Definition push_global (global : Handle) self : InstanceEntityBuilder :=
  ib_set_items (ib_tables self) (ib_funcs self) (ib_memories self) (ib_globals self ++ [global]) self.
Definition ib_push_data_segment (segment : Handle) self : InstanceEntityBuilder :=
  ib_set_rest (ib_start_fn self) (ib_exports self) (ib_data_segments self ++ [segment]) (ib_elem_segments self) self.
Definition ib_push_element_segment (segment : Handle) self : InstanceEntityBuilder :=
  ib_set_rest (ib_start_fn self) (ib_exports self) (ib_data_segments self) (ib_elem_segments self ++ [segment]) self.

(** Missing entities are panics. *)
Definition ib_get_memory {E} self (index : Z) : res E Handle := index_or_panic (ib_memories self) index.
Definition ib_get_table {E} self (index : Z) : res E Handle := index_or_panic (ib_tables self) index.
Definition ib_get_global {E} self (index : Z) : res E Handle := index_or_panic (ib_globals self) index.
Definition ib_get_func {E} self (index : Z) : res E Handle := index_or_panic (ib_funcs self) index.

Definition push_export {E} (name : Bytes) (new_value : Extern) self : res E InstanceEntityBuilder :=
  match ib_exports self !! name with
  | Some _ => Panic
  | None => Ok (ib_set_rest (ib_start_fn self) (<[name := new_value]> (ib_exports self))
                  (ib_data_segments self) (ib_elem_segments self) self)
  end.

Definition ib_set_start {E} (start_fn : Z) self : res E InstanceEntityBuilder :=
  match ib_start_fn self with
  | Some _ => Panic
  | None => Ok (ib_set_rest (Some start_fn) (ib_exports self) (ib_data_segments self) (ib_elem_segments self) self)
  end.

Definition InstanceEntityBuilder_finish self : InstanceEntity := {|
  ie_initialized := true; ie_func_types := ib_func_types self; ie_tables := ib_tables self;
  ie_funcs := ib_funcs self; ie_memories := ib_memories self; ie_globals := ib_globals self;
  ie_data_segments := ib_data_segments self; ie_elem_segments := ib_elem_segments self;
  ie_exports := ib_exports self |}.
End Builder.

(** ** Types of entities *)

Section Instantiate.
Context {T : Target} {Alloc : Allocator} {L : Type} {RL : ResourceLimiter L}.
Context {Sf : SizeOf FuncEntity} {Sm : SizeOf Memory} {St : SizeOf Table} {Sg : SizeOf CoreGlobal}
  {Si : SizeOf InstanceEntity} {Sd : SizeOf DataSegmentEntity} {Se : SizeOf ElementSegment}.
Variable resolve_func_type : Z -> FuncType.

Definition Func_ty {E} (s : StoreInner) (self : Handle) : res E FuncType :=
  entity ← panicking (try_resolve sa_funcs s self);
  Ok (resolve_func_type (FuncEntity_ty_dedup entity)).
Definition handle_Table_dynamic_ty {E} (s : StoreInner) (self : Handle) : res E TableType :=
  table ← panicking (try_resolve sa_tables s self); Table_dynamic_ty table.
Definition handle_Memory_dynamic_ty {E} (s : StoreInner) (self : Handle) : res E MemoryType :=
  memory ← panicking (try_resolve sa_memories s self);
  match Memory_dynamic_ty memory with Ok ty => Ok ty | _ => Panic end.
Definition handle_Table_ty {E} (s : StoreInner) (self : Handle) : res E TableType :=
  tab_ty <$> panicking (try_resolve sa_tables s self).
Definition handle_Memory_ty {E} (s : StoreInner) (self : Handle) : res E MemoryType :=
  mem_ty <$> panicking (try_resolve sa_memories s self).
Definition handle_Global_ty {E} (s : StoreInner) (self : Handle) : res E GlobalType :=
  g_ty <$> panicking (try_resolve sa_globals s self).

Definition Extern_ty {E} (s : StoreInner) (self : Extern) : res E ExternType :=
  match self with
  | Extern_Global global => ExternType_Global <$> handle_Global_ty s global
  | Extern_Table table => ExternType_Table <$> handle_Table_ty s table
  | Extern_Memory memory => ExternType_Memory <$> handle_Memory_ty s memory
  | Extern_Func func => ExternType_Func <$> Func_ty s func
  end.

(** ** Imports *)

#[local] Instance GlobalType_eq_dec : EqDecision GlobalType.
Proof. solve_decision. Defined.

(** One turn of the loop of [extract_imports]. *)
Definition extract_import (s : StoreInner) (import : ImportName * ExternType) (external : Extern)
    (builder : InstanceEntityBuilder) : res InstantiationError InstanceEntityBuilder :=
  let '(import_name, ty) := import in
  match ty, external with
  | ExternType_Func expected_signature, Extern_Func func =>
      actual_signature ← Func_ty s func;
      if negb (bool_decide (actual_signature = expected_signature)) then
        Err (FuncTypeMismatch import_name expected_signature actual_signature)
      else Ok (push_func func builder)
  | ExternType_Table required, Extern_Table table =>
      imported ← handle_Table_dynamic_ty s table;
      if negb (TableType_is_subtype_of imported required) then
        Err (TableTypeMismatch import_name required imported)
      else Ok (push_table table builder)
  | ExternType_Memory required, Extern_Memory memory =>
      imported ← handle_Memory_dynamic_ty s memory;
      is_subtype ← MemoryType_is_subtype_of imported required;
      if negb is_subtype then Err (MemoryTypeMismatch import_name required imported)
      else Ok (push_memory memory builder)
  | ExternType_Global required, Extern_Global global =>
      imported ← handle_Global_ty s global;
      if negb (bool_decide (imported = required)) then
        Err (GlobalTypeMismatch import_name required imported)
      else Ok (push_global global builder)
  | expected_import, actual_extern_val =>
      Err (ImportTypeMismatch import_name expected_import actual_extern_val)
  end.

Fixpoint extract_imports_loop (s : StoreInner) (imports : list (ImportName * ExternType))
    (externals : list Extern) (builder : InstanceEntityBuilder) :
    res InstantiationError InstanceEntityBuilder :=
  match imports, externals with
  | import :: imports, external :: externals =>
      builder ← extract_import s import external builder;
      extract_imports_loop s imports externals builder
  | _, _ => Ok builder
  end.

Definition extract_imports (s : StoreInner) (module : Module_) (externals : list Extern)
    (builder : InstanceEntityBuilder) : res InstantiationError InstanceEntityBuilder :=
  iter ← Module_imports module;
  let len_expected := Z.of_nat (length (it_names iter)) in
  let len_actual := Z.of_nat (length externals) in
  if negb (len_expected =? len_actual) then Err (MismatchedNumberOfImports len_expected len_actual)
  else
    imports ← import_types resolve_func_type (length (it_names iter)) iter;
    extract_imports_loop s imports externals builder.

(** ** The state of an instantiation: the store and the builder *)

Context {X : Type}.
Definition IState : Type := PrunedStore L * InstanceEntityBuilder.
Notation IM := (M IState (InstError X)).

Definition on_store {E A} (conv : E -> InstError X) (m : M (PrunedStore L) E A) : IM A :=
  zoom fst (fun s st => (s, snd st)) conv m.
Definition on_inner {A} (m : M StoreInner Empty_set A) : IM A :=
  on_store (fun e : Empty_set => match e with end) (zoom fst (fun s st => (s, snd st)) id m).
Definition get_builder : IM InstanceEntityBuilder := st ← get_st; mret (snd st).
Definition get_inner : IM StoreInner := st ← get_st; mret (fst (fst st)).
Definition set_builder (b : InstanceEntityBuilder) : IM unit := st ← get_st; put_st (fst st, b).
Definition on_builder (f : InstanceEntityBuilder -> InstanceEntityBuilder) : IM unit :=
  b ← get_builder; set_builder (f b).

(** [Store::can_create_more_*]. *)
Definition can_create_more (len : StoreInner -> Z) (limit : L -> Z) (s : PrunedStore L) (additional : Z) : bool :=
  match snd s with
  | Some limiter => negb (limit limiter <? saturating_add usize_bits (len (fst s)) additional)
  | None => true
  end.
Definition can_create_more_instances : PrunedStore L -> Z -> bool :=
  can_create_more (fun s => Arena_len (si_instances s)) limiter_instances.
Definition can_create_more_memories : PrunedStore L -> Z -> bool :=
  can_create_more (fun s => Arena_len (si_memories s)) limiter_memories.
Definition can_create_more_tables : PrunedStore L -> Z -> bool :=
  can_create_more (fun s => Arena_len (si_tables s)) limiter_tables.

(** ** Allocation of the entities of the module *)

Definition extract_functions (module : Module_) (handle : Handle) : IM unit :=
  funcs ← lift (internal_funcs module);
  for_each (fun '(func_type, func_body) =>
    func ← on_inner (alloc_entity sa_funcs (FuncEntity_Wasm {|
      wf_ty := func_type; wf_body := func_body; wf_instance := rh_raw (st_value handle) |}));
    on_builder (push_func func)) funcs.

(** [Table::new] and [Memory::new] of the API. *)
Definition handle_Table_new (ty : TableType) (init : TypedRawRef) : M (PrunedStore L) TableError Handle := fun s =>
  match Table_new ty init (snd s) with
  | (Ok table, limiter) =>
      match alloc_entity sa_tables table (fst s) with
      | (Ok handle, inner) => (Ok handle, (inner, limiter))
      | (_, inner) => (Panic, (inner, limiter))
      end
  | (Err e, limiter) => (Err e, (fst s, limiter))
  | (Panic, limiter) => (Panic, (fst s, limiter))
  end.
Definition handle_Memory_new (ty : MemoryType) : M (PrunedStore L) MemoryError Handle := fun s =>
  match Memory_new ty (snd s) with
  | (Ok memory, limiter) =>
      match alloc_entity sa_memories memory (fst s) with
      | (Ok handle, inner) => (Ok handle, (inner, limiter))
      | (_, inner) => (Panic, (inner, limiter))
      end
  | (Err e, limiter) => (Err e, (fst s, limiter))
  | (Panic, limiter) => (Panic, (fst s, limiter))
  end.

Definition extract_tables (module : Module_) : IM unit :=
  st ← get_st;
  if negb (can_create_more_tables (fst st) (Module_len_tables module)) then
    fail (IE_Instantiation TooManyTables)
  else
    tables ← lift (internal_tables module);
    for_each (fun table_type =>
      let init := TypedRawRef_new RawRef_null (tt_element table_type) in
      table ← on_store (fun e => IE_Instantiation (FailedToInstantiateTable e)) (handle_Table_new table_type init);
      on_builder (push_table table)) tables.

Definition extract_memories (module : Module_) : IM unit :=
  st ← get_st;
  if negb (can_create_more_memories (fst st) (Module_len_memories module)) then
    fail (IE_Instantiation TooManyMemories)
  else
    memories ← lift (internal_memories module);
    for_each (fun memory_type =>
      memory ← on_store (fun e => IE_Instantiation (FailedToInstantiateMemory e)) (handle_Memory_new memory_type);
      on_builder (push_memory memory)) memories.

(** [InstanceBuilderContext]: the panics on missing entities are [None], which
    its users turn into panics. *)
Definition InstanceBuilderContext (s : StoreInner) (builder : InstanceEntityBuilder) : EvalContext := {|
  ec_get_global index :=
    match ib_get_global (E := unit) builder index with
    | Ok global =>
        match panicking (E := unit) (try_resolve sa_globals s global) with
        | Ok global => let val := CoreGlobal_get global in
            Some (Val_from_raw_parts (typed_value val) (typed_ty val) (si_id s))
        | _ => None
        end
    | _ => None
    end;
  ec_get_func index :=
    match ib_get_func (E := unit) builder index with
    | Ok func => Some (Some {| st_store := st_store func; st_value := rh_raw (st_value func) |})
    | _ => None
    end
|}.

Definition eval_init_expr {E} (s : StoreInner) (builder : InstanceEntityBuilder) (init_expr : InitOp) : res E Val :=
  expect (InitOp_eval init_expr (InstanceBuilderContext s builder)).

Definition handle_Global_new (value : Val) (mutability : Mutability) : M StoreInner Empty_set Handle :=
  s ← get_st;
  let ty := {| gt_content := Val_ty value; gt_mutability := mutability |} in
  value ← lift (expect (Val_unwrap_raw_val value (si_id s)));
  alloc_entity sa_globals (CoreGlobal_new value ty).

Definition extract_globals (module : Module_) : IM unit :=
  globals ← lift (internal_globals module);
  for_each (fun '(global_type, global_init) =>
    s ← get_inner; b ← get_builder;
    init_value ← lift (eval_init_expr s b global_init);
    let mutability := gt_mutability global_type in
    global ← on_inner (handle_Global_new init_value mutability);
    on_builder (push_global global)) globals.

Definition extern_of {E} (builder : InstanceEntityBuilder) (idx : ExternIdx) : res E Extern :=
  match idx with
  | ExternIdx_Func func_index => Extern_Func <$> ib_get_func builder func_index
  | ExternIdx_Table table_index => Extern_Table <$> ib_get_table builder table_index
  | ExternIdx_Memory memory_index => Extern_Memory <$> ib_get_memory builder memory_index
  | ExternIdx_Global global_index => Extern_Global <$> ib_get_global builder global_index
  end.

Definition extract_exports (module : Module_) : IM unit :=
  for_each (fun '(field, idx) =>
    b ← get_builder;
    external ← lift (extern_of b idx);
    b ← lift (push_export field external b);
    set_builder b) (map_to_list (mo_exports module)).

Definition extract_start_fn (module : Module_) : IM unit :=
  match mo_start module with
  | Some start_fn => b ← get_builder; b ← lift (ib_set_start start_fn b); set_builder b
  | None => mret tt
  end.

(** ** Segments *)

(** [Val::unwrap_raw_ref]. *)
Definition Val_unwrap_raw_ref (self : Val) (store : StoreId) : option RawRef :=
  match self with
  | Val_FuncRef value | Val_ExternRef value => Nullable_unwrap_raw value store
  | _ => None
  end.

Definition init_index {E} (value : Val) : res E Z :=
  match value with
  | Val_I32 value => Ok (wrapu 32 value)
  | Val_I64 value => Ok (wrapu 64 value)
  | _ => Panic
  end.

Fixpoint eval_items {E} (ctx : EvalContext) (store : StoreId) (items : list InitOp) : res E (list RawRef) :=
  match items with
  | [] => Ok []
  | const_expr :: items =>
      raw ← expect (val ← InitOp_eval const_expr ctx; Val_unwrap_raw_ref val store);
      rest ← eval_items ctx store items;
      Ok (raw :: rest)
  end.

(** Copying the items of an active segment into its table. *)
Definition init_table (active : ActiveElementSegment) (element : Handle) : IM unit :=
  s ← get_inner; b ← get_builder;
  offset ← lift (eval_init_expr s b (aes_offset active));
  dst_index ← lift (init_index offset);
  table ← lift (ib_get_table b (aes_table_index active));
  len_table ← lift (Table_size <$> panicking (try_resolve sa_tables s table));
  elem ← lift (panicking (try_resolve sa_elems s element));
  len_items ← lift (ElementSegment_size elem);
  if negb (match checked_add 64 dst_index len_items with
           | Some max_index => max_index <=? len_table
           | None => false
           end) then
    fail (IE_Instantiation (ElementSegmentDoesNotFit table dst_index len_items))
  else
    '(t, elem) ← lift (panicking (try_resolve_table_and_element_mut s table element));
    match Table_init elem dst_index 0 len_items (t, None) with
    | (r, (t, _)) =>
        st ← get_st;
        put_st ((put_entity sa_tables table t (fst (fst st)), snd (fst st)), snd st);;
        lift (map_err IE_Table r);;
        st ← get_st;
        put_st ((put_entity sa_elems element (ElementSegment_drop_items elem) (fst (fst st)), snd (fst st)), snd st)
    end.

Definition initialize_table_elements (module : Module_) : IM unit :=
  for_each (fun segment =>
    s ← get_inner; b ← get_builder;
    items ← match ies_kind segment with
            | ElementSegment_Passive | ElementSegment_Active _ =>
                lift (eval_items (InstanceBuilderContext s b) (si_id s) (ies_items segment))
            | ElementSegment_Declared => mret []
            end;
    entity ← lift (ElementSegment_new (ies_ty segment) items);
    element ← on_inner (alloc_entity sa_elems entity);
    match ies_kind segment with
    | ElementSegment_Active active => init_table active element
    | _ => mret tt
    end;;
    on_builder (ib_push_element_segment element)) (mo_element_segments module).

(** [Memory::write] of the API. *)
Definition handle_Memory_write (self : Handle) (offset : Z) (buffer : list Z) : M (PrunedStore L) MemoryError unit :=
  fun s =>
  match panicking (E := MemoryError) (try_resolve_mut sa_memories (fst s) self) with
  | Ok memory =>
      let '(r, memory) := Memory_write offset buffer memory in
      (r, (put_entity sa_memories self memory (fst s), snd s))
  | _ => (Panic, s)
  end.

Definition initialize_memory_data (module : Module_) : IM unit :=
  segments ← lift (DataSegments_into_iter (mo_data_segments module));
  for_each (fun segment =>
    segment ←
      match segment with
      | InitData_Active memory_index offset bytes =>
          s ← get_inner; b ← get_builder;
          memory ← lift (ib_get_memory b memory_index);
          offset ← lift (eval_init_expr s b offset);
          offset ← lift (init_index offset);
          offset ← lift (ok_or (try_from_u usize_bits offset) (IE_Memory ME_OutOfBoundsAccess));
          on_store IE_Memory (handle_Memory_write memory offset bytes);;
          on_inner (alloc_entity sa_datas DataSegmentEntity_active)
      | InitData_Passive bytes => on_inner (alloc_entity sa_datas (DataSegmentEntity_passive bytes))
      end;
    on_builder (ib_push_data_segment segment)) segments.

(** ** Start *)

Variable call_start : Handle -> M (PrunedStore L) X unit.

Definition Module_start (instance : Handle) : IM unit :=
  builder ← get_builder;
  let opt_start_index := ib_start_fn builder in
  on_inner (initialize_instance instance (InstanceEntityBuilder_finish builder));;
  match opt_start_index with
  | Some start_index =>
      s ← get_inner;
      entity ← lift (panicking (try_resolve sa_instances s instance));
      start_func ← lift (expect (get_func entity start_index));
      on_store IE_Start (call_start start_func)
  | None => mret tt
  end.

(** Everything after the imports. *)
Definition instantiate_rest (module : Module_) (handle : Handle) : IM unit :=
  extract_functions module handle;;
  extract_tables module;;
  extract_memories module;;
  extract_globals module;;
  extract_exports module;;
  extract_start_fn module;;
  initialize_table_elements module;;
  initialize_memory_data module;;
  Module_start handle.

Definition Module_instantiate (module : Module_) (externals : list Extern) :
    M (PrunedStore L) (InstError X) Handle := fun s =>
  if negb (can_create_more_instances s 1) then (Err (IE_Instantiation TooManyInstances), s)
  else
    match alloc_instance (fst s) with
    | (Ok handle, inner) =>
        let s := (inner, snd s) in
        match extract_imports inner module externals (InstanceEntityBuilder_new module) with
        | Ok builder =>
            match instantiate_rest module handle (s, builder) with
            | (Ok _, (s, _)) => (Ok handle, s)
            | (Err e, (s, _)) => (Err e, s)
            | (Panic, (s, _)) => (Panic, s)
            end
        | Err e => (Err (IE_Instantiation e), s)
        | Panic => (Panic, s)
        end
    | (_, inner) => (Panic, (inner, snd s))
    end.
End Instantiate.
