(* ===== verification/InstantiateInv.v ===== *)
(** * The invariant of a store

    [store_ok]: the handles of all instances lead to entities of the store.
    Arenas only grow, so a handle that is valid stays valid. *)

From Stdlib Require Import ZArith Lia.
From stdpp Require Import base option decidable numbers gmap list.
From S2P Require Import Prelude Value Fuel Limiter MemoryType Memory Table Cells ExecStack Calls Arena Store InitExpr Header Keeps Modules Instantiate.
Local Open Scope Z_scope.

Section Inv.
Context {T : Target} {Alloc : Allocator}.
Implicit Type s : StoreInner.

Definition arena_len {Entity} (sa : StoreArena Entity) s : nat := length (items (sa_get sa s)).

(** [h] is a handle of the store, to one of the first entities. *)
Definition valid {Entity} (sa : StoreArena Entity) s (h : Handle) : Prop :=
  st_store h = si_id s /\ (Z.to_nat (into_usize (st_value h)) < arena_len sa s)%nat.

Definition store_le s s' : Prop :=
  si_id s' = si_id s /\
  (arena_len sa_funcs s <= arena_len sa_funcs s')%nat /\
  (arena_len sa_memories s <= arena_len sa_memories s')%nat /\
  (arena_len sa_tables s <= arena_len sa_tables s')%nat /\
  (arena_len sa_globals s <= arena_len sa_globals s')%nat /\
  (arena_len sa_instances s <= arena_len sa_instances s')%nat /\
  (arena_len sa_datas s <= arena_len sa_datas s')%nat /\
  (arena_len sa_elems s <= arena_len sa_elems s')%nat.

#[export] Instance store_le_preorder : PreOrder store_le.
Proof.
  split; unfold store_le; [intros s; by split_and!|].
  intros s1 s2 s3 H1 H2. destruct H1 as (? & ? & ? & ? & ? & ? & ? & ?), H2 as (? & ? & ? & ? & ? & ? & ? & ?).
  split_and!; [congruence|lia..].
Qed.

(** The arenas of the entities an instance refers to. *)
Class LawfulArena {Entity} (sa : StoreArena Entity) : Prop := {
  la_get_set : forall a s, sa_get sa (sa_set sa a s) = a;
  la_id : forall a s, si_id (sa_set sa a s) = si_id s;
  la_le : forall a s, (arena_len sa s <= length (items a))%nat -> store_le s (sa_set sa a s);
  la_valid : forall s s' h, store_le s s' -> valid sa s h -> valid sa s' h
}.

Ltac lawful := split; [done|done|
  intros a s Hl; split_and!; try done; exact Hl|
  intros s s' h (Hi & H1 & H2 & H3 & H4 & H5 & H6 & H7) [Hs Hv]; split; [congruence|lia]].

#[export] Instance lawful_funcs : LawfulArena sa_funcs. Proof. lawful. Qed.
#[export] Instance lawful_memories : LawfulArena sa_memories. Proof. lawful. Qed.
#[export] Instance lawful_tables : LawfulArena sa_tables. Proof. lawful. Qed.
#[export] Instance lawful_globals : LawfulArena sa_globals. Proof. lawful. Qed.
#[export] Instance lawful_instances : LawfulArena sa_instances. Proof. lawful. Qed.
#[export] Instance lawful_datas : LawfulArena sa_datas. Proof. lawful. Qed.
#[export] Instance lawful_elems : LawfulArena sa_elems. Proof. lawful. Qed.

Lemma valid_resolve {Entity} (sa : StoreArena Entity) s h :
  valid sa s h <-> exists e, try_resolve sa s h = Ok e.
Proof.
  unfold valid, try_resolve, resolve, unwrap_stored, StoreId_unwrap, arena_len.
  case_bool_decide as E; cbn [ok_or mbind res_bind]; [|by split; [intros [? _]|intros [? ?]]].
  destruct (Arena_get (sa_get sa s) (st_value h)) as [e|e|] eqn:He; cbn [map_err].
  - apply Arena_get_Ok, lookup_lt_Some in He. split; [intros _; by exists e|by intros _].
  - split; [intros [_ Hl]|by intros [? ?]]. exfalso. revert He. unfold Arena_get.
    destruct (lookup_lt_is_Some_2 _ _ Hl) as [x ->]. done.
  - split; [intros [_ Hl]|by intros [? ?]]. exfalso. revert He. unfold Arena_get.
    destruct (lookup_lt_is_Some_2 _ _ Hl) as [x ->]. done.
Qed.

(** ** Instances and the store *)

Definition extern_ok s (external : Extern) : Prop :=
  match external with
  | Extern_Global global => valid sa_globals s global
  | Extern_Table table => valid sa_tables s table
  | Extern_Memory memory => valid sa_memories s memory
  | Extern_Func func => valid sa_funcs s func
  end.

Definition instance_ok s (ie : InstanceEntity) : Prop :=
  Forall (valid sa_tables s) (ie_tables ie) /\ Forall (valid sa_funcs s) (ie_funcs ie) /\
  Forall (valid sa_memories s) (ie_memories ie) /\ Forall (valid sa_globals s) (ie_globals ie) /\
  Forall (valid sa_datas s) (ie_data_segments ie) /\ Forall (valid sa_elems s) (ie_elem_segments ie) /\
  map_Forall (fun _ => extern_ok s) (ie_exports ie).

(** A function refers to its instance by a raw handle. *)
Definition func_ok s (func : FuncEntity) : Prop :=
  match func with
  | FuncEntity_Wasm wasm => valid sa_instances s (StoreId_wrap (si_id s) {| rh_raw := wf_instance wasm |})
  | FuncEntity_Host _ => True
  end.

Definition store_ok s : Prop :=
  Forall (instance_ok s) (items (si_instances s)) /\ Forall (func_ok s) (items (si_funcs s)).

Lemma Forall_valid {Entity} (sa : StoreArena Entity) `{!LawfulArena sa} s s' l :
  store_le s s' -> Forall (valid sa s) l -> Forall (valid sa s') l.
Proof. intros Hle H. eapply Forall_impl; [exact H|]. intros h. by apply la_valid. Qed.

Lemma extern_ok_mono s s' external : store_le s s' -> extern_ok s external -> extern_ok s' external.
Proof. intros Hle. destruct external; cbn; by apply la_valid. Qed.

Lemma instance_ok_mono s s' ie : store_le s s' -> instance_ok s ie -> instance_ok s' ie.
Proof.
  intros Hle (? & ? & ? & ? & ? & ? & He). split_and!; [apply (Forall_valid _ s s'); assumption..|].
  intros name external Hx. eapply extern_ok_mono; [exact Hle|]. exact (He name external Hx).
Qed.

Lemma func_ok_mono s s' func : store_le s s' -> func_ok s func -> func_ok s' func.
Proof. intros Hle. destruct func; cbn; [|done]. intros H. pose proof (proj1 Hle) as ->. by eapply la_valid. Qed.

(** What a step of the store is allowed to do. *)
Definition store_step s s' : Prop := store_le s s' /\ (store_ok s -> store_ok s').
#[export] Instance store_step_preorder : PreOrder store_step.
Proof.
  split; unfold store_step; [by intros s; split|].
  intros s1 s2 s3 [? ?] [? ?]. split; [by etrans|auto].
Qed.

Lemma store_step_same s s' : store_le s s' -> si_instances s' = si_instances s -> si_funcs s' = si_funcs s ->
  store_step s s'.
Proof.
  intros Hle Hi Hf. split; [done|]. intros [H1 H2]. split.
  - rewrite Hi. eapply Forall_impl; [exact H1|]. intros ie. by apply instance_ok_mono.
  - rewrite Hf. eapply Forall_impl; [exact H2|]. intros f. by apply func_ok_mono.
Qed.

(** ** Allocation *)

Section AllocEntity.
Context {Entity : Type} `{SizeOf Entity} (sa : StoreArena Entity) `{!LawfulArena sa}.

Lemma alloc_entity_run x s r s' : alloc_entity sa x s = (r, s') -> store_le s s' /\
  exists a, s' = sa_set sa a s /\
  match r with
  | Ok h => valid sa s' h /\ items a = items (sa_get sa s) ++ [x]
  | _ => items a = items (sa_get sa s)
  end.
Proof.
  unfold alloc_entity. destruct (Arena_alloc x (sa_get sa s)) as [[k|e|] a] eqn:Ea; intros [= <- <-].
  - assert (Hi : items a = items (sa_get sa s) ++ [x]).
    { unfold Arena_alloc in Ea. rewrite bind_get_st, bind_lift in Ea.
      destruct (next_key (sa_get sa s)); [|done..]. rewrite bind_run in Ea.
      destruct (reserve_items 1 (sa_get sa s)) as [r1 a1] eqn:Er.
      apply reserve_items_spec in Er as [Hi [->|[-> ->]]]; [|done].
      injection Ea as _ <-. cbn. by rewrite Hi. }
    apply Arena_alloc_spec in Ea as (Hk & _). split; [apply la_le; unfold arena_len; rewrite Hi, length_app; lia|].
    exists a. split; [done|]. split; [|done]. split; [by rewrite la_id|].
    unfold arena_len. rewrite la_get_set, Hi, length_app. cbn [st_value StoreId_wrap]. unfold Arena_len in Hk.
    rewrite Hk. cbn. lia.
  - assert (a = sa_get sa s) as -> by (by apply Arena_alloc_spec in Ea; destruct e as [| | |]; intuition).
    split; [apply la_le; unfold arena_len; lia|]. by eexists.
  - by apply Arena_alloc_spec in Ea.
Qed.
End AllocEntity.

(** Entities other than functions and instances. *)
Lemma alloc_other_step {Entity} `{SizeOf Entity} (sa : StoreArena Entity) `{!LawfulArena sa} x :
  (forall a s, si_instances (sa_set sa a s) = si_instances s /\ si_funcs (sa_set sa a s) = si_funcs s) ->
  keeps store_step (alloc_entity sa x).
Proof.
  intros Ho s. unfold keeps_at. destruct (alloc_entity sa x s) as [r s'] eqn:E.
  apply alloc_entity_run in E as (Hle & a & -> & _); [|done]. apply store_step_same; [done|apply Ho..].
Qed.

Lemma put_other_step {Entity} (sa : StoreArena Entity) `{!LawfulArena sa} h x s :
  (forall a s, si_instances (sa_set sa a s) = si_instances s /\ si_funcs (sa_set sa a s) = si_funcs s) ->
  store_step s (put_entity sa h x s).
Proof.
  intros Ho. unfold put_entity. apply store_step_same; [|apply Ho..].
  apply la_le. cbn. by rewrite length_insert.
Qed.

Lemma alloc_func_step `{SizeOf FuncEntity} func s r s' : func_ok s func ->
  alloc_entity sa_funcs func s = (r, s') -> store_step s s'.
Proof.
  intros Hf E. apply alloc_entity_run in E as (Hle & a & -> & Hr); [|typeclasses eauto].
  split; [done|]. intros [H1 H2]. split.
  - cbn. eapply Forall_impl; [exact H1|]. intros ie. by apply instance_ok_mono.
  - assert (Forall (func_ok s) (items a)) as Ha.
    { destruct r as [h|e|]; [|by rewrite Hr..]. destruct Hr as [_ ->].
      apply Forall_app. split; [done|]. by constructor. }
    cbn. eapply Forall_impl; [exact Ha|]. intros f. by apply func_ok_mono.
Qed.

Lemma instance_ok_uninitialized s : instance_ok s InstanceEntity_uninitialized.
Proof. split_and!; try constructor. apply map_Forall_empty. Qed.

Lemma alloc_instance_step `{SizeOf InstanceEntity} s r s' : alloc_instance s = (r, s') -> store_step s s'.
Proof.
  intros E. apply alloc_entity_run in E as (Hle & a & -> & Hr); [|typeclasses eauto].
  split; [done|]. intros [H1 H2]. split.
  - assert (Forall (instance_ok s) (items a)) as Ha.
    { destruct r as [h|e|]; [|by rewrite Hr..]. destruct Hr as [_ ->].
      apply Forall_app. split; [done|]. constructor; [apply instance_ok_uninitialized|done]. }
    cbn. eapply Forall_impl; [exact Ha|]. intros ie. by apply instance_ok_mono.
  - cbn. eapply Forall_impl; [exact H2|]. intros f. by apply func_ok_mono.
Qed.

Lemma put_entity_le {Entity} (sa : StoreArena Entity) `{!LawfulArena sa} h x s : store_le s (put_entity sa h x s).
Proof. apply la_le. cbn. by rewrite length_insert. Qed.

Lemma initialize_instance_le h ie s r s' : initialize_instance h ie s = (r, s') -> store_le s s'.
Proof.
  unfold initialize_instance. rewrite bind_get_st. unfold assert_m. rewrite bind_lift.
  destruct (assert_that (ie_initialized ie)); [|by intros [= <- <-]..].
  destruct (unwrap_stored s h) as [idx|e|] eqn:Hu; [|by intros [= <- <-]..].
  destruct (Arena_get_mut idx (si_instances s)) as [u|e|]; [|by intros [= <- <-]..].
  rewrite bind_lift. destruct (assert_that (negb _)); [|by intros [= <- <-]..]. intros [= <- <-].
  exact (put_entity_le sa_instances h ie s).
Qed.

Lemma initialize_instance_step h ie s r s' : instance_ok s ie ->
  initialize_instance h ie s = (r, s') -> store_step s s'.
Proof.
  intros Hie E. pose proof (initialize_instance_le _ _ _ _ _ E) as Hle. revert E Hle.
  unfold initialize_instance. rewrite bind_get_st. unfold assert_m. rewrite bind_lift.
  destruct (assert_that (ie_initialized ie)); [|by intros [= <- <-]..].
  destruct (unwrap_stored s h) as [idx|e|] eqn:Hu; [|by intros [= <- <-]..].
  destruct (Arena_get_mut idx (si_instances s)) as [u|e|]; [|by intros [= <- <-]..].
  rewrite bind_lift. destruct (assert_that (negb _)); [|by intros [= <- <-]..]. intros [= <- <-] Hle.
  split; [done|]. intros [H1 H2]. split.
  - cbn. apply Forall_insert.
    + eapply Forall_impl; [exact H1|]. intros x. by apply instance_ok_mono.
    + by eapply instance_ok_mono.
  - cbn. eapply Forall_impl; [exact H2|]. intros f. by apply func_ok_mono.
Qed.

Lemma StoreInner_new_ok id fuel_enabled costs : store_ok (StoreInner_new id fuel_enabled costs).
Proof. split; constructor. Qed.
End Inv.

(** ** Instantiation keeps the invariant of the store

    Every step of an instantiation only adds entities, and pushes handles of them
    to the builder; so whatever the outcome, also after an error half way through,
    all instances of the store have valid handles. *)

Section Instantiate.
Context {T : Target} {Alloc : Allocator} {L : Type} {RL : ResourceLimiter L}.
Context {Sf : SizeOf FuncEntity} {Sm : SizeOf Memory} {St : SizeOf Table} {Sg : SizeOf CoreGlobal}
  {Si : SizeOf InstanceEntity} {Sd : SizeOf DataSegmentEntity} {Se : SizeOf ElementSegment}.
Context {X : Type}.
Notation IState := (IState (L := L)).
Notation IM := (M IState (InstError X)).

Definition inner_of (st : IState) : StoreInner := st.1.1.

Definition builder_ok (s : StoreInner) (b : InstanceEntityBuilder) : Prop :=
  instance_ok s (InstanceEntityBuilder_finish b).

(** The new instance has a valid handle, and its builder only valid ones. *)
Definition good (handle : Handle) (st : IState) : Prop :=
  store_ok (inner_of st) /\ builder_ok (inner_of st) st.2 /\ valid sa_instances (inner_of st) handle.

Section Steps.
Variable handle : Handle.

Definition istep (st st' : IState) : Prop :=
  store_le (inner_of st) (inner_of st') /\ (good handle st -> good handle st').
#[local] Instance istep_preorder : PreOrder istep.
Proof.
  split; unfold istep; [by intros st; split|].
  intros s1 s2 s3 [? ?] [? ?]. split; [by etrans|auto].
Qed.

(** A step of the store alone. *)
Lemma istep_store (s s' : PrunedStore L) b : store_step s.1 s'.1 -> istep (s, b) (s', b).
Proof.
  intros [Hle Hok]. split; [done|]. intros (H1 & H2 & H3). split_and!; [by apply Hok| |].
  - by eapply instance_ok_mono.
  - by eapply la_valid.
Qed.

Lemma on_store_keeps {E A} conv (m : M (PrunedStore L) E A) :
  keeps (fun s s' => store_step s.1 s'.1) m -> keeps istep (on_store (X := X) conv m).
Proof.
  intros Hm [s b]. unfold keeps_at, on_store, zoom. pose proof (Hm s) as K. unfold keeps_at in K. cbn in *.
  destruct (m s) as [r s']. cbn. by apply istep_store.
Qed.

(** Pushing a valid handle. *)
Definition push_ok {Entity} (sa : StoreArena Entity) (push : Handle -> InstanceEntityBuilder -> InstanceEntityBuilder) : Prop :=
  forall s b h, valid sa s h -> builder_ok s b -> builder_ok s (push h b).

Lemma Forall_snoc {A} (P : A -> Prop) l x : Forall P l -> P x -> Forall P (l ++ [x]).
Proof. intros. apply Forall_app. split; [done|]. by constructor. Qed.

Ltac push_ok := intros s b h Hv (? & ? & ? & ? & ? & ? & ?); split_and!; cbn in *; eauto using Forall_snoc.
Lemma push_func_ok : push_ok sa_funcs push_func. Proof. push_ok. Qed.
Lemma push_table_ok : push_ok sa_tables push_table. Proof. push_ok. Qed.
Lemma push_memory_ok : push_ok sa_memories push_memory. Proof. push_ok. Qed.
Lemma push_global_ok : push_ok sa_globals push_global. Proof. push_ok. Qed.
Lemma push_data_ok : push_ok sa_datas ib_push_data_segment. Proof. push_ok. Qed.
Lemma push_elem_ok : push_ok sa_elems ib_push_element_segment. Proof. push_ok. Qed.

Lemma on_builder_step (f : InstanceEntityBuilder -> InstanceEntityBuilder) st :
  (builder_ok (inner_of st) st.2 -> builder_ok (inner_of st) (f st.2)) -> keeps_at istep (on_builder (X := X) f) st.
Proof.
  intros Hf. change (istep st (st.1, f st.2)). split; [done|]. intros (H1 & H2 & H3). split_and!; [done|by apply Hf|done].
Qed.

(** An operation that yields a handle of a kind. *)
Definition yields {Entity} (sa : StoreArena Entity) (m : IM Handle) : Prop := forall st,
  keeps_at istep m st /\ forall h st', m st = (Ok h, st') -> valid sa (inner_of st') h.

Lemma yields_push {Entity} (sa : StoreArena Entity) m push : yields sa m -> push_ok sa push ->
  keeps istep (h ← m; on_builder (push h)).
Proof.
  intros Hm Hp st. destruct (Hm st) as [Hk Hv]. apply keeps_bind_at; [typeclasses eauto|done|].
  intros h st' E. apply on_builder_step. intros Hb. eapply Hp; [by eapply Hv|done].
Qed.

Lemma yields_store {Entity E} (sa : StoreArena Entity) conv (m : M (PrunedStore L) E Handle) :
  (forall s, store_step s.1 (m s).2.1 /\ forall h, (m s).1 = Ok h -> valid sa (m s).2.1 h) ->
  yields sa (on_store (X := X) conv m).
Proof.
  intros Hm [s b]. destruct (Hm s) as [Hk Hv]. unfold keeps_at, on_store, zoom. cbn.
  destruct (m s) as [r s'] eqn:E'. cbn in *. split; [by apply istep_store|].
  intros h st'. destruct r as [h'|e|]; cbn; intros [= <- <-]; by apply Hv.
Qed.

Lemma yields_inner {Entity} (sa : StoreArena Entity) (m : M StoreInner Empty_set Handle) :
  (forall s, store_step s (m s).2 /\ forall h, (m s).1 = Ok h -> valid sa (m s).2 h) ->
  yields sa (on_inner (L := L) (X := X) m).
Proof.
  intros Hm. unfold on_inner. apply yields_store. intros [s l]. unfold zoom. cbn.
  destruct (Hm s) as [Hk Hv]. destruct (m s) as [r s']. cbn in *. split; [done|].
  intros h. destruct r as [h'|e|]; cbn; [intros [= ->]; by apply Hv|done..].
Qed.

Lemma alloc_yields {Entity} `{SizeOf Entity} (sa : StoreArena Entity) `{!LawfulArena sa} x :
  (forall a s, si_instances (sa_set sa a s) = si_instances s /\ si_funcs (sa_set sa a s) = si_funcs s) ->
  forall s, store_step s (alloc_entity sa x s).2 /\
    forall h, (alloc_entity sa x s).1 = Ok h -> valid sa (alloc_entity sa x s).2 h.
Proof.
  intros Ho s. split; [by apply alloc_other_step|].
  destruct (alloc_entity sa x s) as [r s'] eqn:E. intros h. cbn. intros ->.
  by apply alloc_entity_run in E as (_ & a & -> & Hv & _).
Qed.

(** ** The steps of an instantiation *)

Lemma get_builder_keeps : keeps istep (get_builder (L := L) (X := X)).
Proof. intros st. unfold get_builder. keeps. Qed.
Lemma get_inner_keeps : keeps istep (get_inner (L := L) (X := X)).
Proof. intros st. unfold get_inner. keeps. Qed.
#[local] Hint Resolve get_builder_keeps get_inner_keeps : keeps.

(** Reading the store or the builder. *)
Ltac get_parts := lazymatch goal with
  | |- keeps_at _ (get_inner ≫= ?k) ?s => change (keeps_at istep (k (inner_of s)) s)
  | |- keeps_at _ (get_builder ≫= ?k) ?s => change (keeps_at istep (k s.2) s)
  end; cbv beta.

(** A function is allocated for the instance [handle]. *)
Lemma alloc_func_keeps func_type func_body st :
  keeps_at istep (func ← on_inner (X := X) (alloc_entity sa_funcs (FuncEntity_Wasm {|
      wf_ty := func_type; wf_body := func_body; wf_instance := rh_raw (st_value handle) |}));
    on_builder (push_func func)) st.
Proof.
  destruct st as [[s l] b]. unfold keeps_at. rewrite bind_run. unfold on_inner, on_store, zoom. cbn [fst snd].
  set (func := FuncEntity_Wasm _). destruct (alloc_entity sa_funcs func s) as [r s'] eqn:E.
  pose proof E as E'. apply alloc_entity_run in E' as (Hle & a & Hs & Hr); [|typeclasses eauto].
  assert (good handle (s, l, b) -> store_step s s') as Hstep.
  { intros (_ & _ & Hh). eapply alloc_func_step; [|exact E]. cbn. by split; [|apply Hh]. }
  assert (good handle (s, l, b) -> good handle (s', l, b)) as Hg.
  { intros Hg. by apply (istep_store (s, l) (s', l) b (Hstep Hg)). }
  destruct r as [h|e|]; cbn; [|by split..]. split; [done|]. intros (H1 & H2 & H3)%Hg. split_and!; [done| |done].
  eapply push_func_ok; [by apply Hr|done].
Qed.

Lemma extract_functions_keeps module : keeps istep (extract_functions (X := X) module handle).
Proof.
  unfold extract_functions. keeps. apply keeps_of, keeps_for_each; [typeclasses eauto|].
  intros [func_type func_body] _ st. apply alloc_func_keeps.
Qed.

Lemma handle_Table_new_yields conv ty init : yields sa_tables (on_store (X := X) conv (handle_Table_new ty init)).
Proof.
  apply yields_store. intros [s l]. unfold handle_Table_new. cbn.
  destruct (Table_new ty init l) as [[table|e|] l']; cbn; [|by split; [reflexivity|]..].
  destruct (alloc_yields sa_tables table ltac:(done) s) as [H1 H2].
  destruct (alloc_entity sa_tables table s) as [[h|e|] s']; cbn in *; (split; [exact H1|]); [intros h' [= ->]; by apply H2|done..].
Qed.
Lemma handle_Memory_new_yields conv ty : yields sa_memories (on_store (X := X) conv (handle_Memory_new ty)).
Proof.
  apply yields_store. intros [s l]. unfold handle_Memory_new. cbn.
  destruct (Memory_new ty l) as [[memory|e|] l']; cbn; [|by split; [reflexivity|]..].
  destruct (alloc_yields sa_memories memory ltac:(done) s) as [H1 H2].
  destruct (alloc_entity sa_memories memory s) as [[h|e|] s']; cbn in *; (split; [exact H1|]); [intros h' [= ->]; by apply H2|done..].
Qed.

Lemma extract_tables_keeps module : keeps istep (extract_tables (X := X) module).
Proof.
  unfold extract_tables. keeps. apply keeps_of, keeps_for_each; [typeclasses eauto|]. intros ty _.
  eapply yields_push; [apply handle_Table_new_yields|apply push_table_ok].
Qed.
Lemma extract_memories_keeps module : keeps istep (extract_memories (X := X) module).
Proof.
  unfold extract_memories. keeps. apply keeps_of, keeps_for_each; [typeclasses eauto|]. intros ty _.
  eapply yields_push; [apply handle_Memory_new_yields|apply push_memory_ok].
Qed.

Lemma handle_Global_new_yields value mutability : yields sa_globals (on_inner (L := L) (X := X) (handle_Global_new value mutability)).
Proof.
  apply yields_inner. intros s. unfold handle_Global_new. rewrite bind_get_st. cbv zeta. rewrite bind_lift.
  destruct (expect _); [exact (alloc_yields sa_globals _ ltac:(done) s)|by split; [reflexivity|]..].
Qed.

Lemma extract_globals_keeps module : keeps istep (extract_globals (X := X) module).
Proof.
  unfold extract_globals. keeps. apply keeps_of, keeps_for_each; [typeclasses eauto|].
  intros [global_type global_init] _ st.
  get_parts. get_parts. apply keeps_lift_bind; [typeclasses eauto|]. intros v _.
  apply keeps_of. eapply yields_push; [apply handle_Global_new_yields|apply push_global_ok].
Qed.

(** What is exported is among the entities of the instance. *)
Lemma extern_of_ok {E} s b idx external : builder_ok s b -> extern_of (E := E) b idx = Ok external -> extern_ok s external.
Proof.
  intros (H1 & H2 & H3 & H4 & _). unfold extern_of, ib_get_func, ib_get_table, ib_get_memory, ib_get_global, index_or_panic.
  destruct idx as [i|i|i|i].
  - destruct (ib_funcs b !! _) eqn:E1; [|done]. intros [= <-]. exact (Forall_lookup_1 _ _ _ _ H2 E1).
  - destruct (ib_tables b !! _) eqn:E1; [|done]. intros [= <-]. exact (Forall_lookup_1 _ _ _ _ H1 E1).
  - destruct (ib_memories b !! _) eqn:E1; [|done]. intros [= <-]. exact (Forall_lookup_1 _ _ _ _ H3 E1).
  - destruct (ib_globals b !! _) eqn:E1; [|done]. intros [= <-]. exact (Forall_lookup_1 _ _ _ _ H4 E1).
Qed.

Lemma extract_exports_keeps module : keeps istep (extract_exports (L := L) (X := X) module).
Proof.
  unfold extract_exports. apply keeps_for_each; [typeclasses eauto|]. intros [field idx] _ st.
  get_parts.
  keeps. match goal with H : push_export _ _ _ = Ok _ |- _ => rename H into Hp end.
  match goal with H : extern_of _ _ = Ok _ |- _ => rename H into He end.
  unfold push_export in Hp. destruct (ib_exports st.2 !! field); [done|]. injection Hp as <-.
  change (istep st (st.1, ib_set_rest (ib_start_fn st.2) (<[field := a]> (ib_exports st.2))
    (ib_data_segments st.2) (ib_elem_segments st.2) st.2)).
  split; [done|]. intros (H1 & H2 & H3). split_and!; [done| |done].
  pose proof (extern_of_ok _ _ _ _ H2 He) as Hx. destruct H2 as (? & ? & ? & ? & ? & ? & H2).
  split_and!; try done. cbn. by apply map_Forall_insert_2.
Qed.

Lemma extract_start_fn_keeps module : keeps istep (extract_start_fn (L := L) (X := X) module).
Proof.
  unfold extract_start_fn. destruct (mo_start module) as [start_fn|]; [|by intros st; keeps]. intros st.
  get_parts. keeps.
  match goal with H : ib_set_start _ _ = Ok _ |- _ => unfold ib_set_start in H; destruct (ib_start_fn st.2); [done|];
    injection H as <- end.
  split; [done|]. intros (H1 & H2 & H3). by split_and!.
Qed.

Lemma put_inner_step st s' : store_step (inner_of st) s' -> istep st ((s', snd (fst st)), snd st).
Proof. destruct st as [[s l] b]. intros H. exact (istep_store (s, l) (s', l) b H). Qed.

Lemma init_table_keeps active element : keeps istep (init_table (L := L) (X := X) active element).
Proof.
  unfold init_table. intros st. get_parts. get_parts. keeps.
  all: apply put_inner_step, put_other_step; [typeclasses eauto|done].
Qed.

(** A handle is pushed after a step that is run with it. *)
Lemma push_after_keeps {Entity} (sa : StoreArena Entity) `{!LawfulArena sa} (m : Handle -> IM unit) push h st :
  valid sa (inner_of st) h -> push_ok sa push -> keeps istep (m h) -> keeps_at istep (m h;; on_builder (push h)) st.
Proof.
  intros Hv Hp Hm. apply keeps_bind_at; [typeclasses eauto|apply Hm|]. intros [] st' E. apply on_builder_step.
  intros Hb. eapply Hp; [|done]. eapply la_valid; [|exact Hv]. pose proof (Hm st) as [K _]. by rewrite E in K.
Qed.

Lemma initialize_table_elements_keeps module : keeps istep (initialize_table_elements (L := L) (X := X) module).
Proof.
  unfold initialize_table_elements. apply keeps_for_each; [typeclasses eauto|]. intros segment _ st.
  get_parts. get_parts. apply keeps_bind_at; [typeclasses eauto|destruct (ies_kind segment); keeps|].
  intros items st1 _. apply keeps_lift_bind; [typeclasses eauto|]. intros entity _.
  destruct (yields_inner sa_elems _ (alloc_yields sa_elems entity ltac:(done)) st1) as [Hk Hv].
  apply keeps_bind_at; [typeclasses eauto|exact Hk|]. intros element st2 E.
  apply (push_after_keeps sa_elems (fun element => match ies_kind segment with
    | ElementSegment_Active active => init_table active element | _ => mret tt end));
    [by eapply Hv|apply push_elem_ok|].
  destruct (ies_kind segment); [intros ?; keeps|apply init_table_keeps|intros ?; keeps].
Qed.

Lemma handle_Memory_write_keeps memory offset bytes :
  keeps (fun s s' => store_step s.1 s'.1) (handle_Memory_write (L := L) memory offset bytes).
Proof.
  intros [s l]. unfold keeps_at, handle_Memory_write. cbn [fst snd].
  destruct (panicking _) as [m|e|]; cbn; [|reflexivity..].
  destruct (Memory_write offset bytes m) as [r m'].
  exact (put_other_step sa_memories memory m' s ltac:(done)).
Qed.

Lemma data_segment_yields segment : yields sa_datas
  (match segment with
   | InitData_Active memory_index offset bytes =>
       s ← get_inner; b ← get_builder;
       memory ← lift (ib_get_memory b memory_index);
       offset ← lift (eval_init_expr s b offset);
       offset ← lift (init_index offset);
       offset ← lift (ok_or (try_from_u usize_bits offset) (IE_Memory ME_OutOfBoundsAccess));
       on_store (X := X) IE_Memory (handle_Memory_write memory offset bytes);;
       on_inner (alloc_entity sa_datas DataSegmentEntity_active)
   | InitData_Passive bytes => on_inner (alloc_entity sa_datas (DataSegmentEntity_passive bytes))
   end : IM Handle).
Proof.
  assert (forall entity, yields sa_datas (on_inner (L := L) (X := X) (alloc_entity sa_datas entity))) as Ha.
  { intros entity. exact (yields_inner sa_datas _ (alloc_yields sa_datas entity ltac:(done))). }
  destruct segment as [memory_index offset bytes|bytes]; [|apply Ha]. intros st. split.
  - get_parts. get_parts. keeps; [|apply Ha]. apply on_store_keeps, handle_Memory_write_keeps.
  - intros h st' E. repeat (apply bind_Ok_inv in E as (? & ? & _ & E)). by eapply Ha.
Qed.

Lemma initialize_memory_data_keeps module : keeps istep (initialize_memory_data (L := L) (X := X) module).
Proof.
  unfold initialize_memory_data. keeps. apply keeps_of, keeps_for_each; [typeclasses eauto|]. intros segment _.
  eapply yields_push; [apply data_segment_yields|apply push_data_ok].
Qed.

(** ** Start *)

Variable call_start : Handle -> M (PrunedStore L) X unit.
Hypothesis call_start_keeps : forall func, keeps (fun s s' => store_step s.1 s'.1) (call_start func).

Lemma Module_start_keeps instance : keeps istep (Module_start call_start instance).
Proof.
  unfold Module_start. intros st. get_parts. cbv zeta. apply keeps_bind_at; [typeclasses eauto| |].
  - destruct st as [[s l] b]. unfold keeps_at, on_inner, on_store, zoom. cbn [fst snd].
    destruct (initialize_instance _ _ _) as [r s'] eqn:E. cbn.
    assert (builder_ok s b -> store_step s s') as Hs by (intros Hb; by eapply initialize_instance_step).
    assert (store_le s s') as Hle by (by eapply initialize_instance_le).
    split; [done|]. intros Hg. by apply (istep_store (s, l) (s', l) b (Hs (proj1 (proj2 Hg)))).
  - intros [] st' _. destruct (ib_start_fn st.2); keeps.
    apply on_store_keeps, call_start_keeps.
Qed.

Lemma instantiate_rest_keeps module : keeps istep (instantiate_rest call_start module handle).
Proof.
  unfold instantiate_rest. intros st.
  keeps; first [apply extract_functions_keeps|apply extract_tables_keeps|apply extract_memories_keeps
    |apply extract_globals_keeps|apply extract_exports_keeps|apply extract_start_fn_keeps
    |apply initialize_table_elements_keeps|apply initialize_memory_data_keeps|apply Module_start_keeps].
Qed.
End Steps.

(** ** The whole instantiation *)

Section Whole.
Variable resolve_func_type : Z -> FuncType.
Variable call_start : Handle -> M (PrunedStore L) X unit.

Lemma extract_import_ok s import external b b' : extern_ok s external -> builder_ok s b ->
  extract_import resolve_func_type s import external b = Ok b' -> builder_ok s b'.
Proof.
  destruct import as [name ty]. intros Hx Hb. unfold extract_import.
  destruct ty, external; cbn in Hx; try done;
    repeat (match goal with |- context [match ?x with _ => _ end = Ok _] => destruct x end; cbn; try done);
    intros H.
  all: repeat match goal with
    | H : (?m ≫= _) = Ok _ |- _ => destruct m; cbn in H; try done
    | H : (if ?b then _ else _) = Ok _ |- _ => destruct b; try done
    end; injection H as <-.
  - by apply push_global_ok.
  - by apply push_table_ok.
  - by apply push_memory_ok.
  - by apply push_func_ok.
Qed.

Lemma extract_imports_loop_ok s imports : forall externals b b', Forall (extern_ok s) externals -> builder_ok s b ->
  extract_imports_loop resolve_func_type s imports externals b = Ok b' -> builder_ok s b'.
Proof.
  induction imports as [|import imports IH]; intros [|external externals] b b' Hx Hb; cbn; try (by intros [= <-]).
  inversion_clear Hx. destruct (extract_import _ _ _ _ _) as [b1|e|] eqn:E; cbn; [|done..].
  apply IH; [done|]. by eapply extract_import_ok.
Qed.

Lemma extract_imports_ok s module externals b b' : Forall (extern_ok s) externals -> builder_ok s b ->
  extract_imports resolve_func_type s module externals b = Ok b' -> builder_ok s b'.
Proof.
  intros Hx Hb. unfold extract_imports. destruct (Module_imports module) as [iter|e|]; cbn; [|done..].
  destruct (negb _); [done|]. destruct (import_types _ _ _) as [imports|e|]; cbn; [|done..].
  by apply extract_imports_loop_ok.
Qed.

Lemma InstanceEntityBuilder_new_ok s module : builder_ok s (InstanceEntityBuilder_new module).
Proof. split_and!; try constructor. apply map_Forall_empty. Qed.

(** C13: Instantiation keeps the store sound whatever its outcome: starting from a
    store whose instances have only valid handles, with external values of that
    store, after success, any error and any panic every handle of every instance
    still leads to an entity, functions belong to instances of the store, and
    handles given out before remain valid; a handle that is returned is valid.
    The start function is assumed to keep this, as running code does. *)
Theorem instantiate_store_ok module externals s r s' :
  (forall func, keeps (fun s s' => store_step s.1 s'.1) (call_start func)) ->
  store_ok s.1 -> Forall (extern_ok s.1) externals ->
  Module_instantiate resolve_func_type call_start module externals s = (r, s') ->
  store_le s.1 s'.1 /\ store_ok s'.1 /\ forall h, r = Ok h -> valid sa_instances s'.1 h.
Proof.
  intros Hc Hs Hx. unfold Module_instantiate.
  destruct (negb _); [intros [= <- <-]; by split_and!|].
  destruct (alloc_instance s.1) as [[handle|e|] inner] eqn:Ea;
    pose proof (alloc_instance_step _ _ _ Ea) as [Hle Hok]; [|intros [= <- <-]; split_and!; [done|by apply Hok|done]..].
  assert (valid sa_instances inner handle) as Hh.
  { apply alloc_entity_run in Ea as (_ & a & -> & Hv & _); [done|typeclasses eauto]. }
  destruct (extract_imports _ _ _ _ _) as [b|e|] eqn:Ei; [|intros [= <- <-]; split_and!; [done|by apply Hok|done]..].
  assert (good handle ((inner, s.2), b)) as Hg.
  { split_and!; [by apply Hok| |done]. eapply extract_imports_ok; [|apply InstanceEntityBuilder_new_ok|exact Ei].
    eapply Forall_impl; [exact Hx|]. intros x. by apply extern_ok_mono. }
  pose proof (instantiate_rest_keeps handle call_start Hc module ((inner, s.2), b)) as K. unfold keeps_at in K.
  destruct (instantiate_rest _ _ _ _) as [r' [s1 b1]]. destruct K as [K1 K2]. cbn in K1, K2.
  specialize (K2 Hg) as (K3 & K4 & K5). cbn in K3, K4, K5.
  destruct r'; intros [= <- <-]; (split_and!; [by etrans|done|]); by intros h [= <-].
Qed.
End Whole.
End Instantiate.
