(* ===== verification/InstantiateSpec.v ===== *)
(** * What instantiation guarantees

    Imports are accepted exactly when each external value matches the import it
    is given for.  Instantiation keeps all handles of a store valid, whatever its
    outcome; when it succeeds, the instance has the entities its module says. *)

From Stdlib Require Import ZArith Lia.
From stdpp Require Import base option decidable numbers gmap list.
From S2P Require Import Prelude Value Fuel Limiter MemoryType Memory Table Cells ExecStack Calls Arena Store InitExpr Header Keeps Modules Instantiate InstantiateInv.
Local Open Scope Z_scope.

Section Imports.
Context {T : Target} {Alloc : Allocator}.
Variable resolve_func_type : Z -> FuncType.
Implicit Type s : StoreInner.

(** The external value [external] is a valid import of type [ty]. *)
Inductive import_matches s : ExternType -> Extern -> Prop :=
| matches_func ty func : Func_ty (E := InstantiationError) resolve_func_type s func = Ok ty ->
    import_matches s (ExternType_Func ty) (Extern_Func func)
| matches_table required ty table : handle_Table_dynamic_ty (E := InstantiationError) s table = Ok ty ->
    TableType_is_subtype_of ty required = true ->
    import_matches s (ExternType_Table required) (Extern_Table table)
| matches_memory required ty memory : handle_Memory_dynamic_ty (E := InstantiationError) s memory = Ok ty ->
    MemoryType_is_subtype_of (E := InstantiationError) ty required = Ok true ->
    import_matches s (ExternType_Memory required) (Extern_Memory memory)
| matches_global ty global : handle_Global_ty (E := InstantiationError) s global = Ok ty ->
    import_matches s (ExternType_Global ty) (Extern_Global global).

(** What a matching value adds to the builder. *)
Definition push_extern (external : Extern) (b : InstanceEntityBuilder) : InstanceEntityBuilder :=
  match external with
  | Extern_Func func => push_func func b
  | Extern_Table table => push_table table b
  | Extern_Memory memory => push_memory memory b
  | Extern_Global global => push_global global b
  end.

(** The value and the type are of this store and of a page size that can be
    compared. *)
Definition import_ok s (ty : ExternType) (external : Extern) : Prop :=
  match external with
  | Extern_Func func => is_ok (Func_ty (E := InstantiationError) resolve_func_type s func) = true
  | Extern_Table table => is_ok (handle_Table_dynamic_ty (E := InstantiationError) s table) = true
  | Extern_Memory memory =>
      exists imported, handle_Memory_dynamic_ty (E := InstantiationError) s memory = Ok imported /\
        forall required, ty = ExternType_Memory required ->
          is_ok (MemoryType_is_subtype_of (E := InstantiationError) imported required) = true
  | Extern_Global global => is_ok (handle_Global_ty (E := InstantiationError) s global) = true
  end.

(** The kind of a type and of a value. *)
Definition same_kind (ty : ExternType) (external : Extern) : bool :=
  match ty, external with
  | ExternType_Func _, Extern_Func _ | ExternType_Table _, Extern_Table _
  | ExternType_Memory _, Extern_Memory _ | ExternType_Global _, Extern_Global _ => true
  | _, _ => false
  end.

(** The error for a value that is no import of the name and type: another kind of
    value, or a value whose type, found in the store, is not the expected one. *)
Inductive import_mismatch s (name : ImportName) : ExternType -> Extern -> InstantiationError -> Prop :=
| mismatch_kind ty external : same_kind ty external = false ->
    import_mismatch s name ty external (ImportTypeMismatch name ty external)
| mismatch_func expected actual func : Func_ty (E := InstantiationError) resolve_func_type s func = Ok actual ->
    actual <> expected ->
    import_mismatch s name (ExternType_Func expected) (Extern_Func func) (FuncTypeMismatch name expected actual)
| mismatch_table expected actual table : handle_Table_dynamic_ty (E := InstantiationError) s table = Ok actual ->
    TableType_is_subtype_of actual expected = false ->
    import_mismatch s name (ExternType_Table expected) (Extern_Table table) (TableTypeMismatch name expected actual)
| mismatch_memory expected actual memory : handle_Memory_dynamic_ty (E := InstantiationError) s memory = Ok actual ->
    MemoryType_is_subtype_of (E := InstantiationError) actual expected = Ok false ->
    import_mismatch s name (ExternType_Memory expected) (Extern_Memory memory) (MemoryTypeMismatch name expected actual)
| mismatch_global expected actual global : handle_Global_ty (E := InstantiationError) s global = Ok actual ->
    actual <> expected ->
    import_mismatch s name (ExternType_Global expected) (Extern_Global global) (GlobalTypeMismatch name expected actual).

(** A value with an error of its own does not match. *)
Lemma import_mismatch_not s name ty external e : import_mismatch s name ty external e -> ~ import_matches s ty external.
Proof. intros Hx Hm. destruct Hm; inversion Hx; subst; congruence || done. Qed.

Lemma extract_import_run s name ty external b : import_ok s ty external ->
  import_matches s ty external /\
    extract_import resolve_func_type s (name, ty) external b = Ok (push_extern external b) \/
  exists e, import_mismatch s name ty external e /\
    extract_import resolve_func_type s (name, ty) external b = Err e.
Proof.
  intros Hok. unfold extract_import.
  destruct ty as [gt|tt|mt|ft], external as [global|table|memory|func];
    try (right; eexists; split; [by apply mismatch_kind|reflexivity]); cbn [import_ok] in Hok.
  - destruct (handle_Global_ty s global) as [imported| |] eqn:E; try done. cbn [mbind res_bind].
    case_bool_decide as Hd; cbn [negb]; [left; subst; split; [by constructor|done]|].
    right. eexists. split; [by apply mismatch_global|done].
  - destruct (handle_Table_dynamic_ty s table) as [imported| |] eqn:E; try done. cbn [mbind res_bind].
    destruct (TableType_is_subtype_of imported tt) eqn:Es; cbn [negb]; [left; split; [by econstructor|done]|].
    right. eexists. split; [by apply mismatch_table|done].
  - destruct Hok as (imported & E & Hs). rewrite E. cbn [mbind res_bind]. specialize (Hs _ eq_refl).
    destruct (MemoryType_is_subtype_of imported mt) as [[]| |] eqn:Es; try done; cbn [mbind res_bind negb];
      [left; split; [by econstructor|done]|].
    right. eexists. split; [by apply mismatch_memory|done].
  - destruct (Func_ty resolve_func_type s func) as [actual| |] eqn:E; try done. cbn [mbind res_bind].
    case_bool_decide as Hd; cbn [negb]; [left; subst; split; [by constructor|done]|].
    right. eexists. split; [by apply mismatch_func|done].
Qed.

Definition push_externs (externals : list Extern) (b : InstanceEntityBuilder) : InstanceEntityBuilder :=
  foldl (fun b external => push_extern external b) b externals.

Lemma extract_imports_loop_run s imports : forall externals b, length imports = length externals ->
  Forall2 (fun import external => import_ok s import.2 external) imports externals ->
  Forall2 (fun import external => import_matches s import.2 external) imports externals /\
    extract_imports_loop resolve_func_type s imports externals b = Ok (push_externs externals b) \/
  exists i import external e, imports !! i = Some import /\ externals !! i = Some external /\
    Forall2 (fun import external => import_matches s import.2 external) (take i imports) (take i externals) /\
    ~ import_matches s import.2 external /\ import_mismatch s import.1 import.2 external e /\
    extract_imports_loop resolve_func_type s imports externals b = Err e.
Proof.
  induction imports as [|[name ty] imports IH]; intros [|external externals] b Hl Hok; try done.
  - left. split; [constructor|done].
  - inversion_clear Hok as [|? ? ? ? H1 H2]. cbn [extract_imports_loop].
    destruct (extract_import_run s name ty external b H1) as [[Hm ->]|(e & Hm & ->)]; cbn [mbind res_bind].
    + injection Hl as Hl.
      destruct (IH externals (push_extern external b) Hl H2) as [[Hf ->]|(i & im & ex & e & Hi & He & Hf & Hx & Hn & ->)].
      * left. split; [by constructor|done].
      * right. exists (S i), im, ex, e. split_and!; try done. cbn. by constructor.
    + right. exists 0%nat, (name, ty), external, e. split_and!; try done. by eapply import_mismatch_not.
Qed.

(** C15: For a module whose imports can be listed, and external values of the store,
    [extract_imports] accepts exactly the values that match the imports one by one:
    functions of the same type, globals of the same type, tables and memories whose
    current type is a subtype of the required one.  It then adds every value to the
    builder, in order, among those of its kind; otherwise the error is about the
    number of values, or it is the error of the first import whose value does not
    match: the variant of its kind, or of a value of another kind, with the import's
    name, the type it expects and the value or its type.  It never panics. *)
Theorem extract_imports_spec s module externals b iter imports :
  Module_imports (E := InstantiationError) module = Ok iter -> import_types (E := InstantiationError) resolve_func_type (length (it_names iter)) iter = Ok imports ->
  length imports = length (it_names iter) ->
  (length imports = length externals ->
   Forall2 (fun import external => import_ok s import.2 external) imports externals) ->
  let r := extract_imports resolve_func_type s module externals b in
  if decide (length imports = length externals) then
    (r = Ok (push_externs externals b) /\
       Forall2 (fun import external => import_matches s import.2 external) imports externals) \/
    (exists i import external e, imports !! i = Some import /\ externals !! i = Some external /\
       Forall2 (fun import external => import_matches s import.2 external) (take i imports) (take i externals) /\
       ~ import_matches s import.2 external /\ import_mismatch s import.1 import.2 external e /\ r = Err e)
  else r = Err (MismatchedNumberOfImports (Z.of_nat (length imports)) (Z.of_nat (length externals))).
Proof.
  intros Hi Ht Hl Hok. cbv zeta. unfold extract_imports. rewrite Hi. cbn [mbind res_bind]. rewrite <- Hl.
  destruct (decide _) as [Hn|Hn].
  - rewrite Hn, Z.eqb_refl. cbn [negb]. rewrite <- Hn, Hl, Ht. cbn [mbind res_bind].
    destruct (extract_imports_loop_run s imports externals b Hn (Hok Hn)) as [[Hf Hr]|H]; [by left|].
    right. exact H.
  - rewrite (proj2 (Z.eqb_neq _ _)) by lia. done.
Qed.
End Imports.

(** ** The entities of a new instance *)

Section Counts.
Context {T : Target} {Alloc : Allocator} {L : Type} {RL : ResourceLimiter L}.
Context {Sf : SizeOf FuncEntity} {Sm : SizeOf Memory} {St : SizeOf Table} {Sg : SizeOf CoreGlobal}
  {Si : SizeOf InstanceEntity} {Sd : SizeOf DataSegmentEntity} {Se : SizeOf ElementSegment}.
Context {X : Type}.
Notation IState := (IState (L := L)).
Notation IM := (M IState (InstError X)).

Inductive Kind : Type := KFunc | KTable | KMemory | KGlobal | KData | KElem.
#[export] Instance Kind_eq_dec : EqDecision Kind.
Proof. solve_decision. Defined.

Definition count (k : Kind) (b : InstanceEntityBuilder) : nat :=
  match k with
  | KFunc => length (ib_funcs b)
  | KTable => length (ib_tables b)
  | KMemory => length (ib_memories b)
  | KGlobal => length (ib_globals b)
  | KData => length (ib_data_segments b)
  | KElem => length (ib_elem_segments b)
  end.
Definition one (k0 k : Kind) : nat := if decide (k = k0) then 1%nat else 0%nat.

Lemma one_same k : one k k = 1%nat.
Proof. unfold one. by case_decide. Qed.
Lemma one_other k k' : k <> k' -> one k k' = 0%nat.
Proof. intros Hk. unfold one. by case_decide; subst. Qed.

(** A success of [m] adds [v k] entities of kind [k], and keeps the types. *)
Definition adds (v : Kind -> nat) (m : IM unit) : Prop := forall st st', m st = (Ok tt, st') ->
  (forall k, count k st'.2 = (count k st.2 + v k)%nat) /\ ib_func_types st'.2 = ib_func_types st.2.

(** A success of [m] leaves the builder alone. *)
Definition builder_same {A} (m : IM A) : Prop := forall st a st', m st = (Ok a, st') -> st'.2 = st.2.

Lemma adds_same {A} (m : IM A) (k : A -> IM unit) v : builder_same m -> (forall a, adds v (k a)) -> adds v (m ≫= k).
Proof.
  intros Hm Hk st st' H. apply bind_Ok_inv in H as (a & s1 & H1 & H2). apply Hm in H1. apply Hk in H2. by rewrite <- H1.
Qed.
Lemma adds_seq (m : IM unit) (k : unit -> IM unit) v w u : adds v m -> adds w (k tt) ->
  (forall x, u x = (v x + w x)%nat) -> adds u (m ≫= k).
Proof.
  intros Hm Hk Hu st st' H. apply bind_Ok_inv in H as ([] & s1 & H1 & H2).
  destruct (Hm _ _ H1) as [Hc1 Ht1], (Hk _ _ H2) as [Hc2 Ht2].
  split; [intros x; rewrite Hc2, Hc1, Hu; lia|congruence].
Qed.
Lemma adds_for_each {A} (f : A -> IM unit) v l : (forall x, adds v (f x)) ->
  adds (fun k => (length l * v k)%nat) (for_each f l).
Proof.
  intros Hf. induction l as [|x l IH]; cbn.
  - intros st st' [= <-]. split; [intros k; lia|done].
  - eapply adds_seq; [apply Hf|exact IH|]. intros k. cbn. lia.
Qed.

Lemma same_lift {A} (r : res _ A) : builder_same (lift r).
Proof. by intros st a st' [= _ <-]. Qed.
Lemma same_store {E A} conv (m : M (PrunedStore L) E A) : builder_same (on_store (X := X) conv m).
Proof. intros st a st' H. apply zoom_Ok_inv in H as (t & _ & ->). done. Qed.
Lemma same_inner {A} (m : M StoreInner Empty_set A) : builder_same (on_inner (L := L) (X := X) m).
Proof. apply same_store. Qed.
Lemma same_bind {A B} (m : IM A) (k : A -> IM B) : builder_same m -> (forall a, builder_same (k a)) -> builder_same (m ≫= k).
Proof.
  intros Hm Hk st b st' H. apply bind_Ok_inv in H as (a & s1 & H1 & H2). apply Hm in H1. apply Hk in H2. congruence.
Qed.
Lemma same_get_inner : builder_same get_inner.
Proof. by intros st a st' [= _ <-]. Qed.
Lemma same_get_builder : builder_same get_builder.
Proof. by intros st a st' [= _ <-]. Qed.
Lemma same_ret {A} (a : A) : builder_same (mret a).
Proof. by intros st a' st' [= _ <-]. Qed.
#[local] Hint Resolve same_lift same_store same_inner same_get_inner same_get_builder same_ret : same.

Ltac adds_push := intros st st' [= <-]; split; [|done]; intros k; unfold one; case_decide; subst; [|destruct k];
  cbn; rewrite ?length_app; cbn; solve [lia|congruence].
Lemma adds_push_func h : adds (one KFunc) (on_builder (push_func h)). Proof. adds_push. Qed.
Lemma adds_push_table h : adds (one KTable) (on_builder (push_table h)). Proof. adds_push. Qed.
Lemma adds_push_memory h : adds (one KMemory) (on_builder (push_memory h)). Proof. adds_push. Qed.
Lemma adds_push_global h : adds (one KGlobal) (on_builder (push_global h)). Proof. adds_push. Qed.
Lemma adds_push_data h : adds (one KData) (on_builder (ib_push_data_segment h)). Proof. adds_push. Qed.
Lemma adds_push_elem h : adds (one KElem) (on_builder (ib_push_element_segment h)). Proof. adds_push. Qed.
#[local] Hint Resolve adds_push_func adds_push_table adds_push_memory adds_push_global adds_push_data adds_push_elem : same.

Lemma adds_lift {A} (r : res _ A) (k : A -> IM unit) v : (forall a, r = Ok a -> adds v (k a)) -> adds v (lift r ≫= k).
Proof. intros Hk st st' H. apply bind_Ok_inv in H as (a & s1 & [= Hr <-] & H). by eapply Hk. Qed.

Lemma extract_functions_adds module handle l : internal_funcs (E := InstError X) module = Ok l ->
  adds (fun k => length l * one KFunc k)%nat (extract_functions module handle).
Proof.
  intros Hl. unfold extract_functions. apply adds_lift. rewrite Hl. intros ? [= <-].
  apply adds_for_each. intros []. apply adds_same; eauto with same.
Qed.

Lemma adds_get_st v (k : IState -> IM unit) : (forall st, adds v (k st)) -> adds v (get_st ≫= k).
Proof. intros Hk st st' H. rewrite bind_get_st in H. by eapply Hk. Qed.
Lemma adds_fail v e : adds v (fail e).
Proof. by intros st st' H. Qed.

Lemma extract_tables_adds module l : internal_tables (E := InstError X) module = Ok l ->
  adds (fun k => length l * one KTable k)%nat (extract_tables module).
Proof.
  intros Hl. unfold extract_tables. apply adds_get_st. intros st. case_if; [apply adds_fail|].
  apply adds_lift. rewrite Hl. intros ? [= <-]. apply adds_for_each. intros ty. apply adds_same; eauto with same.
Qed.
Lemma extract_memories_adds module l : internal_memories (E := InstError X) module = Ok l ->
  adds (fun k => length l * one KMemory k)%nat (extract_memories module).
Proof.
  intros Hl. unfold extract_memories. apply adds_get_st. intros st. case_if; [apply adds_fail|].
  apply adds_lift. rewrite Hl. intros ? [= <-]. apply adds_for_each. intros ty. apply adds_same; eauto with same.
Qed.
Lemma extract_globals_adds module l : internal_globals (E := InstError X) module = Ok l ->
  adds (fun k => length l * one KGlobal k)%nat (extract_globals module).
Proof.
  intros Hl. unfold extract_globals. apply adds_lift. rewrite Hl. intros ? [= <-]. apply adds_for_each. intros [].
  do 3 (apply adds_same; [eauto with same|]; intros ?). apply adds_same; eauto with same.
Qed.

Definition none (k : Kind) : nat := 0%nat.
Lemma adds_set_builder (b : InstanceEntityBuilder) st : (forall k, count k b = count k st.2) ->
  ib_func_types b = ib_func_types st.2 -> forall st', set_builder (L := L) (X := X) b st = (Ok tt, st') ->
  (forall k, count k st'.2 = (count k st.2 + none k)%nat) /\ ib_func_types st'.2 = ib_func_types st.2.
Proof. intros Hb Ht st' [= <-]. split; [|done]. intros k. unfold none. cbn. rewrite Hb. lia. Qed.

Lemma adds_ext v w (m : IM unit) : (forall k, v k = w k) -> adds v m -> adds w m.
Proof. intros E H st st' R. destruct (H _ _ R) as [Hc Ht]. split; [intros k; by rewrite <- E|done]. Qed.

Lemma adds_none_for_each {A} (f : A -> IM unit) l : (forall x, adds none (f x)) -> adds none (for_each f l).
Proof. intros Hf. eapply adds_ext; [|by apply adds_for_each]. intros k. unfold none. lia. Qed.

Lemma extract_exports_adds module : adds none (extract_exports module).
Proof.
  apply adds_none_for_each. intros [field idx] st st' H.
  apply bind_Ok_inv in H as (b & s1 & [= <- <-] & H). apply bind_Ok_inv in H as (x & s1 & [= _ <-] & H).
  apply bind_Ok_inv in H as (b & s1 & [= Hb <-] & H). unfold push_export in Hb.
  destruct (ib_exports st.2 !! field); [done|]. injection Hb as <-.
  by eapply (adds_set_builder _ st _ _ _ H). Unshelve. all: done.
Qed.

Lemma extract_start_fn_adds module : adds none (extract_start_fn module).
Proof.
  unfold extract_start_fn. destruct (mo_start module) as [start_fn|]; intros st st' H.
  - apply bind_Ok_inv in H as (b & s1 & [= <- <-] & H). apply bind_Ok_inv in H as (b & s1 & [= Hb <-] & H).
    unfold ib_set_start in Hb. destruct (ib_start_fn st.2); [done|]. injection Hb as <-.
    by eapply (adds_set_builder _ st _ _ _ H). Unshelve. all: done.
  - injection H as <-. split; [intros k; unfold none; lia|done].
Qed.

Lemma init_table_same active element : builder_same (init_table (L := L) (X := X) active element).
Proof.
  unfold init_table. do 8 (apply same_bind; [eauto with same|]; intros ?). case_if; [by intros ? ? ?|].
  apply same_bind; [eauto with same|]. intros [t e]. destruct (Table_init _ _ _ _ _) as [r [t' o]].
  intros st u st' H. apply bind_Ok_inv in H as (x1 & s1 & [= <- <-] & H).
  apply bind_Ok_inv in H as (x2 & s2 & [= _ <-] & H). apply bind_Ok_inv in H as (x3 & s3 & [= _ <-] & H).
  apply bind_Ok_inv in H as (x4 & s4 & [= <- <-] & H). injection H as _ <-. done.
Qed.

Lemma initialize_table_elements_adds module :
  adds (fun k => length (mo_element_segments module) * one KElem k)%nat (initialize_table_elements module).
Proof.
  apply adds_for_each. intros segment. do 2 (apply adds_same; [eauto with same|]; intros ?).
  apply adds_same; [destruct (ies_kind segment); eauto with same|]. intros items.
  do 2 (apply adds_same; [eauto with same|]; intros ?).
  apply adds_same; [destruct (ies_kind segment); eauto using init_table_same with same|]. intros ?.
  eauto with same.
Qed.

Lemma initialize_memory_data_adds module l : DataSegments_into_iter (E := InstError X) (mo_data_segments module) = Ok l ->
  adds (fun k => length l * one KData k)%nat (initialize_memory_data module).
Proof.
  intros Hl. unfold initialize_memory_data. apply adds_lift. rewrite Hl. intros ? [= <-]. apply adds_for_each.
  intros segment. apply adds_same; [|intros; eauto with same]. destruct segment; [|eauto with same].
  repeat (apply same_bind; [eauto with same|]; intros ?). eauto with same.
Qed.

(** *** Imports *)

Definition kind_of (ty : ExternType) : Kind :=
  match ty with
  | ExternType_Func _ => KFunc | ExternType_Table _ => KTable
  | ExternType_Memory _ => KMemory | ExternType_Global _ => KGlobal
  end.
Fixpoint imports_of_kind (k : Kind) (imports : list (ImportName * ExternType)) : nat :=
  match imports with
  | [] => 0
  | import :: imports => one (kind_of import.2) k + imports_of_kind k imports
  end.

Section Imports.
Variable resolve_func_type : Z -> FuncType.

Lemma extract_import_counts s import external b b' : extract_import resolve_func_type s import external b = Ok b' ->
  (forall k, count k b' = (count k b + one (kind_of import.2) k)%nat) /\ ib_func_types b' = ib_func_types b.
Proof.
  destruct import as [name ty]. unfold extract_import.
  destruct ty, external; try done; intros H;
    repeat match goal with
      | H : (?m ≫= _) = Ok _ |- _ => destruct m; cbn in H; try done
      | H : (if ?b then _ else _) = Ok _ |- _ => destruct b; try done
      end; injection H as <-;
    (split; [|done]); intros k; unfold one; cbn [kind_of snd]; (case_decide; subst; [|destruct k]);
    cbn; rewrite ?length_app; cbn; solve [lia|congruence].
Qed.

Lemma extract_imports_loop_counts s imports : forall externals b b', length imports = length externals ->
  extract_imports_loop resolve_func_type s imports externals b = Ok b' ->
  (forall k, count k b' = (count k b + imports_of_kind k imports)%nat) /\ ib_func_types b' = ib_func_types b.
Proof.
  induction imports as [|import imports IH]; intros [|external externals] b b' Hl; try done; cbn.
  - intros [= <-]. split; [intros k; lia|done].
  - injection Hl as Hl. destruct (extract_import _ _ _ _ _) as [b1|e|] eqn:E; cbn; [|done..]. intros H.
    destruct (extract_import_counts _ _ _ _ _ E) as [Hc1 Ht1], (IH _ _ _ Hl H) as [Hc2 Ht2].
    split; [intros k; rewrite Hc2, Hc1; lia|congruence].
Qed.

Lemma imports_of_kind_app k l1 l2 : imports_of_kind k (l1 ++ l2) = (imports_of_kind k l1 + imports_of_kind k l2)%nat.
Proof. induction l1; cbn; lia. Qed.

Lemma imports_of_kind_zip {A} k k0 (f : ImportName -> A -> ImportName * ExternType) names l :
  (forall name x, kind_of (f name x).2 = k0) -> (length names <= length l)%nat ->
  imports_of_kind k (zip_with f names l) = (length names * one k0 k)%nat.
Proof.
  intros Hf. revert l. induction names as [|name names IH]; intros [|x l] Hl; cbn in *; [done|done|lia|].
  rewrite Hf, IH by lia. lia.
Qed.

Lemma imports_of_counts hb k : imports_inv hb ->
  imports_of_kind k (imports_of resolve_func_type hb) =
  (length (mib_funcs (hb_imports hb)) * one KFunc k + length (mib_tables (hb_imports hb)) * one KTable k +
   length (mib_memories (hb_imports hb)) * one KMemory k + length (mib_globals (hb_imports hb)) * one KGlobal k)%nat.
Proof.
  intros (H1 & H2 & H3 & H4). unfold imports_of. rewrite !imports_of_kind_app.
  rewrite (imports_of_kind_zip k KFunc), (imports_of_kind_zip k KTable), (imports_of_kind_zip k KMemory),
    (imports_of_kind_zip k KGlobal); try done; lia.
Qed.

(** *** The new instance *)

Variable call_start : Handle -> M (PrunedStore L) X unit.

(** Instances that are initialized stay as they are. *)
Definition instances_kept (s s' : PrunedStore L) : Prop := forall h ie,
  try_resolve sa_instances s.1 h = Ok ie -> ie_initialized ie = true -> try_resolve sa_instances s'.1 h = Ok ie.

Lemma initialize_instance_run h ie s s' : initialize_instance h ie s = (Ok tt, s') ->
  try_resolve sa_instances s' h = Ok ie.
Proof.
  unfold initialize_instance. rewrite bind_get_st. unfold assert_m. rewrite bind_lift.
  destruct (assert_that (ie_initialized ie)); [|done..].
  destruct (unwrap_stored s h) as [idx|e|] eqn:Hu; [|done..].
  destruct (Arena_get_mut idx (si_instances s)) as [u|e|] eqn:Hg; [|done..].
  rewrite bind_lift. destruct (assert_that (negb _)); [|done..]. intros [= <-].
  unfold unwrap_stored, StoreId_unwrap in Hu. case_bool_decide as Hs; [|done]. injection Hu as <-.
  unfold try_resolve, resolve, unwrap_stored, StoreId_unwrap.
  cbn [si_id sa_get sa_instances si_instances]. rewrite bool_decide_eq_true_2 by done. cbn [ok_or mbind res_bind].
  assert (Arena_get (Arena_update (st_value h) ie (si_instances s)) (st_value h) = Ok ie) as ->; [|done].
  apply Arena_get_Ok. apply Arena_get_Ok in Hg. apply lookup_lt_Some in Hg.
  unfold Arena_update. cbn [items]. by rewrite list_lookup_insert_eq.
Qed.

Lemma Module_start_run instance st st' : (forall func s, instances_kept s (call_start func s).2) ->
  Module_start call_start instance st = (Ok tt, st') ->
  try_resolve sa_instances st'.1.1 instance = Ok (InstanceEntityBuilder_finish st.2).
Proof.
  intros Hc H. unfold Module_start in H. apply bind_Ok_inv in H as (b & s1 & [= <- <-] & H). cbv zeta in H.
  apply bind_Ok_inv in H as ([] & s2 & H1 & H).
  unfold on_inner, on_store in H1. apply zoom_Ok_inv in H1 as (t & H1 & ->).
  apply zoom_Ok_inv in H1 as (t' & H1 & ->). apply initialize_instance_run in H1.
  destruct (ib_start_fn st.2) as [start_index|]; [|by injection H as <-].
  apply bind_Ok_inv in H as (s & s3 & [= <- <-] & H). apply bind_Ok_inv in H as (entity & s3 & [= _ <-] & H).
  apply bind_Ok_inv in H as (func & s3 & [= _ <-] & H). unfold on_store in H.
  apply zoom_Ok_inv in H as (s4 & H & ->). cbn [fst] in H |- *.
  pose proof (Hc func (t', st.1.2)) as K. rewrite H in K. by apply K.
Qed.

Lemma init_data_segments_length {E} n : forall self l, n = length (dss_segments self) ->
  init_data_segments (E := E) n self = Ok l -> length l = n.
Proof.
  induction n as [|n IH]; intros self l Hn; cbn; [by intros [= <-]|]. unfold InitDataSegmentIter_next.
  destruct (dss_segments self) as [|[segment|bytes] segments] eqn:Es; [done| |]; cbn in Hn.
  - destruct (get_to _ _); cbn; [|done]. destruct (get_from _ _) as [rest|]; cbn; [|done].
    destruct (init_data_segments n _) as [l'|e|] eqn:E'; cbn; [|done..]. intros [= <-]. cbn. f_equal.
    eapply IH; [|exact E']. cbn. lia.
  - cbn. destruct (init_data_segments n _) as [l'|e|] eqn:E'; cbn; [|done..]. intros [= <-]. cbn. f_equal.
    eapply IH; [|exact E']. cbn. lia.
Qed.

Lemma internal_funcs_length {E} module l : internal_funcs (E := E) module = Ok l ->
  (length l + Z.to_nat (mi_len_funcs (mo_imports module)) = length (mh_funcs (mo_header module)))%nat \/
  mi_len_funcs (mo_imports module) < 0.
Proof.
  unfold internal_funcs, skip_imported. unfold get_from. case_if; zb; cbn; [|done].
  destruct (EngineFuncSpan_len _) as [len|e|] eqn:El; cbn; [|done..].
  unfold assert_that. case_if; zb; cbn; [|done]. intros [= <-].
  destruct (decide (mi_len_funcs (mo_imports module) < 0)); [by right|left].
  rewrite length_zip_with, length_seqZ. rewrite length_drop in *. lia.
Qed.

(** What a run after the imports adds to the builder. *)
Lemma instantiate_rest_counts module handle st st' : instantiate_rest call_start module handle st = (Ok tt, st') ->
  (forall func s, instances_kept s (call_start func s).2) ->
  exists b funcs tables memories globals,
    try_resolve sa_instances st'.1.1 handle = Ok (InstanceEntityBuilder_finish b) /\
    ib_func_types b = ib_func_types st.2 /\
    internal_funcs (E := InstError X) module = Ok funcs /\ internal_tables (E := InstError X) module = Ok tables /\
    internal_memories (E := InstError X) module = Ok memories /\
    internal_globals (E := InstError X) module = Ok globals /\
    forall k, count k b = (count k st.2 + length funcs * one KFunc k + length tables * one KTable k +
      length memories * one KMemory k + length globals * one KGlobal k +
      length (mo_element_segments module) * one KElem k +
      length (dss_segments (mo_data_segments module)) * one KData k)%nat.
Proof.
  intros H Hc. unfold instantiate_rest in H.
  apply bind_Ok_inv in H as ([] & s1 & H1 & H). apply bind_Ok_inv in H as ([] & s2 & H2 & H).
  apply bind_Ok_inv in H as ([] & s3 & H3 & H). apply bind_Ok_inv in H as ([] & s4 & H4 & H).
  apply bind_Ok_inv in H as ([] & s5 & H5 & H). apply bind_Ok_inv in H as ([] & s6 & H6 & H).
  apply bind_Ok_inv in H as ([] & s7 & H7 & H). apply bind_Ok_inv in H as ([] & s8 & H8 & H).
  destruct (internal_funcs (E := InstError X) module) as [funcs|e|] eqn:If;
    [|by unfold extract_functions in H1; rewrite If in H1..].
  destruct (internal_tables (E := InstError X) module) as [tables|e|] eqn:It;
    [|by unfold extract_tables in H2; rewrite It, bind_get_st in H2; destruct (negb _)..].
  destruct (internal_memories (E := InstError X) module) as [memories|e|] eqn:Im;
    [|by unfold extract_memories in H3; rewrite Im, bind_get_st in H3; destruct (negb _)..].
  destruct (internal_globals (E := InstError X) module) as [globals|e|] eqn:Ig;
    [|by unfold extract_globals in H4; rewrite Ig in H4..].
  destruct (DataSegments_into_iter (E := InstError X) (mo_data_segments module)) as [segments|e|] eqn:Id;
    [|by unfold initialize_memory_data in H8; rewrite Id in H8..].
  apply (extract_functions_adds _ _ _ If) in H1 as [C1 T1]. apply (extract_tables_adds _ _ It) in H2 as [C2 T2].
  apply (extract_memories_adds _ _ Im) in H3 as [C3 T3]. apply (extract_globals_adds _ _ Ig) in H4 as [C4 T4].
  apply extract_exports_adds in H5 as [C5 T5]. apply extract_start_fn_adds in H6 as [C6 T6].
  apply initialize_table_elements_adds in H7 as [C7 T7]. apply (initialize_memory_data_adds _ _ Id) in H8 as [C8 T8].
  apply init_data_segments_length in Id; [|done].
  exists s8.2, funcs, tables, memories, globals. split; [by apply Module_start_run|]. split_and!; try done; [congruence|].
  intros k. rewrite C8, C7, C6, C5, C4, C3, C2, C1, Id. unfold none. lia.
Qed.

(** C14: If a module that was parsed is instantiated, the new instance is initialized
    and has its function types and an entity for every function, table, memory and
    global of the module, imported ones included, and for every element and data
    segment; so an index that validation has checked against the module is in
    bounds of the instance.  The start function is assumed to leave initialized
    instances as they are: nothing in the program writes to one. *)
Theorem instantiate_complete hb data css externals s h s' : imports_inv hb ->
  (forall func s, instances_kept s (call_start func s).2) ->
  Module_instantiate resolve_func_type call_start {| mo_header_inner := ModuleHeaderBuilder_finish hb;
    mo_data_segments := data; mo_custom_sections := css |} externals s = (Ok h, s') ->
  exists ie, try_resolve sa_instances s'.1 h = Ok ie /\ ie_initialized ie = true /\
    ie_func_types ie = hb_func_types hb /\
    length (ie_funcs ie) = length (hb_funcs hb) /\ length (ie_tables ie) = length (hb_tables hb) /\
    length (ie_memories ie) = length (hb_memories hb) /\ length (ie_globals ie) = length (hb_globals hb) /\
    length (ie_elem_segments ie) = length (hb_element_segments hb) /\
    length (ie_data_segments ie) = length (dss_segments data).
Proof.
  intros Hi Hc H. unfold Module_instantiate in H. destruct (negb _); [done|].
  destruct (alloc_instance s.1) as [[handle|e|] inner]; [|done..].
  set (module := {| mo_header_inner := _ |}) in H.
  destruct (extract_imports _ _ _ _ _) as [b0|e|] eqn:Ei; [|done..].
  destruct (instantiate_rest _ _ _ _) as [[[]|e|] [s1 b1]] eqn:Er; [|done..]. injection H as <- <-.
  apply instantiate_rest_counts in Er as (b & funcs & tables & memories & globals & Hr & Ht & If & It & Im & Ig & Hk);
    [|done]. cbn [fst snd] in *.
  destruct (Module_import_types_run (E := InstantiationError) resolve_func_type hb data css Hi) as (iter & Hm & Hl & Hit).
  unfold extract_imports in Ei. fold module in Hm. rewrite Hm in Ei. cbn [mbind res_bind] in Ei.
  destruct (Z.eqb_spec (Z.of_nat (length (it_names iter))) (Z.of_nat (length externals))); [|done].
  cbn [negb] in Ei. rewrite Hit in Ei. cbn [mbind res_bind] in Ei.
  apply extract_imports_loop_counts in Ei as [C0 T0]; [|lia].
  destruct Hi as (I1 & I2 & I3 & I4).
  unfold internal_tables, internal_memories, internal_globals, skip_imported, mo_header, mo_imports in It, Im, Ig.
  cbn in It, Im, Ig. rewrite get_from_length in It by lia. rewrite get_from_length in Im by lia.
  rewrite get_from_length in Ig by lia.
  injection It as <-. injection Im as <-. injection Ig as <-.
  apply internal_funcs_length in If. unfold mo_header, mo_imports in If. cbn in If.
  assert (forall k, count k b = _) as Hcount by (intros k; rewrite Hk, C0, imports_of_counts by (by split_and!); reflexivity).
  exists (InstanceEntityBuilder_finish b). split; [exact Hr|]. split; [done|].
  split; [cbn; rewrite Ht, T0; done|].
  pose proof (Hcount KFunc) as K1. pose proof (Hcount KTable) as K2. pose proof (Hcount KMemory) as K3.
  pose proof (Hcount KGlobal) as K4. pose proof (Hcount KElem) as K5. pose proof (Hcount KData) as K6.
  clear Hk C0 Hcount. rewrite ?one_same in K1, K2, K3, K4, K5, K6.
  rewrite ?one_other in K1, K2, K3, K4, K5, K6 by done.
  cbn -[length drop zip_with one] in *. rewrite ?length_zip_with, ?length_drop in *. cbn [length] in *.
  split_and!; lia.
Qed.
End Imports.
End Counts.

(** ** Instantiation on concrete modules

    A store with an instance that exports a table of two elements, and a module that
    imports it, defines a function and copies it into the table. *)

#[local] Instance demo_target : Target := default_target.
#[local] Instance demo_alloc : Allocator := limit_allocator default_target 100000.
#[local] Instance demo_size_func : SizeOf FuncEntity := 8.
#[local] Instance demo_size_memory : SizeOf Memory := 8.
#[local] Instance demo_size_table : SizeOf Table := 8.
#[local] Instance demo_size_global : SizeOf CoreGlobal := 8.
#[local] Instance demo_size_instance : SizeOf InstanceEntity := 8.
#[local] Instance demo_size_data : SizeOf DataSegmentEntity := 8.
#[local] Instance demo_size_elem : SizeOf ElementSegment := 8.

Definition demo_func_type : FuncType := {| ft_inner := FT_Inline 0 0 [] |}.
Definition demo_resolve (_ : Z) : FuncType := demo_func_type.

Definition demo_table_type (min : Z) : TableType :=
  {| tt_element := RefType_Func; tt_min := min; tt_max := None; tt_index_ty := IndexType_I32 |}.

Definition demo_i32 (n : Z) : InitOp := Init_Const (CV_I32 n).

(** The exporting module. *)
Definition demo_exporter : ModuleHeaderBuilder := {|
  hb_func_types := []; hb_imports := ModuleImportsBuilder_default; hb_funcs := []; hb_tables := [demo_table_type 2];
  hb_memories := []; hb_globals := []; hb_globals_init := []; hb_exports := {[ [116] := ExternIdx_Table 0 ]};
  hb_start := None; hb_engine_funcs := EngineFuncSpan_empty; hb_element_segments := [] |}.

(** The importing module: a table of at least [min] elements, a function, a global
    and two segments, the first for index 1 of the table and the second, of the items
    [more], for index 2. *)
Definition demo_importer (min : Z) (more : list InitOp) : ModuleHeaderBuilder := {|
  hb_func_types := [0];
  hb_imports := {| mib_funcs := []; mib_tables := [ImportName_new [109] [116]]; mib_memories := []; mib_globals := [] |};
  hb_funcs := [0]; hb_tables := [demo_table_type min]; hb_memories := [];
  hb_globals := [{| gt_content := ValType_I32; gt_mutability := Mutability_Const |}]; hb_globals_init := [demo_i32 7];
  hb_exports := ∅; hb_start := Some 0; hb_engine_funcs := {| efs_start := 5; efs_end := 6 |};
  hb_element_segments := [{|
    ies_kind := ElementSegment_Active {| aes_table_index := 0; aes_offset := demo_i32 1 |};
    ies_ty := RefType_Func; ies_items := [Init_FuncRef 0] |};
    {| ies_kind := ElementSegment_Active {| aes_table_index := 0; aes_offset := demo_i32 2 |};
    ies_ty := RefType_Func; ies_items := more |}] |}.

Notation demo_module hb := {| mo_header_inner := ModuleHeaderBuilder_finish hb;
  mo_data_segments := DataSegments_build; mo_custom_sections := CustomSections_default |}.

Definition demo_start (func : Handle) : M (PrunedStore StoreLimits) unit unit := mret tt.

Notation demo_instantiate hb externals s :=
  (Module_instantiate demo_resolve demo_start (demo_module hb) externals s).

Definition demo_empty : PrunedStore StoreLimits := (StoreInner_new 7 false Fuel.FuelCostsProvider_default, None).
(** The store after the exporter was instantiated; its table. *)
Notation demo_before := (demo_instantiate demo_exporter [] demo_empty).2.
Definition demo_handle (n : Z) : Handle := {| st_store := 7; st_value := {| rh_raw := n |} |}.

(** What is read of a run: its result and the table, the functions and the instances
    of its store. *)
Definition demo_read {E} (run : res E Handle * PrunedStore StoreLimits) :=
  (match run.1 with Ok h => Some (Some h) | Err _ => Some None | Panic => None end,
   (fun t => ref_bits <$> tab_elements t) <$> items (si_tables run.2.1), length (items (si_funcs run.2.1)),
   ie_initialized <$> items (si_instances run.2.1)).

Example demo_exported : demo_read (demo_instantiate demo_exporter [] demo_empty) =
  (Some (Some (demo_handle 1)), [[0; 0]], 0%nat, [true]).
Proof. vm_compute. reflexivity. Qed.

Example demo_imported : demo_read (demo_instantiate (demo_importer 1 []) [Extern_Table (demo_handle 1)] demo_before) =
  (Some (Some (demo_handle 2)), [[0; 1]], 1%nat, [true; true]).
Proof. vm_compute. reflexivity. Qed.

(** Instantiation that fails leaves what it has written.  Here the second segment
    does not fit: the table of the first instance keeps a reference to the function of
    an instance that is never initialized. *)
Example failed_instantiation_leaks :
  demo_read (demo_instantiate (demo_importer 1 [Init_FuncRef 0]) [Extern_Table (demo_handle 1)] demo_before) =
    (Some None, [[0; 1]], 1%nat, [true; false]).
Proof. vm_compute. reflexivity. Qed.

(** The limit on tables counts imported ones: this module defines none and is refused
    by a store that may have no more. *)
Example imported_tables_are_counted :
  let limits := StoreLimitsBuilder_tables 1 StoreLimitsBuilder_new in
  (demo_instantiate (demo_importer 1 []) [Extern_Table (demo_handle 1)] (demo_before.1, Some limits)).1 =
    Err (IE_Instantiation TooManyTables).
Proof. vm_compute. reflexivity. Qed.

(** ** The theorems on these runs *)

Lemma demo_ok_inv {E A S} (run : res E A * S) : is_ok run.1 = true -> exists a s, run = (Ok a, s).
Proof. destruct run as [[a|e|] s]; cbn; intros H; [by eauto|discriminate H..]. Qed.

Lemma demo_start_keeps func : keeps (fun s s' => store_step s.1 s'.1) (demo_start func).
Proof. intros s. unfold keeps_at. cbn. reflexivity. Qed.
Lemma demo_start_kept func (s : PrunedStore StoreLimits) : instances_kept s (demo_start func s).2.
Proof. by intros h ie. Qed.

(** The handle of the exported table is valid. *)
Lemma demo_extern_ok : Forall (extern_ok demo_before.1) [Extern_Table (demo_handle 1)].
Proof.
  constructor; [|constructor]. split; [vm_compute; reflexivity|]. apply Nat.ltb_lt. vm_compute. reflexivity.
Qed.

(** Both outcomes of the importer are of a sound store. *)
Lemma instantiate_store_ok_witness : store_ok demo_before.1 /\
  forall more, let s := (demo_instantiate (demo_importer 1 more) [Extern_Table (demo_handle 1)] demo_before).2 in
    store_le demo_before.1 s.1 /\ store_ok s.1.
Proof.
  assert (store_ok demo_before.1) as H.
  { refine (proj1 (proj2 (instantiate_store_ok demo_resolve demo_start (demo_module demo_exporter) [] demo_empty
      (demo_instantiate demo_exporter [] demo_empty).1 demo_before demo_start_keeps _ _ _))).
    - apply StoreInner_new_ok.
    - constructor.
    - apply surjective_pairing. }
  split; [exact H|]. intros more s.
  destruct (instantiate_store_ok demo_resolve demo_start (demo_module (demo_importer 1 more))
    [Extern_Table (demo_handle 1)] demo_before _ s demo_start_keeps H demo_extern_ok (surjective_pairing _))
    as (H1 & H2 & _).
  split; assumption.
Defined.

(** A table of two elements is no import of three, and one of one. *)
Lemma extract_imports_spec_witness :
  let b min := InstanceEntityBuilder_new (demo_module (demo_importer min [])) in
  extract_imports demo_resolve demo_before.1 (demo_module (demo_importer 3 [])) [Extern_Table (demo_handle 1)] (b 3) =
    Err (TableTypeMismatch (ImportName_new [109] [116]) (demo_table_type 3) (demo_table_type 2)) /\
  extract_imports demo_resolve demo_before.1 (demo_module (demo_importer 1 [])) [Extern_Table (demo_handle 1)] (b 1) =
    Ok (push_externs [Extern_Table (demo_handle 1)] (b 1)).
Proof.
  intros b. split; [vm_compute; reflexivity|].
  assert (is_ok (handle_Table_dynamic_ty (E := InstantiationError) demo_before.1 (demo_handle 1)) = true) as Hd
    by (vm_compute; reflexivity).
  assert (is_ok (extract_imports demo_resolve demo_before.1 (demo_module (demo_importer 1 []))
    [Extern_Table (demo_handle 1)] (b 1)) = true) as Hok by (vm_compute; reflexivity).
  destruct (extract_imports_spec demo_resolve demo_before.1 (demo_module (demo_importer 1 []))
    [Extern_Table (demo_handle 1)] (b 1) _ [(ImportName_new [109] [116], ExternType_Table (demo_table_type 1))]
    eq_refl eq_refl eq_refl) as [[H _]|(i & import & external & e & _ & _ & _ & _ & _ & H)].
  - intros _. constructor; [exact Hd|constructor].
  - exact H.
  - exfalso. revert Hok. fold (b 1) in H. rewrite H. cbn. intros Hf. discriminate Hf.
Defined.

(** The new instance has a function, a global, a table, no memory and two segments. *)
Lemma instantiate_complete_witness : exists h s' ie,
  demo_instantiate (demo_importer 1 []) [Extern_Table (demo_handle 1)] demo_before = (Ok h, s') /\
  try_resolve sa_instances s'.1 h = Ok ie /\ length (ie_funcs ie) = 1%nat /\ length (ie_tables ie) = 1%nat /\
  length (ie_memories ie) = 0%nat /\ length (ie_globals ie) = 1%nat /\ length (ie_elem_segments ie) = 2%nat.
Proof.
  destruct (demo_ok_inv (demo_instantiate (demo_importer 1 []) [Extern_Table (demo_handle 1)] demo_before))
    as (h & s' & E); [vm_compute; reflexivity|].
  destruct (instantiate_complete demo_resolve demo_start (demo_importer 1 []) DataSegments_build CustomSections_default
    [Extern_Table (demo_handle 1)] demo_before h s') as (ie & Hr & _ & _ & Hf & Ht & Hm & Hg & He & _).
  - split_and!; cbn; lia.
  - exact demo_start_kept.
  - exact E.
  - exists h, s', ie. repeat (split; [first [exact E|exact Hr|assumption]|]). exact He.
Defined.
