(* ===== verification/Host.v ===== *)
(** * The interface to the host

    [reftype.rs], the handles [memory/mod.rs], [table/mod.rs], [global.rs],
    [instance/mod.rs], [func/mod.rs] and [func/typed_func.rs], and the part of a store
    that depends on the host's data: [store/mod.rs] and [store/pruned.rs].

    A handle is used with the store it belongs to; with any other the operation
    panics.  Host functions are [Tr], which only the host can call. *)

From Stdlib Require Import ZArith Lia.
From stdpp Require Import base option decidable numbers gmap list.
From S2P Require Import Prelude Value Fuel Limiter MemoryType Memory Table Locals Cells ExecStack Calls Arena Store InitExpr Header Keeps Modules Instantiate.
Local Open Scope Z_scope.

(** ** References *)

Inductive Ref : Type := Ref_Func (value : NullableRef) | Ref_Extern (value : NullableRef).

Definition Ref_ty (self : Ref) : RefType :=
  match self with Ref_Func _ => RefType_Func | Ref_Extern _ => RefType_Extern end.
Definition Ref_from_raw_parts (val : RawRef) (ty : RefType) (store : StoreId) : Ref :=
  match ty with
  | RefType_Func => Ref_Func (Nullable_from_raw_parts val store)
  | RefType_Extern => Ref_Extern (Nullable_from_raw_parts val store)
  end.
Definition Ref_unwrap_raw (self : Ref) (store : StoreId) : option RawRef :=
  match self with Ref_Func value | Ref_Extern value => Nullable_unwrap_raw value store end.
Definition Ref_null (ty : RefType) : Ref :=
  match ty with RefType_Extern => Ref_Extern None | RefType_Func => Ref_Func None end.
Definition Ref_default_for_ty (ty : RefType) : Ref :=
  match ty with RefType_Func => Ref_Func None | RefType_Extern => Ref_Extern None end.
Definition Ref_is_null (self : Ref) : bool :=
  match self with Ref_Func nullable | Ref_Extern nullable => bool_decide (nullable = None) end.
Definition Ref_as_func (self : Ref) : option NullableRef :=
  match self with Ref_Func nullable => Some nullable | Ref_Extern _ => None end.
Definition Ref_as_extern (self : Ref) : option NullableRef :=
  match self with Ref_Extern nullable => Some nullable | Ref_Func _ => None end.
Definition Ref_unwrap_func {E} (self : Ref) : res E NullableRef := expect (Ref_as_func self).

Definition Val_from_Ref (value : Ref) : Val :=
  match value with Ref_Func nullable => Val_FuncRef nullable | Ref_Extern nullable => Val_ExternRef nullable end.
Definition Val_as_raw_or_none (self : Val) : option RawVal :=
  match self with
  | Val_I32 value => Some (RawVal_from P_i32 value)
  | Val_I64 value => Some (RawVal_from P_i64 value)
  | Val_F32 value => Some (RawVal_from P_f32 value)
  | Val_F64 value => Some (RawVal_from P_f64 value)
  | Val_V128 value => Some (RawVal_from_V128 value)
  | Val_FuncRef None | Val_ExternRef None => Some (RawVal_from_RawRef RawRef_null)
  | _ => None
  end.

(** ** Handles *)

Section Handles.
Context {T : Target} {Alloc : Allocator} {L : Type} {RL : ResourceLimiter L}.
Context {Sf : SizeOf FuncEntity} {Sm : SizeOf Memory} {St : SizeOf Table} {Sg : SizeOf CoreGlobal}
  {Si : SizeOf InstanceEntity} {Sd : SizeOf DataSegmentEntity} {Se : SizeOf ElementSegment}.

(** [inner.resolve_*_mut(self)], and an operation on the entity. *)
Definition on_entity {Entity E A} (sa : StoreArena Entity) (self : Handle) (m : M Entity E A) :
    M (PrunedStore L) E A := fun s =>
  match panicking (E := E) (try_resolve_mut sa (fst s) self) with
  | Ok entity => let '(r, entity) := m entity in (r, (put_entity sa self entity (fst s), snd s))
  | _ => (Panic, s)
  end.

(** *** Memories *)

Definition handle_Memory_size {E} (s : StoreInner) (self : Handle) : res E Z :=
  Memory_size <$> panicking (try_resolve sa_memories s self).
Definition handle_Memory_data {E} (s : StoreInner) (self : Handle) : res E (list Z) :=
  Memory_data <$> panicking (try_resolve sa_memories s self).
Definition handle_Memory_data_size {E} (s : StoreInner) (self : Handle) : res E Z :=
  memory ← panicking (try_resolve sa_memories s self); Memory_size_in_bytes memory.
(** The bytes of [buffer] after the call. *)
Definition handle_Memory_read (s : StoreInner) (self : Handle) (offset len : Z) : res MemoryError (list Z) :=
  memory ← panicking (try_resolve sa_memories s self); Memory_read memory offset len.

(** Without fuel; every error is one of growing. *)
Definition handle_Memory_grow (self : Handle) (additional : Z) : M (PrunedStore L) MemoryError Z := fun s =>
  match panicking (E := MemoryError) (try_resolve_mut sa_memories (fst s) self) with
  | Ok memory =>
      match Memory_grow additional (memory, None, snd s) with
      | (r, (memory, _, limiter)) =>
          (map_err (fun _ => ME_OutOfBoundsGrowth) r, (put_entity sa_memories self memory (fst s), limiter))
      end
  | _ => (Panic, s)
  end.

(** *** Globals *)

Definition handle_Global_get {E} (s : StoreInner) (self : Handle) : res E Val :=
  global ← panicking (try_resolve sa_globals s self);
  let value := CoreGlobal_get global in
  Ok (Val_from_raw_parts (typed_value value) (typed_ty value) (si_id s)).

Definition handle_Global_set (self : Handle) (new_value : Val) : M (PrunedStore L) GlobalError unit :=
  s ← get_st;
  let ty := Val_ty new_value in
  new_value ← lift (expect (Val_unwrap_raw_val new_value (si_id (fst s))));
  on_entity sa_globals self (CoreGlobal_set (TypedRawVal_new ty new_value)).

(** *** Tables *)

(** [Table::unwrap_ref]. *)
Definition Table_unwrap_ref {E} (store : StoreInner) (value : Ref) : res E TypedRawRef :=
  raw ← expect (Ref_unwrap_raw value (si_id store));
  Ok (TypedRawRef_new raw (Ref_ty value)).

Definition api_Table_new (ty : TableType) (init : Ref) : M (PrunedStore L) TableError Handle :=
  s ← get_st;
  init ← lift (Table_unwrap_ref (fst s) init);
  handle_Table_new ty init.
Definition handle_Table_size {E} (s : StoreInner) (self : Handle) : res E Z :=
  Table_size <$> panicking (try_resolve sa_tables s self).

(** [inner.resolve_table_mut(self).grow(delta, init, None, &mut limiter)]. *)
Definition grow_on_entity (self : Handle) (delta : Z) (init : TypedRawRef) : M (PrunedStore L) TableError Z := fun s =>
  match panicking (E := TableError) (try_resolve_mut sa_tables (fst s) self) with
  | Ok table =>
      match Table_grow delta init (table, None, snd s) with
      | (r, (table, _, limiter)) => (r, (put_entity sa_tables self table (fst s), limiter))
      end
  | _ => (Panic, s)
  end.

Definition handle_Table_grow (self : Handle) (delta : Z) (init : Ref) : M (PrunedStore L) TableError Z :=
  s ← get_st;
  init ← lift (Table_unwrap_ref (fst s) init);
  grow_on_entity self delta init.

Definition handle_Table_get {E} (s : StoreInner) (self : Handle) (index : Z) : res E (option Ref) :=
  table ← panicking (try_resolve sa_tables s self);
  Ok ((fun raw => Ref_from_raw_parts (tref_raw raw) (tref_ty raw) (si_id s)) <$> Table_get table index).

Definition handle_Table_set (self : Handle) (index : Z) (value : Ref) : M (PrunedStore L) TableError unit :=
  s ← get_st;
  value ← lift (Table_unwrap_ref (fst s) value);
  on_entity sa_tables self (Table_set index value).

(** An operation on a table without fuel. *)
Definition without_fuel {A} (m : M TableFuel TableError A) : M Table TableError A :=
  zoom (fun table => (table, None)) (fun tf _ => fst tf) id m.

Definition handle_Table_fill (self : Handle) (dst : Z) (val : Ref) (len : Z) : M (PrunedStore L) TableError unit :=
  s ← get_st;
  val ← lift (Table_unwrap_ref (fst s) val);
  on_entity sa_tables self (without_fuel (Table_fill dst val len)).

Definition RawHandle_eqb (a b : Handle) : bool :=
  bool_decide (st_store a = st_store b /\ rh_raw (st_value a) = rh_raw (st_value b)).

(** Every error is one of copying. *)
Definition handle_Table_copy (dst_table : Handle) (dst_index : Z) (src_table : Handle) (src_index len : Z) :
    M (PrunedStore L) TableError unit := fun s =>
  if RawHandle_eqb dst_table src_table then
    let '(r, s) := on_entity sa_tables dst_table (without_fuel (Table_copy_within dst_index src_index len)) s in
    (map_err (fun _ => TE_CopyOutOfBounds) r, s)
  else
    match panicking (E := TableError) (try_resolve_pair_and_fuel sa_tables (fst s) dst_table src_table) with
    | Ok (dst, src, _) =>
        let '(r, dst) := without_fuel (Table_copy dst_index src src_index len) dst in
        (map_err (fun _ => TE_CopyOutOfBounds) r, (put_entity sa_tables dst_table dst (fst s), snd s))
    | _ => (Panic, s)
    end.

(** *** Instances *)

Definition handle_get_export {E} (s : StoreInner) (self : Handle) (name : Bytes) : res E (option Extern) :=
  instance ← panicking (try_resolve sa_instances s self); Ok (get_export instance name).
Definition handle_get_func_by_index {E} (s : StoreInner) (self : Handle) (index : Z) : res E (option Handle) :=
  instance ← panicking (try_resolve sa_instances s self); Ok (get_func instance index).
Definition handle_get_func {E} (s : StoreInner) (self : Handle) (name : Bytes) : res E (option Handle) :=
  (fun external => external ≫= into_func) <$> handle_get_export s self name.
Definition handle_get_global {E} (s : StoreInner) (self : Handle) (name : Bytes) : res E (option Handle) :=
  (fun external => external ≫= into_global) <$> handle_get_export s self name.
Definition handle_get_table {E} (s : StoreInner) (self : Handle) (name : Bytes) : res E (option Handle) :=
  (fun external => external ≫= into_table) <$> handle_get_export s self name.
Definition handle_get_memory {E} (s : StoreInner) (self : Handle) (name : Bytes) : res E (option Handle) :=
  (fun external => external ≫= into_memory) <$> handle_get_export s self name.
(** [exports] without its order, which is not specified. *)
Definition handle_exports {E} (s : StoreInner) (self : Handle) : res E (gmap Bytes Extern) :=
  ie_exports <$> panicking (try_resolve sa_instances s self).
End Handles.

(** ** The host's part of a store *)

(** The functions around which the hook runs. *)
Inductive CallHook : Type := CallingWasm | ReturningFromWasm | CallingHost | ReturningFromHost.
Inductive CallHooks : Type := CallHooks_Call | CallHooks_Ignore.

Record HostFuncTrampolineEntity (Tr : Type) : Type := { hft_ty : FuncType; hft_trampoline : Tr }.
Arguments hft_ty {Tr} _.
Arguments hft_trampoline {Tr} _.

Section Store.
Context {T : Target} {Alloc : Allocator} {L : Type} {RL : ResourceLimiter L}.
(** Host functions [Tr], the host's data [D], its hook [H] and the shared engine. *)
Context {Tr D H Eng X : Type} {HE : HeaderEngine Eng}.
Context {Sf : SizeOf FuncEntity} {Str : SizeOf Tr}.

Record Store_ : Type := {
  sto_pruned : PrunedStore L;
  sto_engine_id : Z;
  sto_engine : Eng;
  sto_trampolines : Arena Tr;
  sto_call_hook : option H;
  sto_data : D
}.
Notation SM := (M Store_).

Definition set_sto_pruned v (s : Store_) : Store_ := {| sto_pruned := v; sto_engine_id := sto_engine_id s;
  sto_engine := sto_engine s; sto_trampolines := sto_trampolines s; sto_call_hook := sto_call_hook s;
  sto_data := sto_data s |}.
Definition set_sto_engine v (s : Store_) : Store_ := {| sto_pruned := sto_pruned s; sto_engine_id := sto_engine_id s;
  sto_engine := v; sto_trampolines := sto_trampolines s; sto_call_hook := sto_call_hook s;
  sto_data := sto_data s |}.
Definition set_sto_trampolines v (s : Store_) : Store_ := {| sto_pruned := sto_pruned s; sto_engine_id := sto_engine_id s;
  sto_engine := sto_engine s; sto_trampolines := v; sto_call_hook := sto_call_hook s;
  sto_data := sto_data s |}.
Definition set_sto_host hook data (s : Store_) : Store_ := {| sto_pruned := sto_pruned s;
  sto_engine_id := sto_engine_id s; sto_engine := sto_engine s; sto_trampolines := sto_trampolines s;
  sto_call_hook := hook; sto_data := data |}.
Definition sto_inner (s : Store_) : StoreInner := fst (sto_pruned s).
Definition set_sto_inner v (s : Store_) : Store_ := set_sto_pruned (v, snd (sto_pruned s)) s.

Definition on_sto_inner {E A} (m : M StoreInner Empty_set A) : SM E A :=
  zoom sto_inner set_sto_inner (fun e : Empty_set => match e with end) m.
Definition on_sto_engine {E A} (m : M Eng Empty_set A) : SM E A :=
  zoom sto_engine set_sto_engine (fun e : Empty_set => match e with end) m.

Definition Store_get_fuel (self : Store_) : res FuelError Z := fst (get_fuel (si_fuel (sto_inner self))).
Definition Store_set_fuel (fuel : Z) : SM FuelError unit :=
  zoom (fun s => si_fuel (sto_inner s)) (fun f s => set_sto_inner (set_si_fuel f (sto_inner s)) s) id (set_fuel fuel).

(** *** Host functions of a store *)

#[local] Existing Instance key_usize.

Definition alloc_trampoline {E} (value : Tr) : SM E Trampoline := fun self =>
  match Arena_alloc (Key := Z) value (sto_trampolines self) with
  | (Ok key, a) => (Ok key, set_sto_trampolines a self)
  | (_, a) => (Panic, set_sto_trampolines a self)
  end.
Definition resolve_trampoline (self : Store_) (key : Trampoline) : res InternalStoreError Tr :=
  map_err (fun _ => EntityNotFound) (Arena_get (sto_trampolines self) key).

(** [required_cells_for_tys]; too many cells are a panic. *)
Definition cells_or_panic {E} (tys : list ValType) : res E Z :=
  match required_cells_for_tys tys with Ok n => Ok n | _ => Panic end.
Definition HostFuncEntity_new {E} (ty : FuncType) (func : Trampoline) : SM E HostFuncEntity :=
  params ← lift (FuncType_params ty);
  len_param_cells ← lift (cells_or_panic params);
  results ← lift (FuncType_results ty);
  len_result_cells ← lift (cells_or_panic results);
  ty ← on_sto_engine (engine_alloc_func_type ty);
  mret {| hf_len_param_cells := len_param_cells; hf_len_result_cells := len_result_cells; hf_ty := ty;
          hf_trampoline := func |}.

(** [Func::new] and [Func::wrap]: a host function of this store. *)
Definition Func_new {E} (host_func : HostFuncTrampolineEntity Tr) : SM E Handle :=
  func ← alloc_trampoline (hft_trampoline host_func);
  entity ← HostFuncEntity_new (hft_ty host_func) func;
  on_sto_inner (alloc_entity sa_funcs (FuncEntity_Host entity)).

(** *** Calls out of the executor *)

Variable hook_call : CallHook -> M (H * D) X unit.
Variable trampoline_call : Tr -> option Inst -> InOutParams -> SM X (list Cell).

Definition invoke_call_hook (call_type : CallHook) : SM X unit := fun self =>
  match sto_call_hook self with
  | None => (Ok tt, self)
  | Some call_hook =>
      let '(r, (call_hook, data)) := hook_call call_type (call_hook, sto_data self) in
      (r, set_sto_host (Some call_hook) data self)
  end.

Definition Store_call_host_func (trampoline : Trampoline) (instance : option Inst) (inout : InOutParams) :
    SM (StoreError X) (list Cell) :=
  self ← get_st;
  trampoline ← lift (map_err StoreError_Internal (resolve_trampoline self trampoline));
  zoom id (fun s _ => s) StoreError_External (trampoline_call trampoline instance inout).

Definition with_hooks (call_hooks : CallHooks) (hook : CallHook) : SM (StoreError X) unit :=
  match call_hooks with
  | CallHooks_Call => zoom id (fun s _ => s) StoreError_External (invoke_call_hook hook)
  | CallHooks_Ignore => mret tt
  end.
(** [PrunedStore::call_host_func]; the host's type is always that of the store. *)
Definition PrunedStore_call_host_func (trampoline : Trampoline) (instance : option Inst) (inout : InOutParams)
    (call_hooks : CallHooks) : SM (StoreError X) (list Cell) :=
  with_hooks call_hooks CallingHost;;
  cells ← Store_call_host_func trampoline instance inout;
  with_hooks call_hooks ReturningFromHost;;
  mret cells.

(** [WasmFuncCall::execute] around [execute_until_done]. *)
Definition execute_with_hooks {A} (execute_until_done : SM X (res X A)) : SM X A :=
  invoke_call_hook CallingWasm;;
  outcome ← execute_until_done;
  invoke_call_hook ReturningFromWasm;;
  lift outcome.

(** *** Calls into functions *)

(** The closure of [HostFuncTrampolineEntity::new] around [func], which gets the
    parameters and the default results and returns the results it has written. *)
Definition dynamic_trampoline (ty : FuncType) (func : list Val -> list Val -> SM X (list Val)) (inout : InOutParams) :
    SM X (list Cell) :=
  params ← lift (FuncType_params ty);
  results ← lift (FuncType_results ty);
  self ← get_st;
  let store_id := si_id (sto_inner self) in
  params ← lift (match decode_params_into inout store_id (Val_default_for_ty <$> params) with
                 | Ok params => Ok params | _ => Panic end);
  results ← func params (Val_default_for_ty <$> results);
  lift (match encode_results inout store_id results with Ok (cells, _) => Ok cells | _ => Panic end).

Variable resolve_func_type : Eng -> Z -> FuncType.

(** The outputs are the state. *)
Definition verify_and_prepare_inputs_outputs (self : Store_) (func : Handle) (inputs : list Val) :
    M (list Val) FuncError unit :=
  fn_type ← lift (FuncEntity_ty_dedup <$> panicking (try_resolve sa_funcs (sto_inner self) func));
  let func_type := resolve_func_type (sto_engine self) fn_type in
  lift (match_params func_type (Val_ty <$> inputs));;
  prepare_outputs func_type.

Definition TypedFunc_new (self : Store_) (func : Handle) (params results : list ValType) : res FuncError Handle :=
  func_type ← Func_ty (resolve_func_type (sto_engine self)) (sto_inner self) func;
  match_params func_type params;;
  match_results func_type results;;
  Ok func.
Definition handle_get_typed_func (self : Store_) (instance : Handle) (name : Bytes) (params results : list ValType) :
    res FuncError Handle :=
  func ← handle_get_func (sto_inner self) instance name;
  func ← ok_or func ExportedFuncNotFound;
  TypedFunc_new self func params results.
End Store.
Arguments Store_ L Tr D H Eng : clear implicits.

(** ** Function types of an engine

    What the stores of an engine rely on: a new key leads to its type and a key that
    is known keeps its type.  [EngineFuncTypes] shows it of [EngineInner]. *)
Class FuncTypes (Eng : Type) {HE : HeaderEngine Eng} (resolve : Eng -> Z -> FuncType) : Type := {
  ft_ok : Eng -> Prop;
  ft_known : Eng -> Z -> Prop;
  ft_alloc ty e r e' : ft_ok e -> engine_alloc_func_type ty e = (r, e') ->
    ft_ok e' /\ (forall k, ft_known e k -> ft_known e' k /\ resolve e' k = resolve e k) /\
    (forall k, r = Ok k -> ft_known e' k /\ resolve e' k = ty)
}.
