(* ===== verification/HostSpec.v ===== *)
(** * Host functions and values

    What a store keeps when a host function is added to it, what a host function sees
    of its caller, and reading back what was written through a handle. *)

From Stdlib Require Import ZArith Lia.
From stdpp Require Import base option decidable numbers gmap list.
From S2P Require Import Prelude Value Fuel Limiter MemoryType Memory Table Locals Cells ExecStack Calls Arena Store InitExpr Header CodeMap Keeps Modules Engine Instantiate InstantiateInv Host.
Local Open Scope Z_scope.

#[local] Existing Instance key_usize.

#[local] Instance key_usize_laws : ArenaKeyLaws Z.
Proof. split; [by intros n k Hn [= <-]|done]. Qed.

(** ** The engine's function types *)

Section EngineFuncTypes.
Context {C : Compiler} {T : Target} {Alloc : Allocator} {Sf : SizeOf FuncType}.
Context {TranslatorAllocs ValidatorAllocs : Type}.
Notation EngineInner := (EngineInner (TranslatorAllocs := TranslatorAllocs) (ValidatorAllocs := ValidatorAllocs)).

Definition engine_key (e : EngineInner) (k : Z) : EngineOwned RawHandle :=
  EngineId_wrap (ftr_engine_id (en_func_types e)) {| rh_raw := k |}.
Definition engine_resolve (e : EngineInner) (k : Z) : FuncType :=
  match EngineInner_resolve_func_type (E := Empty_set) e (engine_key e k) with
  | Ok ty => ty
  | _ => {| ft_inner := FT_Inline 0 0 [] |}
  end.

Lemma ftr_resolve_key e k : EngineInner_resolve_func_type (E := Empty_set) e (engine_key e k) =
  match DedupArena_get (ftr_func_types (en_func_types e)) {| rh_raw := k |} with Ok ty => Ok ty | _ => Panic end.
Proof.
  unfold EngineInner_resolve_func_type, ftr_resolve_func_type, ftr_unwrap_or_panic, EngineId_unwrap, engine_key. cbn.
  by rewrite Z.eqb_refl.
Qed.

#[export] Program Instance EngineInner_FuncTypes : FuncTypes EngineInner engine_resolve := {|
  ft_ok e := dedup_ok (ftr_func_types (en_func_types e));
  ft_known e k := is_ok (DedupArena_get (ftr_func_types (en_func_types e)) {| rh_raw := k |}) = true
|}.
Next Obligation.
  intros ty e r e' Hd Ha. cbn in Ha. unfold EngineInner_alloc_func_type, on_func_types in Ha. rewrite bind_run in Ha.
  unfold zoom in Ha. unfold ftr_alloc_func_type in Ha.
  destruct (DedupArena_alloc ty (ftr_func_types (en_func_types e))) as [rk d] eqn:E.
  destruct (DedupArena_alloc_spec _ _ _ _ Hd E) as [Hd' Hr].
  assert (ftr_func_types (en_func_types e') = d /\
    match rk with Ok k => r = Ok (rh_raw k) | _ => forall k, r <> Ok k end) as [Ed Ek].
  { destruct rk as [k|er|]; cbn in Ha; injection Ha as <- <-; by split. }
  split; [by rewrite Ed|]. unfold engine_resolve.
  assert (forall k x, DedupArena_get (ftr_func_types (en_func_types e)) {| rh_raw := k |} = Ok x ->
    DedupArena_get d {| rh_raw := k |} = Ok x) as Hold.
  { intros k x. unfold DedupArena_get. rewrite !Arena_get_Ok. destruct rk as [kk|er|]; [|by subst d|done].
    destruct Hr as (_ & _ & Hsame & _ & Hnew). destruct (item2key (ftr_func_types (en_func_types e)) !! ty) as [k0|] eqn:E0.
    - by destruct (Hsame k0 eq_refl) as [_ ->].
    - rewrite (Hnew eq_refl). intros Hl. by apply lookup_app_l_Some. }
  split.
  - intros k Hk. rewrite !ftr_resolve_key, Ed.
    destruct (DedupArena_get (ftr_func_types (en_func_types e)) {| rh_raw := k |}) as [x|er|] eqn:Ex; [|done..].
    rewrite (Hold _ _ Ex). done.
  - intros k ->. destruct rk as [kk|er|]; [|by destruct (Ek k)..]. injection Ek as ->.
    rewrite ftr_resolve_key, Ed. destruct Hr as (_ & Hg & _). destruct kk as [kk]. cbn [rh_raw].
    unfold DedupArena_get. by rewrite Hg.
Qed.
End EngineFuncTypes.

(** ** Adding a host function *)

Section Host.
Context {T : Target} {Alloc : Allocator} {L : Type} {RL : ResourceLimiter L}.
Context {Tr D H Eng X : Type} {HE : HeaderEngine Eng}.
Context {Sf : SizeOf FuncEntity} {Str : SizeOf Tr}.
Context (resolve_func_type : Eng -> Z -> FuncType) {FT : FuncTypes Eng resolve_func_type}.
Notation Store_ := (Store_ L Tr D H Eng).
Implicit Type s : Store_.

(** [s'] is [s] with more functions, more trampolines and more function types. *)
Definition host_le s s' : Prop :=
  sto_engine_id s' = sto_engine_id s /\ (ft_ok (sto_engine s) -> ft_ok (sto_engine s')) /\
  (forall k, ft_ok (sto_engine s) -> ft_known (sto_engine s) k ->
     ft_known (sto_engine s') k /\ resolve_func_type (sto_engine s') k = resolve_func_type (sto_engine s) k) /\
  (exists a, sto_inner s' = sa_set sa_funcs a (sto_inner s) /\ items (si_funcs (sto_inner s)) `prefix_of` items a) /\
  items (sto_trampolines s) `prefix_of` items (sto_trampolines s').

#[export] Instance host_le_preorder : PreOrder host_le.
Proof.
  split.
  - intros s. split_and!; try done. exists (si_funcs (sto_inner s)). split; [by destruct (sto_inner s)|done].
  - intros s1 s2 s3 (I1 & O1 & K1 & (a1 & E1 & P1) & T1) (I2 & O2 & K2 & (a2 & E2 & P2) & T2). split_and!.
    + congruence.
    + auto.
    + intros k Ho Hk. destruct (K1 k Ho Hk) as [Hk' E]. destruct (K2 k (O1 Ho) Hk') as [Hk'' E']. split; [done|congruence].
    + exists a2. rewrite E2, E1 in *. split; [done|]. cbn in P2. by etrans.
    + by etrans.
Qed.

(** [h] is a function of the store that calls [hf] and has its type. *)
Definition host_func_at s (h : Handle) (hf : HostFuncTrampolineEntity Tr) : Prop := exists entity,
  try_resolve sa_funcs (sto_inner s) h = Ok (FuncEntity_Host entity) /\
  resolve_trampoline s (hf_trampoline entity) = Ok (hft_trampoline hf) /\
  ft_known (sto_engine s) (hf_ty entity) /\ resolve_func_type (sto_engine s) (hf_ty entity) = hft_ty hf.

Lemma arena_get_prefix {A K} `{ArenaKey K} (a a' : Arena A) (k : K) x :
  items a `prefix_of` items a' -> Arena_get a k = Ok x -> Arena_get a' k = Ok x.
Proof. rewrite !Arena_get_Ok. intros Hp Hl. by eapply prefix_lookup_Some. Qed.

Lemma resolve_funcs_prefix (i : StoreInner) a h x : items (si_funcs i) `prefix_of` items a ->
  try_resolve sa_funcs i h = Ok x -> try_resolve sa_funcs (sa_set sa_funcs a i) h = Ok x.
Proof.
  intros Hp. unfold try_resolve, resolve, unwrap_stored. cbn [sa_get sa_funcs si_id sa_set si_funcs].
  destruct (StoreId_unwrap _ _) as [idx|]; cbn; [|done].
  destruct (Arena_get (si_funcs i) idx) as [y|e|] eqn:Ey; [|done..]. by rewrite (arena_get_prefix _ _ _ _ Hp Ey).
Qed.

Lemma host_func_at_mono s s' h hf : ft_ok (sto_engine s) -> host_le s s' -> host_func_at s h hf -> host_func_at s' h hf.
Proof.
  intros Ho (_ & _ & Hk & (a & Ei & Ha) & Ht) (entity & E1 & E2 & E3 & E4). exists entity.
  destruct (Hk _ Ho E3) as [Hk' Hr]. split_and!; [| |done|congruence].
  - rewrite Ei. by apply resolve_funcs_prefix.
  - unfold resolve_trampoline in *. destruct (Arena_get (sto_trampolines s) (hf_trampoline entity)) as [y|e|] eqn:Ey; [|done..].
    by rewrite (arena_get_prefix _ _ _ _ Ht Ey).
Qed.

Lemma Arena_alloc_prefix {A K} `{ArenaKey K, SizeOf A} (x : A) (a : Arena A) (r : res ArenaError K) a' :
  Arena_alloc x a = (r, a') -> items a `prefix_of` items a'.
Proof.
  unfold Arena_alloc. rewrite bind_get_st, bind_lift. destruct (next_key a); [|by intros [= <- <-]..].
  rewrite bind_run. destruct (reserve_items 1 a) as [r1 a1] eqn:Er.
  apply reserve_items_spec in Er as [Hi [->|[-> ->]]]; [|by intros [= <- <-]].
  intros [= <- <-]. cbn. rewrite Hi. by apply prefix_app_r.
Qed.

Lemma alloc_trampoline_run {E} value s r s' : alloc_trampoline (E := E) value s = (r, s') ->
  host_le s s' /\ sto_engine s' = sto_engine s /\ forall k, r = Ok k -> resolve_trampoline s' k = Ok value.
Proof.
  unfold alloc_trampoline. destruct (Arena_alloc value (sto_trampolines s)) as [ra a] eqn:E1.
  assert (items (sto_trampolines s) `prefix_of` items a) as Hp by by eapply Arena_alloc_prefix.
  assert (host_le s (set_sto_trampolines a s)) as Hle.
  { split_and!; try done. exists (si_funcs (sto_inner s)). split; [by destruct s as [[[]]]|done]. }
  apply Arena_alloc_spec in E1. destruct ra as [k|e|]; intros [= <- <-]; (split_and!; [done|done|]); [|done..].
  intros k' [= <-]. unfold resolve_trampoline. cbn. destruct E1 as (_ & -> & _). done.
Qed.

Lemma HostFuncEntity_new_run {E} ty func s r s' : ft_ok (sto_engine s) ->
  HostFuncEntity_new (E := E) ty func s = (r, s') ->
  host_le s s' /\ sto_trampolines s' = sto_trampolines s /\ sto_inner s' = sto_inner s /\
  forall entity, r = Ok entity -> hf_trampoline entity = func /\ ft_known (sto_engine s') (hf_ty entity) /\
    resolve_func_type (sto_engine s') (hf_ty entity) = ty.
Proof.
  intros Ho. unfold HostFuncEntity_new. rewrite !bind_lift.
  destruct (FuncType_params ty) as [params|e|]; [|by intros [= <- <-]..].
  rewrite bind_lift. destruct (cells_or_panic params) as [np|e|]; [|by intros [= <- <-]..].
  rewrite bind_lift. destruct (FuncType_results ty) as [results|e|]; [|by intros [= <- <-]..].
  rewrite bind_lift. destruct (cells_or_panic results) as [nr|e|]; [|by intros [= <- <-]..].
  rewrite bind_run. unfold on_sto_engine, zoom.
  destruct (engine_alloc_func_type ty (sto_engine s)) as [rk e'] eqn:Ea.
  destruct (ft_alloc ty _ _ _ Ho Ea) as (Ho' & Hold & Hnew).
  assert (host_le s (set_sto_engine e' s)) as Hle.
  { split_and!; try done; [intros k _; apply Hold|]. exists (si_funcs (sto_inner s)).
    split; [by destruct s as [[[]]]|done]. }
  destruct rk as [k|[]|]; intros [= <- <-]; (split_and!; [done..|]); [|done].
  intros entity [= <-]. destruct (Hnew k eq_refl). by split_and!.
Qed.

Lemma alloc_func_run {E} entity s r s' : on_sto_inner (E := E) (alloc_entity sa_funcs entity) s = (r, s') ->
  host_le s s' /\ sto_engine s' = sto_engine s /\ sto_trampolines s' = sto_trampolines s /\
  forall h, r = Ok h -> try_resolve sa_funcs (sto_inner s') h = Ok entity.
Proof.
  unfold on_sto_inner, zoom, alloc_entity.
  destruct (Arena_alloc entity (sa_get sa_funcs (sto_inner s))) as [ra a] eqn:Ea.
  assert (items (si_funcs (sto_inner s)) `prefix_of` items a) as Hp
    by exact (Arena_alloc_prefix _ _ _ _ Ea).
  assert (host_le s (set_sto_inner (sa_set sa_funcs a (sto_inner s)) s)) as Hle.
  { split_and!; try done. by exists a. }
  apply Arena_alloc_spec in Ea. destruct ra as [k|e|]; intros [= <- <-]; (split_and!; [done..|]); [|done..].
  intros h [= <-]. unfold try_resolve, resolve, unwrap_stored, StoreId_unwrap, StoreId_wrap. cbn.
  rewrite bool_decide_true by done. cbn. destruct Ea as (_ & -> & _). done.
Qed.

(** Every failure is a panic. *)
Definition never_fails {S E A} (m : M S E A) : Prop := forall st e, (m st).1 <> Err e.

Lemma never_fails_bind {S E A B} (m : M S E A) (k : A -> M S E B) : never_fails m -> (forall a, never_fails (k a)) ->
  never_fails (m ≫= k).
Proof.
  intros Hm Hk st e. rewrite bind_run. specialize (Hm st). destruct (m st) as [[a|x|] s1]; cbn in *;
    [apply Hk|intros [= ->]; by eapply Hm|done].
Qed.
Lemma never_fails_lift {S E A} (r : res E A) : (forall e, r <> Err e) -> never_fails (S := S) (lift r).
Proof. intros Hr st e. apply Hr. Qed.
Lemma never_fails_zoom {S S' E A} get set conv (m : M S Empty_set A) : never_fails (zoom (S := S') (E := E) get set conv m).
Proof. intros st e. unfold zoom. destruct (m (get st)) as [[a|[]|] t]; done. Qed.

Lemma FuncType_params_no_error {E} ty e : FuncType_params (E := E) ty <> Err e.
Proof. unfold FuncType_params, FuncTypeInner_params, expect. by destruct (ft_inner ty); destruct (get_to _ _). Qed.
Lemma FuncType_results_no_error {E} ty e : FuncType_results (E := E) ty <> Err e.
Proof.
  unfold FuncType_results, FuncTypeInner_results, expect. destruct (ft_inner ty); cbn;
    repeat (match goal with |- context [match ?x with _ => _ end] => destruct x end; cbn); done.
Qed.

Lemma Func_new_no_error {E} hf s r s' : Func_new (E := E) hf s = (r, s') -> forall e, r <> Err e.
Proof.
  assert (never_fails (Func_new (E := E) (L := L) (D := D) (H := H) hf)) as Hn.
  { apply never_fails_bind.
    - intros st e. unfold alloc_trampoline. by destruct (Arena_alloc _ _) as [[k|x|] a].
    - intros k. apply never_fails_bind; [|intros entity; apply never_fails_zoom].
      unfold HostFuncEntity_new. repeat (apply never_fails_bind; [|intros ?]);
        [apply never_fails_lift; intros e..|apply never_fails_zoom|done].
      + apply FuncType_params_no_error.
      + unfold cells_or_panic. by destruct (required_cells_for_tys _).
      + apply FuncType_results_no_error.
      + unfold cells_or_panic. by destruct (required_cells_for_tys _). }
  intros E1 e. specialize (Hn s e). by rewrite E1 in Hn.
Qed.

Lemma Func_new_run {E} hf s r s' : ft_ok (sto_engine s) -> Func_new (E := E) hf s = (r, s') ->
  host_le s s' /\ forall h, r = Ok h -> host_func_at s' h hf.
Proof.
  intros Ho. unfold Func_new. rewrite bind_run.
  destruct (alloc_trampoline (hft_trampoline hf) s) as [rt s1] eqn:E1.
  apply alloc_trampoline_run in E1 as (L1 & Ee & Hk). destruct rt as [k|e|]; [|by intros [= <- <-]..].
  rewrite bind_run. destruct (HostFuncEntity_new (hft_ty hf) k s1) as [re s2] eqn:E2.
  apply HostFuncEntity_new_run in E2 as (L2 & Et & Ei & He); [|by rewrite Ee].
  destruct re as [entity|e|]; [|intros [= <- <-]; split; [by etrans|done]..].
  intros E3. apply alloc_func_run in E3 as (L3 & Ee3 & Et3 & Hh).
  split; [etrans; [exact L1|]; by etrans|]. intros h ->. destruct (He entity eq_refl) as (Htr & Hkn & Hty).
  exists entity. rewrite Ee3. split_and!; [by apply Hh| |done|done].
  unfold resolve_trampoline. rewrite Et3, Et, Htr. by apply Hk.
Qed.
End Host.

(** ** What a host function sees *)

Section Trampoline.
Context {L Tr D H Eng X : Type}.
Notation Store_ := (Store_ L Tr D H Eng).
Implicit Type s : Store_.
Variable func : list Val -> list Val -> M Store_ X (list Val).

Lemma list_inserts_start {A} (k l : list A) : (length k <= length l)%nat -> list_inserts 0 k l = k ++ drop (length k) l.
Proof.
  intros Hl. rewrite <-(take_drop (length k) l) at 1. by rewrite list_inserts_0_r by (rewrite length_take; lia).
Qed.

Lemma decode_params_run store ty inout args params : FuncType_params (E := X) ty = Ok params ->
  Forall (Val_ok store) args -> Val_ty <$> args = params ->
  0 <= io_len_params inout ->
  get_to (io_len_params inout) (io_cells inout) = Some (Vals_cells args) ->
  decode_params_into inout store (Val_default_for_ty <$> params) = Ok args.
Proof.
  intros _ Hok Ht _ Hg. unfold decode_params_into, InOutParams_params. rewrite Hg. cbn.
  rewrite <-(app_nil_r (Vals_cells args)), lift_Vals_run; [done|done|].
  rewrite <-list_fmap_compose, <-Ht, <-list_fmap_compose.
  apply list_fmap_ext. intros i v _. cbn. by destruct v.
Qed.

(** C18: A host function made of a type and a closure over values, called through its
    trampoline: if the cells hold the encoding of arguments of the parameter types and
    of this store, the closure gets exactly these arguments and the default values of
    the result types; its error is passed on; and if it leaves values of this store
    whose cells fit, the window starts with their encoding and is otherwise as it was. *)
Theorem dynamic_trampoline_spec ty params results inout args s :
  FuncType_params (E := X) ty = Ok params -> FuncType_results (E := X) ty = Ok results ->
  Forall (Val_ok (si_id (sto_inner s))) args -> Val_ty <$> args = params -> 0 <= io_len_params inout ->
  get_to (io_len_params inout) (io_cells inout) = Some (Vals_cells args) ->
  let run := dynamic_trampoline ty func inout s in
  let called := func args (Val_default_for_ty <$> results) s in
  run.2 = called.2 /\
  (forall e, called.1 = Err e -> run.1 = Err e) /\
  (forall values, called.1 = Ok values ->
     (Forall (Val_ok (si_id (sto_inner s))) values ->
      Z.of_nat (length (Vals_cells values)) <= io_len_results inout <= Z.of_nat (length (io_cells inout)) ->
      run.1 = Ok (set_span 0 (Vals_cells values) (io_cells inout))) /\
     (forall v before after, values = before ++ v :: after -> Forall (Val_ok (si_id (sto_inner s))) before ->
      Val_foreign (si_id (sto_inner s)) v -> run.1 = Panic)).
Proof.
  intros Hp Hr Hok Ht Hl Hg. cbv zeta. unfold dynamic_trampoline.
  rewrite Hp, bind_lift, Hr, bind_lift, bind_get_st, (decode_params_run _ ty _ args _ Hp Hok Ht Hl Hg), bind_lift, bind_run.
  destruct (func args (Val_default_for_ty <$> results) s) as [[values|e|] s1]; cbn;
    [|split; [done|]; split; [by intros ? [= ->]|done]..].
  split; [done|]. split; [done|]. intros ? [= <-]. split.
  - intros Hv Hn. unfold encode_results.
    unfold get_to. rewrite (proj2 (Z.leb_le _ _)) by lia. cbn [expect mbind res_bind].
    rewrite lower_Vals_run by done. unfold write_cells. cbn [cm_written cm_rest].
    rewrite decide_True by (rewrite length_take; lia). cbn. f_equal. unfold set_span. cbn.
    change (Z.to_nat 0) with 0%nat. rewrite !list_inserts_start by (rewrite ?length_app, ?length_drop, ?length_take; lia).
    rewrite length_app, length_drop, length_take, <-app_assoc. f_equal.
    transitivity (drop (length (Vals_cells values)) (take (Z.to_nat (io_len_results inout)) (io_cells inout) ++
      drop (Z.to_nat (io_len_results inout)) (io_cells inout))); [|by rewrite take_drop].
    rewrite drop_app_le by (rewrite length_take; lia). f_equal. f_equal. lia.
  - intros v before after -> Hb Hf. unfold encode_results.
    destruct (expect (get_to (io_len_results inout) (io_cells inout))) as [cells|e|]; cbn; [|done..].
    rewrite lower_Vals_app, bind_run, lower_Vals_run by done.
    destruct (write_cells (Vals_cells before) _) as [[[]|e|] w]; [|done..].
    cbn [lower_Vals]. by rewrite bind_run, lower_foreign.
Qed.
End Trampoline.

(** ** Globals through their handles *)

Lemma Nullable_parts store r : nullable_ok store r -> exists raw,
  Nullable_unwrap_raw r store = Some raw /\ Nullable_from_raw_parts (RawRef_from_RawVal (RawVal_from_RawRef raw)) store = r.
Proof.
  intros Hr. destruct r as [[st raw]|]; cbn in *.
  - destruct Hr as [-> Hr]. unfold StoreId_unwrap. cbn. rewrite bool_decide_true by done. eexists. split; [done|].
    unfold Nullable_from_raw_parts, RawRef_from_RawVal, RawVal_from_RawRef. cbn [ref_bits].
    rewrite RawVal_into_from by (change (in_u 32 raw); unfold in_u; lia). by rewrite (proj2 (Z.eqb_neq _ _)) by lia.
  - eexists. split; [done|]. by vm_compute.
Qed.

Lemma Val_parts store v : Val_ok store v -> exists raw,
  Val_unwrap_raw_val v store = Some raw /\ Val_from_raw_parts raw (Val_ty v) store = v.
Proof.
  intros Hv. destruct v as [v|v|v|v|v|r|r]; cbn [Val_unwrap_raw_val Val_ty Val_from_raw_parts].
  1-4: eexists; split; [reflexivity|]; f_equal; by apply RawVal_into_from.
  - eexists; split; [reflexivity|]. f_equal. by apply V128_RawVal_roundtrip.
  - destruct (Nullable_parts _ _ Hv) as (raw & -> & E). eexists. split; [reflexivity|]. by rewrite E.
  - destruct (Nullable_parts _ _ Hv) as (raw & -> & E). eexists. split; [reflexivity|]. by rewrite E.
Qed.

Lemma Val_foreign_parts store v : Val_foreign store v -> Val_unwrap_raw_val v store = None.
Proof.
  destruct v as [v|v|v|v|v|[r|]|[r|]]; cbn; try done; intros Hr; unfold StoreId_unwrap; by rewrite bool_decide_false.
Qed.

Section Entities.
Context {T : Target} {Alloc : Allocator} {L : Type}.
Implicit Type s : PrunedStore L.

(** Two handles of the store to the same entity. *)
Definition same_entity (i : StoreInner) (h h' : Handle) : bool :=
  bool_decide (st_store h' = si_id i /\ Z.to_nat (into_usize (st_value h')) = Z.to_nat (into_usize (st_value h))).

Lemma resolve_put {Entity} (sa : StoreArena Entity) `{!LawfulArena sa} (i : StoreInner) h x y h' :
  try_resolve sa i h = Ok x ->
  try_resolve sa (put_entity sa h y i) h' = if same_entity i h h' then Ok y else try_resolve sa i h'.
Proof.
  unfold try_resolve, resolve, unwrap_stored, StoreId_unwrap, put_entity, same_entity, Arena_get, Arena_update.
  rewrite la_id, la_get_set. case_bool_decide as Eh; [|done]. cbn [ok_or mbind res_bind items st_value].
  destruct (items (sa_get sa i) !! Z.to_nat (into_usize (st_value h))) as [x'|] eqn:El; [|done]. intros _.
  destruct (decide (st_store h' = si_id i)) as [Es|Es].
  - rewrite !(bool_decide_true (st_store h' = si_id i)) by done. cbn [ok_or mbind res_bind].
    case_bool_decide as Ek.
    + destruct Ek as [_ Ek]. rewrite Ek, list_lookup_insert_eq; [done|]. by eapply lookup_lt_Some.
    + rewrite list_lookup_insert_ne; [done|]. intros E. by apply Ek.
  - rewrite !(bool_decide_false (st_store h' = si_id i)) by done. rewrite bool_decide_false by (by intros [? _]). done.
Qed.

Lemma put_same {Entity} (sa : StoreArena Entity) (i : StoreInner) h x :
  sa_set sa (sa_get sa i) i = i -> try_resolve sa i h = Ok x -> put_entity sa h x i = i.
Proof.
  intros Hset. unfold try_resolve, resolve, unwrap_stored, StoreId_unwrap, put_entity, Arena_update, Arena_get.
  case_bool_decide; [|done]. cbn [ok_or mbind res_bind].
  destruct (items (sa_get sa i) !! Z.to_nat (into_usize (st_value h))) as [x'|] eqn:El; [|done].
  cbn [ok_or map_err]. intros [= ->]. rewrite (list_insert_id _ _ _ El).
  transitivity (sa_set sa (sa_get sa i) i); [|exact Hset]. by destruct (sa_get sa i).
Qed.

Lemma try_resolve_mut_eq {Entity} (sa : StoreArena Entity) (i : StoreInner) h : try_resolve_mut sa i h = try_resolve sa i h.
Proof. done. Qed.

(** A global that is set to a value of its store is read back as exactly this
    value through every handle to it, and no other global changes; setting it fails,
    and changes nothing, when it is immutable or of another type, and panics for a
    value of another store. *)
Theorem global_set_get g global v s : try_resolve sa_globals s.1 g = Ok global ->
  let run := handle_Global_set g v s in
  (Val_foreign (si_id s.1) v -> run = (Panic, s)) /\
  (Val_ok (si_id s.1) v ->
   if Mutability_is_mut (gt_mutability (g_ty global)) then
     if decide (gt_content (g_ty global) = Val_ty v) then
       run.1 = Ok tt /\ forall h, handle_Global_get (E := GlobalError) run.2.1 h =
         if same_entity s.1 g h then Ok v else handle_Global_get s.1 h
     else run = (Err GlobalError_TypeMismatch, s)
   else run = (Err ImmutableWrite, s)).
Proof.
  intros Hg. cbv zeta. unfold handle_Global_set. rewrite bind_get_st. split.
  { intros Hf. by rewrite Val_foreign_parts. }
  intros Hv. destruct (Val_parts _ _ Hv) as (raw & -> & Hraw). cbn [expect]. rewrite bind_lift.
  unfold on_entity. rewrite try_resolve_mut_eq, Hg. cbn [panicking]. unfold CoreGlobal_set. rewrite bind_get_st.
  assert (put_entity sa_globals g global s.1 = s.1) as Hput by (apply put_same; [by destruct s.1|done]).
  destruct (Mutability_is_mut _); cbn [negb]; [|unfold fail; rewrite Hput; by destruct s].
  cbn [typed_ty typed_value]. case_bool_decide as Et; cbn [negb]; [rewrite decide_True by done|rewrite decide_False by done].
  - unfold put_st. cbn [fst snd]. split; [done|]. intros h. unfold handle_Global_get. rewrite (resolve_put sa_globals s.1 g global) by done.
    destruct (same_entity s.1 g h) eqn:Eh; [|done]. cbn -[Val_from_raw_parts]. by rewrite Et, Hraw.
  - unfold fail. rewrite Hput. by destruct s.
Qed.
End Entities.

(** ** The call hook *)

Section Hooks.
Context {L Tr D H Eng X : Type}.
Notation Store_ := (Store_ L Tr D H Eng).
Variable hook_call : CallHook -> M (H * D) X unit.
Variable trampoline_call : Tr -> option Inst -> InOutParams -> M Store_ X (list Cell).

(** After an error of a host function its return is not announced, after one of a
    WebAssembly function it is. *)
Lemma hooks_after_error t tr i io e s s1 s2 :
  invoke_call_hook hook_call CallingHost s = (Ok tt, s1) -> resolve_trampoline s1 t = Ok tr ->
  trampoline_call tr i io s1 = (Err e, s2) ->
  PrunedStore_call_host_func hook_call trampoline_call t i io CallHooks_Call s = (Err (StoreError_External e), s2) /\
  forall (execute : M Store_ X (res X unit)) w w1 w2, invoke_call_hook hook_call CallingWasm w = (Ok tt, w1) ->
    execute w1 = (Ok (Err e), w2) ->
    (execute_with_hooks hook_call execute w).2 = (invoke_call_hook hook_call ReturningFromWasm w2).2.
Proof.
  intros Hh Hr Ht. split.
  - unfold PrunedStore_call_host_func, with_hooks, zoom, id. rewrite bind_run, Hh. cbn.
    rewrite bind_run. unfold Store_call_host_func. rewrite bind_get_st, Hr. cbn [map_err]. rewrite bind_lift.
    unfold zoom, id. by rewrite Ht.
  - intros execute w w1 w2 Hw Hx. unfold execute_with_hooks. rewrite bind_run, Hw, bind_run, Hx, bind_run.
    by destruct (invoke_call_hook hook_call ReturningFromWasm w2) as [[[]|x|] w3].
Qed.
End Hooks.

(** ** Examples *)

Section Example.
#[local] Instance demo_target : Target := default_target.
#[local] Instance demo_alloc : Allocator := limit_allocator default_target 1000.
#[local] Instance demo_size : SizeOf CoreGlobal := 8.

(** A store with a mutable and an immutable global. *)
Definition demo_globals : PrunedStore StoreLimits :=
  let s := StoreInner_new 7 false Fuel.FuelCostsProvider_default in
  let s := (handle_Global_new (Val_I32 1) Mutability_Var s).2 in
  ((handle_Global_new (Val_I64 2) Mutability_Const s).2, None).
Definition demo_global (n : Z) : Handle := {| st_store := 7; st_value := {| rh_raw := n |} |}.

Lemma global_set_get_witness :
  (handle_Global_set (demo_global 1) (Val_I32 (-5)) demo_globals).1 = Ok tt /\
  handle_Global_get (E := GlobalError) (handle_Global_set (demo_global 1) (Val_I32 (-5)) demo_globals).2.1 (demo_global 1) =
    Ok (Val_I32 (-5)) /\
  handle_Global_get (E := GlobalError) (handle_Global_set (demo_global 1) (Val_I32 (-5)) demo_globals).2.1 (demo_global 2) =
    Ok (Val_I64 2).
Proof.
  destruct (global_set_get (demo_global 1) {| g_value := {| lo64 := 1; hi64 := 0 |};
    g_ty := {| gt_content := ValType_I32; gt_mutability := Mutability_Var |} |} (Val_I32 (-5)) demo_globals)
    as [_ H]; [vm_compute; reflexivity|].
  assert (Val_ok (si_id demo_globals.1) (Val_I32 (-5))) as Hv by (change (in_s 32 (-5)); unfold in_s; lia).
  destruct (H Hv) as [H1 H2]. split; [exact H1|]. split.
  - rewrite H2. vm_compute. reflexivity.
  - rewrite H2. vm_compute. reflexivity.
Defined.

(** A host function that adds its arguments. *)
Definition demo_add (args results : list Val) :
    M (Store_ StoreLimits Z unit unit unit) unit (list Val) :=
  match args with
  | [Val_I32 a; Val_I64 b] => mret [Val_I64 (a + b)]
  | _ => fail tt
  end.
Definition demo_add_store : Store_ StoreLimits Z unit unit unit := {|
  sto_pruned := demo_globals; sto_engine_id := 0; sto_engine := tt; sto_trampolines := Arena_new;
  sto_call_hook := None; sto_data := tt |}.

Lemma dynamic_trampoline_spec_witness :
  (dynamic_trampoline {| ft_inner := FT_Inline 2 1 [ValType_I32; ValType_I64; ValType_I64] |} demo_add
    {| io_cells := [4294967295; 3]; io_len_params := 2; io_len_results := 1 |} demo_add_store).1 = Ok [2; 3].
Proof.
  assert (Forall (Val_ok (si_id (sto_inner demo_add_store))) [Val_I32 (-1); Val_I64 3]) as Ha
    by (apply Forall_cons_2; [change (in_s 32 (-1)); unfold in_s; lia|];
      apply Forall_cons_2; [change (in_s 64 3); unfold in_s; lia|constructor]).
  destruct (dynamic_trampoline_spec demo_add {| ft_inner := FT_Inline 2 1 [ValType_I32; ValType_I64; ValType_I64] |}
    [ValType_I32; ValType_I64] [ValType_I64] {| io_cells := [4294967295; 3]; io_len_params := 2; io_len_results := 1 |}
    [Val_I32 (-1); Val_I64 3] demo_add_store) as (_ & _ & H).
  - vm_compute. reflexivity.
  - vm_compute. reflexivity.
  - exact Ha.
  - reflexivity.
  - cbn. lia.
  - vm_compute. reflexivity.
  - destruct (H [Val_I64 2]) as [H1 _]; [vm_compute; reflexivity|].
    rewrite H1; [vm_compute; reflexivity| |vm_compute; split; intros Hf; discriminate Hf].
    apply Forall_cons_2; [change (in_s 64 2); unfold in_s; lia|constructor].
Defined.
End Example.
