(* ===== verification/Linker.v ===== *)
(** * The linker

    [linker.rs]: definitions under pairs of names, which are interned, and the
    resolution of the imports of a module.  [Engine::same] compares the identities
    of engines. *)

From Stdlib Require Import ZArith Lia.
From stdpp Require Import base option decidable numbers gmap sorting list.
From S2P Require Import Prelude Value Fuel Limiter MemoryType Memory Table Cells ExecStack Calls Arena Store InitExpr Header Keeps Modules Instantiate Host.
Local Open Scope Z_scope.

Inductive LinkerError : Type :=
| DuplicateDefinition (import_name : ImportName)
| MissingDefinition (name : ImportName) (ty : ExternType)
| InvalidTypeDefinition (name : ImportName) (expected found : ExternType).

(** ** Keys of imports: two symbols in 64 bits *)

Definition ImportKey_new (module name : Z) : Z := Z.lor (wrapu 64 (Z.shiftl module 32)) name.
Definition ImportKey_module (self : Z) : Z := wrapu 32 (Z.shiftr self 32).
Definition ImportKey_name (self : Z) : Z := wrapu 32 self.

(** ** Definitions *)

Section Linker.
Context {T : Target} {Alloc : Allocator} {L : Type} {RL : ResourceLimiter L}.
Context {Tr D H Eng X : Type} {HE : HeaderEngine Eng}.
Context {Sf : SizeOf FuncEntity} {Sm : SizeOf Memory} {St : SizeOf Table} {Sg : SizeOf CoreGlobal}
  {Si : SizeOf InstanceEntity} {Sd : SizeOf DataSegmentEntity} {Se : SizeOf ElementSegment} {Str : SizeOf Tr}.
Notation Store_ := (Store_ L Tr D H Eng).

Inductive Definition_ : Type :=
| Definition_Extern (item : Extern)
| Definition_HostFunc (host_func : HostFuncTrampolineEntity Tr).

Definition as_extern (self : Definition_) : option Extern :=
  match self with Definition_Extern item => Some item | Definition_HostFunc _ => None end.

Variable resolve_func_type : Eng -> Z -> FuncType.

Definition Definition_ty {E} (self : Definition_) (ctx : Store_) : res E ExternType :=
  match self with
  | Definition_Extern item => Extern_ty (resolve_func_type (sto_engine ctx)) (sto_inner ctx) item
  | Definition_HostFunc host_func => Ok (ExternType_Func (hft_ty host_func))
  end.

(** A host function of the linker becomes a new one of the store. *)
Definition as_func {E} (self : Definition_) : M Store_ E (option Handle) :=
  match self with
  | Definition_Extern (Extern_Func func) => mret (Some func)
  | Definition_HostFunc host_func => func ← Func_new host_func; mret (Some func)
  | _ => mret None
  end.

(** ** Inner linker *)

(** [definitions] is a [BTreeMap]: its entries come in the order of their keys. *)
Record LinkerInner : Type := {
  li_strings : StringInterner;
  li_definitions : gmap Z Definition_;
  li_allow_shadowing : bool
}.

Definition LinkerInner_default : LinkerInner :=
  {| li_strings := StringInterner_new; li_definitions := ∅; li_allow_shadowing := false |}.
Definition set_li_definitions v (self : LinkerInner) : LinkerInner :=
  {| li_strings := li_strings self; li_definitions := v; li_allow_shadowing := li_allow_shadowing self |}.
Definition LinkerInner_allow_shadowing (allow : bool) (self : LinkerInner) : LinkerInner :=
  {| li_strings := li_strings self; li_definitions := li_definitions self; li_allow_shadowing := allow |}.

Definition on_strings {E A} (m : M StringInterner E A) : M LinkerInner E A :=
  zoom li_strings (fun strings self =>
    {| li_strings := strings; li_definitions := li_definitions self; li_allow_shadowing := li_allow_shadowing self |})
    id m.

Definition new_import_key {E} (module name : Bytes) : M LinkerInner E Z :=
  module ← on_strings (get_or_intern_with_hint module LikelyExists);
  name ← on_strings (get_or_intern_with_hint name LikelyNew);
  mret (ImportKey_new module name).

Definition get_import_key (self : LinkerInner) (module name : Bytes) : option Z :=
  module ← StringInterner_get (li_strings self) module;
  name ← StringInterner_get (li_strings self) name;
  Some (ImportKey_new module name).

Definition resolve_import_key (self : LinkerInner) (key : Z) : option (Bytes * Bytes) :=
  module_name ← StringInterner_resolve (li_strings self) (ImportKey_module key);
  item_name ← StringInterner_resolve (li_strings self) (ImportKey_name key);
  Some (module_name, item_name).

Definition Linker_insert (key : Z) (item : Definition_) : M LinkerInner LinkerError unit :=
  self ← get_st;
  match li_definitions self !! key with
  | Some _ =>
      if li_allow_shadowing self then put_st (set_li_definitions (<[key := item]> (li_definitions self)) self)
      else
        '(module_name, field_name) ← lift (expect (resolve_import_key self key));
        fail (DuplicateDefinition (ImportName_new module_name field_name))
  | None => put_st (set_li_definitions (<[key := item]> (li_definitions self)) self)
  end.

Definition key_le (a b : Z * Definition_) : Prop := fst a <= fst b.
#[global] Instance key_le_dec a b : Decision (key_le a b).
Proof. unfold key_le. apply _. Defined.
Definition BTreeMap_iter (m : gmap Z Definition_) : list (Z * Definition_) := merge_sort key_le (map_to_list m).

Definition alias_items (module : Z) (self : LinkerInner) : list (Z * Definition_) :=
  (fun item => (ImportKey_name (fst item), snd item)) <$>
  filter (fun item => ImportKey_module (fst item) = module) (BTreeMap_iter (li_definitions self)).

Definition Inner_alias_module (module as_module : Bytes) : M LinkerInner LinkerError unit :=
  module ← on_strings (get_or_intern_with_hint module LikelyExists);
  as_module ← on_strings (get_or_intern_with_hint as_module LikelyNew);
  self ← get_st;
  for_each (fun '(name, item) => Linker_insert (ImportKey_new as_module name) item) (alias_items module self).

Definition Inner_get_definition (self : LinkerInner) (module name : Bytes) : option Definition_ :=
  key ← get_import_key self module name;
  li_definitions self !! key.

(** ** Linkers *)

Record Linker : Type := { lk_engine : Z; lk_inner : LinkerInner }.
Definition Linker_new (engine : Z) : Linker := {| lk_engine := engine; lk_inner := LinkerInner_default |}.
Definition on_linker {E A} (m : M LinkerInner E A) : M Linker E A :=
  zoom lk_inner (fun inner self => {| lk_engine := lk_engine self; lk_inner := inner |}) id m.
Definition Linker_allow_shadowing {E} (allow : bool) : M Linker E unit :=
  on_linker (inner ← get_st; put_st (LinkerInner_allow_shadowing allow inner)).

Definition Linker_define (module name : Bytes) (item : Extern) : M Linker LinkerError unit :=
  key ← on_linker (new_import_key module name);
  on_linker (Linker_insert key (Definition_Extern item)).

(** [func_new] and [func_wrap], which differ in how the host function is built. *)
Definition Linker_func_new (module name : Bytes) (func : HostFuncTrampolineEntity Tr) : M Linker LinkerError unit :=
  key ← on_linker (new_import_key module name);
  on_linker (Linker_insert key (Definition_HostFunc func)).

Definition Linker_get_definition {E} (self : Linker) (context : Store_) (module name : Bytes) :
    res E (option Definition_) :=
  assert_that (sto_engine_id context =? lk_engine self);;
  Ok (Inner_get_definition (lk_inner self) module name).

Definition Linker_get {E} (self : Linker) (context : Store_) (module name : Bytes) : res E (option Extern) :=
  definition ← Linker_get_definition self context module name;
  Ok (definition ≫= as_extern).

(** The order of the exports is not specified: [iter] is one. *)
Definition Linker_instance (iter : gmap Bytes Extern -> list (Bytes * Extern)) (store : Store_) (module_name : Bytes)
    (instance : Handle) : M Linker LinkerError unit :=
  self ← get_st;
  assert_m (sto_engine_id store =? lk_engine self);;
  exports ← lift (handle_exports (sto_inner store) instance);
  for_each (fun '(name, item) =>
    key ← on_linker (new_import_key module_name name);
    on_linker (Linker_insert key (Definition_Extern item))) (iter exports).

Definition Linker_alias_module (module as_module : Bytes) : M Linker LinkerError unit :=
  on_linker (Inner_alias_module module as_module).

(** ** Instantiation *)

(** An item of another kind is an error that shows its type. *)
Definition or_invalid_type {A} (import : ImportName * ExternType) (resolved : Definition_) (context : Store_)
    (item : option A) : res LinkerError A :=
  match item with
  | Some item => Ok item
  | None => found ← Definition_ty resolved context; Err (InvalidTypeDefinition (fst import) (snd import) found)
  end.

Definition process_import (self : Linker) (import : ImportName * ExternType) : M Store_ LinkerError Extern :=
  context ← get_st;
  assert_m (lk_engine self =? sto_engine_id context);;
  let '(name, ty) := import in
  resolved ← lift (Linker_get_definition self context (in_module name) (in_field name));
  resolved ← lift (ok_or resolved (MissingDefinition name ty));
  match ty with
  | ExternType_Func _ =>
      func ← as_func resolved;
      context ← get_st;
      item ← lift (or_invalid_type import resolved context func); mret (Extern_Func item)
  | ExternType_Table _ =>
      item ← lift (or_invalid_type import resolved context (as_extern resolved ≫= into_table)); mret (Extern_Table item)
  | ExternType_Memory _ =>
      item ← lift (or_invalid_type import resolved context (as_extern resolved ≫= into_memory)); mret (Extern_Memory item)
  | ExternType_Global _ =>
      item ← lift (or_invalid_type import resolved context (as_extern resolved ≫= into_global)); mret (Extern_Global item)
  end.

Fixpoint process_imports (self : Linker) (imports : list (ImportName * ExternType)) :
    M Store_ LinkerError (list Extern) :=
  match imports with
  | [] => mret []
  | import :: imports =>
      external ← process_import self import;
      externals ← process_imports self imports;
      mret (external :: externals)
  end.

Inductive LinkInstError : Type := LI_Linker (error : LinkerError) | LI_Instantiate (error : InstError X).

Variable call_start : Handle -> M (PrunedStore L) X unit.

(** The names and types of the imports are those of the module when it is asked for
    them, before the first host function is allocated. *)
Definition instantiate_and_start (self : Linker) (module : Module_) : M Store_ LinkInstError Handle :=
  context ← get_st;
  assert_m (lk_engine self =? sto_engine_id context);;
  imports ← lift (Module_import_types (resolve_func_type (sto_engine context)) module);
  externals ← zoom id (fun s _ => s) LI_Linker (process_imports self imports);
  context ← get_st;
  zoom sto_pruned set_sto_pruned LI_Instantiate
    (Module_instantiate (resolve_func_type (sto_engine context)) call_start module externals).
End Linker.
Arguments Definition_ Tr : clear implicits.
Arguments LinkerInner Tr : clear implicits.
Arguments Linker Tr : clear implicits.
