(* ===== verification/LinkerSpec.v ===== *)
(** * The linker as a map of names

    Interned keys are not observable: a linker is a map from pairs of names to
    definitions. *)

From Stdlib Require Import ZArith Lia.
From stdpp Require Import base option decidable numbers gmap sorting list.
From S2P Require Import Prelude Value Fuel Limiter MemoryType Memory Table Locals Cells ExecStack Calls Arena Store InitExpr Header CodeMap Keeps Modules Engine Instantiate InstantiateInv Host HostSpec Linker.
Local Open Scope Z_scope.

(** ** Keys *)

Lemma ImportKey_new_eq module name : in_u 32 module -> in_u 32 name ->
  ImportKey_new module name = module * 2 ^ 32 + name.
Proof.
  intros Hm Hn. unfold ImportKey_new, in_u in *.
  rewrite Z.shiftl_mul_pow2 by lia. rewrite wrapu_small by (unfold in_u; lia).
  rewrite <-Z.add_nocarry_lor; [done|]. apply Z.bits_inj'. intros i Hi. rewrite Z.land_spec, Z.bits_0.
  destruct (Z.ltb_spec i 32).
  - by rewrite Z.mul_pow2_bits_low.
  - replace (Z.testbit name i) with false; [by rewrite andb_false_r|]. symmetry.
    rewrite <-(Z.mod_small name (2 ^ 32)) by done. apply Z.mod_pow2_bits_high. lia.
Qed.

Lemma ImportKey_parts module name : in_u 32 module -> in_u 32 name ->
  ImportKey_module (ImportKey_new module name) = module /\ ImportKey_name (ImportKey_new module name) = name.
Proof.
  intros Hm Hn. rewrite ImportKey_new_eq by done. unfold ImportKey_module, ImportKey_name, in_u, wrapu in *.
  rewrite Z.shiftr_div_pow2 by lia. rewrite Z.div_add_l by lia. rewrite (Z.div_small name) by lia.
  rewrite Z.add_0_r, (Z.mod_small module) by lia. split; [done|].
  rewrite Z.add_comm, Z_mod_plus_full, Z.mod_small by lia. done.
Qed.

Lemma ImportKey_inj m n m' n' : in_u 32 m -> in_u 32 n -> in_u 32 m' -> in_u 32 n' ->
  ImportKey_new m n = ImportKey_new m' n' -> m = m' /\ n = n'.
Proof.
  intros H1 H2 H3 H4 E. destruct (ImportKey_parts m n H1 H2) as [E1 E2]. destruct (ImportKey_parts m' n' H3 H4) as [E3 E4].
  split; congruence.
Qed.

(** ** Interned strings *)

Definition fits (self : StringInterner) : Prop := Z.of_nat (length (strings self)) <= 2 ^ 32.

Lemma get_range self s n : interner_ok self -> fits self -> StringInterner_get self s = Some n -> in_u 32 n.
Proof.
  intros Hok Hf Hg. apply Hok in Hg as [Hn Hl]. apply lookup_lt_Some in Hl. unfold fits in Hf. unfold in_u. lia.
Qed.

Lemma get_inj self s t n : interner_ok self -> StringInterner_get self s = Some n -> StringInterner_get self t = Some n -> s = t.
Proof. intros Hok Hs Ht. apply Hok in Hs as [_ Hs], Ht as [_ Ht]. congruence. Qed.

Lemma get_resolve self s n : interner_ok self -> StringInterner_get self s = Some n -> StringInterner_resolve self n = Some s.
Proof. intros Hok Hs. by apply Hok in Hs as [_ Hs]. Qed.

(** One string more at most. *)
Lemma get_or_intern_length {E} s hint self r self' : get_or_intern_with_hint (E := E) s hint self = (r, self') ->
  (length (strings self') <= length (strings self) + 1)%nat.
Proof.
  destruct hint; cbn [get_or_intern_with_hint]; unfold get_or_intern_hint_new, get_or_intern_hint_existing;
    rewrite bind_get_st; destruct (string2symbol self !! s); try (intros [= <- <-]; lia);
    unfold StringInterner_intern; rewrite ?bind_get_st; rewrite bind_lift; destruct (Sym_from_usize _);
    try (intros [= <- <-]; lia); cbn.
  all: try (case_bool_decide; intros [= <- <-]; cbn; rewrite ?length_app; cbn; lia).
  all: intros [= <- <-]; cbn; rewrite length_app; cbn; lia.
Qed.

Section Spec.
Context {Tr : Type}.
Notation Definition_ := (Definition_ Tr).
Notation LinkerInner := (LinkerInner Tr).
Implicit Type l : LinkerInner.

(** ** The abstract linker *)

Record LinkerMap : Type := { lm_definitions : gmap (Bytes * Bytes) Definition_; lm_allow_shadowing : bool }.
Implicit Type a : LinkerMap.

Definition lm_new : LinkerMap := {| lm_definitions := ∅; lm_allow_shadowing := false |}.

Definition lm_insert (module name : Bytes) (item : Definition_) a : res LinkerError unit * LinkerMap :=
  match lm_definitions a !! (module, name) with
  | Some _ =>
      if lm_allow_shadowing a then
        (Ok tt, {| lm_definitions := <[(module, name) := item]> (lm_definitions a); lm_allow_shadowing := true |})
      else (Err (DuplicateDefinition (ImportName_new module name)), a)
  | None => (Ok tt, {| lm_definitions := <[(module, name) := item]> (lm_definitions a);
                       lm_allow_shadowing := lm_allow_shadowing a |})
  end.

(** One after the other, until one fails. *)
Fixpoint lm_insert_all (module : Bytes) (items : list (Bytes * Definition_)) a : res LinkerError unit * LinkerMap :=
  match items with
  | [] => (Ok tt, a)
  | (name, item) :: items =>
      match lm_insert module name item a with
      | (Ok _, a) => lm_insert_all module items a
      | r => r
      end
  end.

Definition lm_module (module : Bytes) a : list (Bytes * Definition_) :=
  (fun entry => (entry.1.2, entry.2)) <$> filter (fun entry => entry.1.1 = module) (map_to_list (lm_definitions a)).

(** ** Refinement *)

Definition refines l a : Prop :=
  interner_ok (li_strings l) /\ li_allow_shadowing l = lm_allow_shadowing a /\
  (forall module name item, lm_definitions a !! (module, name) = Some item -> exists m n,
     StringInterner_get (li_strings l) module = Some m /\ StringInterner_get (li_strings l) name = Some n /\
     li_definitions l !! ImportKey_new m n = Some item) /\
  (forall key item, li_definitions l !! key = Some item -> exists module name m n,
     StringInterner_get (li_strings l) module = Some m /\ StringInterner_get (li_strings l) name = Some n /\
     key = ImportKey_new m n /\ lm_definitions a !! (module, name) = Some item).

Lemma refines_new : refines LinkerInner_default lm_new.
Proof. split_and!; [apply StringInterner_new_ok|done|intros ???; cbn; by rewrite lookup_empty|intros ??; cbn; by rewrite lookup_empty]. Qed.

(** The definition under two interned names. *)
Lemma refines_lookup l a module name m n : refines l a -> fits (li_strings l) ->
  StringInterner_get (li_strings l) module = Some m -> StringInterner_get (li_strings l) name = Some n ->
  li_definitions l !! ImportKey_new m n = lm_definitions a !! (module, name).
Proof.
  intros (Hok & _ & H1 & H2) Hf Hm Hn. destruct (lm_definitions a !! (module, name)) as [item|] eqn:Ea.
  - destruct (H1 _ _ _ Ea) as (m' & n' & Hm' & Hn' & Hl). congruence.
  - destruct (li_definitions l !! ImportKey_new m n) as [item|] eqn:El; [|done].
    destruct (H2 _ _ El) as (module' & name' & m' & n' & Hm' & Hn' & Hk & Ha).
    apply ImportKey_inj in Hk as [<- <-]; [|by eapply get_range..].
    by rewrite (get_inj _ _ _ _ Hok Hm Hm'), (get_inj _ _ _ _ Hok Hn Hn'), Ha in Ea.
Qed.

Lemma refines_get l a module name : refines l a -> fits (li_strings l) ->
  Inner_get_definition l module name = lm_definitions a !! (module, name).
Proof.
  intros Hr Hf. unfold Inner_get_definition, get_import_key.
  destruct (StringInterner_get _ module) as [m|] eqn:Hm; [destruct (StringInterner_get _ name) as [n|] eqn:Hn|]; cbn.
  - by apply refines_lookup.
  - destruct (lm_definitions a !! (module, name)) eqn:Ea; [|done]. destruct Hr as (_ & _ & H1 & _).
    destruct (H1 _ _ _ Ea) as (? & ? & ? & ? & _). congruence.
  - destruct (lm_definitions a !! (module, name)) eqn:Ea; [|done]. destruct Hr as (_ & _ & H1 & _).
    destruct (H1 _ _ _ Ea) as (? & ? & ? & ? & _). congruence.
Qed.

(** Interning keeps the definitions and their names. *)
Lemma refines_intern {E} l a s hint : refines l a -> Z.of_nat (length (strings (li_strings l))) < 2 ^ 32 ->
  exists n l', on_strings (E := E) (get_or_intern_with_hint s hint) l = (Ok n, l') /\ refines l' a /\
    StringInterner_get (li_strings l') s = Some n /\
    (forall t m, StringInterner_get (li_strings l) t = Some m -> StringInterner_get (li_strings l') t = Some m) /\
    (length (strings (li_strings l')) <= length (strings (li_strings l)) + 1)%nat /\
    li_definitions l' = li_definitions l.
Proof.
  intros (Hok & Hs & H1 & H2) Hlen. unfold on_strings, zoom.
  destruct (get_or_intern_with_hint s hint (li_strings l)) as [r strings'] eqn:E1.
  pose proof (get_or_intern_length _ _ _ _ _ E1) as Hl.
  destruct (get_or_intern_spec s hint _ r strings' Hok Hlen E1) as (Hok' & (n & -> & _ & Hg) & Hmono & _).
  exists n. eexists. split; [done|]. split_and!; cbn [li_strings li_definitions]; try done.
  split_and!; cbn [li_strings li_definitions li_allow_shadowing]; try done.
  - intros module name item Ha. destruct (H1 _ _ _ Ha) as (m & k & ? & ? & ?). exists m, k. split_and!; auto.
  - intros key item Hi. destruct (H2 _ _ Hi) as (module & name & m & k & ? & ? & ? & ?).
    exists module, name, m, k. split_and!; auto.
Qed.

Lemma refines_insert l a module name m n item : refines l a -> fits (li_strings l) ->
  StringInterner_get (li_strings l) module = Some m -> StringInterner_get (li_strings l) name = Some n ->
  exists l', Linker_insert (ImportKey_new m n) item l = ((lm_insert module name item a).1, l') /\
    refines l' (lm_insert module name item a).2 /\ li_strings l' = li_strings l.
Proof.
  intros Hr Hf Hm Hn. unfold Linker_insert, lm_insert. rewrite bind_get_st.
  rewrite (refines_lookup l a module name m n Hr Hf Hm Hn). pose proof Hr as (Hok & Hs & H1 & H2).
  assert (forall sh, sh = lm_allow_shadowing a -> refines (set_li_definitions (<[ImportKey_new m n := item]> (li_definitions l)) l)
    {| lm_definitions := <[(module, name) := item]> (lm_definitions a); lm_allow_shadowing := sh |}) as Hi.
  { intros sh ->. split_and!; cbn; try done.
    - intros module' name' item'. destruct (decide ((module, name) = (module', name'))) as [[= <- <-]|Hne].
      + rewrite lookup_insert_eq. intros [= <-]. exists m, n. by rewrite lookup_insert_eq.
      + rewrite lookup_insert_ne by done. intros Ha. destruct (H1 _ _ _ Ha) as (m' & n' & Hm' & Hn' & Hl).
        exists m', n'. split_and!; [done..|]. rewrite lookup_insert_ne; [done|]. intros Hk.
        apply ImportKey_inj in Hk as [<- <-]; [|by eapply get_range..].
        apply Hne. f_equal; by eapply get_inj.
    - intros key item'. destruct (decide (key = ImportKey_new m n)) as [->|Hne].
      + rewrite lookup_insert_eq. intros [= <-]. exists module, name, m, n. by rewrite lookup_insert_eq.
      + rewrite lookup_insert_ne by done. intros Hl. destruct (H2 _ _ Hl) as (module' & name' & m' & n' & Hm' & Hn' & -> & Ha).
        exists module', name', m', n'. split_and!; [done..|]. rewrite lookup_insert_ne; [done|].
        intros [= <- <-]. congruence. }
  destruct (lm_definitions a !! (module, name)) as [old|]; [|eexists; split_and!; [done|by apply Hi|done]].
  rewrite Hs. destruct (lm_allow_shadowing a) eqn:Es; [eexists; split_and!; [done|by apply Hi|done]|].
  unfold resolve_import_key.
  destruct (ImportKey_parts m n) as [-> ->]; [by eapply get_range..|].
  rewrite (get_resolve _ _ _ Hok Hm), (get_resolve _ _ _ Hok Hn). cbn. exists l. by split_and!.
Qed.

(** *** Aliases *)

Lemma elem_of_lm_module module a name item :
  (name, item) ∈ lm_module module a <-> lm_definitions a !! (module, name) = Some item.
Proof.
  unfold lm_module. rewrite list_elem_of_fmap. split.
  - intros ([[module' name'] item'] & [= -> ->] & Hf). apply list_elem_of_filter in Hf as [Hm Hf]. cbn in Hm. subst.
    by apply elem_of_map_to_list in Hf.
  - intros Ha. exists ((module, name), item). split; [done|]. apply list_elem_of_filter. split; [done|].
    by apply elem_of_map_to_list.
Qed.

Lemma NoDup_lm_module module a : NoDup (lm_module module a).
Proof.
  apply NoDup_fmap_2_strong; [|apply NoDup_filter, NoDup_map_to_list].
  intros [[m1 n1] i1] [[m2 n2] i2] H1 H2 [= -> ->].
  apply list_elem_of_filter in H1 as [E1 _], H2 as [E2 _]. cbn in E1, E2. congruence.
Qed.

Definition symbol_of l (entry : Bytes * Definition_) : Z * Definition_ :=
  (default 0 (StringInterner_get (li_strings l) entry.1), entry.2).

Lemma alias_items_permutation l a module m : refines l a -> fits (li_strings l) ->
  StringInterner_get (li_strings l) module = Some m ->
  alias_items m l ≡ₚ symbol_of l <$> lm_module module a.
Proof.
  intros Hr Hf Hm. pose proof Hr as (Hok & _ & H1 & H2).
  assert (alias_items m l ≡ₚ (fun item => (ImportKey_name item.1, item.2)) <$>
    filter (fun item => ImportKey_module item.1 = m) (map_to_list (li_definitions l))) as ->.
  { unfold alias_items, BTreeMap_iter. by rewrite merge_sort_Permutation. }
  assert (forall k item, li_definitions l !! k = Some item -> ImportKey_module k = m -> exists name,
    lm_definitions a !! (module, name) = Some item /\ StringInterner_get (li_strings l) name = Some (ImportKey_name k) /\
    k = ImportKey_new m (ImportKey_name k)) as Hkey.
  { intros k item Hk Hm'. destruct (H2 _ _ Hk) as (module' & name & m' & n' & Hgm & Hgn & -> & Ha).
    destruct (ImportKey_parts m' n') as [E1 E2]; [by eapply get_range..|].
    rewrite E1 in Hm'. subst m'. rewrite (get_inj _ _ _ _ Hok Hm Hgm), E2. by exists name. }
  apply NoDup_Permutation.
  - apply NoDup_fmap_2_strong; [|apply NoDup_filter, NoDup_map_to_list].
    intros [k1 i1] [k2 i2] E1 E2 [= Hn ->]. apply list_elem_of_filter in E1 as [M1 E1], E2 as [M2 E2].
    apply elem_of_map_to_list in E1, E2. destruct (Hkey _ _ E1 M1) as (? & _ & _ & K1), (Hkey _ _ E2 M2) as (? & _ & _ & K2).
    f_equal. congruence.
  - apply NoDup_fmap_2_strong; [|apply NoDup_lm_module].
    intros [n1 i1] [n2 i2] E1 E2. rewrite elem_of_lm_module in E1, E2. unfold symbol_of. cbn [fst snd].
    destruct (H1 _ _ _ E1) as (? & k1 & _ & G1 & _), (H1 _ _ _ E2) as (? & k2 & _ & G2 & _).
    rewrite G1, G2. cbn [default]. intros [= -> ->]. f_equal. by eapply get_inj.
  - intros [n item]. rewrite !list_elem_of_fmap. split.
    + intros ([k i] & [= -> ->] & E). apply list_elem_of_filter in E as [Ek E]. apply elem_of_map_to_list in E.
      destruct (Hkey _ _ E Ek) as (name & Ha & Hg & _). exists (name, i). unfold symbol_of. cbn [fst snd]. rewrite Hg.
      split; [done|]. by apply elem_of_lm_module.
    + intros ([name i] & [= -> ->] & E). apply elem_of_lm_module in E. cbn [fst snd].
      destruct (H1 _ _ _ E) as (m' & n' & Gm & Gn & El). rewrite Gn. cbn [default].
      assert (m' = m) as -> by congruence. exists (ImportKey_new m n', i).
      destruct (ImportKey_parts m n') as [E1 E2]; [by eapply get_range..|]. cbn. rewrite E2. split; [done|].
      apply list_elem_of_filter. split; [done|]. by apply elem_of_map_to_list.
Qed.

Lemma refines_insert_all as_module m items : forall l a, refines l a -> fits (li_strings l) ->
  StringInterner_get (li_strings l) as_module = Some m ->
  Forall (fun entry => is_Some (StringInterner_get (li_strings l) entry.1)) items ->
  exists l', for_each (fun '(name, item) => Linker_insert (ImportKey_new m name) item) (symbol_of l <$> items) l =
      ((lm_insert_all as_module items a).1, l') /\
    refines l' (lm_insert_all as_module items a).2 /\ li_strings l' = li_strings l.
Proof.
  induction items as [|[name item] items IH]; intros l a Hr Hf Hm Hi; cbn [fmap list_fmap for_each lm_insert_all].
  { by exists l. }
  inversion_clear Hi as [|? ? [n Hn] Hrest]. cbn [fst] in Hn. 
  assert (symbol_of l (name, item) = (n, item)) as -> by (unfold symbol_of; cbn [fst snd]; by rewrite Hn).
  destruct (refines_insert l a as_module name m n item Hr Hf Hm Hn) as (l1 & E & Hr1 & Hs).
  rewrite bind_run. cbn. rewrite E. destruct (lm_insert as_module name item a) as [[[]|e|] a1]; cbn in *; [|by exists l1..].
  rewrite <-Hs in Hf, Hm, Hrest. destruct (IH l1 a1 Hr1 Hf Hm Hrest) as (l2 & E2 & Hr2 & Hs2).
  exists l2. split_and!; [|done|congruence].
  rewrite <-E2. f_equal. apply list_fmap_ext. intros ?? _. unfold symbol_of. by rewrite Hs.
Qed.

(** ** Calls *)

Inductive LinkerCall : Type :=
| Call_allow_shadowing (allow : bool)
| Call_define (module name : Bytes) (item : Extern)
| Call_func (module name : Bytes) (func : HostFuncTrampolineEntity Tr)
| Call_alias_module (module as_module : Bytes).

Definition run_call (call : LinkerCall) : M (Linker Tr) LinkerError unit :=
  match call with
  | Call_allow_shadowing allow => Linker_allow_shadowing allow
  | Call_define module name item => Linker_define module name item
  | Call_func module name func => Linker_func_new module name func
  | Call_alias_module module as_module => Linker_alias_module module as_module
  end.

Fixpoint run_calls (calls : list LinkerCall) (self : Linker Tr) : list (res LinkerError unit) * Linker Tr :=
  match calls with
  | [] => ([], self)
  | call :: calls =>
      let '(r, self) := run_call call self in
      let '(rs, self) := run_calls calls self in (r :: rs, self)
  end.

(** What a call does to the map.  An alias defines the items of the module in some
    order. *)
Inductive lm_call a : LinkerCall -> res LinkerError unit -> LinkerMap -> Prop :=
| lm_allow allow : lm_call a (Call_allow_shadowing allow) (Ok tt)
    {| lm_definitions := lm_definitions a; lm_allow_shadowing := allow |}
| lm_define module name item r a' : lm_insert module name (Definition_Extern item) a = (r, a') ->
    lm_call a (Call_define module name item) r a'
| lm_func module name func r a' : lm_insert module name (Definition_HostFunc func) a = (r, a') ->
    lm_call a (Call_func module name func) r a'
| lm_alias module as_module items r a' : items ≡ₚ lm_module module a ->
    lm_insert_all as_module items a = (r, a') -> lm_call a (Call_alias_module module as_module) r a'.

Inductive lm_calls : LinkerMap -> list LinkerCall -> list (res LinkerError unit) -> LinkerMap -> Prop :=
| lm_done a : lm_calls a [] [] a
| lm_next a call r a' calls rs a'' : lm_call a call r a' -> lm_calls a' calls rs a'' ->
    lm_calls a (call :: calls) (r :: rs) a''.

Definition strings_of (self : Linker Tr) : nat := length (strings (li_strings (lk_inner self))).

Lemma refines_define self a module name item : refines (lk_inner self) a ->
  Z.of_nat (strings_of self) + 2 <= 2 ^ 32 -> exists self',
  (key ← on_linker (new_import_key module name); on_linker (Linker_insert key item)) self =
    ((lm_insert module name item a).1, self') /\
  refines (lk_inner self') (lm_insert module name item a).2 /\ (strings_of self' <= strings_of self + 2)%nat.
Proof.
  intros Hr Hl. unfold strings_of in *. destruct self as [engine l]. cbn [lk_inner] in *.
  destruct (refines_intern (E := LinkerError) l a module LikelyExists Hr) as (m & l1 & E1 & Hr1 & Hm & Hmono1 & Hl1 & _); [lia|].
  destruct (refines_intern (E := LinkerError) l1 a name LikelyNew Hr1) as (n & l2 & E2 & Hr2 & Hn & Hmono2 & Hl2 & _); [lia|].
  destruct (refines_insert l2 a module name m n item Hr2) as (l3 & E3 & Hr3 & Hs3);
    [unfold fits; lia|by apply Hmono2|done|].
  exists {| lk_engine := engine; lk_inner := l3 |}. rewrite bind_run. unfold on_linker at 1. unfold zoom at 1. cbn [lk_inner].
  unfold new_import_key. rewrite bind_run, E1, bind_run, E2. cbn. unfold on_linker, zoom. cbn [lk_inner]. rewrite E3.
  split_and!; [by destruct (lm_insert module name item a) as [[] ?]|done|]. cbn. rewrite Hs3. lia.
Qed.

Lemma refines_call call self a : refines (lk_inner self) a -> Z.of_nat (strings_of self) + 2 <= 2 ^ 32 ->
  exists r self' a', run_call call self = (r, self') /\ lm_call a call r a' /\ refines (lk_inner self') a' /\
    (strings_of self' <= strings_of self + 2)%nat.
Proof.
  intros Hr Hl. destruct call as [allow|module name item|module name func|module as_module]; cbn [run_call].
  - exists (Ok tt). do 2 eexists. split_and!; [reflexivity|apply lm_allow| |unfold strings_of; cbn; lia].
    destruct Hr as (? & _ & ? & ?). by split_and!.
  - destruct (refines_define self a module name (Definition_Extern item) Hr Hl) as (self' & E & Hr' & Hl').
    do 3 eexists. split_and!; [exact E|constructor; apply surjective_pairing|done|done].
  - destruct (refines_define self a module name (Definition_HostFunc func) Hr Hl) as (self' & E & Hr' & Hl').
    do 3 eexists. split_and!; [exact E|constructor; apply surjective_pairing|done|done].
  - unfold strings_of in *. destruct self as [engine l]. cbn [lk_inner] in *.
    destruct (refines_intern (E := LinkerError) l a module LikelyExists Hr) as (m & l1 & E1 & Hr1 & Hm & Hmono1 & Hl1 & _); [lia|].
    destruct (refines_intern (E := LinkerError) l1 a as_module LikelyNew Hr1) as (n & l2 & E2 & Hr2 & Hn & Hmono2 & Hl2 & _); [lia|].
    assert (fits (li_strings l2)) as Hf by (unfold fits; lia).
    pose proof (alias_items_permutation l2 a module m Hr2 Hf (Hmono2 _ _ Hm)) as Hp.
    apply Permutation_map_inv in Hp as (items & Hi & Hp). change (map ?f ?l) with (f <$> l) in Hi.
    destruct (refines_insert_all as_module n items l2 a Hr2 Hf Hn) as (l3 & E3 & Hr3 & Hs3).
    { apply Forall_forall. intros [name item] Hin. rewrite <-Hp, elem_of_lm_module in Hin.
      destruct Hr2 as (_ & _ & H1 & _). destruct (H1 _ _ _ Hin) as (? & k & _ & Hk & _). by exists k. }
    do 2 eexists. exists (lm_insert_all as_module items a).2. split_and!.
    + unfold Linker_alias_module, on_linker, zoom. cbn [lk_inner]. unfold Inner_alias_module.
      rewrite bind_run, E1, bind_run, E2, bind_get_st, Hi. rewrite E3. reflexivity.
    + econstructor; [done|]. by destruct (lm_insert_all as_module items a) as [[] ?].
    + done.
    + cbn. rewrite Hs3. lia.
Qed.

(** C12: A linker is a map from pairs of a module and a name to definitions: whatever
    calls are made to a new one, as long as their names fit into the interner, no call
    panics, every call has the result and the effect it has on such a map - a
    definition that exists is kept and reported unless shadowing is allowed, an alias
    defines the items of a module until one fails - and a lookup finds what the map
    holds. *)
Theorem linker_refines_map engine calls self rs : 2 * Z.of_nat (length calls) <= 2 ^ 32 ->
  run_calls calls (Linker_new engine) = (rs, self) ->
  exists a, lm_calls lm_new calls rs a /\
    forall module name, Inner_get_definition (lk_inner self) module name = lm_definitions a !! (module, name).
Proof.
  intros Hlen. assert (forall calls self0 a rs self, refines (lk_inner self0) a ->
    Z.of_nat (strings_of self0) + 2 * Z.of_nat (length calls) <= 2 ^ 32 -> run_calls calls self0 = (rs, self) ->
    exists a', lm_calls a calls rs a' /\ refines (lk_inner self) a' /\ fits (li_strings (lk_inner self))) as H.
  { clear. induction calls as [|call calls IH]; intros self0 a rs self Hr Hl; cbn [run_calls].
    - intros [= <- <-]. exists a. split_and!; [constructor|done|]. unfold fits, strings_of in *. cbn in Hl. lia.
    - cbn [length] in Hl. destruct (refines_call call self0 a Hr) as (r & self1 & a1 & -> & Hc & Hr1 & Hl1); [lia|].
      destruct (run_calls calls self1) as [rs1 self2] eqn:E. intros [= <- <-].
      destruct (IH self1 a1 rs1 self2 Hr1) as (a2 & Hcs & Hr2 & Hf); [lia|done|].
      exists a2. split_and!; [by econstructor|done..]. }
  intros Hrun. destruct (H calls (Linker_new engine) lm_new rs self) as (a & Hc & Hr & Hf).
  - apply refines_new.
  - cbn. lia.
  - done.
  - exists a. split; [done|]. intros module name. by apply refines_get.
Qed.
End Spec.

(** ** Resolution of imports *)

Section Imports.
Context {T : Target} {Alloc : Allocator} {L : Type} {RL : ResourceLimiter L}.
Context {Tr D H Eng X : Type} {HE : HeaderEngine Eng}.
Context {Sf : SizeOf FuncEntity} {Sm : SizeOf Memory} {St : SizeOf Table} {Sg : SizeOf CoreGlobal}
  {Si : SizeOf InstanceEntity} {Sd : SizeOf DataSegmentEntity} {Se : SizeOf ElementSegment} {Str : SizeOf Tr}.
Context (resolve_func_type : Eng -> Z -> FuncType) {FT : FuncTypes Eng resolve_func_type}.
Notation Store_ := (Store_ L Tr D H Eng).
Notation host_le := (host_le (L := L) (Tr := Tr) (D := D) (H := H) resolve_func_type).
Notation host_func_at := (host_func_at (L := L) (Tr := Tr) (D := D) (H := H) resolve_func_type).
Implicit Types (self : Linker Tr) (s : Store_).

(** Whether a definition is of the kind of an import. *)
Definition kind_matches (ty : ExternType) (def : Definition_ Tr) : bool :=
  match ty, def with
  | ExternType_Func _, (Definition_HostFunc _ | Definition_Extern (Extern_Func _))
  | ExternType_Table _, Definition_Extern (Extern_Table _)
  | ExternType_Memory _, Definition_Extern (Extern_Memory _)
  | ExternType_Global _, Definition_Extern (Extern_Global _) => true
  | _, _ => false
  end.

(** What the linker gives for a definition: the item itself, or a function of the
    store that calls the host function. *)
Definition given s (def : Definition_ Tr) (external : Extern) : Prop :=
  match def with
  | Definition_Extern item => external = item
  | Definition_HostFunc hf => exists h, external = Extern_Func h /\ host_func_at s h hf
  end.

Definition definition_of self (name : ImportName) : option (Definition_ Tr) :=
  Inner_get_definition (lk_inner self) (in_module name) (in_field name).

(** The error of an import: no definition, or one of another kind. *)
Definition import_error self s (import : ImportName * ExternType) (e : LinkerError) : Prop :=
  match definition_of self import.1 with
  | None => e = MissingDefinition import.1 import.2
  | Some def => kind_matches import.2 def = false /\ exists found,
      Definition_ty (E := LinkerError) resolve_func_type def s = Ok found /\
      e = InvalidTypeDefinition import.1 import.2 found
  end.

(** The reasons of a panic: the item of a definition is not of the store, or the
    store has no room for another host function or its type is too wide. *)
Definition unresolved s (item : Extern) : Prop :=
  match item with
  | Extern_Func func => is_ok (try_resolve sa_funcs (sto_inner s) func) = false
  | Extern_Table table => is_ok (try_resolve sa_tables (sto_inner s) table) = false
  | Extern_Memory memory => is_ok (try_resolve sa_memories (sto_inner s) memory) = false
  | Extern_Global global => is_ok (try_resolve sa_globals (sto_inner s) global) = false
  end.

Definition too_wide (ty : FuncType) : Prop :=
  is_ok (FuncType_params (E := LinkerError) ty ≫= cells_or_panic) = false \/
  is_ok (FuncType_results (E := LinkerError) ty ≫= cells_or_panic) = false.

Definition no_room s (hf : HostFuncTrampolineEntity Tr) : Prop :=
  is_ok (alloc_trampoline (E := LinkerError) (hft_trampoline hf) s).1 = false \/
  too_wide (hft_ty hf) \/
  is_ok (engine_alloc_func_type (hft_ty hf) (sto_engine s)).1 = false \/
  (exists entity, is_ok (alloc_entity sa_funcs (FuncEntity_Host entity) (sto_inner s)).1 = false).

Definition import_panics self s (import : ImportName * ExternType) : Prop :=
  exists def, definition_of self import.1 = Some def /\
    match def with
    | Definition_Extern item => kind_matches import.2 def = false /\ unresolved s item
    | Definition_HostFunc hf => kind_matches import.2 def = true /\ no_room s hf
    end.

Lemma Func_new_panics hf s s' : Func_new (E := LinkerError) hf s = (Panic, s') -> no_room s hf.
Proof.
  unfold Func_new, no_room. rewrite bind_run.
  destruct (alloc_trampoline (E := LinkerError) (hft_trampoline hf) s) as [[k|e|] s1] eqn:E1; [|by left..]. intros E. right.
  assert (exists a, s1 = set_sto_trampolines a s) as [a ->].
  { revert E1. unfold alloc_trampoline. destruct (Arena_alloc _ _) as [[]]; intros [= _ <-]; by eexists. }
  rewrite bind_run in E. unfold HostFuncEntity_new in E. rewrite bind_lift in E. unfold too_wide.
  destruct (FuncType_params (hft_ty hf)) as [params|e|]; [|by left; left..]. cbn [mbind res_bind]. rewrite bind_lift in E.
  destruct (cells_or_panic params) as [np|e|]; [|by left; left..]. rewrite bind_lift in E.
  destruct (FuncType_results (hft_ty hf)) as [results|e|]; [|by left; right..]. cbn [mbind res_bind]. rewrite bind_lift in E.
  destruct (cells_or_panic results) as [nr|e|]; [|by left; right..]. right. rewrite bind_run in E.
  unfold on_sto_engine, zoom in E. cbn [sto_engine set_sto_trampolines] in E.
  destruct (engine_alloc_func_type (hft_ty hf) (sto_engine s)) as [[ty|[]|] e']; [|by left]. right.
  cbn [map_err] in E. cbv beta iota delta [mret M_ret] in E.
  unfold on_sto_inner, zoom in E. change (sto_inner (set_sto_engine _ _)) with (sto_inner s) in E.
  destruct (alloc_entity sa_funcs _ (sto_inner s)) as [[h|[]|] t] eqn:Ea; [done|]. eexists. by rewrite Ea.
Qed.

Lemma Definition_ty_panics def s : Definition_ty (E := LinkerError) resolve_func_type def s = Panic ->
  exists item, def = Definition_Extern item /\ unresolved s item.
Proof.
  destruct def as [item|hf]; [|done]. intros E. exists item. split; [done|].
  destruct item as [h|h|h|h]; cbn in *;
    unfold handle_Global_ty, handle_Table_ty, handle_Memory_ty, Func_ty, panicking in E; by destruct (try_resolve _ _ _).
Qed.

Definition import_given self s (import : ImportName * ExternType) (external : Extern) : Prop :=
  exists def, definition_of self import.1 = Some def /\ kind_matches import.2 def = true /\ given s def external.

Lemma Definition_ty_no_error def s e : Definition_ty (E := LinkerError) resolve_func_type def s <> Err e.
Proof.
  destruct def as [[h|h|h|h]|hf]; [..|done]; cbn;
    unfold handle_Global_ty, handle_Table_ty, handle_Memory_ty, Func_ty, panicking;
    by destruct (try_resolve _ _ _).
Qed.

Lemma or_invalid_type_run {A} (conv : A -> Extern) name ty def s o r s' :
  (item ← lift (or_invalid_type resolve_func_type (name, ty) def s o); mret (conv item)) s = (r, s') ->
  s' = s /\ match o with
            | Some item => r = Ok (conv item)
            | None => (r = Panic /\ exists item, def = Definition_Extern item /\ unresolved s item) \/ exists found,
                Definition_ty (E := LinkerError) resolve_func_type def s = Ok found /\
                r = Err (InvalidTypeDefinition name ty found)
            end.
Proof.
  rewrite bind_lift. unfold or_invalid_type. destruct o as [item|]; [by intros [= <- <-]|].
  destruct (Definition_ty _ def s) as [found|e|] eqn:Et; cbn; intros [= <- <-]; (split; [done|]);
    [right; by exists found|by apply Definition_ty_no_error in Et|].
  left. split; [done|]. by apply Definition_ty_panics.
Qed.

(** The result for a definition, from the item that was taken out of it. *)
Lemma import_result {A} self (conv : A -> Extern) name ty def s o r s' : definition_of self name = Some def ->
  (forall item, o = Some item -> kind_matches ty def = true /\ given s def (conv item)) ->
  (o = None -> kind_matches ty def = false) ->
  (item ← lift (or_invalid_type resolve_func_type (name, ty) def s o); mret (conv item)) s = (r, s') ->
  s' = s /\
  match r with
  | Ok external => import_given self s' (name, ty) external
  | Err e => import_error self s' (name, ty) e
  | Panic => import_panics self s' (name, ty)
  end.
Proof.
  intros Hd Hs Hn E. apply or_invalid_type_run in E as [-> E]. split; [done|].
  unfold import_given, import_error, import_panics. cbn [fst snd]. rewrite Hd. destruct o as [item|].
  - subst r. exists def. destruct (Hs item eq_refl). by split_and!.
  - specialize (Hn eq_refl). destruct E as [(-> & item & -> & Hu)|(found & Ht & ->)]; [by exists (Definition_Extern item)|].
    split; [done|]. by exists found.
Qed.

Lemma process_import_run self import s r s' : ft_ok (sto_engine s) -> sto_engine_id s = lk_engine self ->
  process_import resolve_func_type self import s = (r, s') ->
  host_le s s' /\
  match r with
  | Ok external => import_given self s' import external
  | Err e => import_error self s' import e
  | Panic => exists s1, host_le s s1 /\ import_panics self s1 import
  end.
Proof.
  intros Ho Hi. destruct import as [name ty]. unfold process_import. rewrite bind_get_st, Hi. unfold assert_m.
  rewrite bind_lift. unfold assert_that at 1. rewrite Z.eqb_refl. rewrite bind_lift.
  unfold Linker_get_definition. rewrite Hi. unfold assert_that at 1. rewrite Z.eqb_refl. cbn [mbind res_bind].
  fold (definition_of self name). rewrite bind_lift.
  destruct (definition_of self name) as [def|] eqn:Ed; cbn [ok_or];
    [|intros [= <- <-]; split; [done|]; unfold import_error; cbn [fst]; by rewrite Ed].
  destruct ty as [gty|tty|mty|fty].
  1-3: intros E; eapply import_result in E as [-> E]; [split; [done|]; destruct r; [done..|by exists s]|exact Ed| |];
    destruct def as [[h|h|h|h]|hf]; try done; by intros ? [= <-].
  rewrite bind_run. destruct (as_func def s) as [ro s1] eqn:Ea.
  assert (host_le s s1 /\ match ro with
    | Ok (Some h) => kind_matches (ExternType_Func fty) def = true /\ given s1 def (Extern_Func h)
    | Ok None => kind_matches (ExternType_Func fty) def = false
    | Err _ => False
    | Panic => import_panics self s (name, ExternType_Func fty)
    end) as [Hle Ha].
  { destruct def as [[h|h|h|h]|hf]; cbn [as_func] in Ea; [by injection Ea as <- <-..|]. rewrite bind_run in Ea.
    destruct (Func_new hf s) as [rf s2] eqn:Ef. pose proof (Func_new_no_error _ _ _ _ Ef) as Hne.
    pose proof (Func_new_panics hf s s2) as Hp. rewrite Ef in Hp.
    apply (Func_new_run resolve_func_type) in Ef as [Hle Hh]; [|done].
    destruct rf as [h|e|]; injection Ea as <- <-; [|by destruct (Hne e)|].
    - split; [done|]. split; [done|]. exists h. split; [done|]. by apply Hh.
    - split; [done|]. exists (Definition_HostFunc hf). split; [done|]. split; [done|]. by apply Hp. }
  destruct ro as [o|e|]; [|done|intros [= <- <-]; split; [done|]; by exists s]. rewrite bind_get_st. intros E.
  eapply import_result in E as [-> E]; [split; [done|]; destruct r; [done..|by exists s1]|exact Ed| |].
  - intros h ->. exact Ha.
  - intros ->. exact Ha.
Qed.

Lemma host_le_engine s s' : ft_ok (sto_engine s) -> host_le s s' ->
  ft_ok (sto_engine s') /\ sto_engine_id s' = sto_engine_id s.
Proof. intros Ho (Hi & Hok & _). auto. Qed.

Lemma given_mono s s' def external : ft_ok (sto_engine s) -> host_le s s' -> given s def external -> given s' def external.
Proof. intros Ho Hle. destruct def; [done|]. intros (h & -> & Hh). exists h. split; [done|]. by eapply host_func_at_mono. Qed.

(** C19: Resolving the imports of a module with a linker of the store's engine: when it
    succeeds there is a value for every import, of the import's kind, which is the item
    the linker has under the import's two names or, for a host function of the linker,
    a new function of the store with the host function's type and code, all of which
    remain when later imports are resolved; an error is about the first import that has
    no definition or one of another kind, and carries its name, its type and, for the
    other kind, the type found.  It panics only at an import whose definition is of
    another kind and an item of another store, or is a host function for which the
    store has no room.  The store only gets more functions, host functions and
    function types, also when there is an error. *)
Theorem process_imports_spec self imports s r s' : ft_ok (sto_engine s) -> sto_engine_id s = lk_engine self ->
  process_imports resolve_func_type self imports s = (r, s') ->
  host_le s s' /\
  match r with
  | Ok externals => Forall2 (import_given self s') imports externals
  | Err e => exists before import after externals, imports = before ++ import :: after /\
      Forall2 (import_given self s') before externals /\ import_error self s' import e
  | Panic => exists before import after externals s1, imports = before ++ import :: after /\
      Forall2 (import_given self s') before externals /\ host_le s s1 /\ import_panics self s1 import
  end.
Proof.
  revert s r s'. induction imports as [|import imports IH]; intros s r s' Ho Hi; cbn [process_imports].
  { intros [= <- <-]. split; [done|]. constructor. }
  rewrite bind_run. destruct (process_import resolve_func_type self import s) as [r1 s1] eqn:E1.
  apply process_import_run in E1 as [L1 R1]; [|done..].
  destruct r1 as [external|e|]; [|intros [= <- <-]; split; [done|]; by exists [], import, imports, []|
    intros [= <- <-]; split; [done|]; destruct R1 as (t & ? & ?); by exists [], import, imports, [], t].
  destruct (host_le_engine _ _ Ho L1) as [Ho1 Hi1]. rewrite bind_run.
  destruct (process_imports resolve_func_type self imports s1) as [r2 s2] eqn:E2.
  apply IH in E2 as [L2 R2]; [|done|congruence].
  assert (import_given self s2 import external) as G2.
  { destruct R1 as (def & Hd & Hk & Hg). exists def. split_and!; [done..|]. by eapply given_mono. }
  destruct r2 as [externals|e|]; intros [= <- <-]; (split; [by etrans|]).
  - by constructor.
  - destruct R2 as (before & import' & after & externals & -> & Hf & He).
    exists (import :: before), import', after, (external :: externals). split_and!; [done|by constructor|done].
  - destruct R2 as (before & import' & after & externals & t & -> & Hf & Ht & Hp).
    exists (import :: before), import', after, (external :: externals), t.
    split_and!; [done|by constructor|by etrans|done].
Qed.
End Imports.

(** ** A linker at work

    Definitions, an alias that fails half way, and a module that imports a table and
    a host function. *)

#[local] Existing Instance copy_compiler.
#[local] Instance demo_target : Target := default_target.
#[local] Instance demo_alloc : Allocator := limit_allocator default_target 100000.
#[local] Instance demo_size_func : SizeOf FuncEntity := 8.
#[local] Instance demo_size_type : SizeOf FuncType := 8.
#[local] Instance demo_size_trampoline : SizeOf Z := 8.

Definition demo_handle (n : Z) : Handle := {| st_store := 7; st_value := {| rh_raw := n |} |}.

(** ** Definitions *)

(** [a.x], [a.y] and [b.y]; then [a] as [b]. *)
Definition demo_calls : list (LinkerCall (Tr := Z)) :=
  [Call_define [97] [120] (Extern_Table (demo_handle 1)); Call_define [97] [121] (Extern_Table (demo_handle 2));
   Call_define [98] [121] (Extern_Table (demo_handle 3)); Call_alias_module [97] [98]].

Notation demo_linker := (run_calls demo_calls (Linker_new 0)).2.

(** The alias is refused for [b.y], and [b.x] stays defined. *)
Example alias_is_partial :
  (run_calls demo_calls (Linker_new 0)).1 =
    [Ok tt; Ok tt; Ok tt; Err (DuplicateDefinition (ImportName_new [98] [121]))] /\
  Inner_get_definition (lk_inner demo_linker) [98] [120] = Some (Definition_Extern (Extern_Table (demo_handle 1))).
Proof. split; vm_compute; reflexivity. Qed.

Lemma linker_refines_map_witness : exists a, lm_calls lm_new demo_calls (run_calls demo_calls (Linker_new 0)).1 a /\
  lm_definitions a !! ([98], [120]) = Some (Definition_Extern (Extern_Table (demo_handle 1))).
Proof.
  destruct (linker_refines_map 0 demo_calls demo_linker (run_calls demo_calls (Linker_new 0)).1) as (a & Hc & Hl).
  - apply Z.leb_le. vm_compute. reflexivity.
  - apply surjective_pairing.
  - exists a. split; [exact Hc|]. rewrite <-Hl. vm_compute. reflexivity.
Defined.

(** ** Imports *)

Definition demo_engine (fuel_costs : Fuel.FuelCostsProvider) : EngineInner (TranslatorAllocs := unit) (ValidatorAllocs := unit) :=
  EngineInner_new 0 (Config_default tt fuel_costs).

Definition demo_store : Store_ StoreLimits Z unit unit EngineInner := {|
  sto_pruned := (StoreInner_new 7 false Fuel.FuelCostsProvider_default, None);
  sto_engine_id := 0; sto_engine := demo_engine Fuel.FuelCostsProvider_default; sto_trampolines := Arena_new;
  sto_call_hook := None; sto_data := tt |}.

Definition demo_host_func : HostFuncTrampolineEntity Z :=
  {| hft_ty := {| ft_inner := FT_Inline 1 1 [ValType_I32; ValType_I64] |}; hft_trampoline := 40 |}.

Notation demo_host_linker := (run_calls [Call_define [109] [116] (Extern_Table (demo_handle 1));
  Call_func [109] [102] demo_host_func] (Linker_new 0)).2.

Definition demo_imports : list (ImportName * ExternType) :=
  [(ImportName_new [109] [102], ExternType_Func (hft_ty demo_host_func));
   (ImportName_new [109] [116], ExternType_Table {| tt_element := RefType_Func; tt_min := 0; tt_max := None; tt_index_ty := IndexType_I32 |});
   (ImportName_new [109] [103], ExternType_Global {| gt_content := ValType_I32; gt_mutability := Mutability_Const |})].

Notation demo_resolve := (process_imports engine_resolve demo_host_linker).

(** The function and the table are found, the global is not; the function that was
    allocated for the first import stays in the store. *)
Example missing_import_leaves_function :
  (demo_resolve (take 2 demo_imports) demo_store).1 = Ok [Extern_Func (demo_handle 1); Extern_Table (demo_handle 1)] /\
  (demo_resolve demo_imports demo_store).1 =
    Err (MissingDefinition (ImportName_new [109] [103]) (ExternType_Global {| gt_content := ValType_I32; gt_mutability := Mutability_Const |})) /\
  length (items (si_funcs (sto_inner (demo_resolve demo_imports demo_store).2))) = 1%nat.
Proof. split_and!; vm_compute; reflexivity. Qed.

Lemma process_imports_spec_witness : exists h, 
  (demo_resolve (take 2 demo_imports) demo_store).1 = Ok [Extern_Func h; Extern_Table (demo_handle 1)] /\
  host_func_at engine_resolve (demo_resolve (take 2 demo_imports) demo_store).2 h demo_host_func.
Proof.
  exists (demo_handle 1). assert ((demo_resolve (take 2 demo_imports) demo_store).1 =
    Ok [Extern_Func (demo_handle 1); Extern_Table (demo_handle 1)]) as E by (vm_compute; reflexivity).
  split; [exact E|].
  destruct (process_imports_spec engine_resolve demo_host_linker (take 2 demo_imports) demo_store
    (Ok [Extern_Func (demo_handle 1); Extern_Table (demo_handle 1)]) (demo_resolve (take 2 demo_imports) demo_store).2)
    as [_ Hf].
  - apply DedupArena_new_ok.
  - vm_compute. reflexivity.
  - rewrite <-E. apply surjective_pairing.
  - apply Forall2_cons_1 in Hf as [(def & Hd & _ & Hg) _].
    assert (definition_of demo_host_linker (ImportName_new [109] [102]) = Some (Definition_HostFunc demo_host_func)) as Hd'
      by (vm_compute; reflexivity).
    cbn [fst] in Hd. rewrite Hd' in Hd. injection Hd as <-. destruct Hg as (h & Hh & Hat). injection Hh as <-. exact Hat.
Defined.
