(* ===== verification/Control.v ===== *)
(** * The control stack of the translator

    [translator/func/stack/control.rs]: control frames, the parameters of
    branches to them, the operands memorized for [else] and the cached position
    of the fuel operator of the current block. *)

From Stdlib Require Import ZArith Lia.
From stdpp Require Import base option decidable numbers list.
From S2P Require Import Prelude Value Slot Locals Operands OpFields Codec EncodedOps Encoder Header.
Local Open Scope Z_scope.

(** ** Registers *)

Inductive RegKind : Type := Ireg | Freg32 | Freg64.

#[export] Instance RegKind_eq_dec : EqDecision RegKind.
Proof. solve_decision. Defined.

Definition RegKind_new (ty : ValType) : option RegKind :=
  match ty with
  | ValType_I32 | ValType_FuncRef | ValType_ExternRef | ValType_I64 => Some Ireg
  | ValType_F32 => Some Freg32
  | ValType_F64 => Some Freg64
  | ValType_V128 => None
  end.

Definition RegKind_matches_ty (self : RegKind) (ty : ValType) : bool :=
  match self, ty with
  | Ireg, (ValType_I32 | ValType_FuncRef | ValType_ExternRef | ValType_I64) => true
  | Freg32, ValType_F32 => true
  | Freg64, ValType_F64 => true
  | _, _ => false
  end.

(** ** Branch parameters *)

(** The registers, from the last operand on. *)
Inductive BranchParamRegs : Type :=
| Regs_One (kind : RegKind)
| Regs_Two (kind0 kind1 : RegKind)
| Regs_Three (kind0 kind1 kind2 : RegKind).

Definition ne_kind (a b : RegKind) : bool := negb (bool_decide (a = b)).

Definition BranchParamRegs_new_one {E} (kind : RegKind) : res E BranchParamRegs := Ok (Regs_One kind).
Definition BranchParamRegs_new_two {E} (kind0 kind1 : RegKind) : res E BranchParamRegs :=
  assert_that (ne_kind kind0 kind1);; Ok (Regs_Two kind0 kind1).
Definition BranchParamRegs_new_three {E} (kind0 kind1 kind2 : RegKind) : res E BranchParamRegs :=
  assert_that (ne_kind kind0 kind1);; assert_that (ne_kind kind0 kind2);; assert_that (ne_kind kind1 kind2);;
  Ok (Regs_Three kind0 kind1 kind2).

Definition BranchParamRegs_len (self : BranchParamRegs) : Z :=
  match self with Regs_One _ => 1 | Regs_Two _ _ => 2 | Regs_Three _ _ _ => 3 end.

Definition BranchParamRegs_as_slice {E} (self : BranchParamRegs) : res E (list RegKind) :=
  match self with
  | Regs_One kind => Ok [kind]
  | Regs_Two kind0 kind1 => assert_that (ne_kind kind0 kind1);; Ok [kind0; kind1]
  | Regs_Three kind0 kind1 kind2 =>
      assert_that (ne_kind kind0 kind1);; assert_that (ne_kind kind0 kind2);; assert_that (ne_kind kind1 kind2);;
      Ok [kind0; kind1; kind2]
  end.

Record BranchParams : Type := {
  bp_temp_slots : BoundedSlotSpan;
  bp_temp_len : Z;
  bp_regs : option BranchParamRegs
}.

Definition BranchParams_len_regs (self : BranchParams) : Z := from_option BranchParamRegs_len 0 (bp_regs self).
Definition BranchParams_len_temps (self : BranchParams) : Z := bp_temp_len self.
(** The addition of [u16]s. *)
Definition BranchParams_len {E} (self : BranchParams) : res E Z :=
  expect (checked_add 16 (BranchParams_len_temps self) (BranchParams_len_regs self)).
Definition BranchParams_is_empty {E} (self : BranchParams) : res E bool :=
  len ← BranchParams_len self; Ok (len =? 0).
Definition BranchParams_regs {E} (self : BranchParams) : res E (list RegKind) :=
  match bp_regs self with Some regs => BranchParamRegs_as_slice regs | None => Ok [] end.
Definition BranchParams_claims_reg {E} (self : BranchParams) (kind : RegKind) : res E bool :=
  regs ← BranchParams_regs self; Ok (bool_decide (kind ∈ regs)).

(** ** Frames *)

Inductive ControlFrameKind : Type := Kind_Block | Kind_Loop | Kind_If | Kind_Else.

Inductive IfReachability : Type := If_Both (else_label : LabelRef) | If_OnlyThen | If_OnlyElse.
Inductive ElseReachability : Type :=
| Else_Both (is_end_of_then_reachable : bool)
| Else_OnlyThen (is_end_of_then_reachable : bool)
| Else_OnlyElse.

(** The fields all frames share. *)
Record FrameBase : Type := {
  fb_ty : BlockTypeInner;
  fb_height : Z;
  fb_branch_params : BranchParams;
  fb_is_branched_to : bool;
  fb_fuel_pos : option BytePos;
  fb_label : LabelRef
}.

(** The blocks and loops have no other fields, an [if] also remembers the
    registers on entry. *)
Inductive ControlFrame : Type :=
| Frame_Block (frame : FrameBase)
| Frame_Loop (frame : FrameBase)
| Frame_If (frame : FrameBase) (reachability : IfReachability) (registers : RegisterMap)
| Frame_Else (frame : FrameBase) (reachability : ElseReachability)
| Frame_Unreachable (kind : ControlFrameKind).

Definition is_if_both (reachability : IfReachability) : bool :=
  match reachability with If_Both _ => true | _ => false end.

(** [StackHeight::from]. *)
Definition StackHeight_from {E} (height : Z) : res E Z := expect (try_from_u 16 height).

(** [ControlFrameBase]: queries of unreachable frames panic. *)
Definition ControlFrame_base {E} (self : ControlFrame) : res E FrameBase :=
  match self with
  | Frame_Block frame | Frame_Loop frame | Frame_If frame _ _ | Frame_Else frame _ => Ok frame
  | Frame_Unreachable _ => Panic
  end.
Definition ControlFrame_kind {E} (self : ControlFrame) : res E ControlFrameKind :=
  match self with
  | Frame_Block _ => Ok Kind_Block
  | Frame_Loop _ => Ok Kind_Loop
  | Frame_If _ _ _ => Ok Kind_If
  | Frame_Else _ _ => Ok Kind_Else
  | Frame_Unreachable _ => Panic
  end.
Definition ControlFrame_ty {E} (self : ControlFrame) : res E BlockTypeInner := fb_ty <$> ControlFrame_base self.
Definition ControlFrame_height {E} (self : ControlFrame) : res E Z := fb_height <$> ControlFrame_base self.
Definition ControlFrame_branch_params {E} (self : ControlFrame) : res E BranchParams :=
  fb_branch_params <$> ControlFrame_base self.
Definition ControlFrame_label {E} (self : ControlFrame) : res E LabelRef := fb_label <$> ControlFrame_base self.
Definition ControlFrame_is_branched_to {E} (self : ControlFrame) : res E bool :=
  fb_is_branched_to <$> ControlFrame_base self.
Definition ControlFrame_fuel_pos {E} (self : ControlFrame) : res E (option BytePos) :=
  fb_fuel_pos <$> ControlFrame_base self.

Definition branch_to (frame : FrameBase) : FrameBase := {|
  fb_ty := fb_ty frame; fb_height := fb_height frame; fb_branch_params := fb_branch_params frame;
  fb_is_branched_to := true; fb_fuel_pos := fb_fuel_pos frame; fb_label := fb_label frame
|}.
Definition ControlFrame_branch_to {E} (self : ControlFrame) : res E ControlFrame :=
  match self with
  | Frame_Block frame => Ok (Frame_Block (branch_to frame))
  | Frame_Loop frame => Ok (Frame_Loop (branch_to frame))
  | Frame_If frame reachability registers => Ok (Frame_If (branch_to frame) reachability registers)
  | Frame_Else frame reachability => Ok (Frame_Else (branch_to frame) reachability)
  | Frame_Unreachable _ => Panic
  end.

Definition is_else_reachable (reachability : IfReachability) : bool :=
  match reachability with If_Both _ | If_OnlyElse => true | If_OnlyThen => false end.
Definition is_end_of_then_reachable (reachability : ElseReachability) : bool :=
  match reachability with
  | Else_Both is_end_of_then_reachable | Else_OnlyThen is_end_of_then_reachable => is_end_of_then_reachable
  | Else_OnlyElse => false
  end.

(** ** Operands of [else] *)

Record ElseOperands : Type := { eo_ends : list nat; eo_operands : list Operand }.

Definition ElseOperands_reset (_ : ElseOperands) : ElseOperands := {| eo_ends := []; eo_operands := [] |}.

Definition ElseOperands_push (operands : list Operand) (self : ElseOperands) : ElseOperands :=
  let all := eo_operands self ++ operands in
  {| eo_ends := eo_ends self ++ [length all]; eo_operands := all |}.

(** [drain(start..end)] panics if [start > end] or [end] is out of bounds. *)
Definition ElseOperands_pop {E} (self : ElseOperands) : res E (option (list Operand) * ElseOperands) :=
  match last (eo_ends self) with
  | None => Ok (None, self)
  | Some en =>
      let ends := removelast (eo_ends self) in
      let start := default 0%nat (last ends) in
      assert_that ((start <=? en)%nat && (en <=? length (eo_operands self))%nat);;
      Ok (Some (drop start (take en (eo_operands self))),
          {| eo_ends := ends;
             eo_operands := take start (eo_operands self) ++ drop en (eo_operands self) |})
  end.

(** ** The stack *)

Record ControlStack : Type := {
  frames : list ControlFrame;
  cs_fuel_pos : option BytePos;
  else_operands : ElseOperands;
  orphaned_else_operands : bool
}.

Definition ControlStack_default : ControlStack := {|
  frames := []; cs_fuel_pos := None; else_operands := {| eo_ends := []; eo_operands := [] |};
  orphaned_else_operands := false
|}.
Definition ControlStack_reset (self : ControlStack) : ControlStack := {|
  frames := []; cs_fuel_pos := cs_fuel_pos self; else_operands := ElseOperands_reset (else_operands self);
  orphaned_else_operands := false
|}.

Definition ControlStack_height (self : ControlStack) : nat := length (frames self).
Definition ControlStack_is_empty (self : ControlStack) : bool := (ControlStack_height self =? 0)%nat.

Definition ControlStack_fuel_pos {E} (self : ControlStack) : res E (option BytePos) :=
  assert_that (negb (ControlStack_is_empty self));; Ok (cs_fuel_pos self).

Definition set_frames (l : list ControlFrame) (self : ControlStack) : ControlStack :=
  {| frames := l; cs_fuel_pos := cs_fuel_pos self; else_operands := else_operands self;
     orphaned_else_operands := orphaned_else_operands self |}.

(** The top of the stack is the end of the list. *)
Definition push_frame {E} (frame : ControlFrame) (fuel_pos : option BytePos) : M ControlStack E unit :=
  self ← get_st;
  put_st {| frames := frames self ++ [frame]; cs_fuel_pos := fuel_pos; else_operands := else_operands self;
            orphaned_else_operands := orphaned_else_operands self |}.

Definition ControlStack_push_unreachable {E} (kind : ControlFrameKind) : M ControlStack E unit :=
  self ← get_st;
  assert_m (negb (orphaned_else_operands self));;
  put_st (set_frames (frames self ++ [Frame_Unreachable kind]) self).

Definition ControlStack_push_block {E} (ty : BlockTypeInner) (height : Z) (branch_params : BranchParams)
    (label : LabelRef) (fuel_pos : option BytePos) : M ControlStack E unit :=
  self ← get_st;
  assert_m (negb (orphaned_else_operands self));;
  height ← lift (StackHeight_from height);
  push_frame (Frame_Block {|
    fb_ty := ty; fb_height := height; fb_branch_params := branch_params; fb_is_branched_to := false;
    fb_fuel_pos := fuel_pos; fb_label := label |}) fuel_pos.

Definition ControlStack_push_loop {E} (ty : BlockTypeInner) (height : Z) (branch_params : BranchParams)
    (label : LabelRef) (fuel_pos : option BytePos) : M ControlStack E ControlFrame :=
  self ← get_st;
  assert_m (negb (orphaned_else_operands self));;
  height ← lift (StackHeight_from height);
  let loop_frame := Frame_Loop {|
    fb_ty := ty; fb_height := height; fb_branch_params := branch_params; fb_is_branched_to := false;
    fb_fuel_pos := fuel_pos; fb_label := label |} in
  push_frame loop_frame fuel_pos;;
  mret loop_frame.

Definition ControlStack_push_if {E} (ty : BlockTypeInner) (height : Z) (branch_params : BranchParams)
    (label : LabelRef) (fuel_pos : option BytePos) (reachability : IfReachability)
    (operands : list Operand) (registers : RegisterMap) : M ControlStack E unit :=
  self ← get_st;
  assert_m (negb (orphaned_else_operands self));;
  height ← lift (StackHeight_from height);
  push_frame (Frame_If {|
    fb_ty := ty; fb_height := height; fb_branch_params := branch_params; fb_is_branched_to := false;
    fb_fuel_pos := fuel_pos; fb_label := label |} reachability registers) (cs_fuel_pos self);;
  self ← get_st;
  put_st {| frames := frames self; cs_fuel_pos := fuel_pos;
            else_operands := if is_if_both reachability then ElseOperands_push operands (else_operands self)
                             else else_operands self;
            orphaned_else_operands := orphaned_else_operands self |}.

Definition ControlStack_push_else {E} (if_frame : FrameBase) (if_reachability : IfReachability)
    (fuel_pos : option BytePos) (is_end_of_then_reachable : bool) : M ControlStack E unit :=
  self ← get_st;
  assert_m (negb (orphaned_else_operands self));;
  let reachability := match if_reachability with
                      | If_Both _ => Else_Both is_end_of_then_reachable
                      | If_OnlyThen => Else_OnlyThen is_end_of_then_reachable
                      | If_OnlyElse => Else_OnlyElse
                      end in
  height ← lift (StackHeight_from (fb_height if_frame));
  push_frame (Frame_Else {|
    fb_ty := fb_ty if_frame; fb_height := height; fb_branch_params := fb_branch_params if_frame;
    fb_is_branched_to := fb_is_branched_to if_frame; fb_fuel_pos := fuel_pos; fb_label := fb_label if_frame |}
    reachability) fuel_pos.

(** The frame at a depth below the top. *)
Definition ControlStack_get {E} (self : ControlStack) (depth : nat) : res E ControlFrame :=
  expect (reverse (frames self) !! depth).

Definition ControlStack_pop {E} : M ControlStack E (option ControlFrame) :=
  self ← get_st;
  assert_m (negb (orphaned_else_operands self));;
  match last (frames self) with
  | None => mret None
  | Some frame =>
      put_st (set_frames (removelast (frames self)) self);;
      self ← get_st;
      fuel_pos ← lift match frame with
                      | Frame_Block _ | Frame_Unreachable _ => Ok (cs_fuel_pos self)
                      | _ => top ← ControlStack_get self 0; ControlFrame_fuel_pos top
                      end;
      let orphaned := match frame with Frame_If _ reachability _ => is_if_both reachability | _ => false end in
      put_st {| frames := frames self; cs_fuel_pos := fuel_pos; else_operands := else_operands self;
                orphaned_else_operands := orphaned |};;
      mret (Some frame)
  end.

Definition ControlStack_pop_else_operands {E} : M ControlStack E (list Operand) :=
  self ← get_st;
  assert_m (orphaned_else_operands self);;
  '(popped, rest) ← lift (ElseOperands_pop (else_operands self));
  operands ← lift (expect popped);
  put_st {| frames := frames self; cs_fuel_pos := cs_fuel_pos self; else_operands := rest;
            orphaned_else_operands := false |};;
  mret operands.

(** [get_mut]: writes the frame at a depth. *)
Definition ControlStack_set {E} (depth : nat) (frame : ControlFrame) : M ControlStack E unit :=
  self ← get_st;
  put_st (set_frames (reverse (<[depth := frame]> (reverse (frames self)))) self).

Definition is_root (self : ControlStack) (depth : nat) : bool :=
  match frames self with [] => false | _ => (depth =? ControlStack_height self - 1)%nat end.

Inductive AcquiredTarget : Type := Target_Return (frame : ControlFrame) | Target_Branch (frame : ControlFrame).

Definition AcquiredTarget_control_frame (self : AcquiredTarget) : ControlFrame :=
  match self with Target_Return frame | Target_Branch frame => frame end.

Definition acquire_target {E} (self : ControlStack) (depth : nat) : res E AcquiredTarget :=
  frame ← ControlStack_get self depth;
  Ok (if is_root self depth then Target_Return frame else Target_Branch frame).

(** Marks the acquired frame as branched to. *)
Definition branch_to_target {E} (depth : nat) : M ControlStack E unit :=
  self ← get_st;
  frame ← lift (ControlStack_get self depth);
  frame ← lift (ControlFrame_branch_to frame);
  ControlStack_set depth frame.
