(* ===== verification/ControlSpec.v ===== *)
(** * The control stack refines a stack of frames

    An abstract control stack keeps the operands of an [else] with the frame they
    belong to, and looks the fuel operator up in the innermost reachable frame.
    The control stack of [Control] keeps all operands in one buffer and caches
    the position of the fuel operator; its results are those of the abstract one. *)

From Stdlib Require Import ZArith Lia.
From stdpp Require Import base tactics option decidable numbers list.
From S2P Require Import Prelude Value Slot Locals Operands OpFields Codec EncodedOps Encoder Header Control.
Local Open Scope Z_scope.

(** ** Operands of [else] as a list of segments *)

Fixpoint seg_ends (n : nat) (segs : list (list Operand)) : list nat :=
  match segs with
  | [] => []
  | seg :: segs => (n + length seg)%nat :: seg_ends (n + length seg) segs
  end.

Definition else_repr (eo : ElseOperands) (segs : list (list Operand)) : Prop :=
  eo_operands eo = concat segs /\ eo_ends eo = seg_ends 0 segs.

Lemma seg_ends_app n segs seg :
  seg_ends n (segs ++ [seg]) = seg_ends n segs ++ [(n + length (concat segs) + length seg)%nat].
Proof.
  revert n. induction segs as [|s segs IH]; intros n; cbn; [do 2 f_equal; lia|].
  rewrite IH, length_app. do 3 f_equal. lia.
Qed.

Lemma last_seg_ends segs : default 0%nat (last (seg_ends 0 segs)) = length (concat segs).
Proof.
  induction segs as [|seg segs _] using rev_ind; [done|].
  rewrite seg_ends_app, last_snoc, concat_app, length_app. cbn. rewrite app_nil_r. done.
Qed.

Lemma else_repr_push eo segs operands :
  else_repr eo segs -> else_repr (ElseOperands_push operands eo) (segs ++ [operands]).
Proof.
  intros [Ho He]. split; cbn.
  - by rewrite Ho, concat_app; cbn; rewrite app_nil_r.
  - by rewrite Ho, He, seg_ends_app, length_app.
Qed.

Lemma else_repr_pop {E} eo segs seg : else_repr eo (segs ++ [seg]) ->
  exists eo', ElseOperands_pop (E := E) eo = Ok (Some seg, eo') /\ else_repr eo' segs.
Proof.
  intros [Ho He]. unfold ElseOperands_pop.
  rewrite He, seg_ends_app, last_snoc. cbn [Nat.add].
  rewrite removelast_last, last_seg_ends.
  rewrite concat_app in Ho. cbn in Ho. rewrite app_nil_r in Ho.
  rewrite Ho, length_app.
  replace ((length (concat segs) <=? length (concat segs) + length seg)%nat) with true
    by (symmetry; apply Nat.leb_le; lia).
  replace ((length (concat segs) + length seg <=? length (concat segs) + length seg)%nat) with true
    by (symmetry; apply Nat.leb_le; lia).
  cbn [andb assert_that]. eexists. split.
  - unfold mbind, res_bind. rewrite take_ge by (rewrite length_app; lia). by rewrite drop_app_length.
  - split; cbn; [|done]. rewrite take_app_length, drop_ge by (rewrite length_app; lia). apply app_nil_r.
Qed.

(** ** The abstract stack *)

Definition is_Some_b {A} (o : option A) : bool := match o with Some _ => true | None => false end.

Record AControl : Type := {
  a_frames : list (ControlFrame * list Operand);
  a_orphan : option (list Operand)
}.

(** What matters of a reachable frame for the fuel: whether it is a block, which
    inherits the fuel operator, and its fuel operator. *)
Definition frame_tag (frame : ControlFrame) : option (bool * option BytePos) :=
  match frame with
  | Frame_Block f => Some (true, fb_fuel_pos f)
  | Frame_Loop f | Frame_If f _ _ | Frame_Else f _ => Some (false, fb_fuel_pos f)
  | Frame_Unreachable _ => None
  end.

(** The fuel operator of the innermost reachable frame. *)
Definition tags (a : AControl) : list (bool * option BytePos) := omap frame_tag (a_frames a).*1.
Definition a_fuel (a : AControl) : option (option BytePos) := snd <$> last (tags a).

Definition frame_segs (x : ControlFrame * list Operand) : option (list Operand) :=
  match fst x with Frame_If _ (If_Both _) _ => Some (snd x) | _ => None end.

Inductive ControlOp : Type :=
| C_push_unreachable (kind : ControlFrameKind)
| C_push_block (ty : BlockTypeInner) (height : Z) (params : BranchParams) (label : LabelRef) (fuel : option BytePos)
| C_push_loop (ty : BlockTypeInner) (height : Z) (params : BranchParams) (label : LabelRef) (fuel : option BytePos)
| C_push_if (ty : BlockTypeInner) (height : Z) (params : BranchParams) (label : LabelRef) (fuel : option BytePos)
    (reachability : IfReachability) (operands : list Operand) (registers : RegisterMap)
| C_push_else (frame : FrameBase) (reachability : IfReachability) (fuel : option BytePos) (then_reachable : bool)
| C_pop
| C_pop_else_operands
| C_branch_to (depth : nat)
| C_fuel_pos.

Inductive ControlObs : Type :=
| Obs_unit | Obs_frame (frame : option ControlFrame) | Obs_operands (operands : list Operand)
| Obs_fuel (fuel : option BytePos).

Section Machine.
Context {E : Type}.

Definition run_op (op : ControlOp) : M ControlStack E ControlObs :=
  match op with
  | C_push_unreachable kind => ControlStack_push_unreachable kind;; mret Obs_unit
  | C_push_block ty height params label fuel => ControlStack_push_block ty height params label fuel;; mret Obs_unit
  | C_push_loop ty height params label fuel =>
      frame ← ControlStack_push_loop ty height params label fuel; mret (Obs_frame (Some frame))
  | C_push_if ty height params label fuel reachability operands registers =>
      ControlStack_push_if ty height params label fuel reachability operands registers;; mret Obs_unit
  | C_push_else frame reachability fuel then_reachable =>
      ControlStack_push_else frame reachability fuel then_reachable;; mret Obs_unit
  | C_pop => frame ← ControlStack_pop; mret (Obs_frame frame)
  | C_pop_else_operands => operands ← ControlStack_pop_else_operands; mret (Obs_operands operands)
  | C_branch_to depth => branch_to_target depth;; mret Obs_unit
  | C_fuel_pos => self ← get_st; fuel ← lift (ControlStack_fuel_pos self); mret (Obs_fuel fuel)
  end.

(** A push of the abstract stack: not with operands of an [else] pending, and
    only at heights that fit. *)
Definition a_push (height : Z) (frame : ControlFrame) (operands : list Operand) (obs : ControlObs)
    (a : AControl) : res E (ControlObs * AControl) :=
  if a_orphan a then Panic
  else if 2 ^ 16 <=? height then Panic
  else Ok (obs, {| a_frames := a_frames a ++ [(frame, operands)]; a_orphan := None |}).

Definition a_base ty height params label fuel : FrameBase := {|
  fb_ty := ty; fb_height := height; fb_branch_params := params; fb_is_branched_to := false;
  fb_fuel_pos := fuel; fb_label := label |}.

Definition a_run_op (op : ControlOp) (a : AControl) : res E (ControlObs * AControl) :=
  match op with
  | C_push_unreachable kind => a_push 0 (Frame_Unreachable kind) [] Obs_unit a
  | C_push_block ty height params label fuel =>
      a_push height (Frame_Block (a_base ty height params label fuel)) [] Obs_unit a
  | C_push_loop ty height params label fuel =>
      let frame := Frame_Loop (a_base ty height params label fuel) in
      a_push height frame [] (Obs_frame (Some frame)) a
  | C_push_if ty height params label fuel reachability operands registers =>
      a_push height (Frame_If (a_base ty height params label fuel) reachability registers) operands Obs_unit a
  | C_push_else frame reachability fuel then_reachable =>
      a_push (fb_height frame)
        (Frame_Else {| fb_ty := fb_ty frame; fb_height := fb_height frame; fb_branch_params := fb_branch_params frame;
                       fb_is_branched_to := fb_is_branched_to frame; fb_fuel_pos := fuel; fb_label := fb_label frame |}
           match reachability with
           | If_Both _ => Else_Both then_reachable
           | If_OnlyThen => Else_OnlyThen then_reachable
           | If_OnlyElse => Else_OnlyElse
           end) [] Obs_unit a
  | C_pop =>
      if a_orphan a then Panic else
      match last (a_frames a) with
      | None => Ok (Obs_frame None, a)
      | Some (frame, operands) =>
          let rest := removelast (a_frames a) in
          let enclosed := match frame with
                          | Frame_Block _ | Frame_Unreachable _ => true
                          | _ => from_option (fun x => is_Some_b (frame_tag x.1)) false (last rest)
                          end in
          if enclosed : bool
          then Ok (Obs_frame (Some frame), {| a_frames := rest; a_orphan := frame_segs (frame, operands) |})
          else Panic
      end
  | C_pop_else_operands =>
      match a_orphan a with
      | Some operands => Ok (Obs_operands operands, {| a_frames := a_frames a; a_orphan := None |})
      | None => Panic
      end
  | C_branch_to depth =>
      match reverse (a_frames a) !! depth with
      | Some (frame, operands) =>
          frame ← ControlFrame_branch_to frame;
          Ok (Obs_unit, {| a_frames := reverse (<[depth := (frame, operands)]> (reverse (a_frames a)));
                           a_orphan := a_orphan a |})
      | None => Panic
      end
  | C_fuel_pos => match a_fuel a with Some fuel => Ok (Obs_fuel fuel, a) | None => Panic end
  end.

(** A block inherits the fuel operator, unless it is the body of the function;
    unreachable frames are nested in other frames. *)
Definition op_ok (op : ControlOp) (a : AControl) : Prop :=
  match op with
  | C_push_unreachable _ => a_frames a <> []
  | C_push_block _ _ _ _ fuel => a_frames a = [] \/ a_fuel a = Some fuel
  | _ => True
  end.

Record control_repr (cs : ControlStack) (a : AControl) : Prop := {
  repr_frames : frames cs = (a_frames a).*1;
  repr_else : else_repr (else_operands cs) (omap frame_segs (a_frames a) ++ option_list (a_orphan a));
  repr_orphan : orphaned_else_operands cs = is_Some_b (a_orphan a);
  repr_root : from_option (fun x => is_Some (frame_tag x.1)) True (head (a_frames a));
  repr_fuel : forall fuel, a_fuel a = Some fuel -> cs_fuel_pos cs = fuel;
  repr_blocks : forall i fuel t, tags a !! S i = Some (true, fuel) -> tags a !! i = Some t -> t.2 = fuel
}.

(** ** Refinement *)

Lemma tags_snoc a x o : tags {| a_frames := a_frames a ++ [x]; a_orphan := o |} = tags a ++ option_list (frame_tag x.1).
Proof. unfold tags. cbn. rewrite fmap_app, omap_app. cbn. by destruct (frame_tag x.1). Qed.

Lemma tags_nil cs a : control_repr cs a -> (tags a = [] <-> a_frames a = []).
Proof.
  intros H. pose proof (repr_root _ _ H) as Hr. unfold tags. destruct (a_frames a) as [|x l]; [done|].
  cbn in *. destruct Hr as [t Ht]. rewrite Ht. done.
Qed.

Lemma a_fuel_nil cs a : control_repr cs a -> (a_fuel a = None <-> a_frames a = []).
Proof.
  intros H. unfold a_fuel. rewrite fmap_None, last_None. by eapply tags_nil.
Qed.

(** Pushing a frame with the fuel operator it is to have. *)
Lemma push_refines cs a frame operands segs fuel : control_repr cs a ->
  a_orphan a = None ->
  (frame_tag frame = None -> a_frames a <> []) ->
  (forall t, frame_tag frame = Some t -> t.2 = fuel) ->
  (frame_tag frame = None -> fuel = cs_fuel_pos cs) ->
  (forall f, frame_tag frame = Some (true, f) -> a_frames a = [] \/ a_fuel a = Some f) ->
  else_repr segs (omap frame_segs (a_frames a) ++ option_list (frame_segs (frame, operands))) ->
  control_repr {| frames := frames cs ++ [frame]; cs_fuel_pos := fuel; else_operands := segs;
                  orphaned_else_operands := false |}
               {| a_frames := a_frames a ++ [(frame, operands)]; a_orphan := None |}.
Proof.
  intros H Ho Hun Hf Hkeep Hblk Hs. pose proof (tags_nil _ _ H) as Hnil.
  split; cbn [frames else_operands orphaned_else_operands cs_fuel_pos a_frames a_orphan].
  - by rewrite fmap_app, (repr_frames _ _ H).
  - rewrite omap_app, app_nil_r. cbn. by destruct (frame_segs (frame, operands)); rewrite ?app_nil_r in *.
  - done.
  - pose proof (repr_root _ _ H) as Hr. destruct (a_frames a) as [|x l]; [|done]. cbn.
    destruct (frame_tag frame); [by eexists|by destruct Hun].
  - intros f Hf'. unfold a_fuel in Hf'. rewrite tags_snoc in Hf'. cbn [fst] in Hf'.
    destruct (frame_tag frame) as [t|] eqn:Et; cbn in Hf'.
    + rewrite last_snoc in Hf'. cbn in Hf'. simplify_eq. symmetry. by apply Hf.
    + rewrite app_nil_r in Hf'. rewrite Hkeep by done. by apply (repr_fuel _ _ H).
  - intros i f t. rewrite tags_snoc. cbn [fst]. destruct (frame_tag frame) as [t'|] eqn:Et; cbn.
    2: { rewrite app_nil_r. apply (repr_blocks _ _ H). }
    intros [Hi|[Hi Hi2]]%lookup_app_Some.
    + intros Ht. eapply (repr_blocks _ _ H); [done|]. rewrite lookup_app_l in Ht; [done|].
      apply lookup_lt_Some in Hi. lia.
    + apply list_lookup_singleton_Some in Hi2 as [Hi2 ->]. rewrite lookup_app_l by lia. intros Ht.
      destruct (Hblk f eq_refl) as [Hn|Hn].
      * apply Hnil in Hn. by rewrite Hn in Ht.
      * unfold a_fuel in Hn. apply fmap_Some in Hn as (t2 & Hl & ->).
        rewrite last_lookup in Hl. replace (pred (length (tags a))) with i in Hl by lia. congruence.
Qed.

Lemma omap_app_tags (l : list (ControlFrame * list Operand)) x o :
  tags {| a_frames := l ++ [x]; a_orphan := o |} =
  tags {| a_frames := l; a_orphan := o |} ++ option_list (frame_tag x.1).
Proof. unfold tags. cbn. rewrite fmap_app, omap_app. cbn. by destruct (frame_tag x.1). Qed.

(** Popping a frame under which the fuel operator is as before or looked up. *)
Lemma pop_refines cs a rest frame operands fuel : control_repr cs a ->
  a_orphan a = None -> a_frames a = rest ++ [(frame, operands)] ->
  (forall f, snd <$> last (omap frame_tag rest.*1) = Some f -> fuel = f) ->
  control_repr {| frames := rest.*1; cs_fuel_pos := fuel; else_operands := else_operands cs;
                  orphaned_else_operands := is_Some_b (frame_segs (frame, operands)) |}
               {| a_frames := rest; a_orphan := frame_segs (frame, operands) |}.
Proof.
  intros H Ho Hfr Hfuel. split; cbn [frames else_operands orphaned_else_operands cs_fuel_pos a_frames a_orphan].
  - done.
  - pose proof (repr_else _ _ H) as Hs. rewrite Ho, Hfr, omap_app, app_nil_r in Hs. cbn in *.
    by destruct (frame_segs (frame, operands)).
  - done.
  - pose proof (repr_root _ _ H) as Hr. rewrite Hfr in Hr. by destruct rest.
  - intros f Hf. by apply Hfuel.
  - intros i f t Hi Ht. eapply (repr_blocks _ _ H).
    + unfold tags. rewrite Hfr, fmap_app, omap_app. by apply lookup_app_l_Some.
    + unfold tags. rewrite Hfr, fmap_app, omap_app. by apply lookup_app_l_Some.
Qed.

(** The fuel operator below the last frame. *)
Lemma fuel_below cs a rest frame operands : control_repr cs a ->
  a_frames a = rest ++ [(frame, operands)] ->
  (exists f, frame_tag frame = Some (true, f)) \/ frame_tag frame = None ->
  forall f, snd <$> last (omap frame_tag rest.*1) = Some f -> cs_fuel_pos cs = f.
Proof.
  intros H Hfr Ht f Hf.
  assert (tags a = omap frame_tag rest.*1 ++ option_list (frame_tag frame)) as Htags.
  { unfold tags. rewrite Hfr, fmap_app, omap_app. cbn. by destruct (frame_tag frame). }
  destruct Ht as [[f' Ht]|Ht]; rewrite Ht in Htags; cbn in Htags.
  - apply (repr_fuel _ _ H). unfold a_fuel. rewrite Htags, last_snoc. cbn. f_equal.
    apply fmap_Some in Hf as (t & Hl & ->). rewrite last_lookup in Hl.
    symmetry. eapply (repr_blocks _ _ H (pred (length (omap frame_tag rest.*1)))).
    + rewrite Htags. destruct (omap frame_tag rest.*1) as [|t0 l] eqn:El; [done|].
      cbn [length Nat.pred]. by rewrite lookup_app_r, Nat.sub_diag by (cbn; lia).
    + rewrite Htags. by apply lookup_app_l_Some.
  - apply (repr_fuel _ _ H). unfold a_fuel. rewrite Htags, app_nil_r. done.
Qed.

Lemma branch_to_tag frame frame' : ControlFrame_branch_to (E := E) frame = Ok frame' ->
  frame_tag frame' = frame_tag frame /\
  forall operands, frame_segs (frame', operands) = frame_segs (frame, operands).
Proof. destruct frame; intros [= <-]; done. Qed.

Lemma branch_to_target_eq depth cs :
  branch_to_target (E := E) depth cs =
    match reverse (frames cs) !! depth with
    | Some frame =>
        match ControlFrame_branch_to frame with
        | Ok frame' => (Ok tt, set_frames (reverse (<[depth := frame']> (reverse (frames cs)))) cs)
        | Err e => (Err e, cs)
        | Panic => (Panic, cs)
        end
    | None => (Panic, cs)
    end.
Proof.
  unfold branch_to_target, ControlStack_get. rewrite bind_get_st, bind_lift.
  destruct (reverse (frames cs) !! depth); cbn; [|done].
  rewrite bind_lift. by destruct (ControlFrame_branch_to c).
Qed.

Lemma insert_same_view {A B} (f : A -> B) (l : list A) i x y :
  l !! i = Some x -> f y = f x -> f <$> <[i := y]> l = f <$> l.
Proof.
  intros Hi Hf. rewrite list_fmap_insert. apply list_insert_id. by rewrite list_lookup_fmap, Hi, Hf.
Qed.

Lemma branch_refines cs a depth frame frame' operands : control_repr cs a ->
  reverse (a_frames a) !! depth = Some (frame, operands) ->
  ControlFrame_branch_to (E := E) frame = Ok frame' ->
  control_repr (set_frames (reverse (<[depth := frame']> (reverse (frames cs)))) cs)
    {| a_frames := reverse (<[depth := (frame', operands)]> (reverse (a_frames a))); a_orphan := a_orphan a |}.
Proof.
  intros H Hd Hb. destruct (branch_to_tag _ _ Hb) as [Ht Hs].
  set (l' := reverse (<[depth := (frame', operands)]> (reverse (a_frames a)))).
  assert (forall {B} (f : ControlFrame * list Operand -> B),
    f (frame', operands) = f (frame, operands) -> f <$> l' = f <$> a_frames a) as Hview.
  { intros B f Hf. unfold l'. rewrite fmap_reverse, (insert_same_view f _ _ (frame, operands)) by done.
    by rewrite fmap_reverse, reverse_involutive. }
  assert (omap frame_segs l' = omap frame_segs (a_frames a)) as Hsegs.
  { pose proof (Hview _ frame_segs (Hs operands)) as Hv.
    assert (forall l : list (ControlFrame * list Operand), omap frame_segs l = omap id (frame_segs <$> l)) as Ho
      by (intros l; induction l as [|x l IH]; cbn; [done|by rewrite IH]).
    by rewrite !Ho, Hv. }
  assert (tags {| a_frames := l'; a_orphan := a_orphan a |} = tags a) as Htags.
  { pose proof (Hview _ (fun x => frame_tag x.1) Ht) as Hv.
    assert (forall l : list (ControlFrame * list Operand), omap frame_tag l.*1 = omap id ((fun x => frame_tag x.1) <$> l)) as Ho
      by (intros l; induction l as [|x l IH]; cbn; [done|by rewrite IH]).
    unfold tags. cbn. by rewrite !Ho, Hv. }
  split; cbn [frames else_operands orphaned_else_operands cs_fuel_pos a_frames a_orphan set_frames].
  - unfold l'. rewrite fmap_reverse, list_fmap_insert, fmap_reverse. cbn. by rewrite (repr_frames _ _ H).
  - rewrite Hsegs. apply (repr_else _ _ H).
  - apply (repr_orphan _ _ H).
  - pose proof (repr_root _ _ H) as Hr. pose proof (Hview _ (fun x => frame_tag x.1) Ht) as Hv.
    clearbody l'. destruct (a_frames a) as [|x l], l' as [|x' l'']; try done.
    rewrite !fmap_cons in Hv. injection Hv as Hv1 _. cbn in *. by rewrite Hv1.
  - intros f. unfold a_fuel. rewrite Htags. apply (repr_fuel _ _ H).
  - rewrite Htags. apply (repr_blocks _ _ H).
Qed.

(** The fuel operator that is looked up in the frame on top. *)
Lemma top_fuel_eq (rest : list (ControlFrame * list Operand)) cs :
  (top ← ControlStack_get (E := E) (set_frames rest.*1 cs) 0; ControlFrame_fuel_pos top) =
    match (x ← last rest; frame_tag x.1) with Some t => Ok t.2 | None => Panic end.
Proof.
  unfold ControlStack_get. cbn [frames set_frames].
  destruct rest as [|[f o] rest _] using rev_ind; [done|].
  rewrite fmap_app, last_snoc, reverse_app. cbn. by destruct f.
Qed.

(** The cases of a popped frame: kept fuel, or fuel of the frame on top. *)
Lemma pop_fuel frame (rest : list (ControlFrame * list Operand)) cs :
  match frame with
  | Frame_Block _ | Frame_Unreachable _ => Ok (cs_fuel_pos cs)
  | _ => top ← ControlStack_get (E := E) (set_frames rest.*1 cs) 0; ControlFrame_fuel_pos top
  end =
  if match frame with
     | Frame_Block _ | Frame_Unreachable _ => true
     | _ => from_option (fun x => is_Some_b (frame_tag x.1)) false (last rest)
     end
  then Ok match frame with
          | Frame_Block _ | Frame_Unreachable _ => cs_fuel_pos cs
          | _ => default None (snd <$> last (omap frame_tag rest.*1))
          end
  else Panic.
Proof.
  rewrite top_fuel_eq. destruct rest as [|[f o] rest _] using rev_ind; [by destruct frame|].
  rewrite last_snoc, fmap_app, omap_app. cbn. destruct (frame_tag f) as [t|] eqn:Et; cbn.
  - rewrite last_snoc. by destruct frame.
  - by destruct frame.
Qed.

Lemma height_ok (h : Z) :
  StackHeight_from (E := E) h = if 2 ^ 16 <=? h then Panic else Ok h.
Proof. unfold StackHeight_from, try_from_u. repeat case_if; zb; done || lia. Qed.

(** Every operation of the stack does what the abstract one does. *)
Lemma run_op_refines op cs a : control_repr cs a -> op_ok op a ->
  match a_run_op op a with
  | Ok (obs, a') => exists cs', run_op op cs = (Ok obs, cs') /\ control_repr cs' a'
  | Err _ => False
  | Panic => fst (run_op op cs) = Panic
  end.
Proof.
  intros H Hok. unfold a_base. pose proof (repr_orphan _ _ H) as Ho. pose proof (repr_else _ _ H) as He.
  destruct op; cbn [run_op a_run_op]; unfold a_push.
  - (* push_unreachable *)
    unfold ControlStack_push_unreachable. unfold_m. rewrite Ho.
    destruct (a_orphan a) eqn:Ea; cbn in *; [done|]. unfold set_frames. rewrite Ho.
    eexists. split; [done|]. apply (push_refines cs a (Frame_Unreachable kind)); try done.
  - (* push_block *)
    unfold ControlStack_push_block, push_frame. unfold_m. rewrite Ho, height_ok.
    destruct (a_orphan a) eqn:Ea; cbn in *; [done|]. case_if; [done|].
    eexists. split; [done|]. eapply (push_refines cs a); try done; cbn; try naive_solver.
  - unfold ControlStack_push_loop, push_frame. unfold_m. rewrite Ho, height_ok.
    destruct (a_orphan a) eqn:Ea; cbn in *; [done|]. case_if; [done|].
    eexists. split; [done|]. eapply (push_refines cs a); try done; cbn; try naive_solver.
  - unfold ControlStack_push_if, push_frame. unfold_m. rewrite Ho, height_ok.
    destruct (a_orphan a) eqn:Ea; cbn in *; [done|]. case_if; [done|].
    eexists. split; [done|]. eapply (push_refines cs a); try done; cbn; try naive_solver.
    rewrite app_nil_r in He. destruct reachability; cbn; rewrite ?app_nil_r; try done. by apply else_repr_push.
  - unfold ControlStack_push_else, push_frame. unfold_m. rewrite Ho, height_ok.
    destruct (a_orphan a) eqn:Ea; cbn in *; [done|]. case_if; [done|].
    eexists. split; [done|]. eapply (push_refines cs a); try done; cbn; try naive_solver.
  - (* pop *)
    unfold ControlStack_pop. unfold_m. rewrite Ho, (repr_frames _ _ H).
    destruct (a_orphan a) eqn:Ea; cbn in *; [done|].
    destruct (a_frames a) as [|[frame operands] rest _] eqn:Ef using rev_ind; [by eexists|].
    rewrite fmap_app. cbn [fmap list_fmap fst]. rewrite !last_snoc, !removelast_last.
    cbn [frames set_frames else_operands].
    pose proof (pop_fuel frame rest cs) as Hpop. unfold_m. rewrite Hpop.
    case_if; [|done]. eexists. split; [done|].
    replace (match frame with Frame_If _ reachability _ => is_if_both reachability | _ => false end)
      with (is_Some_b (frame_segs (frame, operands)))
      by (by destruct frame as [| |? []| |]).
    apply (pop_refines cs a); [done..|]. intros f Hf.
    assert (default None (snd <$> last (omap frame_tag rest.*1)) = f) as Hlast by (by rewrite Hf).
    destruct frame; try done; eapply (fuel_below cs a); eauto.
  - (* pop_else_operands *)
    unfold ControlStack_pop_else_operands. unfold_m. rewrite Ho.
    destruct (a_orphan a) as [operands|] eqn:Ea; cbn in *; [|done].
    destruct (else_repr_pop (E := E) _ _ _ He) as (eo' & -> & He'). eexists. split; [done|].
    destruct H. split; cbn; rewrite ?app_nil_r; done.
  - (* branch_to *)
    rewrite bind_run, branch_to_target_eq, (repr_frames _ _ H), <-fmap_reverse, list_lookup_fmap.
    destruct (reverse (a_frames a) !! depth) as [[frame operands]|] eqn:Ed; cbn; [|done].
    destruct (ControlFrame_branch_to frame) as [frame'| |] eqn:Eb; cbn; [|by destruct frame|done].
    eexists. split; [done|]. rewrite fmap_reverse, <-(repr_frames _ _ H).
    by eapply branch_refines.
  - (* fuel_pos *)
    rewrite bind_get_st, bind_lift. unfold ControlStack_fuel_pos, ControlStack_is_empty, ControlStack_height.
    pose proof (a_fuel_nil _ _ H) as Hnil. rewrite (repr_frames _ _ H), length_fmap.
    destruct (a_fuel a) as [fuel|] eqn:Ef.
    + destruct (a_frames a) eqn:Efr; [by destruct Hnil as [_ Hn]; discriminate (Hn eq_refl)|]. cbn.
      rewrite (repr_fuel _ _ H fuel Ef). by eexists.
    + by rewrite (proj1 Hnil eq_refl).
Qed.

(** ** Sequences of operations *)

Fixpoint run_ops (ops : list ControlOp) : M ControlStack E (list ControlObs) :=
  match ops with
  | [] => mret []
  | op :: ops => obs ← run_op op; rest ← run_ops ops; mret (obs :: rest)
  end.

Fixpoint a_run_ops (ops : list ControlOp) (a : AControl) : res E (list ControlObs) :=
  match ops with
  | [] => Ok []
  | op :: ops => '(obs, a) ← a_run_op op a; rest ← a_run_ops ops a; Ok (obs :: rest)
  end.

(** Every operation is applied in a state that allows it. *)
Fixpoint ops_ok (ops : list ControlOp) (a : AControl) : Prop :=
  match ops with
  | [] => True
  | op :: ops => op_ok op a /\ match a_run_op op a with Ok (_, a) => ops_ok ops a | _ => True end
  end.

Definition a_empty : AControl := {| a_frames := []; a_orphan := None |}.

Lemma control_repr_empty : control_repr ControlStack_default a_empty.
Proof. by split. Qed.

Lemma run_ops_refines ops cs a : control_repr cs a -> ops_ok ops a ->
  fst (run_ops ops cs) = a_run_ops ops a.
Proof.
  revert cs a. induction ops as [|op ops IH]; intros cs a H Hok; [done|].
  cbn [run_ops a_run_ops]. destruct Hok as [Hop Hok].
  pose proof (run_op_refines op cs a H Hop) as Hr. rewrite bind_run.
  destruct (a_run_op op a) as [[obs a']|e|] eqn:Ea; cbn.
  - destruct Hr as (cs' & -> & H'). rewrite bind_run, <-(IH cs' a' H' Hok).
    by destruct (run_ops ops cs') as [[]].
  - done.
  - by destruct (run_op op cs) as [[]].
Qed.
End Machine.

(** C5: Any sequence of operations on the control stack of the translator,
    started on an empty stack, observes what it observes on a stack of frames
    that keeps the operands of each [else] with its [if] and has no cache:
    operands memorized for an [else] are given back exactly when that [if] ends,
    however [if]s are nested, the fuel operator is always that of the innermost
    reachable frame, and the panics are those of the abstract stack.  The
    sequence must push blocks with the current fuel operator and unreachable
    frames inside other frames, as the translator does. *)
Theorem control_refines ops : ops_ok (E := Empty_set) ops a_empty ->
  fst (run_ops (E := Empty_set) ops ControlStack_default) = a_run_ops ops a_empty.
Proof. intros Hok. apply run_ops_refines; [apply control_repr_empty|done]. Qed.

(** Two nested [if]s: the operands of the inner one are given back first, and a
    block in between uses the fuel operator of the outer one. *)
Definition sample_params : BranchParams :=
  {| bp_temp_slots := {| bspan := {| span_head := {| slot_raw := 0 |} |}; bspan_len := 0 |};
     bp_temp_len := 0; bp_regs := None |}.
Definition sample_operand (n : nat) : Operand :=
  Operand_Local {| lo_temp_slots := {| span_head := {| slot_raw := 0 |} |}; lo_ty := ValType_I32;
                   lo_in_reg := false; lo_local_index := n |}.
Definition sample_ops : list ControlOp := [
  C_push_block BlockType_Empty 0 sample_params 0%nat (Some 0);
  C_push_if BlockType_Empty 1 sample_params 1%nat (Some 8) (If_Both 2%nat) [sample_operand 0] RegisterMap_default;
  C_push_block BlockType_Empty 1 sample_params 3%nat (Some 8);
  C_push_if BlockType_Empty 2 sample_params 4%nat (Some 16) (If_Both 5%nat)
    [sample_operand 1; sample_operand 2] RegisterMap_default;
  C_pop; C_fuel_pos; C_pop_else_operands; C_pop; C_fuel_pos; C_pop; C_pop_else_operands; C_fuel_pos
].
Lemma control_refines_witness :
  ops_ok (E := Empty_set) sample_ops a_empty /\
  fst (run_ops (E := Empty_set) sample_ops ControlStack_default) = a_run_ops sample_ops a_empty /\
  exists obs, a_run_ops (E := Empty_set) sample_ops a_empty = Ok obs /\
    Obs_operands [sample_operand 1; sample_operand 2] ∈ obs /\ last obs = Some (Obs_fuel (Some 0)).
Proof.
  assert (ops_ok (E := Empty_set) sample_ops a_empty) as Hok by (vm_compute; tauto).
  split; [done|]. split; [exact (control_refines sample_ops Hok)|].
  eexists. split; [vm_compute; reflexivity|]. split; [|done].
  do 6 apply list_elem_of_further. apply list_elem_of_here.
Defined.
