(* ===== verification/TransStack.v ===== *)
(** * Operands and control frames together

    [translator/func/stack/mod.rs]: the operand stack and the control stack of a
    function under translation, with the branch parameters of each frame. *)

From Stdlib Require Import ZArith Lia.
From stdpp Require Import base option decidable numbers list.
From S2P Require Import Prelude Value Slot Locals Operands OpFields Codec EncodedOps Encoder Header Control.
Local Open Scope Z_scope.

(** Of the engine, the stack needs whether fuel is metered and the types. *)
Record TransStack : Type := {
  ts_consume_fuel : bool;
  ts_operands : OperandStack;
  ts_controls : ControlStack
}.

Definition set_ts_operands (o : OperandStack) (self : TransStack) : TransStack :=
  {| ts_consume_fuel := ts_consume_fuel self; ts_operands := o; ts_controls := ts_controls self |}.
Definition set_ts_controls (c : ControlStack) (self : TransStack) : TransStack :=
  {| ts_consume_fuel := ts_consume_fuel self; ts_operands := ts_operands self; ts_controls := c |}.

Notation TM := (M TransStack TranslationError).
Definition in_operands {A} (m : M OperandStack TranslationError A) : TM A := zoom ts_operands set_ts_operands id m.
Definition in_controls {A} (m : M ControlStack TranslationError A) : TM A := zoom ts_controls set_ts_controls id m.

(** Allocations of an earlier function are reset. *)
Definition TransStack_new (consume_fuel : bool) (operands : OperandStack) (controls : ControlStack) : TransStack :=
  {| ts_consume_fuel := consume_fuel; ts_operands := OperandStack_reset operands;
     ts_controls := ControlStack_reset controls |}.

Definition TransStack_height (self : TransStack) : nat := OperandStack_height (ts_operands self).
Definition TransStack_fuel_pos (self : TransStack) : res TranslationError (option BytePos) :=
  ControlStack_fuel_pos (ts_controls self).

Section Stack.
Context `{T : Target}.
Context (resolve_func_type : Z -> FuncType).

Definition TransStack_pop : TM Operand := in_operands OperandStack_pop.
Definition TransStack_pop2 : TM (Operand * Operand) :=
  o2 ← TransStack_pop; o1 ← TransStack_pop; mret (o1, o2).
Definition TransStack_pop3 : TM (Operand * Operand * Operand) :=
  o3 ← TransStack_pop; o2 ← TransStack_pop; o1 ← TransStack_pop; mret (o1, o2, o3).
Definition TransStack_peek (depth : nat) : TM Operand :=
  self ← get_st; lift (OperandStack_get (ts_operands self) depth).

Fixpoint pop_n (n : nat) : TM unit :=
  match n with O => mret tt | S n => TransStack_pop;; pop_n n end.

(** Pops until the height is reached. *)
Definition trunc (height : nat) : TM unit :=
  self ← get_st;
  assert_m (height <=? TransStack_height self)%nat;;
  pop_n (TransStack_height self - height).

(** ** Branch parameters *)

(** The types in front of the last ones do not matter. *)
Definition branch_params_regs {E} (tys : list ValType) : res E (option BranchParamRegs) :=
  match reverse tys with
  | [] => Ok None
  | [ty] =>
      match RegKind_new ty with
      | None => Ok None
      | Some kind => Some <$> BranchParamRegs_new_one kind
      end
  | last0 :: last1 :: last2 :: _ =>
      match RegKind_new last0, RegKind_new last1, RegKind_new last2 with
      | None, _, _ => Ok None
      | Some kind0, None, _ => Some <$> BranchParamRegs_new_one kind0
      | Some kind0, Some kind1, None =>
          if ne_kind kind0 kind1 then Some <$> BranchParamRegs_new_two kind0 kind1
          else Some <$> BranchParamRegs_new_one kind0
      | Some kind0, Some kind1, Some kind2 =>
          if bool_decide (kind0 = kind1) then Some <$> BranchParamRegs_new_one kind0 else
          if bool_decide (kind0 = kind2) || bool_decide (kind1 = kind2)
          then Some <$> BranchParamRegs_new_two kind0 kind1 else
          if ne_kind kind0 kind2 && ne_kind kind1 kind2
          then Some <$> BranchParamRegs_new_three kind0 kind1 kind2
          else Some <$> BranchParamRegs_new_two kind0 kind1
      end
  | [last0; last1] =>
      match RegKind_new last0, RegKind_new last1 with
      | None, _ => Ok None
      | Some kind0, None => Some <$> BranchParamRegs_new_one kind0
      | Some kind0, Some kind1 =>
          if ne_kind kind0 kind1 then Some <$> BranchParamRegs_new_two kind0 kind1
          else Some <$> BranchParamRegs_new_one kind0
      end
  end.

(** The types branch parameters have: a branch to a loop goes to its start. *)
Definition branch_tys {E} (func_ty : FuncType) (kind : ControlFrameKind) : res E (list ValType) :=
  match kind with Kind_Loop => FuncType_params func_ty | _ => FuncType_results func_ty end.

Definition branch_slots (func_ty : FuncType) (kind : ControlFrameKind) (self : TransStack) :
    res TranslationError BoundedSlotSpan :=
  let len_params := Z.to_nat (FuncType_len_params func_ty) in
  slots ← match len_params with
          | O => Ok (next_temp_slots (ts_operands self))
          | S depth => operand ← OperandStack_get (ts_operands self) depth; Ok (bspan (Operand_temp_slots operand))
          end;
  param_tys ← branch_tys func_ty kind;
  len_slots ← required_cells_for_tys param_tys;
  Ok {| bspan := slots; bspan_len := len_slots |}.

Definition branch_params_for (temp_slots : BoundedSlotSpan) (func_ty : FuncType) (kind : ControlFrameKind) :
    res TranslationError BranchParams :=
  tys ← branch_tys func_ty kind;
  len_tys ← match kind with Kind_Loop => Ok (FuncType_len_params func_ty) | _ => FuncType_len_results func_ty end;
  regs ← branch_params_regs tys;
  let regs_len := from_option BranchParamRegs_len 0 regs in
  temp_len ← expect (checked_sub len_tys regs_len);
  Ok {| bp_temp_slots := temp_slots; bp_temp_len := temp_len; bp_regs := regs |}.

Definition branch_params (block_ty : BlockTypeInner) (kind : ControlFrameKind) (self : TransStack) :
    res TranslationError BranchParams :=
  func_ty ← BlockType_func_type resolve_func_type block_ty;
  temp_slots ← branch_slots func_ty kind self;
  branch_params_for temp_slots func_ty kind.

(** The subtraction is on [usize]. *)
Definition block_height (block_ty : BlockTypeInner) (self : TransStack) : res TranslationError Z :=
  expect (checked_sub (Z.of_nat (TransStack_height self)) (BlockType_len_params resolve_func_type block_ty)).

Fixpoint push_params (n len_temps : Z) (params : list ValType) : TM unit :=
  match params with
  | [] => mret tt
  | param :: params =>
      in_operands (push_temp param (if n <? len_temps then Allocation_None else Allocation_Reg));;
      push_params (n + 1) len_temps params
  end.

Definition push_branch_params (frame : ControlFrame) : TM unit :=
  height ← lift (ControlFrame_height frame);
  in_operands OperandStack_discard_local_regs;;
  trunc (Z.to_nat height);;
  kind ← lift (ControlFrame_kind frame);
  params ← lift (ControlFrame_branch_params frame);
  ty ← lift (ControlFrame_ty frame);
  func_ty ← lift (BlockType_func_type resolve_func_type ty);
  tys ← lift (branch_tys func_ty kind);
  push_params 0 (BranchParams_len_temps params) tys.

(** ** Control frames *)

Definition assert_metering (fuel_pos : option BytePos) : TM unit :=
  self ← get_st;
  assert_m (Bool.eqb (ts_consume_fuel self) (match fuel_pos with Some _ => true | None => false end)).

Definition push_func_block (ty : BlockTypeInner) (label : LabelRef) (fuel_pos : option BytePos) : TM unit :=
  self ← get_st;
  assert_m (ControlStack_is_empty (ts_controls self));;
  assert_metering fuel_pos;;
  let temp_slots := next_temp_slots (ts_operands self) in
  func_ty ← lift (BlockType_func_type resolve_func_type ty);
  results ← lift (FuncType_results func_ty);
  temp_slots_len ← lift (required_cells_for_tys results);
  params ← lift (branch_params_for {| bspan := temp_slots; bspan_len := temp_slots_len |} func_ty Kind_Block);
  in_controls (ControlStack_push_block ty 0 params label fuel_pos).

Definition push_block (ty : BlockTypeInner) (label : LabelRef) : TM unit :=
  self ← get_st;
  assert_m (negb (ControlStack_is_empty (ts_controls self)));;
  height ← lift (block_height ty self);
  params ← lift (branch_params ty Kind_Block self);
  consume_fuel ← lift (TransStack_fuel_pos self);
  in_controls (ControlStack_push_block ty height params label consume_fuel).

Definition push_loop (ty : BlockTypeInner) (label : LabelRef) (fuel_pos : option BytePos) : TM unit :=
  self ← get_st;
  assert_m (negb (ControlStack_is_empty (ts_controls self)));;
  assert_metering fuel_pos;;
  height ← lift (block_height ty self);
  params ← lift (branch_params ty Kind_Loop self);
  loop_frame ← in_controls (ControlStack_push_loop ty height params label fuel_pos);
  push_branch_params loop_frame.

Definition push_if (ty : BlockTypeInner) (label : LabelRef) (reachability : IfReachability)
    (fuel_pos : option BytePos) : TM unit :=
  self ← get_st;
  assert_m (negb (ControlStack_is_empty (ts_controls self)));;
  assert_metering fuel_pos;;
  height ← lift (block_height ty self);
  let len_block_params := Z.to_nat (BlockType_len_params resolve_func_type ty) in
  operands ← lift (OperandStack_peek (ts_operands self) len_block_params);
  let registers := regs (ts_operands self) in
  assert_m (len_block_params =? length operands)%nat;;
  params ← lift (branch_params ty Kind_If self);
  in_controls (ControlStack_push_if ty height params label fuel_pos reachability operands registers).

Fixpoint push_operands (operands : list Operand) : TM unit :=
  match operands with
  | [] => mret tt
  | operand :: operands => in_operands (push_operand operand);; push_operands operands
  end.

(** [frame] is the [if] frame that was popped. *)
Definition push_else_operands (frame : FrameBase) (reachability : IfReachability) : TM unit :=
  match reachability with
  | If_OnlyThen | If_OnlyElse => mret tt
  | If_Both _ =>
      trunc (Z.to_nat (fb_height frame));;
      operands ← in_controls ControlStack_pop_else_operands;
      push_operands operands
  end.

Definition push_else (frame : FrameBase) (reachability : IfReachability) (registers : RegisterMap)
    (is_end_of_then_reachable : bool) (fuel_pos : option BytePos) : TM unit :=
  assert_metering fuel_pos;;
  (if is_else_reachable reachability then
     push_else_operands frame reachability;;
     self ← get_st;
     put_st (set_ts_operands (set_regs registers (ts_operands self)) self)
   else mret tt);;
  in_controls (ControlStack_push_else frame reachability fuel_pos is_end_of_then_reachable).

Definition push_unreachable (kind : ControlFrameKind) : TM unit := in_controls (ControlStack_push_unreachable kind).

(** Panics on an empty stack. *)
Definition pop_control : TM ControlFrame :=
  frame ← in_controls ControlStack_pop; lift (expect frame).

Definition peek_control (depth : nat) (self : TransStack) : res TranslationError ControlFrame :=
  ControlStack_get (ts_controls self) depth.
Definition peek_control_mut (depth : nat) (self : TransStack) : res TranslationError AcquiredTarget :=
  acquire_target (ts_controls self) depth.

End Stack.

(** ** Branch parameters in registers *)

(** The registers of the longest sequence of last types that have distinct
    registers; [used] are those taken by the types after them. *)
Fixpoint distinct_regs (used : list RegKind) (tys : list ValType) : list RegKind :=
  match tys with
  | [] => []
  | ty :: tys =>
      match RegKind_new ty with
      | Some kind => if bool_decide (kind ∈ used) then [] else kind :: distinct_regs (kind :: used) tys
      | None => []
      end
  end.

(** C34: Branch parameters are passed in registers as long as their registers
    differ, from the last one on: the registers are those of the longest suffix
    of the types in which no register is used twice, and the sanity checks on
    them never fail. *)
Theorem branch_params_regs_spec tys :
  exists regs, branch_params_regs (E := Empty_set) tys = Ok regs /\
    from_option BranchParamRegs_as_slice (Ok []) regs = Ok (E := Empty_set) (distinct_regs [] (reverse tys)) /\
    from_option BranchParamRegs_len 0 regs = Z.of_nat (length (distinct_regs [] (reverse tys))).
Proof.
  unfold branch_params_regs. destruct (reverse tys) as [|ty0 [|ty1 [|ty2 l]]]; [by eexists| | |].
  - destruct ty0; by eexists.
  - destruct ty0, ty1; by eexists.
  - assert (forall used, (forall k, bool_decide (k ∈ used) = true) -> distinct_regs used l = []) as Hall.
    { intros used Hu. destruct l as [|ty l]; [done|]. cbn. destruct (RegKind_new ty); [|done]. by rewrite Hu. }
    cbn [distinct_regs].
    destruct (RegKind_new ty0) as [[]|], (RegKind_new ty1) as [[]|], (RegKind_new ty2) as [[]|];
      (eexists; split; [reflexivity|]); cbn; rewrite ?Hall by (by intros []); done.
Qed.
