(* ===== verification/SimdTables.v ===== *)
(** * The operators of the vector instructions

    The operators that [crates/ir/build/isa.rs] adds for vectors and the handlers
    that [executor/handler/exec/simd.rs] gives them, as [OpTables] has them for
    scalars: an operator has its name in the source and the fields that are not
    registers.  A family of operators with the same fields is an enumeration, which
    [SimdInst] pairs with the fields. *)

From Stdlib Require Import ZArith.
From stdpp Require Import base option list.
From S2P Require Import Prelude Trap Value WasmInt MemoryAccess Slot Cells Float Simd.
Local Open Scope Z_scope.

(** ** Handlers

    The vectors are in slots; the scalars in a register, a slot or an immediate.
    [eval] is the function that the table of the source names. *)

Inductive VHandler : Type :=
| vh_splat (p : Prim) (eval : Z -> V128) (result : Slot) (value : Src)
| vh_unary (eval : V128 -> V128) (result value : Slot)
| vh_test (out : Prim) (eval : V128 -> Z) (result : RegTy) (value : Slot)
| vh_binary (eval : V128 -> V128 -> V128) (result lhs rhs : Slot)
| vh_scalar (p : Prim) (eval : V128 -> Z -> V128) (result lhs : Slot) (rhs : Src)
| vh_ternary (eval : V128 -> V128 -> V128 -> V128) (result a b c : Slot)
| vh_load (eval : list Z -> Z -> Z -> res TrapCode V128) (result : Slot) (ptr offset : Src) (memory : Z)
| vh_load_mem0 (eval : list Z -> Z -> Z -> res TrapCode V128) (result : Slot) (ptr offset : Src)
| vh_store (eval : Z -> Z -> V128 -> M (list Z) TrapCode unit) (ptr offset : Src) (value : Slot) (memory : Z)
| vh_store_mem0 (eval : Z -> Z -> V128 -> M (list Z) TrapCode unit) (ptr offset : Src) (value : Slot).

(** ** Operators *)

Inductive SplatInst : Type :=
| V128SplatU8_Sr (result : Slot) | V128SplatU8_Ss (result value : Slot)
| V128SplatU8_Si (result : Slot) (value : Z) | V128SplatU16_Sr (result : Slot)
| V128SplatU16_Ss (result value : Slot) | V128SplatU16_Si (result : Slot) (value : Z)
| V128SplatU32_Sr (result : Slot) | V128SplatU32_Ss (result value : Slot)
| V128SplatU32_Si (result : Slot) (value : Z) | V128SplatU64_Sr (result : Slot)
| V128SplatU64_Ss (result value : Slot) | V128SplatU64_Si (result : Slot) (value : Z)
| V128SplatF32_Sr (result : Slot) | V128SplatF64_Sr (result : Slot).

Inductive VUnaryOp : Type :=
| V128Not_Ss | I8x16Abs_Ss | I8x16Neg_Ss | I8x16Popcnt_Ss
| I16x8Abs_Ss | I16x8Neg_Ss | I16x8ExtaddPairwiseI8x16_Ss | U16x8ExtaddPairwiseI8x16_Ss
| I16x8ExtendLowI8x16_Ss | U16x8ExtendLowI8x16_Ss | I16x8ExtendHighI8x16_Ss | U16x8ExtendHighI8x16_Ss
| I32x4Abs_Ss | I32x4Neg_Ss | I32x4ExtaddPairwiseI16x8_Ss | U32x4ExtaddPairwiseI16x8_Ss
| I32x4ExtendLowI16x8_Ss | U32x4ExtendLowI16x8_Ss | I32x4ExtendHighI16x8_Ss | U32x4ExtendHighI16x8_Ss
| I64x2Abs_Ss | I64x2Neg_Ss | I64x2ExtendLowI32x4_Ss | U64x2ExtendLowI32x4_Ss
| I64x2ExtendHighI32x4_Ss | U64x2ExtendHighI32x4_Ss | F32x4DemoteZeroF64x2_Ss | F32x4Ceil_Ss
| F32x4Floor_Ss | F32x4Trunc_Ss | F32x4Nearest_Ss | F32x4Abs_Ss
| F32x4Neg_Ss | F32x4Sqrt_Ss | F64x2PromoteLowF32x4_Ss | F64x2Ceil_Ss
| F64x2Floor_Ss | F64x2Trunc_Ss | F64x2Nearest_Ss | F64x2Abs_Ss
| F64x2Neg_Ss | F64x2Sqrt_Ss | I32x4TruncSatF32x4_Ss | U32x4TruncSatF32x4_Ss
| I32x4TruncSatZeroF64x2_Ss | U32x4TruncSatZeroF64x2_Ss | F32x4ConvertI32x4_Ss | F32x4ConvertU32x4_Ss
| F64x2ConvertLowI32x4_Ss | F64x2ConvertLowU32x4_Ss.

Inductive VTestOp : Type :=
| V128AnyTrue_Rs | I8x16AllTrue_Rs | I8x16Bitmask_Rs | I16x8AllTrue_Rs
| I16x8Bitmask_Rs | I32x4AllTrue_Rs | I32x4Bitmask_Rs | I64x2AllTrue_Rs
| I64x2Bitmask_Rs.

Inductive VWidenOp : Type :=
| V128LowZero32_Sr | V128LowZero64_Sr | U16x8Widen8x8_Sr | I16x8Widen8x8_Sr
| U32x4Widen16x4_Sr | I32x4Widen16x4_Sr | U64x2Widen32x2_Sr | I64x2Widen32x2_Sr.

Inductive VBinaryOp : Type :=
| I8x16Swizzle_Sss | I8x16Eq_Sss | I8x16NotEq_Sss | I16x8Eq_Sss
| I16x8NotEq_Sss | I32x4Eq_Sss | I32x4NotEq_Sss | I64x2Eq_Sss
| I64x2NotEq_Sss | I8x16Lt_Sss | I8x16Le_Sss | I16x8Lt_Sss
| I16x8Le_Sss | I32x4Lt_Sss | I32x4Le_Sss | I64x2Lt_Sss
| I64x2Le_Sss | U8x16Lt_Sss | U8x16Le_Sss | U16x8Lt_Sss
| U16x8Le_Sss | U32x4Lt_Sss | U32x4Le_Sss | F32x4Eq_Sss
| F32x4NotEq_Sss | F32x4Lt_Sss | F32x4Le_Sss | F64x2Eq_Sss
| F64x2NotEq_Sss | F64x2Lt_Sss | F64x2Le_Sss | V128And_Sss
| V128AndNot_Sss | V128Or_Sss | V128Xor_Sss | I8x16NarrowI16x8_Sss
| U8x16NarrowI16x8_Sss | I8x16Add_Sss | I8x16AddSat_Sss | U8x16AddSat_Sss
| I8x16Sub_Sss | I8x16SubSat_Sss | U8x16SubSat_Sss | I8x16Min_Sss
| U8x16Min_Sss | I8x16Max_Sss | U8x16Max_Sss | U8x16Avgr_Sss
| I16x8RelaxedDotI8x16I7x16_Sss | I16x8Q15MulrSat_Sss | I16x8NarrowI32x4_Sss | U16x8NarrowI32x4_Sss
| I16x8ExtmulLowI8x16_Sss | U16x8ExtmulLowI8x16_Sss | I16x8ExtmulHighI8x16_Sss | U16x8ExtmulHighI8x16_Sss
| I32x4ExtmulLowI16x8_Sss | U32x4ExtmulLowI16x8_Sss | I32x4ExtmulHighI16x8_Sss | U32x4ExtmulHighI16x8_Sss
| I64x2ExtmulLowI32x4_Sss | U64x2ExtmulLowI32x4_Sss | I64x2ExtmulHighI32x4_Sss | U64x2ExtmulHighI32x4_Sss
| I16x8Add_Sss | I16x8AddSat_Sss | U16x8AddSat_Sss | I16x8Sub_Sss
| I16x8SubSat_Sss | U16x8SubSat_Sss | I16x8Mul_Sss | I16x8Min_Sss
| U16x8Min_Sss | I16x8Max_Sss | U16x8Max_Sss | U16x8Avgr_Sss
| I32x4Add_Sss | I32x4Sub_Sss | I32x4Mul_Sss | I32x4Min_Sss
| U32x4Min_Sss | I32x4Max_Sss | U32x4Max_Sss | I32x4DotI16x8_Sss
| I64x2Add_Sss | I64x2Sub_Sss | I64x2Mul_Sss | F32x4Add_Sss
| F32x4Sub_Sss | F32x4Mul_Sss | F32x4Div_Sss | F32x4Min_Sss
| F32x4Max_Sss | F32x4Pmin_Sss | F32x4Pmax_Sss | F64x2Add_Sss
| F64x2Sub_Sss | F64x2Mul_Sss | F64x2Div_Sss | F64x2Min_Sss
| F64x2Max_Sss | F64x2Pmin_Sss | F64x2Pmax_Sss.

Inductive VShiftOp : Type :=
| I8x16Shl | I8x16Shr | U8x16Shr | I16x8Shl | I16x8Shr | U16x8Shr
| I32x4Shl | I32x4Shr | U32x4Shr | I64x2Shl | I64x2Shr | U64x2Shr.

Inductive VExtractOp : Type :=
| I8x16ExtractLane_Rs | U8x16ExtractLane_Rs | I16x8ExtractLane_Rs | U16x8ExtractLane_Rs
| U32x4ExtractLane_Rs | U64x2ExtractLane_Rs | F32x4ExtractLane_Rs | F64x2ExtractLane_Rs.

Inductive ReplaceLaneInst : Type :=
| U8x16ReplaceLane_Ssr (result v128 : Slot) (lane : Z)
| U8x16ReplaceLane_Sss (result v128 value : Slot) (lane : Z)
| U8x16ReplaceLane_Ssi (result v128 : Slot) (value lane : Z)
| U16x8ReplaceLane_Ssr (result v128 : Slot) (lane : Z)
| U16x8ReplaceLane_Sss (result v128 value : Slot) (lane : Z)
| U16x8ReplaceLane_Ssi (result v128 : Slot) (value lane : Z)
| U32x4ReplaceLane_Ssr (result v128 : Slot) (lane : Z)
| U32x4ReplaceLane_Sss (result v128 value : Slot) (lane : Z)
| U32x4ReplaceLane_Ssi (result v128 : Slot) (value lane : Z)
| U64x2ReplaceLane_Ssr (result v128 : Slot) (lane : Z)
| U64x2ReplaceLane_Sss (result v128 value : Slot) (lane : Z)
| U64x2ReplaceLane_Ssi (result v128 : Slot) (value lane : Z)
| F32x4ReplaceLane_Ssr (result v128 : Slot) (lane : Z)
| F64x2ReplaceLane_Ssr (result v128 : Slot) (lane : Z).

Inductive VTernaryOp : Type :=
| V128Bitselect_Ssss | I32x4RelaxedDotI8x16I7x16Add_Ssss | F32x4RelaxedMadd_Ssss | F32x4RelaxedNmadd_Ssss
| F64x2RelaxedMadd_Ssss | F64x2RelaxedNmadd_Ssss.

Inductive VMemoryInst : Type :=
| V128Load_Sr (result : Slot) (offset memory : Z)
| V128Load_Ss (result ptr : Slot) (offset memory : Z)
| V128LoadMem0Offset16_Sr (result : Slot) (offset : Z)
| V128LoadMem0Offset16_Ss (result ptr : Slot) (offset : Z)
| V128Store_Rs (offset : Z) (value : Slot) (memory : Z)
| V128Store_Ss (ptr : Slot) (offset : Z) (value : Slot) (memory : Z)
| V128StoreMem0Offset16_Rs (offset : Z) (value : Slot)
| V128StoreMem0Offset16_Ss (ptr : Slot) (offset : Z) (value : Slot)
| V128StoreLane8_Rs (offset : Z) (value : Slot) (memory lane : Z)
| V128StoreLane8_Ss (ptr : Slot) (offset : Z) (value : Slot) (memory lane : Z)
| V128StoreLane16_Rs (offset : Z) (value : Slot) (memory lane : Z)
| V128StoreLane16_Ss (ptr : Slot) (offset : Z) (value : Slot) (memory lane : Z)
| V128StoreLane8Mem0Offset16_Rs (offset : Z) (value : Slot) (lane : Z)
| V128StoreLane8Mem0Offset16_Ss (ptr : Slot) (offset : Z) (value : Slot) (lane : Z)
| V128StoreLane16Mem0Offset16_Rs (offset : Z) (value : Slot) (lane : Z)
| V128StoreLane16Mem0Offset16_Ss (ptr : Slot) (offset : Z) (value : Slot) (lane : Z).

(** The constructors of [VShiftOp] have no suffix: each comes with the amount in the
    register, in a slot and as an immediate. *)
Inductive SimdInst : Type :=
| Simd_Splat (op : SplatInst)
| Simd_Unary (op : VUnaryOp) (result value : Slot)
| Simd_Test (op : VTestOp) (value : Slot)
| Simd_Widen (op : VWidenOp) (result : Slot)
| Simd_Binary (op : VBinaryOp) (result lhs rhs : Slot)
| Simd_Shift_Ssr (op : VShiftOp) (result lhs : Slot)
| Simd_Shift_Sss (op : VShiftOp) (result lhs rhs : Slot)
| Simd_Shift_Ssi (op : VShiftOp) (result lhs : Slot) (rhs : Z)
| Simd_ExtractLane (op : VExtractOp) (value : Slot) (lane : Z)
| Simd_ReplaceLane (op : ReplaceLaneInst)
| I8x16Shuffle (result lhs rhs : Slot) (selector : list Z)
| Simd_Ternary (op : VTernaryOp) (result a b c : Slot)
| Simd_Memory (op : VMemoryInst).

(** ** Tables *)

Section Handlers.
Context {Tg : Target} {Fn : FloatNans}.

(** [impl_splat_bytes!] and [impl_replace_lane!]. *)
Definition splat_u8 (value : Z) : V128 := i8x16_splat (cast P_i8 value).
Definition splat_u16 (value : Z) : V128 := i16x8_splat (cast P_i16 value).
Definition splat_u32 (value : Z) : V128 := i32x4_splat (cast P_i32 value).
Definition splat_u64 (value : Z) : V128 := i64x2_splat (cast P_i64 value).
Definition splat_f32 (value : Z) : V128 := f32x4_splat value.
Definition splat_f64 (value : Z) : V128 := f64x2_splat value.
Definition v128_replace_lane8x16 (v128 : V128) (lane : LaneIdx P_i8) (item : Z) : V128 :=
  i8x16_replace_lane v128 lane (cast P_i8 item).
Definition v128_replace_lane16x8 (v128 : V128) (lane : LaneIdx P_i16) (item : Z) : V128 :=
  i16x8_replace_lane v128 lane (cast P_i16 item).
Definition v128_replace_lane32x4 (v128 : V128) (lane : LaneIdx P_i32) (item : Z) : V128 :=
  i32x4_replace_lane v128 lane (cast P_i32 item).
Definition v128_replace_lane64x2 (v128 : V128) (lane : LaneIdx P_i64) (item : Z) : V128 :=
  i64x2_replace_lane v128 lane (cast P_i64 item).

Definition splat_handler (op : SplatInst) : VHandler :=
  match op with
  | V128SplatU8_Sr result => vh_splat P_u8 splat_u8 result (Src_reg Reg_i64)
  | V128SplatU8_Ss result value => vh_splat P_u8 splat_u8 result (Src_slot value)
  | V128SplatU8_Si result value => vh_splat P_u8 splat_u8 result (Src_imm value)
  | V128SplatU16_Sr result => vh_splat P_u16 splat_u16 result (Src_reg Reg_i64)
  | V128SplatU16_Ss result value => vh_splat P_u16 splat_u16 result (Src_slot value)
  | V128SplatU16_Si result value => vh_splat P_u16 splat_u16 result (Src_imm value)
  | V128SplatU32_Sr result => vh_splat P_u32 splat_u32 result (Src_reg Reg_i64)
  | V128SplatU32_Ss result value => vh_splat P_u32 splat_u32 result (Src_slot value)
  | V128SplatU32_Si result value => vh_splat P_u32 splat_u32 result (Src_imm value)
  | V128SplatU64_Sr result => vh_splat P_u64 splat_u64 result (Src_reg Reg_i64)
  | V128SplatU64_Ss result value => vh_splat P_u64 splat_u64 result (Src_slot value)
  | V128SplatU64_Si result value => vh_splat P_u64 splat_u64 result (Src_imm value)
  | V128SplatF32_Sr result => vh_splat P_f32 splat_f32 result (Src_reg Reg_f32)
  | V128SplatF64_Sr result => vh_splat P_f64 splat_f64 result (Src_reg Reg_f64)
  end.

Definition v_unary_eval (op : VUnaryOp) : V128 -> V128 :=
  match op with
  | V128Not_Ss => v128_not
  | I8x16Abs_Ss => i8x16_abs
  | I8x16Neg_Ss => i8x16_neg
  | I8x16Popcnt_Ss => i8x16_popcnt
  | I16x8Abs_Ss => i16x8_abs
  | I16x8Neg_Ss => i16x8_neg
  | I16x8ExtaddPairwiseI8x16_Ss => i16x8_extadd_pairwise_i8x16_s
  | U16x8ExtaddPairwiseI8x16_Ss => i16x8_extadd_pairwise_i8x16_u
  | I16x8ExtendLowI8x16_Ss => i16x8_extend_low_i8x16_s
  | U16x8ExtendLowI8x16_Ss => i16x8_extend_low_i8x16_u
  | I16x8ExtendHighI8x16_Ss => i16x8_extend_high_i8x16_s
  | U16x8ExtendHighI8x16_Ss => i16x8_extend_high_i8x16_u
  | I32x4Abs_Ss => i32x4_abs
  | I32x4Neg_Ss => i32x4_neg
  | I32x4ExtaddPairwiseI16x8_Ss => i32x4_extadd_pairwise_i16x8_s
  | U32x4ExtaddPairwiseI16x8_Ss => i32x4_extadd_pairwise_i16x8_u
  | I32x4ExtendLowI16x8_Ss => i32x4_extend_low_i16x8_s
  | U32x4ExtendLowI16x8_Ss => i32x4_extend_low_i16x8_u
  | I32x4ExtendHighI16x8_Ss => i32x4_extend_high_i16x8_s
  | U32x4ExtendHighI16x8_Ss => i32x4_extend_high_i16x8_u
  | I64x2Abs_Ss => i64x2_abs
  | I64x2Neg_Ss => i64x2_neg
  | I64x2ExtendLowI32x4_Ss => i64x2_extend_low_i32x4_s
  | U64x2ExtendLowI32x4_Ss => i64x2_extend_low_i32x4_u
  | I64x2ExtendHighI32x4_Ss => i64x2_extend_high_i32x4_s
  | U64x2ExtendHighI32x4_Ss => i64x2_extend_high_i32x4_u
  | F32x4DemoteZeroF64x2_Ss => f32x4_demote_f64x2_zero
  | F32x4Ceil_Ss => f32x4_ceil
  | F32x4Floor_Ss => f32x4_floor
  | F32x4Trunc_Ss => f32x4_trunc
  | F32x4Nearest_Ss => f32x4_nearest
  | F32x4Abs_Ss => f32x4_abs
  | F32x4Neg_Ss => f32x4_neg
  | F32x4Sqrt_Ss => f32x4_sqrt
  | F64x2PromoteLowF32x4_Ss => f64x2_promote_low_f32x4
  | F64x2Ceil_Ss => f64x2_ceil
  | F64x2Floor_Ss => f64x2_floor
  | F64x2Trunc_Ss => f64x2_trunc
  | F64x2Nearest_Ss => f64x2_nearest
  | F64x2Abs_Ss => f64x2_abs
  | F64x2Neg_Ss => f64x2_neg
  | F64x2Sqrt_Ss => f64x2_sqrt
  | I32x4TruncSatF32x4_Ss => i32x4_trunc_sat_f32x4_s
  | U32x4TruncSatF32x4_Ss => i32x4_trunc_sat_f32x4_u
  | I32x4TruncSatZeroF64x2_Ss => i32x4_trunc_sat_f64x2_s_zero
  | U32x4TruncSatZeroF64x2_Ss => i32x4_trunc_sat_f64x2_u_zero
  | F32x4ConvertI32x4_Ss => f32x4_convert_i32x4_s
  | F32x4ConvertU32x4_Ss => f32x4_convert_i32x4_u
  | F64x2ConvertLowI32x4_Ss => f64x2_convert_low_i32x4_s
  | F64x2ConvertLowU32x4_Ss => f64x2_convert_low_i32x4_u
  end.

Definition v_test_handler (op : VTestOp) (value : Slot) : VHandler :=
  match op with
  | V128AnyTrue_Rs => vh_test P_bool (fun v => Z.b2z (v128_any_true v)) Reg_i64 value
  | I8x16AllTrue_Rs => vh_test P_bool (fun v => Z.b2z (i8x16_all_true v)) Reg_i64 value
  | I8x16Bitmask_Rs => vh_test P_u32 i8x16_bitmask Reg_i64 value
  | I16x8AllTrue_Rs => vh_test P_bool (fun v => Z.b2z (i16x8_all_true v)) Reg_i64 value
  | I16x8Bitmask_Rs => vh_test P_u32 i16x8_bitmask Reg_i64 value
  | I32x4AllTrue_Rs => vh_test P_bool (fun v => Z.b2z (i32x4_all_true v)) Reg_i64 value
  | I32x4Bitmask_Rs => vh_test P_u32 i32x4_bitmask Reg_i64 value
  | I64x2AllTrue_Rs => vh_test P_bool (fun v => Z.b2z (i64x2_all_true v)) Reg_i64 value
  | I64x2Bitmask_Rs => vh_test P_u32 i64x2_bitmask Reg_i64 value
  end.

Definition v_widen_handler (op : VWidenOp) (result : Slot) : VHandler :=
  match op with
  | V128LowZero32_Sr => vh_splat P_u32 v128_low32_zero result (Src_reg Reg_i64)
  | V128LowZero64_Sr => vh_splat P_u64 v128_low64_zero result (Src_reg Reg_i64)
  | U16x8Widen8x8_Sr => vh_splat P_u64 v128_widen8x8_u result (Src_reg Reg_i64)
  | I16x8Widen8x8_Sr => vh_splat P_u64 v128_widen8x8_s result (Src_reg Reg_i64)
  | U32x4Widen16x4_Sr => vh_splat P_u64 v128_widen16x4_u result (Src_reg Reg_i64)
  | I32x4Widen16x4_Sr => vh_splat P_u64 v128_widen16x4_s result (Src_reg Reg_i64)
  | U64x2Widen32x2_Sr => vh_splat P_u64 v128_widen32x2_u result (Src_reg Reg_i64)
  | I64x2Widen32x2_Sr => vh_splat P_u64 v128_widen32x2_s result (Src_reg Reg_i64)
  end.

Definition v_binary_eval (op : VBinaryOp) : V128 -> V128 -> V128 :=
  match op with
  | I8x16Swizzle_Sss => i8x16_swizzle
  | I8x16Eq_Sss => i8x16_eq
  | I8x16NotEq_Sss => i8x16_ne
  | I16x8Eq_Sss => i16x8_eq
  | I16x8NotEq_Sss => i16x8_ne
  | I32x4Eq_Sss => i32x4_eq
  | I32x4NotEq_Sss => i32x4_ne
  | I64x2Eq_Sss => i64x2_eq
  | I64x2NotEq_Sss => i64x2_ne
  | I8x16Lt_Sss => i8x16_lt_s
  | I8x16Le_Sss => i8x16_le_s
  | I16x8Lt_Sss => i16x8_lt_s
  | I16x8Le_Sss => i16x8_le_s
  | I32x4Lt_Sss => i32x4_lt_s
  | I32x4Le_Sss => i32x4_le_s
  | I64x2Lt_Sss => i64x2_lt_s
  | I64x2Le_Sss => i64x2_le_s
  | U8x16Lt_Sss => i8x16_lt_u
  | U8x16Le_Sss => i8x16_le_u
  | U16x8Lt_Sss => i16x8_lt_u
  | U16x8Le_Sss => i16x8_le_u
  | U32x4Lt_Sss => i32x4_lt_u
  | U32x4Le_Sss => i32x4_le_u
  | F32x4Eq_Sss => f32x4_eq
  | F32x4NotEq_Sss => f32x4_ne
  | F32x4Lt_Sss => f32x4_lt
  | F32x4Le_Sss => f32x4_le
  | F64x2Eq_Sss => f64x2_eq
  | F64x2NotEq_Sss => f64x2_ne
  | F64x2Lt_Sss => f64x2_lt
  | F64x2Le_Sss => f64x2_le
  | V128And_Sss => v128_and
  | V128AndNot_Sss => v128_andnot
  | V128Or_Sss => v128_or
  | V128Xor_Sss => v128_xor
  | I8x16NarrowI16x8_Sss => i8x16_narrow_i16x8_s
  | U8x16NarrowI16x8_Sss => i8x16_narrow_i16x8_u
  | I8x16Add_Sss => i8x16_add
  | I8x16AddSat_Sss => i8x16_add_sat_s
  | U8x16AddSat_Sss => i8x16_add_sat_u
  | I8x16Sub_Sss => i8x16_sub
  | I8x16SubSat_Sss => i8x16_sub_sat_s
  | U8x16SubSat_Sss => i8x16_sub_sat_u
  | I8x16Min_Sss => i8x16_min_s
  | U8x16Min_Sss => i8x16_min_u
  | I8x16Max_Sss => i8x16_max_s
  | U8x16Max_Sss => i8x16_max_u
  | U8x16Avgr_Sss => i8x16_avgr_u
  | I16x8RelaxedDotI8x16I7x16_Sss => i16x8_relaxed_dot_i8x16_i7x16_s
  | I16x8Q15MulrSat_Sss => i16x8_q15mulr_sat_s
  | I16x8NarrowI32x4_Sss => i16x8_narrow_i32x4_s
  | U16x8NarrowI32x4_Sss => i16x8_narrow_i32x4_u
  | I16x8ExtmulLowI8x16_Sss => i16x8_extmul_low_i8x16_s
  | U16x8ExtmulLowI8x16_Sss => i16x8_extmul_low_i8x16_u
  | I16x8ExtmulHighI8x16_Sss => i16x8_extmul_high_i8x16_s
  | U16x8ExtmulHighI8x16_Sss => i16x8_extmul_high_i8x16_u
  | I32x4ExtmulLowI16x8_Sss => i32x4_extmul_low_i16x8_s
  | U32x4ExtmulLowI16x8_Sss => i32x4_extmul_low_i16x8_u
  | I32x4ExtmulHighI16x8_Sss => i32x4_extmul_high_i16x8_s
  | U32x4ExtmulHighI16x8_Sss => i32x4_extmul_high_i16x8_u
  | I64x2ExtmulLowI32x4_Sss => i64x2_extmul_low_i32x4_s
  | U64x2ExtmulLowI32x4_Sss => i64x2_extmul_low_i32x4_u
  | I64x2ExtmulHighI32x4_Sss => i64x2_extmul_high_i32x4_s
  | U64x2ExtmulHighI32x4_Sss => i64x2_extmul_high_i32x4_u
  | I16x8Add_Sss => i16x8_add
  | I16x8AddSat_Sss => i16x8_add_sat_s
  | U16x8AddSat_Sss => i16x8_add_sat_u
  | I16x8Sub_Sss => i16x8_sub
  | I16x8SubSat_Sss => i16x8_sub_sat_s
  | U16x8SubSat_Sss => i16x8_sub_sat_u
  | I16x8Mul_Sss => i16x8_mul
  | I16x8Min_Sss => i16x8_min_s
  | U16x8Min_Sss => i16x8_min_u
  | I16x8Max_Sss => i16x8_max_s
  | U16x8Max_Sss => i16x8_max_u
  | U16x8Avgr_Sss => i16x8_avgr_u
  | I32x4Add_Sss => i32x4_add
  | I32x4Sub_Sss => i32x4_sub
  | I32x4Mul_Sss => i32x4_mul
  | I32x4Min_Sss => i32x4_min_s
  | U32x4Min_Sss => i32x4_min_u
  | I32x4Max_Sss => i32x4_max_s
  | U32x4Max_Sss => i32x4_max_u
  | I32x4DotI16x8_Sss => i32x4_dot_i16x8_s
  | I64x2Add_Sss => i64x2_add
  | I64x2Sub_Sss => i64x2_sub
  | I64x2Mul_Sss => i64x2_mul
  | F32x4Add_Sss => f32x4_add
  | F32x4Sub_Sss => f32x4_sub
  | F32x4Mul_Sss => f32x4_mul
  | F32x4Div_Sss => f32x4_div
  | F32x4Min_Sss => f32x4_min
  | F32x4Max_Sss => f32x4_max
  | F32x4Pmin_Sss => f32x4_pmin
  | F32x4Pmax_Sss => f32x4_pmax
  | F64x2Add_Sss => f64x2_add
  | F64x2Sub_Sss => f64x2_sub
  | F64x2Mul_Sss => f64x2_mul
  | F64x2Div_Sss => f64x2_div
  | F64x2Min_Sss => f64x2_min
  | F64x2Max_Sss => f64x2_max
  | F64x2Pmin_Sss => f64x2_pmin
  | F64x2Pmax_Sss => f64x2_pmax
  end.

Definition v_shift_eval (op : VShiftOp) : V128 -> Z -> V128 :=
  match op with
  | I8x16Shl => i8x16_shl
  | I8x16Shr => i8x16_shr_s
  | U8x16Shr => i8x16_shr_u
  | I16x8Shl => i16x8_shl
  | I16x8Shr => i16x8_shr_s
  | U16x8Shr => i16x8_shr_u
  | I32x4Shl => i32x4_shl
  | I32x4Shr => i32x4_shr_s
  | U32x4Shr => i32x4_shr_u
  | I64x2Shl => i64x2_shl
  | I64x2Shr => i64x2_shr_s
  | U64x2Shr => i64x2_shr_u
  end.

Definition extract_lane_handler (op : VExtractOp) (value : Slot) (lane : Z) : VHandler :=
  match op with
  | I8x16ExtractLane_Rs => vh_test P_i32 (fun v => i8x16_extract_lane_s v lane) Reg_i64 value
  | U8x16ExtractLane_Rs => vh_test P_u32 (fun v => i8x16_extract_lane_u v lane) Reg_i64 value
  | I16x8ExtractLane_Rs => vh_test P_i32 (fun v => i16x8_extract_lane_s v lane) Reg_i64 value
  | U16x8ExtractLane_Rs => vh_test P_u32 (fun v => i16x8_extract_lane_u v lane) Reg_i64 value
  | U32x4ExtractLane_Rs => vh_test P_i32 (fun v => i32x4_extract_lane v lane) Reg_i64 value
  | U64x2ExtractLane_Rs => vh_test P_i64 (fun v => i64x2_extract_lane v lane) Reg_i64 value
  | F32x4ExtractLane_Rs => vh_test P_f32 (fun v => f32x4_extract_lane v lane) Reg_f32 value
  | F64x2ExtractLane_Rs => vh_test P_f64 (fun v => f64x2_extract_lane v lane) Reg_f64 value
  end.

Definition replace_lane_handler (op : ReplaceLaneInst) : VHandler :=
  match op with
  | U8x16ReplaceLane_Ssr result v128 lane => vh_scalar P_u8 (fun v => v128_replace_lane8x16 v lane) result v128 (Src_reg Reg_i64)
  | U8x16ReplaceLane_Sss result v128 value lane => vh_scalar P_u8 (fun v => v128_replace_lane8x16 v lane) result v128 (Src_slot value)
  | U8x16ReplaceLane_Ssi result v128 value lane => vh_scalar P_u8 (fun v => v128_replace_lane8x16 v lane) result v128 (Src_imm value)
  | U16x8ReplaceLane_Ssr result v128 lane => vh_scalar P_u16 (fun v => v128_replace_lane16x8 v lane) result v128 (Src_reg Reg_i64)
  | U16x8ReplaceLane_Sss result v128 value lane => vh_scalar P_u16 (fun v => v128_replace_lane16x8 v lane) result v128 (Src_slot value)
  | U16x8ReplaceLane_Ssi result v128 value lane => vh_scalar P_u16 (fun v => v128_replace_lane16x8 v lane) result v128 (Src_imm value)
  | U32x4ReplaceLane_Ssr result v128 lane => vh_scalar P_u32 (fun v => v128_replace_lane32x4 v lane) result v128 (Src_reg Reg_i64)
  | U32x4ReplaceLane_Sss result v128 value lane => vh_scalar P_u32 (fun v => v128_replace_lane32x4 v lane) result v128 (Src_slot value)
  | U32x4ReplaceLane_Ssi result v128 value lane => vh_scalar P_u32 (fun v => v128_replace_lane32x4 v lane) result v128 (Src_imm value)
  | U64x2ReplaceLane_Ssr result v128 lane => vh_scalar P_u64 (fun v => v128_replace_lane64x2 v lane) result v128 (Src_reg Reg_i64)
  | U64x2ReplaceLane_Sss result v128 value lane => vh_scalar P_u64 (fun v => v128_replace_lane64x2 v lane) result v128 (Src_slot value)
  | U64x2ReplaceLane_Ssi result v128 value lane => vh_scalar P_u64 (fun v => v128_replace_lane64x2 v lane) result v128 (Src_imm value)
  | F32x4ReplaceLane_Ssr result v128 lane => vh_scalar P_f32 (fun v => f32x4_replace_lane v lane) result v128 (Src_reg Reg_f32)
  | F64x2ReplaceLane_Ssr result v128 lane => vh_scalar P_f64 (fun v => f64x2_replace_lane v lane) result v128 (Src_reg Reg_f64)
  end.

Definition v_ternary_eval (op : VTernaryOp) : V128 -> V128 -> V128 -> V128 :=
  match op with
  | V128Bitselect_Ssss => v128_bitselect
  | I32x4RelaxedDotI8x16I7x16Add_Ssss => i32x4_relaxed_dot_i8x16_i7x16_add_s
  | F32x4RelaxedMadd_Ssss => f32x4_relaxed_madd
  | F32x4RelaxedNmadd_Ssss => f32x4_relaxed_nmadd
  | F64x2RelaxedMadd_Ssss => f64x2_relaxed_madd
  | F64x2RelaxedNmadd_Ssss => f64x2_relaxed_nmadd
  end.

Definition store8_lane (lane : Z) (ptr offset : Z) (value : V128) : M (list Z) TrapCode unit :=
  v128_store8_lane ptr offset value lane.
Definition store16_lane (lane : Z) (ptr offset : Z) (value : V128) : M (list Z) TrapCode unit :=
  v128_store16_lane ptr offset value lane.

Definition v_memory_handler (op : VMemoryInst) : VHandler :=
  match op with
  | V128Load_Sr result offset memory => vh_load v128_load result (Src_reg Reg_i64) (Src_imm offset) memory
  | V128Load_Ss result ptr offset memory => vh_load v128_load result (Src_slot ptr) (Src_imm offset) memory
  | V128LoadMem0Offset16_Sr result offset => vh_load_mem0 v128_load result (Src_reg Reg_i64) (Src_imm offset)
  | V128LoadMem0Offset16_Ss result ptr offset => vh_load_mem0 v128_load result (Src_slot ptr) (Src_imm offset)
  | V128Store_Rs offset value memory => vh_store v128_store (Src_reg Reg_i64) (Src_imm offset) value memory
  | V128Store_Ss ptr offset value memory => vh_store v128_store (Src_slot ptr) (Src_imm offset) value memory
  | V128StoreMem0Offset16_Rs offset value => vh_store_mem0 v128_store (Src_reg Reg_i64) (Src_imm offset) value
  | V128StoreMem0Offset16_Ss ptr offset value => vh_store_mem0 v128_store (Src_slot ptr) (Src_imm offset) value
  | V128StoreLane8_Rs offset value memory lane => vh_store (store8_lane lane) (Src_reg Reg_i64) (Src_imm offset) value memory
  | V128StoreLane8_Ss ptr offset value memory lane => vh_store (store8_lane lane) (Src_slot ptr) (Src_imm offset) value memory
  | V128StoreLane16_Rs offset value memory lane => vh_store (store16_lane lane) (Src_reg Reg_i64) (Src_imm offset) value memory
  | V128StoreLane16_Ss ptr offset value memory lane => vh_store (store16_lane lane) (Src_slot ptr) (Src_imm offset) value memory
  | V128StoreLane8Mem0Offset16_Rs offset value lane => vh_store_mem0 (store8_lane lane) (Src_reg Reg_i64) (Src_imm offset) value
  | V128StoreLane8Mem0Offset16_Ss ptr offset value lane => vh_store_mem0 (store8_lane lane) (Src_slot ptr) (Src_imm offset) value
  | V128StoreLane16Mem0Offset16_Rs offset value lane => vh_store_mem0 (store16_lane lane) (Src_reg Reg_i64) (Src_imm offset) value
  | V128StoreLane16Mem0Offset16_Ss ptr offset value lane => vh_store_mem0 (store16_lane lane) (Src_slot ptr) (Src_imm offset) value
  end.

(** The amount of a shift is a [ShiftAmount], an [u8]. *)
Definition simd_handler (op : SimdInst) : VHandler :=
  match op with
  | Simd_Splat op => splat_handler op
  | Simd_Unary op result value => vh_unary (v_unary_eval op) result value
  | Simd_Test op value => v_test_handler op value
  | Simd_Widen op result => v_widen_handler op result
  | Simd_Binary op result lhs rhs => vh_binary (v_binary_eval op) result lhs rhs
  | Simd_Shift_Ssr op result lhs => vh_scalar P_u8 (v_shift_eval op) result lhs (Src_reg Reg_i64)
  | Simd_Shift_Sss op result lhs rhs => vh_scalar P_u8 (v_shift_eval op) result lhs (Src_slot rhs)
  | Simd_Shift_Ssi op result lhs rhs => vh_scalar P_u8 (v_shift_eval op) result lhs (Src_imm rhs)
  | Simd_ExtractLane op value lane => extract_lane_handler op value lane
  | Simd_ReplaceLane op => replace_lane_handler op
  | I8x16Shuffle result lhs rhs selector => vh_binary (fun a b => i8x16_shuffle a b selector) result lhs rhs
  | Simd_Ternary op result a b c => vh_ternary (v_ternary_eval op) result a b c
  | Simd_Memory op => v_memory_handler op
  end.

(** The operand with the name [result], if there is one. *)
Definition vh_result (h : VHandler) : option Dst :=
  match h with
  | vh_splat _ _ result _ | vh_unary _ result _ | vh_binary _ result _ _ | vh_scalar _ _ result _ _
  | vh_ternary _ result _ _ _ | vh_load _ result _ _ _ | vh_load_mem0 _ result _ _ => Some (Dst_slot result)
  | vh_test _ _ result _ => Some (Dst_reg result)
  | vh_store _ _ _ _ _ | vh_store_mem0 _ _ _ _ => None
  end.
Definition simd_result (op : SimdInst) : option Dst := vh_result (simd_handler op).
End Handlers.

(** Writing through [result_mut]. *)
Definition set_result_splat (op : SplatInst) (slot : Slot) : SplatInst :=
  match op with
  | V128SplatU8_Sr _ => V128SplatU8_Sr slot
  | V128SplatU8_Ss _ value => V128SplatU8_Ss slot value
  | V128SplatU8_Si _ value => V128SplatU8_Si slot value
  | V128SplatU16_Sr _ => V128SplatU16_Sr slot
  | V128SplatU16_Ss _ value => V128SplatU16_Ss slot value
  | V128SplatU16_Si _ value => V128SplatU16_Si slot value
  | V128SplatU32_Sr _ => V128SplatU32_Sr slot
  | V128SplatU32_Ss _ value => V128SplatU32_Ss slot value
  | V128SplatU32_Si _ value => V128SplatU32_Si slot value
  | V128SplatU64_Sr _ => V128SplatU64_Sr slot
  | V128SplatU64_Ss _ value => V128SplatU64_Ss slot value
  | V128SplatU64_Si _ value => V128SplatU64_Si slot value
  | V128SplatF32_Sr _ => V128SplatF32_Sr slot
  | V128SplatF64_Sr _ => V128SplatF64_Sr slot
  end.
Definition set_result_replace_lane (op : ReplaceLaneInst) (slot : Slot) : ReplaceLaneInst :=
  match op with
  | U8x16ReplaceLane_Ssr _ v128 lane => U8x16ReplaceLane_Ssr slot v128 lane
  | U8x16ReplaceLane_Sss _ v128 value lane => U8x16ReplaceLane_Sss slot v128 value lane
  | U8x16ReplaceLane_Ssi _ v128 value lane => U8x16ReplaceLane_Ssi slot v128 value lane
  | U16x8ReplaceLane_Ssr _ v128 lane => U16x8ReplaceLane_Ssr slot v128 lane
  | U16x8ReplaceLane_Sss _ v128 value lane => U16x8ReplaceLane_Sss slot v128 value lane
  | U16x8ReplaceLane_Ssi _ v128 value lane => U16x8ReplaceLane_Ssi slot v128 value lane
  | U32x4ReplaceLane_Ssr _ v128 lane => U32x4ReplaceLane_Ssr slot v128 lane
  | U32x4ReplaceLane_Sss _ v128 value lane => U32x4ReplaceLane_Sss slot v128 value lane
  | U32x4ReplaceLane_Ssi _ v128 value lane => U32x4ReplaceLane_Ssi slot v128 value lane
  | U64x2ReplaceLane_Ssr _ v128 lane => U64x2ReplaceLane_Ssr slot v128 lane
  | U64x2ReplaceLane_Sss _ v128 value lane => U64x2ReplaceLane_Sss slot v128 value lane
  | U64x2ReplaceLane_Ssi _ v128 value lane => U64x2ReplaceLane_Ssi slot v128 value lane
  | F32x4ReplaceLane_Ssr _ v128 lane => F32x4ReplaceLane_Ssr slot v128 lane
  | F64x2ReplaceLane_Ssr _ v128 lane => F64x2ReplaceLane_Ssr slot v128 lane
  end.
Definition set_result_v_memory (op : VMemoryInst) (slot : Slot) : VMemoryInst :=
  match op with
  | V128Load_Sr _ offset memory => V128Load_Sr slot offset memory
  | V128Load_Ss _ ptr offset memory => V128Load_Ss slot ptr offset memory
  | V128LoadMem0Offset16_Sr _ offset => V128LoadMem0Offset16_Sr slot offset
  | V128LoadMem0Offset16_Ss _ ptr offset => V128LoadMem0Offset16_Ss slot ptr offset
  | _ => op
  end.
Definition set_result_simd (op : SimdInst) (slot : Slot) : SimdInst :=
  match op with
  | Simd_Splat op => Simd_Splat (set_result_splat op slot)
  | Simd_Unary op _ value => Simd_Unary op slot value
  | Simd_Widen op _ => Simd_Widen op slot
  | Simd_Binary op _ lhs rhs => Simd_Binary op slot lhs rhs
  | Simd_Shift_Ssr op _ lhs => Simd_Shift_Ssr op slot lhs
  | Simd_Shift_Sss op _ lhs rhs => Simd_Shift_Sss op slot lhs rhs
  | Simd_Shift_Ssi op _ lhs rhs => Simd_Shift_Ssi op slot lhs rhs
  | Simd_ReplaceLane op => Simd_ReplaceLane (set_result_replace_lane op slot)
  | I8x16Shuffle _ lhs rhs selector => I8x16Shuffle slot lhs rhs selector
  | Simd_Ternary op _ a b c => Simd_Ternary op slot a b c
  | Simd_Memory op => Simd_Memory (set_result_v_memory op slot)
  | Simd_Test _ _ | Simd_ExtractLane _ _ _ => op
  end.
