(* ===== verification/Instr.v ===== *)
(** * Operators with a handler of their own

    The operators of [crates/ir/build/isa.rs] that are not one of the families
    of the tables: control flow, calls, globals, tables, memories, references,
    wide arithmetic and the vector operators that the scalar translation emits;
    [Instr_Simd] stands for all other vector operators, which are in [SimdTables].
    An operator has its name in the source and the fields that are not
    registers, in the order of the constructors of [Op]. *)

From Stdlib Require Import ZArith.
From stdpp Require Import base option.
From S2P Require Import Prelude Trap Value WasmInt MemoryAccess Slot Cells Float OpTables BinaryTables BranchTables AccessTables Comparator SimdTables.
Local Open Scope Z_scope.

Inductive ControlInst : Type :=
(* control *)
| Branch (offset : BranchOffset)
| BranchTable_R (len_targets : Z)
| BranchTable_S (len_targets : Z) (index : Slot)
| BranchTableSpan_R (len_targets : Z) (values : BoundedSlotSpan)
| BranchTableSpan_S (len_targets : Z) (index : Slot) (values : BoundedSlotSpan)
| Return
(* calls *)
| RefFunc (func : Z)
| CallInternal (params : BoundedSlotSpan) (func : Z)
| CallImported (params : BoundedSlotSpan) (func : Z)
| CallIndirect_R (table func_type : Z) (params : BoundedSlotSpan)
| CallIndirect_S (table func_type : Z) (params : BoundedSlotSpan) (index : Slot)
| ReturnCallInternal (params : BoundedSlotSpan) (func : Z)
| ReturnCallImported (params : BoundedSlotSpan) (func : Z)
| ReturnCallIndirect_R (table func_type : Z) (params : BoundedSlotSpan)
| ReturnCallIndirect_S (table func_type : Z) (params : BoundedSlotSpan) (index : Slot)
(* globals *)
| GlobalGetU64_R (global : Z) | GlobalGetF32_R (global : Z) | GlobalGetF64_R (global : Z)
| GlobalGetV128_S (global : Z) (result : Slot)
| GlobalSetU32_I (global : Z) (value : Z)
| GlobalSetU64_R (global : Z) | GlobalSetU64_S (global : Z) (value : Slot) | GlobalSetU64_I (global : Z) (value : Z)
| GlobalSetF32_R (global : Z) | GlobalSetF64_R (global : Z)
| GlobalSetV128_S (global : Z) (value : Slot)
(* tables *)
| TableGet_Rr (table : Z) | TableGet_Rs (index : Slot) (table : Z) | TableGet_Ri (index : Z) (table : Z)
| TableSet_Rs (table : Z) (value : Slot) | TableSet_Ri (table : Z) (value : Z)
| TableSet_Sr (table : Z) (index : Slot) | TableSet_Ss (table : Z) (index value : Slot)
| TableSet_Si (table : Z) (index : Slot) (value : Z)
| TableSet_Ir (table : Z) (index : Z) | TableSet_Is (table : Z) (index : Z) (value : Slot)
| TableSet_Ii (table : Z) (index value : Z)
| TableSize (table : Z)
| TableGrow (delta value : Slot) (table : Z)
| TableCopy (dst_table src_table : Z) (dst src len : Slot)
| TableFill (table : Z) (dst len value : Slot)
| TableInit (table elem : Z) (dst src len : Slot)
| ElemDrop (elem : Z)
(* memories *)
| DataDrop (data : Z)
| MemorySize (memory : Z)
| MemoryGrow (delta : Slot) (memory : Z)
| MemoryCopy (dst_memory src_memory : Z) (dst src len : Slot)
| MemoryFill (memory : Z) (dst len value : Slot)
| MemoryInit (memory data : Z) (dst src len : Slot)
(* wide arithmetic *)
| I64Add128 (results : SlotSpan) (lhs_lo lhs_hi rhs_lo rhs_hi : Slot)
| I64Sub128 (results : SlotSpan) (lhs_lo lhs_hi rhs_lo rhs_hi : Slot)
| I64MulWide (results : SlotSpan) (lhs rhs : Slot)
| U64MulWide (results : SlotSpan) (lhs rhs : Slot)
(* vectors *)
| V128Copy_Ss (result value : Slot)
| V128Copy_Si (result : Slot) (value : RawVal)
| V128Select_Srss (result true_val false_val : Slot)
| V128Select_Ssss (result condition true_val false_val : Slot).

(** The operand with the name [result], if there is one. *)
Definition control_result (op : ControlInst) : option Dst :=
  match op with
  | RefFunc _ | GlobalGetU64_R _ | TableGet_Rr _ | TableGet_Rs _ _ | TableGet_Ri _ _ | TableSize _
  | TableGrow _ _ _ | MemorySize _ | MemoryGrow _ _ => Some (Dst_reg Reg_i64)
  | GlobalGetF32_R _ => Some (Dst_reg Reg_f32)
  | GlobalGetF64_R _ => Some (Dst_reg Reg_f64)
  | GlobalGetV128_S _ result | V128Copy_Ss result _ | V128Copy_Si result _
  | V128Select_Srss result _ _ | V128Select_Ssss result _ _ _ => Some (Dst_slot result)
  | _ => None
  end.

(** ** Operators the translator encodes

    The operators whose handlers are those of the tables, together, with the
    result of the generated [Op::result_loc] ([crates/ir/build/display/result.rs],
    [crates/ir/src/op.rs]); conversions of immediates between typed and plain
    values. *)

Inductive Instr : Type :=
| Instr_Trap (trap_code : TrapCode)
| Instr_Copy (op : CopyInst)
| Instr_Unary (op : UnaryInst)
| Instr_Binary (op : BinaryInst)
| Instr_CmpBranch (op : CmpBranchInst)
| Instr_Select (op : SelectInst)
| Instr_Load (op : LoadInst)
| Instr_LoadMem0 (op : LoadMem0Inst)
| Instr_Store (op : StoreInst)
| Instr_StoreMem0 (op : StoreMem0Inst)
| Instr_Control (op : ControlInst)
| Instr_Simd (op : SimdInst).

(** ** Typed immediates *)

(** [T::from(value)]: a wrong type trips the assertion. *)
Definition from_typed {E} (p : Prim) (value : TypedRawVal) : res E Z :=
  match TypedRawVal_into p value with Ok z => Ok z | _ => Panic end.

(** [value.into()]; there is no such conversion for the 128-bit integers. *)
Definition into_typed {E} (p : Prim) (value : Z) : res E TypedRawVal := expect (TypedRawVal_from p value).

(** ** Results

    The generated [result_loc], [result_ref] and [result_mut] look at the operand
    with the name [result].  That operand is where the handler writes, except for
    the copies to a fixed slot, which have no such operand. *)

(** [ir::Location]. *)
Inductive ResultLoc : Type := Result_Reg (ty : ValType) | Result_Slot (slot : Slot).

Definition Dst_location (dst : Dst) : ResultLoc :=
  match dst with
  | Dst_reg Reg_i64 => Result_Reg ValType_I64
  | Dst_reg Reg_f32 => Result_Reg ValType_F32
  | Dst_reg Reg_f64 => Result_Reg ValType_F64
  | Dst_slot slot | Dst_both slot _ => Result_Slot slot
  end.
Definition is_reg (self : ResultLoc) : bool := match self with Result_Reg _ => true | Result_Slot _ => false end.

Section Results.
Context `{T : Target} `{FloatNans}.

Definition copy_result (op : CopyInst) : option Dst :=
  match op with
  | U32Copy_Ri _ | U64Copy_Rs _ | U64Copy_Ri _ => Some (Dst_reg Reg_i64)
  | F32Copy_Ri _ | F32Copy_Rs _ => Some (Dst_reg Reg_f32)
  | F64Copy_Ri _ | F64Copy_Rs _ => Some (Dst_reg Reg_f64)
  | U32Copy_Si result _ | U64Copy_Sr result | U64Copy_Ss result _ | U64Copy_Si result _
  | F32Copy_Sr result | F64Copy_Sr result => Some (Dst_slot result)
  | _ => None
  end.

Definition load_result (h : LoadHandler) : Dst :=
  match h with
  | load_any _ _ result _ _ _ | load_ri _ _ result _ _ | load_mem0 _ _ result _ _ => result
  end.

Definition instr_result (self : Instr) : option Dst :=
  match self with
  | Instr_Copy op => copy_result op
  | Instr_Unary op => Some (un_dst (unary_op_handler op))
  | Instr_Binary op => Some (bin_dst (binary_handler op))
  | Instr_Select op => Some (sel_dst (select_op_handler op))
  | Instr_Load op => Some (load_result (load_op_handler op))
  | Instr_LoadMem0 op => Some (load_result (load_mem0_op_handler op))
  | Instr_Control op => control_result op
  | Instr_Simd op => simd_result op
  | Instr_Trap _ | Instr_CmpBranch _ | Instr_Store _ | Instr_StoreMem0 _ => None
  end.

Definition result_loc (self : Instr) : option ResultLoc := Dst_location <$> instr_result self.
Definition result_ref (self : Instr) : option Slot :=
  match result_loc self with Some (Result_Slot slot) => Some slot | _ => None end.
End Results.

(** Writing through [result_mut]. *)
Definition set_result_copy (op : CopyInst) (slot : Slot) : CopyInst :=
  match op with
  | U32Copy_Si _ value => U32Copy_Si slot value
  | U64Copy_Sr _ => U64Copy_Sr slot
  | U64Copy_Ss _ value => U64Copy_Ss slot value
  | U64Copy_Si _ value => U64Copy_Si slot value
  | F32Copy_Sr _ => F32Copy_Sr slot
  | F64Copy_Sr _ => F64Copy_Sr slot
  | _ => op
  end.
Definition set_result_binary (op : BinaryInst) (slot : Slot) : BinaryInst :=
  match op with
  | Binary_i32 (I32Add_Rs_rs _ rhs) => Binary_i32 (I32Add_Rs_rs slot rhs)
  | Binary_i32 (I32Add_Rs_ri _ rhs) => Binary_i32 (I32Add_Rs_ri slot rhs)
  | Binary_i32 (I32Add_Rs_ss _ lhs rhs) => Binary_i32 (I32Add_Rs_ss slot lhs rhs)
  | Binary_i32 (I32Add_Rs_si _ lhs rhs) => Binary_i32 (I32Add_Rs_si slot lhs rhs)
  | Binary_i64 (I64Add_Rs_rs _ rhs) => Binary_i64 (I64Add_Rs_rs slot rhs)
  | Binary_i64 (I64Add_Rs_ri _ rhs) => Binary_i64 (I64Add_Rs_ri slot rhs)
  | Binary_i64 (I64Add_Rs_ss _ lhs rhs) => Binary_i64 (I64Add_Rs_ss slot lhs rhs)
  | Binary_i64 (I64Add_Rs_si _ lhs rhs) => Binary_i64 (I64Add_Rs_si slot lhs rhs)
  | _ => op
  end.
Definition set_result_load_mem0 (op : LoadMem0Inst) (slot : Slot) : LoadMem0Inst :=
  match op with
  | U32LoadMem0Offset16_Rs_r _ offset => U32LoadMem0Offset16_Rs_r slot offset
  | U32LoadMem0Offset16_Rs_s _ ptr offset => U32LoadMem0Offset16_Rs_s slot ptr offset
  | U64LoadMem0Offset16_Rs_r _ offset => U64LoadMem0Offset16_Rs_r slot offset
  | U64LoadMem0Offset16_Rs_s _ ptr offset => U64LoadMem0Offset16_Rs_s slot ptr offset
  | F32LoadMem0Offset16_Rs_r _ offset => F32LoadMem0Offset16_Rs_r slot offset
  | F32LoadMem0Offset16_Rs_s _ ptr offset => F32LoadMem0Offset16_Rs_s slot ptr offset
  | F64LoadMem0Offset16_Rs_r _ offset => F64LoadMem0Offset16_Rs_r slot offset
  | F64LoadMem0Offset16_Rs_s _ ptr offset => F64LoadMem0Offset16_Rs_s slot ptr offset
  | I32LoadExtend8Mem0Offset16_Rs_r _ offset => I32LoadExtend8Mem0Offset16_Rs_r slot offset
  | I32LoadExtend8Mem0Offset16_Rs_s _ ptr offset => I32LoadExtend8Mem0Offset16_Rs_s slot ptr offset
  | I32LoadExtend16Mem0Offset16_Rs_r _ offset => I32LoadExtend16Mem0Offset16_Rs_r slot offset
  | I32LoadExtend16Mem0Offset16_Rs_s _ ptr offset => I32LoadExtend16Mem0Offset16_Rs_s slot ptr offset
  | U32LoadExtend8Mem0Offset16_Rs_r _ offset => U32LoadExtend8Mem0Offset16_Rs_r slot offset
  | U32LoadExtend8Mem0Offset16_Rs_s _ ptr offset => U32LoadExtend8Mem0Offset16_Rs_s slot ptr offset
  | U32LoadExtend16Mem0Offset16_Rs_r _ offset => U32LoadExtend16Mem0Offset16_Rs_r slot offset
  | U32LoadExtend16Mem0Offset16_Rs_s _ ptr offset => U32LoadExtend16Mem0Offset16_Rs_s slot ptr offset
  | I64LoadExtend8Mem0Offset16_Rs_r _ offset => I64LoadExtend8Mem0Offset16_Rs_r slot offset
  | I64LoadExtend8Mem0Offset16_Rs_s _ ptr offset => I64LoadExtend8Mem0Offset16_Rs_s slot ptr offset
  | I64LoadExtend16Mem0Offset16_Rs_r _ offset => I64LoadExtend16Mem0Offset16_Rs_r slot offset
  | I64LoadExtend16Mem0Offset16_Rs_s _ ptr offset => I64LoadExtend16Mem0Offset16_Rs_s slot ptr offset
  | I64LoadExtend32Mem0Offset16_Rs_r _ offset => I64LoadExtend32Mem0Offset16_Rs_r slot offset
  | I64LoadExtend32Mem0Offset16_Rs_s _ ptr offset => I64LoadExtend32Mem0Offset16_Rs_s slot ptr offset
  | U64LoadExtend8Mem0Offset16_Rs_r _ offset => U64LoadExtend8Mem0Offset16_Rs_r slot offset
  | U64LoadExtend8Mem0Offset16_Rs_s _ ptr offset => U64LoadExtend8Mem0Offset16_Rs_s slot ptr offset
  | U64LoadExtend16Mem0Offset16_Rs_r _ offset => U64LoadExtend16Mem0Offset16_Rs_r slot offset
  | U64LoadExtend16Mem0Offset16_Rs_s _ ptr offset => U64LoadExtend16Mem0Offset16_Rs_s slot ptr offset
  | U64LoadExtend32Mem0Offset16_Rs_r _ offset => U64LoadExtend32Mem0Offset16_Rs_r slot offset
  | U64LoadExtend32Mem0Offset16_Rs_s _ ptr offset => U64LoadExtend32Mem0Offset16_Rs_s slot ptr offset
  | _ => op
  end.
Definition set_result_control (op : ControlInst) (slot : Slot) : ControlInst :=
  match op with
  | GlobalGetV128_S global _ => GlobalGetV128_S global slot
  | V128Copy_Ss _ value => V128Copy_Ss slot value
  | V128Copy_Si _ value => V128Copy_Si slot value
  | V128Select_Srss _ true_val false_val => V128Select_Srss slot true_val false_val
  | V128Select_Ssss _ condition true_val false_val => V128Select_Ssss slot condition true_val false_val
  | _ => op
  end.
Definition set_result (self : Instr) (slot : Slot) : Instr :=
  match self with
  | Instr_Copy op => Instr_Copy (set_result_copy op slot)
  | Instr_Binary op => Instr_Binary (set_result_binary op slot)
  | Instr_LoadMem0 op => Instr_LoadMem0 (set_result_load_mem0 op slot)
  | Instr_Control op => Instr_Control (set_result_control op slot)
  | Instr_Simd op => Instr_Simd (set_result_simd op slot)
  | _ => self
  end.

Lemma set_result_ref `{Target} `{FloatNans} op slot old : result_ref op = Some old ->
  result_ref (set_result op slot) = Some slot.
Proof.
  unfold result_ref, result_loc.
  destruct op as [|op|op|op|op|op|op|op|op|op|op|op]; try done.
  - by destruct op.
  - by destruct op.
  - by destruct op as [op|op|op|op]; destruct op.
  - by destruct op.
  - by destruct op.
  - by destruct op.
  - by destruct op.
  - destruct op as [op|op|op|op|op|op|op|op|op|op|op|op|op]; try done; by destruct op.
Qed.
