(* ===== verification/BinaryOps.v ===== *)
(** * The binary operators of the translator

    [translator/func/op/binary.rs]: for every binary Wasm operator how it is
    evaluated at compile time and which operator is encoded for each placement of
    its operands.  A type that implements [CommutativeBinaryOp] or [BinaryOp] is a
    record of the items of the trait, and the virtual table is built from it. *)

From Stdlib Require Import ZArith.
From stdpp Require Import base list.
From S2P Require Import Prelude Trap Value WasmInt MemoryAccess Slot Locals Cells Float OpTables BinaryTables.
From S2P Require Import Comparator Instr.
Local Open Scope Z_scope.

(** ** The traits *)

Record CommutativeBinaryOp : Type := {
  c_Result : Prim;
  c_Input : Prim;
  c_consteval : Z -> Z -> res TrapCode Z;
  c_op_rrr : option Instr;
  c_op_rrs : Slot -> Instr;
  c_op_rri : Z -> Instr;
  c_op_rss : Slot -> Slot -> Instr;
  c_op_rsi : Slot -> Z -> Instr
}.

Record CommutativeBinaryOpVt : Type := {
  cvt_result_ty : option ValType;
  cvt_consteval : TypedRawVal -> TypedRawVal -> res TrapCode TypedRawVal;
  cvt_op_rrr : option Instr;
  cvt_op_rrs : Slot -> Instr;
  cvt_op_rri : TypedRawVal -> res TranslationError Instr;
  cvt_op_rss : Slot -> Slot -> Instr;
  cvt_op_rsi : Slot -> TypedRawVal -> res TranslationError Instr
}.

Definition commutative_consteval_vt (op : CommutativeBinaryOp) (lhs rhs : TypedRawVal) : res TrapCode TypedRawVal :=
  lhs ← from_typed (c_Input op) lhs;
  rhs ← from_typed (c_Input op) rhs;
  value ← c_consteval op lhs rhs;
  into_typed (c_Result op) value.
Definition commutative_op_rri_vt (op : CommutativeBinaryOp) (rhs : TypedRawVal) : res TranslationError Instr :=
  rhs ← from_typed (c_Input op) rhs; Ok (c_op_rri op rhs).
Definition commutative_op_rsi_vt (op : CommutativeBinaryOp) (lhs : Slot) (rhs : TypedRawVal) : res TranslationError Instr :=
  rhs ← from_typed (c_Input op) rhs; Ok (c_op_rsi op lhs rhs).

Definition CommutativeBinaryOp_VT (op : CommutativeBinaryOp) : CommutativeBinaryOpVt := {|
  cvt_result_ty := Typed_TY (c_Result op);
  cvt_consteval := commutative_consteval_vt op;
  cvt_op_rrr := c_op_rrr op;
  cvt_op_rrs := c_op_rrs op;
  cvt_op_rri := commutative_op_rri_vt op;
  cvt_op_rss := c_op_rss op;
  cvt_op_rsi := commutative_op_rsi_vt op
|}.

Inductive BinaryOpRhs (A : Type) : Type :=
| Rhs_Value (value : A)
| Rhs_Trap (trap_code : TrapCode)
| Rhs_ReturnLhs.
Arguments Rhs_Value {A}. Arguments Rhs_Trap {A}. Arguments Rhs_ReturnLhs {A}.

(** The types with [RhsImmediate]: numbers, non-zero numbers and shift amounts. *)
Inductive RhsTy : Type := Rhs_value (p : Prim) | Rhs_nonzero (p : Prim) | Rhs_shift_amount.

Definition rhs_into_typed {E} (ty : RhsTy) (self : Z) : res E TypedRawVal :=
  match ty with
  | Rhs_value p | Rhs_nonzero p => into_typed p self
  | Rhs_shift_amount => into_typed P_u8 self
  end.
Definition rhs_from_typed {E} (ty : RhsTy) (value : TypedRawVal) : res E Z :=
  match ty with
  | Rhs_value p => from_typed p value
  | Rhs_nonzero p => value ← from_typed p value; if value =? 0 then Panic else Ok value
  | Rhs_shift_amount => from_typed P_u8 value
  end.

Record BinaryOp : Type := {
  b_Result : Prim;
  b_Lhs : Prim;
  b_Rhs : RhsTy;
  b_decode_rhs : TypedRawVal -> res TranslationError (BinaryOpRhs Z);
  b_consteval : Z -> Z -> res TrapCode Z;
  b_op_rrr : option Instr;
  b_op_rrs : Slot -> Instr;
  b_op_rri : Z -> Instr;
  b_op_rsr : Slot -> Instr;
  b_op_rss : Slot -> Slot -> Instr;
  b_op_rsi : Slot -> Z -> Instr;
  b_op_rir : Z -> Instr;
  b_op_ris : Z -> Slot -> Instr
}.

Record BinaryOpVt : Type := {
  bvt_result_ty : option ValType;
  bvt_decode_rhs : TypedRawVal -> res TranslationError (BinaryOpRhs TypedRawVal);
  bvt_consteval : TypedRawVal -> TypedRawVal -> res TrapCode TypedRawVal;
  bvt_op_rrr : option Instr;
  bvt_op_rrs : Slot -> Instr;
  bvt_op_rri : TypedRawVal -> res TranslationError Instr;
  bvt_op_rsr : Slot -> Instr;
  bvt_op_rss : Slot -> Slot -> Instr;
  bvt_op_rsi : Slot -> TypedRawVal -> res TranslationError Instr;
  bvt_op_rir : TypedRawVal -> res TranslationError Instr;
  bvt_op_ris : TypedRawVal -> Slot -> res TranslationError Instr
}.

Definition binary_decode_rhs_vt (op : BinaryOp) (rhs : TypedRawVal) : res TranslationError (BinaryOpRhs TypedRawVal) :=
  rhs ← b_decode_rhs op rhs;
  match rhs with
  | Rhs_Value rhs => Rhs_Value <$> rhs_into_typed (b_Rhs op) rhs
  | Rhs_Trap trap_code => Ok (Rhs_Trap trap_code)
  | Rhs_ReturnLhs => Ok Rhs_ReturnLhs
  end.
Definition binary_consteval_vt (op : BinaryOp) (lhs rhs : TypedRawVal) : res TrapCode TypedRawVal :=
  lhs ← from_typed (b_Lhs op) lhs;
  rhs ← rhs_from_typed (b_Rhs op) rhs;
  value ← b_consteval op lhs rhs;
  into_typed (b_Result op) value.
Definition binary_op_rri_vt (op : BinaryOp) (rhs : TypedRawVal) : res TranslationError Instr :=
  rhs ← rhs_from_typed (b_Rhs op) rhs; Ok (b_op_rri op rhs).
Definition binary_op_rsi_vt (op : BinaryOp) (lhs : Slot) (rhs : TypedRawVal) : res TranslationError Instr :=
  rhs ← rhs_from_typed (b_Rhs op) rhs; Ok (b_op_rsi op lhs rhs).
Definition binary_op_rir_vt (op : BinaryOp) (lhs : TypedRawVal) : res TranslationError Instr :=
  lhs ← from_typed (b_Lhs op) lhs; Ok (b_op_rir op lhs).
Definition binary_op_ris_vt (op : BinaryOp) (lhs : TypedRawVal) (rhs : Slot) : res TranslationError Instr :=
  lhs ← from_typed (b_Lhs op) lhs; Ok (b_op_ris op lhs rhs).

Definition BinaryOp_VT (op : BinaryOp) : BinaryOpVt := {|
  bvt_result_ty := Typed_TY (b_Result op);
  bvt_decode_rhs := binary_decode_rhs_vt op;
  bvt_consteval := binary_consteval_vt op;
  bvt_op_rrr := b_op_rrr op;
  bvt_op_rrs := b_op_rrs op;
  bvt_op_rri := binary_op_rri_vt op;
  bvt_op_rsr := b_op_rsr op;
  bvt_op_rss := b_op_rss op;
  bvt_op_rsi := binary_op_rsi_vt op;
  bvt_op_rir := binary_op_rir_vt op;
  bvt_op_ris := binary_op_ris_vt op
|}.

(** ** Right operands *)

Definition decode_rhs_as_value (p : Prim) (value : TypedRawVal) : res TranslationError (BinaryOpRhs Z) :=
  Rhs_Value <$> from_typed p value.

Definition decode_rhs_as_divisor (p : Prim) (value : TypedRawVal) : res TranslationError (BinaryOpRhs Z) :=
  value ← from_typed p value;
  Ok (if value =? 0 then Rhs_Trap IntegerDivisionByZero else Rhs_Value value).

Definition decode_rhs_as_shift_amount (p : Prim) (value : TypedRawVal) : res TranslationError (BinaryOpRhs Z) :=
  shift_source ← from_typed p value;
  Ok match into_shift_amount p shift_source with
     | Some value => Rhs_Value (shamt value)
     | None => Rhs_ReturnLhs
     end.

(** ** Lowerings *)

Definition f32_copysign_rri (rhs : Z) : Instr :=
  if is_sign_positive F32 rhs then Instr_Unary F32Abs_Rr else Instr_Unary F32Nabs_Rr.
Definition f32_copysign_rsi (lhs : Slot) (rhs : Z) : Instr :=
  if is_sign_positive F32 rhs then Instr_Unary (F32Abs_Rs lhs) else Instr_Unary (F32Nabs_Rs lhs).
Definition f64_copysign_rri (rhs : Z) : Instr :=
  if is_sign_positive F64 rhs then Instr_Unary F64Abs_Rr else Instr_Unary F64Nabs_Rr.
Definition f64_copysign_rsi (lhs : Slot) (rhs : Z) : Instr :=
  if is_sign_positive F64 rhs then Instr_Unary (F64Abs_Rs lhs) else Instr_Unary (F64Nabs_Rs lhs).

Definition i32_sub_rri (rhs : Z) : Instr := Instr_Binary (Binary_i32 (I32Add_Rri (wraps 32 (- rhs)))).
Definition i32_sub_rsi (lhs : Slot) (rhs : Z) : Instr := Instr_Binary (Binary_i32 (I32Add_Rsi lhs (wraps 32 (- rhs)))).
Definition i64_sub_rri (rhs : Z) : Instr := Instr_Binary (Binary_i64 (I64Add_Rri (wraps 64 (- rhs)))).
Definition i64_sub_rsi (lhs : Slot) (rhs : Z) : Instr := Instr_Binary (Binary_i64 (I64Add_Rsi lhs (wraps 64 (- rhs)))).

(** [impl_cmp_op_for!]: the comparison with its operands swapped. *)
Definition cmp_op_for (binop : BinaryOp) : BinaryOp := {|
  b_Result := b_Result binop;
  b_Lhs := b_Lhs binop;
  b_Rhs := b_Rhs binop;
  b_decode_rhs := b_decode_rhs binop;
  b_consteval := fun lhs rhs => b_consteval binop rhs lhs;
  b_op_rrr := None;
  b_op_rrs := fun rhs => b_op_rsr binop rhs;
  b_op_rri := fun rhs => b_op_rir binop rhs;
  b_op_rsr := fun lhs => b_op_rrs binop lhs;
  b_op_rss := fun lhs rhs => b_op_rss binop rhs lhs;
  b_op_rsi := fun lhs rhs => b_op_ris binop rhs lhs;
  b_op_rir := fun lhs => b_op_rri binop lhs;
  b_op_ris := fun lhs rhs => b_op_rsi binop rhs lhs
|}.

Section Tables.
Context `{FloatNans}.

(** ** The commutative operators *)

Definition I32Eq : CommutativeBinaryOp := {|
  c_Result := P_bool;
  c_Input := P_i32;
  c_consteval := fun lhs rhs => into_res (i32_eq lhs rhs);
  c_op_rrr := None;
  c_op_rrs := fun rhs => Instr_Binary (Binary_i32 (I32Eq_Rrs rhs));
  c_op_rri := fun rhs => Instr_Binary (Binary_i32 (I32Eq_Rri rhs));
  c_op_rss := fun lhs rhs => Instr_Binary (Binary_i32 (I32Eq_Rss lhs rhs));
  c_op_rsi := fun lhs rhs => Instr_Binary (Binary_i32 (I32Eq_Rsi lhs rhs))
|}.

Definition I32NotEq : CommutativeBinaryOp := {|
  c_Result := P_bool;
  c_Input := P_i32;
  c_consteval := fun lhs rhs => into_res (i32_ne lhs rhs);
  c_op_rrr := None;
  c_op_rrs := fun rhs => Instr_Binary (Binary_i32 (I32NotEq_Rrs rhs));
  c_op_rri := fun rhs => Instr_Binary (Binary_i32 (I32NotEq_Rri rhs));
  c_op_rss := fun lhs rhs => Instr_Binary (Binary_i32 (I32NotEq_Rss lhs rhs));
  c_op_rsi := fun lhs rhs => Instr_Binary (Binary_i32 (I32NotEq_Rsi lhs rhs))
|}.

Definition I32And : CommutativeBinaryOp := {|
  c_Result := P_bool;
  c_Input := P_i32;
  c_consteval := fun lhs rhs => into_res (wasmi_i32_and lhs rhs);
  c_op_rrr := None;
  c_op_rrs := fun rhs => Instr_Binary (Binary_i32 (I32And_Rrs rhs));
  c_op_rri := fun rhs => Instr_Binary (Binary_i32 (I32And_Rri rhs));
  c_op_rss := fun lhs rhs => Instr_Binary (Binary_i32 (I32And_Rss lhs rhs));
  c_op_rsi := fun lhs rhs => Instr_Binary (Binary_i32 (I32And_Rsi lhs rhs))
|}.

Definition I32NotAnd : CommutativeBinaryOp := {|
  c_Result := P_bool;
  c_Input := P_i32;
  c_consteval := fun lhs rhs => into_res (wasmi_i32_not_and lhs rhs);
  c_op_rrr := None;
  c_op_rrs := fun rhs => Instr_Binary (Binary_i32 (I32NotAnd_Rrs rhs));
  c_op_rri := fun rhs => Instr_Binary (Binary_i32 (I32NotAnd_Rri rhs));
  c_op_rss := fun lhs rhs => Instr_Binary (Binary_i32 (I32NotAnd_Rss lhs rhs));
  c_op_rsi := fun lhs rhs => Instr_Binary (Binary_i32 (I32NotAnd_Rsi lhs rhs))
|}.

Definition I32Or : CommutativeBinaryOp := {|
  c_Result := P_bool;
  c_Input := P_i32;
  c_consteval := fun lhs rhs => into_res (wasmi_i32_or lhs rhs);
  c_op_rrr := None;
  c_op_rrs := fun rhs => Instr_Binary (Binary_i32 (I32Or_Rrs rhs));
  c_op_rri := fun rhs => Instr_Binary (Binary_i32 (I32Or_Rri rhs));
  c_op_rss := fun lhs rhs => Instr_Binary (Binary_i32 (I32Or_Rss lhs rhs));
  c_op_rsi := fun lhs rhs => Instr_Binary (Binary_i32 (I32Or_Rsi lhs rhs))
|}.

Definition I32NotOr : CommutativeBinaryOp := {|
  c_Result := P_bool;
  c_Input := P_i32;
  c_consteval := fun lhs rhs => into_res (wasmi_i32_not_or lhs rhs);
  c_op_rrr := None;
  c_op_rrs := fun rhs => Instr_Binary (Binary_i32 (I32NotOr_Rrs rhs));
  c_op_rri := fun rhs => Instr_Binary (Binary_i32 (I32NotOr_Rri rhs));
  c_op_rss := fun lhs rhs => Instr_Binary (Binary_i32 (I32NotOr_Rss lhs rhs));
  c_op_rsi := fun lhs rhs => Instr_Binary (Binary_i32 (I32NotOr_Rsi lhs rhs))
|}.

Definition I32Add : CommutativeBinaryOp := {|
  c_Result := P_i32;
  c_Input := P_i32;
  c_consteval := fun lhs rhs => into_res (i32_add lhs rhs);
  c_op_rrr := Some (Instr_Binary (Binary_i32 (I32Mul_Rri 2)));
  c_op_rrs := fun rhs => Instr_Binary (Binary_i32 (I32Add_Rrs rhs));
  c_op_rri := fun rhs => Instr_Binary (Binary_i32 (I32Add_Rri rhs));
  c_op_rss := fun lhs rhs => Instr_Binary (Binary_i32 (I32Add_Rss lhs rhs));
  c_op_rsi := fun lhs rhs => Instr_Binary (Binary_i32 (I32Add_Rsi lhs rhs))
|}.

Definition I32Mul : CommutativeBinaryOp := {|
  c_Result := P_i32;
  c_Input := P_i32;
  c_consteval := fun lhs rhs => into_res (i32_mul lhs rhs);
  c_op_rrr := Some (Instr_Binary (Binary_i32 I32Mul_Rrr));
  c_op_rrs := fun rhs => Instr_Binary (Binary_i32 (I32Mul_Rrs rhs));
  c_op_rri := fun rhs => Instr_Binary (Binary_i32 (I32Mul_Rri rhs));
  c_op_rss := fun lhs rhs => Instr_Binary (Binary_i32 (I32Mul_Rss lhs rhs));
  c_op_rsi := fun lhs rhs => Instr_Binary (Binary_i32 (I32Mul_Rsi lhs rhs))
|}.

Definition I32BitAnd : CommutativeBinaryOp := {|
  c_Result := P_i32;
  c_Input := P_i32;
  c_consteval := fun lhs rhs => into_res (i32_bitand lhs rhs);
  c_op_rrr := None;
  c_op_rrs := fun rhs => Instr_Binary (Binary_i32 (I32BitAnd_Rrs rhs));
  c_op_rri := fun rhs => Instr_Binary (Binary_i32 (I32BitAnd_Rri rhs));
  c_op_rss := fun lhs rhs => Instr_Binary (Binary_i32 (I32BitAnd_Rss lhs rhs));
  c_op_rsi := fun lhs rhs => Instr_Binary (Binary_i32 (I32BitAnd_Rsi lhs rhs))
|}.

Definition I32BitOr : CommutativeBinaryOp := {|
  c_Result := P_i32;
  c_Input := P_i32;
  c_consteval := fun lhs rhs => into_res (i32_bitor lhs rhs);
  c_op_rrr := None;
  c_op_rrs := fun rhs => Instr_Binary (Binary_i32 (I32BitOr_Rrs rhs));
  c_op_rri := fun rhs => Instr_Binary (Binary_i32 (I32BitOr_Rri rhs));
  c_op_rss := fun lhs rhs => Instr_Binary (Binary_i32 (I32BitOr_Rss lhs rhs));
  c_op_rsi := fun lhs rhs => Instr_Binary (Binary_i32 (I32BitOr_Rsi lhs rhs))
|}.

Definition I32BitXor : CommutativeBinaryOp := {|
  c_Result := P_i32;
  c_Input := P_i32;
  c_consteval := fun lhs rhs => into_res (i32_bitxor lhs rhs);
  c_op_rrr := None;
  c_op_rrs := fun rhs => Instr_Binary (Binary_i32 (I32BitXor_Rrs rhs));
  c_op_rri := fun rhs => Instr_Binary (Binary_i32 (I32BitXor_Rri rhs));
  c_op_rss := fun lhs rhs => Instr_Binary (Binary_i32 (I32BitXor_Rss lhs rhs));
  c_op_rsi := fun lhs rhs => Instr_Binary (Binary_i32 (I32BitXor_Rsi lhs rhs))
|}.

Definition I64Eq : CommutativeBinaryOp := {|
  c_Result := P_bool;
  c_Input := P_i64;
  c_consteval := fun lhs rhs => into_res (i64_eq lhs rhs);
  c_op_rrr := None;
  c_op_rrs := fun rhs => Instr_Binary (Binary_i64 (I64Eq_Rrs rhs));
  c_op_rri := fun rhs => Instr_Binary (Binary_i64 (I64Eq_Rri rhs));
  c_op_rss := fun lhs rhs => Instr_Binary (Binary_i64 (I64Eq_Rss lhs rhs));
  c_op_rsi := fun lhs rhs => Instr_Binary (Binary_i64 (I64Eq_Rsi lhs rhs))
|}.

Definition I64NotEq : CommutativeBinaryOp := {|
  c_Result := P_bool;
  c_Input := P_i64;
  c_consteval := fun lhs rhs => into_res (i64_ne lhs rhs);
  c_op_rrr := None;
  c_op_rrs := fun rhs => Instr_Binary (Binary_i64 (I64NotEq_Rrs rhs));
  c_op_rri := fun rhs => Instr_Binary (Binary_i64 (I64NotEq_Rri rhs));
  c_op_rss := fun lhs rhs => Instr_Binary (Binary_i64 (I64NotEq_Rss lhs rhs));
  c_op_rsi := fun lhs rhs => Instr_Binary (Binary_i64 (I64NotEq_Rsi lhs rhs))
|}.

Definition I64And : CommutativeBinaryOp := {|
  c_Result := P_bool;
  c_Input := P_i64;
  c_consteval := fun lhs rhs => into_res (wasmi_i64_and lhs rhs);
  c_op_rrr := None;
  c_op_rrs := fun rhs => Instr_Binary (Binary_i64 (I64And_Rrs rhs));
  c_op_rri := fun rhs => Instr_Binary (Binary_i64 (I64And_Rri rhs));
  c_op_rss := fun lhs rhs => Instr_Binary (Binary_i64 (I64And_Rss lhs rhs));
  c_op_rsi := fun lhs rhs => Instr_Binary (Binary_i64 (I64And_Rsi lhs rhs))
|}.

Definition I64NotAnd : CommutativeBinaryOp := {|
  c_Result := P_bool;
  c_Input := P_i64;
  c_consteval := fun lhs rhs => into_res (wasmi_i64_not_and lhs rhs);
  c_op_rrr := None;
  c_op_rrs := fun rhs => Instr_Binary (Binary_i64 (I64NotAnd_Rrs rhs));
  c_op_rri := fun rhs => Instr_Binary (Binary_i64 (I64NotAnd_Rri rhs));
  c_op_rss := fun lhs rhs => Instr_Binary (Binary_i64 (I64NotAnd_Rss lhs rhs));
  c_op_rsi := fun lhs rhs => Instr_Binary (Binary_i64 (I64NotAnd_Rsi lhs rhs))
|}.

Definition I64Or : CommutativeBinaryOp := {|
  c_Result := P_bool;
  c_Input := P_i64;
  c_consteval := fun lhs rhs => into_res (wasmi_i64_or lhs rhs);
  c_op_rrr := None;
  c_op_rrs := fun rhs => Instr_Binary (Binary_i64 (I64Or_Rrs rhs));
  c_op_rri := fun rhs => Instr_Binary (Binary_i64 (I64Or_Rri rhs));
  c_op_rss := fun lhs rhs => Instr_Binary (Binary_i64 (I64Or_Rss lhs rhs));
  c_op_rsi := fun lhs rhs => Instr_Binary (Binary_i64 (I64Or_Rsi lhs rhs))
|}.

Definition I64NotOr : CommutativeBinaryOp := {|
  c_Result := P_bool;
  c_Input := P_i64;
  c_consteval := fun lhs rhs => into_res (wasmi_i64_not_or lhs rhs);
  c_op_rrr := None;
  c_op_rrs := fun rhs => Instr_Binary (Binary_i64 (I64NotOr_Rrs rhs));
  c_op_rri := fun rhs => Instr_Binary (Binary_i64 (I64NotOr_Rri rhs));
  c_op_rss := fun lhs rhs => Instr_Binary (Binary_i64 (I64NotOr_Rss lhs rhs));
  c_op_rsi := fun lhs rhs => Instr_Binary (Binary_i64 (I64NotOr_Rsi lhs rhs))
|}.

Definition I64Add : CommutativeBinaryOp := {|
  c_Result := P_i64;
  c_Input := P_i64;
  c_consteval := fun lhs rhs => into_res (i64_add lhs rhs);
  c_op_rrr := Some (Instr_Binary (Binary_i64 (I64Mul_Rri 2)));
  c_op_rrs := fun rhs => Instr_Binary (Binary_i64 (I64Add_Rrs rhs));
  c_op_rri := fun rhs => Instr_Binary (Binary_i64 (I64Add_Rri rhs));
  c_op_rss := fun lhs rhs => Instr_Binary (Binary_i64 (I64Add_Rss lhs rhs));
  c_op_rsi := fun lhs rhs => Instr_Binary (Binary_i64 (I64Add_Rsi lhs rhs))
|}.

Definition I64Mul : CommutativeBinaryOp := {|
  c_Result := P_i64;
  c_Input := P_i64;
  c_consteval := fun lhs rhs => into_res (i64_mul lhs rhs);
  c_op_rrr := Some (Instr_Binary (Binary_i64 I64Mul_Rrr));
  c_op_rrs := fun rhs => Instr_Binary (Binary_i64 (I64Mul_Rrs rhs));
  c_op_rri := fun rhs => Instr_Binary (Binary_i64 (I64Mul_Rri rhs));
  c_op_rss := fun lhs rhs => Instr_Binary (Binary_i64 (I64Mul_Rss lhs rhs));
  c_op_rsi := fun lhs rhs => Instr_Binary (Binary_i64 (I64Mul_Rsi lhs rhs))
|}.

Definition I64BitAnd : CommutativeBinaryOp := {|
  c_Result := P_i64;
  c_Input := P_i64;
  c_consteval := fun lhs rhs => into_res (i64_bitand lhs rhs);
  c_op_rrr := None;
  c_op_rrs := fun rhs => Instr_Binary (Binary_i64 (I64BitAnd_Rrs rhs));
  c_op_rri := fun rhs => Instr_Binary (Binary_i64 (I64BitAnd_Rri rhs));
  c_op_rss := fun lhs rhs => Instr_Binary (Binary_i64 (I64BitAnd_Rss lhs rhs));
  c_op_rsi := fun lhs rhs => Instr_Binary (Binary_i64 (I64BitAnd_Rsi lhs rhs))
|}.

Definition I64BitOr : CommutativeBinaryOp := {|
  c_Result := P_i64;
  c_Input := P_i64;
  c_consteval := fun lhs rhs => into_res (i64_bitor lhs rhs);
  c_op_rrr := None;
  c_op_rrs := fun rhs => Instr_Binary (Binary_i64 (I64BitOr_Rrs rhs));
  c_op_rri := fun rhs => Instr_Binary (Binary_i64 (I64BitOr_Rri rhs));
  c_op_rss := fun lhs rhs => Instr_Binary (Binary_i64 (I64BitOr_Rss lhs rhs));
  c_op_rsi := fun lhs rhs => Instr_Binary (Binary_i64 (I64BitOr_Rsi lhs rhs))
|}.

Definition I64BitXor : CommutativeBinaryOp := {|
  c_Result := P_i64;
  c_Input := P_i64;
  c_consteval := fun lhs rhs => into_res (i64_bitxor lhs rhs);
  c_op_rrr := None;
  c_op_rrs := fun rhs => Instr_Binary (Binary_i64 (I64BitXor_Rrs rhs));
  c_op_rri := fun rhs => Instr_Binary (Binary_i64 (I64BitXor_Rri rhs));
  c_op_rss := fun lhs rhs => Instr_Binary (Binary_i64 (I64BitXor_Rss lhs rhs));
  c_op_rsi := fun lhs rhs => Instr_Binary (Binary_i64 (I64BitXor_Rsi lhs rhs))
|}.

Definition F32Eq : CommutativeBinaryOp := {|
  c_Result := P_bool;
  c_Input := P_f32;
  c_consteval := fun lhs rhs => into_res (f32_eq lhs rhs);
  c_op_rrr := None;
  c_op_rrs := fun rhs => Instr_Binary (Binary_f32 (F32Eq_Rrs rhs));
  c_op_rri := fun rhs => Instr_Binary (Binary_f32 (F32Eq_Rri rhs));
  c_op_rss := fun lhs rhs => Instr_Binary (Binary_f32 (F32Eq_Rss lhs rhs));
  c_op_rsi := fun lhs rhs => Instr_Binary (Binary_f32 (F32Eq_Rsi lhs rhs))
|}.

Definition F32NotEq : CommutativeBinaryOp := {|
  c_Result := P_bool;
  c_Input := P_f32;
  c_consteval := fun lhs rhs => into_res (f32_ne lhs rhs);
  c_op_rrr := None;
  c_op_rrs := fun rhs => Instr_Binary (Binary_f32 (F32NotEq_Rrs rhs));
  c_op_rri := fun rhs => Instr_Binary (Binary_f32 (F32NotEq_Rri rhs));
  c_op_rss := fun lhs rhs => Instr_Binary (Binary_f32 (F32NotEq_Rss lhs rhs));
  c_op_rsi := fun lhs rhs => Instr_Binary (Binary_f32 (F32NotEq_Rsi lhs rhs))
|}.

Definition F64Eq : CommutativeBinaryOp := {|
  c_Result := P_bool;
  c_Input := P_f64;
  c_consteval := fun lhs rhs => into_res (f64_eq lhs rhs);
  c_op_rrr := None;
  c_op_rrs := fun rhs => Instr_Binary (Binary_f64 (F64Eq_Rrs rhs));
  c_op_rri := fun rhs => Instr_Binary (Binary_f64 (F64Eq_Rri rhs));
  c_op_rss := fun lhs rhs => Instr_Binary (Binary_f64 (F64Eq_Rss lhs rhs));
  c_op_rsi := fun lhs rhs => Instr_Binary (Binary_f64 (F64Eq_Rsi lhs rhs))
|}.

Definition F64NotEq : CommutativeBinaryOp := {|
  c_Result := P_bool;
  c_Input := P_f64;
  c_consteval := fun lhs rhs => into_res (f64_ne lhs rhs);
  c_op_rrr := None;
  c_op_rrs := fun rhs => Instr_Binary (Binary_f64 (F64NotEq_Rrs rhs));
  c_op_rri := fun rhs => Instr_Binary (Binary_f64 (F64NotEq_Rri rhs));
  c_op_rss := fun lhs rhs => Instr_Binary (Binary_f64 (F64NotEq_Rss lhs rhs));
  c_op_rsi := fun lhs rhs => Instr_Binary (Binary_f64 (F64NotEq_Rsi lhs rhs))
|}.

(** ** The other binary operators *)

Definition I32Lt : BinaryOp := {|
  b_Result := P_bool;
  b_Lhs := P_i32;
  b_Rhs := Rhs_value P_i32;
  b_decode_rhs := decode_rhs_as_value P_i32;
  b_consteval := fun lhs rhs => into_res (i32_lt_s lhs rhs);
  b_op_rrr := None;
  b_op_rrs := fun rhs => Instr_Binary (Binary_i32 (I32Lt_Rrs rhs));
  b_op_rri := fun rhs => Instr_Binary (Binary_i32 (I32Lt_Rri rhs));
  b_op_rsr := fun lhs => Instr_Binary (Binary_i32 (I32Lt_Rsr lhs));
  b_op_rss := fun lhs rhs => Instr_Binary (Binary_i32 (I32Lt_Rss lhs rhs));
  b_op_rsi := fun lhs rhs => Instr_Binary (Binary_i32 (I32Lt_Rsi lhs rhs));
  b_op_rir := fun lhs => Instr_Binary (Binary_i32 (I32Lt_Rir lhs));
  b_op_ris := fun lhs rhs => Instr_Binary (Binary_i32 (I32Lt_Ris lhs rhs))
|}.

Definition I32Le : BinaryOp := {|
  b_Result := P_bool;
  b_Lhs := P_i32;
  b_Rhs := Rhs_value P_i32;
  b_decode_rhs := decode_rhs_as_value P_i32;
  b_consteval := fun lhs rhs => into_res (i32_le_s lhs rhs);
  b_op_rrr := None;
  b_op_rrs := fun rhs => Instr_Binary (Binary_i32 (I32Le_Rrs rhs));
  b_op_rri := fun rhs => Instr_Binary (Binary_i32 (I32Le_Rri rhs));
  b_op_rsr := fun lhs => Instr_Binary (Binary_i32 (I32Le_Rsr lhs));
  b_op_rss := fun lhs rhs => Instr_Binary (Binary_i32 (I32Le_Rss lhs rhs));
  b_op_rsi := fun lhs rhs => Instr_Binary (Binary_i32 (I32Le_Rsi lhs rhs));
  b_op_rir := fun lhs => Instr_Binary (Binary_i32 (I32Le_Rir lhs));
  b_op_ris := fun lhs rhs => Instr_Binary (Binary_i32 (I32Le_Ris lhs rhs))
|}.

Definition U32Lt : BinaryOp := {|
  b_Result := P_bool;
  b_Lhs := P_u32;
  b_Rhs := Rhs_value P_u32;
  b_decode_rhs := decode_rhs_as_value P_u32;
  b_consteval := fun lhs rhs => into_res (i32_lt_u lhs rhs);
  b_op_rrr := None;
  b_op_rrs := fun rhs => Instr_Binary (Binary_i32 (U32Lt_Rrs rhs));
  b_op_rri := fun rhs => Instr_Binary (Binary_i32 (U32Lt_Rri rhs));
  b_op_rsr := fun lhs => Instr_Binary (Binary_i32 (U32Lt_Rsr lhs));
  b_op_rss := fun lhs rhs => Instr_Binary (Binary_i32 (U32Lt_Rss lhs rhs));
  b_op_rsi := fun lhs rhs => Instr_Binary (Binary_i32 (U32Lt_Rsi lhs rhs));
  b_op_rir := fun lhs => Instr_Binary (Binary_i32 (U32Lt_Rir lhs));
  b_op_ris := fun lhs rhs => Instr_Binary (Binary_i32 (U32Lt_Ris lhs rhs))
|}.

Definition U32Le : BinaryOp := {|
  b_Result := P_bool;
  b_Lhs := P_u32;
  b_Rhs := Rhs_value P_u32;
  b_decode_rhs := decode_rhs_as_value P_u32;
  b_consteval := fun lhs rhs => into_res (i32_le_u lhs rhs);
  b_op_rrr := None;
  b_op_rrs := fun rhs => Instr_Binary (Binary_i32 (U32Le_Rrs rhs));
  b_op_rri := fun rhs => Instr_Binary (Binary_i32 (U32Le_Rri rhs));
  b_op_rsr := fun lhs => Instr_Binary (Binary_i32 (U32Le_Rsr lhs));
  b_op_rss := fun lhs rhs => Instr_Binary (Binary_i32 (U32Le_Rss lhs rhs));
  b_op_rsi := fun lhs rhs => Instr_Binary (Binary_i32 (U32Le_Rsi lhs rhs));
  b_op_rir := fun lhs => Instr_Binary (Binary_i32 (U32Le_Rir lhs));
  b_op_ris := fun lhs rhs => Instr_Binary (Binary_i32 (U32Le_Ris lhs rhs))
|}.

Definition I32Sub : BinaryOp := {|
  b_Result := P_i32;
  b_Lhs := P_i32;
  b_Rhs := Rhs_value P_i32;
  b_decode_rhs := decode_rhs_as_value P_i32;
  b_consteval := fun lhs rhs => into_res (i32_sub lhs rhs);
  b_op_rrr := None;
  b_op_rrs := fun rhs => Instr_Binary (Binary_i32 (I32Sub_Rrs rhs));
  b_op_rri := i32_sub_rri;
  b_op_rsr := fun lhs => Instr_Binary (Binary_i32 (I32Sub_Rsr lhs));
  b_op_rss := fun lhs rhs => Instr_Binary (Binary_i32 (I32Sub_Rss lhs rhs));
  b_op_rsi := i32_sub_rsi;
  b_op_rir := fun lhs => Instr_Binary (Binary_i32 (I32Sub_Rir lhs));
  b_op_ris := fun lhs rhs => Instr_Binary (Binary_i32 (I32Sub_Ris lhs rhs))
|}.

Definition I32Div : BinaryOp := {|
  b_Result := P_i32;
  b_Lhs := P_i32;
  b_Rhs := Rhs_nonzero P_i32;
  b_decode_rhs := decode_rhs_as_divisor P_i32;
  b_consteval := fun lhs rhs => into_res (wasmi_i32_div_ssi lhs rhs);
  b_op_rrr := None;
  b_op_rrs := fun rhs => Instr_Binary (Binary_i32 (I32Div_Rrs rhs));
  b_op_rri := fun rhs => Instr_Binary (Binary_i32 (I32Div_Rri rhs));
  b_op_rsr := fun lhs => Instr_Binary (Binary_i32 (I32Div_Rsr lhs));
  b_op_rss := fun lhs rhs => Instr_Binary (Binary_i32 (I32Div_Rss lhs rhs));
  b_op_rsi := fun lhs rhs => Instr_Binary (Binary_i32 (I32Div_Rsi lhs rhs));
  b_op_rir := fun lhs => Instr_Binary (Binary_i32 (I32Div_Rir lhs));
  b_op_ris := fun lhs rhs => Instr_Binary (Binary_i32 (I32Div_Ris lhs rhs))
|}.

Definition U32Div : BinaryOp := {|
  b_Result := P_u32;
  b_Lhs := P_u32;
  b_Rhs := Rhs_nonzero P_u32;
  b_decode_rhs := decode_rhs_as_divisor P_u32;
  b_consteval := fun lhs rhs => into_res (wasmi_u32_div_ssi lhs rhs);
  b_op_rrr := None;
  b_op_rrs := fun rhs => Instr_Binary (Binary_i32 (U32Div_Rrs rhs));
  b_op_rri := fun rhs => Instr_Binary (Binary_i32 (U32Div_Rri rhs));
  b_op_rsr := fun lhs => Instr_Binary (Binary_i32 (U32Div_Rsr lhs));
  b_op_rss := fun lhs rhs => Instr_Binary (Binary_i32 (U32Div_Rss lhs rhs));
  b_op_rsi := fun lhs rhs => Instr_Binary (Binary_i32 (U32Div_Rsi lhs rhs));
  b_op_rir := fun lhs => Instr_Binary (Binary_i32 (U32Div_Rir lhs));
  b_op_ris := fun lhs rhs => Instr_Binary (Binary_i32 (U32Div_Ris lhs rhs))
|}.

Definition I32Rem : BinaryOp := {|
  b_Result := P_i32;
  b_Lhs := P_i32;
  b_Rhs := Rhs_nonzero P_i32;
  b_decode_rhs := decode_rhs_as_divisor P_i32;
  b_consteval := fun lhs rhs => into_res (wasmi_i32_rem_ssi lhs rhs);
  b_op_rrr := None;
  b_op_rrs := fun rhs => Instr_Binary (Binary_i32 (I32Rem_Rrs rhs));
  b_op_rri := fun rhs => Instr_Binary (Binary_i32 (I32Rem_Rri rhs));
  b_op_rsr := fun lhs => Instr_Binary (Binary_i32 (I32Rem_Rsr lhs));
  b_op_rss := fun lhs rhs => Instr_Binary (Binary_i32 (I32Rem_Rss lhs rhs));
  b_op_rsi := fun lhs rhs => Instr_Binary (Binary_i32 (I32Rem_Rsi lhs rhs));
  b_op_rir := fun lhs => Instr_Binary (Binary_i32 (I32Rem_Rir lhs));
  b_op_ris := fun lhs rhs => Instr_Binary (Binary_i32 (I32Rem_Ris lhs rhs))
|}.

Definition U32Rem : BinaryOp := {|
  b_Result := P_u32;
  b_Lhs := P_u32;
  b_Rhs := Rhs_nonzero P_u32;
  b_decode_rhs := decode_rhs_as_divisor P_u32;
  b_consteval := fun lhs rhs => into_res (wasmi_u32_rem_ssi lhs rhs);
  b_op_rrr := None;
  b_op_rrs := fun rhs => Instr_Binary (Binary_i32 (U32Rem_Rrs rhs));
  b_op_rri := fun rhs => Instr_Binary (Binary_i32 (U32Rem_Rri rhs));
  b_op_rsr := fun lhs => Instr_Binary (Binary_i32 (U32Rem_Rsr lhs));
  b_op_rss := fun lhs rhs => Instr_Binary (Binary_i32 (U32Rem_Rss lhs rhs));
  b_op_rsi := fun lhs rhs => Instr_Binary (Binary_i32 (U32Rem_Rsi lhs rhs));
  b_op_rir := fun lhs => Instr_Binary (Binary_i32 (U32Rem_Rir lhs));
  b_op_ris := fun lhs rhs => Instr_Binary (Binary_i32 (U32Rem_Ris lhs rhs))
|}.

Definition I32Shl : BinaryOp := {|
  b_Result := P_i32;
  b_Lhs := P_i32;
  b_Rhs := Rhs_shift_amount;
  b_decode_rhs := decode_rhs_as_shift_amount P_i32;
  b_consteval := fun lhs rhs => into_res (wasmi_i32_shl_ssi lhs rhs);
  b_op_rrr := None;
  b_op_rrs := fun rhs => Instr_Binary (Binary_i32 (I32Shl_Rrs rhs));
  b_op_rri := fun rhs => Instr_Binary (Binary_i32 (I32Shl_Rri rhs));
  b_op_rsr := fun lhs => Instr_Binary (Binary_i32 (I32Shl_Rsr lhs));
  b_op_rss := fun lhs rhs => Instr_Binary (Binary_i32 (I32Shl_Rss lhs rhs));
  b_op_rsi := fun lhs rhs => Instr_Binary (Binary_i32 (I32Shl_Rsi lhs rhs));
  b_op_rir := fun lhs => Instr_Binary (Binary_i32 (I32Shl_Rir lhs));
  b_op_ris := fun lhs rhs => Instr_Binary (Binary_i32 (I32Shl_Ris lhs rhs))
|}.

Definition I32Shr : BinaryOp := {|
  b_Result := P_i32;
  b_Lhs := P_i32;
  b_Rhs := Rhs_shift_amount;
  b_decode_rhs := decode_rhs_as_shift_amount P_i32;
  b_consteval := fun lhs rhs => into_res (wasmi_i32_shr_ssi lhs rhs);
  b_op_rrr := None;
  b_op_rrs := fun rhs => Instr_Binary (Binary_i32 (I32Shr_Rrs rhs));
  b_op_rri := fun rhs => Instr_Binary (Binary_i32 (I32Shr_Rri rhs));
  b_op_rsr := fun lhs => Instr_Binary (Binary_i32 (I32Shr_Rsr lhs));
  b_op_rss := fun lhs rhs => Instr_Binary (Binary_i32 (I32Shr_Rss lhs rhs));
  b_op_rsi := fun lhs rhs => Instr_Binary (Binary_i32 (I32Shr_Rsi lhs rhs));
  b_op_rir := fun lhs => Instr_Binary (Binary_i32 (I32Shr_Rir lhs));
  b_op_ris := fun lhs rhs => Instr_Binary (Binary_i32 (I32Shr_Ris lhs rhs))
|}.

Definition U32Shr : BinaryOp := {|
  b_Result := P_u32;
  b_Lhs := P_u32;
  b_Rhs := Rhs_shift_amount;
  b_decode_rhs := decode_rhs_as_shift_amount P_u32;
  b_consteval := fun lhs rhs => into_res (wasmi_u32_shr_ssi lhs rhs);
  b_op_rrr := None;
  b_op_rrs := fun rhs => Instr_Binary (Binary_i32 (U32Shr_Rrs rhs));
  b_op_rri := fun rhs => Instr_Binary (Binary_i32 (U32Shr_Rri rhs));
  b_op_rsr := fun lhs => Instr_Binary (Binary_i32 (U32Shr_Rsr lhs));
  b_op_rss := fun lhs rhs => Instr_Binary (Binary_i32 (U32Shr_Rss lhs rhs));
  b_op_rsi := fun lhs rhs => Instr_Binary (Binary_i32 (U32Shr_Rsi lhs rhs));
  b_op_rir := fun lhs => Instr_Binary (Binary_i32 (U32Shr_Rir lhs));
  b_op_ris := fun lhs rhs => Instr_Binary (Binary_i32 (U32Shr_Ris lhs rhs))
|}.

Definition I32Rotl : BinaryOp := {|
  b_Result := P_i32;
  b_Lhs := P_i32;
  b_Rhs := Rhs_shift_amount;
  b_decode_rhs := decode_rhs_as_shift_amount P_i32;
  b_consteval := fun lhs rhs => into_res (wasmi_i32_rotl_ssi lhs rhs);
  b_op_rrr := None;
  b_op_rrs := fun rhs => Instr_Binary (Binary_i32 (I32Rotl_Rrs rhs));
  b_op_rri := fun rhs => Instr_Binary (Binary_i32 (I32Rotl_Rri rhs));
  b_op_rsr := fun lhs => Instr_Binary (Binary_i32 (I32Rotl_Rsr lhs));
  b_op_rss := fun lhs rhs => Instr_Binary (Binary_i32 (I32Rotl_Rss lhs rhs));
  b_op_rsi := fun lhs rhs => Instr_Binary (Binary_i32 (I32Rotl_Rsi lhs rhs));
  b_op_rir := fun lhs => Instr_Binary (Binary_i32 (I32Rotl_Rir lhs));
  b_op_ris := fun lhs rhs => Instr_Binary (Binary_i32 (I32Rotl_Ris lhs rhs))
|}.

Definition I32Rotr : BinaryOp := {|
  b_Result := P_i32;
  b_Lhs := P_i32;
  b_Rhs := Rhs_shift_amount;
  b_decode_rhs := decode_rhs_as_shift_amount P_i32;
  b_consteval := fun lhs rhs => into_res (wasmi_i32_rotr_ssi lhs rhs);
  b_op_rrr := None;
  b_op_rrs := fun rhs => Instr_Binary (Binary_i32 (I32Rotr_Rrs rhs));
  b_op_rri := fun rhs => Instr_Binary (Binary_i32 (I32Rotr_Rri rhs));
  b_op_rsr := fun lhs => Instr_Binary (Binary_i32 (I32Rotr_Rsr lhs));
  b_op_rss := fun lhs rhs => Instr_Binary (Binary_i32 (I32Rotr_Rss lhs rhs));
  b_op_rsi := fun lhs rhs => Instr_Binary (Binary_i32 (I32Rotr_Rsi lhs rhs));
  b_op_rir := fun lhs => Instr_Binary (Binary_i32 (I32Rotr_Rir lhs));
  b_op_ris := fun lhs rhs => Instr_Binary (Binary_i32 (I32Rotr_Ris lhs rhs))
|}.

Definition I64Lt : BinaryOp := {|
  b_Result := P_bool;
  b_Lhs := P_i64;
  b_Rhs := Rhs_value P_i64;
  b_decode_rhs := decode_rhs_as_value P_i64;
  b_consteval := fun lhs rhs => into_res (i64_lt_s lhs rhs);
  b_op_rrr := None;
  b_op_rrs := fun rhs => Instr_Binary (Binary_i64 (I64Lt_Rrs rhs));
  b_op_rri := fun rhs => Instr_Binary (Binary_i64 (I64Lt_Rri rhs));
  b_op_rsr := fun lhs => Instr_Binary (Binary_i64 (I64Lt_Rsr lhs));
  b_op_rss := fun lhs rhs => Instr_Binary (Binary_i64 (I64Lt_Rss lhs rhs));
  b_op_rsi := fun lhs rhs => Instr_Binary (Binary_i64 (I64Lt_Rsi lhs rhs));
  b_op_rir := fun lhs => Instr_Binary (Binary_i64 (I64Lt_Rir lhs));
  b_op_ris := fun lhs rhs => Instr_Binary (Binary_i64 (I64Lt_Ris lhs rhs))
|}.

Definition I64Le : BinaryOp := {|
  b_Result := P_bool;
  b_Lhs := P_i64;
  b_Rhs := Rhs_value P_i64;
  b_decode_rhs := decode_rhs_as_value P_i64;
  b_consteval := fun lhs rhs => into_res (i64_le_s lhs rhs);
  b_op_rrr := None;
  b_op_rrs := fun rhs => Instr_Binary (Binary_i64 (I64Le_Rrs rhs));
  b_op_rri := fun rhs => Instr_Binary (Binary_i64 (I64Le_Rri rhs));
  b_op_rsr := fun lhs => Instr_Binary (Binary_i64 (I64Le_Rsr lhs));
  b_op_rss := fun lhs rhs => Instr_Binary (Binary_i64 (I64Le_Rss lhs rhs));
  b_op_rsi := fun lhs rhs => Instr_Binary (Binary_i64 (I64Le_Rsi lhs rhs));
  b_op_rir := fun lhs => Instr_Binary (Binary_i64 (I64Le_Rir lhs));
  b_op_ris := fun lhs rhs => Instr_Binary (Binary_i64 (I64Le_Ris lhs rhs))
|}.

Definition U64Lt : BinaryOp := {|
  b_Result := P_bool;
  b_Lhs := P_u64;
  b_Rhs := Rhs_value P_u64;
  b_decode_rhs := decode_rhs_as_value P_u64;
  b_consteval := fun lhs rhs => into_res (i64_lt_u lhs rhs);
  b_op_rrr := None;
  b_op_rrs := fun rhs => Instr_Binary (Binary_i64 (U64Lt_Rrs rhs));
  b_op_rri := fun rhs => Instr_Binary (Binary_i64 (U64Lt_Rri rhs));
  b_op_rsr := fun lhs => Instr_Binary (Binary_i64 (U64Lt_Rsr lhs));
  b_op_rss := fun lhs rhs => Instr_Binary (Binary_i64 (U64Lt_Rss lhs rhs));
  b_op_rsi := fun lhs rhs => Instr_Binary (Binary_i64 (U64Lt_Rsi lhs rhs));
  b_op_rir := fun lhs => Instr_Binary (Binary_i64 (U64Lt_Rir lhs));
  b_op_ris := fun lhs rhs => Instr_Binary (Binary_i64 (U64Lt_Ris lhs rhs))
|}.

Definition U64Le : BinaryOp := {|
  b_Result := P_bool;
  b_Lhs := P_u64;
  b_Rhs := Rhs_value P_u64;
  b_decode_rhs := decode_rhs_as_value P_u64;
  b_consteval := fun lhs rhs => into_res (i64_le_u lhs rhs);
  b_op_rrr := None;
  b_op_rrs := fun rhs => Instr_Binary (Binary_i64 (U64Le_Rrs rhs));
  b_op_rri := fun rhs => Instr_Binary (Binary_i64 (U64Le_Rri rhs));
  b_op_rsr := fun lhs => Instr_Binary (Binary_i64 (U64Le_Rsr lhs));
  b_op_rss := fun lhs rhs => Instr_Binary (Binary_i64 (U64Le_Rss lhs rhs));
  b_op_rsi := fun lhs rhs => Instr_Binary (Binary_i64 (U64Le_Rsi lhs rhs));
  b_op_rir := fun lhs => Instr_Binary (Binary_i64 (U64Le_Rir lhs));
  b_op_ris := fun lhs rhs => Instr_Binary (Binary_i64 (U64Le_Ris lhs rhs))
|}.

Definition I64Sub : BinaryOp := {|
  b_Result := P_i64;
  b_Lhs := P_i64;
  b_Rhs := Rhs_value P_i64;
  b_decode_rhs := decode_rhs_as_value P_i64;
  b_consteval := fun lhs rhs => into_res (i64_sub lhs rhs);
  b_op_rrr := None;
  b_op_rrs := fun rhs => Instr_Binary (Binary_i64 (I64Sub_Rrs rhs));
  b_op_rri := i64_sub_rri;
  b_op_rsr := fun lhs => Instr_Binary (Binary_i64 (I64Sub_Rsr lhs));
  b_op_rss := fun lhs rhs => Instr_Binary (Binary_i64 (I64Sub_Rss lhs rhs));
  b_op_rsi := i64_sub_rsi;
  b_op_rir := fun lhs => Instr_Binary (Binary_i64 (I64Sub_Rir lhs));
  b_op_ris := fun lhs rhs => Instr_Binary (Binary_i64 (I64Sub_Ris lhs rhs))
|}.

Definition I64Div : BinaryOp := {|
  b_Result := P_i64;
  b_Lhs := P_i64;
  b_Rhs := Rhs_nonzero P_i64;
  b_decode_rhs := decode_rhs_as_divisor P_i64;
  b_consteval := fun lhs rhs => into_res (wasmi_i64_div_ssi lhs rhs);
  b_op_rrr := None;
  b_op_rrs := fun rhs => Instr_Binary (Binary_i64 (I64Div_Rrs rhs));
  b_op_rri := fun rhs => Instr_Binary (Binary_i64 (I64Div_Rri rhs));
  b_op_rsr := fun lhs => Instr_Binary (Binary_i64 (I64Div_Rsr lhs));
  b_op_rss := fun lhs rhs => Instr_Binary (Binary_i64 (I64Div_Rss lhs rhs));
  b_op_rsi := fun lhs rhs => Instr_Binary (Binary_i64 (I64Div_Rsi lhs rhs));
  b_op_rir := fun lhs => Instr_Binary (Binary_i64 (I64Div_Rir lhs));
  b_op_ris := fun lhs rhs => Instr_Binary (Binary_i64 (I64Div_Ris lhs rhs))
|}.

Definition U64Div : BinaryOp := {|
  b_Result := P_u64;
  b_Lhs := P_u64;
  b_Rhs := Rhs_nonzero P_u64;
  b_decode_rhs := decode_rhs_as_divisor P_u64;
  b_consteval := fun lhs rhs => into_res (wasmi_u64_div_ssi lhs rhs);
  b_op_rrr := None;
  b_op_rrs := fun rhs => Instr_Binary (Binary_i64 (U64Div_Rrs rhs));
  b_op_rri := fun rhs => Instr_Binary (Binary_i64 (U64Div_Rri rhs));
  b_op_rsr := fun lhs => Instr_Binary (Binary_i64 (U64Div_Rsr lhs));
  b_op_rss := fun lhs rhs => Instr_Binary (Binary_i64 (U64Div_Rss lhs rhs));
  b_op_rsi := fun lhs rhs => Instr_Binary (Binary_i64 (U64Div_Rsi lhs rhs));
  b_op_rir := fun lhs => Instr_Binary (Binary_i64 (U64Div_Rir lhs));
  b_op_ris := fun lhs rhs => Instr_Binary (Binary_i64 (U64Div_Ris lhs rhs))
|}.

Definition I64Rem : BinaryOp := {|
  b_Result := P_i64;
  b_Lhs := P_i64;
  b_Rhs := Rhs_nonzero P_i64;
  b_decode_rhs := decode_rhs_as_divisor P_i64;
  b_consteval := fun lhs rhs => into_res (wasmi_i64_rem_ssi lhs rhs);
  b_op_rrr := None;
  b_op_rrs := fun rhs => Instr_Binary (Binary_i64 (I64Rem_Rrs rhs));
  b_op_rri := fun rhs => Instr_Binary (Binary_i64 (I64Rem_Rri rhs));
  b_op_rsr := fun lhs => Instr_Binary (Binary_i64 (I64Rem_Rsr lhs));
  b_op_rss := fun lhs rhs => Instr_Binary (Binary_i64 (I64Rem_Rss lhs rhs));
  b_op_rsi := fun lhs rhs => Instr_Binary (Binary_i64 (I64Rem_Rsi lhs rhs));
  b_op_rir := fun lhs => Instr_Binary (Binary_i64 (I64Rem_Rir lhs));
  b_op_ris := fun lhs rhs => Instr_Binary (Binary_i64 (I64Rem_Ris lhs rhs))
|}.

Definition U64Rem : BinaryOp := {|
  b_Result := P_u64;
  b_Lhs := P_u64;
  b_Rhs := Rhs_nonzero P_u64;
  b_decode_rhs := decode_rhs_as_divisor P_u64;
  b_consteval := fun lhs rhs => into_res (wasmi_u64_rem_ssi lhs rhs);
  b_op_rrr := None;
  b_op_rrs := fun rhs => Instr_Binary (Binary_i64 (U64Rem_Rrs rhs));
  b_op_rri := fun rhs => Instr_Binary (Binary_i64 (U64Rem_Rri rhs));
  b_op_rsr := fun lhs => Instr_Binary (Binary_i64 (U64Rem_Rsr lhs));
  b_op_rss := fun lhs rhs => Instr_Binary (Binary_i64 (U64Rem_Rss lhs rhs));
  b_op_rsi := fun lhs rhs => Instr_Binary (Binary_i64 (U64Rem_Rsi lhs rhs));
  b_op_rir := fun lhs => Instr_Binary (Binary_i64 (U64Rem_Rir lhs));
  b_op_ris := fun lhs rhs => Instr_Binary (Binary_i64 (U64Rem_Ris lhs rhs))
|}.

Definition I64Shl : BinaryOp := {|
  b_Result := P_i64;
  b_Lhs := P_i64;
  b_Rhs := Rhs_shift_amount;
  b_decode_rhs := decode_rhs_as_shift_amount P_i64;
  b_consteval := fun lhs rhs => into_res (wasmi_i64_shl_ssi lhs rhs);
  b_op_rrr := None;
  b_op_rrs := fun rhs => Instr_Binary (Binary_i64 (I64Shl_Rrs rhs));
  b_op_rri := fun rhs => Instr_Binary (Binary_i64 (I64Shl_Rri rhs));
  b_op_rsr := fun lhs => Instr_Binary (Binary_i64 (I64Shl_Rsr lhs));
  b_op_rss := fun lhs rhs => Instr_Binary (Binary_i64 (I64Shl_Rss lhs rhs));
  b_op_rsi := fun lhs rhs => Instr_Binary (Binary_i64 (I64Shl_Rsi lhs rhs));
  b_op_rir := fun lhs => Instr_Binary (Binary_i64 (I64Shl_Rir lhs));
  b_op_ris := fun lhs rhs => Instr_Binary (Binary_i64 (I64Shl_Ris lhs rhs))
|}.

Definition I64Shr : BinaryOp := {|
  b_Result := P_i64;
  b_Lhs := P_i64;
  b_Rhs := Rhs_shift_amount;
  b_decode_rhs := decode_rhs_as_shift_amount P_i64;
  b_consteval := fun lhs rhs => into_res (wasmi_i64_shr_ssi lhs rhs);
  b_op_rrr := None;
  b_op_rrs := fun rhs => Instr_Binary (Binary_i64 (I64Shr_Rrs rhs));
  b_op_rri := fun rhs => Instr_Binary (Binary_i64 (I64Shr_Rri rhs));
  b_op_rsr := fun lhs => Instr_Binary (Binary_i64 (I64Shr_Rsr lhs));
  b_op_rss := fun lhs rhs => Instr_Binary (Binary_i64 (I64Shr_Rss lhs rhs));
  b_op_rsi := fun lhs rhs => Instr_Binary (Binary_i64 (I64Shr_Rsi lhs rhs));
  b_op_rir := fun lhs => Instr_Binary (Binary_i64 (I64Shr_Rir lhs));
  b_op_ris := fun lhs rhs => Instr_Binary (Binary_i64 (I64Shr_Ris lhs rhs))
|}.

Definition U64Shr : BinaryOp := {|
  b_Result := P_u64;
  b_Lhs := P_u64;
  b_Rhs := Rhs_shift_amount;
  b_decode_rhs := decode_rhs_as_shift_amount P_u64;
  b_consteval := fun lhs rhs => into_res (wasmi_u64_shr_ssi lhs rhs);
  b_op_rrr := None;
  b_op_rrs := fun rhs => Instr_Binary (Binary_i64 (U64Shr_Rrs rhs));
  b_op_rri := fun rhs => Instr_Binary (Binary_i64 (U64Shr_Rri rhs));
  b_op_rsr := fun lhs => Instr_Binary (Binary_i64 (U64Shr_Rsr lhs));
  b_op_rss := fun lhs rhs => Instr_Binary (Binary_i64 (U64Shr_Rss lhs rhs));
  b_op_rsi := fun lhs rhs => Instr_Binary (Binary_i64 (U64Shr_Rsi lhs rhs));
  b_op_rir := fun lhs => Instr_Binary (Binary_i64 (U64Shr_Rir lhs));
  b_op_ris := fun lhs rhs => Instr_Binary (Binary_i64 (U64Shr_Ris lhs rhs))
|}.

Definition I64Rotl : BinaryOp := {|
  b_Result := P_i64;
  b_Lhs := P_i64;
  b_Rhs := Rhs_shift_amount;
  b_decode_rhs := decode_rhs_as_shift_amount P_i64;
  b_consteval := fun lhs rhs => into_res (wasmi_i64_rotl_ssi lhs rhs);
  b_op_rrr := None;
  b_op_rrs := fun rhs => Instr_Binary (Binary_i64 (I64Rotl_Rrs rhs));
  b_op_rri := fun rhs => Instr_Binary (Binary_i64 (I64Rotl_Rri rhs));
  b_op_rsr := fun lhs => Instr_Binary (Binary_i64 (I64Rotl_Rsr lhs));
  b_op_rss := fun lhs rhs => Instr_Binary (Binary_i64 (I64Rotl_Rss lhs rhs));
  b_op_rsi := fun lhs rhs => Instr_Binary (Binary_i64 (I64Rotl_Rsi lhs rhs));
  b_op_rir := fun lhs => Instr_Binary (Binary_i64 (I64Rotl_Rir lhs));
  b_op_ris := fun lhs rhs => Instr_Binary (Binary_i64 (I64Rotl_Ris lhs rhs))
|}.

Definition I64Rotr : BinaryOp := {|
  b_Result := P_i64;
  b_Lhs := P_i64;
  b_Rhs := Rhs_shift_amount;
  b_decode_rhs := decode_rhs_as_shift_amount P_i64;
  b_consteval := fun lhs rhs => into_res (wasmi_i64_rotr_ssi lhs rhs);
  b_op_rrr := None;
  b_op_rrs := fun rhs => Instr_Binary (Binary_i64 (I64Rotr_Rrs rhs));
  b_op_rri := fun rhs => Instr_Binary (Binary_i64 (I64Rotr_Rri rhs));
  b_op_rsr := fun lhs => Instr_Binary (Binary_i64 (I64Rotr_Rsr lhs));
  b_op_rss := fun lhs rhs => Instr_Binary (Binary_i64 (I64Rotr_Rss lhs rhs));
  b_op_rsi := fun lhs rhs => Instr_Binary (Binary_i64 (I64Rotr_Rsi lhs rhs));
  b_op_rir := fun lhs => Instr_Binary (Binary_i64 (I64Rotr_Rir lhs));
  b_op_ris := fun lhs rhs => Instr_Binary (Binary_i64 (I64Rotr_Ris lhs rhs))
|}.

Definition F32Lt : BinaryOp := {|
  b_Result := P_bool;
  b_Lhs := P_f32;
  b_Rhs := Rhs_value P_f32;
  b_decode_rhs := decode_rhs_as_value P_f32;
  b_consteval := fun lhs rhs => into_res (f32_lt lhs rhs);
  b_op_rrr := None;
  b_op_rrs := fun rhs => Instr_Binary (Binary_f32 (F32Lt_Rrs rhs));
  b_op_rri := fun rhs => Instr_Binary (Binary_f32 (F32Lt_Rri rhs));
  b_op_rsr := fun lhs => Instr_Binary (Binary_f32 (F32Lt_Rsr lhs));
  b_op_rss := fun lhs rhs => Instr_Binary (Binary_f32 (F32Lt_Rss lhs rhs));
  b_op_rsi := fun lhs rhs => Instr_Binary (Binary_f32 (F32Lt_Rsi lhs rhs));
  b_op_rir := fun lhs => Instr_Binary (Binary_f32 (F32Lt_Rir lhs));
  b_op_ris := fun lhs rhs => Instr_Binary (Binary_f32 (F32Lt_Ris lhs rhs))
|}.

Definition F32Le : BinaryOp := {|
  b_Result := P_bool;
  b_Lhs := P_f32;
  b_Rhs := Rhs_value P_f32;
  b_decode_rhs := decode_rhs_as_value P_f32;
  b_consteval := fun lhs rhs => into_res (f32_le lhs rhs);
  b_op_rrr := None;
  b_op_rrs := fun rhs => Instr_Binary (Binary_f32 (F32Le_Rrs rhs));
  b_op_rri := fun rhs => Instr_Binary (Binary_f32 (F32Le_Rri rhs));
  b_op_rsr := fun lhs => Instr_Binary (Binary_f32 (F32Le_Rsr lhs));
  b_op_rss := fun lhs rhs => Instr_Binary (Binary_f32 (F32Le_Rss lhs rhs));
  b_op_rsi := fun lhs rhs => Instr_Binary (Binary_f32 (F32Le_Rsi lhs rhs));
  b_op_rir := fun lhs => Instr_Binary (Binary_f32 (F32Le_Rir lhs));
  b_op_ris := fun lhs rhs => Instr_Binary (Binary_f32 (F32Le_Ris lhs rhs))
|}.

Definition F32NotLt : BinaryOp := {|
  b_Result := P_bool;
  b_Lhs := P_f32;
  b_Rhs := Rhs_value P_f32;
  b_decode_rhs := decode_rhs_as_value P_f32;
  b_consteval := fun lhs rhs => into_res (wasmi_f32_not_lt lhs rhs);
  b_op_rrr := None;
  b_op_rrs := fun rhs => Instr_Binary (Binary_f32 (F32NotLt_Rrs rhs));
  b_op_rri := fun rhs => Instr_Binary (Binary_f32 (F32NotLt_Rri rhs));
  b_op_rsr := fun lhs => Instr_Binary (Binary_f32 (F32NotLt_Rsr lhs));
  b_op_rss := fun lhs rhs => Instr_Binary (Binary_f32 (F32NotLt_Rss lhs rhs));
  b_op_rsi := fun lhs rhs => Instr_Binary (Binary_f32 (F32NotLt_Rsi lhs rhs));
  b_op_rir := fun lhs => Instr_Binary (Binary_f32 (F32NotLt_Rir lhs));
  b_op_ris := fun lhs rhs => Instr_Binary (Binary_f32 (F32NotLt_Ris lhs rhs))
|}.

Definition F32NotLe : BinaryOp := {|
  b_Result := P_bool;
  b_Lhs := P_f32;
  b_Rhs := Rhs_value P_f32;
  b_decode_rhs := decode_rhs_as_value P_f32;
  b_consteval := fun lhs rhs => into_res (wasmi_f32_not_le lhs rhs);
  b_op_rrr := None;
  b_op_rrs := fun rhs => Instr_Binary (Binary_f32 (F32NotLe_Rrs rhs));
  b_op_rri := fun rhs => Instr_Binary (Binary_f32 (F32NotLe_Rri rhs));
  b_op_rsr := fun lhs => Instr_Binary (Binary_f32 (F32NotLe_Rsr lhs));
  b_op_rss := fun lhs rhs => Instr_Binary (Binary_f32 (F32NotLe_Rss lhs rhs));
  b_op_rsi := fun lhs rhs => Instr_Binary (Binary_f32 (F32NotLe_Rsi lhs rhs));
  b_op_rir := fun lhs => Instr_Binary (Binary_f32 (F32NotLe_Rir lhs));
  b_op_ris := fun lhs rhs => Instr_Binary (Binary_f32 (F32NotLe_Ris lhs rhs))
|}.

Definition F32Add : BinaryOp := {|
  b_Result := P_f32;
  b_Lhs := P_f32;
  b_Rhs := Rhs_value P_f32;
  b_decode_rhs := decode_rhs_as_value P_f32;
  b_consteval := fun lhs rhs => into_res (f32_add lhs rhs);
  b_op_rrr := None;
  b_op_rrs := fun rhs => Instr_Binary (Binary_f32 (F32Add_Rrs rhs));
  b_op_rri := fun rhs => Instr_Binary (Binary_f32 (F32Add_Rri rhs));
  b_op_rsr := fun lhs => Instr_Binary (Binary_f32 (F32Add_Rsr lhs));
  b_op_rss := fun lhs rhs => Instr_Binary (Binary_f32 (F32Add_Rss lhs rhs));
  b_op_rsi := fun lhs rhs => Instr_Binary (Binary_f32 (F32Add_Rsi lhs rhs));
  b_op_rir := fun lhs => Instr_Binary (Binary_f32 (F32Add_Rir lhs));
  b_op_ris := fun lhs rhs => Instr_Binary (Binary_f32 (F32Add_Ris lhs rhs))
|}.

Definition F32Sub : BinaryOp := {|
  b_Result := P_f32;
  b_Lhs := P_f32;
  b_Rhs := Rhs_value P_f32;
  b_decode_rhs := decode_rhs_as_value P_f32;
  b_consteval := fun lhs rhs => into_res (f32_sub lhs rhs);
  b_op_rrr := None;
  b_op_rrs := fun rhs => Instr_Binary (Binary_f32 (F32Sub_Rrs rhs));
  b_op_rri := fun rhs => Instr_Binary (Binary_f32 (F32Sub_Rri rhs));
  b_op_rsr := fun lhs => Instr_Binary (Binary_f32 (F32Sub_Rsr lhs));
  b_op_rss := fun lhs rhs => Instr_Binary (Binary_f32 (F32Sub_Rss lhs rhs));
  b_op_rsi := fun lhs rhs => Instr_Binary (Binary_f32 (F32Sub_Rsi lhs rhs));
  b_op_rir := fun lhs => Instr_Binary (Binary_f32 (F32Sub_Rir lhs));
  b_op_ris := fun lhs rhs => Instr_Binary (Binary_f32 (F32Sub_Ris lhs rhs))
|}.

Definition F32Mul : BinaryOp := {|
  b_Result := P_f32;
  b_Lhs := P_f32;
  b_Rhs := Rhs_value P_f32;
  b_decode_rhs := decode_rhs_as_value P_f32;
  b_consteval := fun lhs rhs => into_res (f32_mul lhs rhs);
  b_op_rrr := Some (Instr_Binary (Binary_f32 F32Mul_Rrr));
  b_op_rrs := fun rhs => Instr_Binary (Binary_f32 (F32Mul_Rrs rhs));
  b_op_rri := fun rhs => Instr_Binary (Binary_f32 (F32Mul_Rri rhs));
  b_op_rsr := fun lhs => Instr_Binary (Binary_f32 (F32Mul_Rsr lhs));
  b_op_rss := fun lhs rhs => Instr_Binary (Binary_f32 (F32Mul_Rss lhs rhs));
  b_op_rsi := fun lhs rhs => Instr_Binary (Binary_f32 (F32Mul_Rsi lhs rhs));
  b_op_rir := fun lhs => Instr_Binary (Binary_f32 (F32Mul_Rir lhs));
  b_op_ris := fun lhs rhs => Instr_Binary (Binary_f32 (F32Mul_Ris lhs rhs))
|}.

Definition F32Div : BinaryOp := {|
  b_Result := P_f32;
  b_Lhs := P_f32;
  b_Rhs := Rhs_value P_f32;
  b_decode_rhs := decode_rhs_as_value P_f32;
  b_consteval := fun lhs rhs => into_res (f32_div lhs rhs);
  b_op_rrr := None;
  b_op_rrs := fun rhs => Instr_Binary (Binary_f32 (F32Div_Rrs rhs));
  b_op_rri := fun rhs => Instr_Binary (Binary_f32 (F32Div_Rri rhs));
  b_op_rsr := fun lhs => Instr_Binary (Binary_f32 (F32Div_Rsr lhs));
  b_op_rss := fun lhs rhs => Instr_Binary (Binary_f32 (F32Div_Rss lhs rhs));
  b_op_rsi := fun lhs rhs => Instr_Binary (Binary_f32 (F32Div_Rsi lhs rhs));
  b_op_rir := fun lhs => Instr_Binary (Binary_f32 (F32Div_Rir lhs));
  b_op_ris := fun lhs rhs => Instr_Binary (Binary_f32 (F32Div_Ris lhs rhs))
|}.

Definition F32Min : BinaryOp := {|
  b_Result := P_f32;
  b_Lhs := P_f32;
  b_Rhs := Rhs_value P_f32;
  b_decode_rhs := decode_rhs_as_value P_f32;
  b_consteval := fun lhs rhs => into_res (f32_min lhs rhs);
  b_op_rrr := None;
  b_op_rrs := fun rhs => Instr_Binary (Binary_f32 (F32Min_Rrs rhs));
  b_op_rri := fun rhs => Instr_Binary (Binary_f32 (F32Min_Rri rhs));
  b_op_rsr := fun lhs => Instr_Binary (Binary_f32 (F32Min_Rsr lhs));
  b_op_rss := fun lhs rhs => Instr_Binary (Binary_f32 (F32Min_Rss lhs rhs));
  b_op_rsi := fun lhs rhs => Instr_Binary (Binary_f32 (F32Min_Rsi lhs rhs));
  b_op_rir := fun lhs => Instr_Binary (Binary_f32 (F32Min_Rir lhs));
  b_op_ris := fun lhs rhs => Instr_Binary (Binary_f32 (F32Min_Ris lhs rhs))
|}.

Definition F32Max : BinaryOp := {|
  b_Result := P_f32;
  b_Lhs := P_f32;
  b_Rhs := Rhs_value P_f32;
  b_decode_rhs := decode_rhs_as_value P_f32;
  b_consteval := fun lhs rhs => into_res (f32_max lhs rhs);
  b_op_rrr := None;
  b_op_rrs := fun rhs => Instr_Binary (Binary_f32 (F32Max_Rrs rhs));
  b_op_rri := fun rhs => Instr_Binary (Binary_f32 (F32Max_Rri rhs));
  b_op_rsr := fun lhs => Instr_Binary (Binary_f32 (F32Max_Rsr lhs));
  b_op_rss := fun lhs rhs => Instr_Binary (Binary_f32 (F32Max_Rss lhs rhs));
  b_op_rsi := fun lhs rhs => Instr_Binary (Binary_f32 (F32Max_Rsi lhs rhs));
  b_op_rir := fun lhs => Instr_Binary (Binary_f32 (F32Max_Rir lhs));
  b_op_ris := fun lhs rhs => Instr_Binary (Binary_f32 (F32Max_Ris lhs rhs))
|}.

Definition F32Copysign : BinaryOp := {|
  b_Result := P_f32;
  b_Lhs := P_f32;
  b_Rhs := Rhs_value P_f32;
  b_decode_rhs := decode_rhs_as_value P_f32;
  b_consteval := fun lhs rhs => into_res (f32_copysign lhs rhs);
  b_op_rrr := None;
  b_op_rrs := fun rhs => Instr_Binary (Binary_f32 (F32Copysign_Rrs rhs));
  b_op_rri := f32_copysign_rri;
  b_op_rsr := fun lhs => Instr_Binary (Binary_f32 (F32Copysign_Rsr lhs));
  b_op_rss := fun lhs rhs => Instr_Binary (Binary_f32 (F32Copysign_Rss lhs rhs));
  b_op_rsi := f32_copysign_rsi;
  b_op_rir := fun lhs => Instr_Binary (Binary_f32 (F32Copysign_Rir lhs));
  b_op_ris := fun lhs rhs => Instr_Binary (Binary_f32 (F32Copysign_Ris lhs rhs))
|}.

Definition F64Lt : BinaryOp := {|
  b_Result := P_bool;
  b_Lhs := P_f64;
  b_Rhs := Rhs_value P_f64;
  b_decode_rhs := decode_rhs_as_value P_f64;
  b_consteval := fun lhs rhs => into_res (f64_lt lhs rhs);
  b_op_rrr := None;
  b_op_rrs := fun rhs => Instr_Binary (Binary_f64 (F64Lt_Rrs rhs));
  b_op_rri := fun rhs => Instr_Binary (Binary_f64 (F64Lt_Rri rhs));
  b_op_rsr := fun lhs => Instr_Binary (Binary_f64 (F64Lt_Rsr lhs));
  b_op_rss := fun lhs rhs => Instr_Binary (Binary_f64 (F64Lt_Rss lhs rhs));
  b_op_rsi := fun lhs rhs => Instr_Binary (Binary_f64 (F64Lt_Rsi lhs rhs));
  b_op_rir := fun lhs => Instr_Binary (Binary_f64 (F64Lt_Rir lhs));
  b_op_ris := fun lhs rhs => Instr_Binary (Binary_f64 (F64Lt_Ris lhs rhs))
|}.

Definition F64Le : BinaryOp := {|
  b_Result := P_bool;
  b_Lhs := P_f64;
  b_Rhs := Rhs_value P_f64;
  b_decode_rhs := decode_rhs_as_value P_f64;
  b_consteval := fun lhs rhs => into_res (f64_le lhs rhs);
  b_op_rrr := None;
  b_op_rrs := fun rhs => Instr_Binary (Binary_f64 (F64Le_Rrs rhs));
  b_op_rri := fun rhs => Instr_Binary (Binary_f64 (F64Le_Rri rhs));
  b_op_rsr := fun lhs => Instr_Binary (Binary_f64 (F64Le_Rsr lhs));
  b_op_rss := fun lhs rhs => Instr_Binary (Binary_f64 (F64Le_Rss lhs rhs));
  b_op_rsi := fun lhs rhs => Instr_Binary (Binary_f64 (F64Le_Rsi lhs rhs));
  b_op_rir := fun lhs => Instr_Binary (Binary_f64 (F64Le_Rir lhs));
  b_op_ris := fun lhs rhs => Instr_Binary (Binary_f64 (F64Le_Ris lhs rhs))
|}.

Definition F64NotLt : BinaryOp := {|
  b_Result := P_bool;
  b_Lhs := P_f64;
  b_Rhs := Rhs_value P_f64;
  b_decode_rhs := decode_rhs_as_value P_f64;
  b_consteval := fun lhs rhs => into_res (wasmi_f64_not_lt lhs rhs);
  b_op_rrr := None;
  b_op_rrs := fun rhs => Instr_Binary (Binary_f64 (F64NotLt_Rrs rhs));
  b_op_rri := fun rhs => Instr_Binary (Binary_f64 (F64NotLt_Rri rhs));
  b_op_rsr := fun lhs => Instr_Binary (Binary_f64 (F64NotLt_Rsr lhs));
  b_op_rss := fun lhs rhs => Instr_Binary (Binary_f64 (F64NotLt_Rss lhs rhs));
  b_op_rsi := fun lhs rhs => Instr_Binary (Binary_f64 (F64NotLt_Rsi lhs rhs));
  b_op_rir := fun lhs => Instr_Binary (Binary_f64 (F64NotLt_Rir lhs));
  b_op_ris := fun lhs rhs => Instr_Binary (Binary_f64 (F64NotLt_Ris lhs rhs))
|}.

Definition F64NotLe : BinaryOp := {|
  b_Result := P_bool;
  b_Lhs := P_f64;
  b_Rhs := Rhs_value P_f64;
  b_decode_rhs := decode_rhs_as_value P_f64;
  b_consteval := fun lhs rhs => into_res (wasmi_f64_not_le lhs rhs);
  b_op_rrr := None;
  b_op_rrs := fun rhs => Instr_Binary (Binary_f64 (F64NotLe_Rrs rhs));
  b_op_rri := fun rhs => Instr_Binary (Binary_f64 (F64NotLe_Rri rhs));
  b_op_rsr := fun lhs => Instr_Binary (Binary_f64 (F64NotLe_Rsr lhs));
  b_op_rss := fun lhs rhs => Instr_Binary (Binary_f64 (F64NotLe_Rss lhs rhs));
  b_op_rsi := fun lhs rhs => Instr_Binary (Binary_f64 (F64NotLe_Rsi lhs rhs));
  b_op_rir := fun lhs => Instr_Binary (Binary_f64 (F64NotLe_Rir lhs));
  b_op_ris := fun lhs rhs => Instr_Binary (Binary_f64 (F64NotLe_Ris lhs rhs))
|}.

Definition F64Add : BinaryOp := {|
  b_Result := P_f64;
  b_Lhs := P_f64;
  b_Rhs := Rhs_value P_f64;
  b_decode_rhs := decode_rhs_as_value P_f64;
  b_consteval := fun lhs rhs => into_res (f64_add lhs rhs);
  b_op_rrr := None;
  b_op_rrs := fun rhs => Instr_Binary (Binary_f64 (F64Add_Rrs rhs));
  b_op_rri := fun rhs => Instr_Binary (Binary_f64 (F64Add_Rri rhs));
  b_op_rsr := fun lhs => Instr_Binary (Binary_f64 (F64Add_Rsr lhs));
  b_op_rss := fun lhs rhs => Instr_Binary (Binary_f64 (F64Add_Rss lhs rhs));
  b_op_rsi := fun lhs rhs => Instr_Binary (Binary_f64 (F64Add_Rsi lhs rhs));
  b_op_rir := fun lhs => Instr_Binary (Binary_f64 (F64Add_Rir lhs));
  b_op_ris := fun lhs rhs => Instr_Binary (Binary_f64 (F64Add_Ris lhs rhs))
|}.

Definition F64Sub : BinaryOp := {|
  b_Result := P_f64;
  b_Lhs := P_f64;
  b_Rhs := Rhs_value P_f64;
  b_decode_rhs := decode_rhs_as_value P_f64;
  b_consteval := fun lhs rhs => into_res (f64_sub lhs rhs);
  b_op_rrr := None;
  b_op_rrs := fun rhs => Instr_Binary (Binary_f64 (F64Sub_Rrs rhs));
  b_op_rri := fun rhs => Instr_Binary (Binary_f64 (F64Sub_Rri rhs));
  b_op_rsr := fun lhs => Instr_Binary (Binary_f64 (F64Sub_Rsr lhs));
  b_op_rss := fun lhs rhs => Instr_Binary (Binary_f64 (F64Sub_Rss lhs rhs));
  b_op_rsi := fun lhs rhs => Instr_Binary (Binary_f64 (F64Sub_Rsi lhs rhs));
  b_op_rir := fun lhs => Instr_Binary (Binary_f64 (F64Sub_Rir lhs));
  b_op_ris := fun lhs rhs => Instr_Binary (Binary_f64 (F64Sub_Ris lhs rhs))
|}.

Definition F64Mul : BinaryOp := {|
  b_Result := P_f64;
  b_Lhs := P_f64;
  b_Rhs := Rhs_value P_f64;
  b_decode_rhs := decode_rhs_as_value P_f64;
  b_consteval := fun lhs rhs => into_res (f64_mul lhs rhs);
  b_op_rrr := Some (Instr_Binary (Binary_f64 F64Mul_Rrr));
  b_op_rrs := fun rhs => Instr_Binary (Binary_f64 (F64Mul_Rrs rhs));
  b_op_rri := fun rhs => Instr_Binary (Binary_f64 (F64Mul_Rri rhs));
  b_op_rsr := fun lhs => Instr_Binary (Binary_f64 (F64Mul_Rsr lhs));
  b_op_rss := fun lhs rhs => Instr_Binary (Binary_f64 (F64Mul_Rss lhs rhs));
  b_op_rsi := fun lhs rhs => Instr_Binary (Binary_f64 (F64Mul_Rsi lhs rhs));
  b_op_rir := fun lhs => Instr_Binary (Binary_f64 (F64Mul_Rir lhs));
  b_op_ris := fun lhs rhs => Instr_Binary (Binary_f64 (F64Mul_Ris lhs rhs))
|}.

Definition F64Div : BinaryOp := {|
  b_Result := P_f64;
  b_Lhs := P_f64;
  b_Rhs := Rhs_value P_f64;
  b_decode_rhs := decode_rhs_as_value P_f64;
  b_consteval := fun lhs rhs => into_res (f64_div lhs rhs);
  b_op_rrr := None;
  b_op_rrs := fun rhs => Instr_Binary (Binary_f64 (F64Div_Rrs rhs));
  b_op_rri := fun rhs => Instr_Binary (Binary_f64 (F64Div_Rri rhs));
  b_op_rsr := fun lhs => Instr_Binary (Binary_f64 (F64Div_Rsr lhs));
  b_op_rss := fun lhs rhs => Instr_Binary (Binary_f64 (F64Div_Rss lhs rhs));
  b_op_rsi := fun lhs rhs => Instr_Binary (Binary_f64 (F64Div_Rsi lhs rhs));
  b_op_rir := fun lhs => Instr_Binary (Binary_f64 (F64Div_Rir lhs));
  b_op_ris := fun lhs rhs => Instr_Binary (Binary_f64 (F64Div_Ris lhs rhs))
|}.

Definition F64Min : BinaryOp := {|
  b_Result := P_f64;
  b_Lhs := P_f64;
  b_Rhs := Rhs_value P_f64;
  b_decode_rhs := decode_rhs_as_value P_f64;
  b_consteval := fun lhs rhs => into_res (f64_min lhs rhs);
  b_op_rrr := None;
  b_op_rrs := fun rhs => Instr_Binary (Binary_f64 (F64Min_Rrs rhs));
  b_op_rri := fun rhs => Instr_Binary (Binary_f64 (F64Min_Rri rhs));
  b_op_rsr := fun lhs => Instr_Binary (Binary_f64 (F64Min_Rsr lhs));
  b_op_rss := fun lhs rhs => Instr_Binary (Binary_f64 (F64Min_Rss lhs rhs));
  b_op_rsi := fun lhs rhs => Instr_Binary (Binary_f64 (F64Min_Rsi lhs rhs));
  b_op_rir := fun lhs => Instr_Binary (Binary_f64 (F64Min_Rir lhs));
  b_op_ris := fun lhs rhs => Instr_Binary (Binary_f64 (F64Min_Ris lhs rhs))
|}.

Definition F64Max : BinaryOp := {|
  b_Result := P_f64;
  b_Lhs := P_f64;
  b_Rhs := Rhs_value P_f64;
  b_decode_rhs := decode_rhs_as_value P_f64;
  b_consteval := fun lhs rhs => into_res (f64_max lhs rhs);
  b_op_rrr := None;
  b_op_rrs := fun rhs => Instr_Binary (Binary_f64 (F64Max_Rrs rhs));
  b_op_rri := fun rhs => Instr_Binary (Binary_f64 (F64Max_Rri rhs));
  b_op_rsr := fun lhs => Instr_Binary (Binary_f64 (F64Max_Rsr lhs));
  b_op_rss := fun lhs rhs => Instr_Binary (Binary_f64 (F64Max_Rss lhs rhs));
  b_op_rsi := fun lhs rhs => Instr_Binary (Binary_f64 (F64Max_Rsi lhs rhs));
  b_op_rir := fun lhs => Instr_Binary (Binary_f64 (F64Max_Rir lhs));
  b_op_ris := fun lhs rhs => Instr_Binary (Binary_f64 (F64Max_Ris lhs rhs))
|}.

Definition F64Copysign : BinaryOp := {|
  b_Result := P_f64;
  b_Lhs := P_f64;
  b_Rhs := Rhs_value P_f64;
  b_decode_rhs := decode_rhs_as_value P_f64;
  b_consteval := fun lhs rhs => into_res (f64_copysign lhs rhs);
  b_op_rrr := None;
  b_op_rrs := fun rhs => Instr_Binary (Binary_f64 (F64Copysign_Rrs rhs));
  b_op_rri := f64_copysign_rri;
  b_op_rsr := fun lhs => Instr_Binary (Binary_f64 (F64Copysign_Rsr lhs));
  b_op_rss := fun lhs rhs => Instr_Binary (Binary_f64 (F64Copysign_Rss lhs rhs));
  b_op_rsi := f64_copysign_rsi;
  b_op_rir := fun lhs => Instr_Binary (Binary_f64 (F64Copysign_Rir lhs));
  b_op_ris := fun lhs rhs => Instr_Binary (Binary_f64 (F64Copysign_Ris lhs rhs))
|}.

(** ** Comparisons with swapped operands *)

Definition I32Gt : BinaryOp := cmp_op_for I32Lt.
Definition U32Gt : BinaryOp := cmp_op_for U32Lt.
Definition I32Ge : BinaryOp := cmp_op_for I32Le.
Definition U32Ge : BinaryOp := cmp_op_for U32Le.
Definition I64Gt : BinaryOp := cmp_op_for I64Lt.
Definition U64Gt : BinaryOp := cmp_op_for U64Lt.
Definition I64Ge : BinaryOp := cmp_op_for I64Le.
Definition U64Ge : BinaryOp := cmp_op_for U64Le.
Definition F32Gt : BinaryOp := cmp_op_for F32Lt.
Definition F32Ge : BinaryOp := cmp_op_for F32Le.
Definition F64Gt : BinaryOp := cmp_op_for F64Lt.
Definition F64Ge : BinaryOp := cmp_op_for F64Le.

(** All operators of the two traits. *)
Definition commutative_binary_ops : list CommutativeBinaryOp := [
  I32Eq; I32NotEq; I32And; I32NotAnd; I32Or; I32NotOr; I32Add; I32Mul; I32BitAnd; I32BitOr; I32BitXor;
  I64Eq; I64NotEq; I64And; I64NotAnd; I64Or; I64NotOr; I64Add; I64Mul; I64BitAnd; I64BitOr; I64BitXor;
  F32Eq; F32NotEq; F64Eq; F64NotEq
].
Definition binary_ops : list BinaryOp := [
  I32Lt; I32Le; U32Lt; U32Le; I32Sub; I32Div; U32Div; I32Rem; U32Rem; I32Shl; I32Shr; U32Shr; I32Rotl;
  I32Rotr; I64Lt; I64Le; U64Lt; U64Le; I64Sub; I64Div; U64Div; I64Rem; U64Rem; I64Shl; I64Shr; U64Shr;
  I64Rotl; I64Rotr; F32Lt; F32Le; F32NotLt; F32NotLe; F32Add; F32Sub; F32Mul; F32Div; F32Min; F32Max;
  F32Copysign; F64Lt; F64Le; F64NotLt; F64NotLe; F64Add; F64Sub; F64Mul; F64Div; F64Min; F64Max;
  F64Copysign; I32Gt; U32Gt; I32Ge; U32Ge; I64Gt; U64Gt; I64Ge; U64Ge; F32Gt; F32Ge; F64Gt; F64Ge
].

End Tables.
