(* ===== verification/UnaryOps.v ===== *)
(** * The unary operators of the translator

    [translator/func/op/unary.rs], as the binary operators. *)

From Stdlib Require Import ZArith.
From stdpp Require Import base list.
From S2P Require Import Prelude Trap Value WasmInt MemoryAccess Slot Cells Float OpTables Instr.
Local Open Scope Z_scope.

Record UnaryOp : Type := {
  u_Result : Prim;
  u_Value : Prim;
  u_consteval : Z -> res TrapCode Z;
  u_op_rs : Slot -> Instr;
  u_op_rr : Instr
}.

Record UnaryOpVt : Type := {
  uvt_result_ty : option ValType;
  uvt_consteval : TypedRawVal -> res TrapCode TypedRawVal;
  uvt_op_rs : Slot -> Instr;
  uvt_op_rr : Instr
}.

Definition unary_consteval_vt (op : UnaryOp) (value : TypedRawVal) : res TrapCode TypedRawVal :=
  value ← from_typed (u_Value op) value;
  result ← u_consteval op value;
  into_typed (u_Result op) result.

Definition UnaryOp_VT (op : UnaryOp) : UnaryOpVt := {|
  uvt_result_ty := Typed_TY (u_Result op);
  uvt_consteval := unary_consteval_vt op;
  uvt_op_rs := u_op_rs op;
  uvt_op_rr := u_op_rr op
|}.

Section Tables.
Context `{FloatNans}.

Definition I32Popcnt : UnaryOp := {|
  u_Result := P_i32;
  u_Value := P_i32;
  u_consteval := fun value => into_res (i32_popcnt value);
  u_op_rs := fun value => Instr_Unary (I32Popcnt_Rs value);
  u_op_rr := Instr_Unary I32Popcnt_Rr
|}.

Definition I32Clz : UnaryOp := {|
  u_Result := P_i32;
  u_Value := P_i32;
  u_consteval := fun value => into_res (i32_clz value);
  u_op_rs := fun value => Instr_Unary (I32Clz_Rs value);
  u_op_rr := Instr_Unary I32Clz_Rr
|}.

Definition I32Ctz : UnaryOp := {|
  u_Result := P_i32;
  u_Value := P_i32;
  u_consteval := fun value => into_res (i32_ctz value);
  u_op_rs := fun value => Instr_Unary (I32Ctz_Rs value);
  u_op_rr := Instr_Unary I32Ctz_Rr
|}.

Definition I64Popcnt : UnaryOp := {|
  u_Result := P_i64;
  u_Value := P_i64;
  u_consteval := fun value => into_res (i64_popcnt value);
  u_op_rs := fun value => Instr_Unary (I64Popcnt_Rs value);
  u_op_rr := Instr_Unary I64Popcnt_Rr
|}.

Definition I64Clz : UnaryOp := {|
  u_Result := P_i64;
  u_Value := P_i64;
  u_consteval := fun value => into_res (i64_clz value);
  u_op_rs := fun value => Instr_Unary (I64Clz_Rs value);
  u_op_rr := Instr_Unary I64Clz_Rr
|}.

Definition I64Ctz : UnaryOp := {|
  u_Result := P_i64;
  u_Value := P_i64;
  u_consteval := fun value => into_res (i64_ctz value);
  u_op_rs := fun value => Instr_Unary (I64Ctz_Rs value);
  u_op_rr := Instr_Unary I64Ctz_Rr
|}.

Definition F32Abs : UnaryOp := {|
  u_Result := P_f32;
  u_Value := P_f32;
  u_consteval := fun value => into_res (f32_abs value);
  u_op_rs := fun value => Instr_Unary (F32Abs_Rs value);
  u_op_rr := Instr_Unary F32Abs_Rr
|}.

Definition F32Neg : UnaryOp := {|
  u_Result := P_f32;
  u_Value := P_f32;
  u_consteval := fun value => into_res (f32_neg value);
  u_op_rs := fun value => Instr_Unary (F32Neg_Rs value);
  u_op_rr := Instr_Unary F32Neg_Rr
|}.

Definition F32Ceil : UnaryOp := {|
  u_Result := P_f32;
  u_Value := P_f32;
  u_consteval := fun value => into_res (f32_ceil value);
  u_op_rs := fun value => Instr_Unary (F32Ceil_Rs value);
  u_op_rr := Instr_Unary F32Ceil_Rr
|}.

Definition F32Floor : UnaryOp := {|
  u_Result := P_f32;
  u_Value := P_f32;
  u_consteval := fun value => into_res (f32_floor value);
  u_op_rs := fun value => Instr_Unary (F32Floor_Rs value);
  u_op_rr := Instr_Unary F32Floor_Rr
|}.

Definition F32Trunc : UnaryOp := {|
  u_Result := P_f32;
  u_Value := P_f32;
  u_consteval := fun value => into_res (f32_trunc value);
  u_op_rs := fun value => Instr_Unary (F32Trunc_Rs value);
  u_op_rr := Instr_Unary F32Trunc_Rr
|}.

Definition F32Nearest : UnaryOp := {|
  u_Result := P_f32;
  u_Value := P_f32;
  u_consteval := fun value => into_res (f32_nearest value);
  u_op_rs := fun value => Instr_Unary (F32Nearest_Rs value);
  u_op_rr := Instr_Unary F32Nearest_Rr
|}.

Definition F32Sqrt : UnaryOp := {|
  u_Result := P_f32;
  u_Value := P_f32;
  u_consteval := fun value => into_res (f32_sqrt value);
  u_op_rs := fun value => Instr_Unary (F32Sqrt_Rs value);
  u_op_rr := Instr_Unary F32Sqrt_Rr
|}.

Definition F64Abs : UnaryOp := {|
  u_Result := P_f64;
  u_Value := P_f64;
  u_consteval := fun value => into_res (f64_abs value);
  u_op_rs := fun value => Instr_Unary (F64Abs_Rs value);
  u_op_rr := Instr_Unary F64Abs_Rr
|}.

Definition F64Neg : UnaryOp := {|
  u_Result := P_f64;
  u_Value := P_f64;
  u_consteval := fun value => into_res (f64_neg value);
  u_op_rs := fun value => Instr_Unary (F64Neg_Rs value);
  u_op_rr := Instr_Unary F64Neg_Rr
|}.

Definition F64Ceil : UnaryOp := {|
  u_Result := P_f64;
  u_Value := P_f64;
  u_consteval := fun value => into_res (f64_ceil value);
  u_op_rs := fun value => Instr_Unary (F64Ceil_Rs value);
  u_op_rr := Instr_Unary F64Ceil_Rr
|}.

Definition F64Floor : UnaryOp := {|
  u_Result := P_f64;
  u_Value := P_f64;
  u_consteval := fun value => into_res (f64_floor value);
  u_op_rs := fun value => Instr_Unary (F64Floor_Rs value);
  u_op_rr := Instr_Unary F64Floor_Rr
|}.

Definition F64Trunc : UnaryOp := {|
  u_Result := P_f64;
  u_Value := P_f64;
  u_consteval := fun value => into_res (f64_trunc value);
  u_op_rs := fun value => Instr_Unary (F64Trunc_Rs value);
  u_op_rr := Instr_Unary F64Trunc_Rr
|}.

Definition F64Nearest : UnaryOp := {|
  u_Result := P_f64;
  u_Value := P_f64;
  u_consteval := fun value => into_res (f64_nearest value);
  u_op_rs := fun value => Instr_Unary (F64Nearest_Rs value);
  u_op_rr := Instr_Unary F64Nearest_Rr
|}.

Definition F64Sqrt : UnaryOp := {|
  u_Result := P_f64;
  u_Value := P_f64;
  u_consteval := fun value => into_res (f64_sqrt value);
  u_op_rs := fun value => Instr_Unary (F64Sqrt_Rs value);
  u_op_rr := Instr_Unary F64Sqrt_Rr
|}.

Definition I32WrapI64 : UnaryOp := {|
  u_Result := P_i32;
  u_Value := P_i64;
  u_consteval := fun value => into_res (i32_wrap_i64 value);
  u_op_rs := fun value => Instr_Unary (I32WrapI64_Rs value);
  u_op_rr := Instr_Unary I32WrapI64_Rr
|}.

Definition I32TruncF32 : UnaryOp := {|
  u_Result := P_i32;
  u_Value := P_f32;
  u_consteval := fun value => into_res (i32_trunc_f32_s value);
  u_op_rs := fun value => Instr_Unary (I32TruncF32_Rs value);
  u_op_rr := Instr_Unary I32TruncF32_Rr
|}.

Definition U32TruncF32 : UnaryOp := {|
  u_Result := P_u32;
  u_Value := P_f32;
  u_consteval := fun value => into_res (i32_trunc_f32_u value);
  u_op_rs := fun value => Instr_Unary (U32TruncF32_Rs value);
  u_op_rr := Instr_Unary U32TruncF32_Rr
|}.

Definition I32TruncF64 : UnaryOp := {|
  u_Result := P_i32;
  u_Value := P_f64;
  u_consteval := fun value => into_res (i32_trunc_f64_s value);
  u_op_rs := fun value => Instr_Unary (I32TruncF64_Rs value);
  u_op_rr := Instr_Unary I32TruncF64_Rr
|}.

Definition U32TruncF64 : UnaryOp := {|
  u_Result := P_u32;
  u_Value := P_f64;
  u_consteval := fun value => into_res (i32_trunc_f64_u value);
  u_op_rs := fun value => Instr_Unary (U32TruncF64_Rs value);
  u_op_rr := Instr_Unary U32TruncF64_Rr
|}.

Definition I64ExtendI32 : UnaryOp := {|
  u_Result := P_i64;
  u_Value := P_i32;
  u_consteval := fun value => into_res (i64_extend_i32_s value);
  u_op_rs := fun value => Instr_Unary (I64Sext32_Rs value);
  u_op_rr := Instr_Unary I64Sext32_Rr
|}.

Definition I64TruncF32 : UnaryOp := {|
  u_Result := P_i64;
  u_Value := P_f32;
  u_consteval := fun value => into_res (i64_trunc_f32_s value);
  u_op_rs := fun value => Instr_Unary (I64TruncF32_Rs value);
  u_op_rr := Instr_Unary I64TruncF32_Rr
|}.

Definition U64TruncF32 : UnaryOp := {|
  u_Result := P_u64;
  u_Value := P_f32;
  u_consteval := fun value => into_res (i64_trunc_f32_u value);
  u_op_rs := fun value => Instr_Unary (U64TruncF32_Rs value);
  u_op_rr := Instr_Unary U64TruncF32_Rr
|}.

Definition I64TruncF64 : UnaryOp := {|
  u_Result := P_i64;
  u_Value := P_f64;
  u_consteval := fun value => into_res (i64_trunc_f64_s value);
  u_op_rs := fun value => Instr_Unary (I64TruncF64_Rs value);
  u_op_rr := Instr_Unary I64TruncF64_Rr
|}.

Definition U64TruncF64 : UnaryOp := {|
  u_Result := P_u64;
  u_Value := P_f64;
  u_consteval := fun value => into_res (i64_trunc_f64_u value);
  u_op_rs := fun value => Instr_Unary (U64TruncF64_Rs value);
  u_op_rr := Instr_Unary U64TruncF64_Rr
|}.

Definition F32ConvertI32 : UnaryOp := {|
  u_Result := P_f32;
  u_Value := P_i32;
  u_consteval := fun value => into_res (f32_convert_i32_s value);
  u_op_rs := fun value => Instr_Unary (F32ConvertI32_Rs value);
  u_op_rr := Instr_Unary F32ConvertI32_Rr
|}.

Definition F32ConvertU32 : UnaryOp := {|
  u_Result := P_f32;
  u_Value := P_u32;
  u_consteval := fun value => into_res (f32_convert_i32_u value);
  u_op_rs := fun value => Instr_Unary (F32ConvertU32_Rs value);
  u_op_rr := Instr_Unary F32ConvertU32_Rr
|}.

Definition F32ConvertI64 : UnaryOp := {|
  u_Result := P_f32;
  u_Value := P_i64;
  u_consteval := fun value => into_res (f32_convert_i64_s value);
  u_op_rs := fun value => Instr_Unary (F32ConvertI64_Rs value);
  u_op_rr := Instr_Unary F32ConvertI64_Rr
|}.

Definition F32ConvertU64 : UnaryOp := {|
  u_Result := P_f32;
  u_Value := P_u64;
  u_consteval := fun value => into_res (f32_convert_i64_u value);
  u_op_rs := fun value => Instr_Unary (F32ConvertU64_Rs value);
  u_op_rr := Instr_Unary F32ConvertU64_Rr
|}.

Definition F64ConvertI32 : UnaryOp := {|
  u_Result := P_f64;
  u_Value := P_i32;
  u_consteval := fun value => into_res (f64_convert_i32_s value);
  u_op_rs := fun value => Instr_Unary (F64ConvertI32_Rs value);
  u_op_rr := Instr_Unary F64ConvertI32_Rr
|}.

Definition F64ConvertU32 : UnaryOp := {|
  u_Result := P_f64;
  u_Value := P_u32;
  u_consteval := fun value => into_res (f64_convert_i32_u value);
  u_op_rs := fun value => Instr_Unary (F64ConvertU32_Rs value);
  u_op_rr := Instr_Unary F64ConvertU32_Rr
|}.

Definition F64ConvertI64 : UnaryOp := {|
  u_Result := P_f64;
  u_Value := P_i64;
  u_consteval := fun value => into_res (f64_convert_i64_s value);
  u_op_rs := fun value => Instr_Unary (F64ConvertI64_Rs value);
  u_op_rr := Instr_Unary F64ConvertI64_Rr
|}.

Definition F64ConvertU64 : UnaryOp := {|
  u_Result := P_f64;
  u_Value := P_u64;
  u_consteval := fun value => into_res (f64_convert_i64_u value);
  u_op_rs := fun value => Instr_Unary (F64ConvertU64_Rs value);
  u_op_rr := Instr_Unary F64ConvertU64_Rr
|}.

Definition F32DemoteF64 : UnaryOp := {|
  u_Result := P_f32;
  u_Value := P_f64;
  u_consteval := fun value => into_res (f32_demote_f64 value);
  u_op_rs := fun value => Instr_Unary (F32DemoteF64_Rs value);
  u_op_rr := Instr_Unary F32DemoteF64_Rr
|}.

Definition F64PromoteF32 : UnaryOp := {|
  u_Result := P_f64;
  u_Value := P_f32;
  u_consteval := fun value => into_res (f64_promote_f32 value);
  u_op_rs := fun value => Instr_Unary (F64PromoteF32_Rs value);
  u_op_rr := Instr_Unary F64PromoteF32_Rr
|}.

Definition I32Sext8 : UnaryOp := {|
  u_Result := P_i32;
  u_Value := P_i32;
  u_consteval := fun value => into_res (i32_extend8_s value);
  u_op_rs := fun value => Instr_Unary (I32Sext8_Rs value);
  u_op_rr := Instr_Unary I32Sext8_Rr
|}.

Definition I32Sext16 : UnaryOp := {|
  u_Result := P_i32;
  u_Value := P_i32;
  u_consteval := fun value => into_res (i32_extend16_s value);
  u_op_rs := fun value => Instr_Unary (I32Sext16_Rs value);
  u_op_rr := Instr_Unary I32Sext16_Rr
|}.

Definition I64Sext8 : UnaryOp := {|
  u_Result := P_i64;
  u_Value := P_i64;
  u_consteval := fun value => into_res (i64_extend8_s value);
  u_op_rs := fun value => Instr_Unary (I64Sext8_Rs value);
  u_op_rr := Instr_Unary I64Sext8_Rr
|}.

Definition I64Sext16 : UnaryOp := {|
  u_Result := P_i64;
  u_Value := P_i64;
  u_consteval := fun value => into_res (i64_extend16_s value);
  u_op_rs := fun value => Instr_Unary (I64Sext16_Rs value);
  u_op_rr := Instr_Unary I64Sext16_Rr
|}.

Definition I64Sext32 : UnaryOp := {|
  u_Result := P_i64;
  u_Value := P_i64;
  u_consteval := fun value => into_res (i64_extend32_s value);
  u_op_rs := fun value => Instr_Unary (I64Sext32_Rs value);
  u_op_rr := Instr_Unary I64Sext32_Rr
|}.

Definition I32TruncSatF32 : UnaryOp := {|
  u_Result := P_i32;
  u_Value := P_f32;
  u_consteval := fun value => into_res (i32_trunc_sat_f32_s value);
  u_op_rs := fun value => Instr_Unary (I32TruncSatF32_Rs value);
  u_op_rr := Instr_Unary I32TruncSatF32_Rr
|}.

Definition U32TruncSatF32 : UnaryOp := {|
  u_Result := P_u32;
  u_Value := P_f32;
  u_consteval := fun value => into_res (i32_trunc_sat_f32_u value);
  u_op_rs := fun value => Instr_Unary (U32TruncSatF32_Rs value);
  u_op_rr := Instr_Unary U32TruncSatF32_Rr
|}.

Definition I32TruncSatF64 : UnaryOp := {|
  u_Result := P_i32;
  u_Value := P_f64;
  u_consteval := fun value => into_res (i32_trunc_sat_f64_s value);
  u_op_rs := fun value => Instr_Unary (I32TruncSatF64_Rs value);
  u_op_rr := Instr_Unary I32TruncSatF64_Rr
|}.

Definition U32TruncSatF64 : UnaryOp := {|
  u_Result := P_u32;
  u_Value := P_f64;
  u_consteval := fun value => into_res (i32_trunc_sat_f64_u value);
  u_op_rs := fun value => Instr_Unary (U32TruncSatF64_Rs value);
  u_op_rr := Instr_Unary U32TruncSatF64_Rr
|}.

Definition I64TruncSatF32 : UnaryOp := {|
  u_Result := P_i64;
  u_Value := P_f32;
  u_consteval := fun value => into_res (i64_trunc_sat_f32_s value);
  u_op_rs := fun value => Instr_Unary (I64TruncSatF32_Rs value);
  u_op_rr := Instr_Unary I64TruncSatF32_Rr
|}.

Definition U64TruncSatF32 : UnaryOp := {|
  u_Result := P_u64;
  u_Value := P_f32;
  u_consteval := fun value => into_res (i64_trunc_sat_f32_u value);
  u_op_rs := fun value => Instr_Unary (U64TruncSatF32_Rs value);
  u_op_rr := Instr_Unary U64TruncSatF32_Rr
|}.

Definition I64TruncSatF64 : UnaryOp := {|
  u_Result := P_i64;
  u_Value := P_f64;
  u_consteval := fun value => into_res (i64_trunc_sat_f64_s value);
  u_op_rs := fun value => Instr_Unary (I64TruncSatF64_Rs value);
  u_op_rr := Instr_Unary I64TruncSatF64_Rr
|}.

Definition U64TruncSatF64 : UnaryOp := {|
  u_Result := P_u64;
  u_Value := P_f64;
  u_consteval := fun value => into_res (i64_trunc_sat_f64_u value);
  u_op_rs := fun value => Instr_Unary (U64TruncSatF64_Rs value);
  u_op_rr := Instr_Unary U64TruncSatF64_Rr
|}.

Definition unary_ops : list UnaryOp := [
  I32Popcnt; I32Clz; I32Ctz; I64Popcnt; I64Clz; I64Ctz; F32Abs; F32Neg; F32Ceil; F32Floor; F32Trunc;
  F32Nearest; F32Sqrt; F64Abs; F64Neg; F64Ceil; F64Floor; F64Trunc; F64Nearest; F64Sqrt; I32WrapI64;
  I32TruncF32; U32TruncF32; I32TruncF64; U32TruncF64; I64ExtendI32; I64TruncF32; U64TruncF32; I64TruncF64;
  U64TruncF64; F32ConvertI32; F32ConvertU32; F32ConvertI64; F32ConvertU64; F64ConvertI32; F64ConvertU32;
  F64ConvertI64; F64ConvertU64; F32DemoteF64; F64PromoteF32; I32Sext8; I32Sext16; I64Sext8; I64Sext16;
  I64Sext32; I32TruncSatF32; U32TruncSatF32; I32TruncSatF64; U32TruncSatF64; I64TruncSatF32;
  U64TruncSatF32; I64TruncSatF64; U64TruncSatF64
].

End Tables.
