(* ===== verification/AccessOps.v ===== *)
(** * The loads and stores of the translator

    [translator/func/op/load.rs] and [store.rs], as the binary operators. *)

From Stdlib Require Import ZArith.
From stdpp Require Import base list.
From S2P Require Import Prelude Trap Value WasmInt MemoryAccess Slot Locals Cells OpTables AccessTables Instr.
Local Open Scope Z_scope.

(** ** Loads *)

Record LoadOp : Type := {
  l_Result : Prim;
  l_op_rr : Z -> Z -> Instr;
  l_op_rs : Slot -> Z -> Z -> Instr;
  l_op_ri : Z -> Z -> Instr;
  l_op_rr_mem0_offset16 : Z -> Instr;
  l_op_rs_mem0_offset16 : Slot -> Z -> Instr
}.

Record LoadOpVt : Type := {
  lvt_result_ty : option ValType;
  lvt_op_rr : Z -> Z -> Instr;
  lvt_op_rs : Slot -> Z -> Z -> Instr;
  lvt_op_ri : Z -> Z -> Instr;
  lvt_op_rr_mem0_offset16 : Z -> Instr;
  lvt_op_rs_mem0_offset16 : Slot -> Z -> Instr
}.

Definition LoadOp_VT (op : LoadOp) : LoadOpVt := {|
  lvt_result_ty := Typed_TY (l_Result op);
  lvt_op_rr := l_op_rr op;
  lvt_op_rs := l_op_rs op;
  lvt_op_ri := l_op_ri op;
  lvt_op_rr_mem0_offset16 := l_op_rr_mem0_offset16 op;
  lvt_op_rs_mem0_offset16 := l_op_rs_mem0_offset16 op
|}.

Definition I32Load : LoadOp := {|
  l_Result := P_u32;
  l_op_rr := fun offset memory => Instr_Load (U32Load_Rr offset memory);
  l_op_rs := fun ptr offset memory => Instr_Load (U32Load_Rs ptr offset memory);
  l_op_ri := fun address memory => Instr_Load (U32Load_Ri address memory);
  l_op_rr_mem0_offset16 := fun offset => Instr_LoadMem0 (U32LoadMem0Offset16_Rr offset);
  l_op_rs_mem0_offset16 := fun ptr offset => Instr_LoadMem0 (U32LoadMem0Offset16_Rs ptr offset)
|}.

Definition I64Load : LoadOp := {|
  l_Result := P_u64;
  l_op_rr := fun offset memory => Instr_Load (U64Load_Rr offset memory);
  l_op_rs := fun ptr offset memory => Instr_Load (U64Load_Rs ptr offset memory);
  l_op_ri := fun address memory => Instr_Load (U64Load_Ri address memory);
  l_op_rr_mem0_offset16 := fun offset => Instr_LoadMem0 (U64LoadMem0Offset16_Rr offset);
  l_op_rs_mem0_offset16 := fun ptr offset => Instr_LoadMem0 (U64LoadMem0Offset16_Rs ptr offset)
|}.

Definition F32Load : LoadOp := {|
  l_Result := P_f32;
  l_op_rr := fun offset memory => Instr_Load (F32Load_Rr offset memory);
  l_op_rs := fun ptr offset memory => Instr_Load (F32Load_Rs ptr offset memory);
  l_op_ri := fun address memory => Instr_Load (F32Load_Ri address memory);
  l_op_rr_mem0_offset16 := fun offset => Instr_LoadMem0 (F32LoadMem0Offset16_Rr offset);
  l_op_rs_mem0_offset16 := fun ptr offset => Instr_LoadMem0 (F32LoadMem0Offset16_Rs ptr offset)
|}.

Definition F64Load : LoadOp := {|
  l_Result := P_f64;
  l_op_rr := fun offset memory => Instr_Load (F64Load_Rr offset memory);
  l_op_rs := fun ptr offset memory => Instr_Load (F64Load_Rs ptr offset memory);
  l_op_ri := fun address memory => Instr_Load (F64Load_Ri address memory);
  l_op_rr_mem0_offset16 := fun offset => Instr_LoadMem0 (F64LoadMem0Offset16_Rr offset);
  l_op_rs_mem0_offset16 := fun ptr offset => Instr_LoadMem0 (F64LoadMem0Offset16_Rs ptr offset)
|}.

Definition I32Load8 : LoadOp := {|
  l_Result := P_i32;
  l_op_rr := fun offset memory => Instr_Load (I32LoadExtend8_Rr offset memory);
  l_op_rs := fun ptr offset memory => Instr_Load (I32LoadExtend8_Rs ptr offset memory);
  l_op_ri := fun address memory => Instr_Load (I32LoadExtend8_Ri address memory);
  l_op_rr_mem0_offset16 := fun offset => Instr_LoadMem0 (I32LoadExtend8Mem0Offset16_Rr offset);
  l_op_rs_mem0_offset16 := fun ptr offset => Instr_LoadMem0 (I32LoadExtend8Mem0Offset16_Rs ptr offset)
|}.

Definition I32Load16 : LoadOp := {|
  l_Result := P_i32;
  l_op_rr := fun offset memory => Instr_Load (I32LoadExtend16_Rr offset memory);
  l_op_rs := fun ptr offset memory => Instr_Load (I32LoadExtend16_Rs ptr offset memory);
  l_op_ri := fun address memory => Instr_Load (I32LoadExtend16_Ri address memory);
  l_op_rr_mem0_offset16 := fun offset => Instr_LoadMem0 (I32LoadExtend16Mem0Offset16_Rr offset);
  l_op_rs_mem0_offset16 := fun ptr offset => Instr_LoadMem0 (I32LoadExtend16Mem0Offset16_Rs ptr offset)
|}.

Definition U32Load8 : LoadOp := {|
  l_Result := P_u32;
  l_op_rr := fun offset memory => Instr_Load (U32LoadExtend8_Rr offset memory);
  l_op_rs := fun ptr offset memory => Instr_Load (U32LoadExtend8_Rs ptr offset memory);
  l_op_ri := fun address memory => Instr_Load (U32LoadExtend8_Ri address memory);
  l_op_rr_mem0_offset16 := fun offset => Instr_LoadMem0 (U32LoadExtend8Mem0Offset16_Rr offset);
  l_op_rs_mem0_offset16 := fun ptr offset => Instr_LoadMem0 (U32LoadExtend8Mem0Offset16_Rs ptr offset)
|}.

Definition U32Load16 : LoadOp := {|
  l_Result := P_u32;
  l_op_rr := fun offset memory => Instr_Load (U32LoadExtend16_Rr offset memory);
  l_op_rs := fun ptr offset memory => Instr_Load (U32LoadExtend16_Rs ptr offset memory);
  l_op_ri := fun address memory => Instr_Load (U32LoadExtend16_Ri address memory);
  l_op_rr_mem0_offset16 := fun offset => Instr_LoadMem0 (U32LoadExtend16Mem0Offset16_Rr offset);
  l_op_rs_mem0_offset16 := fun ptr offset => Instr_LoadMem0 (U32LoadExtend16Mem0Offset16_Rs ptr offset)
|}.

Definition I64Load8 : LoadOp := {|
  l_Result := P_i64;
  l_op_rr := fun offset memory => Instr_Load (I64LoadExtend8_Rr offset memory);
  l_op_rs := fun ptr offset memory => Instr_Load (I64LoadExtend8_Rs ptr offset memory);
  l_op_ri := fun address memory => Instr_Load (I64LoadExtend8_Ri address memory);
  l_op_rr_mem0_offset16 := fun offset => Instr_LoadMem0 (I64LoadExtend8Mem0Offset16_Rr offset);
  l_op_rs_mem0_offset16 := fun ptr offset => Instr_LoadMem0 (I64LoadExtend8Mem0Offset16_Rs ptr offset)
|}.

Definition I64Load16 : LoadOp := {|
  l_Result := P_i64;
  l_op_rr := fun offset memory => Instr_Load (I64LoadExtend16_Rr offset memory);
  l_op_rs := fun ptr offset memory => Instr_Load (I64LoadExtend16_Rs ptr offset memory);
  l_op_ri := fun address memory => Instr_Load (I64LoadExtend16_Ri address memory);
  l_op_rr_mem0_offset16 := fun offset => Instr_LoadMem0 (I64LoadExtend16Mem0Offset16_Rr offset);
  l_op_rs_mem0_offset16 := fun ptr offset => Instr_LoadMem0 (I64LoadExtend16Mem0Offset16_Rs ptr offset)
|}.

Definition I64Load32 : LoadOp := {|
  l_Result := P_i64;
  l_op_rr := fun offset memory => Instr_Load (I64LoadExtend32_Rr offset memory);
  l_op_rs := fun ptr offset memory => Instr_Load (I64LoadExtend32_Rs ptr offset memory);
  l_op_ri := fun address memory => Instr_Load (I64LoadExtend32_Ri address memory);
  l_op_rr_mem0_offset16 := fun offset => Instr_LoadMem0 (I64LoadExtend32Mem0Offset16_Rr offset);
  l_op_rs_mem0_offset16 := fun ptr offset => Instr_LoadMem0 (I64LoadExtend32Mem0Offset16_Rs ptr offset)
|}.

Definition U64Load8 : LoadOp := {|
  l_Result := P_u64;
  l_op_rr := fun offset memory => Instr_Load (U64LoadExtend8_Rr offset memory);
  l_op_rs := fun ptr offset memory => Instr_Load (U64LoadExtend8_Rs ptr offset memory);
  l_op_ri := fun address memory => Instr_Load (U64LoadExtend8_Ri address memory);
  l_op_rr_mem0_offset16 := fun offset => Instr_LoadMem0 (U64LoadExtend8Mem0Offset16_Rr offset);
  l_op_rs_mem0_offset16 := fun ptr offset => Instr_LoadMem0 (U64LoadExtend8Mem0Offset16_Rs ptr offset)
|}.

Definition U64Load16 : LoadOp := {|
  l_Result := P_u64;
  l_op_rr := fun offset memory => Instr_Load (U64LoadExtend16_Rr offset memory);
  l_op_rs := fun ptr offset memory => Instr_Load (U64LoadExtend16_Rs ptr offset memory);
  l_op_ri := fun address memory => Instr_Load (U64LoadExtend16_Ri address memory);
  l_op_rr_mem0_offset16 := fun offset => Instr_LoadMem0 (U64LoadExtend16Mem0Offset16_Rr offset);
  l_op_rs_mem0_offset16 := fun ptr offset => Instr_LoadMem0 (U64LoadExtend16Mem0Offset16_Rs ptr offset)
|}.

Definition U64Load32 : LoadOp := {|
  l_Result := P_u64;
  l_op_rr := fun offset memory => Instr_Load (U64LoadExtend32_Rr offset memory);
  l_op_rs := fun ptr offset memory => Instr_Load (U64LoadExtend32_Rs ptr offset memory);
  l_op_ri := fun address memory => Instr_Load (U64LoadExtend32_Ri address memory);
  l_op_rr_mem0_offset16 := fun offset => Instr_LoadMem0 (U64LoadExtend32Mem0Offset16_Rr offset);
  l_op_rs_mem0_offset16 := fun ptr offset => Instr_LoadMem0 (U64LoadExtend32Mem0Offset16_Rs ptr offset)
|}.

(** ** Stores *)

Record StoreOp : Type := {
  s_Value : Prim;
  s_Immediate : Prim;
  s_into_immediate : Z -> Z;
  s_store_rr : Z -> Z -> option Instr;
  s_store_rs : Z -> Slot -> Z -> Instr;
  s_store_ri : Z -> Z -> Z -> Instr;
  s_store_sr : Slot -> Z -> Z -> Instr;
  s_store_ss : Slot -> Z -> Slot -> Z -> Instr;
  s_store_si : Slot -> Z -> Z -> Z -> Instr;
  s_store_ir : Z -> Z -> Instr;
  s_store_is : Z -> Slot -> Z -> Instr;
  s_store_ii : Z -> Z -> Z -> Instr;
  s_store_mem0_offset16_rr : Z -> option Instr;
  s_store_mem0_offset16_rs : Z -> Slot -> Instr;
  s_store_mem0_offset16_ri : Z -> Z -> Instr;
  s_store_mem0_offset16_sr : Slot -> Z -> Instr;
  s_store_mem0_offset16_ss : Slot -> Z -> Slot -> Instr;
  s_store_mem0_offset16_si : Slot -> Z -> Z -> Instr
}.

Record StoreOpVt : Type := {
  svt_store_rr : Z -> Z -> option Instr;
  svt_store_rs : Z -> Slot -> Z -> Instr;
  svt_store_ri : Z -> TypedRawVal -> Z -> res TranslationError Instr;
  svt_store_sr : Slot -> Z -> Z -> Instr;
  svt_store_ss : Slot -> Z -> Slot -> Z -> Instr;
  svt_store_si : Slot -> Z -> TypedRawVal -> Z -> res TranslationError Instr;
  svt_store_ir : Z -> Z -> Instr;
  svt_store_is : Z -> Slot -> Z -> Instr;
  svt_store_ii : Z -> TypedRawVal -> Z -> res TranslationError Instr;
  svt_store_mem0_offset16_rr : Z -> option Instr;
  svt_store_mem0_offset16_rs : Z -> Slot -> Instr;
  svt_store_mem0_offset16_ri : Z -> TypedRawVal -> res TranslationError Instr;
  svt_store_mem0_offset16_sr : Slot -> Z -> Instr;
  svt_store_mem0_offset16_ss : Slot -> Z -> Slot -> Instr;
  svt_store_mem0_offset16_si : Slot -> Z -> TypedRawVal -> res TranslationError Instr
}.

Definition store_imm (op : StoreOp) (value : TypedRawVal) : res TranslationError Z :=
  s_into_immediate op <$> from_typed (s_Value op) value.
Definition store_ri_vt (op : StoreOp) (offset : Z) (value : TypedRawVal) (memory : Z) : res TranslationError Instr :=
  value ← store_imm op value; Ok (s_store_ri op offset value memory).
Definition store_si_vt (op : StoreOp) (ptr : Slot) (offset : Z) (value : TypedRawVal) (memory : Z) : res TranslationError Instr :=
  value ← store_imm op value; Ok (s_store_si op ptr offset value memory).
Definition store_ii_vt (op : StoreOp) (address : Z) (value : TypedRawVal) (memory : Z) : res TranslationError Instr :=
  value ← store_imm op value; Ok (s_store_ii op address value memory).
Definition store_mem0_offset16_ri_vt (op : StoreOp) (offset : Z) (value : TypedRawVal) : res TranslationError Instr :=
  value ← store_imm op value; Ok (s_store_mem0_offset16_ri op offset value).
Definition store_mem0_offset16_si_vt (op : StoreOp) (ptr : Slot) (offset : Z) (value : TypedRawVal) : res TranslationError Instr :=
  value ← store_imm op value; Ok (s_store_mem0_offset16_si op ptr offset value).

Definition StoreOp_VT (op : StoreOp) : StoreOpVt := {|
  svt_store_rr := s_store_rr op;
  svt_store_rs := s_store_rs op;
  svt_store_ri := store_ri_vt op;
  svt_store_sr := s_store_sr op;
  svt_store_ss := s_store_ss op;
  svt_store_si := store_si_vt op;
  svt_store_ir := s_store_ir op;
  svt_store_is := s_store_is op;
  svt_store_ii := store_ii_vt op;
  svt_store_mem0_offset16_rr := s_store_mem0_offset16_rr op;
  svt_store_mem0_offset16_rs := s_store_mem0_offset16_rs op;
  svt_store_mem0_offset16_ri := store_mem0_offset16_ri_vt op;
  svt_store_mem0_offset16_sr := s_store_mem0_offset16_sr op;
  svt_store_mem0_offset16_ss := s_store_mem0_offset16_ss op;
  svt_store_mem0_offset16_si := store_mem0_offset16_si_vt op
|}.

(** [ToBits] for the types of stored values, and [Wrap]. *)
Definition to_bits (p : Prim) (self : Z) : Z :=
  match p with
  | P_i8 => cast P_u8 self | P_i16 => cast P_u16 self | P_i32 => cast P_u32 self | P_i64 => cast P_u64 self
  | _ => self
  end.
Definition wrap (p : Prim) (self : Z) : Z := cast p self.

Definition I32Store : StoreOp := {|
  s_Value := P_i32;
  s_Immediate := P_u32;
  s_into_immediate := to_bits P_i32;
  s_store_rr := fun _ _ => None;
  s_store_rs := fun offset value memory => Instr_Store (U32Store_Rs offset value memory);
  s_store_ri := fun offset value memory => Instr_Store (U32Store_Ri offset value memory);
  s_store_sr := fun ptr offset memory => Instr_Store (U32Store_Sr ptr offset memory);
  s_store_ss := fun ptr offset value memory => Instr_Store (U32Store_Ss ptr offset value memory);
  s_store_si := fun ptr offset value memory => Instr_Store (U32Store_Si ptr offset value memory);
  s_store_ir := fun address memory => Instr_Store (U32Store_Ir address memory);
  s_store_is := fun address value memory => Instr_Store (U32Store_Is address value memory);
  s_store_ii := fun address value memory => Instr_Store (U32Store_Ii address value memory);
  s_store_mem0_offset16_rr := fun _ => None;
  s_store_mem0_offset16_rs := fun offset value => Instr_StoreMem0 (U32StoreMem0Offset16_Rs offset value);
  s_store_mem0_offset16_ri := fun offset value => Instr_StoreMem0 (U32StoreMem0Offset16_Ri offset value);
  s_store_mem0_offset16_sr := fun ptr offset => Instr_StoreMem0 (U32StoreMem0Offset16_Sr ptr offset);
  s_store_mem0_offset16_ss := fun ptr offset value => Instr_StoreMem0 (U32StoreMem0Offset16_Ss ptr offset value);
  s_store_mem0_offset16_si := fun ptr offset value => Instr_StoreMem0 (U32StoreMem0Offset16_Si ptr offset value)
|}.

Definition I64Store : StoreOp := {|
  s_Value := P_i64;
  s_Immediate := P_u64;
  s_into_immediate := to_bits P_i64;
  s_store_rr := fun _ _ => None;
  s_store_rs := fun offset value memory => Instr_Store (U64Store_Rs offset value memory);
  s_store_ri := fun offset value memory => Instr_Store (U64Store_Ri offset value memory);
  s_store_sr := fun ptr offset memory => Instr_Store (U64Store_Sr ptr offset memory);
  s_store_ss := fun ptr offset value memory => Instr_Store (U64Store_Ss ptr offset value memory);
  s_store_si := fun ptr offset value memory => Instr_Store (U64Store_Si ptr offset value memory);
  s_store_ir := fun address memory => Instr_Store (U64Store_Ir address memory);
  s_store_is := fun address value memory => Instr_Store (U64Store_Is address value memory);
  s_store_ii := fun address value memory => Instr_Store (U64Store_Ii address value memory);
  s_store_mem0_offset16_rr := fun _ => None;
  s_store_mem0_offset16_rs := fun offset value => Instr_StoreMem0 (U64StoreMem0Offset16_Rs offset value);
  s_store_mem0_offset16_ri := fun offset value => Instr_StoreMem0 (U64StoreMem0Offset16_Ri offset value);
  s_store_mem0_offset16_sr := fun ptr offset => Instr_StoreMem0 (U64StoreMem0Offset16_Sr ptr offset);
  s_store_mem0_offset16_ss := fun ptr offset value => Instr_StoreMem0 (U64StoreMem0Offset16_Ss ptr offset value);
  s_store_mem0_offset16_si := fun ptr offset value => Instr_StoreMem0 (U64StoreMem0Offset16_Si ptr offset value)
|}.

Definition F32Store : StoreOp := {|
  s_Value := P_f32;
  s_Immediate := P_u32;
  s_into_immediate := to_bits P_f32;
  s_store_rr := fun offset memory => Some (Instr_Store (F32Store_Rr offset memory));
  s_store_rs := fun offset value memory => Instr_Store (U32Store_Rs offset value memory);
  s_store_ri := fun offset value memory => Instr_Store (U32Store_Ri offset value memory);
  s_store_sr := fun ptr offset memory => Instr_Store (F32Store_Sr ptr offset memory);
  s_store_ss := fun ptr offset value memory => Instr_Store (U32Store_Ss ptr offset value memory);
  s_store_si := fun ptr offset value memory => Instr_Store (U32Store_Si ptr offset value memory);
  s_store_ir := fun address memory => Instr_Store (F32Store_Ir address memory);
  s_store_is := fun address value memory => Instr_Store (U32Store_Is address value memory);
  s_store_ii := fun address value memory => Instr_Store (U32Store_Ii address value memory);
  s_store_mem0_offset16_rr := fun offset => Some (Instr_StoreMem0 (F32StoreMem0Offset16_Rr offset));
  s_store_mem0_offset16_rs := fun offset value => Instr_StoreMem0 (U32StoreMem0Offset16_Rs offset value);
  s_store_mem0_offset16_ri := fun offset value => Instr_StoreMem0 (U32StoreMem0Offset16_Ri offset value);
  s_store_mem0_offset16_sr := fun ptr offset => Instr_StoreMem0 (F32StoreMem0Offset16_Sr ptr offset);
  s_store_mem0_offset16_ss := fun ptr offset value => Instr_StoreMem0 (U32StoreMem0Offset16_Ss ptr offset value);
  s_store_mem0_offset16_si := fun ptr offset value => Instr_StoreMem0 (U32StoreMem0Offset16_Si ptr offset value)
|}.

Definition F64Store : StoreOp := {|
  s_Value := P_f64;
  s_Immediate := P_u64;
  s_into_immediate := to_bits P_f64;
  s_store_rr := fun offset memory => Some (Instr_Store (F64Store_Rr offset memory));
  s_store_rs := fun offset value memory => Instr_Store (U64Store_Rs offset value memory);
  s_store_ri := fun offset value memory => Instr_Store (U64Store_Ri offset value memory);
  s_store_sr := fun ptr offset memory => Instr_Store (F64Store_Sr ptr offset memory);
  s_store_ss := fun ptr offset value memory => Instr_Store (U64Store_Ss ptr offset value memory);
  s_store_si := fun ptr offset value memory => Instr_Store (U64Store_Si ptr offset value memory);
  s_store_ir := fun address memory => Instr_Store (F64Store_Ir address memory);
  s_store_is := fun address value memory => Instr_Store (U64Store_Is address value memory);
  s_store_ii := fun address value memory => Instr_Store (U64Store_Ii address value memory);
  s_store_mem0_offset16_rr := fun offset => Some (Instr_StoreMem0 (F64StoreMem0Offset16_Rr offset));
  s_store_mem0_offset16_rs := fun offset value => Instr_StoreMem0 (U64StoreMem0Offset16_Rs offset value);
  s_store_mem0_offset16_ri := fun offset value => Instr_StoreMem0 (U64StoreMem0Offset16_Ri offset value);
  s_store_mem0_offset16_sr := fun ptr offset => Instr_StoreMem0 (F64StoreMem0Offset16_Sr ptr offset);
  s_store_mem0_offset16_ss := fun ptr offset value => Instr_StoreMem0 (U64StoreMem0Offset16_Ss ptr offset value);
  s_store_mem0_offset16_si := fun ptr offset value => Instr_StoreMem0 (U64StoreMem0Offset16_Si ptr offset value)
|}.

Definition I32Store8 : StoreOp := {|
  s_Value := P_i32;
  s_Immediate := P_i8;
  s_into_immediate := wrap P_i8;
  s_store_rr := fun _ _ => None;
  s_store_rs := fun offset value memory => Instr_Store (I32StoreWrap8_Rs offset value memory);
  s_store_ri := fun offset value memory => Instr_Store (I32StoreWrap8_Ri offset value memory);
  s_store_sr := fun ptr offset memory => Instr_Store (I32StoreWrap8_Sr ptr offset memory);
  s_store_ss := fun ptr offset value memory => Instr_Store (I32StoreWrap8_Ss ptr offset value memory);
  s_store_si := fun ptr offset value memory => Instr_Store (I32StoreWrap8_Si ptr offset value memory);
  s_store_ir := fun address memory => Instr_Store (I32StoreWrap8_Ir address memory);
  s_store_is := fun address value memory => Instr_Store (I32StoreWrap8_Is address value memory);
  s_store_ii := fun address value memory => Instr_Store (I32StoreWrap8_Ii address value memory);
  s_store_mem0_offset16_rr := fun _ => None;
  s_store_mem0_offset16_rs := fun offset value => Instr_StoreMem0 (I32StoreWrap8Mem0Offset16_Rs offset value);
  s_store_mem0_offset16_ri := fun offset value => Instr_StoreMem0 (I32StoreWrap8Mem0Offset16_Ri offset value);
  s_store_mem0_offset16_sr := fun ptr offset => Instr_StoreMem0 (I32StoreWrap8Mem0Offset16_Sr ptr offset);
  s_store_mem0_offset16_ss := fun ptr offset value => Instr_StoreMem0 (I32StoreWrap8Mem0Offset16_Ss ptr offset value);
  s_store_mem0_offset16_si := fun ptr offset value => Instr_StoreMem0 (I32StoreWrap8Mem0Offset16_Si ptr offset value)
|}.

Definition I32Store16 : StoreOp := {|
  s_Value := P_i32;
  s_Immediate := P_i16;
  s_into_immediate := wrap P_i16;
  s_store_rr := fun _ _ => None;
  s_store_rs := fun offset value memory => Instr_Store (I32StoreWrap16_Rs offset value memory);
  s_store_ri := fun offset value memory => Instr_Store (I32StoreWrap16_Ri offset value memory);
  s_store_sr := fun ptr offset memory => Instr_Store (I32StoreWrap16_Sr ptr offset memory);
  s_store_ss := fun ptr offset value memory => Instr_Store (I32StoreWrap16_Ss ptr offset value memory);
  s_store_si := fun ptr offset value memory => Instr_Store (I32StoreWrap16_Si ptr offset value memory);
  s_store_ir := fun address memory => Instr_Store (I32StoreWrap16_Ir address memory);
  s_store_is := fun address value memory => Instr_Store (I32StoreWrap16_Is address value memory);
  s_store_ii := fun address value memory => Instr_Store (I32StoreWrap16_Ii address value memory);
  s_store_mem0_offset16_rr := fun _ => None;
  s_store_mem0_offset16_rs := fun offset value => Instr_StoreMem0 (I32StoreWrap16Mem0Offset16_Rs offset value);
  s_store_mem0_offset16_ri := fun offset value => Instr_StoreMem0 (I32StoreWrap16Mem0Offset16_Ri offset value);
  s_store_mem0_offset16_sr := fun ptr offset => Instr_StoreMem0 (I32StoreWrap16Mem0Offset16_Sr ptr offset);
  s_store_mem0_offset16_ss := fun ptr offset value => Instr_StoreMem0 (I32StoreWrap16Mem0Offset16_Ss ptr offset value);
  s_store_mem0_offset16_si := fun ptr offset value => Instr_StoreMem0 (I32StoreWrap16Mem0Offset16_Si ptr offset value)
|}.

Definition I64Store8 : StoreOp := {|
  s_Value := P_i64;
  s_Immediate := P_i8;
  s_into_immediate := wrap P_i8;
  s_store_rr := fun _ _ => None;
  s_store_rs := fun offset value memory => Instr_Store (I64StoreWrap8_Rs offset value memory);
  s_store_ri := fun offset value memory => Instr_Store (I64StoreWrap8_Ri offset value memory);
  s_store_sr := fun ptr offset memory => Instr_Store (I64StoreWrap8_Sr ptr offset memory);
  s_store_ss := fun ptr offset value memory => Instr_Store (I64StoreWrap8_Ss ptr offset value memory);
  s_store_si := fun ptr offset value memory => Instr_Store (I64StoreWrap8_Si ptr offset value memory);
  s_store_ir := fun address memory => Instr_Store (I64StoreWrap8_Ir address memory);
  s_store_is := fun address value memory => Instr_Store (I64StoreWrap8_Is address value memory);
  s_store_ii := fun address value memory => Instr_Store (I64StoreWrap8_Ii address value memory);
  s_store_mem0_offset16_rr := fun _ => None;
  s_store_mem0_offset16_rs := fun offset value => Instr_StoreMem0 (I64StoreWrap8Mem0Offset16_Rs offset value);
  s_store_mem0_offset16_ri := fun offset value => Instr_StoreMem0 (I64StoreWrap8Mem0Offset16_Ri offset value);
  s_store_mem0_offset16_sr := fun ptr offset => Instr_StoreMem0 (I64StoreWrap8Mem0Offset16_Sr ptr offset);
  s_store_mem0_offset16_ss := fun ptr offset value => Instr_StoreMem0 (I64StoreWrap8Mem0Offset16_Ss ptr offset value);
  s_store_mem0_offset16_si := fun ptr offset value => Instr_StoreMem0 (I64StoreWrap8Mem0Offset16_Si ptr offset value)
|}.

Definition I64Store16 : StoreOp := {|
  s_Value := P_i64;
  s_Immediate := P_i16;
  s_into_immediate := wrap P_i16;
  s_store_rr := fun _ _ => None;
  s_store_rs := fun offset value memory => Instr_Store (I64StoreWrap16_Rs offset value memory);
  s_store_ri := fun offset value memory => Instr_Store (I64StoreWrap16_Ri offset value memory);
  s_store_sr := fun ptr offset memory => Instr_Store (I64StoreWrap16_Sr ptr offset memory);
  s_store_ss := fun ptr offset value memory => Instr_Store (I64StoreWrap16_Ss ptr offset value memory);
  s_store_si := fun ptr offset value memory => Instr_Store (I64StoreWrap16_Si ptr offset value memory);
  s_store_ir := fun address memory => Instr_Store (I64StoreWrap16_Ir address memory);
  s_store_is := fun address value memory => Instr_Store (I64StoreWrap16_Is address value memory);
  s_store_ii := fun address value memory => Instr_Store (I64StoreWrap16_Ii address value memory);
  s_store_mem0_offset16_rr := fun _ => None;
  s_store_mem0_offset16_rs := fun offset value => Instr_StoreMem0 (I64StoreWrap16Mem0Offset16_Rs offset value);
  s_store_mem0_offset16_ri := fun offset value => Instr_StoreMem0 (I64StoreWrap16Mem0Offset16_Ri offset value);
  s_store_mem0_offset16_sr := fun ptr offset => Instr_StoreMem0 (I64StoreWrap16Mem0Offset16_Sr ptr offset);
  s_store_mem0_offset16_ss := fun ptr offset value => Instr_StoreMem0 (I64StoreWrap16Mem0Offset16_Ss ptr offset value);
  s_store_mem0_offset16_si := fun ptr offset value => Instr_StoreMem0 (I64StoreWrap16Mem0Offset16_Si ptr offset value)
|}.

Definition I64Store32 : StoreOp := {|
  s_Value := P_i64;
  s_Immediate := P_i32;
  s_into_immediate := wrap P_i32;
  s_store_rr := fun _ _ => None;
  s_store_rs := fun offset value memory => Instr_Store (I64StoreWrap32_Rs offset value memory);
  s_store_ri := fun offset value memory => Instr_Store (I64StoreWrap32_Ri offset value memory);
  s_store_sr := fun ptr offset memory => Instr_Store (I64StoreWrap32_Sr ptr offset memory);
  s_store_ss := fun ptr offset value memory => Instr_Store (I64StoreWrap32_Ss ptr offset value memory);
  s_store_si := fun ptr offset value memory => Instr_Store (I64StoreWrap32_Si ptr offset value memory);
  s_store_ir := fun address memory => Instr_Store (I64StoreWrap32_Ir address memory);
  s_store_is := fun address value memory => Instr_Store (I64StoreWrap32_Is address value memory);
  s_store_ii := fun address value memory => Instr_Store (I64StoreWrap32_Ii address value memory);
  s_store_mem0_offset16_rr := fun _ => None;
  s_store_mem0_offset16_rs := fun offset value => Instr_StoreMem0 (I64StoreWrap32Mem0Offset16_Rs offset value);
  s_store_mem0_offset16_ri := fun offset value => Instr_StoreMem0 (I64StoreWrap32Mem0Offset16_Ri offset value);
  s_store_mem0_offset16_sr := fun ptr offset => Instr_StoreMem0 (I64StoreWrap32Mem0Offset16_Sr ptr offset);
  s_store_mem0_offset16_ss := fun ptr offset value => Instr_StoreMem0 (I64StoreWrap32Mem0Offset16_Ss ptr offset value);
  s_store_mem0_offset16_si := fun ptr offset value => Instr_StoreMem0 (I64StoreWrap32Mem0Offset16_Si ptr offset value)
|}.

Definition load_ops : list LoadOp := [
  I32Load; I64Load; F32Load; F64Load; I32Load8; I32Load16; U32Load8; U32Load16; I64Load8; I64Load16;
  I64Load32; U64Load8; U64Load16; U64Load32
].
Definition store_ops : list StoreOp := [
  I32Store; I64Store; F32Store; F64Store; I32Store8; I32Store16; I64Store8; I64Store16; I64Store32
].
