(* ===== verification/OpSelect.v ===== *)
(** * Selection of copies, fused copies and selects

    [translator/func/mod.rs]: which operator copies an operand to a register or a
    slot, which operator a copy of the integer register into a slot is fused to,
    and which operator selects between two operands. *)

From Stdlib Require Import ZArith.
From stdpp Require Import base option.
From S2P Require Import Prelude Value Slot Locals Operands Cells OpTables BinaryTables AccessTables Comparator.
From S2P Require Import Instr.
Local Open Scope Z_scope.

(** ** Resolved operands ([stack/operand.rs]) *)

Definition ResolvedOperand_map {A B} (f : A -> B) (self : ResolvedOperand A) : ResolvedOperand B :=
  match self with
  | Resolved_Reg ty => Resolved_Reg ty
  | Resolved_Slot slot => Resolved_Slot slot
  | Resolved_Immediate value => Resolved_Immediate (f value)
  end.

Definition ResolvedOperand_transpose {A} (self : ResolvedOperand (option A)) : option (ResolvedOperand A) :=
  match self with
  | Resolved_Reg ty => Some (Resolved_Reg ty)
  | Resolved_Slot slot => Some (Resolved_Slot slot)
  | Resolved_Immediate value => Resolved_Immediate <$> value
  end.

Definition ResolvedOperand_filter_map {A B} (f : A -> option B) (self : ResolvedOperand A) :
    option (ResolvedOperand B) :=
  ResolvedOperand_transpose (ResolvedOperand_map f self).

(** The conversion of an immediate may panic. *)
Definition resolved_try {A B E} (f : A -> res E B) (self : ResolvedOperand A) : res E (ResolvedOperand B) :=
  match self with
  | Resolved_Reg ty => Ok (Resolved_Reg ty)
  | Resolved_Slot slot => Ok (Resolved_Slot slot)
  | Resolved_Immediate value => Resolved_Immediate <$> f value
  end.

(** [Location]. *)
Inductive Location : Type := Loc_Reg (ty : ValType) | Loc_Slot (slot : Slot).

Definition ResolvedOperand_from_Location {A} (location : Location) : ResolvedOperand A :=
  match location with Loc_Reg ty => Resolved_Reg ty | Loc_Slot slot => Resolved_Slot slot end.

Section Select.
Context `{T : Target}.

Definition resolve_as (p : Prim) (self : Operand) (layout : StackLayout) :
    res TranslationError (ResolvedOperand Z) :=
  value ← Operand_resolve self layout; resolved_try (from_typed p) value.

(** [resolve_as::<RawVal>]. *)
Definition resolve_as_raw (self : Operand) (layout : StackLayout) :
    res TranslationError (ResolvedOperand RawVal) :=
  value ← Operand_resolve self layout; Ok (ResolvedOperand_map typed_value value).

(** ** Copies to registers *)

Definition select_u32_copy_rx_op (value : Operand) (layout : StackLayout) : res TranslationError (option Instr) :=
  value ← Operand_resolve value layout;
  match value with
  | Resolved_Reg ty =>
      assert_that (match ty with ValType_I32 | ValType_ExternRef | ValType_FuncRef => true | _ => false end);;
      Ok None
  | Resolved_Slot value => Ok (Some (Instr_Copy (U64Copy_Rs value)))
  | Resolved_Immediate value => Ok (Some (Instr_Copy (U32Copy_Ri (RawVal_into P_u32 (typed_value value)))))
  end.

Definition select_u64_copy_rx_op (value : Operand) (layout : StackLayout) : res TranslationError (option Instr) :=
  value ← resolve_as P_u64 value layout;
  match value with
  | Resolved_Reg ty => assert_that (bool_decide (ty = ValType_I64));; Ok None
  | Resolved_Slot value => Ok (Some (Instr_Copy (U64Copy_Rs value)))
  | Resolved_Immediate value => Ok (Some (Instr_Copy (U64Copy_Ri value)))
  end.

Definition select_f32_copy_rx_op (value : Operand) (layout : StackLayout) : res TranslationError (option Instr) :=
  value ← resolve_as P_f32 value layout;
  match value with
  | Resolved_Reg ty => assert_that (bool_decide (ty = ValType_F32));; Ok None
  | Resolved_Slot value => Ok (Some (Instr_Copy (F32Copy_Rs value)))
  | Resolved_Immediate value => Ok (Some (Instr_Copy (F32Copy_Ri value)))
  end.

Definition select_f64_copy_rx_op (value : Operand) (layout : StackLayout) : res TranslationError (option Instr) :=
  value ← resolve_as P_f64 value layout;
  match value with
  | Resolved_Reg ty => assert_that (bool_decide (ty = ValType_F64));; Ok None
  | Resolved_Slot value => Ok (Some (Instr_Copy (F64Copy_Rs value)))
  | Resolved_Immediate value => Ok (Some (Instr_Copy (F64Copy_Ri value)))
  end.

Definition select_copy_rx_op (value : Operand) (layout : StackLayout) : res TranslationError (option Instr) :=
  match Operand_ty value with
  | ValType_I32 | ValType_FuncRef | ValType_ExternRef => select_u32_copy_rx_op value layout
  | ValType_I64 => select_u64_copy_rx_op value layout
  | ValType_F32 => select_f32_copy_rx_op value layout
  | ValType_F64 => select_f64_copy_rx_op value layout
  | ValType_V128 => Panic
  end.

(** ** Copies to slots *)

Definition select_u64_copy_sr_op (result : Slot) : Instr :=
  Instr_Copy match Slot_into result with
  | 0 => U64Copy_S0r
  | 1 => U64Copy_S1r
  | 2 => U64Copy_S2r
  | 3 => U64Copy_S3r
  | 4 => U64Copy_S4r
  | 5 => U64Copy_S5r
  | 6 => U64Copy_S6r
  | 7 => U64Copy_S7r
  | 8 => U64Copy_S8r
  | 9 => U64Copy_S9r
  | _ => U64Copy_Sr result
  end.

Definition select_f32_copy_sr_op (result : Slot) : Instr :=
  Instr_Copy match Slot_into result with
  | 0 => F32Copy_S0r
  | 1 => F32Copy_S1r
  | 2 => F32Copy_S2r
  | 3 => F32Copy_S3r
  | 4 => F32Copy_S4r
  | 5 => F32Copy_S5r
  | 6 => F32Copy_S6r
  | 7 => F32Copy_S7r
  | 8 => F32Copy_S8r
  | 9 => F32Copy_S9r
  | _ => F32Copy_Sr result
  end.

Definition select_f64_copy_sr_op (result : Slot) : Instr :=
  Instr_Copy match Slot_into result with
  | 0 => F64Copy_S0r
  | 1 => F64Copy_S1r
  | 2 => F64Copy_S2r
  | 3 => F64Copy_S3r
  | 4 => F64Copy_S4r
  | 5 => F64Copy_S5r
  | 6 => F64Copy_S6r
  | 7 => F64Copy_S7r
  | 8 => F64Copy_S8r
  | 9 => F64Copy_S9r
  | _ => F64Copy_Sr result
  end.

Definition select_copy_sr_op {E} (result : Slot) (ty : ValType) : res E Instr :=
  match ty with
  | ValType_I32 | ValType_I64 | ValType_FuncRef | ValType_ExternRef => Ok (select_u64_copy_sr_op result)
  | ValType_F32 => Ok (select_f32_copy_sr_op result)
  | ValType_F64 => Ok (select_f64_copy_sr_op result)
  | ValType_V128 => Panic
  end.

(** A copy of a slot to itself is no copy. *)
Definition select_copy_ss_op (result value : Slot) (ty : ValType) : option Instr :=
  if bool_decide (result = value) then None else
  match ty with
  | ValType_V128 => Some (Instr_Control (V128Copy_Ss result value))
  | _ =>
      Some (Instr_Copy match Slot_into result, Slot_into value with
      | 0, 1 => U64Copy_S0s1 | 0, 2 => U64Copy_S0s2 | 0, 3 => U64Copy_S0s3
      | 0, 4 => U64Copy_S0s4 | 0, 5 => U64Copy_S0s5
      | 1, 0 => U64Copy_S1s0 | 1, 2 => U64Copy_S1s2 | 1, 3 => U64Copy_S1s3
      | 1, 4 => U64Copy_S1s4 | 1, 5 => U64Copy_S1s5
      | 2, 0 => U64Copy_S2s0 | 2, 1 => U64Copy_S2s1 | 2, 3 => U64Copy_S2s3
      | 2, 4 => U64Copy_S2s4 | 2, 5 => U64Copy_S2s5
      | 3, 0 => U64Copy_S3s0 | 3, 1 => U64Copy_S3s1 | 3, 2 => U64Copy_S3s2
      | 3, 4 => U64Copy_S3s4 | 3, 5 => U64Copy_S3s5
      | 4, 0 => U64Copy_S4s0 | 4, 1 => U64Copy_S4s1 | 4, 2 => U64Copy_S4s2
      | 4, 3 => U64Copy_S4s3 | 4, 5 => U64Copy_S4s5
      | 5, 0 => U64Copy_S5s0 | 5, 1 => U64Copy_S5s1 | 5, 2 => U64Copy_S5s2
      | 5, 3 => U64Copy_S5s3 | 5, 4 => U64Copy_S5s4
      | _, _ => U64Copy_Ss result value
      end)
  end.

Definition select_copy_si_op (result : Slot) (value : TypedRawVal) : Instr :=
  let raw := typed_value value in
  match typed_ty value with
  | ValType_FuncRef | ValType_ExternRef | ValType_I32 | ValType_F32 =>
      Instr_Copy (U32Copy_Si result (RawVal_into P_u32 raw))
  | ValType_I64 | ValType_F64 => Instr_Copy (U64Copy_Si result (RawVal_into P_u64 raw))
  | ValType_V128 => Instr_Control (V128Copy_Si result raw)
  end.

Definition select_copy_sx_op (result : Slot) (value : Operand) (layout : StackLayout) :
    res TranslationError (option Instr) :=
  let ty := Operand_ty value in
  value ← Operand_resolve value layout;
  match value with
  | Resolved_Reg ty => Some <$> select_copy_sr_op result ty
  | Resolved_Slot value => Ok (select_copy_ss_op result value ty)
  | Resolved_Immediate value => Ok (Some (select_copy_si_op result value))
  end.

(** ** Fusing a staged operator with the copy of its result into a slot *)

Definition fuse_copy_sr_ireg (staged_op : Instr) (result : Slot) : option Instr :=
  match staged_op with
  | Instr_Binary (Binary_i32 op) =>
      (Instr_Binary ∘ Binary_i32) <$>
      match op with
      | I32Add_Rrs rhs => Some (I32Add_Rs_rs result rhs)
      | I32Add_Rri rhs => Some (I32Add_Rs_ri result rhs)
      | I32Add_Rss lhs rhs => Some (I32Add_Rs_ss result lhs rhs)
      | I32Add_Rsi lhs rhs => Some (I32Add_Rs_si result lhs rhs)
      | _ => None
      end
  | Instr_Binary (Binary_i64 op) =>
      (Instr_Binary ∘ Binary_i64) <$>
      match op with
      | I64Add_Rrs rhs => Some (I64Add_Rs_rs result rhs)
      | I64Add_Rri rhs => Some (I64Add_Rs_ri result rhs)
      | I64Add_Rss lhs rhs => Some (I64Add_Rs_ss result lhs rhs)
      | I64Add_Rsi lhs rhs => Some (I64Add_Rs_si result lhs rhs)
      | _ => None
      end
  | Instr_LoadMem0 op =>
      Instr_LoadMem0 <$>
      match op with
      | U32LoadMem0Offset16_Rr offset => Some (U32LoadMem0Offset16_Rs_r result offset)
      | U32LoadMem0Offset16_Rs ptr offset => Some (U32LoadMem0Offset16_Rs_s result ptr offset)
      | U64LoadMem0Offset16_Rr offset => Some (U64LoadMem0Offset16_Rs_r result offset)
      | U64LoadMem0Offset16_Rs ptr offset => Some (U64LoadMem0Offset16_Rs_s result ptr offset)
      | I32LoadExtend8Mem0Offset16_Rr offset => Some (I32LoadExtend8Mem0Offset16_Rs_r result offset)
      | I32LoadExtend8Mem0Offset16_Rs ptr offset => Some (I32LoadExtend8Mem0Offset16_Rs_s result ptr offset)
      | U32LoadExtend8Mem0Offset16_Rr offset => Some (U32LoadExtend8Mem0Offset16_Rs_r result offset)
      | U32LoadExtend8Mem0Offset16_Rs ptr offset => Some (U32LoadExtend8Mem0Offset16_Rs_s result ptr offset)
      | I32LoadExtend16Mem0Offset16_Rr offset => Some (I32LoadExtend16Mem0Offset16_Rs_r result offset)
      | I32LoadExtend16Mem0Offset16_Rs ptr offset => Some (I32LoadExtend16Mem0Offset16_Rs_s result ptr offset)
      | U32LoadExtend16Mem0Offset16_Rr offset => Some (U32LoadExtend16Mem0Offset16_Rs_r result offset)
      | U32LoadExtend16Mem0Offset16_Rs ptr offset => Some (U32LoadExtend16Mem0Offset16_Rs_s result ptr offset)
      | I64LoadExtend8Mem0Offset16_Rr offset => Some (I64LoadExtend8Mem0Offset16_Rs_r result offset)
      | I64LoadExtend8Mem0Offset16_Rs ptr offset => Some (I64LoadExtend8Mem0Offset16_Rs_s result ptr offset)
      | U64LoadExtend8Mem0Offset16_Rr offset => Some (U64LoadExtend8Mem0Offset16_Rs_r result offset)
      | U64LoadExtend8Mem0Offset16_Rs ptr offset => Some (U64LoadExtend8Mem0Offset16_Rs_s result ptr offset)
      | I64LoadExtend16Mem0Offset16_Rr offset => Some (I64LoadExtend16Mem0Offset16_Rs_r result offset)
      | I64LoadExtend16Mem0Offset16_Rs ptr offset => Some (I64LoadExtend16Mem0Offset16_Rs_s result ptr offset)
      | U64LoadExtend16Mem0Offset16_Rr offset => Some (U64LoadExtend16Mem0Offset16_Rs_r result offset)
      | U64LoadExtend16Mem0Offset16_Rs ptr offset => Some (U64LoadExtend16Mem0Offset16_Rs_s result ptr offset)
      | I64LoadExtend32Mem0Offset16_Rr offset => Some (I64LoadExtend32Mem0Offset16_Rs_r result offset)
      | I64LoadExtend32Mem0Offset16_Rs ptr offset => Some (I64LoadExtend32Mem0Offset16_Rs_s result ptr offset)
      | U64LoadExtend32Mem0Offset16_Rr offset => Some (U64LoadExtend32Mem0Offset16_Rs_r result offset)
      | U64LoadExtend32Mem0Offset16_Rs ptr offset => Some (U64LoadExtend32Mem0Offset16_Rs_s result ptr offset)
      | _ => None
      end
  | _ => None
  end.

Definition fuse_copy_sr_freg32 (staged_op : Instr) (result : Slot) : option Instr :=
  match staged_op with
  | Instr_LoadMem0 (F32LoadMem0Offset16_Rr offset) => Some (Instr_LoadMem0 (F32LoadMem0Offset16_Rs_r result offset))
  | Instr_LoadMem0 (F32LoadMem0Offset16_Rs ptr offset) =>
      Some (Instr_LoadMem0 (F32LoadMem0Offset16_Rs_s result ptr offset))
  | _ => None
  end.

Definition fuse_copy_sr_freg64 (staged_op : Instr) (result : Slot) : option Instr :=
  match staged_op with
  | Instr_LoadMem0 (F64LoadMem0Offset16_Rr offset) => Some (Instr_LoadMem0 (F64LoadMem0Offset16_Rs_r result offset))
  | Instr_LoadMem0 (F64LoadMem0Offset16_Rs ptr offset) =>
      Some (Instr_LoadMem0 (F64LoadMem0Offset16_Rs_s result ptr offset))
  | _ => None
  end.

(** ** Selects *)

Definition i32_select_operator (layout : StackLayout) (condition : Location) (true_val false_val : Operand) :
    res TranslationError Instr :=
  let is_u32 ty := match ty with ValType_I32 | ValType_ExternRef | ValType_FuncRef => true | _ => false end in
  assert_that (is_u32 (Operand_ty true_val));;
  assert_that (is_u32 (Operand_ty false_val));;
  true_val ← resolve_as_raw true_val layout;
  let true_val := ResolvedOperand_map (RawVal_into P_u32) true_val in
  false_val ← resolve_as_raw false_val layout;
  let false_val := ResolvedOperand_map (RawVal_into P_u32) false_val in
  Instr_Select <$>
  match condition, true_val, false_val with
  | Loc_Reg _, Resolved_Reg _, Resolved_Slot f => Ok (U64Select_Rrrs f)
  | Loc_Reg _, Resolved_Reg _, Resolved_Immediate f => Ok (U32Select_Rrri f)
  | Loc_Reg _, Resolved_Slot t, Resolved_Reg _ => Ok (U64Select_Rrsr t)
  | Loc_Reg _, Resolved_Slot t, Resolved_Slot f => Ok (U64Select_Rrss t f)
  | Loc_Reg _, Resolved_Slot t, Resolved_Immediate f => Ok (U32Select_Rrsi t f)
  | Loc_Reg _, Resolved_Immediate t, Resolved_Reg _ => Ok (U32Select_Rrir t)
  | Loc_Reg _, Resolved_Immediate t, Resolved_Slot f => Ok (U32Select_Rris t f)
  | Loc_Reg _, Resolved_Immediate t, Resolved_Immediate f => Ok (U32Select_Rrii t f)
  | Loc_Slot c, Resolved_Reg _, Resolved_Slot f => Ok (U64Select_Rsrs c f)
  | Loc_Slot c, Resolved_Reg _, Resolved_Immediate f => Ok (U32Select_Rsri c f)
  | Loc_Slot c, Resolved_Slot t, Resolved_Reg _ => Ok (U64Select_Rssr c t)
  | Loc_Slot c, Resolved_Slot t, Resolved_Slot f => Ok (U64Select_Rsss c t f)
  | Loc_Slot c, Resolved_Slot t, Resolved_Immediate f => Ok (U32Select_Rssi c t f)
  | Loc_Slot c, Resolved_Immediate t, Resolved_Reg _ => Ok (U32Select_Rsir c t)
  | Loc_Slot c, Resolved_Immediate t, Resolved_Slot f => Ok (U32Select_Rsis c t f)
  | Loc_Slot c, Resolved_Immediate t, Resolved_Immediate f => Ok (U32Select_Rsii c t f)
  | _, _, _ => Panic
  end.

Definition i64_select_operator (layout : StackLayout) (condition : Location) (true_val false_val : Operand) :
    res TranslationError Instr :=
  true_val ← resolve_as P_u64 true_val layout;
  false_val ← resolve_as P_u64 false_val layout;
  Instr_Select <$>
  match condition, true_val, false_val with
  | Loc_Reg _, Resolved_Reg _, Resolved_Slot f => Ok (U64Select_Rrrs f)
  | Loc_Reg _, Resolved_Reg _, Resolved_Immediate f => Ok (U64Select_Rrri f)
  | Loc_Reg _, Resolved_Slot t, Resolved_Reg _ => Ok (U64Select_Rrsr t)
  | Loc_Reg _, Resolved_Slot t, Resolved_Slot f => Ok (U64Select_Rrss t f)
  | Loc_Reg _, Resolved_Slot t, Resolved_Immediate f => Ok (U64Select_Rrsi t f)
  | Loc_Reg _, Resolved_Immediate t, Resolved_Reg _ => Ok (U64Select_Rrir t)
  | Loc_Reg _, Resolved_Immediate t, Resolved_Slot f => Ok (U64Select_Rris t f)
  | Loc_Reg _, Resolved_Immediate t, Resolved_Immediate f => Ok (U64Select_Rrii t f)
  | Loc_Slot c, Resolved_Reg _, Resolved_Slot f => Ok (U64Select_Rsrs c f)
  | Loc_Slot c, Resolved_Reg _, Resolved_Immediate f => Ok (U64Select_Rsri c f)
  | Loc_Slot c, Resolved_Slot t, Resolved_Reg _ => Ok (U64Select_Rssr c t)
  | Loc_Slot c, Resolved_Slot t, Resolved_Slot f => Ok (U64Select_Rsss c t f)
  | Loc_Slot c, Resolved_Slot t, Resolved_Immediate f => Ok (U64Select_Rssi c t f)
  | Loc_Slot c, Resolved_Immediate t, Resolved_Reg _ => Ok (U64Select_Rsir c t)
  | Loc_Slot c, Resolved_Immediate t, Resolved_Slot f => Ok (U64Select_Rsis c t f)
  | Loc_Slot c, Resolved_Immediate t, Resolved_Immediate f => Ok (U64Select_Rsii c t f)
  | _, _, _ => Panic
  end.

Definition f32_select_operator (layout : StackLayout) (condition : Location) (true_val false_val : Operand) :
    res TranslationError Instr :=
  true_val ← resolve_as P_f32 true_val layout;
  false_val ← resolve_as P_f32 false_val layout;
  Instr_Select <$>
  match condition, true_val, false_val with
  | Loc_Reg _, Resolved_Reg _, Resolved_Slot f => Ok (F32Select_Rrrs f)
  | Loc_Reg _, Resolved_Reg _, Resolved_Immediate f => Ok (F32Select_Rrri f)
  | Loc_Reg _, Resolved_Slot t, Resolved_Reg _ => Ok (F32Select_Rrsr t)
  | Loc_Reg _, Resolved_Slot t, Resolved_Slot f => Ok (F32Select_Rrss t f)
  | Loc_Reg _, Resolved_Slot t, Resolved_Immediate f => Ok (F32Select_Rrsi t f)
  | Loc_Reg _, Resolved_Immediate t, Resolved_Reg _ => Ok (F32Select_Rrir t)
  | Loc_Reg _, Resolved_Immediate t, Resolved_Slot f => Ok (F32Select_Rris t f)
  | Loc_Reg _, Resolved_Immediate t, Resolved_Immediate f => Ok (F32Select_Rrii t f)
  | Loc_Slot c, Resolved_Reg _, Resolved_Slot f => Ok (F32Select_Rsrs c f)
  | Loc_Slot c, Resolved_Reg _, Resolved_Immediate f => Ok (F32Select_Rsri c f)
  | Loc_Slot c, Resolved_Slot t, Resolved_Reg _ => Ok (F32Select_Rssr c t)
  | Loc_Slot c, Resolved_Slot t, Resolved_Slot f => Ok (F32Select_Rsss c t f)
  | Loc_Slot c, Resolved_Slot t, Resolved_Immediate f => Ok (F32Select_Rssi c t f)
  | Loc_Slot c, Resolved_Immediate t, Resolved_Reg _ => Ok (F32Select_Rsir c t)
  | Loc_Slot c, Resolved_Immediate t, Resolved_Slot f => Ok (F32Select_Rsis c t f)
  | Loc_Slot c, Resolved_Immediate t, Resolved_Immediate f => Ok (F32Select_Rsii c t f)
  | _, _, _ => Panic
  end.

Definition f64_select_operator (layout : StackLayout) (condition : Location) (true_val false_val : Operand) :
    res TranslationError Instr :=
  true_val ← resolve_as P_f64 true_val layout;
  false_val ← resolve_as P_f64 false_val layout;
  Instr_Select <$>
  match condition, true_val, false_val with
  | Loc_Reg _, Resolved_Reg _, Resolved_Slot f => Ok (F64Select_Rrrs f)
  | Loc_Reg _, Resolved_Reg _, Resolved_Immediate f => Ok (F64Select_Rrri f)
  | Loc_Reg _, Resolved_Slot t, Resolved_Reg _ => Ok (F64Select_Rrsr t)
  | Loc_Reg _, Resolved_Slot t, Resolved_Slot f => Ok (F64Select_Rrss t f)
  | Loc_Reg _, Resolved_Slot t, Resolved_Immediate f => Ok (F64Select_Rrsi t f)
  | Loc_Reg _, Resolved_Immediate t, Resolved_Reg _ => Ok (F64Select_Rrir t)
  | Loc_Reg _, Resolved_Immediate t, Resolved_Slot f => Ok (F64Select_Rris t f)
  | Loc_Reg _, Resolved_Immediate t, Resolved_Immediate f => Ok (F64Select_Rrii t f)
  | Loc_Slot c, Resolved_Reg _, Resolved_Slot f => Ok (F64Select_Rsrs c f)
  | Loc_Slot c, Resolved_Reg _, Resolved_Immediate f => Ok (F64Select_Rsri c f)
  | Loc_Slot c, Resolved_Slot t, Resolved_Reg _ => Ok (F64Select_Rssr c t)
  | Loc_Slot c, Resolved_Slot t, Resolved_Slot f => Ok (F64Select_Rsss c t f)
  | Loc_Slot c, Resolved_Slot t, Resolved_Immediate f => Ok (F64Select_Rssi c t f)
  | Loc_Slot c, Resolved_Immediate t, Resolved_Reg _ => Ok (F64Select_Rsir c t)
  | Loc_Slot c, Resolved_Immediate t, Resolved_Slot f => Ok (F64Select_Rsis c t f)
  | Loc_Slot c, Resolved_Immediate t, Resolved_Immediate f => Ok (F64Select_Rsii c t f)
  | _, _, _ => Panic
  end.
End Select.
