(* ===== verification/Sink.v ===== *)
(** * What the translator needs of the encoder

    The operations of [OpEncoder] that [FuncTranslator] calls, as an interface,
    and a listing that implements it: the operators as a list, with branches kept
    symbolically by their labels.  Positions are opaque to the translator: it
    only hands the position of a [ConsumeFuel] operator back. *)

From Stdlib Require Import ZArith.
From stdpp Require Import base option list.
From S2P Require Import Prelude Value Fuel Slot Locals OpFields Codec EncodedOps Encoder.
From S2P Require Import Instr.
Local Open Scope Z_scope.

(** The values [encode_branch] encodes. *)
Inductive BranchItem : Type :=
| Branch_Op (op : Instr)
| Branch_Offset (offset : BranchOffset)
| Branch_Target (target : BranchTableTarget).

Class OpSink (I : Type) : Type := {
  sink_peek_staged : I -> option Instr;
  sink_stage_op : Instr -> option BytePos -> FuelCostsSelector -> M I TranslationError unit;
  sink_drop_staged : M I TranslationError (option BytePos * FuelUsed);
  sink_replace_staged : Instr -> M I TranslationError unit;
  sink_commit_staged_if_any : M I TranslationError unit;
  sink_encode_op : Instr -> option BytePos -> FuelCostsSelector -> M I TranslationError BytePos;
  sink_encode_consume_fuel_op : M I TranslationError (option BytePos);
  sink_pad_to_op_alignment : M I TranslationError unit;
  sink_new_label : M I TranslationError LabelRef;
  sink_pin_label : LabelRef -> M I TranslationError unit;
  sink_pin_label_if_unpinned : LabelRef -> M I TranslationError unit;
  sink_encode_branch : LabelRef -> (BranchOffset -> BranchItem) -> option BytePos -> FuelCostsSelector ->
    M I TranslationError (BytePos * BytePos);
  sink_update_branch_offsets : M I TranslationError unit
}.

(** ** Listings *)

Inductive ListItem : Type :=
| Item_Instr (op : Instr)
| Item_ConsumeFuel (fuel : Z)
| Item_Branch (label : LabelRef) (item : BranchItem).

(** A staged operator is not yet in the list.  A label is the index of the item
    it is pinned to. *)
Record Listing : Type := {
  ls_items : list ListItem;
  ls_staged : option (Instr * option (BytePos * FuelUsed));
  ls_labels : list (option nat);
  ls_costs : option FuelCostsProvider
}.

Definition Listing_new (costs : option FuelCostsProvider) : Listing :=
  {| ls_items := []; ls_staged := None; ls_labels := []; ls_costs := costs |}.

Definition set_ls_items (items : list ListItem) (self : Listing) : Listing :=
  {| ls_items := items; ls_staged := ls_staged self; ls_labels := ls_labels self; ls_costs := ls_costs self |}.
Definition set_ls_staged (s : option (Instr * option (BytePos * FuelUsed))) (self : Listing) : Listing :=
  {| ls_items := ls_items self; ls_staged := s; ls_labels := ls_labels self; ls_costs := ls_costs self |}.
Definition set_ls_labels (labels : list (option nat)) (self : Listing) : Listing :=
  {| ls_items := ls_items self; ls_staged := ls_staged self; ls_labels := labels; ls_costs := ls_costs self |}.

Notation LM := (M Listing TranslationError).

Definition listing_push (item : ListItem) : LM BytePos :=
  self ← get_st;
  put_st (set_ls_items (ls_items self ++ [item]) self);;
  mret (Z.of_nat (length (ls_items self))).

(** Charges the [ConsumeFuel] item at a position, on 64 bits. *)
Definition listing_charge (pos : BytePos) (used : FuelUsed) : LM unit :=
  self ← get_st;
  match ls_items self !! Z.to_nat pos with
  | Some (Item_ConsumeFuel fuel) =>
      fuel ← lift (expect (checked_add 64 fuel used));
      put_st (set_ls_items (<[Z.to_nat pos := Item_ConsumeFuel fuel]> (ls_items self)) self)
  | _ => panic
  end.

(** The charge of an operator; it must be given exactly if fuel is metered. *)
Definition listing_fuel (fuel_pos : option BytePos) (selector : FuelCostsSelector) (self : Listing) :
    res TranslationError (option (BytePos * FuelUsed)) :=
  match fuel_pos, ls_costs self with
  | None, None => Ok None
  | Some pos, Some costs => Ok (Some (pos, selector costs))
  | _, _ => Panic
  end.
Definition listing_charge_opt (fuel : option (BytePos * FuelUsed)) : LM unit :=
  match fuel with Some (pos, used) => listing_charge pos used | None => mret tt end.

Definition listing_commit : LM unit :=
  self ← get_st;
  match ls_staged self with
  | None => mret tt
  | Some (op, fuel) =>
      put_st (set_ls_staged None self);;
      listing_charge_opt fuel;;
      listing_push (Item_Instr op);;
      mret tt
  end.

Definition listing_stage (op : Instr) (fuel_pos : option BytePos) (selector : FuelCostsSelector) : LM unit :=
  listing_commit;;
  self ← get_st;
  fuel ← lift (listing_fuel fuel_pos selector self);
  put_st (set_ls_staged (Some (op, fuel)) self).

Definition listing_drop : LM (option BytePos * FuelUsed) :=
  self ← get_st;
  match ls_staged self with
  | None => panic
  | Some (_, fuel) =>
      put_st (set_ls_staged None self);;
      mret (fst <$> fuel, match fuel with Some (_, used) => used | None => 0 end)
  end.

Definition listing_replace (op : Instr) : LM unit :=
  self ← get_st;
  match ls_staged self with
  | None => panic
  | Some (_, fuel) => put_st (set_ls_staged (Some (op, fuel)) self)
  end.

Definition listing_encode (item : ListItem) (fuel_pos : option BytePos) (selector : FuelCostsSelector) : LM BytePos :=
  listing_commit;;
  self ← get_st;
  fuel ← lift (listing_fuel fuel_pos selector self);
  listing_charge_opt fuel;;
  listing_push item.

Definition listing_consume_fuel : LM (option BytePos) :=
  self ← get_st;
  match ls_costs self with
  | None => mret None
  | Some costs =>
      listing_commit;;
      pos ← listing_push (Item_ConsumeFuel (FuelCostsProvider_base costs));
      mret (Some pos)
  end.

Definition listing_new_label : LM LabelRef :=
  self ← get_st;
  put_st (set_ls_labels (ls_labels self ++ [None]) self);;
  mret (length (ls_labels self)).

Definition listing_pin (if_unpinned : bool) (label : LabelRef) : LM unit :=
  listing_commit;;
  self ← get_st;
  match ls_labels self !! label with
  | Some None => put_st (set_ls_labels (<[label := Some (length (ls_items self))]> (ls_labels self)) self)
  | Some (Some _) => if if_unpinned then mret tt else panic
  | None => panic
  end.

Definition listing_branch (label : LabelRef) (make_branch : BranchOffset -> BranchItem)
    (fuel_pos : option BytePos) (selector : FuelCostsSelector) : LM (BytePos * BytePos) :=
  self ← get_st;
  assert_m (label <? length (ls_labels self))%nat;;
  pos ← listing_encode (Item_Branch label (make_branch BranchOffset_uninit)) fuel_pos selector;
  mret (pos, pos).

(** All labels that are branched to must be pinned. *)
Definition listing_resolved (labels : list (option nat)) (item : ListItem) : bool :=
  match item with
  | Item_Branch label _ => match labels !! label with Some (Some _) => true | _ => false end
  | _ => true
  end.
Definition listing_update_branch_offsets : LM unit :=
  self ← get_st;
  assert_m (forallb (listing_resolved (ls_labels self)) (ls_items self)).

#[export] Instance Listing_OpSink : OpSink Listing := {|
  sink_peek_staged self := fst <$> ls_staged self;
  sink_stage_op := listing_stage;
  sink_drop_staged := listing_drop;
  sink_replace_staged := listing_replace;
  sink_commit_staged_if_any := listing_commit;
  sink_encode_op op := listing_encode (Item_Instr op);
  sink_encode_consume_fuel_op := listing_consume_fuel;
  sink_pad_to_op_alignment := mret tt;
  sink_new_label := listing_new_label;
  sink_pin_label := listing_pin false;
  sink_pin_label_if_unpinned := listing_pin true;
  sink_encode_branch := listing_branch;
  sink_update_branch_offsets := listing_update_branch_offsets
|}.

(** ** The encoder

    The generated constructors and the type of the generated operators are
    parameters: [op_of] yields the operator to encode and [instr_of] recognizes a
    staged one. *)
Section Encoder.
Context `{Al : Allocator} `{En : Endian} `{Di : Dispatch}.
Context (consume_fuel_code : Z) (op_of : Instr -> Op) (instr_of : Op -> option Instr).

Definition Item_of (item : BranchItem) : Item :=
  match item with
  | Branch_Op op => Item_Op (op_of op)
  | Branch_Offset offset => Item_BranchOffset offset
  | Branch_Target target => Item_BranchTableTarget target
  end.

Definition Encoder_OpSink : OpSink OpEncoder := {|
  sink_peek_staged self := op ← peek_staged self; instr_of op;
  sink_stage_op op := stage_op (op_of op);
  sink_drop_staged := drop_staged;
  sink_replace_staged op := replace_staged (op_of op);
  sink_commit_staged_if_any := commit_staged_if_any;
  sink_encode_op op := encode_op (op_of op);
  sink_encode_consume_fuel_op := encode_consume_fuel_op consume_fuel_code;
  sink_pad_to_op_alignment := pad_to_op_alignment;
  sink_new_label := new_label;
  sink_pin_label := pin_label;
  sink_pin_label_if_unpinned := pin_label_if_unpinned;
  sink_encode_branch dst make_branch := encode_branch dst (fun offset => Item_of (make_branch offset));
  sink_update_branch_offsets := update_branch_offsets
|}.
End Encoder.
