(* ===== verification/Translator.v ===== *)
(** * The function translator: state, copies and staging

    [FuncTranslator] of [translator/func/mod.rs]: its state, the copies of
    operands, the preservation of registers and locals and the staging of
    operators whose result is in a register. *)

From Stdlib Require Import ZArith.
From stdpp Require Import base option list.
From S2P Require Import Prelude Value Fuel Slot Locals Operands OpFields Codec EncodedOps Encoder.
From S2P Require Import Cells Float Header Control TransStack Instr OpSelect Sink.
Local Open Scope Z_scope.

(** [Error], as far as translation raises it. *)
Inductive TransError : Type := E_Translation (error : TranslationError) | E_Ir (error : IrError).

(** [module] stands for the module and the function under translation. *)
Record FuncTranslator (I : Type) : Type := {
  ft_func : Z;
  ft_module : ModuleHeader;
  ft_reachable : bool;
  ft_stack : TransStack;
  ft_locals : LocalsRegistry;
  ft_layout : StackLayout;
  ft_instrs : I;
  ft_immediates : list TypedRawVal
}.
Arguments ft_func {I}. Arguments ft_module {I}. Arguments ft_reachable {I}. Arguments ft_stack {I}.
Arguments ft_locals {I}. Arguments ft_layout {I}. Arguments ft_instrs {I}. Arguments ft_immediates {I}.

Section State.
Context {I : Type}.
Implicit Type self : FuncTranslator I.

Definition set_reachable (r : bool) self : FuncTranslator I := {|
  ft_func := ft_func self; ft_module := ft_module self; ft_reachable := r; ft_stack := ft_stack self;
  ft_locals := ft_locals self; ft_layout := ft_layout self; ft_instrs := ft_instrs self;
  ft_immediates := ft_immediates self |}.
Definition set_stack (s : TransStack) self : FuncTranslator I := {|
  ft_func := ft_func self; ft_module := ft_module self; ft_reachable := ft_reachable self; ft_stack := s;
  ft_locals := ft_locals self; ft_layout := ft_layout self; ft_instrs := ft_instrs self;
  ft_immediates := ft_immediates self |}.
Definition set_locals (l : LocalsRegistry) self : FuncTranslator I := {|
  ft_func := ft_func self; ft_module := ft_module self; ft_reachable := ft_reachable self;
  ft_stack := ft_stack self; ft_locals := l; ft_layout := ft_layout self; ft_instrs := ft_instrs self;
  ft_immediates := ft_immediates self |}.
Definition set_layout (l : StackLayout) self : FuncTranslator I := {|
  ft_func := ft_func self; ft_module := ft_module self; ft_reachable := ft_reachable self;
  ft_stack := ft_stack self; ft_locals := ft_locals self; ft_layout := l; ft_instrs := ft_instrs self;
  ft_immediates := ft_immediates self |}.
Definition set_instrs (i : I) self : FuncTranslator I := {|
  ft_func := ft_func self; ft_module := ft_module self; ft_reachable := ft_reachable self;
  ft_stack := ft_stack self; ft_locals := ft_locals self; ft_layout := ft_layout self; ft_instrs := i;
  ft_immediates := ft_immediates self |}.
Definition set_immediates (l : list TypedRawVal) self : FuncTranslator I := {|
  ft_func := ft_func self; ft_module := ft_module self; ft_reachable := ft_reachable self;
  ft_stack := ft_stack self; ft_locals := ft_locals self; ft_layout := ft_layout self;
  ft_instrs := ft_instrs self; ft_immediates := l |}.
End State.

Notation FM I := (M (FuncTranslator I) TransError).

Section Translator.
Context `{Tg : Target} `{Fn : FloatNans} {I : Type} `{Sk : OpSink I}.
(** [Engine::resolve_func_type] *)
Context (resolve_func_type : Z -> FuncType).

(** Accesses to the parts of the state. *)
Definition in_stack {A} (m : TM A) : FM I A := zoom ft_stack set_stack E_Translation m.
Definition on_operands {A} (m : M OperandStack TranslationError A) : FM I A := in_stack (in_operands m).
Definition in_instrs {A} (m : M I TranslationError A) : FM I A := zoom ft_instrs set_instrs E_Translation m.
Definition try {A} (r : res TranslationError A) : FM I A := lift (map_err E_Translation r).
Definition put_reachable (r : bool) : FM I unit := self ← get_st; put_st (set_reachable r self).

(** [bail_unreachable!] *)
Definition bail_unreachable (m : FM I unit) : FM I unit :=
  self ← get_st; if ft_reachable self : bool then m else mret tt.

Definition stack_fuel_pos : FM I (option BytePos) := self ← get_st; try (TransStack_fuel_pos (ft_stack self)).
Definition stack_pop : FM I Operand := in_stack TransStack_pop.
Definition stack_peek (depth : nat) : FM I Operand := in_stack (TransStack_peek depth).
Definition push_imm (p : Prim) (value : Z) : FM I unit :=
  value ← lift (into_typed p value); on_operands (push_immediate value);; mret tt.

Definition resolve_operand (operand : Operand) : FM I (ResolvedOperand TypedRawVal) :=
  self ← get_st; try (Operand_resolve operand (ft_layout self)).
Definition resolve_operand_as (p : Prim) (operand : Operand) : FM I (ResolvedOperand Z) :=
  self ← get_st; try (resolve_as p operand (ft_layout self)).
Definition resolve_operand_raw (operand : Operand) : FM I (ResolvedOperand RawVal) :=
  self ← get_st; try (resolve_as_raw operand (ft_layout self)).

Definition encode (op : Instr) (fuel_pos : option BytePos) (fuel : FuelCostsSelector) : FM I BytePos :=
  in_instrs (sink_encode_op op fuel_pos fuel).

(** ** Types *)

Definition func_type_of (func_index : Z) : FM I FuncType :=
  self ← get_st; key ← lift (get_type_of_func (ft_module self) func_index); mret (resolve_func_type key).
Definition func_type : FM I FuncType := self ← get_st; func_type_of (ft_func self).
Definition resolve_type (type_index : Z) : FM I FuncType :=
  self ← get_st; key ← lift (get_func_type (ft_module self) type_index); mret (resolve_func_type key).

(** ** Setup *)

(** The subtype checks of the conversions to [usize] hold on all targets. *)
Definition register_locals (amount : Z) (ty : ValType) : FM I unit :=
  zoom ft_locals set_locals E_Translation (LocalsRegistry_register amount ty);;
  on_operands (OperandStack_register_locals amount ty);;
  zoom ft_layout set_layout E_Translation (StackLayout_register_locals amount ty).

Fixpoint register_params (tys : list ValType) : FM I unit :=
  match tys with [] => mret tt | ty :: tys => register_locals 1 ty;; register_params tys end.

Definition init_func_params : FM I unit :=
  func_ty ← func_type; tys ← lift (FuncType_params func_ty); register_params tys.

(** From reset allocations. *)
Definition FuncTranslator_new (func : Z) (module : ModuleHeader) (consume_fuel : bool) (instrs : I) :
    res TransError unit * FuncTranslator I :=
  init_func_params {|
    ft_func := func; ft_module := module; ft_reachable := true;
    ft_stack := TransStack_new consume_fuel OperandStack_default ControlStack_default;
    ft_locals := LocalsRegistry_default; ft_layout := StackLayout_default; ft_instrs := instrs;
    ft_immediates := [] |}.

Definition init_func_body_block : FM I unit :=
  self ← get_st;
  func_ty ← lift (get_type_of_func (ft_module self) (ft_func self));
  end_label ← in_instrs sink_new_label;
  consume_fuel ← in_instrs sink_encode_consume_fuel_op;
  in_stack (push_func_block resolve_func_type (BlockType_FuncType func_ty) end_label consume_fuel).

(** [None] if the number of slots is out of bounds. *)
Definition len_stack_slots (self : FuncTranslator I) : option Z :=
  len ← checked_add usize_bits (max_stack_offset (ts_operands (ft_stack self))) (len_locals (ft_locals self));
  try_from_u 16 len.

(** ** Copies *)

Definition encode_copy_rx_op (value : Operand) (fuel_pos : option BytePos) : FM I unit :=
  self ← get_st;
  op ← try (select_copy_rx_op value (ft_layout self));
  match op with
  | None => mret tt
  | Some op => encode op fuel_pos FuelCostsProvider_base;; mret tt
  end.

Definition encode_copy_sx_op (result : Slot) (value : Operand) (fuel_pos : option BytePos) :
    FM I (option BytePos) :=
  self ← get_st;
  copy_instr ← try (select_copy_sx_op result value (ft_layout self));
  match copy_instr with
  | None => mret None
  | Some copy_instr => pos ← encode copy_instr fuel_pos FuelCostsProvider_base; mret (Some pos)
  end.

(** The loop over the operands from depth [skip + n - 1] down to [skip]. *)
Fixpoint copy_operands_loop (dst : SlotSpan) (skip n : nat) (len_cells : Z) (fuel_pos : option BytePos) : FM I Z :=
  match n with
  | O => mret len_cells
  | S n =>
      value ← stack_peek (skip + n);
      let result := Slot_next_n (span_head dst) len_cells in
      encode_copy_sx_op result value fuel_pos;;
      let copied_cells := required_cells_for_ty (Operand_ty value) in
      len_cells ← try (ok_or (checked_add 16 len_cells copied_cells) AllocatedTooManySlots);
      copy_operands_loop dst skip n len_cells fuel_pos
  end.

Definition copy_operands_to_dst (dst : SlotSpan) (len skip : Z) (fuel_pos : option BytePos) : FM I BoundedSlotSpan :=
  lift (expect (checked_add 16 len skip));;
  len_cells ← copy_operands_loop dst (Z.to_nat skip) (Z.to_nat len) 0 fuel_pos;
  mret {| bspan := dst; bspan_len := len_cells |}.

Definition copy_operands_to_temp (len skip : Z) (fuel_pos : option BytePos) : FM I BoundedSlotSpan :=
  if len =? 0 then
    self ← get_st; mret {| bspan := next_temp_slots (ts_operands (ft_stack self)); bspan_len := 0 |}
  else
    sum ← lift (expect (checked_add 16 len skip));
    operand ← stack_peek (Z.to_nat (sum - 1));
    copy_operands_to_dst (bspan (Operand_temp_slots operand)) len skip fuel_pos.

(** *** Branch parameters *)

Definition copy_branch_params_temps (params : BranchParams) (fuel_pos : option BytePos) : FM I unit :=
  let len_temps := BranchParams_len_temps params in
  if len_temps =? 0 then mret tt
  else
    copy_operands_to_dst (bspan (bp_temp_slots params)) len_temps (BranchParams_len_regs params) fuel_pos;;
    mret tt.

Fixpoint copy_regs_loop (regs : list RegKind) (depth : nat) (fuel_pos : option BytePos) : FM I unit :=
  match regs with
  | [] => mret tt
  | kind :: regs =>
      value ← stack_peek depth;
      assert_m (RegKind_matches_ty kind (Operand_ty value));;
      encode_copy_rx_op value fuel_pos;;
      copy_regs_loop regs (S depth) fuel_pos
  end.
Definition copy_branch_params_regs (params : BranchParams) (fuel_pos : option BytePos) : FM I unit :=
  regs ← lift (BranchParams_regs params); copy_regs_loop regs 0 fuel_pos.

Definition copy_branch_params (params : BranchParams) (fuel_pos : option BytePos) : FM I unit :=
  copy_branch_params_temps params fuel_pos;;
  copy_branch_params_regs params fuel_pos.

(** [any] stops at the first match. *)
Fixpoint any_peek (p : Operand -> bool) (from n : nat) : FM I bool :=
  match n with
  | O => mret false
  | S n => o ← stack_peek from; if p o then mret true else any_peek p (S from) n
  end.

Definition is_temp (o : Operand) : bool := match o with Operand_Temp _ => true | _ => false end.

Definition requires_branch_param_copies (depth : nat) : FM I bool :=
  self ← get_st;
  frame ← try (peek_control depth (ft_stack self));
  branch_params ← lift (ControlFrame_branch_params frame);
  len_params ← lift (BranchParams_len branch_params);
  if len_params =? 0 then mret false else
  frame_height ← lift (ControlFrame_height frame);
  height ← lift (expect (checked_sub (Z.of_nat (TransStack_height (ft_stack self))) len_params));
  let height_matches := frame_height =? height in
  let has_temp_params := 0 <? BranchParams_len_temps branch_params in
  if negb height_matches && has_temp_params then mret true else
  let len_regs := Z.to_nat (BranchParams_len_regs branch_params) in
  temps ← any_peek (fun o => negb (is_temp o) || Operand_in_reg o) len_regs (Z.to_nat len_params - len_regs);
  if temps : bool then mret true else
  any_peek (fun o => negb (Operand_in_reg o)) 0 len_regs.

(** *** Single operands *)

Definition copy_immediate_to_slot (operand : Operand) : FM I Location :=
  value ← resolve_operand operand;
  match value with
  | Resolved_Reg ty => mret (Loc_Reg ty)
  | Resolved_Slot value => mret (Loc_Slot value)
  | Resolved_Immediate value =>
      let result := BoundedSlotSpan_head (Operand_temp_slots operand) in
      consume_fuel ← stack_fuel_pos;
      encode (select_copy_si_op result value) consume_fuel FuelCostsProvider_base;;
      mret (Loc_Slot result)
  end.

Definition copy_operand_to_slot (operand : Operand) : FM I Slot :=
  let result := BoundedSlotSpan_head (Operand_temp_slots operand) in
  let ty := Operand_ty operand in
  value ← resolve_operand_raw operand;
  match value with
  | Resolved_Slot slot => mret slot
  | _ =>
      copy_op ← match value with
                | Resolved_Reg ty => lift (select_copy_sr_op result ty)
                | Resolved_Immediate value => mret (select_copy_si_op result (TypedRawVal_new ty value))
                | Resolved_Slot _ => panic
                end;
      fuel_op ← stack_fuel_pos;
      encode copy_op fuel_op FuelCostsProvider_base;;
      mret result
  end.

(** ** Preservation *)

(** One copy of a preserved local to its temporary slot. *)
Definition copy_preserved_local (local : LocalOperand) (fuel_pos : option BytePos) : FM I unit :=
  let operand := Operand_Local local in
  let result := BoundedSlotSpan_head (Operand_temp_slots operand) in
  self ← get_st;
  op ← try (select_copy_sx_op result operand (ft_layout self));
  op ← lift (expect op);
  encode op fuel_pos FuelCostsProvider_base;;
  mret tt.

Fixpoint preserve_all_locals_loop (fuel : nat) (it : PreservedAllLocalsIter) (fuel_pos : option BytePos) : FM I unit :=
  match fuel with
  | O => panic
  | S fuel =>
      next ← on_operands (PreservedAllLocalsIter_next it);
      match next with
      | None => mret tt
      | Some (local, it) => copy_preserved_local local fuel_pos;; preserve_all_locals_loop fuel it fuel_pos
      end
  end.

(** The rounds are bounded by the height of the stack. *)
Definition translate_preserve_all_locals (skip : nat) : FM I unit :=
  fuel_pos ← stack_fuel_pos;
  self ← get_st;
  let o := ts_operands (ft_stack self) in
  preserve_all_locals_loop (S (length (operands o))) (preserve_all_locals skip o) fuel_pos.

Fixpoint preserve_locals_loop (fuel : nat) (it : PreservedLocalsIter) (fuel_pos : option BytePos) : FM I unit :=
  match fuel with
  | O => panic
  | S fuel =>
      next ← on_operands (PreservedLocalsIter_next it);
      match next with
      | None => mret tt
      | Some (local, it) => copy_preserved_local local fuel_pos;; preserve_locals_loop fuel it fuel_pos
      end
  end.

Definition translate_preserve_locals (local_idx : LocalIdx) (fuel_pos : option BytePos) : FM I unit :=
  self ← get_st;
  it ← on_operands (preserve_locals local_idx);
  preserve_locals_loop (S (length (operands (ts_operands (ft_stack self))))) it fuel_pos.

Definition copy_preserved_reg (reg : option Slot) (ty : ValType) (fuel_pos : option BytePos) : FM I unit :=
  match reg with
  | None => mret tt
  | Some result =>
      op ← lift (select_copy_sr_op result ty); encode op fuel_pos FuelCostsProvider_base;; mret tt
  end.

Definition copy_preserved_regs_to_slots (regs : PreservedRegs) (fuel_pos : option BytePos) : FM I unit :=
  bail_unreachable (
    copy_preserved_reg (pr_ireg regs) ValType_I64 fuel_pos;;
    copy_preserved_reg (pr_freg32 regs) ValType_F32 fuel_pos;;
    copy_preserved_reg (pr_freg64 regs) ValType_F64 fuel_pos).

Definition preserve_regs (fuel_pos : option BytePos) : FM I unit :=
  regs ← on_operands preserve_all_regs; copy_preserved_regs_to_slots regs fuel_pos.

Definition preserve_temp_regs (fuel_pos : option BytePos) (skip : nat) : FM I unit :=
  regs ← on_operands (preserve_all_temp_regs skip); copy_preserved_regs_to_slots regs fuel_pos.

(** ** Staging *)

Definition push_instr (instr : Instr) (fuel_costs : FuelCostsSelector) : FM I BytePos :=
  assert_m (match result_ref instr with None => true | Some _ => false end);;
  consume_fuel ← stack_fuel_pos;
  encode instr consume_fuel fuel_costs.

Definition fuse_copy_sr (result : Slot) (input_ty : ValType) (self : FuncTranslator I) : option Instr :=
  kind ← RegKind_new input_ty;
  staged_op ← sink_peek_staged (ft_instrs self);
  match kind with
  | Ireg => fuse_copy_sr_ireg staged_op result
  | Freg32 => fuse_copy_sr_freg32 staged_op result
  | Freg64 => fuse_copy_sr_freg64 staged_op result
  end.

Definition preserve_reg_of_type (ty : ValType) : FM I unit :=
  operand ← on_operands (dealloc_reg ty);
  match operand with
  | None => mret tt
  | Some operand =>
      let result := span_head (to_temp_slots operand) in
      self ← get_st;
      op ← match fuse_copy_sr result ty self with
           | Some fused_op => in_instrs sink_drop_staged;; mret fused_op
           | None => lift (select_copy_sr_op result (to_ty operand))
           end;
      fuel_pos ← stack_fuel_pos;
      encode op fuel_pos FuelCostsProvider_base;;
      mret tt
  end.

Definition push_result_reg (ty : ValType) : FM I unit :=
  preserve_reg_of_type ty;;
  on_operands (push_temp ty Allocation_Reg);;
  mret tt.

Definition assert_result_reg (op : Instr) : FM I unit :=
  assert_m (match result_loc op with Some loc => is_reg loc | None => false end).

Definition stage_op_with_result_reg (result_ty : ValType) (op : Instr) (fuel_costs : FuelCostsSelector) :
    FM I unit :=
  assert_result_reg op;;
  push_result_reg result_ty;;
  fuel_pos ← stack_fuel_pos;
  in_instrs (sink_stage_op op fuel_pos fuel_costs).

Definition push_op_with_result_reg (result_ty : ValType) (op : Instr) (fuel_costs : FuelCostsSelector) :
    FM I unit :=
  assert_result_reg op;;
  push_result_reg result_ty;;
  fuel_pos ← stack_fuel_pos;
  encode op fuel_pos fuel_costs;;
  mret tt.

(** [push_op_with_result_slot] and [try_push_op_with_result_slot]. *)
Definition try_push_op_with_result_slot (result_ty : ValType) (make_op : Slot -> option Instr)
    (fuel_costs : FuelCostsSelector) : FM I unit :=
  fuel_pos ← stack_fuel_pos;
  temp ← on_operands (push_temp result_ty Allocation_None);
  match make_op (span_head (to_temp_slots temp)) with
  | Some op => in_instrs (sink_stage_op op fuel_pos fuel_costs)
  | None => mret tt
  end.
Definition push_op_with_result_slot (result_ty : ValType) (make_instr : Slot -> Instr)
    (fuel_costs : FuelCostsSelector) : FM I unit :=
  fuel_pos ← stack_fuel_pos;
  temp ← on_operands (push_temp result_ty Allocation_None);
  let op := make_instr (span_head (to_temp_slots temp)) in
  assert_m (match result_ref op with Some _ => true | None => false end);;
  in_instrs (sink_stage_op op fuel_pos fuel_costs).

Definition copy_operand_to_reg (operand : Operand) : FM I unit :=
  let ty := Operand_ty operand in
  self ← get_st;
  op ← try (select_copy_rx_op operand (ft_layout self));
  match op with
  | None => push_result_reg ty
  | Some op => push_op_with_result_reg ty op FuelCostsProvider_base
  end.

End Translator.
