(* ===== verification/TransOps.v ===== *)
(** * Translation of the numeric operators, selects and accesses

    The generic parts of [translator/func/mod.rs]: [local.set], unary and binary
    operators with constant folding, [select], the fusion of comparisons, loads,
    stores and wide arithmetic. *)

From Stdlib Require Import ZArith.
From stdpp Require Import base option list.
From S2P Require Import Prelude Trap Value Fuel MemoryType Slot Locals Operands OpFields Codec EncodedOps Encoder.
From S2P Require Import Cells Float OpTables BinaryTables BranchTables AccessTables Comparator InitExpr Header.
From S2P Require Import Control TransStack Instr BinaryOps UnaryOps AccessOps OpSelect Sink Translator.
Local Open Scope Z_scope.

(** [wasmparser::MemArg], as far as it is used. *)
Record MemArg : Type := { ma_memory : Z; ma_offset : Z }.

Inductive LocalSetCodegen : Type := LocalSet_Fused | LocalSet_NoOp | LocalSet_Copy.

Inductive SelectFusion : Type := Fusion_None | Fusion_Fused | Fusion_FusedSwap.
Definition is_fused (self : SelectFusion) : bool :=
  match self with Fusion_None => false | Fusion_Fused | Fusion_FusedSwap => true end.

Section TransOps.
Context `{Tg : Target} `{Fn : FloatNans} {I : Type} `{Sk : OpSink I}.

(** ** [local.set] *)

Definition fused_local_set (result : Slot) (input : Operand) (self : FuncTranslator I) :
    res TranslationError (option Instr) :=
  let layout := ft_layout self in
  resolved ← Operand_resolve input layout;
  match match resolved with Resolved_Reg _ => fuse_copy_sr result (Operand_ty input) self | _ => None end with
  | Some fused_op => Ok (Some fused_op)
  | None =>
      match sink_peek_staged (ft_instrs self) with
      | None => Ok None
      | Some staged =>
          match result_ref staged with
          | None => Ok None
          | Some old_result =>
              match StackLayout_stack_space layout old_result with
              | StackSpace_Local => Ok None
              | StackSpace_Temp =>
                  Ok match resolved with
                     | Resolved_Slot input =>
                         if bool_decide (old_result = input) then Some (set_result staged result) else None
                     | _ => None
                     end
              end
          end
      end
  end.

Definition translate_local_set (local_index : LocalIdx) (input : Operand) : FM I LocalSetCodegen :=
  self ← get_st;
  let layout := ft_layout self in
  result ← try (StackLayout_local_to_slot layout local_index);
  no_op ← match input with
          | Operand_Local op => input ← try (StackLayout_local_to_slot layout (lo_local_index op)); mret (bool_decide (result = input))
          | _ => mret false
          end;
  if no_op : bool then mret LocalSet_NoOp else
  unfused_op ← try (select_copy_sx_op result input layout);
  unfused_op ← lift (expect unfused_op);
  fused_op ← try (fused_local_set result input self);
  staged_fuel ← match fused_op with
                | Some _ => dropped ← in_instrs sink_drop_staged; mret (Some (snd dropped))
                | None => mret None
                end;
  let ty := Operand_ty input in
  fuel_pos ← stack_fuel_pos;
  translate_preserve_locals local_index fuel_pos;;
  (if Operand_in_reg input then on_operands (register_local_for_reg ty local_index)
   else on_operands (dealloc_local_for_reg ty local_index));;
  let '(outcome, op) := match fused_op with
                        | Some fused_op => (LocalSet_Fused, fused_op)
                        | None => (LocalSet_Copy, unfused_op)
                        end in
  let fuel_costs := fun selector => match staged_fuel with
                                    | None => FuelCostsProvider_base selector
                                    | Some fuel => fuel
                                    end in
  encode op fuel_pos fuel_costs;;
  mret outcome.

(** ** Resolving operands *)

Definition reg_operand_to_slot (operand : Operand) : FM I Slot :=
  match operand with
  | Operand_Local operand =>
      assert_m (Operand_in_reg (Operand_Local operand));;
      self ← get_st; try (StackLayout_local_to_slot (ft_layout self) (lo_local_index operand))
  | _ => panic
  end.

Definition resolve_operand_as_index32_or_copy (operand : Operand) (index_ty : IndexType) :
    FM I (ResolvedOperand Z) :=
  value ← resolve_operand_raw operand;
  match ResolvedOperand_filter_map (fun value =>
      match index_ty with
      | IndexType_I32 => Some (RawVal_into P_u32 value)
      | IndexType_I64 => try_from_u 32 (RawVal_into P_u64 value)
      end) value with
  | Some value => mret value
  | None => location ← copy_immediate_to_slot operand; mret (ResolvedOperand_from_Location location)
  end.

Definition resolve_operand_as_index (operand : Operand) (memory : Z) : FM I (ResolvedOperand Z) :=
  self ← get_st;
  ty ← lift (get_type_of_memory (ft_module self) memory);
  match mt_index_type ty with
  | IndexType_I32 => resolve_operand_as P_u32 operand
  | IndexType_I64 => resolve_operand_as P_u64 operand
  end.

(** ** Unary operators *)

Definition translate_trap (trap : TrapCode) : FM I unit :=
  push_instr (Instr_Trap trap) FuelCostsProvider_base;;
  put_reachable false.

(** The result of constant evaluation. *)
Definition push_consteval (result : res TrapCode TypedRawVal) : FM I unit :=
  match result with
  | Ok value => on_operands (push_immediate value);; mret tt
  | Err trap => translate_trap trap
  | Panic => panic
  end.

Definition translate_unary_vt (vt : UnaryOpVt) (try_opt : Operand -> FM I bool) : FM I unit :=
  bail_unreachable (
    result_ty ← lift (expect (uvt_result_ty vt));
    input ← stack_pop;
    optimized ← try_opt input;
    if optimized : bool then on_operands (push_temp result_ty Allocation_Reg);; mret tt
    else
      value ← resolve_operand input;
      match value with
      | Resolved_Reg _ => stage_op_with_result_reg result_ty (uvt_op_rr vt) FuelCostsProvider_base
      | Resolved_Slot input => stage_op_with_result_reg result_ty (uvt_op_rs vt input) FuelCostsProvider_base
      | Resolved_Immediate input => push_consteval (uvt_consteval vt input)
      end).

Definition translate_unary_with_opt (op : UnaryOp) (try_opt : Operand -> FM I bool) : FM I unit :=
  translate_unary_vt (UnaryOp_VT op) try_opt.
Definition translate_unary (op : UnaryOp) : FM I unit := translate_unary_with_opt op (fun _ => mret false).

Definition translate_reinterpret (t r : Prim) (op_rr : Instr) (consteval : Z -> Z) : FM I unit :=
  bail_unreachable (
    input ← stack_pop;
    ty ← lift (expect (Typed_TY t));
    assert_m (bool_decide (Operand_ty input = ty));;
    result_ty ← lift (expect (Typed_TY r));
    if Operand_in_reg input then push_op_with_result_reg result_ty op_rr FuelCostsProvider_base
    else match input with
         | Operand_Local input => on_operands (push_local (lo_local_index input) result_ty);; mret tt
         | Operand_Temp _ => on_operands (push_temp result_ty Allocation_None);; mret tt
         | Operand_Immediate input =>
             input ← lift (from_typed t (ImmediateOperand_val input)); push_imm r (consteval input)
         end).

(** ** Binary operators *)

Definition no_opt_ri (_ : Operand) (_ : TypedRawVal) : FM I bool := mret false.

Definition translate_binary_consteval (lhs rhs : TypedRawVal)
    (consteval : TypedRawVal -> TypedRawVal -> res TrapCode TypedRawVal) : FM I unit :=
  push_consteval (consteval lhs rhs).

(** Both operands are in the same register: the second one then is a local. *)
Definition op_rrr_or (op_rrr : option Instr) (op_rrs : Slot -> Instr) (rhs : Operand) : FM I Instr :=
  match op_rrr with
  | Some op => mret op
  | None => rhs_slot ← reg_operand_to_slot rhs; mret (op_rrs rhs_slot)
  end.

Definition opt_imm (opt_rhs_imm : Operand -> TypedRawVal -> FM I bool) (lhs : Operand)
    (r : ResolvedOperand TypedRawVal) : FM I bool :=
  match r with Resolved_Immediate rhs => opt_rhs_imm lhs rhs | _ => mret false end.

Definition translate_binary_commutative_vt (vt : CommutativeBinaryOpVt)
    (opt_rhs_imm : Operand -> TypedRawVal -> FM I bool) : FM I unit :=
  bail_unreachable (
    result_ty ← lift (expect (cvt_result_ty vt));
    operands ← in_stack TransStack_pop2;
    let '(lhs, rhs) := operands in
    l ← resolve_operand lhs;
    r ← resolve_operand rhs;
    match l, r with
    | Resolved_Immediate lhs, Resolved_Immediate rhs => translate_binary_consteval lhs rhs (cvt_consteval vt)
    | _, _ =>
        let '(l, r) := ResolvedOperand_sort l r in
        optimized ← opt_imm opt_rhs_imm lhs r;
        if optimized : bool then mret tt else
        operator ← match l, r with
                   | Resolved_Reg _, Resolved_Reg _ => op_rrr_or (cvt_op_rrr vt) (cvt_op_rrs vt) rhs
                   | Resolved_Reg _, Resolved_Slot rhs => mret (cvt_op_rrs vt rhs)
                   | Resolved_Reg _, Resolved_Immediate rhs => try (cvt_op_rri vt rhs)
                   | Resolved_Slot lhs, Resolved_Slot rhs => mret (cvt_op_rss vt lhs rhs)
                   | Resolved_Slot lhs, Resolved_Immediate rhs => try (cvt_op_rsi vt lhs rhs)
                   | _, _ => panic
                   end;
        stage_op_with_result_reg result_ty operator FuelCostsProvider_base
    end).
Definition translate_binary_commutative_with_opt (op : CommutativeBinaryOp)
    (opt_rhs_imm : Operand -> TypedRawVal -> FM I bool) : FM I unit :=
  translate_binary_commutative_vt (CommutativeBinaryOp_VT op) opt_rhs_imm.
Definition translate_binary_commutative (op : CommutativeBinaryOp) : FM I unit :=
  translate_binary_commutative_with_opt op no_opt_ri.

Definition translate_binary_vt (vt : BinaryOpVt) (opt_rhs_imm : Operand -> TypedRawVal -> FM I bool) : FM I unit :=
  bail_unreachable (
    result_ty ← lift (expect (bvt_result_ty vt));
    operands ← in_stack TransStack_pop2;
    let '(lhs, rhs) := operands in
    l ← resolve_operand lhs;
    r ← resolve_operand rhs;
    decoded ← match r with
              | Resolved_Reg ty => mret (Rhs_Value (Resolved_Reg ty))
              | Resolved_Slot rhs => mret (Rhs_Value (Resolved_Slot rhs))
              | Resolved_Immediate rhs =>
                  rhs ← try (bvt_decode_rhs vt rhs);
                  mret match rhs with
                       | Rhs_Value rhs => Rhs_Value (Resolved_Immediate rhs)
                       | Rhs_Trap trap_code => Rhs_Trap trap_code
                       | Rhs_ReturnLhs => Rhs_ReturnLhs
                       end
              end;
    match decoded with
    | Rhs_Trap trap_code => translate_trap trap_code
    | Rhs_ReturnLhs => on_operands (push_operand lhs);; mret tt
    | Rhs_Value r =>
        match l, r with
        | Resolved_Immediate lhs, Resolved_Immediate rhs => translate_binary_consteval lhs rhs (bvt_consteval vt)
        | _, _ =>
            optimized ← opt_imm opt_rhs_imm lhs r;
            if optimized : bool then mret tt else
            operator ← match l, r with
                       | Resolved_Reg _, Resolved_Reg _ => op_rrr_or (bvt_op_rrr vt) (bvt_op_rrs vt) rhs
                       | Resolved_Reg _, Resolved_Slot rhs => mret (bvt_op_rrs vt rhs)
                       | Resolved_Reg _, Resolved_Immediate rhs => try (bvt_op_rri vt rhs)
                       | Resolved_Slot lhs, Resolved_Reg _ => mret (bvt_op_rsr vt lhs)
                       | Resolved_Slot lhs, Resolved_Slot rhs => mret (bvt_op_rss vt lhs rhs)
                       | Resolved_Slot lhs, Resolved_Immediate rhs => try (bvt_op_rsi vt lhs rhs)
                       | Resolved_Immediate lhs, Resolved_Reg _ => try (bvt_op_rir vt lhs)
                       | Resolved_Immediate lhs, Resolved_Slot rhs => try (bvt_op_ris vt lhs rhs)
                       | _, _ => panic
                       end;
            stage_op_with_result_reg result_ty operator FuelCostsProvider_base
        end
    end).
Definition translate_binary_with_opt (op : BinaryOp) (opt_rhs_imm : Operand -> TypedRawVal -> FM I bool) : FM I unit :=
  translate_binary_vt (BinaryOp_VT op) opt_rhs_imm.
Definition translate_binary (op : BinaryOp) : FM I unit := translate_binary_with_opt op no_opt_ri.

(** ** [select] *)

Definition encode_v128_select (condition : Location) (true_val false_val : Operand) : FM I unit :=
  true_val ← copy_operand_to_slot true_val;
  false_val ← copy_operand_to_slot false_val;
  push_op_with_result_slot ValType_V128 (fun result =>
    Instr_Control match condition with
                  | Loc_Reg _ => V128Select_Srss result true_val false_val
                  | Loc_Slot condition => V128Select_Ssss result condition true_val false_val
                  end) FuelCostsProvider_base.

Definition try_fuse_select (condition : Location) (self : FuncTranslator I) : SelectFusion :=
  match sink_peek_staged (ft_instrs self) with
  | None => Fusion_None
  | Some staged =>
      match result_loc staged with
      | None => Fusion_None
      | Some staged_result =>
          let local_result := match staged_result with
                              | Result_Slot result_slot =>
                                  match StackLayout_stack_space (ft_layout self) result_slot with
                                  | StackSpace_Local => true
                                  | StackSpace_Temp => false
                                  end
                              | Result_Reg _ => false
                              end in
          if local_result : bool then Fusion_None else
          let matching := match staged_result, condition with
                          | Result_Reg ValType_I64, Loc_Reg _ => true
                          | Result_Slot staged, Loc_Slot condition => bool_decide (staged = condition)
                          | _, _ => false
                          end in
          if negb matching then Fusion_None else
          match staged with
          | Instr_Binary (Binary_i32 (I32Eq_Rri 0)) | Instr_Binary (Binary_i32 (I32Eq_Rsi _ 0)) => Fusion_FusedSwap
          | Instr_Binary (Binary_i32 (I32NotEq_Rri 0)) | Instr_Binary (Binary_i32 (I32NotEq_Rsi _ 0)) => Fusion_Fused
          | _ => Fusion_None
          end
      end
  end.

Definition translate_select (type_hint : option ValType) : FM I unit :=
  bail_unreachable (
    operands ← in_stack TransStack_pop3;
    let '(true_val, false_val, condition) := operands in
    assert_m (bool_decide (Operand_ty condition = ValType_I32));;
    (match type_hint with
     | Some type_hint =>
         assert_m (bool_decide (Operand_ty true_val = type_hint));;
         assert_m (bool_decide (Operand_ty false_val = type_hint))
     | None => mret tt
     end);;
    if Operand_is_same true_val false_val then on_operands (push_operand true_val);; mret tt
    else
      let ty := Operand_ty true_val in
      condition ← resolve_operand_as P_i32 condition;
      let select (condition : Location) : FM I unit :=
        self ← get_st;
        let fusion := try_fuse_select condition self in
        (if is_fused fusion then in_instrs sink_drop_staged;; mret tt else mret tt);;
        let '(true_val, false_val) := match fusion with
                                      | Fusion_FusedSwap => (false_val, true_val)
                                      | _ => (true_val, false_val)
                                      end in
        let layout := ft_layout self in
        match ty with
        | ValType_V128 => encode_v128_select condition true_val false_val
        | _ =>
            operator ← try match ty with
                           | ValType_I64 => i64_select_operator layout condition true_val false_val
                           | ValType_F32 => f32_select_operator layout condition true_val false_val
                           | ValType_F64 => f64_select_operator layout condition true_val false_val
                           | _ => i32_select_operator layout condition true_val false_val
                           end;
            stage_op_with_result_reg ty operator FuelCostsProvider_base
        end in
      match condition with
      | Resolved_Reg ty => select (Loc_Reg ty)
      | Resolved_Slot condition => select (Loc_Slot condition)
      | Resolved_Immediate condition =>
          let selected := if negb (condition =? 0) then true_val else false_val in
          match ty with
          | ValType_V128 =>
              selected ← resolve_operand selected;
              match selected with
              | Resolved_Reg _ => panic
              | Resolved_Slot value =>
                  try_push_op_with_result_slot ty (fun result => select_copy_ss_op result value ty)
                    FuelCostsProvider_base
              | Resolved_Immediate value =>
                  try_push_op_with_result_slot ty (fun result => Some (select_copy_si_op result value))
                    FuelCostsProvider_base
              end
          | _ => copy_operand_to_reg selected
          end
      end).

(** ** Fusions *)

(** [try_lower_f32_abs_neg] and [try_lower_f64_abs_neg]. *)
Definition try_lower_abs_neg (ty : ValType) (lower : UnaryInst -> option UnaryInst) (value : Operand) : FM I bool :=
  self ← get_st;
  match sink_peek_staged (ft_instrs self) with
  | None => mret false
  | Some staged_op =>
      val ← resolve_operand value;
      match val with
      | Resolved_Reg val_ty =>
          if negb (bool_decide (val_ty = ty)) then mret false else
          match (match staged_op with Instr_Unary op => lower op | _ => None end) with
          | Some lowered_op => in_instrs (sink_replace_staged (Instr_Unary lowered_op));; mret true
          | None => mret false
          end
      | _ => mret false
      end
  end.
Definition try_lower_f32_abs_neg : Operand -> FM I bool :=
  try_lower_abs_neg ValType_F32 (fun op =>
    match op with F32Abs_Rr => Some F32Nabs_Rr | F32Abs_Rs value => Some (F32Nabs_Rs value) | _ => None end).
Definition try_lower_f64_abs_neg : Operand -> FM I bool :=
  try_lower_abs_neg ValType_F64 (fun op =>
    match op with F64Abs_Rr => Some F64Nabs_Rr | F64Abs_Rs value => Some (F64Nabs_Rs value) | _ => None end).

Definition fuse_commutative_cmp_with (try_fuse : BinaryInst -> option BinaryInst) (lhs : Operand) (rhs : TypedRawVal) :
    FM I bool :=
  is_zero ← match typed_ty rhs with
            | ValType_I32 => rhs ← lift (from_typed P_i32 rhs); mret (rhs =? 0)
            | ValType_I64 => rhs ← lift (from_typed P_i64 rhs); mret (rhs =? 0)
            | _ => mret false
            end;
  if negb is_zero then mret false else
  self ← get_st;
  match sink_peek_staged (ft_instrs self) with
  | None => mret false
  | Some staged =>
      lhs ← resolve_operand lhs;
      match lhs with
      | Resolved_Reg _ =>
          if negb (match result_loc staged with Some loc => is_reg loc | None => false end) then mret false else
          match (match staged with Instr_Binary staged => try_fuse staged | _ => None end) with
          | None => mret false
          | Some negated =>
              on_operands (push_temp ValType_I32 Allocation_Reg);;
              in_instrs (sink_replace_staged (Instr_Binary negated));;
              mret true
          end
      | _ => mret false
      end
  end.
Definition fuse_eqz : Operand -> TypedRawVal -> FM I bool := fuse_commutative_cmp_with negate_cmp_instr.
Definition fuse_nez : Operand -> TypedRawVal -> FM I bool := fuse_commutative_cmp_with logicalize_cmp_instr.

(** ** Loads and stores *)

(** A memory index is encoded in 16 bits. *)
Definition decode_memarg (memarg : MemArg) : res IrError (option (Z * Z)) :=
  memory ← ok_or (try_from_u 16 (ma_memory memarg)) MemoryIndexOutOfBounds;
  Ok match Offset_new (ma_offset memarg) with
     | None => None
     | Some offset => Some (memory, offset)
     end.

Definition effective_address (memory_type : MemoryType) (ptr offset : Z) : option Z :=
  address ← checked_add 64 ptr offset;
  if match mt_maximum memory_type with
     | Some max => Z.shiftl max (mt_page_size_log2 memory_type) <? address
     | None => false
     end then None
  else if negb (MemoryType_is_64 memory_type) && (2 ^ 32 <=? address) then None
  else Address_new address.

Definition memory_type_of (memory : Z) : FM I MemoryType :=
  self ← get_st; lift (get_type_of_memory (ft_module self) memory).

Definition from_memarg (memarg : MemArg) : FM I (option (Z * Z)) := lift (map_err E_Ir (decode_memarg memarg)).

Definition select_load_op_vt (vt : LoadOpVt) (ptr : Operand) (memarg : MemArg) : FM I Instr :=
  decoded ← from_memarg memarg;
  match decoded with
  | None => mret (Instr_Trap MemoryOutOfBounds)
  | Some (memory, offset) =>
      ptr ← resolve_operand_as_index ptr memory;
      let opt :=
        if negb (memory =? 0) then None else
        match Offset16_new offset with
        | None => None
        | Some offset =>
            match ptr with
            | Resolved_Reg _ => Some (lvt_op_rr_mem0_offset16 vt offset)
            | Resolved_Slot ptr => Some (lvt_op_rs_mem0_offset16 vt ptr offset)
            | Resolved_Immediate _ => None
            end
        end in
      match opt with
      | Some op => mret op
      | None =>
          ty ← memory_type_of memory;
          match ResolvedOperand_filter_map (fun ptr => effective_address ty ptr offset) ptr with
          | None => mret (Instr_Trap MemoryOutOfBounds)
          | Some (Resolved_Reg _) => mret (lvt_op_rr vt offset memory)
          | Some (Resolved_Slot ptr) => mret (lvt_op_rs vt ptr offset memory)
          | Some (Resolved_Immediate address) => mret (lvt_op_ri vt address memory)
          end
      end
  end.

Definition translate_load_vt (vt : LoadOpVt) (memarg : MemArg) : FM I unit :=
  bail_unreachable (
    result_ty ← lift (expect (lvt_result_ty vt));
    ptr ← stack_pop;
    op ← select_load_op_vt vt ptr memarg;
    match op with
    | Instr_Trap trap_code => translate_trap trap_code
    | op => stage_op_with_result_reg result_ty op FuelCostsProvider_load
    end).
Definition translate_load (op : LoadOp) (memarg : MemArg) : FM I unit := translate_load_vt (LoadOp_VT op) memarg.

Definition choose_store_mem0_offset16_op_vt (vt : StoreOpVt) (ptr : ResolvedOperand Z) (offset memory : Z)
    (value : Operand) : FM I (option Instr) :=
  if negb (memory =? 0) then mret None else
  match Offset16_new offset with
  | None => mret None
  | Some offset =>
      match ptr with
      | Resolved_Immediate _ => mret None
      | Resolved_Reg _ =>
          resolved_value ← resolve_operand value;
          match resolved_value with
          | Resolved_Reg _ =>
              op ← match svt_store_mem0_offset16_rr vt offset with
                   | Some op => mret op
                   | None => value ← reg_operand_to_slot value; mret (svt_store_mem0_offset16_rs vt offset value)
                   end;
              mret (Some op)
          | Resolved_Slot value => mret (Some (svt_store_mem0_offset16_rs vt offset value))
          | Resolved_Immediate value => op ← try (svt_store_mem0_offset16_ri vt offset value); mret (Some op)
          end
      | Resolved_Slot ptr =>
          resolved_value ← resolve_operand value;
          match resolved_value with
          | Resolved_Reg _ => mret (Some (svt_store_mem0_offset16_sr vt ptr offset))
          | Resolved_Slot value => mret (Some (svt_store_mem0_offset16_ss vt ptr offset value))
          | Resolved_Immediate value => op ← try (svt_store_mem0_offset16_si vt ptr offset value); mret (Some op)
          end
      end
  end.

Definition choose_store_op_vt (vt : StoreOpVt) (memarg : MemArg) (ptr value : Operand) : FM I Instr :=
  decoded ← from_memarg memarg;
  match decoded with
  | None => mret (Instr_Trap MemoryOutOfBounds)
  | Some (memory, offset) =>
      ptr ← resolve_operand_as_index ptr memory;
      ty ← memory_type_of memory;
      match ResolvedOperand_transpose (ResolvedOperand_map (fun ptr => effective_address ty ptr offset) ptr) with
      | None => mret (Instr_Trap MemoryOutOfBounds)
      | Some ptr =>
          op ← choose_store_mem0_offset16_op_vt vt ptr offset memory value;
          match op with
          | Some op => mret op
          | None =>
              value ← resolve_operand value;
              match ptr, value with
              | Resolved_Reg _, Resolved_Reg _ => lift (expect (svt_store_rr vt offset memory))
              | Resolved_Reg _, Resolved_Slot value => mret (svt_store_rs vt offset value memory)
              | Resolved_Reg _, Resolved_Immediate value => try (svt_store_ri vt offset value memory)
              | Resolved_Slot ptr, Resolved_Reg _ => mret (svt_store_sr vt ptr offset memory)
              | Resolved_Slot ptr, Resolved_Slot value => mret (svt_store_ss vt ptr offset value memory)
              | Resolved_Slot ptr, Resolved_Immediate value => try (svt_store_si vt ptr offset value memory)
              | Resolved_Immediate address, Resolved_Reg _ => mret (svt_store_ir vt address memory)
              | Resolved_Immediate address, Resolved_Slot value => mret (svt_store_is vt address value memory)
              | Resolved_Immediate address, Resolved_Immediate value => try (svt_store_ii vt address value memory)
              end
          end
      end
  end.

Definition encode_store_vt (vt : StoreOpVt) (memarg : MemArg) (ptr value : Operand) : FM I unit :=
  op ← choose_store_op_vt vt memarg ptr value;
  match op with
  | Instr_Trap trap_code => translate_trap trap_code
  | op => push_instr op FuelCostsProvider_store;; mret tt
  end.
Definition translate_store (op : StoreOp) (memarg : MemArg) : FM I unit :=
  bail_unreachable (
    operands ← in_stack TransStack_pop2;
    let '(ptr, value) := operands in
    encode_store_vt (StoreOp_VT op) memarg ptr value).

(** ** Wide arithmetic *)

(** The value of an immediate operand as an [i64]. *)
Definition imm_i64 (operand : ImmediateOperand) : FM I Z := lift (from_typed P_i64 (ImmediateOperand_val operand)).

Definition push_i64_pair (result : Z * Z) : FM I unit := push_imm P_i64 (fst result);; push_imm P_i64 (snd result).

(** The head of the slots of a new temporary. *)
Definition push_i64_temp : FM I Slot :=
  temp ← on_operands (push_temp ValType_I64 Allocation_None); mret (span_head (to_temp_slots temp)).

Definition fixed_span2 (head : Slot) : FM I SlotSpan :=
  match FixedSlotSpan_new 2 {| span_head := head |} with
  | Ok results => mret results
  | _ => fail (E_Translation AllocatedTooManySlots)
  end.

Definition translate_i64_binop128 (make_instr : SlotSpan -> Slot -> Slot -> Slot -> Slot -> Instr)
    (const_eval : Z -> Z -> Z -> Z -> Z * Z) : FM I unit :=
  bail_unreachable (
    rhs ← in_stack TransStack_pop2;
    let '(rhs_lo, rhs_hi) := rhs in
    lhs ← in_stack TransStack_pop2;
    let '(lhs_lo, lhs_hi) := lhs in
    match lhs_lo, lhs_hi, rhs_lo, rhs_hi with
    | Operand_Immediate lhs_lo, Operand_Immediate lhs_hi, Operand_Immediate rhs_lo, Operand_Immediate rhs_hi =>
        lhs_lo ← imm_i64 lhs_lo; lhs_hi ← imm_i64 lhs_hi; rhs_lo ← imm_i64 rhs_lo; rhs_hi ← imm_i64 rhs_hi;
        push_i64_pair (const_eval lhs_lo lhs_hi rhs_lo rhs_hi)
    | _, _, _, _ =>
        rhs_lo ← copy_operand_to_slot rhs_lo;
        rhs_hi ← copy_operand_to_slot rhs_hi;
        lhs_lo ← copy_operand_to_slot lhs_lo;
        lhs_hi ← copy_operand_to_slot lhs_hi;
        result_lo ← push_i64_temp;
        result_hi ← push_i64_temp;
        results ← fixed_span2 result_lo;
        assert_m (bool_decide (Slot_next_n (span_head results) 1 = result_hi));;
        push_instr (make_instr results lhs_lo lhs_hi rhs_lo rhs_hi) FuelCostsProvider_base;;
        mret tt
    end).

Definition try_opt_i64_mul_wide_sx (lhs : Operand) (rhs : TypedRawVal) (signed : bool) : FM I bool :=
  rhs ← lift (from_typed P_i64 rhs);
  if rhs =? 0 then push_imm P_i64 0;; push_imm P_i64 0;; mret true
  else if (rhs =? 1) && negb signed then
    result ← on_operands (push_operand lhs);
    (match lhs with
     | Operand_Temp _ =>
         fuel_pos ← stack_fuel_pos;
         encode_copy_sx_op (BoundedSlotSpan_head (Operand_temp_slots result)) lhs fuel_pos;;
         mret tt
     | _ => mret tt
     end);;
    push_imm P_i64 0;;
    mret true
  else mret false.

Definition encode_i64_mul_wide_sx (make_instr : SlotSpan -> Slot -> Slot -> Instr) (lhs rhs : Operand) : FM I unit :=
  lhs ← copy_operand_to_slot lhs;
  rhs ← copy_operand_to_slot rhs;
  result0 ← push_i64_temp;
  push_i64_temp;;
  results ← fixed_span2 result0;
  push_instr (make_instr results lhs rhs) FuelCostsProvider_base;;
  mret tt.

Definition translate_i64_mul_wide_sx (make_instr : SlotSpan -> Slot -> Slot -> Instr)
    (const_eval : Z -> Z -> Z * Z) (signed : bool) : FM I unit :=
  bail_unreachable (
    operands ← in_stack TransStack_pop2;
    let '(lhs, rhs) := operands in
    match lhs, rhs with
    | Operand_Immediate lhs, Operand_Immediate rhs =>
        lhs ← imm_i64 lhs; rhs ← imm_i64 rhs; push_i64_pair (const_eval lhs rhs)
    | lhs, Operand_Immediate rhs_imm =>
        optimized ← try_opt_i64_mul_wide_sx lhs (ImmediateOperand_val rhs_imm) signed;
        if optimized : bool then mret tt else encode_i64_mul_wide_sx make_instr lhs rhs
    | Operand_Immediate lhs_imm, rhs =>
        optimized ← try_opt_i64_mul_wide_sx rhs (ImmediateOperand_val lhs_imm) signed;
        if optimized : bool then mret tt else encode_i64_mul_wide_sx make_instr lhs rhs
    | lhs, rhs => encode_i64_mul_wide_sx make_instr lhs rhs
    end).
End TransOps.
