(* ===== verification/SimdOps.v ===== *)
(** * Translation of the vector instructions

    The generic parts of [translator/func/simd/mod.rs] and the operators of
    [translator/func/simd/op.rs].  Vectors are never in registers: their operands are
    locals, temporaries in slots and immediates. *)

From Stdlib Require Import ZArith.
From stdpp Require Import base option list.
From S2P Require Import Prelude Trap Value Fuel MemoryType Slot Locals Operands OpFields Codec EncodedOps Encoder.
From S2P Require Import Cells Float Simd SimdTables Header Control TransStack Instr AccessOps OpSelect Sink Translator TransOps.
Local Open Scope Z_scope.

(** ** Typed vectors *)

Definition TypedRawVal_from_V128 (value : V128) : TypedRawVal := TypedRawVal_new ValType_V128 (RawVal_from_V128 value).
(** A wrong type trips the assertion. *)
Definition TypedRawVal_into_V128 {E} (value : TypedRawVal) : res E V128 :=
  assert_that (bool_decide (typed_ty value = ValType_V128));;
  Ok (V128_from_RawVal (typed_value value)).

(** ** Replaced lanes *)

Record SimdReplaceLane : Type := {
  rl_Item : Prim;
  rl_into_immediate : Z -> Z;
  rl_const_eval : V128 -> LaneIdx rl_Item -> Z -> V128;
  rl_op_ssr : Slot -> Slot -> LaneIdx rl_Item -> Instr;
  rl_op_sss : Slot -> Slot -> LaneIdx rl_Item -> Slot -> Instr;
  rl_op_ssi : Slot -> Slot -> LaneIdx rl_Item -> Z -> Instr
}.

Definition Replace (op : ReplaceLaneInst) : Instr := Instr_Simd (Simd_ReplaceLane op).

Definition I8x16ReplaceLane : SimdReplaceLane := {|
  rl_Item := P_i8;
  rl_const_eval := i8x16_replace_lane;
  rl_into_immediate := to_bits P_i8;
  rl_op_ssr := fun result input lane => Replace (U8x16ReplaceLane_Ssr result input lane);
  rl_op_sss := fun result input lane value => Replace (U8x16ReplaceLane_Sss result input value lane);
  rl_op_ssi := fun result input lane value => Replace (U8x16ReplaceLane_Ssi result input value lane)
|}.

Definition I16x8ReplaceLane : SimdReplaceLane := {|
  rl_Item := P_i16;
  rl_const_eval := i16x8_replace_lane;
  rl_into_immediate := to_bits P_i16;
  rl_op_ssr := fun result input lane => Replace (U16x8ReplaceLane_Ssr result input lane);
  rl_op_sss := fun result input lane value => Replace (U16x8ReplaceLane_Sss result input value lane);
  rl_op_ssi := fun result input lane value => Replace (U16x8ReplaceLane_Ssi result input value lane)
|}.

Definition I32x4ReplaceLane : SimdReplaceLane := {|
  rl_Item := P_i32;
  rl_const_eval := i32x4_replace_lane;
  rl_into_immediate := to_bits P_i32;
  rl_op_ssr := fun result input lane => Replace (U32x4ReplaceLane_Ssr result input lane);
  rl_op_sss := fun result input lane value => Replace (U32x4ReplaceLane_Sss result input value lane);
  rl_op_ssi := fun result input lane value => Replace (U32x4ReplaceLane_Ssi result input value lane)
|}.

Definition I64x2ReplaceLane : SimdReplaceLane := {|
  rl_Item := P_i64;
  rl_const_eval := i64x2_replace_lane;
  rl_into_immediate := to_bits P_i64;
  rl_op_ssr := fun result input lane => Replace (U64x2ReplaceLane_Ssr result input lane);
  rl_op_sss := fun result input lane value => Replace (U64x2ReplaceLane_Sss result input value lane);
  rl_op_ssi := fun result input lane value => Replace (U64x2ReplaceLane_Ssi result input value lane)
|}.

Definition F32x4ReplaceLane : SimdReplaceLane := {|
  rl_Item := P_f32;
  rl_const_eval := f32x4_replace_lane;
  rl_into_immediate := to_bits P_f32;
  rl_op_ssr := fun result input lane => Replace (F32x4ReplaceLane_Ssr result input lane);
  rl_op_sss := fun result input lane value => Replace (U32x4ReplaceLane_Sss result input value lane);
  rl_op_ssi := fun result input lane value => Replace (U32x4ReplaceLane_Ssi result input value lane)
|}.

Definition F64x2ReplaceLane : SimdReplaceLane := {|
  rl_Item := P_f64;
  rl_const_eval := f64x2_replace_lane;
  rl_into_immediate := to_bits P_f64;
  rl_op_ssr := fun result input lane => Replace (F64x2ReplaceLane_Ssr result input lane);
  rl_op_sss := fun result input lane value => Replace (U64x2ReplaceLane_Sss result input value lane);
  rl_op_ssi := fun result input lane value => Replace (U64x2ReplaceLane_Ssi result input value lane)
|}.

Section SimdOps.
Context `{Tg : Target} `{Fn : FloatNans} {I : Type} `{Sk : OpSink I}.

(** ** Operands *)

Definition push_v128 (value : V128) : FM I unit := on_operands (push_immediate (TypedRawVal_from_V128 value));; mret tt.
Definition imm_v128 (operand : ImmediateOperand) : FM I V128 := lift (TypedRawVal_into_V128 (ImmediateOperand_val operand)).

(** [<T::LaneIdx>::try_from(lane)] for a vector of [n] lanes. *)
Definition lane_idx (n lane : Z) : FM I (ImmLaneIdx n) := lift (expect (ImmLaneIdx_try_from n lane)).

Definition operand_to_slot (operand : Operand) : FM I Slot :=
  match operand with
  | Operand_Local operand => self ← get_st; try (StackLayout_local_to_slot (ft_layout self) (lo_local_index operand))
  | Operand_Temp temp => if Operand_in_reg operand then panic else mret (span_head (to_temp_slots temp))
  | Operand_Immediate _ => panic
  end.

(** ** Lanes *)

(** [value_ty] is the type of the splatted value, [wrapped] that of a lane. *)
Definition translate_simd_splat (value_ty wrapped : Prim) (op_sr : Slot -> Instr) (op_ss : Slot -> Slot -> Instr)
    (op_si : Slot -> Z -> Instr) : FM I unit :=
  bail_unreachable (
    value ← stack_pop;
    value ← resolve_operand_raw value;
    push_op_with_result_slot ValType_V128 (fun result =>
      match value with
      | Resolved_Reg _ => op_sr result
      | Resolved_Slot value => op_ss result value
      | Resolved_Immediate value => op_si result (to_bits wrapped (wrap wrapped (RawVal_into value_ty value)))
      end) FuelCostsProvider_simd).

(** [p] is the type of the lanes and [r] that of the result. *)
Definition translate_extract_lane (p r : Prim) (lane : Z) (make_instr : Slot -> LaneIdx p -> Instr)
    (const_eval : V128 -> LaneIdx p -> Z) : FM I unit :=
  bail_unreachable (
    lane ← lane_idx (16 / prim_bytes p) lane;
    input ← stack_pop;
    match input with
    | Operand_Immediate input => input ← imm_v128 input; push_imm r (const_eval input lane)
    | _ =>
        input ← operand_to_slot input;
        result_ty ← lift (expect (Typed_TY r));
        push_op_with_result_reg result_ty (make_instr input lane) FuelCostsProvider_simd
    end).

Definition translate_replace_lane (T : SimdReplaceLane) (lane : Z) : FM I unit :=
  bail_unreachable (
    lane ← lane_idx (16 / prim_bytes (rl_Item T)) lane;
    operands ← in_stack TransStack_pop2;
    let '(input, value) := operands in
    match input, value with
    | Operand_Immediate x, Operand_Immediate item =>
        x ← imm_v128 x;
        push_v128 (rl_const_eval T x lane (RawVal_into (rl_Item T) (typed_value (ImmediateOperand_val item))))
    | _, _ =>
        input ← copy_operand_to_slot input;
        value ← resolve_operand_raw value;
        let value := ResolvedOperand_map (fun value => rl_into_immediate T (RawVal_into (rl_Item T) value)) value in
        push_op_with_result_slot ValType_V128 (fun result =>
          match value with
          | Resolved_Reg _ => rl_op_ssr T result input lane
          | Resolved_Slot value => rl_op_sss T result input lane value
          | Resolved_Immediate value => rl_op_ssi T result input lane value
          end) FuelCostsProvider_simd
    end).

(** ** Unary, binary and ternary instructions *)

(** All instances with a result in a slot have a vector as result. *)
Definition translate_simd_unary_sx (make_instr : Slot -> Slot -> Instr) (const_eval : V128 -> V128) : FM I unit :=
  bail_unreachable (
    input ← stack_pop;
    match input with
    | Operand_Immediate input => input ← imm_v128 input; push_v128 (const_eval input)
    | _ =>
        input ← operand_to_slot input;
        push_op_with_result_slot ValType_V128 (fun result => make_instr result input) FuelCostsProvider_simd
    end).

Definition translate_simd_unary_rx (r : Prim) (make_instr : Slot -> Instr) (const_eval : V128 -> Z) : FM I unit :=
  bail_unreachable (
    input ← stack_pop;
    match input with
    | Operand_Immediate input => input ← imm_v128 input; push_imm r (const_eval input)
    | _ =>
        input ← operand_to_slot input;
        result_ty ← lift (expect (Typed_TY r));
        push_op_with_result_reg result_ty (make_instr input) FuelCostsProvider_simd
    end).

Definition translate_simd_binary (make_instr : Slot -> Slot -> Slot -> Instr) (const_eval : V128 -> V128 -> V128) :
    FM I unit :=
  bail_unreachable (
    operands ← in_stack TransStack_pop2;
    let '(lhs, rhs) := operands in
    match lhs, rhs with
    | Operand_Immediate lhs, Operand_Immediate rhs =>
        lhs ← imm_v128 lhs; rhs ← imm_v128 rhs; push_v128 (const_eval lhs rhs)
    | _, _ =>
        lhs ← copy_operand_to_slot lhs;
        rhs ← copy_operand_to_slot rhs;
        push_op_with_result_slot ValType_V128 (fun result => make_instr result lhs rhs) FuelCostsProvider_simd
    end).

Definition translate_simd_ternary (make_instr : Slot -> Slot -> Slot -> Slot -> Instr)
    (const_eval : V128 -> V128 -> V128 -> V128) : FM I unit :=
  bail_unreachable (
    operands ← in_stack TransStack_pop3;
    let '(a, b, c) := operands in
    match a, b, c with
    | Operand_Immediate lhs, Operand_Immediate rhs, Operand_Immediate c =>
        lhs ← imm_v128 lhs; rhs ← imm_v128 rhs; c ← imm_v128 c; push_v128 (const_eval lhs rhs c)
    | _, _, _ =>
        lhs ← copy_operand_to_slot a;
        rhs ← copy_operand_to_slot b;
        selector ← copy_operand_to_slot c;
        push_op_with_result_slot ValType_V128 (fun result => make_instr result lhs rhs selector) FuelCostsProvider_simd
    end).

(** The lanes are integers of type [ty]. *)
Definition translate_simd_shift (ty : Prim) (op_ssr : Slot -> Slot -> Instr) (op_sss : Slot -> Slot -> Slot -> Instr)
    (op_ssi : Slot -> Slot -> Z -> Instr) (const_eval : V128 -> Z -> V128) : FM I unit :=
  bail_unreachable (
    operands ← in_stack TransStack_pop2;
    let '(lhs, rhs) := operands in
    match lhs, rhs with
    | Operand_Immediate lhs, Operand_Immediate rhs =>
        lhs ← imm_v128 lhs;
        rhs ← lift (from_typed P_u32 (ImmediateOperand_val rhs));
        push_v128 (const_eval lhs rhs)
    | _, _ =>
        r ← resolve_operand_as P_u32 rhs;
        match ResolvedOperand_transpose (ResolvedOperand_map (into_simd_shift_amount ty) r) with
        | None => on_operands (push_operand lhs);; mret tt
        | Some r =>
            lhs ← copy_operand_to_slot lhs;
            push_op_with_result_slot ValType_V128 (fun result =>
              match r with
              | Resolved_Reg _ => op_ssr result lhs
              | Resolved_Slot rhs => op_sss result lhs rhs
              | Resolved_Immediate rhs => op_ssi result lhs (shamt rhs)
              end) FuelCostsProvider_simd
        end
    end).

(** ** Loads *)

Definition v_memory (op : VMemoryInst) : Instr := Instr_Simd (Simd_Memory op).

Definition translate_v128_load (memarg : MemArg) : FM I unit :=
  bail_unreachable (
    ptr_opd ← stack_pop;
    decoded ← from_memarg memarg;
    match decoded with
    | None => translate_trap MemoryOutOfBounds
    | Some (memory, offset) =>
        ptr ← resolve_operand_as_index ptr_opd memory;
        ty ← memory_type_of memory;
        let out_of_bounds :=
          match ptr with
          | Resolved_Immediate ptr => match effective_address ty ptr offset with None => true | Some _ => false end
          | _ => false
          end in
        if out_of_bounds : bool then translate_trap MemoryOutOfBounds else
        ptr_loc ← match ptr with
                  | Resolved_Reg ty => mret (Loc_Reg ty)
                  | Resolved_Slot ptr => mret (Loc_Slot ptr)
                  | Resolved_Immediate _ => copy_immediate_to_slot ptr_opd
                  end;
        match (if negb (memory =? 0) then None else Offset16_new offset) with
        | Some offset =>
            push_op_with_result_slot ValType_V128 (fun result =>
              v_memory match ptr_loc with
                       | Loc_Reg _ => V128LoadMem0Offset16_Sr result offset
                       | Loc_Slot ptr => V128LoadMem0Offset16_Ss result ptr offset
                       end) FuelCostsProvider_load
        | None =>
            push_op_with_result_slot ValType_V128 (fun result =>
              v_memory match ptr_loc with
                       | Loc_Reg _ => V128Load_Sr result offset memory
                       | Loc_Slot ptr => V128Load_Ss result ptr offset memory
                       end) FuelCostsProvider_load
        end
    end).

(** The scalar load that precedes the operator for the lanes: it leaves its result in
    the register, without an operand for it.  [false] if it traps. *)
Definition encode_scalar_load (L : LoadOp) (ptr : Operand) (memarg : MemArg) : FM I bool :=
  op ← select_load_op_vt (LoadOp_VT L) ptr memarg;
  match op with
  | Instr_Trap trap_code => translate_trap trap_code;; mret false
  | op =>
      fuel_pos ← stack_fuel_pos;
      ty ← lift (expect (Typed_TY (l_Result L)));
      preserve_reg_of_type ty;;
      encode op fuel_pos FuelCostsProvider_load;;
      mret true
  end.

Definition translate_v128_load_modify (L : LoadOp) (memarg : MemArg) (op_sr : Slot -> Instr) : FM I unit :=
  bail_unreachable (
    ptr ← stack_pop;
    loaded ← encode_scalar_load L ptr memarg;
    if loaded : bool then push_op_with_result_slot ValType_V128 op_sr FuelCostsProvider_simd else mret tt).

Definition translate_v128_load_lane (L : LoadOp) (T : SimdReplaceLane) (memarg : MemArg) (lane : Z) : FM I unit :=
  bail_unreachable (
    lane ← lane_idx (16 / prim_bytes (rl_Item T)) lane;
    operands ← in_stack TransStack_pop2;
    let '(ptr, v128) := operands in
    loaded ← encode_scalar_load L ptr memarg;
    if loaded : bool then
      v128 ← copy_operand_to_slot v128;
      push_op_with_result_slot ValType_V128 (fun result => rl_op_ssr T result v128 lane) FuelCostsProvider_simd
    else mret tt).

(** ** Stores *)

Definition translate_v128_store_lane (p : Prim) (memarg : MemArg) (lane : Z)
    (op_rs : Z -> Slot -> Z -> LaneIdx p -> Instr) (op_ss : Slot -> Z -> Slot -> Z -> LaneIdx p -> Instr)
    (op_rs_mem0_offset16 : Z -> Slot -> LaneIdx p -> Instr) (op_ss_mem0_offset16 : Slot -> Z -> Slot -> LaneIdx p -> Instr)
    (translate_imm : MemArg -> Operand -> LaneIdx p -> V128 -> FM I unit) : FM I unit :=
  bail_unreachable (
    lane ← lane_idx (16 / prim_bytes p) lane;
    operands ← in_stack TransStack_pop2;
    let '(ptr, v128) := operands in
    v128 ← resolve_operand v128;
    match v128 with
    | Resolved_Reg _ => panic
    | Resolved_Immediate v128 => v128 ← lift (TypedRawVal_into_V128 v128); translate_imm memarg ptr lane v128
    | Resolved_Slot v128 =>
        decoded ← from_memarg memarg;
        match decoded with
        | None => translate_trap MemoryOutOfBounds
        | Some (memory, offset) =>
            ptr ← copy_immediate_to_slot ptr;
            match (if memory =? 0 then Offset16_new offset else None) with
            | Some offset16 =>
                push_instr match ptr with
                           | Loc_Reg _ => op_rs_mem0_offset16 offset16 v128 lane
                           | Loc_Slot ptr => op_ss_mem0_offset16 ptr offset16 v128 lane
                           end FuelCostsProvider_store;;
                mret tt
            | None =>
                push_instr match ptr with
                           | Loc_Reg _ => op_rs offset v128 memory lane
                           | Loc_Slot ptr => op_ss ptr offset v128 memory lane
                           end FuelCostsProvider_store;;
                mret tt
            end
        end
    end).

Definition translate_store128_mem0_offset16 (ptr : Location) (offset memory : Z) (value : Slot) : FM I bool :=
  if negb (memory =? 0) then mret false else
  match Offset16_new offset with
  | None => mret false
  | Some offset16 =>
      push_instr (v_memory match ptr with
                           | Loc_Slot ptr => V128StoreMem0Offset16_Ss ptr offset16 value
                           | Loc_Reg _ => V128StoreMem0Offset16_Rs offset16 value
                           end) FuelCostsProvider_store;;
      mret true
  end.
End SimdOps.
