(* ===== verification/TransControl.v ===== *)
(** * Translation of branches, returns, calls and ends of blocks

    The control flow of [translator/func/mod.rs]. *)

From Stdlib Require Import ZArith.
From stdpp Require Import base option list.
From S2P Require Import Prelude Trap Value Fuel Slot Locals Operands OpFields Codec EncodedOps Encoder.
From S2P Require Import Cells Float BranchTables Comparator Header.
From S2P Require Import Control TransStack Instr OpSelect Sink Translator TransOps.
Local Open Scope Z_scope.

(** [wasmparser::BrTable]. *)
Record BrTable : Type := { br_targets : list Z; br_default : Z }.
Definition br_len (table : BrTable) : Z := Z.of_nat (length (br_targets table)).

Section TransControl.
Context `{Tg : Target} `{Fn : FloatNans} {I : Type} `{Sk : OpSink I}.
Context (resolve_func_type : Z -> FuncType).
(** The address of the entry of a function of the engine. *)
Context (resolve_func : Z -> option Z).

(** ** Branches *)

Definition encode_branch_item (label : LabelRef) (make : BranchOffset -> BranchItem) (fuel_pos : option BytePos) :
    FM I (BytePos * BytePos) :=
  in_instrs (sink_encode_branch label make fuel_pos (fun _ => 0)).

Definition encode_branch_op (dst : LabelRef) (op : BranchOffset -> Instr) (fuel_pos : option BytePos) : FM I BytePos :=
  in_instrs sink_pad_to_op_alignment;;
  pos ← encode_branch_item dst (fun offset => Branch_Op (op offset)) fuel_pos;
  mret (fst pos).

Definition encode_br (label : LabelRef) : FM I unit :=
  fuel_pos ← stack_fuel_pos;
  encode_branch_op label (fun offset => Instr_Control (Branch offset)) fuel_pos;;
  mret tt.

(** [peek_control_mut] and [branch_to] on the frame. *)
Definition acquire (depth : Z) : FM I AcquiredTarget :=
  self ← get_st; try (peek_control_mut (Z.to_nat depth) (ft_stack self)).
Definition branch_to_frame (depth : Z) : FM I unit := in_stack (in_controls (branch_to_target (Z.to_nat depth))).

Definition fused_cmp_branch (condition : Operand) (negate : bool) (self : FuncTranslator I) :
    res TranslationError (option CmpBranchInst) :=
  match sink_peek_staged (ft_instrs self) with
  | None => Ok None
  | Some staged_op =>
      match result_loc staged_op with
      | Some (Result_Reg staged_ty) =>
          condition ← Operand_resolve condition (ft_layout self);
          match condition with
          | Resolved_Reg condition_ty =>
              match RegKind_new staged_ty, RegKind_new condition_ty with
              | Some Ireg, Some Ireg =>
                  match (match staged_op with
                         | Instr_Binary op => if negate then negate_cmp_instr op else Some op
                         | _ => None
                         end) with
                  | None => Ok None
                  | Some cmp_op => Ok (try_into_cmp_branch_instr cmp_op BranchOffset_uninit)
                  end
              | _, _ => Ok None
              end
          | _ => Ok None
          end
      | _ => Ok None
      end
  end.

(** [with_branch_offset] of an operator that [try_into_cmp_branch_instr] yields. *)
Definition with_branch_offset (op : CmpBranchInst) (offset : BranchOffset) : Instr :=
  Instr_CmpBranch match update_branch_offset op offset with Ok op => op | _ => op end.

(** The comparison of the condition with zero. *)
Definition branch_zero_op (branch_eqz : bool) (condition : Location) (offset : BranchOffset) : Instr :=
  Instr_CmpBranch (CmpBranch_i32
    match branch_eqz, condition with
    | true, Loc_Slot condition => BranchI32Eq_Si offset condition 0
    | true, Loc_Reg _ => BranchI32Eq_Ri offset 0
    | false, Loc_Slot condition => BranchI32NotEq_Si offset condition 0
    | false, Loc_Reg _ => BranchI32NotEq_Ri offset 0
    end).

Definition encode_br_if (condition : Operand) (label : LabelRef) (branch_eqz : bool) : FM I unit :=
  self ← get_st;
  fused ← try (fused_cmp_branch condition branch_eqz self);
  match fused with
  | Some fused_op =>
      dropped ← in_instrs sink_drop_staged;
      encode_branch_op label (with_branch_offset fused_op) (fst dropped);;
      mret tt
  | None =>
      let branch (condition : Location) : FM I unit :=
        fuel_pos ← stack_fuel_pos;
        encode_branch_op label (branch_zero_op branch_eqz condition) fuel_pos;;
        mret tt in
      condition ← resolve_operand_as P_i32 condition;
      match condition with
      | Resolved_Reg ty => branch (Loc_Reg ty)
      | Resolved_Slot condition => branch (Loc_Slot condition)
      | Resolved_Immediate condition =>
          if Bool.eqb branch_eqz (condition =? 0) then encode_br label;; put_reachable false else mret tt
      end
  end.

(** ** Branch tables *)

(** The targets, the default one last. *)
Definition copy_targets_from_br_table (table : BrTable) : FM I unit :=
  targets ← lift (mapM (into_typed P_u32) (br_targets table ++ [br_default table]));
  self ← get_st;
  put_st (set_immediates targets self).

Fixpoint encode_br_targets (targets : list TypedRawVal) (fuel_pos : option BytePos)
    (make : BranchParams -> BranchOffset -> BranchItem) : FM I unit :=
  match targets with
  | [] => mret tt
  | target :: targets =>
      depth ← lift (from_typed P_u32 target);
      acquired ← acquire depth;
      let frame := AcquiredTarget_control_frame acquired in
      params ← lift (ControlFrame_branch_params frame);
      label ← lift (ControlFrame_label frame);
      encode_branch_item label (make params) fuel_pos;;
      branch_to_frame depth;;
      encode_br_targets targets fuel_pos make
  end.

Definition encode_br_table (op : ControlInst) (len_targets : Z) (make : BranchParams -> BranchOffset -> BranchItem) :
    FM I unit :=
  self ← get_st;
  assert_m (Z.of_nat (length (ft_immediates self)) =? len_targets);;
  push_instr (Instr_Control op) FuelCostsProvider_base;;
  fuel_pos ← stack_fuel_pos;
  encode_br_targets (ft_immediates self) fuel_pos make.

(** The addition of [u32]s. *)
Definition encode_br_table_0 (table : BrTable) (index : Location) : FM I unit :=
  len_targets ← lift (expect (checked_add 32 (br_len table) 1));
  encode_br_table match index with
                  | Loc_Reg _ => BranchTable_R len_targets
                  | Loc_Slot index => BranchTable_S len_targets index
                  end len_targets (fun _ => Branch_Offset).
Definition encode_br_table_n (table : BrTable) (index : Location) (values : BoundedSlotSpan) : FM I unit :=
  len_targets ← lift (expect (checked_add 32 (br_len table) 1));
  encode_br_table match index with
                  | Loc_Reg _ => BranchTableSpan_R len_targets values
                  | Loc_Slot index => BranchTableSpan_S len_targets index values
                  end len_targets
    (fun params offset =>
       Branch_Target {| btt_results := bspan (bp_temp_slots params); btt_offset := offset |}).

(** ** Returns *)

(** The loop over the depths [n - 1] down to [0]. *)
Fixpoint preserve_pure_locals_loop (n : nat) (return_result : Slot) (fuel_pos : option BytePos) : FM I unit :=
  match n with
  | O => mret tt
  | S depth =>
      returned ← stack_peek depth;
      let ty := Operand_ty returned in
      let probe_result := return_result in
      let return_result := Slot_next_n return_result (required_cells_for_ty ty) in
      match returned with
      | Operand_Local local =>
          if Operand_in_reg returned then preserve_pure_locals_loop depth return_result fuel_pos else
          self ← get_st;
          value ← try (StackLayout_local_to_slot (ft_layout self) (lo_local_index local));
          match select_copy_ss_op probe_result value ty with
          | None => preserve_pure_locals_loop depth return_result fuel_pos
          | Some _ =>
              moved ← on_operands (operand_to_temp depth);
              assert_m (negb (Operand_in_reg moved));;
              assert_m (Operand_is_same moved returned);;
              let result := BoundedSlotSpan_head (Operand_temp_slots returned) in
              op ← lift (expect (select_copy_ss_op result value ty));
              encode op fuel_pos FuelCostsProvider_base;;
              preserve_pure_locals_loop depth return_result fuel_pos
          end
      | _ => preserve_pure_locals_loop depth return_result fuel_pos
      end
  end.
Definition preserve_pure_locals (n : Z) (fuel_pos : option BytePos) : FM I unit :=
  preserve_pure_locals_loop (Z.to_nat n) (Slot_from 0) fuel_pos.

Definition prepare_return_1_op (fuel_pos : option BytePos) : FM I unit :=
  value ← stack_peek 0; encode_copy_sx_op (Slot_from 0) value fuel_pos;; mret tt.

Definition prepare_return_n_op (len : Z) (fuel_pos : option BytePos) : FM I unit :=
  assert_m (1 <? len);;
  preserve_pure_locals len fuel_pos;;
  copy_operands_to_dst {| span_head := Slot_from 0 |} len 0 fuel_pos;;
  mret tt.

Definition len_func_results : FM I Z := ty ← func_type resolve_func_type; lift (FuncType_len_results ty).

Definition encode_return (fuel_pos : option BytePos) : FM I BytePos :=
  len_results ← len_func_results;
  (if len_results =? 0 then mret tt
   else if len_results =? 1 then prepare_return_1_op fuel_pos
   else prepare_return_n_op len_results fuel_pos);;
  encode (Instr_Control Return) fuel_pos FuelCostsProvider_base.

(** ** Ends *)

Definition pin (label : LabelRef) : FM I unit := in_instrs (sink_pin_label label).
Definition push_frame_params (frame : ControlFrame) : FM I unit :=
  in_stack (push_branch_params resolve_func_type frame).

Definition translate_end_block (frame : FrameBase) : FM I unit :=
  let fuel_pos := fb_fuel_pos frame in
  self ← get_st;
  (if fb_is_branched_to frame : bool then
     (if ft_reachable self : bool then copy_branch_params (fb_branch_params frame) fuel_pos else mret tt);;
     push_frame_params (Frame_Block frame)
   else mret tt);;
  pin (fb_label frame);;
  put_reachable (ft_reachable self || fb_is_branched_to frame);;
  self ← get_st;
  if ft_reachable self && ControlStack_is_empty (ts_controls (ft_stack self)) then
    encode_return fuel_pos;; mret tt
  else mret tt.

Definition assert_nested : FM I unit :=
  self ← get_st; assert_m (negb (ControlStack_is_empty (ts_controls (ft_stack self)))).

Definition translate_end_loop (frame : FrameBase) : FM I unit := assert_nested.

Definition translate_end_if_or_else_only (frame : ControlFrame) (end_is_reachable : bool) : FM I unit :=
  base ← lift (ControlFrame_base frame);
  let fuel_pos := fb_fuel_pos base in
  (if fb_is_branched_to base : bool then
     (if end_is_reachable then copy_branch_params (fb_branch_params base) fuel_pos else mret tt);;
     push_frame_params frame
   else mret tt);;
  pin (fb_label base);;
  put_reachable (end_is_reachable || fb_is_branched_to base).

Definition translate_end_if (frame : FrameBase) (reachability : IfReachability) (registers : RegisterMap) : FM I unit :=
  assert_nested;;
  self ← get_st;
  let is_end_of_then_reachable := ft_reachable self in
  match reachability with
  | If_OnlyThen => translate_end_if_or_else_only (Frame_If frame reachability registers) (ft_reachable self)
  | If_OnlyElse => translate_end_if_or_else_only (Frame_If frame reachability registers) true
  | If_Both else_label =>
      len_results ← lift (BlockType_len_results resolve_func_type (fb_ty frame));
      let has_results := 1 <=? len_results in
      let fuel_pos := fb_fuel_pos frame in
      (if is_end_of_then_reachable && has_results then
         copy_branch_params (fb_branch_params frame) fuel_pos;;
         encode_branch_op (fb_label frame) (fun offset => Instr_Control (Branch offset)) fuel_pos;;
         mret tt
       else mret tt);;
      in_instrs (sink_pin_label_if_unpinned else_label);;
      in_stack (push_else_operands frame reachability);;
      (if has_results then
         fuel_pos ← in_instrs sink_encode_consume_fuel_op;
         copy_branch_params (fb_branch_params frame) fuel_pos
       else mret tt);;
      push_frame_params (Frame_If frame reachability registers);;
      pin (fb_label frame);;
      put_reachable true
  end.

Definition translate_end_else (frame : FrameBase) (reachability : ElseReachability) : FM I unit :=
  assert_nested;;
  self ← get_st;
  match reachability with
  | Else_OnlyThen is_end_of_then_reachable =>
      translate_end_if_or_else_only (Frame_Else frame reachability) is_end_of_then_reachable
  | Else_OnlyElse => translate_end_if_or_else_only (Frame_Else frame reachability) (ft_reachable self)
  | Else_Both end_of_then_reachable =>
      let end_of_else_reachable := ft_reachable self in
      let reachable := match end_of_then_reachable, end_of_else_reachable with
                       | false, false => fb_is_branched_to frame
                       | _, _ => true
                       end in
      let fuel_pos := fb_fuel_pos frame in
      (if end_of_else_reachable : bool then copy_branch_params (fb_branch_params frame) fuel_pos else mret tt);;
      push_frame_params (Frame_Else frame reachability);;
      pin (fb_label frame);;
      put_reachable reachable
  end.

Definition translate_end_unreachable (frame : ControlFrameKind) : FM I unit :=
  assert_nested;;
  in_instrs sink_commit_staged_if_any.

(** ** Calls *)

Fixpoint push_temps (tys : list ValType) : FM I unit :=
  match tys with
  | [] => mret tt
  | ty :: tys => on_operands (push_temp ty Allocation_None);; push_temps tys
  end.

Definition adjust_stack_for_call (ty : FuncType) : FM I BoundedSlotSpan :=
  fuel_pos ← stack_fuel_pos;
  preserve_regs fuel_pos;;
  params ← copy_operands_to_temp (FuncType_len_params ty) 0 fuel_pos;
  in_stack (pop_n (Z.to_nat (FuncType_len_params ty)));;
  results ← lift (FuncType_results ty);
  push_temps results;;
  mret params.

Definition translate_call (function_index : Z) (call_internal call_imported : BoundedSlotSpan -> Z -> ControlInst) :
    FM I unit :=
  bail_unreachable (
    callee_ty ← func_type_of resolve_func_type function_index;
    params ← adjust_stack_for_call callee_ty;
    self ← get_st;
    engine_func ← lift (get_engine_func (ft_module self) function_index);
    instr ← match engine_func with
            | Some engine_func =>
                func_entity ← lift (expect (resolve_func engine_func));
                mret (call_internal params func_entity)
            | None => mret (call_imported params function_index)
            end;
    push_instr (Instr_Control instr) FuelCostsProvider_call;;
    mret tt).

Definition translate_call_indirect (type_index table_index : Z)
    (op_s : Z -> Z -> BoundedSlotSpan -> Slot -> ControlInst) (op_r : Z -> Z -> BoundedSlotSpan -> ControlInst) :
    FM I unit :=
  bail_unreachable (
    index ← stack_pop;
    callee_ty ← resolve_type resolve_func_type type_index;
    index ← copy_immediate_to_slot index;
    params ← adjust_stack_for_call callee_ty;
    let op := match index with
              | Loc_Slot index => op_s table_index type_index params index
              | Loc_Reg _ => op_r table_index type_index params
              end in
    push_instr (Instr_Control op) FuelCostsProvider_call;;
    mret tt).

(** ** The end of the function *)

(** The number of slots of the locals and of the frame. *)
Definition finish : FM I (Z * Z) :=
  in_instrs sink_update_branch_offsets;;
  self ← get_st;
  let len_local_slots := local_slots (ts_operands (ft_stack self)) in
  match len_stack_slots self with
  | None => fail (E_Translation AllocatedTooManySlots)
  | Some len_stack_slots => mret (len_local_slots, len_stack_slots)
  end.
End TransControl.
