(* ===== verification/Visit.v ===== *)
(** * The visitor of the function translator

    [translator/func/visit.rs]: a method for every Wasm operator.  Those for
    vectors are in [SimdVisit]. *)

From Stdlib Require Import ZArith.
From stdpp Require Import base option list.
From S2P Require Import Prelude Trap Value WasmInt Fuel MemoryType Table Slot Locals OpFields Codec EncodedOps Store.
From S2P Require Import Operands Encoder Cells Float OpTables BinaryTables BranchTables Comparator InitExpr.
From S2P Require Import Header Control TransStack Instr BinaryOps UnaryOps AccessOps OpSelect Sink.
From S2P Require Import Translator TransOps TransControl.
Local Open Scope Z_scope.

(** [wasmparser::HeapType]. *)
Inductive HeapType : Type := Heap_Func | Heap_Extern | Heap_Unsupported.

Section Visit.
Context `{Tg : Target} `{Fn : FloatNans} {I : Type} `{Sk : OpSink I}.
Context (resolve_func_type : Z -> FuncType) (resolve_func : Z -> option Z).

(** ** Control flow *)

Definition visit_unreachable : FM I unit := bail_unreachable (translate_trap UnreachableCodeReached).
Definition visit_nop : FM I unit := mret tt.

(** What an operator does on unreachable code that opens a block. *)
Definition if_reachable (kind : ControlFrameKind) (m : FM I unit) : FM I unit :=
  self ← get_st;
  if ft_reachable self : bool then m else in_stack (push_unreachable kind).

Definition block_type (block_ty : WasmBlockType) : FM I BlockTypeInner :=
  self ← get_st; lift (BlockType_new block_ty (ft_module self)).

Definition visit_block (block_ty : WasmBlockType) : FM I unit :=
  if_reachable Kind_Block (
    fuel_pos ← stack_fuel_pos;
    block_ty ← block_type block_ty;
    let len_params := Z.to_nat (BlockType_len_params resolve_func_type block_ty) in
    translate_preserve_all_locals len_params;;
    preserve_temp_regs fuel_pos len_params;;
    end_label ← in_instrs sink_new_label;
    in_stack (push_block resolve_func_type block_ty end_label)).

Definition visit_loop (block_ty : WasmBlockType) : FM I unit :=
  if_reachable Kind_Loop (
    fuel_pos ← stack_fuel_pos;
    block_ty ← block_type block_ty;
    self ← get_st;
    branch_params ← try (branch_params resolve_func_type block_ty Kind_Loop (ft_stack self));
    let len_params := Z.to_nat (BlockType_len_params resolve_func_type block_ty) in
    preserve_temp_regs fuel_pos len_params;;
    copy_branch_params branch_params fuel_pos;;
    translate_preserve_all_locals len_params;;
    continue_label ← in_instrs sink_new_label;
    pin continue_label;;
    fuel_pos ← in_instrs sink_encode_consume_fuel_op;
    in_stack (push_loop resolve_func_type block_ty continue_label fuel_pos)).

(** The branch to the [else] label of an [if]. *)
Definition encode_if_branch (fused_op : option CmpBranchInst) (condition : Location) (fuel_pos : option BytePos) :
    FM I (IfReachability * option BytePos) :=
  else_label ← in_instrs sink_new_label;
  encode_branch_op else_label (fun offset =>
    match fused_op with
    | Some fused_op => with_branch_offset fused_op offset
    | None => branch_zero_op true condition offset
    end) fuel_pos;;
  fuel_pos ← in_instrs sink_encode_consume_fuel_op;
  mret (If_Both else_label, fuel_pos).

Definition visit_if (block_ty : WasmBlockType) : FM I unit :=
  if_reachable Kind_If (
    end_label ← in_instrs sink_new_label;
    condition ← stack_pop;
    fuel_pos ← stack_fuel_pos;
    block_ty ← block_type block_ty;
    let len_params := Z.to_nat (BlockType_len_params resolve_func_type block_ty) in
    self ← get_st;
    fused_op ← try (fused_cmp_branch condition true self);
    (match fused_op with Some _ => in_instrs sink_drop_staged;; mret tt | None => mret tt end);;
    translate_preserve_all_locals len_params;;
    preserve_temp_regs fuel_pos len_params;;
    condition ← resolve_operand condition;
    entry ← match condition with
            | Resolved_Immediate operand =>
                condition ← lift (from_typed P_i32 operand);
                reachability ← (if condition =? 0 then put_reachable false;; mret If_OnlyElse else mret If_OnlyThen);
                fuel_pos ← stack_fuel_pos;
                mret (reachability, fuel_pos)
            | Resolved_Reg ty => encode_if_branch fused_op (Loc_Reg ty) fuel_pos
            | Resolved_Slot condition => encode_if_branch fused_op (Loc_Slot condition) fuel_pos
            end;
    let '(reachability, fuel_pos) := entry in
    in_stack (push_if resolve_func_type block_ty end_label reachability fuel_pos)).

Definition visit_else : FM I unit :=
  popped ← in_stack pop_control;
  match popped with
  | Frame_If frame reachability registers =>
      self ← get_st;
      let is_end_of_then_reachable := ft_reachable self in
      frame ← match reachability with
              | If_Both else_label =>
                  let fuel_pos := fb_fuel_pos frame in
                  frame ← (if is_end_of_then_reachable : bool then
                             copy_branch_params (fb_branch_params frame) fuel_pos;;
                             encode_br (fb_label frame);;
                             mret (branch_to frame)
                           else mret frame);
                  pin else_label;;
                  mret frame
              | _ => mret frame
              end;
      fuel_pos ← in_instrs sink_encode_consume_fuel_op;
      put_reachable (is_else_reachable reachability);;
      in_stack (push_else frame reachability registers is_end_of_then_reachable fuel_pos)
  | Frame_Unreachable Kind_If =>
      self ← get_st;
      assert_m (negb (ft_reachable self));;
      in_stack (push_unreachable Kind_Else)
  | _ => panic
  end.

Definition visit_end : FM I unit :=
  frame ← in_stack pop_control;
  match frame with
  | Frame_Block frame => translate_end_block resolve_func_type frame
  | Frame_Loop frame => translate_end_loop frame
  | Frame_If frame reachability registers => translate_end_if resolve_func_type frame reachability registers
  | Frame_Else frame reachability => translate_end_else resolve_func_type frame reachability
  | Frame_Unreachable frame => translate_end_unreachable frame
  end.

Definition visit_return : FM I unit :=
  bail_unreachable (
    fuel_pos ← stack_fuel_pos;
    encode_return resolve_func_type fuel_pos;;
    len_results ← len_func_results resolve_func_type;
    in_stack (pop_n (Z.to_nat len_results));;
    put_reachable false).

Definition visit_br (depth : Z) : FM I unit :=
  bail_unreachable (
    fuel_pos ← stack_fuel_pos;
    target ← acquire depth;
    match target with
    | Target_Return _ => visit_return
    | Target_Branch frame =>
        branch_to_frame depth;;
        label ← lift (ControlFrame_label frame);
        branch_params ← lift (ControlFrame_branch_params frame);
        copy_branch_params branch_params fuel_pos;;
        encode_br label;;
        put_reachable false
    end).

Definition visit_br_if (depth : Z) : FM I unit :=
  bail_unreachable (
    condition ← stack_pop;
    match condition with
    | Operand_Immediate condition =>
        condition ← lift (from_typed P_i32 (ImmediateOperand_val condition));
        if negb (condition =? 0) then visit_br depth else mret tt
    | _ =>
        target ← acquire depth;
        let frame := AcquiredTarget_control_frame target in
        branch_to_frame depth;;
        label ← lift (ControlFrame_label frame);
        branch_params ← lift (ControlFrame_branch_params frame);
        empty ← lift (BranchParams_is_empty branch_params);
        if empty : bool then encode_br_if condition label false else
        copies ← requires_branch_param_copies (Z.to_nat depth);
        if negb copies then encode_br_if condition label false else
        fuel_pos ← stack_fuel_pos;
        skip_label ← in_instrs sink_new_label;
        encode_br_if condition skip_label true;;
        copy_branch_params branch_params fuel_pos;;
        encode_br label;;
        pin skip_label
    end).

Fixpoint equal_heights (default_height : Z) (targets : list TypedRawVal) : FM I bool :=
  match targets with
  | [] => mret true
  | target :: targets =>
      depth ← lift (from_typed P_u32 target);
      self ← get_st;
      frame ← try (peek_control (Z.to_nat depth) (ft_stack self));
      height ← lift (ControlFrame_height frame);
      if height =? default_height then equal_heights default_height targets else mret false
  end.

(** The index of a [br_table] that is not a constant. *)
Definition br_table_at (table : BrTable) (index : Operand) (index_loc : Location) : FM I unit :=
  copy_targets_from_br_table table;;
  self ← get_st;
  let targets := ft_immediates self in
  depths ← lift (mapM (from_typed P_u32) targets);
  if forallb (fun target => target =? br_default table) depths then visit_br (br_default table) else
  fuel_pos ← stack_fuel_pos;
  default_frame ← try (peek_control (Z.to_nat (br_default table)) (ft_stack self));
  default_height ← lift (ControlFrame_height default_frame);
  equal_heights ← equal_heights default_height targets;
  default_branch_params ← lift (ControlFrame_branch_params default_frame);
  index_loc ← match index_loc with
              | Loc_Slot index => mret (Loc_Slot index)
              | Loc_Reg _ =>
                  claims ← lift (BranchParams_claims_reg default_branch_params Ireg);
                  if claims : bool then
                    let temp_result := BoundedSlotSpan_head (Operand_temp_slots index) in
                    encode_copy_sx_op temp_result index fuel_pos;;
                    mret (Loc_Slot temp_result)
                  else mret index_loc
              end;
  let len_temps := BranchParams_len_temps default_branch_params in
  let len_regs := BranchParams_len_regs default_branch_params in
  values ← copy_operands_to_temp len_temps len_regs fuel_pos;
  copy_branch_params_regs default_branch_params fuel_pos;;
  let required_temp_copies := negb (len_temps =? 0) in
  let requires_branch_copies := required_temp_copies && negb equal_heights in
  (if requires_branch_copies then encode_br_table_n table index_loc values
   else encode_br_table_0 table index_loc);;
  put_reachable false.

Definition visit_br_table (table : BrTable) : FM I unit :=
  bail_unreachable (
    index ← stack_pop;
    if br_len table =? 0 then visit_br (br_default table) else
    index_loc ← resolve_operand_raw index;
    match index_loc with
    | Resolved_Slot slot => br_table_at table index (Loc_Slot slot)
    | Resolved_Reg ty => br_table_at table index (Loc_Reg ty)
    | Resolved_Immediate value =>
        let chosen_index := RawVal_into P_u32 value in
        visit_br (default (br_default table) (br_targets table !! Z.to_nat chosen_index))
    end).

(** ** Calls *)

Definition visit_call (function_index : Z) : FM I unit :=
  translate_call resolve_func_type resolve_func function_index CallInternal CallImported.
Definition visit_call_indirect (type_index table_index : Z) : FM I unit :=
  translate_call_indirect resolve_func_type type_index table_index CallIndirect_S CallIndirect_R.
Definition visit_return_call (function_index : Z) : FM I unit :=
  translate_call resolve_func_type resolve_func function_index ReturnCallInternal ReturnCallImported;;
  put_reachable false.
Definition visit_return_call_indirect (type_index table_index : Z) : FM I unit :=
  translate_call_indirect resolve_func_type type_index table_index ReturnCallIndirect_S ReturnCallIndirect_R;;
  put_reachable false.

(** ** Parametric operators and locals *)

Definition visit_drop : FM I unit :=
  bail_unreachable (stack_pop;; in_instrs sink_commit_staged_if_any).
Definition visit_select : FM I unit := translate_select None.
Definition visit_typed_select (ty : ValType) : FM I unit := translate_select (Some ty).

Definition visit_local_get (local_index : LocalIdx) : FM I unit :=
  bail_unreachable (
    self ← get_st;
    ty ← lift (LocalsRegistry_ty (ft_locals self) local_index);
    on_operands (push_local local_index ty);;
    mret tt).

Definition visit_local_set (local_index : LocalIdx) : FM I unit :=
  bail_unreachable (input ← stack_pop; translate_local_set local_index input;; mret tt).

Definition visit_local_tee (local_index : LocalIdx) : FM I unit :=
  bail_unreachable (
    input ← stack_pop;
    let ty := Operand_ty input in
    let push_local := on_operands (push_local local_index ty);; mret tt in
    codegen ← translate_local_set local_index input;
    match codegen with
    | LocalSet_Fused => push_local
    | LocalSet_NoOp => on_operands (push_operand input);; mret tt
    | LocalSet_Copy =>
        match input with
        | Operand_Local _ => push_local
        | Operand_Temp input =>
            match TempOperand_alloc input with
            | Allocation_None => on_operands (push_temp ty Allocation_None);; mret tt
            | Allocation_Reg => push_local
            end
        | Operand_Immediate input =>
            match ty with
            | ValType_V128 => push_local
            | _ => on_operands (push_immediate (ImmediateOperand_val input));; mret tt
            end
        end
    end).

(** ** Globals *)

Definition visit_ref_func (function_index : Z) : FM I unit :=
  bail_unreachable (
    push_op_with_result_reg ValType_FuncRef (Instr_Control (RefFunc function_index)) FuelCostsProvider_instance).

(** The value of a constant global of the module. *)
Definition global_const (global_type : GlobalType) (init_value : option InitOp) : option InitOp :=
  match gt_mutability global_type with Mutability_Const => init_value | _ => None end.

Definition visit_global_get (global_index : Z) : FM I unit :=
  bail_unreachable (
    self ← get_st;
    global ← lift (get_global (ft_module self) global_index);
    let '(global_type, init_value) := global in
    let content := gt_content global_type in
    let init_expr := global_const global_type init_value in
    let value := (expr ← init_expr; value ← InitOp_eval expr EmptyEvalContext; as_raw_or_none value) in
    match value, (expr ← init_expr; ConstExpr_funcref expr) with
    | Some value, _ => on_operands (push_immediate (TypedRawVal_new content value));; mret tt
    | None, Some func_index => visit_ref_func func_index
    | None, None =>
        match content with
        | ValType_V128 =>
            push_op_with_result_slot content (fun result => Instr_Control (GlobalGetV128_S global_index result))
              FuelCostsProvider_instance
        | ValType_F32 =>
            push_op_with_result_reg content (Instr_Control (GlobalGetF32_R global_index)) FuelCostsProvider_instance
        | ValType_F64 =>
            push_op_with_result_reg content (Instr_Control (GlobalGetF64_R global_index)) FuelCostsProvider_instance
        | _ =>
            push_op_with_result_reg content (Instr_Control (GlobalGetU64_R global_index)) FuelCostsProvider_instance
        end
    end).

Definition visit_global_set (global_index : Z) : FM I unit :=
  bail_unreachable (
    self ← get_st;
    global ← lift (get_global (ft_module self) global_index);
    let ty := gt_content (fst global) in
    input ← stack_pop;
    value ← resolve_operand_raw input;
    op ← match value with
         | Resolved_Reg ValType_F32 => mret (GlobalSetF32_R global_index)
         | Resolved_Reg ValType_F64 => mret (GlobalSetF64_R global_index)
         | Resolved_Reg ValType_V128 => panic
         | Resolved_Reg _ => mret (GlobalSetU64_R global_index)
         | Resolved_Slot value =>
             mret match ty with
                  | ValType_V128 => GlobalSetV128_S global_index value
                  | _ => GlobalSetU64_S global_index value
                  end
         | Resolved_Immediate value =>
             match ty with
             | ValType_I64 | ValType_F64 => mret (GlobalSetU64_I global_index (RawVal_into P_u64 value))
             | ValType_V128 =>
                 fuel_pos ← stack_fuel_pos;
                 let temp_result := BoundedSlotSpan_head (Operand_temp_slots input) in
                 encode_copy_sx_op temp_result input fuel_pos;;
                 mret (GlobalSetV128_S global_index temp_result)
             | _ => mret (GlobalSetU32_I global_index (RawVal_into P_u32 value))
             end
         end;
    push_instr (Instr_Control op) FuelCostsProvider_instance;;
    mret tt).

(** ** Memories *)

(** [index::Memory::try_from]. *)
Definition memory_index (mem : Z) : FM I Z :=
  lift (map_err E_Ir (ok_or (try_from_u 16 mem) MemoryIndexOutOfBounds)).

Definition stage_instance (ty : ValType) (op : ControlInst) : FM I unit :=
  stage_op_with_result_reg ty (Instr_Control op) FuelCostsProvider_instance.
Definition push_instance (op : ControlInst) : FM I unit :=
  push_instr (Instr_Control op) FuelCostsProvider_instance;; mret tt.

Definition visit_memory_size (mem : Z) : FM I unit :=
  bail_unreachable (
    ty ← memory_type_of mem;
    memory ← memory_index mem;
    stage_instance (IndexType_ty (mt_index_type ty)) (MemorySize memory)).

(** Whether an operand is a constant zero of the index type. *)
Definition is_zero_delta (index_ty : IndexType) (delta : Operand) : FM I bool :=
  match delta with
  | Operand_Immediate delta =>
      let delta := ImmediateOperand_val delta in
      delta ← lift match index_ty with
                   | IndexType_I32 => from_typed P_u32 delta
                   | IndexType_I64 => from_typed P_u64 delta
                   end;
      mret (delta =? 0)
  | _ => mret false
  end.

Definition visit_memory_grow (mem : Z) : FM I unit :=
  bail_unreachable (
    ty ← memory_type_of mem;
    let index_ty := mt_index_type ty in
    memory ← memory_index mem;
    delta ← stack_pop;
    zero ← is_zero_delta index_ty delta;
    if zero : bool then stage_instance (IndexType_ty index_ty) (MemorySize memory)
    else
      delta ← copy_operand_to_slot delta;
      stage_instance (IndexType_ty index_ty) (MemoryGrow delta memory)).

(** Three operands, copied to slots in the order they are given in. *)
Definition copy3 (a b c : Operand) : FM I (Slot * Slot * Slot) :=
  a ← copy_operand_to_slot a; b ← copy_operand_to_slot b; c ← copy_operand_to_slot c; mret (a, b, c).

Definition visit_memory_init (data_index mem : Z) : FM I unit :=
  bail_unreachable (
    operands ← in_stack TransStack_pop3;
    let '(dst, src, len) := operands in
    memory ← memory_index mem;
    slots ← copy3 dst src len;
    let '(dst, src, len) := slots in
    push_instance (MemoryInit memory data_index dst src len)).
Definition visit_data_drop (data_index : Z) : FM I unit := bail_unreachable (push_instance (DataDrop data_index)).
Definition visit_memory_copy (dst_mem src_mem : Z) : FM I unit :=
  bail_unreachable (
    operands ← in_stack TransStack_pop3;
    let '(dst, src, len) := operands in
    dst_memory ← memory_index dst_mem;
    src_memory ← memory_index src_mem;
    slots ← copy3 dst src len;
    let '(dst, src, len) := slots in
    push_instance (MemoryCopy dst_memory src_memory dst src len)).
Definition visit_memory_fill (mem : Z) : FM I unit :=
  bail_unreachable (
    operands ← in_stack TransStack_pop3;
    let '(dst, value, len) := operands in
    memory ← memory_index mem;
    slots ← copy3 dst len value;
    let '(dst, len, value) := slots in
    push_instance (MemoryFill memory dst len value)).

(** ** Tables *)

Definition table_type_of (table : Z) : FM I TableType :=
  self ← get_st; lift (get_type_of_table (ft_module self) table).

Definition visit_table_init (elem_index table : Z) : FM I unit :=
  bail_unreachable (
    operands ← in_stack TransStack_pop3;
    let '(dst, src, len) := operands in
    slots ← copy3 dst src len;
    let '(dst, src, len) := slots in
    push_instance (TableInit table elem_index dst src len)).
Definition visit_elem_drop (elem_index : Z) : FM I unit := bail_unreachable (push_instance (ElemDrop elem_index)).
Definition visit_table_copy (dst_table src_table : Z) : FM I unit :=
  bail_unreachable (
    operands ← in_stack TransStack_pop3;
    let '(dst, src, len) := operands in
    slots ← copy3 dst src len;
    let '(dst, src, len) := slots in
    push_instance (TableCopy dst_table src_table dst src len)).
Definition visit_table_fill (table : Z) : FM I unit :=
  bail_unreachable (
    operands ← in_stack TransStack_pop3;
    let '(dst, value, len) := operands in
    slots ← copy3 dst value len;
    let '(dst, value, len) := slots in
    push_instance (TableFill table dst len value)).

Definition visit_table_get (table : Z) : FM I unit :=
  bail_unreachable (
    table_type ← table_type_of table;
    index ← stack_pop;
    index ← resolve_operand_as_index32_or_copy index (tt_index_ty table_type);
    stage_instance (ValType_from_RefType (tt_element table_type))
      match index with
      | Resolved_Reg _ => TableGet_Rr table
      | Resolved_Slot index => TableGet_Rs index table
      | Resolved_Immediate index => TableGet_Ri index table
      end).

(** [TypedRawRef::from] of a typed value, as its bits. *)
Definition ref_from_typed {E} (value : TypedRawVal) : res E Z :=
  match ValType_as_ref (typed_ty value) with
  | Some _ => Ok (ref_bits (RawRef_from_RawVal (typed_value value)))
  | None => Panic
  end.

Definition visit_table_set (table : Z) : FM I unit :=
  bail_unreachable (
    table_type ← table_type_of table;
    operands ← in_stack TransStack_pop2;
    let '(index, value) := operands in
    index ← resolve_operand_as_index32_or_copy index (tt_index_ty table_type);
    value ← resolve_operand value;
    value ← lift (resolved_try ref_from_typed value);
    instr ← match index, value with
            | Resolved_Reg _, Resolved_Slot value => mret (TableSet_Rs table value)
            | Resolved_Reg _, Resolved_Immediate value => mret (TableSet_Ri table value)
            | Resolved_Slot index, Resolved_Reg _ => mret (TableSet_Sr table index)
            | Resolved_Slot index, Resolved_Slot value => mret (TableSet_Ss table index value)
            | Resolved_Slot index, Resolved_Immediate value => mret (TableSet_Si table index value)
            | Resolved_Immediate index, Resolved_Reg _ => mret (TableSet_Ir table index)
            | Resolved_Immediate index, Resolved_Slot value => mret (TableSet_Is table index value)
            | Resolved_Immediate index, Resolved_Immediate value => mret (TableSet_Ii table index value)
            | Resolved_Reg _, Resolved_Reg _ => panic
            end;
    push_instance instr).

Definition visit_table_grow (table : Z) : FM I unit :=
  bail_unreachable (
    table_type ← table_type_of table;
    let index_ty := tt_index_ty table_type in
    operands ← in_stack TransStack_pop2;
    let '(value, delta) := operands in
    zero ← is_zero_delta index_ty delta;
    if zero : bool then stage_instance (IndexType_ty index_ty) (TableSize table)
    else
      value ← copy_operand_to_slot value;
      delta ← copy_operand_to_slot delta;
      stage_instance (IndexType_ty index_ty) (TableGrow delta value table)).

Definition visit_table_size (table : Z) : FM I unit :=
  bail_unreachable (
    table_type ← table_type_of table;
    stage_instance (IndexType_ty (tt_index_ty table_type)) (TableSize table)).

(** ** Constants and conversions without an operator *)

Definition visit_i32_const (value : Z) : FM I unit := bail_unreachable (push_imm P_i32 value).
Definition visit_i64_const (value : Z) : FM I unit := bail_unreachable (push_imm P_i64 value).
Definition visit_f32_const (value : Z) : FM I unit := bail_unreachable (push_imm P_f32 value).
Definition visit_f64_const (value : Z) : FM I unit := bail_unreachable (push_imm P_f64 value).

Definition visit_ref_null (ty : HeapType) : FM I unit :=
  bail_unreachable (
    null ← match ty with
           | Heap_Func => mret (TypedRawRef_null RefType_Func)
           | Heap_Extern => mret (TypedRawRef_null RefType_Extern)
           | Heap_Unsupported => panic
           end;
    on_operands (push_immediate (TypedRawVal_from_TypedRawRef null));;
    mret tt).

Definition visit_i64_extend_i32_u : FM I unit :=
  bail_unreachable (
    input ← stack_pop;
    assert_m (bool_decide (Operand_ty input = ValType_I32));;
    match input with
    | Operand_Local input => on_operands (push_local (lo_local_index input) ValType_I64);; mret tt
    | Operand_Temp input => on_operands (push_temp ValType_I64 (TempOperand_alloc input));; mret tt
    | Operand_Immediate input =>
        input ← lift (from_typed P_u32 (ImmediateOperand_val input));
        push_imm P_u64 (i64_extend_i32_u input)
    end).

Definition visit_i32_reinterpret_f32 : FM I unit :=
  translate_reinterpret P_f32 P_i32 (Instr_Unary I32ReinterpretF32_Rr) i32_reinterpret_f32.
Definition visit_i64_reinterpret_f64 : FM I unit :=
  translate_reinterpret P_f64 P_i64 (Instr_Unary I64ReinterpretF64_Rr) i64_reinterpret_f64.
Definition visit_f32_reinterpret_i32 : FM I unit :=
  translate_reinterpret P_i32 P_f32 (Instr_Unary F32ReinterpretI32_Rr) f32_reinterpret_i32.
Definition visit_f64_reinterpret_i64 : FM I unit :=
  translate_reinterpret P_i64 P_f64 (Instr_Unary F64ReinterpretI64_Rr) f64_reinterpret_i64.

(** ** Wide arithmetic *)

Definition visit_i64_add128 : FM I unit :=
  translate_i64_binop128 (fun results lhs_lo lhs_hi rhs_lo rhs_hi =>
    Instr_Control (I64Add128 results lhs_lo lhs_hi rhs_lo rhs_hi)) i64_add128.
Definition visit_i64_sub128 : FM I unit :=
  translate_i64_binop128 (fun results lhs_lo lhs_hi rhs_lo rhs_hi =>
    Instr_Control (I64Sub128 results lhs_lo lhs_hi rhs_lo rhs_hi)) i64_sub128.
Definition visit_i64_mul_wide_s : FM I unit :=
  translate_i64_mul_wide_sx (fun results lhs rhs => Instr_Control (I64MulWide results lhs rhs)) i64_mul_wide_s true.
Definition visit_i64_mul_wide_u : FM I unit :=
  translate_i64_mul_wide_sx (fun results lhs rhs => Instr_Control (U64MulWide results lhs rhs)) i64_mul_wide_u false.

(** ** Loads, stores and numeric operators *)

Definition visit_i32_load : MemArg -> FM I unit := translate_load I32Load.
Definition visit_i64_load : MemArg -> FM I unit := translate_load I64Load.
Definition visit_f32_load : MemArg -> FM I unit := translate_load F32Load.
Definition visit_f64_load : MemArg -> FM I unit := translate_load F64Load.
Definition visit_i32_load8_s : MemArg -> FM I unit := translate_load I32Load8.
Definition visit_i32_load8_u : MemArg -> FM I unit := translate_load U32Load8.
Definition visit_i32_load16_s : MemArg -> FM I unit := translate_load I32Load16.
Definition visit_i32_load16_u : MemArg -> FM I unit := translate_load U32Load16.
Definition visit_i64_load8_s : MemArg -> FM I unit := translate_load I64Load8.
Definition visit_i64_load8_u : MemArg -> FM I unit := translate_load U64Load8.
Definition visit_i64_load16_s : MemArg -> FM I unit := translate_load I64Load16.
Definition visit_i64_load16_u : MemArg -> FM I unit := translate_load U64Load16.
Definition visit_i64_load32_s : MemArg -> FM I unit := translate_load I64Load32.
Definition visit_i64_load32_u : MemArg -> FM I unit := translate_load U64Load32.
Definition visit_i32_store : MemArg -> FM I unit := translate_store I32Store.
Definition visit_i64_store : MemArg -> FM I unit := translate_store I64Store.
Definition visit_f32_store : MemArg -> FM I unit := translate_store F32Store.
Definition visit_f64_store : MemArg -> FM I unit := translate_store F64Store.
Definition visit_i32_store8 : MemArg -> FM I unit := translate_store I32Store8.
Definition visit_i32_store16 : MemArg -> FM I unit := translate_store I32Store16.
Definition visit_i64_store8 : MemArg -> FM I unit := translate_store I64Store8.
Definition visit_i64_store16 : MemArg -> FM I unit := translate_store I64Store16.
Definition visit_i64_store32 : MemArg -> FM I unit := translate_store I64Store32.
Definition visit_i32_eq : FM I unit := translate_binary_commutative_with_opt I32Eq fuse_eqz.
Definition visit_i32_ne : FM I unit := translate_binary_commutative_with_opt I32NotEq fuse_nez.
Definition visit_i32_lt_s : FM I unit := translate_binary I32Lt.
Definition visit_i32_lt_u : FM I unit := translate_binary U32Lt.
Definition visit_i32_gt_s : FM I unit := translate_binary I32Gt.
Definition visit_i32_gt_u : FM I unit := translate_binary U32Gt.
Definition visit_i32_le_s : FM I unit := translate_binary I32Le.
Definition visit_i32_le_u : FM I unit := translate_binary U32Le.
Definition visit_i32_ge_s : FM I unit := translate_binary I32Ge.
Definition visit_i32_ge_u : FM I unit := translate_binary U32Ge.
Definition visit_i64_eq : FM I unit := translate_binary_commutative_with_opt I64Eq fuse_eqz.
Definition visit_i64_ne : FM I unit := translate_binary_commutative_with_opt I64NotEq fuse_nez.
Definition visit_i64_lt_s : FM I unit := translate_binary I64Lt.
Definition visit_i64_lt_u : FM I unit := translate_binary U64Lt.
Definition visit_i64_gt_s : FM I unit := translate_binary I64Gt.
Definition visit_i64_gt_u : FM I unit := translate_binary U64Gt.
Definition visit_i64_le_s : FM I unit := translate_binary I64Le.
Definition visit_i64_le_u : FM I unit := translate_binary U64Le.
Definition visit_i64_ge_s : FM I unit := translate_binary I64Ge.
Definition visit_i64_ge_u : FM I unit := translate_binary U64Ge.
Definition visit_f32_eq : FM I unit := translate_binary_commutative F32Eq.
Definition visit_f32_ne : FM I unit := translate_binary_commutative F32NotEq.
Definition visit_f32_lt : FM I unit := translate_binary F32Lt.
Definition visit_f32_gt : FM I unit := translate_binary F32Gt.
Definition visit_f32_le : FM I unit := translate_binary F32Le.
Definition visit_f32_ge : FM I unit := translate_binary F32Ge.
Definition visit_f64_eq : FM I unit := translate_binary_commutative F64Eq.
Definition visit_f64_ne : FM I unit := translate_binary_commutative F64NotEq.
Definition visit_f64_lt : FM I unit := translate_binary F64Lt.
Definition visit_f64_gt : FM I unit := translate_binary F64Gt.
Definition visit_f64_le : FM I unit := translate_binary F64Le.
Definition visit_f64_ge : FM I unit := translate_binary F64Ge.
Definition visit_i32_clz : FM I unit := translate_unary I32Clz.
Definition visit_i32_ctz : FM I unit := translate_unary I32Ctz.
Definition visit_i32_popcnt : FM I unit := translate_unary I32Popcnt.
Definition visit_i32_add : FM I unit := translate_binary_commutative I32Add.
Definition visit_i32_sub : FM I unit := translate_binary I32Sub.
Definition visit_i32_mul : FM I unit := translate_binary_commutative I32Mul.
Definition visit_i32_div_s : FM I unit := translate_binary I32Div.
Definition visit_i32_div_u : FM I unit := translate_binary U32Div.
Definition visit_i32_rem_s : FM I unit := translate_binary I32Rem.
Definition visit_i32_rem_u : FM I unit := translate_binary U32Rem.
Definition visit_i32_and : FM I unit := translate_binary_commutative I32BitAnd.
Definition visit_i32_or : FM I unit := translate_binary_commutative I32BitOr.
Definition visit_i32_xor : FM I unit := translate_binary_commutative I32BitXor.
Definition visit_i32_shl : FM I unit := translate_binary I32Shl.
Definition visit_i32_shr_s : FM I unit := translate_binary I32Shr.
Definition visit_i32_shr_u : FM I unit := translate_binary U32Shr.
Definition visit_i32_rotl : FM I unit := translate_binary I32Rotl.
Definition visit_i32_rotr : FM I unit := translate_binary I32Rotr.
Definition visit_i64_clz : FM I unit := translate_unary I64Clz.
Definition visit_i64_ctz : FM I unit := translate_unary I64Ctz.
Definition visit_i64_popcnt : FM I unit := translate_unary I64Popcnt.
Definition visit_i64_add : FM I unit := translate_binary_commutative I64Add.
Definition visit_i64_sub : FM I unit := translate_binary I64Sub.
Definition visit_i64_mul : FM I unit := translate_binary_commutative I64Mul.
Definition visit_i64_div_s : FM I unit := translate_binary I64Div.
Definition visit_i64_div_u : FM I unit := translate_binary U64Div.
Definition visit_i64_rem_s : FM I unit := translate_binary I64Rem.
Definition visit_i64_rem_u : FM I unit := translate_binary U64Rem.
Definition visit_i64_and : FM I unit := translate_binary_commutative I64BitAnd.
Definition visit_i64_or : FM I unit := translate_binary_commutative I64BitOr.
Definition visit_i64_xor : FM I unit := translate_binary_commutative I64BitXor.
Definition visit_i64_shl : FM I unit := translate_binary I64Shl.
Definition visit_i64_shr_s : FM I unit := translate_binary I64Shr.
Definition visit_i64_shr_u : FM I unit := translate_binary U64Shr.
Definition visit_i64_rotl : FM I unit := translate_binary I64Rotl.
Definition visit_i64_rotr : FM I unit := translate_binary I64Rotr.
Definition visit_f32_abs : FM I unit := translate_unary F32Abs.
Definition visit_f32_neg : FM I unit := translate_unary_with_opt F32Neg try_lower_f32_abs_neg.
Definition visit_f32_ceil : FM I unit := translate_unary F32Ceil.
Definition visit_f32_floor : FM I unit := translate_unary F32Floor.
Definition visit_f32_trunc : FM I unit := translate_unary F32Trunc.
Definition visit_f32_nearest : FM I unit := translate_unary F32Nearest.
Definition visit_f32_sqrt : FM I unit := translate_unary F32Sqrt.
Definition visit_f32_add : FM I unit := translate_binary F32Add.
Definition visit_f32_sub : FM I unit := translate_binary F32Sub.
Definition visit_f32_mul : FM I unit := translate_binary F32Mul.
Definition visit_f32_div : FM I unit := translate_binary F32Div.
Definition visit_f32_min : FM I unit := translate_binary F32Min.
Definition visit_f32_max : FM I unit := translate_binary F32Max.
Definition visit_f32_copysign : FM I unit := translate_binary F32Copysign.
Definition visit_f64_abs : FM I unit := translate_unary F64Abs.
Definition visit_f64_neg : FM I unit := translate_unary_with_opt F64Neg try_lower_f64_abs_neg.
Definition visit_f64_ceil : FM I unit := translate_unary F64Ceil.
Definition visit_f64_floor : FM I unit := translate_unary F64Floor.
Definition visit_f64_trunc : FM I unit := translate_unary F64Trunc.
Definition visit_f64_nearest : FM I unit := translate_unary F64Nearest.
Definition visit_f64_sqrt : FM I unit := translate_unary F64Sqrt.
Definition visit_f64_add : FM I unit := translate_binary F64Add.
Definition visit_f64_sub : FM I unit := translate_binary F64Sub.
Definition visit_f64_mul : FM I unit := translate_binary F64Mul.
Definition visit_f64_div : FM I unit := translate_binary F64Div.
Definition visit_f64_min : FM I unit := translate_binary F64Min.
Definition visit_f64_max : FM I unit := translate_binary F64Max.
Definition visit_f64_copysign : FM I unit := translate_binary F64Copysign.
Definition visit_i32_wrap_i64 : FM I unit := translate_unary I32WrapI64.
Definition visit_i32_trunc_f32_s : FM I unit := translate_unary I32TruncF32.
Definition visit_i32_trunc_f32_u : FM I unit := translate_unary U32TruncF32.
Definition visit_i32_trunc_f64_s : FM I unit := translate_unary I32TruncF64.
Definition visit_i32_trunc_f64_u : FM I unit := translate_unary U32TruncF64.
Definition visit_i64_extend_i32_s : FM I unit := translate_unary I64ExtendI32.
Definition visit_i64_trunc_f32_s : FM I unit := translate_unary I64TruncF32.
Definition visit_i64_trunc_f32_u : FM I unit := translate_unary U64TruncF32.
Definition visit_i64_trunc_f64_s : FM I unit := translate_unary I64TruncF64.
Definition visit_i64_trunc_f64_u : FM I unit := translate_unary U64TruncF64.
Definition visit_f32_convert_i32_s : FM I unit := translate_unary F32ConvertI32.
Definition visit_f32_convert_i32_u : FM I unit := translate_unary F32ConvertU32.
Definition visit_f32_convert_i64_s : FM I unit := translate_unary F32ConvertI64.
Definition visit_f32_convert_i64_u : FM I unit := translate_unary F32ConvertU64.
Definition visit_f32_demote_f64 : FM I unit := translate_unary F32DemoteF64.
Definition visit_f64_convert_i32_s : FM I unit := translate_unary F64ConvertI32.
Definition visit_f64_convert_i32_u : FM I unit := translate_unary F64ConvertU32.
Definition visit_f64_convert_i64_s : FM I unit := translate_unary F64ConvertI64.
Definition visit_f64_convert_i64_u : FM I unit := translate_unary F64ConvertU64.
Definition visit_f64_promote_f32 : FM I unit := translate_unary F64PromoteF32.
Definition visit_i32_extend8_s : FM I unit := translate_unary I32Sext8.
Definition visit_i32_extend16_s : FM I unit := translate_unary I32Sext16.
Definition visit_i64_extend8_s : FM I unit := translate_unary I64Sext8.
Definition visit_i64_extend16_s : FM I unit := translate_unary I64Sext16.
Definition visit_i64_extend32_s : FM I unit := translate_unary I64Sext32.
Definition visit_i32_trunc_sat_f32_s : FM I unit := translate_unary I32TruncSatF32.
Definition visit_i32_trunc_sat_f32_u : FM I unit := translate_unary U32TruncSatF32.
Definition visit_i32_trunc_sat_f64_s : FM I unit := translate_unary I32TruncSatF64.
Definition visit_i32_trunc_sat_f64_u : FM I unit := translate_unary U32TruncSatF64.
Definition visit_i64_trunc_sat_f32_s : FM I unit := translate_unary I64TruncSatF32.
Definition visit_i64_trunc_sat_f32_u : FM I unit := translate_unary U64TruncSatF32.
Definition visit_i64_trunc_sat_f64_s : FM I unit := translate_unary I64TruncSatF64.
Definition visit_i64_trunc_sat_f64_u : FM I unit := translate_unary U64TruncSatF64.

(** ** Zero tests *)

Definition visit_i32_eqz : FM I unit := bail_unreachable (push_imm P_i32 0;; visit_i32_eq).
Definition visit_i64_eqz : FM I unit := bail_unreachable (push_imm P_i64 0;; visit_i64_eq).

Definition visit_ref_is_null : FM I unit :=
  bail_unreachable (
    input ← stack_peek 0;
    match input with
    | Operand_Immediate input =>
        stack_pop;;
        assert_m (match io_ty input with ValType_FuncRef | ValType_ExternRef => true | _ => false end);;
        let raw := typed_value (ImmediateOperand_val input) in
        let is_null := RawRef_is_null (RawRef_from_RawVal raw) in
        push_imm P_i32 (if is_null then 1 else 0)
    | _ => visit_i32_eqz
    end).

(** ** The driver ([translator/driver.rs])

    The locals and the operators of a function as the reader yields them. *)

Fixpoint translate_locals (locals : list (Z * ValType)) : FM I unit :=
  match locals with
  | [] => init_func_body_block resolve_func_type
  | (amount, ty) :: locals => register_locals amount ty;; translate_locals locals
  end.

Fixpoint translate_operators (operators : list (FM I unit)) : FM I unit :=
  match operators with [] => mret tt | visit :: operators => visit;; translate_operators operators end.

Definition FuncTranslationDriver_translate (locals : list (Z * ValType)) (operators : list (FM I unit)) :
    FM I (Z * Z) :=
  translate_locals locals;;
  translate_operators operators;;
  finish.

(** A function is translated from an empty encoder. *)
Definition translate_func (func : Z) (module : ModuleHeader) (consume_fuel : bool) (instrs : I)
    (locals : list (Z * ValType)) (operators : list (FM I unit)) : res TransError (Z * Z) * FuncTranslator I :=
  match FuncTranslator_new resolve_func_type func module consume_fuel instrs with
  | (Ok _, self) => FuncTranslationDriver_translate locals operators self
  | (Err e, self) => (Err e, self)
  | (Panic, self) => (Panic, self)
  end.
End Visit.
