(* ===== verification/SimdVisit.v ===== *)
(** * The visitor of the vector instructions

    [translator/func/simd/visit.rs]: a method for every instruction of the [simd] and
    [relaxed-simd] proposals.  A visitor names the operator and the function that
    evaluates constants. *)

From Stdlib Require Import ZArith.
From stdpp Require Import base option list.
From S2P Require Import Prelude Trap Value WasmInt Fuel MemoryType Slot Locals Operands OpFields Codec EncodedOps Encoder.
From S2P Require Import Cells Float Simd SimdTables Header Control TransStack Instr AccessOps OpSelect Sink.
From S2P Require Import Translator TransOps Visit SimdOps.
Local Open Scope Z_scope.

(** The constructors of [Op] for a family of operators. *)
Definition op_unary (op : VUnaryOp) (result value : Slot) : Instr := Instr_Simd (Simd_Unary op result value).
Definition op_test (op : VTestOp) (value : Slot) : Instr := Instr_Simd (Simd_Test op value).
Definition op_widen (op : VWidenOp) (result : Slot) : Instr := Instr_Simd (Simd_Widen op result).
Definition op_binary (op : VBinaryOp) (result lhs rhs : Slot) : Instr := Instr_Simd (Simd_Binary op result lhs rhs).
Definition op_ternary (op : VTernaryOp) (result a b c : Slot) : Instr := Instr_Simd (Simd_Ternary op result a b c).
Definition op_shift_ssr (op : VShiftOp) (result lhs : Slot) : Instr := Instr_Simd (Simd_Shift_Ssr op result lhs).
Definition op_shift_sss (op : VShiftOp) (result lhs rhs : Slot) : Instr := Instr_Simd (Simd_Shift_Sss op result lhs rhs).
Definition op_shift_ssi (op : VShiftOp) (result lhs : Slot) (rhs : Z) : Instr :=
  Instr_Simd (Simd_Shift_Ssi op result lhs rhs).
Definition op_extract (op : VExtractOp) {n} (value : Slot) (lane : ImmLaneIdx n) : Instr :=
  Instr_Simd (Simd_ExtractLane op value lane).
Definition Splat (op : SplatInst) : Instr := Instr_Simd (Simd_Splat op).

(** [swap_ops!]: the operands of a constructor of a binary operator swapped. *)
Definition swap_ops (make : Slot -> Slot -> Slot -> Instr) (result lhs rhs : Slot) : Instr := make result rhs lhs.

Section SimdVisit.
Context `{Tg : Target} `{Fn : FloatNans} {I : Type} `{Sk : OpSink I}.

Definition immediate_to_operand (p : Prim) (value : Z) : FM I Operand := push_imm p value;; stack_pop.

Definition visit_v128_load (memarg : MemArg) : FM I unit := translate_v128_load memarg.
Definition visit_v128_load8x8_s (memarg : MemArg) : FM I unit :=
  translate_v128_load_modify I64Load memarg (op_widen I16x8Widen8x8_Sr).
Definition visit_v128_load8x8_u (memarg : MemArg) : FM I unit :=
  translate_v128_load_modify I64Load memarg (op_widen U16x8Widen8x8_Sr).
Definition visit_v128_load16x4_s (memarg : MemArg) : FM I unit :=
  translate_v128_load_modify I64Load memarg (op_widen I32x4Widen16x4_Sr).
Definition visit_v128_load16x4_u (memarg : MemArg) : FM I unit :=
  translate_v128_load_modify I64Load memarg (op_widen U32x4Widen16x4_Sr).
Definition visit_v128_load32x2_s (memarg : MemArg) : FM I unit :=
  translate_v128_load_modify I64Load memarg (op_widen I64x2Widen32x2_Sr).
Definition visit_v128_load32x2_u (memarg : MemArg) : FM I unit :=
  translate_v128_load_modify I64Load memarg (op_widen U64x2Widen32x2_Sr).
Definition visit_i8x16_splat : FM I unit :=
  translate_simd_splat P_i32 P_i8 (fun result => Splat (V128SplatU8_Sr result))
    (fun result value => Splat (V128SplatU8_Ss result value)) (fun result value => Splat (V128SplatU8_Si result value)).
Definition visit_v128_load8_splat (memarg : MemArg) : FM I unit := visit_i32_load8_u memarg;; visit_i8x16_splat.
Definition visit_i16x8_splat : FM I unit :=
  translate_simd_splat P_i32 P_i16 (fun result => Splat (V128SplatU16_Sr result))
    (fun result value => Splat (V128SplatU16_Ss result value)) (fun result value => Splat (V128SplatU16_Si result value)).
Definition visit_v128_load16_splat (memarg : MemArg) : FM I unit := visit_i32_load16_u memarg;; visit_i16x8_splat.
Definition visit_i32x4_splat : FM I unit :=
  translate_simd_splat P_i32 P_i32 (fun result => Splat (V128SplatU32_Sr result))
    (fun result value => Splat (V128SplatU32_Ss result value)) (fun result value => Splat (V128SplatU32_Si result value)).
Definition visit_v128_load32_splat (memarg : MemArg) : FM I unit := visit_i32_load memarg;; visit_i32x4_splat.
Definition visit_i64x2_splat : FM I unit :=
  translate_simd_splat P_i64 P_i64 (fun result => Splat (V128SplatU64_Sr result))
    (fun result value => Splat (V128SplatU64_Ss result value)) (fun result value => Splat (V128SplatU64_Si result value)).
Definition visit_v128_load64_splat (memarg : MemArg) : FM I unit := visit_i64_load memarg;; visit_i64x2_splat.
Definition visit_v128_load32_zero (memarg : MemArg) : FM I unit :=
  translate_v128_load_modify I32Load memarg (op_widen V128LowZero32_Sr).
Definition visit_v128_load64_zero (memarg : MemArg) : FM I unit :=
  translate_v128_load_modify I64Load memarg (op_widen V128LowZero64_Sr).
Definition visit_v128_store (memarg : MemArg) : FM I unit :=
  bail_unreachable (
    operands ← in_stack TransStack_pop2;
    let '(ptr, value) := operands in
    decoded ← from_memarg memarg;
    match decoded with
    | None => translate_trap MemoryOutOfBounds
    | Some (memory, offset) =>
        ptr ← copy_immediate_to_slot ptr;
        value ← copy_operand_to_slot value;
        encoded ← translate_store128_mem0_offset16 ptr offset memory value;
        if encoded : bool then mret tt else
        push_instr (v_memory match ptr with
                             | Loc_Slot ptr => V128Store_Ss ptr offset value memory
                             | Loc_Reg _ => V128Store_Rs offset value memory
                             end) FuelCostsProvider_store;;
        mret tt
    end).
Definition visit_v128_load8_lane (memarg : MemArg) (lane : Z) : FM I unit :=
  translate_v128_load_lane U32Load8 I8x16ReplaceLane memarg lane.
Definition visit_v128_load16_lane (memarg : MemArg) (lane : Z) : FM I unit :=
  translate_v128_load_lane U32Load16 I16x8ReplaceLane memarg lane.
Definition visit_v128_load32_lane (memarg : MemArg) (lane : Z) : FM I unit :=
  translate_v128_load_lane I32Load I32x4ReplaceLane memarg lane.
Definition visit_v128_load64_lane (memarg : MemArg) (lane : Z) : FM I unit :=
  translate_v128_load_lane I64Load I64x2ReplaceLane memarg lane.
Definition visit_v128_store8_lane (memarg : MemArg) (lane : Z) : FM I unit :=
  translate_v128_store_lane P_i8 memarg lane
    (fun offset value memory lane => v_memory (V128StoreLane8_Rs offset value memory lane))
    (fun ptr offset value memory lane => v_memory (V128StoreLane8_Ss ptr offset value memory lane))
    (fun offset value lane => v_memory (V128StoreLane8Mem0Offset16_Rs offset value lane))
    (fun ptr offset value lane => v_memory (V128StoreLane8Mem0Offset16_Ss ptr offset value lane))
    (fun memarg ptr lane v128 =>
      let value := i8x16_extract_lane_s v128 lane in
      value ← immediate_to_operand P_i32 value;
      encode_store_vt (StoreOp_VT I32Store8) memarg ptr value).
Definition visit_v128_store16_lane (memarg : MemArg) (lane : Z) : FM I unit :=
  translate_v128_store_lane P_i16 memarg lane
    (fun offset value memory lane => v_memory (V128StoreLane16_Rs offset value memory lane))
    (fun ptr offset value memory lane => v_memory (V128StoreLane16_Ss ptr offset value memory lane))
    (fun offset value lane => v_memory (V128StoreLane16Mem0Offset16_Rs offset value lane))
    (fun ptr offset value lane => v_memory (V128StoreLane16Mem0Offset16_Ss ptr offset value lane))
    (fun memarg ptr lane v128 =>
      let value := i16x8_extract_lane_s v128 lane in
      value ← immediate_to_operand P_i32 value;
      encode_store_vt (StoreOp_VT I32Store16) memarg ptr value).
Definition visit_f32x4_extract_lane (lane : Z) : FM I unit :=
  translate_extract_lane P_f32 P_f32 lane (op_extract F32x4ExtractLane_Rs) f32x4_extract_lane.
Definition visit_v128_store32_lane (memarg : MemArg) (lane : Z) : FM I unit :=
  visit_f32x4_extract_lane lane;; visit_f32_store memarg.
Definition visit_f64x2_extract_lane (lane : Z) : FM I unit :=
  translate_extract_lane P_f64 P_f64 lane (op_extract F64x2ExtractLane_Rs) f64x2_extract_lane.
Definition visit_v128_store64_lane (memarg : MemArg) (lane : Z) : FM I unit :=
  visit_f64x2_extract_lane lane;; visit_f64_store memarg.
(** [value] is the [i128] of the parsed constant. *)
Definition visit_v128_const (value : Z) : FM I unit :=
  bail_unreachable (push_v128 (V128_from_u128 (cast P_u128 value))).
(** The sixteen indices of the lanes. *)
Fixpoint shuffle_selector (lanes : list Z) : FM I (list (ImmLaneIdx 32)) :=
  match lanes with
  | [] => mret []
  | lane :: lanes => lane ← lane_idx 32 lane; selector ← shuffle_selector lanes; mret (lane :: selector)
  end.
Definition visit_i8x16_shuffle (lanes : list Z) : FM I unit :=
  bail_unreachable (
    selector ← shuffle_selector lanes;
    operands ← in_stack TransStack_pop2;
    let '(lhs, rhs) := operands in
    match lhs, rhs with
    | Operand_Immediate lhs, Operand_Immediate rhs =>
        lhs ← imm_v128 lhs; rhs ← imm_v128 rhs; push_v128 (i8x16_shuffle lhs rhs selector)
    | _, _ =>
        lhs ← copy_operand_to_slot lhs;
        rhs ← copy_operand_to_slot rhs;
        push_op_with_result_slot ValType_V128 (fun result => Instr_Simd (I8x16Shuffle result lhs rhs selector))
          FuelCostsProvider_simd
    end).
Definition visit_i8x16_extract_lane_s (lane : Z) : FM I unit :=
  translate_extract_lane P_i8 P_i32 lane (op_extract I8x16ExtractLane_Rs) i8x16_extract_lane_s.
Definition visit_i8x16_extract_lane_u (lane : Z) : FM I unit :=
  translate_extract_lane P_u8 P_u32 lane (op_extract U8x16ExtractLane_Rs) i8x16_extract_lane_u.
Definition visit_i16x8_extract_lane_s (lane : Z) : FM I unit :=
  translate_extract_lane P_i16 P_i32 lane (op_extract I16x8ExtractLane_Rs) i16x8_extract_lane_s.
Definition visit_i16x8_extract_lane_u (lane : Z) : FM I unit :=
  translate_extract_lane P_u16 P_u32 lane (op_extract U16x8ExtractLane_Rs) i16x8_extract_lane_u.
Definition visit_i32x4_extract_lane (lane : Z) : FM I unit :=
  translate_extract_lane P_i32 P_i32 lane (op_extract U32x4ExtractLane_Rs) i32x4_extract_lane.
Definition visit_i64x2_extract_lane (lane : Z) : FM I unit :=
  translate_extract_lane P_i64 P_i64 lane (op_extract U64x2ExtractLane_Rs) i64x2_extract_lane.
Definition visit_i8x16_replace_lane (lane : Z) : FM I unit := translate_replace_lane I8x16ReplaceLane lane.
Definition visit_i16x8_replace_lane (lane : Z) : FM I unit := translate_replace_lane I16x8ReplaceLane lane.
Definition visit_i32x4_replace_lane (lane : Z) : FM I unit := translate_replace_lane I32x4ReplaceLane lane.
Definition visit_i64x2_replace_lane (lane : Z) : FM I unit := translate_replace_lane I64x2ReplaceLane lane.
Definition visit_f32x4_replace_lane (lane : Z) : FM I unit := translate_replace_lane F32x4ReplaceLane lane.
Definition visit_f64x2_replace_lane (lane : Z) : FM I unit := translate_replace_lane F64x2ReplaceLane lane.
Definition visit_i8x16_swizzle : FM I unit := translate_simd_binary (op_binary I8x16Swizzle_Sss) i8x16_swizzle.
Definition visit_f32x4_splat : FM I unit :=
  translate_simd_splat P_f32 P_f32 (fun result => Splat (V128SplatF32_Sr result))
    (fun result value => Splat (V128SplatU32_Ss result value)) (fun result value => Splat (V128SplatU32_Si result value)).
Definition visit_f64x2_splat : FM I unit :=
  translate_simd_splat P_f64 P_f64 (fun result => Splat (V128SplatF64_Sr result))
    (fun result value => Splat (V128SplatU64_Ss result value)) (fun result value => Splat (V128SplatU64_Si result value)).
Definition visit_i8x16_eq : FM I unit := translate_simd_binary (op_binary I8x16Eq_Sss) i8x16_eq.
Definition visit_i8x16_ne : FM I unit := translate_simd_binary (op_binary I8x16NotEq_Sss) i8x16_ne.
Definition visit_i8x16_lt_s : FM I unit := translate_simd_binary (op_binary I8x16Lt_Sss) i8x16_lt_s.
Definition visit_i8x16_lt_u : FM I unit := translate_simd_binary (op_binary U8x16Lt_Sss) i8x16_lt_u.
Definition visit_i8x16_gt_s : FM I unit := translate_simd_binary (swap_ops (op_binary I8x16Lt_Sss)) i8x16_gt_s.
Definition visit_i8x16_gt_u : FM I unit := translate_simd_binary (swap_ops (op_binary U8x16Lt_Sss)) i8x16_gt_u.
Definition visit_i8x16_le_s : FM I unit := translate_simd_binary (op_binary I8x16Le_Sss) i8x16_le_s.
Definition visit_i8x16_le_u : FM I unit := translate_simd_binary (op_binary U8x16Le_Sss) i8x16_le_u.
Definition visit_i8x16_ge_s : FM I unit := translate_simd_binary (swap_ops (op_binary I8x16Le_Sss)) i8x16_ge_s.
Definition visit_i8x16_ge_u : FM I unit := translate_simd_binary (swap_ops (op_binary U8x16Le_Sss)) i8x16_ge_u.
Definition visit_i16x8_eq : FM I unit := translate_simd_binary (op_binary I16x8Eq_Sss) i16x8_eq.
Definition visit_i16x8_ne : FM I unit := translate_simd_binary (op_binary I16x8NotEq_Sss) i16x8_ne.
Definition visit_i16x8_lt_s : FM I unit := translate_simd_binary (op_binary I16x8Lt_Sss) i16x8_lt_s.
Definition visit_i16x8_lt_u : FM I unit := translate_simd_binary (op_binary U16x8Lt_Sss) i16x8_lt_u.
Definition visit_i16x8_gt_s : FM I unit := translate_simd_binary (swap_ops (op_binary I16x8Lt_Sss)) i16x8_gt_s.
Definition visit_i16x8_gt_u : FM I unit := translate_simd_binary (swap_ops (op_binary U16x8Lt_Sss)) i16x8_gt_u.
Definition visit_i16x8_le_s : FM I unit := translate_simd_binary (op_binary I16x8Le_Sss) i16x8_le_s.
Definition visit_i16x8_le_u : FM I unit := translate_simd_binary (op_binary U16x8Le_Sss) i16x8_le_u.
Definition visit_i16x8_ge_s : FM I unit := translate_simd_binary (swap_ops (op_binary I16x8Le_Sss)) i16x8_ge_s.
Definition visit_i16x8_ge_u : FM I unit := translate_simd_binary (swap_ops (op_binary U16x8Le_Sss)) i16x8_ge_u.
Definition visit_i32x4_eq : FM I unit := translate_simd_binary (op_binary I32x4Eq_Sss) i32x4_eq.
Definition visit_i32x4_ne : FM I unit := translate_simd_binary (op_binary I32x4NotEq_Sss) i32x4_ne.
Definition visit_i32x4_lt_s : FM I unit := translate_simd_binary (op_binary I32x4Lt_Sss) i32x4_lt_s.
Definition visit_i32x4_lt_u : FM I unit := translate_simd_binary (op_binary U32x4Lt_Sss) i32x4_lt_u.
Definition visit_i32x4_gt_s : FM I unit := translate_simd_binary (swap_ops (op_binary I32x4Lt_Sss)) i32x4_gt_s.
Definition visit_i32x4_gt_u : FM I unit := translate_simd_binary (swap_ops (op_binary U32x4Lt_Sss)) i32x4_gt_u.
Definition visit_i32x4_le_s : FM I unit := translate_simd_binary (op_binary I32x4Le_Sss) i32x4_le_s.
Definition visit_i32x4_le_u : FM I unit := translate_simd_binary (op_binary U32x4Le_Sss) i32x4_le_u.
Definition visit_i32x4_ge_s : FM I unit := translate_simd_binary (swap_ops (op_binary I32x4Le_Sss)) i32x4_ge_s.
Definition visit_i32x4_ge_u : FM I unit := translate_simd_binary (swap_ops (op_binary U32x4Le_Sss)) i32x4_ge_u.
Definition visit_i64x2_eq : FM I unit := translate_simd_binary (op_binary I64x2Eq_Sss) i64x2_eq.
Definition visit_i64x2_ne : FM I unit := translate_simd_binary (op_binary I64x2NotEq_Sss) i64x2_ne.
Definition visit_i64x2_lt_s : FM I unit := translate_simd_binary (op_binary I64x2Lt_Sss) i64x2_lt_s.
Definition visit_i64x2_gt_s : FM I unit := translate_simd_binary (swap_ops (op_binary I64x2Lt_Sss)) i64x2_gt_s.
Definition visit_i64x2_le_s : FM I unit := translate_simd_binary (op_binary I64x2Le_Sss) i64x2_le_s.
Definition visit_i64x2_ge_s : FM I unit := translate_simd_binary (swap_ops (op_binary I64x2Le_Sss)) i64x2_ge_s.
Definition visit_f32x4_eq : FM I unit := translate_simd_binary (op_binary F32x4Eq_Sss) f32x4_eq.
Definition visit_f32x4_ne : FM I unit := translate_simd_binary (op_binary F32x4NotEq_Sss) f32x4_ne.
Definition visit_f32x4_lt : FM I unit := translate_simd_binary (op_binary F32x4Lt_Sss) f32x4_lt.
Definition visit_f32x4_gt : FM I unit := translate_simd_binary (swap_ops (op_binary F32x4Lt_Sss)) f32x4_gt.
Definition visit_f32x4_le : FM I unit := translate_simd_binary (op_binary F32x4Le_Sss) f32x4_le.
Definition visit_f32x4_ge : FM I unit := translate_simd_binary (swap_ops (op_binary F32x4Le_Sss)) f32x4_ge.
Definition visit_f64x2_eq : FM I unit := translate_simd_binary (op_binary F64x2Eq_Sss) f64x2_eq.
Definition visit_f64x2_ne : FM I unit := translate_simd_binary (op_binary F64x2NotEq_Sss) f64x2_ne.
Definition visit_f64x2_lt : FM I unit := translate_simd_binary (op_binary F64x2Lt_Sss) f64x2_lt.
Definition visit_f64x2_gt : FM I unit := translate_simd_binary (swap_ops (op_binary F64x2Lt_Sss)) f64x2_gt.
Definition visit_f64x2_le : FM I unit := translate_simd_binary (op_binary F64x2Le_Sss) f64x2_le.
Definition visit_f64x2_ge : FM I unit := translate_simd_binary (swap_ops (op_binary F64x2Le_Sss)) f64x2_ge.
Definition visit_v128_not : FM I unit := translate_simd_unary_sx (op_unary V128Not_Ss) v128_not.
Definition visit_v128_and : FM I unit := translate_simd_binary (op_binary V128And_Sss) v128_and.
Definition visit_v128_andnot : FM I unit := translate_simd_binary (op_binary V128AndNot_Sss) v128_andnot.
Definition visit_v128_or : FM I unit := translate_simd_binary (op_binary V128Or_Sss) v128_or.
Definition visit_v128_xor : FM I unit := translate_simd_binary (op_binary V128Xor_Sss) v128_xor.
Definition visit_v128_bitselect : FM I unit := translate_simd_ternary (op_ternary V128Bitselect_Ssss) v128_bitselect.
Definition visit_v128_any_true : FM I unit :=
  translate_simd_unary_rx P_bool (op_test V128AnyTrue_Rs) (fun v => Z.b2z (v128_any_true v)).
Definition visit_i8x16_abs : FM I unit := translate_simd_unary_sx (op_unary I8x16Abs_Ss) i8x16_abs.
Definition visit_i8x16_neg : FM I unit := translate_simd_unary_sx (op_unary I8x16Neg_Ss) i8x16_neg.
Definition visit_i8x16_popcnt : FM I unit := translate_simd_unary_sx (op_unary I8x16Popcnt_Ss) i8x16_popcnt.
Definition visit_i8x16_all_true : FM I unit :=
  translate_simd_unary_rx P_bool (op_test I8x16AllTrue_Rs) (fun v => Z.b2z (i8x16_all_true v)).
Definition visit_i8x16_bitmask : FM I unit := translate_simd_unary_rx P_u32 (op_test I8x16Bitmask_Rs) i8x16_bitmask.
Definition visit_i8x16_narrow_i16x8_s : FM I unit :=
  translate_simd_binary (op_binary I8x16NarrowI16x8_Sss) i8x16_narrow_i16x8_s.
Definition visit_i8x16_narrow_i16x8_u : FM I unit :=
  translate_simd_binary (op_binary U8x16NarrowI16x8_Sss) i8x16_narrow_i16x8_u.
Definition visit_i8x16_shl : FM I unit :=
  translate_simd_shift P_u8 (op_shift_ssr I8x16Shl) (op_shift_sss I8x16Shl) (op_shift_ssi I8x16Shl) i8x16_shl.
Definition visit_i8x16_shr_s : FM I unit :=
  translate_simd_shift P_u8 (op_shift_ssr I8x16Shr) (op_shift_sss I8x16Shr) (op_shift_ssi I8x16Shr) i8x16_shr_s.
Definition visit_i8x16_shr_u : FM I unit :=
  translate_simd_shift P_u8 (op_shift_ssr U8x16Shr) (op_shift_sss U8x16Shr) (op_shift_ssi U8x16Shr) i8x16_shr_u.
Definition visit_i8x16_add : FM I unit := translate_simd_binary (op_binary I8x16Add_Sss) i8x16_add.
Definition visit_i8x16_add_sat_s : FM I unit := translate_simd_binary (op_binary I8x16AddSat_Sss) i8x16_add_sat_s.
Definition visit_i8x16_add_sat_u : FM I unit := translate_simd_binary (op_binary U8x16AddSat_Sss) i8x16_add_sat_u.
Definition visit_i8x16_sub : FM I unit := translate_simd_binary (op_binary I8x16Sub_Sss) i8x16_sub.
Definition visit_i8x16_sub_sat_s : FM I unit := translate_simd_binary (op_binary I8x16SubSat_Sss) i8x16_sub_sat_s.
Definition visit_i8x16_sub_sat_u : FM I unit := translate_simd_binary (op_binary U8x16SubSat_Sss) i8x16_sub_sat_u.
Definition visit_i8x16_min_s : FM I unit := translate_simd_binary (op_binary I8x16Min_Sss) i8x16_min_s.
Definition visit_i8x16_min_u : FM I unit := translate_simd_binary (op_binary U8x16Min_Sss) i8x16_min_u.
Definition visit_i8x16_max_s : FM I unit := translate_simd_binary (op_binary I8x16Max_Sss) i8x16_max_s.
Definition visit_i8x16_max_u : FM I unit := translate_simd_binary (op_binary U8x16Max_Sss) i8x16_max_u.
Definition visit_i8x16_avgr_u : FM I unit := translate_simd_binary (op_binary U8x16Avgr_Sss) i8x16_avgr_u.
Definition visit_i16x8_extadd_pairwise_i8x16_s : FM I unit :=
  translate_simd_unary_sx (op_unary I16x8ExtaddPairwiseI8x16_Ss) i16x8_extadd_pairwise_i8x16_s.
Definition visit_i16x8_extadd_pairwise_i8x16_u : FM I unit :=
  translate_simd_unary_sx (op_unary U16x8ExtaddPairwiseI8x16_Ss) i16x8_extadd_pairwise_i8x16_u.
Definition visit_i16x8_abs : FM I unit := translate_simd_unary_sx (op_unary I16x8Abs_Ss) i16x8_abs.
Definition visit_i16x8_neg : FM I unit := translate_simd_unary_sx (op_unary I16x8Neg_Ss) i16x8_neg.
Definition visit_i16x8_q15mulr_sat_s : FM I unit :=
  translate_simd_binary (op_binary I16x8Q15MulrSat_Sss) i16x8_q15mulr_sat_s.
Definition visit_i16x8_all_true : FM I unit :=
  translate_simd_unary_rx P_bool (op_test I16x8AllTrue_Rs) (fun v => Z.b2z (i16x8_all_true v)).
Definition visit_i16x8_bitmask : FM I unit := translate_simd_unary_rx P_u32 (op_test I16x8Bitmask_Rs) i16x8_bitmask.
Definition visit_i16x8_narrow_i32x4_s : FM I unit :=
  translate_simd_binary (op_binary I16x8NarrowI32x4_Sss) i16x8_narrow_i32x4_s.
Definition visit_i16x8_narrow_i32x4_u : FM I unit :=
  translate_simd_binary (op_binary U16x8NarrowI32x4_Sss) i16x8_narrow_i32x4_u.
Definition visit_i16x8_extend_low_i8x16_s : FM I unit :=
  translate_simd_unary_sx (op_unary I16x8ExtendLowI8x16_Ss) i16x8_extend_low_i8x16_s.
Definition visit_i16x8_extend_high_i8x16_s : FM I unit :=
  translate_simd_unary_sx (op_unary I16x8ExtendHighI8x16_Ss) i16x8_extend_high_i8x16_s.
Definition visit_i16x8_extend_low_i8x16_u : FM I unit :=
  translate_simd_unary_sx (op_unary U16x8ExtendLowI8x16_Ss) i16x8_extend_low_i8x16_u.
Definition visit_i16x8_extend_high_i8x16_u : FM I unit :=
  translate_simd_unary_sx (op_unary U16x8ExtendHighI8x16_Ss) i16x8_extend_high_i8x16_u.
Definition visit_i16x8_shl : FM I unit :=
  translate_simd_shift P_u16 (op_shift_ssr I16x8Shl) (op_shift_sss I16x8Shl) (op_shift_ssi I16x8Shl) i16x8_shl.
Definition visit_i16x8_shr_s : FM I unit :=
  translate_simd_shift P_u16 (op_shift_ssr I16x8Shr) (op_shift_sss I16x8Shr) (op_shift_ssi I16x8Shr) i16x8_shr_s.
Definition visit_i16x8_shr_u : FM I unit :=
  translate_simd_shift P_u16 (op_shift_ssr U16x8Shr) (op_shift_sss U16x8Shr) (op_shift_ssi U16x8Shr) i16x8_shr_u.
Definition visit_i16x8_add : FM I unit := translate_simd_binary (op_binary I16x8Add_Sss) i16x8_add.
Definition visit_i16x8_add_sat_s : FM I unit := translate_simd_binary (op_binary I16x8AddSat_Sss) i16x8_add_sat_s.
Definition visit_i16x8_add_sat_u : FM I unit := translate_simd_binary (op_binary U16x8AddSat_Sss) i16x8_add_sat_u.
Definition visit_i16x8_sub : FM I unit := translate_simd_binary (op_binary I16x8Sub_Sss) i16x8_sub.
Definition visit_i16x8_sub_sat_s : FM I unit := translate_simd_binary (op_binary I16x8SubSat_Sss) i16x8_sub_sat_s.
Definition visit_i16x8_sub_sat_u : FM I unit := translate_simd_binary (op_binary U16x8SubSat_Sss) i16x8_sub_sat_u.
Definition visit_i16x8_mul : FM I unit := translate_simd_binary (op_binary I16x8Mul_Sss) i16x8_mul.
Definition visit_i16x8_min_s : FM I unit := translate_simd_binary (op_binary I16x8Min_Sss) i16x8_min_s.
Definition visit_i16x8_min_u : FM I unit := translate_simd_binary (op_binary U16x8Min_Sss) i16x8_min_u.
Definition visit_i16x8_max_s : FM I unit := translate_simd_binary (op_binary I16x8Max_Sss) i16x8_max_s.
Definition visit_i16x8_max_u : FM I unit := translate_simd_binary (op_binary U16x8Max_Sss) i16x8_max_u.
Definition visit_i16x8_avgr_u : FM I unit := translate_simd_binary (op_binary U16x8Avgr_Sss) i16x8_avgr_u.
Definition visit_i16x8_extmul_low_i8x16_s : FM I unit :=
  translate_simd_binary (op_binary I16x8ExtmulLowI8x16_Sss) i16x8_extmul_low_i8x16_s.
Definition visit_i16x8_extmul_high_i8x16_s : FM I unit :=
  translate_simd_binary (op_binary I16x8ExtmulHighI8x16_Sss) i16x8_extmul_high_i8x16_s.
Definition visit_i16x8_extmul_low_i8x16_u : FM I unit :=
  translate_simd_binary (op_binary U16x8ExtmulLowI8x16_Sss) i16x8_extmul_low_i8x16_u.
Definition visit_i16x8_extmul_high_i8x16_u : FM I unit :=
  translate_simd_binary (op_binary U16x8ExtmulHighI8x16_Sss) i16x8_extmul_high_i8x16_u.
Definition visit_i32x4_extadd_pairwise_i16x8_s : FM I unit :=
  translate_simd_unary_sx (op_unary I32x4ExtaddPairwiseI16x8_Ss) i32x4_extadd_pairwise_i16x8_s.
Definition visit_i32x4_extadd_pairwise_i16x8_u : FM I unit :=
  translate_simd_unary_sx (op_unary U32x4ExtaddPairwiseI16x8_Ss) i32x4_extadd_pairwise_i16x8_u.
Definition visit_i32x4_abs : FM I unit := translate_simd_unary_sx (op_unary I32x4Abs_Ss) i32x4_abs.
Definition visit_i32x4_neg : FM I unit := translate_simd_unary_sx (op_unary I32x4Neg_Ss) i32x4_neg.
Definition visit_i32x4_all_true : FM I unit :=
  translate_simd_unary_rx P_bool (op_test I32x4AllTrue_Rs) (fun v => Z.b2z (i32x4_all_true v)).
Definition visit_i32x4_bitmask : FM I unit := translate_simd_unary_rx P_u32 (op_test I32x4Bitmask_Rs) i32x4_bitmask.
Definition visit_i32x4_extend_low_i16x8_s : FM I unit :=
  translate_simd_unary_sx (op_unary I32x4ExtendLowI16x8_Ss) i32x4_extend_low_i16x8_s.
Definition visit_i32x4_extend_high_i16x8_s : FM I unit :=
  translate_simd_unary_sx (op_unary I32x4ExtendHighI16x8_Ss) i32x4_extend_high_i16x8_s.
Definition visit_i32x4_extend_low_i16x8_u : FM I unit :=
  translate_simd_unary_sx (op_unary U32x4ExtendLowI16x8_Ss) i32x4_extend_low_i16x8_u.
Definition visit_i32x4_extend_high_i16x8_u : FM I unit :=
  translate_simd_unary_sx (op_unary U32x4ExtendHighI16x8_Ss) i32x4_extend_high_i16x8_u.
Definition visit_i32x4_shl : FM I unit :=
  translate_simd_shift P_u32 (op_shift_ssr I32x4Shl) (op_shift_sss I32x4Shl) (op_shift_ssi I32x4Shl) i32x4_shl.
Definition visit_i32x4_shr_s : FM I unit :=
  translate_simd_shift P_u32 (op_shift_ssr I32x4Shr) (op_shift_sss I32x4Shr) (op_shift_ssi I32x4Shr) i32x4_shr_s.
Definition visit_i32x4_shr_u : FM I unit :=
  translate_simd_shift P_u32 (op_shift_ssr U32x4Shr) (op_shift_sss U32x4Shr) (op_shift_ssi U32x4Shr) i32x4_shr_u.
Definition visit_i32x4_add : FM I unit := translate_simd_binary (op_binary I32x4Add_Sss) i32x4_add.
Definition visit_i32x4_sub : FM I unit := translate_simd_binary (op_binary I32x4Sub_Sss) i32x4_sub.
Definition visit_i32x4_mul : FM I unit := translate_simd_binary (op_binary I32x4Mul_Sss) i32x4_mul.
Definition visit_i32x4_min_s : FM I unit := translate_simd_binary (op_binary I32x4Min_Sss) i32x4_min_s.
Definition visit_i32x4_min_u : FM I unit := translate_simd_binary (op_binary U32x4Min_Sss) i32x4_min_u.
Definition visit_i32x4_max_s : FM I unit := translate_simd_binary (op_binary I32x4Max_Sss) i32x4_max_s.
Definition visit_i32x4_max_u : FM I unit := translate_simd_binary (op_binary U32x4Max_Sss) i32x4_max_u.
Definition visit_i32x4_dot_i16x8_s : FM I unit :=
  translate_simd_binary (op_binary I32x4DotI16x8_Sss) i32x4_dot_i16x8_s.
Definition visit_i32x4_extmul_low_i16x8_s : FM I unit :=
  translate_simd_binary (op_binary I32x4ExtmulLowI16x8_Sss) i32x4_extmul_low_i16x8_s.
Definition visit_i32x4_extmul_high_i16x8_s : FM I unit :=
  translate_simd_binary (op_binary I32x4ExtmulHighI16x8_Sss) i32x4_extmul_high_i16x8_s.
Definition visit_i32x4_extmul_low_i16x8_u : FM I unit :=
  translate_simd_binary (op_binary U32x4ExtmulLowI16x8_Sss) i32x4_extmul_low_i16x8_u.
Definition visit_i32x4_extmul_high_i16x8_u : FM I unit :=
  translate_simd_binary (op_binary U32x4ExtmulHighI16x8_Sss) i32x4_extmul_high_i16x8_u.
Definition visit_i64x2_abs : FM I unit := translate_simd_unary_sx (op_unary I64x2Abs_Ss) i64x2_abs.
Definition visit_i64x2_neg : FM I unit := translate_simd_unary_sx (op_unary I64x2Neg_Ss) i64x2_neg.
Definition visit_i64x2_all_true : FM I unit :=
  translate_simd_unary_rx P_bool (op_test I64x2AllTrue_Rs) (fun v => Z.b2z (i64x2_all_true v)).
Definition visit_i64x2_bitmask : FM I unit := translate_simd_unary_rx P_u32 (op_test I64x2Bitmask_Rs) i64x2_bitmask.
Definition visit_i64x2_extend_low_i32x4_s : FM I unit :=
  translate_simd_unary_sx (op_unary I64x2ExtendLowI32x4_Ss) i64x2_extend_low_i32x4_s.
Definition visit_i64x2_extend_high_i32x4_s : FM I unit :=
  translate_simd_unary_sx (op_unary I64x2ExtendHighI32x4_Ss) i64x2_extend_high_i32x4_s.
Definition visit_i64x2_extend_low_i32x4_u : FM I unit :=
  translate_simd_unary_sx (op_unary U64x2ExtendLowI32x4_Ss) i64x2_extend_low_i32x4_u.
Definition visit_i64x2_extend_high_i32x4_u : FM I unit :=
  translate_simd_unary_sx (op_unary U64x2ExtendHighI32x4_Ss) i64x2_extend_high_i32x4_u.
Definition visit_i64x2_shl : FM I unit :=
  translate_simd_shift P_u64 (op_shift_ssr I64x2Shl) (op_shift_sss I64x2Shl) (op_shift_ssi I64x2Shl) i64x2_shl.
Definition visit_i64x2_shr_s : FM I unit :=
  translate_simd_shift P_u64 (op_shift_ssr I64x2Shr) (op_shift_sss I64x2Shr) (op_shift_ssi I64x2Shr) i64x2_shr_s.
Definition visit_i64x2_shr_u : FM I unit :=
  translate_simd_shift P_u64 (op_shift_ssr U64x2Shr) (op_shift_sss U64x2Shr) (op_shift_ssi U64x2Shr) i64x2_shr_u.
Definition visit_i64x2_add : FM I unit := translate_simd_binary (op_binary I64x2Add_Sss) i64x2_add.
Definition visit_i64x2_sub : FM I unit := translate_simd_binary (op_binary I64x2Sub_Sss) i64x2_sub.
Definition visit_i64x2_mul : FM I unit := translate_simd_binary (op_binary I64x2Mul_Sss) i64x2_mul.
Definition visit_i64x2_extmul_low_i32x4_s : FM I unit :=
  translate_simd_binary (op_binary I64x2ExtmulLowI32x4_Sss) i64x2_extmul_low_i32x4_s.
Definition visit_i64x2_extmul_high_i32x4_s : FM I unit :=
  translate_simd_binary (op_binary I64x2ExtmulHighI32x4_Sss) i64x2_extmul_high_i32x4_s.
Definition visit_i64x2_extmul_low_i32x4_u : FM I unit :=
  translate_simd_binary (op_binary U64x2ExtmulLowI32x4_Sss) i64x2_extmul_low_i32x4_u.
Definition visit_i64x2_extmul_high_i32x4_u : FM I unit :=
  translate_simd_binary (op_binary U64x2ExtmulHighI32x4_Sss) i64x2_extmul_high_i32x4_u.
Definition visit_f32x4_ceil : FM I unit := translate_simd_unary_sx (op_unary F32x4Ceil_Ss) f32x4_ceil.
Definition visit_f32x4_floor : FM I unit := translate_simd_unary_sx (op_unary F32x4Floor_Ss) f32x4_floor.
Definition visit_f32x4_trunc : FM I unit := translate_simd_unary_sx (op_unary F32x4Trunc_Ss) f32x4_trunc.
Definition visit_f32x4_nearest : FM I unit := translate_simd_unary_sx (op_unary F32x4Nearest_Ss) f32x4_nearest.
Definition visit_f32x4_abs : FM I unit := translate_simd_unary_sx (op_unary F32x4Abs_Ss) f32x4_abs.
Definition visit_f32x4_neg : FM I unit := translate_simd_unary_sx (op_unary F32x4Neg_Ss) f32x4_neg.
Definition visit_f32x4_sqrt : FM I unit := translate_simd_unary_sx (op_unary F32x4Sqrt_Ss) f32x4_sqrt.
Definition visit_f32x4_add : FM I unit := translate_simd_binary (op_binary F32x4Add_Sss) f32x4_add.
Definition visit_f32x4_sub : FM I unit := translate_simd_binary (op_binary F32x4Sub_Sss) f32x4_sub.
Definition visit_f32x4_mul : FM I unit := translate_simd_binary (op_binary F32x4Mul_Sss) f32x4_mul.
Definition visit_f32x4_div : FM I unit := translate_simd_binary (op_binary F32x4Div_Sss) f32x4_div.
Definition visit_f32x4_min : FM I unit := translate_simd_binary (op_binary F32x4Min_Sss) f32x4_min.
Definition visit_f32x4_max : FM I unit := translate_simd_binary (op_binary F32x4Max_Sss) f32x4_max.
Definition visit_f32x4_pmin : FM I unit := translate_simd_binary (op_binary F32x4Pmin_Sss) f32x4_pmin.
Definition visit_f32x4_pmax : FM I unit := translate_simd_binary (op_binary F32x4Pmax_Sss) f32x4_pmax.
Definition visit_f64x2_ceil : FM I unit := translate_simd_unary_sx (op_unary F64x2Ceil_Ss) f64x2_ceil.
Definition visit_f64x2_floor : FM I unit := translate_simd_unary_sx (op_unary F64x2Floor_Ss) f64x2_floor.
Definition visit_f64x2_trunc : FM I unit := translate_simd_unary_sx (op_unary F64x2Trunc_Ss) f64x2_trunc.
Definition visit_f64x2_nearest : FM I unit := translate_simd_unary_sx (op_unary F64x2Nearest_Ss) f64x2_nearest.
Definition visit_f64x2_abs : FM I unit := translate_simd_unary_sx (op_unary F64x2Abs_Ss) f64x2_abs.
Definition visit_f64x2_neg : FM I unit := translate_simd_unary_sx (op_unary F64x2Neg_Ss) f64x2_neg.
Definition visit_f64x2_sqrt : FM I unit := translate_simd_unary_sx (op_unary F64x2Sqrt_Ss) f64x2_sqrt.
Definition visit_f64x2_add : FM I unit := translate_simd_binary (op_binary F64x2Add_Sss) f64x2_add.
Definition visit_f64x2_sub : FM I unit := translate_simd_binary (op_binary F64x2Sub_Sss) f64x2_sub.
Definition visit_f64x2_mul : FM I unit := translate_simd_binary (op_binary F64x2Mul_Sss) f64x2_mul.
Definition visit_f64x2_div : FM I unit := translate_simd_binary (op_binary F64x2Div_Sss) f64x2_div.
Definition visit_f64x2_min : FM I unit := translate_simd_binary (op_binary F64x2Min_Sss) f64x2_min.
Definition visit_f64x2_max : FM I unit := translate_simd_binary (op_binary F64x2Max_Sss) f64x2_max.
Definition visit_f64x2_pmin : FM I unit := translate_simd_binary (op_binary F64x2Pmin_Sss) f64x2_pmin.
Definition visit_f64x2_pmax : FM I unit := translate_simd_binary (op_binary F64x2Pmax_Sss) f64x2_pmax.
Definition visit_i32x4_trunc_sat_f32x4_s : FM I unit :=
  translate_simd_unary_sx (op_unary I32x4TruncSatF32x4_Ss) i32x4_trunc_sat_f32x4_s.
Definition visit_i32x4_trunc_sat_f32x4_u : FM I unit :=
  translate_simd_unary_sx (op_unary U32x4TruncSatF32x4_Ss) i32x4_trunc_sat_f32x4_u.
Definition visit_f32x4_convert_i32x4_s : FM I unit :=
  translate_simd_unary_sx (op_unary F32x4ConvertI32x4_Ss) f32x4_convert_i32x4_s.
Definition visit_f32x4_convert_i32x4_u : FM I unit :=
  translate_simd_unary_sx (op_unary F32x4ConvertU32x4_Ss) f32x4_convert_i32x4_u.
Definition visit_i32x4_trunc_sat_f64x2_s_zero : FM I unit :=
  translate_simd_unary_sx (op_unary I32x4TruncSatZeroF64x2_Ss) i32x4_trunc_sat_f64x2_s_zero.
Definition visit_i32x4_trunc_sat_f64x2_u_zero : FM I unit :=
  translate_simd_unary_sx (op_unary U32x4TruncSatZeroF64x2_Ss) i32x4_trunc_sat_f64x2_u_zero.
Definition visit_f64x2_convert_low_i32x4_s : FM I unit :=
  translate_simd_unary_sx (op_unary F64x2ConvertLowI32x4_Ss) f64x2_convert_low_i32x4_s.
Definition visit_f64x2_convert_low_i32x4_u : FM I unit :=
  translate_simd_unary_sx (op_unary F64x2ConvertLowU32x4_Ss) f64x2_convert_low_i32x4_u.
Definition visit_f32x4_demote_f64x2_zero : FM I unit :=
  translate_simd_unary_sx (op_unary F32x4DemoteZeroF64x2_Ss) f32x4_demote_f64x2_zero.
Definition visit_f64x2_promote_low_f32x4 : FM I unit :=
  translate_simd_unary_sx (op_unary F64x2PromoteLowF32x4_Ss) f64x2_promote_low_f32x4.
Definition visit_i8x16_relaxed_swizzle : FM I unit := visit_i8x16_swizzle.
Definition visit_i32x4_relaxed_trunc_f32x4_s : FM I unit := visit_i32x4_trunc_sat_f32x4_s.
Definition visit_i32x4_relaxed_trunc_f32x4_u : FM I unit := visit_i32x4_trunc_sat_f32x4_u.
Definition visit_i32x4_relaxed_trunc_f64x2_s_zero : FM I unit := visit_i32x4_trunc_sat_f64x2_s_zero.
Definition visit_i32x4_relaxed_trunc_f64x2_u_zero : FM I unit := visit_i32x4_trunc_sat_f64x2_u_zero.
Definition visit_f32x4_relaxed_madd : FM I unit :=
  translate_simd_ternary (op_ternary F32x4RelaxedMadd_Ssss) f32x4_relaxed_madd.
Definition visit_f32x4_relaxed_nmadd : FM I unit :=
  translate_simd_ternary (op_ternary F32x4RelaxedNmadd_Ssss) f32x4_relaxed_nmadd.
Definition visit_f64x2_relaxed_madd : FM I unit :=
  translate_simd_ternary (op_ternary F64x2RelaxedMadd_Ssss) f64x2_relaxed_madd.
Definition visit_f64x2_relaxed_nmadd : FM I unit :=
  translate_simd_ternary (op_ternary F64x2RelaxedNmadd_Ssss) f64x2_relaxed_nmadd.
Definition visit_i8x16_relaxed_laneselect : FM I unit := visit_v128_bitselect.
Definition visit_i16x8_relaxed_laneselect : FM I unit := visit_v128_bitselect.
Definition visit_i32x4_relaxed_laneselect : FM I unit := visit_v128_bitselect.
Definition visit_i64x2_relaxed_laneselect : FM I unit := visit_v128_bitselect.
Definition visit_f32x4_relaxed_min : FM I unit := visit_f32x4_min.
Definition visit_f32x4_relaxed_max : FM I unit := visit_f32x4_max.
Definition visit_f64x2_relaxed_min : FM I unit := visit_f64x2_min.
Definition visit_f64x2_relaxed_max : FM I unit := visit_f64x2_max.
Definition visit_i16x8_relaxed_q15mulr_s : FM I unit := visit_i16x8_q15mulr_sat_s.
Definition visit_i16x8_relaxed_dot_i8x16_i7x16_s : FM I unit :=
  translate_simd_binary (op_binary I16x8RelaxedDotI8x16I7x16_Sss) i16x8_relaxed_dot_i8x16_i7x16_s.
Definition visit_i32x4_relaxed_dot_i8x16_i7x16_add_s : FM I unit :=
  translate_simd_ternary (op_ternary I32x4RelaxedDotI8x16I7x16Add_Ssss) i32x4_relaxed_dot_i8x16_i7x16_add_s.
End SimdVisit.
