(* ===== verification/Run.v ===== *)
(** * Running listings

    What the operators of a listing compute on the cells and registers of a
    frame, by the handlers of the executor, with branches resolved through the
    labels of the listing.  Operators that access a memory, a table, a global or
    another function are not run. *)

From Stdlib Require Import ZArith Lia.
From stdpp Require Import base option decidable numbers list.
From S2P Require Import Prelude Trap Value WasmInt Slot Locals OpFields Codec EncodedOps Encoder Cells Float.
From S2P Require Import OpTables BinaryTables BranchTables AccessTables Comparator Instr Sink.
Local Open Scope Z_scope.

Section Run.
Context `{T : Target} `{FloatNans}.

Definition put (dst : Dst) (p : Prim) (value : Z) (fs : Frame_state) : res TrapCode Frame_state :=
  match set_value dst p value fs with (Ok _, fs) => Ok fs | _ => Panic end.

Definition run_unary (h : UnaryHandler) (fs : Frame_state) : res TrapCode Frame_state :=
  value ← get (un_ty h) (un_src h) fs;
  value ← un_eval h value;
  put (un_dst h) (un_out h) value fs.

Definition run_binary (h : BinaryHandler) (fs : Frame_state) : res TrapCode Frame_state :=
  value ← binary_value h fs;
  put (bin_dst h) (bin_out h) value fs.

Definition run_select (h : SelectHandler) (fs : Frame_state) : res TrapCode Frame_state :=
  condition ← get P_i32 (sel_condition h) fs;
  true_val ← get (sel_ty h) (sel_true h) fs;
  false_val ← get (sel_ty h) (sel_false h) fs;
  put (sel_dst h) (sel_ty h) (if condition =? 0 then false_val else true_val) fs.

(** An operator that does not branch. *)
Definition run_instr (op : Instr) (fs : Frame_state) : res TrapCode Frame_state :=
  match op with
  | Instr_Trap trap_code => Err trap_code
  | Instr_Copy op => run_unary (copy_handler op) fs
  | Instr_Unary op => run_unary (unary_op_handler op) fs
  | Instr_Binary op => run_binary (binary_handler op) fs
  | Instr_Select op => run_select (select_op_handler op) fs
  | _ => Panic
  end.

(** [None] is the end of the function. *)
Definition goto (labels : list (option nat)) (label : LabelRef) : res TrapCode (option nat) :=
  match labels !! label with Some (Some pc) => Ok (Some pc) | _ => Panic end.

(** The chosen target of a branch table, behind the operator. *)
Definition run_table (items : list ListItem) (labels : list (option nat)) (pc : nat) (len_targets : Z) (index : Src)
    (values : option BoundedSlotSpan) (fs : Frame_state) : res TrapCode (option nat * Frame_state) :=
  index ← get P_u32 index fs;
  match items !! (pc + 1 + Z.to_nat (Z.min index (len_targets - 1)))%nat, values with
  | Some (Item_Branch label (Branch_Offset _)), None => pc ← goto labels label; Ok (pc, fs)
  | Some (Item_Branch label (Branch_Target target)), Some values =>
      let results := btt_results target in
      fs ← (if bool_decide (span_head results = span_head (bspan values)) then Ok fs else
            match exec_copy_span (Z.to_nat (2 ^ 16)) results (bspan values) (bspan_len values) (fr_cells fs) with
            | (Ok _, cells) => Ok {| fr_cells := cells; fr_regs := fr_regs fs |}
            | _ => Panic
            end);
      pc ← goto labels label;
      Ok (pc, fs)
  | _, _ => Panic
  end.

Definition run_item (items : list ListItem) (labels : list (option nat)) (pc : nat) (fs : Frame_state) :
    res TrapCode (option nat * Frame_state) :=
  match items !! pc with
  | Some (Item_ConsumeFuel _) => Ok (Some (pc + 1)%nat, fs)
  | Some (Item_Branch label (Branch_Op (Instr_Control (Branch _)))) => pc ← goto labels label; Ok (pc, fs)
  | Some (Item_Branch label (Branch_Op (Instr_CmpBranch op))) =>
      taken ← branch_taken (cmp_branch_handler op) fs;
      if taken : bool then pc ← goto labels label; Ok (pc, fs) else Ok (Some (pc + 1)%nat, fs)
  | Some (Item_Instr (Instr_Control Return)) => Ok (None, fs)
  | Some (Item_Instr (Instr_Control (BranchTable_R len_targets))) =>
      run_table items labels pc len_targets (Src_reg Reg_i64) None fs
  | Some (Item_Instr (Instr_Control (BranchTable_S len_targets index))) =>
      run_table items labels pc len_targets (Src_slot index) None fs
  | Some (Item_Instr (Instr_Control (BranchTableSpan_R len_targets values))) =>
      run_table items labels pc len_targets (Src_reg Reg_i64) (Some values) fs
  | Some (Item_Instr (Instr_Control (BranchTableSpan_S len_targets index values))) =>
      run_table items labels pc len_targets (Src_slot index) (Some values) fs
  | Some (Item_Instr op) => fs ← run_instr op fs; Ok (Some (pc + 1)%nat, fs)
  | _ => Panic
  end.

(** [None] if the function does not return within [fuel] steps. *)
Fixpoint run_items (fuel : nat) (items : list ListItem) (labels : list (option nat)) (pc : nat) (fs : Frame_state) :
    res TrapCode (option Frame_state) :=
  match fuel with
  | O => Ok None
  | S fuel =>
      next ← run_item items labels pc fs;
      match next with
      | (None, fs) => Ok (Some fs)
      | (Some pc, fs) => run_items fuel items labels pc fs
      end
  end.

(** Calls a translated function: the parameters are in the first cells of its
    frame and the results are there when it returns.  The other cells hold
    [junk], the registers any value; locals are zeroed. *)
Definition call_listing (fuel : nat) (self : Listing) (params : list Cell) (len_local_slots len_stack_slots : Z)
    (junk : Cell) (regs : Regs) : res TrapCode (option (list Cell)) :=
  let locals := replicate (Z.to_nat len_local_slots - length params) 0 in
  let temps := replicate (Z.to_nat (len_stack_slots - len_local_slots)) junk in
  fs ← run_items fuel (ls_items self) (ls_labels self) 0 {| fr_cells := params ++ locals ++ temps; fr_regs := regs |};
  Ok (option_map fr_cells fs).

(** ** Reads and writes of cells *)

Definition slot_index (s : Slot) : nat := Z.to_nat (Sp_offset s).
Definition slot_at (s : Slot) (cells : list Cell) : option Cell :=
  if 0 <=? Sp_offset s then cells !! slot_index s else None.

Lemma get_slot_value_at p s cells :
  get_slot_value p s cells = match slot_at s cells with Some c => Ok (Cell_into p c) | None => Panic end.
Proof.
  unfold get_slot_value, Sp_get, load_prim, cells_read, Sp_reader, slot_at, slot_index. unfold_m. cbn [sp_index sp_cells].
  destruct (0 <=? Sp_offset s); [|done]. by destruct (cells !! Z.to_nat (Sp_offset s)).
Qed.

Lemma set_slot_value_at p s v cells c : slot_at s cells = Some c ->
  set_slot_value s p v cells = (Ok tt, <[slot_index s := Cell_from p v]> cells).
Proof.
  unfold slot_at, slot_index. destruct (Z.leb_spec 0 (Sp_offset s)) as [Hs|]; [|done]. intros Hc.
  apply lookup_lt_Some in Hc as Hl.
  unfold set_slot_value, Sp_set, store_prim, cells_write, Sp_writer. unfold_m. cbn [sp_index sp_cells].
  rewrite (proj2 (Z.leb_le _ _)), (proj2 (Z.ltb_lt _ _)) by lia. done.
Qed.

Lemma slot_at_insert s s' v cells : 0 <= Sp_offset s' -> (exists c, slot_at s cells = Some c) ->
  slot_at s' (<[slot_index s := v]> cells) =
  if decide (slot_index s' = slot_index s) then Some v else slot_at s' cells.
Proof.
  intros Hs' [c Hc]. unfold slot_at in *. rewrite (proj2 (Z.leb_le _ _) Hs').
  destruct (0 <=? Sp_offset s); [|done]. apply lookup_lt_Some in Hc.
  destruct (decide _) as [->|]; [by apply list_lookup_insert_eq|by apply list_lookup_insert_ne].
Qed.

Lemma get_slot {E} p s fs :
  get (E := E) p (Src_slot s) fs = match slot_at s (fr_cells fs) with Some c => Ok (Cell_into p c) | None => Panic end.
Proof. unfold get, get_value. rewrite get_slot_value_at. by destruct (slot_at s (fr_cells fs)). Qed.

Lemma put_slot s p v fs c : slot_at s (fr_cells fs) = Some c ->
  put (Dst_slot s) p v fs = Ok {| fr_cells := <[slot_index s := Cell_from p v]> (fr_cells fs); fr_regs := fr_regs fs |}.
Proof. intros Hc. unfold put, set_value, set_slot, zoom. by rewrite (set_slot_value_at _ _ _ _ _ Hc). Qed.

Lemma put_reg r p v fs :
  put (Dst_reg r) p v fs = Ok {| fr_cells := fr_cells fs; fr_regs := RegTy_set r p v (fr_regs fs) |}.
Proof. done. Qed.
End Run.
