(* ===== verification/SelectSpec.v ===== *)
(** * The operators selected for a Wasm operator compute it

    Every operator that [translator/func/op] selects for a placement of the
    operands is run by the handlers of the executor and compared with the
    function that evaluates the Wasm operator at compile time. *)

From Stdlib Require Import ZArith Lia Floats.SpecFloat.
From stdpp Require Import base option numbers tactics list.
From S2P Require Import Prelude Trap Value WasmInt Slot Locals Cells Float OpTables BinaryTables.
From S2P Require Import BranchTables AccessTables Comparator Instr BinaryOps UnaryOps Sink Run.
Local Open Scope Z_scope.

Section Spec.
Context `{T : Target} `{FloatNans}.

(** The register of the values of a type. *)
Definition reg_of (p : Prim) : RegTy :=
  match p with P_f32 => Reg_f32 | P_f64 => Reg_f64 | _ => Reg_i64 end.
Definition src_of (p : Prim) : Src := Src_reg (reg_of p).
Definition write_reg (p : Prim) (value : res TrapCode Z) (fs : Frame_state) : res TrapCode Frame_state :=
  value ← value; put (Dst_reg (reg_of p)) p value fs.

(** [op] writes what [eval] yields on the two operands. *)
Definition computes2 (op : Instr) (pl : Prim) (l : Src) (pr : Prim) (r : Src) (out : Prim)
    (eval : Z -> Z -> res TrapCode Z) : Prop :=
  forall fs a b, prim_val pl a -> prim_val pr b -> get (E := TrapCode) pl l fs = Ok a -> get (E := TrapCode) pr r fs = Ok b ->
    run_instr op fs = write_reg out (eval a b) fs.

Record commutative_sound (op : CommutativeBinaryOp) : Prop := {
  cs_rrr i : c_op_rrr op = Some i -> computes2 i (c_Input op) (src_of (c_Input op)) (c_Input op) (src_of (c_Input op))
    (c_Result op) (c_consteval op);
  cs_rrs rhs : computes2 (c_op_rrs op rhs) (c_Input op) (src_of (c_Input op)) (c_Input op) (Src_slot rhs)
    (c_Result op) (c_consteval op);
  cs_rri rhs : prim_val (c_Input op) rhs -> computes2 (c_op_rri op rhs) (c_Input op) (src_of (c_Input op))
    (c_Input op) (Src_imm rhs) (c_Result op) (c_consteval op);
  cs_rss lhs rhs : computes2 (c_op_rss op lhs rhs) (c_Input op) (Src_slot lhs) (c_Input op) (Src_slot rhs)
    (c_Result op) (c_consteval op);
  cs_rsi lhs rhs : prim_val (c_Input op) rhs -> computes2 (c_op_rsi op lhs rhs) (c_Input op) (Src_slot lhs)
    (c_Input op) (Src_imm rhs) (c_Result op) (c_consteval op);
  cs_comm a b : prim_val (c_Input op) a -> prim_val (c_Input op) b -> c_consteval op a b = c_consteval op b a
}.

(** The value of a non-commutative operator: its right operand is decoded first. *)
Definition binary_eval (op : BinaryOp) (a b : Z) : res TrapCode Z :=
  value ← into_typed (b_Lhs op) b;
  match b_decode_rhs op value with
  | Ok (Rhs_Value rhs) => b_consteval op a rhs
  | Ok (Rhs_Trap trap_code) => Err trap_code
  | Ok Rhs_ReturnLhs => Ok a
  | _ => Panic
  end.
(** [rhs] is the immediate the right operand [b] is decoded to. *)
Definition decodes_to (op : BinaryOp) (b rhs : Z) : Prop :=
  exists value, into_typed (E := Empty_set) (b_Lhs op) b = Ok value /\ b_decode_rhs op value = Ok (Rhs_Value rhs).

Record binary_sound (op : BinaryOp) : Prop := {
  bs_rrr i : b_op_rrr op = Some i -> computes2 i (b_Lhs op) (src_of (b_Lhs op)) (b_Lhs op) (src_of (b_Lhs op))
    (b_Result op) (binary_eval op);
  bs_rrs rhs : computes2 (b_op_rrs op rhs) (b_Lhs op) (src_of (b_Lhs op)) (b_Lhs op) (Src_slot rhs)
    (b_Result op) (binary_eval op);
  bs_rri b rhs : prim_val (b_Lhs op) b -> decodes_to op b rhs ->
    computes2 (b_op_rri op rhs) (b_Lhs op) (src_of (b_Lhs op)) (b_Lhs op) (Src_imm b) (b_Result op) (binary_eval op);
  bs_rsr lhs : computes2 (b_op_rsr op lhs) (b_Lhs op) (Src_slot lhs) (b_Lhs op) (src_of (b_Lhs op))
    (b_Result op) (binary_eval op);
  bs_rss lhs rhs : computes2 (b_op_rss op lhs rhs) (b_Lhs op) (Src_slot lhs) (b_Lhs op) (Src_slot rhs)
    (b_Result op) (binary_eval op);
  bs_rsi lhs b rhs : prim_val (b_Lhs op) b -> decodes_to op b rhs ->
    computes2 (b_op_rsi op lhs rhs) (b_Lhs op) (Src_slot lhs) (b_Lhs op) (Src_imm b) (b_Result op) (binary_eval op);
  bs_rir a : prim_val (b_Lhs op) a -> computes2 (b_op_rir op a) (b_Lhs op) (Src_imm a) (b_Lhs op) (src_of (b_Lhs op))
    (b_Result op) (binary_eval op);
  bs_ris a rhs : prim_val (b_Lhs op) a -> computes2 (b_op_ris op a rhs) (b_Lhs op) (Src_imm a) (b_Lhs op) (Src_slot rhs)
    (b_Result op) (binary_eval op)
}.

Definition commutative_ops : list CommutativeBinaryOp := [
  I32Eq; I32NotEq; I32And; I32NotAnd; I32Or; I32NotOr; I32Add; I32Mul; I32BitAnd; I32BitOr; I32BitXor;
  I64Eq; I64NotEq; I64And; I64NotAnd; I64Or; I64NotOr; I64Add; I64Mul; I64BitAnd; I64BitOr; I64BitXor;
  F32Eq; F32NotEq; F64Eq; F64NotEq].


(** ** Decoded operands *)

Lemma from_typed_into {E F} p b value : prim_val p b -> into_typed (E := E) p b = Ok value ->
  from_typed (E := F) p value = Ok b.
Proof.
  intros Hb Hv. unfold into_typed, expect in Hv. destruct (TypedRawVal_from p b) as [v|] eqn:E1; simplify_eq.
  unfold from_typed. by rewrite (TypedRawVal_into_from _ _ _ Hb E1).
Qed.

Lemma decode_value {E} p b value : prim_val p b -> into_typed (E := E) p b = Ok value ->
  decode_rhs_as_value p value = Ok (Rhs_Value b).
Proof. intros Hb Hv. unfold decode_rhs_as_value. by rewrite (from_typed_into _ _ _ Hb Hv). Qed.

Lemma decode_divisor {E} p b value : prim_val p b -> into_typed (E := E) p b = Ok value ->
  decode_rhs_as_divisor p value = Ok (if b =? 0 then Rhs_Trap IntegerDivisionByZero else Rhs_Value b).
Proof. intros Hb Hv. unfold decode_rhs_as_divisor. by rewrite (from_typed_into _ _ _ Hb Hv). Qed.

Lemma decode_shift {E} p b value : p = P_i32 \/ p = P_u32 \/ p = P_i64 \/ p = P_u64 -> prim_val p b ->
  into_typed (E := E) p b = Ok value -> decode_rhs_as_shift_amount p value = Ok (Rhs_Value (b mod prim_bits p)).
Proof.
  intros Hp Hb Hv. unfold decode_rhs_as_shift_amount. rewrite (from_typed_into _ _ _ Hb Hv). cbn [mbind res_bind].
  assert (into_shift_amount p b = Some {| shamt := b mod prim_bits p |}) as ->; [|done].
  unfold into_shift_amount. cbv zeta.
  assert (cast p (prim_bytes p * 8) = prim_bits p) as -> by (by destruct Hp as [-> | [-> | [-> | ->]]]).
  assert (32 <= prim_bits p <= 64) as Hn by (destruct Hp as [-> | [-> | [-> | ->]]]; split; vm_compute; discriminate).
  unfold checked_rem_euclid.
  rewrite (proj2 (Z.eqb_neq _ 0)), (proj2 (Z.eqb_neq _ (-1))), andb_false_r by lia. cbn [andb].
  cbn [mbind option_bind]. do 2 f_equal. rewrite Z.abs_eq by lia.
  assert (0 <= b mod prim_bits p < prim_bits p) as Hr by (apply Z.mod_pos_bound; lia).
  unfold cast. cbn [prim_signed prim_bits]. unfold wrapu. rewrite Z.mod_small; [done|]. change (2 ^ prim_bits P_u8) with 256. lia.
Qed.

Section Decode.
Context (op : BinaryOp) (ty : ValType) (Hty : Typed_TY (b_Lhs op) = Some ty).

Lemma into_typed_lhs {E} b : into_typed (E := E) (b_Lhs op) b = Ok (TypedRawVal_new ty (RawVal_from (b_Lhs op) b)).
Proof using Hty. unfold into_typed, TypedRawVal_from. by rewrite Hty. Qed.

Lemma binary_eval_value a b : b_decode_rhs op = decode_rhs_as_value (b_Lhs op) -> prim_val (b_Lhs op) b ->
  binary_eval op a b = b_consteval op a b.
Proof using Hty.
  intros Hd Hb. unfold binary_eval. rewrite into_typed_lhs, Hd. cbn [mbind res_bind].
  by rewrite (decode_value (E := TrapCode) _ b) by (done || apply into_typed_lhs).
Qed.
Lemma decodes_to_value b rhs : b_decode_rhs op = decode_rhs_as_value (b_Lhs op) -> prim_val (b_Lhs op) b ->
  decodes_to op b rhs -> rhs = b.
Proof using Hty.
  intros Hd Hb (value & Hv & E). rewrite Hd, (decode_value _ _ _ Hb Hv) in E. by simplify_eq.
Qed.

Lemma binary_eval_divisor a b : b_decode_rhs op = decode_rhs_as_divisor (b_Lhs op) -> prim_val (b_Lhs op) b ->
  binary_eval op a b = if b =? 0 then Err IntegerDivisionByZero else b_consteval op a b.
Proof using Hty.
  intros Hd Hb. unfold binary_eval. rewrite into_typed_lhs, Hd. cbn [mbind res_bind].
  rewrite (decode_divisor (E := TrapCode) _ b) by (done || apply into_typed_lhs). by destruct (b =? 0).
Qed.
Lemma decodes_to_divisor b rhs : b_decode_rhs op = decode_rhs_as_divisor (b_Lhs op) -> prim_val (b_Lhs op) b ->
  decodes_to op b rhs -> rhs = b /\ b <> 0.
Proof using Hty.
  intros Hd Hb (value & Hv & E). rewrite Hd, (decode_divisor _ _ _ Hb Hv) in E.
  destruct (Z.eqb_spec b 0); by simplify_eq.
Qed.

Lemma binary_eval_shift a b : b_decode_rhs op = decode_rhs_as_shift_amount (b_Lhs op) ->
  b_Lhs op = P_i32 \/ b_Lhs op = P_u32 \/ b_Lhs op = P_i64 \/ b_Lhs op = P_u64 -> prim_val (b_Lhs op) b ->
  binary_eval op a b = b_consteval op a (b mod prim_bits (b_Lhs op)).
Proof using Hty.
  intros Hd Hp Hb. unfold binary_eval. rewrite into_typed_lhs, Hd. cbn [mbind res_bind].
  by rewrite (decode_shift (E := TrapCode) _ b) by (done || apply into_typed_lhs).
Qed.
Lemma decodes_to_shift b rhs : b_decode_rhs op = decode_rhs_as_shift_amount (b_Lhs op) ->
  b_Lhs op = P_i32 \/ b_Lhs op = P_u32 \/ b_Lhs op = P_i64 \/ b_Lhs op = P_u64 -> prim_val (b_Lhs op) b ->
  decodes_to op b rhs -> rhs = b mod prim_bits (b_Lhs op).
Proof using Hty.
  intros Hd Hp Hb (value & Hv & E). rewrite Hd, (decode_shift _ _ _ Hp Hb Hv) in E. by simplify_eq.
Qed.
End Decode.

(** ** Integer arithmetic *)

Lemma shift_amount_mod w b : w = 32 \/ w = 64 -> wrapu 32 (b mod w) mod w = wrapu 32 b mod w.
Proof.
  intros Hw. unfold wrapu. rewrite (Z.mod_small (b mod w)).
  - rewrite Z.mod_mod by lia. symmetry. apply Z.mod_mod_divide. destruct Hw as [-> | ->]; [by exists (2 ^ 27)|by exists (2 ^ 26)].
  - pose proof (Z.mod_pos_bound b w). change (2 ^ 32) with 4294967296. lia.
Qed.

Lemma rotate_mod w u b : w = 32 \/ w = 64 -> 
  rotate_left_u w u (wrapu 32 (b mod w)) = rotate_left_u w u (wrapu 32 b) /\
  rotate_right_u w u (wrapu 32 (b mod w)) = rotate_right_u w u (wrapu 32 b).
Proof. intros Hw. unfold rotate_left_u, rotate_right_u. cbv zeta. rewrite shift_amount_mod by done. by split. Qed.

(** Evaluation with a decoded right operand is evaluation with the operand. *)
Lemma u32_div_ssi x y : in_u 32 x -> in_u 32 y -> y <> 0 -> i32_div_u x y = Ok (wasmi_u32_div_ssi x y).
Proof.
  intros Hx Hy Hn. unfold i32_div_u, wasmi_u32_div_ssi. cbn. rewrite (proj2 (Z.eqb_neq y 0)) by done.
  f_equal. unfold in_u in *. apply Z.quot_div_nonneg; lia.
Qed.
Lemma u64_div_ssi x y : in_u 64 x -> in_u 64 y -> y <> 0 -> i64_div_u x y = Ok (wasmi_u64_div_ssi x y).
Proof.
  intros Hx Hy Hn. unfold i64_div_u, wasmi_u64_div_ssi. cbn. rewrite (proj2 (Z.eqb_neq y 0)) by done.
  f_equal. unfold in_u in *. apply Z.quot_div_nonneg; lia.
Qed.
Lemma u32_rem_ssi x y : in_u 32 x -> in_u 32 y -> y <> 0 -> i32_rem_u x y = Ok (wasmi_u32_rem_ssi x y).
Proof.
  intros Hx Hy Hn. unfold i32_rem_u, wasmi_u32_rem_ssi. cbn. rewrite (proj2 (Z.eqb_neq y 0)) by done.
  f_equal. unfold in_u in *. apply Z.rem_mod_nonneg; lia.
Qed.
Lemma u64_rem_ssi x y : in_u 64 x -> in_u 64 y -> y <> 0 -> i64_rem_u x y = Ok (wasmi_u64_rem_ssi x y).
Proof.
  intros Hx Hy Hn. unfold i64_rem_u, wasmi_u64_rem_ssi. cbn. rewrite (proj2 (Z.eqb_neq y 0)) by done.
  f_equal. unfold in_u in *. apply Z.rem_mod_nonneg; lia.
Qed.

Lemma shift_ssi x y :
  (wasmi_i32_shl_ssi x (y mod 32) = i32_shl x y /\ wasmi_i32_shr_ssi x (y mod 32) = i32_shr_s x y /\
   wasmi_u32_shr_ssi x (y mod 32) = i32_shr_u x y) /\
  (wasmi_i64_shl_ssi x (y mod 64) = i64_shl x y /\ wasmi_i64_shr_ssi x (y mod 64) = i64_shr_s x y /\
   wasmi_u64_shr_ssi x (y mod 64) = i64_shr_u x y).
Proof.
  unfold wasmi_i32_shl_ssi, wasmi_i32_shr_ssi, wasmi_u32_shr_ssi, wasmi_i64_shl_ssi, wasmi_i64_shr_ssi, wasmi_u64_shr_ssi.
  unfold i32_shl, i32_shr_s, i32_shr_u, i64_shl, i64_shr_s, i64_shr_u. cbn [i_shl i_shr_s i_shr_u Integer_i32 Integer_i64 impl_integer].
  rewrite !shift_amount_mod by lia. done.
Qed.
Lemma rotate_ssi x y :
  (wasmi_i32_rotl_ssi x (y mod 32) = i32_rotl x y /\ wasmi_i32_rotr_ssi x (y mod 32) = i32_rotr x y) /\
  (wasmi_i64_rotl_ssi x (y mod 64) = i64_rotl x y /\ wasmi_i64_rotr_ssi x (y mod 64) = i64_rotr x y).
Proof.
  unfold wasmi_i32_rotl_ssi, wasmi_i32_rotr_ssi, wasmi_i64_rotl_ssi, wasmi_i64_rotr_ssi.
  unfold i32_rotl, i32_rotr, i64_rotl, i64_rotr. cbn [i_rotl i_rotr Integer_i32 Integer_i64 impl_integer].
  by rewrite !(proj1 (rotate_mod 32 _ _ ltac:(lia))), !(proj2 (rotate_mod 32 _ _ ltac:(lia))),
    !(proj1 (rotate_mod 64 _ _ ltac:(lia))), !(proj2 (rotate_mod 64 _ _ ltac:(lia))).
Qed.

Lemma sub_imm w x y : wraps w (x + wraps w (- y)) = wraps w (x - y).
Proof.
  unfold wraps. rewrite <-Z.add_opp_r.
  replace (x + ((- y + 2 ^ (w - 1)) mod 2 ^ w - 2 ^ (w - 1)) + 2 ^ (w - 1)) with
    (x + (- y + 2 ^ (w - 1)) mod 2 ^ w) by lia.
  by rewrite Zplus_mod_idemp_r, Z.add_assoc.
Qed.

Lemma copysign_imm ty x y : 
  Float_copysign ty x y = if is_sign_positive ty y then Float_abs ty x else Float_neg ty (Float_abs ty x).
Proof.
  unfold Float_copysign, is_sign_positive, Float_neg, Float_abs, sign_of.
  destruct (is_sign_negative ty y); cbn [negb]; [|lia].
  unfold sign_mask. set (k := float_bits ty - 1). assert (0 <= k) as Hk by (by destruct ty).
  apply Z.add_nocarry_lxor, Z.bits_inj'. intros n Hn. rewrite Z.land_spec, Z.bits_0, Z.pow2_bits_eqb by done.
  destruct (Z.eqb_spec k n) as [<-|]; [|apply andb_false_r]. by rewrite Z.mod_pow2_bits_high by lia.
Qed.

(** Runs the operator: what is left is that two evaluations agree. *)
Ltac imm :=
  repeat match goal with
  | E : get _ (Src_imm _) _ = Ok _ |- _ => cbn in E; injection E as <-
  end;
  repeat match goal with
  | |- context [get (E := ?E) ?p (Src_imm ?z) ?fs] => change (get (E := E) p (Src_imm z) fs) with (Ok (E := E) z)
  end; cbn [mbind res_bind].
Ltac hide_cbn := cbn -[get put prim_val binary_eval i32_add i64_add i32_sub i64_sub i32_div_s i32_div_u i64_div_s i64_div_u i32_rem_s i32_rem_u i64_rem_s i64_rem_u
    i32_shl i64_shl i32_shr_s i64_shr_s i32_shr_u i64_shr_u i32_rotl i64_rotl i32_rotr i64_rotr f32_copysign f64_copysign f32_abs f64_abs wasmi_f32_nabs wasmi_f64_nabs is_sign_positive].
Ltac runs :=
  let fs := fresh "fs" in let x := fresh "x" in let y := fresh "y" in
  let Hx := fresh "Hx" in let Hy := fresh "Hy" in let Ex := fresh "Ex" in let Ey := fresh "Ey" in
  intros fs x y Hx Hy Ex Ey;
  unfold src_of, run_instr, run_binary, binary_value, write_reg in *;
  cbn -[get put prim_val binary_eval] in Ex, Ey, Hx, Hy; hide_cbn;
  rewrite ?Ex, ?Ey; imm; hide_cbn.
Ltac decodes lem :=
  match goal with Hd : decodes_to _ _ _ |- _ => eapply lem in Hd; [|reflexivity|first [done|cbn; tauto]..] | _ => idtac end.
Ltac reg_reg := try discriminate; try match goal with Hr : _ = Some ?i |- _ => injection Hr as <- end.
Ltac value_op :=
  constructor; intros; reg_reg; decodes decodes_to_value; subst; runs;
  match goal with |- context [binary_eval ?op ?a ?b] =>
    rewrite (binary_eval_value op _ eq_refl a b eq_refl) by done end; hide_cbn; try reflexivity.
Ltac div_op :=
  constructor; intros; reg_reg; decodes decodes_to_divisor; 
  match goal with Hd : _ = _ /\ _ |- _ => destruct Hd as [-> ?] | _ => idtac end; runs;
  match goal with |- context [binary_eval ?op ?a ?b] =>
    rewrite (binary_eval_divisor op _ eq_refl a b eq_refl) by done; destruct (Z.eqb_spec b 0); [subst; try done|] end; hide_cbn; try reflexivity.
Ltac shift_op :=
  constructor; intros; reg_reg; decodes decodes_to_shift; subst; runs;
  match goal with |- context [binary_eval ?op ?a ?b] =>
    rewrite (binary_eval_shift op _ eq_refl a b eq_refl) by (done || (cbn; tauto)) end; hide_cbn; try reflexivity.


Lemma value_ops_sound : Forall binary_sound [
  I32Lt; I32Le; U32Lt; U32Le; I64Lt; I64Le; U64Lt; U64Le; I32Gt; U32Gt; I32Ge; U32Ge; I64Gt; U64Gt; I64Ge; U64Ge;
  F32Lt; F32Le; F32NotLt; F32NotLe; F32Add; F32Sub; F32Mul; F32Div; F32Min; F32Max; F32Gt; F32Ge;
  F64Lt; F64Le; F64NotLt; F64NotLe; F64Add; F64Sub; F64Mul; F64Div; F64Min; F64Max; F64Gt; F64Ge].
Proof. repeat (apply Forall_cons_2; [value_op; congruence|]); apply Forall_nil_2. Qed.

Lemma sub_ops_sound : Forall binary_sound [I32Sub; I64Sub].
Proof. repeat (apply Forall_cons_2; [value_op; f_equal; apply sub_imm|]); apply Forall_nil_2. Qed.

(** A copysign of an immediate sets or clears the sign. *)
Ltac copysign_imm :=
  unfold f32_copysign_rri, f32_copysign_rsi, f64_copysign_rri, f64_copysign_rsi, f32_copysign, f64_copysign;
  rewrite copysign_imm;
  match goal with |- context [is_sign_positive ?ty ?b] => destruct (is_sign_positive ty b) end;
  unfold run_unary; hide_cbn;
  match goal with E : get _ _ _ = Ok _ |- _ => rewrite E end; reflexivity.

Lemma copysign_ops_sound : Forall binary_sound [F32Copysign; F64Copysign].
Proof.
  repeat (apply Forall_cons_2; [value_op; copysign_imm|]); apply Forall_nil_2.
Qed.

Lemma div_ops_sound : Forall binary_sound [I32Div; U32Div; I32Rem; U32Rem; I64Div; U64Div; I64Rem; U64Rem].
Proof.
  repeat (apply Forall_cons_2;
    [div_op; rewrite ?u32_div_ssi, ?u64_div_ssi, ?u32_rem_ssi, ?u64_rem_ssi by done; reflexivity|]).
  apply Forall_nil_2.
Qed.

Lemma shift_ops_sound : Forall binary_sound [
  I32Shl; I32Shr; U32Shr; I32Rotl; I32Rotr; I64Shl; I64Shr; U64Shr; I64Rotl; I64Rotr].
Proof.
  repeat (apply Forall_cons_2; [shift_op; f_equal; first [apply eq_sym, shift_ssi | apply eq_sym, rotate_ssi]|]).
  apply Forall_nil_2.
Qed.

Lemma add_self w x : wraps w (x * 2) = wraps w (x + x).
Proof. f_equal. lia. Qed.

Lemma SFeqb_comm x y : SFeqb x y = SFeqb y x.
Proof.
  unfold SFeqb. destruct x as [s|s| |s m e], y as [s'|s'| |s' m' e']; cbn; try done; try (by destruct s, s'); try by destruct s; try by destruct s'.
  change (Pos.compare_cont Eq m m') with (m ?= m')%positive; change (Pos.compare_cont Eq m' m) with (m' ?= m)%positive.
  destruct s, s'; try done; rewrite (Z.compare_antisym e e'), (Pos.compare_antisym m m');
    destruct (e ?= e'); cbn; try done; by destruct (m ?= m')%positive.
Qed.

Ltac commutes :=
  f_equal;
  first [ apply Z.eqb_sym | unfold i32_ne, i64_ne; f_equal; apply Z.eqb_sym | apply Z.land_comm | apply Z.lor_comm | apply Z.lxor_comm
        | unfold i32_add, i64_add; f_equal; apply Z.add_comm | unfold i32_mul, i64_mul; f_equal; apply Z.mul_comm
        | apply SFeqb_comm | unfold f32_ne, f64_ne, float_ne; f_equal; apply SFeqb_comm
        | unfold wasmi_i32_not_and, wasmi_i64_not_and, wasmi_i32_and, wasmi_i64_and; by rewrite Z.land_comm
        | unfold wasmi_i32_not_or, wasmi_i64_not_or, wasmi_i32_or, wasmi_i64_or; by rewrite orb_comm ].
(** Both operands are the same register. *)
Ltac same_reg :=
  match goal with
  | Ex : get ?p ?s ?fs = Ok ?x, Ey : get ?p ?s ?fs = Ok ?y |- _ => assert (y = x) as -> by congruence
  end.
Ltac commutative_op :=
  constructor; intros; reg_reg; [runs; first [reflexivity | congruence | same_reg; f_equal; apply add_self]..|hide_cbn; commutes].

Lemma commutative_ops_sound : Forall commutative_sound commutative_ops.
Proof. repeat (apply Forall_cons_2; [commutative_op|]); apply Forall_nil_2. Qed.

(** ** Unary operators *)

Definition computes1 (op : Instr) (p : Prim) (src : Src) (out : Prim) (eval : Z -> res TrapCode Z) : Prop :=
  forall fs a, prim_val p a -> get (E := TrapCode) p src fs = Ok a -> run_instr op fs = write_reg out (eval a) fs.

Record unary_sound (op : UnaryOp) : Prop := {
  us_rr : computes1 (u_op_rr op) (u_Value op) (src_of (u_Value op)) (u_Result op) (u_consteval op);
  us_rs value : computes1 (u_op_rs op value) (u_Value op) (Src_slot value) (u_Result op) (u_consteval op)
}.

Definition unary_ops : list UnaryOp := [
  I32Popcnt; I32Clz; I32Ctz; I64Popcnt; I64Clz; I64Ctz;
  F32Abs; F32Neg; F32Ceil; F32Floor; F32Trunc; F32Nearest; F32Sqrt;
  F64Abs; F64Neg; F64Ceil; F64Floor; F64Trunc; F64Nearest; F64Sqrt;
  I32WrapI64; I32TruncF32; U32TruncF32; I32TruncF64; U32TruncF64; I64ExtendI32;
  I64TruncF32; U64TruncF32; I64TruncF64; U64TruncF64;
  F32ConvertI32; F32ConvertU32; F32ConvertI64; F32ConvertU64;
  F64ConvertI32; F64ConvertU32; F64ConvertI64; F64ConvertU64; F32DemoteF64; F64PromoteF32;
  I32Sext8; I32Sext16; I64Sext8; I64Sext16; I64Sext32;
  I32TruncSatF32; U32TruncSatF32; I32TruncSatF64; U32TruncSatF64;
  I64TruncSatF32; U64TruncSatF32; I64TruncSatF64; U64TruncSatF64].

Ltac unary_op :=
  constructor; intros;
  let fs := fresh "fs" in let x := fresh "x" in let Hx := fresh "Hx" in let Ex := fresh "Ex" in
  intros fs x Hx Ex; unfold src_of, run_instr, run_unary, write_reg in *; cbn -[get put prim_val] in Ex, Hx |- *;
  rewrite ?Ex; reflexivity.

(** A 32-bit read is the low half of a 64-bit one. *)
Lemma narrow_i64 r : i64_extend32_s (cast P_i64 r) = cast P_i32 r.
Proof.
  unfold i64_extend32_s, sign_extend_from. rewrite (cast_cast P_i32 P_i64) by (vm_compute; discriminate). apply cast_id; [|done].
  pose proof (cast_val P_i32 r ltac:(done)) as Hr. unfold prim_val in *. cbn [prim_signed] in *. unfold in_s in *.
  change (prim_bits P_i32) with 32 in Hr. change (prim_bits P_i64) with 64. lia.
Qed.
Lemma get_i32_of_i64 src fs a : src = Src_reg Reg_i64 \/ (exists s, src = Src_slot s) ->
  get (E := TrapCode) P_i32 src fs = Ok a -> exists b, get (E := TrapCode) P_i64 src fs = Ok b /\ i64_extend32_s b = a.
Proof.
  intros [->|[s ->]].
  - intros [= <-]. eexists. split; [done|]. apply narrow_i64.
  - rewrite !get_slot. destruct (slot_at s (fr_cells fs)) as [c|]; [|done]. intros [= <-].
    eexists. split; [done|]. cbn [Cell_into]. rewrite (cast_cast P_i32 P_i64) by (vm_compute; discriminate). apply narrow_i64.
Qed.
Lemma I64ExtendI32_sound : unary_sound I64ExtendI32.
Proof.
  constructor; intros; intros fs x Hx Ex; (apply get_i32_of_i64 in Ex as (b & Eb & <-); [|eauto]).
  all: unfold src_of in Eb; cbn -[get] in Eb.
  all: unfold run_instr, run_unary, write_reg; cbn -[get put i64_extend32_s]; by rewrite Eb.
Qed.

Lemma unary_ops_sound : Forall unary_sound unary_ops.
Proof. repeat (apply Forall_cons_2; [first [apply I64ExtendI32_sound|unary_op]|]); apply Forall_nil_2. Qed.

Definition binary_ops : list BinaryOp :=
  [I32Lt; I32Le; U32Lt; U32Le; I64Lt; I64Le; U64Lt; U64Le; I32Gt; U32Gt; I32Ge; U32Ge; I64Gt; U64Gt; I64Ge; U64Ge;
   F32Lt; F32Le; F32NotLt; F32NotLe; F32Add; F32Sub; F32Mul; F32Div; F32Min; F32Max; F32Gt; F32Ge;
   F64Lt; F64Le; F64NotLt; F64NotLe; F64Add; F64Sub; F64Mul; F64Div; F64Min; F64Max; F64Gt; F64Ge] ++
  [I32Sub; I64Sub] ++ [F32Copysign; F64Copysign] ++
  [I32Div; U32Div; I32Rem; U32Rem; I64Div; U64Div; I64Rem; U64Rem] ++
  [I32Shl; I32Shr; U32Shr; I32Rotl; I32Rotr; I64Shl; I64Shr; U64Shr; I64Rotl; I64Rotr].

Lemma binary_ops_sound : Forall binary_sound binary_ops.
Proof.
  unfold binary_ops. rewrite !Forall_app.
  split; [apply value_ops_sound|]. split; [apply sub_ops_sound|]. split; [apply copysign_ops_sound|].
  split; [apply div_ops_sound|apply shift_ops_sound].
Qed.

(** C4: For every operator of the tables and every placement of its operands in
    registers, slots and immediates, the selected operator writes to the result
    register what constant evaluation yields: that covers the swapped, the
    lowered (subtraction, copysign, addition to itself) and the decoded
    (divisors, shift amounts) forms. *)
Theorem selected_operators_sound :
  Forall commutative_sound commutative_ops /\ Forall binary_sound binary_ops /\ Forall unary_sound unary_ops.
Proof. split; [apply commutative_ops_sound|]. split; [apply binary_ops_sound|apply unary_ops_sound]. Qed.
End Spec.
