(* ===== verification/TransExamples.v ===== *)
(** * Functions the translator miscompiles

    Small functions that are valid Wasm, translated to a listing and run on a
    frame whose temporaries hold an arbitrary value, next to the result that the
    Wasm semantics gives. *)

From Stdlib Require Import ZArith.
From stdpp Require Import base option list.
From S2P Require Import Prelude Trap Value WasmInt MemoryType Slot Locals Encoder Cells Float InitExpr.
From S2P Require Import Header Control TransStack Instr BinaryOps UnaryOps AccessOps OpSelect Sink.
From S2P Require Import Translator TransOps TransControl Visit Run.
Local Open Scope Z_scope.

Section Examples.
Local Existing Instance default_target.
Local Instance nans : FloatNans := demo_nans false.

(** The types of the functions and blocks of the examples; a block type is an
    index into the types. *)
Definition func_ty (key : Z) : FuncType :=
  if key =? 0 then FuncType_of [ValType_I32; ValType_I32; ValType_I32] [ValType_I32]
  else if key =? 1 then FuncType_of [ValType_I32] []
  else FuncType_of [] [ValType_I32; ValType_I32].

Definition header : ModuleHeader := {|
  mh_func_types := [0; 1; 2]; mh_len_imported_funcs := 0; mh_len_imported_globals := 0; mh_funcs := [0];
  mh_tables := [];
  mh_memories := [{| mt_minimum := 1; mt_maximum := None; mt_page_size_log2 := 16; mt_index_type := IndexType_I32 |}];
  mh_globals := []; mh_globals_init := []; mh_engine_funcs := EngineFuncSpan_empty |}.

Notation body := (list (FM Listing unit)).

(** Translates a function with three [i32] parameters and an [i32] result. *)
Definition compile (operators : body) : res TransError (Z * Z) * FuncTranslator Listing :=
  translate_func func_ty 0 header false (Listing_new None) [] operators.

(** Its result when it is called with [params], the integer register holding [reg]. *)
Definition call (operators : body) (params : list Z) (junk reg : Z) : option Z :=
  match compile operators with
  | (Ok (len_local_slots, len_stack_slots), self) =>
      match call_listing 100 (ft_instrs self) params len_local_slots len_stack_slots junk
        {| ireg := reg; freg32 := 0; freg64 := 0 |} with
      | Ok (Some cells) => head cells
      | _ => None
      end
  | _ => None
  end.

Definition local_get := visit_local_get (I := Listing).
Definition i32_const := visit_i32_const (I := Listing).
Definition end_ := visit_end (I := Listing) func_ty.
Definition block_ty (key : Z) := WasmBlock_FuncType key.

(** [(select (local.get 1) (local.get 2) (i32.eqz (local.get 0)))]. *)
Definition select_eqz : body :=
  [local_get 1; local_get 2; local_get 0; visit_i32_eqz; visit_select; end_].

(** [(local.set 0 (i32.add (local.get 1) (i32.const 1)))], then [local.get 0] below a
    loop with a parameter. *)
Definition loop_param : body :=
  [local_get 1; i32_const 1; visit_i32_add; visit_local_set 0;
   local_get 0; local_get 2; visit_loop func_ty (block_ty 1); visit_drop; end_; end_].

(** [local.get 0] below an [if] with a parameter that sets the local in one branch. *)
Definition if_param : body :=
  [local_get 0; i32_const 5; local_get 1;
   visit_if func_ty (block_ty 1); visit_drop; i32_const 9; visit_local_set 0; visit_else; visit_drop; end_;
   end_].

(** A [br_table] with two parameters and another operand below them. *)
Definition br_table_params : body :=
  [visit_block func_ty (block_ty 2); visit_block func_ty (block_ty 2);
   i32_const 99; local_get 0; local_get 1; local_get 2;
   visit_br_table func_ty {| br_targets := [0]; br_default := 1 |};
   end_; end_; i32_const 10; visit_i32_mul; visit_i32_add; end_].

(** A store of an address to itself while the address is in the register. *)
Definition store_address (offset : Z) : body :=
  [local_get 1; i32_const 1; visit_i32_add; visit_local_set 0;
   local_get 0; local_get 0; visit_i32_store {| ma_memory := 0; ma_offset := offset |};
   local_get 0; end_].

(** The fused [i32.eqz] is dropped but its operand is not moved to the register
    the [select] reads: the condition is what the register held before. *)
Theorem select_eqz_reads_stale_register : forall junk,
  (forall a, call select_eqz [a; 10; 20] junk 0 = Some 10) /\ (forall a, call select_eqz [a; 10; 20] junk 1 = Some 20).
Proof. intros junk. split; intros a; vm_compute; reflexivity. Qed.

(** The parameter of the loop is copied to the integer register before the local
    that is in that register is copied from it: the function returns its third
    parameter instead of the second one plus one. *)
Theorem loop_param_overwrites_local junk reg : call loop_param [0; 10; 20] junk reg = Some 20.
Proof. vm_compute. reflexivity. Qed.

(** The operand below the parameter of the [if] is preserved in the branch that
    sets the local only: in the other one the function returns [junk] instead of
    its first parameter. *)
Theorem if_param_drops_local reg :
  call if_param [3; 1; 2] 77 reg = Some 3 /\
  call if_param [3; 0; 2] 77 reg = Some 77 /\ call if_param [3; 0; 2] 78 reg = Some 78.
Proof. repeat split; vm_compute; reflexivity. Qed.

(** The function returns 60 instead of 21. *)
Theorem br_table_misses_params reg : call br_table_params [1; 2; 0] 40 reg = Some 60.
Proof. vm_compute. reflexivity. Qed.

(** Constants that are not in 16 bits panic the translation. *)
Theorem store_address_panics : 
  fst (compile (store_address 65536)) = Panic /\ exists n, fst (compile (store_address 65535)) = Ok n.
Proof. split; [vm_compute; reflexivity|]. eexists. vm_compute. reflexivity. Qed.
End Examples.
