(* ===== verification/Exec.v ===== *)
(** * The operator handlers

    [crates/wasmi/src/engine/executor/handler/exec.rs] with the generic handlers
    of [exec/macros.rs], the accessors of [args.rs] and the resolvers of
    [utils.rs].  A handler is a function of the decoded fields of its operator and
    of the registers of the loop; [self] holds the instruction pointer behind the
    operator, [ip] is the pointer to the operator itself.

    Where the source is undefined or panics (a missing entity, a dangling
    pointer), the model panics.  Behind the code of a function is [code_at]; the
    compiler and host functions are the parameters of [Calls]. *)

From Stdlib Require Import ZArith Lia.
From stdpp Require Import base option decidable numbers list.
From S2P Require Import Prelude Trap Value WasmInt Fuel Limiter MemoryType MemoryAccess Memory Table Slot.
From S2P Require Import Codec EncodedOps Cells ExecStack Calls Arena Store.
Local Open Scope Z_scope.

(** The address of the bytes of a memory of some length: a memory moves only
    when it grows, and no two memories share an address. *)
Class MemoryAddress : Type := {
  data_ptr : RawHandle -> Z -> Z;
  data_ptr_inj : forall k n k' n', data_ptr k n = data_ptr k' n' -> k = k'
}.

(** The bytes of the code from an address on. *)
Class Code : Type := code_at : Ip -> list Z.

(** What is not part of the store: the compiler and the host functions. *)
Class Host (L Error : Type) : Type := {
  host_get_or_compile : EngineFunc -> M (PrunedStore L) Error (Ip * Z * Z);
  host_call : Trampoline -> option Inst -> InOutParams -> M (PrunedStore L) Error (list Cell)
}.

Section Exec.
Context `{Allocator} `{Uninit} `{MemoryAddress} `{Code} `{Endian} `{Dispatch}.
Context {L Error : Type} `{ResourceLimiter L} `{Host L Error}.

(** ** Instances and their entities *)

(** An [Inst] is the address of an entity: the number of its handle. *)
Definition Inst_as_ref (store : StoreInner) (inst : Inst) : option InstanceEntity :=
  match Arena_get (si_instances store) {| rh_raw := inst |} with Ok entity => Some entity | _ => None end.

(** [utils::extract_mem0]; without a memory the pointer is dangling. *)
Definition utils_extract_mem0 (store : StoreInner) (instance : Inst) : Mem0 :=
  match instance ← Inst_as_ref store instance; get_memory instance 0 with
  | Some memory =>
      match try_resolve_mut sa_memories store memory with
      | Ok mem0 =>
          let mem0_len := Z.of_nat (length (Memory_data mem0)) in
          {| mem0_ptr := data_ptr (st_value memory) mem0_len; mem0_len := mem0_len |}
      | _ => {| mem0_ptr := 0; mem0_len := 0 |}
      end
  | None => {| mem0_ptr := 0; mem0_len := 0 |}
  end.

#[export] Instance store_engine : Engine (PrunedStore L) Error := {
  extract_mem0 store := utils_extract_mem0 store.1;
  get_or_compile := host_get_or_compile;
  call_host_func := host_call
}.

Notation VmStore := (VmState (PrunedStore L)).
Notation VM A := (M VmStore (Halt Error) A).

(** The arguments of a handler with the accumulators. *)
Record ExArgs : Type := { xa_args : Args; xa_regs : Regs }.

Definition xa_ip (self : ExArgs) : Ip := a_ip (xa_args self).
Definition set_ip (new_ip : Ip) (self : ExArgs) : ExArgs := {|
  xa_args := {| a_ip := new_ip; a_sp := a_sp (xa_args self); a_mem0 := a_mem0 (xa_args self);
                a_instance := a_instance (xa_args self) |};
  xa_regs := xa_regs self |}.
Definition offset_ip (offset : BranchOffset) (self : ExArgs) : ExArgs :=
  set_ip (xa_ip self + branch_offset offset) self.
Definition reload_mem0 (store : PrunedStore L) (self : ExArgs) : ExArgs :=
  {| xa_args := Args_reload_mem0 (Error := Error) store (xa_args self); xa_regs := xa_regs self |}.

(** [unreachable_unchecked!] and [panic!] on an error. *)
Definition unchecked {E F A} (r : res E A) : res F A := match r with Ok a => Ok a | _ => Panic end.

Definition inner : VM StoreInner := st ← get_st; mret (vm_store st).1.
Definition put_inner (s : StoreInner) : VM unit :=
  st ← get_st; put_st {| vm_store := (s, (vm_store st).2); vm_stack := vm_stack st |}.

(** [trap!] and [into_control]. *)
Definition trap {A} (code : TrapCode) : VM A := fail (Halt_Trap code).
Definition into_control {A} (r : res TrapCode A) : VM A := lift (map_err Halt_Trap r).

(** [fetch_data], ..., [fetch_func_type]. *)
Definition fetch {A} (getter : InstanceEntity -> Z -> option A) (index : Z) (self : ExArgs) : VM A :=
  s ← inner;
  lift (expect (instance ← Inst_as_ref s (a_instance (xa_args self)); getter instance index)).

Definition resolve_entity {Entity} (sa : StoreArena Entity) (idx : Handle) : VM Entity :=
  s ← inner; lift (unchecked (try_resolve_mut sa s idx)).

Definition write_entity {Entity} (sa : StoreArena Entity) (idx : Handle) (entity : Entity) : VM unit :=
  s ← inner; put_inner (put_entity sa idx entity s).

Definition put_fuel (f : Fuel) : VM unit := s ← inner; put_inner (set_si_fuel f s).

(** ** Registers and slots *)

(** The cells a stack pointer reaches; nothing for a dangling one. *)
Definition sp_cells_of (sp : Sp) (s : Stack) : list Cell :=
  match sp with
  | Sp_new start => drop (Z.to_nat start) (vs_cells (st_values s))
  | Sp_dangling => []
  end.
Definition set_sp_cells (sp : Sp) (cells : list Cell) (s : Stack) : Stack :=
  match sp with
  | Sp_new start =>
      {| st_values := set_cells (take (Z.to_nat start) (vs_cells (st_values s)) ++ cells) (st_values s);
         st_frames := st_frames s; st_regs := st_regs s |}
  | Sp_dangling => s
  end.

Definition frame_state (self : ExArgs) (s : Stack) : Frame_state :=
  {| fr_cells := sp_cells_of (a_sp (xa_args self)) s; fr_regs := xa_regs self |}.

Definition args_get (p : Prim) (src : Src) (self : ExArgs) : VM Z :=
  st ← get_st; lift (unchecked (get_value p src (frame_state self (vm_stack st)))).

(** Runs an operation on the frame of [self]. *)
Definition on_frame {A} (m : M Frame_state unit A) (self : ExArgs) : VM (A * ExArgs) := fun st =>
  let '(r, fs) := m (frame_state self (vm_stack st)) in
  let st' := {| vm_store := vm_store st;
                vm_stack := set_sp_cells (a_sp (xa_args self)) (fr_cells fs) (vm_stack st) |} in
  match r with
  | Ok a => (Ok (a, {| xa_args := xa_args self; xa_regs := fr_regs fs |}), st')
  | _ => (Panic, st')
  end.

Definition args_set (dst : Dst) (p : Prim) (value : Z) (self : ExArgs) : VM ExArgs :=
  '(_, self) ← on_frame (set_value dst p value) self; mret self.

(** [exec_copy_span] on the frame; a span has less than [2^16] slots. *)
Definition copy_span_fuel : nat := Z.to_nat (2 ^ 16).
Definition copy_span_on (dst src : SlotSpan) (len : Z) (self : ExArgs) : VM ExArgs :=
  '(_, self) ← on_frame (zoom fr_cells (fun c fs => {| fr_cells := c; fr_regs := fr_regs fs |}) id
                           (exec_copy_span copy_span_fuel dst src len)) self;
  mret self.

(** ** Bytes of memories *)

(** The memory whose bytes start at [ptr]. *)
Fixpoint find_data (ptr n : Z) (memories : list Memory) : option (RawHandle * Memory) :=
  match memories with
  | [] => None
  | m :: memories =>
      let key := {| rh_raw := n |} in
      if data_ptr key (Z.of_nat (length (Memory_data m))) =? ptr then Some (key, m)
      else find_data ptr (n + 1) memories
  end.

(** [mem0_bytes]: a slice of [mem0_len] bytes from the cached pointer on; [None]
    is the empty slice. *)
Definition mem0_memory (mem0 : Mem0) : VM (option (RawHandle * Memory)) :=
  if mem0_len mem0 =? 0 then mret None else
  s ← inner;
  '(key, m) ← lift (expect (find_data (mem0_ptr mem0) 1 (items (si_memories s))));
  assert_m (mem0_len mem0 <=? Z.of_nat (length (Memory_data m)));;
  mret (Some (key, m)).

Definition fetch_default_memory_bytes (self : ExArgs) : VM (list Z) :=
  m ← mem0_memory (a_mem0 (xa_args self));
  mret (match m with
        | Some (_, m) => take (Z.to_nat (mem0_len (a_mem0 (xa_args self)))) (Memory_data m)
        | None => []
        end).

Definition fetch_memory_bytes (memory : Z) (self : ExArgs) : VM (list Z) :=
  if memory =? 0 then fetch_default_memory_bytes self else
  memory ← fetch get_memory memory self;
  m ← resolve_entity sa_memories memory;
  mret (Memory_data m).

(** Writing through these slices. *)
Definition write_default_memory_bytes (bytes : list Z) (self : ExArgs) : VM unit :=
  m ← mem0_memory (a_mem0 (xa_args self));
  match m with
  | Some (key, m) =>
      s ← inner;
      let data := bytes ++ drop (length bytes) (Memory_data m) in
      put_inner (sa_set sa_memories (Arena_update key (Memory_set_data data m) (si_memories s)) s)
  | None => mret tt
  end.

Definition write_memory_bytes (memory : Z) (bytes : list Z) (self : ExArgs) : VM unit :=
  if memory =? 0 then write_default_memory_bytes bytes self else
  memory ← fetch get_memory memory self;
  m ← resolve_entity sa_memories memory;
  write_entity sa_memories memory (Memory_set_data bytes m).

(** [utils::memory_slice]. *)
Definition memory_slice (m : Memory) (pos len : Z) : res TrapCode (list Z) :=
  ok_or (get_span pos len (Memory_data m)) MemoryOutOfBounds.

(** [consume_fuel!]: out of fuel the operator is run again on resumption. *)
Definition charge_fuel (ip : Ip) (cost : FuelCostsProvider -> Z) (self : ExArgs) : VM unit :=
  s ← inner;
  match consume_fuel_if cost (si_fuel s) with
  | (Err (FuelError_OutOfFuel required_fuel), fuel) =>
      put_fuel fuel;; out_of_fuel ip (xa_regs self) required_fuel
  | (Panic, _) => panic
  | (_, fuel) => put_fuel fuel
  end.

(** ** Control *)

Definition exec_trap (trap_code : TrapCode) (self : ExArgs) : VM ExArgs := trap trap_code.

Definition exec_consume_fuel (ip : Ip) (fuel : BlockFuel) (self : ExArgs) : VM ExArgs :=
  s ← inner;
  match consume_fuel_unchecked (block_fuel fuel) (si_fuel s) with
  | (Err (FuelError_OutOfFuel required_fuel), fuel) =>
      put_fuel fuel;; out_of_fuel ip (xa_regs self) required_fuel
  | (Panic, _) => panic
  | (_, fuel) => put_fuel fuel;; mret self
  end.

Definition exec_branch (ip : Ip) (offset : BranchOffset) (self : ExArgs) : VM ExArgs :=
  mret (offset_ip offset (set_ip ip self)).

Definition fetch_branch_table_target (index : Src) (len_targets : Z) (self : ExArgs) : VM Z :=
  index ← args_get P_u32 index self;
  let max_index := len_targets - 1 in
  mret (Z.min index max_index).

(** [ip.decode::<T>()]: the value and the pointer behind it. *)
Definition Ip_decode {A} (decode : M (list Z) DecodeError A) (ip : Ip) : VM (Ip * A) :=
  let bytes := code_at ip in
  match decode bytes with
  | (Ok a, rest) => mret (ip + Z.of_nat (length bytes - length rest), a)
  | _ => panic
  end.

Definition exec_branch_table (index : Src) (len_targets : Z) (self : ExArgs) : VM ExArgs :=
  chosen_target ← fetch_branch_table_target index len_targets self;
  let target_offset := 4 * chosen_target in
  let self := set_ip (xa_ip self + target_offset) self in
  '(_, offset) ← Ip_decode BranchOffset_decode (xa_ip self);
  mret (offset_ip offset self).

Definition exec_branch_table_with_copies (index : Src) (len_targets : Z) (values : BoundedSlotSpan)
    (self : ExArgs) : VM ExArgs :=
  chosen_target ← fetch_branch_table_target index len_targets self;
  let len_encoded_target := if indirect_dispatch then 6 else 8 in
  let target_offset := len_encoded_target * chosen_target in
  let self := set_ip (xa_ip self + target_offset) self in
  '(_, target) ← Ip_decode BranchTableTarget_decode (xa_ip self);
  let results := btt_results target in
  let values_len := bspan_len values in
  let values := bspan values in
  self ← (if bool_decide (span_head results = span_head values) then mret self
          else copy_span_on results values values_len self);
  mret (offset_ip (btt_offset target) self).

(** ** Calls *)

Definition on_args (m : Args -> VM Args) (self : ExArgs) : VM ExArgs :=
  args ← m (xa_args self); mret {| xa_args := args; xa_regs := xa_regs self |}.

Definition exec_call_internal (params : BoundedSlotSpan) (func : EngineFunc) : ExArgs -> VM ExArgs :=
  on_args (Args_call_func_entry func params None).
Definition exec_return_call_internal (params : BoundedSlotSpan) (func : EngineFunc) : ExArgs -> VM ExArgs :=
  on_args (Args_return_call_func_entry func params None).

Definition call_wasm_or_host_func (func : Handle) (params : BoundedSlotSpan) (self : ExArgs) : VM ExArgs :=
  func ← resolve_entity sa_funcs func;
  on_args (call_wasm_or_host func params) self.
Definition return_call_wasm_or_host_func (func : Handle) (params : BoundedSlotSpan) (self : ExArgs) : VM ExArgs :=
  func ← resolve_entity sa_funcs func;
  on_args (return_call_wasm_or_host func params) self.

Definition exec_call_imported (params : BoundedSlotSpan) (func : Z) (self : ExArgs) : VM ExArgs :=
  func ← fetch get_func func self;
  call_wasm_or_host_func func params self.
Definition exec_return_call_imported (params : BoundedSlotSpan) (func : Z) (self : ExArgs) : VM ExArgs :=
  func ← fetch get_func func self;
  return_call_wasm_or_host_func func params self.

Definition resolve_indirect_func (index : Src) (table func_type : Z) (self : ExArgs) : VM Handle :=
  index ← args_get P_u64 index self;
  table ← fetch get_table table self;
  table ← resolve_entity sa_tables table;
  rawref ← into_control (ok_or (Table_get table index) TableOutOfBounds);
  assert_m (bool_decide (tref_ty rawref = RefType_Func));;
  s ← inner;
  func ← into_control (ok_or (Nullable_from_raw_parts (tref_raw rawref) (si_id s)) IndirectCallToNull);
  let func := {| st_store := st_store func; st_value := {| rh_raw := st_value func |} |} in
  entity ← resolve_entity sa_funcs func;
  let actual_fnty := FuncEntity_ty_dedup entity in
  expected_fnty ← fetch get_signature func_type self;
  if bool_decide (expected_fnty = actual_fnty) then mret func else trap BadSignature.

Definition exec_call_indirect (table func_type : Z) (params : BoundedSlotSpan) (index : Src) (self : ExArgs) :
    VM ExArgs :=
  func ← resolve_indirect_func index table func_type self;
  call_wasm_or_host_func func params self.
Definition exec_return_call_indirect (table func_type : Z) (params : BoundedSlotSpan) (index : Src)
    (self : ExArgs) : VM ExArgs :=
  func ← resolve_indirect_func index table func_type self;
  return_call_wasm_or_host_func func params self.

Definition exec_return : ExArgs -> VM ExArgs := on_args Args_pop_frame.

(** ** Globals *)

Definition exec_global_get (p : Prim) (global : Z) (result : Dst) (self : ExArgs) : VM ExArgs :=
  global ← fetch get_global global self;
  global ← resolve_entity sa_globals global;
  args_set result p (RawVal_read_as p (g_value global)) self.

Definition exec_global_set (p : Prim) (global : Z) (value : Src) (self : ExArgs) : VM ExArgs :=
  handle ← fetch get_global global self;
  global ← resolve_entity sa_globals handle;
  value ← args_get p value self;
  value_ptr ← lift (CoreGlobal_get_raw_ptr global);
  write_entity sa_globals handle (CoreGlobal_write (RawVal_write_as p value value_ptr) global);;
  mret self.

(** ** Memories *)

Definition exec_memory_size (memory : Z) (result : Dst) (self : ExArgs) : VM ExArgs :=
  memory ← fetch get_memory memory self;
  memory ← resolve_entity sa_memories memory;
  args_set result P_u64 (Memory_size memory) self.

Definition exec_memory_grow (ip : Ip) (memory : Z) (result : Dst) (delta : Src) (self : ExArgs) : VM ExArgs :=
  delta ← args_get P_u64 delta self;
  memref ← fetch get_memory memory self;
  st ← get_st;
  let '(r, store) := grow_memory memref delta (vm_store st) in
  put_st {| vm_store := store; vm_stack := vm_stack st |};;
  match r with
  | Ok return_value =>
      let self := if memory =? 0 then reload_mem0 store self else self in
      args_set result P_u64 return_value self
  | Err (StoreError_External (ME_OutOfBoundsGrowth | ME_OutOfSystemMemory)) =>
      m ← resolve_entity sa_memories memref;
      let return_value := if MemoryType_is_64 (mem_ty m) then 2 ^ 64 - 1 else 2 ^ 32 - 1 in
      args_set result P_u64 return_value self
  | Err (StoreError_External (ME_OutOfFuel required_fuel)) => out_of_fuel ip (xa_regs self) required_fuel
  | Err (StoreError_External ME_ResourceLimiterDeniedAllocation) => trap GrowthOperationLimited
  | _ => panic
  end.

(** [usize::try_from]. *)
Definition try_usize (z : Z) : VM Z := into_control (ok_or (try_from_u usize_bits z) MemoryOutOfBounds).

Definition memory_copy_within (ip : Ip) (dst_memory dst_index src_index len : Z) (self : ExArgs) : VM unit :=
  memory ← fetch get_memory dst_memory self;
  m ← resolve_entity sa_memories memory;
  into_control (memory_slice m src_index len);;
  into_control (memory_slice m dst_index len);;
  charge_fuel ip (fun costs => fuel_for_copying_values costs 1 len) self;;
  data ← lift (expect (slice_copy_within src_index (wrapu usize_bits (src_index + len)) dst_index (Memory_data m)));
  write_entity sa_memories memory (Memory_set_data data m).

Definition exec_memory_copy (ip : Ip) (dst_memory src_memory : Z) (dst src len : Src) (self : ExArgs) : VM ExArgs :=
  dst ← args_get P_u64 dst self;
  src ← args_get P_u64 src self;
  len ← args_get P_u64 len self;
  dst_index ← try_usize dst;
  src_index ← try_usize src;
  len ← try_usize len;
  if dst_memory =? src_memory then
    memory_copy_within ip dst_memory dst_index src_index len self;; mret self
  else
  dst_memory ← fetch get_memory dst_memory self;
  src_memory ← fetch get_memory src_memory self;
  s ← inner;
  '(src_m, dst_m, _) ← lift (unchecked (try_resolve_pair_and_fuel sa_memories s src_memory dst_memory));
  src_bytes ← into_control (memory_slice src_m src_index len);
  into_control (memory_slice dst_m dst_index len);;
  charge_fuel ip (fun costs => fuel_for_copying_values costs 1 len) self;;
  write_entity sa_memories dst_memory (Memory_set_data (set_span dst_index src_bytes (Memory_data dst_m)) dst_m);;
  mret self.

Definition exec_memory_fill (ip : Ip) (memory : Z) (dst len value : Src) (self : ExArgs) : VM ExArgs :=
  dst ← args_get P_u64 dst self;
  len ← args_get P_u64 len self;
  value ← args_get P_u8 value self;
  dst ← try_usize dst;
  len ← try_usize len;
  memory ← fetch get_memory memory self;
  m ← resolve_entity sa_memories memory;
  into_control (memory_slice m dst len);;
  charge_fuel ip (fun costs => fuel_for_copying_values costs 1 len) self;;
  write_entity sa_memories memory
    (Memory_set_data (set_span dst (replicate (Z.to_nat len) value) (Memory_data m)) m);;
  mret self.

Definition exec_memory_init (ip : Ip) (memory data : Z) (dst src len : Src) (self : ExArgs) : VM ExArgs :=
  dst ← args_get P_u64 dst self;
  src ← args_get P_u32 src self;
  len ← args_get P_u32 len self;
  dst_index ← try_usize dst;
  src_index ← try_usize src;
  len ← try_usize len;
  memory ← fetch get_memory memory self;
  data ← fetch get_data_segment data self;
  s ← inner;
  '(m, data, _) ← lift (unchecked (try_resolve_memory_init_params s memory data));
  into_control (memory_slice m dst_index len);;
  bytes ← into_control (ok_or (get_span src_index len (DataSegmentEntity_bytes data)) MemoryOutOfBounds);
  charge_fuel ip (fun costs => fuel_for_copying_values costs 1 len) self;;
  write_entity sa_memories memory (Memory_set_data (set_span dst_index bytes (Memory_data m)) m);;
  mret self.

Definition exec_data_drop (data : Z) (self : ExArgs) : VM ExArgs :=
  data ← fetch get_data_segment data self;
  entity ← resolve_entity sa_datas data;
  write_entity sa_datas data (DataSegmentEntity_drop_bytes entity);;
  mret self.

(** ** Tables *)

Definition exec_table_size (table : Z) (result : Dst) (self : ExArgs) : VM ExArgs :=
  table ← fetch get_table table self;
  table ← resolve_entity sa_tables table;
  args_set result P_u64 (Table_size table) self.

Definition exec_table_grow (table : Z) (result : Dst) (delta value : Src) (self : ExArgs) : VM ExArgs :=
  table ← fetch get_table table self;
  delta ← args_get P_u64 delta self;
  value ← args_get P_u32 value self;
  st ← get_st;
  let '(r, store) := grow_table table delta {| ref_bits := value |} (vm_store st) in
  put_st {| vm_store := store; vm_stack := vm_stack st |};;
  match r with
  | Ok return_value => args_set result P_u64 return_value self
  | Err (StoreError_External (TE_GrowOutOfBounds | TE_OutOfSystemMemory)) =>
      t ← resolve_entity sa_tables table;
      let return_value := if TableType_is_64 (tab_ty t) then 2 ^ 64 - 1 else 2 ^ 32 - 1 in
      args_set result P_u64 return_value self
  | Err (StoreError_External (TE_OutOfFuel required_fuel)) =>
      fail (Halt_Done (DoneReason_OutOfFuel required_fuel))
  | Err (StoreError_External TE_ResourceLimiterDeniedAllocation) => trap GrowthOperationLimited
  | _ => panic
  end.

(** Runs a bulk operation on a table and the fuel of the store; [oob] is the
    error of an access out of bounds. *)
Definition on_table (ip : Ip) (table : Handle) (oob : TableError) (m : M TableFuel TableError unit)
    (self : ExArgs) : VM unit :=
  t ← resolve_entity sa_tables table;
  s ← inner;
  let '(r, (t, fuel)) := m (t, Some (si_fuel s)) in
  write_entity sa_tables table t;;
  put_fuel (default (si_fuel s) fuel);;
  match r with
  | Ok _ => mret tt
  | Err error =>
      match error with
      | TE_OutOfSystemMemory => trap TrapCode_OutOfSystemMemory
      | TE_OutOfFuel required_fuel => out_of_fuel ip (xa_regs self) required_fuel
      | _ => if bool_decide (error = oob) then trap TableOutOfBounds else panic
      end
  | Panic => panic
  end.

Definition exec_table_copy (ip : Ip) (dst_table src_table : Z) (dst src len : Src) (self : ExArgs) : VM ExArgs :=
  dst ← args_get P_u64 dst self;
  src ← args_get P_u64 src self;
  len ← args_get P_u64 len self;
  if dst_table =? src_table then
    table ← fetch get_table dst_table self;
    on_table ip table TE_CopyOutOfBounds (Table_copy_within dst src len) self;; mret self
  else
  dst_table ← fetch get_table dst_table self;
  src_table ← fetch get_table src_table self;
  s ← inner;
  '(_, src_t, _) ← lift (unchecked (try_resolve_pair_and_fuel sa_tables s dst_table src_table));
  on_table ip dst_table TE_CopyOutOfBounds (Table_copy dst src_t src len) self;;
  mret self.

Definition exec_table_fill (ip : Ip) (table : Z) (dst len value : Src) (self : ExArgs) : VM ExArgs :=
  dst ← args_get P_u64 dst self;
  len ← args_get P_u64 len self;
  value ← args_get P_u32 value self;
  table ← fetch get_table table self;
  on_table ip table TE_FillOutOfBounds (Table_fill_raw dst {| ref_bits := value |} len) self;;
  mret self.

Definition exec_table_init (ip : Ip) (table elem : Z) (dst src len : Src) (self : ExArgs) : VM ExArgs :=
  dst ← args_get P_u64 dst self;
  src ← args_get P_u32 src self;
  len ← args_get P_u32 len self;
  table ← fetch get_table table self;
  elem ← fetch get_element_segment elem self;
  s ← inner;
  '(_, element, _) ← lift (unchecked (try_resolve_table_init_params s table elem));
  on_table ip table TE_InitOutOfBounds (Table_init element dst src len) self;;
  mret self.

Definition exec_elem_drop (elem : Z) (self : ExArgs) : VM ExArgs :=
  elem ← fetch get_element_segment elem self;
  entity ← resolve_entity sa_elems elem;
  write_entity sa_elems elem (ElementSegment_drop_items entity);;
  mret self.

(** [p] is [u64], or [u32] for an immediate index. *)
Definition exec_table_get (p : Prim) (table : Z) (result : Dst) (index : Src) (self : ExArgs) : VM ExArgs :=
  table ← fetch get_table table self;
  table ← resolve_entity sa_tables table;
  index ← args_get p index self;
  value ← into_control (ok_or (Table_get table index) TableOutOfBounds);
  args_set result P_u32 (ref_bits (tref_raw value)) self.

Definition exec_table_set (p : Prim) (table : Z) (index value : Src) (self : ExArgs) : VM ExArgs :=
  handle ← fetch get_table table self;
  table ← resolve_entity sa_tables handle;
  index ← args_get p index self;
  value ← args_get P_u32 value self;
  match Table_set_raw index {| ref_bits := value |} table with
  | (Err TE_SetOutOfBounds, _) => trap TableOutOfBounds
  | (_, table) => write_entity sa_tables handle table;; mret self
  end.

Definition exec_ref_func (func : Z) (result : Dst) (self : ExArgs) : VM ExArgs :=
  func ← fetch get_func func self;
  s ← inner;
  rawref ← lift (expect (StoreId_unwrap (si_id s) func));
  args_set result P_u32 (rh_raw rawref) self.

(** ** Arithmetic

    [eval] is the function the handler's table names; [pv], [pl], [pr] and [po] are
    the types it is applied at. *)
Definition handler_unary (pv po : Prim) (eval : Z -> res TrapCode Z) (result : Dst) (value : Src)
    (self : ExArgs) : VM ExArgs :=
  value ← args_get pv value self;
  value ← into_control (eval value);
  args_set result po value self.

Definition handler_binary (pl pr po : Prim) (eval : Z -> Z -> res TrapCode Z) (result : Dst) (lhs rhs : Src)
    (self : ExArgs) : VM ExArgs :=
  lhs ← args_get pl lhs self;
  rhs ← args_get pr rhs self;
  value ← into_control (eval lhs rhs);
  args_set result po value self.

Definition handler_cmp_branch (p : Prim) (eval : Z -> Z -> bool) (ip : Ip) (offset : BranchOffset)
    (lhs rhs : Src) (self : ExArgs) : VM ExArgs :=
  lhs ← args_get p lhs self;
  rhs ← args_get p rhs self;
  mret (if eval lhs rhs then offset_ip offset (set_ip ip self) else self).

Definition handler_select (p : Prim) (result : Dst) (condition true_val false_val : Src) (self : ExArgs) : VM ExArgs :=
  condition ← args_get P_i32 condition self;
  true_val ← args_get p true_val self;
  false_val ← args_get p false_val self;
  let selected := if condition =? 0 then false_val else true_val in
  args_set result p selected self.

(** [eval] yields the low and the high half. *)
Definition handler_binop128 (eval : Z -> Z -> Z -> Z -> Z * Z) (results : SlotSpan)
    (lhs_lo lhs_hi rhs_lo rhs_hi : Src) (self : ExArgs) : VM ExArgs :=
  lhs_lo ← args_get P_i64 lhs_lo self;
  lhs_hi ← args_get P_i64 lhs_hi self;
  rhs_lo ← args_get P_i64 rhs_lo self;
  rhs_hi ← args_get P_i64 rhs_hi self;
  let '(result_lo, result_hi) := eval lhs_lo lhs_hi rhs_lo rhs_hi in
  self ← args_set (Dst_slot (span_head results)) P_i64 result_lo self;
  args_set (Dst_slot (Slot_next (span_head results))) P_i64 result_hi self.

Definition handler_mul_wide (eval : Z -> Z -> Z * Z) (results : SlotSpan) (lhs rhs : Src) (self : ExArgs) : VM ExArgs :=
  lhs ← args_get P_i64 lhs self;
  rhs ← args_get P_i64 rhs self;
  let '(result_lo, result_hi) := eval lhs rhs in
  self ← args_set (Dst_slot (span_head results)) P_i64 result_lo self;
  args_set (Dst_slot (Slot_next (span_head results))) P_i64 result_hi self.

(** ** Loads and stores *)

Definition handler_load (p : Prim) (eval : list Z -> Z -> Z -> res TrapCode Z) (result : Dst) (ptr offset : Src)
    (memory : Z) (self : ExArgs) : VM ExArgs :=
  ptr ← args_get P_u64 ptr self;
  offset ← args_get P_u64 offset self;
  bytes ← fetch_memory_bytes memory self;
  loaded ← into_control (eval bytes ptr offset);
  args_set result p loaded self.

Definition handler_load_ri (p : Prim) (eval : list Z -> Z -> res TrapCode Z) (result : Dst) (address : Src)
    (memory : Z) (self : ExArgs) : VM ExArgs :=
  address ← args_get P_u64 address self;
  bytes ← fetch_memory_bytes memory self;
  loaded ← into_control (eval bytes address);
  args_set result p loaded self.

Definition handler_load_mem0_offset16 (p : Prim) (eval : list Z -> Z -> Z -> res TrapCode Z) (result : Dst)
    (ptr offset : Src) (self : ExArgs) : VM ExArgs :=
  ptr ← args_get P_u64 ptr self;
  offset ← args_get P_u16 offset self;
  bytes ← fetch_default_memory_bytes self;
  loaded ← into_control (eval bytes ptr offset);
  args_set result p loaded self.

(** Runs a store on the bytes and writes them back. *)
Definition run_store (m : M (list Z) TrapCode unit) (bytes : list Z) (write : list Z -> VM unit) : VM unit :=
  let '(r, bytes) := m bytes in
  write bytes;;
  into_control r.

(** [hint] is the type of the value. *)
Definition handler_store (hint : Prim) (eval : Z -> Z -> Z -> M (list Z) TrapCode unit) (ptr offset value : Src)
    (memory : Z) (self : ExArgs) : VM ExArgs :=
  ptr ← args_get P_u64 ptr self;
  offset ← args_get P_u64 offset self;
  value ← args_get hint value self;
  bytes ← fetch_memory_bytes memory self;
  run_store (eval ptr offset value) bytes (fun bytes => write_memory_bytes memory bytes self);;
  mret self.

Definition handler_store_ix (hint : Prim) (eval : Z -> Z -> M (list Z) TrapCode unit) (address value : Src)
    (memory : Z) (self : ExArgs) : VM ExArgs :=
  address ← args_get P_u64 address self;
  value ← args_get hint value self;
  bytes ← fetch_memory_bytes memory self;
  run_store (eval address value) bytes (fun bytes => write_memory_bytes memory bytes self);;
  mret self.

Definition handler_store_mem0_offset16 (hint : Prim) (eval : Z -> Z -> Z -> M (list Z) TrapCode unit)
    (ptr offset value : Src) (self : ExArgs) : VM ExArgs :=
  ptr ← args_get P_u64 ptr self;
  offset ← args_get P_u16 offset self;
  value ← args_get hint value self;
  bytes ← fetch_default_memory_bytes self;
  run_store (eval ptr offset value) bytes (fun bytes => write_default_memory_bytes bytes self);;
  mret self.

End Exec.
