(* ===== verification/SimdExec.v ===== *)
(** * The handlers of the vector operators

    [executor/handler/exec/simd.rs] over the registers and the stack of [Exec]: the
    macros of the file and those of [exec/macros.rs] at the type [V128].  A vector is
    in two cells, its low half first. *)

From Stdlib Require Import ZArith Lia.
From stdpp Require Import base option decidable numbers list.
From S2P Require Import Prelude Trap Value WasmInt Fuel Limiter MemoryType MemoryAccess Memory Table Slot.
From S2P Require Import Codec EncodedOps Cells Float Simd SimdTables ExecStack Calls Arena Store Exec.
Local Open Scope Z_scope.

Section SimdExec.
Context `{Tg : Target} `{Fn : FloatNans}.
Context `{!Allocator} `{!Uninit} `{!MemoryAddress} `{!Code} `{!Endian} `{!Dispatch}.
Context {L Error : Type} `{!ResourceLimiter L} `{!Host L Error}.

Notation VmStore := (VmState (PrunedStore L)).
Notation VM A := (M VmStore (Halt Error) A).

(** ** Vectors in slots *)

(** [args.get] and [args.set] of a slot at the type [V128]. *)
Definition get_v128 (slot : Slot) (fs : Frame_state) : res unit V128 := Sp_get load_V128 slot (fr_cells fs).
Definition set_v128 (slot : Slot) (value : V128) : M Frame_state unit unit :=
  zoom fr_cells (fun c fs => {| fr_cells := c; fr_regs := fr_regs fs |}) id (Sp_set (store_V128 value) slot).

Definition args_get_v128 (slot : Slot) (self : ExArgs) : VM V128 :=
  st ← get_st; lift (unchecked (get_v128 slot (frame_state self (vm_stack st)))).
Definition args_set_v128 (slot : Slot) (value : V128) (self : ExArgs) : VM ExArgs :=
  '(_, self) ← on_frame (set_v128 slot value) self; mret self.

(** ** Handlers *)

Definition v128_copy_ss (result value : Slot) (self : ExArgs) : VM ExArgs :=
  value ← args_get_v128 value self; args_set_v128 result value self.
Definition v128_copy_si (result : Slot) (value : V128) (self : ExArgs) : VM ExArgs := args_set_v128 result value self.

(** [execution_handler_for_v128_select!] *)
Definition v128_select (result : Slot) (condition : Src) (true_val false_val : Slot) (self : ExArgs) : VM ExArgs :=
  condition ← args_get P_bool condition self;
  let selected := if condition =? 0 then false_val else true_val in
  selected ← args_get_v128 selected self;
  args_set_v128 result selected self.

(** [handler_unary!] with a vector as result, as operand and as both. *)
Definition handler_splat (p : Prim) (eval : Z -> V128) (result : Slot) (value : Src) (self : ExArgs) : VM ExArgs :=
  value ← args_get p value self;
  args_set_v128 result (eval value) self.
Definition handler_v_unary (eval : V128 -> V128) (result value : Slot) (self : ExArgs) : VM ExArgs :=
  value ← args_get_v128 value self;
  args_set_v128 result (eval value) self.
Definition handler_v_test (out : Prim) (eval : V128 -> Z) (result : RegTy) (value : Slot) (self : ExArgs) : VM ExArgs :=
  value ← args_get_v128 value self;
  args_set (Dst_reg result) out (eval value) self.

(** [handler_binary!], with a vector or a scalar as second operand. *)
Definition handler_v_binary (eval : V128 -> V128 -> V128) (result lhs rhs : Slot) (self : ExArgs) : VM ExArgs :=
  lhs ← args_get_v128 lhs self;
  rhs ← args_get_v128 rhs self;
  args_set_v128 result (eval lhs rhs) self.
Definition handler_v_scalar (p : Prim) (eval : V128 -> Z -> V128) (result lhs : Slot) (rhs : Src) (self : ExArgs) :
    VM ExArgs :=
  lhs ← args_get_v128 lhs self;
  rhs ← args_get p rhs self;
  args_set_v128 result (eval lhs rhs) self.

(** [handler_ternary!] *)
Definition handler_ternary (eval : V128 -> V128 -> V128 -> V128) (result v0 v1 v2 : Slot) (self : ExArgs) : VM ExArgs :=
  v0 ← args_get_v128 v0 self;
  v1 ← args_get_v128 v1 self;
  v2 ← args_get_v128 v2 self;
  args_set_v128 result (eval v0 v1 v2) self.

(** [handler_load!] and [handler_store!] and their variants for 16-bit offsets into
    memory 0; a lane is stored like a vector. *)
Definition handler_v_load (eval : list Z -> Z -> Z -> res TrapCode V128) (result : Slot) (ptr offset : Src) (memory : Z)
    (self : ExArgs) : VM ExArgs :=
  ptr ← args_get P_u64 ptr self;
  offset ← args_get P_u64 offset self;
  bytes ← fetch_memory_bytes memory self;
  loaded ← into_control (eval bytes ptr offset);
  args_set_v128 result loaded self.
Definition handler_v_load_mem0_offset16 (eval : list Z -> Z -> Z -> res TrapCode V128) (result : Slot) (ptr offset : Src)
    (self : ExArgs) : VM ExArgs :=
  ptr ← args_get P_u64 ptr self;
  offset ← args_get P_u16 offset self;
  bytes ← fetch_default_memory_bytes self;
  loaded ← into_control (eval bytes ptr offset);
  args_set_v128 result loaded self.
Definition handler_v_store (eval : Z -> Z -> V128 -> M (list Z) TrapCode unit) (ptr offset : Src) (value : Slot)
    (memory : Z) (self : ExArgs) : VM ExArgs :=
  ptr ← args_get P_u64 ptr self;
  offset ← args_get P_u64 offset self;
  value ← args_get_v128 value self;
  bytes ← fetch_memory_bytes memory self;
  run_store (eval ptr offset value) bytes (fun bytes => write_memory_bytes memory bytes self);;
  mret self.
Definition handler_v_store_mem0_offset16 (eval : Z -> Z -> V128 -> M (list Z) TrapCode unit) (ptr offset : Src)
    (value : Slot) (self : ExArgs) : VM ExArgs :=
  ptr ← args_get P_u64 ptr self;
  offset ← args_get P_u16 offset self;
  value ← args_get_v128 value self;
  bytes ← fetch_default_memory_bytes self;
  run_store (eval ptr offset value) bytes (fun bytes => write_default_memory_bytes bytes self);;
  mret self.

Definition exec_vector (h : VHandler) : ExArgs -> VM ExArgs :=
  match h with
  | vh_splat p eval result value => handler_splat p eval result value
  | vh_unary eval result value => handler_v_unary eval result value
  | vh_test out eval result value => handler_v_test out eval result value
  | vh_binary eval result lhs rhs => handler_v_binary eval result lhs rhs
  | vh_scalar p eval result lhs rhs => handler_v_scalar p eval result lhs rhs
  | vh_ternary eval result a b c => handler_ternary eval result a b c
  | vh_load eval result ptr offset memory => handler_v_load eval result ptr offset memory
  | vh_load_mem0 eval result ptr offset => handler_v_load_mem0_offset16 eval result ptr offset
  | vh_store eval ptr offset value memory => handler_v_store eval ptr offset value memory
  | vh_store_mem0 eval ptr offset value => handler_v_store_mem0_offset16 eval ptr offset value
  end.

Definition exec_simd (op : SimdInst) : ExArgs -> VM ExArgs := exec_vector (simd_handler op).
End SimdExec.
