(* ===== verification/SimdVisitSpec.v ===== *)
(** * The visitors of the vector instructions emit the right operators

    The operator a visitor encodes reads the operands of the instruction off the frame
    and its handler computes the function of the instruction; constants are folded
    with the same function.  First what a handler computes from the slots and registers
    of a frame ([Computes]), then where the operands of a translation are
    ([Placement]) with the generic translations in those terms, then the visitors, a
    family at a time. *)

From Stdlib Require Import ZArith Lia.
From stdpp Require Import base option decidable numbers list.
From S2P Require Import Prelude Trap Value WasmInt Fuel Limiter MemoryType MemoryAccess Memory Table Slot Locals Operands.
From S2P Require Import OpFields Codec EncodedOps Encoder Cells Float Simd SimdSpec SimdTables ExecStack Calls Arena Store.
From S2P Require Import Header Control TransStack Instr AccessOps OpSelect Sink Translator TransOps Visit SimdOps SimdVisit.
From S2P Require Import OpTables AccessTables Run Exec SimdExec.
Local Open Scope Z_scope.

(** ** Vectors in slots *)

Section Slots.
Context `{Tg : Target}.

Lemma set_v128_run i v fs : in_u 16 i -> i + 1 < Z.of_nat (length (fr_cells fs)) ->
  set_v128 (Slot_from i) v fs =
  (Ok tt, {| fr_cells := <[Z.to_nat (i + 1) := wrapu 64 (Z.shiftr (V128_as_u128 v) 64)]>
                           (<[Z.to_nat i := wrapu 64 (V128_as_u128 v)]> (fr_cells fs));
             fr_regs := fr_regs fs |}).
Proof.
  intros Hi Hl. unfold set_v128, zoom, Sp_set, store_V128, store_prim, cells_write, Sp_writer. unfold_m.
  rewrite Sp_offset_from by done. unfold in_u in Hi. cbn [sp_index sp_cells].
  rewrite (proj2 (Z.leb_le _ _)), (proj2 (Z.ltb_lt _ _)) by lia. cbn [andb sp_index sp_cells].
  rewrite length_insert, (proj2 (Z.leb_le _ _)), (proj2 (Z.ltb_lt _ _)) by lia. cbn [andb map_err fst snd Cell_from].
  change 0xFFFFFFFFFFFFFFFF with (Z.ones 64). rewrite Z.land_ones by lia.
  fold (wrapu 64 (V128_as_u128 v)). by rewrite wrapu_wrapu.
Qed.

Lemma get_v128_run i lo hi fs : in_u 16 i -> fr_cells fs !! Z.to_nat i = Some lo ->
  fr_cells fs !! Z.to_nat (i + 1) = Some hi ->
  get_v128 (Slot_from i) fs = Ok (V128_from_u128 (Z.lor (Z.shiftl hi 64) lo)).
Proof.
  intros Hi Hlo Hhi. unfold get_v128, Sp_get, load_V128, cells_read, Sp_reader. unfold_m.
  rewrite Sp_offset_from by done. unfold in_u in Hi. cbn [sp_index sp_cells].
  rewrite (proj2 (Z.leb_le 0 i)) by lia. rewrite Hlo. cbn [expect sp_index sp_cells].
  rewrite (proj2 (Z.leb_le 0 (i + 1))) by lia. by rewrite Hhi.
Qed.

(** A vector that was written to a slot is read again; the registers and the cells
    that are not the two of the slot are kept. *)
Lemma set_get_v128 i v fs : V128_val v -> in_u 16 i -> i + 1 < Z.of_nat (length (fr_cells fs)) ->
  exists fs', set_v128 (Slot_from i) v fs = (Ok tt, fs') /\ get_v128 (Slot_from i) fs' = Ok v /\
    fr_regs fs' = fr_regs fs /\
    forall j, j <> Z.to_nat i -> j <> S (Z.to_nat i) -> fr_cells fs' !! j = fr_cells fs !! j.
Proof.
  intros Hv Hi Hl. rewrite set_v128_run by done. eexists. split; [done|].
  replace (Z.to_nat (i + 1)) with (S (Z.to_nat i)) by (unfold in_u in Hi; lia).
  split_and!; [|done|].
  - rewrite (get_v128_run i (wrapu 64 (V128_as_u128 v)) (wrapu 64 (Z.shiftr (V128_as_u128 v) 64))); [|done|..];
      cbn [fr_cells].
    + by rewrite V128_halves, V128_from_as.
    + rewrite list_lookup_insert_ne by lia. apply list_lookup_insert_eq. unfold in_u in Hi. lia.
    + replace (Z.to_nat (i + 1)) with (S (Z.to_nat i)) by (unfold in_u in Hi; lia).
      apply list_lookup_insert_eq. rewrite length_insert. unfold in_u in Hi. lia.
  - intros j H1 H2. cbn [fr_cells]. by rewrite !list_lookup_insert_ne by lia.
Qed.
End Slots.

(** ** What an operator computes *)

Section Computes.
Context `{Tg : Target} `{Fn : FloatNans}.
Context `{!Allocator} `{!Uninit} `{!MemoryAddress} `{!Code} `{!Endian} `{!Dispatch}.
Context {L Error : Type} `{!ResourceLimiter L} `{!Host L Error}.

(** The handler of [op] reads [value] off the frame and writes it to the slot
    [result], which is the result of [op]. *)
Definition computes (op : Instr) (result : Slot) (value : Frame_state -> res unit V128) : Prop :=
  result_ref op = Some result /\
  match op with
  | Instr_Simd op => forall self st,
      exec_simd (L := L) (Error := Error) op self st =
      (v ← lift (unchecked (value (frame_state self (vm_stack st)))); args_set_v128 result v self) st
  | _ => False
  end.

(** The register of values of type [p]. *)
Definition reg_of_prim (p : Prim) : RegTy := match p with P_f32 => Reg_f32 | P_f64 => Reg_f64 | _ => Reg_i64 end.

(** The same for a scalar of type [p], which is in its register then. *)
Definition computes_reg (op : Instr) (p : Prim) (value : Frame_state -> res unit Z) : Prop :=
  result_loc op = Some (Dst_location (Dst_reg (reg_of_prim p))) /\
  match op with
  | Instr_Simd op => forall self st,
      exec_simd (L := L) (Error := Error) op self st =
      (v ← lift (unchecked (value (frame_state self (vm_stack st)))); args_set (Dst_reg (reg_of_prim p)) p v self) st
  | _ => False
  end.

Definition reads1 {A} (value : Slot) (eval : V128 -> A) (fs : Frame_state) : res unit A :=
  a ← get_v128 value fs; Ok (eval a).
Definition reads2 (lhs rhs : Slot) (eval : V128 -> V128 -> V128) (fs : Frame_state) : res unit V128 :=
  a ← get_v128 lhs fs; b ← get_v128 rhs fs; Ok (eval a b).
Definition reads3 (a b c : Slot) (eval : V128 -> V128 -> V128 -> V128) (fs : Frame_state) : res unit V128 :=
  a ← get_v128 a fs; b ← get_v128 b fs; c ← get_v128 c fs; Ok (eval a b c).
Definition reads_scalar (p : Prim) (value : Src) (eval : Z -> V128) (fs : Frame_state) : res unit V128 :=
  x ← get_value p value fs; Ok (eval x).
Definition reads_mixed (p : Prim) (lhs : Slot) (rhs : Src) (eval : V128 -> Z -> V128) (fs : Frame_state) : res unit V128 :=
  a ← get_v128 lhs fs; x ← get_value p rhs fs; Ok (eval a x).

Ltac run_handler :=
  try (split; [reflexivity|intros self st; unfold exec_simd]); cbn [simd_handler exec_vector];
  unfold handler_splat, handler_v_unary, handler_v_test, handler_v_binary, handler_v_scalar, handler_ternary,
    args_get_v128, args_get, unchecked, reads1, reads2, reads3, reads_scalar, reads_mixed;
  unfold_m; repeat case_match; simplify_eq/=; try done.

Lemma computes_unary op result value : computes (op_unary op result value) result (reads1 value (v_unary_eval op)).
Proof. run_handler. Qed.
Lemma computes_binary op result lhs rhs :
  computes (op_binary op result lhs rhs) result (reads2 lhs rhs (v_binary_eval op)).
Proof. run_handler. Qed.
Lemma computes_swapped op result lhs rhs eval : (forall a b, eval a b = v_binary_eval op b a) ->
  computes (swap_ops (op_binary op) result lhs rhs) result (reads2 lhs rhs eval).
Proof. intros He. unfold swap_ops. run_handler. by rewrite He. Qed.
Lemma computes_ternary op result a b c :
  computes (op_ternary op result a b c) result (reads3 a b c (v_ternary_eval op)).
Proof. run_handler. Qed.
Lemma computes_shuffle result lhs rhs selector :
  computes (Instr_Simd (I8x16Shuffle result lhs rhs selector)) result (reads2 lhs rhs (fun v w => i8x16_shuffle v w selector)).
Proof. run_handler. Qed.
Lemma computes_test op out eval value : simd_handler op = vh_test out eval (reg_of_prim out) value ->
  computes_reg (Instr_Simd op) out (reads1 value eval).
Proof.
  intros Hh. split; [unfold result_loc; cbn [instr_result]; unfold simd_result; by rewrite Hh|].
  intros self st. unfold exec_simd. rewrite Hh. run_handler.
Qed.
Lemma result_ref_of op result : vh_result (simd_handler op) = Some (Dst_slot result) -> result_ref (Instr_Simd op) = Some result.
Proof. intros Hh. unfold result_ref, result_loc. cbn [instr_result]. unfold simd_result. by rewrite Hh. Qed.
Lemma computes_scalar op result p src eval eval' q src' : simd_handler op = vh_splat p eval result src ->
  (forall fs, reads_scalar p src eval fs = reads_scalar q src' eval' fs) ->
  computes (Instr_Simd op) result (reads_scalar q src' eval').
Proof.
  intros Hh He. split; [apply result_ref_of; by rewrite Hh|].
  intros self st. rewrite <-He. unfold exec_simd. rewrite Hh. run_handler.
Qed.
Lemma computes_mixed op result p lhs src eval eval' q src' : simd_handler op = vh_scalar p eval result lhs src ->
  (forall fs, reads_mixed p lhs src eval fs = reads_mixed q lhs src' eval' fs) ->
  computes (Instr_Simd op) result (reads_mixed q lhs src' eval').
Proof.
  intros Hh He. split; [apply result_ref_of; by rewrite Hh|].
  intros self st. rewrite <-He. unfold exec_simd. rewrite Hh. run_handler.
Qed.

(** *** Scalars of different types *)

(** What a register or a slot holds is read at every type. *)
Lemma get_integer src fs : src = Src_reg Reg_i64 \/ (exists s, src = Src_slot s) ->
  (forall p, p <> P_bool -> get_value p src fs = Panic) \/
  exists c, forall p, p <> P_bool -> get_value p src fs = Ok (cast p c).
Proof.
  intros [->|[s ->]]; cbn [get_value].
  - right. exists (Cells.ireg (fr_regs fs)). intros p Hp. by destruct p.
  - destruct (slot_at s (fr_cells fs)) as [c|] eqn:Hc; [right; exists c|left]; intros p Hp;
      rewrite get_slot_value_at, Hc; [|done].
    destruct p; try done; cbn [Cell_into]; by rewrite cast_cast by done.
Qed.

(** Reading at another type makes no difference if the functions agree on every
    value in the register or slot. *)
Lemma reads_scalar_ext p q src eval eval' : src = Src_reg Reg_i64 \/ (exists s, src = Src_slot s) ->
  p <> P_bool -> q <> P_bool -> (forall c, eval (cast p c) = eval' (cast q c)) ->
  forall fs, reads_scalar p src eval fs = reads_scalar q src eval' fs.
Proof.
  intros Hs Hp Hq He fs. unfold reads_scalar. unfold_m.
  destruct (get_integer src fs Hs) as [Hg|[c Hg]]; rewrite !Hg by done; [done|]. by rewrite He.
Qed.
Lemma reads_mixed_ext p q lhs src eval eval' : src = Src_reg Reg_i64 \/ (exists s, src = Src_slot s) ->
  p <> P_bool -> q <> P_bool -> (forall a c, eval a (cast p c) = eval' a (cast q c)) ->
  forall fs, reads_mixed p lhs src eval fs = reads_mixed q lhs src eval' fs.
Proof.
  intros Hs Hp Hq He fs. unfold reads_mixed. unfold_m. destruct (get_v128 lhs fs); [|done..].
  destruct (get_integer src fs Hs) as [Hg|[c Hg]]; rewrite !Hg by done; [done|]. by rewrite He.
Qed.
Lemma reads_mixed_imm p q lhs x y eval eval' : (forall v, eval v x = eval' v y) ->
  forall fs, reads_mixed p lhs (Src_imm x) eval fs = reads_mixed q lhs (Src_imm y) eval' fs.
Proof. intros He fs. unfold reads_mixed. unfold_m. destruct (get_v128 lhs fs); [|done..]. cbn [get_value]. by rewrite He. Qed.
End Computes.

(** Lanes of the same size have the same bytes. *)
Lemma into_le_bytes_cast p q z : prim_bytes p = prim_bytes q -> into_le_bytes p (cast p z) = into_le_bytes q (cast q z).
Proof.
  intros Hb. assert (prim_bits p = prim_bits q) as Hw by (unfold prim_bits; by rewrite Hb).
  unfold into_le_bytes. rewrite Hb, Hw. f_equal. unfold cast. rewrite Hw. pose proof (prim_bits_pos q).
  destruct (prim_signed p), (prim_signed q); by rewrite ?wrapu_wraps, ?wrapu_wrapu by done.
Qed.
Lemma into_le_bytes_any p z : into_le_bytes p (cast p z) = into_le_bytes p z.
Proof.
  unfold into_le_bytes. f_equal. unfold cast. pose proof (prim_bits_pos p).
  destruct (prim_signed p); [by apply wrapu_wraps|by apply wrapu_wrapu].
Qed.
Lemma into_v128_bytes p l : v128_bytes (into_v128 p l) = concat (into_le_bytes p <$> l).
Proof. cbn. induction l as [|x l IH]; [done|]. cbn. f_equal. apply IH. Qed.
Lemma into_v128_ext p q l l' : (into_le_bytes p <$> l) = (into_le_bytes q <$> l') -> into_v128 p l = into_v128 q l'.
Proof. intros Hl. pose proof (into_v128_bytes p l) as H1. pose proof (into_v128_bytes q l') as H2. rewrite Hl in H1.
  cbn in H1, H2. unfold into_v128. by rewrite H1, H2. Qed.

Lemma splat_bits p q c : prim_bytes p = prim_bytes q -> V128_splat p (cast p c) = V128_splat q (cast q c).
Proof.
  intros Hb. unfold V128_splat. apply into_v128_ext. unfold Lanes_splat, LANES. rewrite Hb, !fmap_replicate.
  by rewrite (into_le_bytes_cast p q).
Qed.
Lemma splat_any p c : V128_splat p (cast p c) = V128_splat p c.
Proof. unfold V128_splat. apply into_v128_ext. unfold Lanes_splat. by rewrite !fmap_replicate, into_le_bytes_any. Qed.
Lemma replace_lane_bits p q v (lane : Z) c : prim_bytes p = prim_bytes q ->
  V128_replace_lane p v lane (cast p c) = V128_replace_lane q v lane (cast q c).
Proof.
  intros Hb. unfold V128_replace_lane. apply into_v128_ext. unfold Lanes_replace_lane, LaneIdx_into_u8.
  rewrite !list_fmap_insert, Hb, (into_le_bytes_cast p q) by done. f_equal.
  unfold from_v128, LANES, lane_size. rewrite Hb. unfold from_fn. rewrite <-!list_fmap_compose. apply list_fmap_ext.
  intros i j _. cbn. by apply into_le_bytes_cast.
Qed.
Lemma replace_lane_any p v (lane : Z) c : V128_replace_lane p v lane (cast p c) = V128_replace_lane p v lane c.
Proof.
  unfold V128_replace_lane. apply into_v128_ext. unfold Lanes_replace_lane. by rewrite !list_fmap_insert, into_le_bytes_any.
Qed.

(** The amount of a shift only counts modulo the width of a lane. *)
Lemma impl_shift_mod p f a x y : (forall v, f v x = f v y) -> impl_shift_ops p f a x = impl_shift_ops p f a y.
Proof.
  intros Hf. unfold impl_shift_ops, V128_lanewise_unary, Lanes_lanewise_unary. f_equal. apply list_fmap_ext.
  intros i v _. apply Hf.
Qed.
Definition v_shift_lane (op : VShiftOp) : Prim :=
  match op with
  | I8x16Shl | I8x16Shr | U8x16Shr => P_u8
  | I16x8Shl | I16x8Shr | U16x8Shr => P_u16
  | I32x4Shl | I32x4Shr | U32x4Shr => P_u32
  | I64x2Shl | I64x2Shr | U64x2Shr => P_u64
  end.
Lemma shift_mod op a x y : x mod prim_bits (v_shift_lane op) = y mod prim_bits (v_shift_lane op) ->
  v_shift_eval op a x = v_shift_eval op a y.
Proof.
  destruct op; cbn [v_shift_eval v_shift_lane]; intros H; apply impl_shift_mod; intros v;
    unfold wrapping_shl, wrapping_shr; f_equal; f_equal; exact H.
Qed.
Lemma shift_cast op a c : v_shift_eval op a (cast P_u8 c) = v_shift_eval op a (cast P_u32 c).
Proof.
  apply shift_mod. change (cast P_u8 c) with (c mod 2 ^ 8). change (cast P_u32 c) with (c mod 2 ^ 32).
  assert ((prim_bits (v_shift_lane op) | 2 ^ 8) /\ (prim_bits (v_shift_lane op) | 2 ^ 32)) as [H1 H2].
  { split; [exists (2 ^ 8 / prim_bits (v_shift_lane op))|exists (2 ^ 32 / prim_bits (v_shift_lane op))]; by destruct op. }
  by rewrite !Z.mod_mod_divide.
Qed.

Lemma reads_shift `{Tg : Target} op lhs src eval : src = Src_reg Reg_i64 \/ (exists s, src = Src_slot s) ->
  (forall a k, v_shift_eval op a k = eval a k) ->
  forall fs, reads_mixed P_u8 lhs src (v_shift_eval op) fs = reads_mixed P_u32 lhs src eval fs.
Proof. intros Hs He. apply reads_mixed_ext; [done..|]. intros a c. rewrite <-He. apply shift_cast. Qed.
Lemma reads_shift_imm `{Tg : Target} op lhs k eval : (forall a k, v_shift_eval op a k = eval a k) ->
  forall fs, reads_mixed P_u8 lhs (Src_imm (k mod prim_bits (v_shift_lane op))) (v_shift_eval op) fs =
             reads_mixed P_u32 lhs (Src_imm k) eval fs.
Proof.
  intros He. apply reads_mixed_imm. intros v. rewrite <-He. apply shift_mod. apply Zmod_mod.
Qed.

(** The operands of a comparison swapped. *)
Lemma comparison_flip p f g a b : (forall x y, f x y = g y x) -> impl_comparison_for p f a b = impl_comparison_for p g b a.
Proof.
  intros Hf. unfold impl_comparison_for, V128_lanewise_comparison, Lanes_lanewise_comparison, Lanes_lanewise_binary.
  f_equal. rewrite <-zip_with_flip. apply zip_with_ext; [|done..]. intros x y. cbn. by rewrite Hf.
Qed.

(** ** Operands of a translation *)

Section Placement.
Context `{Tg : Target} `{Fn : FloatNans} {I : Type} `{Sk : OpSink I}.
Implicit Types (st : FuncTranslator I) (operand : Operand).

(** The vector of a constant. *)
Definition constant operand : option V128 :=
  match operand with
  | Operand_Immediate imm =>
      if bool_decide (io_ty imm = ValType_V128) then Some (V128_from_RawVal (io_val imm)) else None
  | _ => None
  end.

(** The operand is the local or the temporary in the slot. *)
Inductive in_slot st : Operand -> Slot -> Prop :=
| in_slot_local o slot : lo_in_reg o = false ->
    StackLayout_local_to_slot (ft_layout st) (lo_local_index o) = Ok slot -> in_slot st (Operand_Local o) slot
| in_slot_temp o : to_in_reg o = false -> in_slot st (Operand_Temp o) (span_head (to_temp_slots o)).

(** The operand is in the slot, or it is a constant and is copied to its slot. *)
Inductive placed st : Operand -> Slot -> FuncTranslator I -> Prop :=
| placed_in_slot operand slot : in_slot st operand slot -> placed st operand slot st
| placed_constant imm v fuel pos st' : constant (Operand_Immediate imm) = Some v -> stack_fuel_pos st = (Ok fuel, st) ->
    encode (Instr_Control (V128Copy_Si (span_head (io_temp_slots imm)) (io_val imm))) fuel FuelCostsProvider_base st =
      (Ok pos, st') ->
    placed st (Operand_Immediate imm) (span_head (io_temp_slots imm)) st'.

(** Where a handler finds a scalar of type [p]. *)
Inductive scalar (p : Prim) st : Operand -> Src -> Prop :=
| scalar_slot operand slot : in_slot st operand slot -> scalar p st operand (Src_slot slot)
| scalar_reg operand : Operand_in_reg operand = true -> scalar p st operand (Src_reg (reg_of_prim p))
| scalar_imm imm : Typed_TY p = Some (io_ty imm) ->
    scalar p st (Operand_Immediate imm) (Src_imm (RawVal_into p (io_val imm))).

Lemma in_slot_resolve st operand slot : in_slot st operand slot -> Operand_resolve operand (ft_layout st) = Ok (Resolved_Slot slot).
Proof. intros [o s Hr Hs|o Hr]; cbn [Operand_resolve]; rewrite Hr; [by rewrite Hs|done]. Qed.
Lemma operand_to_slot_run st operand slot : in_slot st operand slot -> operand_to_slot operand st = (Ok slot, st).
Proof.
  intros [o s Hr Hs|o Hr]; unfold operand_to_slot; cbn [Operand_in_reg]; [|by rewrite Hr].
  rewrite bind_get_st. unfold try, lift. by rewrite Hs.
Qed.

Lemma copy_operand_to_slot_run st operand slot st' : placed st operand slot st' -> copy_operand_to_slot operand st = (Ok slot, st').
Proof.
  intros [op s Hs|imm v fuel pos s' Hc Hf He]; unfold copy_operand_to_slot; cbv zeta;
    unfold resolve_operand_raw, resolve_as_raw, try; rewrite bind_run, bind_get_st.
  - by rewrite (in_slot_resolve _ _ _ Hs).
  - unfold constant in Hc. case_bool_decide as Ht; [|done]. cbn [Operand_resolve mbind res_bind]. unfold lift at 1.
    cbn [map_err ResolvedOperand_map ImmediateOperand_val typed_value Operand_ty]. rewrite Ht, bind_run.
    cbn [select_copy_si_op typed_ty typed_value]. unfold mret at 1, M_ret. rewrite bind_run, Hf, bind_run.
    change (BoundedSlotSpan_head (Operand_temp_slots (Operand_Immediate imm))) with (span_head (io_temp_slots imm)).
    by rewrite He.
Qed.

Lemma imm_v128_run imm v st : constant (Operand_Immediate imm) = Some v -> imm_v128 imm st = (Ok v, st).
Proof.
  unfold constant. case_bool_decide as Ht; [|done]. intros [= <-]. unfold imm_v128, TypedRawVal_into_V128, lift.
  cbn [ImmediateOperand_val typed_ty]. by rewrite bool_decide_true.
Qed.

Lemma pop2_run st rhs s1 lhs s2 : stack_pop st = (Ok rhs, s1) -> stack_pop s1 = (Ok lhs, s2) ->
  in_stack TransStack_pop2 st = (Ok (lhs, rhs), s2).
Proof.
  unfold stack_pop, in_stack, zoom, TransStack_pop2. intros H1 H2. rewrite bind_run.
  destruct (TransStack_pop (ft_stack st)) as [[o2| |] k1]; [|done..]. injection H1 as -> <-. cbn [ft_stack set_stack] in H2.
  rewrite bind_run. destruct (TransStack_pop k1) as [[o1| |] k2]; [|done..]. by injection H2 as -> <-.
Qed.
Lemma pop3_run st c s1 b s2 a s3 : stack_pop st = (Ok c, s1) -> stack_pop s1 = (Ok b, s2) -> stack_pop s2 = (Ok a, s3) ->
  in_stack TransStack_pop3 st = (Ok (a, b, c), s3).
Proof.
  unfold stack_pop, in_stack, zoom, TransStack_pop3. intros H1 H2 H3. rewrite bind_run.
  destruct (TransStack_pop (ft_stack st)) as [[o3| |] k1]; [|done..]. injection H1 as -> <-. cbn [ft_stack set_stack] in H2.
  rewrite bind_run. destruct (TransStack_pop k1) as [[o2| |] k2]; [|done..]. injection H2 as -> <-. cbn [ft_stack set_stack] in H3.
  rewrite bind_run. destruct (TransStack_pop k2) as [[o1| |] k3]; [|done..]. by injection H3 as -> <-.
Qed.

Lemma bail_reachable (m : FM I unit) st : ft_reachable st = true -> bail_unreachable m st = m st.
Proof. intros Hr. unfold bail_unreachable. by rewrite bind_get_st, Hr. Qed.
Lemma bail_skips (m : FM I unit) st : ft_reachable st = false -> bail_unreachable m st = (Ok tt, st).
Proof. intros Hr. unfold bail_unreachable. by rewrite bind_get_st, Hr. Qed.

(** What the result of a vector instruction is: a vector in the slot of a new operand. *)
Definition push_vector (op : Slot -> Instr) : FM I unit := push_op_with_result_slot ValType_V128 op FuelCostsProvider_simd.

(** *** The generic translations

    The operands are those on top of the operand stack, the last one first; constants
    are folded; otherwise the operator gets the operands in their order. *)

Lemma translate_simd_unary_sx_run make eval st operand s1 : ft_reachable st = true -> stack_pop st = (Ok operand, s1) ->
  (forall v, constant operand = Some v -> translate_simd_unary_sx make eval st = push_v128 (eval v) s1) /\
  (forall value, in_slot s1 operand value ->
    translate_simd_unary_sx make eval st = push_vector (fun result => make result value) s1).
Proof.
  intros Hr Hp. unfold translate_simd_unary_sx. rewrite bail_reachable, bind_run, Hp by done. split.
  - intros v Hc. destruct operand as [o|o|o]; [done..|]. by rewrite bind_run, (imm_v128_run _ _ _ Hc).
  - intros value Hs. pose proof (operand_to_slot_run _ _ _ Hs) as E. destruct Hs; by rewrite bind_run, E.
Qed.

Lemma translate_simd_unary_rx_run r ty make eval st operand s1 : ft_reachable st = true -> stack_pop st = (Ok operand, s1) ->
  Typed_TY r = Some ty ->
  (forall v, constant operand = Some v -> translate_simd_unary_rx r make eval st = push_imm r (eval v) s1) /\
  (forall value, in_slot s1 operand value ->
    translate_simd_unary_rx r make eval st = push_op_with_result_reg ty (make value) FuelCostsProvider_simd s1).
Proof.
  intros Hr Hp Ht. unfold translate_simd_unary_rx. rewrite bail_reachable, bind_run, Hp, Ht by done. split.
  - intros v Hc. destruct operand as [o|o|o]; [done..|]. by rewrite bind_run, (imm_v128_run _ _ _ Hc).
  - intros value Hs. pose proof (operand_to_slot_run _ _ _ Hs) as E. destruct Hs; by rewrite bind_run, E.
Qed.

Lemma translate_extract_lane_run p r ty n lane make eval st operand s1 : ft_reachable st = true ->
  ImmLaneIdx_try_from (16 / prim_bytes p) n = Some lane -> stack_pop st = (Ok operand, s1) -> Typed_TY r = Some ty ->
  (forall v, constant operand = Some v -> translate_extract_lane p r n make eval st = push_imm r (eval v lane) s1) /\
  (forall value, in_slot s1 operand value ->
    translate_extract_lane p r n make eval st = push_op_with_result_reg ty (make value lane) FuelCostsProvider_simd s1).
Proof.
  intros Hr Hl Hp Ht. unfold translate_extract_lane, lane_idx. rewrite bail_reachable, Hl, bind_lift by done.
  cbn [expect]. rewrite bind_run, Hp, Ht. split.
  - intros v Hc. destruct operand as [o|o|o]; [done..|]. by rewrite bind_run, (imm_v128_run _ _ _ Hc).
  - intros value Hs. pose proof (operand_to_slot_run _ _ _ Hs) as E. destruct Hs; by rewrite bind_run, E.
Qed.

(** One of the operands is not a constant. *)
Definition not_both (lhs rhs : Operand) : Prop := constant lhs = None \/ constant rhs = None.

Lemma placed_not_both st lhs l s1 rhs r s2 {A} (k : Operand -> Operand -> A) (f : ImmediateOperand -> ImmediateOperand -> A) :
  not_both lhs rhs -> placed st lhs l s1 -> placed s1 rhs r s2 ->
  match lhs, rhs with Operand_Immediate a, Operand_Immediate b => f a b | _, _ => k lhs rhs end = k lhs rhs.
Proof.
  intros Hn Hl Hr. destruct lhs as [o|o|o], rhs as [o'|o'|o']; try done. exfalso.
  assert (constant (Operand_Immediate o) <> None) by (inversion Hl as [? ? Hs|]; [inversion Hs|congruence]).
  assert (constant (Operand_Immediate o') <> None) by (inversion Hr as [? ? Hs|]; [inversion Hs|congruence]).
  by destruct Hn.
Qed.

Lemma translate_simd_binary_run make eval st rhs s1 lhs s2 : ft_reachable st = true ->
  stack_pop st = (Ok rhs, s1) -> stack_pop s1 = (Ok lhs, s2) ->
  (forall v w, constant lhs = Some v -> constant rhs = Some w -> translate_simd_binary make eval st = push_v128 (eval v w) s2) /\
  (forall l s3 r s4, not_both lhs rhs -> placed s2 lhs l s3 -> placed s3 rhs r s4 ->
    translate_simd_binary make eval st = push_vector (fun result => make result l r) s4).
Proof.
  intros Hr H1 H2. unfold translate_simd_binary. rewrite bail_reachable, bind_run, (pop2_run _ _ _ _ _ H1 H2) by done. split.
  - intros v w Hv Hw. destruct lhs as [o|o|o]; [done..|]. destruct rhs as [o'|o'|o']; [done..|].
    by rewrite bind_run, (imm_v128_run _ _ _ Hv), bind_run, (imm_v128_run _ _ _ Hw).
  - intros l s3 r s4 Hn Hl Hrh.
    rewrite (placed_not_both s2 lhs l s3 rhs r s4 (fun lhs rhs => lhs ← copy_operand_to_slot lhs; _)) by done.
    by rewrite bind_run, (copy_operand_to_slot_run _ _ _ _ Hl), bind_run, (copy_operand_to_slot_run _ _ _ _ Hrh).
Qed.

Lemma translate_simd_ternary_run make eval st c s1 b s2 a s3 : ft_reachable st = true ->
  stack_pop st = (Ok c, s1) -> stack_pop s1 = (Ok b, s2) -> stack_pop s2 = (Ok a, s3) ->
  (forall x y z, constant a = Some x -> constant b = Some y -> constant c = Some z ->
    translate_simd_ternary make eval st = push_v128 (eval x y z) s3) /\
  (forall x t1 y t2 z t3, not_both a b \/ constant c = None -> placed s3 a x t1 -> placed t1 b y t2 -> placed t2 c z t3 ->
    translate_simd_ternary make eval st = push_vector (fun result => make result x y z) t3).
Proof.
  intros Hr H1 H2 H3. unfold translate_simd_ternary.
  rewrite bail_reachable, bind_run, (pop3_run _ _ _ _ _ _ _ H1 H2 H3) by done. split.
  - intros x y z Hx Hy Hz. destruct a as [o|o|o]; [done..|]. destruct b as [o'|o'|o']; [done..|].
    destruct c as [o''|o''|o'']; [done..|].
    by rewrite bind_run, (imm_v128_run _ _ _ Hx), bind_run, (imm_v128_run _ _ _ Hy), bind_run, (imm_v128_run _ _ _ Hz).
  - intros x t1 y t2 z t3 Hn Hx Hy Hz.
    transitivity ((lhs ← copy_operand_to_slot a; rhs ← copy_operand_to_slot b; selector ← copy_operand_to_slot c;
      push_vector (fun result => make result lhs rhs selector)) s3).
    { destruct a as [o|o|o], b as [o'|o'|o'], c as [o''|o''|o'']; try done. exfalso.
      assert (constant (Operand_Immediate o'') <> None) by (inversion Hz as [? ? Hs|]; [inversion Hs|congruence]).
      destruct Hn as [Hn|Hn]; [|done]. by pose proof (placed_not_both _ _ _ _ _ _ _ (fun _ _ => true) (fun _ _ => false) Hn Hx Hy). }
    by rewrite bind_run, (copy_operand_to_slot_run _ _ _ _ Hx), bind_run, (copy_operand_to_slot_run _ _ _ _ Hy),
      bind_run, (copy_operand_to_slot_run _ _ _ _ Hz).
Qed.

(** A scalar resolves to what its place says. *)
Lemma resolve_raw_run p st operand src : scalar p st operand src ->
  exists r, resolve_operand_raw operand st = (Ok r, st) /\
    match r with
    | Resolved_Reg _ => src = Src_reg (reg_of_prim p)
    | Resolved_Slot slot => src = Src_slot slot
    | Resolved_Immediate raw => src = Src_imm (RawVal_into p raw)
    end.
Proof.
  intros Hs. unfold resolve_operand_raw, resolve_as_raw, try. rewrite bind_get_st. unfold lift.
  destruct Hs as [operand slot Hs|operand Hr|imm Ht].
  - rewrite (in_slot_resolve _ _ _ Hs). by eexists.
  - destruct operand as [o|o|o]; cbn [Operand_in_reg] in Hr; [..|done]; cbn [Operand_resolve]; rewrite Hr; by eexists.
  - by eexists.
Qed.

Lemma resolve_u32_run st operand src : scalar P_u32 st operand src ->
  exists r, resolve_operand_as P_u32 operand st = (Ok r, st) /\
    match r with
    | Resolved_Reg _ => src = Src_reg Reg_i64
    | Resolved_Slot slot => src = Src_slot slot
    | Resolved_Immediate value => src = Src_imm value
    end.
Proof.
  intros Hs. unfold resolve_operand_as, resolve_as, try. rewrite bind_get_st. unfold lift.
  destruct Hs as [operand slot Hs|operand Hr|imm Ht].
  - rewrite (in_slot_resolve _ _ _ Hs). by eexists.
  - destruct operand as [o|o|o]; cbn [Operand_in_reg] in Hr; [..|done]; cbn [Operand_resolve]; rewrite Hr; by eexists.
  - cbn [Operand_resolve mbind res_bind resolved_try]. unfold from_typed, TypedRawVal_into, TypedRawVal_into_prim.
    rewrite Ht. cbn [ImmediateOperand_val typed_ty]. rewrite bool_decide_true by done. by eexists.
Qed.

Lemma translate_simd_shift_run ty ssr sss ssi eval st rhs s1 lhs s2 src : ft_reachable st = true ->
  ty <> P_bool -> ty <> P_f32 -> ty <> P_f64 ->
  stack_pop st = (Ok rhs, s1) -> stack_pop s1 = (Ok lhs, s2) -> scalar P_u32 s2 rhs src ->
  (forall v k, constant lhs = Some v -> src = Src_imm k -> translate_simd_shift ty ssr sss ssi eval st = push_v128 (eval v k) s2) /\
  (forall l s3, constant lhs = None \/ (forall k, src <> Src_imm k) -> placed s2 lhs l s3 ->
    translate_simd_shift ty ssr sss ssi eval st =
    push_vector (fun result => match src with
                               | Src_reg _ => ssr result l
                               | Src_slot rhs => sss result l rhs
                               | Src_imm k => ssi result l (k mod prim_bits ty)
                               end) s3).
Proof.
  intros Hr Ht1 Ht2 Ht3 H1 H2 Hs. unfold translate_simd_shift.
  rewrite bail_reachable, bind_run, (pop2_run _ _ _ _ _ H1 H2) by done. split.
  - intros v k Hv ->. destruct lhs as [o|o|o]; [done..|]. inversion Hs as [| |imm Ht Hi Hk]; subst.
    rewrite bind_run, (imm_v128_run _ _ _ Hv), bind_lift. unfold from_typed, TypedRawVal_into, TypedRawVal_into_prim.
    rewrite Ht. cbn [ImmediateOperand_val typed_ty]. by rewrite bool_decide_true.
  - intros l s3 Hn Hl. destruct (resolve_u32_run _ _ _ Hs) as (r & Hres & Hsrc).
    transitivity ((r ← resolve_operand_as P_u32 rhs;
        match ResolvedOperand_transpose (ResolvedOperand_map (into_simd_shift_amount ty) r) with
        | None => on_operands (push_operand lhs);; mret tt
        | Some r =>
            lhs ← copy_operand_to_slot lhs;
            push_op_with_result_slot ValType_V128 (fun result =>
              match r with
              | Resolved_Reg _ => ssr result lhs
              | Resolved_Slot rhs => sss result lhs rhs
              | Resolved_Immediate rhs => ssi result lhs (shamt rhs)
              end) FuelCostsProvider_simd
        end) s2).
    { destruct lhs as [o|o|o], rhs as [o'|o'|o']; try done. exfalso.
      assert (constant (Operand_Immediate o) <> None) by (inversion Hl as [? ? Hx|]; [inversion Hx|congruence]).
      destruct Hn as [Hn|Hn]; [done|]. inversion Hs as [? ? Hx|? Hx|]; [inversion Hx|done|]; subst. by eapply Hn. }
    rewrite bind_run, Hres. destruct r as [t|slot|k]; subst src; cbn [ResolvedOperand_map ResolvedOperand_transpose].
    + by rewrite bind_run, (copy_operand_to_slot_run _ _ _ _ Hl).
    + by rewrite bind_run, (copy_operand_to_slot_run _ _ _ _ Hl).
    + rewrite into_simd_shift_amount_spec by done. cbn [fmap option_fmap option_map].
      by rewrite bind_run, (copy_operand_to_slot_run _ _ _ _ Hl).
Qed.

Lemma translate_simd_splat_run p w sr ss si st operand s1 src : ft_reachable st = true -> stack_pop st = (Ok operand, s1) ->
  scalar p s1 operand src ->
  translate_simd_splat p w sr ss si st =
  push_vector (fun result => match src with
                             | Src_reg _ => sr result
                             | Src_slot value => ss result value
                             | Src_imm x => si result (to_bits w (wrap w x))
                             end) s1.
Proof.
  intros Hr Hp Hs. unfold translate_simd_splat. rewrite bail_reachable, bind_run, Hp by done.
  destruct (resolve_raw_run _ _ _ _ Hs) as (r & Hres & Hsrc). rewrite bind_run, Hres. by destruct r; subst src.
Qed.

Lemma translate_replace_lane_run T n lane st value s1 input s2 : ft_reachable st = true ->
  ImmLaneIdx_try_from (16 / prim_bytes (rl_Item T)) n = Some lane ->
  stack_pop st = (Ok value, s1) -> stack_pop s1 = (Ok input, s2) ->
  (forall v x, constant input = Some v -> scalar (rl_Item T) s2 value (Src_imm x) ->
    translate_replace_lane T n st = push_v128 (rl_const_eval T v lane x) s2) /\
  (forall i s3 src, constant input = None \/ (forall x, src <> Src_imm x) -> placed s2 input i s3 -> scalar (rl_Item T) s3 value src ->
    translate_replace_lane T n st =
    push_vector (fun result => match src with
                               | Src_reg _ => rl_op_ssr T result i lane
                               | Src_slot value => rl_op_sss T result i lane value
                               | Src_imm x => rl_op_ssi T result i lane (rl_into_immediate T x)
                               end) s3).
Proof.
  intros Hr Hl H1 H2. unfold translate_replace_lane, lane_idx. rewrite bail_reachable, Hl, bind_lift by done. cbn [expect].
  rewrite bind_run, (pop2_run _ _ _ _ _ H1 H2). split.
  - intros v x Hv Hs. destruct input as [o|o|o]; [done..|]. inversion Hs as [| |imm Ht Hi Hx]; subst.
    by rewrite bind_run, (imm_v128_run _ _ _ Hv).
  - intros i s3 src Hn Hi Hs. destruct (resolve_raw_run _ _ _ _ Hs) as (r & Hres & Hsrc).
    transitivity ((input ← copy_operand_to_slot input; value ← resolve_operand_raw value;
        let value := ResolvedOperand_map (fun value => rl_into_immediate T (RawVal_into (rl_Item T) value)) value in
        push_op_with_result_slot ValType_V128 (fun result =>
          match value with
          | Resolved_Reg _ => rl_op_ssr T result input lane
          | Resolved_Slot value => rl_op_sss T result input lane value
          | Resolved_Immediate value => rl_op_ssi T result input lane value
          end) FuelCostsProvider_simd) s2).
    { destruct input as [o|o|o], value as [o'|o'|o']; try done. exfalso.
      assert (constant (Operand_Immediate o) <> None) by (inversion Hi as [? ? Hx|]; [inversion Hx|congruence]).
      destruct Hn as [Hn|Hn]; [done|]. inversion Hs as [? ? Hx|? Hx|]; [inversion Hx|done|]; subst. by eapply Hn. }
    rewrite bind_run, (copy_operand_to_slot_run _ _ _ _ Hi), bind_run, Hres. by destruct r; subst src.
Qed.

Lemma shuffle_selector_run lanes s st : mapM (ImmLaneIdx_try_from 32) lanes = Some s -> shuffle_selector lanes st = (Ok s, st).
Proof.
  intros Hs. apply mapM_Some in Hs. induction Hs as [|n lane lanes s Hn _ IH]; [done|]. cbn [shuffle_selector].
  unfold lane_idx. rewrite Hn, bind_lift. cbn [expect]. by rewrite bind_run, IH.
Qed.

Lemma visit_i8x16_shuffle_run lanes s st rhs s1 lhs s2 : ft_reachable st = true ->
  mapM (ImmLaneIdx_try_from 32) lanes = Some s -> stack_pop st = (Ok rhs, s1) -> stack_pop s1 = (Ok lhs, s2) ->
  (forall v w, constant lhs = Some v -> constant rhs = Some w -> visit_i8x16_shuffle lanes st = push_v128 (i8x16_shuffle v w s) s2) /\
  (forall l s3 r s4, not_both lhs rhs -> placed s2 lhs l s3 -> placed s3 rhs r s4 ->
    visit_i8x16_shuffle lanes st = push_vector (fun result => Instr_Simd (I8x16Shuffle result l r s)) s4).
Proof.
  intros Hr Hs H1 H2. unfold visit_i8x16_shuffle.
  rewrite bail_reachable, bind_run, (shuffle_selector_run _ _ _ Hs), bind_run, (pop2_run _ _ _ _ _ H1 H2) by done. split.
  - intros v w Hv Hw. destruct lhs as [o|o|o]; [done..|]. destruct rhs as [o'|o'|o']; [done..|].
    by rewrite bind_run, (imm_v128_run _ _ _ Hv), bind_run, (imm_v128_run _ _ _ Hw).
  - intros l s3 r s4 Hn Hl Hrh.
    rewrite (placed_not_both s2 lhs l s3 rhs r s4 (fun lhs rhs => lhs ← copy_operand_to_slot lhs; _)) by done.
    by rewrite bind_run, (copy_operand_to_slot_run _ _ _ _ Hl), bind_run, (copy_operand_to_slot_run _ _ _ _ Hrh).
Qed.
End Placement.

(** ** The visitors *)

Section Visitors.
Context `{Tg : Target} `{Fn : FloatNans}.
Context `{!Allocator} `{!Uninit} `{!MemoryAddress} `{!Code} `{!Endian} `{!Dispatch}.
Context {L Error : Type} `{!ResourceLimiter L} `{!Host L Error}.
Context {I : Type} `{Sk : OpSink I}.

Notation computes := (computes (L := L) (Error := Error)).
Notation computes_reg := (computes_reg (L := L) (Error := Error)).

(** The instructions of each family, with the function that evaluates them. *)
Definition unary_visitors : list (FM I unit * (V128 -> V128)) := [
  (visit_v128_not, v128_not); (visit_i8x16_abs, i8x16_abs);
  (visit_i8x16_neg, i8x16_neg); (visit_i8x16_popcnt, i8x16_popcnt);
  (visit_i16x8_extadd_pairwise_i8x16_s, i16x8_extadd_pairwise_i8x16_s); (visit_i16x8_extadd_pairwise_i8x16_u, i16x8_extadd_pairwise_i8x16_u);
  (visit_i16x8_abs, i16x8_abs); (visit_i16x8_neg, i16x8_neg);
  (visit_i16x8_extend_low_i8x16_s, i16x8_extend_low_i8x16_s); (visit_i16x8_extend_high_i8x16_s, i16x8_extend_high_i8x16_s);
  (visit_i16x8_extend_low_i8x16_u, i16x8_extend_low_i8x16_u); (visit_i16x8_extend_high_i8x16_u, i16x8_extend_high_i8x16_u);
  (visit_i32x4_extadd_pairwise_i16x8_s, i32x4_extadd_pairwise_i16x8_s); (visit_i32x4_extadd_pairwise_i16x8_u, i32x4_extadd_pairwise_i16x8_u);
  (visit_i32x4_abs, i32x4_abs); (visit_i32x4_neg, i32x4_neg);
  (visit_i32x4_extend_low_i16x8_s, i32x4_extend_low_i16x8_s); (visit_i32x4_extend_high_i16x8_s, i32x4_extend_high_i16x8_s);
  (visit_i32x4_extend_low_i16x8_u, i32x4_extend_low_i16x8_u); (visit_i32x4_extend_high_i16x8_u, i32x4_extend_high_i16x8_u);
  (visit_i64x2_abs, i64x2_abs); (visit_i64x2_neg, i64x2_neg);
  (visit_i64x2_extend_low_i32x4_s, i64x2_extend_low_i32x4_s); (visit_i64x2_extend_high_i32x4_s, i64x2_extend_high_i32x4_s);
  (visit_i64x2_extend_low_i32x4_u, i64x2_extend_low_i32x4_u); (visit_i64x2_extend_high_i32x4_u, i64x2_extend_high_i32x4_u);
  (visit_f32x4_ceil, f32x4_ceil); (visit_f32x4_floor, f32x4_floor);
  (visit_f32x4_trunc, f32x4_trunc); (visit_f32x4_nearest, f32x4_nearest);
  (visit_f32x4_abs, f32x4_abs); (visit_f32x4_neg, f32x4_neg);
  (visit_f32x4_sqrt, f32x4_sqrt); (visit_f64x2_ceil, f64x2_ceil);
  (visit_f64x2_floor, f64x2_floor); (visit_f64x2_trunc, f64x2_trunc);
  (visit_f64x2_nearest, f64x2_nearest); (visit_f64x2_abs, f64x2_abs);
  (visit_f64x2_neg, f64x2_neg); (visit_f64x2_sqrt, f64x2_sqrt);
  (visit_i32x4_trunc_sat_f32x4_s, i32x4_trunc_sat_f32x4_s); (visit_i32x4_trunc_sat_f32x4_u, i32x4_trunc_sat_f32x4_u);
  (visit_f32x4_convert_i32x4_s, f32x4_convert_i32x4_s); (visit_f32x4_convert_i32x4_u, f32x4_convert_i32x4_u);
  (visit_i32x4_trunc_sat_f64x2_s_zero, i32x4_trunc_sat_f64x2_s_zero); (visit_i32x4_trunc_sat_f64x2_u_zero, i32x4_trunc_sat_f64x2_u_zero);
  (visit_f64x2_convert_low_i32x4_s, f64x2_convert_low_i32x4_s); (visit_f64x2_convert_low_i32x4_u, f64x2_convert_low_i32x4_u);
  (visit_f32x4_demote_f64x2_zero, f32x4_demote_f64x2_zero); (visit_f64x2_promote_low_f32x4, f64x2_promote_low_f32x4);
  (visit_i32x4_relaxed_trunc_f32x4_s, i32x4_relaxed_trunc_f32x4_s); (visit_i32x4_relaxed_trunc_f32x4_u, i32x4_relaxed_trunc_f32x4_u);
  (visit_i32x4_relaxed_trunc_f64x2_s_zero, i32x4_relaxed_trunc_f64x2_s_zero); (visit_i32x4_relaxed_trunc_f64x2_u_zero, i32x4_relaxed_trunc_f64x2_u_zero)].

Definition binary_visitors : list (FM I unit * (V128 -> V128 -> V128)) := [
  (visit_i8x16_swizzle, i8x16_swizzle); (visit_i8x16_eq, i8x16_eq);
  (visit_i8x16_ne, i8x16_ne); (visit_i8x16_lt_s, i8x16_lt_s);
  (visit_i8x16_lt_u, i8x16_lt_u); (visit_i8x16_gt_s, i8x16_gt_s);
  (visit_i8x16_gt_u, i8x16_gt_u); (visit_i8x16_le_s, i8x16_le_s);
  (visit_i8x16_le_u, i8x16_le_u); (visit_i8x16_ge_s, i8x16_ge_s);
  (visit_i8x16_ge_u, i8x16_ge_u); (visit_i16x8_eq, i16x8_eq);
  (visit_i16x8_ne, i16x8_ne); (visit_i16x8_lt_s, i16x8_lt_s);
  (visit_i16x8_lt_u, i16x8_lt_u); (visit_i16x8_gt_s, i16x8_gt_s);
  (visit_i16x8_gt_u, i16x8_gt_u); (visit_i16x8_le_s, i16x8_le_s);
  (visit_i16x8_le_u, i16x8_le_u); (visit_i16x8_ge_s, i16x8_ge_s);
  (visit_i16x8_ge_u, i16x8_ge_u); (visit_i32x4_eq, i32x4_eq);
  (visit_i32x4_ne, i32x4_ne); (visit_i32x4_lt_s, i32x4_lt_s);
  (visit_i32x4_lt_u, i32x4_lt_u); (visit_i32x4_gt_s, i32x4_gt_s);
  (visit_i32x4_gt_u, i32x4_gt_u); (visit_i32x4_le_s, i32x4_le_s);
  (visit_i32x4_le_u, i32x4_le_u); (visit_i32x4_ge_s, i32x4_ge_s);
  (visit_i32x4_ge_u, i32x4_ge_u); (visit_i64x2_eq, i64x2_eq);
  (visit_i64x2_ne, i64x2_ne); (visit_i64x2_lt_s, i64x2_lt_s);
  (visit_i64x2_gt_s, i64x2_gt_s); (visit_i64x2_le_s, i64x2_le_s);
  (visit_i64x2_ge_s, i64x2_ge_s); (visit_f32x4_eq, f32x4_eq);
  (visit_f32x4_ne, f32x4_ne); (visit_f32x4_lt, f32x4_lt);
  (visit_f32x4_gt, f32x4_gt); (visit_f32x4_le, f32x4_le);
  (visit_f32x4_ge, f32x4_ge); (visit_f64x2_eq, f64x2_eq);
  (visit_f64x2_ne, f64x2_ne); (visit_f64x2_lt, f64x2_lt);
  (visit_f64x2_gt, f64x2_gt); (visit_f64x2_le, f64x2_le);
  (visit_f64x2_ge, f64x2_ge); (visit_v128_and, v128_and);
  (visit_v128_andnot, v128_andnot); (visit_v128_or, v128_or);
  (visit_v128_xor, v128_xor); (visit_i8x16_narrow_i16x8_s, i8x16_narrow_i16x8_s);
  (visit_i8x16_narrow_i16x8_u, i8x16_narrow_i16x8_u); (visit_i8x16_add, i8x16_add);
  (visit_i8x16_add_sat_s, i8x16_add_sat_s); (visit_i8x16_add_sat_u, i8x16_add_sat_u);
  (visit_i8x16_sub, i8x16_sub); (visit_i8x16_sub_sat_s, i8x16_sub_sat_s);
  (visit_i8x16_sub_sat_u, i8x16_sub_sat_u); (visit_i8x16_min_s, i8x16_min_s);
  (visit_i8x16_min_u, i8x16_min_u); (visit_i8x16_max_s, i8x16_max_s);
  (visit_i8x16_max_u, i8x16_max_u); (visit_i8x16_avgr_u, i8x16_avgr_u);
  (visit_i16x8_q15mulr_sat_s, i16x8_q15mulr_sat_s); (visit_i16x8_narrow_i32x4_s, i16x8_narrow_i32x4_s);
  (visit_i16x8_narrow_i32x4_u, i16x8_narrow_i32x4_u); (visit_i16x8_add, i16x8_add);
  (visit_i16x8_add_sat_s, i16x8_add_sat_s); (visit_i16x8_add_sat_u, i16x8_add_sat_u);
  (visit_i16x8_sub, i16x8_sub); (visit_i16x8_sub_sat_s, i16x8_sub_sat_s);
  (visit_i16x8_sub_sat_u, i16x8_sub_sat_u); (visit_i16x8_mul, i16x8_mul);
  (visit_i16x8_min_s, i16x8_min_s); (visit_i16x8_min_u, i16x8_min_u);
  (visit_i16x8_max_s, i16x8_max_s); (visit_i16x8_max_u, i16x8_max_u);
  (visit_i16x8_avgr_u, i16x8_avgr_u); (visit_i16x8_extmul_low_i8x16_s, i16x8_extmul_low_i8x16_s);
  (visit_i16x8_extmul_high_i8x16_s, i16x8_extmul_high_i8x16_s); (visit_i16x8_extmul_low_i8x16_u, i16x8_extmul_low_i8x16_u);
  (visit_i16x8_extmul_high_i8x16_u, i16x8_extmul_high_i8x16_u); (visit_i32x4_add, i32x4_add);
  (visit_i32x4_sub, i32x4_sub); (visit_i32x4_mul, i32x4_mul);
  (visit_i32x4_min_s, i32x4_min_s); (visit_i32x4_min_u, i32x4_min_u);
  (visit_i32x4_max_s, i32x4_max_s); (visit_i32x4_max_u, i32x4_max_u);
  (visit_i32x4_dot_i16x8_s, i32x4_dot_i16x8_s); (visit_i32x4_extmul_low_i16x8_s, i32x4_extmul_low_i16x8_s);
  (visit_i32x4_extmul_high_i16x8_s, i32x4_extmul_high_i16x8_s); (visit_i32x4_extmul_low_i16x8_u, i32x4_extmul_low_i16x8_u);
  (visit_i32x4_extmul_high_i16x8_u, i32x4_extmul_high_i16x8_u); (visit_i64x2_add, i64x2_add);
  (visit_i64x2_sub, i64x2_sub); (visit_i64x2_mul, i64x2_mul);
  (visit_i64x2_extmul_low_i32x4_s, i64x2_extmul_low_i32x4_s); (visit_i64x2_extmul_high_i32x4_s, i64x2_extmul_high_i32x4_s);
  (visit_i64x2_extmul_low_i32x4_u, i64x2_extmul_low_i32x4_u); (visit_i64x2_extmul_high_i32x4_u, i64x2_extmul_high_i32x4_u);
  (visit_f32x4_add, f32x4_add); (visit_f32x4_sub, f32x4_sub);
  (visit_f32x4_mul, f32x4_mul); (visit_f32x4_div, f32x4_div);
  (visit_f32x4_min, f32x4_min); (visit_f32x4_max, f32x4_max);
  (visit_f32x4_pmin, f32x4_pmin); (visit_f32x4_pmax, f32x4_pmax);
  (visit_f64x2_add, f64x2_add); (visit_f64x2_sub, f64x2_sub);
  (visit_f64x2_mul, f64x2_mul); (visit_f64x2_div, f64x2_div);
  (visit_f64x2_min, f64x2_min); (visit_f64x2_max, f64x2_max);
  (visit_f64x2_pmin, f64x2_pmin); (visit_f64x2_pmax, f64x2_pmax);
  (visit_i16x8_relaxed_dot_i8x16_i7x16_s, i16x8_relaxed_dot_i8x16_i7x16_s); (visit_i8x16_relaxed_swizzle, i8x16_relaxed_swizzle);
  (visit_f32x4_relaxed_min, f32x4_relaxed_min); (visit_f32x4_relaxed_max, f32x4_relaxed_max);
  (visit_f64x2_relaxed_min, f64x2_relaxed_min); (visit_f64x2_relaxed_max, f64x2_relaxed_max);
  (visit_i16x8_relaxed_q15mulr_s, i16x8_relaxed_q15mulr_s)].

Definition ternary_visitors : list (FM I unit * (V128 -> V128 -> V128 -> V128)) := [
  (visit_v128_bitselect, v128_bitselect); (visit_f32x4_relaxed_madd, f32x4_relaxed_madd);
  (visit_f32x4_relaxed_nmadd, f32x4_relaxed_nmadd); (visit_f64x2_relaxed_madd, f64x2_relaxed_madd);
  (visit_f64x2_relaxed_nmadd, f64x2_relaxed_nmadd); (visit_i32x4_relaxed_dot_i8x16_i7x16_add_s, i32x4_relaxed_dot_i8x16_i7x16_add_s);
  (visit_i8x16_relaxed_laneselect, i8x16_relaxed_laneselect); (visit_i16x8_relaxed_laneselect, i16x8_relaxed_laneselect);
  (visit_i32x4_relaxed_laneselect, i32x4_relaxed_laneselect); (visit_i64x2_relaxed_laneselect, i64x2_relaxed_laneselect)].

Definition test_visitors : list (FM I unit * Prim * (V128 -> Z)) := [
  (visit_v128_any_true, P_bool, (fun v => Z.b2z (v128_any_true v)));
  (visit_i8x16_all_true, P_bool, (fun v => Z.b2z (i8x16_all_true v)));
  (visit_i8x16_bitmask, P_u32, i8x16_bitmask);
  (visit_i16x8_all_true, P_bool, (fun v => Z.b2z (i16x8_all_true v)));
  (visit_i16x8_bitmask, P_u32, i16x8_bitmask);
  (visit_i32x4_all_true, P_bool, (fun v => Z.b2z (i32x4_all_true v)));
  (visit_i32x4_bitmask, P_u32, i32x4_bitmask);
  (visit_i64x2_all_true, P_bool, (fun v => Z.b2z (i64x2_all_true v)));
  (visit_i64x2_bitmask, P_u32, i64x2_bitmask)].

Definition shift_visitors : list (FM I unit * (V128 -> Z -> V128)) := [
  (visit_i8x16_shl, i8x16_shl); (visit_i8x16_shr_s, i8x16_shr_s);
  (visit_i8x16_shr_u, i8x16_shr_u); (visit_i16x8_shl, i16x8_shl);
  (visit_i16x8_shr_s, i16x8_shr_s); (visit_i16x8_shr_u, i16x8_shr_u);
  (visit_i32x4_shl, i32x4_shl); (visit_i32x4_shr_s, i32x4_shr_s);
  (visit_i32x4_shr_u, i32x4_shr_u); (visit_i64x2_shl, i64x2_shl);
  (visit_i64x2_shr_s, i64x2_shr_s); (visit_i64x2_shr_u, i64x2_shr_u)].

Definition splat_visitors : list (FM I unit * Prim * Prim * (Z -> V128)) := [
  (visit_i8x16_splat, P_i32, P_i8, i8x16_splat); (visit_i16x8_splat, P_i32, P_i16, i16x8_splat);
  (visit_i32x4_splat, P_i32, P_i32, i32x4_splat); (visit_i64x2_splat, P_i64, P_i64, i64x2_splat);
  (visit_f32x4_splat, P_f32, P_f32, f32x4_splat); (visit_f64x2_splat, P_f64, P_f64, f64x2_splat)].

Definition replace_visitors : list ({p & ((Z -> FM I unit) * (V128 -> LaneIdx p -> Z -> V128))%type}) := [
  (existT P_i8 (visit_i8x16_replace_lane, i8x16_replace_lane)); (existT P_i16 (visit_i16x8_replace_lane, i16x8_replace_lane));
  (existT P_i32 (visit_i32x4_replace_lane, i32x4_replace_lane)); (existT P_i64 (visit_i64x2_replace_lane, i64x2_replace_lane));
  (existT P_f32 (visit_f32x4_replace_lane, f32x4_replace_lane)); (existT P_f64 (visit_f64x2_replace_lane, f64x2_replace_lane))].

Definition extract_visitors : list ({p & ((Z -> FM I unit) * Prim * (V128 -> LaneIdx p -> Z))%type}) := [
  (existT P_i8 (visit_i8x16_extract_lane_s, P_i32, i8x16_extract_lane_s)); (existT P_u8 (visit_i8x16_extract_lane_u, P_u32, i8x16_extract_lane_u));
  (existT P_i16 (visit_i16x8_extract_lane_s, P_i32, i16x8_extract_lane_s)); (existT P_u16 (visit_i16x8_extract_lane_u, P_u32, i16x8_extract_lane_u));
  (existT P_i32 (visit_i32x4_extract_lane, P_i32, i32x4_extract_lane)); (existT P_i64 (visit_i64x2_extract_lane, P_i64, i64x2_extract_lane));
  (existT P_f32 (visit_f32x4_extract_lane, P_f32, f32x4_extract_lane)); (existT P_f64 (visit_f64x2_extract_lane, P_f64, f64x2_extract_lane))].

(** *** What a visitor does *)

(** The instruction is in code that is not reachable. *)
Definition skips (visit : FM I unit) : Prop := forall st, ft_reachable st = false -> visit st = (Ok tt, st).

(** The visitor pushes an operand for the result, in a slot, and encodes an operator
    that computes [value] to this slot. *)
Definition emits (visit : FM I unit) st st' (value : Frame_state -> res unit V128) : Prop :=
  exists op : Slot -> Instr,
    visit st = (fuel_pos ← stack_fuel_pos;
                temp ← on_operands (push_temp ValType_V128 Allocation_None);
                in_instrs (sink_stage_op (op (span_head (to_temp_slots temp))) fuel_pos FuelCostsProvider_simd)) st' /\
    forall result, computes (op result) result value.

(** The same for the register of values of type [p]. *)
Definition emits_reg (visit : FM I unit) st st' (p : Prim) (value : Frame_state -> res unit Z) : Prop :=
  exists op ty, Typed_TY p = Some ty /\
    visit st = (push_result_reg ty;; fuel_pos ← stack_fuel_pos; encode op fuel_pos FuelCostsProvider_simd;; mret tt) st' /\
    computes_reg op p value.

Definition unary_sound (entry : FM I unit * (V128 -> V128)) : Prop :=
  let '(visit, eval) := entry in
  skips visit /\
  forall st operand s1, ft_reachable st = true -> stack_pop st = (Ok operand, s1) ->
    (forall v, constant operand = Some v -> visit st = push_v128 (eval v) s1) /\
    (forall value, in_slot s1 operand value -> emits visit st s1 (reads1 value eval)).
Definition binary_sound (entry : FM I unit * (V128 -> V128 -> V128)) : Prop :=
  let '(visit, eval) := entry in
  skips visit /\
  forall st rhs s1 lhs s2, ft_reachable st = true -> stack_pop st = (Ok rhs, s1) -> stack_pop s1 = (Ok lhs, s2) ->
    (forall v w, constant lhs = Some v -> constant rhs = Some w -> visit st = push_v128 (eval v w) s2) /\
    (forall l s3 r s4, not_both lhs rhs -> placed s2 lhs l s3 -> placed s3 rhs r s4 -> emits visit st s4 (reads2 l r eval)).
Definition ternary_sound (entry : FM I unit * (V128 -> V128 -> V128 -> V128)) : Prop :=
  let '(visit, eval) := entry in
  skips visit /\
  forall st c s1 b s2 a s3, ft_reachable st = true ->
    stack_pop st = (Ok c, s1) -> stack_pop s1 = (Ok b, s2) -> stack_pop s2 = (Ok a, s3) ->
    (forall x y z, constant a = Some x -> constant b = Some y -> constant c = Some z ->
      visit st = push_v128 (eval x y z) s3) /\
    (forall x t1 y t2 z t3, not_both a b \/ constant c = None -> placed s3 a x t1 -> placed t1 b y t2 -> placed t2 c z t3 ->
      emits visit st t3 (reads3 x y z eval)).
Definition test_sound (entry : FM I unit * Prim * (V128 -> Z)) : Prop :=
  let '(visit, p, eval) := entry in
  skips visit /\
  forall st operand s1, ft_reachable st = true -> stack_pop st = (Ok operand, s1) ->
    (forall v, constant operand = Some v -> visit st = push_imm p (eval v) s1) /\
    (forall value, in_slot s1 operand value -> emits_reg visit st s1 p (reads1 value eval)).
Definition shift_sound (entry : FM I unit * (V128 -> Z -> V128)) : Prop :=
  let '(visit, eval) := entry in
  skips visit /\
  forall st rhs s1 lhs s2 src, ft_reachable st = true ->
    stack_pop st = (Ok rhs, s1) -> stack_pop s1 = (Ok lhs, s2) -> scalar P_u32 s2 rhs src ->
    (forall v k, constant lhs = Some v -> src = Src_imm k -> visit st = push_v128 (eval v k) s2) /\
    (forall l s3, constant lhs = None \/ (forall k, src <> Src_imm k) -> placed s2 lhs l s3 ->
      emits visit st s3 (reads_mixed P_u32 l src eval)).
(** The splatted value is wrapped to the lanes. *)
Definition splat_sound (entry : FM I unit * Prim * Prim * (Z -> V128)) : Prop :=
  let '(visit, p, w, eval) := entry in
  skips visit /\
  forall st operand s1 src, ft_reachable st = true -> stack_pop st = (Ok operand, s1) -> scalar p s1 operand src ->
    emits visit st s1 (reads_scalar p src (fun x => eval (wrap w x))).
Definition replace_sound (entry : {p & ((Z -> FM I unit) * (V128 -> LaneIdx p -> Z -> V128))%type}) : Prop :=
  let '(existT p (visit, eval)) := entry in
  forall n lane, ImmLaneIdx_try_from (16 / prim_bytes p) n = Some lane ->
  skips (visit n) /\
  forall st value s1 input s2, ft_reachable st = true -> stack_pop st = (Ok value, s1) -> stack_pop s1 = (Ok input, s2) ->
    (forall v x, constant input = Some v -> scalar p s2 value (Src_imm x) -> visit n st = push_v128 (eval v lane x) s2) /\
    (forall i s3 src, constant input = None \/ (forall x, src <> Src_imm x) -> placed s2 input i s3 -> scalar p s3 value src ->
      emits (visit n) st s3 (reads_mixed p i src (fun v => eval v lane))).
Definition extract_sound (entry : {p & ((Z -> FM I unit) * Prim * (V128 -> LaneIdx p -> Z))%type}) : Prop :=
  let '(existT p (visit, r, eval)) := entry in
  forall n lane, ImmLaneIdx_try_from (16 / prim_bytes p) n = Some lane ->
  skips (visit n) /\
  forall st operand s1, ft_reachable st = true -> stack_pop st = (Ok operand, s1) ->
    (forall v, constant operand = Some v -> visit n st = push_imm r (eval v lane) s1) /\
    (forall value, in_slot s1 operand value -> emits_reg (visit n) st s1 r (reads1 value (fun v => eval v lane))).
Definition shuffle_sound (visit : list Z -> FM I unit) : Prop :=
  forall lanes s, mapM (ImmLaneIdx_try_from 32) lanes = Some s -> binary_sound (visit lanes, fun v w => i8x16_shuffle v w s).

(** *** Families *)

Definition yields (op : Slot -> Instr) (value : Frame_state -> res unit V128) : Prop :=
  forall result, computes (op result) result value.

Lemma computes_result op result value : computes op result value -> result_ref op = Some result.
Proof. by intros []. Qed.

(** The assertion on the result of the operator holds. *)
Lemma push_result_slot_run (op : Slot -> Instr) costs (st : FuncTranslator I) :
  (forall result, result_ref (op result) = Some result) ->
  push_op_with_result_slot ValType_V128 op costs st =
  (fuel_pos ← stack_fuel_pos;
   temp ← on_operands (push_temp ValType_V128 Allocation_None);
   in_instrs (sink_stage_op (op (span_head (to_temp_slots temp))) fuel_pos costs)) st.
Proof.
  intros Hr. unfold push_op_with_result_slot. rewrite !bind_run. destruct (stack_fuel_pos st) as [[fuel| |] s]; [|done..].
  rewrite !bind_run. destruct (on_operands _ s) as [[temp| |] s2]; [|done..]. cbv zeta. by rewrite Hr.
Qed.

Lemma emits_of visit st st' op value : visit st = push_vector op st' -> yields op value -> emits visit st st' value.
Proof.
  intros Hv Hc. exists op. split; [|done]. rewrite Hv. apply push_result_slot_run. intros result. by eapply computes_result.
Qed.

Lemma emits_reg_of visit st st' op p ty value : Typed_TY p = Some ty ->
  visit st = push_op_with_result_reg ty op FuelCostsProvider_simd st' -> computes_reg op p value ->
  emits_reg visit st st' p value.
Proof.
  intros Ht Hv Hc. exists op, ty. split_and!; [done| |done]. rewrite Hv. unfold push_op_with_result_reg, assert_result_reg.
  destruct Hc as [Hl _]. by rewrite Hl; destruct p.
Qed.

Lemma unary_sound_of make eval : (forall value, yields (fun result => make result value) (reads1 value eval)) ->
  unary_sound (translate_simd_unary_sx make eval, eval).
Proof.
  intros Hc. split; [intros st; apply bail_skips|]. intros st operand s1 Hr Hp.
  destruct (translate_simd_unary_sx_run make eval _ _ _ Hr Hp) as [Hk Hs]. split; [done|].
  intros value Hi. by eapply emits_of; [apply Hs|].
Qed.

Lemma binary_sound_of make eval : (forall l r, yields (fun result => make result l r) (reads2 l r eval)) ->
  binary_sound (translate_simd_binary make eval, eval).
Proof.
  intros Hc. split; [intros st; apply bail_skips|]. intros st rhs s1 lhs s2 Hr Hp1 Hp2.
  destruct (translate_simd_binary_run make eval _ _ _ _ _ Hr Hp1 Hp2) as [Hk Hs]. split; [done|].
  intros l s3 r s4 Hn Hl Hrh. by eapply emits_of; [eapply Hs|].
Qed.

Lemma ternary_sound_of make eval : (forall x y z, yields (fun result => make result x y z) (reads3 x y z eval)) ->
  ternary_sound (translate_simd_ternary make eval, eval).
Proof.
  intros Hc. split; [intros st; apply bail_skips|]. intros st c s1 b s2 a s3 Hr Hp1 Hp2 Hp3.
  destruct (translate_simd_ternary_run make eval _ _ _ _ _ _ _ Hr Hp1 Hp2 Hp3) as [Hk Hs]. split; [done|].
  intros x t1 y t2 z t3 Hn Hx Hy Hz. by eapply emits_of; [eapply Hs|].
Qed.

Lemma test_sound_of r ty make eval : Typed_TY r = Some ty ->
  (forall value, computes_reg (make value) r (reads1 value eval)) -> test_sound (translate_simd_unary_rx r make eval, r, eval).
Proof.
  intros Ht Hc. split; [intros st; apply bail_skips|]. intros st operand s1 Hr Hp.
  destruct (translate_simd_unary_rx_run r ty make eval _ _ _ Hr Hp Ht) as [Hk Hs]. split; [done|].
  intros value Hi. by eapply emits_reg_of; [..|apply Hc]; [|apply Hs].
Qed.

Lemma extract_sound_of p r ty make eval : Typed_TY r = Some ty ->
  (forall value lane, computes_reg (make value lane) r (reads1 value (fun v => eval v lane))) ->
  extract_sound (existT p (fun n => translate_extract_lane p r n make eval, r, eval)).
Proof.
  intros Ht Hc n lane Hl. split; [intros st; apply bail_skips|]. intros st operand s1 Hr Hp.
  destruct (translate_extract_lane_run p r ty n lane make eval _ _ _ Hr Hl Hp Ht) as [Hk Hs]. split; [done|].
  intros value Hi. by eapply emits_reg_of; [..|apply Hc]; [|apply Hs].
Qed.

Lemma shift_sound_of ty ssr sss ssi eval : ty <> P_bool -> ty <> P_f32 -> ty <> P_f64 ->
  (forall l, yields (fun result => ssr result l) (reads_mixed P_u32 l (Src_reg Reg_i64) eval)) ->
  (forall l r, yields (fun result => sss result l r) (reads_mixed P_u32 l (Src_slot r) eval)) ->
  (forall l k, yields (fun result => ssi result l (k mod prim_bits ty)) (reads_mixed P_u32 l (Src_imm k) eval)) ->
  shift_sound (translate_simd_shift ty ssr sss ssi eval, eval).
Proof.
  intros Ht1 Ht2 Ht3 Hr Hs Hi. split; [intros st; apply bail_skips|]. intros st rhs s1 lhs s2 src Hre Hp1 Hp2 Hsc.
  destruct (translate_simd_shift_run ty ssr sss ssi eval _ _ _ _ _ _ Hre Ht1 Ht2 Ht3 Hp1 Hp2 Hsc) as [Hk He]. split; [done|].
  intros l s3 Hn Hl. eapply emits_of; [by eapply He|]. inversion Hsc; subst; done.
Qed.

Lemma splat_sound_of p w sr ss si eval :
  yields sr (reads_scalar p (Src_reg (reg_of_prim p)) (fun x => eval (wrap w x))) ->
  (forall value, yields (fun result => ss result value) (reads_scalar p (Src_slot value) (fun x => eval (wrap w x)))) ->
  (forall x, yields (fun result => si result (to_bits w (wrap w x))) (reads_scalar p (Src_imm x) (fun x => eval (wrap w x)))) ->
  splat_sound (translate_simd_splat p w sr ss si, p, w, eval).
Proof.
  intros Hr Hs Hi. split; [intros st; apply bail_skips|]. intros st operand s1 src Hre Hp Hsc.
  eapply emits_of; [by eapply translate_simd_splat_run|]. inversion Hsc; subst; done.
Qed.

Lemma replace_sound_of T :
  (forall i lane, yields (fun result => rl_op_ssr T result i lane)
    (reads_mixed (rl_Item T) i (Src_reg (reg_of_prim (rl_Item T))) (fun v => rl_const_eval T v lane))) ->
  (forall i lane value, yields (fun result => rl_op_sss T result i lane value)
    (reads_mixed (rl_Item T) i (Src_slot value) (fun v => rl_const_eval T v lane))) ->
  (forall i lane x, yields (fun result => rl_op_ssi T result i lane (rl_into_immediate T x))
    (reads_mixed (rl_Item T) i (Src_imm x) (fun v => rl_const_eval T v lane))) ->
  replace_sound (existT (rl_Item T) (translate_replace_lane T, rl_const_eval T)).
Proof.
  intros Hr Hs Hi n lane Hl. split; [intros st; apply bail_skips|]. intros st value s1 input s2 Hre Hp1 Hp2.
  destruct (translate_replace_lane_run T n lane _ _ _ _ _ Hre Hl Hp1 Hp2) as [Hk He]. split; [done|].
  intros i s3 src Hn Hp Hsc. eapply emits_of; [by eapply He|]. inversion Hsc; subst; done.
Qed.

Ltac each := repeat (apply Forall_cons; split); [..|by apply Forall_nil].

Lemma unary_visitors_sound : Forall unary_sound unary_visitors.
Proof. each; (refine (unary_sound_of _ _ _); intros value result; refine (computes_unary _ result value)). Qed.
Lemma ternary_visitors_sound : Forall ternary_sound ternary_visitors.
Proof. each; (refine (ternary_sound_of _ _ _); intros x y z result; refine (computes_ternary _ result x y z)). Qed.
Lemma binary_visitors_sound : Forall binary_sound binary_visitors.
Proof.
  each; (refine (binary_sound_of _ _ _); intros l r result;
    first [refine (computes_binary _ result l r)|refine (computes_swapped _ result l r _ _); intros; apply comparison_flip;
      intros; first [apply Z.gtb_ltb|apply Z.geb_leb|reflexivity]]).
Qed.
Lemma test_visitors_sound : Forall test_sound test_visitors.
Proof. each; (refine (test_sound_of _ _ _ _ _ _); [reflexivity|]; intros; by apply computes_test). Qed.
Lemma extract_visitors_sound : Forall extract_sound extract_visitors.
Proof. each; (refine (extract_sound_of _ _ _ _ _ _ _); [reflexivity|]; intros; by apply computes_test). Qed.
Lemma shift_visitors_sound : Forall shift_sound shift_visitors.
Proof.
  each; (refine (shift_sound_of _ _ _ _ _ _ _ _ _ _ _); [done..|intros l result|intros l r result|intros l k result];
    (eapply computes_mixed; [reflexivity|])).
  all: first [apply reads_shift; eauto|by apply reads_shift_imm].
Qed.
Lemma splat_visitors_sound : Forall splat_sound splat_visitors.
Proof.
  each; (refine (splat_sound_of _ _ _ _ _ _ _ _ _); [intros result|intros value result|intros x result];
    (eapply computes_scalar; [reflexivity|])).
  all: first
    [ apply reads_scalar_ext; [eauto|done..|]; intros c; unfold splat_u8, splat_u16, splat_u32, splat_u64, wrap;
      rewrite !cast_cast by done; by first [reflexivity|apply splat_bits]
    | intros fs; unfold reads_scalar, wrap; unfold_m; cbn [get_value RegTy_get]; f_equal; symmetry; by apply splat_any
    | intros fs; unfold reads_scalar, wrap, to_bits, splat_u8, splat_u16, splat_u32, splat_u64; unfold_m; cbn [get_value];
      rewrite ?cast_cast by done; by first [reflexivity|f_equal; apply splat_bits] ].
Qed.

(** The operator for a replaced lane. *)
Definition replaces (T : SimdReplaceLane) : Prop :=
  (forall i lane, yields (fun result => rl_op_ssr T result i lane)
    (reads_mixed (rl_Item T) i (Src_reg (reg_of_prim (rl_Item T))) (fun v => rl_const_eval T v lane))) /\
  (forall i lane value, yields (fun result => rl_op_sss T result i lane value)
    (reads_mixed (rl_Item T) i (Src_slot value) (fun v => rl_const_eval T v lane))) /\
  (forall i lane x, yields (fun result => rl_op_ssi T result i lane (rl_into_immediate T x))
    (reads_mixed (rl_Item T) i (Src_imm x) (fun v => rl_const_eval T v lane))).

Lemma replace_lanes : Forall replaces [I8x16ReplaceLane; I16x8ReplaceLane; I32x4ReplaceLane; I64x2ReplaceLane;
                                       F32x4ReplaceLane; F64x2ReplaceLane].
Proof.
  each; (split_and!; [intros i lane result|intros i lane value result|intros i lane x result];
    (eapply computes_mixed; [reflexivity|])).
  all: unfold v128_replace_lane8x16, v128_replace_lane16x8, v128_replace_lane32x4, v128_replace_lane64x2; first
    [ reflexivity
    | apply reads_mixed_ext; [eauto|done..|]; intros v c; cbn [rl_const_eval];
      rewrite !cast_cast by done; by first [reflexivity|apply replace_lane_bits]
    | apply reads_mixed_imm; intros v; cbn [rl_const_eval rl_into_immediate I8x16ReplaceLane I16x8ReplaceLane
        I32x4ReplaceLane I64x2ReplaceLane F32x4ReplaceLane F64x2ReplaceLane]; unfold to_bits;
      rewrite ?cast_cast by done;
      first [apply replace_lane_any|symmetry; etrans; [symmetry; apply replace_lane_any|by apply replace_lane_bits]] ].
Qed.
Lemma replaces_sound T : replaces T -> replace_sound (existT (rl_Item T) (translate_replace_lane T, rl_const_eval T)).
Proof. intros (? & ? & ?). by apply replace_sound_of. Qed.
Lemma replace_visitors_sound : Forall replace_sound replace_visitors.
Proof.
  pose proof replace_lanes as Hl. rewrite !Forall_cons in Hl. destruct Hl as (H8 & H16 & H32 & H64 & F32 & F64 & _).
  unfold replace_visitors. rewrite !Forall_cons. split_and!; [..|by apply Forall_nil].
  - exact (replaces_sound _ H8).
  - exact (replaces_sound _ H16).
  - exact (replaces_sound _ H32).
  - exact (replaces_sound _ H64).
  - exact (replaces_sound _ F32).
  - exact (replaces_sound _ F64).
Qed.
Lemma shuffle_visitor_sound : shuffle_sound visit_i8x16_shuffle.
Proof.
  intros lanes s Hl. split; [intros st; apply bail_skips|]. intros st rhs s1 lhs s2 Hr Hp1 Hp2.
  destruct (visit_i8x16_shuffle_run lanes s _ _ _ _ _ Hr Hl Hp1 Hp2) as [Hk Hs]. split; [done|].
  intros l s3 r s4 Hn Hpl Hpr. eapply emits_of; [by eapply Hs|]. intros result. apply computes_shuffle.
Qed.

(** *** Scalar loads

    The loads that widen, splat or replace a lane load a scalar first. *)

Definition load_handler (op : Instr) : option LoadHandler :=
  match op with
  | Instr_Load op => Some (load_op_handler op)
  | Instr_LoadMem0 op => Some (load_mem0_op_handler op)
  | _ => None
  end.

(** [op] loads a scalar of type [p] with [eval] into its register. *)
Definition scalar_load (p : Prim) (eval : list Z -> Z -> Z -> res TrapCode Z) (op : Instr) (ptr : Src) (offset memory : Z) :
    Prop :=
  load_handler op = Some (load_any p eval (Dst_reg (reg_of_prim p)) ptr (Src_imm offset) memory) \/
  memory = 0 /\ load_handler op = Some (load_mem0 p eval (Dst_reg (reg_of_prim p)) ptr (Src_imm offset)).

(** A scalar load: its type, how it loads from a pointer and an offset and how from
    an address. *)
Record ScalarLoad : Type := {
  sl_ty : Prim;
  sl_load : list Z -> Z -> Z -> res TrapCode Z;
  sl_load_at : list Z -> Z -> res TrapCode Z
}.
Definition u32_load : ScalarLoad := {| sl_ty := P_u32; sl_load := load P_u32; sl_load_at := load_at P_u32 |}.
Definition u64_load : ScalarLoad := {| sl_ty := P_u64; sl_load := load P_u64; sl_load_at := load_at P_u64 |}.
Definition u8_load : ScalarLoad := {| sl_ty := P_i32; sl_load := i32_load8_u; sl_load_at := i32_load8_u_at |}.
Definition u16_load : ScalarLoad := {| sl_ty := P_i32; sl_load := i32_load16_u; sl_load_at := i32_load16_u_at |}.

(** What the operators of a [LoadOp] do. *)
Definition loads (op : LoadOp) (scalar : ScalarLoad) : Prop :=
  let is_load := scalar_load (sl_ty scalar) (sl_load scalar) in
  Typed_TY (l_Result op) = Typed_TY (sl_ty scalar) /\
  (forall offset memory, is_load (l_op_rr op offset memory) (Src_reg Reg_i64) offset memory) /\
  (forall ptr offset memory, is_load (l_op_rs op ptr offset memory) (Src_slot ptr) offset memory) /\
  (forall offset, is_load (l_op_rr_mem0_offset16 op offset) (Src_reg Reg_i64) offset 0) /\
  (forall ptr offset, is_load (l_op_rs_mem0_offset16 op ptr offset) (Src_slot ptr) offset 0) /\
  (forall address memory, load_handler (l_op_ri op address memory) =
    Some (load_ri (sl_ty scalar) (sl_load_at scalar) (Dst_reg (reg_of_prim (sl_ty scalar))) (Src_imm address) memory)).

(** The operand [ptr] and the offset of [memarg] are the address of [scalar]: either
    they are known to be out of bounds, or an operator loads from there. *)
Definition selects_load (scalar : ScalarLoad) (memarg : MemArg) (st : FuncTranslator I) (ptr : Operand) (out_of_bounds : Prop)
    (loaded : Instr -> Prop) : Prop :=
  (from_memarg memarg st = (Ok None, st) -> out_of_bounds) /\
  forall memory offset ty place, from_memarg memarg st = (Ok (Some (memory, offset)), st) ->
    memory_type_of memory st = (Ok ty, st) -> resolve_operand_as_index ptr memory st = (Ok place, st) ->
    match place with
    | Resolved_Immediate ptr =>
        match effective_address ty ptr offset with
        | None => out_of_bounds
        | Some address => exists op, loaded op /\
            load_handler op =
              Some (load_ri (sl_ty scalar) (sl_load_at scalar) (Dst_reg (reg_of_prim (sl_ty scalar))) (Src_imm address) memory)
        end
    | Resolved_Reg _ => exists op, loaded op /\ scalar_load (sl_ty scalar) (sl_load scalar) op (Src_reg Reg_i64) offset memory
    | Resolved_Slot ptr => exists op, loaded op /\ scalar_load (sl_ty scalar) (sl_load scalar) op (Src_slot ptr) offset memory
    end.

Lemma selects_load_mono scalar memarg (st : FuncTranslator I) ptr (out out' : Prop) (loaded loaded' : Instr -> Prop) :
  (out -> out') -> (forall op h, load_handler op = Some h -> load_result h = Dst_reg (reg_of_prim (sl_ty scalar)) -> loaded op -> loaded' op) ->
  selects_load scalar memarg st ptr out loaded -> selects_load scalar memarg st ptr out' loaded'.
Proof.
  intros Ho Hl [Hn' Hs']. split; [auto|]. intros memory offset ty place Hm Ht Hp. specialize (Hs' _ _ _ _ Hm Ht Hp).
  destruct place; [..|case_match; [|auto]]; destruct Hs' as (op & Hop & Hh); exists op; split; try done;
    [destruct Hh as [Hh|[_ Hh]]; eauto..|eauto].
Qed.

Lemma select_load_op_run op scalar memarg (st : FuncTranslator I) ptr : loads op scalar ->
  selects_load scalar memarg st ptr (select_load_op_vt (LoadOp_VT op) ptr memarg st = (Ok (Instr_Trap MemoryOutOfBounds), st))
    (fun o => select_load_op_vt (LoadOp_VT op) ptr memarg st = (Ok o, st)).
Proof.
  intros (_ & Hrr & Hrs & Hrr0 & Hrs0 & Hri). unfold select_load_op_vt. split; [intros Hm; by rewrite bind_run, Hm|].
  intros memory offset ty place Hm Ht Hp. rewrite bind_run, Hm, bind_run, Hp.
  assert (forall o, Offset16_new offset = Some o -> o = offset) as Ho.
  { intros o. unfold Offset16_new, try_from_u. by case_match; intros [= <-]. }
  destruct place as [t|slot|imm].
  - destruct (Z.eqb_spec memory 0) as [->|]; cbn [negb]; [destruct (Offset16_new offset) as [o|]; [rewrite (Ho o) by done|]|].
    all: rewrite ?bind_run, ?Ht; eexists; split; [reflexivity|apply Hrr0||apply Hrr].
  - destruct (Z.eqb_spec memory 0) as [->|]; cbn [negb]; [destruct (Offset16_new offset) as [o|]; [rewrite (Ho o) by done|]|].
    all: rewrite ?bind_run, ?Ht; eexists; split; [reflexivity|apply Hrs0||apply Hrs].
  - replace (if negb (memory =? 0) then None else _) with (@None Instr)
      by (destruct (negb _); [done|]; by destruct (Offset16_new offset)).
    rewrite bind_run, Ht. unfold ResolvedOperand_filter_map. cbn [ResolvedOperand_map ResolvedOperand_transpose].
    destruct (effective_address ty imm offset) as [address|]; cbn [fmap option_fmap option_map]; [|done].
    eexists; split; [reflexivity|]. apply Hri.
Qed.

Lemma load_handler_inv op h : load_handler op = Some h -> (exists o, op = Instr_Load o) \/ exists o, op = Instr_LoadMem0 o.
Proof. destruct op; try done; eauto. Qed.

(** The code of the scalar load; its result is in the register and has no operand. *)
Definition load_code (ty : ValType) (op : Instr) : FM I unit :=
  fuel_pos ← stack_fuel_pos; preserve_reg_of_type ty;; encode op fuel_pos FuelCostsProvider_load;; mret tt.

Lemma encode_scalar_load_run op scalar ty memarg (st : FuncTranslator I) ptr : loads op scalar -> Typed_TY (sl_ty scalar) = Some ty ->
  selects_load scalar memarg st ptr
    (forall k, (loaded ← encode_scalar_load op ptr memarg; if loaded : bool then k else mret tt) st =
      translate_trap (I := I) MemoryOutOfBounds st)
    (fun o => forall k s, load_code ty o st = (Ok tt, s) ->
      (loaded ← encode_scalar_load op ptr memarg; if loaded : bool then k else mret tt) st = k s).
Proof.
  intros Hl Ht. eapply selects_load_mono; [..|by apply select_load_op_run].
  - intros Hs k. unfold encode_scalar_load. rewrite !bind_run, Hs, bind_run.
    by destruct (translate_trap MemoryOutOfBounds st) as [[[]| |] s].
  - intros o h Hh _ Hs k s. unfold encode_scalar_load, load_code. rewrite !bind_run, Hs.
    destruct Hl as (-> & _). rewrite Ht. destruct (load_handler_inv _ _ Hh) as [[lo ->]|[lo ->]]; rewrite !bind_run.
    all: destruct (stack_fuel_pos st) as [[fuel| |] s1]; [|done..].
    all: rewrite bind_lift; cbn [expect]; rewrite !bind_run; destruct (preserve_reg_of_type ty s1) as [[[]| |] s2]; [|done..].
    all: rewrite !bind_run; destruct (encode _ fuel FuelCostsProvider_load s2) as [[pos| |] s3]; [|done..].
    all: by intros [= <-].
Qed.

Lemma bail_skips_all (m : FM I unit) : skips (bail_unreachable m).
Proof. intros st. apply bail_skips. Qed.

(** The code of a scalar load with an operand for its result. *)
Definition load_operand (ty : ValType) (op : Instr) : FM I unit :=
  push_result_reg ty;; fuel_pos ← stack_fuel_pos; in_instrs (sink_stage_op op fuel_pos FuelCostsProvider_load).

Lemma translate_load_run op scalar ty memarg st ptr s1 : loads op scalar -> Typed_TY (sl_ty scalar) = Some ty ->
  ft_reachable st = true -> stack_pop st = (Ok ptr, s1) ->
  selects_load scalar memarg s1 ptr (translate_load op memarg st = translate_trap (I := I) MemoryOutOfBounds s1)
    (fun o => translate_load op memarg st = load_operand ty o s1).
Proof.
  intros Hl Ht Hr Hp. unfold translate_load, translate_load_vt. rewrite bail_reachable by done. cbn [lvt_result_ty LoadOp_VT].
  pose proof (select_load_op_run _ _ memarg s1 ptr Hl) as Hs. destruct Hl as (-> & _). rewrite Ht, bind_lift. cbn [expect].
  rewrite bind_run, Hp. eapply selects_load_mono; [..|exact Hs].
  - intros E. by rewrite bind_run, E.
  - intros o h Hh Hd E. rewrite bind_run, E. unfold load_operand.
    assert (assert_result_reg o s1 = (Ok tt, s1)) as Ha.
    { unfold assert_result_reg, result_loc. destruct o; try done; cbn [instr_result]; injection Hh as Hh; rewrite Hh, Hd;
        by destruct (reg_of_prim (sl_ty scalar)). }
    destruct (load_handler_inv _ _ Hh) as [[lo ->]|[lo ->]]; unfold stage_op_with_result_reg; by rewrite bind_run, Ha.
Qed.

(** *** Loads that widen or replace a lane *)

Definition load_visitors : list ((MemArg -> FM I unit) * ScalarLoad * (Z -> V128) * (list Z -> Z -> Z -> res TrapCode V128)) := [
  (visit_v128_load8x8_s, u64_load, v128_widen8x8_s, v128_load8x8_s);
  (visit_v128_load8x8_u, u64_load, v128_widen8x8_u, v128_load8x8_u);
  (visit_v128_load16x4_s, u64_load, v128_widen16x4_s, v128_load16x4_s);
  (visit_v128_load16x4_u, u64_load, v128_widen16x4_u, v128_load16x4_u);
  (visit_v128_load32x2_s, u64_load, v128_widen32x2_s, v128_load32x2_s);
  (visit_v128_load32x2_u, u64_load, v128_widen32x2_u, v128_load32x2_u);
  (visit_v128_load32_zero, u32_load, v128_low32_zero, v128_load32_zero);
  (visit_v128_load64_zero, u64_load, v128_low64_zero, v128_load64_zero)].

Definition load_splat_visitors : list ((MemArg -> FM I unit) * ScalarLoad * Prim * Prim * (Z -> V128) *
                                       (list Z -> Z -> Z -> res TrapCode V128)) := [
  (visit_v128_load8_splat, u8_load, P_i32, P_i8, i8x16_splat, v128_load8_splat);
  (visit_v128_load16_splat, u16_load, P_i32, P_i16, i16x8_splat, v128_load16_splat);
  (visit_v128_load32_splat, u32_load, P_i32, P_i32, i32x4_splat, v128_load32_splat);
  (visit_v128_load64_splat, u64_load, P_i64, P_i64, i64x2_splat, v128_load64_splat)].

Definition load_lane_visitors : list ({p & ((MemArg -> Z -> FM I unit) * ScalarLoad * (V128 -> LaneIdx p -> Z -> V128) *
                                            (list Z -> Z -> Z -> V128 -> LaneIdx p -> res TrapCode V128))%type}) := [
  (existT P_i8 (visit_v128_load8_lane, u8_load, i8x16_replace_lane, v128_load8_lane));
  (existT P_i16 (visit_v128_load16_lane, u16_load, i16x8_replace_lane, v128_load16_lane));
  (existT P_i32 (visit_v128_load32_lane, u32_load, i32x4_replace_lane, v128_load32_lane));
  (existT P_i64 (visit_v128_load64_lane, u64_load, i64x2_replace_lane, v128_load64_lane))].

Definition load_sound (entry : (MemArg -> FM I unit) * ScalarLoad * (Z -> V128) * (list Z -> Z -> Z -> res TrapCode V128)) :
    Prop :=
  let '(visit, scalar, eval, loaded) := entry in
  (forall memarg, skips (visit memarg) /\
    forall st ptr s1 ty, ft_reachable st = true -> stack_pop st = (Ok ptr, s1) -> Typed_TY (sl_ty scalar) = Some ty ->
    selects_load scalar memarg s1 ptr (visit memarg st = translate_trap MemoryOutOfBounds s1)
      (fun op => forall s2, load_code ty op s1 = (Ok tt, s2) ->
        emits (visit memarg) st s2 (reads_scalar (sl_ty scalar) (Src_reg Reg_i64) eval))) /\
  forall memory ptr offset, loaded memory ptr offset = eval <$> sl_load scalar memory ptr offset.
(** The operand of the scalar load is the one that is splatted. *)
Definition load_splat_sound
    (entry : (MemArg -> FM I unit) * ScalarLoad * Prim * Prim * (Z -> V128) * (list Z -> Z -> Z -> res TrapCode V128)) : Prop :=
  let '(visit, loads, p, w, eval, loaded) := entry in
  (forall memarg, skips (visit memarg) /\
    forall st ptr s1 ty, ft_reachable st = true -> stack_pop st = (Ok ptr, s1) -> Typed_TY (sl_ty loads) = Some ty ->
    selects_load loads memarg s1 ptr (visit memarg st = translate_trap MemoryOutOfBounds s1)
      (fun op => forall s2 operand s3 src, load_operand ty op s1 = (Ok tt, s2) -> ft_reachable s2 = true ->
        stack_pop s2 = (Ok operand, s3) -> scalar p s3 operand src ->
        emits (visit memarg) st s3 (reads_scalar p src (fun x => eval (wrap w x))))) /\
  forall memory ptr offset, loaded memory ptr offset = (fun x => eval (wrap w x)) <$> sl_load loads memory ptr offset.
Definition load_lane_sound (entry : {p & ((MemArg -> Z -> FM I unit) * ScalarLoad * (V128 -> LaneIdx p -> Z -> V128) *
                                          (list Z -> Z -> Z -> V128 -> LaneIdx p -> res TrapCode V128))%type}) : Prop :=
  let '(existT p (visit, scalar, eval, loaded)) := entry in
  (forall memarg n lane, ImmLaneIdx_try_from (16 / prim_bytes p) n = Some lane -> skips (visit memarg n) /\
    forall st v s1 ptr s2 ty, ft_reachable st = true -> stack_pop st = (Ok v, s1) -> stack_pop s1 = (Ok ptr, s2) ->
      Typed_TY (sl_ty scalar) = Some ty ->
    selects_load scalar memarg s2 ptr (visit memarg n st = translate_trap MemoryOutOfBounds s2)
      (fun op => forall s3 i s4, load_code ty op s2 = (Ok tt, s3) -> placed s3 v i s4 ->
        emits (visit memarg n) st s4 (reads_mixed p i (Src_reg Reg_i64) (fun v => eval v lane)))) /\
  forall memory ptr offset v lane,
    loaded memory ptr offset v lane = (fun x => eval v lane (cast p x)) <$> sl_load scalar memory ptr offset.

Lemma load_sound_of op make scalar eval loaded : loads op scalar ->
  yields make (reads_scalar (sl_ty scalar) (Src_reg Reg_i64) eval) ->
  (forall memory ptr offset, loaded memory ptr offset = eval <$> sl_load scalar memory ptr offset) ->
  load_sound (fun memarg => translate_v128_load_modify op memarg make, scalar, eval, loaded).
Proof.
  intros Hl Hc He. split; [|done]. intros memarg. split; [apply bail_skips_all|]. intros st ptr s1 ty Hr Hp Ht.
  eapply selects_load_mono; [..|by apply encode_scalar_load_run]; cbn beta.
  - intros Hk. unfold translate_v128_load_modify. by rewrite bail_reachable, bind_run, Hp by done.
  - intros o h _ _ Hk s2 Hs. apply (emits_of _ _ _ make); [|done].
    unfold translate_v128_load_modify. by rewrite bail_reachable, bind_run, Hp, (Hk _ _ Hs) by done.
Qed.

Lemma load_splat_sound_of op splat scalar p w eval loaded : loads op scalar -> splat_sound (splat, p, w, eval) ->
  (forall memory ptr offset, loaded memory ptr offset = (fun x => eval (wrap w x)) <$> sl_load scalar memory ptr offset) ->
  load_splat_sound (fun memarg => translate_load op memarg;; splat, scalar, p, w, eval, loaded).
Proof.
  intros Hl [Hsk Hsp] He. split; [|done]. intros memarg. split.
  { intros st Hr. unfold translate_load, translate_load_vt. by rewrite bind_run, bail_skips, Hsk. }
  intros st ptr s1 ty Hr Hp Ht. eapply selects_load_mono; [..|by apply translate_load_run]; cbn beta.
  - intros Hk. rewrite bind_run, Hk. unfold translate_trap. rewrite bind_run.
    destruct (push_instr _ _ s1) as [[pos| |] s]; [|done..]. unfold put_reachable. rewrite bind_get_st. by apply Hsk.
  - intros o h _ _ Hk s2 operand s3 src Hs Hr' Hp' Hsc. rewrite Hs in Hk.
    destruct (Hsp _ _ _ _ Hr' Hp' Hsc) as (make & Hm & Hc). exists make. split; [|done]. by rewrite bind_run, Hk, Hm.
Qed.

Lemma load_lane_sound_of op T scalar loaded : loads op scalar -> replaces T -> reg_of_prim (rl_Item T) = Reg_i64 ->
  (forall memory ptr offset v lane, loaded memory ptr offset v lane =
    (fun x => rl_const_eval T v lane (cast (rl_Item T) x)) <$> sl_load scalar memory ptr offset) ->
  load_lane_sound (existT (rl_Item T) (translate_v128_load_lane op T, scalar, rl_const_eval T, loaded)).
Proof.
  intros Hl (Hc & _) Hreg He. split; [|done]. intros memarg n lane Hn. split; [apply bail_skips_all|].
  intros st v s1 ptr s2 ty Hr Hp1 Hp2 Ht. rewrite Hreg in Hc.
  assert (translate_v128_load_lane op T memarg n st = (loaded ← encode_scalar_load op ptr memarg;
    if loaded : bool then v128 ← copy_operand_to_slot v; push_vector (fun result => rl_op_ssr T result v128 lane)
    else mret tt) s2) as Hv.
  { unfold translate_v128_load_lane, lane_idx. rewrite bail_reachable, Hn, bind_lift by done. cbn [expect].
    by rewrite bind_run, (pop2_run _ _ _ _ _ Hp1 Hp2). }
  eapply selects_load_mono; [..|by apply encode_scalar_load_run]; cbn beta.
  - intros Hk. by rewrite Hv.
  - intros o h _ _ Hk s3 i s4 Hs Hpl. eapply emits_of; [|apply Hc].
    by rewrite Hv, (Hk _ _ Hs), bind_run, (copy_operand_to_slot_run _ _ _ _ Hpl).
Qed.

Ltac is_loads := split_and!; [reflexivity|..]; intros; first [by left|by right|reflexivity].
Lemma loads_u32 : loads I32Load u32_load. Proof. is_loads. Qed.
Lemma loads_u64 : loads I64Load u64_load. Proof. is_loads. Qed.
Lemma loads_u8 : loads U32Load8 u8_load. Proof. is_loads. Qed.
Lemma loads_u16 : loads U32Load16 u16_load. Proof. is_loads. Qed.

Lemma load_visitors_sound : Forall load_sound load_visitors.
Proof.
  each; (refine (load_sound_of _ _ _ _ _ _ _ _); [apply loads_u64||apply loads_u32|intros result; by eapply computes_scalar|reflexivity]).
Qed.

Lemma load_extend_load into p memory ptr offset :
  load_extend into p memory ptr offset = cast into <$> load p memory ptr offset.
Proof. unfold load_extend, load. by destruct (MemoryAccess.effective_address ptr offset). Qed.
Lemma fmap_loaded {A B C} (f : A -> B) (g : B -> C) (h : A -> C) (r : res TrapCode A) : (forall x, h x = g (f x)) ->
  h <$> r = g <$> (f <$> r).
Proof. intros Hf. destruct r; cbn; by rewrite ?Hf. Qed.
Lemma fmap_res_ext {A B} (f g : A -> B) (r : res TrapCode A) : (forall x, f x = g x) -> f <$> r = g <$> r.
Proof. intros Hf. destruct r; cbn; by rewrite ?Hf. Qed.
Lemma splat_loaded p q x : prim_bytes p = prim_bytes q -> V128_splat q x = V128_splat p (wrap p x).
Proof. intros Hb. unfold wrap. by rewrite (splat_bits p q), splat_any. Qed.
Lemma replace_lane_loaded p q v (lane : Z) x : prim_bytes p = prim_bytes q ->
  V128_replace_lane q v lane x = V128_replace_lane p v lane (cast p x).
Proof. intros Hb. by rewrite (replace_lane_bits p q), replace_lane_any. Qed.

Lemma load_splat_visitors_sound : Forall load_splat_sound load_splat_visitors.
Proof.
  pose proof splat_visitors_sound as Hs. unfold splat_visitors in Hs. rewrite !Forall_cons in Hs.
  destruct Hs as (S8 & S16 & S32 & S64 & _). unfold load_splat_visitors. rewrite !Forall_cons.
  split_and!; [refine (load_splat_sound_of _ _ _ _ _ _ _ loads_u8 S8 _)|refine (load_splat_sound_of _ _ _ _ _ _ _ loads_u16 S16 _)
    |refine (load_splat_sound_of _ _ _ _ _ _ _ loads_u32 S32 _)|refine (load_splat_sound_of _ _ _ _ _ _ _ loads_u64 S64 _)
    |by apply Forall_nil]; intros memory ptr offset.
  1,2: cbn [sl_load u8_load u16_load]; unfold i32_load8_u, i32_load16_u; rewrite load_extend_load; apply fmap_loaded; intros x;
    unfold i8x16_splat, i16x8_splat, impl_splat_for, wrap; rewrite cast_cast by done; by apply splat_loaded.
  all: apply fmap_res_ext; intros x; by apply splat_loaded.
Qed.

Lemma load_lane_visitors_sound : Forall load_lane_sound load_lane_visitors.
Proof.
  pose proof replace_lanes as Hl. rewrite !Forall_cons in Hl. destruct Hl as (H8 & H16 & H32 & H64 & _).
  unfold load_lane_visitors. rewrite !Forall_cons.
  split_and!; [refine (load_lane_sound_of _ _ _ _ loads_u8 H8 eq_refl _)|refine (load_lane_sound_of _ _ _ _ loads_u16 H16 eq_refl _)
    |refine (load_lane_sound_of _ _ _ _ loads_u32 H32 eq_refl _)|refine (load_lane_sound_of _ _ _ _ loads_u64 H64 eq_refl _)
    |by apply Forall_nil]; intros memory ptr offset v lane.
  1,2: cbn [sl_load u8_load u16_load]; unfold i32_load8_u, i32_load16_u; rewrite load_extend_load; apply fmap_loaded; intros x;
    rewrite cast_cast by done; by apply replace_lane_loaded.
  all: apply fmap_res_ext; intros x; by apply replace_lane_loaded.
Qed.

(** *** Vectors in memory *)

(** The operator loads the vector at [ptr] and [offset] to the slot [result]. *)
Definition vector_load (op : Instr) (result : Slot) (ptr : Src) (offset memory : Z) : Prop :=
  exists o, op = Instr_Simd o /\
    (simd_handler o = vh_load v128_load result ptr (Src_imm offset) memory \/
     memory = 0 /\ simd_handler o = vh_load_mem0 v128_load result ptr (Src_imm offset)).
(** The operator stores the vector of the slot [value] with [eval]. *)
Definition vector_store (eval : Z -> Z -> V128 -> M (list Z) TrapCode unit) (op : Instr) (ptr : Src) (offset memory : Z)
    (value : Slot) : Prop :=
  exists o, op = Instr_Simd o /\
    (simd_handler o = vh_store eval ptr (Src_imm offset) value memory \/
     memory = 0 /\ simd_handler o = vh_store_mem0 eval ptr (Src_imm offset) value).

Definition emits_load (visit : FM I unit) (st st' : FuncTranslator I) (ptr : Src) (offset memory : Z) : Prop :=
  exists op : Slot -> Instr,
    visit st = (fuel_pos ← stack_fuel_pos;
                temp ← on_operands (push_temp ValType_V128 Allocation_None);
                in_instrs (sink_stage_op (op (span_head (to_temp_slots temp))) fuel_pos FuelCostsProvider_load)) st' /\
    forall result, vector_load (op result) result ptr offset memory.
Definition emits_store (visit : FM I unit) (st st' : FuncTranslator I) (eval : Z -> Z -> V128 -> M (list Z) TrapCode unit)
    (ptr : Src) (offset memory : Z) (value : Slot) : Prop :=
  exists op, visit st = (fuel_pos ← stack_fuel_pos; encode op fuel_pos FuelCostsProvider_store;; mret tt) st' /\
    vector_store eval op ptr offset memory value.

Definition place_of (location : Location) : Src :=
  match location with Loc_Reg _ => Src_reg Reg_i64 | Loc_Slot slot => Src_slot slot end.

Definition v128_load_sound (visit : MemArg -> FM I unit) : Prop :=
  forall memarg, skips (visit memarg) /\
  forall st operand s1, ft_reachable st = true -> stack_pop st = (Ok operand, s1) ->
    let out_of_bounds := visit memarg st = translate_trap MemoryOutOfBounds s1 in
    (from_memarg memarg s1 = (Ok None, s1) -> out_of_bounds) /\
    forall memory offset ty place, from_memarg memarg s1 = (Ok (Some (memory, offset)), s1) ->
      memory_type_of memory s1 = (Ok ty, s1) -> resolve_operand_as_index operand memory s1 = (Ok place, s1) ->
      match place with
      | Resolved_Reg _ => emits_load (visit memarg) st s1 (Src_reg Reg_i64) offset memory
      | Resolved_Slot ptr => emits_load (visit memarg) st s1 (Src_slot ptr) offset memory
      | Resolved_Immediate ptr =>
          match effective_address ty ptr offset with
          | None => out_of_bounds
          | Some _ => forall location s2, copy_immediate_to_slot operand s1 = (Ok location, s2) ->
              emits_load (visit memarg) st s2 (place_of location) offset memory
          end
      end.
Definition v128_store_sound (visit : MemArg -> FM I unit) : Prop :=
  forall memarg, skips (visit memarg) /\
  forall st value s1 ptr s2, ft_reachable st = true -> stack_pop st = (Ok value, s1) -> stack_pop s1 = (Ok ptr, s2) ->
    (from_memarg memarg s2 = (Ok None, s2) -> visit memarg st = translate_trap MemoryOutOfBounds s2) /\
    forall memory offset location s3 v s4, from_memarg memarg s2 = (Ok (Some (memory, offset)), s2) ->
      copy_immediate_to_slot ptr s2 = (Ok location, s3) -> placed s3 value v s4 ->
      emits_store (visit memarg) st s4 v128_store (place_of location) offset memory v.
(** The lane of a constant is stored by the store of a scalar. *)
Definition store_lane_sound (entry : {p & ((MemArg -> Z -> FM I unit) * (Z -> Z -> V128 -> LaneIdx p -> M (list Z) TrapCode unit) *
                                           StoreOp * (V128 -> LaneIdx p -> Z))%type}) : Prop :=
  let '(existT p (visit, eval, op, lane_of)) := entry in
  forall memarg n lane, ImmLaneIdx_try_from (16 / prim_bytes p) n = Some lane -> skips (visit memarg n) /\
  forall st value s1 ptr s2, ft_reachable st = true -> stack_pop st = (Ok value, s1) -> stack_pop s1 = (Ok ptr, s2) ->
    (forall v, constant value = Some v -> visit memarg n st =
      (push_imm P_i32 (lane_of v lane);; lane ← stack_pop; encode_store_vt (StoreOp_VT op) memarg ptr lane) s2) /\
    forall v, in_slot s2 value v ->
      (from_memarg memarg s2 = (Ok None, s2) -> visit memarg n st = translate_trap MemoryOutOfBounds s2) /\
      forall memory offset location s3, from_memarg memarg s2 = (Ok (Some (memory, offset)), s2) ->
        copy_immediate_to_slot ptr s2 = (Ok location, s3) ->
        emits_store (visit memarg n) st s3 (fun ptr offset v => eval ptr offset v lane) (place_of location) offset memory v.

Definition store_lane_visitors : list ({p & ((MemArg -> Z -> FM I unit) *
    (Z -> Z -> V128 -> LaneIdx p -> M (list Z) TrapCode unit) * StoreOp * (V128 -> LaneIdx p -> Z))%type}) := [
  (existT P_i8 (visit_v128_store8_lane, v128_store8_lane, I32Store8, i8x16_extract_lane_s));
  (existT P_i16 (visit_v128_store16_lane, v128_store16_lane, I32Store16, i16x8_extract_lane_s))].

Lemma emits_load_of visit (st st' : FuncTranslator I) op ptr offset memory :
  visit st = push_op_with_result_slot ValType_V128 op FuelCostsProvider_load st' ->
  (forall result, vector_load (op result) result ptr offset memory) -> emits_load visit st st' ptr offset memory.
Proof.
  intros Hv Hl. exists op. split; [|done]. rewrite Hv. apply push_result_slot_run. intros result.
  destruct (Hl result) as (o & -> & Hh). apply result_ref_of. by destruct Hh as [->|[_ ->]].
Qed.
Lemma emits_store_of visit (st st' : FuncTranslator I) op eval ptr offset memory value :
  visit st = (push_instr op FuelCostsProvider_store;; mret tt) st' -> vector_store eval op ptr offset memory value ->
  emits_store visit st st' eval ptr offset memory value.
Proof.
  intros Hv Hl. exists op. split; [|done]. rewrite Hv. unfold push_instr.
  assert (result_ref op = None) as ->.
  { destruct Hl as (o & -> & Hh). unfold result_ref, result_loc. cbn [instr_result]. unfold simd_result.
    by destruct Hh as [->|[_ ->]]. }
  assert (assert_m (S := FuncTranslator I) (E := TransError) true st' = (Ok tt, st')) as Ha by done.
  rewrite (bind_run _ _ st'), (bind_run _ _ st'), Ha, !(bind_run _ _ st').
  destruct (stack_fuel_pos st') as [[fuel| |] s]; [|done..]. by rewrite bind_run.
Qed.

Lemma Offset16_new_offset offset o : Offset16_new offset = Some o -> o = offset.
Proof. unfold Offset16_new, try_from_u. by case_match; intros [= <-]. Qed.
Lemma vector_load_intro o result ptr offset memory :
  simd_handler o = vh_load v128_load result ptr (Src_imm offset) memory \/
  memory = 0 /\ simd_handler o = vh_load_mem0 v128_load result ptr (Src_imm offset) ->
  vector_load (Instr_Simd o) result ptr offset memory.
Proof. by exists o. Qed.
Lemma vector_store_intro eval o ptr offset memory value :
  simd_handler o = vh_store eval ptr (Src_imm offset) value memory \/
  memory = 0 /\ simd_handler o = vh_store_mem0 eval ptr (Src_imm offset) value ->
  vector_store eval (Instr_Simd o) ptr offset memory value.
Proof. by exists o. Qed.

(** The operator of [v128.load] for a place. *)
Lemma emits_load_place visit (st st' : FuncTranslator I) location offset memory :
  visit st = (match (if negb (memory =? 0) then None else Offset16_new offset) with
    | Some offset =>
        push_op_with_result_slot ValType_V128 (fun result =>
          v_memory match location with
                   | Loc_Reg _ => V128LoadMem0Offset16_Sr result offset
                   | Loc_Slot ptr => V128LoadMem0Offset16_Ss result ptr offset
                   end) FuelCostsProvider_load
    | None =>
        push_op_with_result_slot ValType_V128 (fun result =>
          v_memory match location with
                   | Loc_Reg _ => V128Load_Sr result offset memory
                   | Loc_Slot ptr => V128Load_Ss result ptr offset memory
                   end) FuelCostsProvider_load
    end) st' ->
  emits_load visit st st' (place_of location) offset memory.
Proof.
  destruct (Z.eqb_spec memory 0) as [->|]; cbn [negb]; [destruct (Offset16_new offset) as [o|] eqn:Ho;
    [apply Offset16_new_offset in Ho as ->|]|]; intros Hv; (eapply emits_load_of; [exact Hv|]); intros result;
    destruct location; apply vector_load_intro; by auto.
Qed.

Lemma v128_load_visitor_sound : v128_load_sound visit_v128_load.
Proof.
  intros memarg. split; [apply bail_skips_all|]. intros st operand s1 Hr Hp out. unfold visit_v128_load in *.
  split.
  { intros Hm. subst out. unfold translate_v128_load. by rewrite bail_reachable, bind_run, Hp, bind_run, Hm by done. }
  intros memory offset ty place Hm Ht Hpl.
  destruct place as [t|slot|imm]; [apply (emits_load_place _ st s1 (Loc_Reg t))|apply (emits_load_place _ st s1 (Loc_Slot slot))
    |destruct (effective_address ty imm offset) as [address|] eqn:Ha; [intros location s2 Hloc; apply emits_load_place|subst out]].
  all: unfold translate_v128_load; rewrite bail_reachable, bind_run, Hp, bind_run, Hm, bind_run, Hpl, bind_run, Ht by done;
    cbv zeta; rewrite ?Ha, ?bind_run, ?Hloc; try done.
Qed.

Lemma v128_store_visitor_sound : v128_store_sound visit_v128_store.
Proof.
  intros memarg. split; [apply bail_skips_all|]. intros st value s1 ptr s2 Hr Hp1 Hp2. split.
  { intros Hm. unfold visit_v128_store. by rewrite bail_reachable, bind_run, (pop2_run _ _ _ _ _ Hp1 Hp2), bind_run, Hm by done. }
  intros memory offset location s3 v s4 Hm Hloc Hpl.
  assert (visit_v128_store memarg st = (encoded ← translate_store128_mem0_offset16 location offset memory v;
    if encoded : bool then mret tt else
    push_instr (v_memory match location with
                         | Loc_Slot ptr => V128Store_Ss ptr offset v memory
                         | Loc_Reg _ => V128Store_Rs offset v memory
                         end) FuelCostsProvider_store;;
    mret tt) s4) as Hv.
  { unfold visit_v128_store. rewrite bail_reachable, bind_run, (pop2_run _ _ _ _ _ Hp1 Hp2), bind_run, Hm by done.
    by rewrite bind_run, Hloc, bind_run, (copy_operand_to_slot_run _ _ _ _ Hpl). }
  unfold translate_store128_mem0_offset16 in Hv.
  destruct (Z.eqb_spec memory 0) as [->|]; cbn [negb] in Hv; [destruct (Offset16_new offset) as [o|] eqn:Ho;
    [apply Offset16_new_offset in Ho as ->|]|].
  2,3: eapply emits_store_of; [exact Hv|]; destruct location; apply vector_store_intro; by auto.
  apply (emits_store_of _ _ _ (v_memory match location with
                                        | Loc_Slot ptr => V128StoreMem0Offset16_Ss ptr offset v
                                        | Loc_Reg _ => V128StoreMem0Offset16_Rs offset v
                                        end)); [rewrite Hv, !bind_run; by destruct (push_instr _ _ s4) as [[pos| |] s]|].
  destruct location; apply vector_store_intro; by auto.
Qed.

Lemma resolve_constant imm v (st : FuncTranslator I) : constant (Operand_Immediate imm) = Some v ->
  exists value, resolve_operand (Operand_Immediate imm) st = (Ok (Resolved_Immediate value), st) /\
    TypedRawVal_into_V128 (E := TransError) value = Ok v.
Proof.
  unfold constant. case_bool_decide as Ht; [|done]. intros [= <-]. unfold resolve_operand, try. rewrite bind_get_st.
  eexists. split; [done|]. unfold TypedRawVal_into_V128. cbn [ImmediateOperand_val typed_ty]. by rewrite bool_decide_true.
Qed.
Lemma resolve_in_slot operand v (st : FuncTranslator I) : in_slot st operand v ->
  resolve_operand operand st = (Ok (Resolved_Slot v), st).
Proof. intros Hs. unfold resolve_operand, try. rewrite bind_get_st, (in_slot_resolve _ _ _ Hs). done. Qed.

(** The operator of a store of a lane. *)
Lemma emits_store_lane visit (st st' : FuncTranslator I) eval location offset memory value (op0 : Z -> Instr) (op : Instr) :
  visit st = (match (if memory =? 0 then Offset16_new offset else None) with
              | Some offset => push_instr (op0 offset) FuelCostsProvider_store;; mret tt
              | None => push_instr op FuelCostsProvider_store;; mret tt
              end) st' ->
  (memory = 0 -> vector_store eval (op0 offset) (place_of location) offset memory value) ->
  vector_store eval op (place_of location) offset memory value ->
  emits_store visit st st' eval (place_of location) offset memory value.
Proof.
  destruct (Z.eqb_spec memory 0) as [->|]; [destruct (Offset16_new offset) as [o|] eqn:Ho;
    [apply Offset16_new_offset in Ho as ->|]|]; intros Hv H0' H'; (eapply emits_store_of; [exact Hv|]); auto.
Qed.

Lemma store_lane_visitors_sound : Forall store_lane_sound store_lane_visitors.
Proof.
  each; (intros memarg n lane Hn; split; [apply bail_skips_all|]; intros st value s1 ptr s2 Hr Hp1 Hp2; split;
    [intros v Hv|intros v Hv; split; [intros Hm|intros memory offset location s3 Hm Hloc]]).
  all: unfold visit_v128_store8_lane, visit_v128_store16_lane, translate_v128_store_lane, lane_idx.
  1,4: rewrite bail_reachable, Hn, bind_lift by done; cbn [expect];
    rewrite bind_run, (pop2_run _ _ _ _ _ Hp1 Hp2); destruct value as [o|o|o]; try done;
    destruct (resolve_constant _ _ s2 Hv) as (x & Hx & Hxv); rewrite bind_run, Hx, bind_lift, Hxv; unfold immediate_to_operand;
    rewrite !bind_run; by destruct (push_imm P_i32 _ s2) as [[[]| |] s].
  1,3: rewrite bail_reachable, Hn, bind_lift by done; cbn [expect];
    by rewrite bind_run, (pop2_run _ _ _ _ _ Hp1 Hp2), bind_run, (resolve_in_slot _ _ _ Hv), bind_run, Hm.
  all: eapply emits_store_lane; [rewrite bail_reachable, Hn, bind_lift by done; cbn [expect];
    by rewrite bind_run, (pop2_run _ _ _ _ _ Hp1 Hp2), bind_run, (resolve_in_slot _ _ _ Hv), bind_run, Hm, bind_run, Hloc|..];
    intros; destruct location; apply vector_store_intro; auto.
Qed.



(** Lanes of 32 and 64 bits are extracted as floats, and stored like these. *)
Definition store_lane_float_sound (entry : {p & ((MemArg -> Z -> FM I unit) *
    (Z -> Z -> V128 -> LaneIdx p -> M (list Z) TrapCode unit) * (Z -> FM I unit) * (MemArg -> FM I unit) * (V128 -> LaneIdx p -> Z))%type}) :
    Prop :=
  let '(existT p (visit, eval, extract, store_float, lane_of)) := entry in
  (forall memarg n st, ft_reachable st = false -> visit memarg n st = (Ok tt, st)) /\
  (forall memarg n st s1, extract n st = (Ok tt, s1) -> visit memarg n st = store_float memarg s1) /\
  (forall ptr offset v lane, eval ptr offset v lane = store p ptr offset (lane_of v lane)).
Definition store_lane_float_visitors : list ({p & ((MemArg -> Z -> FM I unit) *
    (Z -> Z -> V128 -> LaneIdx p -> M (list Z) TrapCode unit) * (Z -> FM I unit) * (MemArg -> FM I unit) * (V128 -> LaneIdx p -> Z))%type}) := [
  (existT P_f32 (visit_v128_store32_lane, v128_store32_lane, visit_f32x4_extract_lane, visit_f32_store, f32x4_extract_lane));
  (existT P_f64 (visit_v128_store64_lane, v128_store64_lane, visit_f64x2_extract_lane, visit_f64_store, f64x2_extract_lane))].
Lemma store_lane_float_visitors_sound : Forall store_lane_float_sound store_lane_float_visitors.
Proof.
  each; (split_and!; [intros memarg n st Hr|intros memarg n st s1 Hx|reflexivity]);
    unfold visit_v128_store32_lane, visit_v128_store64_lane; rewrite bind_run; [|by rewrite Hx| |by rewrite Hx].
  all: unfold visit_f32x4_extract_lane, visit_f64x2_extract_lane, translate_extract_lane; rewrite bail_skips by done;
    unfold visit_f32_store, visit_f64_store, translate_store; by rewrite bail_skips.
Qed.

Definition v128_const_sound (visit : Z -> FM I unit) : Prop :=
  forall value, skips (visit value) /\
  forall st, ft_reachable st = true -> visit value st = push_v128 (V128_from_u128 (value mod 2 ^ 128)) st.
Lemma v128_const_visitor_sound : v128_const_sound visit_v128_const.
Proof. intros value. split; [apply bail_skips_all|]. intros st Hr. unfold visit_v128_const. by rewrite bail_reachable. Qed.

(** C29: The visitors of the vector instructions.  A visitor does nothing in code that
    is not reachable.  Otherwise it pops its operands, the last one first; if all of
    them are constants it pushes the instruction evaluated; otherwise it pushes an
    operand for the result and encodes one operator whose handler reads the operands
    off the frame, from the slots they are in or are copied to, in their order, and
    writes to the result what the instruction evaluates to.  This is so for the unary,
    binary and ternary instructions, shuffles, tests and bit masks, shifts, splats,
    and extracted and replaced lanes, which covers the comparisons [gt] and [ge]: they
    have no operators and are [lt] and [le] with their operands swapped.  Loads that
    widen, splat or replace a lane encode the load of a scalar first and then an
    operator of the register, and the load of the instruction is the one of the scalar
    followed by this operator.  Loads and stores of vectors and lanes encode an
    operator for their address, memory and lane; an address that is known to be out
    of bounds is a trap. *)
Theorem simd_visitors_sound :
  Forall unary_sound unary_visitors /\ Forall binary_sound binary_visitors /\
  Forall ternary_sound ternary_visitors /\ shuffle_sound visit_i8x16_shuffle /\ Forall test_sound test_visitors /\
  Forall shift_sound shift_visitors /\ Forall splat_sound splat_visitors /\
  Forall extract_sound extract_visitors /\ Forall replace_sound replace_visitors /\
  Forall load_sound load_visitors /\ Forall load_splat_sound load_splat_visitors /\
  Forall load_lane_sound load_lane_visitors /\ v128_load_sound visit_v128_load /\ v128_store_sound visit_v128_store /\
  Forall store_lane_sound store_lane_visitors /\ Forall store_lane_float_sound store_lane_float_visitors /\
  v128_const_sound visit_v128_const.
Proof.
  split_and!; [apply unary_visitors_sound|apply binary_visitors_sound|apply ternary_visitors_sound|apply shuffle_visitor_sound
    |apply test_visitors_sound|apply shift_visitors_sound|apply splat_visitors_sound|apply extract_visitors_sound
    |apply replace_visitors_sound|apply load_visitors_sound|apply load_splat_visitors_sound|apply load_lane_visitors_sound
    |apply v128_load_visitor_sound|apply v128_store_visitor_sound|apply store_lane_visitors_sound
    |apply store_lane_float_visitors_sound|apply v128_const_visitor_sound].
Qed.

End Visitors.
