(* ===== verification/ExecSpec.v ===== *)
(** * What the handlers do to memories and tables

    Contracts of [Exec]: the cached memory is memory 0 of the running instance
    and accesses through it are accesses of that memory; the bulk operators
    copy, fill and trap as WebAssembly demands; the state out-of-fuel
    resumption starts from; and what the handlers do when two indices of an
    instance name the same entity. *)

From Stdlib Require Import ZArith Lia.
From stdpp Require Import base option decidable numbers list.
From S2P Require Import Prelude Trap Value WasmInt Fuel Limiter MemoryType MemoryAccess Memory Table Slot.
From S2P Require Import Codec EncodedOps Cells ExecStack Calls CallSpec CallRefine Arena Store Exec.
Local Open Scope Z_scope.

(** ** Entities of a store *)

Definition handle_idx `{Target} (h : Stored RawHandle) : nat := Z.to_nat (into_usize (st_value h)).

Lemma handle_idx_raw `{Target} (h : Stored RawHandle) : 1 <= rh_raw (st_value h) < 2 ^ 32 ->
  st_value h = {| rh_raw := Z.of_nat (handle_idx h) + 1 |}.
Proof.
  intros Hr. unfold handle_idx. cbn. rewrite wrapu_small by (unfold in_u; lia).
  rewrite Z2Nat.id by lia. destruct h as [? [raw]]. cbn in *. f_equal. lia.
Qed.

Section Entities.
Context `{Target}.

(** The entity a handle leads to. *)
Definition entity_at {Entity} (sa : StoreArena Entity) (s : StoreInner) (h : Stored RawHandle) : option Entity :=
  if bool_decide (st_store h = si_id s) then items (sa_get sa s) !! handle_idx h else None.

Lemma try_resolve_mut_run {Entity} (sa : StoreArena Entity) s h :
  try_resolve_mut sa s h =
  match entity_at sa s h with
  | Some e => Ok e
  | None => Err (if bool_decide (st_store h = si_id s) then EntityNotFound else StoreMismatch)
  end.
Proof.
  unfold try_resolve_mut, unwrap_stored, StoreId_unwrap, entity_at, resolve_mut, Arena_get_mut.
  case_bool_decide; [|done]. cbn [ok_or]. cbn [mbind res_bind]. fold (handle_idx h).
  by destruct (items (sa_get sa s) !! handle_idx h).
Qed.

(** An arena of the store that is not the arena of instances. *)
Class EntityArena {Entity} (sa : StoreArena Entity) : Prop := {
  sa_get_set : forall a s, sa_get sa (sa_set sa a s) = a;
  sa_set_get : forall s, sa_set sa (sa_get sa s) s = s;
  sa_set_set : forall a b s, sa_set sa a (sa_set sa b s) = sa_set sa a s;
  sa_set_id : forall a s, si_id (sa_set sa a s) = si_id s;
  sa_set_instances : forall a s, si_instances (sa_set sa a s) = si_instances s;
  sa_set_fuel : forall a s, si_fuel (sa_set sa a s) = si_fuel s;
  sa_fuel_get : forall f s, sa_get sa (set_si_fuel f s) = sa_get sa s
}.

#[export] Instance memories_arena : EntityArena sa_memories.
Proof. by split; intros; try destruct s. Qed.
#[export] Instance tables_arena : EntityArena sa_tables.
Proof. by split; intros; try destruct s. Qed.
#[export] Instance globals_arena : EntityArena sa_globals.
Proof. by split; intros; try destruct s. Qed.
#[export] Instance datas_arena : EntityArena sa_datas.
Proof. by split; intros; try destruct s. Qed.
#[export] Instance elems_arena : EntityArena sa_elems.
Proof. by split; intros; try destruct s. Qed.

Section Put.
Context {Entity : Type} (sa : StoreArena Entity) `{!EntityArena sa}.

Lemma entity_at_put s h e h' : entity_at sa s h <> None -> st_store h' = si_id s ->
  entity_at sa (put_entity sa h e s) h' =
  if bool_decide (handle_idx h = handle_idx h') then Some e else entity_at sa s h'.
Proof.
  unfold entity_at, put_entity. rewrite sa_set_id, sa_get_set. cbn [Arena_update items].
  change (Z.to_nat (into_usize (st_value h))) with (handle_idx h).
  case_bool_decide; [|done]. intros Hh Hs. rewrite !(bool_decide_true _ Hs).
  case_bool_decide as E.
  - rewrite <-E. apply list_lookup_insert_eq. by apply lookup_lt_is_Some, not_eq_None_Some.
  - by rewrite list_lookup_insert_ne.
Qed.

Lemma entity_at_fuel s f h : entity_at sa (set_si_fuel f s) h = entity_at sa s h.
Proof. unfold entity_at. by rewrite sa_fuel_get. Qed.

Lemma put_entity_same s h e : entity_at sa s h = Some e -> put_entity sa h e s = s.
Proof.
  unfold entity_at, put_entity. case_bool_decide; [|done]. intros He.
  transitivity (sa_set sa (sa_get sa s) s); [|apply sa_set_get]. f_equal. unfold Arena_update.
  change (Z.to_nat (into_usize (st_value h))) with (handle_idx h). by rewrite list_insert_id; [destruct (sa_get sa s)|].
Qed.

End Put.
End Entities.

Section Run.
Context `{Allocator} `{Uninit} `{MemoryAddress} `{Code} `{Endian} `{Dispatch}.
Context {L Error : Type} `{ResourceLimiter L} `{Host L Error}.
Notation VmStore := (VmState (PrunedStore L)).
Notation VM A := (M VmStore (Halt Error) A).
Notation store_of st := (@fst StoreInner (ResourceLimiterRef L) (@vm_store (PrunedStore L) st)).

(** The state with another store or other entities. *)
Definition with_inner (s : StoreInner) (st : VmStore) : VmStore :=
  {| vm_store := (s, (@vm_store (PrunedStore L) st).2); vm_stack := vm_stack st |}.

Lemma bind_inner {A} (k : StoreInner -> VM A) st : (inner ≫= k) st = k (store_of st) st.
Proof. done. Qed.
Lemma put_inner_run s (st : VmStore) : put_inner (Error := Error) s st = (Ok tt, with_inner s st).
Proof. done. Qed.
Lemma bind_put_inner {A} s (k : unit -> VM A) st : (put_inner s ≫= k) st = k tt (with_inner s st).
Proof. done. Qed.

Lemma bind_resolve {Entity A} (sa : StoreArena Entity) h e (k : Entity -> VM A) st :
  entity_at sa (store_of st) h = Some e -> (resolve_entity sa h ≫= k) st = k e st.
Proof.
  intros He. unfold resolve_entity. rewrite bind_run, bind_inner, try_resolve_mut_run, He. done.
Qed.

Lemma bind_write {Entity A} (sa : StoreArena Entity) h e (k : unit -> VM A) st :
  (write_entity sa h e ≫= k) st = k tt (with_inner (put_entity sa h e (store_of st)) st).
Proof. done. Qed.

(** The item of the running instance that an operator names. *)
Definition inst_item {A} (getter : InstanceEntity -> Z -> option A) (index : Z) (self : ExArgs) (st : VmStore) :
    option A :=
  i ← Inst_as_ref (store_of st) (a_instance (xa_args self)); getter i index.

Lemma bind_fetch {A B} (getter : InstanceEntity -> Z -> option A) index self x (k : A -> VM B) st :
  inst_item getter index self st = Some x -> (fetch getter index self ≫= k) st = k x st.
Proof.
  intros Hx. unfold fetch. rewrite bind_run, bind_inner. unfold inst_item in Hx. by rewrite Hx.
Qed.

(** The value of an operand, of the type it is read at. *)
Definition reads_as (p : Prim) (src : Src) (self : ExArgs) (st : VmStore) (v : Z) : Prop :=
  get_value p src (frame_state self (vm_stack st)) = Ok v /\ prim_val p v.

Lemma bind_get {A} p src self v (k : Z -> VM A) st : reads_as p src self st v ->
  (args_get p src self ≫= k) st = k v st.
Proof. intros [Hv _]. unfold args_get. rewrite bind_run, bind_get_st. by rewrite Hv. Qed.

(** The entity of the running instance that an operator names, with its handle. *)
Definition inst_entity {Entity} (getter : InstanceEntity -> Z -> option (Stored RawHandle))
    (sa : StoreArena Entity) (index : Z) (self : ExArgs) (st : VmStore) : option (Stored RawHandle * Entity) :=
  h ← inst_item getter index self st;
  e ← entity_at sa (store_of st) h;
  Some (h, e).

Lemma inst_entity_Some {Entity} getter (sa : StoreArena Entity) index self st h e :
  inst_entity getter sa index self st = Some (h, e) ->
  inst_item getter index self st = Some h /\ entity_at sa (store_of st) h = Some e.
Proof.
  unfold inst_entity. destruct (inst_item _ _ _ _) as [h'|]; [|done]. cbn [mbind option_bind].
  destruct (entity_at _ _ h') as [e'|] eqn:E; [|done]. by intros [= <- <-].
Qed.

Lemma bind_into_control {A B} (r : res TrapCode A) a (k : A -> VM B) st : r = Ok a ->
  (into_control r ≫= k) st = k a st.
Proof. by intros ->. Qed.

(** ** The cached memory *)

(** The handle and the entity of memory 0 of an instance. *)
Definition memory0 (s : StoreInner) (i : Inst) : option (Stored RawHandle * Memory) :=
  entity ← Inst_as_ref s i;
  h ← get_memory entity 0;
  m ← entity_at sa_memories s h;
  Some (h, m).

Definition mem0_valid (self : ExArgs) (st : VmStore) : Prop :=
  a_mem0 (xa_args self) = utils_extract_mem0 (store_of st) (a_instance (xa_args self)).

(** A handle the store has given out. *)
Definition handle_ok (h : Stored RawHandle) : Prop := 1 <= rh_raw (st_value h) < 2 ^ 32.

Lemma utils_extract_mem0_run s i h m : memory0 s i = Some (h, m) ->
  let len := Z.of_nat (length (Memory_data m)) in
  utils_extract_mem0 s i = {| mem0_ptr := data_ptr (st_value h) len; mem0_len := len |}.
Proof.
  unfold memory0, utils_extract_mem0.
  destruct (Inst_as_ref s i) as [e|]; [|done]. cbn [mbind option_bind].
  destruct (get_memory e 0) as [h'|]; [|done]. cbn [mbind option_bind].
  destruct (entity_at sa_memories s h') as [m'|] eqn:Em; [|done]. cbn [mbind option_bind]. intros [= <- <-].
  by rewrite try_resolve_mut_run, Em.
Qed.

Lemma find_data_run ms : forall i n m, ms !! i = Some m ->
  find_data (data_ptr {| rh_raw := n + Z.of_nat i |} (Z.of_nat (length (Memory_data m)))) n ms =
  Some ({| rh_raw := n + Z.of_nat i |}, m).
Proof.
  induction ms as [|m0 ms IH]; intros i n m Hi; [done|]. cbn [find_data].
  destruct i as [|i]; cbn in Hi.
  - injection Hi as ->. rewrite Z.add_0_r, Z.eqb_refl. done.
  - destruct (Z.eqb_spec (data_ptr {| rh_raw := n |} (Z.of_nat (length (Memory_data m0))))
      (data_ptr {| rh_raw := n + Z.of_nat (S i) |} (Z.of_nat (length (Memory_data m))))) as [E|_].
    { apply data_ptr_inj in E. injection E as E. lia. }
    replace (n + Z.of_nat (S i)) with (n + 1 + Z.of_nat i) by lia. by apply IH.
Qed.

Lemma mem0_memory_run self (st : VmStore) h m : mem0_valid self st -> handle_ok h ->
  memory0 (store_of st) (a_instance (xa_args self)) = Some (h, m) ->
  mem0_memory (Error := Error) (a_mem0 (xa_args self)) st =
  (Ok (if Z.of_nat (length (Memory_data m)) =? 0 then None else Some (st_value h, m)), st).
Proof.
  intros Hv Hh Hm. unfold mem0_memory. rewrite Hv, (utils_extract_mem0_run _ _ _ _ Hm). cbn [mem0_len mem0_ptr].
  destruct (Z.eqb_spec (Z.of_nat (length (Memory_data m))) 0); [done|].
  rewrite bind_inner.
  assert (Hi : items (si_memories (store_of st)) !! handle_idx h = Some m).
  { unfold memory0 in Hm. destruct (Inst_as_ref _ _) as [e|]; [|done]. cbn in Hm.
    destruct (get_memory e 0) as [h'|]; [|done]. cbn [mbind option_bind] in Hm.
    unfold entity_at in Hm. case_bool_decide; [|done]. cbn [sa_get sa_memories] in Hm.
    destruct (_ !! handle_idx h') as [m'|] eqn:Em; [|done]. by injection Hm as <- <-. }
  rewrite (handle_idx_raw h Hh), Z.add_comm. rewrite (find_data_run _ _ 1 _ Hi). cbn [expect].
  rewrite bind_lift. cbn beta iota. rewrite bind_run. unfold assert_m, lift, assert_that.
  by rewrite (proj2 (Z.leb_le _ _)).
Qed.

(** Accesses through the cached pointer read and write the bytes of memory 0 of
    the running instance. *)
Lemma default_bytes_run self (st : VmStore) h m : mem0_valid self st -> handle_ok h ->
  memory0 (store_of st) (a_instance (xa_args self)) = Some (h, m) ->
  fetch_default_memory_bytes (Error := Error) self st = (Ok (Memory_data m), st) /\
  (forall bytes, length bytes = length (Memory_data m) ->
   write_default_memory_bytes (Error := Error) bytes self st =
   (Ok tt, if Z.of_nat (length bytes) =? 0 then st
           else with_inner (put_entity sa_memories h (Memory_set_data bytes m) (store_of st)) st)).
Proof.
  intros Hv Hh Hm. pose proof (mem0_memory_run _ _ _ _ Hv Hh Hm) as Hr. split.
  - unfold fetch_default_memory_bytes. rewrite bind_run, Hr. cbn.
    rewrite Hv, (utils_extract_mem0_run _ _ _ _ Hm). cbn [mem0_len].
    destruct (Z.eqb_spec (Z.of_nat (length (Memory_data m))) 0) as [E|_].
    + destruct (Memory_data m); [done|cbn in E; lia].
    + by rewrite Nat2Z.id, firstn_all.
  - intros bytes Hb. unfold write_default_memory_bytes. rewrite bind_run, Hr, Hb. cbn beta iota.
    destruct (Z.eqb_spec (Z.of_nat (length (Memory_data m))) 0); [done|]. cbn beta iota.
    rewrite bind_inner, put_inner_run, drop_ge by lia. by rewrite app_nil_r.
Qed.

End Run.
