(* ===== verification/ExecMem.v ===== *)
(** * The memory operators

    [memory.copy], [memory.fill], [memory.init] and [memory.grow] of [Exec]
    against their WebAssembly meaning: what is copied, when they trap, what they
    charge and the state they leave when they are out of fuel; the cached memory
    across a growth; and the two operators on an instance that names one memory
    by two indices. *)

From Stdlib Require Import ZArith Lia.
From stdpp Require Import base option decidable numbers list.
From S2P Require Import Prelude Trap Value WasmInt Fuel Limiter MemoryType MemoryAccess Memory Table Slot Codec EncodedOps Cells ExecStack Calls CallSpec CallRefine Arena Store Exec ExecSpec.
Local Open Scope Z_scope.

Section Mem.
Context `{Allocator} `{Uninit} `{MemoryAddress} `{Code} `{Endian} `{Dispatch}.
Context {L Error : Type} `{ResourceLimiter L} `{Host L Error}.
Notation VmStore := (VmState (PrunedStore L)).
Notation VM A := (M VmStore (Halt Error) A).
Notation store_of st := (@fst StoreInner (ResourceLimiterRef L) (@vm_store (PrunedStore L) st)).

Lemma with_inner_same (st : VmStore) s : s = store_of st -> with_inner s st = st.
Proof. intros ->. by destruct st as [[? ?] ?]. Qed.

(** Charging an operator: its cost is taken from the counter, or the loop is left
    with the frame synchronised to the operator. *)
Definition charged (ip : Ip) (cost : Z) (self : ExArgs) (st : VmStore) : res (Halt Error) unit * VmStore :=
  match charge_if cost (si_fuel (store_of st)) with
  | (Ok _, f) => (Ok tt, with_inner (set_si_fuel f (store_of st)) st)
  | (_, _) => out_of_fuel ip (xa_regs self) cost st
  end.

Lemma charge_run ip cost self (st : VmStore) :
  charge_fuel ip cost self st = charged ip (cost (fuel_costs (si_fuel (store_of st)))) self st.
Proof.
  unfold charge_fuel, charged. rewrite bind_inner, consume_fuel_if_eq. unfold charge_if.
  destruct (fuel_enabled (si_fuel (store_of st))); cbn [negb]; [|done].
  destruct (_ <=? _); [done|]. unfold put_fuel. rewrite bind_run, bind_inner, put_inner_run. cbn beta iota.
  rewrite with_inner_same; [done|]. by destruct st as [[[] ?] ?].
Qed.

Lemma bind_try_usize {A} z (k : Z -> VM A) st :
  (try_usize z ≫= k) st =
  if z <? 2 ^ usize_bits then k z st else (Err (Halt_Trap MemoryOutOfBounds), st).
Proof. unfold try_usize, into_control, try_from_u. by destruct (z <? _). Qed.

Lemma bind_slice {A} m pos len (k : list Z -> VM A) st :
  (into_control (memory_slice m pos len) ≫= k) st =
  match get_span pos len (Memory_data m) with
  | Some xs => k xs st
  | None => (Err (Halt_Trap MemoryOutOfBounds), st)
  end.
Proof. unfold into_control, memory_slice. by destruct (get_span pos len _). Qed.

(** What a bulk operator on memory [h] does once it knows the new bytes: [None]
    is an access out of bounds. *)
Definition bulk_write (ip : Ip) (h : Stored RawHandle) (m : Memory) (len : Z) (new : option (list Z))
    (self : ExArgs) (st : VmStore) : res (Halt Error) ExArgs * VmStore :=
  match new with
  | None => (Err (Halt_Trap MemoryOutOfBounds), st)
  | Some data =>
      match charged ip (fuel_for_copying_values (fuel_costs (si_fuel (store_of st))) 1 len) self st with
      | (Ok _, st) => (Ok self, with_inner (put_entity sa_memories h (Memory_set_data data m) (store_of st)) st)
      | (Err e, st) => (Err e, st)
      | (Panic, st) => (Panic, st)
      end
  end.

(** Copying [len] bytes at [src] of one memory to [dst] of another or the same:
    both ranges must be within bounds, and the bytes are read before they are
    written. *)
Definition copied (dst src len : Z) (from to : list Z) : option (list Z) :=
  xs ← get_span src len from;
  _ ← get_span dst len to;
  Some (set_span dst xs to).

Lemma bulk_finish ip h m len data self (st : VmStore) :
  (charge_fuel ip (fun costs => fuel_for_copying_values costs 1 len) self;;
   write_entity sa_memories h (Memory_set_data data m);;
   mret self) st = bulk_write ip h m len (Some data) self st.
Proof.
  unfold bulk_write. rewrite bind_run, charge_run.
  by destruct (charged _ _ _ _) as [[[]| |] st'].
Qed.

Lemma copied_out dst src len from to : 0 <= dst -> 0 <= src -> 0 <= len ->
  (Z.of_nat (length from) < src + len \/ Z.of_nat (length to) < dst + len) ->
  copied dst src len from to = None.
Proof.
  intros Hd Hs Hl Ho. unfold copied. destruct (get_span src len from) as [xs|] eqn:E1; [|done].
  apply get_span_Some in E1; [|done..]. rewrite (proj2 (get_span_None dst len to Hd Hl)); [done|]. 
  destruct Ho; [|done]. lia.
Qed.

Lemma try_resolve_pair_run {Entity} (sa : StoreArena Entity) s h1 h2 e1 e2 :
  entity_at sa s h1 = Some e1 -> entity_at sa s h2 = Some e2 -> handle_idx h1 <> handle_idx h2 ->
  try_resolve_pair_and_fuel sa s h1 h2 = Ok (e1, e2, si_fuel s).
Proof.
  unfold entity_at, try_resolve_pair_and_fuel, unwrap_stored, StoreId_unwrap, handle_idx.
  case_bool_decide; [|done]. case_bool_decide; [|done]. intros E1 E2 Hne. cbn [ok_or mbind res_bind].
  assert (Hp : forall h : Stored RawHandle, 0 <= into_usize (st_value h)).
  { intros h. cbn. apply wrapu_range. pose proof usize_bits_cases. lia. }
  pose proof (Hp h1). pose proof (Hp h2). unfold Arena_get_pair_mut. cbv zeta.
  rewrite (proj2 (Z.eqb_neq _ _)) by congruence.
  destruct (Z.ltb_spec (into_usize (st_value h2)) (into_usize (st_value h1)));
    rewrite get_ordered_pair_spec by lia; by rewrite E1, E2.
Qed.

(** C21: [memory.copy] copies as a whole, within one memory or between two, and traps
    without a change when a range is out of bounds; only then it is charged. *)
Theorem memory_copy_spec ip dst_memory src_memory dst src len self (st : VmStore) dv sv lv hd md hs ms :
  reads_as P_u64 dst self st dv -> reads_as P_u64 src self st sv -> reads_as P_u64 len self st lv ->
  inst_entity get_memory sa_memories dst_memory self st = Some (hd, md) ->
  inst_entity get_memory sa_memories src_memory self st = Some (hs, ms) ->
  addressable (Memory_data md) -> addressable (Memory_data ms) ->
  (dst_memory <> src_memory -> handle_idx hs <> handle_idx hd) ->
  exec_memory_copy ip dst_memory src_memory dst src len self st =
  bulk_write ip hd md lv (copied dv sv lv (Memory_data ms) (Memory_data md)) self st.
Proof.
  intros Hd Hs Hl [Hdi Hde]%inst_entity_Some [Hsi Hse]%inst_entity_Some Had Has Hne.
  pose proof Hd as [_ [? _]]. pose proof Hs as [_ [? _]]. pose proof Hl as [_ [? _]].
  unfold addressable in *. unfold exec_memory_copy.
  rewrite (bind_get _ _ _ _ _ _ Hd), (bind_get _ _ _ _ _ _ Hs), (bind_get _ _ _ _ _ _ Hl).
  rewrite bind_try_usize. destruct (Z.ltb_spec dv (2 ^ usize_bits)); [|by rewrite copied_out by lia].
  rewrite bind_try_usize. destruct (Z.ltb_spec sv (2 ^ usize_bits)); [|by rewrite copied_out by lia].
  rewrite bind_try_usize. destruct (Z.ltb_spec lv (2 ^ usize_bits)); [|by rewrite copied_out by lia].
  unfold copied. destruct (Z.eqb_spec dst_memory src_memory) as [->|Hm].
  - rewrite Hdi in Hsi. injection Hsi as <-. rewrite Hde in Hse. injection Hse as <-.
    rewrite bind_run. unfold memory_copy_within.
    rewrite (bind_fetch _ _ _ _ _ _ Hdi), (bind_resolve _ _ _ _ _ Hde), bind_slice.
    destruct (get_span sv lv _) as [xs|] eqn:Es; [|done].
    rewrite bind_slice. destruct (get_span dv lv _) as [ys|] eqn:Ey; [|done].
    apply get_span_Some in Es as [? Es]; [|done..]. apply get_span_Some in Ey as [? Ey]; [|done..].
    cbn [mbind option_bind]. unfold bulk_write. rewrite bind_run, charge_run.
    destruct (charged _ _ _ _) as [[[]| |] st']; [|done..].
    rewrite wrapu_small by (unfold in_u; lia).
    unfold slice_copy_within. rewrite !(proj2 (Z.leb_le _ _)) by lia. cbn [andb expect].
    rewrite bind_lift, Es. by replace (sv + lv - sv) with lv by lia.
  - rewrite (bind_fetch _ _ _ _ _ _ Hdi), (bind_fetch _ _ _ _ _ _ Hsi), bind_inner.
    rewrite (try_resolve_pair_run _ _ _ _ _ _ Hse Hde) by auto. rewrite bind_lift. cbn [unchecked].
    rewrite bind_slice. destruct (get_span sv lv _) as [xs|]; [|done].
    rewrite bind_slice. destruct (get_span dv lv _) as [ys|]; [|done]. apply bulk_finish.
Qed.


(** [memory.fill] and [memory.init] write as a whole, too. *)
Theorem memory_fill_spec ip memory dst len value self (st : VmStore) dv lv v h m :
  reads_as P_u64 dst self st dv -> reads_as P_u64 len self st lv -> reads_as P_u8 value self st v ->
  inst_entity get_memory sa_memories memory self st = Some (h, m) -> addressable (Memory_data m) ->
  exec_memory_fill ip memory dst len value self st =
  bulk_write ip h m lv (_ ← get_span dv lv (Memory_data m);
                        Some (set_span dv (replicate (Z.to_nat lv) v) (Memory_data m))) self st.
Proof.
  intros Hd Hl Hv [Hi He]%inst_entity_Some Ha.
  pose proof Hd as [_ [? _]]. pose proof Hl as [_ [? _]]. unfold addressable in *.
  assert (Ho : 2 ^ usize_bits <= dv \/ 2 ^ usize_bits <= lv -> get_span dv lv (Memory_data m) = None)
    by (intros ?; apply get_span_None; lia).
  unfold exec_memory_fill.
  rewrite (bind_get _ _ _ _ _ _ Hd), (bind_get _ _ _ _ _ _ Hl), (bind_get _ _ _ _ _ _ Hv).
  rewrite bind_try_usize. destruct (Z.ltb_spec dv (2 ^ usize_bits)); [|by rewrite Ho by lia].
  rewrite bind_try_usize. destruct (Z.ltb_spec lv (2 ^ usize_bits)); [|by rewrite Ho by lia].
  rewrite (bind_fetch _ _ _ _ _ _ Hi), (bind_resolve _ _ _ _ _ He), bind_slice.
  destruct (get_span dv lv _); [apply bulk_finish|done].
Qed.

Theorem memory_init_spec ip memory data dst src len self (st : VmStore) dv sv lv h m hd d :
  reads_as P_u64 dst self st dv -> reads_as P_u32 src self st sv -> reads_as P_u32 len self st lv ->
  inst_entity get_memory sa_memories memory self st = Some (h, m) ->
  inst_entity get_data_segment sa_datas data self st = Some (hd, d) ->
  addressable (Memory_data m) ->
  exec_memory_init ip memory data dst src len self st =
  bulk_write ip h m lv (copied dv sv lv (DataSegmentEntity_bytes d) (Memory_data m)) self st.
Proof.
  intros Hd Hs Hl [Hi He]%inst_entity_Some [Hdi Hde]%inst_entity_Some Ha.
  pose proof Hd as [_ [? _]]. pose proof Hs as [_ [? Hs2]]. pose proof Hl as [_ [? Hl2]].
  pose proof usize_bits_bounds. change (prim_bits P_u32) with 32 in *. unfold addressable in *. unfold exec_memory_init.
  rewrite (bind_get _ _ _ _ _ _ Hd), (bind_get _ _ _ _ _ _ Hs), (bind_get _ _ _ _ _ _ Hl).
  rewrite bind_try_usize. destruct (Z.ltb_spec dv (2 ^ usize_bits)); [|by rewrite copied_out by lia].
  rewrite bind_try_usize, (proj2 (Z.ltb_lt _ _)) by lia.
  rewrite bind_try_usize, (proj2 (Z.ltb_lt _ _)) by lia.
  rewrite (bind_fetch _ _ _ _ _ _ Hi), (bind_fetch _ _ _ _ _ _ Hdi), bind_inner.
  assert (Hr : try_resolve_memory_init_params (store_of st) h hd = Ok (m, d, si_fuel (store_of st))).
  { unfold try_resolve_memory_init_params, resolve, unwrap_stored, StoreId_unwrap.
    unfold entity_at in He, Hde. case_bool_decide; [|done]. case_bool_decide; [|done]. cbn [ok_or mbind res_bind].
    unfold resolve_mut, Arena_get_mut, Arena_get. unfold handle_idx in *. cbn [sa_get sa_memories sa_datas] in *.
    by rewrite He, Hde. }
  rewrite Hr, bind_lift. cbn [unchecked]. rewrite bind_slice. unfold copied.
  destruct (get_span dv lv _) as [ys|]; [|by destruct (get_span sv lv _)].
  unfold into_control. destruct (get_span sv lv _) as [xs|]; [|done]. apply bulk_finish.
Qed.

(** Two indices of an instance may name one memory: a module that imports it
    twice.  Copying between them is a panic of the host, in or out of bounds. *)
Theorem memory_copy_alias_panics ip dst_memory src_memory dst src len self (st : VmStore) dv sv lv h m :
  reads_as P_u64 dst self st dv -> reads_as P_u64 src self st sv -> reads_as P_u64 len self st lv ->
  dv < 2 ^ usize_bits -> sv < 2 ^ usize_bits -> lv < 2 ^ usize_bits ->
  dst_memory <> src_memory ->
  inst_entity get_memory sa_memories dst_memory self st = Some (h, m) ->
  inst_entity get_memory sa_memories src_memory self st = Some (h, m) ->
  exec_memory_copy (Error := Error) ip dst_memory src_memory dst src len self st = (Panic, st).
Proof.
  intros Hd Hs Hl ? ? ? Hne [Hdi He]%inst_entity_Some [Hsi _]%inst_entity_Some. unfold exec_memory_copy.
  rewrite (bind_get _ _ _ _ _ _ Hd), (bind_get _ _ _ _ _ _ Hs), (bind_get _ _ _ _ _ _ Hl).
  rewrite !bind_try_usize, !(proj2 (Z.ltb_lt _ _)) by done. rewrite (proj2 (Z.eqb_neq _ _)) by done.
  rewrite (bind_fetch _ _ _ _ _ _ Hdi), (bind_fetch _ _ _ _ _ _ Hsi), bind_inner.
  unfold try_resolve_pair_and_fuel, unwrap_stored, StoreId_unwrap. unfold entity_at in He.
  case_bool_decide; [|done]. cbn [ok_or mbind res_bind]. unfold Arena_get_pair_mut. by rewrite Z.eqb_refl.
Qed.

(** ** Growing *)

Lemma args_set_run result p v self (st : VmStore) r st' :
  args_set (Error := Error) result p v self st = (r, st') ->
  vm_store st' = vm_store st /\ (forall self', r = Ok self' -> xa_args self' = xa_args self).
Proof.
  unfold args_set. rewrite bind_run. unfold on_frame.
  destruct (set_value result p v _) as [[[]| |] fs]; intros [= <- <-]; split; try done.
  by intros self' [= <-].
Qed.

Lemma memory0_put s i h0 m0 h m f : memory0 s i = Some (h0, m0) -> entity_at sa_memories s h <> None ->
  memory0 (set_si_fuel f (put_entity sa_memories h m s)) i =
  Some (h0, if bool_decide (handle_idx h = handle_idx h0) then m else m0).
Proof.
  unfold memory0. change (Inst_as_ref (set_si_fuel f (put_entity sa_memories h m s)) i) with (Inst_as_ref s i).
  destruct (Inst_as_ref s i) as [e|]; [|done]. cbn [mbind option_bind].
  destruct (get_memory e 0) as [h'|]; [|done]. cbn [mbind option_bind].
  destruct (entity_at sa_memories s h') as [m'|] eqn:Em; [|done]. cbn [mbind option_bind].
  intros [= <- <-] Hh. rewrite (entity_at_fuel sa_memories).
  rewrite (entity_at_put sa_memories), Em by (done || (unfold entity_at in Em; by case_bool_decide)).
  by case_bool_decide.
Qed.

Lemma memory0_entity s i h m : memory0 s i = Some (h, m) -> entity_at sa_memories s h = Some m.
Proof.
  unfold memory0. destruct (Inst_as_ref s i) as [e|]; [|done]. cbn [mbind option_bind].
  destruct (get_memory e 0) as [h'|]; [|done]. cbn [mbind option_bind].
  destruct (entity_at sa_memories s h') as [m'|] eqn:Em; [|done]. by intros [= <- <-].
Qed.

Lemma memory0_entity_idx s i h m h0 m0 : memory0 s i = Some (h0, m0) -> entity_at sa_memories s h = Some m ->
  handle_idx h = handle_idx h0 -> m = m0.
Proof.
  intros HM He Eh. apply memory0_entity in HM. unfold entity_at in *. do 2 case_bool_decide; [|done..].
  rewrite Eh in He. congruence.
Qed.

Lemma memory0_valid self (st : VmStore) h m : memory0 (store_of st) (a_instance (xa_args self)) = Some (h, m) ->
  mem0_valid self st <->
  a_mem0 (xa_args self) = let len := Z.of_nat (length (Memory_data m)) in
    {| mem0_ptr := data_ptr (st_value h) len; mem0_len := len |}.
Proof. intros Hm. unfold mem0_valid. by rewrite (utils_extract_mem0_run _ _ _ _ Hm). Qed.

(** The store behind a growth of the memory of a handle. *)
Lemma grow_memory_run h m dv (s : PrunedStore L) r m' f' lim' : entity_at sa_memories s.1 h = Some m ->
  Memory_grow dv (m, Some (si_fuel s.1), s.2) = (r, (m', f', lim')) ->
  grow_memory h dv s =
  (map_err StoreError_External r, (set_si_fuel (default (si_fuel s.1) f') (put_entity sa_memories h m' s.1), lim')).
Proof.
  intros He E. unfold grow_memory, try_resolve_and_fuel_mut, unwrap_stored, StoreId_unwrap.
  unfold entity_at in He. case_bool_decide; [|done]. cbn [ok_or mbind res_bind].
  unfold resolve_mut, Arena_get_mut. fold (handle_idx h). rewrite He. cbn [ok_or map_err mbind res_bind].
  by rewrite E.
Qed.

Lemma resolve_entity_same {Entity} (sa : StoreArena Entity) h (st : VmStore) r st' :
  resolve_entity (Error := Error) sa h st = (r, st') -> st' = st.
Proof. unfold resolve_entity. rewrite bind_inner. by intros [= _ <-]. Qed.

Lemma out_of_fuel_Err {A} ip regs n (st : VmStore) (a : A) st' :
  out_of_fuel (Error := Error) ip regs n st <> (Ok a, st').
Proof.
  unfold out_of_fuel. rewrite bind_run. destruct (on_stack _ st) as [[[]| |] st1]; [|done..].
  rewrite bind_run. by destruct (on_stack _ st1) as [[[]| |] st2].
Qed.

(** What [memory.grow] leaves of the registers and the store when it goes on. *)
Lemma memory_grow_inv ip memory result delta self (st : VmStore) dv h m self' st' :
  reads_as P_u64 delta self st dv ->
  inst_entity get_memory sa_memories memory self st = Some (h, m) ->
  exec_memory_grow (Error := Error) ip memory result delta self st = (Ok self', st') ->
  exists r m' f' lim',
    Memory_grow dv (m, Some (si_fuel (store_of st)), (@vm_store (PrunedStore L) st).2) = (r, (m', f', lim')) /\
    r <> Panic /\
    vm_store st' = (set_si_fuel (default (si_fuel (store_of st)) f') (put_entity sa_memories h m' (store_of st)), lim') /\
    a_instance (xa_args self') = a_instance (xa_args self) /\
    a_mem0 (xa_args self') = if is_ok r && (memory =? 0) then utils_extract_mem0 (store_of st') (a_instance (xa_args self))
                             else a_mem0 (xa_args self).
Proof.
  intros Hd [Hi He]%inst_entity_Some. unfold exec_memory_grow.
  rewrite (bind_get _ _ _ _ _ _ Hd), (bind_fetch _ _ _ _ _ _ Hi), bind_get_st.
  destruct (Memory_grow dv _) as [r [[m' f'] lim']] eqn:Eg.
  rewrite (grow_memory_run _ _ _ _ _ _ _ _ He Eg). intros E.
  exists r, m', f', lim'. split; [done|]. rewrite bind_run in E. cbn beta iota delta [put_st] in E.
  destruct r as [n|e|]; [| |discriminate E].
  - cbn [map_err] in E. split; [done|]. apply args_set_run in E as [E Ha]. specialize (Ha _ eq_refl).
    rewrite E, Ha. split; [done|]. by destruct (memory =? 0).
  - split; [done|]. cbn [map_err] in E.
    assert (Hr : forall k, (m ← resolve_entity sa_memories h; args_set (Error := Error) result P_u64 (k m) self)
      {| vm_store := (set_si_fuel (default (si_fuel (store_of st)) f') (put_entity sa_memories h m' (store_of st)), lim');
         vm_stack := vm_stack st |} = (Ok self', st') ->
      vm_store st' = (set_si_fuel (default (si_fuel (store_of st)) f') (put_entity sa_memories h m' (store_of st)), lim') /\
      xa_args self' = xa_args self).
    { intros k Hk. rewrite bind_run in Hk. destruct (resolve_entity _ _ _) as [rm st1] eqn:Er.
      apply resolve_entity_same in Er as ->. destruct rm as [mm| |]; [|discriminate Hk..].
      apply args_set_run in Hk as [-> Ha]. split; [done|]. by apply Ha. }
    destruct e; try discriminate E.
    + apply Hr in E as [-> ->]. done.
    + apply Hr in E as [-> ->]. done.
    + by apply out_of_fuel_Err in E.
Qed.

(** C23: After a [memory.grow] that goes on, the cached memory 0 is current exactly
    when the operator named memory 0 by index 0, or grew another memory, or left
    the length of the memory as it was.  So growing memory 0 and growing any other
    memory keep the cache current, and the one way to a stale cache is a growth
    of memory 0 through a second index that names it. *)
Theorem memory_grow_mem0 `{!BoundedLimiter L} ip memory result delta self (st : VmStore) dv h m h0 m0 self' st' :
  reads_as P_u64 delta self st dv ->
  inst_entity get_memory sa_memories memory self st = Some (h, m) ->
  Memory_wf m -> max_bytes_fit m ->
  memory0 (store_of st) (a_instance (xa_args self)) = Some (h0, m0) ->
  mem0_valid self st ->
  exec_memory_grow (Error := Error) ip memory result delta self st = (Ok self', st') ->
  exists m', entity_at sa_memories (store_of st') h = Some m' /\
    (mem0_valid self' st' <->
     memory = 0 \/ handle_idx h <> handle_idx h0 \/ length (Memory_data m') = length (Memory_data m)).
Proof.
  intros Hd Hi Hw Hf HM Hv E. pose proof Hd as [_ Hdv].
  destruct (memory_grow_inv _ _ _ _ _ _ _ _ _ _ _ Hd Hi E) as (r & m' & f' & lim' & Eg & Hr & Hst & Hin & Hm).
  apply inst_entity_Some in Hi as [Hi He]. exists m'. split.
  { rewrite Hst. cbn [fst]. rewrite (entity_at_fuel sa_memories).
    rewrite (entity_at_put sa_memories) by (congruence || (unfold entity_at in He; by case_bool_decide)).
    by rewrite bool_decide_true. }
  assert (HM' := memory0_put _ _ _ _ h m' (default (si_fuel (store_of st)) f') HM ltac:(congruence)).
  apply (memory0_valid _ _ _ _ HM) in Hv.
  destruct (is_ok r && (memory =? 0)) eqn:Eb.
  { apply andb_true_iff in Eb as [_ ->%Z.eqb_eq]. unfold mem0_valid. rewrite Hm, Hin. by split; [left|]. }
  assert (Hm0 : memory0 (store_of st') (a_instance (xa_args self')) =
    Some (h0, if bool_decide (handle_idx h = handle_idx h0) then m' else m0)) by (by rewrite Hin, Hst).
  rewrite (memory0_valid _ _ _ _ Hm0), Hm, Hv. cbv zeta.
  case_bool_decide as Eh; [|by split; [right; left|]].
  assert (m = m0) as <- by (eapply memory0_entity_idx; [exact HM|exact He|exact Eh]).
  split; [intros [= _ Hlen]; right; right; lia|].
  intros [->|[Hne|Hl]]; [|done|by rewrite Hl].
  rewrite andb_true_r in Eb. destruct r as [n|e|]; [done| |done].
  rewrite Memory_grow_eq in Eg by done.
  destruct (dv =? 0) eqn:Ez; [discriminate Eg|].
  destruct (growable dv m) eqn:Egr; [|by injection Eg as _ <-].
  apply grow_within_spec in Eg as [Hp _]; [by rewrite Hp|done| |done]. apply Z.eqb_neq in Ez. destruct Hdv. lia.
Qed.

(** When a module imports one memory twice, growing it by its other index leaves
    the cached memory behind: memory 0 has grown and the cache has not moved. *)
Theorem memory_grow_alias_stale `{!BoundedLimiter L} ip memory result delta self (st : VmStore) dv h m self' st' n m' f' lim' :
  reads_as P_u64 delta self st dv -> 0 < dv ->
  memory <> 0 ->
  inst_entity get_memory sa_memories memory self st = Some (h, m) ->
  memory0 (store_of st) (a_instance (xa_args self)) = Some (h, m) ->
  Memory_wf m -> max_bytes_fit m ->
  Memory_grow dv (m, Some (si_fuel (store_of st)), (@vm_store (PrunedStore L) st).2) = (Ok n, (m', f', lim')) ->
  mem0_valid self st ->
  exec_memory_grow (Error := Error) ip memory result delta self st = (Ok self', st') ->
  memory0 (store_of st') (a_instance (xa_args self')) = Some (h, m') /\
  Z.of_nat (length (Memory_data m')) = (n + dv) * page_bytes m /\
  mem0_len (a_mem0 (xa_args self')) = n * page_bytes m /\
  ~ mem0_valid self' st'.
Proof.
  intros Hd Hp Hz Hi HM Hw Hf Eg Hv E. pose proof Hd as [_ Hdv].
  destruct (memory_grow_inv _ _ _ _ _ _ _ _ _ _ _ Hd Hi E) as (r & m1 & f1 & lim1 & Eg' & Hr & Hst & Hin & Hm).
  rewrite Eg in Eg'. injection Eg' as <- <- <- <-.
  rewrite (proj2 (Z.eqb_neq _ _)), andb_false_r in Hm by done.
  apply inst_entity_Some in Hi as [Hi He].
  assert (HM' := memory0_put _ _ _ _ h m' (default (si_fuel (store_of st)) f') HM ltac:(congruence)).
  rewrite bool_decide_true in HM' by done.
  apply (memory0_valid _ _ _ _ HM) in Hv.
  assert (Hm0 : memory0 (store_of st') (a_instance (xa_args self')) = Some (h, m')) by (by rewrite Hin, Hst).
  rewrite Memory_grow_eq in Eg by done. rewrite (proj2 (Z.eqb_neq _ _)) in Eg by lia.
  destruct (growable dv m) eqn:Egr; [|done].
  apply grow_within_spec in Eg as [Hpost _]; [|done..].
  destruct (grow_post_wf _ _ _ _ _ Hw Hp Egr Hpost) as [Hw' Hs'].
  destruct Hpost as (-> & Hty & _). cbn [fst] in *.
  pose proof (Memory_data_length _ Hw) as Hl. pose proof (Memory_data_length _ Hw') as Hl'.
  assert (Hpb : page_bytes m' = page_bytes m) by (unfold page_bytes; by rewrite Hty).
  rewrite Hs', Hpb in Hl'. rewrite Hm, Hv. cbn [mem0_len]. split_and!; [done..|].
  rewrite (memory0_valid _ _ _ _ Hm0), Hm, Hv. intros [= _ Hlen].
  destruct Hw as (Hty' & _). destruct (page_bytes_cases m Hty'); lia.
Qed.

End Mem.

(** ** Loads and stores of the loop

    The load and store operators of [Exec] through the cached memory: what a
    store writes, that the next load of the address sees it, that every other
    memory is left alone and that an access out of bounds traps without a change. *)

(** ** Writing the bytes of a memory *)

Section Data.
Context `{Target}.

Lemma Memory_data_set d m : ByteBuffer_wf (mem_bytes m) -> length d = length (Memory_data m) ->
  Memory_data (Memory_set_data d m) = d.
Proof.
  intros Hw Hd. pose proof (length_ByteBuffer_data _ Hw) as Hl. pose proof Hw as (? & _ & ? & _).
  unfold Memory_data, Memory_set_data, ByteBuffer_data, ByteBuffer_set_data in *. cbn [mem_bytes bb_mem bb_len].
  replace (Z.to_nat (bb_len (mem_bytes m))) with (length d) by lia.
  apply take_set_span_0. lia.
Qed.

Lemma Memory_set_data_same m : Memory_set_data (Memory_data m) m = m.
Proof.
  destruct m as [[bytes len cap st] ty]. unfold Memory_set_data, Memory_data, ByteBuffer_data, ByteBuffer_set_data.
  cbn. do 2 f_equal. apply list_eq. intros i. unfold set_span. change (Z.to_nat 0) with 0%nat.
  destruct (decide (i < length (take (Z.to_nat len) bytes))%nat) as [Hi|Hi].
  - rewrite length_take in Hi. rewrite list_lookup_inserts by (rewrite ?length_take; lia).
    rewrite Nat.sub_0_r. apply lookup_take_lt. lia.
  - by rewrite list_lookup_inserts_ge by lia.
Qed.

End Data.

Section Access.
Context `{Allocator} `{Uninit} `{MemoryAddress} `{Code} `{Endian} `{Dispatch}.
Context {L Error : Type} `{ResourceLimiter L} `{Host L Error}.
Notation VmStore := (VmState (PrunedStore L)).
Notation VM A := (M VmStore (Halt Error) A).
Notation store_of st := (@fst StoreInner (ResourceLimiterRef L) (@vm_store (PrunedStore L) st)).

(** The operators for memory 0 and small offsets are the general ones. *)
Lemma handler_load_mem0_eq p eval result ptr offset16 offset self (st : VmStore) pv ov :
  reads_as P_u64 ptr self st pv -> reads_as P_u16 offset16 self st ov -> reads_as P_u64 offset self st ov ->
  handler_load_mem0_offset16 (Error := Error) p eval result ptr offset16 self st =
  handler_load p eval result ptr offset 0 self st.
Proof.
  intros Hp Ho Ho'. unfold handler_load_mem0_offset16, handler_load.
  by rewrite !(bind_get _ _ _ _ _ _ Hp), (bind_get _ _ _ _ _ _ Ho), (bind_get _ _ _ _ _ _ Ho').
Qed.

Lemma handler_store_mem0_eq hint eval ptr offset16 offset value self (st : VmStore) pv ov :
  reads_as P_u64 ptr self st pv -> reads_as P_u16 offset16 self st ov -> reads_as P_u64 offset self st ov ->
  handler_store_mem0_offset16 (Error := Error) hint eval ptr offset16 value self st =
  handler_store hint eval ptr offset value 0 self st.
Proof.
  intros Hp Ho Ho'. unfold handler_store_mem0_offset16, handler_store.
  by rewrite !(bind_get _ _ _ _ _ _ Hp), (bind_get _ _ _ _ _ _ Ho), (bind_get _ _ _ _ _ _ Ho').
Qed.

(** Memory 0 of the running instance, well formed and cached. *)
Record memory_ready (self : ExArgs) (st : VmStore) (h : Stored RawHandle) (m : Memory) : Prop := {
  mr_valid : mem0_valid self st;
  mr_handle : handle_ok h;
  mr_memory : memory0 (store_of st) (a_instance (xa_args self)) = Some (h, m);
  mr_wf : ByteBuffer_wf (mem_bytes m)
}.

Lemma mr_addressable self st h m : memory_ready self st h m -> addressable (Memory_data m).
Proof.
  intros [_ _ _ Hw]. unfold addressable, Memory_data. rewrite (length_ByteBuffer_data _ Hw). by destruct Hw as [[_ ?] _].
Qed.

(** Writing bytes of the same size leaves the memory ready. *)
Lemma memory_ready_write self st h m d : memory_ready self st h m -> length d = length (Memory_data m) ->
  memory_ready self (with_inner (put_entity sa_memories h (Memory_set_data d m) (store_of st)) st) h (Memory_set_data d m).
Proof.
  intros [Hv Hh Hm Hw] Hd. pose proof (memory0_entity _ _ _ _ Hm) as He.
  set (st' := with_inner _ st).
  assert (Hm' : memory0 (store_of st') (a_instance (xa_args self)) = Some (h, Memory_set_data d m)).
  { pose proof (memory0_put _ _ _ _ h (Memory_set_data d m) (si_fuel (store_of st)) Hm ltac:(congruence)) as Hp.
    rewrite bool_decide_true in Hp by done. by rewrite <-Hp. }
  split; [|done|done|].
  - apply (memory0_valid _ _ _ _ Hm'). apply (memory0_valid _ _ _ _ Hm) in Hv. rewrite Hv.
    by rewrite Memory_data_set, Hd.
  - destruct Hw as (? & ? & ? & ?). unfold Memory_set_data, ByteBuffer_set_data, ByteBuffer_wf.
    cbn [mem_bytes bb_mem bb_len bb_capacity bb_is_static]. by rewrite length_set_span.
Qed.

Lemma bind_bytes0 {A} self st h m (k : list Z -> VM A) : memory_ready self st h m ->
  (fetch_memory_bytes 0 self ≫= k) st = k (Memory_data m) st.
Proof.
  intros [Hv Hh Hm _]. unfold fetch_memory_bytes. rewrite Z.eqb_refl, bind_run.
  destruct (default_bytes_run (Error := Error) self st h m Hv Hh Hm) as [E _]. by rewrite E.
Qed.

Lemma write_bytes0 self st h m d : memory_ready self st h m -> length d = length (Memory_data m) ->
  write_memory_bytes (Error := Error) 0 d self st =
  (Ok tt, with_inner (put_entity sa_memories h (Memory_set_data d m) (store_of st)) st).
Proof.
  intros [Hv Hh Hm _] Hd. unfold write_memory_bytes. rewrite Z.eqb_refl.
  destruct (default_bytes_run (Error := Error) self st h m Hv Hh Hm) as [_ E].
  rewrite (E _ Hd). destruct (Z.eqb_spec (Z.of_nat (length d)) 0) as [Hz|]; [|done].
  assert (d = []) as -> by (apply nil_length_inv; lia).
  assert (Memory_data m = []) as Hn by (apply nil_length_inv; cbn in Hd; lia). rewrite <-Hn.
  rewrite Memory_set_data_same, (put_entity_same sa_memories) by (by eapply memory0_entity).
  by rewrite with_inner_same.
Qed.

(** C20: A store through the cached memory writes the bytes of the value at the
    WebAssembly address and leaves every other byte, the size and type of the memory,
    the registers, the frames and the rest of the store as they were; the cache
    stays current and the next load of the address yields the value.  When the
    access is out of bounds, the store and the load trap and change nothing. *)
Theorem exec_store_load_spec p hint ptr offset value result self (st : VmStore) h m pv ov v :
  reads_as P_u64 ptr self st pv -> reads_as P_u64 offset self st ov -> reads_as hint value self st v ->
  memory_ready self st h m ->
  let address := wasm_address pv ov in
  if address + prim_bytes p <=? Z.of_nat (length (Memory_data m)) then
    exists m', let st' := with_inner (put_entity sa_memories h m' (store_of st)) st in
      handler_store (Error := Error) hint (store p) ptr offset value 0 self st = (Ok self, st') /\
      mem_ty m' = mem_ty m /\ length (Memory_data m') = length (Memory_data m) /\
      get_span address (prim_bytes p) (Memory_data m') = Some (into_le_bytes p v) /\
      (forall i, 0 <= i < address \/ address + prim_bytes p <= i ->
                 Memory_data m' !! Z.to_nat i = Memory_data m !! Z.to_nat i) /\
      handler_load (Error := Error) p (load p) result ptr offset 0 self st' = args_set result p (cast p v) self st' /\
      memory_ready self st' h m' /\ vm_stack st' = vm_stack st /\
      (forall h', st_store h' = si_id (store_of st) -> handle_idx h' <> handle_idx h ->
                  entity_at sa_memories (store_of st') h' = entity_at sa_memories (store_of st) h')
  else
    handler_store (Error := Error) hint (store p) ptr offset value 0 self st = (Err (Halt_Trap MemoryOutOfBounds), st) /\
    handler_load (Error := Error) p (load p) result ptr offset 0 self st = (Err (Halt_Trap MemoryOutOfBounds), st).
Proof.
  intros Hp Ho Hv Hm. pose proof (mr_addressable _ _ _ _ Hm) as Ha.
  pose proof Hp as [_ [? _]]. pose proof Ho as [_ [? _]].
  assert (Hs : handler_store (Error := Error) hint (store p) ptr offset value 0 self st =
    (run_store (store p pv ov v) (Memory_data m) (fun bytes => write_memory_bytes 0 bytes self);; mret self) st).
  { unfold handler_store. rewrite (bind_get _ _ _ _ _ _ Hp), (bind_get _ _ _ _ _ _ Ho), (bind_get _ _ _ _ _ _ Hv).
    by rewrite (bind_bytes0 _ _ _ _ _ Hm). }
  rewrite Hs. unfold run_store. rewrite store_eq by done.
  destruct (Z.leb_spec (wasm_address pv ov + prim_bytes p) (Z.of_nat (length (Memory_data m)))) as [Hle|Hle].
  - set (d := set_span _ _ _). assert (Hd : length d = length (Memory_data m)) by apply length_set_span.
    pose proof (memory_ready_write _ _ _ _ _ Hm Hd) as Hm'.
    pose proof (Memory_data_set d m (mr_wf _ _ _ _ Hm) Hd) as Hd'.
    pose proof (wasm_address_nonneg pv ov ltac:(assumption) ltac:(assumption)) as Hw0.
    exists (Memory_set_data d m). split.
    { rewrite !bind_run, (write_bytes0 _ _ _ _ _ Hm Hd). reflexivity. }
    split; [done|]. rewrite Hd'. split; [done|].
    split; [unfold d|]. { rewrite <-(length_into_le_bytes p v). apply get_set_span_eq; rewrite ?length_into_le_bytes; lia. }
    split. { intros i Hi. apply set_span_lookup_out; [lia|]. rewrite length_into_le_bytes. lia. }
    split; [|split; [done|split; [done|]]].
    + unfold handler_load.
      erewrite (bind_get P_u64 ptr self pv) by exact Hp. erewrite (bind_get P_u64 offset self ov) by exact Ho.
      rewrite (bind_bytes0 _ _ _ _ _ Hm'), Memory_data_set by (exact Hd || apply Hm).
      erewrite bind_into_control; [done|]. apply (store_Ok_load p pv ov v (Memory_data m)); [done..|].
      by rewrite store_eq, (proj2 (Z.leb_le _ _)) by done.
    + intros h' Hid Hne. cbn [fst with_inner vm_store].
      rewrite (entity_at_put sa_memories) by (done || erewrite memory0_entity by apply Hm; done).
      by rewrite bool_decide_false by congruence.
  - split.
    + rewrite !bind_run, (write_bytes0 _ _ _ _ _ Hm eq_refl).
      rewrite Memory_set_data_same, (put_entity_same sa_memories) by (eapply memory0_entity, Hm).
      by rewrite with_inner_same.
    + unfold handler_load. rewrite (bind_get _ _ _ _ _ _ Hp), (bind_get _ _ _ _ _ _ Ho), (bind_bytes0 _ _ _ _ _ Hm).
      rewrite load_eq by done. by rewrite (proj2 (Z.leb_gt _ _)) by done.
Qed.

End Access.

(** ** Indirect calls and the table operators

    [call_indirect] checks the index, the reference and the type before it calls;
    the table operators on an instance that names one table by two indices; and
    what is left of the frame when [table.grow] runs out of fuel. *)

Section Tables.
Context `{Allocator} `{Uninit} `{MemoryAddress} `{Code} `{Endian} `{Dispatch}.
Context {L Error : Type} `{ResourceLimiter L} `{Host L Error}.
Notation VmStore := (VmState (PrunedStore L)).
Notation VM A := (M VmStore (Halt Error) A).
Notation store_of st := (@fst StoreInner (ResourceLimiterRef L) (@vm_store (PrunedStore L) st)).

(** The handle of the function whose number a table holds. *)
Definition func_handle (s : StoreInner) (r : RawRef) : Stored RawHandle :=
  {| st_store := si_id s; st_value := {| rh_raw := ref_bits r |} |}.

(** C22: An indirect call checks, in this order, that the index is inside the table,
    that the element is not null and that the function has exactly the type the
    caller expects; every failed check is a trap that changes nothing, and only a
    function of that type is called. *)
Theorem call_indirect_spec table func_type params index self (st : VmStore) iv ht t ty :
  reads_as P_u64 index self st iv ->
  inst_entity get_table sa_tables table self st = Some (ht, t) ->
  tt_element (tab_ty t) = RefType_Func -> Table_size t < 2 ^ usize_bits ->
  inst_item get_signature func_type self st = Some ty ->
  let outcome (call : FuncEntity -> VM ExArgs) :=
    match tab_elements t !! Z.to_nat iv with
    | None => (Err (Halt_Trap TableOutOfBounds), st)
    | Some r =>
        if ref_bits r =? 0 then (Err (Halt_Trap IndirectCallToNull), st) else
        match entity_at sa_funcs (store_of st) (func_handle (store_of st) r) with
        | None => (Panic, st)
        | Some f => if bool_decide (ty = FuncEntity_ty_dedup f) then call f st
                    else (Err (Halt_Trap BadSignature), st)
        end
    end in
  exec_call_indirect table func_type params index self st =
    outcome (fun f => on_args (call_wasm_or_host f params) self) /\
  exec_return_call_indirect table func_type params index self st =
    outcome (fun f => on_args (return_call_wasm_or_host f params) self).
Proof.
  intros Hx [Hi He]%inst_entity_Some Ht Hs Hsig outcome. pose proof Hx as [_ [Hn _]].
  assert (G : forall {A} (k : Stored RawHandle -> VM A) (call : FuncEntity -> VM A),
    (forall r f, entity_at sa_funcs (store_of st) (func_handle (store_of st) r) = Some f ->
                 k (func_handle (store_of st) r) st = call f st) ->
    (resolve_indirect_func index table func_type self ≫= k) st =
    match tab_elements t !! Z.to_nat iv with
    | None => (Err (Halt_Trap TableOutOfBounds), st)
    | Some r =>
        if ref_bits r =? 0 then (Err (Halt_Trap IndirectCallToNull), st) else
        match entity_at sa_funcs (store_of st) (func_handle (store_of st) r) with
        | None => (Panic, st)
        | Some f => if bool_decide (ty = FuncEntity_ty_dedup f) then call f st
                    else (Err (Halt_Trap BadSignature), st)
        end
    end).
  { intros A k call Hk. rewrite bind_run. unfold resolve_indirect_func.
    rewrite (bind_get _ _ _ _ _ _ Hx), (bind_fetch _ _ _ _ _ _ Hi), (bind_resolve _ _ _ _ _ He).
    assert (Hg : Table_get t iv = (raw ← tab_elements t !! Z.to_nat iv;
                                   Some (TypedRawRef_new raw (tt_element (tab_ty t))))).
    { unfold Table_get, try_from_u. destruct (Z.ltb_spec iv (2 ^ usize_bits)); [done|].
      cbn [mbind option_bind]. rewrite lookup_ge_None_2; [done|]. unfold Table_size in Hs. lia. }
    rewrite Hg. destruct (tab_elements t !! Z.to_nat iv) as [r|] eqn:Er; [|done].
    cbn [mbind option_bind ok_or]. erewrite bind_into_control by done. rewrite bind_run.
    unfold assert_m, lift at 1, assert_that. rewrite bool_decide_true by done. cbn beta iota.
    rewrite bind_inner. unfold Nullable_from_raw_parts. cbn [tref_raw].
    destruct (Z.eqb_spec (ref_bits r) 0) as [|Hr]; [done|].
    erewrite bind_into_control by done. cbv zeta. cbn [st_store st_value StoreId_wrap].
    fold (func_handle (store_of st) r).
    destruct (entity_at sa_funcs (store_of st) (func_handle (store_of st) r)) as [f|] eqn:Ef.
    - rewrite (bind_resolve _ _ _ _ _ Ef), (bind_fetch _ _ _ _ _ _ Hsig).
      case_bool_decide; [|done]. by apply (Hk r).
    - unfold resolve_entity. rewrite bind_run, bind_inner, try_resolve_mut_run, Ef. done. }
  split; (unfold exec_call_indirect, exec_return_call_indirect; apply G; intros r f Ef;
    unfold call_wasm_or_host_func, return_call_wasm_or_host_func; by rewrite (bind_resolve _ _ _ _ _ Ef)).
Qed.

(** Copying between two indices of one table is a panic of the host, whatever
    the operands are. *)
Theorem table_copy_alias_panics ip dst_table src_table dst src len self (st : VmStore) dv sv lv h t :
  reads_as P_u64 dst self st dv -> reads_as P_u64 src self st sv -> reads_as P_u64 len self st lv ->
  dst_table <> src_table ->
  inst_entity get_table sa_tables dst_table self st = Some (h, t) ->
  inst_entity get_table sa_tables src_table self st = Some (h, t) ->
  exec_table_copy (Error := Error) ip dst_table src_table dst src len self st = (Panic, st).
Proof.
  intros Hd Hs Hl Hne [Hdi He]%inst_entity_Some [Hsi _]%inst_entity_Some. unfold exec_table_copy.
  rewrite (bind_get _ _ _ _ _ _ Hd), (bind_get _ _ _ _ _ _ Hs), (bind_get _ _ _ _ _ _ Hl).
  rewrite (proj2 (Z.eqb_neq _ _)) by done.
  rewrite (bind_fetch _ _ _ _ _ _ Hdi), (bind_fetch _ _ _ _ _ _ Hsi), bind_inner.
  unfold try_resolve_pair_and_fuel, unwrap_stored, StoreId_unwrap. unfold entity_at in He.
  case_bool_decide; [|done]. cbn [ok_or mbind res_bind]. unfold Arena_get_pair_mut. by rewrite Z.eqb_refl.
Qed.

(** Reading does not change the state, and writing a result does not fail. *)
Lemma fetch_same {A} (getter : InstanceEntity -> Z -> option A) index self (st : VmStore) r st' :
  fetch (Error := Error) getter index self st = (r, st') -> st' = st.
Proof. unfold fetch. rewrite bind_inner. by intros [= _ <-]. Qed.

Lemma args_get_same p src self (st : VmStore) r st' :
  args_get (Error := Error) p src self st = (r, st') -> st' = st.
Proof. unfold args_get. rewrite bind_get_st. by intros [= _ <-]. Qed.

Lemma args_set_not_Err result p v self (st : VmStore) e st' :
  args_set (Error := Error) result p v self st <> (Err e, st').
Proof.
  unfold args_set. rewrite bind_run. unfold on_frame.
  by destruct (set_value result p v _) as [[[]| |] fs].
Qed.

(** [table.grow] leaves the loop without synchronising the frame when it is out
    of fuel: the call goes on at the operator the frame was synchronised at last,
    with the registers of that time, and repeats what has run since. *)
Theorem table_grow_out_of_fuel_restarts `{!EngineLaws (PrunedStore L) Error}
    table result delta value self (st : VmStore) a l n st' :
  machine_ok (xa_args self) st a l ->
  exec_table_grow (Error := Error) table result delta value self st =
    (Err (Halt_Done (DoneReason_OutOfFuel n)), st') ->
  exists call self',
    resume_wasm_func_call (Error := Error) st' = (Ok call, st') /\
    execute_stock (Error := Error) call st' = (Ok (self', st_regs (vm_stack st)), st') /\
    a_ip self' = af_ip a /\ vm_stack st' = vm_stack st.
Proof.
  intros Hm E. assert (Hs : vm_stack st' = vm_stack st).
  { revert E. unfold exec_table_grow. rewrite bind_run. destruct (fetch _ _ _ _) as [[h|e|] s1] eqn:E1;
      apply fetch_same in E1 as ->; [|by intros [= _ <-]|done].
    rewrite bind_run. destruct (args_get _ delta _ _) as [[dv|e|] s1] eqn:E1;
      apply args_get_same in E1 as ->; [|by intros [= _ <-]|done].
    rewrite bind_run. destruct (args_get _ value _ _) as [[v|e|] s1] eqn:E1;
      apply args_get_same in E1 as ->; [|by intros [= _ <-]|done].
    rewrite bind_get_st. destruct (grow_table _ _ _ _) as [r store]. rewrite bind_run. cbn beta iota delta [put_st].
    destruct r as [rv|[e|[]]|]; try (by intros [= _ <-]).
    - by intros E%args_set_not_Err.
    - rewrite bind_run. destruct (resolve_entity _ _ _) as [[t|e|] s1] eqn:E1;
        apply resolve_entity_same in E1 as ->; [by intros E%args_set_not_Err|by intros [= _ <-]|done].
    - rewrite bind_run. destruct (resolve_entity _ _ _) as [[t|e|] s1] eqn:E1;
        apply resolve_entity_same in E1 as ->; [by intros E%args_set_not_Err|by intros [= _ <-]|done]. }
  assert (Hok : stack_ok (vm_stack st') a l) by (rewrite Hs; apply Hm).
  destruct (resume_wasm_func_call_spec st' a l Hok) as (call & self' & Er & Ee & Hip & _).
  rewrite Hs in Ee. by exists call, self'.
Qed.

End Tables.
