(* ===== verification/ExecFuel.v ===== *)
(** * Operators that run out of fuel

    The operators of [Exec] that charge fuel with the macros [consume_fuel!] and
    [out_of_fuel!]: when they are out of fuel they have changed nothing, and the
    resumed call runs them again. *)

From Stdlib Require Import ZArith Lia.
From stdpp Require Import base option decidable numbers list.
From S2P Require Import Prelude Trap Value WasmInt Fuel Limiter MemoryType MemoryAccess Memory Table Slot.
From S2P Require Import Codec EncodedOps Cells ExecStack Calls CallSpec CallRefine Arena Store Exec ExecSpec ExecMem.
Local Open Scope Z_scope.

(** ** Failing without an effect *)

Section Effects.
Context {S E : Type}.

(** [m] does not change the state, or not when it fails, or does not fail. *)
Definition reads {A} (m : M S E A) : Prop := forall s r s', m s = (r, s') -> s' = s.
Definition keeps {A} (m : M S E A) : Prop := forall s e s', m s = (Err e, s') -> s' = s.
Definition succeeds {A} (m : M S E A) : Prop := forall s e s', m s <> (Err e, s').

Lemma reads_get : reads get_st.
Proof. by intros s r s' [= _ <-]. Qed.
Lemma reads_lift {A} (r : res E A) : reads (lift r).
Proof. by intros s r' s' [= _ <-]. Qed.
Lemma reads_keeps {A} (m : M S E A) : reads m -> keeps m.
Proof. intros H s e s' Hm. by apply H in Hm. Qed.
Lemma succeeds_ret {A} (a : A) : succeeds (mret a).
Proof. done. Qed.
Lemma succeeds_put s : succeeds (put_st s).
Proof. done. Qed.
Lemma succeeds_get : succeeds get_st.
Proof. done. Qed.
Lemma succeeds_expect {A} (o : option A) : succeeds (lift (expect o)).
Proof. by destruct o. Qed.

Lemma keeps_bind_reads {A B} (m : M S E A) (k : A -> M S E B) :
  reads m -> (forall a, keeps (k a)) -> keeps (m ≫= k).
Proof.
  intros Hm Hk s e s' H. rewrite bind_run in H. destruct (m s) as [r t] eqn:Em. apply Hm in Em as ->.
  destruct r; [by apply Hk in H|by injection H as _ <-|done].
Qed.

Lemma keeps_bind_succeeds {A B} (m : M S E A) (k : A -> M S E B) :
  keeps m -> (forall a, succeeds (k a)) -> keeps (m ≫= k).
Proof.
  intros Hm Hk s e s' H. rewrite bind_run in H. destruct (m s) as [[a|e'|] t] eqn:Em; [|by injection H as _ <-; apply Hm in Em|done].
  by apply Hk in H.
Qed.

Lemma succeeds_bind {A B} (m : M S E A) (k : A -> M S E B) :
  succeeds m -> (forall a, succeeds (k a)) -> succeeds (m ≫= k).
Proof.
  intros Hm Hk s e s' H. rewrite bind_run in H. destruct (m s) as [[a|e'|] t] eqn:Em; [|by apply Hm in Em|done].
  by apply Hk in H.
Qed.
End Effects.

Create HintDb effects.
#[export] Hint Resolve reads_get reads_lift reads_keeps succeeds_ret succeeds_put succeeds_get succeeds_expect : effects.
Ltac effects :=
  repeat first [ progress intros | apply keeps_bind_reads; [by eauto with effects|]
               | apply keeps_bind_succeeds; [by eauto with effects|] | apply succeeds_bind; [by eauto with effects|]
               | case_match | by eauto with effects ].

(** The bulk operations on tables. *)
Section Tables.
Context `{Target}.

Lemma Table_consume_fuel_keeps len : keeps (Table_consume_fuel len).
Proof.
  intros [t fuel] e s' E. rewrite Table_consume_fuel_eq in E. destruct (Table.charged len fuel); [done|].
  by injection E as _ <-.
Qed.
Lemma Table_write_items_succeeds dst items : succeeds (Table_write_items dst items).
Proof. unfold Table_write_items. effects. Qed.
#[local] Hint Resolve Table_consume_fuel_keeps Table_write_items_succeeds : effects.

Lemma Table_copy_within_keeps dst src len : keeps (Table_copy_within dst src len).
Proof. unfold Table_copy_within. effects. Qed.
Lemma Table_copy_keeps dst t src len : keeps (Table_copy dst t src len).
Proof. unfold Table_copy. effects. Qed.
Lemma Table_fill_raw_keeps dst v len : keeps (Table_fill_raw dst v len).
Proof. unfold Table_fill_raw. effects. Qed.
Lemma Table_init_keeps e dst src len : keeps (Table_init e dst src len).
Proof. unfold Table_init. effects. Qed.
End Tables.

(** Growing a memory: only the limiter is told. *)
Section Grow.
Context `{Target} {L : Type} `{ResourceLimiter L} `{!Allocator}.
Notation Grow := (M (GrowState (L := L)) MemoryError).

Definition limiter_only {A} (m : Grow A) : Prop := forall s r s', m s = (r, s') -> s'.1 = s.1.
Definition out_of_fuel_keeps {A} (m : Grow A) : Prop := forall s n s', m s = (Err (ME_OutOfFuel n), s') -> s'.1 = s.1.
Definition not_out_of_fuel {A} (m : Grow A) : Prop := forall s n s', m s <> (Err (ME_OutOfFuel n), s').

Lemma reads_limiter_only {A} (m : Grow A) : reads m -> limiter_only m.
Proof. by intros Hm s r s' ->%Hm. Qed.

Lemma zoom_limiter_only {A} (m : M (ResourceLimiterRef L) MemoryError A) :
  limiter_only (zoom snd (fun l (s : GrowState) => (fst s, l)) id m).
Proof. intros s r s'. unfold zoom. destruct (m _) as [[] ?]; by intros [= _ <-]. Qed.

Lemma out_of_fuel_keeps_bind {A B} (m : Grow A) (k : A -> Grow B) :
  limiter_only m -> (forall a, out_of_fuel_keeps (k a)) -> out_of_fuel_keeps (m ≫= k).
Proof.
  intros Hm Hk s n s' E. rewrite bind_run in E. destruct (m s) as [r t] eqn:Em. apply Hm in Em.
  destruct r; [|by injection E as _ <-|done]. apply Hk in E. congruence.
Qed.

Lemma out_of_fuel_keeps_fail {A} e : out_of_fuel_keeps (fail (A := A) e).
Proof. by intros s n s' [= _ <-]. Qed.

Lemma out_of_fuel_keeps_last {A B} (m : Grow A) (k : A -> Grow B) :
  out_of_fuel_keeps m -> (forall a, not_out_of_fuel (k a)) -> out_of_fuel_keeps (m ≫= k).
Proof.
  intros Hm Hk s n s' E. rewrite bind_run in E. destruct (m s) as [[a|e|] t] eqn:Em; [by apply Hk in E| |done].
  injection E as -> <-. by eapply Hm.
Qed.

Lemma notify_limiter_err {A} (err : MemoryError) s n s' : (forall n, err <> ME_OutOfFuel n) ->
  notify_limiter (A := A) err s <> (Err (ME_OutOfFuel n), s').
Proof.
  intros Hn. unfold notify_limiter, on_limiter, with_resource_limiter, zoom. rewrite bind_run.
  destruct s.2; [destruct (memory_grow_failed _ _) as [[|[]|] ?]|]; cbn; try done; intros [= E _]; by eapply Hn.
Qed.

Lemma Memory_grow_fuel_keeps additional page : out_of_fuel_keeps (Memory_grow_fuel additional page).
Proof.
  intros [[m fuel] l] n s' E. unfold Memory_grow_fuel in E. rewrite bind_get_st in E. cbn [fst snd] in E.
  destruct fuel as [f|]; [|done]. rewrite bind_lift in E. destruct (expect _) as [bytes|e|]; [|by injection E as _ <-|done].
  rewrite consume_fuel_if_eq in E. unfold charge_if in E. destruct (fuel_enabled f); cbn [negb] in E; [|done].
  destruct (_ <=? _); [done|]. unfold notify_limiter in E. rewrite !bind_run in E. cbn beta iota delta [put_st] in E.
  rewrite bind_run in E. destruct (zoom snd _ id _ _) as [r t] eqn:Ez. apply zoom_limiter_only in Ez.
  destruct r; [|by injection E as _ <-|done]. by injection E as _ <-.
Qed.

Lemma ByteBuffer_grow_err new_size b e b' : ByteBuffer_grow new_size b = (Err e, b') -> forall n, e <> ME_OutOfFuel n.
Proof.
  unfold ByteBuffer_grow, ByteBuffer_grow_static, ByteBuffer_grow_vec. cbv zeta.
  repeat case_match; by intros [= <- <-].
Qed.

Lemma Memory_grow_out_of_fuel additional : out_of_fuel_keeps (Memory_grow additional).
Proof.
  unfold Memory_grow.
  repeat first [ apply out_of_fuel_keeps_fail | apply out_of_fuel_keeps_bind;
    [by first [apply zoom_limiter_only | apply reads_limiter_only; eauto with effects]|intros ?] | case_match; try done ].
  all: apply out_of_fuel_keeps_last; [apply Memory_grow_fuel_keeps|intros _ s n s' E]; rewrite bind_get_st in E;
    destruct (ByteBuffer_grow _ _) as [r bytes] eqn:Eb; rewrite bind_run in E; cbn beta iota delta [put_st] in E;
    destruct r as [|e|]; [done| |done]; eapply notify_limiter_err, E; by eapply ByteBuffer_grow_err.
Qed.
End Grow.

(** ** Leaving the loop *)

Section Operators.
Context `{Allocator} `{Uninit} `{MemoryAddress} `{Code} `{Endian} `{Dispatch}.
Context {L Error : Type} `{ResourceLimiter L} `{Host L Error}.
Notation VmStore := (VmState (PrunedStore L)).
Notation VM A := (M VmStore (Halt Error) A).
Notation store_of st := (@fst StoreInner (ResourceLimiterRef L) (@vm_store (PrunedStore L) st)).
Notation OutOfFuel n := (Halt_Done (DoneReason_OutOfFuel n)).

(** The operators whose handlers use [consume_fuel!] or [out_of_fuel!]. *)
Inductive FuelOp : Type :=
  | FuelOp_consume_fuel (fuel : BlockFuel)
  | FuelOp_memory_grow (memory : Z) (result : Dst) (delta : Src)
  | FuelOp_memory_copy (dst_memory src_memory : Z) (dst src len : Src)
  | FuelOp_memory_fill (memory : Z) (dst len value : Src)
  | FuelOp_memory_init (memory data : Z) (dst src len : Src)
  | FuelOp_table_copy (dst_table src_table : Z) (dst src len : Src)
  | FuelOp_table_fill (table : Z) (dst len value : Src)
  | FuelOp_table_init (table elem : Z) (dst src len : Src).

Definition exec_fuel_op (op : FuelOp) (ip : Ip) : ExArgs -> VM ExArgs :=
  match op with
  | FuelOp_consume_fuel fuel => exec_consume_fuel ip fuel
  | FuelOp_memory_grow memory result delta => exec_memory_grow ip memory result delta
  | FuelOp_memory_copy dst_memory src_memory dst src len => exec_memory_copy ip dst_memory src_memory dst src len
  | FuelOp_memory_fill memory dst len value => exec_memory_fill ip memory dst len value
  | FuelOp_memory_init memory data dst src len => exec_memory_init ip memory data dst src len
  | FuelOp_table_copy dst_table src_table dst src len => exec_table_copy ip dst_table src_table dst src len
  | FuelOp_table_fill table dst len value => exec_table_fill ip table dst len value
  | FuelOp_table_init table elem dst src len => exec_table_init ip table elem dst src len
  end.

(** [m] never reports a want of fuel, or reports it through [out_of_fuel!] with
    the store and the stack as they were. *)
Definition fuelled {A} (m : VM A) : Prop := forall st n st', m st <> (Err (OutOfFuel n), st').
Definition restarts (ip : Ip) (regs : Regs) {A} (m : VM A) : Prop := forall st n st',
  m st = (Err (OutOfFuel n), st') ->
  exists s, s.1 = store_of st /\
    out_of_fuel (Error := Error) (A := A) ip regs n {| vm_store := s; vm_stack := vm_stack st |} = (Err (OutOfFuel n), st').
Definition inspects {A} (m : VM A) : Prop := reads m /\ fuelled m.

Lemma out_of_fuel_run {A} ip regs n (st : VmStore) :
  out_of_fuel (Error := Error) (A := A) ip regs n st =
  let '(r, k) := Stack_sync_ip (E := TrapCode) ip (vm_stack st) in
  if is_ok r then (Err (OutOfFuel n), {| vm_store := vm_store st; vm_stack :=
                     {| st_values := st_values k; st_frames := st_frames k; st_regs := regs |} |})
  else (Panic, {| vm_store := vm_store st; vm_stack := k |}).
Proof.
  unfold out_of_fuel, on_stack, Stack_sync_ip, on_frames, CallStack_sync_ip, zoom, mbind, M_bind, get_st, lift.
  by destruct (CallStack_top _).
Qed.

Lemma out_of_fuel_any {A B} ip regs n (st : VmStore) e st' :
  out_of_fuel (Error := Error) (A := A) ip regs n st = (Err e, st') ->
  out_of_fuel (Error := Error) (A := B) ip regs n st = (Err e, st').
Proof. rewrite !out_of_fuel_run. destruct (Stack_sync_ip _ _) as [[] ?]; cbn; [by intros [= -> ->]|done..]. Qed.

Lemma out_of_fuel_inv {A} ip regs k (st : VmStore) n st' :
  out_of_fuel (Error := Error) (A := A) ip regs k st = (Err (OutOfFuel n), st') -> n = k.
Proof. rewrite out_of_fuel_run. destruct (Stack_sync_ip _ _) as [[] ?]; cbn; [by intros [= -> _]|done..]. Qed.

(** Only the store may differ, and of the store only the limiter. *)
Lemma restarts_here {A} ip regs k (st : VmStore) (s : PrunedStore L) n st' : s.1 = store_of st ->
  out_of_fuel (Error := Error) (A := A) ip regs k {| vm_store := s; vm_stack := vm_stack st |} = (Err (OutOfFuel n), st') ->
  exists s, s.1 = store_of st /\
    out_of_fuel (Error := Error) (A := A) ip regs n {| vm_store := s; vm_stack := vm_stack st |} = (Err (OutOfFuel n), st').
Proof. intros Hs E. exists s. split; [done|]. by rewrite (out_of_fuel_inv _ _ _ _ _ _ E) in E |- *. Qed.

Lemma restarts_bind_inspects {A B} ip regs (m : VM A) (k : A -> VM B) :
  inspects m -> (forall a, restarts ip regs (k a)) -> restarts ip regs (m ≫= k).
Proof.
  intros [Hr Hf] Hk st n st' E. rewrite bind_run in E. destruct (m st) as [r t] eqn:Em. pose proof Em as Et.
  apply Hr in Et as ->. destruct r as [a|e|]; [by apply Hk in E| |done]. injection E as -> ->. by apply Hf in Em.
Qed.

Lemma restarts_bind_fuelled {A B} ip regs (m : VM A) (k : A -> VM B) :
  restarts ip regs m -> (forall a, fuelled (k a)) -> restarts ip regs (m ≫= k).
Proof.
  intros Hm Hk st n st' E. rewrite bind_run in E. destruct (m st) as [[a|e|] t] eqn:Em; [by apply Hk in E| |done].
  injection E as -> ->. apply Hm in Em as (s & Hs & Em). exists s. split; [done|]. by eapply out_of_fuel_any.
Qed.

Lemma fuelled_bind {A B} (m : VM A) (k : A -> VM B) : fuelled m -> (forall a, fuelled (k a)) -> fuelled (m ≫= k).
Proof.
  intros Hm Hk st n st' E. rewrite bind_run in E. destruct (m st) as [[a|e|] t] eqn:Em; [by apply Hk in E| |done].
  injection E as -> ->. by apply Hm in Em.
Qed.

Lemma fuelled_restarts {A} ip regs (m : VM A) : fuelled m -> restarts ip regs m.
Proof. by intros Hm st n st' E%Hm. Qed.

Lemma inspects_inner : inspects inner.
Proof. split; [by intros s r s' [= _ <-]|by intros s n s']. Qed.
Lemma inspects_lift {A} (r : res (Halt Error) A) : (forall n, r <> Err (OutOfFuel n)) -> inspects (lift r).
Proof. intros Hr. split; [by intros s r' s' [= _ <-]|]. intros s n s' [= E _]. by eapply Hr. Qed.
Lemma inspects_into_control {A} (r : res TrapCode A) : inspects (into_control r).
Proof. apply inspects_lift. by destruct r. Qed.
Lemma inspects_fetch {A} (getter : InstanceEntity -> Z -> option A) index self : inspects (fetch getter index self).
Proof.
  split; [by intros s r s' E%fetch_same|]. intros s n s'. unfold fetch. rewrite bind_inner.
  match goal with |- context [expect ?o] => by destruct o end.
Qed.
Lemma inspects_args_get p src self : inspects (args_get p src self).
Proof.
  split; [by intros s r s' E%args_get_same|]. intros s n s'. unfold args_get. rewrite bind_get_st. by destruct (get_value _ _ _).
Qed.
Lemma inspects_resolve {Entity} (sa : StoreArena Entity) h : inspects (resolve_entity sa h).
Proof.
  split; [by intros s r s' E%resolve_entity_same|]. intros s n s'. unfold resolve_entity. rewrite bind_inner.
  by destruct (try_resolve_mut _ _ _).
Qed.
Lemma inspects_unchecked {E A} (r : res E A) : inspects (lift (unchecked r)).
Proof. apply inspects_lift. by destruct r. Qed.
Lemma fuelled_ret {A} (a : A) : fuelled (mret a).
Proof. done. Qed.
Lemma fuelled_trap {A} code : fuelled (A := A) (trap code).
Proof. done. Qed.
Lemma fuelled_panic {A} : fuelled (A := A) panic.
Proof. done. Qed.
Lemma fuelled_write {Entity} (sa : StoreArena Entity) h e : fuelled (write_entity sa h e).
Proof. done. Qed.
Lemma fuelled_put_fuel f : fuelled (put_fuel f).
Proof. done. Qed.
Lemma fuelled_put (s : VmStore) : fuelled (put_st s).
Proof. done. Qed.
Lemma fuelled_set result p v self : fuelled (args_set result p v self).
Proof. intros st n st' E. by apply args_set_not_Err in E. Qed.
Lemma fuelled_inspects {A} (m : VM A) : inspects m -> fuelled m.
Proof. by intros [_ ?]. Qed.
Lemma fuelled_expect {A} (o : option A) : fuelled (lift (expect o)).
Proof. by destruct o. Qed.
#[local] Hint Resolve inspects_inner inspects_into_control inspects_fetch inspects_args_get inspects_resolve
  inspects_unchecked fuelled_ret fuelled_trap fuelled_panic fuelled_write fuelled_put_fuel fuelled_put fuelled_set
  fuelled_inspects fuelled_expect : effects.

(** Charging, and the bulk operations of tables. *)
Lemma charge_fuel_restarts ip cost self : restarts ip (xa_regs self) (charge_fuel ip cost self).
Proof.
  intros st n st' E. rewrite charge_run in E. unfold charged, charge_if in E.
  destruct (fuel_enabled _); cbn [negb] in E; [|done]. destruct (_ <=? _); [done|].
  apply (restarts_here _ _ _ st (vm_store st)) in E; [done..|]. by destruct st.
Qed.

Lemma on_table_restarts ip table oob m self : keeps m -> restarts ip (xa_regs self) (on_table ip table oob m self).
Proof.
  intros Hm st n st' E. unfold on_table in E.
  destruct (entity_at sa_tables (store_of st) table) as [t|] eqn:Et.
  2: { unfold resolve_entity in E. rewrite bind_run, bind_inner, try_resolve_mut_run, Et in E. done. }
  rewrite (bind_resolve _ _ _ _ _ Et), bind_inner in E.
  destruct (m (t, Some (si_fuel (store_of st)))) as [r [t' fuel']] eqn:Em.
  rewrite bind_write, bind_run in E. unfold put_fuel in E. rewrite bind_inner, put_inner_run in E. cbn beta iota in E.
  destruct r as [u|e|]; [done| |done]. apply Hm in Em. injection Em as -> ->.
  set (st0 := with_inner _ (with_inner _ st)) in E.
  assert (Hst : st0 = st).
  { unfold st0. rewrite (with_inner_same st) by (by rewrite (put_entity_same sa_tables)).
    apply with_inner_same. by destruct st as [[[] ?] ?]. }
  rewrite Hst in E. destruct e; try (case_bool_decide; done); try done.
  apply (restarts_here _ _ _ st (vm_store st)) in E; [done..|]. by destruct st.
Qed.

Create HintDb restarts.
#[local] Hint Resolve charge_fuel_restarts on_table_restarts : restarts.

Ltac fuelling :=
  repeat first [ progress intros | by eauto with effects | apply fuelled_bind | case_match ].
Ltac restarting :=
  repeat first [ progress intros
               | apply restarts_bind_inspects; [by eauto with effects|]
               | apply restarts_bind_fuelled; [by eauto with restarts effects|]
               | by eauto with restarts effects | case_match | by apply fuelled_restarts; fuelling | by fuelling ].
#[local] Hint Resolve Table_copy_within_keeps Table_copy_keeps Table_fill_raw_keeps Table_init_keeps : effects.

Lemma inspects_try_usize z : inspects (try_usize z).
Proof. apply inspects_into_control. Qed.
#[local] Hint Resolve inspects_try_usize : effects.

Lemma exec_consume_fuel_restarts ip fuel self : restarts ip (xa_regs self) (exec_consume_fuel ip fuel self).
Proof.
  intros st n st' E. unfold exec_consume_fuel in E. rewrite bind_inner, consume_fuel_unchecked_eq in E.
  destruct (_ <=? _); [done|]. unfold put_fuel in E. rewrite bind_run, bind_inner, put_inner_run in E. cbn beta iota in E.
  rewrite with_inner_same in E by (by destruct st as [[[] ?] ?]).
  apply (restarts_here _ _ _ st (vm_store st)) in E; [done..|]. by destruct st.
Qed.

Lemma memory_copy_within_restarts ip dst_memory dst src len self :
  restarts ip (xa_regs self) (memory_copy_within ip dst_memory dst src len self).
Proof. unfold memory_copy_within. restarting. Qed.

#[local] Hint Resolve exec_consume_fuel_restarts memory_copy_within_restarts : restarts.

Lemma grow_memory_keeps h delta (s : PrunedStore L) n s' :
  grow_memory h delta s = (Err (StoreError_External (ME_OutOfFuel n)), s') -> s'.1 = s.1.
Proof.
  destruct (entity_at sa_memories s.1 h) as [m|] eqn:He.
  - destruct (Memory_grow delta (m, Some (si_fuel s.1), s.2)) as [r [[m' f'] lim']] eqn:Eg.
    rewrite (grow_memory_run _ _ _ _ _ _ _ _ He Eg). intros E. destruct r as [z|e|]; [done| |done].
    injection E as -> <-. apply Memory_grow_out_of_fuel in Eg. injection Eg as -> ->.
    change (set_si_fuel (si_fuel s.1) (put_entity sa_memories h m s.1) = s.1).
    rewrite (put_entity_same sa_memories s.1 h m He). by destruct s as [[] ?].
  - unfold grow_memory, try_resolve_and_fuel_mut, unwrap_stored, StoreId_unwrap, entity_at in *.
    case_bool_decide; [|done]. cbn [ok_or mbind res_bind]. unfold resolve_mut, Arena_get_mut. fold (handle_idx h).
    by rewrite He.
Qed.

Lemma exec_memory_grow_restarts ip memory result delta self :
  restarts ip (xa_regs self) (exec_memory_grow ip memory result delta self).
Proof.
  unfold exec_memory_grow. do 2 (apply restarts_bind_inspects; [by eauto with effects|intros ?]).
  intros st n st' E. rewrite bind_get_st in E. destruct (grow_memory _ _ _) as [r store] eqn:Eg.
  rewrite bind_run in E. cbn beta iota delta [put_st] in E.
  assert (G : forall m : VM ExArgs, fuelled m -> m {| vm_store := store; vm_stack := vm_stack st |} = (Err (OutOfFuel n), st') ->
    exists s, s.1 = store_of st /\
      out_of_fuel (Error := Error) (A := ExArgs) ip (xa_regs self) n {| vm_store := s; vm_stack := vm_stack st |} = (Err (OutOfFuel n), st'))
    by (by intros m Hm Em%Hm).
  destruct r as [z|[e|[]]|]; try (revert E; apply G; fuelling; done).
  apply (restarts_here _ _ _ st store) in E; [done|]. by apply grow_memory_keeps in Eg.
Qed.

(** Every operator of the list. *)
Lemma exec_fuel_op_restarts op ip self : restarts ip (xa_regs self) (exec_fuel_op op ip self).
Proof.
  destruct op; cbn [exec_fuel_op]; [by apply exec_consume_fuel_restarts|by apply exec_memory_grow_restarts|..];
    unfold exec_memory_copy, exec_memory_fill, exec_memory_init, exec_table_copy, exec_table_fill, exec_table_init; restarting.
Qed.

End Operators.
