(* ===== verification/ExecExamples.v ===== *)
(** * Operators on a concrete store

    A store of two memories, two tables and two functions whose only instance names
    the first memory and the first table twice, and the theorems on operators applied
    to runs on it. *)

From Stdlib Require Import ZArith Lia.
From stdpp Require Import base option decidable numbers list.
From S2P Require Import Prelude Trap Value WasmInt Fuel Limiter MemoryType MemoryAccess Memory Table Slot.
From S2P Require Import Codec EncodedOps Cells ExecStack Calls CallSpec CallRefine Arena Store Exec ExecSpec ExecMem ExecFuel.
Local Open Scope Z_scope.

#[local] Instance demo_target : Target := default_target.
#[local] Instance demo_alloc : Allocator := limit_allocator demo_target 1000.
#[local] Instance demo_uninit : Uninit := fun _ _ => 0.
#[local] Instance demo_endian : Endian := {| big_endian := false |}.
#[local] Instance demo_dispatch : Dispatch := {| indirect_dispatch := false; op_code_to_handler := fun code => code |}.
#[local] Instance demo_code : Code := fun _ => [].

#[local] Instance demo_address : MemoryAddress.
Proof.
  refine {| data_ptr := fun k _ => 4096 * rh_raw k |}.
  intros [k] n [k'] n'. cbn [rh_raw]. intros E. f_equal. lia.
Defined.

#[local] Instance demo_host : Host StoreLimits Z := {
  host_get_or_compile func store := (Ok (100 * func, 2, 3), store);
  host_call trampoline _ io store := (Ok (io_cells io), store)
}.

#[local] Instance demo_laws : EngineLaws (PrunedStore StoreLimits) Z.
Proof.
  refine {| func_params := fun _ => 0; func_ip := fun f => 100 * f;
            func_locals := fun _ => 2; func_slots := fun _ => 3 |}.
  - intros _. done.
  - intros f st. done.
  - intros f st i. done.
  - intros t i io st. done.
Defined.

(** ** The store *)

Definition demo_handle (n : Z) : Stored RawHandle := {| st_store := 7; st_value := {| rh_raw := n |} |}.
Definition demo_arena {A} (l : list A) : Arena A := {| items := l; items_capacity := Z.of_nat (length l) |}.

Definition demo_instance : InstanceEntity := {|
  ie_initialized := true; ie_func_types := [3; 4]; ie_tables := [demo_handle 1; demo_handle 1; demo_handle 2];
  ie_funcs := [demo_handle 1; demo_handle 2];
  ie_memories := [demo_handle 1; demo_handle 1; demo_handle 2];
  ie_globals := []; ie_data_segments := []; ie_elem_segments := []; ie_exports := ∅
|}.

Definition demo_table : Table := {|
  tab_ty := {| tt_element := RefType_Func; tt_min := 0; tt_max := None; tt_index_ty := IndexType_I32 |};
  tab_elements := []; tab_capacity := 0
|}.

Definition demo_func (ty body : Z) : FuncEntity :=
  FuncEntity_Wasm {| wf_ty := ty; wf_body := body; wf_instance := 1 |}.

Definition demo_store (fuel : Z) (memory1 memory2 : list Z) : StoreInner := {|
  si_id := 7;
  si_funcs := demo_arena [demo_func 3 5; demo_func 4 6];
  si_memories := demo_arena [sample_with memory1; sample_with memory2];
  si_tables := demo_arena [table_of [1; 0; 2; 2]; demo_table];
  si_globals := demo_arena []; si_instances := demo_arena [demo_instance]; si_datas := demo_arena [];
  si_elems := demo_arena []; si_extern_objects := demo_arena [];
  si_fuel := sample_fuel fuel
|}.

Definition demo_stack (cells : list Z) : Stack := {|
  st_values := {| vs_cells := cells; vs_capacity := Z.of_nat (length cells); vs_max_height := 50 |};
  st_frames := {| cs_frames := [{| fr_ip := 400; fr_start := 0; fr_instance := None |}];
                  cs_instance := Some 1; cs_max_height := 10 |};
  st_regs := Regs_default
|}.

Definition demo_vm (fuel : Z) (memory1 memory2 : list Z) : VmState (PrunedStore StoreLimits) :=
  {| vm_store := (demo_store fuel memory1 memory2, None); vm_stack := demo_stack [11; 12; 13] |}.

Definition demo_args (len0 : Z) : ExArgs := {|
  xa_args := {| a_ip := 480; a_sp := Sp_new 0; a_mem0 := {| mem0_ptr := 4096; mem0_len := len0 |}; a_instance := 1 |};
  xa_regs := Regs_default
|}.

Lemma demo_reads p v self (st : VmState (PrunedStore StoreLimits)) : prim_val p v -> reads_as p (Src_imm v) self st v.
Proof. by split. Qed.

(** The bytes of the memories behind a run. *)
Definition demo_bytes {E A} (run : res E A * VmState (PrunedStore StoreLimits)) : list (list Z) :=
  Memory_data <$> items (si_memories (fst (@vm_store (PrunedStore StoreLimits) (snd run)))).

(** ** Memories *)

(** Bytes 0 to 3 move to 1 to 4, and two bytes go from one memory to the other. *)
Definition demo_copy (d s dst len : Z) (st : VmState (PrunedStore StoreLimits)) :=
  exec_memory_copy (L := StoreLimits) (Error := Z) 470 d s (Src_imm dst) (Src_imm 0) (Src_imm len) (demo_args 5) st.

Lemma memory_copy_spec_witness :
  let st := demo_vm 9 [1; 2; 3; 4; 5] [8; 9] in
  let m1 := sample_with [1; 2; 3; 4; 5] in
  (demo_bytes (demo_copy 0 0 1 4 st) = [[1; 1; 2; 3; 4]; [8; 9]] /\
   demo_copy 0 0 1 4 st = bulk_write 470 (demo_handle 1) m1 4 (Some [1; 1; 2; 3; 4]) (demo_args 5) st) /\
  (demo_bytes (demo_copy 0 2 3 2 st) = [[1; 2; 3; 8; 9]; [8; 9]] /\
   demo_copy 0 2 3 2 st = bulk_write 470 (demo_handle 1) m1 2 (Some [1; 2; 3; 8; 9]) (demo_args 5) st).
Proof.
  intros st m1. split.
  - split; [by vm_compute|].
    apply (memory_copy_spec 470 0 0 (Src_imm 1) (Src_imm 0) (Src_imm 4) (demo_args 5) st 1 0 4
      (demo_handle 1) m1 (demo_handle 1) m1);
      [by apply demo_reads..|by vm_compute|by vm_compute|by vm_compute|by vm_compute|done].
  - split; [by vm_compute|].
    apply (memory_copy_spec 470 0 2 (Src_imm 3) (Src_imm 0) (Src_imm 2) (demo_args 5) st 3 0 2
      (demo_handle 1) m1 (demo_handle 2) (sample_with [8; 9]));
      [by apply demo_reads..|by vm_compute|by vm_compute|by vm_compute|by vm_compute|by vm_compute].
Defined.

Lemma memory_copy_alias_panics_witness :
  let st := demo_vm 9 [1; 2; 3; 4; 5] [8; 9] in demo_copy 0 1 1 4 st = (Panic, st).
Proof.
  intros st. apply (memory_copy_alias_panics 470 0 1 (Src_imm 1) (Src_imm 0) (Src_imm 4) (demo_args 5) st 1 0 4
    (demo_handle 1) (sample_with [1; 2; 3; 4; 5]));
    [by apply demo_reads..|by vm_compute|by vm_compute|by vm_compute|done|by vm_compute|by vm_compute].
Defined.

(** Memory 0, and with its other index again memory 0, grows by two bytes. *)
Definition demo_grow (index : Z) (st : VmState (PrunedStore StoreLimits)) :=
  exec_memory_grow (L := StoreLimits) (Error := Z) 470 index (Dst_slot (Slot_from 0)) (Src_imm 2) (demo_args 3) st.

Lemma memory_grow_mem0_witness : exists self' st',
  demo_grow 0 (demo_vm 9 [3; 1; 4] [8; 9]) = (Ok self', st') /\
  a_mem0 (xa_args self') = {| mem0_ptr := 4096; mem0_len := 5 |} /\ mem0_valid self' st'.
Proof.
  assert (Hi : inst_entity get_memory sa_memories 0 (demo_args 3) (demo_vm 9 [3; 1; 4] [8; 9]) =
    Some (demo_handle 1, sample_with [3; 1; 4])) by by vm_compute.
  assert (H0 : memory0 (demo_store 9 [3; 1; 4] [8; 9]) 1 = Some (demo_handle 1, sample_with [3; 1; 4])) by by vm_compute.
  assert (Hw : Memory_wf (sample_with [3; 1; 4])) by exact (sample_wf demo_target eq_refl).
  assert (Hf : max_bytes_fit (sample_with [3; 1; 4])) by (by intros ? [= <-]).
  assert (Hv : mem0_valid (demo_args 3) (demo_vm 9 [3; 1; 4] [8; 9])) by by vm_compute.
  assert (Hr : exists self' st', demo_grow 0 (demo_vm 9 [3; 1; 4] [8; 9]) = (Ok self', st') /\
    a_mem0 (xa_args self') = {| mem0_ptr := 4096; mem0_len := 5 |})
    by (vm_compute; eexists _, _; split; reflexivity).
  destruct Hr as (self' & st' & E & Hm). exists self', st'. split; [exact E|]. split; [exact Hm|].
  destruct (memory_grow_mem0 470 0 (Dst_slot (Slot_from 0)) (Src_imm 2) (demo_args 3) (demo_vm 9 [3; 1; 4] [8; 9]) 2
    (demo_handle 1) (sample_with [3; 1; 4]) (demo_handle 1) (sample_with [3; 1; 4]) self' st'
    (demo_reads P_u64 2 _ _ ltac:(done)) Hi Hw Hf H0 Hv E) as (m' & _ & [_ Hg]).
  apply Hg. by left.
Defined.

Lemma memory_grow_alias_stale_witness : exists self' st',
  demo_grow 1 (demo_vm 9 [3; 1; 4] [8; 9]) = (Ok self', st') /\
  a_mem0 (xa_args self') = {| mem0_ptr := 4096; mem0_len := 3 |} /\ ~ mem0_valid self' st'.
Proof.
  assert (Hi : inst_entity get_memory sa_memories 1 (demo_args 3) (demo_vm 9 [3; 1; 4] [8; 9]) =
    Some (demo_handle 1, sample_with [3; 1; 4])) by by vm_compute.
  assert (H0 : memory0 (demo_store 9 [3; 1; 4] [8; 9]) 1 = Some (demo_handle 1, sample_with [3; 1; 4])) by by vm_compute.
  assert (Hw : Memory_wf (sample_with [3; 1; 4])) by exact (sample_wf demo_target eq_refl).
  assert (Hf : max_bytes_fit (sample_with [3; 1; 4])) by (by intros ? [= <-]).
  assert (Hv : mem0_valid (demo_args 3) (demo_vm 9 [3; 1; 4] [8; 9])) by by vm_compute.
  assert (Hg : Memory_grow (L := StoreLimits) 2 (sample_with [3; 1; 4], Some (sample_fuel 9), None) =
    (Ok 3, (sample_with [3; 1; 4; 0; 0], Some (sample_fuel 9), None))) by by vm_compute.
  assert (Hr : exists self' st', demo_grow 1 (demo_vm 9 [3; 1; 4] [8; 9]) = (Ok self', st') /\
    a_mem0 (xa_args self') = {| mem0_ptr := 4096; mem0_len := 3 |})
    by (vm_compute; eexists _, _; split; reflexivity).
  destruct Hr as (self' & st' & E & Hm). exists self', st'. split; [exact E|]. split; [exact Hm|].
  exact (proj2 (proj2 (proj2 (memory_grow_alias_stale 470 1 (Dst_slot (Slot_from 0)) (Src_imm 2) (demo_args 3)
    (demo_vm 9 [3; 1; 4] [8; 9]) 2 (demo_handle 1) (sample_with [3; 1; 4]) self' st' 3
    (sample_with [3; 1; 4; 0; 0]) (Some (sample_fuel 9)) None
    (demo_reads P_u64 2 _ _ ltac:(done)) ltac:(done) ltac:(done) Hi H0 Hw Hf Hg Hv E)))).
Defined.

(** Storing 513 at byte 1 and loading it; at byte 2 there is no room. *)
Definition demo_store16 (ptr : Z) (st : VmState (PrunedStore StoreLimits)) :=
  handler_store (L := StoreLimits) (Error := Z) P_u16 (store P_u16) (Src_imm ptr) (Src_imm 1) (Src_imm 513) 0 (demo_args 3) st.
Definition demo_load16 (ptr : Z) (st : VmState (PrunedStore StoreLimits)) :=
  handler_load (L := StoreLimits) (Error := Z) P_u16 (load P_u16) (Dst_slot (Slot_from 2)) (Src_imm ptr) (Src_imm 1) 0 (demo_args 3) st.

Lemma exec_store_load_spec_witness : exists st',
  demo_store16 0 (demo_vm 9 [3; 1; 4] [8; 9]) = (Ok (demo_args 3), st') /\
  demo_load16 0 st' = args_set (Dst_slot (Slot_from 2)) P_u16 513 (demo_args 3) st' /\
  demo_store16 1 (demo_vm 9 [3; 1; 4] [8; 9]) = (Err (Halt_Trap MemoryOutOfBounds), demo_vm 9 [3; 1; 4] [8; 9]).
Proof.
  set (st := demo_vm 9 [3; 1; 4] [8; 9]).
  assert (Hm : memory_ready (demo_args 3) st (demo_handle 1) sample).
  { split; [by vm_compute|by vm_compute|by vm_compute|]. apply (sample_wf demo_target eq_refl). }
  assert (Hr : forall p v, prim_val p v -> reads_as p (Src_imm v) (demo_args 3) st v) by (intros; by apply demo_reads).
  pose proof (exec_store_load_spec (Error := Z) P_u16 P_u16 (Src_imm 0) (Src_imm 1) (Src_imm 513) (Dst_slot (Slot_from 2))
    (demo_args 3) st (demo_handle 1) sample 0 1 513 (Hr P_u64 0 ltac:(done)) (Hr P_u64 1 ltac:(done))
    (Hr P_u16 513 ltac:(done)) Hm) as H1.
  pose proof (exec_store_load_spec (Error := Z) P_u16 P_u16 (Src_imm 1) (Src_imm 1) (Src_imm 513) (Dst_slot (Slot_from 2))
    (demo_args 3) st (demo_handle 1) sample 1 1 513 (Hr P_u64 1 ltac:(done)) (Hr P_u64 1 ltac:(done))
    (Hr P_u16 513 ltac:(done)) Hm) as H2.
  destruct H1 as (m' & E1 & _ & _ & _ & _ & E2 & _).
  eexists. split; [exact E1|]. split; [exact E2|].
  exact (proj1 H2).
Defined.

(** The table holds functions 1, none and 2; index 7 is out of bounds. *)
Definition demo_params : BoundedSlotSpan := {| bspan := {| span_head := Slot_from 0 |}; bspan_len := 0 |}.
Definition demo_indirect (index : Z) :=
  exec_call_indirect (L := StoreLimits) (Error := Z) 0 0 demo_params (Src_imm index) (demo_args 3).

Lemma call_indirect_spec_witness :
  let st := demo_vm 9 [3; 1; 4] [8; 9] in
  demo_indirect 0 st = on_args (call_wasm_or_host (demo_func 3 5) demo_params) (demo_args 3) st /\
  demo_indirect 1 st = (Err (Halt_Trap IndirectCallToNull), st) /\
  demo_indirect 2 st = (Err (Halt_Trap BadSignature), st) /\
  demo_indirect 7 st = (Err (Halt_Trap TableOutOfBounds), st).
Proof.
  intros st.
  assert (Hi : inst_entity get_table sa_tables 0 (demo_args 3) st = Some (demo_handle 1, table_of [1; 0; 2; 2]))
    by by vm_compute.
  assert (Hs : inst_item get_signature 0 (demo_args 3) st = Some 3) by by vm_compute.
  assert (G : forall i, prim_val P_u64 i -> _) by
    exact (fun i Hv => proj1 (call_indirect_spec (Error := Z) 0 0 demo_params (Src_imm i) (demo_args 3) st i
      (demo_handle 1) (table_of [1; 0; 2; 2]) 3 (demo_reads P_u64 i _ _ Hv) Hi eq_refl ltac:(done) Hs)).
  split_and!.
  - exact (G 0 ltac:(done)).
  - exact (G 1 ltac:(done)).
  - exact (G 2 ltac:(done)).
  - exact (G 7 ltac:(done)).
Defined.

Lemma table_copy_alias_panics_witness :
  let st := demo_vm 9 [3; 1; 4] [8; 9] in
  exec_table_copy (L := StoreLimits) (Error := Z) 470 0 1 (Src_imm 1) (Src_imm 0) (Src_imm 2) (demo_args 3) st = (Panic, st).
Proof.
  intros st. apply (table_copy_alias_panics 470 0 1 (Src_imm 1) (Src_imm 0) (Src_imm 2) (demo_args 3) st 1 0 2
    (demo_handle 1) (table_of [1; 0; 2; 2]));
    [by apply demo_reads..|done|by vm_compute|by vm_compute].
Defined.

(** Without fuel, copying 64 bytes at 470 resumes at 470. *)
Lemma fuel_demo_machine_ok memory len :
  utils_extract_mem0 (demo_store 0 memory [8; 9]) 1 = {| mem0_ptr := 4096; mem0_len := len |} ->
  machine_ok (xa_args (demo_args len)) (demo_vm 0 memory [8; 9]) (callee_frame 400 0 1 3) [].
Proof.
  intros Hm. split; [split|done|done|by right].
  - by split.
  - by repeat constructor.
  - repeat constructor; cbn; done.
  - done.
Qed.

Definition demo_charging : FuelOp := FuelOp_memory_copy 0 0 (Src_imm 0) (Src_imm 1) (Src_imm 64).


(** Without fuel, growing the table at 470 resumes at 400. *)
Lemma table_grow_out_of_fuel_restarts_witness : exists n st' call self',
  exec_table_grow (L := StoreLimits) (Error := Z) 2 (Dst_slot (Slot_from 0)) (Src_imm 40) (Src_imm 0) (demo_args 3)
    (demo_vm 0 [3; 1; 4] [8; 9]) = (Err (Halt_Done (DoneReason_OutOfFuel n)), st') /\
  resume_wasm_func_call (Error := Z) st' = (Ok call, st') /\
  execute_stock (Error := Z) call st' = (Ok (self', Regs_default), st') /\ a_ip self' = 400.
Proof.
  set (st := demo_vm 0 [3; 1; 4] [8; 9]).
  assert (Hr : exists n st', exec_table_grow (L := StoreLimits) (Error := Z) 2 (Dst_slot (Slot_from 0)) (Src_imm 40) (Src_imm 0) (demo_args 3)
    st = (Err (Halt_Done (DoneReason_OutOfFuel n)), st')) by (vm_compute; eexists _, _; reflexivity).
  destruct Hr as (n & st' & E).
  assert (Hm : machine_ok (xa_args (demo_args 3)) st (callee_frame 400 0 1 3) []) by (apply fuel_demo_machine_ok; by vm_compute).
  destruct (table_grow_out_of_fuel_restarts 2 (Dst_slot (Slot_from 0)) (Src_imm 40) (Src_imm 0) (demo_args 3) st
    (callee_frame 400 0 1 3) [] n st' Hm E) as (call & self' & E1 & E2 & E3 & _).
  exists n, st', call, self'. split_and!; [exact E|exact E1|exact E2|exact E3].
Defined.
